(* ===== verification/_CoqProject ===== *)
-Q . S2P
Prelude.v
Fixed.v
Session.v
Schema.v
Tables.v
EffectiveDated.v
Platform.v
Workforce.v
WorkforceInvariant.v
Chart.v
Fixture.v
Journal.v
Posting.v
Books.v
Reports.v
Matching.v
Inventory.v
StockCount.v
Shifts.v
Fiscal.v
Sales.v
SaleReturns.v
ReturnProperties.v
Payroll.v
PayPeriods.v
PayPeriodOps.v
PayPeriodInvariant.v
PayrollFixture.v
WorkforceProperties.v
PayPeriodProperties.v
Tills.v
Purchasing.v
Settlement.v
Payables.v
PayablesInvariant.v
PayablesOps.v
Interplay.v
PayablesFixture.v
InvoicePosting.v
PayablesProperties.v
PayablesRetries.v
PayablesReports.v
Discrepancies.v
Transfers.v
WriteOffs.v
TransitInvariant.v
TransitOps.v
WriteOffOps.v
InTransit.v
TransitInterplay.v
PayrollInterplay.v
TransitFixture.v
TransitProperties.v
TransitLife.v
System.v
SystemPeople.v
StalePay.v
