(* ===== verification/Prelude.v ===== *)
(** * A verified model of the grocery ERP backend

    The program is a FastAPI service over PostgreSQL (src/backend/app).  One
    HTTP request runs one handler inside one database transaction; handlers
    call the service functions of src/backend/app/modules/*/service.py, which
    read and write SQLAlchemy rows, and the request either commits everything
    or rolls back.  This development translates those service functions and
    proves what makes them correct, component by component and together.

    ** How the program is modelled

    - Amounts ([Fixed]): NUMERIC columns are integers at the column's scale:
      [money] is in cents, [qty] in thousandths, [cost] and [ledger] in
      millionths.  [div_half_up] is Python's ROUND_HALF_UP.
    - Requests ([Session]): a service function is a [Tx A], a state and
      exception monad over a [session]: the committed tables, the working
      tables of the open transaction, the clock, the random tokens drawn so far
      and the in-process rate-limit windows.  [commit] and [rollback] copy one
      set of tables over the other, [run_request] is the commit-or-rollback of
      the HTTP layer, and exceptions are values of [exn].
      [fixes] (a computation leaves a projection alone), [keeps] (it preserves a
      predicate of the committed and working tables), [commits_last] and
      [commits_checked] (where it commits, and that the deferred checks ran) are
      the judgements the invariants are proved with.
    - Rows ([Schema]) and tables ([Tables]): one Record per model class with
      the columns the modelled operations read or write, row ids being
      positions.  The type class [Table] carries each table's CHECK, UNIQUE,
      exclusion and foreign-key constraints; [add] and [update] fail with
      IntegrityError as a flush does.  The deferred balance trigger of the
      journal (migration 8df037a45976) is checked at [commit].
    - Effective-dated rows ([EffectiveDated]): the type class [Dated] is the
      interface of the three histories of hr/models.py; what a history says on a
      day, and what one change does to it, is proved once for all of them.
    - [Platform]: core/rate_limit.py, audit/service.py's log_event, permission
      lookup and credential verification of auth/service.py (the argon2 hash
      check is the parameter [verify_password]).

    ** Components

    - [Chart], [Journal], [Posting], [Books], [Reports]: accounting/constants.py
      and accounting/service.py: the chart of accounts, _post_journal, manual
      reversal, period closing, every posting rule (dispatched by [posting]),
      trial balance, profit and loss, inventory reconciliation.  [Books] is the
      ledger between two commits and the balance of an account.
    - [Inventory], [StockCount]: inventory/service.py: the movement ledger with
      its cached quantity, weighted-average cost, stock adjustments, and the
      physical-count lifecycle.
    - [Shifts], [Tills]: shifts/service.py: till sessions, cash movements,
      expected cash, closing; [Tills] proves that a closed till stays closed.
    - [Sales], [SaleReturns], [ReturnProperties]: sales/service.py: checkout,
      partial returns, voids, and the approval gate.
    - [Fiscal]: fiscal/service.py, the provider being a parameter.
    - [Purchasing]: purchasing/service.py: suppliers, the order life cycle, goods
      receipts, returns to suppliers.
    - [Matching], [Settlement], [Payables], [PayablesInvariant], [PayablesOps],
      [InvoicePosting], [PayablesProperties], [PayablesRetries],
      [PayablesReports]: ap/service.py: the FIFO match of an invoice with the
      receipts, the allocation of payments and credits ([Settlement] treats both
      sides alike), invoices, payments, credit notes and their reversals, and
      the aging, statement and reconciliation reports.
    - [Discrepancies], [Transfers], [WriteOffs], [TransitInvariant],
      [TransitOps], [WriteOffOps], [InTransit], [TransitProperties],
      [TransitLife]: transfers, discrepancies and writeoffs/service.py: goods
      between two stores, what arrives short or damaged, and who may write it
      off; [InTransit] relates it to the Inventory In Transit account.
    - [Workforce], [WorkforceInvariant], [WorkforceProperties]: hr/service.py:
      employees, their status, assignment and compensation histories, and
      attendance (the time-zone database is the parameter [utc_offset], the
      collation of listings is [collate]).
    - [Payroll]: payroll/calculation.py, over exact rationals; [PayPeriods],
      [PayPeriodOps], [PayPeriodInvariant], [PayPeriodProperties]:
      payroll/service.py: the period life cycle, the gathering of the engine's
      inputs, the persistence of its results, posting and reversal.
    - [Interplay], [TransitInterplay], [PayrollInterplay]: what each component's
      operations leave alone, so that every invariant survives every operation.
    - [System], [SystemPeople], [StalePay]: the requests of all components as a
      step relation; every reachable database satisfies all invariants at once;
      what a late clock-out means for a calculated payroll, whatever follows.
    - [Fixture], [PayablesFixture], [TransitFixture], [PayrollFixture]: the small
      databases and runs the witnesses evaluate.

    ** How the components interact

    Every component that moves value calls a posting rule of [Posting] inside its
    own transaction; a receipt, a sale, a count and a transfer move stock through
    [record_movement] of [Inventory]; accounts payable writes the invoiced
    quantities of purchase orders and reads their receipts; write-offs resolve
    discrepancies that transfer receipts raise; payroll reads the histories and
    the attendance of [Workforce].  The invariants that cross a border are stated
    on account balances ([account_balance]): accounts payable, Inventory In
    Transit and the payroll accounts each equal what their documents say.

    ** What the theorems show

    - Invariants: [System.reachable_system], [System.reachable_in_transit],
      [SystemPeople.reachable_payroll], [SystemPeople.reachable_staff],
      [Books.ledger_reachable].
    - Refinement: a stock adjustment implements its specification
      ([create_stock_adjustment_effect]); the personnel operations implement the
      abstract timelines ([hr_refines_timelines]).
    - Functional behaviour of the operations that succeed, with the books, the
      stock and the documents they write ([finalize_sale_prices],
      [receive_goods_effect], [post_purchase_invoice_effect],
      [ship_transfer_effect], [calculate_payroll_period_effect], ...), and of
      those that fail ([finalize_sale_refused], [clock_out_blocks_approval]).
    - Round trips: a void undoes a sale and an invoice posting, a reversal a
      settlement, a write-off and a payroll posting.
    - Retries: repeating a request that succeeded answers the same and changes
      nothing ([payables_retries], [transit_retries], [payroll_retries]).
    - Life cycles: only the transitions of the state machines happen
      ([transit_transitions], [payroll_transitions]).
    - Equivalences of the reports with closed formulas, bounds on what rounding
      may lose and on the hours that can be paid.
    A theorem about an operation that can fail is stated for the run that
    succeeds; its witness runs the code on a fixture.

    ** Bounds

    No definition uses fuel: loops are folds over the request's lists or over
    the rows of a table.  Integers are unbounded: the overflow of
    NUMERIC(p,s) and the 28 digits of Python's decimal context are not
    modelled, nor are the lengths of VARCHAR columns.

    Requests carry their amounts at the scale of the columns that store them:
    quantities in thousandths, money in cents, unit costs in millionths.  This
    restricts the inputs: the Pydantic schemas (inventory/schemas.py,
    ap/schemas.py and the others) put no decimal_places on a Decimal, the
    services compute with whatever arrives, and PostgreSQL rounds on write,
    each column on its own.  For a finer amount the columns may therefore
    disagree: a delta of -0.0005 on a stock of 10 stores 10.000 and a movement
    of -0.001, a payment of 100.005 posts 100.005 to the ledger and stores
    100.01 as paid.  No theorem speaks of such requests
    ([Fixed.numeric_store_below_scale] shows the effect).

    ** Not modelled

    SQL locking and isolation (a request runs alone; FOR UPDATE is a read),
    the JSON bodies of audit rows, timestamps nothing reads, the read-only list
    endpoints of most modules, pagination.  Of the program's parts: replenishment
    planning, the operational reports, the catalogue's and the accounting
    entities' record keeping, tokens and user management (JWT and argon2 are
    third-party), the HTTP layer, the migrations (their constraints are in
    [Tables]) and the TypeScript frontend. *)

From stdpp Require Export base tactics list option strings gmap sorting.
From Stdlib Require Export ZArith Lia.

#[global] Open Scope Z_scope.
#[global] Set Default Goal Selector "!".

(** ** Automation

    [erp] holds the rewriting-free facts that close side conditions, and
    [erp_simp] the rewrite rules on sums, tables and dictionaries. *)
Create HintDb erp discriminated.
Create Rewrite HintDb erp_simp.

(** Case analysis on every conditional of the goal or the context. *)
Ltac split_ifs :=
  repeat match goal with
  | |- context [if ?b then _ else _] => destruct b eqn:?
  | H : context [if ?b then _ else _] |- _ => destruct b eqn:?
  end.

(** Turn the boolean tests of the code into the propositions they decide. *)
Ltac bools :=
  repeat match goal with
  | H : (_ && _)%bool = true |- _ => apply andb_true_iff in H; destruct H
  | H : (_ || _)%bool = false |- _ => apply orb_false_iff in H; destruct H
  | H : negb _ = true |- _ => apply negb_true_iff in H
  | H : negb _ = false |- _ => apply negb_false_iff in H
  | H : (_ <? _) = true |- _ => apply Z.ltb_lt in H
  | H : (_ <? _) = false |- _ => apply Z.ltb_ge in H
  | H : (_ <=? _) = true |- _ => apply Z.leb_le in H
  | H : (_ <=? _) = false |- _ => apply Z.leb_gt in H
  | H : (_ =? _) = true |- _ => apply Z.eqb_eq in H
  | H : (_ =? _) = false |- _ => apply Z.eqb_neq in H
  | H : bool_decide _ = true |- _ => apply bool_decide_eq_true in H
  | H : bool_decide _ = false |- _ => apply bool_decide_eq_false in H
  end.

Lemma bool_decide_Zeqb (a b : Z) : bool_decide (a = b) = (a =? b).
Proof. case_bool_decide; symmetry; [by apply Z.eqb_eq|by apply Z.eqb_neq]. Qed.

(** ** Sums *)

Definition Zsum (l : list Z) : Z := foldr Z.add 0 l.

Definition sum_by {A} (f : A -> Z) (l : list A) : Z := Zsum (map f l).

(** [SELECT SUM(f) ... WHERE p], zero on an empty selection. *)
Definition sum_where {A} (p : A -> bool) (f : A -> Z) (l : list A) : Z :=
  sum_by (fun x => if p x then f x else 0) l.

Section Sums.
Context {A : Type}.
Implicit Types (f g : A -> Z) (l : list A).

Lemma sum_by_nil f : sum_by f [] = 0.
Proof. reflexivity. Qed.

Lemma sum_by_cons f x l : sum_by f (x :: l) = f x + sum_by f l.
Proof. reflexivity. Qed.

Lemma sum_by_app f l1 l2 : sum_by f (l1 ++ l2) = sum_by f l1 + sum_by f l2.
Proof.
  induction l1 as [|x l1 IH]; [reflexivity|].
  rewrite <- app_comm_cons, !sum_by_cons, IH. lia.
Qed.

Lemma sum_by_ext f g l :
  (forall x, x ∈ l -> f x = g x) -> sum_by f l = sum_by g l.
Proof.
  induction l as [|x l IH]; intros Hfg; [reflexivity|].
  rewrite !sum_by_cons, Hfg, IH by set_solver. reflexivity.
Qed.

Lemma sum_by_add f g l :
  sum_by (fun x => f x + g x) l = sum_by f l + sum_by g l.
Proof.
  induction l as [|x l IH]; [reflexivity|]. rewrite !sum_by_cons, IH. lia.
Qed.

Lemma sum_by_opp f l : sum_by (fun x => - f x) l = - sum_by f l.
Proof. induction l as [|x l IH]; [done|]. rewrite !sum_by_cons, IH. lia. Qed.

Lemma sum_by_sub f g l :
  sum_by (fun x => f x - g x) l = sum_by f l - sum_by g l.
Proof.
  induction l as [|x l IH]; [reflexivity|]. rewrite !sum_by_cons, IH. lia.
Qed.

Lemma sum_by_scale c f l : sum_by (fun x => c * f x) l = c * sum_by f l.
Proof.
  induction l as [|x l IH]; [unfold sum_by; simpl; lia|].
  rewrite !sum_by_cons, IH. lia.
Qed.

Lemma sum_by_zero f l : (forall x, x ∈ l -> f x = 0) -> sum_by f l = 0.
Proof.
  induction l as [|x l IH]; intros H0; [reflexivity|].
  rewrite sum_by_cons, H0, IH by set_solver. reflexivity.
Qed.

Lemma sum_by_nonneg f l : (forall x, x ∈ l -> 0 <= f x) -> 0 <= sum_by f l.
Proof.
  induction l as [|x l IH]; intros H0; [reflexivity|].
  rewrite sum_by_cons.
  assert (0 <= f x) by (apply H0; set_solver).
  assert (0 <= sum_by f l) by (apply IH; set_solver). lia.
Qed.

Lemma sum_by_elem f l x : (forall y, y ∈ l -> 0 <= f y) -> x ∈ l -> f x <= sum_by f l.
Proof.
  induction l as [|y l IH]; intros H0 Hx; [by apply elem_of_nil in Hx|].
  rewrite sum_by_cons. assert (0 <= f y) by (apply H0; set_solver).
  assert (0 <= sum_by f l) by (apply sum_by_nonneg; set_solver).
  apply elem_of_cons in Hx as [->|Hx]; [lia|]. specialize (IH ltac:(set_solver) Hx). lia.
Qed.

Lemma sum_by_le f g l :
  (forall x, x ∈ l -> f x <= g x) -> sum_by f l <= sum_by g l.
Proof.
  induction l as [|x l IH]; intros H0; [reflexivity|].
  rewrite !sum_by_cons.
  assert (f x <= g x) by (apply H0; set_solver).
  assert (sum_by f l <= sum_by g l) by (apply IH; set_solver). lia.
Qed.

Lemma sum_by_map {B} (h : B -> A) f (l : list B) :
  sum_by f (map h l) = sum_by (fun x => f (h x)) l.
Proof. unfold sum_by. by rewrite map_map. Qed.

Lemma sum_by_const0 l : sum_by (fun _ => 0) l = 0.
Proof. by apply sum_by_zero. Qed.

(** Updating one row of a table moves the sum by the change of that row. *)
Lemma sum_by_alter f (h : A -> A) (i : nat) l x :
  l !! i = Some x -> sum_by f (alter h i l) = sum_by f l + (f (h x) - f x).
Proof.
  revert i; induction l as [|y l IH]; intros [|i] Hi; try done.
  - simpl in Hi. simplify_eq. change (alter h 0%nat (x :: l)) with (h x :: l).
    rewrite !sum_by_cons. lia.
  - change (alter h (S i) (y :: l)) with (y :: alter h i l).
    rewrite !sum_by_cons, (IH i) by done. lia.
Qed.

Lemma sum_by_partition (p : A -> bool) f l :
  sum_where p f l + sum_where (fun x => negb (p x)) f l = sum_by f l.
Proof.
  unfold sum_where. rewrite <- sum_by_add. apply sum_by_ext.
  intros x _. destruct (p x); simpl; lia.
Qed.

Lemma sum_by_perm f l1 l2 : l1 ≡ₚ l2 -> sum_by f l1 = sum_by f l2.
Proof. induction 1; rewrite ?sum_by_cons; lia. Qed.

Lemma sum_by_filter (p : A -> bool) f l : sum_by f (List.filter p l) = sum_where p f l.
Proof.
  unfold sum_where. induction l as [|x l IH]; [done|]. simpl.
  destruct (p x) eqn:E; rewrite ?sum_by_cons, IH, ?E; lia.
Qed.

Lemma sum_where_and (p q : A -> bool) f l :
  sum_where (fun x => p x && q x) f l = sum_where p (fun x => if q x then f x else 0) l.
Proof. apply sum_by_ext. intros x _. by destruct (p x), (q x). Qed.

Lemma sum_where_app p f l1 l2 :
  sum_where p f (l1 ++ l2) = sum_where p f l1 + sum_where p f l2.
Proof. apply sum_by_app. Qed.

Lemma sum_where_cons (p : A -> bool) f x l :
  sum_where p f (x :: l) = (if p x then f x else 0) + sum_where p f l.
Proof. reflexivity. Qed.

Lemma sum_where_nil (p : A -> bool) f : sum_where p f [] = 0.
Proof. reflexivity. Qed.

Lemma sum_where_none (p : A -> bool) f l :
  (forall x, x ∈ l -> p x = false) -> sum_where p f l = 0.
Proof. intros H. apply sum_by_zero. intros x Hx. by rewrite H. Qed.

Lemma sum_where_all (p : A -> bool) f l :
  (forall x, x ∈ l -> p x = true) -> sum_where p f l = sum_by f l.
Proof. intros H. apply sum_by_ext. intros x Hx. by rewrite H. Qed.
End Sums.

Lemma sum_by_omap {A B} (f : A -> Z) (g : B -> option A) (l : list B) :
  sum_by f (omap g l) = sum_by (fun x => match g x with Some y => f y | None => 0 end) l.
Proof.
  induction l as [|x l IH]; [done|].
  rewrite sum_by_cons, <- IH. simpl. by destruct (g x).
Qed.

(** Grouping: a sum split by a key that ranges over [keys]. *)
Lemma sum_group {A K} `{EqDecision K} (key : A -> K) (f : A -> Z) (keys : list K) (l : list A) :
  NoDup keys -> (forall x, x ∈ l -> key x ∈ keys) ->
  sum_by (fun k => sum_where (fun x => bool_decide (key x = k)) f l) keys = sum_by f l.
Proof.
  intros Hnd. induction l as [|x l IH]; intros Hin.
  { apply sum_by_zero. done. }
  rewrite sum_by_cons, <- IH by set_solver.
  rewrite (sum_by_ext _ (fun k => (if bool_decide (key x = k) then f x else 0)
    + sum_where (fun x => bool_decide (key x = k)) f l)) 
    by (intros; by rewrite sum_where_cons).
  rewrite sum_by_add. f_equal.
  assert (Hx : key x ∈ keys) by (apply Hin; set_solver). clear Hin IH.
  induction Hnd as [|k ks Hk Hnd IHk]; [by apply elem_of_nil in Hx|].
  rewrite sum_by_cons. case_bool_decide as E.
  - subst. rewrite sum_by_zero; [lia|]. intros k' Hk'.
    case_bool_decide; [by subst|done].
  - rewrite IHk; [lia|set_solver].
Qed.

#[export] Hint Rewrite @sum_by_nil @sum_by_cons @sum_by_app @sum_where_app
  @sum_where_cons @sum_where_nil : erp_simp.

(** ** Tables

    A table is the list of its rows in insertion order; the surrogate key of a
    row is its position counted from one, so [next_id] is the value the
    sequence hands to the next insert.  Rows are never deleted. *)

Section Tables.
Context {R : Type}.
Implicit Types (t : list R) (id : Z).

Definition row_of t id : option R :=
  if 0 <? id then t !! Z.to_nat (id - 1) else None.

Definition next_id t : Z := Z.of_nat (length t) + 1.

Definition set_row id (f : R -> R) t : list R :=
  if 0 <? id then alter f (Z.to_nat (id - 1)) t else t.

(** The rows with their keys, and [SELECT ... WHERE p] in key order. *)
Definition with_ids t : list (Z * R) :=
  imap (fun i r => (Z.of_nat i + 1, r)) t.

Definition select (p : Z -> R -> bool) t : list (Z * R) :=
  List.filter (fun ir => p ir.1 ir.2) (with_ids t).

Lemma row_of_app_old t t' id r : row_of t id = Some r -> row_of (t ++ t') id = Some r.
Proof.
  unfold row_of. destruct (0 <? id); [|done]. intros H.
  by rewrite lookup_app_l by (by eapply lookup_lt_Some).
Qed.

Lemma row_of_new t r : row_of (t ++ [r]) (next_id t) = Some r.
Proof.
  unfold row_of, next_id.
  destruct (Z.ltb_spec 0 (Z.of_nat (length t) + 1)); [|lia].
  replace (Z.to_nat (Z.of_nat (length t) + 1 - 1)) with (length t) by lia.
  by rewrite lookup_app_r, Nat.sub_diag by lia.
Qed.

Lemma row_of_range t id r : row_of t id = Some r -> 0 < id < next_id t.
Proof.
  unfold row_of, next_id. destruct (Z.ltb_spec 0 id); [|done].
  intros H1%lookup_lt_Some. lia.
Qed.

Lemma row_of_is_Some t id : is_Some (row_of t id) <-> 0 < id < next_id t.
Proof.
  split; [intros [r Hr]; by eapply row_of_range|].
  unfold next_id, row_of. intros [H1 H2]. destruct (Z.ltb_spec 0 id); [|lia].
  apply lookup_lt_is_Some. lia.
Qed.

Lemma next_id_rows t t' :
  (forall id, is_Some (row_of t id) <-> is_Some (row_of t' id)) -> next_id t = next_id t'.
Proof.
  intros H. pose proof (H (next_id t)) as H1. pose proof (H (next_id t')) as H2.
  rewrite !row_of_is_Some in H1, H2. unfold next_id in *. lia.
Qed.

(** Tables related row by row. *)
Lemma rows_Forall2 (P : R -> R -> Prop) t t' :
  (forall id, option_Forall2 P (row_of t id) (row_of t' id)) -> Forall2 P t t'.
Proof.
  intros H. apply Forall2_lookup. intros n. specialize (H (Z.of_nat n + 1)).
  unfold row_of in H. destruct (Z.ltb_spec 0 (Z.of_nat n + 1)); [|lia].
  by replace (Z.to_nat (Z.of_nat n + 1 - 1)) with n in H by lia.
Qed.

(** Tables that agree row by row. *)
Lemma rows_map_eq {B} (f : R -> B) t t' :
  (forall id, f <$> row_of t' id = f <$> row_of t id) -> map f t' = map f t.
Proof.
  intros H. apply list_eq. intros n.
  specialize (H (Z.of_nat n + 1)). unfold row_of in H.
  destruct (Z.ltb_spec 0 (Z.of_nat n + 1)); [|lia].
  replace (Z.to_nat (Z.of_nat n + 1 - 1)) with n in H by lia.
  change (map f ?l) with (f <$> l). by rewrite !list_lookup_fmap.
Qed.

Lemma row_of_inv_app t r id x :
  row_of (t ++ [r]) id = Some x ->
  row_of t id = Some x \/ (id = next_id t /\ x = r).
Proof.
  unfold row_of, next_id. destruct (Z.ltb_spec 0 id); [|done].
  intros [?|[? H1]]%lookup_app_Some; [by left|right].
  apply list_lookup_singleton_Some in H1 as [? ->]. split; [lia|done].
Qed.

Lemma row_of_set_eq t id f r :
  row_of t id = Some r -> row_of (set_row id f t) id = Some (f r).
Proof.
  unfold row_of, set_row. destruct (0 <? id); [|done].
  intros H. by rewrite list_lookup_alter_eq, H.
Qed.

Lemma row_of_set_ne t id id' f :
  id <> id' -> row_of (set_row id f t) id' = row_of t id'.
Proof.
  unfold row_of, set_row. intros Hne.
  destruct (Z.ltb_spec 0 id'), (Z.ltb_spec 0 id); try done.
  apply list_lookup_alter_ne. lia.
Qed.

Lemma row_of_set t id id' f :
  row_of (set_row id f t) id' =
  if bool_decide (id = id') then f <$> row_of t id' else row_of t id'.
Proof.
  case_bool_decide as E; [subst|by apply row_of_set_ne].
  destruct (row_of t id') eqn:E.
  - by erewrite row_of_set_eq.
  - unfold row_of, set_row in *. destruct (0 <? id'); [|done].
    by rewrite list_lookup_alter_eq, E.
Qed.

Lemma next_id_set t id f : next_id (set_row id f t) = next_id t.
Proof.
  unfold next_id, set_row. destruct (0 <? id); [|done].
  by rewrite length_alter.
Qed.

Lemma next_id_app t r : next_id (t ++ [r]) = next_id t + 1.
Proof. unfold next_id. rewrite length_app. simpl. lia. Qed.

Lemma sum_by_set_row (g : R -> Z) t id f r :
  row_of t id = Some r ->
  sum_by g (set_row id f t) = sum_by g t + (g (f r) - g r).
Proof.
  unfold row_of, set_row. destruct (0 <? id); [|done]. apply sum_by_alter.
Qed.

Lemma set_row_missing t id f : row_of t id = None -> set_row id f t = t.
Proof.
  unfold row_of, set_row. destruct (0 <? id); [|done]. intros H.
  apply list_eq. intros i. rewrite list_lookup_alter.
  case_decide; [subst; by rewrite H|done].
Qed.

(** Only the row itself is looked at. *)
Lemma set_row_ext t id f g :
  (forall r, row_of t id = Some r -> f r = g r) -> set_row id f t = set_row id g t.
Proof.
  unfold row_of, set_row. destruct (0 <? id); [|done]. intros H. apply list_eq. intros i.
  rewrite !list_lookup_alter. case_decide; [subst|done].
  destruct (t !! _) as [r|] eqn:E; [|done]. simpl. by rewrite H.
Qed.

Lemma set_row_id t id f : (forall r, row_of t id = Some r -> f r = r) -> set_row id f t = t.
Proof.
  intros H. rewrite (set_row_ext _ _ f (fun r => r)) by done. unfold set_row.
  destruct (0 <? id); [|done]. by apply list_alter_id.
Qed.

Lemma row_of_elem t id r : row_of t id = Some r -> r ∈ t.
Proof.
  unfold row_of. destruct (0 <? id); [|done].
  intros H. by apply list_elem_of_lookup_2 in H.
Qed.

Lemma elem_row_of t r : r ∈ t -> exists id, row_of t id = Some r.
Proof.
  intros [i Hi]%list_elem_of_lookup. exists (Z.of_nat i + 1).
  unfold row_of. destruct (Z.ltb_spec 0 (Z.of_nat i + 1)); [|lia].
  by replace (Z.to_nat (Z.of_nat i + 1 - 1)) with i by lia.
Qed.

Lemma with_ids_app t r : with_ids (t ++ [r]) = with_ids t ++ [(next_id t, r)].
Proof.
  unfold with_ids, next_id. rewrite imap_app. simpl. by rewrite Nat.add_0_r.
Qed.

Lemma elem_with_ids t id r : (id, r) ∈ with_ids t <-> row_of t id = Some r.
Proof.
  unfold with_ids, row_of. rewrite elem_of_lookup_imap. split.
  - intros (i & x & [= -> ->] & Hi).
    destruct (Z.ltb_spec 0 (Z.of_nat i + 1)); [|lia].
    by replace (Z.to_nat (Z.of_nat i + 1 - 1)) with i by lia.
  - destruct (Z.ltb_spec 0 id); [|done]. intros Hi.
    exists (Z.to_nat (id - 1)), r. split; [|done]. f_equal; lia.
Qed.

Lemma sum_by_ids (f : R -> Z) t : sum_by f t = sum_by (fun kr => f kr.2) (with_ids t).
Proof.
  rewrite <- (sum_by_map snd f). f_equal. unfold with_ids. apply list_eq. intros i.
  rewrite list_lookup_fmap, list_lookup_imap. by destruct (t !! i).
Qed.

Lemma NoDup_ids t : NoDup (map fst (with_ids t)).
Proof.
  induction t as [|r t IH] using rev_ind; [apply NoDup_nil_2|].
  rewrite with_ids_app, map_app. apply NoDup_app. split_and!; [done| |apply NoDup_singleton].
  intros i ([j x] & -> & Hin)%list_elem_of_fmap. simpl. intros ->%list_elem_of_singleton.
  apply elem_with_ids, row_of_range in Hin. lia.
Qed.

Lemma elem_select p t id r :
  (id, r) ∈ select p t <-> row_of t id = Some r /\ p id r = true.
Proof.
  unfold select.
  rewrite list_elem_of_In, filter_In, <- list_elem_of_In, elem_with_ids. done.
Qed.

Lemma select_app p t r :
  select p (t ++ [r]) = select p t ++ (if p (next_id t) r then [(next_id t, r)] else []).
Proof. unfold select. rewrite with_ids_app, List.filter_app. done. Qed.

Lemma select_sum p (f : R -> Z) t :
  sum_by (fun ir => f ir.2) (select (fun _ r => p r) t) = sum_where p f t.
Proof.
  unfold select. induction t as [|r t IH] using rev_ind; [done|].
  rewrite with_ids_app, List.filter_app, sum_by_app, sum_where_app, IH. simpl.
  destruct (p r) eqn:E; rewrite ?sum_by_cons, ?sum_where_cons, E; done.
Qed.

Lemma select_map {B} (p : R -> bool) (f : R -> B) t :
  map (fun ir => f ir.2) (select (fun _ r => p r) t) = map f (List.filter p t).
Proof.
  unfold select. induction t as [|r t IH] using rev_ind; [done|].
  rewrite with_ids_app, !List.filter_app, !map_app, IH. simpl. by destruct (p r).
Qed.

Lemma select_nil p t :
  select p t = [] <-> forall id r, row_of t id = Some r -> p id r = false.
Proof.
  split.
  - intros H id r Hr. apply not_true_iff_false. intros Hp.
    assert ((id, r) ∈ select p t) by (by apply elem_select).
    rewrite H in *. set_solver.
  - intros H. destruct (select p t) as [|[id r] l] eqn:E; [done|].
    assert ((id, r) ∈ select p t) as [Hr Hp]%elem_select by (rewrite E; set_solver).
    by rewrite (H id r) in Hp.
Qed.

Lemma select_single p t i r :
  row_of t i = Some r -> p i r = true ->
  (forall j x, row_of t j = Some x -> p j x = true -> j = i) ->
  select p t = [(i, r)].
Proof.
  induction t as [|x t IH] using rev_ind; intros Hr Hp Hu.
  { unfold row_of in Hr. by destruct (0 <? i). }
  rewrite select_app. apply row_of_inv_app in Hr as [Hr|[-> ->]].
  - rewrite IH; [|done..|intros j y Hj; apply Hu; by apply row_of_app_old].
    destruct (p _ x) eqn:E; [|done].
    apply Hu in E; [|apply row_of_new]. apply row_of_range in Hr. lia.
  - rewrite Hp. rewrite (proj2 (select_nil p t)); [done|].
    intros j y Hj. apply not_true_is_false. intros Hy.
    apply Hu in Hy; [|by apply row_of_app_old]. apply row_of_range in Hj. lia.
Qed.
End Tables.

Lemma row_of_map {A B} (f : A -> B) t k : row_of (map f t) k = f <$> row_of t k.
Proof. unfold row_of. destruct (0 <? k); [|done]. apply list_lookup_fmap. Qed.

Lemma sum_by_rows {R} (g : R -> Z) (f : Z -> R -> Z) (t : list R) :
  (forall k r, row_of t k = Some r -> f k r = g r) ->
  sum_by (fun kr => f kr.1 kr.2) (with_ids t) = sum_by g t.
Proof.
  intros H. transitivity (sum_by (fun kr : Z * R => g kr.2) (with_ids t)).
  - apply sum_by_ext. intros [k r] Hk%elem_with_ids. by apply H.
  - symmetry. exact (sum_by_ids g t).
Qed.

(** A sum over the rows of one table, grouped by the rows they refer to. *)
Lemma sum_joined {A R} (t : list R) (key : A -> Z) (q : R -> bool) (p : A -> bool) (f : A -> Z) (l : list A) :
  (forall a, a ∈ l -> is_Some (row_of t (key a))) ->
  sum_by (fun kr => if q kr.2 then sum_where (fun a => (key a =? kr.1) && p a) f l else 0) (with_ids t)
  = sum_where (fun a => match row_of t (key a) with Some r => q r | None => false end && p a) f l.
Proof.
  intros Hk. rewrite (sum_by_ext _ (fun kr : Z * R => sum_where (fun a => bool_decide (key a = kr.1))
    (fun a => if match row_of t (key a) with Some r => q r | None => false end && p a
              then f a else 0) l)).
  - etransitivity; [symmetry; exact (sum_by_map fst (fun k => sum_where (fun a => bool_decide (key a = k))
      (fun a => if match row_of t (key a) with Some r => q r | None => false end && p a
                then f a else 0) l) (with_ids t))|].
    apply sum_group; [apply NoDup_ids|]. intros a Ha. destruct (Hk a Ha) as [r Hr].
    apply list_elem_of_fmap. exists (key a, r). split; [done|]. by apply elem_with_ids.
  - intros [k r] Hr%elem_with_ids. simpl.
    transitivity (sum_by (fun a => if q r then if (key a =? k) && p a then f a else 0 else 0) l).
    { destruct (q r); [done|]. symmetry. by apply sum_by_zero. }
    apply sum_by_ext. intros a _. rewrite bool_decide_Zeqb.
    destruct (Z.eqb_spec (key a) k) as [->|]; simpl; [|by destruct (q r)].
    rewrite Hr. by destruct (q r).
Qed.

#[export] Hint Resolve row_of_app_old row_of_new row_of_set_eq : erp.
#[export] Hint Rewrite @next_id_set @next_id_app @row_of_new : erp_simp.

(** ** Python dictionaries with insertion order *)

Section Dicts.
Context {V : Type}.
Implicit Types (d : list (Z * V)).

Fixpoint dict_get (k : Z) d : option V :=
  match d with
  | [] => None
  | (k', v) :: d' => if k =? k' then Some v else dict_get k d'
  end.

(** [d[k] = v]: in place when the key is present, else at the end. *)
Fixpoint dict_set (k : Z) (v : V) d : list (Z * V) :=
  match d with
  | [] => [(k, v)]
  | (k', v') :: d' => if k =? k' then (k, v) :: d' else (k', v') :: dict_set k v d'
  end.

Definition dict_keys d : list Z := map fst d.

Lemma dict_get_set k k' v d :
  dict_get k' (dict_set k v d) = if k' =? k then Some v else dict_get k' d.
Proof.
  induction d as [|[j w] d IH]; simpl; [done|].
  destruct (Z.eqb_spec k j); simpl;
    destruct (Z.eqb_spec k' j), (Z.eqb_spec k' k); subst; try done.
Qed.

Lemma elem_dict_keys_set k k' v d :
  k' ∈ dict_keys (dict_set k v d) <-> k' = k \/ k' ∈ dict_keys d.
Proof.
  unfold dict_keys. induction d as [|[j w] d IH]; simpl; [set_solver|].
  destruct (Z.eqb_spec k j); simpl; set_solver.
Qed.

Lemma NoDup_dict_set k v d : NoDup (dict_keys d) -> NoDup (dict_keys (dict_set k v d)).
Proof.
  induction d as [|[j w] d IH]; simpl; intros H.
  - unfold dict_keys; simpl. apply NoDup_singleton.
  - unfold dict_keys in *; simpl in *.
    apply NoDup_cons in H as [H1 H2].
    destruct (Z.eqb_spec k j); simpl; apply NoDup_cons; subst; split; auto.
    intros [?|?]%elem_dict_keys_set; auto.
Qed.

Lemma dict_get_elem k v d : dict_get k d = Some v -> (k, v) ∈ d.
Proof.
  induction d as [|[j w] d IH]; simpl; [done|].
  destruct (Z.eqb_spec k j); [intros [= ->]; subst; left|right; auto].
Qed.

Lemma dict_get_None k d : dict_get k d = None <-> k ∉ dict_keys d.
Proof.
  unfold dict_keys. induction d as [|[j w] d IH]; simpl; [set_solver|].
  destruct (Z.eqb_spec k j); [set_solver|]. rewrite IH. set_solver.
Qed.

Lemma dict_get_app k d1 d2 :
  dict_get k (d1 ++ d2) = match dict_get k d1 with Some v => Some v | None => dict_get k d2 end.
Proof. induction d1 as [|[j w] d1 IH]; simpl; [done|]. by destruct (k =? j). Qed.

Lemma elem_dict_get k v d : NoDup (dict_keys d) -> (k, v) ∈ d -> dict_get k d = Some v.
Proof.
  unfold dict_keys. induction d as [|[j w] d IH]; simpl; [set_solver|].
  intros [H1 H2]%NoDup_cons [E|Hin]%elem_of_cons.
  - simplify_eq. by rewrite Z.eqb_refl.
  - destruct (Z.eqb_spec k j); [|auto]. subst. destruct H1.
    apply list_elem_of_fmap. by exists (j, v).
Qed.
End Dicts.

Lemma filter_all {A} (p : A -> bool) l : (forall x, x ∈ l -> p x = true) -> List.filter p l = l.
Proof.
  induction l as [|x l IH]; intros H; simpl; [done|].
  rewrite H by left. f_equal. apply IH. intros y Hy. apply H. by right.
Qed.

Lemma filter_none {A} (p : A -> bool) l : (forall x, x ∈ l -> p x = false) -> List.filter p l = [].
Proof.
  induction l as [|x l IH]; intros H; simpl; [done|].
  rewrite H by left. apply IH. intros y Hy. apply H. by right.
Qed.

(** Rows paired so that a filter keeps both or neither. *)
Lemma Forall2_filter_eq {A} (p : A -> bool) (l l' : list A) :
  Forall2 (fun x y => p y = p x /\ (p x = true -> y = x)) l l' -> List.filter p l' = List.filter p l.
Proof.
  induction 1 as [|x y l l' [Hp Hf] _ IH]; [done|]. simpl. rewrite Hp, IH.
  destruct (p x); [by rewrite Hf|done].
Qed.

Lemma Forall2_sum_where_le {A} (p : A -> bool) (f : A -> Z) (l l' : list A) :
  Forall2 (fun x y => p y = p x /\ (p x = true -> f x <= f y)) l l' ->
  sum_where p f l <= sum_where p f l'.
Proof.
  induction 1 as [|x y l l' [Hp Hf] _ IH]; [done|]. rewrite !sum_where_cons, Hp.
  destruct (p x); [specialize (Hf eq_refl)|]; lia.
Qed.

(** The result of a query indexed by primary key. *)
Lemma NoDup_select_keys {R} p (t : list R) : NoDup (dict_keys (select p t)).
Proof.
  unfold dict_keys, select. pose proof (NoDup_ids t) as H. revert H.
  induction (with_ids t) as [|[i r] l IH]; simpl; [done|].
  intros [H1 H2]%NoDup_cons. destruct (p i r); simpl; [|by apply IH].
  apply NoDup_cons. split; [|by apply IH]. contradict H1.
  apply list_elem_of_fmap in H1 as ([j x] & -> & Hin).
  apply list_elem_of_In, filter_In in Hin as [Hin _].
  apply list_elem_of_fmap. exists (j, x). split; [done|]. by apply list_elem_of_In.
Qed.

Lemma select_get {R} p (t : list R) i r :
  dict_get i (select p t) = Some r <-> row_of t i = Some r /\ p i r = true.
Proof.
  rewrite <- elem_select. split; [apply dict_get_elem|].
  apply elem_dict_get, NoDup_select_keys.
Qed.

(** Accumulating [d[k] = d.get(k, 0) + x] over a list of (key, quantity). *)
Definition dict_add (k x : Z) (d : list (Z * Z)) : list (Z * Z) :=
  dict_set k (default 0 (dict_get k d) + x) d.

Lemma dict_get_add k k' x d :
  default 0 (dict_get k' (dict_add k x d)) =
  default 0 (dict_get k' d) + (if k' =? k then x else 0).
Proof.
  unfold dict_add. rewrite dict_get_set.
  destruct (Z.eqb_spec k' k); subst; simpl; lia.
Qed.

(** [sorted({...})]: the distinct values in ascending order. *)
Definition sorted_set (l : list Z) : list Z := merge_sort Z.le (remove_dups l).

Lemma elem_sorted_set x l : x ∈ sorted_set l <-> x ∈ l.
Proof.
  unfold sorted_set. rewrite (merge_sort_Permutation Z.le). apply elem_of_remove_dups.
Qed.

Lemma NoDup_sorted_set l : NoDup (sorted_set l).
Proof.
  unfold sorted_set. rewrite (merge_sort_Permutation Z.le). apply NoDup_remove_dups.
Qed.

Lemma sorted_sorted_set l : Sorted Z.le (sorted_set l).
Proof. apply Sorted_merge_sort. apply _. Qed.

(** Summing by key, one entry per key. *)
Lemma dict_add_all {A} (key val : A -> Z) (l : list A) :
  let d := fold_left (fun acc x => dict_add (key x) (val x) acc) l [] in
  NoDup (dict_keys d) /\
  (forall k, default 0 (dict_get k d) = sum_where (fun x => key x =? k) val l) /\
  (forall k, k ∈ dict_keys d <-> exists x, x ∈ l /\ key x = k).
Proof.
  induction l as [|x l IH] using rev_ind.
  { split_and!; [apply NoDup_nil_2|done|]. intros k. split; [by intros ?%elem_of_nil|].
    intros (x & Hx & _). by apply elem_of_nil in Hx. }
  rewrite fold_left_app. simpl. destruct IH as (H1 & H2 & H3). split_and!.
  - by apply NoDup_dict_set.
  - intros k. rewrite dict_get_add, H2.
    rewrite sum_where_app, sum_where_cons, sum_where_nil, (Z.eqb_sym k). lia.
  - intros k. unfold dict_add. rewrite elem_dict_keys_set, H3. split.
    + intros [->|(y & Hy & <-)]; [exists x; set_solver|exists y; set_solver].
    + intros (y & [Hy| ->%list_elem_of_singleton]%elem_of_app & <-); [right; eauto|by left].
Qed.

Definition dict_total (d : list (Z * Z)) (k : Z) : Z := sum_where (fun t => t.1 =? k) snd d.

Lemma dict_total_get d k : NoDup (dict_keys d) -> dict_total d k = default 0 (dict_get k d).
Proof.
  unfold dict_total, dict_keys. induction d as [|[j q] d IH]; simpl; [done|].
  intros [Hj Hd]%NoDup_cons. rewrite sum_where_cons. simpl. rewrite (Z.eqb_sym j).
  destruct (Z.eqb_spec k j) as [->|]; [|by rewrite IH]. simpl.
  rewrite sum_where_none; [lia|]. intros [k' q'] Hin. apply Z.eqb_neq. simpl. intros ->.
  apply Hj, list_elem_of_fmap. by exists (j, q').
Qed.

(** ** Sorting and comparing Python sequences *)

(** [sorted(l, key=...)]: a stable insertion sort for the order [leb]. *)
Fixpoint insert_by {A} (leb : A -> A -> bool) (x : A) (l : list A) : list A :=
  match l with
  | [] => [x]
  | y :: l' => if leb x y then x :: l else y :: insert_by leb x l'
  end.

Definition sort_by {A} (leb : A -> A -> bool) (l : list A) : list A := foldr (insert_by leb) [] l.

Lemma insert_by_perm {A} leb (x : A) l : insert_by leb x l ≡ₚ x :: l.
Proof.
  induction l as [|y l IH]; simpl; [done|]. destruct (leb x y); [done|].
  rewrite IH. apply Permutation_swap.
Qed.

Lemma sort_by_perm {A} leb (l : list A) : sort_by leb l ≡ₚ l.
Proof.
  unfold sort_by. induction l as [|x l IH]; simpl; [done|].
  by rewrite insert_by_perm, IH.
Qed.

(** [tuple(sorted(l1)) == tuple(sorted(l2))] *)
Definition same_tuples {A} `{EqDecision A} (l1 l2 : list A) : bool := bool_decide (l1 ≡ₚ l2).

(** Which is what comparing the lists sorted by a total order means. *)
Lemma sorted_eq_same_tuples {A} `{EqDecision A} (R : A -> A -> Prop) `{!RelDecision R, !Total R,
    !Transitive R, !AntiSymm (=) R} (l1 l2 : list A) :
  merge_sort R l1 = merge_sort R l2 <-> same_tuples l1 l2 = true.
Proof.
  unfold same_tuples. rewrite bool_decide_eq_true. split; intros H.
  - by rewrite <- (merge_sort_Permutation R l1), H, (merge_sort_Permutation R l2).
  - apply (Sorted_unique R); [apply Sorted_merge_sort, _..|].
    by rewrite !(merge_sort_Permutation R).
Qed.

(** [not s.strip()], for the whitespace of ASCII. *)
Definition whitespace (c : Ascii.ascii) : bool :=
  let n := Z.of_N (Ascii.N_of_ascii c) in ((9 <=? n) && (n <=? 13)) || ((28 <=? n) && (n <=? 32)).

Definition blank (s : string) : bool := forallb whitespace (String.list_ascii_of_string s).
