(* ===== verification/Fixed.v ===== *)
(** * Fixed-point amounts and half-up rounding

    Every NUMERIC column of the schema has a fixed scale, so a stored amount is
    an integer count of that scale's unit: money is NUMERIC(12,2) counted in
    cents, a quantity NUMERIC(14,3) in thousandths, a cost and a ledger amount
    NUMERIC(14,6) in millionths, a tax rate NUMERIC(6,3) in thousandths of a
    percent.  [Decimal.quantize(q, ROUND_HALF_UP)] of a product or a quotient is
    [div_half_up] on those integers: round to nearest, ties away from zero. *)

From S2P Require Import Prelude.

Notation money := Z (only parsing).
Notation qty := Z (only parsing).
Notation cost := Z (only parsing).
Notation ledger := Z (only parsing).

Definition div_half_up (n d : Z) : Z :=
  Z.sgn n * Z.sgn d * ((2 * Z.abs n + Z.abs d) / (2 * Z.abs d)).

(** What a NUMERIC column stores of a [Decimal] that has [k] more places than
    the column: PostgreSQL rounds it half away from zero on write. *)
Definition numeric_store (k n : Z) : Z := div_half_up n (10 ^ k).

Section DivHalfUp.
Implicit Types n d k : Z.

Lemma div_half_up_nonneg_eq n d :
  0 <= n -> 0 < d -> div_half_up n d = (2 * n + d) / (2 * d).
Proof.
  intros Hn Hd. unfold div_half_up.
  rewrite (Z.abs_eq n), (Z.abs_eq d), (Z.sgn_pos d) by lia.
  destruct (Z.eq_dec n 0) as [->|].
  - rewrite Z.div_small; lia.
  - rewrite Z.sgn_pos by lia. lia.
Qed.

Lemma div_half_up_opp n d : div_half_up (- n) d = - div_half_up n d.
Proof. unfold div_half_up. rewrite Z.sgn_opp, Z.abs_opp. lia. Qed.

Lemma div_half_up_0 d : div_half_up 0 d = 0.
Proof. unfold div_half_up. simpl. lia. Qed.

Lemma div_half_up_spec_nonneg n d :
  0 <= n -> 0 < d ->
  0 <= div_half_up n d /\
  2 * n - d < 2 * d * div_half_up n d <= 2 * n + d.
Proof.
  intros Hn Hd. rewrite div_half_up_nonneg_eq by done.
  pose proof (Z.div_mod (2 * n + d) (2 * d) ltac:(lia)).
  pose proof (Z.mod_pos_bound (2 * n + d) (2 * d) ltac:(lia)).
  split; [apply Z.div_pos; lia|nia].
Qed.

(** The result is within half a unit of the exact quotient. *)
Lemma div_half_up_error n d :
  0 < d -> 2 * n - d <= 2 * d * div_half_up n d <= 2 * n + d.
Proof.
  intros Hd. destruct (Z.le_gt_cases 0 n).
  - pose proof (div_half_up_spec_nonneg n d). lia.
  - pose proof (div_half_up_spec_nonneg (- n) d ltac:(lia) Hd) as [_ Hs].
    rewrite div_half_up_opp in Hs. lia.
Qed.

Lemma div_half_up_nonneg n d : 0 <= n -> 0 < d -> 0 <= div_half_up n d.
Proof. intros; by apply div_half_up_spec_nonneg. Qed.

Lemma div_half_up_exact k d : 0 < d -> div_half_up (k * d) d = k.
Proof.
  intros Hd. pose proof (div_half_up_error (k * d) d Hd). nia.
Qed.

(** The model's requests carry amounts at the scale of their columns ([k = 0]),
    where a write rounds nothing. *)
Lemma numeric_store_at_scale n : numeric_store 0 n = n.
Proof. unfold numeric_store. pose proof (div_half_up_exact n 1). rewrite Z.mul_1_r in *. auto with lia. Qed.

(** Below that scale two columns written from one number round separately: a
    stock of 10 adjusted by -0.0005 is stored as 10.000 and the movement as
    -0.001. *)
Example numeric_store_below_scale :
  numeric_store 1 (100000 - 5) = 10000 /\ numeric_store 1 (-5) = -1.
Proof. by vm_compute. Qed.

Lemma div_half_up_mono n m d :
  0 < d -> n <= m -> div_half_up n d <= div_half_up m d.
Proof.
  intros Hd Hnm. destruct (Z.le_gt_cases 0 n).
  - rewrite !div_half_up_nonneg_eq by lia. apply Z.div_le_mono; lia.
  - destruct (Z.le_gt_cases 0 m).
    + pose proof (div_half_up_nonneg m d ltac:(done) Hd).
      pose proof (div_half_up_nonneg (- n) d ltac:(lia) Hd) as Hopp.
      rewrite div_half_up_opp in Hopp. lia.
    + rewrite <- (Z.opp_involutive n), <- (Z.opp_involutive m), !(div_half_up_opp (- _)).
      rewrite !div_half_up_nonneg_eq by lia.
      pose proof (Z.div_le_mono (2 * - m + d) (2 * - n + d) (2 * d)). lia.
Qed.

Lemma div_half_up_between lo hi n d :
  0 < d -> lo * d <= n -> n <= hi * d -> lo <= div_half_up n d <= hi.
Proof.
  intros Hd Hlo Hhi.
  pose proof (div_half_up_mono _ _ d Hd Hlo) as Hl.
  pose proof (div_half_up_mono _ _ d Hd Hhi) as Hh.
  rewrite div_half_up_exact in Hl, Hh by done. done.
Qed.

Lemma div_half_up_scale n d c :
  0 < c -> 0 < d -> div_half_up (n * c) (d * c) = div_half_up n d.
Proof.
  intros Hc Hd. unfold div_half_up.
  rewrite !Z.sgn_mul, !Z.abs_mul, (Z.sgn_pos c), (Z.abs_eq c) by lia.
  replace (2 * (Z.abs n * c) + Z.abs d * c) with ((2 * Z.abs n + Z.abs d) * c) by ring.
  replace (2 * (Z.abs d * c)) with ((2 * Z.abs d) * c) by ring.
  rewrite Z.div_mul_cancel_r by lia. ring.
Qed.

Lemma div_half_up_add_exact n k d :
  0 <= n -> 0 <= k -> 0 < d -> div_half_up (n + k * d) d = div_half_up n d + k.
Proof.
  intros. rewrite !div_half_up_nonneg_eq by nia.
  replace (2 * (n + k * d) + d) with (2 * n + d + k * (2 * d)) by ring.
  by rewrite Z.div_add by lia.
Qed.
End DivHalfUp.

#[export] Hint Resolve div_half_up_nonneg : erp.

(** Cents as ledger amounts: the two-place value padded to six places. *)
Definition ledger_of_money (m : money) : ledger := m * 10000.
