(* ===== verification/Session.v ===== *)
(** * Database sessions, exceptions and transactions

    The monad every service function of src/backend/app/modules runs in.  A
    SQLAlchemy [Session] is a pair of database states, the last committed one
    and the working one of the open transaction; a Python exception is a value
    of [exn].  The file gives the operations of a session (flush-time
    exceptions, commit with deferred checks, rollback, close), the control
    structures of the services (guards, loops, [try/except IntegrityError]) and
    the reasoning rules the components share: inversion of successful runs,
    the frame judgement [fixes], and atomicity of requests. *)

From S2P Require Import Prelude.

(** ** Exceptions (app/core/exceptions.py, SQLAlchemy, Python builtins) *)

Inductive exn :=
  | UnauthorizedError (code : string)
  | ForbiddenError (code : string)
  | NotFoundError
  | ConflictError (code : string)
  | ValidationAppError (code : string)
  | RateLimitedError
  | IntegrityError (constraint : string)
  | NoResultFound
  | MultipleResultsFound
  | KeyError
  | AttributeError
  | ValueError
  | AssertionError.

#[global] Instance exn_eq_dec : EqDecision exn.
Proof. solve_decision. Defined.

(** [AppError.status_code] of the handled classes; anything else reaches
    [handle_unexpected_error]. *)
Definition status_code (e : exn) : Z :=
  match e with
  | UnauthorizedError _ => 401
  | ForbiddenError _ => 403
  | NotFoundError => 404
  | ConflictError _ => 409
  | ValidationAppError _ => 422
  | RateLimitedError => 429
  | _ => 500
  end.

Inductive outcome (A : Type) :=
  | Ok (a : A)
  | Raise (e : exn).
Arguments Ok {A} _.
Arguments Raise {A} _.

(** What a request reads from outside the database: the UTC clock in seconds
    since the epoch, the offset of the server's local zone, the monotonic
    clock, and the stream [secrets.token_hex] draws from. *)
Record environ := {
  utc_now : Z;
  local_offset : Z;
  monotonic : Z;
  token_hex : Z -> Z;
}.

Definition seconds_per_day : Z := 86400.

(** One [_Window] of a rate limiter, see [RateLimit]. *)
Record window := { started_at : Z; count : Z }.

(** Databases whose deferred constraint triggers are decided at commit. *)
Class DeferredChecks (D : Type) := deferred_ok : D -> bool.

Record session (D : Type) := mkSession {
  committed : D;
  working : D;
  env : environ;
  draws : Z;
  approval_windows : gmap string window;
}.
Arguments mkSession {D} _ _ _ _ _.
Arguments committed {D} _.
Arguments working {D} _.
Arguments env {D} _.
Arguments draws {D} _.
Arguments approval_windows {D} _.

Definition with_working {D} (d : D) (s : session D) : session D :=
  mkSession (committed s) d (env s) (draws s) (approval_windows s).

Definition M (D A : Type) : Type := session D -> outcome A * session D.

#[global] Instance M_ret {D} : MRet (M D) := fun A a s => (Ok a, s).

#[global] Instance M_bind {D} : MBind (M D) := fun A B f m s =>
  match m s with
  | (Ok a, s') => f a s'
  | (Raise e, s') => (Raise e, s')
  end.

Section Operations.
Context {D : Type}.
Implicit Types (s : session D).

Definition raise {A} (e : exn) : M D A := fun s => (Raise e, s).

(** Read a projection of the working state. *)
Definition gets {A} (f : D -> A) : M D A := fun s => (Ok (f (working s)), s).

(** A flushed write. *)
Definition modify (f : D -> D) : M D unit :=
  fun s => (Ok tt, with_working (f (working s)) s).

Definition asks {A} (f : environ -> A) : M D A := fun s => (Ok (f (env s)), s).

(** [secrets.token_hex]: the next value of the stream. *)
Definition draw_token : M D Z := fun s =>
  (Ok (token_hex (env s) (draws s)),
   mkSession (committed s) (working s) (env s) (draws s + 1) (approval_windows s)).

Definition rollback : M D unit := fun s => (Ok tt, with_working (committed s) s).

Definition commit `{DeferredChecks D} : M D unit := fun s =>
  if deferred_ok (working s)
  then (Ok tt, mkSession (working s) (working s) (env s) (draws s) (approval_windows s))
  else (Raise (IntegrityError "deferred_trigger"), with_working (committed s) s).

(** A service function that ends with [db.commit(); return a]. *)
Definition committing `{DeferredChecks D} {A} (m : M D A) : M D A :=
  a ← m;
  _ ← commit;
  mret a.

(** [if c: raise e] *)
Definition raise_if (c : bool) (e : exn) : M D unit :=
  if c then raise e else mret tt.

Definition when (c : bool) (m : M D unit) : M D unit :=
  if c then m else mret tt.

Fixpoint for_each {A} (f : A -> M D unit) (l : list A) : M D unit :=
  match l with
  | [] => mret tt
  | x :: l' => _ ← f x; for_each f l'
  end.

(** A [for] loop that accumulates. *)
Fixpoint fold_m {A B} (f : B -> A -> M D B) (l : list A) (b : B) : M D B :=
  match l with
  | [] => mret b
  | x :: l' => b' ← f b x; fold_m f l' b'
  end.

(** [scalar_one_or_none()] and [scalar_one()]. *)
Definition scalar_one_or_none {A} (l : list A) : M D (option A) :=
  match l with
  | [] => mret None
  | [x] => mret (Some x)
  | _ => raise MultipleResultsFound
  end.

Definition scalar_one {A} (l : list A) : M D A :=
  match l with
  | [] => raise NoResultFound
  | [x] => mret x
  | _ => raise MultipleResultsFound
  end.

Definition of_option {A} (o : option A) (e : exn) : M D A :=
  match o with Some a => mret a | None => raise e end.

(** [try: m except IntegrityError: h]; the handler may re-raise. *)
Definition except_integrity {A} (m : M D A) (h : exn -> M D A) : M D A := fun s =>
  match m s with
  | (Raise (IntegrityError c), s') => h (IntegrityError c) s'
  | r => r
  end.

(** [try: m except IntegrityError: rollback(); raise ConflictError(code)] *)
Definition or_conflict {A} (code : string) (m : M D A) : M D A :=
  except_integrity m (fun _ => _ ← rollback; raise (ConflictError code)).

(** [try: m except NoResultFound: raise e] *)
Definition except_no_result {A} (m : M D A) (e : exn) : M D A := fun s =>
  match m s with
  | (Raise NoResultFound, s') => (Raise e, s')
  | r => r
  end.

(** [Session.close()]: whatever was not committed is discarded. *)
Definition close s : session D := with_working (committed s) s.

(** A request: the service call, then the handler's [db.commit()], then
    [get_db]'s [finally: db.close()]. *)
Definition run_request `{DeferredChecks D} {A} (m : M D A) s : outcome A * session D :=
  let r := (a ← m; _ ← commit; mret a) s in (r.1, close r.2).
End Operations.

(** ** Successful runs *)

Section Inversion.
Context {D : Type}.
Implicit Types (s : session D).

Lemma bind_ok {A B} (m : M D A) (f : A -> M D B) s b s' :
  (m ≫= f) s = (Ok b, s') ->
  exists a s1, m s = (Ok a, s1) /\ f a s1 = (Ok b, s').
Proof.
  unfold mbind, M_bind. destruct (m s) as [[a|e] s1]; [eauto|done].
Qed.

Lemma bind_ok_intro {A B} (m : M D A) (f : A -> M D B) s a s1 :
  m s = (Ok a, s1) -> (m ≫= f) s = f a s1.
Proof. unfold mbind, M_bind. by intros ->. Qed.

Lemma bind_raise {A B} (m : M D A) (f : A -> M D B) s e s1 :
  m s = (Raise e, s1) -> (m ≫= f) s = (Raise e, s1).
Proof. unfold mbind, M_bind. by intros ->. Qed.

Lemma bind_raise_cases {A B} (m : M D A) (f : A -> M D B) s e s' :
  (a ← m; f a) s = (Raise e, s') ->
  m s = (Raise e, s') \/ exists a s1, m s = (Ok a, s1) /\ f a s1 = (Raise e, s').
Proof.
  unfold mbind, M_bind. destruct (m s) as [[a|e'] s1]; [eauto|].
  intros [= -> ->]. by left.
Qed.

Lemma bind_assoc {A B C} (m : M D A) (f : A -> M D B) (g : B -> M D C) s :
  ((m ≫= f) ≫= g) s = (m ≫= (fun a => f a ≫= g)) s.
Proof. unfold mbind, M_bind. by destruct (m s) as [[a|e] s1]. Qed.

Lemma ret_ok {A} (a b : A) s s' :
  (mret a : M D A) s = (Ok b, s') -> a = b /\ s = s'.
Proof. by intros [= -> ->]. Qed.

Lemma raise_ok {A} e (b : A) s s' : raise e s = (Ok b, s') -> False.
Proof. done. Qed.

Lemma raise_if_ok c e s u s' :
  raise_if c e s = (Ok u, s') -> c = false /\ s = s'.
Proof. unfold raise_if. destruct c; [done|by intros [= _ ->]]. Qed.

Lemma gets_ok {A} (f : D -> A) s a s' :
  gets f s = (Ok a, s') -> a = f (working s) /\ s = s'.
Proof. by intros [= <- ->]. Qed.

Lemma asks_ok {A} (f : environ -> A) s a s' :
  asks f s = (Ok a, s') -> a = f (env s) /\ s = s'.
Proof. by intros [= <- ->]. Qed.

Lemma modify_ok f s u s' :
  modify f s = (Ok u, s') -> s' = with_working (f (working s)) s.
Proof. by intros [= _ <-]. Qed.

Lemma of_option_ok {A} (o : option A) e s a s' :
  of_option o e s = (Ok a, s') -> o = Some a /\ s = s'.
Proof. unfold of_option. destruct o; [by intros [= -> ->]|done]. Qed.

Lemma scalar_one_ok {A} (l : list A) s a s' :
  scalar_one l s = (Ok a, s') -> l = [a] /\ s = s'.
Proof. destruct l as [|x [|y l]]; [done| |done]. by intros [= -> ->]. Qed.

Lemma scalar_one_or_none_ok {A} (l : list A) s o s' :
  scalar_one_or_none l s = (Ok o, s') ->
  s = s' /\ match o with Some a => l = [a] | None => l = [] end.
Proof. destruct l as [|x [|y l]]; [| |done]; by intros [= <- ->]. Qed.

Lemma except_no_result_ok {A} (m : M D A) e s a s' :
  except_no_result m e s = (Ok a, s') -> m s = (Ok a, s').
Proof. unfold except_no_result. destruct (m s) as [[?|[]] ?]; try done. Qed.

Lemma except_integrity_ok {A} (m : M D A) h s a s' :
  except_integrity m h s = (Ok a, s') ->
  m s = (Ok a, s') \/
  (exists c s1, m s = (Raise (IntegrityError c), s1) /\ h (IntegrityError c) s1 = (Ok a, s')).
Proof.
  unfold except_integrity. destruct (m s) as [[?|[]] ?]; try done; eauto.
Qed.

Lemma or_conflict_ok {A} code (m : M D A) s a s' : or_conflict code m s = (Ok a, s') -> m s = (Ok a, s').
Proof.
  unfold or_conflict. intros [H|(c & s1 & _ & H)]%except_integrity_ok; [done|].
  apply bind_ok in H as (u & s2 & _ & H). by apply raise_ok in H.
Qed.

(** Loop rules: the invariant is indexed by the elements already done, and a
    step knows its place in the list. *)
Lemma for_each_ok_ind {A} (f : A -> M D unit) (P : list A -> session D -> Prop) l s u s' :
  P [] s ->
  (forall done x rest s1 s2, l = done ++ x :: rest -> P done s1 ->
     f x s1 = (Ok tt, s2) -> P (done ++ [x]) s2) ->
  for_each f l s = (Ok u, s') -> P l s'.
Proof.
  intros H0 Hstep.
  enough (G : forall todo pre s, l = pre ++ todo -> P pre s ->
    for_each f todo s = (Ok u, s') -> P l s') by (by apply (G l [])).
  clear s H0. induction todo as [|x todo IH]; intros pre s Hl H0 H; simpl in H.
  - apply ret_ok in H as [_ <-]. by rewrite Hl, app_nil_r.
  - apply bind_ok in H as ([] & s1 & H1 & H2).
    apply (IH (pre ++ [x]) s1); [by rewrite <- app_assoc| |done]. by eapply Hstep.
Qed.

(** Reading loops: a check on every element that leaves the session alone. *)
Lemma for_each_checks {A} (f : A -> M D unit) (P : A -> Prop) l s u s' :
  (forall x s1 s2, x ∈ l -> f x s1 = (Ok tt, s2) -> s2 = s1 /\ (s1 = s -> P x)) ->
  for_each f l s = (Ok u, s') -> s' = s /\ forall x, x ∈ l -> P x.
Proof.
  intros Hf H.
  eapply (for_each_ok_ind _ (fun dn s1 => s1 = s /\ forall x, x ∈ dn -> P x)) in H; [done| |].
  - split; [done|]. by intros x ?%elem_of_nil.
  - intros dn x rest s1 s2 -> [-> Hd] H1.
    destruct (Hf x s s2) as [-> HP]; [set_solver|done|]. split; [done|].
    intros y [Hy| ->%list_elem_of_singleton]%elem_of_app; [by apply Hd|by apply HP].
Qed.

Lemma for_each_all {A} (f : A -> M D unit) (Q : A -> session D -> Prop) l s u s' :
  (forall x s1 s2, f x s1 = (Ok tt, s2) -> s2 = s1 /\ Q x s1) ->
  for_each f l s = (Ok u, s') -> s' = s /\ forall x, x ∈ l -> Q x s.
Proof.
  intros Hf. apply (for_each_checks f (fun x => Q x s)). intros x s1 s2 _ H.
  destruct (Hf x s1 s2 H) as [-> HQ]. split; [done|]. by intros ->.
Qed.

Lemma fold_m_ok_ind {A B} (f : B -> A -> M D B)
    (P : list A -> B -> session D -> Prop) l b s b' s' :
  P [] b s ->
  (forall done x rest b1 s1 b2 s2, l = done ++ x :: rest -> P done b1 s1 ->
     f b1 x s1 = (Ok b2, s2) -> P (done ++ [x]) b2 s2) ->
  fold_m f l b s = (Ok b', s') -> P l b' s'.
Proof.
  intros H0 Hstep.
  enough (G : forall todo pre b s, l = pre ++ todo -> P pre b s ->
    fold_m f todo b s = (Ok b', s') -> P l b' s') by (by apply (G l [])).
  clear s b H0. induction todo as [|x todo IH]; intros pre b s Hl H0 H; simpl in H.
  - apply ret_ok in H as [<- <-]. by rewrite Hl, app_nil_r.
  - apply bind_ok in H as (b1 & s1 & H1 & H2).
    apply (IH (pre ++ [x]) b1 s1); [by rewrite <- app_assoc| |done]. by eapply Hstep.
Qed.

Lemma commit_ok `{DeferredChecks D} s u s' :
  commit s = (Ok u, s') ->
  deferred_ok (working s) = true /\ working s' = working s /\ committed s' = working s.
Proof. unfold commit. destruct (deferred_ok (working s)); [|done]. by intros [= _ <-]. Qed.

Lemma committing_ok `{DeferredChecks D} {A} (m : M D A) s a s' :
  committing m s = (Ok a, s') ->
  exists s1, m s = (Ok a, s1) /\ working s' = working s1 /\ committed s' = working s1.
Proof.
  unfold committing. intros (b & s1 & H1 & E)%bind_ok. apply bind_ok in E as (u & s2 & H2 & E).
  apply ret_ok in E as [-> ->]. apply commit_ok in H2 as (_ & H2 & H3). eauto.
Qed.
End Inversion.

(** Decompose a hypothesis [m s = (Ok a, s')] along the binds of [m]. *)
Ltac ok_step H :=
  lazymatch type of H with
  | (mbind _ _) _ = (Ok _, _) =>
      let a := fresh "a" in let s := fresh "s" in let H1 := fresh "Hok" in
      apply bind_ok in H as (a & s & H1 & H); ok_step H1
  | raise_if _ _ _ = (Ok _, _) => apply raise_if_ok in H as [H ?]; subst
  | gets _ _ = (Ok _, _) => apply gets_ok in H as [? ?]; subst
  | asks _ _ = (Ok _, _) => apply asks_ok in H as [? ?]; subst
  | of_option _ _ _ = (Ok _, _) => apply of_option_ok in H as [H ?]; subst
  | modify _ _ = (Ok _, _) => apply modify_ok in H; subst
  | (mret _) _ = (Ok _, _) => apply ret_ok in H as [? ?]; subst
  | raise _ _ = (Ok _, _) => by apply raise_ok in H
  | _ => idtac
  end.

Ltac ok_inv H := repeat progress (ok_step H).

(** ** The frame judgement

    [fixes f m]: running [m], whether it returns or raises, leaves the
    projection [f] of the session as it was. *)

Definition fixes {D A X} (f : session D -> X) (m : M D A) : Prop :=
  forall s, f (m s).2 = f s.

Create HintDb fixes discriminated.

Section Fixes.
Context {D X : Type} (f : session D -> X).

Lemma fixes_ret {A} (a : A) : fixes f (mret a : M D A).
Proof. done. Qed.

Lemma fixes_raise {A} e : fixes f (raise e : M D A).
Proof. done. Qed.

Lemma fixes_gets {A} (g : D -> A) : fixes f (gets g).
Proof. done. Qed.

Lemma fixes_asks {A} (g : environ -> A) : fixes f (asks g : M D A).
Proof. done. Qed.

Lemma fixes_bind {A B} (m : M D A) (k : A -> M D B) :
  fixes f m -> (forall a, fixes f (k a)) -> fixes f (m ≫= k).
Proof.
  intros Hm Hk s. unfold mbind, M_bind. specialize (Hm s).
  destruct (m s) as [[a|e] s1]; [by rewrite Hk|done].
Qed.

Lemma fixes_raise_if c e : fixes f (raise_if c e).
Proof. by destruct c. Qed.

Lemma fixes_when c (m : M D unit) : fixes f m -> fixes f (when c m).
Proof. by destruct c. Qed.

Lemma fixes_of_option {A} (o : option A) e : fixes f (of_option o e).
Proof. by destruct o. Qed.

Lemma fixes_scalar_one {A} (l : list A) : fixes f (scalar_one l).
Proof. by destruct l as [|? []]. Qed.

Lemma fixes_scalar_one_or_none {A} (l : list A) : fixes f (scalar_one_or_none l).
Proof. by destruct l as [|? []]. Qed.

Lemma fixes_for_each {A} (g : A -> M D unit) l :
  (forall x, fixes f (g x)) -> fixes f (for_each g l).
Proof.
  intros Hg. induction l; [apply fixes_ret|by apply fixes_bind].
Qed.

Lemma fixes_fold_m {A B} (g : B -> A -> M D B) l b :
  (forall b x, fixes f (g b x)) -> fixes f (fold_m g l b).
Proof.
  intros Hg. revert b. induction l; intros b; [apply fixes_ret|by apply fixes_bind].
Qed.

Lemma fixes_except_integrity {A} (m : M D A) h :
  fixes f m -> (forall e, fixes f (h e)) -> fixes f (except_integrity m h).
Proof.
  intros Hm Hh s. unfold except_integrity. specialize (Hm s).
  destruct (m s) as [[|[]] s1]; try done. by rewrite Hh.
Qed.

Lemma fixes_except_no_result {A} (m : M D A) e :
  fixes f m -> fixes f (except_no_result m e).
Proof.
  intros Hm s. unfold except_no_result. specialize (Hm s).
  by destruct (m s) as [[|[]] s1].
Qed.

Lemma fixes_run {A} (m : M D A) s r s' : fixes f m -> m s = (r, s') -> f s' = f s.
Proof. intros Hm H. specialize (Hm s). by rewrite H in Hm. Qed.
End Fixes.

#[export] Hint Resolve fixes_ret fixes_raise fixes_gets fixes_asks fixes_bind fixes_raise_if
  fixes_when fixes_of_option fixes_scalar_one fixes_scalar_one_or_none fixes_for_each
  fixes_fold_m fixes_except_integrity fixes_except_no_result : fixes.

#[export] Hint Extern 1 (fixes _ (or_conflict _ _)) => unfold or_conflict : fixes.
#[export] Hint Extern 2 (fixes _ (modify _)) => (intros ?; reflexivity) : fixes.
#[export] Hint Extern 2 (fixes _ draw_token) => (intros ?; reflexivity) : fixes.
#[export] Hint Extern 1 (fixes _ (if ?b then _ else _)) => destruct b : fixes.
#[export] Hint Extern 1 (fixes _ (match ?x with _ => _ end)) => destruct x : fixes.

Ltac solve_fixes := intros; eauto 40 with fixes nocore.

(** ** Atomicity of requests *)

Section Requests.
Context {D : Type} `{DeferredChecks D}.

Lemma rollback_fixes_committed : fixes (committed (D := D)) rollback.
Proof. done. Qed.

Lemma run_request_ok {A} (m : M D A) s a s' :
  run_request m s = (Ok a, s') ->
  exists s1, m s = (Ok a, s1) /\ committed s' = working s1 /\ working s' = committed s'.
Proof.
  unfold run_request. destruct ((a0 ← m; _ ← commit; mret a0) s) as [o s2] eqn:E.
  intros [= -> <-]. apply bind_ok in E as (b & s1 & H1 & E).
  apply bind_ok in E as (u & s3 & H2 & E). apply ret_ok in E as [<- <-].
  unfold commit in H2. destruct (deferred_ok _); [|done]. injection H2 as _ <-.
  exists s1. done.
Qed.

(** A service call that never commits, run as a request, either commits its
    whole working state or leaves the committed state as it found it. *)
Lemma run_request_cases {A} (m : M D A) s r s' :
  fixes committed m -> run_request m s = (r, s') ->
  match r with
  | Ok a => exists s1, m s = (Ok a, s1) /\ deferred_ok (working s1) = true /\
                       committed s' = working s1
  | Raise e => committed s' = committed s
  end.
Proof.
  intros Hm Hr. unfold run_request in Hr. specialize (Hm s).
  unfold mbind, M_bind in Hr. destruct (m s) as [[a|e] s1] eqn:E; simpl in *.
  - unfold commit in Hr. destruct (deferred_ok (working s1)) eqn:Ed; simpl in Hr.
    + simplify_eq. simpl. eauto.
    + simplify_eq. done.
  - by simplify_eq.
Qed.
End Requests.

#[export] Hint Resolve rollback_fixes_committed : fixes.

(** ** The invariant judgement

    [keeps I m]: from a session whose committed and working databases satisfy
    [I], running [m] ends with both satisfying [I] when it returns, and with the
    committed one satisfying it when it raises (the working one is then about to
    be rolled back). *)

Definition keeps {D A} (I : D -> Prop) (m : M D A) : Prop :=
  forall s, I (committed s) -> I (working s) ->
    match m s with
    | (Ok _, s') => I (committed s') /\ I (working s')
    | (Raise _, s') => I (committed s')
    end.

Create HintDb keeps discriminated.

Section Keeps.
Context {D : Type} (I : D -> Prop).

Lemma keeps_frame {A X} (f : D -> X) (m : M D A) :
  (forall d d', f d' = f d -> I d -> I d') ->
  fixes committed m -> fixes (fun s => f (working s)) m -> keeps I m.
Proof.
  intros Hf Hc Hw s H1 H2. specialize (Hc s). specialize (Hw s).
  destruct (m s) as [[a|e] s']; simpl in *; rewrite Hc; [|done].
  split; [done|]. by apply (Hf (working s)).
Qed.

Lemma keeps_ret {A} (a : A) : keeps I (mret a : M D A).
Proof. by intros s H1 H2. Qed.

Lemma keeps_raise {A} e : keeps I (raise e : M D A).
Proof. by intros s H1 H2. Qed.

Lemma keeps_gets {A} (g : D -> A) : keeps I (gets g).
Proof. by intros s H1 H2. Qed.

Lemma keeps_asks {A} (g : environ -> A) : keeps I (asks g : M D A).
Proof. by intros s H1 H2. Qed.

Lemma keeps_raise_if c e : keeps I (raise_if c e).
Proof. destruct c; [apply keeps_raise|apply keeps_ret]. Qed.

Lemma keeps_of_option {A} (o : option A) e : keeps I (of_option o e).
Proof. destruct o; [apply keeps_ret|apply keeps_raise]. Qed.

Lemma keeps_scalar_one_or_none {A} (l : list A) : keeps I (scalar_one_or_none l).
Proof. destruct l as [|? []]; [apply keeps_ret|apply keeps_ret|apply keeps_raise]. Qed.

Lemma keeps_bind {A B} (m : M D A) (k : A -> M D B) :
  keeps I m -> (forall a, keeps I (k a)) -> keeps I (m ≫= k).
Proof.
  intros Hm Hk s H1 H2. unfold mbind, M_bind. specialize (Hm s H1 H2).
  destruct (m s) as [[a|e] s1]; [|done]. destruct Hm. by apply Hk.
Qed.

(** The judgement at one state, and the rule that remembers how the first
    part ended. *)
Definition keeps_at {A} (m : M D A) (s : session D) : Prop :=
  I (committed s) -> I (working s) ->
  match m s with
  | (Ok _, s') => I (committed s') /\ I (working s')
  | (Raise _, s') => I (committed s')
  end.

Lemma keeps_at_bind_at {A B} (m : M D A) (k : A -> M D B) s :
  keeps_at m s -> (forall a s1, m s = (Ok a, s1) -> keeps_at (k a) s1) -> keeps_at (m ≫= k) s.
Proof.
  intros Hm Hk H1 H2. unfold mbind, M_bind. specialize (Hm H1 H2).
  destruct (m s) as [[a|e] s1] eqn:E; [|done]. destruct Hm. by apply Hk.
Qed.

Lemma keeps_at_bind {A B} (m : M D A) (k : A -> M D B) s :
  keeps I m -> (forall a s1, m s = (Ok a, s1) -> keeps_at (k a) s1) -> keeps_at (m ≫= k) s.
Proof. intros Hm. apply keeps_at_bind_at. exact (Hm s). Qed.

Lemma keeps_at_all {A} (m : M D A) s : keeps I m -> keeps_at m s.
Proof. intros Hm. exact (Hm s). Qed.

Lemma keeps_at_except {A} (m : M D A) (h : exn -> M D A) s :
  keeps_at m s -> (forall e, keeps I (h e)) ->
  keeps_at (except_integrity m (fun e => _ ← rollback; h e)) s.
Proof.
  intros Hm Hh H1 H2. unfold except_integrity. specialize (Hm H1 H2).
  destruct (m s) as [[a|[]] s1]; try done. by apply Hh.
Qed.

Lemma keeps_when c (m : M D unit) : keeps I m -> keeps I (when c m).
Proof. destruct c; [done|intros _; apply keeps_ret]. Qed.

Lemma keeps_for_each {A} (g : A -> M D unit) l :
  (forall x, keeps I (g x)) -> keeps I (for_each g l).
Proof. intros Hg. induction l; [apply keeps_ret|by apply keeps_bind]. Qed.

Lemma keeps_fold_m {A B} (g : B -> A -> M D B) l b :
  (forall b x, keeps I (g b x)) -> keeps I (fold_m g l b).
Proof.
  intros Hg. revert b. induction l; intros b; [apply keeps_ret|by apply keeps_bind].
Qed.

Lemma keeps_rollback : keeps I rollback.
Proof. by intros s H1 H2. Qed.

Lemma keeps_commit `{DeferredChecks D} : keeps I commit.
Proof. intros s H1 H2. unfold commit. by destruct (deferred_ok (working s)). Qed.

(** A handler starts with [db.rollback()]. *)
Lemma keeps_except_integrity {A} (m : M D A) (h : exn -> M D A) :
  keeps I m -> (forall e, keeps I (h e)) ->
  keeps I (except_integrity m (fun e => _ ← rollback; h e)).
Proof.
  intros Hm Hh s H1 H2. unfold except_integrity. specialize (Hm s H1 H2).
  destruct (m s) as [[a|[]] s1]; try done. by apply Hh.
Qed.

Lemma keeps_except_no_result {A} (m : M D A) e : keeps I m -> keeps I (except_no_result m e).
Proof.
  intros Hm s H1 H2. unfold except_no_result. specialize (Hm s H1 H2).
  by destruct (m s) as [[a|[]] s1].
Qed.

Lemma keeps_ok {A} (m : M D A) s a s' :
  keeps I m -> I (committed s) -> I (working s) -> m s = (Ok a, s') ->
  I (committed s') /\ I (working s').
Proof. intros Hm H1 H2 H. specialize (Hm s H1 H2). by rewrite H in Hm. Qed.

(** From what a successful run did. *)
Lemma keeps_of_ok {A} (m : M D A) :
  fixes committed m ->
  (forall s a s', I (committed s) -> I (working s) -> m s = (Ok a, s') -> I (working s')) ->
  keeps I m.
Proof.
  intros Hc Hm s H1 H2. specialize (Hc s). destruct (m s) as [[a|e] s'] eqn:E; simpl in Hc;
    rewrite Hc; [|done]. split; [done|by eapply Hm].
Qed.

(** What commits nothing, or last of all. *)
Definition commits_last {A} (m : M D A) : Prop :=
  forall s, match m s with
            | (Ok _, s') => committed s' = committed s \/ committed s' = working s'
            | (Raise _, s') => committed s' = committed s
            end.

Lemma commits_last_fixes {A} (m : M D A) : fixes committed m -> commits_last m.
Proof. intros Hc s. specialize (Hc s). destruct (m s) as [[a|e] s']; [by left|done]. Qed.

Lemma commits_last_bind {A B} (m : M D A) (k : A -> M D B) :
  fixes committed m -> (forall a, commits_last (k a)) -> commits_last (m ≫= k).
Proof.
  intros Hc Hk s. unfold mbind, M_bind. specialize (Hc s). destruct (m s) as [[a|e] s1]; simpl in Hc; [|done].
  specialize (Hk a s1). destruct (k a s1) as [[b|e] s2]; rewrite <- Hc; exact Hk.
Qed.

Lemma commits_last_committing `{DeferredChecks D} {A} (m : M D A) :
  fixes committed m -> commits_last (committing m).
Proof.
  intros Hc s. destruct (committing m s) as [[a|e] s'] eqn:E.
  - right. destruct (committing_ok m s a s' E) as (s1 & _ & -> & ->). done.
  - specialize (Hc s). unfold committing, mbind, M_bind in E. destruct (m s) as [[a|e'] s1]; simpl in Hc.
    + unfold commit in E. destruct (deferred_ok (working s1)); [done|]. by injection E as _ <-.
    + by injection E as _ <-.
Qed.

Lemma keeps_commits_last {A} (m : M D A) :
  commits_last m ->
  (forall s a s', I (committed s) -> I (working s) -> m s = (Ok a, s') -> I (working s')) ->
  keeps I m.
Proof.
  intros Hc Hm s H1 H2. specialize (Hc s). destruct (m s) as [[a|e] s'] eqn:E; [|by rewrite Hc].
  assert (I (working s')) by (by eapply Hm). destruct Hc as [-> | ->]; by split.
Qed.

(** A service function that commits once, at its end. *)
Lemma keeps_committing `{DeferredChecks D} {A} (m : M D A) :
  fixes committed m ->
  (forall s a s', I (committed s) -> I (working s) -> committing m s = (Ok a, s') -> I (working s')) ->
  keeps I (committing m).
Proof. intros Hc. by apply keeps_commits_last, commits_last_committing. Qed.

Lemma keeps_at_of_ok {A} (m : M D A) s :
  fixes committed m -> (forall a s', m s = (Ok a, s') -> I (working s')) -> keeps_at m s.
Proof.
  intros Hc Hm H1 H2. specialize (Hc s). destruct (m s) as [[a|e] s'] eqn:E; simpl in Hc;
    rewrite Hc; [|done]. split; [done|by eapply Hm].
Qed.

(** A request started on a committed state leaves a good committed state,
    whatever its outcome. *)
Lemma keeps_at_request `{DeferredChecks D} {A} (m : M D A) s :
  keeps_at m s -> I (committed s) -> I (working s) ->
  let r := run_request m s in I (committed r.2) /\ I (working r.2).
Proof.
  intros Hm H1 H2. unfold run_request.
  assert (Hk : keeps_at (a ← m; _ ← commit; mret a) s).
  { apply keeps_at_bind_at; [done|]. intros a s1 _. apply keeps_at_all, keeps_bind; [apply keeps_commit|].
    intros _. apply keeps_ret. }
  specialize (Hk H1 H2). simpl. destruct ((a ← m; _ ← commit; mret a) s) as [[a|e] s1].
  - by destruct Hk.
  - done.
Qed.

Lemma keeps_request `{DeferredChecks D} {A} (m : M D A) s :
  keeps I m -> I (committed s) -> I (working s) ->
  let r := run_request m s in I (committed r.2) /\ I (working r.2).
Proof. intros Hm. by apply keeps_at_request, keeps_at_all. Qed.
End Keeps.

(** *** What only a commit has to establish

    An invariant that the deferred checks complete may fail between two
    commits: [J] is what holds of every working state. *)

Section Checked.
Context {D : Type} `{DeferredChecks D}.

(** Whatever [m] commits has passed the deferred checks. *)
Definition commits_checked {A} (m : M D A) : Prop :=
  forall s, deferred_ok (committed s) = true -> deferred_ok (committed (m s).2) = true.

Lemma checked_fixes {A} (m : M D A) : fixes committed m -> commits_checked m.
Proof. intros Hm s Hs. by rewrite Hm. Qed.

Lemma checked_commit : commits_checked commit.
Proof. intros s Hs. unfold commit. destruct (deferred_ok (working s)) eqn:E; simpl; by rewrite ?E. Qed.

Lemma checked_bind {A B} (m : M D A) (k : A -> M D B) :
  commits_checked m -> (forall a, commits_checked (k a)) -> commits_checked (m ≫= k).
Proof.
  intros Hm Hk s Hs. unfold mbind, M_bind. specialize (Hm s Hs).
  destruct (m s) as [[a|e] s1]; [|done]. by apply Hk.
Qed.

Lemma keeps_request_checked {A} (I J : D -> Prop) (m : M D A) s :
  (forall d, I d <-> J d /\ deferred_ok d = true) -> keeps J m -> commits_checked m ->
  I (committed s) -> I (working s) ->
  let r := run_request m s in I (committed r.2) /\ I (working r.2).
Proof.
  intros HI Hm Hc [H1 H2]%HI [H3 _]%HI. unfold run_request. simpl.
  assert (Hk : keeps J (a ← m; _ ← commit; mret a)).
  { apply keeps_bind; [done|]. intros a. apply keeps_bind; [apply keeps_commit|].
    intros _. apply keeps_ret. }
  assert (Hcc : commits_checked (a ← m; _ ← commit; mret a)).
  { apply checked_bind; [done|]. intros a. apply checked_bind; [apply checked_commit|].
    intros _. by apply checked_fixes, fixes_ret. }
  specialize (Hk s H1 H3). specialize (Hcc s H2).
  destruct ((a ← m; _ ← commit; mret a) s) as [[a|e] s1]; simpl in *;
    [destruct Hk as [Hk _]|]; split; by apply HI.
Qed.
End Checked.

(** Reading changes nothing. *)
Lemma keeps_reads {D A} (I : D -> Prop) (m : M D A) : fixes (fun s => s) m -> keeps I m.
Proof.
  intros Hm s H1 H2. specialize (Hm s). destruct (m s) as [[a|e] s']; simpl in *; by subst.
Qed.

Lemma reads_run {D A} (m : M D A) s r s' : fixes (fun s => s) m -> m s = (r, s') -> s' = s.
Proof. intros Hm H. exact (fixes_run (fun s => s) m s r s' Hm H). Qed.

Lemma keeps_and {D A} (I J : D -> Prop) (m : M D A) :
  keeps I m -> keeps J m -> keeps (fun d => I d /\ J d) m.
Proof.
  intros HI HJ s [H1 H2] [H3 H4]. specialize (HI s H1 H3). specialize (HJ s H2 H4).
  destruct (m s) as [[a|e] s']; tauto.
Qed.

#[export] Hint Resolve keeps_ret keeps_raise keeps_gets keeps_asks keeps_raise_if keeps_of_option
  keeps_scalar_one_or_none keeps_bind keeps_when keeps_for_each keeps_fold_m keeps_rollback
  keeps_commit keeps_except_integrity keeps_except_no_result : keeps.
#[export] Hint Extern 1 (keeps _ (if ?b then _ else _)) => destruct b : keeps.
#[export] Hint Extern 1 (keeps _ (match ?x with _ => _ end)) => destruct x : keeps.

Ltac solve_keeps := intros; eauto 40 with keeps nocore.

(** For long handlers: follow the structure of the program, one rule per
    construct, and close the leaves with [leaf]. *)
Ltac walk_keeps leaf :=
  lazymatch goal with
  | |- keeps _ (mbind _ _) => apply keeps_bind; [walk_keeps leaf|intros; walk_keeps leaf]
  | |- keeps _ (if ?b then _ else _) => destruct b; walk_keeps leaf
  | |- keeps _ (match ?x with _ => _ end) => destruct x; walk_keeps leaf
  | |- keeps _ (for_each _ _) => apply keeps_for_each; intros; walk_keeps leaf
  | |- keeps _ (fold_m _ _ _) => apply keeps_fold_m; intros; walk_keeps leaf
  | |- keeps _ (except_integrity _ (fun e => mbind _ rollback)) =>
      apply keeps_except_integrity; [walk_keeps leaf|intros; walk_keeps leaf]
  | |- keeps _ (let _ := _ in _) => cbv zeta; walk_keeps leaf
  | |- _ => first [ solve [auto 2 with keeps nocore] | leaf ]
  end.

Ltac walk_fixes leaf :=
  lazymatch goal with
  | |- fixes _ (mbind _ _) => apply fixes_bind; [walk_fixes leaf|intros; walk_fixes leaf]
  | |- fixes _ (if ?b then _ else _) => destruct b; walk_fixes leaf
  | |- fixes _ (match ?x with _ => _ end) => destruct x; walk_fixes leaf
  | |- fixes _ (for_each _ _) => apply fixes_for_each; intros; walk_fixes leaf
  | |- fixes _ (fold_m _ _ _) => apply fixes_fold_m; intros; walk_fixes leaf
  | |- fixes _ (except_integrity _ _) =>
      apply fixes_except_integrity; [walk_fixes leaf|intros; walk_fixes leaf]
  | |- fixes _ (let _ := _ in _) => cbv zeta; walk_fixes leaf
  | |- _ => first [ solve [auto 2 with fixes nocore] | leaf ]
  end.
