(* ===== verification/Schema.v ===== *)
(** * The relational schema

    The ORM models of the modelled modules as records, their string
    enumerations as inductive types, and the database as the record of its
    tables.  Every [CheckConstraint], unique index and foreign key the modelled
    code can meet is a decidable check of [constraints] and [uniques], which
    [add] and [update] evaluate where SQLAlchemy flushes the row.

    Columns that only carry display text (names, memos, descriptions, request
    metadata of the audit log) are left out; the surrogate key of a row is its
    position (see [Prelude]). *)

From Stdlib Require QArith_base.
From S2P Require Import Prelude Fixed Session.

(** ** Enumerations *)

(** sales.models.PAYMENT_METHODS *)
Inductive PaymentMethod := CASH | CARD | MOBILE_MONEY | BANK_TRANSFER | OTHER.

Definition PAYMENT_METHODS : list (string * PaymentMethod) :=
  [("CASH", CASH); ("CARD", CARD); ("MOBILE_MONEY", MOBILE_MONEY);
   ("BANK_TRANSFER", BANK_TRANSFER); ("OTHER", OTHER)]%string.

Inductive SaleStatus := SALE_OPEN | COMPLETED | VOIDED | REFUNDED | PARTIALLY_REFUNDED.

(** inventory.models.MOVEMENT_TYPES *)
Inductive MovementType :=
  | MT_PURCHASE_RECEIPT | MT_SALE_RETURN | MT_STOCK_ADJUSTMENT_IN | MT_TRANSFER_IN
  | MT_SALE | MT_PURCHASE_RETURN | MT_STOCK_ADJUSTMENT_OUT | MT_TRANSFER_OUT.

Definition increasing (m : MovementType) : bool :=
  match m with
  | MT_PURCHASE_RECEIPT | MT_SALE_RETURN | MT_STOCK_ADJUSTMENT_IN | MT_TRANSFER_IN => true
  | _ => false
  end.

Inductive ReferenceType :=
  | RT_purchase_order | RT_sale | RT_sale_return | RT_purchase_return
  | RT_stock_adjustment | RT_inter_store_transfer.

Inductive ReasonCode := DAMAGE | THEFT | EXPIRY | STOCKTAKE_CORRECTION | REASON_OTHER.

Inductive StockCountStatus := SC_DRAFT | SC_OPEN | SC_COUNTED | SC_REVIEWED | SC_POSTED | SC_CANCELLED.

Inductive AccountType := ASSET | LIABILITY | EQUITY | REVENUE | EXPENSE.
Inductive NormalBalance := DEBIT | CREDIT.
Inductive EntryType := STANDARD | REVERSAL.

(** accounting.models.SOURCE_TYPES *)
Inductive SourceType :=
  | ST_SALE | ST_PURCHASE_RECEIPT | ST_PURCHASE_RETURN | ST_SALE_RETURN
  | ST_STOCK_ADJUSTMENT | ST_PURCHASE_INVOICE | ST_PURCHASE_INVOICE_VOID
  | ST_SUPPLIER_PAYMENT | ST_SUPPLIER_CREDIT_NOTE
  | ST_INTER_STORE_TRANSFER_SHIP | ST_INTER_STORE_TRANSFER_RECEIVE
  | ST_PAYROLL_POSTING | ST_PAYROLL_REVERSAL | ST_CASH_SHIFT_VARIANCE
  | ST_SUPPLIER_PAYMENT_REVERSAL | ST_SUPPLIER_CREDIT_NOTE_REVERSAL
  | ST_TRANSFER_WRITE_OFF | ST_TRANSFER_WRITE_OFF_REVERSAL
  | ST_MANUAL.

Inductive ShiftStatus := SHIFT_OPEN | SHIFT_CLOSED.
Inductive CashMovementType := PAID_IN | PAID_OUT.
Inductive FiscalStatus := FS_PENDING | FS_FAILED | FS_ACKNOWLEDGED | FS_REJECTED | FS_EXHAUSTED.

Inductive PurchaseOrderStatus :=
  | PO_DRAFT | PO_ORDERED | PO_PARTIALLY_RECEIVED | PO_RECEIVED | PO_CANCELLED.

(** ap.models.PURCHASE_INVOICE_STATUSES *)
Inductive PurchaseInvoiceStatus :=
  | INV_DRAFT | INV_POSTED | INV_PARTIALLY_PAID | INV_PAID | INV_VOIDED.

(** ap.models.SUPPLIER_PAYMENT_METHODS *)
Inductive SupplierPaymentMethod := SP_CASH | SP_BANK_TRANSFER | SP_CHEQUE | SP_OTHER.

(** ap.models.SUPPLIER_CREDIT_NOTE_REASONS *)
Inductive CreditNoteReason := GOODS_RETURN | COMMERCIAL_DISCOUNT.

(** transfers.models.TRANSFER_STATUSES *)
Inductive TransferStatus := TR_DRAFT | TR_SHIPPED | TR_CANCELLED.

(** discrepancies.models: DISCREPANCY_SOURCE_TYPES, DISCREPANCY_TYPES,
    DISCREPANCY_STATUSES, DISCREPANCY_RESOLUTION_TYPES *)
Inductive DiscrepancySource := TRANSFER_RECEIPT | GOODS_RECEIPT.
Inductive DiscrepancyType := DT_SHORTAGE | DT_DAMAGE | DT_BOTH.
Inductive DiscrepancyStatus := RECORDED | INVESTIGATING | RESOLVED.
Inductive ResolutionType :=
  | VENDOR_CAUSED | SOURCE_STORE_CAUSED | DESTINATION_CAUSED | TRANSIT_DAMAGE | UNKNOWN.

(** writeoffs.models: WRITE_OFF_STATUSES, APPROVAL_DECISIONS *)
Inductive WriteOffStatus := WO_PENDING_APPROVAL | WO_APPROVED | WO_DENIED | WO_POSTED | WO_REVERSED.
Inductive ApprovalDecision := DECISION_APPROVED | DECISION_DENIED.

(** hr.models: EMPLOYMENT_STATUSES, ATTENDANCE_SOURCES, ATTENDANCE_STATUSES *)
Inductive EmploymentStatus := ES_ACTIVE | ON_LEAVE | SUSPENDED | TERMINATED.
Inductive AttendanceSource := CLOCK | MANUAL_ENTRY.
Inductive AttendanceStatus := ATT_OPEN | ATT_CLOSED | ATT_VOIDED.

(** payroll.models: PAYROLL_PERIOD_STATUSES, PAYROLL_EMPLOYEE_RESULT_STATUSES,
    DEDUCTION_CATEGORIES *)
Inductive PayrollPeriodStatus :=
  | PP_DRAFT | PP_OPEN | PP_CALCULATED | PP_APPROVED | PP_POSTED | PP_CANCELLED.
Inductive ResultStatus := RESULT_DRAFT | RESULT_FINAL.
Inductive DeductionCategory := DC_EMPLOYEE | DC_EMPLOYER_CONTRIBUTION.

#[global] Instance PaymentMethod_eq_dec : EqDecision PaymentMethod.
Proof. solve_decision. Defined.
#[global] Instance SaleStatus_eq_dec : EqDecision SaleStatus.
Proof. solve_decision. Defined.
#[global] Instance MovementType_eq_dec : EqDecision MovementType.
Proof. solve_decision. Defined.
#[global] Instance StockCountStatus_eq_dec : EqDecision StockCountStatus.
Proof. solve_decision. Defined.
#[global] Instance AccountType_eq_dec : EqDecision AccountType.
Proof. solve_decision. Defined.
#[global] Instance EntryType_eq_dec : EqDecision EntryType.
Proof. solve_decision. Defined.
#[global] Instance SourceType_eq_dec : EqDecision SourceType.
Proof. solve_decision. Defined.
#[global] Instance ShiftStatus_eq_dec : EqDecision ShiftStatus.
Proof. solve_decision. Defined.
#[global] Instance CashMovementType_eq_dec : EqDecision CashMovementType.
Proof. solve_decision. Defined.
#[global] Instance FiscalStatus_eq_dec : EqDecision FiscalStatus.
Proof. solve_decision. Defined.
#[global] Instance PurchaseOrderStatus_eq_dec : EqDecision PurchaseOrderStatus.
Proof. solve_decision. Defined.
#[global] Instance PurchaseInvoiceStatus_eq_dec : EqDecision PurchaseInvoiceStatus.
Proof. solve_decision. Defined.
#[global] Instance SupplierPaymentMethod_eq_dec : EqDecision SupplierPaymentMethod.
Proof. solve_decision. Defined.
#[global] Instance CreditNoteReason_eq_dec : EqDecision CreditNoteReason.
Proof. solve_decision. Defined.
#[global] Instance TransferStatus_eq_dec : EqDecision TransferStatus.
Proof. solve_decision. Defined.
#[global] Instance DiscrepancySource_eq_dec : EqDecision DiscrepancySource.
Proof. solve_decision. Defined.
#[global] Instance DiscrepancyType_eq_dec : EqDecision DiscrepancyType.
Proof. solve_decision. Defined.
#[global] Instance DiscrepancyStatus_eq_dec : EqDecision DiscrepancyStatus.
Proof. solve_decision. Defined.
#[global] Instance ResolutionType_eq_dec : EqDecision ResolutionType.
Proof. solve_decision. Defined.
#[global] Instance WriteOffStatus_eq_dec : EqDecision WriteOffStatus.
Proof. solve_decision. Defined.
#[global] Instance ApprovalDecision_eq_dec : EqDecision ApprovalDecision.
Proof. solve_decision. Defined.
#[global] Instance EmploymentStatus_eq_dec : EqDecision EmploymentStatus.
Proof. solve_decision. Defined.
#[global] Instance AttendanceSource_eq_dec : EqDecision AttendanceSource.
Proof. solve_decision. Defined.
#[global] Instance AttendanceStatus_eq_dec : EqDecision AttendanceStatus.
Proof. solve_decision. Defined.
#[global] Instance PayrollPeriodStatus_eq_dec : EqDecision PayrollPeriodStatus.
Proof. solve_decision. Defined.
#[global] Instance ResultStatus_eq_dec : EqDecision ResultStatus.
Proof. solve_decision. Defined.
#[global] Instance DeductionCategory_eq_dec : EqDecision DeductionCategory.
Proof. solve_decision. Defined.

(** Generated document numbers ([f"S{store_id}-{timestamp}-{token}"]): the
    store, the UTC second and the random token they are printed from. *)
Record DocumentNumber := { dn_store : Z; dn_second : Z; dn_token : Z }.

#[global] Instance DocumentNumber_eq_dec : EqDecision DocumentNumber.
Proof. solve_decision. Defined.

(** [f"XFER{from_store_id}-{to_store_id}-{timestamp}-{token}"] *)
Record TransferNumber := { tn_from : Z; tn_to : Z; tn_second : Z; tn_token : Z }.

#[global] Instance TransferNumber_eq_dec : EqDecision TransferNumber.
Proof. solve_decision. Defined.

(** ** Rows *)

Record Store := {
  store_is_active : bool;
  return_approval_threshold_amount : option money;
  timezone : string;
  attendance_day_boundary_hour : Z;
}.

Record User := {
  user_store_id : option Z;
  username : string;
  password_hash : string;
  user_is_active : bool;
}.

Record Role := { role_name : string }.
Record Permission := { permission_code : string }.
Record RolePermission := { rp_role_id : Z; rp_permission_id : Z }.
Record UserRole := { ur_user_id : Z; ur_role_id : Z }.

Record TaxRate := {
  rate_percent : Z;
  tax_is_active : bool;
  effective_from : Z;
  effective_to : option Z;
}.

Record Product := mkProduct {
  product_store_id : Z;
  product_category_id : option Z;
  current_price : money;
  current_cost : cost;
  product_tax_rate_id : option Z;
  current_qty_on_hand : qty;
  allow_negative_stock : bool;
  product_is_active : bool;
  sku : string;
}.

Record Account := {
  account_code : string;
  account_type : AccountType;
  normal_balance : NormalBalance;
}.

Record JournalEntry := {
  journal_number : DocumentNumber;
  entry_store_id : Z;
  posting_date : Z;
  entry_type : EntryType;
  source_type : SourceType;
  source_id : option Z;
  reversal_of_id : option Z;
  entry_created_by : option Z;
}.

Record JournalLine := {
  line_entry_id : Z;
  line_account_id : Z;
  debit : ledger;
  credit : ledger;
  line_product_id : option Z;
}.

Record AccountingPeriod := {
  period_store_id : Z;
  period_start : Z;
  period_end : Z;
  closed_by : Z;
  closed_at : Z;
  period_reason : string;
}.

Record InventoryMovement := {
  mv_store_id : Z;
  mv_product_id : Z;
  movement_type : MovementType;
  mv_quantity_delta : qty;
  unit_cost_at_movement : cost;
  resulting_quantity_on_hand : qty;
  reference_type : ReferenceType;
  reference_id : option Z;
  mv_reason : option string;
  mv_created_by : option Z;
}.

Record StockAdjustment := {
  adj_store_id : Z;
  adj_product_id : Z;
  adj_quantity_delta : qty;
  reason_code : ReasonCode;
  adj_notes : option string;
  adj_created_by : Z;
  adj_stock_count_id : option Z;
  adj_client_transaction_id : option string;
}.

Record StockCount := mkStockCount {
  sc_store_id : Z;
  count_number : Z * Z;
  sc_status : StockCountStatus;
  sc_category_id : option Z;
  sc_notes : option string;
  sc_created_by : option Z;
  opened_by : option Z;
  opened_at : option Z;
  reviewed_by : option Z;
  reviewed_at : option Z;
  posted_by : option Z;
  posted_at : option Z;
  cancelled_by : option Z;
  cancelled_at : option Z;
}.

Record StockCountLine := mkStockCountLine {
  scl_stock_count_id : Z;
  scl_product_id : Z;
  expected_quantity : option qty;
  expected_unit_cost : option cost;
  counted_quantity : option qty;
  counted_by : option Z;
  counted_at : option Z;
  recount_number : Z;
}.

Record Sale := mkSale {
  sale_store_id : Z;
  sale_number : DocumentNumber;
  sale_client_transaction_id : string;
  cashier_id : Z;
  sale_status : SaleStatus;
  subtotal : money;
  discount_total : money;
  tax_total : money;
  grand_total : money;
  amount_tendered : option money;
  change_due : option money;
  completed_at : option Z;
  sale_shift_id : option Z;
}.

Record SaleItem := mkSaleItem {
  item_sale_id : Z;
  item_product_id : Z;
  item_quantity : qty;
  unit_price_at_sale : money;
  unit_cost_at_sale : cost;
  item_discount_amount : money;
  item_tax_rate_id : option Z;
  item_tax_amount : money;
  line_total : money;
  quantity_returned : qty;
}.

Record Payment := {
  payment_sale_id : Z;
  payment_method : PaymentMethod;
  payment_amount : money;
}.

Record SaleReturn := mkSaleReturn {
  return_sale_id : Z;
  return_store_id : Z;
  return_number : DocumentNumber;
  return_client_transaction_id : string;
  return_reason : option string;
  refund_method : PaymentMethod;
  refund_amount : money;
  processed_by : option Z;
  approval_required : bool;
  approved_by : option Z;
  return_shift_id : option Z;
  return_date : Z;
}.

Record SaleReturnItem := {
  ri_sale_return_id : Z;
  ri_sale_item_id : Z;
  ri_quantity : qty;
  unit_price_refunded : money;
  ri_discount_refunded : money;
  ri_tax_refunded : money;
  ri_unit_cost_refunded : cost;
  ri_restock : bool;
}.

Record CashierShift := mkShift {
  shift_store_id : Z;
  shift_cashier_id : Z;
  shift_status : ShiftStatus;
  opening_float : money;
  shift_opened_at : Z;
  shift_client_transaction_id : string;
  shift_closed_at : option Z;
  closing_counted_amount : option money;
  expected_cash_amount : option money;
  variance_amount : option money;
  shift_closed_by : option Z;
  close_client_transaction_id : option string;
}.

Record CashMovement := {
  cm_shift_id : Z;
  cm_movement_type : CashMovementType;
  cm_amount : money;
  cm_reason : string;
  cm_created_by : Z;
  cm_client_transaction_id : string;
}.

Record FiscalConfig := {
  fc_store_id : Z;
  is_enabled : bool;
  fc_provider_name : string;
  retry_max_attempts : Z;
}.

(** The frozen projection of a sale that [_build_fiscal_payload] writes. *)
Record FiscalPayload := {
  fp_sale_id : Z;
  fp_store_id : Z;
  fp_sale_number : DocumentNumber;
  fp_completed_at : option Z;
  fp_subtotal : money;
  fp_discount_total : money;
  fp_tax_total : money;
  fp_grand_total : money;
  fp_lines : list (Z * qty * money * money * option Z * money * money);
}.

Record FiscalSubmission := mkFiscalSubmission {
  fs_sale_id : Z;
  fs_store_id : Z;
  fs_status : FiscalStatus;
  fs_provider_name : string;
  attempt_count : Z;
  max_attempts : Z;
  request_payload : FiscalPayload;
  fiscal_reference : option string;
}.

Record AuditLog := {
  audit_user_id : option Z;
  action : string;
  entity_type : string;
  entity_id : option Z;
}.

(** *** Purchasing (purchasing/models.py) *)

Record Supplier := {
  supplier_name : string;
  supplier_code : option string;
  supplier_is_active : bool;
  default_payment_terms_days : option Z;
}.

Record PurchaseOrder := mkPurchaseOrder {
  po_store_id : Z;
  po_supplier_id : Z;
  purchase_number : DocumentNumber;
  po_client_transaction_id : string;
  po_status : PurchaseOrderStatus;
  order_date : Z;
  expected_date : option Z;
  po_notes : option string;
  po_created_by : option Z;
  po_replenishment_plan_id : option Z;
}.

Record PurchaseOrderItem := mkPurchaseOrderItem {
  poi_order_id : Z;
  poi_product_id : Z;
  quantity_ordered : qty;
  quantity_received : qty;
  quantity_invoiced : qty;
  poi_unit_cost : cost;
}.

Record GoodsReceipt := {
  gr_order_id : Z;
  gr_store_id : Z;
  gr_client_transaction_id : string;
  received_date : Z;
  received_by : option Z;
  gr_notes : option string;
}.

Record GoodsReceiptItem := {
  gri_receipt_id : Z;
  gri_order_item_id : Z;
  gri_quantity : qty;
  gri_unit_cost : cost;
  condition_notes : option string;
}.

Record PurchaseReturn := {
  pr_order_id : Z;
  pr_store_id : Z;
  pr_client_transaction_id : string;
  pr_return_date : Z;
  pr_reason : option string;
  pr_created_by : option Z;
}.

Record PurchaseReturnItem := {
  pri_return_id : Z;
  pri_product_id : Z;
  pri_quantity : qty;
  pri_unit_cost : cost;
}.

(** *** Accounts payable (ap/models.py) *)

Record PurchaseInvoice := mkPurchaseInvoice {
  inv_store_id : Z;
  inv_supplier_id : Z;
  inv_order_id : option Z;
  invoice_number : string;
  invoice_date : Z;
  due_date : Z;
  inv_status : PurchaseInvoiceStatus;
  inv_subtotal : money;
  inv_discount_total : money;
  inv_tax_total : money;
  inv_grand_total : money;
  amount_paid : money;
  amount_credited : money;
  inv_client_transaction_id : string;
  inv_notes : option string;
  inv_created_by : option Z;
  inv_posted_at : option Z;
  inv_voided_at : option Z;
  inv_created_at : Z;
}.

Record PurchaseInvoiceLine := {
  il_invoice_id : Z;
  il_order_item_id : Z;
  il_product_id : Z;
  il_quantity : qty;
  il_unit_price : cost;
  il_discount : money;
  il_tax : money;
  il_total : money;
}.

Record PurchaseInvoiceReceiptMatch := {
  rm_line_id : Z;
  rm_receipt_item_id : Z;
  matched_quantity : qty;
  matched_unit_cost : cost;
  rm_variance : money;
}.

Record SupplierPayment := {
  sp_store_id : Z;
  sp_supplier_id : Z;
  payment_date : Z;
  sp_method : SupplierPaymentMethod;
  sp_amount : money;
  sp_reference : option string;
  sp_client_transaction_id : string;
  sp_created_by : option Z;
  sp_created_at : Z;
}.

Record SupplierPaymentAllocation := {
  pa_payment_id : Z;
  pa_invoice_id : Z;
  pa_amount : money;
}.

Record SupplierCreditNote := mkCreditNote {
  cn_store_id : Z;
  cn_supplier_id : Z;
  credit_number : string;
  credit_date : Z;
  cn_reason : CreditNoteReason;
  cn_return_id : option Z;
  cn_grand_total : money;
  amount_allocated : money;
  cn_client_transaction_id : string;
  cn_notes : option string;
  cn_created_by : option Z;
  cn_created_at : Z;
}.

Record SupplierCreditNoteLine := {
  cnl_note_id : Z;
  cnl_product_id : option Z;
  cnl_description : string;
  cnl_quantity : option qty;
  cnl_unit_cost : option cost;
  cnl_amount : money;
}.

Record SupplierCreditAllocation := {
  ca_note_id : Z;
  ca_invoice_id : Z;
  ca_amount : money;
}.

Record SupplierPaymentReversal := {
  spr_payment_id : Z;
  spr_journal_entry_id : Z;
  spr_reason : string;
  spr_reversed_by : Z;
  spr_reversed_at : Z;
}.

Record SupplierCreditNoteReversal := {
  cnr_note_id : Z;
  cnr_journal_entry_id : Z;
  cnr_reason : string;
  cnr_reversed_by : Z;
  cnr_reversed_at : Z;
}.

(** *** Inter-store transfers *)

Record InterStoreTransfer := mkTransfer {
  from_store_id : Z;
  to_store_id : Z;
  transfer_number : TransferNumber;
  tr_status : TransferStatus;
  requested_date : Z;
  tr_notes : option string;
  tr_requested_by : option Z;
  ship_client_transaction_id : option string;
  shipped_by : option Z;
  shipped_at : option Z;
  tr_cancelled_by : option Z;
  tr_cancelled_at : option Z;
  tr_replenishment_plan_id : option Z;
}.

(** [received_quantity] is the good quantity. *)
Record InterStoreTransferLine := mkTransferLine {
  tl_transfer_id : Z;
  source_product_id : Z;
  destination_product_id : Z;
  requested_quantity : qty;
  shipped_quantity : qty;
  received_quantity : qty;
  damaged_quantity : qty;
  declared_short_quantity : qty;
  written_off_quantity : qty;
  unit_cost_at_shipment : option cost;
}.

Record InterStoreTransferReceipt := {
  trr_transfer_id : Z;
  trr_store_id : Z;
  trr_client_transaction_id : string;
  trr_received_date : Z;
  trr_received_by : option Z;
  trr_notes : option string;
}.

Record InterStoreTransferReceiptItem := {
  tri_receipt_id : Z;
  tri_line_id : Z;
  tri_received : qty;
  tri_damaged : qty;
  tri_declared_short : qty;
}.

Record TransferCustodyAcceptance := {
  tca_transfer_id : Z;
  tca_receipt_id : Z;
  tca_store_id : Z;
  accepted_by : option Z;
  accepted_at : Z;
  is_digital_acknowledgment : bool;
}.

Record ReceivingDiscrepancy := mkDiscrepancy {
  rd_source_type : DiscrepancySource;
  rd_source_id : Z;
  rd_transfer_id : option Z;
  rd_product_id : Z;
  rd_store_id : Z;
  counterparty_store_id : option Z;
  discrepancy_type : DiscrepancyType;
  quantity_short : qty;
  quantity_damaged : qty;
  rd_unit_cost : cost;
  rd_status : DiscrepancyStatus;
  raised_by : option Z;
  raised_at : Z;
  investigated_by : option Z;
  investigated_at : option Z;
  resolved_by : option Z;
  resolved_at : option Z;
  resolution_type : option ResolutionType;
  resolution_notes : option string;
}.

(** [action_type] has one value, TRANSFER_WRITE_OFF. *)
Record ApprovalPolicyRule := {
  scope_store_id : option Z;
  min_amount : ledger;
  max_amount : option ledger;
  rule_required_role_id : Z;
  escalation_role_id : option Z;
  rule_is_active : bool;
  rule_created_by : option Z;
}.

Record TransferWriteOff := mkWriteOff {
  wo_transfer_id : option Z;
  transfer_line_id : Z;
  wo_discrepancy_id : Z;
  wo_quantity : qty;
  wo_unit_cost : cost;
  wo_amount : ledger;
  wo_store_id : Z;
  wo_reason : string;
  wo_initiated_by : Z;
  wo_initiated_at : Z;
  wo_required_role_id : Z;
  matched_rule_id : option Z;
  wo_status : WriteOffStatus;
  wo_journal_entry_id : option Z;
  wo_reversal_journal_entry_id : option Z;
  wo_client_transaction_id : string;
}.

Record WriteOffApproval := {
  woa_write_off_id : Z;
  woa_initiated_by : Z;
  woa_approved_by : Z;
  decision : ApprovalDecision;
  decided_at : Z;
  decision_notes : string;
}.

(** *** Human resources (hr/models.py)

    A date is a day number; a clock time is in microseconds since the epoch;
    a pay rate, NUMERIC(12,4), is in ten-thousandths. *)

Record Department := {
  department_name : string;
  department_is_active : bool;
}.

Record Position := {
  position_title : string;
  position_department_id : option Z;
  position_is_active : bool;
}.

Record Employee := {
  employee_number : string;
  legal_name : string;
  display_name : option string;
  hire_date : Z;
  employee_user_id : option Z;
}.

Record EmploymentStatusPeriod := mkStatusPeriod {
  esp_employee_id : Z;
  esp_status : EmploymentStatus;
  esp_from : Z;
  esp_to : option Z;
  esp_reason : option string;
  esp_actor_id : option Z;
}.

Record EmploymentAssignment := mkAssignment {
  ea_employee_id : Z;
  ea_store_id : Z;
  ea_department_id : option Z;
  ea_position_id : option Z;
  manager_employee_id : option Z;
  ea_from : Z;
  ea_to : option Z;
  ea_actor_id : option Z;
}.

Record CompensationPeriod := mkCompensation {
  cp_employee_id : Z;
  cp_pay_type : string;
  cp_rate : Z;
  pay_frequency : string;
  cp_overtime_eligible : bool;
  cp_currency : string;
  cp_from : Z;
  cp_to : option Z;
  cp_actor_id : option Z;
}.

(** threshold NUMERIC(6,2) and multiplier NUMERIC(4,2), in hundredths *)
Record OvertimePolicy := {
  otp_threshold_hours : Z;
  otp_multiplier : Z;
  otp_from : Z;
  otp_to : option Z;
}.

Record AttendanceRecord := mkAttendance {
  ar_employee_id : Z;
  ar_store_id : Z;
  work_date : Z;
  clock_in_at : Z;
  clock_out_at : option Z;
  ar_source : AttendanceSource;
  ar_status : AttendanceStatus;
  correction_of_id : option Z;
  correction_reason : option string;
  corrected_by : option Z;
  ar_updated_at : option Z;
}.

(** *** Payroll (payroll/models.py) *)

Record DeductionType := {
  deduction_code : string;
  deduction_category : DeductionCategory;
  deduction_is_active : bool;
}.

(** One entry of [parameters["brackets"]]. *)
Record Bracket := { upto : option QArith_base.Q; bracket_percent : QArith_base.Q }.

(** The keys of the JSON [parameters] the calculation reads. *)
Record Parameters := {
  param_amount : option QArith_base.Q;
  param_percent : option QArith_base.Q;
  param_brackets : option (list Bracket);
}.

Record DeductionRate := {
  dr_type_id : Z;
  dr_calculation_method : string;
  dr_parameters : Parameters;
  dr_from : Z;
  dr_to : option Z;
}.

Record PayrollPeriod := mkPayPeriod {
  pp_store_id : Z;
  payroll_run_id : option string;
  pp_start : Z;
  pp_end : Z;
  pay_date : Z;
  pp_status : PayrollPeriodStatus;
  calculation_client_transaction_id : option string;
  calculated_by : option Z;
  calculated_at : option Z;
  pp_approved_by : option Z;
  pp_approved_at : option Z;
  posting_client_transaction_id : option string;
  pp_journal_entry_id : option Z;
  pp_posted_by : option Z;
  pp_posted_at : option Z;
  pp_gross : money;
  pp_deductions : money;
  pp_employer_contributions : money;
  pp_net_pay : money;
}.

(** A row of a calculation keeps its place when a recalculation deletes it. *)
Record PayrollEmployeeResult := mkPayResult {
  per_period_id : Z;
  per_employee_id : Z;
  per_status : ResultStatus;
  per_store_id : Z;
  per_department_id : option Z;
  per_position_id : option Z;
  per_pay_type : string;
  per_pay_rate : Z;
  per_currency : string;
  per_regular_hours : Z;
  per_overtime_hours : Z;
  per_gross_pay : money;
  per_deductions : money;
  per_employer_contributions : money;
  per_net_pay : money;
  per_deleted : bool;
}.

Record PayrollEarningLine := mkEarningLine {
  pel_result_id : Z;
  pel_type : string;
  pel_hours : option Z;
  pel_rate : option Z;
  pel_amount : money;
  pel_deleted : bool;
}.

Record PayrollDeductionLine := mkDeductionLine {
  pdl_result_id : Z;
  pdl_type_id : Z;
  pdl_is_employer_contribution : bool;
  pdl_amount : money;
  pdl_deleted : bool;
}.

Record PayrollReversal := {
  prv_period_id : Z;
  prv_journal_entry_id : Z;
  prv_reason : string;
  prv_reversed_by : Z;
  prv_reversed_at : Z;
}.

(** ** Tables *)

Record DirectoryTables := mkDirectory {
  directory_stores : list Store;
  directory_users : list User;
  directory_roles : list Role;
  directory_permissions : list Permission;
  directory_role_permissions : list RolePermission;
  directory_user_roles : list UserRole;
}.

Record CatalogTables := mkCatalog {
  catalog_products : list Product;
  catalog_tax_rates : list TaxRate;
}.

Record LedgerTables := mkLedger {
  ledger_accounts : list Account;
  ledger_journal_entries : list JournalEntry;
  ledger_journal_lines : list JournalLine;
  ledger_accounting_periods : list AccountingPeriod;
}.

Record StockTables := mkStock {
  stock_inventory_movements : list InventoryMovement;
  stock_stock_adjustments : list StockAdjustment;
  stock_stock_counts : list StockCount;
  stock_stock_count_lines : list StockCountLine;
}.

Record SellingTables := mkSelling {
  selling_sales : list Sale;
  selling_sale_items : list SaleItem;
  selling_payments : list Payment;
  selling_sale_returns : list SaleReturn;
  selling_sale_return_items : list SaleReturnItem;
}.

Record TillsTables := mkTills {
  tills_cashier_shifts : list CashierShift;
  tills_cash_movements : list CashMovement;
}.

Record FiscalTables := mkFiscal {
  fiscal_fiscal_configs : list FiscalConfig;
  fiscal_fiscal_submissions : list FiscalSubmission;
}.

Record TrailTables := mkTrail {
  trail_audit_logs : list AuditLog;
}.

Record PurchasingTables := mkPurchasing {
  purchasing_suppliers : list Supplier;
  purchasing_purchase_orders : list PurchaseOrder;
  purchasing_purchase_order_items : list PurchaseOrderItem;
  purchasing_goods_receipts : list GoodsReceipt;
  purchasing_goods_receipt_items : list GoodsReceiptItem;
  purchasing_purchase_returns : list PurchaseReturn;
  purchasing_purchase_return_items : list PurchaseReturnItem;
}.

Record PayablesTables := mkPayables {
  payables_purchase_invoices : list PurchaseInvoice;
  payables_purchase_invoice_lines : list PurchaseInvoiceLine;
  payables_receipt_matches : list PurchaseInvoiceReceiptMatch;
  payables_supplier_payments : list SupplierPayment;
  payables_payment_allocations : list SupplierPaymentAllocation;
  payables_credit_notes : list SupplierCreditNote;
  payables_credit_note_lines : list SupplierCreditNoteLine;
  payables_credit_allocations : list SupplierCreditAllocation;
  payables_payment_reversals : list SupplierPaymentReversal;
  payables_credit_note_reversals : list SupplierCreditNoteReversal;
}.

Record TransitTables := mkTransit {
  transit_transfers : list InterStoreTransfer;
  transit_transfer_lines : list InterStoreTransferLine;
  transit_transfer_receipts : list InterStoreTransferReceipt;
  transit_transfer_receipt_items : list InterStoreTransferReceiptItem;
  transit_custody_acceptances : list TransferCustodyAcceptance;
  transit_discrepancies : list ReceivingDiscrepancy;
  transit_approval_rules : list ApprovalPolicyRule;
  transit_write_offs : list TransferWriteOff;
  transit_write_off_approvals : list WriteOffApproval;
}.

Record PeopleTables := mkPeople {
  people_departments : list Department;
  people_positions : list Position;
  people_employees : list Employee;
  people_status_periods : list EmploymentStatusPeriod;
  people_assignments : list EmploymentAssignment;
  people_compensations : list CompensationPeriod;
  people_overtime_policies : list OvertimePolicy;
  people_attendance_records : list AttendanceRecord;
}.

Record PayrollTables := mkPayroll {
  payroll_deduction_types : list DeductionType;
  payroll_deduction_rates : list DeductionRate;
  payroll_payroll_periods : list PayrollPeriod;
  payroll_payroll_results : list PayrollEmployeeResult;
  payroll_payroll_earnings : list PayrollEarningLine;
  payroll_payroll_deductions : list PayrollDeductionLine;
  payroll_payroll_reversals : list PayrollReversal;
}.

Record database := mkDatabase {
  directory_tables : DirectoryTables;
  catalog_tables : CatalogTables;
  ledger_tables : LedgerTables;
  stock_tables : StockTables;
  selling_tables : SellingTables;
  tills_tables : TillsTables;
  fiscal_tables : FiscalTables;
  trail_tables : TrailTables;
  purchasing_tables : PurchasingTables;
  payables_tables : PayablesTables;
  transit_tables : TransitTables;
  people_tables : PeopleTables;
  payroll_tables : PayrollTables;
}.

Notation stores d := (directory_stores (directory_tables d)).
Notation users d := (directory_users (directory_tables d)).
Notation roles d := (directory_roles (directory_tables d)).
Notation permissions d := (directory_permissions (directory_tables d)).
Notation role_permissions d := (directory_role_permissions (directory_tables d)).
Notation user_roles d := (directory_user_roles (directory_tables d)).
Notation products d := (catalog_products (catalog_tables d)).
Notation tax_rates d := (catalog_tax_rates (catalog_tables d)).
Notation accounts d := (ledger_accounts (ledger_tables d)).
Notation journal_entries d := (ledger_journal_entries (ledger_tables d)).
Notation journal_lines d := (ledger_journal_lines (ledger_tables d)).
Notation accounting_periods d := (ledger_accounting_periods (ledger_tables d)).
Notation inventory_movements d := (stock_inventory_movements (stock_tables d)).
Notation stock_adjustments d := (stock_stock_adjustments (stock_tables d)).
Notation stock_counts d := (stock_stock_counts (stock_tables d)).
Notation stock_count_lines d := (stock_stock_count_lines (stock_tables d)).
Notation sales d := (selling_sales (selling_tables d)).
Notation sale_items d := (selling_sale_items (selling_tables d)).
Notation payments d := (selling_payments (selling_tables d)).
Notation sale_returns d := (selling_sale_returns (selling_tables d)).
Notation sale_return_items d := (selling_sale_return_items (selling_tables d)).
Notation cashier_shifts d := (tills_cashier_shifts (tills_tables d)).
Notation cash_movements d := (tills_cash_movements (tills_tables d)).
Notation fiscal_configs d := (fiscal_fiscal_configs (fiscal_tables d)).
Notation fiscal_submissions d := (fiscal_fiscal_submissions (fiscal_tables d)).
Notation audit_logs d := (trail_audit_logs (trail_tables d)).
Notation suppliers d := (purchasing_suppliers (purchasing_tables d)).
Notation purchase_orders d := (purchasing_purchase_orders (purchasing_tables d)).
Notation purchase_order_items d := (purchasing_purchase_order_items (purchasing_tables d)).
Notation goods_receipts d := (purchasing_goods_receipts (purchasing_tables d)).
Notation goods_receipt_items d := (purchasing_goods_receipt_items (purchasing_tables d)).
Notation purchase_returns d := (purchasing_purchase_returns (purchasing_tables d)).
Notation purchase_return_items d := (purchasing_purchase_return_items (purchasing_tables d)).
Notation purchase_invoices d := (payables_purchase_invoices (payables_tables d)).
Notation purchase_invoice_lines d := (payables_purchase_invoice_lines (payables_tables d)).
Notation receipt_matches d := (payables_receipt_matches (payables_tables d)).
Notation supplier_payments d := (payables_supplier_payments (payables_tables d)).
Notation payment_allocations d := (payables_payment_allocations (payables_tables d)).
Notation credit_notes d := (payables_credit_notes (payables_tables d)).
Notation credit_note_lines d := (payables_credit_note_lines (payables_tables d)).
Notation credit_allocations d := (payables_credit_allocations (payables_tables d)).
Notation payment_reversals d := (payables_payment_reversals (payables_tables d)).
Notation credit_note_reversals d := (payables_credit_note_reversals (payables_tables d)).
Notation transfers d := (transit_transfers (transit_tables d)).
Notation transfer_lines d := (transit_transfer_lines (transit_tables d)).
Notation transfer_receipts d := (transit_transfer_receipts (transit_tables d)).
Notation transfer_receipt_items d := (transit_transfer_receipt_items (transit_tables d)).
Notation custody_acceptances d := (transit_custody_acceptances (transit_tables d)).
Notation discrepancies d := (transit_discrepancies (transit_tables d)).
Notation approval_rules d := (transit_approval_rules (transit_tables d)).
Notation write_offs d := (transit_write_offs (transit_tables d)).
Notation write_off_approvals d := (transit_write_off_approvals (transit_tables d)).
Notation departments d := (people_departments (people_tables d)).
Notation positions d := (people_positions (people_tables d)).
Notation employees d := (people_employees (people_tables d)).
Notation status_periods d := (people_status_periods (people_tables d)).
Notation assignments d := (people_assignments (people_tables d)).
Notation compensations d := (people_compensations (people_tables d)).
Notation overtime_policies d := (people_overtime_policies (people_tables d)).
Notation attendance_records d := (people_attendance_records (people_tables d)).
Notation deduction_types d := (payroll_deduction_types (payroll_tables d)).
Notation deduction_rates d := (payroll_deduction_rates (payroll_tables d)).
Notation payroll_periods d := (payroll_payroll_periods (payroll_tables d)).
Notation payroll_results d := (payroll_payroll_results (payroll_tables d)).
Notation payroll_earnings d := (payroll_payroll_earnings (payroll_tables d)).
Notation payroll_deductions d := (payroll_payroll_deductions (payroll_tables d)).
Notation payroll_reversals d := (payroll_payroll_reversals (payroll_tables d)).

Definition over_directory (f : DirectoryTables -> DirectoryTables) (d : database) : database :=
  mkDatabase (f (directory_tables d)) (catalog_tables d) (ledger_tables d) (stock_tables d) (selling_tables d) (tills_tables d) (fiscal_tables d) (trail_tables d) (purchasing_tables d) (payables_tables d) (transit_tables d) (people_tables d) (payroll_tables d).

Definition over_catalog (f : CatalogTables -> CatalogTables) (d : database) : database :=
  mkDatabase (directory_tables d) (f (catalog_tables d)) (ledger_tables d) (stock_tables d) (selling_tables d) (tills_tables d) (fiscal_tables d) (trail_tables d) (purchasing_tables d) (payables_tables d) (transit_tables d) (people_tables d) (payroll_tables d).

Definition over_ledger (f : LedgerTables -> LedgerTables) (d : database) : database :=
  mkDatabase (directory_tables d) (catalog_tables d) (f (ledger_tables d)) (stock_tables d) (selling_tables d) (tills_tables d) (fiscal_tables d) (trail_tables d) (purchasing_tables d) (payables_tables d) (transit_tables d) (people_tables d) (payroll_tables d).

Definition over_stock (f : StockTables -> StockTables) (d : database) : database :=
  mkDatabase (directory_tables d) (catalog_tables d) (ledger_tables d) (f (stock_tables d)) (selling_tables d) (tills_tables d) (fiscal_tables d) (trail_tables d) (purchasing_tables d) (payables_tables d) (transit_tables d) (people_tables d) (payroll_tables d).

Definition over_selling (f : SellingTables -> SellingTables) (d : database) : database :=
  mkDatabase (directory_tables d) (catalog_tables d) (ledger_tables d) (stock_tables d) (f (selling_tables d)) (tills_tables d) (fiscal_tables d) (trail_tables d) (purchasing_tables d) (payables_tables d) (transit_tables d) (people_tables d) (payroll_tables d).

Definition over_tills (f : TillsTables -> TillsTables) (d : database) : database :=
  mkDatabase (directory_tables d) (catalog_tables d) (ledger_tables d) (stock_tables d) (selling_tables d) (f (tills_tables d)) (fiscal_tables d) (trail_tables d) (purchasing_tables d) (payables_tables d) (transit_tables d) (people_tables d) (payroll_tables d).

Definition over_fiscal (f : FiscalTables -> FiscalTables) (d : database) : database :=
  mkDatabase (directory_tables d) (catalog_tables d) (ledger_tables d) (stock_tables d) (selling_tables d) (tills_tables d) (f (fiscal_tables d)) (trail_tables d) (purchasing_tables d) (payables_tables d) (transit_tables d) (people_tables d) (payroll_tables d).

Definition over_trail (f : TrailTables -> TrailTables) (d : database) : database :=
  mkDatabase (directory_tables d) (catalog_tables d) (ledger_tables d) (stock_tables d) (selling_tables d) (tills_tables d) (fiscal_tables d) (f (trail_tables d)) (purchasing_tables d) (payables_tables d) (transit_tables d) (people_tables d) (payroll_tables d).

Definition over_purchasing (f : PurchasingTables -> PurchasingTables) (d : database) : database :=
  mkDatabase (directory_tables d) (catalog_tables d) (ledger_tables d) (stock_tables d) (selling_tables d) (tills_tables d) (fiscal_tables d) (trail_tables d) (f (purchasing_tables d)) (payables_tables d) (transit_tables d) (people_tables d) (payroll_tables d).

Definition over_payables (f : PayablesTables -> PayablesTables) (d : database) : database :=
  mkDatabase (directory_tables d) (catalog_tables d) (ledger_tables d) (stock_tables d) (selling_tables d) (tills_tables d) (fiscal_tables d) (trail_tables d) (purchasing_tables d) (f (payables_tables d)) (transit_tables d) (people_tables d) (payroll_tables d).

Definition over_transit (f : TransitTables -> TransitTables) (d : database) : database :=
  mkDatabase (directory_tables d) (catalog_tables d) (ledger_tables d) (stock_tables d) (selling_tables d) (tills_tables d) (fiscal_tables d) (trail_tables d) (purchasing_tables d) (payables_tables d) (f (transit_tables d)) (people_tables d) (payroll_tables d).

Definition over_people (f : PeopleTables -> PeopleTables) (d : database) : database :=
  mkDatabase (directory_tables d) (catalog_tables d) (ledger_tables d) (stock_tables d) (selling_tables d) (tills_tables d) (fiscal_tables d) (trail_tables d) (purchasing_tables d) (payables_tables d) (transit_tables d) (f (people_tables d)) (payroll_tables d).

Definition over_payroll (f : PayrollTables -> PayrollTables) (d : database) : database :=
  mkDatabase (directory_tables d) (catalog_tables d) (ledger_tables d) (stock_tables d) (selling_tables d) (tills_tables d) (fiscal_tables d) (trail_tables d) (purchasing_tables d) (payables_tables d) (transit_tables d) (people_tables d) (f (payroll_tables d)).

Definition over_stores (f : list Store -> list Store) : database -> database :=
  over_directory (fun x => mkDirectory (f (directory_stores x)) (directory_users x) (directory_roles x) (directory_permissions x) (directory_role_permissions x) (directory_user_roles x)).

Definition over_users (f : list User -> list User) : database -> database :=
  over_directory (fun x => mkDirectory (directory_stores x) (f (directory_users x)) (directory_roles x) (directory_permissions x) (directory_role_permissions x) (directory_user_roles x)).

Definition over_roles (f : list Role -> list Role) : database -> database :=
  over_directory (fun x => mkDirectory (directory_stores x) (directory_users x) (f (directory_roles x)) (directory_permissions x) (directory_role_permissions x) (directory_user_roles x)).

Definition over_permissions (f : list Permission -> list Permission) : database -> database :=
  over_directory (fun x => mkDirectory (directory_stores x) (directory_users x) (directory_roles x) (f (directory_permissions x)) (directory_role_permissions x) (directory_user_roles x)).

Definition over_role_permissions (f : list RolePermission -> list RolePermission) : database -> database :=
  over_directory (fun x => mkDirectory (directory_stores x) (directory_users x) (directory_roles x) (directory_permissions x) (f (directory_role_permissions x)) (directory_user_roles x)).

Definition over_user_roles (f : list UserRole -> list UserRole) : database -> database :=
  over_directory (fun x => mkDirectory (directory_stores x) (directory_users x) (directory_roles x) (directory_permissions x) (directory_role_permissions x) (f (directory_user_roles x))).

Definition over_products (f : list Product -> list Product) : database -> database :=
  over_catalog (fun x => mkCatalog (f (catalog_products x)) (catalog_tax_rates x)).

Definition over_tax_rates (f : list TaxRate -> list TaxRate) : database -> database :=
  over_catalog (fun x => mkCatalog (catalog_products x) (f (catalog_tax_rates x))).

Definition over_accounts (f : list Account -> list Account) : database -> database :=
  over_ledger (fun x => mkLedger (f (ledger_accounts x)) (ledger_journal_entries x) (ledger_journal_lines x) (ledger_accounting_periods x)).

Definition over_journal_entries (f : list JournalEntry -> list JournalEntry) : database -> database :=
  over_ledger (fun x => mkLedger (ledger_accounts x) (f (ledger_journal_entries x)) (ledger_journal_lines x) (ledger_accounting_periods x)).

Definition over_journal_lines (f : list JournalLine -> list JournalLine) : database -> database :=
  over_ledger (fun x => mkLedger (ledger_accounts x) (ledger_journal_entries x) (f (ledger_journal_lines x)) (ledger_accounting_periods x)).

Definition over_accounting_periods (f : list AccountingPeriod -> list AccountingPeriod) : database -> database :=
  over_ledger (fun x => mkLedger (ledger_accounts x) (ledger_journal_entries x) (ledger_journal_lines x) (f (ledger_accounting_periods x))).

Definition over_inventory_movements (f : list InventoryMovement -> list InventoryMovement) : database -> database :=
  over_stock (fun x => mkStock (f (stock_inventory_movements x)) (stock_stock_adjustments x) (stock_stock_counts x) (stock_stock_count_lines x)).

Definition over_stock_adjustments (f : list StockAdjustment -> list StockAdjustment) : database -> database :=
  over_stock (fun x => mkStock (stock_inventory_movements x) (f (stock_stock_adjustments x)) (stock_stock_counts x) (stock_stock_count_lines x)).

Definition over_stock_counts (f : list StockCount -> list StockCount) : database -> database :=
  over_stock (fun x => mkStock (stock_inventory_movements x) (stock_stock_adjustments x) (f (stock_stock_counts x)) (stock_stock_count_lines x)).

Definition over_stock_count_lines (f : list StockCountLine -> list StockCountLine) : database -> database :=
  over_stock (fun x => mkStock (stock_inventory_movements x) (stock_stock_adjustments x) (stock_stock_counts x) (f (stock_stock_count_lines x))).

Definition over_sales (f : list Sale -> list Sale) : database -> database :=
  over_selling (fun x => mkSelling (f (selling_sales x)) (selling_sale_items x) (selling_payments x) (selling_sale_returns x) (selling_sale_return_items x)).

Definition over_sale_items (f : list SaleItem -> list SaleItem) : database -> database :=
  over_selling (fun x => mkSelling (selling_sales x) (f (selling_sale_items x)) (selling_payments x) (selling_sale_returns x) (selling_sale_return_items x)).

Definition over_payments (f : list Payment -> list Payment) : database -> database :=
  over_selling (fun x => mkSelling (selling_sales x) (selling_sale_items x) (f (selling_payments x)) (selling_sale_returns x) (selling_sale_return_items x)).

Definition over_sale_returns (f : list SaleReturn -> list SaleReturn) : database -> database :=
  over_selling (fun x => mkSelling (selling_sales x) (selling_sale_items x) (selling_payments x) (f (selling_sale_returns x)) (selling_sale_return_items x)).

Definition over_sale_return_items (f : list SaleReturnItem -> list SaleReturnItem) : database -> database :=
  over_selling (fun x => mkSelling (selling_sales x) (selling_sale_items x) (selling_payments x) (selling_sale_returns x) (f (selling_sale_return_items x))).

Definition over_cashier_shifts (f : list CashierShift -> list CashierShift) : database -> database :=
  over_tills (fun x => mkTills (f (tills_cashier_shifts x)) (tills_cash_movements x)).

Definition over_cash_movements (f : list CashMovement -> list CashMovement) : database -> database :=
  over_tills (fun x => mkTills (tills_cashier_shifts x) (f (tills_cash_movements x))).

Definition over_fiscal_configs (f : list FiscalConfig -> list FiscalConfig) : database -> database :=
  over_fiscal (fun x => mkFiscal (f (fiscal_fiscal_configs x)) (fiscal_fiscal_submissions x)).

Definition over_fiscal_submissions (f : list FiscalSubmission -> list FiscalSubmission) : database -> database :=
  over_fiscal (fun x => mkFiscal (fiscal_fiscal_configs x) (f (fiscal_fiscal_submissions x))).

Definition over_audit_logs (f : list AuditLog -> list AuditLog) : database -> database :=
  over_trail (fun x => mkTrail (f (trail_audit_logs x))).

Definition over_suppliers (f : list Supplier -> list Supplier) : database -> database :=
  over_purchasing (fun x => mkPurchasing (f (purchasing_suppliers x)) (purchasing_purchase_orders x) (purchasing_purchase_order_items x) (purchasing_goods_receipts x) (purchasing_goods_receipt_items x) (purchasing_purchase_returns x) (purchasing_purchase_return_items x)).

Definition over_purchase_orders (f : list PurchaseOrder -> list PurchaseOrder) : database -> database :=
  over_purchasing (fun x => mkPurchasing (purchasing_suppliers x) (f (purchasing_purchase_orders x)) (purchasing_purchase_order_items x) (purchasing_goods_receipts x) (purchasing_goods_receipt_items x) (purchasing_purchase_returns x) (purchasing_purchase_return_items x)).

Definition over_purchase_order_items (f : list PurchaseOrderItem -> list PurchaseOrderItem) : database -> database :=
  over_purchasing (fun x => mkPurchasing (purchasing_suppliers x) (purchasing_purchase_orders x) (f (purchasing_purchase_order_items x)) (purchasing_goods_receipts x) (purchasing_goods_receipt_items x) (purchasing_purchase_returns x) (purchasing_purchase_return_items x)).

Definition over_goods_receipts (f : list GoodsReceipt -> list GoodsReceipt) : database -> database :=
  over_purchasing (fun x => mkPurchasing (purchasing_suppliers x) (purchasing_purchase_orders x) (purchasing_purchase_order_items x) (f (purchasing_goods_receipts x)) (purchasing_goods_receipt_items x) (purchasing_purchase_returns x) (purchasing_purchase_return_items x)).

Definition over_goods_receipt_items (f : list GoodsReceiptItem -> list GoodsReceiptItem) : database -> database :=
  over_purchasing (fun x => mkPurchasing (purchasing_suppliers x) (purchasing_purchase_orders x) (purchasing_purchase_order_items x) (purchasing_goods_receipts x) (f (purchasing_goods_receipt_items x)) (purchasing_purchase_returns x) (purchasing_purchase_return_items x)).

Definition over_purchase_returns (f : list PurchaseReturn -> list PurchaseReturn) : database -> database :=
  over_purchasing (fun x => mkPurchasing (purchasing_suppliers x) (purchasing_purchase_orders x) (purchasing_purchase_order_items x) (purchasing_goods_receipts x) (purchasing_goods_receipt_items x) (f (purchasing_purchase_returns x)) (purchasing_purchase_return_items x)).

Definition over_purchase_return_items (f : list PurchaseReturnItem -> list PurchaseReturnItem) : database -> database :=
  over_purchasing (fun x => mkPurchasing (purchasing_suppliers x) (purchasing_purchase_orders x) (purchasing_purchase_order_items x) (purchasing_goods_receipts x) (purchasing_goods_receipt_items x) (purchasing_purchase_returns x) (f (purchasing_purchase_return_items x))).

Definition over_purchase_invoices (f : list PurchaseInvoice -> list PurchaseInvoice) : database -> database :=
  over_payables (fun x => mkPayables (f (payables_purchase_invoices x)) (payables_purchase_invoice_lines x) (payables_receipt_matches x) (payables_supplier_payments x) (payables_payment_allocations x) (payables_credit_notes x) (payables_credit_note_lines x) (payables_credit_allocations x) (payables_payment_reversals x) (payables_credit_note_reversals x)).

Definition over_purchase_invoice_lines (f : list PurchaseInvoiceLine -> list PurchaseInvoiceLine) : database -> database :=
  over_payables (fun x => mkPayables (payables_purchase_invoices x) (f (payables_purchase_invoice_lines x)) (payables_receipt_matches x) (payables_supplier_payments x) (payables_payment_allocations x) (payables_credit_notes x) (payables_credit_note_lines x) (payables_credit_allocations x) (payables_payment_reversals x) (payables_credit_note_reversals x)).

Definition over_receipt_matches (f : list PurchaseInvoiceReceiptMatch -> list PurchaseInvoiceReceiptMatch) : database -> database :=
  over_payables (fun x => mkPayables (payables_purchase_invoices x) (payables_purchase_invoice_lines x) (f (payables_receipt_matches x)) (payables_supplier_payments x) (payables_payment_allocations x) (payables_credit_notes x) (payables_credit_note_lines x) (payables_credit_allocations x) (payables_payment_reversals x) (payables_credit_note_reversals x)).

Definition over_supplier_payments (f : list SupplierPayment -> list SupplierPayment) : database -> database :=
  over_payables (fun x => mkPayables (payables_purchase_invoices x) (payables_purchase_invoice_lines x) (payables_receipt_matches x) (f (payables_supplier_payments x)) (payables_payment_allocations x) (payables_credit_notes x) (payables_credit_note_lines x) (payables_credit_allocations x) (payables_payment_reversals x) (payables_credit_note_reversals x)).

Definition over_payment_allocations (f : list SupplierPaymentAllocation -> list SupplierPaymentAllocation) : database -> database :=
  over_payables (fun x => mkPayables (payables_purchase_invoices x) (payables_purchase_invoice_lines x) (payables_receipt_matches x) (payables_supplier_payments x) (f (payables_payment_allocations x)) (payables_credit_notes x) (payables_credit_note_lines x) (payables_credit_allocations x) (payables_payment_reversals x) (payables_credit_note_reversals x)).

Definition over_credit_notes (f : list SupplierCreditNote -> list SupplierCreditNote) : database -> database :=
  over_payables (fun x => mkPayables (payables_purchase_invoices x) (payables_purchase_invoice_lines x) (payables_receipt_matches x) (payables_supplier_payments x) (payables_payment_allocations x) (f (payables_credit_notes x)) (payables_credit_note_lines x) (payables_credit_allocations x) (payables_payment_reversals x) (payables_credit_note_reversals x)).

Definition over_credit_note_lines (f : list SupplierCreditNoteLine -> list SupplierCreditNoteLine) : database -> database :=
  over_payables (fun x => mkPayables (payables_purchase_invoices x) (payables_purchase_invoice_lines x) (payables_receipt_matches x) (payables_supplier_payments x) (payables_payment_allocations x) (payables_credit_notes x) (f (payables_credit_note_lines x)) (payables_credit_allocations x) (payables_payment_reversals x) (payables_credit_note_reversals x)).

Definition over_credit_allocations (f : list SupplierCreditAllocation -> list SupplierCreditAllocation) : database -> database :=
  over_payables (fun x => mkPayables (payables_purchase_invoices x) (payables_purchase_invoice_lines x) (payables_receipt_matches x) (payables_supplier_payments x) (payables_payment_allocations x) (payables_credit_notes x) (payables_credit_note_lines x) (f (payables_credit_allocations x)) (payables_payment_reversals x) (payables_credit_note_reversals x)).

Definition over_payment_reversals (f : list SupplierPaymentReversal -> list SupplierPaymentReversal) : database -> database :=
  over_payables (fun x => mkPayables (payables_purchase_invoices x) (payables_purchase_invoice_lines x) (payables_receipt_matches x) (payables_supplier_payments x) (payables_payment_allocations x) (payables_credit_notes x) (payables_credit_note_lines x) (payables_credit_allocations x) (f (payables_payment_reversals x)) (payables_credit_note_reversals x)).

Definition over_credit_note_reversals (f : list SupplierCreditNoteReversal -> list SupplierCreditNoteReversal) : database -> database :=
  over_payables (fun x => mkPayables (payables_purchase_invoices x) (payables_purchase_invoice_lines x) (payables_receipt_matches x) (payables_supplier_payments x) (payables_payment_allocations x) (payables_credit_notes x) (payables_credit_note_lines x) (payables_credit_allocations x) (payables_payment_reversals x) (f (payables_credit_note_reversals x))).

Definition over_transfers (f : list InterStoreTransfer -> list InterStoreTransfer) : database -> database :=
  over_transit (fun x => mkTransit (f (transit_transfers x)) (transit_transfer_lines x) (transit_transfer_receipts x) (transit_transfer_receipt_items x) (transit_custody_acceptances x) (transit_discrepancies x) (transit_approval_rules x) (transit_write_offs x) (transit_write_off_approvals x)).

Definition over_transfer_lines (f : list InterStoreTransferLine -> list InterStoreTransferLine) : database -> database :=
  over_transit (fun x => mkTransit (transit_transfers x) (f (transit_transfer_lines x)) (transit_transfer_receipts x) (transit_transfer_receipt_items x) (transit_custody_acceptances x) (transit_discrepancies x) (transit_approval_rules x) (transit_write_offs x) (transit_write_off_approvals x)).

Definition over_transfer_receipts (f : list InterStoreTransferReceipt -> list InterStoreTransferReceipt) : database -> database :=
  over_transit (fun x => mkTransit (transit_transfers x) (transit_transfer_lines x) (f (transit_transfer_receipts x)) (transit_transfer_receipt_items x) (transit_custody_acceptances x) (transit_discrepancies x) (transit_approval_rules x) (transit_write_offs x) (transit_write_off_approvals x)).

Definition over_transfer_receipt_items (f : list InterStoreTransferReceiptItem -> list InterStoreTransferReceiptItem) : database -> database :=
  over_transit (fun x => mkTransit (transit_transfers x) (transit_transfer_lines x) (transit_transfer_receipts x) (f (transit_transfer_receipt_items x)) (transit_custody_acceptances x) (transit_discrepancies x) (transit_approval_rules x) (transit_write_offs x) (transit_write_off_approvals x)).

Definition over_custody_acceptances (f : list TransferCustodyAcceptance -> list TransferCustodyAcceptance) : database -> database :=
  over_transit (fun x => mkTransit (transit_transfers x) (transit_transfer_lines x) (transit_transfer_receipts x) (transit_transfer_receipt_items x) (f (transit_custody_acceptances x)) (transit_discrepancies x) (transit_approval_rules x) (transit_write_offs x) (transit_write_off_approvals x)).

Definition over_discrepancies (f : list ReceivingDiscrepancy -> list ReceivingDiscrepancy) : database -> database :=
  over_transit (fun x => mkTransit (transit_transfers x) (transit_transfer_lines x) (transit_transfer_receipts x) (transit_transfer_receipt_items x) (transit_custody_acceptances x) (f (transit_discrepancies x)) (transit_approval_rules x) (transit_write_offs x) (transit_write_off_approvals x)).

Definition over_approval_rules (f : list ApprovalPolicyRule -> list ApprovalPolicyRule) : database -> database :=
  over_transit (fun x => mkTransit (transit_transfers x) (transit_transfer_lines x) (transit_transfer_receipts x) (transit_transfer_receipt_items x) (transit_custody_acceptances x) (transit_discrepancies x) (f (transit_approval_rules x)) (transit_write_offs x) (transit_write_off_approvals x)).

Definition over_write_offs (f : list TransferWriteOff -> list TransferWriteOff) : database -> database :=
  over_transit (fun x => mkTransit (transit_transfers x) (transit_transfer_lines x) (transit_transfer_receipts x) (transit_transfer_receipt_items x) (transit_custody_acceptances x) (transit_discrepancies x) (transit_approval_rules x) (f (transit_write_offs x)) (transit_write_off_approvals x)).

Definition over_write_off_approvals (f : list WriteOffApproval -> list WriteOffApproval) : database -> database :=
  over_transit (fun x => mkTransit (transit_transfers x) (transit_transfer_lines x) (transit_transfer_receipts x) (transit_transfer_receipt_items x) (transit_custody_acceptances x) (transit_discrepancies x) (transit_approval_rules x) (transit_write_offs x) (f (transit_write_off_approvals x))).

Definition over_departments (f : list Department -> list Department) : database -> database :=
  over_people (fun x => mkPeople (f (people_departments x)) (people_positions x) (people_employees x) (people_status_periods x) (people_assignments x) (people_compensations x) (people_overtime_policies x) (people_attendance_records x)).

Definition over_positions (f : list Position -> list Position) : database -> database :=
  over_people (fun x => mkPeople (people_departments x) (f (people_positions x)) (people_employees x) (people_status_periods x) (people_assignments x) (people_compensations x) (people_overtime_policies x) (people_attendance_records x)).

Definition over_employees (f : list Employee -> list Employee) : database -> database :=
  over_people (fun x => mkPeople (people_departments x) (people_positions x) (f (people_employees x)) (people_status_periods x) (people_assignments x) (people_compensations x) (people_overtime_policies x) (people_attendance_records x)).

Definition over_status_periods (f : list EmploymentStatusPeriod -> list EmploymentStatusPeriod) : database -> database :=
  over_people (fun x => mkPeople (people_departments x) (people_positions x) (people_employees x) (f (people_status_periods x)) (people_assignments x) (people_compensations x) (people_overtime_policies x) (people_attendance_records x)).

Definition over_assignments (f : list EmploymentAssignment -> list EmploymentAssignment) : database -> database :=
  over_people (fun x => mkPeople (people_departments x) (people_positions x) (people_employees x) (people_status_periods x) (f (people_assignments x)) (people_compensations x) (people_overtime_policies x) (people_attendance_records x)).

Definition over_compensations (f : list CompensationPeriod -> list CompensationPeriod) : database -> database :=
  over_people (fun x => mkPeople (people_departments x) (people_positions x) (people_employees x) (people_status_periods x) (people_assignments x) (f (people_compensations x)) (people_overtime_policies x) (people_attendance_records x)).

Definition over_overtime_policies (f : list OvertimePolicy -> list OvertimePolicy) : database -> database :=
  over_people (fun x => mkPeople (people_departments x) (people_positions x) (people_employees x) (people_status_periods x) (people_assignments x) (people_compensations x) (f (people_overtime_policies x)) (people_attendance_records x)).

Definition over_attendance_records (f : list AttendanceRecord -> list AttendanceRecord) : database -> database :=
  over_people (fun x => mkPeople (people_departments x) (people_positions x) (people_employees x) (people_status_periods x) (people_assignments x) (people_compensations x) (people_overtime_policies x) (f (people_attendance_records x))).

Definition over_deduction_types (f : list DeductionType -> list DeductionType) : database -> database :=
  over_payroll (fun x => mkPayroll (f (payroll_deduction_types x)) (payroll_deduction_rates x) (payroll_payroll_periods x) (payroll_payroll_results x) (payroll_payroll_earnings x) (payroll_payroll_deductions x) (payroll_payroll_reversals x)).

Definition over_deduction_rates (f : list DeductionRate -> list DeductionRate) : database -> database :=
  over_payroll (fun x => mkPayroll (payroll_deduction_types x) (f (payroll_deduction_rates x)) (payroll_payroll_periods x) (payroll_payroll_results x) (payroll_payroll_earnings x) (payroll_payroll_deductions x) (payroll_payroll_reversals x)).

Definition over_payroll_periods (f : list PayrollPeriod -> list PayrollPeriod) : database -> database :=
  over_payroll (fun x => mkPayroll (payroll_deduction_types x) (payroll_deduction_rates x) (f (payroll_payroll_periods x)) (payroll_payroll_results x) (payroll_payroll_earnings x) (payroll_payroll_deductions x) (payroll_payroll_reversals x)).

Definition over_payroll_results (f : list PayrollEmployeeResult -> list PayrollEmployeeResult) : database -> database :=
  over_payroll (fun x => mkPayroll (payroll_deduction_types x) (payroll_deduction_rates x) (payroll_payroll_periods x) (f (payroll_payroll_results x)) (payroll_payroll_earnings x) (payroll_payroll_deductions x) (payroll_payroll_reversals x)).

Definition over_payroll_earnings (f : list PayrollEarningLine -> list PayrollEarningLine) : database -> database :=
  over_payroll (fun x => mkPayroll (payroll_deduction_types x) (payroll_deduction_rates x) (payroll_payroll_periods x) (payroll_payroll_results x) (f (payroll_payroll_earnings x)) (payroll_payroll_deductions x) (payroll_payroll_reversals x)).

Definition over_payroll_deductions (f : list PayrollDeductionLine -> list PayrollDeductionLine) : database -> database :=
  over_payroll (fun x => mkPayroll (payroll_deduction_types x) (payroll_deduction_rates x) (payroll_payroll_periods x) (payroll_payroll_results x) (payroll_payroll_earnings x) (f (payroll_payroll_deductions x)) (payroll_payroll_reversals x)).

Definition over_payroll_reversals (f : list PayrollReversal -> list PayrollReversal) : database -> database :=
  over_payroll (fun x => mkPayroll (payroll_deduction_types x) (payroll_deduction_rates x) (payroll_payroll_periods x) (payroll_payroll_results x) (payroll_payroll_earnings x) (payroll_payroll_deductions x) (f (payroll_payroll_reversals x))).

Definition empty_database : database :=
  mkDatabase (mkDirectory [] [] [] [] [] [])
    (mkCatalog [] [])
    (mkLedger [] [] [] [])
    (mkStock [] [] [] [])
    (mkSelling [] [] [] [] [])
    (mkTills [] [])
    (mkFiscal [] [])
    (mkTrail [])
    (mkPurchasing [] [] [] [] [] [] [])
    (mkPayables [] [] [] [] [] [] [] [] [] [])
    (mkTransit [] [] [] [] [] [] [] [] [])
    (mkPeople [] [] [] [] [] [] [] [])
    (mkPayroll [] [] [] [] [] [] []).

