(* ===== verification/Tables.v ===== *)
(** * The ORM mapping: tables, constraints, flushes

    [Table R] is what SQLAlchemy knows of a model class: where its rows live,
    which CHECK constraints and foreign keys a row must satisfy and which
    unique indexes two rows may not share.  [add], [get] and [update] are
    [db.add] + [db.flush], [db.get] and a flushed attribute assignment.
    [deferred_ok] is the constraint trigger [trg_journal_lines_balance] that
    PostgreSQL runs at commit. *)

From S2P Require Import Prelude Fixed Session Schema.

Class Table (R : Type) := {
  table : database -> list R;
  over_table : (list R -> list R) -> database -> database;
  constraints : database -> R -> list (string * bool);
  uniques : list (string * (R -> R -> bool));
  (** a write is read back *)
  table_over : forall f d, table (over_table f d) = f (table d);
}.

Notation Tx := (M database).

Definition first_violation (cs : list (string * bool)) : option string :=
  head (omap (fun c : string * bool => if c.2 then None else Some c.1) cs).

Section Operations.
Context {R : Type} `{Table R}.

Definition unique_violation (r : R) (t : list R) : option string :=
  head (omap (fun u : string * (R -> R -> bool) =>
                if existsb (u.2 r) t then Some u.1 else None) uniques).

Definition row_violation (d : database) (r : R) (others : list R) : option string :=
  match first_violation (constraints d r) with
  | Some c => Some c
  | None => unique_violation r others
  end.

Definition add (r : R) : Tx Z := fun s =>
  match row_violation (working s) r (table (working s)) with
  | Some c => (Raise (IntegrityError c), s)
  | None => (Ok (next_id (table (working s))),
             with_working (over_table (fun t => t ++ [r]) (working s)) s)
  end.

Definition get (id : Z) : Tx (option R) := gets (fun d => row_of (table d) id).

Definition all_but (id : Z) (t : list R) : list R :=
  map snd (List.filter (fun ir => negb (ir.1 =? id)) (with_ids t)).

(** Assign attributes of the persistent row [id] and flush. *)
Definition update (id : Z) (f : R -> R) : Tx unit := fun s =>
  match row_of (table (working s)) id with
  | None => (Raise NoResultFound, s)
  | Some r =>
      match row_violation (working s) (f r) (all_but id (table (working s))) with
      | Some c => (Raise (IntegrityError c), s)
      | None => (Ok tt, with_working (over_table (set_row id f) (working s)) s)
      end
  end.

(** [select(R).where(p)] *)
Definition query (p : Z -> R -> bool) : Tx (list (Z * R)) :=
  gets (fun d => select p (table d)).

Definition row_valid (d : database) (r : R) : Prop :=
  Forall (fun c => c.2 = true) (constraints d r).

Lemma first_violation_None cs :
  first_violation cs = None <-> Forall (fun c => c.2 = true) cs.
Proof.
  unfold first_violation. induction cs as [|[n []] cs IH]; simpl.
  - done.
  - rewrite Forall_cons. simpl. tauto.
  - rewrite Forall_cons. simpl. split; [done|by intros [? _]].
Qed.

Lemma add_ok r s id s' :
  add r s = (Ok id, s') ->
  id = next_id (table (working s)) /\
  row_valid (working s) r /\
  unique_violation r (table (working s)) = None /\
  s' = with_working (over_table (fun t => t ++ [r]) (working s)) s.
Proof.
  unfold add, row_violation.
  destruct (first_violation _) eqn:E1; [done|].
  destruct (unique_violation _ _) eqn:E2; [done|].
  intros [= <- <-]. apply first_violation_None in E1. done.
Qed.

Lemma get_ok id s o s' :
  get id s = (Ok o, s') -> o = row_of (table (working s)) id /\ s = s'.
Proof. intros H0. by apply gets_ok in H0. Qed.

Lemma query_ok p s l s' :
  query p s = (Ok l, s') -> l = select p (table (working s)) /\ s = s'.
Proof. intros H0. by apply gets_ok in H0. Qed.

Lemma update_ok id f s u s' :
  update id f s = (Ok u, s') ->
  exists r, row_of (table (working s)) id = Some r /\
    row_valid (working s) (f r) /\
    unique_violation (f r) (all_but id (table (working s))) = None /\
    s' = with_working (over_table (set_row id f) (working s)) s.
Proof.
  unfold update, row_violation. destruct (row_of _ id) as [r|]; [|done].
  destruct (first_violation _) eqn:E1; [done|].
  destruct (unique_violation _ _) eqn:E2; [done|].
  intros [= _ <-]. apply first_violation_None in E1. eauto.
Qed.

Lemma unique_violation_None r t :
  unique_violation r t = None ->
  forall n u, (n, u) ∈ uniques -> forall x, x ∈ t -> u r x = false.
Proof.
  unfold unique_violation. induction uniques as [|[n v] us IH]; intros Hn m u Hu x Hx.
  { by apply elem_of_nil in Hu. }
  simpl in Hn. destruct (existsb (v r) t) eqn:E; [done|].
  apply elem_of_cons in Hu as [[= -> ->]|Hu]; [|by eapply IH].
  apply not_true_is_false. intros Hv. apply not_true_iff_false in E. apply E.
  apply existsb_exists. exists x. by rewrite <- list_elem_of_In.
Qed.

(** The check name [n] held for a row that was written. *)
Lemma row_valid_elem d r n b : row_valid d r -> (n, b) ∈ constraints d r -> b = true.
Proof. unfold row_valid. rewrite Forall_forall. intros Hv Hin. by apply (Hv (n, b)). Qed.

Lemma update_cases id f s :
  (exists e, update id f s = (Raise e, s)) \/
  update id f s = (Ok tt, with_working (over_table (set_row id f) (working s)) s).
Proof.
  unfold update. destruct (row_of _ id) as [r|]; [|eauto].
  destruct (row_violation _ _ _); eauto.
Qed.

Lemma add_fixes {X} (f : session database -> X) r :
  (forall g s, f (with_working (over_table g (working s)) s) = f s) ->
  fixes f (add r).
Proof. intros Hf s. unfold add. by destruct (row_violation _ _ _); simpl. Qed.

Lemma update_fixes {X} (f : session database -> X) id g :
  (forall g s, f (with_working (over_table g (working s)) s) = f s) ->
  fixes f (update id g).
Proof.
  intros Hf s. unfold update. destruct (row_of _ _); [|done].
  by destruct (row_violation _ _ _); simpl.
Qed.

Lemma get_fixes {X} (f : session database -> X) id : fixes f (get id).
Proof. done. Qed.

Lemma query_fixes {X} (f : session database -> X) p : fixes f (query p).
Proof. done. Qed.
End Operations.

#[export] Hint Resolve get_fixes query_fixes : fixes.
#[export] Hint Extern 2 (fixes _ (add _)) =>
  (apply add_fixes; intros; reflexivity) : fixes.
#[export] Hint Extern 2 (fixes _ (update _ _)) =>
  (apply update_fixes; intros; reflexivity) : fixes.

(** ** What a unique index or an exclusion constraint says of a table *)

Section Pairwise.
Context {R : Type} `{Table R} (u : R -> R -> bool).

Definition pairwise (t : list R) : Prop :=
  forall i j a b, row_of t i = Some a -> row_of t j = Some b -> i <> j -> u a b = false.

Lemma elem_all_but t i j b : row_of t j = Some b -> i <> j -> b ∈ (all_but i t : list R).
Proof.
  intros Hj Hij. unfold all_but. apply list_elem_of_fmap. exists (j, b). split; [done|].
  rewrite list_elem_of_In, filter_In, <- list_elem_of_In, elem_with_ids. split; [done|].
  simpl. by destruct (Z.eqb_spec j i).
Qed.

Context (symmetric : forall a b, u a b = u b a).

Lemma pairwise_app t r n :
  (n, u) ∈ (uniques : list (string * (R -> R -> bool))) -> pairwise t -> unique_violation r t = None -> pairwise (t ++ [r]).
Proof.
  intros Hn Ht Hr i j a b [Ha|[-> ->]]%row_of_inv_app [Hb|[-> ->]]%row_of_inv_app Hij; [by eapply Ht| | |done].
  - rewrite symmetric. eapply unique_violation_None; [done..|]. by eapply row_of_elem.
  - eapply unique_violation_None; [done..|]. by eapply row_of_elem.
Qed.

Lemma pairwise_set t k f r n :
  (n, u) ∈ uniques -> pairwise t -> row_of t k = Some r ->
  unique_violation (f r) (all_but k t) = None -> pairwise (set_row k f t).
Proof.
  intros Hn Ht Hk Hu i j a b. rewrite !row_of_set.
  assert (Hother : forall x y, row_of t x = Some y -> k <> x -> u (f r) y = false).
  { intros x y Hx Hne. eapply unique_violation_None; [done..|]. by eapply elem_all_but. }
  repeat case_bool_decide; subst; [done| | |]; rewrite ?Hk; simpl.
  - intros [= <-] Hb _. by apply Hother with j.
  - intros Ha [= <-] _. rewrite symmetric. by apply Hother with i.
  - intros Ha Hb Hij. by apply (Ht i j).
Qed.
End Pairwise.

(** ** Idempotent inserts

    [select(R).where(key)] by a unique key, and the insert whose
    IntegrityError is answered with the row a concurrent request committed
    under the same key. *)

Section Idempotent.
Context {R : Type} `{Table R}.

Definition find_by (p : R -> bool) : Tx (option (Z * R)) :=
  found ← query (fun _ r => p r);
  scalar_one_or_none found.

(** The row's id, and whether it is new. *)
Definition insert_or_winner (p : R -> bool) (r : R) : Tx (Z * bool) :=
  except_integrity (i ← add r; mret (i, true))
    (fun e => _ ← rollback;
              winner ← find_by p;
              match winner with
              | None => raise e
              | Some (i, _) => mret (i, false)
              end).

Lemma find_by_ok p s o s' :
  find_by p s = (Ok o, s') ->
  s' = s /\
  select (fun _ r => p r) (table (working s)) = match o with Some ir => [ir] | None => [] end.
Proof.
  unfold find_by. intros E. apply bind_ok in E as (l & s1 & H1 & E). apply query_ok in H1 as [-> <-].
  apply scalar_one_or_none_ok in E as [<- E]. by destruct o.
Qed.

Lemma find_by_run p s i r :
  select (fun _ x => p x) (table (working s)) = [(i, r)] -> find_by p s = (Ok (Some (i, r)), s).
Proof. intros Hs. unfold find_by. erewrite bind_ok_intro by reflexivity. simpl. by rewrite Hs. Qed.

Lemma find_by_fixes {X} (f : session database -> X) p : fixes f (find_by p).
Proof. unfold find_by. solve_fixes. Qed.

Lemma insert_or_winner_ok p r s i new s' :
  insert_or_winner p r s = (Ok (i, new), s') ->
  (new = true /\ i = next_id (table (working s)) /\ row_valid (working s) r /\
     unique_violation r (table (working s)) = None /\
     s' = with_working (over_table (fun t => t ++ [r]) (working s)) s) \/
  (new = false /\ s' = with_working (committed s) s /\
     exists x, select (fun _ r => p r) (table (committed s)) = [(i, x)]).
Proof.
  unfold insert_or_winner. intros E.
  apply except_integrity_ok in E as [E|(c & s1 & Hr & E)].
  - apply bind_ok in E as (j & s1 & H1 & E). apply ret_ok in E as [[= <- <-] <-].
    apply add_ok in H1 as (-> & Hv & Hu & ->). left. auto 6.
  - assert (s1 = s) as ->.
    { apply bind_raise_cases in Hr as [Hr|(j & s2 & _ & Hr)]; [|done].
      unfold add in Hr. destruct (row_violation _ _ _); by injection Hr. }
    apply bind_ok in E as ([] & s2 & H1 & E). injection H1 as <-.
    apply bind_ok in E as (w & s3 & H2 & E). apply find_by_ok in H2 as [-> H2].
    destruct w as [[k x]|]; [|done]. apply ret_ok in E as [[= <- <-] <-]. right. eauto.
Qed.

(** Without a violation the row is new. *)
Lemma insert_new p r s :
  row_violation (working s) r (table (working s)) = None ->
  insert_or_winner p r s
  = (Ok (next_id (table (working s)), true),
     with_working (over_table (fun t => t ++ [r]) (working s)) s).
Proof.
  intros E. unfold insert_or_winner, except_integrity, mbind, M_bind, add. by rewrite E.
Qed.
End Idempotent.

#[export] Hint Resolve find_by_fixes : fixes.

(** ** The model classes *)

Definition exists_row {R} (t : list R) (id : Z) : bool :=
  match row_of t id with Some _ => true | None => false end.

Lemma exists_row_true {R} (t : list R) id : exists_row t id = true -> is_Some (row_of t id).
Proof. unfold exists_row. destruct (row_of t id); [by eexists|done]. Qed.

Definition opt_all {A} (p : A -> bool) (o : option A) : bool :=
  match o with Some a => p a | None => true end.

Definition opt_some {A} (o : option A) : bool :=
  match o with Some _ => true | None => false end.

(** Two nullable keys collide when both are present and equal. *)
Definition same_key {A} `{EqDecision A} (a b : option A) : bool :=
  match a, b with Some x, Some y => bool_decide (x = y) | _, _ => false end.

#[export] Instance Store_table : Table Store := {|
  table d := stores d;
  over_table := over_stores;
  constraints _ r :=
    [("ck_stores_return_approval_threshold_non_negative"%string,
      opt_all (Z.leb 0) (return_approval_threshold_amount r));
     ("ck_stores_attendance_day_boundary_hour"%string,
      (0 <=? attendance_day_boundary_hour r) && (attendance_day_boundary_hour r <=? 23))];
  uniques := [];
  table_over _ _ := eq_refl;
|}.

#[export] Instance User_table : Table User := {|
  table d := users d;
  over_table := over_users;
  constraints _ _ := [];
  uniques := [("uq_users_username"%string,
               fun a b => bool_decide (username a = username b))];
  table_over _ _ := eq_refl;
|}.

#[export] Instance Role_table : Table Role := {|
  table d := roles d;
  over_table := over_roles;
  constraints _ _ := [];
  uniques := [("roles_name_key"%string, fun a b => bool_decide (role_name a = role_name b))];
  table_over _ _ := eq_refl;
|}.

#[export] Instance TaxRate_table : Table TaxRate := {|
  table d := tax_rates d;
  over_table := over_tax_rates;
  constraints _ r :=
    [("ck_tax_rates_rate_bounds"%string, (0 <=? rate_percent r) && (rate_percent r <=? 100000));
     ("ck_tax_rates_effective_range"%string, opt_all (Z.leb (effective_from r)) (effective_to r))];
  uniques := [];
  table_over _ _ := eq_refl;
|}.

#[export] Instance Product_table : Table Product := {|
  table d := products d;
  over_table := over_products;
  constraints _ r :=
    [("ck_products_price_non_negative"%string, 0 <=? current_price r);
     ("ck_products_cost_non_negative"%string, 0 <=? current_cost r);
     ("ck_products_stock_non_negative_unless_allowed"%string,
      allow_negative_stock r || (0 <=? current_qty_on_hand r))];
  uniques :=
    [("uq_products_store_sku"%string,
      fun a b => (product_store_id a =? product_store_id b) && bool_decide (sku a = sku b))];
  table_over _ _ := eq_refl;
|}.

#[export] Instance Account_table : Table Account := {|
  table d := accounts d;
  over_table := over_accounts;
  constraints _ _ := [];
  uniques := [("accounts_code_key"%string,
               fun a b => bool_decide (account_code a = account_code b))];
  table_over _ _ := eq_refl;
|}.

#[export] Instance JournalEntry_table : Table JournalEntry := {|
  table d := journal_entries d;
  over_table := over_journal_entries;
  constraints d r :=
    [("fk_journal_entries_store_id"%string, exists_row (stores d) (entry_store_id r));
     ("ck_journal_entries_reversal_consistency"%string,
      match entry_type r, reversal_of_id r with
      | REVERSAL, Some _ => true
      | STANDARD, None => true
      | _, _ => false
      end)];
  uniques :=
    [("journal_entries_journal_number_key"%string,
      fun a b => bool_decide (journal_number a = journal_number b));
     ("uq_journal_entries_source"%string,
      fun a b => bool_decide (entry_type a = STANDARD) && bool_decide (entry_type b = STANDARD)
                 && bool_decide (source_type a = source_type b)
                 && same_key (source_id a) (source_id b))];
  table_over _ _ := eq_refl;
|}.

#[export] Instance JournalLine_table : Table JournalLine := {|
  table d := journal_lines d;
  over_table := over_journal_lines;
  constraints d r :=
    [("fk_journal_lines_journal_entry_id"%string, exists_row (journal_entries d) (line_entry_id r));
     ("fk_journal_lines_account_id_accounts"%string, exists_row (accounts d) (line_account_id r));
     ("ck_journal_lines_debit_non_negative"%string, 0 <=? debit r);
     ("ck_journal_lines_credit_non_negative"%string, 0 <=? credit r);
     ("ck_journal_lines_exactly_one_side"%string,
      ((0 <? debit r) && (credit r =? 0)) || ((0 <? credit r) && (debit r =? 0)))];
  uniques := [];
  table_over _ _ := eq_refl;
|}.

#[export] Instance AccountingPeriod_table : Table AccountingPeriod := {|
  table d := accounting_periods d;
  over_table := over_accounting_periods;
  constraints d r :=
    [("fk_accounting_periods_store_id"%string, exists_row (stores d) (period_store_id r));
     ("ck_accounting_periods_valid_range"%string, period_start r <=? period_end r)];
  uniques :=
    [("excl_accounting_periods_no_overlap"%string,
      fun a b => (period_store_id a =? period_store_id b)
                 && (period_start a <=? period_end b)
                 && (period_start b <=? period_end a))];
  table_over _ _ := eq_refl;
|}.

#[export] Instance InventoryMovement_table : Table InventoryMovement := {|
  table d := inventory_movements d;
  over_table := over_inventory_movements;
  constraints d r :=
    [("fk_inventory_movements_store_id"%string, exists_row (stores d) (mv_store_id r));
     ("fk_inventory_movements_product_id"%string, exists_row (products d) (mv_product_id r));
     ("ck_inventory_movements_delta_nonzero"%string, negb (mv_quantity_delta r =? 0));
     ("ck_inventory_movements_unit_cost_non_negative"%string, 0 <=? unit_cost_at_movement r);
     ("ck_inventory_movements_direction"%string,
      if increasing (movement_type r) then 0 <? mv_quantity_delta r
      else mv_quantity_delta r <? 0)];
  uniques := [];
  table_over _ _ := eq_refl;
|}.

#[export] Instance StockAdjustment_table : Table StockAdjustment := {|
  table d := stock_adjustments d;
  over_table := over_stock_adjustments;
  constraints d r :=
    [("fk_stock_adjustments_store_id"%string, exists_row (stores d) (adj_store_id r));
     ("fk_stock_adjustments_product_id"%string, exists_row (products d) (adj_product_id r));
     ("ck_stock_adjustments_delta_nonzero"%string, negb (adj_quantity_delta r =? 0))];
  uniques :=
    [("stock_adjustments_client_transaction_id_key"%string,
      fun a b => same_key (adj_client_transaction_id a) (adj_client_transaction_id b))];
  table_over _ _ := eq_refl;
|}.

#[export] Instance StockCount_table : Table StockCount := {|
  table d := stock_counts d;
  over_table := over_stock_counts;
  constraints d r :=
    [("fk_stock_counts_store_id"%string, exists_row (stores d) (sc_store_id r))];
  uniques :=
    [("stock_counts_count_number_key"%string,
      fun a b => bool_decide (count_number a = count_number b))];
  table_over _ _ := eq_refl;
|}.

#[export] Instance StockCountLine_table : Table StockCountLine := {|
  table d := stock_count_lines d;
  over_table := over_stock_count_lines;
  constraints d r :=
    [("fk_stock_count_lines_stock_count_id"%string,
      exists_row (stock_counts d) (scl_stock_count_id r));
     ("fk_stock_count_lines_product_id"%string, exists_row (products d) (scl_product_id r));
     ("ck_stock_count_lines_expected_non_negative"%string, opt_all (Z.leb 0) (expected_quantity r));
     ("ck_stock_count_lines_counted_non_negative"%string, opt_all (Z.leb 0) (counted_quantity r))];
  uniques :=
    [("uq_stock_count_lines_count_product"%string,
      fun a b => (scl_stock_count_id a =? scl_stock_count_id b)
                 && (scl_product_id a =? scl_product_id b))];
  table_over _ _ := eq_refl;
|}.

#[export] Instance Sale_table : Table Sale := {|
  table d := sales d;
  over_table := over_sales;
  constraints d r :=
    [("fk_sales_store_id"%string, exists_row (stores d) (sale_store_id r));
     ("ck_sales_subtotal_non_negative"%string, 0 <=? subtotal r);
     ("ck_sales_discount_non_negative"%string, 0 <=? discount_total r);
     ("ck_sales_tax_non_negative"%string, 0 <=? tax_total r);
     ("ck_sales_grand_total_non_negative"%string, 0 <=? grand_total r);
     ("ck_sales_grand_total_consistent"%string,
      grand_total r =? subtotal r - discount_total r + tax_total r)];
  uniques :=
    [("sales_sale_number_key"%string, fun a b => bool_decide (sale_number a = sale_number b));
     ("sales_client_transaction_id_key"%string,
      fun a b => bool_decide (sale_client_transaction_id a = sale_client_transaction_id b))];
  table_over _ _ := eq_refl;
|}.

(** [round(quantity * unit_price_at_sale - discount_amount + tax_amount, 2)],
    whose exact value has five places. *)
Definition item_line_total_check (r : SaleItem) : bool :=
  line_total r =?
  div_half_up (item_quantity r * unit_price_at_sale r
               - 1000 * item_discount_amount r + 1000 * item_tax_amount r) 1000.

#[export] Instance SaleItem_table : Table SaleItem := {|
  table d := sale_items d;
  over_table := over_sale_items;
  constraints d r :=
    [("fk_sale_items_sale_id"%string, exists_row (sales d) (item_sale_id r));
     ("fk_sale_items_product_id"%string, exists_row (products d) (item_product_id r));
     ("ck_sale_items_quantity_positive"%string, 0 <? item_quantity r);
     ("ck_sale_items_price_non_negative"%string, 0 <=? unit_price_at_sale r);
     ("ck_sale_items_cost_non_negative"%string, 0 <=? unit_cost_at_sale r);
     ("ck_sale_items_discount_non_negative"%string, 0 <=? item_discount_amount r);
     ("ck_sale_items_tax_non_negative"%string, 0 <=? item_tax_amount r);
     ("ck_sale_items_line_total_consistent"%string, item_line_total_check r);
     ("ck_sale_items_quantity_returned_bounds"%string,
      (0 <=? quantity_returned r) && (quantity_returned r <=? item_quantity r))];
  uniques := [];
  table_over _ _ := eq_refl;
|}.

#[export] Instance Payment_table : Table Payment := {|
  table d := payments d;
  over_table := over_payments;
  constraints d r :=
    [("fk_payments_sale_id"%string, exists_row (sales d) (payment_sale_id r));
     ("ck_payments_amount_positive"%string, 0 <? payment_amount r)];
  uniques := [];
  table_over _ _ := eq_refl;
|}.

#[export] Instance SaleReturn_table : Table SaleReturn := {|
  table d := sale_returns d;
  over_table := over_sale_returns;
  constraints d r :=
    [("fk_sale_returns_sale_id"%string, exists_row (sales d) (return_sale_id r));
     ("fk_sale_returns_store_id"%string, exists_row (stores d) (return_store_id r));
     ("ck_sale_returns_refund_amount_non_negative"%string, 0 <=? refund_amount r)];
  uniques :=
    [("sale_returns_return_number_key"%string,
      fun a b => bool_decide (return_number a = return_number b));
     ("sale_returns_client_transaction_id_key"%string,
      fun a b => bool_decide (return_client_transaction_id a = return_client_transaction_id b))];
  table_over _ _ := eq_refl;
|}.

#[export] Instance SaleReturnItem_table : Table SaleReturnItem := {|
  table d := sale_return_items d;
  over_table := over_sale_return_items;
  constraints d r :=
    [("fk_sale_return_items_sale_return_id"%string, exists_row (sale_returns d) (ri_sale_return_id r));
     ("fk_sale_return_items_sale_item_id"%string, exists_row (sale_items d) (ri_sale_item_id r));
     ("ck_sale_return_items_quantity_positive"%string, 0 <? ri_quantity r);
     ("ck_sale_return_items_price_non_negative"%string, 0 <=? unit_price_refunded r);
     ("ck_sale_return_items_discount_non_negative"%string, 0 <=? ri_discount_refunded r);
     ("ck_sale_return_items_tax_non_negative"%string, 0 <=? ri_tax_refunded r);
     ("ck_sale_return_items_cost_non_negative"%string, 0 <=? ri_unit_cost_refunded r)];
  uniques := [];
  table_over _ _ := eq_refl;
|}.

Definition shift_fields_consistent (r : CashierShift) : bool :=
  match shift_status r with
  | SHIFT_OPEN =>
      negb (opt_some (shift_closed_at r)) && negb (opt_some (closing_counted_amount r))
      && negb (opt_some (expected_cash_amount r)) && negb (opt_some (variance_amount r))
      && negb (opt_some (shift_closed_by r))
  | SHIFT_CLOSED =>
      opt_some (shift_closed_at r) && opt_some (closing_counted_amount r)
      && opt_some (expected_cash_amount r) && opt_some (variance_amount r)
      && opt_some (shift_closed_by r)
  end.

Definition shift_variance_consistent (r : CashierShift) : bool :=
  match shift_status r, variance_amount r, closing_counted_amount r, expected_cash_amount r with
  | SHIFT_CLOSED, Some v, Some c, Some e => v =? c - e
  | _, _, _, _ => true
  end.

#[export] Instance CashierShift_table : Table CashierShift := {|
  table d := cashier_shifts d;
  over_table := over_cashier_shifts;
  constraints d r :=
    [("fk_cashier_shifts_store_id"%string, exists_row (stores d) (shift_store_id r));
     ("ck_cashier_shifts_opening_float_non_negative"%string, 0 <=? opening_float r);
     ("ck_cashier_shifts_closing_counted_non_negative"%string,
      opt_all (Z.leb 0) (closing_counted_amount r));
     ("ck_cashier_shifts_closing_fields_consistent"%string, shift_fields_consistent r);
     ("ck_cashier_shifts_variance_consistent"%string, shift_variance_consistent r)];
  uniques :=
    [("cashier_shifts_client_transaction_id_key"%string,
      fun a b => bool_decide (shift_client_transaction_id a = shift_client_transaction_id b));
     ("uq_cashier_shifts_one_open_per_cashier"%string,
      fun a b => bool_decide (shift_status a = SHIFT_OPEN) && bool_decide (shift_status b = SHIFT_OPEN)
                 && (shift_cashier_id a =? shift_cashier_id b));
     ("cashier_shifts_close_client_transaction_id_key"%string,
      fun a b => same_key (close_client_transaction_id a) (close_client_transaction_id b))];
  table_over _ _ := eq_refl;
|}.

#[export] Instance CashMovement_table : Table CashMovement := {|
  table d := cash_movements d;
  over_table := over_cash_movements;
  constraints d r :=
    [("fk_cash_movements_shift_id"%string, exists_row (cashier_shifts d) (cm_shift_id r));
     ("ck_cash_movements_amount_positive"%string, 0 <? cm_amount r)];
  uniques :=
    [("cash_movements_client_transaction_id_key"%string,
      fun a b => bool_decide (cm_client_transaction_id a = cm_client_transaction_id b))];
  table_over _ _ := eq_refl;
|}.

#[export] Instance FiscalConfig_table : Table FiscalConfig := {|
  table d := fiscal_configs d;
  over_table := over_fiscal_configs;
  constraints _ r := [("ck_fiscal_configs_retry_max_attempts_positive"%string, 0 <? retry_max_attempts r)];
  uniques := [("ix_fiscal_configs_store_id"%string, fun a b => fc_store_id a =? fc_store_id b)];
  table_over _ _ := eq_refl;
|}.

#[export] Instance FiscalSubmission_table : Table FiscalSubmission := {|
  table d := fiscal_submissions d;
  over_table := over_fiscal_submissions;
  constraints d r :=
    [("fk_fiscal_submissions_sale_id"%string, exists_row (sales d) (fs_sale_id r));
     ("ck_fiscal_submissions_attempt_count_non_negative"%string, 0 <=? attempt_count r);
     ("ck_fiscal_submissions_max_attempts_positive"%string, 0 <? max_attempts r)];
  uniques := [("ix_fiscal_submissions_sale_id"%string, fun a b => fs_sale_id a =? fs_sale_id b)];
  table_over _ _ := eq_refl;
|}.

#[export] Instance AuditLog_table : Table AuditLog := {|
  table d := audit_logs d;
  over_table := over_audit_logs;
  constraints _ _ := [];
  uniques := [];
  table_over _ _ := eq_refl;
|}.

(** *** Purchasing *)

#[export] Instance Supplier_table : Table Supplier := {|
  table d := suppliers d;
  over_table := over_suppliers;
  constraints _ _ := [];
  uniques := [("uq_suppliers_code"%string, fun a b => same_key (supplier_code a) (supplier_code b))];
  table_over _ _ := eq_refl;
|}.

#[export] Instance PurchaseOrder_table : Table PurchaseOrder := {|
  table d := purchase_orders d;
  over_table := over_purchase_orders;
  constraints d r :=
    [("fk_purchase_orders_store_id"%string, exists_row (stores d) (po_store_id r));
     ("fk_purchase_orders_supplier_id"%string, exists_row (suppliers d) (po_supplier_id r))];
  uniques :=
    [("uq_purchase_orders_number"%string,
      fun a b => bool_decide (purchase_number a = purchase_number b));
     ("uq_purchase_orders_client_transaction_id"%string,
      fun a b => bool_decide (po_client_transaction_id a = po_client_transaction_id b))];
  table_over _ _ := eq_refl;
|}.

#[export] Instance PurchaseOrderItem_table : Table PurchaseOrderItem := {|
  table d := purchase_order_items d;
  over_table := over_purchase_order_items;
  constraints d r :=
    [("fk_purchase_order_items_purchase_order_id"%string, exists_row (purchase_orders d) (poi_order_id r));
     ("fk_purchase_order_items_product_id"%string, exists_row (products d) (poi_product_id r));
     ("ck_purchase_order_items_qty_ordered_positive"%string, 0 <? quantity_ordered r);
     ("ck_purchase_order_items_qty_received_non_negative"%string, 0 <=? quantity_received r);
     ("ck_purchase_order_items_qty_invoiced_bounds"%string,
      (0 <=? quantity_invoiced r) && (quantity_invoiced r <=? quantity_received r));
     ("ck_purchase_order_items_unit_cost_non_negative"%string, 0 <=? poi_unit_cost r)];
  uniques := [];
  table_over _ _ := eq_refl;
|}.

#[export] Instance GoodsReceipt_table : Table GoodsReceipt := {|
  table d := goods_receipts d;
  over_table := over_goods_receipts;
  constraints d r :=
    [("fk_goods_receipts_purchase_order_id"%string, exists_row (purchase_orders d) (gr_order_id r));
     ("fk_goods_receipts_store_id"%string, exists_row (stores d) (gr_store_id r))];
  uniques :=
    [("goods_receipts_client_transaction_id_key"%string,
      fun a b => bool_decide (gr_client_transaction_id a = gr_client_transaction_id b))];
  table_over _ _ := eq_refl;
|}.

#[export] Instance GoodsReceiptItem_table : Table GoodsReceiptItem := {|
  table d := goods_receipt_items d;
  over_table := over_goods_receipt_items;
  constraints d r :=
    [("fk_goods_receipt_items_goods_receipt_id"%string, exists_row (goods_receipts d) (gri_receipt_id r));
     ("fk_goods_receipt_items_purchase_order_item_id"%string,
      exists_row (purchase_order_items d) (gri_order_item_id r));
     ("ck_goods_receipt_items_qty_positive"%string, 0 <? gri_quantity r);
     ("ck_goods_receipt_items_unit_cost_non_negative"%string, 0 <=? gri_unit_cost r)];
  uniques := [];
  table_over _ _ := eq_refl;
|}.

#[export] Instance PurchaseReturn_table : Table PurchaseReturn := {|
  table d := purchase_returns d;
  over_table := over_purchase_returns;
  constraints d r :=
    [("fk_purchase_returns_purchase_order_id"%string, exists_row (purchase_orders d) (pr_order_id r));
     ("fk_purchase_returns_store_id"%string, exists_row (stores d) (pr_store_id r))];
  uniques :=
    [("purchase_returns_client_transaction_id_key"%string,
      fun a b => bool_decide (pr_client_transaction_id a = pr_client_transaction_id b))];
  table_over _ _ := eq_refl;
|}.

#[export] Instance PurchaseReturnItem_table : Table PurchaseReturnItem := {|
  table d := purchase_return_items d;
  over_table := over_purchase_return_items;
  constraints d r :=
    [("fk_purchase_return_items_purchase_return_id"%string, exists_row (purchase_returns d) (pri_return_id r));
     ("fk_purchase_return_items_product_id"%string, exists_row (products d) (pri_product_id r));
     ("ck_purchase_return_items_qty_positive"%string, 0 <? pri_quantity r);
     ("ck_purchase_return_items_unit_cost_non_negative"%string, 0 <=? pri_unit_cost r)];
  uniques := [];
  table_over _ _ := eq_refl;
|}.

(** *** Accounts payable *)

#[export] Instance PurchaseInvoice_table : Table PurchaseInvoice := {|
  table d := purchase_invoices d;
  over_table := over_purchase_invoices;
  constraints d r :=
    [("fk_purchase_invoices_store_id"%string, exists_row (stores d) (inv_store_id r));
     ("fk_purchase_invoices_supplier_id"%string, exists_row (suppliers d) (inv_supplier_id r));
     ("fk_purchase_invoices_purchase_order_id"%string,
      opt_all (exists_row (purchase_orders d)) (inv_order_id r));
     ("ck_purchase_invoices_subtotal_non_negative"%string, 0 <=? inv_subtotal r);
     ("ck_purchase_invoices_discount_non_negative"%string, 0 <=? inv_discount_total r);
     ("ck_purchase_invoices_tax_non_negative"%string, 0 <=? inv_tax_total r);
     ("ck_purchase_invoices_grand_total_consistent"%string,
      inv_grand_total r =? inv_subtotal r - inv_discount_total r + inv_tax_total r);
     ("ck_purchase_invoices_grand_total_non_negative"%string, 0 <=? inv_grand_total r);
     ("ck_purchase_invoices_amount_paid_non_negative"%string, 0 <=? amount_paid r);
     ("ck_purchase_invoices_amount_credited_non_negative"%string, 0 <=? amount_credited r);
     ("ck_purchase_invoices_settlement_bounds"%string,
      amount_paid r + amount_credited r <=? inv_grand_total r)];
  uniques :=
    [("uq_purchase_invoices_supplier_invoice_number"%string,
      fun a b => (inv_supplier_id a =? inv_supplier_id b)
                 && bool_decide (invoice_number a = invoice_number b));
     ("purchase_invoices_client_transaction_id_key"%string,
      fun a b => bool_decide (inv_client_transaction_id a = inv_client_transaction_id b))];
  table_over _ _ := eq_refl;
|}.

(** [round(quantity_invoiced * unit_price - discount_amount + tax_amount, 2)],
    whose exact value has nine places. *)
Definition invoice_line_total_check (r : PurchaseInvoiceLine) : bool :=
  il_total r =?
  div_half_up (il_quantity r * il_unit_price r - 10000000 * il_discount r + 10000000 * il_tax r) 10000000.

#[export] Instance PurchaseInvoiceLine_table : Table PurchaseInvoiceLine := {|
  table d := purchase_invoice_lines d;
  over_table := over_purchase_invoice_lines;
  constraints d r :=
    [("fk_purchase_invoice_lines_purchase_invoice_id"%string,
      exists_row (purchase_invoices d) (il_invoice_id r));
     ("fk_purchase_invoice_lines_purchase_order_item_id"%string,
      exists_row (purchase_order_items d) (il_order_item_id r));
     ("fk_purchase_invoice_lines_product_id"%string, exists_row (products d) (il_product_id r));
     ("ck_purchase_invoice_lines_qty_positive"%string, 0 <? il_quantity r);
     ("ck_purchase_invoice_lines_price_non_negative"%string, 0 <=? il_unit_price r);
     ("ck_purchase_invoice_lines_discount_non_negative"%string, 0 <=? il_discount r);
     ("ck_purchase_invoice_lines_tax_non_negative"%string, 0 <=? il_tax r);
     ("ck_purchase_invoice_lines_total_consistent"%string, invoice_line_total_check r)];
  uniques := [];
  table_over _ _ := eq_refl;
|}.

#[export] Instance PurchaseInvoiceReceiptMatch_table : Table PurchaseInvoiceReceiptMatch := {|
  table d := receipt_matches d;
  over_table := over_receipt_matches;
  constraints d r :=
    [("fk_pi_receipt_matches_purchase_invoice_line_id"%string,
      exists_row (purchase_invoice_lines d) (rm_line_id r));
     ("fk_pi_receipt_matches_goods_receipt_item_id"%string,
      exists_row (goods_receipt_items d) (rm_receipt_item_id r));
     ("ck_pi_receipt_matches_qty_positive"%string, 0 <? matched_quantity r);
     ("ck_pi_receipt_matches_unit_cost_non_negative"%string, 0 <=? matched_unit_cost r)];
  uniques := [];
  table_over _ _ := eq_refl;
|}.

#[export] Instance SupplierPayment_table : Table SupplierPayment := {|
  table d := supplier_payments d;
  over_table := over_supplier_payments;
  constraints d r :=
    [("fk_supplier_payments_store_id"%string, exists_row (stores d) (sp_store_id r));
     ("fk_supplier_payments_supplier_id"%string, exists_row (suppliers d) (sp_supplier_id r));
     ("ck_supplier_payments_amount_positive"%string, 0 <? sp_amount r)];
  uniques :=
    [("supplier_payments_client_transaction_id_key"%string,
      fun a b => bool_decide (sp_client_transaction_id a = sp_client_transaction_id b))];
  table_over _ _ := eq_refl;
|}.

#[export] Instance SupplierPaymentAllocation_table : Table SupplierPaymentAllocation := {|
  table d := payment_allocations d;
  over_table := over_payment_allocations;
  constraints d r :=
    [("fk_supplier_payment_allocations_supplier_payment_id"%string,
      exists_row (supplier_payments d) (pa_payment_id r));
     ("fk_supplier_payment_allocations_purchase_invoice_id"%string,
      exists_row (purchase_invoices d) (pa_invoice_id r));
     ("ck_supplier_payment_allocations_amount_positive"%string, 0 <? pa_amount r)];
  uniques :=
    [("uq_supplier_payment_allocations_payment_invoice"%string,
      fun a b => (pa_payment_id a =? pa_payment_id b) && (pa_invoice_id a =? pa_invoice_id b))];
  table_over _ _ := eq_refl;
|}.

#[export] Instance SupplierCreditNote_table : Table SupplierCreditNote := {|
  table d := credit_notes d;
  over_table := over_credit_notes;
  constraints d r :=
    [("fk_supplier_credit_notes_store_id"%string, exists_row (stores d) (cn_store_id r));
     ("fk_supplier_credit_notes_supplier_id"%string, exists_row (suppliers d) (cn_supplier_id r));
     ("fk_supplier_credit_notes_purchase_return_id"%string,
      opt_all (exists_row (purchase_returns d)) (cn_return_id r));
     ("ck_supplier_credit_notes_grand_total_positive"%string, 0 <? cn_grand_total r);
     ("ck_supplier_credit_notes_amount_allocated_bounds"%string,
      (0 <=? amount_allocated r) && (amount_allocated r <=? cn_grand_total r));
     ("ck_supplier_credit_notes_reason_reference_consistent"%string,
      match cn_reason r, cn_return_id r with
      | GOODS_RETURN, Some _ => true
      | COMMERCIAL_DISCOUNT, None => true
      | _, _ => false
      end)];
  uniques :=
    [("uq_supplier_credit_notes_supplier_credit_number"%string,
      fun a b => (cn_supplier_id a =? cn_supplier_id b)
                 && bool_decide (credit_number a = credit_number b));
     ("supplier_credit_notes_client_transaction_id_key"%string,
      fun a b => bool_decide (cn_client_transaction_id a = cn_client_transaction_id b))];
  table_over _ _ := eq_refl;
|}.

#[export] Instance SupplierCreditNoteLine_table : Table SupplierCreditNoteLine := {|
  table d := credit_note_lines d;
  over_table := over_credit_note_lines;
  constraints d r :=
    [("fk_supplier_credit_note_lines_supplier_credit_note_id"%string,
      exists_row (credit_notes d) (cnl_note_id r));
     ("fk_supplier_credit_note_lines_product_id"%string,
      opt_all (exists_row (products d)) (cnl_product_id r));
     ("ck_supplier_credit_note_lines_amount_positive"%string, 0 <? cnl_amount r);
     ("ck_supplier_credit_note_lines_qty_positive"%string, opt_all (Z.ltb 0) (cnl_quantity r))];
  uniques := [];
  table_over _ _ := eq_refl;
|}.

#[export] Instance SupplierCreditAllocation_table : Table SupplierCreditAllocation := {|
  table d := credit_allocations d;
  over_table := over_credit_allocations;
  constraints d r :=
    [("fk_supplier_credit_allocations_supplier_credit_note_id"%string,
      exists_row (credit_notes d) (ca_note_id r));
     ("fk_supplier_credit_allocations_purchase_invoice_id"%string,
      exists_row (purchase_invoices d) (ca_invoice_id r));
     ("ck_supplier_credit_allocations_amount_positive"%string, 0 <? ca_amount r)];
  uniques :=
    [("uq_supplier_credit_allocations_credit_invoice"%string,
      fun a b => (ca_note_id a =? ca_note_id b) && (ca_invoice_id a =? ca_invoice_id b))];
  table_over _ _ := eq_refl;
|}.

#[export] Instance SupplierPaymentReversal_table : Table SupplierPaymentReversal := {|
  table d := payment_reversals d;
  over_table := over_payment_reversals;
  constraints d r :=
    [("fk_supplier_payment_reversals_supplier_payment_id"%string,
      exists_row (supplier_payments d) (spr_payment_id r));
     ("fk_supplier_payment_reversals_reversal_journal_entry_id"%string,
      exists_row (journal_entries d) (spr_journal_entry_id r));
     ("fk_supplier_payment_reversals_reversed_by"%string, exists_row (users d) (spr_reversed_by r))];
  uniques :=
    [("uq_supplier_payment_reversals_payment"%string,
      fun a b => spr_payment_id a =? spr_payment_id b)];
  table_over _ _ := eq_refl;
|}.

#[export] Instance SupplierCreditNoteReversal_table : Table SupplierCreditNoteReversal := {|
  table d := credit_note_reversals d;
  over_table := over_credit_note_reversals;
  constraints d r :=
    [("fk_supplier_credit_note_reversals_supplier_credit_note_id"%string,
      exists_row (credit_notes d) (cnr_note_id r));
     ("fk_supplier_credit_note_reversals_reversal_journal_entry_id"%string,
      exists_row (journal_entries d) (cnr_journal_entry_id r));
     ("fk_supplier_credit_note_reversals_reversed_by"%string, exists_row (users d) (cnr_reversed_by r))];
  uniques :=
    [("uq_supplier_credit_note_reversals_credit_note"%string,
      fun a b => cnr_note_id a =? cnr_note_id b)];
  table_over _ _ := eq_refl;
|}.

(** *** Inter-store transfers, discrepancies, write-offs *)

#[export] Instance InterStoreTransfer_table : Table InterStoreTransfer := {|
  table d := transfers d;
  over_table := over_transfers;
  constraints d r :=
    [("fk_inter_store_transfers_from_store_id"%string, exists_row (stores d) (from_store_id r));
     ("fk_inter_store_transfers_to_store_id"%string, exists_row (stores d) (to_store_id r));
     ("ck_inter_store_transfers_distinct_stores"%string, negb (from_store_id r =? to_store_id r))];
  uniques :=
    [("uq_inter_store_transfers_number"%string,
      fun a b => bool_decide (transfer_number a = transfer_number b));
     ("inter_store_transfers_ship_client_transaction_id_key"%string,
      fun a b => same_key (ship_client_transaction_id a) (ship_client_transaction_id b))];
  table_over _ _ := eq_refl;
|}.

#[export] Instance InterStoreTransferLine_table : Table InterStoreTransferLine := {|
  table d := transfer_lines d;
  over_table := over_transfer_lines;
  constraints d r :=
    [("fk_inter_store_transfer_lines_transfer_id"%string, exists_row (transfers d) (tl_transfer_id r));
     ("fk_inter_store_transfer_lines_source_product_id"%string,
      exists_row (products d) (source_product_id r));
     ("fk_inter_store_transfer_lines_destination_product_id"%string,
      exists_row (products d) (destination_product_id r));
     ("ck_inter_store_transfer_lines_requested_positive"%string, 0 <? requested_quantity r);
     ("ck_inter_store_transfer_lines_shipped_bounds"%string,
      (0 <=? shipped_quantity r) && (shipped_quantity r <=? requested_quantity r));
     ("ck_inter_store_transfer_lines_received_bounds"%string,
      (0 <=? received_quantity r) && (0 <=? damaged_quantity r) && (0 <=? declared_short_quantity r)
      && (received_quantity r + damaged_quantity r + declared_short_quantity r
          <=? shipped_quantity r));
     ("ck_inter_store_transfer_lines_written_off_bounds"%string,
      (0 <=? written_off_quantity r)
      && (written_off_quantity r <=? damaged_quantity r + declared_short_quantity r))];
  uniques := [];
  table_over _ _ := eq_refl;
|}.

#[export] Instance InterStoreTransferReceipt_table : Table InterStoreTransferReceipt := {|
  table d := transfer_receipts d;
  over_table := over_transfer_receipts;
  constraints d r :=
    [("fk_inter_store_transfer_receipts_transfer_id"%string,
      exists_row (transfers d) (trr_transfer_id r));
     ("fk_inter_store_transfer_receipts_store_id"%string, exists_row (stores d) (trr_store_id r))];
  uniques :=
    [("inter_store_transfer_receipts_client_transaction_id_key"%string,
      fun a b => bool_decide (trr_client_transaction_id a = trr_client_transaction_id b))];
  table_over _ _ := eq_refl;
|}.

#[export] Instance InterStoreTransferReceiptItem_table : Table InterStoreTransferReceiptItem := {|
  table d := transfer_receipt_items d;
  over_table := over_transfer_receipt_items;
  constraints d r :=
    [("fk_inter_store_transfer_receipt_items_receipt_id"%string,
      exists_row (transfer_receipts d) (tri_receipt_id r));
     ("fk_inter_store_transfer_receipt_items_line_id"%string,
      exists_row (transfer_lines d) (tri_line_id r));
     ("ck_inter_store_transfer_receipt_items_qty_positive"%string,
      (0 <=? tri_received r) && (0 <=? tri_damaged r) && (0 <=? tri_declared_short r)
      && (0 <? tri_received r + tri_damaged r + tri_declared_short r))];
  uniques := [];
  table_over _ _ := eq_refl;
|}.

#[export] Instance TransferCustodyAcceptance_table : Table TransferCustodyAcceptance := {|
  table d := custody_acceptances d;
  over_table := over_custody_acceptances;
  constraints d r :=
    [("fk_inter_store_transfer_custody_acceptances_transfer_id"%string,
      exists_row (transfers d) (tca_transfer_id r));
     ("fk_inter_store_transfer_custody_acceptances_receipt_id"%string,
      exists_row (transfer_receipts d) (tca_receipt_id r));
     ("fk_inter_store_transfer_custody_acceptances_store_id"%string,
      exists_row (stores d) (tca_store_id r))];
  uniques :=
    [("uq_inter_store_transfer_custody_acceptances_receipt_id"%string,
      fun a b => tca_receipt_id a =? tca_receipt_id b)];
  table_over _ _ := eq_refl;
|}.

#[export] Instance ReceivingDiscrepancy_table : Table ReceivingDiscrepancy := {|
  table d := discrepancies d;
  over_table := over_discrepancies;
  constraints d r :=
    [("fk_receiving_discrepancies_transfer_id"%string,
      opt_all (exists_row (transfers d)) (rd_transfer_id r));
     ("fk_receiving_discrepancies_product_id"%string, exists_row (products d) (rd_product_id r));
     ("fk_receiving_discrepancies_store_id"%string, exists_row (stores d) (rd_store_id r));
     ("fk_receiving_discrepancies_counterparty_store_id"%string,
      opt_all (exists_row (stores d)) (counterparty_store_id r));
     ("ck_receiving_discrepancies_qty_positive"%string,
      (0 <=? quantity_short r) && (0 <=? quantity_damaged r)
      && (0 <? quantity_short r + quantity_damaged r));
     ("ck_receiving_discrepancies_resolved_consistency"%string,
      negb (bool_decide (rd_status r = RESOLVED))
      || (opt_some (resolved_at r) && opt_some (resolution_type r)))];
  uniques :=
    [("uq_receiving_discrepancies_source"%string,
      fun a b => bool_decide (rd_source_type a = rd_source_type b)
                 && (rd_source_id a =? rd_source_id b))];
  table_over _ _ := eq_refl;
|}.

#[export] Instance ApprovalPolicyRule_table : Table ApprovalPolicyRule := {|
  table d := approval_rules d;
  over_table := over_approval_rules;
  constraints d r :=
    [("fk_approval_policy_rules_scope_store_id"%string,
      opt_all (exists_row (stores d)) (scope_store_id r));
     ("fk_approval_policy_rules_required_role_id"%string,
      exists_row (roles d) (rule_required_role_id r));
     ("fk_approval_policy_rules_escalation_role_id"%string,
      opt_all (exists_row (roles d)) (escalation_role_id r));
     ("ck_approval_policy_rules_min_amount_non_negative"%string, 0 <=? min_amount r);
     ("ck_approval_policy_rules_max_greater_than_min"%string,
      opt_all (Z.ltb (min_amount r)) (max_amount r))];
  uniques := [];
  table_over _ _ := eq_refl;
|}.

#[export] Instance TransferWriteOff_table : Table TransferWriteOff := {|
  table d := write_offs d;
  over_table := over_write_offs;
  constraints d r :=
    [("nn_transfer_write_offs_transfer_id"%string,
      match wo_transfer_id r with Some i => exists_row (transfers d) i | None => false end);
     ("fk_transfer_write_offs_transfer_line_id"%string,
      exists_row (transfer_lines d) (transfer_line_id r));
     ("fk_transfer_write_offs_discrepancy_id"%string,
      exists_row (discrepancies d) (wo_discrepancy_id r));
     ("fk_transfer_write_offs_store_id"%string, exists_row (stores d) (wo_store_id r));
     ("fk_transfer_write_offs_required_role_id"%string, exists_row (roles d) (wo_required_role_id r));
     ("fk_transfer_write_offs_matched_rule_id"%string,
      opt_all (exists_row (approval_rules d)) (matched_rule_id r));
     ("fk_transfer_write_offs_journal_entry_id"%string,
      opt_all (exists_row (journal_entries d)) (wo_journal_entry_id r));
     ("fk_transfer_write_offs_reversal_journal_entry_id"%string,
      opt_all (exists_row (journal_entries d)) (wo_reversal_journal_entry_id r));
     ("ck_transfer_write_offs_quantity_positive"%string, 0 <? wo_quantity r)];
  uniques :=
    [("uq_transfer_write_offs_client_transaction_id"%string,
      fun a b => bool_decide (wo_client_transaction_id a = wo_client_transaction_id b))];
  table_over _ _ := eq_refl;
|}.

#[export] Instance WriteOffApproval_table : Table WriteOffApproval := {|
  table d := write_off_approvals d;
  over_table := over_write_off_approvals;
  constraints d r :=
    [("fk_write_off_approvals_write_off_id"%string, exists_row (write_offs d) (woa_write_off_id r));
     ("ck_write_off_approvals_no_self_approval"%string,
      negb (woa_initiated_by r =? woa_approved_by r))];
  uniques :=
    [("uq_write_off_approvals_write_off_id"%string,
      fun a b => woa_write_off_id a =? woa_write_off_id b)];
  table_over _ _ := eq_refl;
|}.

(** *** Human resources

    [daterange(a, b, '[]')] and [tstzrange(a, b, '[)')], a missing upper bound
    meaning no end; [&&] is their overlap. *)

Definition upto_opt (a : Z) (b : option Z) : bool := opt_all (Z.leb a) b.

Definition dates_overlap (f1 : Z) (t1 : option Z) (f2 : Z) (t2 : option Z) : bool :=
  upto_opt f1 t2 && upto_opt f2 t1.

Definition times_overlap (f1 : Z) (t1 : option Z) (f2 : Z) (t2 : option Z) : bool :=
  opt_all (Z.ltb f1) t2 && opt_all (Z.ltb f2) t1.

Definition PAY_TYPES : list string := ["HOURLY"; "SALARY"]%string.
Definition PAY_FREQUENCIES : list string := ["WEEKLY"; "BIWEEKLY"; "SEMIMONTHLY"; "MONTHLY"]%string.
Definition DEDUCTION_CALCULATION_METHODS : list string :=
  ["FLAT_AMOUNT"; "PERCENT_OF_GROSS"; "PERCENT_OF_TAXABLE"; "BRACKETED"]%string.
Definition EARNING_TYPES : list string := ["REGULAR"; "OVERTIME"; "BONUS"; "ADJUSTMENT"]%string.

Definition one_of (names : list string) (name : string) : bool := existsb (String.eqb name) names.

#[export] Instance Department_table : Table Department := {|
  table d := departments d;
  over_table := over_departments;
  constraints _ _ := [];
  uniques := 
    [("departments_name_key"%string,
      fun a b => bool_decide (department_name a = department_name b))];
  table_over _ _ := eq_refl;
|}.

#[export] Instance Position_table : Table Position := {|
  table d := positions d;
  over_table := over_positions;
  constraints d r := 
    [("fk_positions_department_id"%string,
      opt_all (exists_row (departments d)) (position_department_id r))];
  uniques := [];
  table_over _ _ := eq_refl;
|}.

#[export] Instance Employee_table : Table Employee := {|
  table d := employees d;
  over_table := over_employees;
  constraints d r := 
    [("fk_employees_user_id"%string,
      opt_all (exists_row (users d)) (employee_user_id r))];
  uniques := 
    [("uq_employees_employee_number"%string,
      fun a b => bool_decide (employee_number a = employee_number b));
     ("uq_employees_user_id"%string,
      fun a b => same_key (employee_user_id a) (employee_user_id b))];
  table_over _ _ := eq_refl;
|}.

#[export] Instance EmploymentStatusPeriod_table : Table EmploymentStatusPeriod := {|
  table d := status_periods d;
  over_table := over_status_periods;
  constraints d r := 
    [("fk_employment_status_periods_employee_id"%string,
      exists_row (employees d) (esp_employee_id r));
     ("fk_employment_status_periods_actor_id"%string,
      opt_all (exists_row (users d)) (esp_actor_id r));
     ("ck_employment_status_periods_valid_range"%string,
      upto_opt (esp_from r) (esp_to r))];
  uniques := 
    [("excl_employment_status_periods_no_overlap"%string,
      fun a b => (esp_employee_id a =? esp_employee_id b)
                 && dates_overlap (esp_from a) (esp_to a) (esp_from b) (esp_to b))];
  table_over _ _ := eq_refl;
|}.

#[export] Instance EmploymentAssignment_table : Table EmploymentAssignment := {|
  table d := assignments d;
  over_table := over_assignments;
  constraints d r := 
    [("fk_employment_assignments_employee_id"%string,
      exists_row (employees d) (ea_employee_id r));
     ("fk_employment_assignments_store_id"%string,
      exists_row (stores d) (ea_store_id r));
     ("fk_employment_assignments_department_id"%string,
      opt_all (exists_row (departments d)) (ea_department_id r));
     ("fk_employment_assignments_position_id"%string,
      opt_all (exists_row (positions d)) (ea_position_id r));
     ("fk_employment_assignments_manager_employee_id"%string,
      opt_all (exists_row (employees d)) (manager_employee_id r));
     ("fk_employment_assignments_actor_id"%string,
      opt_all (exists_row (users d)) (ea_actor_id r));
     ("ck_employment_assignments_valid_range"%string,
      upto_opt (ea_from r) (ea_to r))];
  uniques := 
    [("excl_employment_assignments_no_overlap"%string,
      fun a b => (ea_employee_id a =? ea_employee_id b)
                 && dates_overlap (ea_from a) (ea_to a) (ea_from b) (ea_to b))];
  table_over _ _ := eq_refl;
|}.

#[export] Instance CompensationPeriod_table : Table CompensationPeriod := {|
  table d := compensations d;
  over_table := over_compensations;
  constraints d r := 
    [("fk_compensation_periods_employee_id"%string,
      exists_row (employees d) (cp_employee_id r));
     ("fk_compensation_periods_actor_id"%string,
      opt_all (exists_row (users d)) (cp_actor_id r));
     ("ck_compensation_periods_pay_type"%string,
      one_of PAY_TYPES (cp_pay_type r));
     ("ck_compensation_periods_pay_frequency"%string,
      one_of PAY_FREQUENCIES (pay_frequency r));
     ("ck_compensation_periods_rate_non_negative"%string,
      0 <=? cp_rate r);
     ("ck_compensation_periods_valid_range"%string,
      upto_opt (cp_from r) (cp_to r))];
  uniques := 
    [("excl_compensation_periods_no_overlap"%string,
      fun a b => (cp_employee_id a =? cp_employee_id b)
                 && dates_overlap (cp_from a) (cp_to a) (cp_from b) (cp_to b))];
  table_over _ _ := eq_refl;
|}.

#[export] Instance OvertimePolicy_table : Table OvertimePolicy := {|
  table d := overtime_policies d;
  over_table := over_overtime_policies;
  constraints _ r := 
    [("ck_overtime_policies_threshold_positive"%string,
      0 <? otp_threshold_hours r);
     ("ck_overtime_policies_multiplier_valid"%string,
      100 <=? otp_multiplier r);
     ("ck_overtime_policies_valid_range"%string,
      upto_opt (otp_from r) (otp_to r))];
  uniques := 
    [("excl_overtime_policies_no_overlap"%string,
      fun a b => dates_overlap (otp_from a) (otp_to a) (otp_from b) (otp_to b))];
  table_over _ _ := eq_refl;
|}.

(** The exclusion constraint on the shifts that are not voided. *)
Definition shifts_clash (a b : AttendanceRecord) : bool :=
  negb (bool_decide (ar_status a = ATT_VOIDED)) && negb (bool_decide (ar_status b = ATT_VOIDED))
  && (ar_employee_id a =? ar_employee_id b)
  && times_overlap (clock_in_at a) (clock_out_at a) (clock_in_at b) (clock_out_at b).

#[export] Instance AttendanceRecord_table : Table AttendanceRecord := {|
  table d := attendance_records d;
  over_table := over_attendance_records;
  constraints d r := 
    [("fk_attendance_records_employee_id"%string,
      exists_row (employees d) (ar_employee_id r));
     ("fk_attendance_records_store_id"%string,
      exists_row (stores d) (ar_store_id r));
     ("fk_attendance_records_correction_of_id"%string,
      opt_all (exists_row (attendance_records d)) (correction_of_id r));
     ("fk_attendance_records_corrected_by"%string,
      opt_all (exists_row (users d)) (corrected_by r));
     ("ck_attendance_records_valid_range"%string,
      opt_all (Z.ltb (clock_in_at r)) (clock_out_at r));
     ("ck_attendance_records_correction_needs_reason"%string,
      negb (opt_some (correction_of_id r)) || opt_some (correction_reason r))];
  uniques := 
    [("excl_attendance_records_no_overlap"%string, shifts_clash)];
  table_over _ _ := eq_refl;
|}.

(** *** Payroll *)

#[export] Instance DeductionType_table : Table DeductionType := {|
  table d := deduction_types d;
  over_table := over_deduction_types;
  constraints _ _ := [];
  uniques := 
    [("deduction_types_code_key"%string,
      fun a b => bool_decide (deduction_code a = deduction_code b))];
  table_over _ _ := eq_refl;
|}.

#[export] Instance DeductionRate_table : Table DeductionRate := {|
  table d := deduction_rates d;
  over_table := over_deduction_rates;
  constraints d r := 
    [("fk_deduction_rates_deduction_type_id"%string,
      exists_row (deduction_types d) (dr_type_id r));
     ("ck_deduction_rates_calculation_method"%string,
      one_of DEDUCTION_CALCULATION_METHODS (dr_calculation_method r));
     ("ck_deduction_rates_valid_range"%string,
      upto_opt (dr_from r) (dr_to r))];
  uniques := 
    [("ex_deduction_rates_no_overlap"%string,
      fun a b => (dr_type_id a =? dr_type_id b) && dates_overlap (dr_from a) (dr_to a) (dr_from b) (dr_to b))];
  table_over _ _ := eq_refl;
|}.

Definition calculated_status (st : PayrollPeriodStatus) : bool :=
  match st with PP_CALCULATED | PP_APPROVED | PP_POSTED => true | _ => false end.

Definition approved_status (st : PayrollPeriodStatus) : bool :=
  match st with PP_APPROVED | PP_POSTED => true | _ => false end.

#[export] Instance PayrollPeriod_table : Table PayrollPeriod := {|
  table d := payroll_periods d;
  over_table := over_payroll_periods;
  constraints d r := 
    [("fk_payroll_periods_store_id"%string,
      exists_row (stores d) (pp_store_id r));
     ("fk_payroll_periods_calculated_by"%string,
      opt_all (exists_row (users d)) (calculated_by r));
     ("fk_payroll_periods_approved_by"%string,
      opt_all (exists_row (users d)) (pp_approved_by r));
     ("fk_payroll_periods_journal_entry_id"%string,
      opt_all (exists_row (journal_entries d)) (pp_journal_entry_id r));
     ("fk_payroll_periods_posted_by"%string,
      opt_all (exists_row (users d)) (pp_posted_by r));
     ("ck_payroll_periods_valid_range"%string,
      pp_start r <=? pp_end r);
     ("ck_payroll_periods_pay_date_after_period"%string,
      pp_end r <=? pay_date r);
     ("ck_payroll_periods_approval_consistency"%string,
      negb (approved_status (pp_status r))
      || (opt_some (pp_approved_by r) && opt_some (pp_approved_at r)));
     ("ck_payroll_periods_posting_consistency"%string,
      eqb (bool_decide (pp_status r = PP_POSTED)) (opt_some (pp_journal_entry_id r)));
     ("ck_payroll_periods_calculation_consistency"%string,
      negb (calculated_status (pp_status r))
      || (opt_some (calculated_by r) && opt_some (calculated_at r)))];
  uniques := 
    [("uq_payroll_periods_store_range"%string,
      fun a b => (pp_store_id a =? pp_store_id b) && (pp_start a =? pp_start b) && (pp_end a =? pp_end b));
     ("payroll_periods_calculation_client_transaction_id_key"%string,
      fun a b => same_key (calculation_client_transaction_id a) (calculation_client_transaction_id b));
     ("payroll_periods_posting_client_transaction_id_key"%string,
      fun a b => same_key (posting_client_transaction_id a) (posting_client_transaction_id b))];
  table_over _ _ := eq_refl;
|}.

#[export] Instance PayrollEmployeeResult_table : Table PayrollEmployeeResult := {|
  table d := payroll_results d;
  over_table := over_payroll_results;
  constraints d r := 
    [("fk_payroll_employee_results_payroll_period_id"%string,
      exists_row (payroll_periods d) (per_period_id r));
     ("fk_payroll_employee_results_employee_id"%string,
      exists_row (employees d) (per_employee_id r));
     ("fk_payroll_employee_results_store_id"%string,
      exists_row (stores d) (per_store_id r));
     ("fk_payroll_employee_results_department_id"%string,
      opt_all (exists_row (departments d)) (per_department_id r));
     ("fk_payroll_employee_results_position_id"%string,
      opt_all (exists_row (positions d)) (per_position_id r));
     ("ck_payroll_employee_results_regular_hours"%string,
      0 <=? per_regular_hours r);
     ("ck_payroll_employee_results_overtime_hours"%string,
      0 <=? per_overtime_hours r);
     ("ck_payroll_employee_results_gross_pay"%string,
      0 <=? per_gross_pay r);
     ("ck_payroll_employee_results_total_deductions"%string,
      0 <=? per_deductions r);
     ("ck_payroll_employee_results_net_pay"%string,
      0 <=? per_net_pay r);
     ("ck_payroll_employee_results_net_math"%string,
      per_net_pay r =? per_gross_pay r - per_deductions r)];
  uniques := 
    [("uq_payroll_employee_results_period_employee"%string,
      fun a b => negb (per_deleted a) && negb (per_deleted b)
                 && (per_period_id a =? per_period_id b) && (per_employee_id a =? per_employee_id b))];
  table_over _ _ := eq_refl;
|}.

#[export] Instance PayrollEarningLine_table : Table PayrollEarningLine := {|
  table d := payroll_earnings d;
  over_table := over_payroll_earnings;
  constraints d r := 
    [("fk_payroll_earning_lines_payroll_employee_result_id"%string,
      exists_row (payroll_results d) (pel_result_id r));
     ("ck_payroll_earning_lines_type"%string,
      one_of EARNING_TYPES (pel_type r));
     ("ck_payroll_earning_lines_hours"%string,
      opt_all (Z.leb 0) (pel_hours r));
     ("ck_payroll_earning_lines_amount"%string,
      0 <=? pel_amount r)];
  uniques := [];
  table_over _ _ := eq_refl;
|}.

#[export] Instance PayrollDeductionLine_table : Table PayrollDeductionLine := {|
  table d := payroll_deductions d;
  over_table := over_payroll_deductions;
  constraints d r := 
    [("fk_payroll_deduction_lines_payroll_employee_result_id"%string,
      exists_row (payroll_results d) (pdl_result_id r));
     ("fk_payroll_deduction_lines_deduction_type_id"%string,
      exists_row (deduction_types d) (pdl_type_id r));
     ("ck_payroll_deduction_lines_amount"%string,
      0 <=? pdl_amount r)];
  uniques := [];
  table_over _ _ := eq_refl;
|}.

#[export] Instance PayrollReversal_table : Table PayrollReversal := {|
  table d := payroll_reversals d;
  over_table := over_payroll_reversals;
  constraints d r := 
    [("fk_payroll_reversals_payroll_period_id"%string,
      exists_row (payroll_periods d) (prv_period_id r));
     ("fk_payroll_reversals_reversal_journal_entry_id"%string,
      exists_row (journal_entries d) (prv_journal_entry_id r));
     ("fk_payroll_reversals_reversed_by"%string,
      exists_row (users d) (prv_reversed_by r))];
  uniques := 
    [("uq_payroll_reversals_period"%string,
      fun a b => prv_period_id a =? prv_period_id b)];
  table_over _ _ := eq_refl;
|}.

(** ** The deferred trigger on [journal_lines] *)

Definition entry_debits (lines : list JournalLine) (id : Z) : ledger :=
  sum_where (fun l => line_entry_id l =? id) debit lines.

Definition entry_credits (lines : list JournalLine) (id : Z) : ledger :=
  sum_where (fun l => line_entry_id l =? id) credit lines.

(** [check_journal_entry_balance] for the entry of one line; the trigger fires
    per inserted line, so the entry has at least that line. *)
Definition check_journal_entry_balance (d : database) (id : Z) : bool :=
  (entry_debits (journal_lines d) id =? entry_credits (journal_lines d) id)
  && negb (entry_debits (journal_lines d) id =? 0).

#[export] Instance database_deferred : DeferredChecks database := fun d =>
  forallb (fun l => check_journal_entry_balance d (line_entry_id l)) (journal_lines d).
