(* ===== verification/EffectiveDated.v ===== *)
(** * Effective-dated histories

    app/modules/hr keeps what may change over an employee's tenure as rows with
    an inclusive range of dates: [effective_from], and [effective_to] or no end.
    A change ends the open row the day before and inserts the next one.  The
    file states what such a history is ([chained]: in order, without gap or
    overlap, only the last row open), what it says on a day, and what one change
    does to it; [Dated] is the interface of a model class that has one. *)

From S2P Require Import Prelude Fixed Session Schema Tables.

Class Dated (R : Type) := {
  holder : R -> Z;
  since : R -> Z;
  until : R -> option Z;
  ended : option Z -> R -> R;
  (** the values that may come next *)
  may_follow : R -> R -> bool;
  holder_ended : forall o r, holder (ended o r) = holder r;
  since_ended : forall o r, since (ended o r) = since r;
  until_ended : forall o r, until (ended o r) = o;
  may_follow_ended : forall o o' a b, may_follow (ended o a) (ended o' b) = may_follow a b;
  ended_same : forall r, ended (until r) r = r;
}.

#[export] Hint Rewrite @holder_ended @since_ended @until_ended : dated.

Section History.
Context {R : Type} `{Dated R}.

Definition is_open (r : R) : bool := negb (opt_some (until r)).

(** The row an employee's changes replace: [effective_to IS NULL]. *)
Definition open_of (e : Z) (r : R) : bool := (holder r =? e) && is_open r.

Definition history (e : Z) (t : list R) : list R := List.filter (fun r => holder r =? e) t.

Definition in_effect (day : Z) (r : R) : bool := (since r <=? day) && upto_opt day (until r).

(** What the history of [e] says on a day. *)
Definition on_day (t : list R) (e day : Z) : list R := List.filter (in_effect day) (history e t).

Definition next_to (r r' : R) : Prop :=
  until r = Some (since r' - 1) /\ since r < since r' /\ may_follow r r' = true.

Fixpoint chained (l : list R) : Prop :=
  match l with
  | [] => True
  | r :: rest =>
      match rest with
      | [] => until r = None
      | r' :: _ => next_to r r'
      end /\ chained rest
  end.

Lemma until_ended_eq o r : until (ended o r) = o.
Proof. apply until_ended. Qed.

Lemma is_open_ended d r : is_open (ended (Some d) r) = false.
Proof. unfold is_open. by rewrite until_ended. Qed.

Lemma may_follow_ended_l o a b : may_follow (ended o a) b = may_follow a b.
Proof. rewrite <- (ended_same b). rewrite !may_follow_ended. by rewrite ended_same. Qed.

Lemma may_follow_ended_r o a b : may_follow a (ended o b) = may_follow a b.
Proof. rewrite <- (ended_same a), may_follow_ended. by rewrite ended_same. Qed.

Lemma next_to_ended o x r : next_to x r -> next_to x (ended o r).
Proof. unfold next_to. by rewrite since_ended, may_follow_ended_r. Qed.

(** ** One change *)

Lemma chained_supersede pre r new :
  chained (pre ++ [r]) -> since r < since new -> until new = None -> may_follow r new = true ->
  chained (pre ++ [ended (Some (since new - 1)) r; new]).
Proof.
  intros Hc Hs Hu Hf. induction pre as [|x pre IH]; simpl in *.
  - unfold next_to. by rewrite until_ended, since_ended, may_follow_ended_l.
  - destruct Hc as [Hx Hc]. split; [|by apply IH]. destruct pre; simpl in *; [|done].
    by apply next_to_ended.
Qed.

(** Only the last row is open. *)
Lemma chained_open l :
  chained l -> List.filter is_open l = match last l with Some r => [r] | None => [] end.
Proof.
  induction l as [|r l IH]; [done|]. intros [Hr Hl]. specialize (IH Hl).
  destruct l as [|r' l]; simpl.
  - unfold is_open. by rewrite Hr.
  - destruct Hr as (Hr & _). unfold is_open at 1. rewrite Hr. exact IH.
Qed.

Lemma chained_last l r :
  chained l -> List.filter is_open l = [r] ->
  exists pre, l = pre ++ [r] /\ forall x, x ∈ pre -> is_open x = false.
Proof.
  intros Hc Ho. rewrite (chained_open l Hc) in Ho.
  destruct l as [|x pre _] using rev_ind; [done|]. rewrite last_snoc in Ho. injection Ho as ->.
  exists pre. split; [done|]. intros y Hy. apply not_true_is_false. intros Hoy.
  pose proof (chained_open _ Hc) as Hf. rewrite List.filter_app, last_snoc in Hf.
  assert (y ∈ List.filter is_open pre) as Hin
    by (rewrite list_elem_of_In, filter_In, <- list_elem_of_In; done).
  simpl in Hf. destruct (is_open r) eqn:E.
  - destruct (List.filter is_open pre) as [|z l]; [by apply elem_of_nil in Hin|].
    apply (f_equal length) in Hf. rewrite length_app in Hf. simpl in Hf. lia.
  - rewrite app_nil_r in Hf. assert (r ∈ List.filter is_open pre) as Hr by (rewrite Hf; set_solver).
    rewrite list_elem_of_In, filter_In in Hr. by destruct Hr as [_ Hr]; rewrite E in Hr.
Qed.

(** ** What a history says on a day *)

Lemma in_effect_since day r : in_effect day r = true -> since r <= day.
Proof. unfold in_effect. intros Hb. bools. lia. Qed.

(** Rows start in order. *)
Lemma chained_later x l r : chained (x :: l) -> r ∈ l -> since x < since r.
Proof.
  revert x. induction l as [|y l IH]; intros x [Hx Hl] Hr; [by apply elem_of_nil in Hr|].
  destruct Hx as (_ & Hlt & _). apply elem_of_cons in Hr as [->|Hr]; [done|].
  specialize (IH y Hl Hr). lia.
Qed.

Lemma none_in_effect day l :
  (forall r, r ∈ l -> day < since r) -> List.filter (in_effect day) l = [].
Proof.
  intros Hl. apply filter_none. intros r Hr. specialize (Hl r Hr).
  apply not_true_is_false. intros Hd%in_effect_since. lia.
Qed.

(** From its first date on, a history says exactly one thing; before, nothing. *)
Lemma chained_on_day x l day :
  chained (x :: l) ->
  if since x <=? day then exists r, List.filter (in_effect day) (x :: l) = [r]
  else List.filter (in_effect day) (x :: l) = [].
Proof.
  revert x. induction l as [|y l IH]; intros x Hc.
  - destruct Hc as [Hx _]. destruct (Z.leb_spec (since x) day) as [Hd|Hd].
    + exists x. simpl. unfold in_effect, upto_opt. rewrite Hx. simpl.
      destruct (Z.leb_spec (since x) day); [done|lia].
    + apply none_in_effect. intros r ->%list_elem_of_singleton. done.
  - pose proof (fun r => chained_later x (y :: l) r Hc) as Hlater.
    destruct Hc as [(Hu & Hlt & _) Hc]. specialize (IH y Hc).
    destruct (Z.leb_spec (since x) day) as [Hd|Hd].
    + destruct (Z.leb_spec (since y) day) as [Hy|Hy].
      * destruct IH as [r Hr]. exists r. simpl List.filter at 1. unfold in_effect at 1, upto_opt.
        rewrite Hu. simpl. destruct (Z.leb_spec day (since y - 1)); [lia|].
        rewrite andb_false_r. exact Hr.
      * exists x. change (List.filter (in_effect day) (x :: y :: l)) with
          (if in_effect day x then x :: List.filter (in_effect day) (y :: l)
           else List.filter (in_effect day) (y :: l)).
        rewrite IH. unfold in_effect, upto_opt. rewrite Hu. simpl.
        destruct (Z.leb_spec (since x) day); [|lia].
        by destruct (Z.leb_spec day (since y - 1)); [|lia].
    + apply none_in_effect. intros r [->|Hr]%elem_of_cons; [done|]. specialize (Hlater r Hr). lia.
Qed.

Lemma chained_before pre r x : chained (pre ++ [r]) -> x ∈ pre -> exists u, until x = Some u /\ u < since r.
Proof.
  induction pre as [|y pre IH]; intros Hc Hx; [by apply elem_of_nil in Hx|].
  apply elem_of_cons in Hx as [->|Hx]; [|apply IH; [apply Hc|done]].
  destruct Hc as [Hy Hc]. destruct pre as [|z pre]; simpl in Hy.
  - destruct Hy as (Hu & _). eexists. split; [exact Hu|lia].
  - destruct Hy as (Hu & _). eexists. split; [exact Hu|].
    pose proof (chained_later z (pre ++ [r]) r Hc) as Hz.
    assert (since z < since r) by (apply Hz; set_solver). lia.
Qed.

(** A change leaves every earlier day as it was and decides every later one. *)
Lemma supersede_on_day {V} (val : R -> V) pre r new day :
  chained (pre ++ [r]) -> since r < since new -> until new = None ->
  (forall o, val (ended o r) = val r) ->
  map val (List.filter (in_effect day) (pre ++ [ended (Some (since new - 1)) r; new]))
  = if since new <=? day then [val new] else map val (List.filter (in_effect day) (pre ++ [r])).
Proof.
  intros Hc Hs Hu Hv. rewrite !List.filter_app, !map_app.
  assert (until r = None) as Hr.
  { clear - Hc. induction pre as [|x pre IH]; simpl in Hc; [by destruct Hc|]. apply IH, Hc. }
  assert (in_effect day new = (since new <=? day)) as En.
  { unfold in_effect, upto_opt. rewrite Hu. simpl. by rewrite andb_true_r. }
  assert (in_effect day (ended (Some (since new - 1)) r) = in_effect day r && negb (since new <=? day)) as Er.
  { unfold in_effect, upto_opt. rewrite until_ended, since_ended, Hr. simpl. rewrite andb_true_r.
    f_equal. destruct (Z.leb_spec day (since new - 1)), (Z.leb_spec (since new) day); done || lia. }
  simpl. rewrite En, Er. destruct (Z.leb_spec (since new) day) as [Hd|Hd]; simpl.
  - rewrite andb_false_r. rewrite (filter_none _ pre); [done|].
    intros x Hx. destruct (chained_before pre r x Hc Hx) as (u & Hux & Hlt).
    unfold in_effect, upto_opt. rewrite Hux. simpl. apply andb_false_iff. right. lia.
  - rewrite andb_true_r. destruct (in_effect day r); simpl; [by rewrite Hv|done].
Qed.

(** ** On the table *)

Lemma set_row_where (t : list R) (q : R -> bool) (f : R -> R) i r :
  select (fun _ x => q x) t = [(i, r)] -> set_row i f t = map (fun x => if q x then f x else x) t.
Proof.
  intros Hs. assert (Hq : forall j x, row_of t j = Some x -> q x = true -> j = i).
  { intros j x Hj Hx. assert ((j, x) ∈ select (fun _ x => q x) t) as Hin by (by apply elem_select).
    rewrite Hs in Hin. apply list_elem_of_singleton in Hin. congruence. }
  assert ((i, r) ∈ select (fun _ x => q x) t) as [Hi Hr]%elem_select by (rewrite Hs; set_solver).
  apply list_eq. intros k. rewrite list_lookup_fmap.
  assert (Hk : t !! k = row_of t (Z.of_nat k + 1)).
  { unfold row_of. destruct (Z.ltb_spec 0 (Z.of_nat k + 1)); [|lia]. f_equal. lia. }
  assert (Hk' : set_row i f t !! k = row_of (set_row i f t) (Z.of_nat k + 1)).
  { unfold row_of. destruct (Z.ltb_spec 0 (Z.of_nat k + 1)); [|lia]. f_equal. lia. }
  rewrite Hk, Hk', row_of_set. case_bool_decide as E.
  - subst. rewrite Hi. simpl. by rewrite Hr.
  - destruct (row_of t (Z.of_nat k + 1)) as [x|] eqn:Ex; simpl; [|done].
    destruct (q x) eqn:Eq; [|done]. by apply Hq in Ex.
Qed.

Lemma history_app e t t' : history e (t ++ t') = history e t ++ history e t'.
Proof. apply List.filter_app. Qed.

Lemma elem_history e t r : r ∈ history e t <-> r ∈ t /\ holder r = e.
Proof. unfold history. rewrite list_elem_of_In, filter_In, <- list_elem_of_In, Z.eqb_eq. done. Qed.

Lemma history_map e (q : R -> bool) (f : R -> R) t :
  (forall r, holder (f r) = holder r) ->
  history e (map (fun x => if q x then f x else x) t)
  = map (fun x => if q x then f x else x) (history e t).
Proof.
  intros Hf. unfold history. induction t as [|r t IH]; simpl; [done|].
  destruct (q r) eqn:Eq; rewrite ?Hf; destruct (holder r =? e); simpl; rewrite ?Eq; congruence.
Qed.

(** The open row of a history, as the query finds it. *)
Lemma open_row e t i r :
  select (fun _ x => open_of e x) t = [(i, r)] ->
  row_of t i = Some r /\ holder r = e /\ until r = None /\ List.filter is_open (history e t) = [r].
Proof.
  intros Hs. assert ((i, r) ∈ select (fun _ x => open_of e x) t) as [Hi Hr]%elem_select
    by (rewrite Hs; set_solver).
  unfold open_of, is_open in Hr. bools. split_and!; [done|done|by destruct (until r)|].
  pose proof (select_map (open_of e) (fun x => x) t) as Hm. rewrite Hs in Hm. simpl in Hm.
  rewrite List.map_id in Hm. unfold history. rewrite Hm. clear. unfold open_of.
  induction t as [|x t IH]; simpl; [done|]. destruct (holder x =? e); simpl; [|done].
  destruct (is_open x); by rewrite IH.
Qed.

(** What ending the open row and inserting the next one does to every history. *)
Lemma supersede_history e t i r new :
  select (fun _ x => open_of e x) t = [(i, r)] -> chained (history e t) -> holder new = e ->
  let t' := set_row i (ended (Some (since new - 1))) t ++ [new] in
  (forall e', e' <> e -> history e' t' = history e' t) /\
  exists pre, history e t = pre ++ [r] /\
    history e t' = pre ++ [ended (Some (since new - 1)) r; new].
Proof.
  intros Hs Hc Hn t'. destruct (open_row e t i r Hs) as (Hi & Hr & Hu & Hf).
  unfold t'. rewrite (set_row_where t (open_of e) _ i r Hs). split.
  - intros e' He. rewrite history_app, history_map by (intros; by rewrite holder_ended).
    unfold history at 2. simpl. rewrite Hn. destruct (Z.eqb_spec e e'); [done|].
    rewrite app_nil_r. rewrite <- (List.map_id (history e' t)) at 2. apply map_ext_in.
    intros x [_ Hx]%list_elem_of_In%elem_history. unfold open_of. rewrite Hx.
    by destruct (Z.eqb_spec e' e).
  - destruct (chained_last (history e t) r Hc Hf) as (pre & Hpre & Hclosed). exists pre.
    split; [done|]. rewrite history_app, history_map by (intros; by rewrite holder_ended).
    unfold history at 2. simpl. rewrite Hn, Z.eqb_refl, Hpre, map_app. simpl.
    unfold open_of at 2. rewrite Hr, Z.eqb_refl. unfold is_open. rewrite Hu. simpl.
    rewrite <- app_assoc. simpl. f_equal. rewrite <- (List.map_id pre) at 2. apply map_ext_in.
    intros x Hx%list_elem_of_In. unfold open_of. rewrite (Hclosed x Hx). by rewrite andb_false_r.
Qed.

(** A change on the table keeps every history a history. *)
Lemma supersede_chained e t i r new :
  select (fun _ x => open_of e x) t = [(i, r)] -> (forall e', chained (history e' t)) ->
  holder new = e -> since r < since new -> until new = None -> may_follow r new = true ->
  forall e', chained (history e' (set_row i (ended (Some (since new - 1))) t ++ [new])).
Proof.
  intros Hs Hc Hn Hlt Hu Hf e'.
  destruct (supersede_history e t i r new Hs (Hc e) Hn) as (Hother & pre & Hpre & Hnew).
  destruct (decide (e' = e)) as [->|He]; [|by rewrite Hother].
  rewrite Hnew. apply chained_supersede; [|done..]. by rewrite <- Hpre.
Qed.

Lemma supersede_timeline {V} (val : R -> V) e t i r new e' day :
  select (fun _ x => open_of e x) t = [(i, r)] -> (forall e', chained (history e' t)) ->
  holder new = e -> since r < since new -> until new = None -> (forall o r, val (ended o r) = val r) ->
  map val (on_day (set_row i (ended (Some (since new - 1))) t ++ [new]) e' day)
  = if (e' =? e) && (since new <=? day) then [val new] else map val (on_day t e' day).
Proof.
  intros Hs Hc Hn Hlt Hu Hv. unfold on_day.
  destruct (supersede_history e t i r new Hs (Hc e) Hn) as (Hother & pre & Hpre & Hnew).
  destruct (Z.eqb_spec e' e) as [->|He]; simpl.
  - rewrite Hnew, Hpre. apply supersede_on_day; try done. by rewrite <- Hpre.
  - by rewrite Hother.
Qed.

Lemma chained_no_open l : chained l -> List.filter is_open l = [] -> l = [].
Proof.
  intros Hc. rewrite (chained_open l Hc). destruct l as [|x l _] using rev_ind; [done|]. by rewrite last_snoc.
Qed.

Lemma no_open_row e t :
  select (fun _ x => open_of e x) t = [] -> List.filter is_open (history e t) = [].
Proof.
  intros Hs. apply filter_none. intros r [(i & Hi)%elem_row_of Hr]%elem_history.
  pose proof (proj1 (select_nil _ t) Hs i r Hi) as Ho. unfold open_of in Ho. simpl in Ho.
  rewrite Hr, Z.eqb_refl in Ho. exact Ho.
Qed.

(** A history that began on a day, with a row that satisfies [P]. *)
Definition began (t : list R) (e day : Z) (P : R -> Prop) : Prop :=
  exists r h, history e t = r :: h /\ since r = day /\ P r.

Lemma began_app t new e day P : began t e day P -> began (t ++ [new]) e day P.
Proof. intros (r & h & Hh & Hd). exists r, (h ++ history e [new]). by rewrite history_app, Hh. Qed.

Lemma supersede_began e t i r new e' day P :
  select (fun _ x => open_of e x) t = [(i, r)] -> chained (history e t) -> holder new = e ->
  (forall o x, P x -> P (ended o x)) -> began t e' day P ->
  began (set_row i (ended (Some (since new - 1))) t ++ [new]) e' day P.
Proof.
  intros Hs Hc Hn HP (x & h & Hh & Hd & Hx).
  destruct (supersede_history e t i r new Hs Hc Hn) as (Hother & pre & Hpre & Hnew).
  destruct (decide (e' = e)) as [->|He]; [|exists x, h; by rewrite Hother].
  rewrite Hpre in Hh. destruct pre as [|y pre]; simpl in *.
  - injection Hh as -> <-. eexists _, [new]. split; [exact Hnew|]. rewrite since_ended. auto.
  - injection Hh as -> <-. eexists _, _. split; [exact Hnew|done].
Qed.

(** The first row of somebody who had none. *)
Lemma chained_first t new :
  (forall e, chained (history e t)) -> history (holder new) t = [] -> until new = None ->
  forall e, chained (history e (t ++ [new])).
Proof.
  intros Hc Hn Hu e. rewrite history_app. unfold history at 2. simpl.
  destruct (Z.eqb_spec (holder new) e) as [<-|]; [|by rewrite app_nil_r].
  rewrite Hn. by split.
Qed.
End History.
