(* ===== verification/Platform.v ===== *)
(** * What every service uses: clock, audit trail, store scoping, permissions

    Models datetime.now(UTC)/date.today(), app/modules/audit/service.py
    [log_event], the [_enforce_store_access] helper every service module
    declares, app/modules/auth/service.py [get_user_permissions] and
    [verify_user_credentials], and the approval limiter of
    app/core/rate_limit.py.  The argon2 verification is a parameter. *)

From S2P Require Import Prelude Fixed Session Schema Tables.

(** ** Clock *)

Definition datetime_now_utc : Tx Z := asks utc_now.

(** [datetime.date()] of a UTC timestamp. *)
Definition date_of (second : Z) : Z := second / seconds_per_day.

(** [date.today()] reads the server's local zone. *)
Definition date_today : Tx Z :=
  asks (fun e => (utc_now e + local_offset e) / seconds_per_day).

(** ** Enumerations in request bodies *)

(** The member of an enumeration with this name. *)
Definition parse_enum {A} (names : list (string * A)) (text : string) : option A :=
  snd <$> List.find (fun n => bool_decide (n.1 = text)) names.

(** ** Audit trail *)

Definition log_event (user_id : option Z) (act ety : string) (eid : option Z) : Tx unit :=
  _ ← add {| audit_user_id := user_id; action := act; entity_type := ety; entity_id := eid |};
  mret tt.

(** ** Store scoping *)

Definition store_denied (caller_store_id : option Z) (target_store_id : Z) : bool :=
  match caller_store_id with
  | Some c => negb (c =? target_store_id)
  | None => false
  end.

Definition enforce_store_access (caller_store_id : option Z) (target_store_id : Z) : Tx unit :=
  raise_if (store_denied caller_store_id target_store_id) (ForbiddenError "STORE_ACCESS_DENIED").

(** ** Permissions and inline credentials *)

Definition permissions_of (d : database) (user_id : Z) : list string :=
  flat_map (fun ur =>
    if ur_user_id ur =? user_id then
      flat_map (fun rp =>
        if rp_role_id rp =? ur_role_id ur then
          match row_of (permissions d) (rp_permission_id rp) with
          | Some p => [permission_code p]
          | None => []
          end
        else []) (role_permissions d)
    else []) (user_roles d).

Definition get_user_permissions (user_id : Z) : Tx (list string) :=
  gets (fun d => permissions_of d user_id).

Section Credentials.
(** argon2's verification of a password against a stored hash. *)
Variable verify_password : string -> string -> bool.

Definition verify_user_credentials (name password : string) : Tx (option Z) :=
  found ← query (fun _ u => bool_decide (username u = name));
  user ← scalar_one_or_none found;
  mret (match user with
        | Some (uid, u) =>
            if user_is_active u && verify_password password (password_hash u)
            then Some uid else None
        | None => None
        end).

Lemma verify_user_credentials_ok name password s o s' :
  verify_user_credentials name password s = (Ok o, s') ->
  s' = s /\
  forall uid, o = Some uid ->
    exists u, row_of (users (working s)) uid = Some u /\ username u = name /\
              user_is_active u = true /\ verify_password password (password_hash u) = true.
Proof.
  unfold verify_user_credentials. intros H.
  apply bind_ok in H as (l & s1 & H1 & H). apply query_ok in H1 as [-> <-].
  apply bind_ok in H as (u & s2 & H2 & H). apply scalar_one_or_none_ok in H2 as [<- Hu].
  apply ret_ok in H as [<- <-]. split; [done|]. intros uid.
  destruct u as [[i u]|]; [|done]. intros E.
  assert ((i, u) ∈ select (fun _ u => bool_decide (username u = name)) (users (working s)))
    as [Hr Hn]%elem_select by (simpl in *; rewrite Hu; set_solver).
  destruct (_ && _)%bool eqn:Eb; [|done]. bools. simplify_eq. eauto.
Qed.
End Credentials.

Lemma verify_user_credentials_fixes {X} (f : session database -> X) vp n p :
  fixes f (verify_user_credentials vp n p).
Proof. unfold verify_user_credentials. solve_fixes. Qed.

Lemma log_event_ok u a ty i s r s' :
  log_event u a ty i s = (Ok r, s') ->
  s' = with_working (over_audit_logs
         (fun t => t ++ [{| audit_user_id := u; action := a; entity_type := ty;
                            entity_id := i |}]) (working s)) s.
Proof.
  unfold log_event. intros H. apply bind_ok in H as (id & s1 & H1 & H).
  apply ret_ok in H as [_ <-]. by apply add_ok in H1 as (_ & _ & _ & ->).
Qed.

(** Writing the audit trail cannot fail and touches nothing else. *)
Lemma log_event_run u a ty i s :
  exists s', log_event u a ty i s = (Ok tt, s').
Proof. by eexists. Qed.

Lemma log_event_fixes {X} (f : session database -> X) u a ty i :
  (forall g s, f (with_working (over_audit_logs g (working s)) s) = f s) ->
  fixes f (log_event u a ty i).
Proof.
  intros Hf. unfold log_event. apply fixes_bind; [by apply add_fixes|].
  intros. apply fixes_ret.
Qed.

Lemma enforce_store_access_ok c t s r s' :
  enforce_store_access c t s = (Ok r, s') -> store_denied c t = false /\ s = s'.
Proof. apply raise_if_ok. Qed.

Lemma store_denied_false c t : store_denied c t = false <-> c = None \/ c = Some t.
Proof.
  destruct c as [c|]; simpl; [|tauto].
  rewrite negb_false_iff, Z.eqb_eq. split; [intros ->; by right|intros [|[= ->]]; done].
Qed.

Lemma enforce_store_access_fixes {X} (f : session database -> X) c t :
  fixes f (enforce_store_access c t).
Proof. apply fixes_raise_if. Qed.

#[export] Hint Resolve enforce_store_access_fixes verify_user_credentials_fixes : fixes.
#[export] Hint Extern 2 (fixes _ (log_event _ _ _ _)) =>
  (apply log_event_fixes; intros; reflexivity) : fixes.
#[export] Hint Extern 2 (fixes _ date_today) => (intros ?; reflexivity) : fixes.
#[export] Hint Extern 2 (fixes _ datetime_now_utc) => (intros ?; reflexivity) : fixes.
#[export] Hint Extern 2 (fixes _ (get_user_permissions _)) => (intros ?; reflexivity) : fixes.

(** ** The approval limiter (FixedWindowRateLimiter, limit 10 per 300 s)

    A dictionary of windows per client address; it lives in the process, so
    neither commit nor rollback touches it. *)

Definition approval_limit : Z := 10.
Definition approval_window_seconds : Z := 300.

(** One call of [check] on the windows: the new windows, or the refusal. *)
Definition limiter_check (limit window_seconds now : Z) (key : string)
    (ws : gmap string window) : option (gmap string window) :=
  match ws !! key with
  | None => Some (<[key := {| started_at := now; count := 1 |}]> ws)
  | Some w =>
      if window_seconds <=? now - started_at w
      then Some (<[key := {| started_at := now; count := 1 |}]> ws)
      else if limit <=? count w then None
      else Some (<[key := {| started_at := started_at w; count := count w + 1 |}]> ws)
  end.

Definition with_windows (ws : gmap string window) (s : session database) : session database :=
  mkSession (committed s) (working s) (env s) (draws s) ws.

Definition approval_check (key : string) : Tx unit := fun s =>
  match limiter_check approval_limit approval_window_seconds (monotonic (env s)) key
          (approval_windows s) with
  | Some ws => (Ok tt, with_windows ws s)
  | None => (Raise RateLimitedError, s)
  end.

Definition approval_reset (key : string) : Tx unit := fun s =>
  (Ok tt, with_windows (delete key (approval_windows s)) s).

#[export] Hint Extern 2 (fixes _ (approval_reset _)) => (intros ?; reflexivity) : fixes.

(** Calls of [check] for one key at successive instants. *)
Fixpoint limiter_run (limit window_seconds : Z) (key : string) (times : list Z)
    (ws : gmap string window) : list bool :=
  match times with
  | [] => []
  | t :: ts =>
      match limiter_check limit window_seconds t key ws with
      | Some ws' => true :: limiter_run limit window_seconds key ts ws'
      | None => false :: limiter_run limit window_seconds key ts ws
      end
  end.

Definition accepted (l : list bool) : Z := sum_by (fun b => if b : bool then 1 else 0) l.

Lemma limiter_run_within limit wsec key t0 times ws w :
  ws !! key = Some w -> started_at w = t0 -> 0 <= count w ->
  Forall (fun t => t0 <= t < t0 + wsec) times ->
  accepted (limiter_run limit wsec key times ws) <= Z.max 0 (limit - count w).
Proof.
  revert ws w. induction times as [|t ts IH]; intros ws w Hw Ht Hc Hts; simpl.
  { unfold accepted. rewrite sum_by_nil. lia. }
  apply Forall_cons in Hts as [Hin Hts].
  unfold limiter_check. rewrite Hw.
  destruct (Z.leb_spec wsec (t - started_at w)); [lia|].
  destruct (Z.leb_spec limit (count w)); unfold accepted; rewrite sum_by_cons.
  - specialize (IH ws w Hw Ht Hc Hts). unfold accepted in IH. lia.
  - match goal with |- context [<[key := ?v]> ws] => set (w' := v) end.
    specialize (IH (<[key := w']> ws) w' ltac:(apply lookup_insert_eq) Ht
                  ltac:(simpl; lia) Hts).
    unfold accepted, w' in *. simpl in *. lia.
Qed.
