(* ===== verification/Workforce.v ===== *)
(** * Employees, their histories, and attendance

    app/modules/hr/service.py.  An employee row holds what never changes; status,
    assignment and compensation are effective-dated histories (see
    [EffectiveDated]); a shift is an attendance record, corrected by voiding it
    and inserting a replacement. *)

From Stdlib Require QArith_base.
From S2P Require Import Prelude Fixed Session Schema Tables Platform EffectiveDated.

(** ** The state machine of employment *)

Definition EMPLOYMENT_STATUSES : list (string * EmploymentStatus) :=
  [("ACTIVE", ES_ACTIVE); ("ON_LEAVE", ON_LEAVE); ("SUSPENDED", SUSPENDED);
   ("TERMINATED", TERMINATED)]%string.

Definition _VALID_STATUS_TRANSITIONS (st : EmploymentStatus) : list EmploymentStatus :=
  match st with
  | ES_ACTIVE => [ON_LEAVE; SUSPENDED; TERMINATED]
  | ON_LEAVE => [ES_ACTIVE; TERMINATED]
  | SUSPENDED => [ES_ACTIVE; TERMINATED]
  | TERMINATED => [ES_ACTIVE]
  end.

Definition _CLOCKABLE_STATUSES : list EmploymentStatus := [ES_ACTIVE; ON_LEAVE].

Definition valid_transition (a b : EmploymentStatus) : bool :=
  existsb (fun st => bool_decide (st = b)) (_VALID_STATUS_TRANSITIONS a).

#[export] Program Instance status_dated : Dated EmploymentStatusPeriod := {|
  holder := esp_employee_id;
  since := esp_from;
  until := esp_to;
  ended o r := mkStatusPeriod (esp_employee_id r) (esp_status r) (esp_from r) o (esp_reason r)
                 (esp_actor_id r);
  may_follow a b := valid_transition (esp_status a) (esp_status b);
|}.
Solve All Obligations with by intros; destruct_all unit; try destruct r.

#[export] Program Instance assignment_dated : Dated EmploymentAssignment := {|
  holder := ea_employee_id;
  since := ea_from;
  until := ea_to;
  ended o r := mkAssignment (ea_employee_id r) (ea_store_id r) (ea_department_id r)
                 (ea_position_id r) (manager_employee_id r) (ea_from r) o (ea_actor_id r);
  may_follow _ _ := true;
|}.
Solve All Obligations with by intros; destruct_all unit; try destruct r.

#[export] Program Instance compensation_dated : Dated CompensationPeriod := {|
  holder := cp_employee_id;
  since := cp_from;
  until := cp_to;
  ended o r := mkCompensation (cp_employee_id r) (cp_pay_type r) (cp_rate r) (pay_frequency r)
                 (cp_overtime_eligible r) (cp_currency r) (cp_from r) o (cp_actor_id r);
  may_follow _ _ := true;
|}.
Solve All Obligations with by intros; destruct_all unit; try destruct r.

(** ** Departments and positions *)

Definition create_department (name : string) (actor_id : option Z) : Tx Z := committing (
  department_id ← or_conflict "DUPLICATE_DEPARTMENT"
    (add {| department_name := name; department_is_active := true |});
  _ ← log_event actor_id "DEPARTMENT_CREATED" "department" (Some department_id);
  mret department_id).

(** [x is not None and db.get(R, x) is None] *)
Definition check_reference (R : Type) `{Table R} (ref : option Z) (code : string) : Tx unit :=
  match ref with
  | None => mret tt
  | Some i =>
      found ← get (R := R) i;
      raise_if (negb (opt_some found)) (ValidationAppError code)
  end.

Definition create_position (title : string) (department_id actor_id : option Z) : Tx Z := committing (
  _ ← check_reference Department department_id "INVALID_DEPARTMENT";
  position_id ← add {| position_title := title; position_department_id := department_id;
                       position_is_active := true |};
  _ ← log_event actor_id "POSITION_CREATED" "position" (Some position_id);
  mret position_id).

(** ** Hiring *)

Record EmployeeHireInput := {
  hi_employee_number : string;
  hi_legal_name : string;
  hi_hire_date : Z;
  hi_store_id : Z;
  hi_display_name : option string;
  hi_user_id : option Z;
  hi_department_id : option Z;
  hi_position_id : option Z;
  hi_manager_employee_id : option Z;
}.

Definition first_status (data : EmployeeHireInput) (actor_id : option Z) (employee_id : Z)
    : EmploymentStatusPeriod :=
  mkStatusPeriod employee_id ES_ACTIVE (hi_hire_date data) None (Some "Hire"%string) actor_id.

Definition first_assignment (data : EmployeeHireInput) (actor_id : option Z) (employee_id : Z)
    : EmploymentAssignment :=
  mkAssignment employee_id (hi_store_id data) (hi_department_id data) (hi_position_id data)
    (hi_manager_employee_id data) (hi_hire_date data) None actor_id.

Definition new_employee (data : EmployeeHireInput) : Employee :=
  {| employee_number := hi_employee_number data; legal_name := hi_legal_name data;
     display_name := hi_display_name data; hire_date := hi_hire_date data;
     employee_user_id := hi_user_id data |}.

Definition hire_employee (data : EmployeeHireInput) (actor_id caller_store_id : option Z) : Tx Z :=
  committing (
  _ ← enforce_store_access caller_store_id (hi_store_id data);
  _ ← check_reference Department (hi_department_id data) "INVALID_DEPARTMENT";
  _ ← check_reference Position (hi_position_id data) "INVALID_POSITION";
  _ ← check_reference Employee (hi_manager_employee_id data) "INVALID_MANAGER";
  employee_id ← or_conflict "DUPLICATE_EMPLOYEE_NUMBER"
    (add (new_employee data));
  _ ← add (first_status data actor_id employee_id);
  _ ← add (first_assignment data actor_id employee_id);
  _ ← log_event actor_id "EMPLOYEE_HIRED" "employee" (Some employee_id);
  mret employee_id).

Definition get_employee (employee_id : Z) : Tx Employee :=
  found ← get employee_id;
  of_option found NotFoundError.

(** ** What is in force now: the rows without an end *)

Definition get_current_status (employee_id : Z) : Tx (option (Z * EmploymentStatusPeriod)) :=
  find_by (open_of employee_id).

Definition get_current_assignment (employee_id : Z) : Tx (option (Z * EmploymentAssignment)) :=
  find_by (open_of employee_id).

Definition get_current_compensation (employee_id : Z) : Tx (option (Z * CompensationPeriod)) :=
  find_by (open_of employee_id).

Definition _lock_employee (employee_id : Z) : Tx Employee := get_employee employee_id.

Definition _enforce_store_access_via_current_assignment (employee_id : Z)
    (caller_store_id : option Z) : Tx unit :=
  match caller_store_id with
  | None => mret tt
  | Some _ =>
      current ← get_current_assignment employee_id;
      match current with
      | None => raise (ForbiddenError "STORE_ACCESS_DENIED")
      | Some (_, a) => enforce_store_access caller_store_id (ea_store_id a)
      end
  end.

(** ** Effective-dated changes *)

Definition invalid_effective_date : exn := ValidationAppError "INVALID_EFFECTIVE_DATE".

(** [current.effective_to = effective_from - timedelta(days=1)], flushed. *)
Definition end_before {R} `{Table R} `{Dated R} (row_id effective_from : Z) : Tx unit :=
  update row_id (ended (Some (effective_from - 1))).

Definition change_employment_status (employee_id : Z) (new_status : string) (effective_from : Z)
    (reason : option string) (actor_id caller_store_id : option Z) : Tx Z := committing (
  status ← of_option (parse_enum EMPLOYMENT_STATUSES new_status)
             (ValidationAppError "INVALID_STATUS");
  _ ← _lock_employee employee_id;
  _ ← _enforce_store_access_via_current_assignment employee_id caller_store_id;
  current ← get_current_status employee_id;
  '(current_id, period) ← of_option current (ConflictError "NO_CURRENT_STATUS");
  _ ← raise_if (negb (valid_transition (esp_status period) status))
        (ConflictError "INVALID_STATUS_TRANSITION");
  _ ← raise_if (effective_from <=? esp_from period) invalid_effective_date;
  _ ← end_before (R := EmploymentStatusPeriod) current_id effective_from;
  new_id ← add (mkStatusPeriod employee_id status effective_from None reason actor_id);
  _ ← log_event actor_id "EMPLOYMENT_STATUS_CHANGED" "employee" (Some employee_id);
  mret new_id).

Record Reassignment := {
  ra_store_id : Z;
  ra_department_id : option Z;
  ra_position_id : option Z;
  ra_manager_employee_id : option Z;
}.

Definition new_assignment (employee_id effective_from : Z) (a : Reassignment) (actor_id : option Z)
    : EmploymentAssignment :=
  mkAssignment employee_id (ra_store_id a) (ra_department_id a) (ra_position_id a)
    (ra_manager_employee_id a) effective_from None actor_id.

Definition reassign_employee (employee_id effective_from : Z) (a : Reassignment)
    (actor_id caller_store_id : option Z) : Tx Z := committing (
  _ ← _lock_employee employee_id;
  current ← get_current_assignment employee_id;
  '(current_id, assignment) ← of_option current (ConflictError "NO_CURRENT_ASSIGNMENT");
  _ ← enforce_store_access caller_store_id (ea_store_id assignment);
  _ ← enforce_store_access caller_store_id (ra_store_id a);
  _ ← check_reference Department (ra_department_id a) "INVALID_DEPARTMENT";
  _ ← check_reference Position (ra_position_id a) "INVALID_POSITION";
  _ ← check_reference Employee (ra_manager_employee_id a) "INVALID_MANAGER";
  _ ← raise_if (effective_from <=? ea_from assignment) invalid_effective_date;
  _ ← end_before (R := EmploymentAssignment) current_id effective_from;
  new_id ← add (new_assignment employee_id effective_from a actor_id);
  _ ← log_event actor_id "EMPLOYEE_REASSIGNED" "employee" (Some employee_id);
  mret new_id).

Record CompensationInputs := {
  ci_pay_type : string;
  ci_rate : QArith_base.Q;
  ci_pay_frequency : string;
  ci_overtime_eligible : bool;
  ci_currency : string;
}.

(** A [Decimal] stored in NUMERIC(12,4). *)
Definition stored_rate (r : QArith_base.Q) : Z :=
  div_half_up (10000 * QArith_base.Qnum r) (Zpos (QArith_base.Qden r)).

Definition new_compensation (employee_id effective_from : Z) (c : CompensationInputs)
    (actor_id : option Z) : CompensationPeriod :=
  mkCompensation employee_id (ci_pay_type c) (stored_rate (ci_rate c)) (ci_pay_frequency c)
    (ci_overtime_eligible c) (ci_currency c) effective_from None actor_id.

Definition change_compensation (employee_id effective_from : Z) (c : CompensationInputs)
    (actor_id caller_store_id : option Z) : Tx Z := committing (
  _ ← _lock_employee employee_id;
  _ ← _enforce_store_access_via_current_assignment employee_id caller_store_id;
  current ← get_current_compensation employee_id;
  _ ← raise_if (match current with Some (_, p) => effective_from <=? cp_from p | None => false end)
        invalid_effective_date;
  _ ← match current with
      | Some (current_id, _) => end_before (R := CompensationPeriod) current_id effective_from
      | None => mret tt
      end;
  new_id ← or_conflict "INVALID_COMPENSATION_PERIOD"
    (add (new_compensation employee_id effective_from c actor_id));
  _ ← log_event actor_id "EMPLOYEE_COMPENSATION_CHANGED" "employee" (Some employee_id);
  mret new_id).

(** ** Attendance *)

Definition microseconds_per_hour : Z := 3600000000.
Definition microseconds_per_day : Z := 24 * microseconds_per_hour.

Definition ATTENDANCE_SOURCES : list (string * AttendanceSource) :=
  [("CLOCK", CLOCK); ("MANUAL", MANUAL_ENTRY)]%string.

Section Timezones.
(** The IANA database: the offset of a zone from UTC at an instant, in
    microseconds, for the zones it knows. *)
Variable utc_offset : string -> option (Z -> Z).

(** [local_dt.date()], or the day before when the local hour is below the
    store's boundary. *)
Definition resolve_work_date (clock_in : Z) (store_timezone : string) (day_boundary_hour : Z)
    : option Z :=
  match utc_offset store_timezone with
  | None => None
  | Some offset =>
      let local_dt := clock_in + offset clock_in in
      let date := local_dt / microseconds_per_day in
      let hour := local_dt mod microseconds_per_day / microseconds_per_hour in
      Some (if hour <? day_boundary_hour then date - 1 else date)
  end.

Definition work_date_at (store_id clock_in : Z) : Tx Z :=
  found ← get (R := Store) store_id;
  store ← of_option found NotFoundError;
  of_option (resolve_work_date clock_in (timezone store) (attendance_day_boundary_hour store))
    (ValidationAppError "INVALID_STORE_TIMEZONE").

(** [clock_in] reads the store before the status and its zone after it. *)
Definition clock_in (employee_id store_id clock_in : Z) (source : string)
    (actor_id caller_store_id : option Z) : Tx Z := committing (
  src ← of_option (parse_enum ATTENDANCE_SOURCES source) (ValidationAppError "INVALID_SOURCE");
  _ ← enforce_store_access caller_store_id store_id;
  found ← get (R := Store) store_id;
  store ← of_option found NotFoundError;
  status ← get_current_status employee_id;
  _ ← raise_if (negb (match status with
                      | Some (_, p) => bool_decide (esp_status p ∈ _CLOCKABLE_STATUSES)
                      | None => false
                      end)) (ConflictError "EMPLOYEE_NOT_CLOCKABLE");
  work ← of_option (resolve_work_date clock_in (timezone store) (attendance_day_boundary_hour store))
           (ValidationAppError "INVALID_STORE_TIMEZONE");
  record_id ← or_conflict "OVERLAPPING_ATTENDANCE"
    (add (mkAttendance employee_id store_id work clock_in None src ATT_OPEN None None None None));
  _ ← log_event actor_id "ATTENDANCE_CLOCKED_IN" "attendance_record" (Some record_id);
  mret record_id).

Definition get_attendance_record (attendance_record_id : Z) : Tx AttendanceRecord :=
  found ← get attendance_record_id;
  of_option found NotFoundError.

(** The attributes the operations assign; an UPDATE also stamps [updated_at]. *)
Definition clocked_out (at_ now : Z) (r : AttendanceRecord) : AttendanceRecord :=
  mkAttendance (ar_employee_id r) (ar_store_id r) (work_date r) (clock_in_at r) (Some at_)
    (ar_source r) ATT_CLOSED (correction_of_id r) (correction_reason r) (corrected_by r) (Some now).

Definition voided_record (now : Z) (r : AttendanceRecord) : AttendanceRecord :=
  mkAttendance (ar_employee_id r) (ar_store_id r) (work_date r) (clock_in_at r) (clock_out_at r)
    (ar_source r) ATT_VOIDED (correction_of_id r) (correction_reason r) (corrected_by r) (Some now).

Definition clock_out (attendance_record_id clock_out : Z) (actor_id caller_store_id : option Z)
    : Tx Z := committing (
  record ← get_attendance_record attendance_record_id;
  _ ← enforce_store_access caller_store_id (ar_store_id record);
  _ ← raise_if (negb (bool_decide (ar_status record = ATT_OPEN))) (ConflictError "ATTENDANCE_NOT_OPEN");
  _ ← raise_if (clock_out <=? clock_in_at record) (ValidationAppError "INVALID_CLOCK_OUT");
  now ← datetime_now_utc;
  _ ← update attendance_record_id (clocked_out clock_out now);
  _ ← log_event actor_id "ATTENDANCE_CLOCKED_OUT" "attendance_record" (Some attendance_record_id);
  mret attendance_record_id).

Definition correction_of (original_id : Z) (r : AttendanceRecord) (work new_in : Z)
    (new_out : option Z) (reason : string) (actor_id : option Z) : AttendanceRecord :=
  mkAttendance (ar_employee_id r) (ar_store_id r) work new_in new_out (ar_source r)
    (if opt_some new_out then ATT_CLOSED else ATT_OPEN) (Some original_id) (Some reason) actor_id None.

Definition correct_attendance (attendance_record_id new_in : Z) (new_out : option Z)
    (reason : string) (actor_id caller_store_id : option Z) : Tx Z := committing (
  _ ← raise_if (blank reason) (ValidationAppError "CORRECTION_REASON_REQUIRED");
  original ← get_attendance_record attendance_record_id;
  _ ← enforce_store_access caller_store_id (ar_store_id original);
  _ ← raise_if (bool_decide (ar_status original = ATT_VOIDED)) (ConflictError "ALREADY_CORRECTED");
  _ ← raise_if (match new_out with Some o => o <=? new_in | None => false end)
        (ValidationAppError "INVALID_CLOCK_OUT");
  work ← work_date_at (ar_store_id original) new_in;
  now ← datetime_now_utc;
  _ ← update attendance_record_id (voided_record now);
  correction_id ← or_conflict "OVERLAPPING_ATTENDANCE"
    (add (correction_of attendance_record_id original work new_in new_out reason actor_id));
  _ ← log_event actor_id "ATTENDANCE_CORRECTED" "attendance_record" (Some correction_id);
  mret correction_id).
End Timezones.

(** ** Reading *)

(** The employees, positions and departments are listed by name, in the order of
    the database's collation. *)
Section Listings.
Variable collate : string -> string -> bool.

Definition list_departments (is_active : option bool) : Tx (list (Z * Department)) :=
  rows ← query (fun _ r => opt_all (eqb (department_is_active r)) is_active);
  mret (sort_by (fun a b => collate (department_name a.2) (department_name b.2)) rows).

Definition list_positions (is_active : option bool) : Tx (list (Z * Position)) :=
  rows ← query (fun _ r => opt_all (eqb (position_is_active r)) is_active);
  mret (sort_by (fun a b => collate (position_title a.2) (position_title b.2)) rows).

(** The employees joined with their open assignments. *)
Definition list_employees (caller_store_id : option Z) : Tx (list (Z * Employee)) :=
  staff ← query (R := Employee) (fun _ _ => true);
  current ← query (R := EmploymentAssignment)
              (fun _ a => is_open a && opt_all (Z.eqb (ea_store_id a)) caller_store_id);
  mret (sort_by (fun a b => collate (legal_name a.2) (legal_name b.2))
    (flat_map (fun e : Z * Employee =>
       map (fun _ => e) (List.filter (fun a => ea_employee_id a.2 =? e.1) current)) staff)).
End Listings.

(** The rows of one employee's history, oldest first. *)
Definition read_history (R : Type) `{Table R} `{Dated R} (employee_id : Z) (caller_store_id : option Z)
    : Tx (list R) :=
  _ ← _enforce_store_access_via_current_assignment employee_id caller_store_id;
  rows ← query (R := R) (fun _ r => holder r =? employee_id);
  mret (sort_by (fun a b => since a <=? since b) (map snd rows)).

Definition employment_status_history (employee_id : Z) (caller_store_id : option Z)
    : Tx (list EmploymentStatusPeriod) := read_history _ employee_id caller_store_id.

Definition employment_assignment_history (employee_id : Z) (caller_store_id : option Z)
    : Tx (list EmploymentAssignment) := read_history _ employee_id caller_store_id.

Definition compensation_history (employee_id : Z) (caller_store_id : option Z)
    : Tx (list CompensationPeriod) := read_history _ employee_id caller_store_id.

Definition earlier_shift (a b : Z * AttendanceRecord) : bool :=
  (work_date a.2 <? work_date b.2)
  || ((work_date a.2 =? work_date b.2) && (clock_in_at a.2 <=? clock_in_at b.2)).

Definition list_attendance_records (employee_id caller_store_id work_date_from work_date_to : option Z)
    (include_voided : bool) : Tx (list (Z * AttendanceRecord)) :=
  rows ← query (fun _ r => opt_all (Z.eqb (ar_employee_id r)) employee_id
                           && opt_all (Z.eqb (ar_store_id r)) caller_store_id
                           && opt_all (fun d => d <=? work_date r) work_date_from
                           && opt_all (fun d => work_date r <=? d) work_date_to
                           && (include_voided || negb (bool_decide (ar_status r = ATT_VOIDED))));
  mret (sort_by earlier_shift rows).
