(* ===== verification/WorkforceInvariant.v ===== *)
(** * What every personnel state satisfies

    What each operation of [Workforce] writes when it succeeds, the invariant of
    the histories and of the attendance records, and that every operation keeps
    it. *)

From S2P Require Import Prelude Fixed Session Schema Tables Platform EffectiveDated Workforce.

(** Peel one statement off a successful run. *)
Tactic Notation "peel" hyp(H) "with" uconstr(lem) "as" simple_intropattern(p) :=
  let s := fresh "s" in let E := fresh "E" in
  apply bind_ok in H as (? & s & E & H); apply lem in E as p.

(** ** What a successful operation wrote *)

Lemma check_reference_ok (R : Type) `{Table R} ref code s u s' :
  check_reference R ref code s = (Ok u, s') ->
  opt_all (exists_row (table (working s))) ref = true /\ s' = s.
Proof.
  unfold check_reference. destruct ref as [i|]; intros E; [|by apply ret_ok in E as [_ <-]].
  peel E with get_ok as [-> <-]. apply raise_if_ok in E as [E <-]. split; [|done].
  simpl. unfold exists_row. by destruct (row_of _ i).
Qed.

Lemma check_reference_fixes {X} (f : session database -> X) (R : Type) `{Table R} ref code :
  fixes f (check_reference R ref code).
Proof. unfold check_reference. solve_fixes. Qed.

Lemma get_employee_ok e s emp s' :
  get_employee e s = (Ok emp, s') -> row_of (employees (working s)) e = Some emp /\ s' = s.
Proof.
  unfold get_employee. intros H. peel H with get_ok as [-> <-]. by apply of_option_ok in H as [H <-].
Qed.

(** The store of an employee's current assignment is the caller's. *)
Definition within_reach (d : database) (caller : option Z) (e : Z) : Prop :=
  forall c, caller = Some c ->
    exists i a, select (fun _ r => open_of e r) (assignments d) = [(i, a)] /\ ea_store_id a = c.

Lemma enforce_current_ok e caller s u s' :
  _enforce_store_access_via_current_assignment e caller s = (Ok u, s') ->
  within_reach (working s) caller e /\ s' = s.
Proof.
  unfold _enforce_store_access_via_current_assignment, get_current_assignment, within_reach.
  destruct caller as [c|]; intros H; [|by apply ret_ok in H as [_ <-]].
  peel H with find_by_ok as [-> Ho]. match type of Ho with _ = match ?x with _ => _ end => destruct x as [[i a]|] end.
  - apply enforce_store_access_ok in H as [Hst%store_denied_false <-]. split; [|done].
    intros c' [= <-]. exists i, a. split; [done|]. by destruct Hst as [|[= ->]].
  - by apply raise_ok in H.
Qed.

Lemma get_current_fixes {X} (f : session database -> X) e :
  fixes f (get_current_status e) /\ fixes f (get_current_assignment e) /\
  fixes f (get_current_compensation e) /\ fixes f (get_employee e) /\ fixes f (get_attendance_record e).
Proof.
  unfold get_current_status, get_current_assignment, get_current_compensation, get_employee, get_attendance_record.
  split_and!; solve_fixes.
Qed.

Lemma enforce_current_fixes {X} (f : session database -> X) e caller :
  fixes f (_enforce_store_access_via_current_assignment e caller).
Proof.
  unfold _enforce_store_access_via_current_assignment, get_current_assignment. solve_fixes.
Qed.

#[export] Hint Resolve check_reference_fixes enforce_current_fixes : fixes.

(** What an effective-dated change writes: the open row ends, the next one begins. *)
Definition superseded {R} `{Table R} `{Dated R} (i : Z) (new : R) (d : database) : database :=
  over_table (fun t => t ++ [new]) (over_table (set_row i (ended (Some (since new - 1)))) d).

Definition logged (log : AuditLog) (d : database) : database := over_audit_logs (fun t => t ++ [log]) d.

Lemma change_status_ok e name from reason actor caller s k s' :
  change_employment_status e name from reason actor caller s = (Ok k, s') ->
  exists st i r log, parse_enum EMPLOYMENT_STATUSES name = Some st /\
    is_Some (row_of (employees (working s)) e) /\ within_reach (working s) caller e /\
    select (fun _ r => open_of e r) (status_periods (working s)) = [(i, r)] /\
    valid_transition (esp_status r) st = true /\ esp_from r < from /\
    working s' = logged log (superseded i (mkStatusPeriod e st from None reason actor) (working s)) /\
    committed s' = working s' /\ k = next_id (status_periods (working s)).
Proof.
  unfold change_employment_status. intros (s1 & H & -> & ->)%committing_ok.
  peel H with of_option_ok as [Hst <-]. peel H with get_employee_ok as [He ->].
  peel H with enforce_current_ok as [Ha ->]. peel H with find_by_ok as [-> Ho].
  apply bind_ok in H as ([i r] & s2 & E & H). apply of_option_ok in E as [-> <-].
  peel H with raise_if_ok as [Hv%negb_false_iff <-]. peel H with raise_if_ok as [Hf <-].
  peel H with update_ok as (? & _ & _ & _ & ->). peel H with add_ok as (-> & _ & _ & ->).
  peel H with log_event_ok as ->. apply ret_ok in H as [<- <-].
  do 4 eexists. split_and!; [exact Hst|done|done|exact Ho|done|lia|reflexivity|done|].
  simpl. by rewrite next_id_set.
Qed.

Lemma reassign_ok e from a actor caller s k s' :
  reassign_employee e from a actor caller s = (Ok k, s') ->
  exists i r log, is_Some (row_of (employees (working s)) e) /\
    select (fun _ r => open_of e r) (assignments (working s)) = [(i, r)] /\
    store_denied caller (ea_store_id r) = false /\ store_denied caller (ra_store_id a) = false /\
    ea_from r < from /\
    working s' = logged log (superseded i (new_assignment e from a actor) (working s)) /\
    committed s' = working s' /\ k = next_id (assignments (working s)).
Proof.
  unfold reassign_employee. intros (s1 & H & -> & ->)%committing_ok.
  peel H with get_employee_ok as [He ->]. peel H with find_by_ok as [-> Ho].
  apply bind_ok in H as ([i r] & s2 & E & H). apply of_option_ok in E as [-> <-].
  peel H with enforce_store_access_ok as [H1 <-]. peel H with enforce_store_access_ok as [H2 <-].
  do 3 peel H with check_reference_ok as [_ ->]. peel H with raise_if_ok as [Hf <-].
  peel H with update_ok as (? & _ & _ & _ & ->). peel H with add_ok as (-> & _ & _ & ->).
  peel H with log_event_ok as ->. apply ret_ok in H as [<- <-].
  do 3 eexists. split_and!; [done|exact Ho|done|done|lia|reflexivity|done|].
  simpl. by rewrite next_id_set.
Qed.

(** The first compensation has nothing to end. *)
Lemma change_compensation_ok e from c actor caller s k s' :
  change_compensation e from c actor caller s = (Ok k, s') ->
  let new := new_compensation e from c actor in
  exists log, is_Some (row_of (employees (working s)) e) /\ within_reach (working s) caller e /\
    row_valid (working s) new /\ committed s' = working s' /\
    k = next_id (compensations (working s)) /\
    ((select (fun _ r => open_of e r) (compensations (working s)) = [] /\
      unique_violation new (compensations (working s)) = None /\
      working s' = logged log (over_compensations (fun t => t ++ [new]) (working s))) \/
     (exists i r, select (fun _ r => open_of e r) (compensations (working s)) = [(i, r)] /\
        cp_from r < from /\ working s' = logged log (superseded i new (working s)))).
Proof.
  unfold change_compensation. intros H. apply committing_ok in H as (s1 & H & -> & ->).
  peel H with get_employee_ok as [He ->]. peel H with enforce_current_ok as [Ha ->].
  peel H with find_by_ok as [-> Ho]. peel H with raise_if_ok as [Hf <-].
  match type of Ho with _ = match ?x with _ => _ end => destruct x as [[i r]|] end.
  - peel H with update_ok as (? & _ & _ & _ & ->).
    apply bind_ok in H as (i' & s2 & E & H). apply or_conflict_ok in E.
    apply add_ok in E as (-> & Hv & _ & ->). peel H with log_event_ok as ->.
      apply ret_ok in H as [<- <-]. eexists. split_and!; [done|done|exact Hv|done|simpl; by rewrite next_id_set|].
      right. exists i, r. split_and!; [exact Ho|lia|reflexivity].
  - peel H with ret_ok as [_ <-].
    apply bind_ok in H as (i' & s2 & E & H). apply or_conflict_ok in E.
    apply add_ok in E as (-> & Hv & Hu & ->). peel H with log_event_ok as ->.
      apply ret_ok in H as [<- <-]. eexists. split_and!; [done|done|exact Hv|done|done|].
      left. split_and!; [exact Ho|exact Hu|reflexivity].
Qed.

Lemma hire_employee_ok data actor caller s e s' :
  hire_employee data actor caller s = (Ok e, s') ->
  exists log, store_denied caller (hi_store_id data) = false /\
    e = next_id (employees (working s)) /\
    unique_violation (new_employee data) (employees (working s)) = None /\
    working s' = logged log (over_assignments (fun t => t ++ [first_assignment data actor e])
      (over_status_periods (fun t => t ++ [first_status data actor e])
        (over_employees (fun t => t ++ [new_employee data]) (working s)))) /\
    committed s' = working s'.
Proof.
  unfold hire_employee. intros (s1 & H & -> & ->)%committing_ok.
  peel H with enforce_store_access_ok as [Hst <-]. do 3 peel H with check_reference_ok as [_ ->].
  apply bind_ok in H as (i & s2 & E & H). apply or_conflict_ok in E.
  apply add_ok in E as (-> & _ & Hu & ->). do 2 peel H with add_ok as (_ & _ & _ & ->).
    peel H with log_event_ok as ->. apply ret_ok in H as [<- <-].
    eexists. split_and!; [done|done|exact Hu|reflexivity|done].
Qed.

Section Attendance.
Variable utc_offset : string -> option (Z -> Z).

Lemma clock_in_ok e st at_ src actor caller s k s' :
  clock_in utc_offset e st at_ src actor caller s = (Ok k, s') ->
  exists source store i p work log,
    parse_enum ATTENDANCE_SOURCES src = Some source /\ store_denied caller st = false /\
    row_of (stores (working s)) st = Some store /\
    select (fun _ r => open_of e r) (status_periods (working s)) = [(i, p)] /\
    esp_status p ∈ _CLOCKABLE_STATUSES /\
    resolve_work_date utc_offset at_ (timezone store) (attendance_day_boundary_hour store) = Some work /\
    let new := mkAttendance e st work at_ None source ATT_OPEN None None None None in
    row_valid (working s) new /\ unique_violation new (attendance_records (working s)) = None /\
    working s' = logged log (over_attendance_records (fun t => t ++ [new]) (working s)) /\
    committed s' = working s' /\ k = next_id (attendance_records (working s)).
Proof.
  unfold clock_in. intros H. apply committing_ok in H as (s1 & H & -> & ->).
  peel H with of_option_ok as [Hsrc <-]. peel H with enforce_store_access_ok as [Hst <-].
  peel H with get_ok as [-> <-]. peel H with of_option_ok as [Hstore <-].
  peel H with find_by_ok as [-> Ho]. peel H with raise_if_ok as [Hc%negb_false_iff <-].
  peel H with of_option_ok as [Hw <-].
  match type of Ho with _ = match ?x with _ => _ end => destruct x as [[i p]|] end; [|done].
  apply bind_ok in H as (i' & s2 & E & H). apply or_conflict_ok in E.
  apply add_ok in E as (-> & Hv & Hu & ->). peel H with log_event_ok as ->.
    apply ret_ok in H as [<- <-]. apply bool_decide_eq_true in Hc.
    do 6 eexists. split_and!; [exact Hsrc|done|exact Hstore|exact Ho|exact Hc|exact Hw|
      exact Hv|exact Hu|reflexivity|done|done].
Qed.

Lemma clock_out_ok i at_ actor caller s k s' :
  clock_out i at_ actor caller s = (Ok k, s') ->
  exists r now log, row_of (attendance_records (working s)) i = Some r /\
    store_denied caller (ar_store_id r) = false /\ ar_status r = ATT_OPEN /\ clock_in_at r < at_ /\
    unique_violation (clocked_out at_ now r) (all_but i (attendance_records (working s))) = None /\
    working s' = logged log (over_attendance_records (set_row i (clocked_out at_ now)) (working s)) /\
    committed s' = working s' /\ k = i /\ now = utc_now (env s).
Proof.
  unfold clock_out, get_attendance_record. intros H. apply committing_ok in H as (s1 & H & -> & ->).
  apply bind_ok in H as (r & s2 & E & H). peel E with get_ok as [-> <-].
  apply of_option_ok in E as [Hr <-]. peel H with enforce_store_access_ok as [Hst <-].
  peel H with raise_if_ok as [Ho%negb_false_iff%bool_decide_eq_true <-].
  peel H with raise_if_ok as [Hlt <-]. peel H with asks_ok as [-> <-].
  peel H with update_ok as (r' & Hr' & _ & Hu & ->). peel H with log_event_ok as ->.
  apply ret_ok in H as [<- <-]. assert (r' = r) as -> by (simpl in *; congruence).
  do 3 eexists. split_and!; [exact Hr|done|done|lia|exact Hu|reflexivity|done|done|done].
Qed.

Lemma work_date_at_ok st at_ s w s' :
  work_date_at utc_offset st at_ s = (Ok w, s') ->
  s' = s /\ exists store, row_of (stores (working s)) st = Some store /\
    resolve_work_date utc_offset at_ (timezone store) (attendance_day_boundary_hour store) = Some w.
Proof.
  unfold work_date_at. intros H. peel H with get_ok as [-> <-]. peel H with of_option_ok as [Hst <-].
  apply of_option_ok in H as [Hw <-]. eauto.
Qed.

Lemma correct_attendance_ok i nin nout reason actor caller s k s' :
  correct_attendance utc_offset i nin nout reason actor caller s = (Ok k, s') ->
  exists r store work now log, row_of (attendance_records (working s)) i = Some r /\
    blank reason = false /\ store_denied caller (ar_store_id r) = false /\ ar_status r <> ATT_VOIDED /\
    (forall o, nout = Some o -> nin < o) /\
    row_of (stores (working s)) (ar_store_id r) = Some store /\
    resolve_work_date utc_offset nin (timezone store) (attendance_day_boundary_hour store) = Some work /\
    unique_violation (correction_of i r work nin nout reason actor)
      (set_row i (voided_record now) (attendance_records (working s))) = None /\
    unique_violation (voided_record now r) (all_but i (attendance_records (working s))) = None /\
    working s' = logged log (over_attendance_records (fun t => t ++ [correction_of i r work nin nout reason actor])
                   (over_attendance_records (set_row i (voided_record now)) (working s))) /\
    committed s' = working s' /\ k = next_id (attendance_records (working s)) /\
    now = utc_now (env s).
Proof.
  unfold correct_attendance, get_attendance_record. intros H. apply committing_ok in H as (s1 & H & -> & ->).
  peel H with raise_if_ok as [Hb <-].
  apply bind_ok in H as (r & s2 & E & H). peel E with get_ok as [-> <-].
  apply of_option_ok in E as [Hr <-]. peel H with enforce_store_access_ok as [Hst <-].
  peel H with raise_if_ok as [Hv%bool_decide_eq_false <-]. peel H with raise_if_ok as [Hlt <-].
  peel H with work_date_at_ok as (-> & store & Hstore & Hw). peel H with asks_ok as [-> <-].
  peel H with update_ok as (r' & Hr' & _ & Hu' & ->).
  assert (r' = r) as -> by (simpl in *; congruence).
  apply bind_ok in H as (i' & s2 & E & H). apply or_conflict_ok in E.
  apply add_ok in E as (-> & _ & Hu & ->). peel H with log_event_ok as ->.
    apply ret_ok in H as [<- <-]. do 5 eexists.
    split_and!; [exact Hr|done|done|done| |exact Hstore|exact Hw|exact Hu|exact Hu'|reflexivity|done| |done].
    + intros o ->. simpl in Hlt. lia.
    + simpl. by rewrite next_id_set.
Qed.
End Attendance.

(** ** The invariant *)

(** An open shift has no end; a closed one ends after it began. *)
Definition shift_times_ok (r : AttendanceRecord) : Prop :=
  match ar_status r with
  | ATT_OPEN => clock_out_at r = None
  | ATT_CLOSED => exists o, clock_out_at r = Some o /\ clock_in_at r < o
  | ATT_VOIDED => True
  end.

(** A correction replaces a voided shift of the same employee in the same store. *)
Definition replaces (t : list AttendanceRecord) (r : AttendanceRecord) : Prop :=
  forall j, correction_of_id r = Some j ->
    (exists reason, correction_reason r = Some reason /\ blank reason = false) /\
    exists o, row_of t j = Some o /\ ar_status o = ATT_VOIDED /\
      ar_employee_id o = ar_employee_id r /\ ar_store_id o = ar_store_id r /\ ar_source o = ar_source r.

Record attendance_wf (t : list AttendanceRecord) : Prop := {
  at_times : forall i r, row_of t i = Some r -> shift_times_ok r;
  at_apart : pairwise shifts_clash t;
  at_replaces : forall i r, row_of t i = Some r -> replaces t r;
  at_voided : forall i r, row_of t i = Some r -> ar_status r = ATT_VOIDED ->
    exists k c, row_of t k = Some c /\ correction_of_id c = Some i;
  at_once : forall i j a b o, row_of t i = Some a -> row_of t j = Some b ->
    correction_of_id a = Some o -> correction_of_id b = Some o -> i = j;
}.

Record staff_wf (d : database) : Prop := {
  st_status : forall e, chained (history e (status_periods d));
  st_assigned : forall e, chained (history e (assignments d));
  st_paid : forall e, chained (history e (compensations d));
  st_hired : forall e emp, row_of (employees d) e = Some emp ->
    began (status_periods d) e (hire_date emp) (fun r => esp_status r = ES_ACTIVE) /\
    began (assignments d) e (hire_date emp) (fun _ => True);
  st_known : (forall i r, row_of (status_periods d) i = Some r ->
                is_Some (row_of (employees d) (esp_employee_id r))) /\
             (forall i r, row_of (assignments d) i = Some r ->
                is_Some (row_of (employees d) (ea_employee_id r)));
  st_attendance : attendance_wf (attendance_records d);
}.

Definition staff_tables (d : database) :=
  (employees d, status_periods d, assignments d, compensations d, attendance_records d).

Lemma staff_wf_ext d d' : staff_tables d' = staff_tables d -> staff_wf d -> staff_wf d'.
Proof.
  intros [= E1 E2 E3 E4 E5] [H1 H2 H3 H4 H5 H6]. constructor; rewrite ?E1, ?E2, ?E3, ?E4, ?E5; done.
Qed.

Lemma staff_wf_logged log d : staff_wf (logged log d) <-> staff_wf d.
Proof. split; by apply staff_wf_ext. Qed.

(** Rows whose holders are known, after one more row of a known holder. *)
Lemma known_superseded {R} `{Dated R} (P : Z -> Prop) (t : list R) i r new :
  row_of t i = Some r -> (forall k x, row_of t k = Some x -> P (holder x)) -> P (holder new) ->
  forall k x, row_of (set_row i (ended (Some (since new - 1))) t ++ [new]) k = Some x -> P (holder x).
Proof.
  intros Hi Ht Hn k x [Hx|[-> ->]]%row_of_inv_app; [|done]. rewrite row_of_set in Hx.
  case_bool_decide; [|by eapply Ht]. subst. rewrite Hi in Hx. injection Hx as <-.
  rewrite holder_ended. by eapply Ht.
Qed.

Lemma staff_status_changed d e i r new :
  staff_wf d -> select (fun _ r => open_of e r) (status_periods d) = [(i, r)] ->
  esp_employee_id new = e -> esp_from r < esp_from new -> esp_to new = None ->
  valid_transition (esp_status r) (esp_status new) = true -> staff_wf (superseded i new d).
Proof.
  intros [H1 H2 H3 H4 [H5 H6] H7] Hs Hn Hlt Hu Hv. destruct (open_row e _ i r Hs) as (Hi & Hr & _).
  constructor; try done.
  - exact (supersede_chained e _ i r new Hs H1 Hn Hlt Hu Hv).
  - intros e' emp He. destruct (H4 e' emp He) as [Hb ?]. split; [|done].
    exact (supersede_began e _ i r new e' _ (fun x => esp_status x = ES_ACTIVE) Hs (H1 e) Hn
      (fun _ _ Hx => Hx) Hb).
  - split; [|done]. refine (known_superseded (fun h => is_Some (row_of (employees d) h)) _ i r new Hi H5 _).
    simpl. rewrite Hn, <- Hr. by eapply H5.
Qed.

Lemma staff_reassigned d e i r new :
  staff_wf d -> select (fun _ r => open_of e r) (assignments d) = [(i, r)] ->
  ea_employee_id new = e -> ea_from r < ea_from new -> ea_to new = None -> staff_wf (superseded i new d).
Proof.
  intros [H1 H2 H3 H4 [H5 H6] H7] Hs Hn Hlt Hu. destruct (open_row e _ i r Hs) as (Hi & Hr & _).
  constructor; try done.
  - exact (supersede_chained e _ i r new Hs H2 Hn Hlt Hu eq_refl).
  - intros e' emp He. destruct (H4 e' emp He) as [? Hb]. split; [done|].
    exact (supersede_began e _ i r new e' _ (fun _ => True) Hs (H2 e) Hn (fun _ _ Hx => Hx) Hb).
  - split; [done|]. refine (known_superseded (fun h => is_Some (row_of (employees d) h)) _ i r new Hi H6 _).
    simpl. rewrite Hn, <- Hr. by eapply H6.
Qed.

Lemma staff_compensated d e i r new :
  staff_wf d -> select (fun _ r => open_of e r) (compensations d) = [(i, r)] ->
  cp_employee_id new = e -> cp_from r < cp_from new -> cp_to new = None -> staff_wf (superseded i new d).
Proof.
  intros [H1 H2 H3 H4 H5 H7] Hs Hn Hlt Hu. constructor; try done.
  exact (supersede_chained e _ i r new Hs H3 Hn Hlt Hu eq_refl).
Qed.

Lemma staff_first_compensation d e new :
  staff_wf d -> select (fun _ r => open_of e r) (compensations d) = [] ->
  cp_employee_id new = e -> cp_to new = None -> staff_wf (over_compensations (fun t => t ++ [new]) d).
Proof.
  intros [H1 H2 H3 H4 H5 H7] Hs <- Hu. constructor; try done.
  refine (chained_first _ new H3 _ Hu). by apply chained_no_open, no_open_row.
Qed.

(** Nobody unknown has a history. *)
Lemma unknown_no_history {R} `{Dated R} (t : list R) (staff : list Employee) e :
  (forall k x, row_of t k = Some x -> is_Some (row_of staff (holder x))) -> row_of staff e = None ->
  history e t = [].
Proof.
  intros Ht He. unfold history. apply filter_none. intros r (k & Hk)%elem_row_of.
  apply not_true_is_false. intros Hr%Z.eqb_eq. destruct (Ht k r Hk) as [x Hx]. rewrite Hr in Hx. congruence.
Qed.

Lemma row_of_next_id {R} (t : list R) : row_of t (next_id t) = None.
Proof. destruct (row_of t (next_id t)) as [r|] eqn:E; [|done]. apply row_of_range in E. lia. Qed.

Lemma staff_hired d data actor :
  staff_wf d -> let e := next_id (employees d) in
  staff_wf (over_assignments (fun t => t ++ [first_assignment data actor e])
    (over_status_periods (fun t => t ++ [first_status data actor e])
      (over_employees (fun t => t ++ [new_employee data]) d))).
Proof.
  intros [H1 H2 H3 H4 [H5 H6] H7] e.
  assert (N1 : history e (status_periods d) = []) by (apply (unknown_no_history _ (employees d)); [exact H5|apply row_of_next_id]).
  assert (N2 : history e (assignments d) = []) by (apply (unknown_no_history _ (employees d)); [exact H6|apply row_of_next_id]).
  constructor; try done.
  - exact (chained_first _ (first_status data actor e) H1 N1 eq_refl).
  - exact (chained_first _ (first_assignment data actor e) H2 N2 eq_refl).
  - intros e' emp [He|[-> ->]]%row_of_inv_app.
    + destruct (H4 e' emp He). split; by apply began_app.
    + split; [exists (first_status data actor e), []|exists (first_assignment data actor e), []];
        (split; [|done]); simpl; rewrite history_app; fold e; rewrite ?N1, ?N2;
        unfold history; simpl; by rewrite Z.eqb_refl.
  - split; intros i r [Hr|[-> ->]]%row_of_inv_app; simpl; try (unfold e; rewrite row_of_new; by eexists).
    + destruct (H5 i r Hr) as [x Hx]. exists x. by apply row_of_app_old.
    + destruct (H6 i r Hr) as [x Hx]. exists x. by apply row_of_app_old.
Qed.

(** ** Attendance *)

Lemma shifts_clash_sym a b : shifts_clash a b = shifts_clash b a.
Proof.
  unfold shifts_clash, times_overlap. rewrite (Z.eqb_sym (ar_employee_id a)).
  by destruct (bool_decide _), (bool_decide _), (_ =? _), (opt_all _ _), (opt_all _ _).
Qed.

Lemma clash_index : ("excl_attendance_records_no_overlap"%string, shifts_clash)
  ∈ (uniques (R := AttendanceRecord) : list (string * (AttendanceRecord -> AttendanceRecord -> bool))).
Proof. simpl. set_solver. Qed.

(** A shift that corrects nothing. *)
Lemma attendance_added t r :
  attendance_wf t -> unique_violation r t = None -> shift_times_ok r -> ar_status r <> ATT_VOIDED ->
  correction_of_id r = None -> attendance_wf (t ++ [r]).
Proof.
  intros [H1 H2 H3 H4 H5] Hu Hr Hv Hc. constructor.
  - intros i x [Hx|[-> ->]]%row_of_inv_app; [by eapply H1|done].
  - exact (pairwise_app _ shifts_clash_sym _ _ _ clash_index H2 Hu).
  - intros i x [Hx|[-> ->]]%row_of_inv_app j Hj; [|congruence].
    destruct (H3 i x Hx j Hj) as (Hreason & o & Ho & ?). split; [done|]. exists o.
    split; [by apply row_of_app_old|done].
  - intros i x [Hx|[-> ->]]%row_of_inv_app Hvx; [|done].
    destruct (H4 i x Hx Hvx) as (k & c & Hk & ?). exists k, c. split; [by apply row_of_app_old|done].
  - intros i j a b o [Ha|[-> ->]]%row_of_inv_app [Hb|[-> ->]]%row_of_inv_app Ea Eb; try congruence.
    by eapply H5.
Qed.

Lemma attendance_closed t i r at_ now :
  attendance_wf t -> row_of t i = Some r -> ar_status r = ATT_OPEN -> clock_in_at r < at_ ->
  unique_violation (clocked_out at_ now r) (all_but i t) = None ->
  attendance_wf (set_row i (clocked_out at_ now) t).
Proof.
  intros [H1 H2 H3 H4 H5] Hi Ho Hlt Hu.
  assert (Hback : forall j x, row_of (set_row i (clocked_out at_ now) t) j = Some x ->
    exists y, row_of t j = Some y /\ correction_of_id x = correction_of_id y /\
      correction_reason x = correction_reason y /\ ar_employee_id x = ar_employee_id y /\
      ar_store_id x = ar_store_id y /\ ar_source x = ar_source y /\
      (ar_status y = ATT_VOIDED -> x = y) /\ (ar_status x = ATT_VOIDED -> x = y)).
  { intros j x. rewrite row_of_set. case_bool_decide; [subst j; rewrite Hi; intros [= <-]|intros Hx].
    - exists r. split_and!; try done. congruence.
    - exists x. by split_and!. }
  assert (Hfwd : forall j y, row_of t j = Some y -> ar_status y = ATT_VOIDED ->
    row_of (set_row i (clocked_out at_ now) t) j = Some y).
  { intros j y Hj Hy. rewrite row_of_set_ne; [done|]. intros <-. congruence. }
  constructor.
  - intros j x. rewrite row_of_set. case_bool_decide; [subst j; rewrite Hi; intros [= <-]|by apply H1].
    simpl. eexists. split; [done|exact Hlt].
  - exact (pairwise_set _ shifts_clash_sym _ _ _ _ _ clash_index H2 Hi Hu).
  - intros j x (y & Hy & E1 & E2 & E3 & E4 & E5 & _)%Hback o Hc. rewrite E1 in Hc.
    destruct (H3 j y Hy o Hc) as (Hreason & z & Hz & Hzv & ?). rewrite E2, E3, E4, E5. split; [done|].
    exists z. split; [by apply Hfwd|done].
  - intros j x (y & Hy & _ & _ & _ & _ & _ & _ & E)%Hback Hv. rewrite E in Hv by done.
    destruct (H4 j y Hy Hv) as (k & c & Hk & Hc). exists k.
    destruct (decide (i = k)) as [->|Hne].
    + rewrite Hk in Hi. injection Hi as ->. exists (clocked_out at_ now r). by rewrite (row_of_set_eq _ _ _ r).
    + exists c. by rewrite row_of_set_ne.
  - intros j k a b o (ya & Hya & Ea & _)%Hback (yb & Hyb & Eb & _)%Hback Hoa Hob.
    rewrite Ea in Hoa. rewrite Eb in Hob. by eapply H5.
Qed.

(** A correction voids the row and adds its replacement. *)
Lemma attendance_corrected t i r work nin nout reason actor now :
  attendance_wf t -> row_of t i = Some r -> ar_status r <> ATT_VOIDED -> blank reason = false ->
  (forall o, nout = Some o -> nin < o) ->
  unique_violation (voided_record now r) (all_but i t) = None ->
  unique_violation (correction_of i r work nin nout reason actor) (set_row i (voided_record now) t) = None ->
  attendance_wf (set_row i (voided_record now) t ++ [correction_of i r work nin nout reason actor]).
Proof.
  intros [H1 H2 H3 H4 H5] Hi Hv Hb Hlt Hu1 Hu2. set (c := correction_of i r work nin nout reason actor) in *.
  assert (Hi' : row_of (set_row i (voided_record now) t) i = Some (voided_record now r)) by (by apply row_of_set_eq).
  assert (Hback : forall j x, row_of (set_row i (voided_record now) t) j = Some x ->
    exists y, row_of t j = Some y /\ correction_of_id x = correction_of_id y /\
      correction_reason x = correction_reason y /\ ar_employee_id x = ar_employee_id y /\
      ar_store_id x = ar_store_id y /\ ar_source x = ar_source y /\ (j <> i -> x = y)).
  { intros j x. rewrite row_of_set. case_bool_decide; [subst j; rewrite Hi; intros [= <-]|intros Hx].
    - exists r. by split_and!.
    - exists x. by split_and!. }
  assert (Hnone : forall j x, row_of t j = Some x -> correction_of_id x <> Some i).
  { intros j x Hx Hc. destruct (H3 j x Hx i Hc) as (_ & o & Ho & Hov & _). congruence. }
  constructor.
  - intros j x [Hx|[-> ->]]%row_of_inv_app.
    + rewrite row_of_set in Hx. case_bool_decide; [subst j; rewrite Hi in Hx; injection Hx as <-; done|by eapply H1].
    + unfold shift_times_ok, c. simpl. destruct nout as [o|]; simpl; [|done].
      exists o. split; [done|by apply Hlt].
  - refine (pairwise_app _ shifts_clash_sym _ _ _ clash_index _ Hu2).
    exact (pairwise_set _ shifts_clash_sym _ _ _ _ _ clash_index H2 Hi Hu1).
  - intros j x [Hx|[-> ->]]%row_of_inv_app o Ho.
    + destruct (Hback j x Hx) as (y & Hy & E1 & E2 & E3 & E4 & E5 & _). rewrite E1 in Ho.
      destruct (H3 j y Hy o Ho) as (Hreason & z & Hz & Hzv & ?). rewrite E2, E3, E4, E5. split; [done|].
      exists z. split; [|done]. apply row_of_app_old. rewrite row_of_set_ne; [done|]. intros <-. congruence.
    + injection Ho as <-. split; [by exists reason|]. exists (voided_record now r).
      split; [by apply row_of_app_old|done].
  - intros j x [Hx|[-> ->]]%row_of_inv_app Hxv.
    + destruct (Hback j x Hx) as (y & Hy & E1 & _ & _ & _ & _ & E). destruct (decide (j = i)) as [->|Hne].
      { exists (next_id (set_row i (voided_record now) t)), c. split; [apply row_of_new|done]. }
      rewrite E in Hxv by done. destruct (H4 j y Hy Hxv) as (k & w & Hk & Hw). exists k.
      destruct (decide (i = k)) as [->|Hne'].
      * rewrite Hk in Hi. injection Hi as ->. exists (voided_record now r). split; [by apply row_of_app_old|done].
      * exists w. split; [apply row_of_app_old; by rewrite row_of_set_ne|done].
    + unfold c in Hxv. simpl in Hxv. by destruct (opt_some nout).
  - intros j k a b o [Ha|[-> ->]]%row_of_inv_app [Hb'|[-> ->]]%row_of_inv_app Ea Eb; [| | |done].
    + destruct (Hback j a Ha) as (ya & Hya & E1 & _), (Hback k b Hb') as (yb & Hyb & E2 & _).
      rewrite E1 in Ea. rewrite E2 in Eb. by eapply H5.
    + injection Eb as <-. destruct (Hback j a Ha) as (ya & Hya & E1 & _). rewrite E1 in Ea.
      by apply Hnone in Hya.
    + injection Ea as <-. destruct (Hback k b Hb') as (yb & Hyb & E1 & _). rewrite E1 in Eb.
      by apply Hnone in Hyb.
Qed.

(** ** The operations *)

Inductive hr_op :=
  | H_department (name : string) (actor : option Z)
  | H_position (title : string) (department actor : option Z)
  | H_hire (data : EmployeeHireInput) (actor caller : option Z)
  | H_status (employee : Z) (new_status : string) (from : Z) (reason : option string) (actor caller : option Z)
  | H_reassign (employee from : Z) (a : Reassignment) (actor caller : option Z)
  | H_compensate (employee from : Z) (c : CompensationInputs) (actor caller : option Z)
  | H_clock_in (employee store at_ : Z) (source : string) (actor caller : option Z)
  | H_clock_out (record at_ : Z) (actor caller : option Z)
  | H_correct (record new_in : Z) (new_out : option Z) (reason : string) (actor caller : option Z).

Definition run_hr_op (utc_offset : string -> option (Z -> Z)) (op : hr_op) : Tx Z :=
  match op with
  | H_department n a => create_department n a
  | H_position t dep a => create_position t dep a
  | H_hire data a c => hire_employee data a c
  | H_status e st f r a c => change_employment_status e st f r a c
  | H_reassign e f x a c => reassign_employee e f x a c
  | H_compensate e f x a c => change_compensation e f x a c
  | H_clock_in e st t src a c => clock_in utc_offset e st t src a c
  | H_clock_out i t a c => clock_out i t a c
  | H_correct i ni no r a c => correct_attendance utc_offset i ni no r a c
  end.

Ltac hr_parts :=
  unfold create_department, create_position, hire_employee, change_employment_status, reassign_employee,
    change_compensation, clock_in, clock_out, correct_attendance, end_before, work_date_at, _lock_employee,
    get_employee, get_attendance_record, get_current_status, get_current_assignment, get_current_compensation.

Lemma staff_attendance f d :
  staff_wf d -> attendance_wf (f (attendance_records d)) -> staff_wf (over_attendance_records f d).
Proof. intros [H1 H2 H3 H4 H5 _] H. by constructor. Qed.

Lemma hr_op_ok uo op s k s' : staff_wf (working s) -> run_hr_op uo op s = (Ok k, s') -> staff_wf (working s').
Proof.
  intros Hw. pose proof (st_attendance _ Hw) as Ha. destruct op; simpl; intros H.
  - unfold create_department in H. apply committing_ok in H as (s1 & H & -> & _).
    apply bind_ok in H as (i & s2 & E & H). apply or_conflict_ok in E.
    apply add_ok in E as (-> & _ & _ & ->). peel H with log_event_ok as ->.
      apply ret_ok in H as [_ <-]. by apply staff_wf_logged, (staff_wf_ext (working s)).
  - unfold create_position in H. apply committing_ok in H as (s1 & H & -> & _).
    peel H with check_reference_ok as [_ ->]. peel H with add_ok as (-> & _ & _ & ->).
    peel H with log_event_ok as ->. apply ret_ok in H as [_ <-].
    by apply staff_wf_logged, (staff_wf_ext (working s)).
  - apply hire_employee_ok in H as (log & _ & -> & _ & -> & _). by apply staff_wf_logged, staff_hired.
  - apply change_status_ok in H as (st & i & r & log & _ & _ & _ & Hs & Hv & Hf & -> & _).
    by apply staff_wf_logged, (staff_status_changed _ employee i r).
  - apply reassign_ok in H as (i & r & log & _ & Hs & _ & _ & Hf & -> & _).
    by apply staff_wf_logged, (staff_reassigned _ employee i r).
  - apply change_compensation_ok in H as (log & _ & _ & _ & _ & _ & [(Hs & _ & ->)|(i & r & Hs & Hf & ->)]);
      apply staff_wf_logged.
    + by apply (staff_first_compensation _ employee).
    + by apply (staff_compensated _ employee i r).
  - apply clock_in_ok in H as (src & st & i & p & w & log & _ & _ & _ & _ & _ & _ & _ & Hu & -> & _).
    apply staff_wf_logged, staff_attendance; [done|]. by apply attendance_added.
  - apply clock_out_ok in H as (r & now & log & Hr & _ & Ho & Hlt & Hu & -> & _).
    apply staff_wf_logged, staff_attendance; [done|]. by apply (attendance_closed _ _ r).
  - apply correct_attendance_ok in H as
      (r & st & w & now & log & Hr & Hb & _ & Hv & Hlt & _ & _ & Hu1 & Hu2 & -> & _).
    apply staff_wf_logged, (staff_wf_ext (over_attendance_records (fun t =>
      set_row record (voided_record now) t ++ [correction_of record r w new_in new_out reason actor])
      (working s))); [done|]. by apply staff_attendance, attendance_corrected.
Qed.

Lemma hr_keeps_staff uo op : keeps staff_wf (run_hr_op uo op).
Proof.
  pose proof (hr_op_ok uo op) as Hok. destruct op; simpl in *; hr_parts; hr_parts;
    (apply keeps_committing; [solve_fixes|intros s k s' _ Hw H; by apply (Hok s k s')]).
Qed.
