(* ===== verification/Chart.v ===== *)
(** * The chart of accounts

    app/modules/accounting/constants.py: the stable account codes, the two
    payment-method mappings and the seeded accounts with their types and normal
    balances. *)

From S2P Require Import Prelude Fixed Session Schema Tables.

Definition ACCOUNT_CASH_ON_HAND : string := "1000".
Definition ACCOUNT_CARD_CLEARING : string := "1010".
Definition ACCOUNT_MOBILE_MONEY_CLEARING : string := "1020".
Definition ACCOUNT_BANK_TRANSFER_CLEARING : string := "1030".
Definition ACCOUNT_OTHER_PAYMENT_CLEARING : string := "1040".
Definition ACCOUNT_INVENTORY : string := "1500".
Definition ACCOUNT_INVENTORY_IN_TRANSIT : string := "1520".
Definition ACCOUNT_BANK_ACCOUNT : string := "1050".
Definition ACCOUNT_PURCHASE_CLEARING : string := "2000".
Definition ACCOUNT_ACCOUNTS_PAYABLE : string := "2010".
Definition ACCOUNT_TAX_PAYABLE : string := "2100".
Definition ACCOUNT_PAYROLL_PAYABLE : string := "2200".
Definition ACCOUNT_STATUTORY_WITHHOLDING_PAYABLE : string := "2210".
Definition ACCOUNT_BENEFIT_DEDUCTION_PAYABLE : string := "2220".
Definition ACCOUNT_EMPLOYER_CONTRIBUTION_PAYABLE : string := "2230".
Definition ACCOUNT_SALES_REVENUE : string := "4000".
Definition ACCOUNT_SALES_DISCOUNTS : string := "4100".
Definition ACCOUNT_INVENTORY_ADJUSTMENT_GAIN : string := "4900".
Definition ACCOUNT_COGS : string := "5000".
Definition ACCOUNT_INVENTORY_SHRINKAGE_EXPENSE : string := "5900".
Definition ACCOUNT_CASH_OVER_SHORT : string := "5910".
Definition ACCOUNT_PURCHASE_PRICE_VARIANCE : string := "5100".
Definition ACCOUNT_PURCHASE_TAX_EXPENSE : string := "5200".
Definition ACCOUNT_PURCHASE_DISCOUNTS : string := "5150".
Definition ACCOUNT_WAGE_SALARY_EXPENSE : string := "6000".
Definition ACCOUNT_EMPLOYER_CONTRIBUTION_EXPENSE : string := "6100".

Definition PAYMENT_METHOD_ACCOUNT_CODE (m : PaymentMethod) : string :=
  match m with
  | CASH => ACCOUNT_CASH_ON_HAND
  | CARD => ACCOUNT_CARD_CLEARING
  | MOBILE_MONEY => ACCOUNT_MOBILE_MONEY_CLEARING
  | BANK_TRANSFER => ACCOUNT_BANK_TRANSFER_CLEARING
  | OTHER => ACCOUNT_OTHER_PAYMENT_CLEARING
  end.

Definition SUPPLIER_PAYMENT_METHOD_ACCOUNT_CODE (m : SupplierPaymentMethod) : string :=
  match m with
  | SP_CASH => ACCOUNT_CASH_ON_HAND
  | SP_BANK_TRANSFER | SP_CHEQUE | SP_OTHER => ACCOUNT_BANK_ACCOUNT
  end.

Definition seeded (code : string) (t : AccountType) (b : NormalBalance) : Account :=
  {| account_code := code; account_type := t; normal_balance := b |}.

Definition SYSTEM_ACCOUNTS : list Account :=
  [seeded ACCOUNT_CASH_ON_HAND ASSET DEBIT;
   seeded ACCOUNT_CARD_CLEARING ASSET DEBIT;
   seeded ACCOUNT_MOBILE_MONEY_CLEARING ASSET DEBIT;
   seeded ACCOUNT_BANK_TRANSFER_CLEARING ASSET DEBIT;
   seeded ACCOUNT_OTHER_PAYMENT_CLEARING ASSET DEBIT;
   seeded ACCOUNT_INVENTORY ASSET DEBIT;
   seeded ACCOUNT_INVENTORY_IN_TRANSIT ASSET DEBIT;
   seeded ACCOUNT_PURCHASE_CLEARING LIABILITY CREDIT;
   seeded ACCOUNT_ACCOUNTS_PAYABLE LIABILITY CREDIT;
   seeded ACCOUNT_BANK_ACCOUNT ASSET DEBIT;
   seeded ACCOUNT_PURCHASE_PRICE_VARIANCE EXPENSE DEBIT;
   seeded ACCOUNT_PURCHASE_TAX_EXPENSE EXPENSE DEBIT;
   seeded ACCOUNT_PURCHASE_DISCOUNTS EXPENSE CREDIT;
   seeded ACCOUNT_TAX_PAYABLE LIABILITY CREDIT;
   seeded ACCOUNT_SALES_REVENUE REVENUE CREDIT;
   seeded ACCOUNT_SALES_DISCOUNTS REVENUE DEBIT;
   seeded ACCOUNT_INVENTORY_ADJUSTMENT_GAIN REVENUE CREDIT;
   seeded ACCOUNT_COGS EXPENSE DEBIT;
   seeded ACCOUNT_INVENTORY_SHRINKAGE_EXPENSE EXPENSE DEBIT;
   seeded ACCOUNT_CASH_OVER_SHORT EXPENSE DEBIT;
   seeded ACCOUNT_PAYROLL_PAYABLE LIABILITY CREDIT;
   seeded ACCOUNT_STATUTORY_WITHHOLDING_PAYABLE LIABILITY CREDIT;
   seeded ACCOUNT_BENEFIT_DEDUCTION_PAYABLE LIABILITY CREDIT;
   seeded ACCOUNT_EMPLOYER_CONTRIBUTION_PAYABLE LIABILITY CREDIT;
   seeded ACCOUNT_WAGE_SALARY_EXPENSE EXPENSE DEBIT;
   seeded ACCOUNT_EMPLOYER_CONTRIBUTION_EXPENSE EXPENSE DEBIT].

(** Every code constant the posting functions use names exactly one seeded row. *)
Lemma SYSTEM_ACCOUNTS_codes_distinct : NoDup (map account_code SYSTEM_ACCOUNTS).
Proof. apply (bool_decide_unpack _). by vm_compute. Qed.
