(* ===== verification/Fixture.v ===== *)
(** * A concrete grocery store

    One seeded database the development evaluates its definitions on: two
    stores, a cashier and a manager, a taxed and an untaxed product, the system
    chart of accounts. *)

From S2P Require Import Prelude Fixed Session Schema Tables Platform Chart.

Definition demo_product (code : string) (price : money) (c : cost) (tax : option Z) (on_hand : qty)
    : Product :=
  {| product_store_id := 1; product_category_id := None; current_price := price;
     current_cost := c; product_tax_rate_id := tax; current_qty_on_hand := on_hand;
     allow_negative_stock := false; product_is_active := true;
     sku := code |}.

Definition demo_receipt (product : Z) (q : qty) (c : cost) : InventoryMovement :=
  {| mv_store_id := 1; mv_product_id := product; movement_type := MT_PURCHASE_RECEIPT;
     mv_quantity_delta := q; unit_cost_at_movement := c; resulting_quantity_on_hand := q;
     reference_type := RT_purchase_order; reference_id := Some product; mv_reason := None;
     mv_created_by := None |}.

(** Products 1 (2.50 taxed at 15%, cost 1.20, 40 on hand) and 2 (0.99 untaxed,
    cost 0.333333, 12.5 on hand). *)
Definition demo_database : database :=
  mkDatabase
    (mkDirectory
       [{| store_is_active := true; return_approval_threshold_amount := Some 5000;
           timezone := "UTC"; attendance_day_boundary_hour := 0 |};
        {| store_is_active := true; return_approval_threshold_amount := None;
           timezone := "UTC"; attendance_day_boundary_hour := 0 |}]
       [{| user_store_id := Some 1; username := "cashier"; password_hash := "c"; user_is_active := true |};
        {| user_store_id := Some 1; username := "manager"; password_hash := "m"; user_is_active := true |}]
       [{| role_name := "Store Manager" |}]
       [{| permission_code := "sales.return.approve" |};
        {| permission_code := "shift.override" |}]
       [{| rp_role_id := 1; rp_permission_id := 1 |}; {| rp_role_id := 1; rp_permission_id := 2 |}]
       [{| ur_user_id := 2; ur_role_id := 1 |}])
    (mkCatalog
       [demo_product "A-1" 250 1200000 (Some 1) 40000; demo_product "B-2" 99 333333 None 12500]
       [{| rate_percent := 15000; tax_is_active := true; effective_from := 0; effective_to := None |}])
    (mkLedger SYSTEM_ACCOUNTS [] [] [])
    (mkStock [demo_receipt 1 40000 1200000; demo_receipt 2 12500 333333] [] [] [])
    (mkSelling [] [] [] [] [])
    (mkTills [] [])
    (mkFiscal [] [])
    (mkTrail [])
    (mkPurchasing [] [] [] [] [] [] [])
    (mkPayables [] [] [] [] [] [] [] [] [] [])
    (mkTransit [] [] [] [] [] [] [] [] [])
    (mkPeople [] [] [] [] [] [] [] [])
    (mkPayroll [] [] [] [] [] [] []).

Definition demo_env : environ :=
  {| utc_now := 1750000000; local_offset := 0; monotonic := 0; token_hex := fun n => n |}.

Definition session_on (d : database) : session database := mkSession d d demo_env 0 ∅.

Definition demo : session database := session_on demo_database.

(** The state after a request that is known to succeed. *)
Definition after {A} (m : Tx A) (s : session database) : session database := (m s).2.

Lemma working_session_on d : working (session_on d) = d.
Proof. done. Qed.

(** The state after a commit. *)
Definition checkpoint (s : session database) : session database :=
  mkSession (working s) (working s) (env s) (draws s) (approval_windows s).

Lemma checkpoint_clean s : committed (checkpoint s) = working (checkpoint s).
Proof. done. Qed.

Lemma working_checkpoint s : working (checkpoint s) = working s.
Proof. done. Qed.

Lemma keeps_after {A} (I : database -> Prop) (m : Tx A) s :
  keeps I m -> I (committed s) -> I (working s) -> (exists a, (m s).1 = Ok a) -> I (working (after m s)).
Proof.
  intros K H1 H2 [a Ha]. specialize (K s H1 H2). unfold after. destruct (m s) as [o s'].
  simpl in *. subst. apply K.
Qed.

Lemma after_ok {A} (m : Tx A) s a : (m s).1 = Ok a -> m s = (Ok a, after m s).
Proof. unfold after. destruct (m s). simpl. by intros ->. Qed.
