(* ===== verification/Journal.v ===== *)
(** * The double-entry posting engine

    app/modules/accounting/service.py: [_post_journal] and its helpers, the
    period lock, the generic reversal, and closing an accounting period; the
    ledger invariant they maintain, which implies that the deferred balance
    trigger never fires. *)

From S2P Require Import Prelude Fixed Session Schema Tables Platform Chart Fixture.

(** ** Line specifications *)

Record LineSpec := {
  spec_code : string;
  spec_debit : ledger;
  spec_credit : ledger;
  spec_product_id : option Z;
}.

Definition _debit (code : string) (amount : ledger) : LineSpec :=
  {| spec_code := code; spec_debit := amount; spec_credit := 0; spec_product_id := None |}.

Definition _credit (code : string) (amount : ledger) : LineSpec :=
  {| spec_code := code; spec_debit := 0; spec_credit := amount; spec_product_id := None |}.

(** [_quantize] of the product of a quantity (three places) and a unit cost
    (six places) to [_LEDGER_QUANTUM]. *)
Definition ledger_quantize (q : qty) (c : cost) : ledger := div_half_up (q * c) 1000.

(** ** The engine *)

Definition period_covers (store_id date : Z) (p : AccountingPeriod) : bool :=
  (period_store_id p =? store_id) && (period_start p <=? date) && (date <=? period_end p).

Definition _enforce_period_open (store_id posting_date : Z) : Tx unit :=
  found ← query (fun _ p => period_covers store_id posting_date p);
  closed ← scalar_one_or_none found;
  raise_if (opt_some closed) (ConflictError "PERIOD_CLOSED").

(** The accounts whose code is one of [codes], as the dict keyed by code. *)
Definition find_account (d : database) (code : string) : option Z :=
  fst <$> head (select (fun _ a => bool_decide (account_code a = code)) (accounts d)).

Definition _resolve_accounts (codes : list string) : Tx (string -> option Z) :=
  found ← gets find_account;
  _ ← raise_if (existsb (fun c => negb (opt_some (found c))) codes)
        (ConflictError "ACCOUNTS_NOT_SEEDED");
  mret found.

Definition _generate_journal_number (store_id : Z) : Tx DocumentNumber :=
  now ← datetime_now_utc;
  token ← draw_token;
  mret {| dn_store := store_id; dn_second := now; dn_token := token |}.

Definition add_line (found : string -> option Z) (entry_id : Z) (l : LineSpec) : Tx unit :=
  account_id ← of_option (found (spec_code l)) KeyError;
  _ ← add {| line_entry_id := entry_id; line_account_id := account_id;
             debit := spec_debit l; credit := spec_credit l;
             line_product_id := spec_product_id l |};
  mret tt.

Definition _post_journal (store_id posting_date : Z) (src : SourceType) (src_id : option Z)
    (created_by : option Z) (lines : list LineSpec)
    (ety : EntryType) (reversal_of : option Z) : Tx Z :=
  _ ← raise_if (bool_decide (length lines = 0%nat)) (ValidationAppError "EMPTY_JOURNAL_ENTRY");
  _ ← _enforce_period_open store_id posting_date;
  found ← _resolve_accounts (map spec_code lines);
  number ← _generate_journal_number store_id;
  entry_id ← add {| journal_number := number; entry_store_id := store_id;
                    posting_date := posting_date; entry_type := ety; source_type := src;
                    source_id := src_id; reversal_of_id := reversal_of;
                    entry_created_by := created_by |};
  _ ← for_each (add_line found entry_id) lines;
  mret entry_id.

(** ** Reversal *)

Definition automated (s : SourceType) : bool :=
  match s with ST_MANUAL => false | _ => true end.

Definition mirror_line (entry_id : Z) (l : JournalLine) : JournalLine :=
  {| line_entry_id := entry_id; line_account_id := line_account_id l;
     debit := credit l; credit := debit l; line_product_id := line_product_id l |}.

Definition reverse_journal_entry (journal_entry_id : Z) (reversed_by caller_store_id : option Z)
    : Tx Z :=
  found ← get journal_entry_id;
  entry ← of_option found NotFoundError;
  _ ← enforce_store_access caller_store_id (entry_store_id entry);
  _ ← raise_if (automated (source_type entry)) (ConflictError "OPERATIONAL_REVERSAL_REQUIRED");
  _ ← raise_if (bool_decide (entry_type entry = REVERSAL)) (ConflictError "CANNOT_REVERSE_REVERSAL");
  reversals ← query (fun _ e => bool_decide (reversal_of_id e = Some journal_entry_id));
  existing ← scalar_one_or_none reversals;
  match existing with
  | Some (existing_id, _) => mret existing_id
  | None =>
      original_lines ← query (fun _ l => line_entry_id l =? journal_entry_id);
      _ ← raise_if (bool_decide (length original_lines = 0%nat))
            (ConflictError "EMPTY_JOURNAL_ENTRY");
      today ← date_today;
      _ ← _enforce_period_open (entry_store_id entry) today;
      number ← _generate_journal_number (entry_store_id entry);
      reversal_id ← add {| journal_number := number; entry_store_id := entry_store_id entry;
                           posting_date := today; entry_type := REVERSAL;
                           source_type := source_type entry; source_id := source_id entry;
                           reversal_of_id := Some journal_entry_id;
                           entry_created_by := reversed_by |};
      _ ← for_each (fun il : Z * JournalLine =>
                      _ ← add (mirror_line reversal_id il.2); mret tt) original_lines;
      _ ← log_event reversed_by "JOURNAL_ENTRY_REVERSED" "journal_entry" (Some journal_entry_id);
      mret reversal_id
  end.

(** ** Accounting periods *)

Definition close_accounting_period (store_id p_start p_end : Z) (reason : string)
    (actor : Z) (caller_store_id : option Z) : Tx Z :=
  _ ← enforce_store_access caller_store_id store_id;
  _ ← raise_if (p_end <? p_start) (ValidationAppError "INVALID_PERIOD_RANGE");
  now ← datetime_now_utc;
  period_id ← except_integrity
    (add {| period_store_id := store_id; period_start := p_start; period_end := p_end;
            closed_by := actor; closed_at := now; period_reason := reason |})
    (fun _ => _ ← rollback; raise (ConflictError "PERIOD_OVERLAP"));
  _ ← log_event (Some actor) "ACCOUNTING_PERIOD_CLOSED" "accounting_period" (Some period_id);
  mret period_id.

(** ** The ledger invariant *)

Definition one_sided (l : JournalLine) : Prop :=
  (0 < debit l /\ credit l = 0) \/ (0 < credit l /\ debit l = 0).

Record ledger_wf (d : database) : Prop := {
  lw_refer : forall l, l ∈ journal_lines d ->
    is_Some (row_of (journal_entries d) (line_entry_id l));
  lw_account : forall l, l ∈ journal_lines d ->
    is_Some (row_of (accounts d) (line_account_id l));
  lw_one_sided : forall l, l ∈ journal_lines d -> one_sided l;
  lw_balanced : forall id e, row_of (journal_entries d) id = Some e ->
    entry_debits (journal_lines d) id = entry_credits (journal_lines d) id /\
    0 < entry_debits (journal_lines d) id;
}.

(** A ledger that satisfies the invariant passes the trigger. *)
Lemma ledger_wf_deferred_ok d : ledger_wf d -> deferred_ok d = true.
Proof.
  intros H. unfold deferred_ok, database_deferred. apply forallb_forall.
  intros l Hl%list_elem_of_In. destruct (lw_refer d H l Hl) as [e He].
  destruct (lw_balanced d H _ _ He). unfold check_journal_entry_balance.
  rewrite andb_true_iff, negb_true_iff, Z.eqb_eq, Z.eqb_neq. lia.
Qed.

(** The lines of a new entry: what [add_line] writes for each specification. *)
Definition line_matches (d : database) (entry_id : Z) (sp : LineSpec) (l : JournalLine) : Prop :=
  line_entry_id l = entry_id /\ debit l = spec_debit sp /\ credit l = spec_credit sp /\
  one_sided l /\
  exists a, row_of (accounts d) (line_account_id l) = Some a /\ account_code a = spec_code sp.

(** One entry and its lines appended to the ledger. *)
Definition append_entry (e : JournalEntry) (new : list JournalLine) (d : database) : database :=
  over_journal_lines (fun t => t ++ new) (over_journal_entries (fun t => t ++ [e]) d).

Lemma entry_sum_fresh (f : JournalLine -> Z) lines id :
  (forall l, l ∈ lines -> line_entry_id l <> id) ->
  sum_where (fun l => line_entry_id l =? id) f lines = 0.
Proof. intros H. apply sum_where_none. intros l Hl. by apply Z.eqb_neq, H. Qed.

Lemma entry_sum_all (f : JournalLine -> Z) lines id :
  (forall l, l ∈ lines -> line_entry_id l = id) ->
  sum_where (fun l => line_entry_id l =? id) f lines = sum_by f lines.
Proof. intros H. apply sum_where_all. intros l Hl. by apply Z.eqb_eq, H. Qed.

Lemma one_sided_sums lines :
  lines <> [] -> (forall l, l ∈ lines -> one_sided l) ->
  sum_by debit lines = sum_by credit lines -> 0 < sum_by debit lines.
Proof.
  intros Hne Hos Heq.
  assert (0 <= sum_by debit lines /\ 0 <= sum_by credit lines) as [H1 H2].
  { split; apply sum_by_nonneg; intros l Hl; destruct (Hos l Hl); lia. }
  enough (0 < sum_by debit lines + sum_by credit lines) by lia.
  rewrite <- sum_by_add. destruct lines as [|l ls]; [done|].
  rewrite sum_by_cons.
  assert (0 <= sum_by (fun l => debit l + credit l) ls).
  { apply sum_by_nonneg. intros x Hx. destruct (Hos x ltac:(set_solver)); lia. }
  destruct (Hos l ltac:(set_solver)); lia.
Qed.

Lemma append_entry_wf e new d :
  ledger_wf d -> new <> [] ->
  (forall l, l ∈ new -> line_entry_id l = next_id (journal_entries d) /\
                        is_Some (row_of (accounts d) (line_account_id l)) /\ one_sided l) ->
  sum_by debit new = sum_by credit new ->
  ledger_wf (append_entry e new d).
Proof.
  intros Hwf Hne Hnew Hbal.
  assert (Hold : forall l, l ∈ journal_lines d ->
                           line_entry_id l <> next_id (journal_entries d)).
  { intros l Hl. destruct (lw_refer d Hwf l Hl) as [x Hx%row_of_range]. lia. }
  constructor; simpl.
  - intros l [Hl|Hl]%elem_of_app.
    + destruct (lw_refer d Hwf l Hl) as [x Hx]. exists x. by apply row_of_app_old.
    + destruct (Hnew l Hl) as (-> & _ & _). exists e. apply row_of_new.
  - intros l [Hl|Hl]%elem_of_app; [by apply (lw_account d Hwf)|by apply Hnew].
  - intros l [Hl|Hl]%elem_of_app; [by apply (lw_one_sided d Hwf)|by apply Hnew].
  - intros id x [Hid|[-> ->]]%row_of_inv_app;
      unfold entry_debits, entry_credits; rewrite !sum_where_app.
    + assert (Hn : forall l, l ∈ new -> line_entry_id l <> id).
      { intros l Hl. destruct (Hnew l Hl) as (-> & _). apply row_of_range in Hid. lia. }
      rewrite !(entry_sum_fresh _ new) by done. rewrite !Z.add_0_r.
      by apply (lw_balanced d Hwf id x).
    + rewrite !(entry_sum_fresh _ (journal_lines d)) by done.
      rewrite !(entry_sum_all _ new) by (intros; by apply Hnew). simpl.
      split; [done|]. apply one_sided_sums; [done| |done]. intros; by apply Hnew.
Qed.

Lemma find_account_Some d code i :
  find_account d code = Some i ->
  exists a, row_of (accounts d) i = Some a /\ account_code a = code.
Proof.
  unfold find_account. destruct (select _ _) as [|[j a] l] eqn:E; [done|].
  intros [= <-].
  assert ((j, a) ∈ select (fun _ a => bool_decide (account_code a = code)) (accounts d))
    as [Hr Hc]%elem_select by (rewrite E; set_solver).
  bools. eauto.
Qed.

Lemma one_sided_valid d l : row_valid d l -> one_sided l.
Proof.
  intros H. unfold row_valid in H. simpl in H.
  do 4 apply Forall_cons in H as [_ H]. apply Forall_cons in H as [H _].
  simpl in H. unfold one_sided. apply orb_true_iff in H as [H|H]; bools; lia.
Qed.

Lemma add_line_ok found eid sp s u s' :
  add_line found eid sp s = (Ok u, s') ->
  exists l aid, found (spec_code sp) = Some aid /\
    l = {| line_entry_id := eid; line_account_id := aid; debit := spec_debit sp;
           credit := spec_credit sp; line_product_id := spec_product_id sp |} /\
    one_sided l /\
    s' = with_working (over_journal_lines (fun t => t ++ [l]) (working s)) s.
Proof.
  unfold add_line. intros H. apply bind_ok in H as (aid & s1 & H1 & H).
  apply of_option_ok in H1 as [Hf <-]. apply bind_ok in H as (i & s2 & H2 & H).
  apply ret_ok in H as [_ <-]. apply add_ok in H2 as (_ & Hv & _ & ->).
  apply one_sided_valid in Hv. eexists _, aid. eauto.
Qed.

Lemma enforce_period_open_ok store date s u s' :
  _enforce_period_open store date s = (Ok u, s') ->
  s = s' /\ forall p, p ∈ accounting_periods (working s) -> period_covers store date p = false.
Proof.
  unfold _enforce_period_open. intros H.
  apply bind_ok in H as (l & s1 & H1 & H). apply query_ok in H1 as [-> <-].
  apply bind_ok in H as (o & s2 & H2 & H). apply scalar_one_or_none_ok in H2 as [<- Ho].
  apply raise_if_ok in H as [Hc <-]. split; [done|].
  destruct o as [x|]; [done|]. simpl in Ho.
  intros p [id Hid]%elem_row_of.
  by apply (proj1 (select_nil (fun _ p => period_covers store date p) _) Ho id).
Qed.

Lemma resolve_accounts_ok codes s f s' :
  _resolve_accounts codes s = (Ok f, s') -> s = s' /\ f = find_account (working s).
Proof.
  unfold _resolve_accounts. intros H. apply bind_ok in H as (l & s1 & H1 & H).
  apply gets_ok in H1 as [-> <-]. apply bind_ok in H as (o & s2 & H2 & H).
  apply raise_if_ok in H2 as [_ <-]. by apply ret_ok in H as [<- <-].
Qed.

Lemma generate_number_ok store s n s' :
  _generate_journal_number store s = (Ok n, s') ->
  dn_store n = store /\ working s' = working s /\ committed s' = committed s /\
  env s' = env s /\ approval_windows s' = approval_windows s.
Proof. by intros [= <- <-]. Qed.

(** What a successful [_post_journal] did. *)
Lemma post_journal_ok store date src sid by_ lines ety rev s id s' :
  _post_journal store date src sid by_ lines ety rev s = (Ok id, s') ->
  exists e new,
    id = next_id (journal_entries (working s)) /\
    working s' = append_entry e new (working s) /\
    committed s' = committed s /\ env s' = env s /\
    entry_store_id e = store /\ posting_date e = date /\ source_type e = src /\
    source_id e = sid /\ entry_type e = ety /\ reversal_of_id e = rev /\
    lines <> [] /\ Forall2 (line_matches (working s) id) lines new /\
    (forall p, p ∈ accounting_periods (working s) -> period_covers store date p = false).
Proof.
  unfold _post_journal. intros H.
  apply bind_ok in H as (? & s1 & H1 & H). apply raise_if_ok in H1 as [Hne <-].
  apply bind_ok in H as (? & s2 & H2 & H). apply enforce_period_open_ok in H2 as [<- Hp].
  apply bind_ok in H as (f & s3 & H3 & H). apply resolve_accounts_ok in H3 as [<- ->].
  apply bind_ok in H as (n & s4 & H4 & H).
  apply generate_number_ok in H4 as (_ & Hw & Hc & He & _).
  apply bind_ok in H as (eid & s5 & H5 & H). apply add_ok in H5 as (-> & _ & _ & ->).
  apply bind_ok in H as (? & s6 & H6 & H). apply ret_ok in H as [<- <-].
  set (e := {| journal_number := n |}) in *. simpl in *. rewrite Hw in *.
  set (eid := next_id (journal_entries (working s))) in *.
  eapply (for_each_ok_ind _ (fun done s6 =>
    exists new, Forall2 (line_matches (working s) eid) done new /\
      working s6 = append_entry e new (working s) /\
      committed s6 = committed s /\ env s6 = env s)) in H6.
  - destruct H6 as (new & Hnew & Hw6 & Hc6 & He6). exists e, new.
    bools. split_and!; try done. intros ->. by simpl in Hne.
  - exists []. split_and!; [constructor| |done..].
    unfold append_entry, over_journal_lines, over_journal_entries, over_ledger. simpl.
    by rewrite app_nil_r.
  - intros dn sp rest s7 s8 _ (new & Hnew & Hw7 & Hc7 & He7) H8.
    apply add_line_ok in H8 as (l & aid & Hf & Hl & Hos & ->).
    apply find_account_Some in Hf as (a & Ha & Hcode).
    exists (new ++ [l]). split_and!; [apply Forall2_app; [done|] | |done..].
    + constructor; [|constructor]. subst l. unfold line_matches. simpl. eauto 10.
    + simpl. rewrite Hw7. unfold append_entry, over_journal_lines, over_journal_entries,
        over_ledger. simpl. by rewrite <- app_assoc.
Qed.

Lemma line_matches_sums d eid specs new :
  Forall2 (line_matches d eid) specs new ->
  sum_by debit new = sum_by spec_debit specs /\ sum_by credit new = sum_by spec_credit specs.
Proof.
  induction 1 as [|sp l specs new Hm _ IH]; [done|].
  destruct Hm as (_ & Hd & Hc & _). rewrite !sum_by_cons. lia.
Qed.

Lemma line_matches_new d eid specs new l :
  Forall2 (line_matches d eid) specs new -> l ∈ new ->
  line_entry_id l = eid /\ is_Some (row_of (accounts d) (line_account_id l)) /\ one_sided l.
Proof.
  induction 1 as [|sp l' specs new Hm _ IH]; [by intros ?%elem_of_nil|].
  intros [->|Hl]%elem_of_cons; [|by apply IH].
  destruct Hm as (? & _ & _ & ? & a & ? & _). eauto.
Qed.

Definition balanced (specs : list LineSpec) : Prop :=
  sum_by spec_debit specs = sum_by spec_credit specs.

Lemma post_journal_wf store date src sid by_ lines ety rev s id s' :
  balanced lines -> ledger_wf (working s) ->
  _post_journal store date src sid by_ lines ety rev s = (Ok id, s') ->
  ledger_wf (working s').
Proof.
  intros Hb Hwf H.
  apply post_journal_ok in H as (e & new & -> & -> & _ & _ & _ & _ & _ & _ & _ & _ & Hne & Hm & _).
  apply append_entry_wf; [done| | |].
  - intros ->. by apply Forall2_nil_inv_r in Hm.
  - intros l Hl. by eapply line_matches_new.
  - apply line_matches_sums in Hm as [-> ->]. done.
Qed.

Lemma post_journal_fixes {X} (f : session database -> X) store date src sid by_ lines ety rev :
  (forall g s, f (with_working (over_journal_lines g (working s)) s) = f s) ->
  (forall g s, f (with_working (over_journal_entries g (working s)) s) = f s) ->
  (forall s n, f (mkSession (committed s) (working s) (env s) n (approval_windows s)) = f s) ->
  fixes f (_post_journal store date src sid by_ lines ety rev).
Proof.
  intros Hl He Hn. unfold _post_journal, _enforce_period_open, _resolve_accounts,
    _generate_journal_number, datetime_now_utc.
  repeat (apply fixes_bind; intros); try solve [solve_fixes].
  - intros s. apply Hn.
  - by apply add_fixes.
  - apply fixes_for_each. intros sp. unfold add_line.
    repeat (apply fixes_bind; intros); try solve [solve_fixes]. by apply add_fixes.
Qed.

#[export] Hint Extern 2 (fixes _ (_post_journal _ _ _ _ _ _ _ _)) =>
  (apply post_journal_fixes; intros; reflexivity) : fixes.

(** ** Reversal *)

(** Net debit an entry puts on an account. *)
Definition entry_net (d : database) (id account : Z) : ledger :=
  sum_where (fun l => (line_entry_id l =? id) && (line_account_id l =? account))
    (fun l => debit l - credit l) (journal_lines d).

Definition lines_refer (d : database) : Prop :=
  forall l, l ∈ journal_lines d -> is_Some (row_of (journal_entries d) (line_entry_id l)).

(** At most one reversal per entry, and each undoes its original exactly. *)
Record reversals_wf (d : database) : Prop := {
  rw_unique : forall i j a b id,
    row_of (journal_entries d) i = Some a -> row_of (journal_entries d) j = Some b ->
    reversal_of_id a = Some id -> reversal_of_id b = Some id -> i = j;
  rw_mirror : forall i a id account,
    row_of (journal_entries d) i = Some a -> reversal_of_id a = Some id ->
    is_Some (row_of (journal_entries d) id) /\ entry_net d i account = - entry_net d id account;
}.

Lemma entry_net_append e new d id account :
  entry_net (append_entry e new d) id account =
  entry_net d id account +
  sum_where (fun l => (line_entry_id l =? id) && (line_account_id l =? account))
    (fun l => debit l - credit l) new.
Proof. unfold entry_net. simpl. by rewrite sum_where_app. Qed.

Lemma entry_net_fresh d account :
  lines_refer d -> entry_net d (next_id (journal_entries d)) account = 0.
Proof.
  intros Hwf. apply sum_where_none. intros l Hl.
  destruct (Hwf l Hl) as [x Hx%row_of_range].
  apply andb_false_iff; left; apply Z.eqb_neq; lia.
Qed.

(** Appending the entry [e] with lines of its own leaves the nets of the others. *)
Lemma entry_net_append_old e new d id account :
  (forall l, l ∈ new -> line_entry_id l = next_id (journal_entries d)) ->
  is_Some (row_of (journal_entries d) id) ->
  entry_net (append_entry e new d) id account = entry_net d id account.
Proof.
  intros Hnew [x Hx%row_of_range]. rewrite entry_net_append, (sum_where_none _ _ new); [lia|].
  intros l Hl. rewrite (Hnew l Hl). apply andb_false_iff; left; apply Z.eqb_neq; lia.
Qed.

Lemma append_entry_reversals_wf e new d :
  lines_refer d -> reversals_wf d ->
  (forall l, l ∈ new -> line_entry_id l = next_id (journal_entries d)) ->
  match reversal_of_id e with
  | None => True
  | Some id =>
      is_Some (row_of (journal_entries d) id) /\
      (forall i a, row_of (journal_entries d) i = Some a -> reversal_of_id a <> Some id) /\
      forall account,
        sum_where (fun l => line_account_id l =? account) (fun l => debit l - credit l) new
        = - entry_net d id account
  end ->
  reversals_wf (append_entry e new d).
Proof.
  intros Hl [Hu Hm] Hnew Hrev. constructor; simpl.
  - intros i j a b id [Hi|[-> ->]]%row_of_inv_app [Hj|[-> ->]]%row_of_inv_app Ha Hb;
      [by eapply Hu|..|done].
    + rewrite Hb in Hrev. destruct Hrev as (_ & Hno & _). by destruct (Hno _ _ Hi).
    + rewrite Ha in Hrev. destruct Hrev as (_ & Hno & _). by destruct (Hno _ _ Hj).
  - intros i a id account [Hi|[-> ->]]%row_of_inv_app Ha.
    + destruct (Hm i a id account Hi Ha) as [Hs He]. split.
      { destruct Hs as [x Hx]. exists x. by apply row_of_app_old. }
      rewrite !entry_net_append_old by eauto. done.
    + rewrite Ha in Hrev. destruct Hrev as ([x Hx] & _ & Hn). split.
      { exists x. by apply row_of_app_old. }
      rewrite entry_net_append, entry_net_fresh, entry_net_append_old by eauto.
      rewrite <- Hn. apply sum_by_ext. intros l Hin.
      by rewrite (Hnew l Hin), Z.eqb_refl.
Qed.

Lemma mirror_lines_ok rid ls s u s' :
  for_each (fun il : Z * JournalLine => _ ← add (mirror_line rid il.2); mret tt) ls s = (Ok u, s') ->
  s' = with_working (over_journal_lines
         (fun t => t ++ map (fun il => mirror_line rid il.2) ls) (working s)) s.
Proof.
  intros H.
  eapply (for_each_ok_ind _ (fun done s1 =>
    s1 = with_working (over_journal_lines
           (fun t => t ++ map (fun il => mirror_line rid il.2) done) (working s)) s)) in H; [done|..].
  - destruct s as [c [? ? [? ? ? ?] ? ? ? ? ?] e n w].
    unfold with_working, over_journal_lines, over_ledger. simpl. by rewrite app_nil_r.
  - intros dn x rest s1 s2 _ -> H1. apply bind_ok in H1 as (i & s3 & H1 & H2).
    apply ret_ok in H2 as [_ <-]. apply add_ok in H1 as (_ & _ & _ & ->).
    unfold with_working, over_journal_lines, over_ledger. simpl.
    by rewrite map_app, app_assoc.
Qed.

(** The two ways a reversal succeeds. *)
Lemma reverse_ok id by_ caller s rid s' :
  reverse_journal_entry id by_ caller s = (Ok rid, s') ->
  exists e, row_of (journal_entries (working s)) id = Some e /\ source_type e = ST_MANUAL /\
    entry_type e <> REVERSAL /\ store_denied caller (entry_store_id e) = false /\
    let reversals := select (fun _ x => bool_decide (reversal_of_id x = Some id))
                       (journal_entries (working s)) in
    let lines := select (fun _ l => line_entry_id l =? id) (journal_lines (working s)) in
    ((s' = s /\ exists r, reversals = [(rid, r)]) \/
     (reversals = [] /\ lines <> [] /\ rid = next_id (journal_entries (working s)) /\
      exists r log, entry_type r = REVERSAL /\ reversal_of_id r = Some id /\
        working s' = over_audit_logs (fun t => t ++ [log])
          (append_entry r (map (fun il => mirror_line rid il.2) lines) (working s)))).
Proof.
  unfold reverse_journal_entry. intros H.
  apply bind_ok in H as (o & s1 & H1 & H). apply get_ok in H1 as [-> <-].
  apply bind_ok in H as (e & s1 & H1 & H). apply of_option_ok in H1 as [He <-].
  apply bind_ok in H as (? & s1 & H1 & H). apply enforce_store_access_ok in H1 as [Hd <-].
  apply bind_ok in H as (? & s1 & H1 & H). apply raise_if_ok in H1 as [Ha <-].
  apply bind_ok in H as (? & s1 & H1 & H). apply raise_if_ok in H1 as [Hr <-].
  apply bind_ok in H as (l & s1 & H1 & H). apply query_ok in H1 as [-> <-].
  apply bind_ok in H as (ex & s1 & H1 & H). apply scalar_one_or_none_ok in H1 as [<- Hex].
  exists e. bools. simpl in *. split_and!; [done|by destruct (source_type e)|done|done|].
  destruct ex as [[i r]|].
  { apply ret_ok in H as [<- <-]. left. eauto. }
  apply bind_ok in H as (ls & s1 & H1 & H). apply query_ok in H1 as [-> <-].
  apply bind_ok in H as (? & s1 & H1 & H). apply raise_if_ok in H1 as [Hne <-].
  apply bind_ok in H as (td & s1 & H1 & H). apply asks_ok in H1 as [_ <-].
  apply bind_ok in H as (? & s1 & H1 & H). apply enforce_period_open_ok in H1 as [<- _].
  apply bind_ok in H as (n & s1 & H1 & H). apply generate_number_ok in H1 as (_ & Hw & _).
  apply bind_ok in H as (ri & s2 & H1 & H). apply add_ok in H1 as (-> & _ & _ & ->).
  apply bind_ok in H as (? & s2 & H1 & H). apply mirror_lines_ok in H1 as ->.
  apply bind_ok in H as (? & s2 & H1 & H). apply log_event_ok in H1 as ->.
  apply ret_ok in H as [<- <-]. right. simpl. rewrite Hw. bools.
  split_and!; [done|by intros E; apply Hne, length_zero_iff_nil|done|].
  eexists _, _. split_and!; [| |reflexivity]; done.
Qed.

(** The invariants read the ledger tables only. *)
Lemma ledger_wf_ext d d' : ledger_tables d' = ledger_tables d -> ledger_wf d -> ledger_wf d'.
Proof. intros E [? ? ? ?]. constructor; by rewrite E. Qed.

Lemma reversals_wf_ext d d' :
  ledger_tables d' = ledger_tables d -> reversals_wf d -> reversals_wf d'.
Proof. intros E [? ?]. constructor; unfold entry_net; by rewrite E. Qed.

Lemma wf_over_audit_logs g d :
  (ledger_wf d -> ledger_wf (over_audit_logs g d)) /\
  (reversals_wf d -> reversals_wf (over_audit_logs g d)).
Proof. split; [by apply ledger_wf_ext|by apply reversals_wf_ext]. Qed.

Lemma mirror_sums rid (ls : list (Z * JournalLine)) :
  sum_by debit (map (fun il => mirror_line rid il.2) ls) = sum_by (fun il => credit il.2) ls /\
  sum_by credit (map (fun il => mirror_line rid il.2) ls) = sum_by (fun il => debit il.2) ls.
Proof. split; rewrite sum_by_map; by apply sum_by_ext. Qed.

Lemma mirror_lines_wf d id rid l :
  (forall l, l ∈ journal_lines d -> is_Some (row_of (accounts d) (line_account_id l))) ->
  (forall l, l ∈ journal_lines d -> one_sided l) ->
  l ∈ map (fun il => mirror_line rid il.2)
        (select (fun _ l => line_entry_id l =? id) (journal_lines d)) ->
  line_entry_id l = rid /\ is_Some (row_of (accounts d) (line_account_id l)) /\ one_sided l.
Proof.
  intros Ha Ho ([i x] & -> & Hin)%list_elem_of_fmap.
  apply elem_select in Hin as [Hx%row_of_elem _]. simpl.
  specialize (Ha x Hx). specialize (Ho x Hx).
  split_and!; [done|done|]. unfold one_sided in *. simpl. tauto.
Qed.

Lemma mirror_net d id rid account :
  sum_where (fun l => line_account_id l =? account) (fun l => debit l - credit l)
    (map (fun il => mirror_line rid il.2)
       (select (fun _ l => line_entry_id l =? id) (journal_lines d))) = - entry_net d id account.
Proof.
  unfold sum_where. rewrite sum_by_map. unfold entry_net.
  transitivity (sum_by (fun il : Z * JournalLine =>
      -1 * (if line_account_id il.2 =? account then debit il.2 - credit il.2 else 0))
    (select (fun _ l => line_entry_id l =? id) (journal_lines d))).
  { apply sum_by_ext. intros [i l] _. simpl. destruct (_ =? _); lia. }
  rewrite sum_by_scale.
  rewrite (select_sum (fun l => line_entry_id l =? id)
             (fun l => if line_account_id l =? account then debit l - credit l else 0)).
  unfold sum_where.
  rewrite (sum_by_ext _ (fun l => if (line_entry_id l =? id) && (line_account_id l =? account)
                                  then debit l - credit l else 0)); [lia|].
  intros l _. by destruct (_ =? id), (_ =? account).
Qed.

(** The mirror of an entry not yet reversed is its one reversal. *)
Lemma mirror_undoes d id e :
  row_of (journal_entries d) id = Some e ->
  select (fun _ x => bool_decide (reversal_of_id x = Some id)) (journal_entries d) = [] ->
  is_Some (row_of (journal_entries d) id) /\
  (forall i a, row_of (journal_entries d) i = Some a -> reversal_of_id a <> Some id) /\
  forall account,
    sum_where (fun l => line_account_id l =? account) (fun l => debit l - credit l)
      (map (fun il => mirror_line (next_id (journal_entries d)) il.2)
         (select (fun _ l => line_entry_id l =? id) (journal_lines d))) = - entry_net d id account.
Proof.
  intros He Hno. split_and!; [eauto| |intros account; apply mirror_net].
  intros i a Hi Ha. assert (Hf := proj1 (select_nil _ _) Hno i a Hi). simpl in Hf. by bools.
Qed.

Lemma reverse_wf id by_ caller s rid s' :
  ledger_wf (working s) -> reversals_wf (working s) ->
  reverse_journal_entry id by_ caller s = (Ok rid, s') ->
  ledger_wf (working s') /\ reversals_wf (working s').
Proof.
  intros Hl Hr H.
  apply reverse_ok in H as (e & He & _ & _ & _ & [[-> _]|(Hno & Hne & -> & r & log & Ht & Hid & Hw)]);
    [done|].
  assert (Hm := fun l => mirror_lines_wf (working s) id (next_id (journal_entries (working s))) l
                  (lw_account _ Hl) (lw_one_sided _ Hl)).
  split; rewrite Hw.
  - apply wf_over_audit_logs. apply append_entry_wf; [done| |exact Hm|].
    + by intros E%map_eq_nil.
    + destruct (mirror_sums (next_id (journal_entries (working s)))
        (select (fun _ l => line_entry_id l =? id) (journal_lines (working s)))) as [-> ->].
      rewrite (select_sum (fun l => line_entry_id l =? id) credit),
        (select_sum (fun l => line_entry_id l =? id) debit).
      symmetry. by eapply (lw_balanced _ Hl).
  - apply wf_over_audit_logs.
    apply append_entry_reversals_wf; [exact (lw_refer _ ltac:(eassumption))|done| |].
    + intros l Hin. by apply Hm.
    + rewrite Hid. by apply (mirror_undoes _ _ e).
Qed.

Lemma post_journal_reversals_wf store date src sid by_ lines ety s id s' :
  ledger_wf (working s) -> reversals_wf (working s) ->
  _post_journal store date src sid by_ lines ety None s = (Ok id, s') ->
  reversals_wf (working s').
Proof.
  intros Hwf Hr H.
  apply post_journal_ok in H
    as (e & new & -> & -> & _ & _ & _ & _ & _ & _ & _ & Hrev & _ & Hm & _).
  apply append_entry_reversals_wf; [exact (lw_refer _ ltac:(eassumption))|done| |by rewrite Hrev].
  intros l Hl. by eapply line_matches_new in Hm as [-> _].
Qed.

Lemma empty_ledger_wf d :
  journal_entries d = [] -> journal_lines d = [] -> ledger_wf d /\ reversals_wf d.
Proof.
  intros He Hl. split; constructor; rewrite ?He, ?Hl.
  - by intros l ?%elem_of_nil.
  - by intros l ?%elem_of_nil.
  - by intros l ?%elem_of_nil.
  - intros id e. by unfold row_of; destruct (0 <? id).
  - intros i j a b id. by unfold row_of; destruct (0 <? i).
  - intros i a id acc. by unfold row_of; destruct (0 <? i).
Qed.

(** A manual entry of 12.00 between two accounts of the seeded chart. *)
Definition demo_manual : Tx Z :=
  _post_journal 1 20000 ST_MANUAL None (Some 2)
    [_debit ACCOUNT_CASH_ON_HAND 12000000; _credit ACCOUNT_OTHER_PAYMENT_CLEARING 12000000]
    STANDARD None.

Lemma demo_manual_wf :
  ledger_wf (working (after demo_manual demo)) /\ reversals_wf (working (after demo_manual demo)).
Proof.
  destruct (empty_ledger_wf (working demo)) as [Hl Hr]; [done..|].
  assert (H : demo_manual demo = (Ok 1, after demo_manual demo)) by (by vm_compute).
  split; [by eapply post_journal_wf in H|by eapply post_journal_reversals_wf in H].
Qed.

(** After reversing a manual entry, the original and its reversal cancel on
    every account, and the ledger is still balanced entry by entry with at most
    one reversal per entry. *)
Theorem reverse_journal_entry_nets_to_zero id by_ caller s rid s' :
  ledger_wf (working s) -> reversals_wf (working s) ->
  reverse_journal_entry id by_ caller s = (Ok rid, s') ->
  ledger_wf (working s') /\ reversals_wf (working s') /\
  (forall account, entry_net (working s') id account + entry_net (working s') rid account = 0) /\
  exists r, row_of (journal_entries (working s')) rid = Some r /\ reversal_of_id r = Some id.
Proof.
  intros Hl Hr H. destruct (reverse_wf _ _ _ _ _ _ Hl Hr H) as [Hl' Hr'].
  split; [done|]. split; [done|].
  assert (exists r, row_of (journal_entries (working s')) rid = Some r /\
                    reversal_of_id r = Some id) as (r & Hrow & Hof).
  { apply reverse_ok in H as (e & He & _ & _ & _ & [[-> [r Hsel]]|(_ & _ & -> & r & log & _ & Hid & ->)]).
    - assert ((rid, r) ∈ select (fun _ x => bool_decide (reversal_of_id x = Some id))
                         (journal_entries (working s))) as [Hrow Hp]%elem_select
        by (rewrite Hsel; set_solver).
      bools. eauto.
    - exists r. split; [apply row_of_new|done]. }
  split; [|eauto]. intros account.
  destruct (rw_mirror _ Hr' rid r id account Hrow Hof) as [_ ->]. lia.
Qed.

Lemma reverse_journal_entry_nets_to_zero_witness :
  let s := after demo_manual demo in
  let r := reverse_journal_entry 1 (Some 2) (Some 1) s in
  r.1 = Ok 2 /\ entry_net (working r.2) 1 1 = 12000000 /\
  forall account, entry_net (working r.2) 1 account + entry_net (working r.2) 2 account = 0.
Proof.
  intros s r. split; [by vm_compute|]. split; [by vm_compute|].
  apply (reverse_journal_entry_nets_to_zero 1 (Some 2) (Some 1) s 2 r.2).
  - apply demo_manual_wf.
  - apply demo_manual_wf.
  - by vm_compute.
Defined.

(** Reversing is idempotent: the second call on the resulting state
    returns the same reversal and writes nothing. *)
Theorem reverse_journal_entry_idempotent id by_ caller s rid s' :
  reverse_journal_entry id by_ caller s = (Ok rid, s') ->
  reverse_journal_entry id by_ caller s' = (Ok rid, s').
Proof.
  intros H. pose proof (reverse_ok _ _ _ _ _ _ H)
    as (e & He & Hm & Ht & Hd & [[-> _]|(Hno & Hne & -> & r & log & _ & Hid & Hw)]); [done|].
  unfold reverse_journal_entry.
  erewrite bind_ok_intro by reflexivity.
  erewrite bind_ok_intro; [|by unfold of_option; rewrite Hw; simpl; rewrite (row_of_app_old _ _ _ _ He)].
  unfold enforce_store_access, raise_if. rewrite Hd, Hm. simpl.
  erewrite bind_ok_intro by reflexivity. erewrite bind_ok_intro by reflexivity.
  rewrite bool_decide_eq_false_2 by done.
  erewrite bind_ok_intro by reflexivity. erewrite bind_ok_intro by reflexivity.
  rewrite Hw. simpl. rewrite select_app, Hno, Hid, bool_decide_eq_true_2 by done. done.
Qed.

Lemma reverse_journal_entry_idempotent_witness :
  let s' := after (reverse_journal_entry 1 (Some 2) (Some 1)) (after demo_manual demo) in
  reverse_journal_entry 1 (Some 2) (Some 1) s' = (Ok 2, s').
Proof.
  intros s'. apply (reverse_journal_entry_idempotent 1 (Some 2) (Some 1) (after demo_manual demo)).
  by vm_compute.
Defined.

(** An entry the system posted for an operation cannot be reversed through
    the generic endpoint, nor can a reversal; the call fails and changes
    nothing. *)
Theorem reverse_journal_entry_refused id by_ caller s e :
  row_of (journal_entries (working s)) id = Some e ->
  store_denied caller (entry_store_id e) = false ->
  source_type e <> ST_MANUAL \/ entry_type e = REVERSAL ->
  exists code, reverse_journal_entry id by_ caller s = (Raise (ConflictError code), s) /\
    (code = "OPERATIONAL_REVERSAL_REQUIRED" \/ code = "CANNOT_REVERSE_REVERSAL")%string.
Proof.
  intros He Hd Hs. unfold reverse_journal_entry.
  erewrite bind_ok_intro by reflexivity.
  erewrite bind_ok_intro; [|by unfold of_option; simpl; rewrite He].
  unfold enforce_store_access, raise_if. rewrite Hd.
  erewrite bind_ok_intro by reflexivity.
  destruct (automated (source_type e)) eqn:Ea; [eexists; split; [reflexivity|by left]|].
  erewrite bind_ok_intro by reflexivity.
  destruct Hs as [Hs|Hs]; [by destruct (source_type e)|].
  rewrite bool_decide_eq_true_2 by done. eexists; split; [reflexivity|by right].
Qed.

Lemma reverse_journal_entry_refused_witness :
  let s := after (reverse_journal_entry 1 (Some 2) (Some 1)) (after demo_manual demo) in
  exists code, reverse_journal_entry 2 (Some 2) (Some 1) s = (Raise (ConflictError code), s) /\
    (code = "OPERATIONAL_REVERSAL_REQUIRED" \/ code = "CANNOT_REVERSE_REVERSAL")%string.
Proof.
  intros s.
  refine (reverse_journal_entry_refused 2 (Some 2) (Some 1) s
            (default (Build_JournalEntry (Build_DocumentNumber 0 0 0) 0 0 STANDARD ST_MANUAL
                        None None None) (row_of (journal_entries (working s)) 2)) _ _ _).
  - by vm_compute.
  - by vm_compute.
  - right. by vm_compute.
Defined.

(** ** The period lock *)

Definition periods_disjoint (d : database) : Prop :=
  forall i j a b, row_of (accounting_periods d) i = Some a ->
    row_of (accounting_periods d) j = Some b -> i <> j ->
    period_store_id a = period_store_id b ->
    period_end a < period_start b \/ period_end b < period_start a.

Lemma close_accounting_period_ok store ps pe reason actor caller s pid s' :
  close_accounting_period store ps pe reason actor caller s = (Ok pid, s') ->
  exists p, period_store_id p = store /\ period_start p = ps /\ period_end p = pe /\
    ps <= pe /\
    (forall q, q ∈ accounting_periods (working s) -> period_store_id q = store ->
       period_end q < ps \/ pe < period_start q) /\
    pid = next_id (accounting_periods (working s)) /\
    exists log, working s' = over_audit_logs (fun t => t ++ [log])
      (over_accounting_periods (fun t => t ++ [p]) (working s)).
Proof.
  unfold close_accounting_period. intros H.
  apply bind_ok in H as (? & s1 & H1 & H). apply enforce_store_access_ok in H1 as [_ <-].
  apply bind_ok in H as (? & s1 & H1 & H). apply raise_if_ok in H1 as [Hr <-].
  apply bind_ok in H as (now & s1 & H1 & H). apply asks_ok in H1 as [-> <-].
  apply bind_ok in H as (i & s1 & H1 & H).
  apply except_integrity_ok in H1 as [H1|(c & s2 & _ & H2)]; [|done].
  apply add_ok in H1 as (-> & _ & Hu & ->).
  apply bind_ok in H as (? & s2 & H1 & H). apply log_event_ok in H1 as ->.
  apply ret_ok in H as [<- <-]. bools.
  eexists. split_and!; [| | |lia| |reflexivity|eexists; reflexivity]; [done..|].
  intros q Hq Hs.
  assert (Hov := unique_violation_None _ _ Hu _ _ ltac:(left) q Hq). simpl in Hov.
  rewrite Hs, Z.eqb_refl in Hov. simpl in Hov.
  apply andb_false_iff in Hov as [Hov|Hov]; apply Z.leb_gt in Hov; lia.
Qed.

(** Closing a period keeps the store's periods pairwise disjoint, and from
    then on every posting dated inside it is refused with PERIOD_CLOSED before
    anything is written. *)
Theorem close_accounting_period_locks store ps pe reason actor caller s pid s' :
  periods_disjoint (working s) ->
  close_accounting_period store ps pe reason actor caller s = (Ok pid, s') ->
  periods_disjoint (working s') /\
  forall date src sid by_ lines ety rev, ps <= date <= pe -> lines <> [] ->
    _post_journal store date src sid by_ lines ety rev s'
    = (Raise (ConflictError "PERIOD_CLOSED"), s').
Proof.
  intros Hdis H. apply close_accounting_period_ok in H
    as (p & Hst & Hps & Hpe & Hle & Hno & -> & log & Hw).
  assert (Hrow : row_of (accounting_periods (working s'))
                   (next_id (accounting_periods (working s))) = Some p)
    by (rewrite Hw; apply row_of_new).
  assert (Hd' : periods_disjoint (working s')).
  { intros i j a b. rewrite Hw. simpl.
    intros [Hi|[-> ->]]%row_of_inv_app [Hj|[-> ->]]%row_of_inv_app Hne Hs; [by eapply Hdis| | |done].
    - destruct (Hno a); [by eapply row_of_elem|congruence|lia..].
    - destruct (Hno b); [by eapply row_of_elem|congruence|lia..]. }
  split; [done|]. intros date src sid by_ lines ety rev Hdate Hlines.
  assert (Hsel : select (fun _ q => period_covers store date q) (accounting_periods (working s'))
                 = [(next_id (accounting_periods (working s)), p)]).
  { apply select_single; [done| |].
    - unfold period_covers. rewrite !andb_true_iff, Z.eqb_eq, !Z.leb_le. lia.
    - intros j q Hj Hc. unfold period_covers in Hc. bools.
      destruct (decide (j = next_id (accounting_periods (working s)))) as [|Hne]; [done|].
      destruct (Hd' _ _ _ _ Hj Hrow Hne); [congruence|lia..]. }
  unfold _post_journal, _enforce_period_open.
  erewrite bind_ok_intro; [|rewrite bool_decide_eq_false_2; [reflexivity|by destruct lines]].
  apply bind_raise. erewrite bind_ok_intro by reflexivity. simpl. rewrite Hsel. done.
Qed.

Lemma close_accounting_period_locks_witness :
  let s := after (close_accounting_period 1 20000 20030 "month end" 2 (Some 1)) demo in
  _post_journal 1 20015 ST_MANUAL None None [_debit ACCOUNT_COGS 1] STANDARD None s
  = (Raise (ConflictError "PERIOD_CLOSED"), s).
Proof.
  intros s.
  refine (proj2 (close_accounting_period_locks 1 20000 20030 "month end" 2 (Some 1) demo 1 s _ _)
            20015 ST_MANUAL None None [_debit ACCOUNT_COGS 1] STANDARD None _ _).
  - intros i j a b Hi. by apply row_of_elem, elem_of_nil in Hi.
  - by vm_compute.
  - lia.
  - done.
Defined.
