(* ===== verification/Posting.v ===== *)
(** * One journal per operational event

    app/modules/accounting/service.py, [post_sale_journal] to
    [post_cash_shift_variance_journal]: the lines each kind of event posts,
    the zero-value cases that post nothing, and the theorems that every event
    whose amounts satisfy its module's identity posts a balanced entry, that an
    event posts at most once, and what a sale and a return do to each account. *)

From S2P Require Import Prelude Fixed Session Schema Tables Platform Chart Fixture Journal.

(** [if cond: lines.append(line)] *)
Definition opt_line (cond : bool) (l : LineSpec) : list LineSpec := if cond then [l] else [].

Definition posted (m : Tx Z) : Tx (option Z) := id ← m; mret (Some id).

Definition _post_standard (store_id posting_date : Z) (src : SourceType) (src_id : Z)
    (created_by : option Z) (lines : list LineSpec) : Tx (option Z) :=
  posted (_post_journal store_id posting_date src (Some src_id) created_by lines STANDARD None).

(** ** Sales *)

(** What the posting functions read of a [_ComputedLine]. *)
Definition cogs_of (lines : list (qty * cost)) : ledger :=
  sum_by (fun l => ledger_quantize l.1 l.2) lines.

Definition sale_journal_lines (sale : Sale) (computed_lines : list (qty * cost))
    (payments : list (PaymentMethod * money)) : list LineSpec :=
  map (fun p => _debit (PAYMENT_METHOD_ACCOUNT_CODE p.1) (ledger_of_money p.2)) payments ++
  opt_line (0 <? discount_total sale)
    (_debit ACCOUNT_SALES_DISCOUNTS (ledger_of_money (discount_total sale))) ++
  match change_due sale with
  | Some change => opt_line (0 <? change)
      (_credit (PAYMENT_METHOD_ACCOUNT_CODE CASH) (ledger_of_money change))
  | None => []
  end ++
  opt_line (0 <? subtotal sale) (_credit ACCOUNT_SALES_REVENUE (ledger_of_money (subtotal sale))) ++
  opt_line (0 <? tax_total sale) (_credit ACCOUNT_TAX_PAYABLE (ledger_of_money (tax_total sale))) ++
  let cogs_total := cogs_of computed_lines in
  if 0 <? cogs_total
  then [_debit ACCOUNT_COGS cogs_total; _credit ACCOUNT_INVENTORY cogs_total] else [].

Definition post_sale_journal (sale_id : Z) (sale : Sale) (computed_lines : list (qty * cost))
    (payments : list (PaymentMethod * money)) (created_by : option Z) : Tx (option Z) :=
  today ← date_today;
  let posting_date := match completed_at sale with Some t => date_of t | None => today end in
  _post_standard (sale_store_id sale) posting_date ST_SALE sale_id created_by
    (sale_journal_lines sale computed_lines payments).

Record SaleReturnLineEffect := {
  refund_price : money;
  discount_refunded : money;
  tax_refunded : money;
  restock : bool;
  effect_quantity : qty;
  unit_cost_refunded : cost;
}.

Definition return_cogs (ls : list SaleReturnLineEffect) : ledger :=
  sum_where restock (fun l => ledger_quantize (effect_quantity l) (unit_cost_refunded l)) ls.

Definition sale_return_journal_lines (method : PaymentMethod)
    (return_lines : list SaleReturnLineEffect) : list LineSpec :=
  let total_refund_price := sum_by refund_price return_lines in
  let total_discount_refunded := sum_by discount_refunded return_lines in
  let total_tax_refunded := sum_by tax_refunded return_lines in
  let cogs_total := return_cogs return_lines in
  let total_refund_amount := total_refund_price - total_discount_refunded + total_tax_refunded in
  opt_line (0 <? total_refund_price)
    (_debit ACCOUNT_SALES_REVENUE (ledger_of_money total_refund_price)) ++
  opt_line (0 <? total_tax_refunded)
    (_debit ACCOUNT_TAX_PAYABLE (ledger_of_money total_tax_refunded)) ++
  opt_line (0 <? total_discount_refunded)
    (_credit ACCOUNT_SALES_DISCOUNTS (ledger_of_money total_discount_refunded)) ++
  opt_line (0 <? total_refund_amount)
    (_credit (PAYMENT_METHOD_ACCOUNT_CODE method) (ledger_of_money total_refund_amount)) ++
  if 0 <? cogs_total
  then [_debit ACCOUNT_INVENTORY cogs_total; _credit ACCOUNT_COGS cogs_total] else [].

Definition post_sale_return_journal (return_id store_id return_date : Z) (method : PaymentMethod)
    (return_lines : list SaleReturnLineEffect) (created_by : option Z) : Tx (option Z) :=
  let lines := sale_return_journal_lines method return_lines in
  if bool_decide (length lines = 0%nat) then mret None
  else _post_standard store_id return_date ST_SALE_RETURN return_id created_by lines.

(** ** Purchasing *)

(** The two-line entries: one amount, debited and credited. *)
Definition pair_lines (debit_code credit_code : string) (amount : ledger) : list LineSpec :=
  [_debit debit_code amount; _credit credit_code amount].

Definition post_goods_receipt_journal (receipt_id store_id received_date : Z)
    (received_lines : list (qty * cost)) (created_by : option Z) : Tx (option Z) :=
  let total := cogs_of received_lines in
  if total <=? 0 then mret None
  else _post_standard store_id received_date ST_PURCHASE_RECEIPT receipt_id created_by
         (pair_lines ACCOUNT_INVENTORY ACCOUNT_PURCHASE_CLEARING total).

Definition post_purchase_return_journal (purchase_return_id store_id return_date : Z)
    (returned_lines : list (qty * cost)) (created_by : option Z) : Tx (option Z) :=
  let total := cogs_of returned_lines in
  if total <=? 0 then mret None
  else _post_standard store_id return_date ST_PURCHASE_RETURN purchase_return_id created_by
         (pair_lines ACCOUNT_PURCHASE_CLEARING ACCOUNT_INVENTORY total).

(** ** Accounts payable *)

(** The amounts of a posted invoice: the matched receipt cost and the price
    variance at ledger precision, the header totals in cents. *)
Record InvoiceAmounts := {
  clearing_amount : ledger;
  price_variance_amount : ledger;
  invoice_tax_total : money;
  invoice_discount_total : money;
  invoice_grand_total : money;
}.

Definition _purchase_invoice_journal_lines (a : InvoiceAmounts) (reverse : bool) : list LineSpec :=
  let debit := if reverse then _credit else _debit in
  let credit := if reverse then _debit else _credit in
  opt_line (0 <? clearing_amount a) (debit ACCOUNT_PURCHASE_CLEARING (clearing_amount a)) ++
  (if 0 <? price_variance_amount a
   then [debit ACCOUNT_PURCHASE_PRICE_VARIANCE (price_variance_amount a)]
   else opt_line (price_variance_amount a <? 0)
          (credit ACCOUNT_PURCHASE_PRICE_VARIANCE (- price_variance_amount a))) ++
  opt_line (0 <? invoice_tax_total a)
    (debit ACCOUNT_PURCHASE_TAX_EXPENSE (ledger_of_money (invoice_tax_total a))) ++
  opt_line (0 <? invoice_discount_total a)
    (credit ACCOUNT_PURCHASE_DISCOUNTS (ledger_of_money (invoice_discount_total a))) ++
  opt_line (0 <? invoice_grand_total a)
    (credit ACCOUNT_ACCOUNTS_PAYABLE (ledger_of_money (invoice_grand_total a))).

Definition post_purchase_invoice_journal (invoice_id store_id invoice_date : Z)
    (a : InvoiceAmounts) (created_by : option Z) : Tx (option Z) :=
  let lines := _purchase_invoice_journal_lines a false in
  if bool_decide (length lines = 0%nat) then mret None
  else _post_standard store_id invoice_date ST_PURCHASE_INVOICE invoice_id created_by lines.

Definition post_purchase_invoice_void_journal (invoice_id store_id : Z)
    (a : InvoiceAmounts) (created_by : option Z) : Tx (option Z) :=
  let lines := _purchase_invoice_journal_lines a true in
  if bool_decide (length lines = 0%nat) then mret None
  else now ← datetime_now_utc;
       _post_standard store_id (date_of now) ST_PURCHASE_INVOICE_VOID invoice_id created_by lines.

Definition post_supplier_payment_journal (payment_id store_id payment_date : Z)
    (method : SupplierPaymentMethod) (amount : money) (created_by : option Z) : Tx (option Z) :=
  if amount <=? 0 then mret None
  else _post_standard store_id payment_date ST_SUPPLIER_PAYMENT payment_id created_by
         (pair_lines ACCOUNT_ACCOUNTS_PAYABLE (SUPPLIER_PAYMENT_METHOD_ACCOUNT_CODE method)
            (ledger_of_money amount)).

(** [credit_note.reason == "GOODS_RETURN"] *)
Definition credit_note_account (goods_return : bool) : string :=
  if goods_return then ACCOUNT_INVENTORY else ACCOUNT_PURCHASE_DISCOUNTS.

Definition post_supplier_credit_note_journal (note_id store_id credit_date : Z)
    (goods_return : bool) (grand : money) (created_by : option Z) : Tx (option Z) :=
  if grand <=? 0 then mret None
  else _post_standard store_id credit_date ST_SUPPLIER_CREDIT_NOTE note_id created_by
         (pair_lines ACCOUNT_ACCOUNTS_PAYABLE (credit_note_account goods_return)
            (ledger_of_money grand)).

Definition post_supplier_payment_reversal_journal (payment_id store_id : Z)
    (method : SupplierPaymentMethod) (amount : money) (created_by : option Z) : Tx (option Z) :=
  now ← datetime_now_utc;
  _post_standard store_id (date_of now) ST_SUPPLIER_PAYMENT_REVERSAL payment_id created_by
    (pair_lines (SUPPLIER_PAYMENT_METHOD_ACCOUNT_CODE method) ACCOUNT_ACCOUNTS_PAYABLE
       (ledger_of_money amount)).

Definition post_supplier_credit_note_reversal_journal (note_id store_id : Z)
    (goods_return : bool) (grand : money) (created_by : option Z) : Tx (option Z) :=
  now ← datetime_now_utc;
  _post_standard store_id (date_of now) ST_SUPPLIER_CREDIT_NOTE_REVERSAL note_id created_by
    (pair_lines (credit_note_account goods_return) ACCOUNT_ACCOUNTS_PAYABLE
       (ledger_of_money grand)).

(** ** Stock adjustments and transfers *)

Definition stock_adjustment_lines (delta : qty) (amount : ledger) : list LineSpec :=
  if 0 <? delta then pair_lines ACCOUNT_INVENTORY ACCOUNT_INVENTORY_ADJUSTMENT_GAIN amount
  else pair_lines ACCOUNT_INVENTORY_SHRINKAGE_EXPENSE ACCOUNT_INVENTORY amount.

(** [created_at] is the row's server default, the time of the transaction. *)
Definition post_stock_adjustment_journal (adjustment_id : Z) (a : StockAdjustment)
    (unit_cost : cost) (created_by : option Z) : Tx (option Z) :=
  let amount := ledger_quantize (Z.abs (adj_quantity_delta a)) unit_cost in
  if amount <=? 0 then mret None
  else created_at ← datetime_now_utc;
       _post_standard (adj_store_id a) (date_of created_at) ST_STOCK_ADJUSTMENT adjustment_id
         created_by (stock_adjustment_lines (adj_quantity_delta a) amount).

Definition post_transfer_shipment_journal (transfer_id from_store_id : Z) (shipped_at : option Z)
    (shipped_value : ledger) (created_by : option Z) : Tx (option Z) :=
  if shipped_value <=? 0 then mret None
  else today ← date_today;
       _post_standard from_store_id (match shipped_at with Some t => date_of t | None => today end)
         ST_INTER_STORE_TRANSFER_SHIP transfer_id created_by
         (pair_lines ACCOUNT_INVENTORY_IN_TRANSIT ACCOUNT_INVENTORY shipped_value).

Definition post_transfer_receipt_journal (receipt_id store_id received_date : Z)
    (received_value : ledger) (created_by : option Z) : Tx (option Z) :=
  if received_value <=? 0 then mret None
  else _post_standard store_id received_date ST_INTER_STORE_TRANSFER_RECEIVE receipt_id created_by
         (pair_lines ACCOUNT_INVENTORY ACCOUNT_INVENTORY_IN_TRANSIT received_value).

Definition post_transfer_write_off_journal (write_off_id store_id date : Z)
    (amount : ledger) (created_by : option Z) : Tx (option Z) :=
  _post_standard store_id date ST_TRANSFER_WRITE_OFF write_off_id created_by
    (pair_lines ACCOUNT_INVENTORY_SHRINKAGE_EXPENSE ACCOUNT_INVENTORY_IN_TRANSIT amount).

Definition post_transfer_write_off_reversal_journal (write_off_id store_id : Z)
    (amount : ledger) (created_by : option Z) : Tx (option Z) :=
  now ← datetime_now_utc;
  _post_standard store_id (date_of now) ST_TRANSFER_WRITE_OFF_REVERSAL write_off_id created_by
    (pair_lines ACCOUNT_INVENTORY_IN_TRANSIT ACCOUNT_INVENTORY_SHRINKAGE_EXPENSE amount).

(** ** Payroll *)

(** The frozen totals of a [PayrollEmployeeResult] row. *)
Record PayrollTotals := {
  gross_pay : money;
  total_deductions : money;
  total_employer_contributions : money;
  net_pay : money;
}.

Definition _payroll_journal_lines (total_gross total_employee_deductions
    total_employer_contribs total_net_pay : money) (reverse : bool) : list LineSpec :=
  let debit := if reverse then _credit else _debit in
  let credit := if reverse then _debit else _credit in
  opt_line (0 <? total_gross) (debit ACCOUNT_WAGE_SALARY_EXPENSE (ledger_of_money total_gross)) ++
  opt_line (0 <? total_employer_contribs)
    (debit ACCOUNT_EMPLOYER_CONTRIBUTION_EXPENSE (ledger_of_money total_employer_contribs)) ++
  opt_line (0 <? total_net_pay) (credit ACCOUNT_PAYROLL_PAYABLE (ledger_of_money total_net_pay)) ++
  opt_line (0 <? total_employee_deductions)
    (credit ACCOUNT_BENEFIT_DEDUCTION_PAYABLE (ledger_of_money total_employee_deductions)) ++
  opt_line (0 <? total_employer_contribs)
    (credit ACCOUNT_EMPLOYER_CONTRIBUTION_PAYABLE (ledger_of_money total_employer_contribs)).

Definition payroll_lines_of (results : list PayrollTotals) (reverse : bool) : list LineSpec :=
  _payroll_journal_lines (sum_by gross_pay results) (sum_by total_deductions results)
    (sum_by total_employer_contributions results) (sum_by net_pay results) reverse.

Definition post_payroll_journal (period_id store_id pay_date : Z)
    (results : list PayrollTotals) (posted_by : option Z) : Tx (option Z) :=
  _post_standard store_id pay_date ST_PAYROLL_POSTING period_id posted_by
    (payroll_lines_of results false).

Definition post_payroll_reversal_journal (period_id store_id : Z)
    (results : list PayrollTotals) (reversed_by : option Z) : Tx (option Z) :=
  now ← datetime_now_utc;
  _post_standard store_id (date_of now) ST_PAYROLL_REVERSAL period_id reversed_by
    (payroll_lines_of results true).

(** ** Cash variance *)

Definition cash_variance_lines (variance : money) : list LineSpec :=
  let amount := ledger_of_money (Z.abs variance) in
  if 0 <? variance then pair_lines ACCOUNT_CASH_ON_HAND ACCOUNT_CASH_OVER_SHORT amount
  else pair_lines ACCOUNT_CASH_OVER_SHORT ACCOUNT_CASH_ON_HAND amount.

Definition post_cash_shift_variance_journal (shift_id : Z) (shift : CashierShift)
    (created_by : option Z) : Tx (option Z) :=
  match variance_amount shift with
  | None => mret None
  | Some variance =>
      if variance =? 0 then mret None
      else today ← date_today;
           _post_standard (shift_store_id shift)
             (match shift_closed_at shift with Some t => date_of t | None => today end)
             ST_CASH_SHIFT_VARIANCE shift_id created_by (cash_variance_lines variance)
  end.

(** ** Events *)

Inductive posting :=
  | P_sale (id : Z) (sale : Sale) (lines : list (qty * cost)) (ps : list (PaymentMethod * money))
  | P_sale_return (id store date : Z) (m : PaymentMethod) (ls : list SaleReturnLineEffect)
  | P_goods_receipt (id store date : Z) (ls : list (qty * cost))
  | P_purchase_return (id store date : Z) (ls : list (qty * cost))
  | P_invoice (id store date : Z) (a : InvoiceAmounts)
  | P_invoice_void (id store : Z) (a : InvoiceAmounts)
  | P_supplier_payment (id store date : Z) (m : SupplierPaymentMethod) (amount : money)
  | P_supplier_payment_reversal (id store : Z) (m : SupplierPaymentMethod) (amount : money)
  | P_credit_note (id store date : Z) (goods_return : bool) (grand : money)
  | P_credit_note_reversal (id store : Z) (goods_return : bool) (grand : money)
  | P_stock_adjustment (id : Z) (a : StockAdjustment) (unit_cost : cost)
  | P_transfer_shipment (id store : Z) (shipped_at : option Z) (value : ledger)
  | P_transfer_receipt (id store date : Z) (value : ledger)
  | P_write_off (id store date : Z) (amount : ledger)
  | P_write_off_reversal (id store : Z) (amount : ledger)
  | P_payroll (id store date : Z) (rs : list PayrollTotals)
  | P_payroll_reversal (id store : Z) (rs : list PayrollTotals)
  | P_cash_variance (id : Z) (shift : CashierShift).

Definition post (p : posting) (by_ : option Z) : Tx (option Z) :=
  match p with
  | P_sale i sale ls ps => post_sale_journal i sale ls ps by_
  | P_sale_return i s d m ls => post_sale_return_journal i s d m ls by_
  | P_goods_receipt i s d ls => post_goods_receipt_journal i s d ls by_
  | P_purchase_return i s d ls => post_purchase_return_journal i s d ls by_
  | P_invoice i s d a => post_purchase_invoice_journal i s d a by_
  | P_invoice_void i s a => post_purchase_invoice_void_journal i s a by_
  | P_supplier_payment i s d m a => post_supplier_payment_journal i s d m a by_
  | P_supplier_payment_reversal i s m a => post_supplier_payment_reversal_journal i s m a by_
  | P_credit_note i s d g a => post_supplier_credit_note_journal i s d g a by_
  | P_credit_note_reversal i s g a => post_supplier_credit_note_reversal_journal i s g a by_
  | P_stock_adjustment i a c => post_stock_adjustment_journal i a c by_
  | P_transfer_shipment i s t v => post_transfer_shipment_journal i s t v by_
  | P_transfer_receipt i s d v => post_transfer_receipt_journal i s d v by_
  | P_write_off i s d a => post_transfer_write_off_journal i s d a by_
  | P_write_off_reversal i s a => post_transfer_write_off_reversal_journal i s a by_
  | P_payroll i s d rs => post_payroll_journal i s d rs by_
  | P_payroll_reversal i s rs => post_payroll_reversal_journal i s rs by_
  | P_cash_variance i sh => post_cash_shift_variance_journal i sh by_
  end.

(** The source key and the lines of an event. *)
Definition posting_key (p : posting) : SourceType * Z :=
  match p with
  | P_sale i _ _ _ => (ST_SALE, i)
  | P_sale_return i _ _ _ _ => (ST_SALE_RETURN, i)
  | P_goods_receipt i _ _ _ => (ST_PURCHASE_RECEIPT, i)
  | P_purchase_return i _ _ _ => (ST_PURCHASE_RETURN, i)
  | P_invoice i _ _ _ => (ST_PURCHASE_INVOICE, i)
  | P_invoice_void i _ _ => (ST_PURCHASE_INVOICE_VOID, i)
  | P_supplier_payment i _ _ _ _ => (ST_SUPPLIER_PAYMENT, i)
  | P_supplier_payment_reversal i _ _ _ => (ST_SUPPLIER_PAYMENT_REVERSAL, i)
  | P_credit_note i _ _ _ _ => (ST_SUPPLIER_CREDIT_NOTE, i)
  | P_credit_note_reversal i _ _ _ => (ST_SUPPLIER_CREDIT_NOTE_REVERSAL, i)
  | P_stock_adjustment i _ _ => (ST_STOCK_ADJUSTMENT, i)
  | P_transfer_shipment i _ _ _ => (ST_INTER_STORE_TRANSFER_SHIP, i)
  | P_transfer_receipt i _ _ _ => (ST_INTER_STORE_TRANSFER_RECEIVE, i)
  | P_write_off i _ _ _ => (ST_TRANSFER_WRITE_OFF, i)
  | P_write_off_reversal i _ _ => (ST_TRANSFER_WRITE_OFF_REVERSAL, i)
  | P_payroll i _ _ _ => (ST_PAYROLL_POSTING, i)
  | P_payroll_reversal i _ _ => (ST_PAYROLL_REVERSAL, i)
  | P_cash_variance i _ => (ST_CASH_SHIFT_VARIANCE, i)
  end.

Definition unless_zero (amount : Z) (ls : list LineSpec) : list LineSpec :=
  if amount <=? 0 then [] else ls.

Definition posting_lines (p : posting) : list LineSpec :=
  match p with
  | P_sale _ sale ls ps => sale_journal_lines sale ls ps
  | P_sale_return _ _ _ m ls => sale_return_journal_lines m ls
  | P_goods_receipt _ _ _ ls =>
      unless_zero (cogs_of ls) (pair_lines ACCOUNT_INVENTORY ACCOUNT_PURCHASE_CLEARING (cogs_of ls))
  | P_purchase_return _ _ _ ls =>
      unless_zero (cogs_of ls) (pair_lines ACCOUNT_PURCHASE_CLEARING ACCOUNT_INVENTORY (cogs_of ls))
  | P_invoice _ _ _ a => _purchase_invoice_journal_lines a false
  | P_invoice_void _ _ a => _purchase_invoice_journal_lines a true
  | P_supplier_payment _ _ _ m a =>
      unless_zero a (pair_lines ACCOUNT_ACCOUNTS_PAYABLE (SUPPLIER_PAYMENT_METHOD_ACCOUNT_CODE m)
                       (ledger_of_money a))
  | P_supplier_payment_reversal _ _ m a =>
      pair_lines (SUPPLIER_PAYMENT_METHOD_ACCOUNT_CODE m) ACCOUNT_ACCOUNTS_PAYABLE (ledger_of_money a)
  | P_credit_note _ _ _ g a =>
      unless_zero a (pair_lines ACCOUNT_ACCOUNTS_PAYABLE (credit_note_account g) (ledger_of_money a))
  | P_credit_note_reversal _ _ g a =>
      pair_lines (credit_note_account g) ACCOUNT_ACCOUNTS_PAYABLE (ledger_of_money a)
  | P_stock_adjustment _ a c =>
      let amount := ledger_quantize (Z.abs (adj_quantity_delta a)) c in
      unless_zero amount (stock_adjustment_lines (adj_quantity_delta a) amount)
  | P_transfer_shipment _ _ _ v =>
      unless_zero v (pair_lines ACCOUNT_INVENTORY_IN_TRANSIT ACCOUNT_INVENTORY v)
  | P_transfer_receipt _ _ _ v =>
      unless_zero v (pair_lines ACCOUNT_INVENTORY ACCOUNT_INVENTORY_IN_TRANSIT v)
  | P_write_off _ _ _ a =>
      pair_lines ACCOUNT_INVENTORY_SHRINKAGE_EXPENSE ACCOUNT_INVENTORY_IN_TRANSIT a
  | P_write_off_reversal _ _ a =>
      pair_lines ACCOUNT_INVENTORY_IN_TRANSIT ACCOUNT_INVENTORY_SHRINKAGE_EXPENSE a
  | P_payroll _ _ _ rs => payroll_lines_of rs false
  | P_payroll_reversal _ _ rs => payroll_lines_of rs true
  | P_cash_variance _ sh =>
      match variance_amount sh with
      | Some v => if v =? 0 then [] else cash_variance_lines v
      | None => []
      end
  end.

(** The arithmetic identity each module guarantees for the amounts it hands to
    its posting function. *)
Definition sale_identity (sale : Sale) (ps : list (PaymentMethod * money)) : Prop :=
  0 <= subtotal sale /\ 0 <= discount_total sale /\ 0 <= tax_total sale /\
  0 <= default 0 (change_due sale) /\
  sum_by snd ps + discount_total sale
  = default 0 (change_due sale) + subtotal sale + tax_total sale.

Definition return_identity (ls : list SaleReturnLineEffect) : Prop :=
  (forall l, l ∈ ls -> 0 <= refund_price l /\ 0 <= discount_refunded l /\ 0 <= tax_refunded l) /\
  sum_by discount_refunded ls <= sum_by refund_price ls + sum_by tax_refunded ls.

Definition invoice_identity (a : InvoiceAmounts) : Prop :=
  0 <= clearing_amount a /\ 0 <= invoice_tax_total a /\ 0 <= invoice_discount_total a /\
  0 <= invoice_grand_total a /\
  clearing_amount a + price_variance_amount a + ledger_of_money (invoice_tax_total a)
  = ledger_of_money (invoice_discount_total a) + ledger_of_money (invoice_grand_total a).

Definition payroll_identity (rs : list PayrollTotals) : Prop :=
  forall r, r ∈ rs -> 0 <= net_pay r /\ 0 <= total_deductions r /\
    net_pay r = gross_pay r - total_deductions r.

Definition posting_identity (p : posting) : Prop :=
  match p with
  | P_sale _ sale _ ps => sale_identity sale ps
  | P_sale_return _ _ _ _ ls => return_identity ls
  | P_invoice _ _ _ a | P_invoice_void _ _ a => invoice_identity a
  | P_payroll _ _ _ rs | P_payroll_reversal _ _ rs => payroll_identity rs
  | _ => True
  end.

(** ** Balance of the line builders *)

Lemma payment_lines_sums (ps : list (PaymentMethod * money)) :
  let ls := map (fun p => _debit (PAYMENT_METHOD_ACCOUNT_CODE p.1) (ledger_of_money p.2)) ps in
  sum_by spec_debit ls = ledger_of_money (sum_by snd ps) /\ sum_by spec_credit ls = 0.
Proof.
  simpl. rewrite !sum_by_map. simpl. split; [|by apply sum_by_zero].
  unfold ledger_of_money. rewrite (Z.mul_comm (sum_by snd ps)), <- sum_by_scale.
  apply sum_by_ext. intros; lia.
Qed.

(** Decide every guard of a builder and add up the two sides. *)
Ltac balance_lines :=
  unfold balanced; rewrite ?sum_by_app; unfold opt_line, ledger_of_money;
  split_ifs; bools; cbn; lia.

Lemma sale_lines_balanced sale ls ps :
  sale_identity sale ps -> balanced (sale_journal_lines sale ls ps).
Proof.
  intros (Hs & Hd & Ht & Hc & Heq). unfold balanced, sale_journal_lines.
  rewrite !sum_by_app. destruct (payment_lines_sums ps) as [-> ->].
  destruct (change_due sale) as [c|]; simpl in *;
    unfold opt_line, ledger_of_money; split_ifs; bools; cbn; lia.
Qed.

Lemma return_lines_balanced m ls :
  return_identity ls -> balanced (sale_return_journal_lines m ls).
Proof.
  intros (Hn & Heq). unfold sale_return_journal_lines.
  assert (0 <= sum_by refund_price ls) by (apply sum_by_nonneg; intros; by apply Hn).
  assert (0 <= sum_by discount_refunded ls) by (apply sum_by_nonneg; intros; by apply Hn).
  assert (0 <= sum_by tax_refunded ls) by (apply sum_by_nonneg; intros; by apply Hn).
  balance_lines.
Qed.

Lemma invoice_lines_balanced a reverse :
  invoice_identity a -> balanced (_purchase_invoice_journal_lines a reverse).
Proof.
  intros (H1 & H2 & H3 & H4 & Heq). unfold _purchase_invoice_journal_lines, ledger_of_money in *.
  destruct reverse; balance_lines.
Qed.

Lemma payroll_lines_balanced rs reverse :
  payroll_identity rs -> balanced (payroll_lines_of rs reverse).
Proof.
  intros Hrs. unfold payroll_lines_of, _payroll_journal_lines.
  assert (0 <= sum_by net_pay rs) by (apply sum_by_nonneg; intros; by apply Hrs).
  assert (0 <= sum_by total_deductions rs) by (apply sum_by_nonneg; intros; by apply Hrs).
  assert (sum_by net_pay rs = sum_by gross_pay rs - sum_by total_deductions rs).
  { rewrite <- sum_by_sub. apply sum_by_ext. intros; by apply Hrs. }
  destruct reverse; balance_lines.
Qed.

Lemma pair_lines_balanced c1 c2 a : balanced (pair_lines c1 c2 a).
Proof. unfold balanced, pair_lines. cbn. lia. Qed.

Lemma unless_zero_balanced a ls : balanced ls -> balanced (unless_zero a ls).
Proof. unfold unless_zero. by destruct (a <=? 0). Qed.

#[export] Hint Resolve sale_lines_balanced return_lines_balanced invoice_lines_balanced
  payroll_lines_balanced pair_lines_balanced unless_zero_balanced : erp.

Lemma posting_lines_balanced p : posting_identity p -> balanced (posting_lines p).
Proof.
  destruct p; simpl; intros Hid; auto with erp.
  - apply unless_zero_balanced. unfold stock_adjustment_lines. destruct (_ <? _); auto with erp.
  - destruct (variance_amount shift) as [v|]; [|done]. destruct (v =? 0); [done|].
    unfold cash_variance_lines. destruct (0 <? v); auto with erp.
Qed.

(** ** What a successful posting did *)

Lemma posted_ok m s r s' :
  posted m s = (Ok r, s') -> exists id, r = Some id /\ m s = (Ok id, s').
Proof.
  unfold posted. intros H. apply bind_ok in H as (id & s1 & H1 & H).
  apply ret_ok in H as [<- <-]. eauto.
Qed.

(** The store an event is posted in. *)
Definition posting_store (p : posting) : Z :=
  match p with
  | P_sale _ sale _ _ => sale_store_id sale
  | P_sale_return _ st _ _ _ | P_goods_receipt _ st _ _ | P_purchase_return _ st _ _ => st
  | P_invoice _ st _ _ | P_invoice_void _ st _ => st
  | P_supplier_payment _ st _ _ _ | P_supplier_payment_reversal _ st _ _ => st
  | P_credit_note _ st _ _ _ | P_credit_note_reversal _ st _ _ => st
  | P_stock_adjustment _ a _ => adj_store_id a
  | P_transfer_shipment _ st _ _ | P_transfer_receipt _ st _ _ => st
  | P_write_off _ st _ _ | P_write_off_reversal _ st _ => st
  | P_payroll _ st _ _ | P_payroll_reversal _ st _ => st
  | P_cash_variance _ sh => shift_store_id sh
  end.

Lemma post_shape_at p by_ s r s' :
  post p by_ s = (Ok r, s') ->
  (posting_lines p = [] /\ r = None /\ s' = s) \/
  (exists date id, r = Some id /\
     _post_journal (posting_store p) date (posting_key p).1 (Some (posting_key p).2) by_ (posting_lines p)
       STANDARD None s = (Ok id, s')).
Proof.
  intros H.
  assert (Hpost : forall store date src i ls s0, _post_standard store date src i by_ ls s0 = (Ok r, s') ->
    exists date id, r = Some id /\
      _post_journal store date src (Some i) by_ ls STANDARD None s0 = (Ok id, s')).
  { unfold _post_standard. intros store date src i ls s0 (id & -> & Hid)%posted_ok. eauto. }
  destruct p; simpl in H;
    unfold post_sale_journal, post_sale_return_journal, post_goods_receipt_journal,
      post_purchase_return_journal, post_purchase_invoice_journal,
      post_purchase_invoice_void_journal, post_supplier_payment_journal,
      post_supplier_payment_reversal_journal, post_supplier_credit_note_journal,
      post_supplier_credit_note_reversal_journal, post_stock_adjustment_journal,
      post_transfer_shipment_journal, post_transfer_receipt_journal,
      post_transfer_write_off_journal, post_transfer_write_off_reversal_journal,
      post_payroll_journal, post_payroll_reversal_journal,
      post_cash_shift_variance_journal in H;
    simpl; unfold unless_zero in *;
    try (destruct (variance_amount shift) as [v|]);
    try match type of H with
    | (if bool_decide (length ?l = 0%nat) then _ else _) _ = _ =>
        destruct (bool_decide (length l = 0%nat)) eqn:E;
        [bools; apply length_zero_iff_nil in E|]
    | (if ?b then _ else _) _ = _ => destruct b eqn:E
    end;
    try (apply ret_ok in H as [<- <-]; by left);
    try (apply bind_ok in H as (x & s1 & H1 & H); apply asks_ok in H1 as [-> <-]);
    right; by eapply Hpost.
Qed.

Lemma post_shape p by_ s r s' :
  post p by_ s = (Ok r, s') ->
  (posting_lines p = [] /\ r = None /\ s' = s) \/
  (exists store date id, r = Some id /\
     _post_journal store date (posting_key p).1 (Some (posting_key p).2) by_ (posting_lines p)
       STANDARD None s = (Ok id, s')).
Proof. intros [H|(date & id & H)]%post_shape_at; [by left|]. right. by exists (posting_store p), date, id. Qed.

Lemma post_wf p by_ s r s' :
  posting_identity p -> ledger_wf (working s) -> reversals_wf (working s) ->
  post p by_ s = (Ok r, s') -> ledger_wf (working s') /\ reversals_wf (working s').
Proof.
  intros Hid Hl Hr H. apply post_shape in H as [(_ & _ & ->)|(st & dt & id & -> & H)]; [done|].
  split; [|by eapply post_journal_reversals_wf].
  eapply post_journal_wf; [|done|exact H]. by apply posting_lines_balanced.
Qed.

Lemma post_periods p by_ s r s' :
  post p by_ s = (Ok r, s') -> accounting_periods (working s') = accounting_periods (working s).
Proof.
  intros H. apply post_shape in H as [(_ & _ & ->)|(st & dt & id & -> & H)]; [done|].
  by apply post_journal_ok in H as (e & new & _ & -> & _).
Qed.

(** *** As an invariant of the operations that post *)

Definition books_wf (d : database) : Prop := ledger_wf d /\ reversals_wf d.

Lemma keeps_books_frame {A} (m : Tx A) :
  fixes committed m -> fixes (fun s => ledger_tables (working s)) m -> keeps books_wf m.
Proof.
  apply (keeps_frame _ ledger_tables). intros d d' E [? ?].
  split; [by apply (ledger_wf_ext d)|by apply (reversals_wf_ext d)].
Qed.

Ltac unfold_postings :=
  unfold post_sale_journal, post_sale_return_journal,
    post_goods_receipt_journal, post_purchase_return_journal, post_purchase_invoice_journal,
    post_purchase_invoice_void_journal, post_supplier_payment_journal,
    post_supplier_payment_reversal_journal, post_supplier_credit_note_journal,
    post_supplier_credit_note_reversal_journal, post_stock_adjustment_journal,
    post_transfer_shipment_journal, post_transfer_receipt_journal,
    post_transfer_write_off_journal, post_transfer_write_off_reversal_journal,
    post_payroll_journal, post_payroll_reversal_journal, post_cash_shift_variance_journal,
    _post_standard, posted.

Lemma post_fixes_committed p by_ : fixes committed (post p by_).
Proof. destruct p; simpl; unfold_postings; solve_fixes. Qed.

Lemma post_keeps p by_ : posting_identity p -> keeps books_wf (post p by_).
Proof.
  intros Hid s H1 [Hl Hr]. pose proof (post_fixes_committed p by_ s) as Hc.
  destruct (post p by_ s) as [[r|e] s'] eqn:E; simpl in *; rewrite Hc; [|done].
  split; [done|]. by eapply post_wf.
Qed.

#[export] Hint Extern 3 (keeps books_wf _) =>
  (apply keeps_books_frame; solve [solve_fixes]) : keeps.

(** Sale 1: two of product 1 with a 0.50 discount and 15% tax, paid 10.00 cash. *)
Definition demo_sale : Sale :=
  {| sale_store_id := 1; sale_number := Build_DocumentNumber 1 0 0;
     sale_client_transaction_id := "k"; cashier_id := 1; sale_status := COMPLETED;
     subtotal := 500; discount_total := 50; tax_total := 68; grand_total := 518;
     amount_tendered := Some 1000; change_due := Some 482;
     completed_at := Some 1750000000; sale_shift_id := None |}.

Definition demo_sale_posting : posting := P_sale 1 demo_sale [(2000, 1200000)] [(CASH, 1000)].

(** ** One posting per event *)

(** An event is posted at most once: when a standard entry exists for its
    source, posting it again never succeeds. *)
Theorem double_posting_refused p by_ s i e :
  posting_lines p <> [] ->
  row_of (journal_entries (working s)) i = Some e ->
  entry_type e = STANDARD -> source_type e = (posting_key p).1 ->
  source_id e = Some (posting_key p).2 ->
  forall r s', post p by_ s <> (Ok r, s').
Proof.
  intros Hne He Ht Hs Hi r s' H.
  apply post_shape in H as [(Hnil & _)|(st & dt & id & -> & H)]; [done|].
  unfold _post_journal in H.
  apply bind_ok in H as (? & s1 & H1 & H). apply raise_if_ok in H1 as [_ <-].
  apply bind_ok in H as (? & s2 & H2 & H). apply enforce_period_open_ok in H2 as [<- _].
  apply bind_ok in H as (f & s3 & H3 & H). apply resolve_accounts_ok in H3 as [<- _].
  apply bind_ok in H as (n & s4 & H4 & H). apply generate_number_ok in H4 as (_ & Hw & _).
  apply bind_ok in H as (eid & s5 & H5 & H). apply add_ok in H5 as (_ & _ & Hu & _).
  assert (Hin : e ∈ journal_entries (working s4)) by (rewrite Hw; by eapply row_of_elem).
  assert (Hf := unique_violation_None _ _ Hu "uq_journal_entries_source" _
                  ltac:(right; left) e Hin).
  simpl in Hf. rewrite Ht, Hs, Hi in Hf. simpl in Hf.
  rewrite !bool_decide_eq_true_2 in Hf by done. done.
Qed.

Lemma double_posting_refused_witness :
  let s := after (post demo_sale_posting (Some 1)) demo in
  ~ exists r s', post demo_sale_posting (Some 2) s = (Ok r, s').
Proof.
  intros s (r & s' & H). revert H.
  assert (exists e, row_of (journal_entries (working s)) 1 = Some e /\ entry_type e = STANDARD /\
            source_type e = ST_SALE /\ source_id e = Some 1) as (e & He & Ht & Hs & Hi).
  { vm_compute. eexists. split_and!; reflexivity. }
  apply (double_posting_refused demo_sale_posting (Some 2) s 1 e); done.
Defined.

(** ** What an event does to each account *)

Definition line_code (d : database) (l : JournalLine) : option string :=
  account_code <$> row_of (accounts d) (line_account_id l).

(** Net debit entry [id] puts on the account with code [code]. *)
Definition entry_code_net (d : database) (id : Z) (code : string) : ledger :=
  sum_where (fun l => (line_entry_id l =? id) && bool_decide (line_code d l = Some code))
    (fun l => debit l - credit l) (journal_lines d).

Definition posted_net (d : database) (r : option Z) (code : string) : ledger :=
  match r with Some id => entry_code_net d id code | None => 0 end.

Definition spec_net (specs : list LineSpec) (code : string) : ledger :=
  sum_where (fun sp => bool_decide (spec_code sp = code))
    (fun sp => spec_debit sp - spec_credit sp) specs.

Lemma line_matches_net d eid specs new code :
  Forall2 (line_matches d eid) specs new ->
  sum_where (fun l => (line_entry_id l =? eid) && bool_decide (line_code d l = Some code))
    (fun l => debit l - credit l) new = spec_net specs code.
Proof.
  induction 1 as [|sp l specs new (He & Hd & Hc & _ & a & Ha & Hcode) _ IH]; [done|].
  unfold spec_net in *. rewrite !sum_where_cons, IH, He, Z.eqb_refl, Hd, Hc.
  unfold line_code. rewrite Ha. simpl. rewrite Hcode.
  by rewrite (bool_decide_ext (Some (spec_code sp) = Some code) (spec_code sp = code))
    by (split; congruence).
Qed.

Lemma post_journal_net store date src sid by_ lines ety rev s id s' code :
  lines_refer (working s) ->
  _post_journal store date src sid by_ lines ety rev s = (Ok id, s') ->
  entry_code_net (working s') id code = spec_net lines code.
Proof.
  intros Hwf H.
  apply post_journal_ok in H as (e & new & -> & -> & _ & _ & _ & _ & _ & _ & _ & _ & _ & Hm & _).
  unfold entry_code_net. simpl. rewrite sum_where_app, (sum_where_none _ _ (journal_lines _)).
  - by rewrite (line_matches_net _ _ _ _ _ Hm).
  - intros l Hl. destruct (Hwf l Hl) as [x Hx%row_of_range].
    apply andb_false_iff; left; apply Z.eqb_neq; lia.
Qed.

Lemma post_refer_net p by_ s r s' code :
  lines_refer (working s) -> post p by_ s = (Ok r, s') ->
  posted_net (working s') r code = spec_net (posting_lines p) code.
Proof.
  intros Hwf H. apply post_shape in H as [(-> & -> & _)|(st & dt & id & -> & H)]; [done|].
  by eapply post_journal_net.
Qed.

Lemma post_net p by_ s r s' code :
  ledger_wf (working s) -> post p by_ s = (Ok r, s') ->
  posted_net (working s') r code = spec_net (posting_lines p) code.
Proof. intros Hwf. exact (post_refer_net p by_ s r s' code (lw_refer _ Hwf)). Qed.

Lemma spec_net_app l1 l2 code : spec_net (l1 ++ l2) code = spec_net l1 code + spec_net l2 code.
Proof. apply sum_where_app. Qed.

Lemma spec_net_nil code : spec_net [] code = 0.
Proof. done. Qed.

Lemma spec_net_pair c1 c2 a code :
  spec_net (pair_lines c1 c2 a) code =
  (if bool_decide (c1 = code) then a else 0) - (if bool_decide (c2 = code) then a else 0).
Proof.
  unfold spec_net, pair_lines. rewrite !sum_where_cons, sum_where_nil. simpl.
  repeat case_bool_decide; lia.
Qed.

(** The amount [a] when the line is there and on account [code]. *)
Definition on_account (b : bool) (c code : string) (a : ledger) : ledger :=
  if b && bool_decide (c = code) then a else 0.

Lemma spec_net_opt_debit b c a code :
  spec_net (opt_line b (_debit c a)) code = on_account b c code a.
Proof.
  unfold spec_net, opt_line, on_account. destruct b; [|done].
  rewrite sum_where_cons, sum_where_nil. simpl. case_bool_decide; lia.
Qed.

Lemma spec_net_opt_credit b c a code :
  spec_net (opt_line b (_credit c a)) code = - on_account b c code a.
Proof.
  unfold spec_net, opt_line, on_account. destruct b; [|done].
  rewrite sum_where_cons, sum_where_nil. simpl. case_bool_decide; lia.
Qed.

Lemma spec_net_one c a code :
  spec_net [_debit c a] code = on_account true c code a /\
  spec_net [_credit c a] code = - on_account true c code a.
Proof. split; [apply (spec_net_opt_debit true)|apply (spec_net_opt_credit true)]. Qed.

Lemma spec_net_if_pair (b : bool) c1 c2 a code :
  spec_net (if b then [_debit c1 a; _credit c2 a] else []) code
  = on_account b c1 code a - on_account b c2 code a.
Proof.
  unfold on_account. destruct b; [|done]. apply (spec_net_pair c1 c2).
Qed.

(** Decide which lines a concrete account receives. *)
Lemma on_account_same b c a : on_account b c c a = if b then a else 0.
Proof. unfold on_account. rewrite bool_decide_eq_true_2 by done. by rewrite andb_true_r. Qed.

Lemma on_account_other b c code a : c <> code -> on_account b c code a = 0.
Proof. intros H. unfold on_account. rewrite bool_decide_eq_false_2 by done. by rewrite andb_false_r. Qed.

Lemma if_positive a : 0 <= a -> (if 0 <? a then a else 0) = a.
Proof. intros Ha. destruct (Z.ltb_spec 0 a); lia. Qed.

Lemma if_positive_money a : 0 <= a -> (if 0 <? a then ledger_of_money a else 0) = ledger_of_money a.
Proof. intros Ha. unfold ledger_of_money. destruct (Z.ltb_spec 0 a); lia. Qed.

#[export] Hint Rewrite spec_net_nil spec_net_app spec_net_opt_debit spec_net_opt_credit spec_net_pair
  spec_net_if_pair : spec_net.

Ltac account_nets :=
  rewrite ?on_account_same; rewrite ?on_account_other by done;
  rewrite ?if_positive_money by lia; rewrite ?if_positive by lia;
  unfold ledger_of_money; lia.

(** *** Compensating events *)

(** The pairs in which the second event undoes the first. *)
Inductive compensates : posting -> posting -> Prop :=
  | comp_invoice i s d a : compensates (P_invoice i s d a) (P_invoice_void i s a)
  | comp_payment i s d m a : 0 < a ->
      compensates (P_supplier_payment i s d m a) (P_supplier_payment_reversal i s m a)
  | comp_credit_note i s d g a : 0 < a ->
      compensates (P_credit_note i s d g a) (P_credit_note_reversal i s g a)
  | comp_write_off i s d a : compensates (P_write_off i s d a) (P_write_off_reversal i s a)
  | comp_payroll i s d rs : compensates (P_payroll i s d rs) (P_payroll_reversal i s rs).

Lemma compensates_lines p q code :
  compensates p q -> spec_net (posting_lines p) code + spec_net (posting_lines q) code = 0.
Proof.
  intros H; destruct H as [i s d a|i s d m a Ha|i s d g a Ha|i s d a|i s d rs]; simpl;
    unfold unless_zero; try (destruct (Z.leb_spec a 0); [lia|]);
    rewrite ?spec_net_pair; try lia;
    unfold _purchase_invoice_journal_lines, payroll_lines_of, _payroll_journal_lines.
  - destruct (0 <? price_variance_amount a); autorewrite with spec_net; [|lia].
    rewrite (proj1 (spec_net_one _ _ _)), (proj2 (spec_net_one _ _ _)). lia.
  - autorewrite with spec_net. lia.
Qed.

(** Voiding an invoice and reversing a supplier payment, a credit note, a
    write-off or a payroll posting puts on every account exactly the opposite
    of what the original posting put there. *)
Theorem compensating_posting_cancels p q by1 by2 s r s' t r' t' code :
  compensates p q -> ledger_wf (working s) -> ledger_wf (working t) ->
  post p by1 s = (Ok r, s') -> post q by2 t = (Ok r', t') ->
  posted_net (working s') r code + posted_net (working t') r' code = 0.
Proof.
  intros Hc Hs Ht Hp Hq.
  rewrite (post_net _ _ _ _ _ _ Hs Hp), (post_net _ _ _ _ _ _ Ht Hq).
  by apply compensates_lines.
Qed.

Definition demo_invoice : InvoiceAmounts :=
  {| clearing_amount := 12000000; price_variance_amount := -500000;
     invoice_tax_total := 100; invoice_discount_total := 50; invoice_grand_total := 1200 |}.

Lemma compensating_posting_cancels_witness :
  let s := after (post (P_invoice 7 1 20000 demo_invoice) (Some 2)) demo in
  let t := after (post (P_invoice_void 7 1 demo_invoice) (Some 2)) s in
  posted_net (working s) (Some 1) ACCOUNT_ACCOUNTS_PAYABLE = -12000000 /\
  posted_net (working s) (Some 1) ACCOUNT_ACCOUNTS_PAYABLE
  + posted_net (working t) (Some 2) ACCOUNT_ACCOUNTS_PAYABLE = 0.
Proof.
  intros s t. split; [by vm_compute|].
  assert (Hp : post (P_invoice 7 1 20000 demo_invoice) (Some 2) demo = (Ok (Some 1), s))
    by (by vm_compute).
  assert (Hq : post (P_invoice_void 7 1 demo_invoice) (Some 2) s = (Ok (Some 2), t))
    by (by vm_compute).
  destruct (empty_ledger_wf (working demo) eq_refl eq_refl) as [Hw Hr].
  assert (Hi : posting_identity (P_invoice 7 1 20000 demo_invoice))
    by (vm_compute; intuition congruence).
  exact (compensating_posting_cancels _ _ _ _ _ _ _ _ _ _ ACCOUNT_ACCOUNTS_PAYABLE
           (comp_invoice 7 1 20000 demo_invoice) Hw (proj1 (post_wf _ _ _ _ _ Hi Hw Hr Hp)) Hp Hq).
Defined.

(** *** Sales and returns *)

Lemma payment_lines_net (ps : list (PaymentMethod * money)) code :
  spec_net (map (fun p => _debit (PAYMENT_METHOD_ACCOUNT_CODE p.1) (ledger_of_money p.2)) ps) code
  = ledger_of_money
      (sum_where (fun p => bool_decide (PAYMENT_METHOD_ACCOUNT_CODE p.1 = code)) snd ps).
Proof.
  unfold spec_net, ledger_of_money. induction ps as [|[m a] ps IH]; [done|].
  simpl. rewrite !sum_where_cons, IH. simpl. case_bool_decide; lia.
Qed.

Lemma cash_lines_net (ps : list (PaymentMethod * money)) :
  spec_net (map (fun p => _debit (PAYMENT_METHOD_ACCOUNT_CODE p.1) (ledger_of_money p.2)) ps)
    ACCOUNT_CASH_ON_HAND
  = ledger_of_money (sum_where (fun p => bool_decide (p.1 = CASH)) snd ps).
Proof.
  rewrite payment_lines_net. f_equal. apply sum_by_ext. intros [[] a] _; done.
Qed.

(** No payment method pays into one of these. *)
Definition not_tender (code : string) : Prop :=
  forall m, PAYMENT_METHOD_ACCOUNT_CODE m <> code.

Lemma payment_lines_net_0 ps code :
  not_tender code ->
  spec_net (map (fun p => _debit (PAYMENT_METHOD_ACCOUNT_CODE p.1) (ledger_of_money p.2)) ps) code = 0.
Proof.
  intros Hn. rewrite payment_lines_net, sum_where_none; [done|].
  intros [m a] _. by apply bool_decide_eq_false_2.
Qed.

Ltac not_tender := let m := fresh in intros m; by destruct m.

(** A posted sale credits revenue with the gross subtotal and tax payable
    with the tax, debits the discounts, and moves exactly the cost of the goods
    sold from inventory to cost of goods sold. *)
Theorem post_sale_journal_accounts i sale ls ps by_ s r s' :
  ledger_wf (working s) -> sale_identity sale ps -> 0 <= cogs_of ls ->
  post_sale_journal i sale ls ps by_ s = (Ok r, s') ->
  let net := posted_net (working s') r in
  net ACCOUNT_SALES_REVENUE = - ledger_of_money (subtotal sale) /\
  net ACCOUNT_TAX_PAYABLE = - ledger_of_money (tax_total sale) /\
  net ACCOUNT_SALES_DISCOUNTS = ledger_of_money (discount_total sale) /\
  net ACCOUNT_COGS = cogs_of ls /\
  net ACCOUNT_INVENTORY = - cogs_of ls /\
  net ACCOUNT_CASH_ON_HAND
  = ledger_of_money (sum_where (fun p => bool_decide (p.1 = CASH)) snd ps
                     - default 0 (change_due sale)).
Proof.
  intros Hwf (H1 & H2 & H3 & H4 & _) Hc H net. unfold net.
  rewrite !(fun code => post_net (P_sale i sale ls ps) by_ s r s' code Hwf H). simpl.
  unfold sale_journal_lines. rewrite !spec_net_app.
  rewrite !payment_lines_net_0 by not_tender. rewrite cash_lines_net.
  destruct (change_due sale) as [c|]; simpl in *; autorewrite with spec_net;
    split_and!; account_nets.
Qed.

Lemma post_sale_journal_accounts_witness :
  let s := after (post demo_sale_posting (Some 1)) demo in
  posted_net (working s) (Some 1) ACCOUNT_INVENTORY = - cogs_of [(2000, 1200000)] /\
  cogs_of [(2000, 1200000)] = 2400000.
Proof.
  intros s. split; [|by vm_compute].
  assert (Hs : post_sale_journal 1 demo_sale [(2000, 1200000)] [(CASH, 1000)] (Some 1) demo
               = (Ok (Some 1), s)) by (by vm_compute).
  destruct (empty_ledger_wf (working demo) eq_refl eq_refl) as [Hw _].
  assert (Hi : sale_identity demo_sale [(CASH, 1000)]) by (vm_compute; intuition congruence).
  assert (Hc : 0 <= cogs_of [(2000, 1200000)]) by (vm_compute; congruence).
  exact (proj1 (proj2 (proj2 (proj2 (proj2
    (post_sale_journal_accounts _ _ _ _ _ _ _ _ Hw Hi Hc Hs)))))).
Defined.

(** A posted return takes back exactly what it refunds: revenue, tax and
    discounts by the refunded amounts, the refund method's account by the money
    paid out, and the cost of the restocked goods back into inventory. *)
Theorem post_sale_return_journal_accounts i store date m ls by_ s r s' :
  ledger_wf (working s) -> return_identity ls -> 0 <= return_cogs ls ->
  post_sale_return_journal i store date m ls by_ s = (Ok r, s') ->
  let net := posted_net (working s') r in
  net ACCOUNT_SALES_REVENUE = ledger_of_money (sum_by refund_price ls) /\
  net ACCOUNT_TAX_PAYABLE = ledger_of_money (sum_by tax_refunded ls) /\
  net ACCOUNT_SALES_DISCOUNTS = - ledger_of_money (sum_by discount_refunded ls) /\
  net (PAYMENT_METHOD_ACCOUNT_CODE m)
  = - ledger_of_money (sum_by refund_price ls - sum_by discount_refunded ls
                       + sum_by tax_refunded ls) /\
  net ACCOUNT_INVENTORY = return_cogs ls /\
  net ACCOUNT_COGS = - return_cogs ls.
Proof.
  intros Hwf (Hn & Heq) Hc H net. unfold net.
  rewrite !(fun code => post_net (P_sale_return i store date m ls) by_ s r s' code Hwf H). simpl.
  assert (0 <= sum_by refund_price ls) by (apply sum_by_nonneg; intros; by apply Hn).
  assert (0 <= sum_by discount_refunded ls) by (apply sum_by_nonneg; intros; by apply Hn).
  assert (0 <= sum_by tax_refunded ls) by (apply sum_by_nonneg; intros; by apply Hn).
  unfold sale_return_journal_lines. autorewrite with spec_net.
  destruct m; simpl; split_and!; account_nets.
Qed.

Definition demo_return_lines : list SaleReturnLineEffect :=
  [{| refund_price := 250; discount_refunded := 25; tax_refunded := 34; restock := true;
      effect_quantity := 1000; unit_cost_refunded := 1200000 |}].

Lemma post_sale_return_journal_accounts_witness :
  let s := after (post (P_sale_return 1 1 20000 CASH demo_return_lines) (Some 1)) demo in
  posted_net (working s) (Some 1) (PAYMENT_METHOD_ACCOUNT_CODE CASH) = - ledger_of_money 259.
Proof.
  intros s.
  assert (Hs : post_sale_return_journal 1 1 20000 CASH demo_return_lines (Some 1) demo
               = (Ok (Some 1), s)) by (by vm_compute).
  destruct (empty_ledger_wf (working demo) eq_refl eq_refl) as [Hw _].
  assert (Hi : return_identity demo_return_lines).
  { split; [|vm_compute; congruence]. intros l ->%list_elem_of_singleton. vm_compute.
    intuition congruence. }
  assert (Hc : 0 <= return_cogs demo_return_lines) by (vm_compute; congruence).
  exact (proj1 (proj2 (proj2 (proj2
    (post_sale_return_journal_accounts _ _ _ _ _ _ _ _ _ Hw Hi Hc Hs))))).
Defined.
