(* ===== verification/Books.v ===== *)
(** * The books between two commits

    The posting of a supplier invoice is not balanced by construction: its
    amounts are rounded separately, and the deferred trigger decides when the
    transaction commits.  What every posting keeps is [draft_books]; with the
    trigger's check it is [books_wf].  [ledger_reachable] says it of every
    sequence of transactions on the ledger, with no assumption on their amounts.
    The balance of an account is defined here too. *)

From S2P Require Import Prelude Fixed Session Schema Tables Platform Chart Fixture Journal Posting.

(** Everything the invariant of the ledger says except that entries balance:
    the lines belong to entries and accounts, and no entry is empty. *)
Record draft_books (d : database) : Prop := {
  db_refer : lines_refer d;
  db_account : forall l, l ∈ journal_lines d -> is_Some (row_of (accounts d) (line_account_id l));
  db_one_sided : forall l, l ∈ journal_lines d -> one_sided l;
  db_lines : forall id, is_Some (row_of (journal_entries d) id) ->
    exists l, l ∈ journal_lines d /\ line_entry_id l = id;
  db_reversals : reversals_wf d;
}.

Lemma one_sided_debits lines id :
  (forall l, l ∈ lines -> one_sided l) -> 0 <= entry_debits lines id.
Proof.
  intros H. apply sum_by_nonneg. intros l Hl. destruct (_ =? _); [|done].
  destruct (H l Hl); lia.
Qed.

Lemma books_wf_draft d : books_wf d <-> draft_books d /\ deferred_ok d = true.
Proof.
  split.
  - intros [Hl Hr]. split; [|by apply ledger_wf_deferred_ok].
    constructor; [exact (lw_refer _ Hl)|exact (lw_account _ Hl)|exact (lw_one_sided _ Hl)| |done]. intros id [e He].
    destruct (lw_balanced _ Hl id e He) as [_ Hp].
    destruct (existsb (fun l => line_entry_id l =? id) (journal_lines d)) eqn:Ex.
    + apply existsb_exists in Ex as (l & Hl'%list_elem_of_In & E%Z.eqb_eq). eauto.
    + unfold entry_debits in Hp. rewrite entry_sum_fresh in Hp; [lia|]. intros l Hl' E.
      apply not_true_iff_false in Ex. apply Ex, existsb_exists. exists l.
      by rewrite <- list_elem_of_In, E, Z.eqb_refl.
  - intros [[H1 H2 H3 H4 H5] Hok]. split; [|done]. constructor; [done..|].
    intros id e He. destruct (H4 id (mk_is_Some _ _ He)) as (l & Hl & <-).
    unfold deferred_ok, database_deferred in Hok. rewrite forallb_forall in Hok.
    specialize (Hok l (proj1 (list_elem_of_In _ _) Hl)). unfold check_journal_entry_balance in Hok. bools.
    pose proof (one_sided_debits (journal_lines d) (line_entry_id l) H3). lia.
Qed.

Lemma draft_books_ext d d' : ledger_tables d' = ledger_tables d -> draft_books d -> draft_books d'.
Proof.
  intros E [H1 H2 H3 H4 H5].
  constructor; [unfold lines_refer; by rewrite E|by rewrite E..|by apply (reversals_wf_ext d)].
Qed.

(** An entry appended with lines of its own, balanced or not. *)
Lemma draft_append e new d :
  draft_books d -> new <> [] ->
  (forall l, l ∈ new -> line_entry_id l = next_id (journal_entries d) /\
                        is_Some (row_of (accounts d) (line_account_id l)) /\ one_sided l) ->
  reversals_wf (append_entry e new d) -> draft_books (append_entry e new d).
Proof.
  intros [H1 H2 H3 H4 _] Hne Hnew Hrev. constructor; simpl; [..|done].
  - intros l [Hl|Hl]%elem_of_app.
    + destruct (H1 l Hl) as [x Hx]. exists x. by apply row_of_app_old.
    + destruct (Hnew l Hl) as (-> & _). exists e. apply row_of_new.
  - intros l [Hl|Hl]%elem_of_app; [by apply H2|by apply Hnew].
  - intros l [Hl|Hl]%elem_of_app; [by apply H3|by apply Hnew].
  - intros id [x [Hx|[-> ->]]%row_of_inv_app].
    + destruct (H4 id (mk_is_Some _ _ Hx)) as (l & Hl & <-). exists l. set_solver.
    + destruct new as [|l new]; [done|]. exists l. split; [set_solver|]. by apply Hnew; left.
Qed.

Lemma post_journal_draft store date src sid by_ lines ety s id s' :
  draft_books (working s) -> _post_journal store date src sid by_ lines ety None s = (Ok id, s') ->
  draft_books (working s').
Proof.
  intros Hd H. apply post_journal_ok in H
    as (e & new & -> & -> & _ & _ & _ & _ & _ & _ & _ & Hrev & Hne & Hm & _).
  assert (Hnew := fun l Hl => line_matches_new _ _ _ _ l Hm Hl).
  apply draft_append; [done| |done|].
  - intros ->. apply Forall2_length in Hm. by destruct lines.
  - apply append_entry_reversals_wf; [apply Hd|apply Hd| |by rewrite Hrev]. intros l Hl. by apply Hnew.
Qed.

(** Any posting, balanced or not. *)
Lemma post_keeps_draft p by_ : keeps draft_books (post p by_).
Proof.
  apply keeps_of_ok; [apply post_fixes_committed|]. intros s r s' _ Hd H.
  apply post_shape in H as [(_ & _ & ->)|(st & dt & id & -> & H)]; [done|]. by eapply post_journal_draft.
Qed.

Lemma keeps_draft_books {A} (m : Tx A) :
  fixes committed m -> fixes (fun s => ledger_tables (working s)) m -> keeps draft_books m.
Proof. apply (keeps_frame _ ledger_tables). intros d d'. apply draft_books_ext. Qed.

Lemma reverse_draft id by_ caller s rid s' :
  draft_books (working s) -> reverse_journal_entry id by_ caller s = (Ok rid, s') ->
  draft_books (working s').
Proof.
  intros Hd H.
  apply reverse_ok in H as (e & He & _ & _ & _ & [[-> _]|(Hno & Hne & -> & r & log & Ht & Hid & Hw)]);
    [done|].
  assert (Hm := fun l => mirror_lines_wf (working s) id (next_id (journal_entries (working s))) l
                  (db_account _ Hd) (db_one_sided _ Hd)).
  rewrite Hw. match goal with |- draft_books (over_audit_logs _ ?d) => apply (draft_books_ext d); [done|] end.
  apply draft_append; [done| |exact Hm|].
  - by intros E%map_eq_nil.
  - apply append_entry_reversals_wf; [apply Hd|apply Hd|intros l Hl; by apply Hm|].
    rewrite Hid. by apply (mirror_undoes _ _ e).
Qed.

(** ** Every committed ledger *)

(** What a transaction may do to the ledger: post an event or a manual entry,
    of whatever amounts, reverse an entry, close a period. *)
Inductive ledger_op :=
  | L_post (p : posting) (by_ : option Z)
  | L_manual (store date : Z) (lines : list LineSpec) (by_ : option Z)
  | L_reverse (entry : Z) (by_ caller : option Z)
  | L_close (store ps pe : Z) (reason : string) (actor : Z) (caller : option Z).

Definition run_ledger_op (op : ledger_op) : Tx unit :=
  match op with
  | L_post p b => _ ← post p b; mret tt
  | L_manual st dt ls b => _ ← _post_journal st dt ST_MANUAL None b ls STANDARD None; mret tt
  | L_reverse i b c => _ ← reverse_journal_entry i b c; mret tt
  | L_close st ps pe re a c => _ ← close_accounting_period st ps pe re a c; mret tt
  end.

Definition ledger_transaction (ops : list ledger_op) : Tx unit := for_each run_ledger_op ops.

(** The ledger before and after a request, committed or refused. *)
Inductive ledger_step : database -> database -> Prop :=
  | ledger_request ops s : working s = committed s ->
      ledger_step (committed s) (committed (run_request (ledger_transaction ops) s).2).

(** The amounts of an event agree, the sides of a manual entry are equal. *)
Definition agrees (op : ledger_op) : Prop :=
  match op with
  | L_post p _ => posting_identity p
  | L_manual _ _ ls _ => balanced ls
  | _ => True
  end.

Lemma ledger_op_fixes_committed op : fixes committed (run_ledger_op op).
Proof.
  destruct op; simpl; (apply fixes_bind; [|intros; apply fixes_ret]).
  - apply post_fixes_committed.
  - solve_fixes.
  - unfold reverse_journal_entry, _enforce_period_open, _generate_journal_number. solve_fixes.
  - unfold close_accounting_period. solve_fixes.
Qed.

Lemma ledger_op_ok op s u s' : run_ledger_op op s = (Ok u, s') ->
  (draft_books (working s) -> draft_books (working s')) /\
  (agrees op -> books_wf (working s) -> books_wf (working s')).
Proof.
  destruct op; simpl; intros (r & s1 & H & [_ <-]%ret_ok)%bind_ok.
  - split; [|intros Hid [Hl Hr]; by eapply post_wf].
    intros Hd. apply post_shape in H as [(_ & _ & ->)|(st & dt & id & -> & H)]; [done|].
    by eapply post_journal_draft.
  - split; [intros Hd; by eapply post_journal_draft|]. intros Hb [Hl Hr].
    split; [by eapply post_journal_wf|by eapply post_journal_reversals_wf].
  - split; [intros Hd; by eapply reverse_draft|]. intros _ [Hl Hr]. by eapply reverse_wf.
  - apply close_accounting_period_ok in H as (p & _ & _ & _ & _ & _ & _ & log & E).
    rewrite E. split.
    { intros [D1 D2 D3 D4 [D5 D6]].
      match goal with |- draft_books (over_audit_logs _ ?d) => apply (draft_books_ext d); [done|] end.
      by constructor. }
    intros _ [Hl Hr].
    split; apply wf_over_audit_logs; [by destruct Hl|by destruct Hr].
Qed.

Lemma ledger_transaction_keeps ops :
  keeps draft_books (ledger_transaction ops) /\ (Forall agrees ops -> keeps books_wf (ledger_transaction ops)).
Proof.
  assert (K : forall I op, (forall s u s', run_ledger_op op s = (Ok u, s') -> I (working s) -> I (working s')) ->
    keeps I (run_ledger_op op)).
  { intros I op HI. apply keeps_of_ok; [apply ledger_op_fixes_committed|]. intros s u s' _ H1 H2. by eapply HI. }
  split.
  - apply keeps_for_each. intros op. apply K. intros s u s' H. by apply (ledger_op_ok op s u s').
  - induction 1 as [|op ops Hop _ IH]; [apply keeps_ret|]. apply keeps_bind; [|done].
    apply K. intros s u s' H. by apply (ledger_op_ok op s u s').
Qed.

Lemma ledger_transaction_fixes_committed ops : fixes committed (ledger_transaction ops).
Proof. apply fixes_for_each, ledger_op_fixes_committed. Qed.

Lemma ledger_step_books d d' : ledger_step d d' -> books_wf d -> books_wf d'.
Proof.
  intros [ops s E] Hd. destruct (run_request (ledger_transaction ops) s) as [r s'] eqn:Er. simpl.
  pose proof (run_request_cases _ _ _ _ (ledger_transaction_fixes_committed ops) Er) as Hc.
  destruct r as [u|e]; [|by rewrite Hc]. destruct Hc as (s1 & H & Hok & ->).
  apply books_wf_draft. split; [|done]. apply books_wf_draft in Hd as [Hd _].
  by eapply (keeps_ok _ _ _ _ _ (proj1 (ledger_transaction_keeps ops))); [..|exact H]; rewrite ?E.
Qed.

(** C2: Whatever transactions run on an empty ledger - each a sequence of
    postings and manual entries of any amounts, reversals and period closings,
    committed or refused as a whole - every entry that was ever committed
    balances, every line is one-sided on an existing account of an existing
    entry, each entry has at most one reversal and that reversal is its exact
    mirror. What balances an entry is the deferred trigger, at the commit; and
    on such a ledger it refuses nothing else: a transaction passes it whenever
    the amounts of its postings agree and its manual entries are balanced,
    however many entries it reverses. *)
Theorem ledger_reachable d0 d :
  journal_entries d0 = [] -> journal_lines d0 = [] -> rtc ledger_step d0 d ->
  ledger_wf d /\ reversals_wf d /\
  forall ops s s1, committed s = d -> working s = d -> Forall agrees ops ->
    ledger_transaction ops s = (Ok tt, s1) -> deferred_ok (working s1) = true.
Proof.
  intros He Hl Hrtc. destruct (empty_ledger_wf d0 He Hl) as [H1 H2].
  assert (Hd : books_wf d).
  { clear He Hl. assert (H0 : books_wf d0) by done. clear H1 H2.
    induction Hrtc as [d|d d1 d2 Hstep _ IH]; [done|]. by apply IH, (ledger_step_books d). }
  split; [apply Hd|]. split; [apply Hd|]. intros ops s s1 Ec Ew Hops H.
  assert (K : books_wf (working s1)).
  { by eapply (keeps_ok _ _ _ _ _ (proj2 (ledger_transaction_keeps ops) Hops)); [..|exact H];
      rewrite ?Ec, ?Ew. }
  apply books_wf_draft in K. apply K.
Qed.

(** A sale, and a manual entry with unequal sides that takes its transaction
    down with it. *)
Definition unbalanced_entry : ledger_op :=
  L_manual 1 20000 [_debit ACCOUNT_CASH_ON_HAND 12000000; _credit ACCOUNT_OTHER_PAYMENT_CLEARING 11000000]
    (Some 2).

Lemma ledger_reachable_witness :
  let r1 := run_request (ledger_transaction [L_post demo_sale_posting (Some 1)]) demo in
  let r3 := run_request (ledger_transaction [unbalanced_entry]) r1.2 in
  length (journal_lines (committed r1.2)) = 7%nat /\
  r3.1 = Raise (IntegrityError "deferred_trigger") /\
  ledger_wf (committed r3.2) /\
  deferred_ok (working (after (ledger_transaction [L_post demo_sale_posting (Some 1)]) demo)) = true.
Proof.
  intros r1 r3. split; [vm_compute; reflexivity|]. split; [vm_compute; reflexivity|].
  assert (S1 : ledger_step (working demo) (committed r1.2))
    by exact (ledger_request [L_post demo_sale_posting (Some 1)] demo eq_refl).
  assert (S3 : ledger_step (committed r1.2) (committed r3.2))
    by exact (ledger_request [unbalanced_entry] r1.2 eq_refl).
  split.
  - exact (proj1 (ledger_reachable (working demo) (committed r3.2) eq_refl eq_refl
      (rtc_l _ _ _ _ S1 (rtc_once _ _ S3)))).
  - refine (proj2 (proj2 (ledger_reachable (working demo) (working demo) eq_refl eq_refl (rtc_refl _ _)))
      [L_post demo_sale_posting (Some 1)] demo _ eq_refl eq_refl _ _).
    + apply Forall_singleton. vm_compute. intuition congruence.
    + refine (after_ok (ledger_transaction [L_post demo_sale_posting (Some 1)]) demo tt _). vm_compute. reflexivity.
Defined.

(** ** The balance of an account *)

(** The net debit of an account. *)
Definition account_balance (d : database) (code : string) : ledger :=
  sum_where (fun l => bool_decide (line_code d l = Some code)) (fun l => debit l - credit l)
    (journal_lines d).

Lemma line_matches_balance d eid specs new code :
  Forall2 (line_matches d eid) specs new ->
  sum_where (fun l => bool_decide (line_code d l = Some code)) (fun l => debit l - credit l) new
  = spec_net specs code.
Proof.
  induction 1 as [|sp l specs new (_ & Hd & Hc & _ & a & Ha & Hcode) _ IH]; [done|].
  unfold spec_net in *. rewrite !sum_where_cons, IH, Hd, Hc.
  unfold line_code. rewrite Ha. simpl. rewrite Hcode.
  by rewrite (bool_decide_ext (Some (spec_code sp) = Some code) (spec_code sp = code))
    by (split; congruence).
Qed.

Lemma post_account_balance q by_ s r s' code :
  post q by_ s = (Ok r, s') ->
  account_balance (working s') code
  = account_balance (working s) code + spec_net (posting_lines q) code.
Proof.
  intros H. apply post_shape in H as [(-> & _ & ->)|(st & dt & id & _ & H)]; [rewrite spec_net_nil; lia|].
  apply post_journal_ok in H as (e & new & _ & -> & _ & _ & _ & _ & _ & _ & _ & _ & _ & Hm & _).
  unfold account_balance. simpl. rewrite sum_where_app. f_equal.
  by rewrite (line_matches_balance _ _ _ _ _ Hm).
Qed.

Lemma account_balance_ext d d' code :
  accounts d' = accounts d -> journal_lines d' = journal_lines d ->
  account_balance d' code = account_balance d code.
Proof. intros Ea El. unfold account_balance, line_code. by rewrite Ea, El. Qed.

(** Lines on other accounts. *)
Lemma spec_net_other specs code :
  Forall (fun sp => spec_code sp <> code) specs -> spec_net specs code = 0.
Proof.
  intros H. apply sum_where_none. intros sp Hsp. apply bool_decide_eq_false.
  by eapply Forall_forall in H.
Qed.
