(* ===== verification/Reports.v ===== *)
(** * Financial statements

    app/modules/accounting/service.py, [trial_balance], [profit_and_loss] and
    [inventory_reconciliation]: the outer joins, the filters and the derived
    figures, with the theorems that under any store and date filter the trial
    balance balances and the profit and loss closes the accounting equation. *)

From S2P Require Import Prelude Fixed Session Schema Tables Platform Chart Fixture Journal.
From S2P Require Import Posting.

(** ** Trial balance *)

Record EntryFilter := {
  flt_store_id : option Z;
  flt_store_ids : option (list Z);
  date_from : option Z;
  date_to : option Z;
}.

Definition everything : EntryFilter :=
  {| flt_store_id := None; flt_store_ids := None; date_from := None; date_to := None |}.

Record TrialBalanceRow := {
  tb_code : string;
  tb_type : AccountType;
  tb_normal : NormalBalance;
  total_debit : ledger;
  total_credit : ledger;
}.

(** [_apply_entry_filters] on a joined entry. *)
Definition _apply_entry_filters (f : EntryFilter) (e : JournalEntry) : bool :=
  match flt_store_ids f with
  | Some ids => existsb (Z.eqb (entry_store_id e)) ids
  | None => opt_all (fun s => entry_store_id e =? s) (flt_store_id f)
  end
  && opt_all (fun t => t <=? posting_date e) (date_from f)
  && opt_all (fun t => posting_date e <=? t) (date_to f).

(** The outer join's rows survive the filter when no entry is joined. *)
Definition line_kept (f : EntryFilter) (d : database) (l : JournalLine) : bool :=
  match row_of (journal_entries d) (line_entry_id l) with
  | Some e => _apply_entry_filters f e
  | None => true
  end.

(** One group of the query: an account without lines contributes one null row,
    an account whose lines are all filtered out contributes none. *)
Definition trial_balance_row (f : EntryFilter) (d : database) (ia : Z * Account)
    : option TrialBalanceRow :=
  let joined := List.filter (fun l => line_account_id l =? ia.1) (journal_lines d) in
  let kept := List.filter (line_kept f d) joined in
  if bool_decide (length joined = 0%nat) || negb (bool_decide (length kept = 0%nat))
  then Some {| tb_code := account_code ia.2; tb_type := account_type ia.2;
               tb_normal := normal_balance ia.2;
               total_debit := sum_by debit kept; total_credit := sum_by credit kept |}
  else None.

Definition code_le (a b : TrialBalanceRow) : Prop := Is_true (String.leb (tb_code a) (tb_code b)).

#[export] Instance code_le_dec : RelDecision code_le.
Proof. intros a b. unfold code_le. apply _. Defined.

Definition trial_balance (f : EntryFilter) : Tx (list TrialBalanceRow) :=
  _ ← raise_if (opt_some (flt_store_id f) && opt_some (flt_store_ids f))
        (ValidationAppError "INVALID_STORE_FILTER");
  gets (fun d => merge_sort code_le (omap (trial_balance_row f d) (with_ids (accounts d)))).

(** ** Profit and loss *)

Record ProfitAndLoss := {
  net_sales : ledger;
  pl_cogs : ledger;
  gross_profit : ledger;
  other_income : ledger;
  operating_expenses : ledger;
  net_income : ledger;
}.

Definition net_credit (rows : list TrialBalanceRow) (code : string) : ledger :=
  match List.find (fun r => bool_decide (tb_code r = code)) rows with
  | Some r => total_credit r - total_debit r
  | None => 0
  end.

Definition net_debit (rows : list TrialBalanceRow) (code : string) : ledger :=
  - net_credit rows code.

Definition is_operating_expense (r : TrialBalanceRow) : bool :=
  bool_decide (tb_type r = EXPENSE) && negb (bool_decide (tb_code r = ACCOUNT_COGS)).

Definition profit_and_loss_of (rows : list TrialBalanceRow) : ProfitAndLoss :=
  let sales_ := net_credit rows ACCOUNT_SALES_REVENUE - net_debit rows ACCOUNT_SALES_DISCOUNTS in
  let cogs_ := net_debit rows ACCOUNT_COGS in
  let gross := sales_ - cogs_ in
  let other := net_credit rows ACCOUNT_INVENTORY_ADJUSTMENT_GAIN in
  let operating := sum_where is_operating_expense (fun r => net_debit rows (tb_code r)) rows in
  {| net_sales := sales_; pl_cogs := cogs_; gross_profit := gross; other_income := other;
     operating_expenses := operating; net_income := gross + other - operating |}.

Definition profit_and_loss (f : EntryFilter) : Tx ProfitAndLoss :=
  rows ← trial_balance f;
  mret (profit_and_loss_of rows).

(** ** Inventory reconciliation *)

Record InventoryReconciliationRow := {
  ir_store_id : Z;
  gl_inventory_balance : ledger;
  operational_valuation : ledger;
  discrepancy : ledger;
}.

(** The lines of the inventory account joined to an entry of store [sid]. *)
Definition gl_line (d : database) (account : Z) (as_of : option Z) (sid : Z) (l : JournalLine)
    : bool :=
  (line_account_id l =? account)
  && match row_of (journal_entries d) (line_entry_id l) with
     | Some e => (entry_store_id e =? sid) && opt_all (fun t => posting_date e <=? t) as_of
     | None => false
     end.

Definition gl_by_store (d : database) (account : Z) (as_of : option Z) (sid : Z) : ledger :=
  sum_where (gl_line d account as_of sid) (fun l => debit l - credit l) (journal_lines d).

Definition valuation_by_store (d : database) (sid : Z) : ledger :=
  div_half_up (sum_where (fun p => product_store_id p =? sid)
                 (fun p => current_qty_on_hand p * current_cost p) (products d)) 1000.

Definition reconciliation_stores (d : database) (account : Z) (as_of : option Z)
    (only : option Z) : list Z :=
  sorted_set (List.filter (fun sid => opt_all (Z.eqb sid) only)
    (map product_store_id (products d) ++
     List.filter (fun sid => existsb (gl_line d account as_of sid) (journal_lines d))
       (map entry_store_id (journal_entries d)))).

Definition inventory_reconciliation (store : option Z) (as_of : option Z)
    : Tx (list InventoryReconciliationRow) :=
  found ← _resolve_accounts [ACCOUNT_INVENTORY];
  account ← of_option (found ACCOUNT_INVENTORY) KeyError;
  gets (fun d => map (fun sid =>
      let gl := gl_by_store d account as_of sid in
      let val := valuation_by_store d sid in
      {| ir_store_id := sid; gl_inventory_balance := gl; operational_valuation := val;
         discrepancy := gl - val |})
    (reconciliation_stores d account as_of store)).

(** ** The trial balance balances *)

Lemma trial_balance_ok f s rows s' :
  trial_balance f s = (Ok rows, s') ->
  s' = s /\ rows ≡ₚ omap (trial_balance_row f (working s)) (with_ids (accounts (working s))).
Proof.
  unfold trial_balance. intros H. apply bind_ok in H as (? & s1 & H1 & H).
  apply raise_if_ok in H1 as [_ <-]. apply gets_ok in H as [-> <-].
  split; [done|]. apply merge_sort_Permutation.
Qed.

(** A column of the statement adds up to the kept lines' column. *)
Lemma trial_balance_column (col : TrialBalanceRow -> Z) (side : JournalLine -> Z) f d :
  (forall ia r, trial_balance_row f d ia = Some r ->
     col r = sum_where (fun l => line_account_id l =? ia.1)
               (fun l => if line_kept f d l then side l else 0) (journal_lines d)) ->
  (forall l, l ∈ journal_lines d -> is_Some (row_of (accounts d) (line_account_id l))) ->
  sum_by col (omap (trial_balance_row f d) (with_ids (accounts d)))
  = sum_where (line_kept f d) side (journal_lines d).
Proof.
  intros Hcol Hacc. rewrite sum_by_omap.
  rewrite (sum_by_ext _ (fun ia : Z * Account =>
    sum_where (fun l => bool_decide (line_account_id l = ia.1))
      (fun l => if line_kept f d l then side l else 0) (journal_lines d))).
  - etransitivity; [symmetry; exact (sum_by_map fst (fun k =>
      sum_where (fun l => bool_decide (line_account_id l = k))
        (fun l => if line_kept f d l then side l else 0) (journal_lines d)) _)|].
    apply sum_group; [apply NoDup_ids|].
    intros l Hl. destruct (Hacc l Hl) as [a Ha].
    apply list_elem_of_fmap. exists (line_account_id l, a). by rewrite elem_with_ids.
  - intros ia Hia.
    assert (Hsame : forall g, sum_where (fun l => bool_decide (line_account_id l = ia.1)) g (journal_lines d)
      = sum_where (fun l => line_account_id l =? ia.1) g (journal_lines d)).
    { intros g. apply sum_by_ext. intros l _. by rewrite bool_decide_Zeqb. }
    rewrite Hsame. destruct (trial_balance_row f d ia) as [r|] eqn:E; [by apply Hcol|].
    unfold trial_balance_row in E.
    destruct (bool_decide (length (List.filter (line_kept f d) _) = 0%nat)) eqn:Ek;
      [|by rewrite orb_true_r in E].
    bools. apply length_zero_iff_nil in Ek.
    rewrite <- sum_by_filter.
    change (0 = sum_where (line_kept f d) side
                  (List.filter (fun l => line_account_id l =? ia.1) (journal_lines d))).
    by rewrite <- sum_by_filter, Ek.
Qed.

Lemma trial_balance_row_columns f d ia r :
  trial_balance_row f d ia = Some r ->
  total_debit r = sum_where (fun l => line_account_id l =? ia.1)
    (fun l => if line_kept f d l then debit l else 0) (journal_lines d) /\
  total_credit r = sum_where (fun l => line_account_id l =? ia.1)
    (fun l => if line_kept f d l then credit l else 0) (journal_lines d) /\
  tb_code r = account_code ia.2 /\ tb_type r = account_type ia.2.
Proof.
  unfold trial_balance_row. destruct (_ || _)%bool; [|done]. intros [= <-]. simpl.
  rewrite !(sum_by_filter (line_kept f d)).
  split_and!; [exact (sum_by_filter _ _ _)|exact (sum_by_filter _ _ _)|done|done].
Qed.

(** Entry by entry, what a filter keeps balances. *)
Lemma kept_lines_balanced f d :
  ledger_wf d ->
  sum_where (line_kept f d) debit (journal_lines d)
  = sum_where (line_kept f d) credit (journal_lines d).
Proof.
  intros Hwf.
  assert (Hg : forall side : JournalLine -> Z, sum_where (line_kept f d) side (journal_lines d) =
    sum_by (fun k => sum_where (fun l => bool_decide (line_entry_id l = k))
      (fun l => if line_kept f d l then side l else 0) (journal_lines d))
      (map fst (with_ids (journal_entries d)))).
  { intros side. symmetry. apply sum_group; [apply NoDup_ids|].
    intros l Hl. destruct (lw_refer d Hwf l Hl) as [e He].
    apply list_elem_of_fmap. exists (line_entry_id l, e). by rewrite elem_with_ids. }
  rewrite !Hg. apply sum_by_ext. intros k ([k' e] & -> & Hk)%list_elem_of_fmap.
  apply elem_with_ids in Hk. simpl.
  assert (Hs : forall side : JournalLine -> Z,
    sum_where (fun l => bool_decide (line_entry_id l = k'))
      (fun l => if line_kept f d l then side l else 0) (journal_lines d)
    = if _apply_entry_filters f e
      then sum_where (fun l => line_entry_id l =? k') side (journal_lines d) else 0).
  { intros side. transitivity (sum_by (fun l => if _apply_entry_filters f e then
        if line_entry_id l =? k' then side l else 0 else 0) (journal_lines d)).
    - apply sum_by_ext. intros l _.
      rewrite bool_decide_Zeqb. destruct (Z.eqb_spec (line_entry_id l) k') as [E|E].
      + unfold line_kept. by rewrite E, Hk.
      + by destruct (_apply_entry_filters f e).
    - destruct (_apply_entry_filters f e); [done|apply sum_by_const0]. }
  rewrite !Hs. destruct (_apply_entry_filters f e); [|done].
  by destruct (lw_balanced d Hwf k' e Hk).
Qed.

Lemma trial_balance_totals f s rows s' :
  ledger_wf (working s) -> trial_balance f s = (Ok rows, s') ->
  sum_by total_debit rows = sum_by total_credit rows.
Proof.
  intros Hwf [-> Hp]%trial_balance_ok. rewrite !(sum_by_perm _ _ _ Hp).
  rewrite (trial_balance_column total_debit debit);
    [|intros ia r Hr; apply (trial_balance_row_columns _ _ _ _ Hr)|apply (lw_account _ Hwf)].
  rewrite (trial_balance_column total_credit credit);
    [|intros ia r Hr; apply (trial_balance_row_columns _ _ _ _ Hr)|apply (lw_account _ Hwf)].
  by apply kept_lines_balanced.
Qed.

(** Under any store and date filter, and whatever accounts the filter drops
    from the statement, the debit and the credit column of the trial balance
    have the same total. *)
Theorem trial_balance_balanced f s rows s' :
  ledger_wf (working s) -> trial_balance f s = (Ok rows, s') ->
  s' = s /\ sum_by total_debit rows = sum_by total_credit rows.
Proof.
  intros Hwf H. split; [by apply trial_balance_ok in H as [-> _]|by eapply trial_balance_totals].
Qed.

Lemma demo_sale_ledger_wf : ledger_wf (working (after (post demo_sale_posting (Some 1)) demo)).
Proof.
  destruct (empty_ledger_wf (working demo) eq_refl eq_refl) as [Hw Hr].
  refine (proj1 (post_wf demo_sale_posting (Some 1) demo (Some 1) _ _ Hw Hr _)).
  - vm_compute. intuition congruence.
  - by vm_compute.
Qed.

Definition ok_value {A} (dflt : A) (r : outcome A) : A := match r with Ok a => a | Raise _ => dflt end.

Lemma trial_balance_balanced_witness :
  let s := after (post demo_sale_posting (Some 1)) demo in
  let rows := ok_value [] (trial_balance everything s).1 in
  length rows = 26%nat /\ sum_by total_debit rows = sum_by total_credit rows.
Proof.
  intros s rows. split; [by vm_compute|].
  assert (H : trial_balance everything s = (Ok rows, s)) by (by vm_compute).
  exact (proj2 (trial_balance_balanced everything s rows s demo_sale_ledger_wf H)).
Defined.

(** ** The profit and loss closes the accounting equation *)

(** What the statement assumes of the chart: codes are unique, the three
    revenue codes of the formula are the revenue accounts, and cost of goods
    sold is an expense. *)
Definition revenue_code (c : string) : bool :=
  bool_decide (c = ACCOUNT_SALES_REVENUE) || bool_decide (c = ACCOUNT_SALES_DISCOUNTS)
  || bool_decide (c = ACCOUNT_INVENTORY_ADJUSTMENT_GAIN).

Record chart_ok (t : list Account) : Prop := {
  ch_unique : NoDup (map account_code t);
  ch_revenue :
    Forall (fun a => account_type a = REVENUE <-> revenue_code (account_code a) = true) t;
  ch_cogs : Forall (fun a => account_code a = ACCOUNT_COGS -> account_type a = EXPENSE) t;
}.

Lemma SYSTEM_ACCOUNTS_chart_ok : chart_ok SYSTEM_ACCOUNTS.
Proof.
  constructor; [apply SYSTEM_ACCOUNTS_codes_distinct|..];
    apply (bool_decide_unpack _); by vm_compute.
Qed.

Lemma net_credit_sum rows code :
  NoDup (map tb_code rows) ->
  net_credit rows code
  = sum_where (fun r => bool_decide (tb_code r = code)) (fun r => total_credit r - total_debit r) rows.
Proof.
  unfold net_credit. induction rows as [|r rows IH]; [done|].
  simpl. intros [Hr Hnd]%NoDup_cons. rewrite sum_where_cons. case_bool_decide as E.
  - rewrite sum_where_none; [lia|]. intros x Hx. apply bool_decide_eq_false_2. intros <-.
    apply Hr. rewrite E. apply list_elem_of_fmap. eauto.
  - rewrite IH by done. done.
Qed.

Definition row_credit (r : TrialBalanceRow) : ledger := total_credit r - total_debit r.

(** Net credit of the rows of one type. *)
Definition type_credit (ty : AccountType) (rows : list TrialBalanceRow) : ledger :=
  sum_where (fun r => bool_decide (tb_type r = ty)) row_credit rows.

(** The rows of a statement describe accounts of the chart. *)
Definition rows_of_chart (t : list Account) (rows : list TrialBalanceRow) : Prop :=
  NoDup (map tb_code rows) /\
  forall r, r ∈ rows -> exists a, a ∈ t /\ account_code a = tb_code r /\ account_type a = tb_type r.

Lemma statement_codes_NoDup f d t :
  NoDup (map account_code t) -> NoDup (map tb_code (omap (trial_balance_row f d) (with_ids t))).
Proof.
  induction t as [|a t IH] using rev_ind; [intros _; apply NoDup_nil_2|].
  rewrite with_ids_app, map_app, omap_app, map_app. intros (Hnd & Hdis & _)%NoDup_app.
  simpl. destruct (trial_balance_row f d _) as [r|] eqn:E; simpl; [|by rewrite app_nil_r; apply IH].
  apply NoDup_app. split_and!; [by apply IH| |apply NoDup_singleton].
  intros c (x & -> & ([j b] & Hb & Hx)%list_elem_of_omap)%list_elem_of_fmap Hc.
  apply list_elem_of_singleton in Hc.
  apply trial_balance_row_columns in E as (_ & _ & E & _).
  apply trial_balance_row_columns in Hx as (_ & _ & Hx & _). simpl in *.
  apply elem_with_ids, row_of_elem in Hb.
  apply (Hdis (tb_code x)).
  - rewrite Hx. apply list_elem_of_fmap. by exists b.
  - rewrite Hc, E. left.
Qed.

Lemma rows_of_chart_ok f d :
  NoDup (map account_code (accounts d)) ->
  rows_of_chart (accounts d) (omap (trial_balance_row f d) (with_ids (accounts d))).
Proof.
  intros Hnd. split; [by apply statement_codes_NoDup|].
  intros r ([j a] & Ha & Hr)%list_elem_of_omap.
  apply trial_balance_row_columns in Hr as (_ & _ & Hc & Ht). simpl in *.
  exists a. split_and!; [|done..]. apply elem_with_ids in Ha. by eapply row_of_elem.
Qed.

Lemma net_credit_row rows r :
  NoDup (map tb_code rows) -> r ∈ rows -> net_credit rows (tb_code r) = row_credit r.
Proof.
  intros Hnd Hr. rewrite net_credit_sum by done.
  induction rows as [|x rows IH]; [by apply elem_of_nil in Hr|].
  simpl in Hnd. apply NoDup_cons in Hnd as [Hx Hnd]. rewrite sum_where_cons.
  apply elem_of_cons in Hr as [->|Hr].
  - rewrite bool_decide_eq_true_2 by done. rewrite sum_where_none; [unfold row_credit; lia|].
    intros y Hy. apply bool_decide_eq_false_2. intros E. apply Hx. rewrite <- E.
    apply list_elem_of_fmap. eauto.
  - rewrite bool_decide_eq_false_2, IH; [done|done|done|].
    intros E. apply Hx. rewrite E. apply list_elem_of_fmap. eauto.
Qed.

(** The net credit of the whole statement, split by account type. *)
Lemma credit_by_type rows :
  sum_by row_credit rows
  = type_credit ASSET rows + type_credit LIABILITY rows + type_credit EQUITY rows
    + type_credit REVENUE rows + type_credit EXPENSE rows.
Proof.
  unfold type_credit, sum_where. rewrite <- !sum_by_add. apply sum_by_ext.
  intros r _. destruct (tb_type r); simpl; lia.
Qed.

(** Each row is counted once by the formula of [net_income]. *)
Lemma income_split r :
  (tb_type r = REVENUE <-> revenue_code (tb_code r) = true) ->
  (tb_code r = ACCOUNT_COGS -> tb_type r = EXPENSE) ->
  (if bool_decide (tb_type r = REVENUE) then row_credit r else 0)
  + (if bool_decide (tb_type r = EXPENSE) then row_credit r else 0)
  = (if bool_decide (tb_code r = ACCOUNT_SALES_REVENUE) then row_credit r else 0)
    + (if bool_decide (tb_code r = ACCOUNT_SALES_DISCOUNTS) then row_credit r else 0)
    + (if bool_decide (tb_code r = ACCOUNT_COGS) then row_credit r else 0)
    + (if bool_decide (tb_code r = ACCOUNT_INVENTORY_ADJUSTMENT_GAIN) then row_credit r else 0)
    + (if is_operating_expense r then row_credit r else 0).
Proof.
  unfold is_operating_expense, revenue_code. intros Hrev Hcogs.
  generalize (row_credit r) as x. intros x.
  assert (Hcase : tb_code r = ACCOUNT_SALES_REVENUE \/ tb_code r = ACCOUNT_SALES_DISCOUNTS \/
    tb_code r = ACCOUNT_INVENTORY_ADJUSTMENT_GAIN \/ tb_code r = ACCOUNT_COGS \/
    (tb_code r <> ACCOUNT_SALES_REVENUE /\ tb_code r <> ACCOUNT_SALES_DISCOUNTS /\
     tb_code r <> ACCOUNT_INVENTORY_ADJUSTMENT_GAIN /\ tb_code r <> ACCOUNT_COGS)).
  { destruct (decide (tb_code r = ACCOUNT_SALES_REVENUE)), (decide (tb_code r = ACCOUNT_SALES_DISCOUNTS)),
      (decide (tb_code r = ACCOUNT_INVENTORY_ADJUSTMENT_GAIN)), (decide (tb_code r = ACCOUNT_COGS)); tauto. }
  destruct Hcase as [E|[E|[E|[E|(E1 & E2 & E3 & E4)]]]].
  1-3: rewrite E in *; rewrite (proj2 Hrev eq_refl); simpl; lia.
  - rewrite (Hcogs E), E. simpl. lia.
  - rewrite (bool_decide_eq_false_2 _ E1), (bool_decide_eq_false_2 _ E2),
      (bool_decide_eq_false_2 _ E3), (bool_decide_eq_false_2 _ E4) in *.
    destruct (tb_type r); simpl; try lia. by discriminate (proj1 Hrev eq_refl).
Qed.

Lemma trial_balance_chart f s rows s' :
  NoDup (map account_code (accounts (working s))) -> trial_balance f s = (Ok rows, s') ->
  rows_of_chart (accounts (working s)) rows.
Proof.
  intros Hnd [_ Hp]%trial_balance_ok. destruct (rows_of_chart_ok f _ Hnd) as [H1 H2].
  split; [by rewrite Hp|]. intros r Hr. apply H2. by rewrite <- Hp.
Qed.

Lemma net_income_by_type t rows :
  chart_ok t -> rows_of_chart t rows ->
  net_income (profit_and_loss_of rows) = type_credit REVENUE rows + type_credit EXPENSE rows.
Proof.
  intros [_ Hrev Hcogs] [Hnd Hin]. simpl. unfold net_debit.
  rewrite Forall_forall in Hrev, Hcogs.
  assert (Hop : sum_where is_operating_expense (fun r => - net_credit rows (tb_code r)) rows
                = - sum_where is_operating_expense row_credit rows).
  { unfold sum_where. replace (- sum_by _ rows) with (-1 * sum_by (fun r =>
      if is_operating_expense r then row_credit r else 0) rows) by lia.
    rewrite <- sum_by_scale. apply sum_by_ext. intros r Hr.
    rewrite net_credit_row by done. destruct (is_operating_expense r); lia. }
  rewrite Hop, !net_credit_sum by done. unfold type_credit, sum_where.
  enough (E : sum_by (fun r => (if bool_decide (tb_type r = REVENUE) then row_credit r else 0)
      + (if bool_decide (tb_type r = EXPENSE) then row_credit r else 0)) rows
    = sum_by (fun r => (if bool_decide (tb_code r = ACCOUNT_SALES_REVENUE) then row_credit r else 0)
      + (if bool_decide (tb_code r = ACCOUNT_SALES_DISCOUNTS) then row_credit r else 0)
      + (if bool_decide (tb_code r = ACCOUNT_COGS) then row_credit r else 0)
      + (if bool_decide (tb_code r = ACCOUNT_INVENTORY_ADJUSTMENT_GAIN) then row_credit r else 0)
      + (if is_operating_expense r then row_credit r else 0)) rows).
  { rewrite !sum_by_add in E. unfold row_credit in *. lia. }
  apply sum_by_ext. intros r Hr. destruct (Hin r Hr) as (a & Ha & Hc & Hty).
  specialize (Hrev a Ha). specialize (Hcogs a Ha). rewrite Hc, Hty in *.
  by apply income_split.
Qed.

(** C29: Net income is the net credit of the revenue and expense accounts, none
    left out or counted twice, and assets equal liabilities plus equity plus
    net income under the same filter. *)
Theorem profit_and_loss_closes_accounting_equation f s pl s' rows :
  ledger_wf (working s) -> chart_ok (accounts (working s)) ->
  trial_balance f s = (Ok rows, s) ->
  profit_and_loss f s = (Ok pl, s') ->
  net_income pl = type_credit REVENUE rows + type_credit EXPENSE rows /\
  - type_credit ASSET rows = type_credit LIABILITY rows + type_credit EQUITY rows + net_income pl.
Proof.
  intros Hwf Hch Htb H. unfold profit_and_loss in H. rewrite (bind_ok_intro _ _ _ _ _ Htb) in H.
  apply ret_ok in H as [<- _].
  assert (Hn : net_income (profit_and_loss_of rows)
               = type_credit REVENUE rows + type_credit EXPENSE rows).
  { apply (net_income_by_type (accounts (working s))); [done|].
    by eapply trial_balance_chart in Htb; [|apply Hch]. }
  split; [done|]. rewrite Hn.
  assert (sum_by row_credit rows = 0).
  { unfold row_credit. rewrite sum_by_sub, (trial_balance_totals _ _ _ _ Hwf Htb). lia. }
  pose proof (credit_by_type rows). lia.
Qed.

Lemma profit_and_loss_closes_accounting_equation_witness :
  let s := after (post demo_sale_posting (Some 1)) demo in
  let rows := ok_value [] (trial_balance everything s).1 in
  net_income (profit_and_loss_of rows) = 2100000 /\
  - type_credit ASSET rows
  = type_credit LIABILITY rows + type_credit EQUITY rows + net_income (profit_and_loss_of rows).
Proof.
  intros s rows. split; [by vm_compute|].
  assert (Htb : trial_balance everything s = (Ok rows, s)) by (by vm_compute).
  assert (Hpl : profit_and_loss everything s = (Ok (profit_and_loss_of rows), s)) by (by vm_compute).
  exact (proj2 (profit_and_loss_closes_accounting_equation _ _ _ _ _ demo_sale_ledger_wf
                  SYSTEM_ACCOUNTS_chart_ok Htb Hpl)).
Defined.

(** A figure of the trial balance, as a sum over the ledger's lines. *)
Lemma net_credit_lines f d rows code :
  NoDup (map account_code (accounts d)) ->
  (forall l, l ∈ journal_lines d -> is_Some (row_of (accounts d) (line_account_id l))) ->
  rows ≡ₚ omap (trial_balance_row f d) (with_ids (accounts d)) ->
  net_credit rows code
  = sum_where (fun l => bool_decide (line_code d l = Some code) && line_kept f d l)
      (fun l => credit l - debit l) (journal_lines d).
Proof.
  intros Hnd Hacc Hp.
  rewrite net_credit_sum by (rewrite Hp; by apply statement_codes_NoDup).
  unfold sum_where at 1. rewrite (sum_by_perm _ _ _ Hp), sum_by_omap.
  transitivity (sum_by (fun ka : Z * Account => if bool_decide (account_code ka.2 = code) then
      sum_where (fun l => (line_account_id l =? ka.1) && line_kept f d l) (fun l => credit l - debit l)
        (journal_lines d) else 0) (with_ids (accounts d))).
  - apply sum_by_ext. intros ka _.
    assert (Hs : forall g, sum_where (fun l => (line_account_id l =? ka.1) && line_kept f d l) g (journal_lines d)
      = sum_where (fun l => line_account_id l =? ka.1) (fun l => if line_kept f d l then g l else 0) (journal_lines d)).
    { intros g. apply sum_by_ext. intros l _. by destruct (_ =? _). }
    rewrite Hs. destruct (trial_balance_row f d ka) as [r|] eqn:E.
    + apply trial_balance_row_columns in E as (-> & -> & -> & _). destruct (bool_decide _); [|done].
      unfold sum_where. rewrite <- sum_by_sub. apply sum_by_ext. intros l _.
      destruct (_ =? _), (line_kept f d l); lia.
    + symmetry. unfold trial_balance_row in E.
      destruct (bool_decide (length (List.filter (line_kept f d) _) = 0%nat)) eqn:Ek;
        [|by rewrite orb_true_r in E].
      clear E. bools. apply length_zero_iff_nil in Ek. case_bool_decide; [|reflexivity].
      transitivity (sum_where (line_kept f d) (fun l => credit l - debit l)
        (List.filter (fun l => line_account_id l =? ka.1) (journal_lines d))).
      * symmetry. exact (sum_by_filter _ _ _).
      * by rewrite <- sum_by_filter, Ek.
  - etransitivity; [exact (sum_joined (accounts d) line_account_id (fun a => bool_decide (account_code a = code))
               (line_kept f d) (fun l => credit l - debit l) (journal_lines d) Hacc)|].
    apply sum_by_ext. intros l _. unfold line_code.
    destruct (row_of (accounts d) (line_account_id l)) as [a|]; simpl; [|done].
    by rewrite (bool_decide_ext (Some (account_code a) = Some code) (account_code a = code)) by (split; congruence).
Qed.
