(* ===== verification/Matching.v ===== *)
(** * First-in first-out matching of invoices with receipts

    app/modules/ap/service.py, [_fifo_match_slices] and
    [_fifo_clearing_amount]: the lots of a purchase-order item are consumed in
    receipt order.  The reference definition is the weight of the first [n]
    units of the lots; a walk from [skip] takes exactly the units between
    [skip] and [skip + additional]. *)

From S2P Require Import Prelude Fixed Session Schema Tables Platform Chart Fixture Journal.

(** A receipt item, its quantity and its unit cost. *)
Definition Lot : Type := Z * qty * cost.

Definition lot_id (l : Lot) : Z := l.1.1.
Definition lot_qty (l : Lot) : qty := l.1.2.
Definition lot_cost (l : Lot) : cost := l.2.

(** The loop: the slices taken, and what is left to take. *)
Fixpoint fifo_walk (lots : list Lot) (skip remaining : qty) : list Lot * qty :=
  match lots with
  | [] => ([], remaining)
  | l :: rest =>
      if lot_qty l <=? skip then fifo_walk rest (skip - lot_qty l) remaining
      else
        let available := lot_qty l - skip in
        let take := Z.min available remaining in
        let slices := if 0 <? take then [(lot_id l, take, lot_cost l)] else [] in
        if remaining - take <=? 0 then (slices, remaining - take)
        else let r := fifo_walk rest 0 (remaining - take) in (slices ++ r.1, r.2)
  end.

Definition lot_of (ir : Z * GoodsReceiptItem) : Lot := (ir.1, gri_quantity ir.2, gri_unit_cost ir.2).

(** The item's receipt items, in id order. *)
Definition lots_of (d : database) (order_item_id : Z) : list Lot :=
  map lot_of (select (fun _ r => gri_order_item_id r =? order_item_id) (goods_receipt_items d)).

Definition _fifo_match_slices (order_item_id : Z) (already_invoiced_qty additional_qty : qty)
    : Tx (list Lot) :=
  receipt_items ← gets (fun d => lots_of d order_item_id);
  let r := fifo_walk receipt_items already_invoiced_qty additional_qty in
  _ ← raise_if (0 <? r.2) (ConflictError "MATCH_DATA_INCONSISTENT");
  mret r.1.

(** [sum(qty * cost for _, qty, cost in slices)] *)
Definition slices_value (slices : list Lot) : Z := sum_by (fun l => lot_qty l * lot_cost l) slices.

Definition _fifo_clearing_amount (order_item_id : Z) (already_invoiced_qty additional_qty : qty)
    : Tx ledger :=
  slices ← _fifo_match_slices order_item_id already_invoiced_qty additional_qty;
  mret (div_half_up (slices_value slices) 1000).

(** ** The reference: the first [n] units *)

Definition total_qty (lots : list Lot) : qty := sum_by lot_qty lots.
#[local] Arguments total_qty : simpl never.

(** The weight of the first [n] units, a unit of lot [l] weighing [w l]. *)
Fixpoint first_units (w : Lot -> Z) (lots : list Lot) (n : qty) : Z :=
  match lots with
  | [] => 0
  | l :: rest => Z.max 0 (Z.min (lot_qty l) n) * w l + first_units w rest (n - lot_qty l)
  end.

(** The weight of some slices; a weight depends on the lot, not on how much of
    it is taken. *)
Definition slices_weight (w : Lot -> Z) (slices : list Lot) : Z :=
  sum_by (fun l => lot_qty l * w l) slices.

Definition lot_weight (w : Lot -> Z) : Prop := forall i q q' c, w (i, q, c) = w (i, q', c).

Definition positive_lots (lots : list Lot) : Prop := forall l, l ∈ lots -> 0 < lot_qty l.

Section Walk.
Context (w : Lot -> Z) (Hw : lot_weight w).
Implicit Types (lots : list Lot) (n skip add : qty).

Lemma positive_lots_cons l lots : positive_lots (l :: lots) -> 0 < lot_qty l /\ positive_lots lots.
Proof. intros H. split; [apply H; by left|]. intros x Hx. apply H. by right. Qed.

Lemma total_qty_nonneg lots : positive_lots lots -> 0 <= total_qty lots.
Proof. intros H. apply sum_by_nonneg. intros l Hl. specialize (H l Hl). lia. Qed.

Lemma first_units_nonpos lots n : positive_lots lots -> n <= 0 -> first_units w lots n = 0.
Proof.
  revert n. induction lots as [|l lots IH]; intros n Hp Hn; simpl; [done|].
  apply positive_lots_cons in Hp as [Hl Hp]. rewrite IH by (done || lia). nia.
Qed.

(** The walk takes the units from [skip] to [skip + add], as far as they go. *)
Lemma fifo_walk_spec lots skip add :
  positive_lots lots -> 0 <= skip -> 0 <= add ->
  let r := fifo_walk lots skip add in
  slices_weight w r.1 = first_units w lots (skip + add) - first_units w lots skip /\
  r.2 = Z.max 0 (skip + add - Z.max skip (total_qty lots)) /\
  sum_by lot_qty r.1 = add - r.2 /\
  positive_lots r.1.
Proof.
  revert skip add. induction lots as [|[[i q] c] lots IH]; intros skip add Hp Hs Ha; simpl.
  { unfold total_qty, slices_weight. rewrite !sum_by_nil.
    split_and!; [done|lia|lia|]. by intros l ?%elem_of_nil. }
  apply positive_lots_cons in Hp as [Hl Hp]. unfold lot_qty, lot_id, lot_cost in *. simpl in *.
  assert (Ht : total_qty (@cons Lot (i, q, c) lots) = q + total_qty lots)
    by (by unfold total_qty; rewrite sum_by_cons).
  pose proof (total_qty_nonneg lots Hp).
  destruct (Z.leb_spec q skip).
  - destruct (IH (skip - q) add Hp ltac:(lia) Ha) as (E1 & E2 & E3 & E4).
    rewrite E1, E2, Ht. split_and!; [|lia|lia|done].
    replace (skip - q + add) with (skip + add - q) by lia.
    rewrite !Z.min_l by lia. lia.
  - rewrite (first_units_nonpos lots (skip - q)) by (done || lia).
    rewrite (Z.min_r q skip), (Z.max_r 0 skip) by lia.
    assert (Hsl : forall rest : list Lot, positive_lots rest ->
      let ts := if 0 <? Z.min (q - skip) add then [(i, Z.min (q - skip) add, c)] else [] in
      slices_weight w (ts ++ rest) = Z.min (q - skip) add * w (i, q, c) + slices_weight w rest /\
      sum_by lot_qty (ts ++ rest) = Z.min (q - skip) add + sum_by lot_qty rest /\
      positive_lots (ts ++ rest)).
    { intros rest Hr. unfold slices_weight. rewrite !sum_by_app.
      destruct (Z.ltb_spec 0 (Z.min (q - skip) add)); simpl;
        rewrite ?sum_by_cons, ?sum_by_nil; unfold lot_qty; simpl.
      - split_and!; [|lia|].
        + rewrite (Hw i _ q c). lia.
        + intros x [->|Hx]%elem_of_cons; [done|by apply Hr].
      - replace (Z.min (q - skip) add) with 0 by lia. split_and!; [lia|lia|done]. }
    destruct (Z.leb_spec (add - Z.min (q - skip) add) 0); simpl.
    + destruct (Hsl [] ltac:(by intros ? ?%elem_of_nil)) as (E1 & E2 & E3).
      rewrite app_nil_r in *. unfold lot_qty in *. rewrite E1, E2, Ht.
      rewrite (first_units_nonpos lots (skip + add - q)) by (done || lia).
      unfold slices_weight. rewrite !sum_by_nil. split_and!; [|lia|lia|done].
      rewrite (Z.min_r (q - skip) add), (Z.min_r q (skip + add)), Z.max_r by lia. ring.
    + destruct (IH 0 (add - Z.min (q - skip) add) Hp ltac:(lia) ltac:(lia)) as (E1 & E2 & E3 & E4).
      destruct (Hsl _ E4) as (F1 & F2 & F3). unfold lot_qty in *.
      rewrite F1, F2, E1, E2, E3, Ht. split_and!; [|lia|lia|done].
      rewrite (first_units_nonpos lots 0) by (done || lia).
      rewrite (Z.min_l (q - skip) add), (Z.min_l q (skip + add)) by lia.
      replace (0 + (add - (q - skip))) with (skip + add - q) by lia. nia.
Qed.
End Walk.

(** ** The query *)

Lemma lot_weight_cost : lot_weight lot_cost.
Proof. done. Qed.

Definition of_lot (i : Z) (l : Lot) : Z := if lot_id l =? i then 1 else 0.

Lemma lot_weight_of_lot i : lot_weight (of_lot i).
Proof. done. Qed.

(** What is taken of lot [i]. *)
Definition taken_from (i : Z) (slices : list Lot) : qty := sum_where (fun l => lot_id l =? i) lot_qty slices.

Lemma taken_from_weight i slices : taken_from i slices = slices_weight (of_lot i) slices.
Proof.
  unfold taken_from, slices_weight, sum_where, of_lot. apply sum_by_ext. intros l _.
  destruct (_ =? _); lia.
Qed.

Lemma first_units_le w lots n m :
  (forall l, 0 <= w l) -> n <= m -> first_units w lots n <= first_units w lots m.
Proof.
  intros Hw. revert n m. induction lots as [|l lots IH]; intros n m Hnm; simpl; [done|].
  specialize (IH (n - lot_qty l) (m - lot_qty l) ltac:(lia)). specialize (Hw l). nia.
Qed.

Lemma first_units_all w lots n :
  positive_lots lots -> total_qty lots <= n -> first_units w lots n = slices_weight w lots.
Proof.
  revert n. induction lots as [|l lots IH]; intros n Hp Hn; simpl; [done|].
  apply positive_lots_cons in Hp as [Hl Hp]. unfold total_qty, slices_weight in *.
  rewrite sum_by_cons in *. pose proof (total_qty_nonneg lots Hp) as Ht. unfold total_qty in Ht.
  rewrite IH by (done || lia). rewrite Z.min_l, Z.max_r by lia. done.
Qed.

Lemma match_slices_run d item skip add s :
  working s = d -> _fifo_match_slices item skip add s =
    let r := fifo_walk (lots_of d item) skip add in
    if 0 <? r.2 then (Raise (ConflictError "MATCH_DATA_INCONSISTENT"), s) else (Ok r.1, s).
Proof.
  intros <-. unfold _fifo_match_slices. erewrite bind_ok_intro by reflexivity. simpl.
  unfold raise_if. by destruct (0 <? _).
Qed.

Lemma match_slices_ok item skip add s slices s' :
  _fifo_match_slices item skip add s = (Ok slices, s') ->
  s' = s /\ slices = (fifo_walk (lots_of (working s) item) skip add).1 /\
  (fifo_walk (lots_of (working s) item) skip add).2 <= 0.
Proof.
  rewrite (match_slices_run _ _ _ _ _ eq_refl). simpl.
  destruct (Z.ltb_spec 0 (fifo_walk (lots_of (working s) item) skip add).2); [done|].
  by intros [= <- <-].
Qed.

Lemma match_slices_fixes {X} (f : session database -> X) item skip add :
  fixes f (_fifo_match_slices item skip add).
Proof. unfold _fifo_match_slices. solve_fixes. Qed.

#[export] Hint Resolve match_slices_fixes : fixes.

(** An item's lots, as purchasing writes them. *)
Definition receipts_positive (d : database) : Prop :=
  forall r, r ∈ goods_receipt_items d -> 0 < gri_quantity r.

Lemma lots_positive d item : receipts_positive d -> positive_lots (lots_of d item).
Proof.
  intros Hr l ([i r] & -> & [Hin%row_of_elem _]%elem_select)%list_elem_of_fmap. by apply Hr.
Qed.

Lemma lots_total d item :
  total_qty (lots_of d item)
  = sum_where (fun r => gri_order_item_id r =? item) gri_quantity (goods_receipt_items d).
Proof.
  unfold total_qty, lots_of. rewrite sum_by_map. unfold lot_qty, lot_of. simpl.
  by rewrite (select_sum (fun r => gri_order_item_id r =? item) gri_quantity).
Qed.

(** Invoices consume an item's receipts first in, first out: matching
    [add] further units after [skip] returns positive slices that add up to
    exactly [add], are worth exactly what the units from [skip] to [skip + add]
    cost in receipt order (so consecutive invoices never overlap and together
    cost what one would), and take from each receipt only its units in that
    range; it is refused, changing nothing, precisely when the receipts hold
    fewer than [skip + add] units. *)
Theorem fifo_match_slices_exact item skip add s :
  receipts_positive (working s) -> 0 <= skip -> 0 < add ->
  let lots := lots_of (working s) item in
  (skip + add <= total_qty lots ->
     exists slices, _fifo_match_slices item skip add s = (Ok slices, s) /\
       sum_by lot_qty slices = add /\ (forall l, l ∈ slices -> 0 < lot_qty l) /\
       slices_value slices = first_units lot_cost lots (skip + add) - first_units lot_cost lots skip /\
       (forall i, taken_from i slices
                  = first_units (of_lot i) lots (skip + add) - first_units (of_lot i) lots skip)) /\
  (total_qty lots < skip + add ->
     _fifo_match_slices item skip add s = (Raise (ConflictError "MATCH_DATA_INCONSISTENT"), s)).
Proof.
  intros Hr Hs Ha lots.
  assert (Hp := lots_positive _ item Hr). fold lots in Hp.
  assert (Hsp := fun w Hw => fifo_walk_spec w Hw lots skip add Hp Hs ltac:(lia)). simpl in Hsp.
  rewrite (match_slices_run _ _ _ _ _ eq_refl). fold lots. simpl.
  destruct (Hsp lot_cost lot_weight_cost) as (E1 & E2 & E3 & E4).
  split; intros Ht.
  - rewrite E2 in E3. replace (0 <? (fifo_walk lots skip add).2) with false
      by (symmetry; apply Z.ltb_ge; lia).
    eexists. split; [reflexivity|]. split_and!; [lia|exact E4|exact E1|].
    intros i. rewrite taken_from_weight. apply (Hsp (of_lot i) (lot_weight_of_lot i)).
  - by replace (0 <? (fifo_walk lots skip add).2) with true by (symmetry; apply Z.ltb_lt; lia).
Qed.

(** Two receipts of item 1: 3 units at 2.00, then 4 at 2.50. *)
Definition demo_lots : session database :=
  session_on (over_goods_receipt_items (fun _ =>
    [{| gri_receipt_id := 1; gri_order_item_id := 1; gri_quantity := 3000;
        gri_unit_cost := 2000000; condition_notes := None |};
     {| gri_receipt_id := 2; gri_order_item_id := 1; gri_quantity := 4000;
        gri_unit_cost := 2500000; condition_notes := None |}]) demo_database).

Lemma fifo_match_slices_exact_witness :
  _fifo_match_slices 1 2000 3000 demo_lots = (Ok [(1, 1000, 2000000); (2, 2000, 2500000)], demo_lots) /\
  exists slices, _fifo_match_slices 1 2000 3000 demo_lots = (Ok slices, demo_lots) /\
    slices_value slices = 7000000000.
Proof.
  split; [by vm_compute|].
  assert (Hr : receipts_positive (working demo_lots)).
  { intros r [->|[->|[]%elem_of_nil]%elem_of_cons]%elem_of_cons; reflexivity. }
  destruct (fifo_match_slices_exact 1 2000 3000 demo_lots Hr ltac:(lia) ltac:(lia)) as [H _].
  destruct (H ltac:(by vm_compute)) as (slices & Hs & _ & _ & Hv & _).
  exists slices. split; [exact Hs|]. rewrite Hv. by vm_compute.
Defined.
