(* ===== verification/Inventory.v ===== *)
(** * The inventory ledger

    app/modules/inventory/service.py: weighted average cost, the append-only
    movement ledger with its cached quantity, and stock adjustments; the
    invariant that the cache, the running snapshots and the signs of the ledger
    agree, kept by every movement. *)

From S2P Require Import Prelude Fixed Session Schema Tables Platform Chart Fixture Journal.
From S2P Require Import Posting.

(** ** Weighted average cost *)

Definition compute_new_wac (existing_qty : qty) (existing_wac : cost)
    (received_qty : qty) (received_unit_cost : cost) : cost :=
  let total_qty := existing_qty + received_qty in
  if total_qty =? 0 then received_unit_cost
  else let total_value := existing_qty * existing_wac + received_qty * received_unit_cost in
       div_half_up total_value total_qty.

(** ** The ledger *)

(** [SUM(quantity_delta)] of a product. *)
Definition ledger_quantity (ms : list InventoryMovement) (product_id : Z) : qty :=
  sum_where (fun m => mv_product_id m =? product_id) mv_quantity_delta ms.

Definition get_quantity_on_hand_from_ledger (product_id : Z) : Tx qty :=
  gets (fun d => ledger_quantity (inventory_movements d) product_id).

Definition lock_product_for_update (product_id : Z) : Tx Product :=
  found ← get product_id;
  of_option found NoResultFound.

(** The attributes [record_movement] assigns. *)
Definition with_stock (q : qty) (new_cost : option cost) (p : Product) : Product :=
  mkProduct (product_store_id p) (product_category_id p) (current_price p)
    (default (current_cost p) new_cost) (product_tax_rate_id p) q
    (allow_negative_stock p) (product_is_active p) (sku p).

Lemma with_stock_same p : with_stock (current_qty_on_hand p) None p = p.
Proof. by destruct p. Qed.

(** Everything a caller of [record_movement] passes besides the product. *)
Record MovementArgs := {
  ma_store_id : Z;
  ma_type : MovementType;
  ma_delta : qty;
  ma_unit_cost : cost;
  ma_reference_type : ReferenceType;
  ma_reference_id : option Z;
  ma_reason : option string;
  ma_created_by : option Z;
  ma_new_cost : option cost;
}.

Definition movement_row (product_id : Z) (resulting : qty) (a : MovementArgs) : InventoryMovement :=
  {| mv_store_id := ma_store_id a; mv_product_id := product_id; movement_type := ma_type a;
     mv_quantity_delta := ma_delta a; unit_cost_at_movement := ma_unit_cost a;
     resulting_quantity_on_hand := resulting; reference_type := ma_reference_type a;
     reference_id := ma_reference_id a; mv_reason := ma_reason a; mv_created_by := ma_created_by a |}.

(** The movement and the cached quantity it leaves.  The delta is in thousandths,
    the scale of both columns; a finer [Decimal], which no schema excludes, would
    be added first and then rounded in each column on its own
    ([numeric_store_below_scale]). *)
Definition record_movement (product_id : Z) (a : MovementArgs) : Tx Z :=
  product ← lock_product_for_update product_id;
  let new_qty := current_qty_on_hand product + ma_delta a in
  _ ← raise_if ((new_qty <? 0) && negb (allow_negative_stock product))
        (ConflictError "INSUFFICIENT_STOCK");
  _ ← update product_id (with_stock new_qty (ma_new_cost a));
  add (movement_row product_id new_qty a).

(** ** Stock adjustments *)

Definition find_adjustment (key : string) : Tx (option (Z * StockAdjustment)) :=
  found ← query (fun _ a => same_key (adj_client_transaction_id a) (Some key));
  scalar_one_or_none found.

(** The insert of the adjustment row: its id, and whether this call is the one
    that created it ([False]: the winner of a concurrent duplicate). *)
Definition insert_adjustment (a : StockAdjustment) : Tx (Z * bool) :=
  match adj_client_transaction_id a with
  | None => i ← add a; mret (i, true)
  | Some key =>
      except_integrity (i ← add a; mret (i, true))
        (fun e => _ ← rollback;
                  winner ← find_adjustment key;
                  match winner with
                  | None => raise e
                  | Some (i, _) => mret (i, false)
                  end)
  end.

Definition adjustment_movement (adjustment_id : Z) (a : StockAdjustment) (unit_cost : cost)
    : MovementArgs :=
  {| ma_store_id := adj_store_id a;
     ma_type := if 0 <? adj_quantity_delta a then MT_STOCK_ADJUSTMENT_IN else MT_STOCK_ADJUSTMENT_OUT;
     ma_delta := adj_quantity_delta a; ma_unit_cost := unit_cost;
     ma_reference_type := RT_stock_adjustment; ma_reference_id := Some adjustment_id;
     ma_reason := adj_notes a; ma_created_by := Some (adj_created_by a); ma_new_cost := None |}.

(** Movement, audit event and journal of an inserted adjustment. *)
Definition apply_adjustment (adjustment_id : Z) (a : StockAdjustment) : Tx unit :=
  product ← lock_product_for_update (adj_product_id a);
  let unit_cost := current_cost product in
  _ ← record_movement (adj_product_id a) (adjustment_movement adjustment_id a unit_cost);
  _ ← log_event (Some (adj_created_by a)) "STOCK_ADJUSTMENT_CREATED" "stock_adjustment"
        (Some adjustment_id);
  _ ← post_stock_adjustment_journal adjustment_id a unit_cost (Some (adj_created_by a));
  mret tt.

Definition create_stock_adjustment (store_id product_id : Z) (quantity_delta : qty)
    (reason : ReasonCode) (notes : option string) (created_by : Z) (stock_count_id : option Z)
    (client_transaction_id : option string) (caller_store_id : option Z) : Tx Z :=
  existing ← match client_transaction_id with
             | None => mret None
             | Some key => find_adjustment key
             end;
  match existing with
  | Some (i, _) => mret i
  | None =>
      _ ← enforce_store_access caller_store_id store_id;
      let adjustment :=
        {| adj_store_id := store_id; adj_product_id := product_id;
           adj_quantity_delta := quantity_delta; reason_code := reason; adj_notes := notes;
           adj_created_by := created_by; adj_stock_count_id := stock_count_id;
           adj_client_transaction_id := client_transaction_id |} in
      inserted ← insert_adjustment adjustment;
      if snd (inserted : Z * bool)
      then _ ← apply_adjustment (fst inserted) adjustment; mret (fst inserted)
      else mret (fst inserted)
  end.

(** POST /inventory/adjustments: the store is the product's own. *)
Definition create_adjustment_endpoint (product_id : Z) (quantity_delta : qty) (reason : ReasonCode)
    (notes : option string) (user_id : Z) (key : option string) (caller_store_id : option Z) : Tx Z :=
  found ← get product_id;
  product ← of_option found NotFoundError;
  _ ← enforce_store_access caller_store_id (product_store_id product);
  create_stock_adjustment (product_store_id product) product_id quantity_delta reason notes
    user_id None key caller_store_id.

(** ** The weighted average is an average *)

Lemma compute_new_wac_between eq ew rq rc lo hi :
  0 <= eq -> 0 < rq -> lo <= ew <= hi -> lo <= rc <= hi -> lo <= compute_new_wac eq ew rq rc <= hi.
Proof.
  intros He Hr Hw Hc. unfold compute_new_wac. destruct (Z.eqb_spec (eq + rq) 0); [lia|].
  apply div_half_up_between; nia.
Qed.

(** For a receipt onto non-negative stock the new cost lies between the two
    costs it averages, and the stock's value at the new cost is within half a
    millionth per unit on hand of the exact total value. *)
Theorem compute_new_wac_average eq ew rq rc lo hi :
  0 <= eq -> 0 < rq -> lo <= ew <= hi -> lo <= rc <= hi ->
  lo <= compute_new_wac eq ew rq rc <= hi /\
  2 * Z.abs ((eq + rq) * compute_new_wac eq ew rq rc - (eq * ew + rq * rc)) <= eq + rq.
Proof.
  intros He Hr Hw Hc. split; [by apply compute_new_wac_between|]. unfold compute_new_wac.
  destruct (Z.eqb_spec (eq + rq) 0); [lia|]. pose proof (div_half_up_error (eq * ew + rq * rc) (eq + rq)). lia.
Qed.

Lemma compute_new_wac_average_witness :
  compute_new_wac 1000 333333 2000 1000000 = 777778 /\
  333333 <= compute_new_wac 1000 333333 2000 1000000 <= 1000000.
Proof.
  split; [by vm_compute|].
  apply (compute_new_wac_average 1000 333333 2000 1000000 333333 1000000); lia.
Defined.

(** ** The stock invariant *)

(** Each row's snapshot is the running total of its product. *)
Fixpoint snapshots_ok (base : Z -> qty) (ms : list InventoryMovement) : Prop :=
  match ms with
  | [] => True
  | m :: ms' =>
      let total := base (mv_product_id m) + mv_quantity_delta m in
      resulting_quantity_on_hand m = total /\
      snapshots_ok (fun p => if p =? mv_product_id m then total else base p) ms'
  end.

Definition direction_ok (m : InventoryMovement) : Prop :=
  if increasing (movement_type m) then 0 < mv_quantity_delta m else mv_quantity_delta m < 0.

Record stock_wf (d : database) : Prop := {
  sw_cache : forall i p, row_of (products d) i = Some p ->
    current_qty_on_hand p = ledger_quantity (inventory_movements d) i;
  sw_floor : forall i p, row_of (products d) i = Some p ->
    allow_negative_stock p = true \/ 0 <= current_qty_on_hand p;
  sw_cost : forall i p, row_of (products d) i = Some p -> 0 <= current_cost p;
  sw_snapshots : snapshots_ok (fun _ => 0) (inventory_movements d);
  sw_direction : forall m, m ∈ inventory_movements d -> direction_ok m;
}.

Lemma snapshots_ok_app base ms m :
  snapshots_ok base (ms ++ [m]) <->
  snapshots_ok base ms /\
  resulting_quantity_on_hand m
  = base (mv_product_id m) + ledger_quantity ms (mv_product_id m) + mv_quantity_delta m.
Proof.
  revert base. induction ms as [|x ms IH]; intros base; simpl.
  { unfold ledger_quantity. rewrite sum_where_nil.
    split; intros [? ?]; split_and!; done || lia. }
  rewrite IH. unfold ledger_quantity. rewrite sum_where_cons, (Z.eqb_sym (mv_product_id m)).
  destruct (Z.eqb_spec (mv_product_id x) (mv_product_id m)) as [E|E].
  - rewrite E. split; [intros (? & ? & ?)|intros ([? ?] & ?)]; split_and!; done || lia.
  - split; [intros (? & ? & ?)|intros ([? ?] & ?)]; split_and!; done || lia.
Qed.

Lemma ledger_quantity_app ms m i :
  ledger_quantity (ms ++ [m]) i
  = ledger_quantity ms i + (if mv_product_id m =? i then mv_quantity_delta m else 0).
Proof.
  unfold ledger_quantity. rewrite sum_where_app, sum_where_cons, sum_where_nil. lia.
Qed.

(** What a successful [record_movement] did. *)
Definition apply_movement (product_id : Z) (new_qty : qty) (a : MovementArgs) (d : database)
    : database :=
  over_inventory_movements (fun t => t ++ [movement_row product_id new_qty a])
    (over_products (set_row product_id (with_stock new_qty (ma_new_cost a))) d).

Lemma lock_product_ok pid s p s' :
  lock_product_for_update pid s = (Ok p, s') ->
  row_of (products (working s)) pid = Some p /\ s' = s.
Proof.
  unfold lock_product_for_update. intros H.
  apply bind_ok in H as (o & s1 & H1 & H). apply get_ok in H1 as [-> <-].
  by apply of_option_ok in H as [H <-].
Qed.

Lemma record_movement_ok pid a s i s' :
  record_movement pid a s = (Ok i, s') ->
  exists p, row_of (products (working s)) pid = Some p /\
    let new_qty := current_qty_on_hand p + ma_delta a in
    (allow_negative_stock p = true \/ 0 <= new_qty) /\
    0 <= default (current_cost p) (ma_new_cost a) /\
    direction_ok (movement_row pid new_qty a) /\
    i = next_id (inventory_movements (working s)) /\
    s' = with_working (apply_movement pid new_qty a (working s)) s.
Proof.
  unfold record_movement. intros H.
  apply bind_ok in H as (p & s1 & H1 & H). apply lock_product_ok in H1 as [Hp ->].
  apply bind_ok in H as (? & s1 & H1 & H). apply raise_if_ok in H1 as [Hg <-].
  apply bind_ok in H as (? & s1 & H1 & H).
  apply update_ok in H1 as (p' & Hp' & Hv & _ & ->). simpl in Hp'. rewrite Hp in Hp'.
  injection Hp' as <-. apply add_ok in H as (-> & Hm & _ & ->).
  exists p. split; [done|]. simpl. split_and!.
  - apply andb_false_iff in Hg as [Hg|Hg]; bools; [right; lia|by left].
  - eapply (row_valid_elem _ _ "ck_products_cost_non_negative") in Hv;
      [|simpl; right; left; reflexivity]. by bools.
  - eapply (row_valid_elem _ _ "ck_inventory_movements_direction") in Hm;
      [|simpl; do 4 right; left; reflexivity].
    unfold direction_ok. simpl in *. destruct (increasing _); by bools.
  - done.
  - done.
Qed.

Lemma apply_movement_wf pid p a d :
  stock_wf d -> row_of (products d) pid = Some p ->
  let new_qty := current_qty_on_hand p + ma_delta a in
  (allow_negative_stock p = true \/ 0 <= new_qty) ->
  0 <= default (current_cost p) (ma_new_cost a) ->
  direction_ok (movement_row pid new_qty a) ->
  stock_wf (apply_movement pid new_qty a d).
Proof.
  intros [Hc Hf Hk Hs Hd] Hp new_qty Hfl Hcost Hdir.
  constructor; simpl.
  - intros i x. rewrite row_of_set, ledger_quantity_app. simpl.
    case_bool_decide as E; [subst i; rewrite Hp; intros [= <-]; simpl|intros Hx].
    + rewrite Z.eqb_refl, <- (Hc pid p Hp). done.
    + rewrite (proj2 (Z.eqb_neq _ _) E), (Hc i x Hx). lia.
  - intros i x. rewrite row_of_set. case_bool_decide; [subst; rewrite Hp; intros [= <-]; done|apply Hf].
  - intros i x. rewrite row_of_set. case_bool_decide; [subst; rewrite Hp; intros [= <-]; done|apply Hk].
  - apply snapshots_ok_app. split; [done|]. simpl. rewrite <- (Hc pid p Hp). done.
  - intros m [Hm|Hm]%elem_of_app; [by apply Hd|]. by apply list_elem_of_singleton in Hm as ->.
Qed.

(** The invariant reads the products and the movements only. *)
Lemma stock_wf_ext d d' :
  products d' = products d -> inventory_movements d' = inventory_movements d ->
  stock_wf d -> stock_wf d'.
Proof. intros Ep Em [? ? ? ? ?]. constructor; by rewrite ?Ep, ?Em. Qed.

Lemma record_movement_wf pid a s i s' :
  stock_wf (working s) -> record_movement pid a s = (Ok i, s') -> stock_wf (working s').
Proof.
  intros Hwf (p & Hp & Hf & Hc & Hd & _ & ->)%record_movement_ok. by apply apply_movement_wf.
Qed.

(** Operations that touch neither products nor movements keep the invariant. *)
Lemma keeps_stock_frame {A} (m : Tx A) :
  fixes committed m ->
  fixes (fun s => (products (working s), inventory_movements (working s))) m ->
  keeps stock_wf m.
Proof.
  apply (keeps_frame _ (fun d => (products d, inventory_movements d))).
  intros d d' [= Ep Em]. by apply stock_wf_ext.
Qed.

#[export] Hint Extern 3 (keeps stock_wf _) =>
  (apply keeps_stock_frame; solve [solve_fixes]) : keeps.

Lemma record_movement_keeps pid a : keeps stock_wf (record_movement pid a).
Proof.
  intros s H1 H2.
  assert (Hc : fixes committed (record_movement pid a))
    by (unfold record_movement, lock_product_for_update; solve_fixes).
  specialize (Hc s). destruct (record_movement pid a s) as [[i|e] s'] eqn:E; simpl in *;
    rewrite Hc; [|done]. split; [done|]. by eapply record_movement_wf.
Qed.

#[export] Hint Resolve record_movement_keeps : keeps.

Lemma apply_adjustment_keeps i a : keeps stock_wf (apply_adjustment i a).
Proof.
  unfold apply_adjustment, lock_product_for_update, post_stock_adjustment_journal,
    _post_standard, posted.
  solve_keeps.
Qed.

#[export] Hint Resolve apply_adjustment_keeps : keeps.

Lemma create_stock_adjustment_keeps st pid q r n by_ sc key caller :
  keeps stock_wf (create_stock_adjustment st pid q r n by_ sc key caller).
Proof.
  unfold create_stock_adjustment, insert_adjustment, find_adjustment. solve_keeps.
Qed.

(** *** Adjustments and the books *)

Lemma post_stock_adjustment_journal_keeps i a c by_ :
  keeps books_wf (post_stock_adjustment_journal i a c by_).
Proof. by apply (post_keeps (P_stock_adjustment i a c)). Qed.

Lemma record_movement_keeps_books pid a : keeps books_wf (record_movement pid a).
Proof. unfold record_movement, lock_product_for_update. solve_keeps. Qed.

#[export] Hint Resolve post_stock_adjustment_journal_keeps record_movement_keeps_books : keeps.

Lemma create_stock_adjustment_keeps_books st pid q r n by_ sc key caller :
  keeps books_wf (create_stock_adjustment st pid q r n by_ sc key caller).
Proof.
  unfold create_stock_adjustment, insert_adjustment, find_adjustment, apply_adjustment,
    lock_product_for_update. solve_keeps.
Qed.

(** ** What an adjustment does *)

Lemma find_adjustment_ok key s o s' :
  find_adjustment key s = (Ok o, s') ->
  s' = s /\
  select (fun _ a => same_key (adj_client_transaction_id a) (Some key))
    (stock_adjustments (working s)) = match o with Some ia => [ia] | None => [] end.
Proof.
  unfold find_adjustment. intros H. apply bind_ok in H as (l & s1 & H1 & H).
  apply query_ok in H1 as [-> <-]. apply scalar_one_or_none_ok in H as [<- H].
  by destruct o.
Qed.

Lemma insert_adjustment_ok a s i b s' :
  insert_adjustment a s = (Ok (i, b), s') ->
  (b = true /\ i = next_id (stock_adjustments (working s)) /\
   s' = with_working (over_stock_adjustments (fun t => t ++ [a]) (working s)) s) \/
  (b = false /\ exists key w s1, adj_client_transaction_id a = Some key /\
     committed s1 = committed s /\
     find_adjustment key (with_working (committed s1) s1) = (Ok (Some (i, w)), s')).
Proof.
  unfold insert_adjustment. destruct (adj_client_transaction_id a) as [key|] eqn:Ek; intros H.
  - apply except_integrity_ok in H as [H|(c & s1 & Hr & H)].
    + apply bind_ok in H as (j & s1 & H1 & H). apply ret_ok in H as [[= <- <-] <-].
      apply add_ok in H1 as (-> & _ & _ & ->). by left.
    + right. apply bind_ok in H as ([] & s2 & H1 & H). injection H1 as <-.
      apply bind_ok in H as (w & s3 & H1 & H). destruct w as [[j w]|]; [|done].
      apply ret_ok in H as [[= <- <-] <-]. split; [done|]. exists key, w, s1.
      split_and!; [done| |done].
      assert (Hf : fixes committed (i ← add a; mret (i, true))) by solve_fixes.
      specialize (Hf s). by rewrite Hr in Hf.
  - apply bind_ok in H as (j & s1 & H1 & H). apply ret_ok in H as [[= <- <-] <-].
    apply add_ok in H1 as (-> & _ & _ & ->). by left.
Qed.

Lemma apply_adjustment_ok i a s u s' :
  apply_adjustment i a s = (Ok u, s') ->
  exists p s1 r log,
    row_of (products (working s)) (adj_product_id a) = Some p /\ 0 <= current_cost p /\
    let new_qty := current_qty_on_hand p + adj_quantity_delta a in
    working s1 = over_audit_logs (fun t => t ++ [log])
      (apply_movement (adj_product_id a) new_qty (adjustment_movement i a (current_cost p)) (working s)) /\
    post (P_stock_adjustment i a (current_cost p)) (Some (adj_created_by a)) s1 = (Ok r, s').
Proof.
  unfold apply_adjustment. intros H.
  apply bind_ok in H as (p & s1 & H1 & H). apply lock_product_ok in H1 as [Hp ->].
  apply bind_ok in H as (m & s1 & H1 & H).
  apply record_movement_ok in H1 as (p' & Hp' & _ & Hcost & _ & _ & ->).
  rewrite Hp in Hp'. injection Hp' as <-.
  apply bind_ok in H as (? & s1 & H1 & H). apply log_event_ok in H1 as ->.
  apply bind_ok in H as (r & s1 & H1 & H). apply ret_ok in H as [_ <-].
  eexists p, _, r, _. split_and!; [done|exact Hcost| |exact H1]. done.
Qed.

(** Posting touches neither the catalogue nor the stock tables. *)
Lemma post_frame p by_ s r s' :
  post p by_ s = (Ok r, s') ->
  products (working s') = products (working s) /\ stock_tables (working s') = stock_tables (working s).
Proof.
  intros H. apply post_shape in H as [(_ & _ & ->)|(st & dt & id & -> & H)]; [done|].
  by apply post_journal_ok in H as (e & new & _ & -> & _).
Qed.

(** Net effect of an adjustment's journal on the inventory account. *)
Lemma stock_adjustment_inventory_net i a c :
  0 <= c ->
  spec_net (posting_lines (P_stock_adjustment i a c)) ACCOUNT_INVENTORY
  = Z.sgn (adj_quantity_delta a) * ledger_quantize (Z.abs (adj_quantity_delta a)) c.
Proof.
  intros Hc. simpl. unfold unless_zero, stock_adjustment_lines.
  assert (0 <= ledger_quantize (Z.abs (adj_quantity_delta a)) c)
    by (unfold ledger_quantize; apply div_half_up_nonneg; nia).
  destruct (Z.leb_spec (ledger_quantize (Z.abs (adj_quantity_delta a)) c) 0).
  { rewrite spec_net_nil. nia. }
  destruct (Z.ltb_spec 0 (adj_quantity_delta a)); rewrite spec_net_pair; simpl.
  - rewrite Z.sgn_pos by lia. lia.
  - destruct (Z.eq_dec (adj_quantity_delta a) 0) as [E|].
    + unfold ledger_quantize in *. rewrite E in *. rewrite div_half_up_0 in *. lia.
    + rewrite Z.sgn_neg by lia. lia.
Qed.

(** Quantising a value loses at most half a ledger unit. *)
Lemma signed_quantize_error q c :
  2 * Z.abs (1000 * (Z.sgn q * ledger_quantize (Z.abs q) c) - q * c) <= 1000.
Proof.
  unfold ledger_quantize. pose proof (div_half_up_error (Z.abs q * c) 1000 ltac:(lia)).
  destruct (Z.abs_spec q) as [[? E]|[? E]]; rewrite E in *.
  - destruct (Z.eq_dec q 0) as [->|]; [by rewrite div_half_up_0|].
    rewrite Z.sgn_pos by lia. lia.
  - rewrite Z.sgn_neg by lia. lia.
Qed.

Definition adjustment_known (d : database) (key : option string) : bool :=
  match key with
  | None => false
  | Some k => existsb (fun a => same_key (adj_client_transaction_id a) (Some k)) (stock_adjustments d)
  end.

Lemma adjustment_unknown_select d k :
  adjustment_known d (Some k) = false ->
  select (fun _ a => same_key (adj_client_transaction_id a) (Some k)) (stock_adjustments d) = [].
Proof.
  intros Hk. apply select_nil. intros i a Ha. apply not_true_is_false. intros Ht.
  simpl in Hk. apply not_true_iff_false in Hk. apply Hk, existsb_exists.
  exists a. split; [|done]. apply list_elem_of_In. by eapply row_of_elem.
Qed.

(** The two ways [create_stock_adjustment] returns. *)
Lemma create_stock_adjustment_ok st pid q r n by_ sc key caller s i s' :
  create_stock_adjustment st pid q r n by_ sc key caller s = (Ok i, s') ->
  (exists k w s1, key = Some k /\ committed s1 = committed s /\
     (s1 = s \/ working s1 = committed s1) /\
     find_adjustment k s1 = (Ok (Some (i, w)), s')) \/
  (exists a s1, adj_store_id a = st /\ adj_product_id a = pid /\ adj_quantity_delta a = q /\
     adj_client_transaction_id a = key /\ adj_created_by a = by_ /\ adj_notes a = n /\
     store_denied caller st = false /\
     s1 = with_working (over_stock_adjustments (fun t => t ++ [a]) (working s)) s /\
     i = next_id (stock_adjustments (working s)) /\
     adjustment_known (working s) key = false /\
     apply_adjustment i a s1 = (Ok tt, s')).
Proof.
  unfold create_stock_adjustment. intros H.
  apply bind_ok in H as (o & s0 & H0 & H).
  assert (s0 = s /\ match o with
     | Some (j, w) => exists k, key = Some k /\ find_adjustment k s = (Ok (Some (j, w)), s)
     | None => adjustment_known (working s) key = false end) as [-> Hc].
  { destruct key as [k|]; [|by apply ret_ok in H0 as [<- <-]].
    pose proof H0 as H1. apply find_adjustment_ok in H1 as [-> Hs]. split; [done|].
    destruct o as [[j w]|]; [by exists k|]. simpl. apply not_true_is_false.
    intros (a & Ha & Hk)%existsb_exists. apply list_elem_of_In, elem_row_of in Ha as [j Hj].
    by rewrite (proj1 (select_nil _ _) Hs j a Hj) in Hk. }
  destruct o as [[j w]|].
  { apply ret_ok in H as [<- <-]. destruct Hc as (k & -> & Hf). left. exists k, w, s. auto. }
  apply bind_ok in H as (? & s1 & H1 & H). apply enforce_store_access_ok in H1 as [Hd <-].
  apply bind_ok in H as ([j b] & s1 & H1 & H). apply insert_adjustment_ok in H1.
  destruct H1 as [(-> & -> & ->)|(-> & k & w & s2 & Hk & Hs2 & Hf)]; simpl in H.
  - apply bind_ok in H as ([] & s2 & H2 & H). apply ret_ok in H as [<- <-]. right.
    eexists _, _. split_and!; try exact H2. all: done.
  - apply ret_ok in H as [<- <-]. left. simpl in Hk.
    eexists k, w, _. split_and!; [done| | |exact Hf]; [done|by right].
Qed.

(** C30: A new adjustment changes exactly one product's quantity by exactly the
    requested delta at unchanged cost, appends the matching ledger row, and moves
    the inventory account by the rounded value of the goods: at most half a
    ledger unit away from the change of the stock's valuation. *)
Theorem create_stock_adjustment_effect st pid q r n by_ sc key caller s i s' :
  ledger_wf (working s) -> committed s = working s -> adjustment_known (working s) key = false ->
  create_stock_adjustment st pid q r n by_ sc key caller s = (Ok i, s') ->
  exists p posted_id a,
    row_of (products (working s)) pid = Some p /\
    products (working s') = set_row pid (with_stock (current_qty_on_hand p + q) None) (products (working s)) /\
    inventory_movements (working s') = inventory_movements (working s) ++
      [movement_row pid (current_qty_on_hand p + q) (adjustment_movement i a (current_cost p))] /\
    adj_quantity_delta a = q /\ row_of (stock_adjustments (working s')) i = Some a /\
    2 * Z.abs (1000 * posted_net (working s') posted_id ACCOUNT_INVENTORY - q * current_cost p) <= 1000.
Proof.
  intros Hwf Hcw Hk H.
  apply create_stock_adjustment_ok in H as [H|H];
    [destruct H as (k & w & s1 & -> & Hc & Hor & Hf)|
     destruct H as (a & s1 & <- & <- & <- & _ & _ & _ & _ & -> & -> & _ & H)].
  - apply find_adjustment_ok in Hf as [_ Hf].
    assert (Hw : working s1 = working s) by (destruct Hor as [E|E]; [by subst|congruence]).
    rewrite Hw, adjustment_unknown_select in Hf by done. done.
  - apply apply_adjustment_ok in H as (p & s2 & posted_id & log & Hp & Hcost & Hw & Hpost).
    simpl in Hp, Hw. pose proof (post_frame _ _ _ _ _ Hpost) as [Hpr Hst].
    exists p, posted_id, a. split_and!; [done| | |done| |].
    + by rewrite Hpr, Hw.
    + by rewrite Hst, Hw.
    + rewrite Hst, Hw. simpl. apply row_of_new.
    + erewrite post_net; [|eapply ledger_wf_ext; [|exact Hwf]; by rewrite Hw|exact Hpost].
      rewrite stock_adjustment_inventory_net by done. apply signed_quantize_error.
Qed.

Lemma create_stock_adjustment_effect_witness :
  let m := create_stock_adjustment 1 2 (-500) DAMAGE None 2 None (Some "k1"%string) (Some 1) in
  exists p posted_id a,
    row_of (products (working demo)) 2 = Some p /\
    products (working (after m demo))
    = set_row 2 (with_stock (current_qty_on_hand p + -500) None) (products (working demo)) /\
    inventory_movements (working (after m demo)) = inventory_movements (working demo) ++
      [movement_row 2 (current_qty_on_hand p + -500) (adjustment_movement 1 a (current_cost p))] /\
    adj_quantity_delta a = -500 /\ row_of (stock_adjustments (working (after m demo))) 1 = Some a /\
    2 * Z.abs (1000 * posted_net (working (after m demo)) posted_id ACCOUNT_INVENTORY
               - -500 * current_cost p) <= 1000.
Proof.
  intros m.
  assert (H : m demo = (Ok 1, after m demo)) by (by vm_compute).
  exact (create_stock_adjustment_effect 1 2 (-500) DAMAGE None 2 None (Some "k1"%string) (Some 1)
           demo 1 (after m demo) (proj1 (empty_ledger_wf (working demo) eq_refl eq_refl))
           eq_refl eq_refl H).
Defined.

(** *** Idempotency by key *)

Lemma find_adjustment_run k s i a :
  select (fun _ x => same_key (adj_client_transaction_id x) (Some k)) (stock_adjustments (working s))
  = [(i, a)] ->
  find_adjustment k s = (Ok (Some (i, a)), s).
Proof. intros Hs. unfold find_adjustment. erewrite bind_ok_intro by reflexivity. simpl. by rewrite Hs. Qed.

Lemma create_stock_adjustment_recorded st pid q r n by_ sc k caller s i s' :
  create_stock_adjustment st pid q r n by_ sc (Some k) caller s = (Ok i, s') ->
  exists a, find_adjustment k s' = (Ok (Some (i, a)), s').
Proof.
  intros H.
  apply create_stock_adjustment_ok in H as [H|H];
    [destruct H as (k' & w & s1 & [= <-] & _ & _ & Hf)|
     destruct H as (a & s1 & _ & _ & _ & Hk & _ & _ & _ & -> & -> & Hu & H)].
  - exists w. pose proof Hf as Hf'. apply find_adjustment_ok in Hf' as [-> _]. done.
  - exists a. apply find_adjustment_run.
    assert (Hfix : fixes (fun s => stock_adjustments (working s))
      (apply_adjustment (next_id (stock_adjustments (working s))) a))
      by (unfold apply_adjustment, record_movement, lock_product_for_update,
            post_stock_adjustment_journal, _post_standard, posted; solve_fixes).
    rewrite (fixes_run _ _ _ _ _ Hfix H). simpl.
    rewrite select_app, adjustment_unknown_select by done. rewrite Hk. simpl.
    by rewrite bool_decide_eq_true_2.
Qed.

(** Submitting an adjustment again under the same key returns the first
    submission's record and changes nothing: no second movement, no second
    journal. *)
Theorem create_stock_adjustment_idempotent st pid q r n by_ sc k caller s i s'
    st2 pid2 q2 r2 n2 by2 sc2 caller2 :
  create_stock_adjustment st pid q r n by_ sc (Some k) caller s = (Ok i, s') ->
  create_stock_adjustment st2 pid2 q2 r2 n2 by2 sc2 (Some k) caller2 s' = (Ok i, s').
Proof.
  intros [a Ha]%create_stock_adjustment_recorded. unfold create_stock_adjustment.
  by rewrite (bind_ok_intro _ _ _ _ _ Ha).
Qed.

Lemma create_stock_adjustment_idempotent_witness :
  let s' := after (create_stock_adjustment 1 2 (-500) DAMAGE None 2 None (Some "k1"%string) None) demo in
  create_stock_adjustment 1 2 (-500) DAMAGE None 2 None (Some "k1"%string) None s' = (Ok 1, s').
Proof.
  intros s'.
  apply (create_stock_adjustment_idempotent 1 2 (-500) DAMAGE None 2 None "k1" None demo).
  by vm_compute.
Defined.

Lemma demo_products i p :
  row_of (products (working demo)) i = Some p ->
  (i = 1 /\ p = demo_product "A-1" 250 1200000 (Some 1) 40000) \/
  (i = 2 /\ p = demo_product "B-2" 99 333333 None 12500).
Proof.
  intros Hi. assert (Hr : 0 < i < 3) by exact (row_of_range _ _ _ Hi).
  assert (i = 1 \/ i = 2) as [->| ->] by lia; vm_compute in Hi; injection Hi as <-; auto.
Qed.

Lemma demo_books_wf : books_wf (working demo).
Proof. by apply empty_ledger_wf. Qed.

(** The fixture's stock agrees with its ledger. *)
Lemma demo_stock_wf : stock_wf (working demo).
Proof.
  constructor; try (intros i p [[-> ->]|[-> ->]]%demo_products; try right; by vm_compute).
  - by vm_compute.
  - intros m [->|[->|Hm%elem_of_nil]%elem_of_cons]%elem_of_cons; by vm_compute.
Qed.
