(* ===== verification/StockCount.v ===== *)
(** * Stock counts

    app/modules/inventory/service.py, [create_stock_count] to
    [cancel_stock_count]: the six-state document, its idempotent transitions,
    and the posting that corrects the ledger to the counted quantities or
    refuses as a whole when a product moved since it was counted. *)

From S2P Require Import Prelude Fixed Session Schema Tables Platform Chart Fixture Journal.
From S2P Require Import Posting Inventory.

(** inventory.models: [_COUNTABLE_STOCK_COUNT_STATUSES] and
    [_CANCELLABLE_STOCK_COUNT_STATUSES] *)
Definition countable (st : StockCountStatus) : bool :=
  match st with SC_OPEN | SC_COUNTED => true | _ => false end.

Definition cancellable (st : StockCountStatus) : bool :=
  match st with SC_DRAFT | SC_OPEN | SC_COUNTED | SC_REVIEWED => true | _ => false end.

(** [f"SC{store_id}-{timestamp}"] *)
Definition _generate_count_number (store_id : Z) : Tx (Z * Z) :=
  now ← datetime_now_utc;
  mret (store_id, now).

Definition new_count (store_id : Z) (number : Z * Z) (category_id : option Z)
    (notes : option string) (created_by : option Z) : StockCount :=
  mkStockCount store_id number SC_DRAFT category_id notes created_by
    None None None None None None None None.

Definition new_count_line (count_id product_id : Z) : StockCountLine :=
  mkStockCountLine count_id product_id None None None None None 0.

(** The scope: explicit products and those of the category in the store. *)
Definition resolve_scope (d : database) (store_id : Z) (category_id : option Z)
    (product_ids : list Z) : list Z :=
  sorted_set (product_ids ++
    match category_id with
    | None => []
    | Some c => map fst (select (fun _ p => (product_store_id p =? store_id)
                           && bool_decide (product_category_id p = Some c)) (products d))
    end).

Definition create_stock_count (store_id : Z) (category_id : option Z) (product_ids : list Z)
    (notes : option string) (created_by caller_store_id : option Z) : Tx Z :=
  _ ← enforce_store_access caller_store_id store_id;
  store ← get store_id;
  _ ← raise_if (negb (match store with Some s => store_is_active s | None => false end))
        NotFoundError;
  resolved_ids ← gets (fun d => resolve_scope d store_id category_id product_ids);
  _ ← raise_if (bool_decide (length resolved_ids = 0%nat))
        (ValidationAppError "EMPTY_STOCK_COUNT_SCOPE");
  missing ← gets (fun d => existsb (fun i => negb (exists_row (products d) i)) resolved_ids);
  _ ← raise_if missing NotFoundError;
  foreign ← gets (fun d => existsb (fun i =>
      match row_of (products d) i with
      | Some p => negb (product_store_id p =? store_id)
      | None => false
      end) resolved_ids);
  _ ← raise_if foreign (ConflictError "STORE_MISMATCH");
  number ← _generate_count_number store_id;
  count_id ← add (new_count store_id number category_id notes created_by);
  _ ← for_each (fun i => _ ← add (new_count_line count_id i); mret tt) resolved_ids;
  _ ← log_event created_by "STOCK_COUNT_CREATED" "stock_count" (Some count_id);
  _ ← commit;
  mret count_id.

(** The lines of a count ordered by product. *)
Definition by_product (a b : Z * StockCountLine) : Prop :=
  scl_product_id a.2 <= scl_product_id b.2.

#[export] Instance by_product_dec : RelDecision by_product.
Proof. intros a b. unfold by_product. apply _. Defined.

Definition lines_of_count (d : database) (count_id : Z) : list (Z * StockCountLine) :=
  merge_sort by_product (select (fun _ l => scl_stock_count_id l =? count_id) (stock_count_lines d)).

(** [SELECT ... FOR UPDATE], the not-found check and the store check every
    transition begins with. *)
Definition lock_count (count_id : Z) (caller_store_id : option Z) : Tx StockCount :=
  found ← get count_id;
  count ← of_option found NotFoundError;
  _ ← enforce_store_access caller_store_id (sc_store_id count);
  mret count.

Definition invalid_state : exn := ConflictError "INVALID_STOCK_COUNT_STATE".

(** Attribute assignments on the header. *)
Definition set_status (st : StockCountStatus) (c : StockCount) : StockCount :=
  mkStockCount (sc_store_id c) (count_number c) st (sc_category_id c) (sc_notes c)
    (sc_created_by c) (opened_by c) (opened_at c) (reviewed_by c) (reviewed_at c)
    (posted_by c) (posted_at c) (cancelled_by c) (cancelled_at c).

Definition set_opened (actor : option Z) (now : Z) (c : StockCount) : StockCount :=
  mkStockCount (sc_store_id c) (count_number c) SC_OPEN (sc_category_id c) (sc_notes c)
    (sc_created_by c) actor (Some now) (reviewed_by c) (reviewed_at c)
    (posted_by c) (posted_at c) (cancelled_by c) (cancelled_at c).

Definition set_reviewed (st : StockCountStatus) (actor now : option Z) (c : StockCount)
    : StockCount :=
  mkStockCount (sc_store_id c) (count_number c) st (sc_category_id c) (sc_notes c)
    (sc_created_by c) (opened_by c) (opened_at c) actor now
    (posted_by c) (posted_at c) (cancelled_by c) (cancelled_at c).

Definition set_posted (actor now : Z) (c : StockCount) : StockCount :=
  mkStockCount (sc_store_id c) (count_number c) SC_POSTED (sc_category_id c) (sc_notes c)
    (sc_created_by c) (opened_by c) (opened_at c) (reviewed_by c) (reviewed_at c)
    (Some actor) (Some now) (cancelled_by c) (cancelled_at c).

Definition set_cancelled (actor : option Z) (now : Z) (c : StockCount) : StockCount :=
  mkStockCount (sc_store_id c) (count_number c) SC_CANCELLED (sc_category_id c) (sc_notes c)
    (sc_created_by c) (opened_by c) (opened_at c) (reviewed_by c) (reviewed_at c)
    (posted_by c) (posted_at c) actor (Some now).

Definition snapshot_line (p : Product) (l : StockCountLine) : StockCountLine :=
  mkStockCountLine (scl_stock_count_id l) (scl_product_id l) (Some (current_qty_on_hand p))
    (Some (current_cost p)) (counted_quantity l) (counted_by l) (counted_at l) (recount_number l).

Definition open_stock_count (count_id : Z) (actor_id caller_store_id : option Z) : Tx Z :=
  count ← lock_count count_id caller_store_id;
  if bool_decide (sc_status count = SC_OPEN) then mret count_id
  else
    _ ← raise_if (negb (bool_decide (sc_status count = SC_DRAFT))) invalid_state;
    lines ← gets (fun d => lines_of_count d count_id);
    _ ← raise_if (bool_decide (length lines = 0%nat)) (ConflictError "EMPTY_STOCK_COUNT_SCOPE");
    _ ← for_each (fun il : Z * StockCountLine =>
          product ← lock_product_for_update (scl_product_id il.2);
          update il.1 (snapshot_line product)) lines;
    now ← datetime_now_utc;
    _ ← update count_id (set_opened actor_id now);
    _ ← log_event actor_id "STOCK_COUNT_OPENED" "stock_count" (Some count_id);
    _ ← commit;
    mret count_id.

Definition counted_line (q : qty) (by_ now : Z) (l : StockCountLine) : StockCountLine :=
  mkStockCountLine (scl_stock_count_id l) (scl_product_id l) (expected_quantity l)
    (expected_unit_cost l) (Some q) (Some by_) (Some now) (recount_number l + 1).

Definition record_count_entry (count_id product_id : Z) (q : qty) (by_ : Z)
    (caller_store_id : option Z) : Tx Z :=
  _ ← raise_if (q <? 0) (ValidationAppError "INVALID_QUANTITY");
  count ← lock_count count_id caller_store_id;
  _ ← raise_if (negb (countable (sc_status count))) invalid_state;
  found ← query (fun _ l => (scl_stock_count_id l =? count_id) && (scl_product_id l =? product_id));
  some_line ← scalar_one_or_none found;
  line ← of_option some_line NotFoundError;
  let is_recount := opt_some (counted_quantity line.2) in
  _ ← when is_recount
        (product ← lock_product_for_update product_id;
         update line.1 (snapshot_line product));
  now ← datetime_now_utc;
  _ ← update line.1 (counted_line q by_ now);
  _ ← log_event (Some by_)
        (if is_recount then "STOCK_COUNT_LINE_RECOUNTED" else "STOCK_COUNT_LINE_COUNTED")
        "stock_count_line" (Some line.1);
  _ ← commit;
  mret line.1.

Definition mark_stock_count_counted (count_id : Z) (actor_id caller_store_id : option Z) : Tx Z :=
  count ← lock_count count_id caller_store_id;
  if bool_decide (sc_status count = SC_COUNTED) then mret count_id
  else
    _ ← raise_if (negb (bool_decide (sc_status count = SC_OPEN))) invalid_state;
    _ ← update count_id (set_status SC_COUNTED);
    _ ← log_event actor_id "STOCK_COUNT_MARKED_COUNTED" "stock_count" (Some count_id);
    _ ← commit;
    mret count_id.

Definition review_stock_count (count_id : Z) (actor_id caller_store_id : option Z) : Tx Z :=
  count ← lock_count count_id caller_store_id;
  if bool_decide (sc_status count = SC_REVIEWED) then mret count_id
  else
    _ ← raise_if (negb (bool_decide (sc_status count = SC_COUNTED))) invalid_state;
    now ← datetime_now_utc;
    _ ← update count_id (set_reviewed SC_REVIEWED actor_id (Some now));
    _ ← log_event actor_id "STOCK_COUNT_REVIEWED" "stock_count" (Some count_id);
    _ ← commit;
    mret count_id.

Definition reopen_stock_count_for_recount (count_id : Z) (actor_id caller_store_id : option Z)
    : Tx Z :=
  count ← lock_count count_id caller_store_id;
  _ ← raise_if (negb (bool_decide (sc_status count = SC_REVIEWED))) invalid_state;
  _ ← update count_id (set_reviewed SC_COUNTED None None);
  _ ← log_event actor_id "STOCK_COUNT_REOPENED_FOR_RECOUNT" "stock_count" (Some count_id);
  _ ← commit;
  mret count_id.

(** ** Posting *)

(** [counted_lines]: the lines with a counted quantity. *)
Definition counted_lines (lines : list (Z * StockCountLine)) : list (Z * StockCountLine) :=
  List.filter (fun il => opt_some (counted_quantity il.2)) lines.

(** The drift comparison of one line under the product's lock. *)
Definition line_drifted (il : Z * StockCountLine) : Tx bool :=
  product ← lock_product_for_update (scl_product_id il.2);
  expected ← of_option (expected_quantity il.2) AssertionError;
  mret (negb (current_qty_on_hand product =? expected)).

Definition collect_drift (lines : list (Z * StockCountLine)) : Tx bool :=
  fold_m (fun drifted il => b ← line_drifted il; mret (drifted || b)) lines false.

(** The correction of one counted line. *)
Definition post_line (count_id store_id : Z) (number : string) (actor_id : Z)
    (il : Z * StockCountLine) : Tx unit :=
  product ← lock_product_for_update (scl_product_id il.2);
  counted ← of_option (counted_quantity il.2) AssertionError;
  let variance := counted - current_qty_on_hand product in
  if variance =? 0 then mret tt
  else
    _ ← create_stock_adjustment store_id (scl_product_id il.2) variance STOCKTAKE_CORRECTION
          (Some number) actor_id (Some count_id) None None;
    mret tt.

Definition post_stock_count (count_id actor_id : Z) (caller_store_id : option Z) : Tx Z :=
  count ← lock_count count_id caller_store_id;
  if bool_decide (sc_status count = SC_POSTED) then mret count_id
  else
    _ ← raise_if (negb (bool_decide (sc_status count = SC_REVIEWED))) invalid_state;
    lines ← gets (fun d => counted_lines (lines_of_count d count_id));
    _ ← raise_if (bool_decide (length lines = 0%nat)) (ConflictError "EMPTY_STOCK_COUNT_POSTING");
    drifted ← collect_drift lines;
    _ ← raise_if drifted (ConflictError "STOCK_COUNT_DRIFT_DETECTED");
    _ ← for_each (post_line count_id (sc_store_id count) "Stock count" actor_id) lines;
    now ← datetime_now_utc;
    _ ← update count_id (set_posted actor_id now);
    _ ← log_event (Some actor_id) "STOCK_COUNT_POSTED" "stock_count" (Some count_id);
    _ ← commit;
    mret count_id.

Definition cancel_stock_count (count_id : Z) (actor_id caller_store_id : option Z) : Tx Z :=
  count ← lock_count count_id caller_store_id;
  if bool_decide (sc_status count = SC_CANCELLED) then mret count_id
  else
    _ ← raise_if (negb (cancellable (sc_status count))) invalid_state;
    now ← datetime_now_utc;
    _ ← update count_id (set_cancelled actor_id now);
    _ ← log_event actor_id "STOCK_COUNT_CANCELLED" "stock_count" (Some count_id);
    _ ← commit;
    mret count_id.

(** ** Invariants *)

Ltac count_ops :=
  unfold create_stock_count, open_stock_count, record_count_entry, mark_stock_count_counted,
    review_stock_count, reopen_stock_count_for_recount, post_stock_count, cancel_stock_count,
    lock_count, _generate_count_number, collect_drift, line_drifted, post_line,
    lock_product_for_update.

#[export] Hint Resolve create_stock_adjustment_keeps create_stock_adjustment_keeps_books : keeps.

(** The operations on stock counts as one family. *)
Inductive count_op :=
  | C_open (actor caller : option Z)
  | C_entry (product_id : Z) (q : qty) (by_ : Z) (caller : option Z)
  | C_mark_counted (actor caller : option Z)
  | C_review (actor caller : option Z)
  | C_reopen (actor caller : option Z)
  | C_post (actor : Z) (caller : option Z)
  | C_cancel (actor caller : option Z).

Definition run_count_op (count_id : Z) (op : count_op) : Tx Z :=
  match op with
  | C_open a c => open_stock_count count_id a c
  | C_entry p q b c => record_count_entry count_id p q b c
  | C_mark_counted a c => mark_stock_count_counted count_id a c
  | C_review a c => review_stock_count count_id a c
  | C_reopen a c => reopen_stock_count_for_recount count_id a c
  | C_post a c => post_stock_count count_id a c
  | C_cancel a c => cancel_stock_count count_id a c
  end.

Lemma run_count_op_keeps count_id op :
  keeps stock_wf (run_count_op count_id op) /\ keeps books_wf (run_count_op count_id op).
Proof. destruct op; simpl; count_ops; split; solve_keeps. Qed.

Lemma create_stock_count_keeps st cat ps n by_ caller :
  keeps stock_wf (create_stock_count st cat ps n by_ caller) /\
  keeps books_wf (create_stock_count st cat ps n by_ caller).
Proof. count_ops; split; solve_keeps. Qed.

(** ** The state machine *)

(** The documented transitions, with the no-ops of a repeated call. *)
Inductive allowed : count_op -> StockCountStatus -> StockCountStatus -> Prop :=
  | al_open a c : allowed (C_open a c) SC_DRAFT SC_OPEN
  | al_open_again a c : allowed (C_open a c) SC_OPEN SC_OPEN
  | al_entry p q b c st : countable st = true -> allowed (C_entry p q b c) st st
  | al_mark a c : allowed (C_mark_counted a c) SC_OPEN SC_COUNTED
  | al_mark_again a c : allowed (C_mark_counted a c) SC_COUNTED SC_COUNTED
  | al_review a c : allowed (C_review a c) SC_COUNTED SC_REVIEWED
  | al_review_again a c : allowed (C_review a c) SC_REVIEWED SC_REVIEWED
  | al_reopen a c : allowed (C_reopen a c) SC_REVIEWED SC_COUNTED
  | al_post a c : allowed (C_post a c) SC_REVIEWED SC_POSTED
  | al_post_again a c : allowed (C_post a c) SC_POSTED SC_POSTED
  | al_cancel a c st : cancellable st = true -> allowed (C_cancel a c) st SC_CANCELLED
  | al_cancel_again a c : allowed (C_cancel a c) SC_CANCELLED SC_CANCELLED.

Lemma lock_count_ok i caller s c s' :
  lock_count i caller s = (Ok c, s') ->
  s' = s /\ row_of (stock_counts (working s)) i = Some c /\ store_denied caller (sc_store_id c) = false.
Proof.
  unfold lock_count. intros H.
  apply bind_ok in H as (o & s1 & H1 & H). apply get_ok in H1 as [-> <-].
  apply bind_ok in H as (x & s1 & H1 & H). apply of_option_ok in H1 as [Hx <-].
  apply bind_ok in H as (? & s1 & H1 & H). apply enforce_store_access_ok in H1 as [Hd <-].
  by apply ret_ok in H as [<- <-].
Qed.

Notation counts_of := (fun s : session database => stock_counts (working s)).

(** Step over one bind: what it did to the table of count headers. *)
Ltac count_step H :=
  let x := fresh "x" in let s := fresh "s" in let E := fresh "E" in
  apply bind_ok in H as (x & s & E & H);
  first
    [ apply (fixes_run counts_of) in E; [|solve [solve_fixes]]
    | apply commit_ok in E as (_ & E & _); apply (f_equal (fun d => stock_counts d)) in E
    | apply update_ok in E as (? & _ & _ & _ & E);
      apply (f_equal counts_of) in E ];
  simpl in E.

Lemma header_set (t : list StockCount) i f c :
  row_of t i = Some c -> row_of (set_row i f t) i = Some (f c) /\
  forall j, j <> i -> row_of (set_row i f t) j = row_of t j.
Proof. intros Hc. split; [by apply row_of_set_eq|intros; by apply row_of_set_ne]. Qed.

Lemma create_stock_adjustment_fixes_counts st pid q r n by_ sc caller :
  fixes counts_of (create_stock_adjustment st pid q r n by_ sc None caller).
Proof.
  unfold create_stock_adjustment, insert_adjustment, apply_adjustment, record_movement,
    lock_product_for_update, post_stock_adjustment_journal, _post_standard, posted.
  cbn [adj_client_transaction_id]. solve_fixes.
Qed.

#[local] Hint Resolve create_stock_adjustment_fixes_counts : fixes.

Lemma count_op_transition i op s r s' :
  run_count_op i op s = (Ok r, s') ->
  exists c c',
    row_of (stock_counts (working s)) i = Some c /\
    row_of (stock_counts (working s')) i = Some c' /\
    allowed op (sc_status c) (sc_status c') /\
    (sc_status c = SC_POSTED \/ sc_status c = SC_CANCELLED -> s' = s) /\
    forall j, j <> i -> row_of (stock_counts (working s')) j = row_of (stock_counts (working s)) j.
Proof.
  intros H. destruct op as [a cl|p q b cl|a cl|a cl|a cl|a cl|a cl]; simpl in H;
    unfold open_stock_count, record_count_entry, mark_stock_count_counted, review_stock_count,
      reopen_stock_count_for_recount, post_stock_count, cancel_stock_count in H;
    try (apply bind_ok in H as (? & s0 & H0 & H); apply raise_if_ok in H0 as [_ <-]);
    apply bind_ok in H as (c & s1 & H1 & H); apply lock_count_ok in H1 as (-> & Hc & _);
    exists c.
  (* a repeated call returns at once *)
  all: try match type of H with (if bool_decide ?P then _ else _) _ = _ =>
         destruct (bool_decide P) eqn:Est;
         [ apply ret_ok in H as [_ <-]; exists c; bools; split_and!;
           [done|done|rewrite Est; by constructor|done|done] |] end.
  all: apply bind_ok in H as (? & s2 & H2 & H); apply raise_if_ok in H2 as [Hst <-]; bools;
       unfold lock_product_for_update, collect_drift, line_drifted, post_line in H;
       repeat count_step H; apply ret_ok in H as [_ <-].
  all: repeat match goal with
       | E : stock_counts (working ?x) = _ |- context [stock_counts (working ?x)] =>
           rewrite E; clear E end.
  2: { exists c. split_and!; [done|done|by constructor| |done].
       intros [E|E]; by rewrite E in Hst. }
  all: match goal with |- context [set_row _ ?f _] =>
         destruct (header_set _ _ f _ Hc) as [Hi Hj] end; eexists; split_and!;
       [done|exact Hi| | |exact Hj].
  all: try (rewrite Hst; intros [|]; congruence).
  all: try (rewrite Hst; constructor).
  - by constructor.
  - intros [E|E]; [by rewrite E in Hst|done].
Qed.

(** Every successful operation on a count moves it along a documented
    transition, repeated calls are no-ops, posted and cancelled counts never
    change again, and no other count is touched. *)
Theorem stock_count_transitions i op s r s' :
  run_count_op i op s = (Ok r, s') ->
  exists c c',
    row_of (stock_counts (working s)) i = Some c /\
    row_of (stock_counts (working s')) i = Some c' /\
    allowed op (sc_status c) (sc_status c') /\
    (sc_status c = SC_POSTED \/ sc_status c = SC_CANCELLED -> s' = s) /\
    forall j, j <> i -> row_of (stock_counts (working s')) j = row_of (stock_counts (working s)) j.
Proof. apply count_op_transition. Qed.

(** A count of both products, counted with one unit of product 1 missing. *)
Definition demo_counting : session database :=
  after (review_stock_count 1 (Some 2) None)
   (after (mark_stock_count_counted 1 (Some 1) None)
    (after (record_count_entry 1 2 12500 1 None)
     (after (record_count_entry 1 1 39000 1 None)
      (after (open_stock_count 1 (Some 1) None)
       (after (create_stock_count 1 None [2; 1] None (Some 1) (Some 1)) demo))))).

Lemma stock_count_transitions_witness :
  exists c c',
    row_of (stock_counts (working demo_counting)) 1 = Some c /\
    row_of (stock_counts (working (after (post_stock_count 1 2 None) demo_counting))) 1 = Some c' /\
    allowed (C_post 2 None) (sc_status c) (sc_status c').
Proof.
  assert (H : run_count_op 1 (C_post 2 None) demo_counting
              = (Ok 1, after (post_stock_count 1 2 None) demo_counting)) by (by vm_compute).
  destruct (stock_count_transitions 1 (C_post 2 None) demo_counting 1 _ H)
    as (c & c' & H1 & H2 & H3 & _).
  exact (ex_intro _ c (ex_intro _ c' (conj H1 (conj H2 H3)))).
Defined.

(** ** Drift *)

Lemma collect_drift_run (s : session database) lines drifted :
  (forall il, il ∈ lines ->
     is_Some (row_of (products (working s)) (scl_product_id il.2)) /\ is_Some (expected_quantity il.2)) ->
  fold_m (fun drifted il => b ← line_drifted il; mret (drifted || b)) lines drifted s
  = (Ok (drifted || existsb (fun il =>
       match row_of (products (working s)) (scl_product_id il.2), expected_quantity il.2 with
       | Some p, Some e => negb (current_qty_on_hand p =? e)
       | _, _ => false
       end) lines), s).
Proof.
  revert drifted. induction lines as [|il lines IH]; intros drifted Hl; simpl.
  { by rewrite orb_false_r. }
  destruct (Hl il) as [[p Hp] [e He]]; [left|].
  assert (Hd : line_drifted il s = (Ok (negb (current_qty_on_hand p =? e)), s)).
  { unfold line_drifted, lock_product_for_update. simpl.
    unfold mbind, M_bind, get, gets, of_option. simpl. by rewrite Hp, He. }
  erewrite bind_ok_intro by (by rewrite (bind_ok_intro _ _ _ _ _ Hd)).
  rewrite IH by (intros; apply Hl; by right). rewrite Hp, He. by rewrite orb_assoc.
Qed.

(** If any counted product's quantity has moved since its snapshot, posting
    is refused as a whole: the call fails with the drift error and the database
    is exactly as it was. *)
Theorem post_stock_count_drift i actor caller s c il p e :
  row_of (stock_counts (working s)) i = Some c ->
  store_denied caller (sc_store_id c) = false -> sc_status c = SC_REVIEWED ->
  let lines := counted_lines (lines_of_count (working s) i) in
  (forall il, il ∈ lines ->
     is_Some (row_of (products (working s)) (scl_product_id il.2)) /\ is_Some (expected_quantity il.2)) ->
  il ∈ lines -> row_of (products (working s)) (scl_product_id il.2) = Some p ->
  expected_quantity il.2 = Some e -> current_qty_on_hand p <> e ->
  post_stock_count i actor caller s = (Raise (ConflictError "STOCK_COUNT_DRIFT_DETECTED"), s).
Proof.
  intros Hc Hd Hst lines Hl Hil Hp He Hne.
  assert (Hlock : lock_count i caller s = (Ok c, s)).
  { unfold lock_count, enforce_store_access, raise_if.
    erewrite bind_ok_intro by reflexivity.
    erewrite bind_ok_intro by (unfold of_option; simpl; by rewrite Hc). by rewrite Hd. }
  unfold post_stock_count. rewrite (bind_ok_intro _ _ _ _ _ Hlock), Hst. simpl.
  erewrite bind_ok_intro by reflexivity. erewrite bind_ok_intro by reflexivity.
  fold lines. rewrite bool_decide_eq_false_2; [|by destruct lines; [apply elem_of_nil in Hil|]].
  erewrite bind_ok_intro by reflexivity.
  erewrite bind_ok_intro by (apply collect_drift_run, Hl).
  apply bind_raise. simpl.
  enough (existsb (fun il => match row_of (products (working s)) (scl_product_id il.2), expected_quantity il.2 with
       | Some p, Some e => negb (current_qty_on_hand p =? e)
       | _, _ => false end) lines = true) as -> by done.
  apply existsb_exists. exists il. split; [by apply list_elem_of_In|].
  rewrite Hp, He. by apply negb_true_iff, Z.eqb_neq.
Qed.

(** The same count after 2.000 of product 2 were written off. *)
Definition demo_drifted : session database :=
  after (create_stock_adjustment 1 2 (-2000) DAMAGE None 2 None None None) demo_counting.

Lemma post_stock_count_drift_witness :
  post_stock_count 1 2 None demo_drifted
  = (Raise (ConflictError "STOCK_COUNT_DRIFT_DETECTED"), demo_drifted).
Proof.
  set (lines := counted_lines (lines_of_count (working demo_drifted) 1)).
  assert (Hl : forall il, il ∈ lines ->
     is_Some (row_of (products (working demo_drifted)) (scl_product_id il.2)) /\
     is_Some (expected_quantity il.2)).
  { apply Forall_forall, (bool_decide_unpack _). by vm_compute. }
  destruct (lines !! 1%nat) as [il|] eqn:El; [|by vm_compute in El].
  assert (Hil : il ∈ lines) by (by eapply list_elem_of_lookup_2).
  destruct (row_of (stock_counts (working demo_drifted)) 1) as [c|] eqn:Ec; [|by vm_compute in Ec].
  destruct (row_of (products (working demo_drifted)) (scl_product_id il.2)) as [p|] eqn:Ep;
    [|destruct (Hl il Hil) as [[? Hx] _]; by rewrite Hx in Ep].
  destruct (expected_quantity il.2) as [e|] eqn:Ee; [|destruct (Hl il Hil) as [_ [? Hx]]; by rewrite Hx in Ee].
  apply (post_stock_count_drift 1 2 None demo_drifted c il p e Ec); [done| |exact Hl|exact Hil|done|done|].
  - vm_compute in Ec. by injection Ec as <-.
  - vm_compute in El. injection El as <-. vm_compute in Ep, Ee.
    injection Ep as <-. injection Ee as <-. done.
Defined.

(** ** What posting does *)

Lemma adjustment_products st pid q r n by_ sc caller s i s' :
  create_stock_adjustment st pid q r n by_ sc None caller s = (Ok i, s') ->
  exists p, row_of (products (working s)) pid = Some p /\
    products (working s') = set_row pid (with_stock (current_qty_on_hand p + q) None)
                              (products (working s)).
Proof.
  intros [H|H]%create_stock_adjustment_ok; [by destruct H as (k & w & s1 & ? & _)|].
  destruct H as (a & s1 & <- & <- & <- & _ & _ & _ & _ & -> & -> & _ & H).
  apply apply_adjustment_ok in H as (p & s2 & pd & log & Hp & _ & Hw & Hpost).
  simpl in Hp, Hw. exists p. split; [done|].
  apply post_frame in Hpost as [-> _]. by rewrite Hw.
Qed.

Lemma post_line_ok i st n actor il s s' :
  post_line i st n actor il s = (Ok tt, s') ->
  exists p q, row_of (products (working s)) (scl_product_id il.2) = Some p /\
    counted_quantity il.2 = Some q /\
    (forall j, j <> scl_product_id il.2 ->
       row_of (products (working s')) j = row_of (products (working s)) j) /\
    row_of (products (working s')) (scl_product_id il.2) = Some (with_stock q None p).
Proof.
  unfold post_line. intros H.
  apply bind_ok in H as (p & s1 & H1 & H). apply lock_product_ok in H1 as [Hp ->].
  apply bind_ok in H as (q & s1 & H1 & H). apply of_option_ok in H1 as [Hq <-].
  exists p, q. split; [done|]. split; [done|].
  destruct (Z.eqb_spec (q - current_qty_on_hand p) 0) as [E|E].
  - apply ret_ok in H as [_ <-]. split; [done|]. rewrite Hp. f_equal.
    replace q with (current_qty_on_hand p) by lia. by destruct p.
  - apply bind_ok in H as (k & s1 & H1 & H). apply ret_ok in H as [_ <-].
    apply adjustment_products in H1 as (p' & Hp' & ->).
    rewrite Hp in Hp'. injection Hp' as <-.
    replace (current_qty_on_hand p + (q - current_qty_on_hand p)) with q by lia.
    split; [intros; by apply row_of_set_ne|by apply row_of_set_eq].
Qed.

Lemma line_drifted_ok il s b s' :
  line_drifted il s = (Ok b, s') ->
  s' = s /\ exists p e, row_of (products (working s)) (scl_product_id il.2) = Some p /\
    expected_quantity il.2 = Some e /\ b = negb (current_qty_on_hand p =? e).
Proof.
  unfold line_drifted. intros H.
  apply bind_ok in H as (p & s1 & H1 & H). apply lock_product_ok in H1 as [Hp ->].
  apply bind_ok in H as (e & s1 & H1 & H). apply of_option_ok in H1 as [He <-].
  apply ret_ok in H as [<- <-]. eauto 10.
Qed.

(** Posting goes on only when every line agrees with the ledger. *)
Lemma collect_drift_ok lines s s' :
  collect_drift lines s = (Ok false, s') ->
  s' = s /\ forall il, il ∈ lines -> exists p,
    row_of (products (working s)) (scl_product_id il.2) = Some p /\
    expected_quantity il.2 = Some (current_qty_on_hand p).
Proof.
  unfold collect_drift. intros H.
  eapply (fold_m_ok_ind _ (fun done b s1 => s1 = s /\ (b = false -> forall il, il ∈ done ->
    exists p, row_of (products (working s)) (scl_product_id il.2) = Some p /\
      expected_quantity il.2 = Some (current_qty_on_hand p)))) in H.
  - destruct H as [-> H]. auto.
  - split; [done|]. by intros _ il ?%elem_of_nil.
  - intros dn x rest b1 s1 b2 s2 _ [-> Hd] H1.
    apply bind_ok in H1 as (b & s3 & H1 & H2). apply ret_ok in H2 as [<- <-].
    apply line_drifted_ok in H1 as [-> (p & e & Hp & He & ->)]. split; [done|].
    intros Hb il [Hil|Hil]%elem_of_app; bools; [by apply Hd|].
    apply list_elem_of_singleton in Hil as ->. exists p. split; [done|].
    match goal with E : _ = e |- _ => by rewrite E end.
Qed.

Lemma post_lines_ok i st n actor lines s s' :
  NoDup (map (fun il => scl_product_id il.2) lines) ->
  for_each (post_line i st n actor) lines s = (Ok tt, s') ->
  (forall il, il ∈ lines -> exists p q,
     row_of (products (working s)) (scl_product_id il.2) = Some p /\ counted_quantity il.2 = Some q /\
     row_of (products (working s')) (scl_product_id il.2) = Some (with_stock q None p)) /\
  (forall j, j ∉ map (fun il => scl_product_id il.2) lines ->
     row_of (products (working s')) j = row_of (products (working s)) j).
Proof.
  intros Hnd H.
  apply (for_each_ok_ind _ (fun done s' =>
    (forall il, il ∈ done -> exists p q,
       row_of (products (working s)) (scl_product_id il.2) = Some p /\ counted_quantity il.2 = Some q /\
       row_of (products (working s')) (scl_product_id il.2) = Some (with_stock q None p)) /\
    (forall j, j ∉ map (fun il => scl_product_id il.2) done ->
       row_of (products (working s')) j = row_of (products (working s)) j))) in H; [done| |].
  { split; [by intros il ?%elem_of_nil|done]. }
  intros dn x rest s1 s2 -> [Hdone Hrest] H1.
  apply post_line_ok in H1 as (p & q & Hp & Hq & Hoth & Hset).
  rewrite map_app in Hnd. apply NoDup_app in Hnd as (_ & Hdis & _).
  assert (Hx : scl_product_id x.2 ∉ map (fun il => scl_product_id il.2) dn).
  { intros Hin. apply (Hdis _ Hin). simpl. left. }
  split.
  - intros il [Hil|Hil]%elem_of_app.
    + destruct (Hdone il Hil) as (p' & q' & H1 & H2 & H3). exists p', q'.
      rewrite Hoth; [done|]. intros E. apply Hx. rewrite <- E. apply list_elem_of_fmap. eauto.
    + apply list_elem_of_singleton in Hil as ->. exists p, q. rewrite <- Hrest by done. done.
  - intros j Hj. rewrite map_app in Hj. rewrite Hoth, Hrest; [done|set_solver|set_solver].
Qed.

(** C25: Posting a reviewed count commits, in one transaction, a state in which
    every counted product has exactly its counted quantity at unchanged cost and
    every other product is untouched, and the count is posted. *)
Theorem post_stock_count_corrects i actor caller s c s' :
  row_of (stock_counts (working s)) i = Some c -> sc_status c = SC_REVIEWED ->
  let lines := counted_lines (lines_of_count (working s) i) in
  NoDup (map (fun il => scl_product_id il.2) lines) ->
  post_stock_count i actor caller s = (Ok i, s') ->
  committed s' = working s' /\
  (forall il, il ∈ lines -> exists p q,
     row_of (products (working s)) (scl_product_id il.2) = Some p /\
     expected_quantity il.2 = Some (current_qty_on_hand p) /\ counted_quantity il.2 = Some q /\
     row_of (products (working s')) (scl_product_id il.2) = Some (with_stock q None p)) /\
  (forall j, j ∉ map (fun il => scl_product_id il.2) lines ->
     row_of (products (working s')) j = row_of (products (working s)) j) /\
  exists c', row_of (stock_counts (working s')) i = Some c' /\ sc_status c' = SC_POSTED.
Proof.
  intros Hc Hst lines Hnd H.
  destruct (count_op_transition i (C_post actor caller) s i s' H)
    as (c0 & c' & Hc0 & Hc' & Hal & _).
  rewrite Hc in Hc0. injection Hc0 as <-.
  assert (Hposted : sc_status c' = SC_POSTED) by (rewrite Hst in Hal; by inversion Hal).
  unfold post_stock_count in H.
  apply bind_ok in H as (c1 & s1 & H1 & H). apply lock_count_ok in H1 as (-> & Hc1 & _).
  rewrite Hc in Hc1. injection Hc1 as <-. rewrite Hst in H. simpl in H.
  apply bind_ok in H as (? & s1 & H1 & H). apply ret_ok in H1 as [_ <-].
  apply bind_ok in H as (? & s1 & H1 & H). apply gets_ok in H1 as [-> <-]. fold lines in H.
  apply bind_ok in H as (? & s1 & H1 & H). apply raise_if_ok in H1 as [_ <-].
  apply bind_ok in H as (drifted & s1 & Hdr & H).
  apply bind_ok in H as (? & s2 & H2 & H). apply raise_if_ok in H2 as [-> <-].
  apply collect_drift_ok in Hdr as [-> Hexp].
  apply bind_ok in H as ([] & s2 & Hposts & H). apply post_lines_ok in Hposts as [Hin Hout]; [|done].
  apply bind_ok in H as (now & s3 & H3 & H). apply asks_ok in H3 as [_ <-].
  apply bind_ok in H as (? & s3 & H3 & H). apply update_ok in H3 as (? & _ & _ & _ & ->).
  apply bind_ok in H as (? & s3 & H3 & H). apply log_event_ok in H3 as ->.
  apply bind_ok in H as (? & s3 & H3 & H). apply commit_ok in H3 as (_ & Hw & Hcm).
  apply ret_ok in H as [_ <-]. rewrite Hcm, Hw. simpl. split; [done|]. split; [|split; [done|]].
  - intros il Hil. destruct (Hin il Hil) as (p & q & Hp & Hq & Hp').
    destruct (Hexp il Hil) as (p0 & Hp0 & He). rewrite Hp in Hp0. injection Hp0 as <-.
    exists p, q. done.
  - exists c'. rewrite <- Hc', Hw. done.
Qed.

Lemma post_stock_count_corrects_witness :
  let s' := after (post_stock_count 1 2 None) demo_counting in
  committed s' = working s' /\
  (current_qty_on_hand <$> row_of (products (working s')) 1) = Some 39000.
Proof.
  intros s'. split; [|by vm_compute].
  destruct (row_of (stock_counts (working demo_counting)) 1) as [c|] eqn:Ec; [|by vm_compute in Ec].
  assert (Hst : sc_status c = SC_REVIEWED) by (vm_compute in Ec; by injection Ec as <-).
  assert (Hnd : NoDup (map (fun il => scl_product_id il.2)
                  (counted_lines (lines_of_count (working demo_counting) 1))))
    by (apply (bool_decide_unpack _); by vm_compute).
  assert (H : post_stock_count 1 2 None demo_counting = (Ok 1, s')) by (by vm_compute).
  exact (proj1 (post_stock_count_corrects 1 2 None demo_counting c s' Ec Hst Hnd H)).
Defined.

(** ** Count numbers *)

(** The number of a count is its store and the second it is created in, and
    numbers are unique: a second count of the store within the same second
    never succeeds. *)
Theorem create_stock_count_same_second st cat ps n by_ caller s c i :
  row_of (stock_counts (working s)) i = Some c -> count_number c = (st, utc_now (env s)) ->
  forall r s', create_stock_count st cat ps n by_ caller s <> (Ok r, s').
Proof.
  intros Hc Hn r s' H. unfold create_stock_count in H.
  apply bind_ok in H as (? & s1 & H1 & H). apply enforce_store_access_ok in H1 as [_ <-].
  apply bind_ok in H as (? & s1 & H1 & H). apply get_ok in H1 as [_ <-].
  apply bind_ok in H as (? & s1 & H1 & H). apply raise_if_ok in H1 as [_ <-].
  apply bind_ok in H as (? & s1 & H1 & H). apply gets_ok in H1 as [_ <-].
  apply bind_ok in H as (? & s1 & H1 & H). apply raise_if_ok in H1 as [_ <-].
  apply bind_ok in H as (? & s1 & H1 & H). apply gets_ok in H1 as [_ <-].
  apply bind_ok in H as (? & s1 & H1 & H). apply raise_if_ok in H1 as [_ <-].
  apply bind_ok in H as (? & s1 & H1 & H). apply gets_ok in H1 as [_ <-].
  apply bind_ok in H as (? & s1 & H1 & H). apply raise_if_ok in H1 as [_ <-].
  apply bind_ok in H as (num & s1 & H1 & H). injection H1 as <- <-.
  apply bind_ok in H as (k & s1 & H1 & H). apply add_ok in H1 as (_ & _ & Hu & _).
  assert (Hf := unique_violation_None _ _ Hu _ _ ltac:(left) c ltac:(by eapply row_of_elem)).
  simpl in Hf. rewrite Hn in Hf. by rewrite bool_decide_eq_true_2 in Hf.
Qed.

Lemma create_stock_count_same_second_witness :
  let s := after (create_stock_count 1 None [1] None (Some 1) (Some 1)) demo in
  ~ exists r s', create_stock_count 1 None [2] None (Some 1) (Some 1) s = (Ok r, s').
Proof.
  intros s (r & s' & H). revert H.
  apply (create_stock_count_same_second 1 None [2] None (Some 1) (Some 1) s
           (new_count 1 (1, 1750000000) None None (Some 1)) 1).
  - by vm_compute.
  - done.
Defined.
