(* ===== verification/Shifts.v ===== *)
(** * Cashier shifts

    app/modules/shifts/service.py: opening a till session, cash movements,
    the expected cash derived from the shift's own sales, returns and movements,
    and closing with the variance posted to the books. *)

From S2P Require Import Prelude Fixed Session Schema Tables Platform Chart Fixture Journal.
From S2P Require Import Posting Inventory.

Definition SHIFT_OVERRIDE : string := "shift.override".

(** ** Lookups *)

Definition open_shift_of (cashier : Z) (_ : Z) (sh : CashierShift) : bool :=
  (shift_cashier_id sh =? cashier) && bool_decide (shift_status sh = SHIFT_OPEN).

Definition get_active_shift_for_cashier (cashier : Z) : Tx (option (Z * CashierShift)) :=
  found ← query (open_shift_of cashier);
  scalar_one_or_none found.

(** The same query [FOR UPDATE]. *)
Definition lock_active_shift_for_cashier (cashier : Z) : Tx (option (Z * CashierShift)) :=
  get_active_shift_for_cashier cashier.

Definition find_shift (key : string) : Tx (option (Z * CashierShift)) :=
  found ← query (fun _ sh => bool_decide (shift_client_transaction_id sh = key));
  scalar_one_or_none found.

Definition find_closed_shift (key : string) : Tx (option (Z * CashierShift)) :=
  found ← query (fun _ sh => same_key (close_client_transaction_id sh) (Some key));
  scalar_one_or_none found.

Definition find_cash_movement (key : string) : Tx (option (Z * CashMovement)) :=
  found ← query (fun _ m => bool_decide (cm_client_transaction_id m = key));
  scalar_one_or_none found.

(** ** Opening *)

Definition new_shift (store cashier : Z) (float_ : money) (now : Z) (key : string) : CashierShift :=
  mkShift store cashier SHIFT_OPEN float_ now key None None None None None None.

Definition open_shift (store_id cashier : Z) (float_ : money) (key : string)
    (caller_store_id : option Z) : Tx Z :=
  existing ← find_shift key;
  match existing with
  | Some (i, _) => mret i
  | None =>
      _ ← raise_if (float_ <? 0) (ValidationAppError "INVALID_OPENING_FLOAT");
      _ ← enforce_store_access caller_store_id store_id;
      store ← get store_id;
      _ ← raise_if (negb (match store with Some st => store_is_active st | None => false end))
            NotFoundError;
      active ← get_active_shift_for_cashier cashier;
      _ ← raise_if (opt_some active) (ConflictError "SHIFT_ALREADY_OPEN");
      now ← datetime_now_utc;
      inserted ← except_integrity
        (i ← add (new_shift store_id cashier float_ now key); mret (i, true))
        (fun e => _ ← rollback;
                  winner ← find_shift key;
                  match winner with
                  | Some (i, _) => mret (i, false)
                  | None => active ← get_active_shift_for_cashier cashier;
                            _ ← raise_if (opt_some active) (ConflictError "SHIFT_ALREADY_OPEN");
                            raise e
                  end);
      if snd (inserted : Z * bool)
      then _ ← log_event (Some cashier) "SHIFT_OPENED" "cashier_shift" (Some (fst inserted));
           mret (fst inserted)
      else mret (fst inserted)
  end.

(** ** The shift's own cashier, or an override *)

Definition authorize_actor (actor shift_id : Z) (sh : CashierShift) (rejected : string) : Tx unit :=
  if actor =? shift_cashier_id sh then mret tt
  else
    actor_permissions ← get_user_permissions actor;
    if existsb (String.eqb SHIFT_OVERRIDE) actor_permissions then mret tt
    else _ ← log_event (Some actor) rejected "cashier_shift" (Some shift_id);
         _ ← commit;
         raise (ForbiddenError "SHIFT_OVERRIDE_REQUIRED").

(** ** Cash movements *)

Definition record_cash_movement (shift_id : Z) (ty : CashMovementType) (amount : money)
    (reason : string) (created_by : Z) (key : string) (caller_store_id : option Z) : Tx Z :=
  existing ← find_cash_movement key;
  match existing with
  | Some (i, _) => mret i
  | None =>
      _ ← raise_if (amount <=? 0) (ValidationAppError "INVALID_AMOUNT");
      found ← get shift_id;
      sh ← of_option found NotFoundError;
      _ ← enforce_store_access caller_store_id (shift_store_id sh);
      _ ← authorize_actor created_by shift_id sh "CASH_MOVEMENT_REJECTED";
      _ ← raise_if (negb (bool_decide (shift_status sh = SHIFT_OPEN))) (ConflictError "SHIFT_NOT_OPEN");
      inserted ← except_integrity
        (i ← add {| cm_shift_id := shift_id; cm_movement_type := ty; cm_amount := amount;
                    cm_reason := reason; cm_created_by := created_by;
                    cm_client_transaction_id := key |}; mret (i, true))
        (fun e => _ ← rollback;
                  winner ← find_cash_movement key;
                  match winner with
                  | Some (i, _) => mret (i, false)
                  | None => raise e
                  end);
      if snd (inserted : Z * bool)
      then _ ← log_event (Some created_by) "CASH_MOVEMENT_CREATED" "cashier_shift" (Some shift_id);
           mret (fst inserted)
      else mret (fst inserted)
  end.

(** ** Expected cash *)

Definition sale_of_shift (d : database) (shift_id sale_id : Z) : bool :=
  match row_of (sales d) sale_id with
  | Some sale => same_key (sale_shift_id sale) (Some shift_id)
  | None => false
  end.

Definition cash_tendered (d : database) (shift_id : Z) : money :=
  sum_where (fun p => sale_of_shift d shift_id (payment_sale_id p)
                      && bool_decide (payment_method p = CASH)) payment_amount (payments d).

Definition change_given (d : database) (shift_id : Z) : money :=
  sum_where (fun sale => same_key (sale_shift_id sale) (Some shift_id))
    (fun sale => default 0 (change_due sale)) (sales d).

Definition cash_refunded (d : database) (shift_id : Z) : money :=
  sum_where (fun r => same_key (return_shift_id r) (Some shift_id)
                      && bool_decide (refund_method r = CASH)) refund_amount (sale_returns d).

Definition cash_moved (ty : CashMovementType) (d : database) (shift_id : Z) : money :=
  sum_where (fun m => (cm_shift_id m =? shift_id) && bool_decide (cm_movement_type m = ty))
    cm_amount (cash_movements d).

Definition _compute_expected_cash (shift_id : Z) (sh : CashierShift) : Tx money :=
  gets (fun d => opening_float sh + cash_tendered d shift_id - change_given d shift_id
                 - cash_refunded d shift_id + cash_moved PAID_IN d shift_id
                 - cash_moved PAID_OUT d shift_id).

(** ** Closing *)

(** The attribute assignments of the close. *)
Definition closed_shift (now : Z) (counted expected variance : money) (actor : Z) (key : string)
    (sh : CashierShift) : CashierShift :=
  mkShift (shift_store_id sh) (shift_cashier_id sh) SHIFT_CLOSED (opening_float sh)
    (shift_opened_at sh) (shift_client_transaction_id sh) (Some now) (Some counted)
    (Some expected) (Some variance) (Some actor) (Some key).

Definition close_shift (shift_id : Z) (counted : money) (actor : Z) (caller_store_id : option Z)
    (key : string) : Tx Z :=
  existing ← find_closed_shift key;
  match existing with
  | Some (i, _) => mret i
  | None =>
      _ ← raise_if (counted <? 0) (ValidationAppError "INVALID_COUNTED_AMOUNT");
      found ← get shift_id;
      sh ← of_option found NotFoundError;
      _ ← enforce_store_access caller_store_id (shift_store_id sh);
      again ← find_closed_shift key;
      match again with
      | Some (i, _) => mret i
      | None =>
          _ ← authorize_actor actor shift_id sh "SHIFT_CLOSE_REJECTED";
          _ ← raise_if (negb (bool_decide (shift_status sh = SHIFT_OPEN)))
                (ConflictError "SHIFT_NOT_OPEN");
          _ ← log_event (Some actor) "SHIFT_CLOSE_INITIATED" "cashier_shift" (Some shift_id);
          expected ← _compute_expected_cash shift_id sh;
          let variance := counted - expected in
          now ← datetime_now_utc;
          let closing := closed_shift now counted expected variance actor key in
          saved ← except_integrity (_ ← update shift_id closing; mret (shift_id, true))
            (fun e => _ ← rollback;
                      winner ← find_closed_shift key;
                      match winner with
                      | Some (i, _) => mret (i, false)
                      | None => raise e
                      end);
          if snd (saved : Z * bool)
          then _ ← log_event (Some actor) "SHIFT_CLOSED" "cashier_shift" (Some shift_id);
               _ ← post_cash_shift_variance_journal shift_id (closing sh) (Some actor);
               mret shift_id
          else mret (fst saved)
      end
  end.

(** ** Invariants *)

Record shifts_wf (d : database) : Prop := {
  sh_one_open : forall i j a b,
    row_of (cashier_shifts d) i = Some a -> row_of (cashier_shifts d) j = Some b ->
    shift_status a = SHIFT_OPEN -> shift_status b = SHIFT_OPEN ->
    shift_cashier_id a = shift_cashier_id b -> i = j;
  sh_fields : forall i a, row_of (cashier_shifts d) i = Some a -> shift_fields_consistent a = true;
  sh_variance : forall i a, row_of (cashier_shifts d) i = Some a -> shift_variance_consistent a = true;
}.

Lemma keeps_shifts_frame {A} (m : Tx A) :
  fixes committed m -> fixes (fun s => cashier_shifts (working s)) m -> keeps shifts_wf m.
Proof.
  apply (keeps_frame _ (fun d => cashier_shifts d)).
  intros d d' E [? ? ?]. constructor; by rewrite E.
Qed.

#[export] Hint Extern 3 (keeps shifts_wf _) =>
  (apply keeps_shifts_frame; solve [solve_fixes]) : keeps.

(** A row that passed the flush checks. *)
Lemma shift_row_valid d a :
  row_valid d a -> shift_fields_consistent a = true /\ shift_variance_consistent a = true.
Proof.
  intros Hv. split.
  - by eapply (row_valid_elem d a "ck_cashier_shifts_closing_fields_consistent");
      [exact Hv|simpl; do 3 right; left].
  - by eapply (row_valid_elem d a "ck_cashier_shifts_variance_consistent");
      [exact Hv|simpl; do 4 right; left].
Qed.

Lemma shift_unique_open a t b :
  unique_violation a t = None -> b ∈ t -> shift_status a = SHIFT_OPEN ->
  shift_status b = SHIFT_OPEN -> shift_cashier_id a <> shift_cashier_id b.
Proof.
  intros Hu Hb Ha Hbo E.
  assert (Hf := unique_violation_None _ _ Hu "uq_cashier_shifts_one_open_per_cashier" _
                  ltac:(right; left) b Hb).
  simpl in Hf. rewrite Ha, Hbo, E, Z.eqb_refl in Hf. done.
Qed.

Lemma add_shift_keeps (a : CashierShift) : keeps shifts_wf (add a).
Proof.
  intros s H1 H2. destruct (add a s) as [[i|e] s'] eqn:E.
  - apply add_ok in E as (_ & Hv & Hu & ->). split; [done|]. simpl.
    apply shift_row_valid in Hv as [Hf Hvar].
    constructor; simpl; [|intros i' x [Hi|[-> ->]]%row_of_inv_app..].
    + intros i' j x y [Hi|[-> ->]]%row_of_inv_app [Hj|[-> ->]]%row_of_inv_app Hx Hy Hc;
        [by eapply (sh_one_open _ H2)| | |done]; exfalso.
      * by eapply (shift_unique_open a); [exact Hu|eapply row_of_elem|..].
      * by eapply (shift_unique_open a); [exact Hu|eapply row_of_elem|..].
    + by apply (sh_fields _ H2 i').
    + done.
    + by apply (sh_variance _ H2 i').
    + done.
  - assert (Hf : fixes committed (add a)) by solve_fixes. specialize (Hf s).
    rewrite E in Hf. simpl in Hf. by rewrite Hf.
Qed.

Lemma close_row_keeps i now c e v actor key :
  keeps shifts_wf (update i (closed_shift now c e v actor key)).
Proof.
  intros s H1 H2. destruct (update i _ s) as [[[]|x] s'] eqn:E.
  - apply update_ok in E as (r & Hr & Hv & _ & ->). split; [done|]. simpl in *.
    apply shift_row_valid in Hv as [Hf Hvar].
    constructor; simpl.
    + intros i' j a b. rewrite !row_of_set. repeat case_bool_decide; subst; try done.
      * rewrite Hr. by intros [= <-].
      * rewrite Hr. by intros _ [= <-].
      * by apply (sh_one_open _ H2).
    + intros j a. rewrite row_of_set. case_bool_decide; [subst; rewrite Hr; by intros [= <-]|].
      apply (sh_fields _ H2).
    + intros j a. rewrite row_of_set. case_bool_decide; [subst; rewrite Hr; by intros [= <-]|].
      apply (sh_variance _ H2).
  - assert (Hf : fixes committed (update i (closed_shift now c e v actor key))) by solve_fixes.
    specialize (Hf s). rewrite E in Hf. simpl in Hf. by rewrite Hf.
Qed.

#[export] Hint Resolve add_shift_keeps close_row_keeps : keeps.

Ltac shift_parts :=
  unfold open_shift, record_cash_movement, close_shift, authorize_actor, find_shift,
    find_closed_shift, find_cash_movement, get_active_shift_for_cashier, _compute_expected_cash.

Ltac shift_ops := shift_parts; unfold post_cash_shift_variance_journal, _post_standard, posted.

Lemma shift_ops_keep :
  (forall st c f k cl, keeps shifts_wf (open_shift st c f k cl)) /\
  (forall i ty a r by_ k cl, keeps shifts_wf (record_cash_movement i ty a r by_ k cl)) /\
  (forall i c a cl k, keeps shifts_wf (close_shift i c a cl k)).
Proof. shift_ops. split_and!; solve_keeps. Qed.

(** ** What closing does *)

Lemma authorize_actor_ok actor i sh rej s s' :
  authorize_actor actor i sh rej s = (Ok tt, s') ->
  s' = s /\ (actor = shift_cashier_id sh \/
    exists ps, get_user_permissions actor s = (Ok ps, s) /\ SHIFT_OVERRIDE ∈ ps).
Proof.
  unfold authorize_actor. destruct (Z.eqb_spec actor (shift_cashier_id sh)).
  { intros [_ <-]%ret_ok. auto. }
  intros H. apply bind_ok in H as (ps & s1 & H1 & H).
  assert (s1 = s) as -> by (apply gets_ok in H1 as [_ <-]; done).
  destruct (existsb _ ps) eqn:E.
  - apply ret_ok in H as [_ <-]. split; [done|right]. exists ps. split; [done|].
    apply existsb_exists in E as (p & Hp & He%String.eqb_eq). subst. by apply list_elem_of_In.
  - apply bind_ok in H as (? & s2 & _ & H). by apply bind_ok in H as (? & s3 & _ & H).
Qed.

Lemma find_closed_shift_ok key s o s' :
  find_closed_shift key s = (Ok o, s') ->
  s' = s /\ select (fun _ sh => same_key (close_client_transaction_id sh) (Some key))
              (cashier_shifts (working s)) = match o with Some x => [x] | None => [] end.
Proof.
  unfold find_closed_shift. intros H. apply bind_ok in H as (l & s1 & H1 & H).
  apply query_ok in H1 as [-> <-]. apply scalar_one_or_none_ok in H as [<- H]. by destruct o.
Qed.

(** No shift was closed under [key]. *)
Definition close_key_fresh (d : database) (key : string) : Prop :=
  forall sh, sh ∈ cashier_shifts d -> close_client_transaction_id sh <> Some key.

Lemma close_key_fresh_select d key :
  close_key_fresh d key ->
  select (fun _ sh => same_key (close_client_transaction_id sh) (Some key)) (cashier_shifts d) = [].
Proof.
  intros Hf. apply select_nil. intros i sh Hi%row_of_elem.
  specialize (Hf sh Hi). unfold same_key. destruct (close_client_transaction_id sh); [|done].
  apply bool_decide_eq_false_2. congruence.
Qed.

Definition expected_cash (d : database) (i : Z) (sh : CashierShift) : money :=
  opening_float sh + cash_tendered d i - change_given d i - cash_refunded d i
  + cash_moved PAID_IN d i - cash_moved PAID_OUT d i.

Lemma cash_variance_net v code :
  v <> 0 ->
  spec_net (cash_variance_lines v) code
  = (if bool_decide (ACCOUNT_CASH_ON_HAND = code) then ledger_of_money v else 0)
    - (if bool_decide (ACCOUNT_CASH_OVER_SHORT = code) then ledger_of_money v else 0).
Proof.
  intros Hv. unfold cash_variance_lines, ledger_of_money.
  destruct (Z.ltb_spec 0 v); rewrite spec_net_pair; repeat case_bool_decide; lia.
Qed.

(** The audit rows a close writes. *)
Definition close_event (actor i : Z) (act : string) : AuditLog :=
  {| audit_user_id := Some actor; action := act; entity_type := "cashier_shift"; entity_id := Some i |}.

Lemma close_shift_ok i counted actor caller key s r s' :
  committed s = working s -> close_key_fresh (working s) key ->
  close_shift i counted actor caller key s = (Ok r, s') ->
  exists sh s1 posted_id,
    row_of (cashier_shifts (working s)) i = Some sh /\ shift_status sh = SHIFT_OPEN /\
    store_denied caller (shift_store_id sh) = false /\ 0 <= counted /\ r = i /\
    (actor = shift_cashier_id sh \/
     exists ps, get_user_permissions actor s = (Ok ps, s) /\ SHIFT_OVERRIDE ∈ ps) /\
    let expected := expected_cash (working s) i sh in
    let closing := closed_shift (utc_now (env s)) counted expected (counted - expected) actor key in
    working s1 = over_audit_logs (fun t => t ++ [close_event actor i "SHIFT_CLOSED"])
      (over_cashier_shifts (set_row i closing)
        (over_audit_logs (fun t => t ++ [close_event actor i "SHIFT_CLOSE_INITIATED"]) (working s))) /\
    post (P_cash_variance i (closing sh)) (Some actor) s1 = (Ok posted_id, s').
Proof.
  intros Hcw Hf H. unfold close_shift in H.
  pose proof (close_key_fresh_select _ _ Hf) as Hsel.
  assert (Hnone : forall (s0 : session database) x s2,
    working s0 = working s -> find_closed_shift key s0 = (Ok x, s2) -> x = None /\ s2 = s0).
  { intros s0 x s2 E Hx. apply find_closed_shift_ok in Hx as [-> Hx].
    rewrite E, Hsel in Hx. by destruct x. }
  apply bind_ok in H as (o & s0 & H0 & H). apply Hnone in H0 as [-> ->]; [|done].
  apply bind_ok in H as (? & s0 & H0 & H). apply raise_if_ok in H0 as [Hc <-].
  apply bind_ok in H as (o & s0 & H0 & H). apply get_ok in H0 as [-> <-].
  apply bind_ok in H as (sh & s0 & H0 & H). apply of_option_ok in H0 as [Hsh <-].
  apply bind_ok in H as (? & s0 & H0 & H). apply enforce_store_access_ok in H0 as [Hd <-].
  apply bind_ok in H as (o & s0 & H0 & H). apply Hnone in H0 as [-> ->]; [|done].
  apply bind_ok in H as ([] & s0 & H0 & H). apply authorize_actor_ok in H0 as [-> Hauth].
  apply bind_ok in H as (? & s0 & H0 & H). apply raise_if_ok in H0 as [Hst <-].
  apply bind_ok in H as (? & s0 & H0 & H). apply log_event_ok in H0 as ->.
  apply bind_ok in H as (e & s0 & H0 & H). apply gets_ok in H0 as [-> <-].
  apply bind_ok in H as (now & s0 & H0 & H). apply asks_ok in H0 as [-> <-].
  apply bind_ok in H as ([k b] & s0 & H0 & H).
  apply except_integrity_ok in H0 as [H0|(c & s1 & H1 & H0)].
  - apply bind_ok in H0 as (? & s1 & H0 & H1). apply ret_ok in H1 as [[= <- <-] <-].
    apply update_ok in H0 as (sh' & Hsh' & _ & _ & ->).
    apply bind_ok in H as (? & s1 & H1 & H). apply log_event_ok in H1 as ->.
    apply bind_ok in H as (pd & s1 & H1 & H). apply ret_ok in H as [<- <-].
    exists sh. eexists _, pd. bools. split_and!; try done. split; [|exact H1]. done.
  - exfalso. apply bind_ok in H0 as ([] & s2 & H2 & H0). injection H2 as <-.
    apply bind_ok in H0 as (w & s3 & H3 & H0).
    assert (Hfix : forall f : CashierShift -> CashierShift, fixes committed (_ ← update i f; mret (i, true) : Tx (Z * bool)))
      by (intros; solve_fixes).
    match type of H1 with (_ ← update i ?f; _) ?s4 = _ => specialize (Hfix f s4) end.
    rewrite H1 in Hfix. simpl in Hfix.
    apply Hnone in H3 as [-> ->]; [done|]. simpl. by rewrite Hfix.
Qed.

(** C26: Closing an open shift freezes the expected cash computed from its own
    float, sales, refunds and movements, records the variance as counted minus
    expected, leaves every other shift alone, and books exactly the variance from
    cash over/short to cash on hand. *)
Theorem close_shift_effect i counted actor caller key s r s' :
  ledger_wf (working s) -> committed s = working s -> close_key_fresh (working s) key ->
  close_shift i counted actor caller key s = (Ok r, s') ->
  exists sh posted_id,
    row_of (cashier_shifts (working s)) i = Some sh /\ shift_status sh = SHIFT_OPEN /\
    let expected := expected_cash (working s) i sh in
    let variance := counted - expected in
    row_of (cashier_shifts (working s')) i
    = Some (closed_shift (utc_now (env s)) counted expected variance actor key sh) /\
    (forall j, j <> i ->
       row_of (cashier_shifts (working s')) j = row_of (cashier_shifts (working s)) j) /\
    posted_net (working s') posted_id ACCOUNT_CASH_ON_HAND = ledger_of_money variance /\
    posted_net (working s') posted_id ACCOUNT_CASH_OVER_SHORT = - ledger_of_money variance.
Proof.
  intros Hwf Hcw Hf H.
  apply close_shift_ok in H as (sh & s1 & pd & Hsh & Hst & _ & _ & -> & _ & Hw & Hp); [|done|done].
  exists sh, pd. split; [done|]. split; [done|]. cbn zeta in *.
  assert (Hsh' : cashier_shifts (working s') = cashier_shifts (working s1)).
  { apply (fixes_run (fun s => cashier_shifts (working s))) in Hp; [done|].
    simpl. unfold post_cash_shift_variance_journal, _post_standard, posted. solve_fixes. }
  rewrite Hsh', Hw. cbn [tills_tables over_audit_logs over_trail over_cashier_shifts over_tills
    tills_cashier_shifts]. simpl.
  split; [by apply row_of_set_eq|]. split; [intros; by apply row_of_set_ne|].
  rewrite !(fun code => post_net _ _ _ _ _ code
    ltac:(eapply ledger_wf_ext; [|exact Hwf]; by rewrite Hw) Hp).
  simpl. destruct (Z.eqb_spec (counted - expected_cash (working s) i sh) 0) as [E|E].
  - rewrite E. done.
  - rewrite !cash_variance_net by done. simpl. lia.
Qed.

(** A till with a 100.00 float, a 20.00 paid-in, and 118.50 counted. *)
Definition demo_till : session database :=
  let s := after (open_shift 1 1 10000 "open-1" (Some 1)) demo in
  let s := after (record_cash_movement 1 PAID_IN 2000 "change" 1 "move-1" (Some 1)) s in
  session_on (working s).

Lemma demo_till_wf : ledger_wf (working demo_till).
Proof. apply empty_ledger_wf; by vm_compute. Qed.

Lemma close_shift_effect_witness :
  let s' := after (close_shift 1 11850 1 (Some 1) "close-1") demo_till in
  exists sh posted_id,
    row_of (cashier_shifts (working demo_till)) 1 = Some sh /\
    expected_cash (working demo_till) 1 sh = 12000 /\
    posted_net (working s') posted_id ACCOUNT_CASH_ON_HAND
    = ledger_of_money (11850 - expected_cash (working demo_till) 1 sh).
Proof.
  intros s'.
  assert (H : close_shift 1 11850 1 (Some 1) "close-1" demo_till = (Ok 1, s')) by (by vm_compute).
  assert (Hf : close_key_fresh (working demo_till) "close-1")
    by (unfold close_key_fresh; apply Forall_forall, (bool_decide_unpack _); by vm_compute).
  destruct (close_shift_effect 1 11850 1 (Some 1) "close-1" demo_till 1 s' demo_till_wf eq_refl Hf H)
    as (sh & pd & Hsh & _ & _ & _ & Hn & _).
  assert (He : expected_cash (working demo_till) 1 sh = 12000)
    by (vm_compute in Hsh; injection Hsh as <-; by vm_compute).
  exact (ex_intro _ sh (ex_intro _ pd (conj Hsh (conj He Hn)))).
Defined.

(** ** Authorization *)

(** Someone else's close attempt without the override permission fails, and
    the only thing it leaves behind, even though the request rolls back, is the
    committed audit record of the rejection. *)
Theorem close_shift_unauthorized i counted actor caller key s sh ps :
  committed s = working s -> ledger_wf (working s) -> close_key_fresh (working s) key ->
  0 <= counted -> row_of (cashier_shifts (working s)) i = Some sh ->
  store_denied caller (shift_store_id sh) = false ->
  actor <> shift_cashier_id sh ->
  get_user_permissions actor s = (Ok ps, s) -> SHIFT_OVERRIDE ∉ ps ->
  let r := run_request (close_shift i counted actor caller key) s in
  r.1 = Raise (ForbiddenError "SHIFT_OVERRIDE_REQUIRED") /\
  committed r.2 = over_audit_logs
    (fun t => t ++ [close_event actor i "SHIFT_CLOSE_REJECTED"]) (working s).
Proof.
  intros Hcw Hwf Hf Hc Hsh Hd Hne Hps Hov.
  pose proof (close_key_fresh_select _ _ Hf) as Hsel.
  assert (Hnone : find_closed_shift key s = (Ok None, s)).
  { unfold find_closed_shift. erewrite bind_ok_intro by reflexivity. simpl. by rewrite Hsel. }
  set (d' := over_audit_logs (fun t => t ++ [close_event actor i "SHIFT_CLOSE_REJECTED"]) (working s)).
  assert (Hok : deferred_ok d' = true) by (by apply ledger_wf_deferred_ok, (ledger_wf_ext (working s))).
  assert (Hclose : close_shift i counted actor caller key s
    = (Raise (ForbiddenError "SHIFT_OVERRIDE_REQUIRED"),
       mkSession d' d' (env s) (draws s) (approval_windows s))).
  { unfold close_shift. rewrite (bind_ok_intro _ _ _ _ _ Hnone).
    erewrite bind_ok_intro; [|unfold raise_if; destruct (Z.ltb_spec counted 0); [lia|reflexivity]].
    erewrite bind_ok_intro by reflexivity.
    erewrite bind_ok_intro by (unfold of_option; simpl; by rewrite Hsh).
    erewrite bind_ok_intro by (unfold enforce_store_access; by rewrite Hd).
    rewrite (bind_ok_intro _ _ _ _ _ Hnone). apply bind_raise.
    unfold authorize_actor. rewrite (proj2 (Z.eqb_neq _ _) Hne).
    rewrite (bind_ok_intro _ _ _ _ _ Hps).
    destruct (existsb (String.eqb SHIFT_OVERRIDE) ps) eqn:E.
    { apply existsb_exists in E as (p & Hp & He%String.eqb_eq). subst.
      destruct Hov. by apply list_elem_of_In. }
    rewrite (bind_ok_intro _ _ s tt (with_working d' s)) by done.
    assert (Hcommit : commit (with_working d' s)
      = (Ok tt, mkSession d' d' (env s) (draws s) (approval_windows s)))
      by (unfold commit; change (working (with_working d' s)) with d'; by rewrite Hok).
    by rewrite (bind_ok_intro _ _ _ _ _ Hcommit). }
  unfold run_request. rewrite (bind_raise _ _ _ _ _ Hclose). done.
Qed.

(** A cashier without permissions tries to close the till of a colleague. *)
Lemma close_shift_unauthorized_witness :
  let s := session_on (working (after (open_shift 1 2 10000 "open-2" (Some 1)) demo)) in
  (run_request (close_shift 1 9000 1 (Some 1) "close-2") s).1
  = Raise (ForbiddenError "SHIFT_OVERRIDE_REQUIRED").
Proof.
  intros s.
  destruct (row_of (cashier_shifts (working s)) 1) as [sh|] eqn:Esh; [|by vm_compute in Esh].
  assert (Hsh : sh = new_shift 1 2 10000 1750000000 "open-2")
    by (vm_compute in Esh; by injection Esh as <-).
  assert (Hf : close_key_fresh (working s) "close-2")
    by (unfold close_key_fresh; apply Forall_forall, (bool_decide_unpack _); by vm_compute).
  assert (Hl : ledger_wf (working s)) by (apply empty_ledger_wf; by vm_compute).
  refine (proj1 (close_shift_unauthorized 1 9000 1 (Some 1) "close-2" s sh [] eq_refl Hl Hf
                   _ Esh _ _ _ _)); subst sh; [lia|done|done|by vm_compute|].
  apply not_elem_of_nil.
Defined.
