(* ===== verification/Fiscal.v ===== *)
(** * Fiscal submissions

    app/modules/fiscal/service.py: the outbox row a sale writes in its own
    transaction, the retried submission to a provider, and its configuration.
    Providers are external: [providers] resolves a name to an adapter, whose
    answer to a payload may differ from attempt to attempt. *)

From S2P Require Import Prelude Fixed Session Schema Tables Platform Fixture.

(** fiscal.models.is_terminal_fiscal_status *)
Definition is_terminal_fiscal_status (st : FiscalStatus) : bool :=
  match st with FS_ACKNOWLEDGED | FS_REJECTED | FS_EXHAUSTED => true | _ => false end.

(** ** The outbox row *)

Definition payload_line (it : SaleItem) : Z * qty * money * money * option Z * money * money :=
  (item_product_id it, item_quantity it, unit_price_at_sale it, item_discount_amount it,
   item_tax_rate_id it, item_tax_amount it, line_total it).

Definition _build_fiscal_payload (sale_id : Z) (sale : Sale) (items : list (Z * SaleItem))
    : FiscalPayload :=
  {| fp_sale_id := sale_id; fp_store_id := sale_store_id sale; fp_sale_number := sale_number sale;
     fp_completed_at := completed_at sale; fp_subtotal := subtotal sale;
     fp_discount_total := discount_total sale; fp_tax_total := tax_total sale;
     fp_grand_total := grand_total sale; fp_lines := map (fun it => payload_line it.2) items |}.

Definition get_config (store_id : Z) : Tx (option (Z * FiscalConfig)) :=
  found ← query (fun _ c => fc_store_id c =? store_id);
  scalar_one_or_none found.

Definition create_fiscal_submission_if_enabled (sale_id : Z) (sale : Sale) : Tx (option Z) :=
  config ← get_config (sale_store_id sale);
  match config with
  | None => mret None
  | Some (_, c) =>
      if negb (is_enabled c) then mret None
      else
        items ← query (fun _ it => item_sale_id it =? sale_id);
        i ← add (mkFiscalSubmission sale_id (sale_store_id sale) FS_PENDING (fc_provider_name c) 0
                   (retry_max_attempts c) (_build_fiscal_payload sale_id sale items) None);
        mret (Some i)
  end.

(** ** Submission *)

Inductive provider_answer :=
  | PA_outcome (acknowledged : bool) (reference : option string)
  | PA_error
  | PA_raises (e : exn).

Section Submission.
Variable providers : string -> option (FiscalPayload -> Z -> provider_answer).

Definition attempted (f : FiscalSubmission) : FiscalSubmission :=
  mkFiscalSubmission (fs_sale_id f) (fs_store_id f) (fs_status f) (fs_provider_name f)
    (attempt_count f + 1) (max_attempts f) (request_payload f) (fiscal_reference f).

Definition answered (st : FiscalStatus) (ref : option string) (f : FiscalSubmission)
    : FiscalSubmission :=
  mkFiscalSubmission (fs_sale_id f) (fs_store_id f) st (fs_provider_name f)
    (attempt_count f) (max_attempts f) (request_payload f) ref.

(** The status a transient failure leaves. *)
Definition failed_status (f : FiscalSubmission) : FiscalStatus :=
  if max_attempts f <=? attempt_count f then FS_EXHAUSTED else FS_FAILED.

Definition submit_fiscal_transaction (submission_id : Z) : Tx Z :=
  found ← get submission_id;
  submission ← of_option found NotFoundError;
  if is_terminal_fiscal_status (fs_status submission) then mret submission_id
  else
    config ← get_config (fs_store_id submission);
    if negb (match config with Some (_, c) => is_enabled c | None => false end)
    then mret submission_id
    else
      provider ← of_option (providers (fs_provider_name submission)) NotFoundError;
      let trying := attempted submission in
      match provider (request_payload submission) (attempt_count trying) with
      | PA_raises e => raise e
      | PA_error =>
          _ ← update submission_id (fun f =>
                answered (failed_status (attempted f)) (fiscal_reference f) (attempted f));
          mret submission_id
      | PA_outcome ack ref =>
          _ ← update submission_id (fun f =>
                answered (if ack then FS_ACKNOWLEDGED else FS_REJECTED) ref (attempted f));
          mret submission_id
      end.

(** The background task: its own session, commit on success, and every
    exception swallowed after a rollback. *)
Definition run_pending_fiscal_submission_in_background (submission_id : Z)
    (s : session database) : session database :=
  (run_request (submit_fiscal_transaction submission_id) s).2.
End Submission.

Definition upsert_config (store_id : Z) (enabled : bool) (provider : string) (max_tries : Z)
    (updated_by : Z) : Tx Z :=
  config ← get_config store_id;
  let row := {| fc_store_id := store_id; is_enabled := enabled; fc_provider_name := provider;
                retry_max_attempts := max_tries |} in
  config_id ← match config with
              | Some (i, _) => _ ← update i (fun _ => row); mret i
              | None => add row
              end;
  _ ← log_event (Some updated_by) "FISCAL_CONFIG_UPDATED" "fiscal_config" (Some config_id);
  mret config_id.

(** ** The provider is called at most [max_attempts] times *)

(** A submission that can still be tried has attempts left. *)
Definition submission_wf (f : FiscalSubmission) : Prop :=
  0 <= attempt_count f /\ 0 < max_attempts f /\ attempt_count f <= max_attempts f /\
  (is_terminal_fiscal_status (fs_status f) = false -> attempt_count f < max_attempts f).

(** One submission row: what an attempt makes of it. *)
Definition resubmitted (f f' : FiscalSubmission) : Prop :=
  f' = f \/
  (is_terminal_fiscal_status (fs_status f) = false /\ attempt_count f' = attempt_count f + 1 /\
   max_attempts f' = max_attempts f /\ request_payload f' = request_payload f).

Lemma get_config_fixes {X} (g : session database -> X) store s r s' :
  get_config store s = (r, s') -> g s' = g s.
Proof.
  intros H. assert (Hf : fixes g (get_config store)) by (unfold get_config; solve_fixes).
  specialize (Hf s). by rewrite H in Hf.
Qed.

(** An attempt either leaves the row as it is (a terminal status, a disabled
    store, an unregistered provider, an adapter that crashes) or counts one more
    attempt of an open submission with its frozen payload; no attempt takes the
    count past the maximum, a submission out of attempts is terminal, and the
    other submissions are untouched. *)
Theorem submit_fiscal_transaction_attempts providers i s r s' f :
  row_of (fiscal_submissions (working s)) i = Some f -> submission_wf f ->
  submit_fiscal_transaction providers i s = (r, s') ->
  exists f', row_of (fiscal_submissions (working s')) i = Some f' /\
    resubmitted f f' /\ submission_wf f' /\
    forall j, j <> i ->
      row_of (fiscal_submissions (working s')) j = row_of (fiscal_submissions (working s)) j.
Proof.
  intros Hf (H0 & Hm & Hle & Hlt) H.
  assert (Hsame : s' = s -> exists f', row_of (fiscal_submissions (working s')) i = Some f' /\
    resubmitted f f' /\ submission_wf f' /\ forall j, j <> i ->
      row_of (fiscal_submissions (working s')) j = row_of (fiscal_submissions (working s)) j).
  { intros ->. exists f. split_and!; [done|by left|done|done]. }
  unfold submit_fiscal_transaction in H.
  rewrite (bind_ok_intro _ _ s (Some f) s) in H by (unfold get, gets; simpl; by rewrite Hf).
  erewrite bind_ok_intro in H by reflexivity.
  destruct (is_terminal_fiscal_status (fs_status f)) eqn:Et.
  { injection H as <- <-. by apply Hsame. }
  assert (Hlt' : attempt_count f < max_attempts f) by auto.
  assert (Hupd : forall g,
    (_ ← update i g; mret i) s = (r, s') -> resubmitted f (g f) -> submission_wf (g f) ->
    exists f', row_of (fiscal_submissions (working s')) i = Some f' /\
      resubmitted f f' /\ submission_wf f' /\ forall j, j <> i ->
        row_of (fiscal_submissions (working s')) j = row_of (fiscal_submissions (working s)) j).
  { intros g Hg Hr Hw. destruct (update_cases i g s) as [[e E]|E].
    - rewrite (bind_raise _ _ _ _ _ E) in Hg. injection Hg as <- <-. by apply Hsame.
    - rewrite (bind_ok_intro _ _ _ _ _ E) in Hg. injection Hg as <- <-. simpl. exists (g f).
      split_and!; [by apply row_of_set_eq|done|done|]. intros j Hj. by apply row_of_set_ne. }
  destruct (get_config (fs_store_id f) s) as [[c|e] s1] eqn:Ec.
  2: { rewrite (bind_raise _ _ _ _ _ Ec) in H. injection H as <- <-. apply Hsame.
       by apply (get_config_fixes id) in Ec. }
  assert (s1 = s) as -> by (by apply (get_config_fixes id) in Ec).
  rewrite (bind_ok_intro _ _ _ _ _ Ec) in H.
  destruct (negb _); [injection H as <- <-; by apply Hsame|].
  destruct (providers (fs_provider_name f)) as [provider|]; [|injection H as <- <-; by apply Hsame].
  erewrite bind_ok_intro in H by reflexivity.
  destruct (provider _ _) as [ack ref| |e]; [| |injection H as <- <-; by apply Hsame].
  - apply Hupd in H; [done|right; by destruct f|].
    unfold submission_wf. simpl. destruct ack; split_and!; try lia; done.
  - apply Hupd in H; [done|right; by destruct f|].
    unfold submission_wf, failed_status. simpl.
    destruct (Z.leb_spec (max_attempts f) (attempt_count f + 1)); split_and!; try lia; done.
Qed.

Definition demo_submission : FiscalSubmission :=
  mkFiscalSubmission 1 1 FS_FAILED "FAKE" 2 3
    {| fp_sale_id := 1; fp_store_id := 1; fp_sale_number := Build_DocumentNumber 1 0 0;
       fp_completed_at := None; fp_subtotal := 0; fp_discount_total := 0; fp_tax_total := 0;
       fp_grand_total := 0; fp_lines := [] |} None.

(** The third attempt of three fails: the submission is exhausted. *)
Lemma submit_fiscal_transaction_attempts_witness :
  let d := over_fiscal_configs (fun _ => [{| fc_store_id := 1; is_enabled := true;
             fc_provider_name := "FAKE"; retry_max_attempts := 3 |}])
             (over_fiscal_submissions (fun _ => [demo_submission]) demo_database) in
  let s := session_on (over_sales (fun _ =>
             [mkSale 1 (Build_DocumentNumber 1 0 0) "k" 1 COMPLETED 0 0 0 0 None None None None]) d) in
  let providers := fun _ : string => Some (fun (_ : FiscalPayload) (_ : Z) => PA_error) in
  let s' := after (submit_fiscal_transaction providers 1) s in
  (fs_status <$> row_of (fiscal_submissions (working s')) 1) = Some FS_EXHAUSTED /\
  exists f', row_of (fiscal_submissions (working s')) 1 = Some f' /\ resubmitted demo_submission f' /\
    submission_wf f'.
Proof.
  intros d s providers s'. split; [by vm_compute|].
  assert (Hw : submission_wf demo_submission) by (unfold submission_wf; simpl; split_and!; lia).
  destruct (submit_fiscal_transaction_attempts providers 1 s (Ok 1) s' demo_submission eq_refl Hw
              ltac:(by vm_compute)) as (f' & H1 & H2 & H3 & _).
  exact (ex_intro _ f' (conj H1 (conj H2 H3))).
Defined.
