(* ===== verification/Sales.v ===== *)
(** * Finalizing a sale

    app/modules/sales/service.py, [finalize_sale]: guards and idempotency, the
    product locks, stock verification, the server-side pricing of every line,
    payment validation, and the one transaction that writes the sale, its items,
    the ledger movements, the payments, the journal and the fiscal outbox row. *)

From S2P Require Import Prelude Fixed Session Schema Tables Platform Chart Fixture Journal.
From S2P Require Import Posting Inventory Shifts Fiscal.

(** ** Inputs and computed lines *)

Record SaleLineInput := {
  sl_product_id : Z;
  sl_quantity : qty;
  sl_discount : money;
}.

Notation PaymentInput := (PaymentMethod * money)%type (only parsing).

Record ComputedLine := {
  cl_product_id : Z;
  cl_quantity : qty;
  cl_unit_price : money;
  cl_unit_cost : cost;
  cl_discount : money;
  cl_tax_rate_id : option Z;
  cl_tax_amount : money;
  cl_line_total : money;
  cl_line_subtotal : money;
}.

(** [_round_money] of a quantity times a price. *)
Definition price_of (q : qty) (price : money) : money := div_half_up (q * price) 1000.

(** [_round_money(taxable * rate_percent / 100)] *)
Definition tax_of (taxable : money) (rate : Z) : money := div_half_up (taxable * rate) 100000.

Definition _generate_sale_number (store_id : Z) : Tx DocumentNumber :=
  now ← datetime_now_utc;
  token ← draw_token;
  mret {| dn_store := store_id; dn_second := now; dn_token := token |}.

(** ** Tax *)

Definition tax_effective (today : Z) (t : TaxRate) : bool :=
  tax_is_active t && (effective_from t <=? today) && opt_all (Z.leb today) (effective_to t).

Definition _resolve_tax (p : Product) : Tx (option Z * Z) :=
  match product_tax_rate_id p with
  | None => mret (None, 0)
  | Some tid =>
      rate ← get tid;
      now ← datetime_now_utc;
      match rate with
      | Some t => if tax_effective (date_of now) t then mret (Some tid, rate_percent t)
                  else raise (ConflictError "PRODUCT_TAX_CONFIGURATION_INVALID")
      | None => raise (ConflictError "PRODUCT_TAX_CONFIGURATION_INVALID")
      end
  end.

(** ** Locks and stock *)

Definition lock_product (store_id : Z) (locked : list (Z * Product)) (product_id : Z)
    : Tx (list (Z * Product)) :=
  product ← except_no_result (lock_product_for_update product_id) NotFoundError;
  _ ← raise_if (negb (product_store_id product =? store_id)) (ConflictError "STORE_MISMATCH");
  _ ← raise_if (negb (product_is_active product)) (ConflictError "PRODUCT_INACTIVE");
  mret (dict_set product_id product locked).

Definition lock_products (store_id : Z) (lines : list SaleLineInput) : Tx (list (Z * Product)) :=
  fold_m (lock_product store_id) (sorted_set (map sl_product_id lines)) [].

(** [requested_qty]: the quantities of a product scanned more than once add up. *)
Definition requested_quantities (lines : list SaleLineInput) : Tx (list (Z * qty)) :=
  fold_m (fun requested l =>
      _ ← raise_if (sl_quantity l <=? 0) (ValidationAppError "INVALID_QUANTITY");
      mret (dict_add (sl_product_id l) (sl_quantity l) requested)) lines [].

Definition verify_stock (locked : list (Z * Product)) (requested : list (Z * qty)) : Tx unit :=
  for_each (fun kq : Z * qty =>
      product ← of_option (dict_get kq.1 locked) KeyError;
      let would_be := current_qty_on_hand product - kq.2 in
      raise_if ((would_be <? 0) && negb (allow_negative_stock product))
        (ConflictError "INSUFFICIENT_STOCK")) requested.

(** ** Pricing *)

Definition compute_line (locked : list (Z * Product)) (l : SaleLineInput) : Tx ComputedLine :=
  product ← of_option (dict_get (sl_product_id l) locked) KeyError;
  let line_subtotal := price_of (sl_quantity l) (current_price product) in
  _ ← raise_if (line_subtotal <? sl_discount l) (ValidationAppError "INVALID_DISCOUNT");
  let taxable_amount := line_subtotal - sl_discount l in
  tax ← _resolve_tax product;
  let tax_amount := tax_of taxable_amount tax.2 in
  mret {| cl_product_id := sl_product_id l; cl_quantity := sl_quantity l;
          cl_unit_price := current_price product; cl_unit_cost := current_cost product;
          cl_discount := sl_discount l; cl_tax_rate_id := tax.1; cl_tax_amount := tax_amount;
          cl_line_total := taxable_amount + tax_amount; cl_line_subtotal := line_subtotal |}.

Definition compute_lines (locked : list (Z * Product)) (lines : list SaleLineInput)
    : Tx (list ComputedLine) :=
  fold_m (fun computed l => c ← compute_line locked l; mret (computed ++ [c])) lines [].

(** The running totals of the pricing loop. *)
Definition subtotal_of (cs : list ComputedLine) : money := sum_by cl_line_subtotal cs.
Definition discount_of (cs : list ComputedLine) : money := sum_by cl_discount cs.
Definition tax_total_of (cs : list ComputedLine) : money := sum_by cl_tax_amount cs.
Definition grand_total_of (cs : list ComputedLine) : money :=
  subtotal_of cs - discount_of cs + tax_total_of cs.

(** ** Payment *)

Definition paid (ps : list PaymentInput) : money := sum_by snd ps.

Definition non_cash_paid (ps : list PaymentInput) : money :=
  sum_where (fun p => negb (bool_decide (p.1 = CASH))) snd ps.

(** Returns [change_due]. *)
Definition validate_payment (grand : money) (ps : list PaymentInput) : Tx money :=
  _ ← raise_if (grand <? non_cash_paid ps) (ConflictError "OVERPAYMENT_NOT_ALLOWED");
  _ ← raise_if (paid ps <? grand) (ConflictError "INSUFFICIENT_PAYMENT");
  mret (paid ps - grand).

(** ** Writing the sale *)

Definition find_sale (key : string) : Tx (option (Z * Sale)) :=
  found ← query (fun _ x => bool_decide (sale_client_transaction_id x = key));
  scalar_one_or_none found.

Definition insert_sale (key : string) (sale : Sale) : Tx (Z * bool) :=
  except_integrity (i ← add sale; mret (i, true))
    (fun e => _ ← rollback;
              winner ← find_sale key;
              match winner with
              | None => raise e
              | Some (i, _) => mret (i, false)
              end).

Definition sale_item_row (sale_id : Z) (c : ComputedLine) : SaleItem :=
  mkSaleItem sale_id (cl_product_id c) (cl_quantity c) (cl_unit_price c) (cl_unit_cost c)
    (cl_discount c) (cl_tax_rate_id c) (cl_tax_amount c) (cl_line_total c) 0.

Definition sale_movement (store_id sale_id cashier : Z) (c : ComputedLine) : MovementArgs :=
  {| ma_store_id := store_id; ma_type := MT_SALE; ma_delta := - cl_quantity c;
     ma_unit_cost := cl_unit_cost c; ma_reference_type := RT_sale;
     ma_reference_id := Some sale_id; ma_reason := None; ma_created_by := Some cashier;
     ma_new_cost := None |}.

Definition write_line (store_id sale_id cashier : Z) (c : ComputedLine) : Tx unit :=
  _ ← add (sale_item_row sale_id c);
  _ ← record_movement (cl_product_id c) (sale_movement store_id sale_id cashier c);
  mret tt.

Definition write_payment (sale_id : Z) (p : PaymentInput) : Tx unit :=
  _ ← add {| payment_sale_id := sale_id; payment_method := p.1; payment_amount := p.2 |};
  mret tt.

(** Everything after the sale row: items, movements, payments, audit, journal,
    fiscal outbox. *)
Definition write_sale_details (store_id sale_id cashier : Z) (sale : Sale)
    (computed : list ComputedLine) (ps : list PaymentInput) : Tx unit :=
  _ ← for_each (write_line store_id sale_id cashier) computed;
  _ ← for_each (write_payment sale_id) ps;
  _ ← log_event (Some cashier) "SALE_COMPLETED" "sale" (Some sale_id);
  _ ← post_sale_journal sale_id sale (map (fun c => (cl_quantity c, cl_unit_cost c)) computed) ps
        (Some cashier);
  _ ← create_fiscal_submission_if_enabled sale_id sale;
  mret tt.

Definition new_sale (store_id cashier : Z) (number : DocumentNumber) (key : string)
    (cs : list ComputedLine) (ps : list PaymentInput) (change : money) (now : Z)
    (shift : option Z) : Sale :=
  mkSale store_id number key cashier COMPLETED (subtotal_of cs) (discount_of cs) (tax_total_of cs)
    (grand_total_of cs) (Some (paid ps)) (Some change) (Some now) shift.

(** ** The transaction *)

(** From the locks to the validated payment: nothing is written yet. *)
Definition price_cart (store_id : Z) (lines : list SaleLineInput) (ps : list PaymentInput)
    : Tx (list ComputedLine * money) :=
  _ ← raise_if (bool_decide (length lines = 0%nat)) (ValidationAppError "EMPTY_CART");
  _ ← raise_if (bool_decide (length ps = 0%nat)) (ValidationAppError "NO_PAYMENT");
  store ← get store_id;
  _ ← raise_if (negb (match store with Some st => store_is_active st | None => false end))
        NotFoundError;
  locked ← lock_products store_id lines;
  requested ← requested_quantities lines;
  _ ← verify_stock locked requested;
  computed ← compute_lines locked lines;
  change ← validate_payment (grand_total_of computed) ps;
  mret (computed, change).

Definition finalize_sale (store_id cashier : Z) (key : string) (caller_store_id : option Z)
    (lines : list SaleLineInput) (ps : list PaymentInput) : Tx Z :=
  _ ← enforce_store_access caller_store_id store_id;
  existing ← find_sale key;
  match existing with
  | Some (i, _) => mret i
  | None =>
      priced ← price_cart store_id lines ps;
      active_shift ← lock_active_shift_for_cashier cashier;
      number ← _generate_sale_number store_id;
      now ← datetime_now_utc;
      let sale := new_sale store_id cashier number key (fst priced) ps (snd priced) now
                    (fst <$> active_shift) in
      inserted ← insert_sale key sale;
      if snd (inserted : Z * bool)
      then _ ← write_sale_details store_id (fst inserted) cashier sale (fst priced) ps;
           mret (fst inserted)
      else mret (fst inserted)
  end.

(** ** What pricing guarantees *)

Definition tax_for (d : database) (now : Z) (p : Product) : option (option Z * Z) :=
  match product_tax_rate_id p with
  | None => Some (None, 0)
  | Some tid =>
      match row_of (tax_rates d) tid with
      | Some t => if tax_effective (date_of now) t then Some (Some tid, rate_percent t) else None
      | None => None
      end
  end.

(** A line priced from the catalogue row [p] at tax [tax]. *)
Definition line_at (l : SaleLineInput) (p : Product) (tax : option Z * Z) : ComputedLine :=
  let subtotal_ := price_of (sl_quantity l) (current_price p) in
  let taxable := subtotal_ - sl_discount l in
  {| cl_product_id := sl_product_id l; cl_quantity := sl_quantity l;
     cl_unit_price := current_price p; cl_unit_cost := current_cost p;
     cl_discount := sl_discount l; cl_tax_rate_id := tax.1; cl_tax_amount := tax_of taxable tax.2;
     cl_line_total := taxable + tax_of taxable tax.2; cl_line_subtotal := subtotal_ |}.

Definition priced (d : database) (now store : Z) (l : SaleLineInput) (c : ComputedLine) : Prop :=
  exists p tax, row_of (products d) (sl_product_id l) = Some p /\
    product_store_id p = store /\ product_is_active p = true /\
    tax_for d now p = Some tax /\ 0 < sl_quantity l /\
    sl_discount l <= price_of (sl_quantity l) (current_price p) /\ c = line_at l p tax.

Definition requested_of (lines : list SaleLineInput) (pid : Z) : qty :=
  sum_where (fun l => sl_product_id l =? pid) sl_quantity lines.

Lemma resolve_tax_ok p s tax s' :
  _resolve_tax p s = (Ok tax, s') -> s' = s /\ tax_for (working s) (utc_now (env s)) p = Some tax.
Proof.
  unfold _resolve_tax, tax_for. destruct (product_tax_rate_id p) as [tid|].
  - intros H. apply bind_ok in H as (o & s1 & H1 & H). apply get_ok in H1 as [-> <-].
    apply bind_ok in H as (now & s1 & H1 & H). apply asks_ok in H1 as [-> <-].
    simpl in *. destruct (row_of _ tid) as [t|]; [|done].
    destruct (tax_effective _ t); [|done]. by apply ret_ok in H as [<- <-].
  - by intros [<- <-]%ret_ok.
Qed.

(** The rows behind the locked dictionary. *)
Definition locked_ok (d : database) (store : Z) (locked : list (Z * Product)) : Prop :=
  forall pid p, dict_get pid locked = Some p ->
    row_of (products d) pid = Some p /\ product_store_id p = store /\ product_is_active p = true.

Lemma lock_products_ok store lines s locked s' :
  lock_products store lines s = (Ok locked, s') -> s' = s /\ locked_ok (working s) store locked.
Proof.
  unfold lock_products. intros H.
  eapply (fold_m_ok_ind _ (fun _ locked s1 => s1 = s /\ locked_ok (working s) store locked)) in H;
    [done|done|].
  intros dn pid rest b1 s1 b2 s2 _ [-> Hb] H1. unfold lock_product in H1.
  apply bind_ok in H1 as (p & s3 & H3 & H1).
  apply except_no_result_ok, lock_product_ok in H3 as [Hp ->].
  apply bind_ok in H1 as (? & s3 & H3 & H1). apply raise_if_ok in H3 as [Hst <-].
  apply bind_ok in H1 as (? & s3 & H3 & H1). apply raise_if_ok in H3 as [Hac <-].
  apply ret_ok in H1 as [<- <-]. split; [done|]. bools.
  intros k q. rewrite dict_get_set. destruct (Z.eqb_spec k pid); [|apply Hb].
  subst. by intros [= <-].
Qed.

Lemma requested_quantities_ok lines s requested s' :
  requested_quantities lines s = (Ok requested, s') ->
  s' = s /\ (forall l, l ∈ lines -> 0 < sl_quantity l /\ is_Some (dict_get (sl_product_id l) requested)) /\
  forall k, default 0 (dict_get k requested) = requested_of lines k.
Proof.
  unfold requested_quantities. intros H.
  eapply (fold_m_ok_ind _ (fun dn requested s1 => s1 = s /\
    (forall l, l ∈ dn -> 0 < sl_quantity l /\ is_Some (dict_get (sl_product_id l) requested)) /\
    forall k, default 0 (dict_get k requested) = requested_of dn k)) in H; [done| |].
  - split_and!; [done|by intros l ?%elem_of_nil|done].
  - intros dn l rest b1 s1 b2 s2 _ (-> & Hpos & Hb) H1.
    apply bind_ok in H1 as (? & s3 & H3 & H1). apply raise_if_ok in H3 as [Hq <-].
    apply ret_ok in H1 as [<- <-]. bools. split_and!; [done| |].
    + intros y Hy. unfold dict_add. rewrite dict_get_set.
      apply elem_of_app in Hy as [Hy|Hy%list_elem_of_singleton].
      * destruct (Hpos y Hy). destruct (_ =? _); eauto.
      * subst. rewrite Z.eqb_refl. eauto.
    + intros k. rewrite dict_get_add, Hb. unfold requested_of.
      rewrite sum_where_app, sum_where_cons, sum_where_nil, (Z.eqb_sym k). lia.
Qed.

Lemma verify_stock_ok locked requested s s' :
  verify_stock locked requested s = (Ok tt, s') ->
  s' = s /\ forall k q, (k, q) ∈ requested -> exists p, dict_get k locked = Some p /\
    (allow_negative_stock p = true \/ q <= current_qty_on_hand p).
Proof.
  unfold verify_stock. intros H.
  eapply (for_each_ok_ind _ (fun dn s1 => s1 = s /\ forall k q, (k, q) ∈ dn ->
    exists p, dict_get k locked = Some p /\
      (allow_negative_stock p = true \/ q <= current_qty_on_hand p))) in H; [done| |].
  - split; [done|]. by intros k q ?%elem_of_nil.
  - intros dn [k q] rest s1 s2 _ [-> Hd] H1.
    apply bind_ok in H1 as (p & s3 & H3 & H1). apply of_option_ok in H3 as [Hp <-].
    apply raise_if_ok in H1 as [Hc <-]. split; [done|]. simpl in *.
    intros k' q' [Hin|Hin%list_elem_of_singleton]%elem_of_app; [by apply Hd|].
    simplify_eq. exists p. split; [done|].
    apply andb_false_iff in Hc as [Hc|Hc]; bools; [right; lia|by left].
Qed.

Lemma compute_lines_ok locked store lines s cs s' :
  locked_ok (working s) store locked -> (forall l, l ∈ lines -> 0 < sl_quantity l) ->
  compute_lines locked lines s = (Ok cs, s') ->
  s' = s /\ Forall2 (priced (working s) (utc_now (env s)) store) lines cs.
Proof.
  intros Hl Hpos H. unfold compute_lines in H.
  eapply (fold_m_ok_ind _ (fun dn cs s1 => s1 = s /\
    Forall2 (priced (working s) (utc_now (env s)) store) dn cs)) in H; [done|done|].
  intros dn l rest b1 s1 b2 s2 -> [-> Hd] H1.
  apply bind_ok in H1 as (c & s3 & H3 & H1). apply ret_ok in H1 as [<- <-].
  unfold compute_line in H3.
  apply bind_ok in H3 as (p & s4 & H4 & H3). apply of_option_ok in H4 as [Hp <-].
  apply bind_ok in H3 as (? & s4 & H4 & H3). apply raise_if_ok in H4 as [Hdisc <-].
  apply bind_ok in H3 as (tax & s4 & H4 & H3). apply resolve_tax_ok in H4 as [-> Htax].
  apply ret_ok in H3 as [<- <-]. split; [done|].
  apply Forall2_app; [done|]. constructor; [|constructor]. bools.
  destruct (Hl _ _ Hp) as (Hr & Hst & Hac). exists p, tax. split_and!; try done.
  apply Hpos. set_solver.
Qed.

Lemma price_cart_ok store lines ps s cs change s' :
  price_cart store lines ps s = (Ok (cs, change), s') ->
  s' = s /\ lines <> [] /\ ps <> [] /\
  Forall2 (priced (working s) (utc_now (env s)) store) lines cs /\
  (forall l p, l ∈ lines -> row_of (products (working s)) (sl_product_id l) = Some p ->
     allow_negative_stock p = true \/ requested_of lines (sl_product_id l) <= current_qty_on_hand p) /\
  change = paid ps - grand_total_of cs /\ 0 <= change /\ non_cash_paid ps <= grand_total_of cs.
Proof.
  unfold price_cart. intros H.
  apply bind_ok in H as (? & s1 & H1 & H). apply raise_if_ok in H1 as [Hl <-].
  apply bind_ok in H as (? & s1 & H1 & H). apply raise_if_ok in H1 as [Hp <-].
  apply bind_ok in H as (st & s1 & H1 & H). apply get_ok in H1 as [-> <-].
  apply bind_ok in H as (? & s1 & H1 & H). apply raise_if_ok in H1 as [Hst <-].
  apply bind_ok in H as (locked & s1 & H1 & H). apply lock_products_ok in H1 as [-> Hlock].
  apply bind_ok in H as (req & s1 & H1 & H). apply requested_quantities_ok in H1 as (-> & Hpos & Hreq).
  apply bind_ok in H as ([] & s1 & H1 & H). apply verify_stock_ok in H1 as [-> Hver].
  apply bind_ok in H as (cs' & s1 & H1 & H).
  apply (compute_lines_ok _ store) in H1 as [-> Hcs]; [|done|intros; by apply Hpos].
  apply bind_ok in H as (ch & s1 & H1 & H). unfold validate_payment in H1.
  apply bind_ok in H1 as (? & s2 & H2 & H1). apply raise_if_ok in H2 as [Hnc <-].
  apply bind_ok in H1 as (? & s2 & H2 & H1). apply raise_if_ok in H2 as [Hins <-].
  apply ret_ok in H1 as [<- <-]. apply ret_ok in H as [[= <- <-] <-]. bools.
  split_and!; try done; [by destruct lines|by destruct ps| |lia].
  intros l p Hin Hrow. destruct (Hpos l Hin) as [_ [q Hq]].
  destruct (Hver (sl_product_id l) q) as (p' & Hp' & Hstock); [by apply dict_get_elem|].
  destruct (Hlock _ _ Hp') as [Hrow' _]. rewrite Hrow in Hrow'. injection Hrow' as <-.
  specialize (Hreq (sl_product_id l)). rewrite Hq in Hreq. simpl in Hreq. by rewrite <- Hreq.
Qed.

(** ** What a new sale writes *)

Definition sold (cs : list ComputedLine) (pid : Z) : qty :=
  sum_where (fun c => cl_product_id c =? pid) cl_quantity cs.

Lemma find_sale_ok key s o s' :
  find_sale key s = (Ok o, s') ->
  s' = s /\ select (fun _ x => bool_decide (sale_client_transaction_id x = key)) (sales (working s))
            = match o with Some ix => [ix] | None => [] end.
Proof.
  unfold find_sale. intros H. apply bind_ok in H as (l & s1 & H1 & H).
  apply query_ok in H1 as [-> <-]. apply scalar_one_or_none_ok in H as [<- H]. by destruct o.
Qed.

Lemma insert_sale_ok key sale s i b s' :
  insert_sale key sale s = (Ok (i, b), s') ->
  (b = true /\ i = next_id (sales (working s)) /\ row_valid (working s) sale /\
   s' = with_working (over_sales (fun t => t ++ [sale]) (working s)) s) \/
  (b = false /\ exists x s1, committed s1 = committed s /\
     find_sale key (with_working (committed s1) s1) = (Ok (Some (i, x)), s')).
Proof.
  unfold insert_sale. intros H.
  apply except_integrity_ok in H as [H|(c & s1 & Hr & H)].
  - apply bind_ok in H as (j & s1 & H1 & H). apply ret_ok in H as [[= <- <-] <-].
    apply add_ok in H1 as (-> & Hv & _ & ->). by left.
  - right. apply bind_ok in H as ([] & s2 & H1 & H). injection H1 as <-.
    apply bind_ok in H as (w & s3 & H1 & H). destruct w as [[j w]|]; [|done].
    apply ret_ok in H as [[= <- <-] <-]. split; [done|]. exists w, s1. split; [|done].
    assert (Hf : fixes committed (i ← add sale; mret (i, true))) by solve_fixes.
    specialize (Hf s). by rewrite Hr in Hf.
Qed.

(** The two ways [finalize_sale] returns: the sale found under the key, or a
    fresh one. *)
Lemma finalize_sale_ok store cashier key caller lines ps s i s' :
  finalize_sale store cashier key caller lines ps s = (Ok i, s') ->
  store_denied caller store = false /\
  ((exists x s1, committed s1 = committed s /\ (s1 = s \/ working s1 = committed s1) /\
      find_sale key s1 = (Ok (Some (i, x)), s')) \/
   (exists cs change number shift s1,
      find_sale key s = (Ok None, s) /\
      price_cart store lines ps s = (Ok (cs, change), s) /\
      lock_active_shift_for_cashier cashier s = (Ok shift, s) /\
      working s1 = working s /\ committed s1 = committed s /\
      let sale := new_sale store cashier number key cs ps change (utc_now (env s)) (fst <$> shift) in
      row_valid (working s) sale /\ i = next_id (sales (working s)) /\
      write_sale_details store i cashier sale cs ps
        (with_working (over_sales (fun t => t ++ [sale]) (working s)) s1) = (Ok tt, s'))).
Proof.
  unfold finalize_sale. intros H.
  apply bind_ok in H as (? & s1 & H1 & H). apply enforce_store_access_ok in H1 as [Hd <-].
  split; [done|].
  apply bind_ok in H as (o & s1 & H1 & H). pose proof H1 as H2. apply find_sale_ok in H2 as [-> _].
  destruct o as [[j old]|].
  { apply ret_ok in H as [<- <-]. left. exists old, s. auto. }
  apply bind_ok in H as ([cs change] & s1 & H2 & H).
  assert (s1 = s) as -> by (by apply price_cart_ok in H2 as [-> _]).
  apply bind_ok in H as (shift & s1 & H3 & H).
  assert (s1 = s) as ->.
  { unfold lock_active_shift_for_cashier, get_active_shift_for_cashier in H3.
    apply bind_ok in H3 as (l & s2 & H4 & H3). apply query_ok in H4 as [_ <-].
    by apply scalar_one_or_none_ok in H3 as [<- _]. }
  apply bind_ok in H as (number & s1 & H4 & H).
  assert (Hs1 : working s1 = working s /\ committed s1 = committed s /\ env s1 = env s)
    by (by injection H4 as _ <-).
  destruct Hs1 as (Hw & Hc & He).
  apply bind_ok in H as (now & s2 & H5 & H). apply asks_ok in H5 as [-> <-]. rewrite He in H.
  apply bind_ok in H as ([j b] & s2 & H5 & H). apply insert_sale_ok in H5.
  destruct H5 as [(-> & -> & Hv & ->)|(-> & old & s3 & Hs3 & Hf)]; simpl in H.
  - apply bind_ok in H as ([] & s2 & H5 & H). apply ret_ok in H as [<- <-]. right.
    rewrite Hw in *. exists cs, change, number, shift, s1. split_and!; done.
  - apply ret_ok in H as [<- <-]. left. exists old, (with_working (committed s3) s3).
    simpl. split_and!; [congruence|by right|done].
Qed.

(** ** Invariants *)

Lemma price_cart_fixes {X} (f : session database -> X) store lines ps :
  fixes f (price_cart store lines ps).
Proof.
  unfold price_cart, lock_products, requested_quantities, verify_stock, compute_lines,
    validate_payment.
  repeat (apply fixes_bind; [|intros]); try solve [solve_fixes];
    unfold lock_product, compute_line, lock_product_for_update, _resolve_tax; solve_fixes.
Qed.

Lemma find_sale_fixes {X} (f : session database -> X) key : fixes f (find_sale key).
Proof. unfold find_sale. solve_fixes. Qed.

Lemma lock_active_shift_fixes {X} (f : session database -> X) c :
  fixes f (lock_active_shift_for_cashier c).
Proof. unfold lock_active_shift_for_cashier, get_active_shift_for_cashier. solve_fixes. Qed.

(** The shift a sale or return is attributed to is open. *)
Definition open_shift_attached (d : database) (shift : option Z) : Prop :=
  forall k, shift = Some k -> exists sh, row_of (cashier_shifts d) k = Some sh /\
    shift_status sh = SHIFT_OPEN.

Lemma active_shift_open cashier s o s' :
  lock_active_shift_for_cashier cashier s = (Ok o, s') -> open_shift_attached (working s) (fst <$> o).
Proof.
  unfold lock_active_shift_for_cashier, get_active_shift_for_cashier. intros H k Hk.
  apply bind_ok in H as (l & s1 & H1 & H). apply query_ok in H1 as [-> <-].
  apply scalar_one_or_none_ok in H as [_ H]. destruct o as [[i sh]|]; [|done]. injection Hk as <-.
  assert (Hin : (i, sh) ∈ select (open_shift_of cashier) (cashier_shifts (working s)))
    by (simpl in H; rewrite H; left).
  apply elem_select in Hin as [Hi Ho]. exists sh. split; [done|].
  unfold open_shift_of in Ho. by bools.
Qed.

#[export] Hint Resolve price_cart_fixes find_sale_fixes lock_active_shift_fixes : fixes.
#[export] Hint Extern 2 (fixes _ (_generate_sale_number _)) => (intros ?; reflexivity) : fixes.

Section KeepsSale.
Context (I : database -> Prop).
Context (frame : forall A (m : Tx A), fixes (fun s => s) m -> keeps I m).
Context (number : forall store, keeps I (_generate_sale_number store)).
Context (add_sale : forall sale : Sale, keeps I (add sale)).
Context (details : forall store i cashier sale cs ps,
  keeps I (write_sale_details store i cashier sale cs ps)).

(** An invariant the individual writes keep is kept by the whole sale. *)
Lemma finalize_sale_keeps store cashier key caller lines ps :
  keeps I (finalize_sale store cashier key caller lines ps).
Proof.
  unfold finalize_sale.
  apply keeps_bind; [apply frame, enforce_store_access_fixes|intros _].
  apply keeps_bind; [apply frame, find_sale_fixes|intros [[i x]|]; [apply keeps_ret|]].
  apply keeps_bind; [apply frame, price_cart_fixes|intros priced_].
  apply keeps_bind; [apply frame, lock_active_shift_fixes|intros shift].
  apply keeps_bind; [apply number|intros n].
  apply keeps_bind; [apply keeps_asks|intros now].
  apply keeps_bind.
  - unfold insert_sale. apply keeps_except_integrity.
    + apply keeps_bind; [apply add_sale|intros; apply keeps_ret].
    + intros e. apply keeps_bind; [apply frame, find_sale_fixes|].
      intros [[]|]; [apply keeps_ret|apply keeps_raise].
  - intros [i []]; simpl; [|apply keeps_ret].
    apply keeps_bind; [apply details|intros; apply keeps_ret].
Qed.
End KeepsSale.

Lemma post_sale_journal_keeps_stock i sale ls ps by_ :
  keeps stock_wf (post_sale_journal i sale ls ps by_).
Proof. unfold post_sale_journal, _post_standard, posted. solve_keeps. Qed.

Lemma create_fiscal_keeps_stock i sale : keeps stock_wf (create_fiscal_submission_if_enabled i sale).
Proof. unfold create_fiscal_submission_if_enabled, get_config. solve_keeps. Qed.

#[export] Hint Resolve post_sale_journal_keeps_stock create_fiscal_keeps_stock : keeps.

Lemma finalize_sale_keeps_stock store cashier key caller lines ps :
  keeps stock_wf (finalize_sale store cashier key caller lines ps).
Proof.
  apply finalize_sale_keeps; intros; [by apply keeps_reads|solve_keeps|solve_keeps|].
  unfold write_sale_details, write_line, write_payment. solve_keeps.
Qed.

(** ** The writes of one sale *)

Definition movement_of_line (store i cashier : Z) (c : ComputedLine) (m : InventoryMovement) : Prop :=
  exists resulting, m = movement_row (cl_product_id c) resulting (sale_movement store i cashier c).

Definition sold_from (d : database) (cs : list ComputedLine) (d' : database) : Prop :=
  forall pid p, row_of (products d) pid = Some p ->
    row_of (products d') pid = Some (with_stock (current_qty_on_hand p - sold cs pid) None p).

Lemma write_lines_ok store i cashier cs s s' :
  for_each (write_line store i cashier) cs s = (Ok tt, s') ->
  committed s' = committed s /\ ledger_tables (working s') = ledger_tables (working s) /\
  sales (working s') = sales (working s) /\ payments (working s') = payments (working s) /\
  sale_items (working s') = sale_items (working s) ++ map (sale_item_row i) cs /\
  sold_from (working s) cs (working s') /\
  exists new, inventory_movements (working s') = inventory_movements (working s) ++ new /\
    Forall2 (movement_of_line store i cashier) cs new.
Proof.
  intros H.
  eapply (for_each_ok_ind _ (fun dn s1 =>
    committed s1 = committed s /\ ledger_tables (working s1) = ledger_tables (working s) /\
    sales (working s1) = sales (working s) /\ payments (working s1) = payments (working s) /\
    sale_items (working s1) = sale_items (working s) ++ map (sale_item_row i) dn /\
    sold_from (working s) dn (working s1) /\
    exists new, inventory_movements (working s1) = inventory_movements (working s) ++ new /\
      Forall2 (movement_of_line store i cashier) dn new)) in H; [done| |].
  - rewrite app_nil_r. split_and!; try done.
    + intros pid p Hp. unfold sold. rewrite sum_where_nil, Z.sub_0_r, Hp. by rewrite with_stock_same.
    + exists []. by rewrite app_nil_r.
  - intros dn c rest s1 s2 _ (Hc & Hl & Hs & Hp & Hi & Hq & new & Hm & Hnew) H1.
    unfold write_line in H1.
    apply bind_ok in H1 as (j & s3 & H3 & H1). apply add_ok in H3 as (_ & _ & _ & ->).
    apply bind_ok in H1 as (k & s3 & H3 & H1). apply ret_ok in H1 as [_ <-].
    apply record_movement_ok in H3 as (p & Hrow & _ & _ & _ & _ & ->). simpl in *.
    rewrite map_app, Hl, Hs, Hp, Hi, Hm, <- !app_assoc. split_and!; try done.
    + intros pid q Hpid. unfold sold. rewrite sum_where_app, sum_where_cons, sum_where_nil.
      simpl. rewrite row_of_set. specialize (Hq pid q Hpid). case_bool_decide as E.
      * subst. rewrite Hrow in Hq. injection Hq as ->. rewrite Hrow, Z.eqb_refl. simpl.
        unfold with_stock. simpl. unfold sold. do 2 f_equal. lia.
      * rewrite (proj2 (Z.eqb_neq _ _) E), Hq. unfold sold. do 2 f_equal. lia.
    + eexists. split; [done|]. apply Forall2_app; [done|]. constructor; [|constructor].
      by eexists.
Qed.

Definition payment_row (i : Z) (p : PaymentMethod * money) : Payment :=
  {| payment_sale_id := i; payment_method := p.1; payment_amount := p.2 |}.

Lemma write_payments_ok i ps s s' :
  for_each (write_payment i) ps s = (Ok tt, s') ->
  s' = with_working (over_payments (fun t => t ++ map (payment_row i) ps) (working s)) s.
Proof.
  intros H.
  eapply (for_each_ok_ind _ (fun dn s1 =>
    s1 = with_working (over_payments (fun t => t ++ map (payment_row i) dn) (working s)) s)) in H;
    [done| |].
  - destruct s as [c [? ? ? ? [? ? ? ? ?] ? ? ?] e n w].
    unfold with_working, over_payments, over_selling. simpl. by rewrite app_nil_r.
  - intros dn p rest s1 s2 _ -> H1. unfold write_payment in H1.
    apply bind_ok in H1 as (j & s3 & H3 & H1). apply ret_ok in H1 as [_ <-].
    apply add_ok in H3 as (_ & _ & _ & ->).
    unfold with_working, over_payments, over_selling. simpl.
    by rewrite map_app, app_assoc.
Qed.

Lemma create_fiscal_frame {X} (f : session database -> X) i sale s r s' :
  (forall g s, f (with_working (over_fiscal_submissions g (working s)) s) = f s) ->
  create_fiscal_submission_if_enabled i sale s = (Ok r, s') -> f s' = f s.
Proof.
  intros Hf H.
  assert (Hfix : fixes f (create_fiscal_submission_if_enabled i sale)).
  { unfold create_fiscal_submission_if_enabled, get_config.
    repeat (apply fixes_bind; intros); try solve [solve_fixes].
    destruct a as [[? ?]|]; [|solve_fixes]. destruct (negb _); [solve_fixes|].
    repeat (apply fixes_bind; intros); try solve [solve_fixes]. by apply add_fixes. }
  specialize (Hfix s). by rewrite H in Hfix.
Qed.

Lemma write_sale_details_ok store i cashier sale cs ps s s' :
  write_sale_details store i cashier sale cs ps s = (Ok tt, s') ->
  exists s1 s2 posted_id new,
    committed s' = committed s /\
    sales (working s') = sales (working s) /\
    payments (working s') = payments (working s) ++ map (payment_row i) ps /\
    sale_items (working s') = sale_items (working s) ++ map (sale_item_row i) cs /\
    sold_from (working s) cs (working s') /\
    inventory_movements (working s') = inventory_movements (working s) ++ new /\
    Forall2 (movement_of_line store i cashier) cs new /\
    ledger_tables (working s1) = ledger_tables (working s) /\
    post (P_sale i sale (map (fun c => (cl_quantity c, cl_unit_cost c)) cs) ps) (Some cashier) s1
    = (Ok posted_id, s2) /\
    ledger_tables (working s') = ledger_tables (working s2).
Proof.
  unfold write_sale_details. intros H.
  apply bind_ok in H as ([] & s1 & H1 & H).
  apply write_lines_ok in H1 as (Hc & Hl & Hs & Hp & Hi & Hq & new & Hm & Hnew).
  apply bind_ok in H as ([] & s2 & H2 & H). apply write_payments_ok in H2 as ->.
  apply bind_ok in H as ([] & s2 & H2 & H). apply log_event_ok in H2 as ->.
  apply bind_ok in H as (posted_id & s2 & H2 & H).
  apply bind_ok in H as (fid & s3 & H3 & H). apply ret_ok in H as [_ <-].
  pose proof (post_frame (P_sale i sale _ ps) _ _ _ _ H2) as [Hpr Hst].
  assert (Hsell : selling_tables (working s2) =
    selling_tables (over_payments (fun t => t ++ map (payment_row i) ps) (working s1))).
  { apply (fixes_run (fun s => selling_tables (working s))) in H2; [done|].
    unfold post_sale_journal, _post_standard, posted. solve_fixes. }
  assert (Hcm : committed s2 = committed s1).
  { apply (fixes_run committed) in H2; [done|].
    unfold post_sale_journal, _post_standard, posted. solve_fixes. }
  pose proof (create_fiscal_frame (fun s => (committed s, selling_tables (working s),
    stock_tables (working s), catalog_tables (working s), ledger_tables (working s)))
    _ _ _ _ _ ltac:(done) H3) as [= E1 E2 E3 E4 E5].
  match type of H2 with _ ?s0 = _ => exists s0 end. exists s2, posted_id, new.
  rewrite E1, E2, E3, E5, Hcm, Hsell, Hst. simpl. rewrite Hp.
  split_and!; try exact H2; try done.
  intros pid p Hrow. rewrite E4, Hpr. by apply Hq.
Qed.

Lemma new_sale_identity d store cashier number key cs ps change now shift :
  row_valid d (new_sale store cashier number key cs ps change now shift) ->
  change = paid ps - grand_total_of cs -> 0 <= change ->
  sale_identity (new_sale store cashier number key cs ps change now shift) ps.
Proof.
  intros Hv Hc Hpos. unfold sale_identity. simpl.
  set (sale := new_sale store cashier number key cs ps change now shift) in *.
  apply (row_valid_elem d sale "ck_sales_subtotal_non_negative" (0 <=? subtotal sale)) in Hv as H1;
    [|simpl; right; left].
  apply (row_valid_elem d sale "ck_sales_discount_non_negative" (0 <=? discount_total sale)) in Hv as H2;
    [|simpl; do 2 right; left].
  apply (row_valid_elem d sale "ck_sales_tax_non_negative" (0 <=? tax_total sale)) in Hv as H3;
    [|simpl; do 3 right; left].
  simpl in H1, H2, H3. bools. unfold grand_total_of, paid in *. split_and!; try lia.
Qed.

Lemma finalize_sale_keeps_books store cashier key caller lines ps :
  keeps books_wf (finalize_sale store cashier key caller lines ps).
Proof.
  apply keeps_of_ok.
  { unfold finalize_sale, insert_sale, find_sale.
    repeat (apply fixes_bind; intros); try solve [solve_fixes]. }
  intros s i s' H1 H2 [_ [H|H]]%finalize_sale_ok.
  - destruct H as (x & s1 & Hc & Hs & Hf). apply find_sale_ok in Hf as [-> _].
    destruct Hs as [->| ->]; [done|by rewrite Hc].
  - destruct H as (cs & change & number & shift & s1 & _ & Hprice & _ & Hw & _ & Hv & -> & Hd).
    apply price_cart_ok in Hprice as (_ & _ & _ & _ & _ & Hch & Hpos & _).
    apply write_sale_details_ok in Hd
      as (s2 & s3 & pd & new & _ & _ & _ & _ & _ & _ & _ & Hl & Hpost & Hl').
    destruct H2 as [Hb1 Hb2]. simpl in Hl.
    eapply post_wf in Hpost as [Hk1 Hk2].
    + split; [by apply (ledger_wf_ext (working s3))|by apply (reversals_wf_ext (working s3))].
    + simpl. by eapply new_sale_identity.
    + by apply (ledger_wf_ext (working s)).
    + by apply (reversals_wf_ext (working s)).
Qed.

(** ** Properties *)

Definition sale_key_fresh (d : database) (key : string) : Prop :=
  forall x, x ∈ sales d -> sale_client_transaction_id x <> key.

Lemma sale_key_fresh_select d key :
  sale_key_fresh d key ->
  select (fun _ x => bool_decide (sale_client_transaction_id x = key)) (sales d) = [].
Proof.
  intros Hf. apply select_nil. intros i x Hx%row_of_elem. by apply bool_decide_eq_false_2, Hf.
Qed.

(** A request under a fresh key creates a sale. *)
Lemma finalize_sale_fresh store cashier key caller lines ps s i s' :
  committed s = working s -> sale_key_fresh (working s) key ->
  finalize_sale store cashier key caller lines ps s = (Ok i, s') ->
  exists cs change number shift s1,
    price_cart store lines ps s = (Ok (cs, change), s) /\
    lock_active_shift_for_cashier cashier s = (Ok shift, s) /\
    working s1 = working s /\
    let sale := new_sale store cashier number key cs ps change (utc_now (env s)) (fst <$> shift) in
    row_valid (working s) sale /\ i = next_id (sales (working s)) /\
    write_sale_details store i cashier sale cs ps
      (with_working (over_sales (fun t => t ++ [sale]) (working s)) s1) = (Ok tt, s').
Proof.
  intros Hcw Hf [_ [H|H]]%finalize_sale_ok.
  - exfalso. destruct H as (x & s1 & Hc & Hs & H). apply find_sale_ok in H as [_ H].
    assert (Hw : working s1 = working s) by (destruct Hs as [E|E]; [by subst|congruence]).
    rewrite Hw, sale_key_fresh_select in H by done. done.
  - destruct H as (cs & change & number & shift & s1 & _ & Hp & Hl & Hw & _ & Hv & Hi & Hd).
    exists cs, change, number, shift, s1. done.
Qed.

Lemma priced_sold d now store lines cs pid :
  Forall2 (priced d now store) lines cs -> sold cs pid = requested_of lines pid.
Proof.
  induction 1 as [|l c lines cs (p & tax & _ & _ & _ & _ & _ & _ & ->) _ IH]; [done|].
  unfold sold, requested_of in *. rewrite !sum_where_cons, IH. done.
Qed.

Lemma priced_line_totals d now store lines cs :
  Forall2 (priced d now store) lines cs -> grand_total_of cs = sum_by cl_line_total cs.
Proof.
  unfold grand_total_of, subtotal_of, discount_of, tax_total_of.
  induction 1 as [|l c lines cs (p & tax & _ & _ & _ & _ & _ & _ & ->) _ IH]; [done|].
  rewrite !sum_by_cons. simpl. lia.
Qed.

Lemma priced_cogs_nonneg d now store lines cs :
  (forall i p, row_of (products d) i = Some p -> 0 <= current_cost p) ->
  Forall2 (priced d now store) lines cs ->
  0 <= cogs_of (map (fun c => (cl_quantity c, cl_unit_cost c)) cs).
Proof.
  intros Hcost. unfold cogs_of. rewrite sum_by_map.
  induction 1 as [|l c lines cs (p & tax & Hp & _ & _ & _ & Hq & _ & ->) _ IH]; [done|].
  rewrite sum_by_cons. simpl in *. specialize (Hcost _ _ Hp).
  assert (0 <= ledger_quantize (sl_quantity l) (current_cost p))
    by (apply div_half_up_nonneg; nia). lia.
Qed.

Lemma paid_split (ps : list PaymentInput) :
  paid ps = sum_where (fun p => bool_decide (p.1 = CASH)) snd ps + non_cash_paid ps.
Proof. symmetry. apply sum_by_partition. Qed.

(** C28: A new sale is priced by the server: every line at the catalogue price
    and the tax in force, the grand total is the sum of the line totals, the
    change is what was paid beyond it and never exceeds the cash handed over, and
    the items and payments stored are exactly the priced lines and the tenders. *)
Theorem finalize_sale_prices store cashier key caller lines ps s i s' :
  committed s = working s -> sale_key_fresh (working s) key ->
  finalize_sale store cashier key caller lines ps s = (Ok i, s') ->
  exists cs sale,
    Forall2 (priced (working s) (utc_now (env s)) store) lines cs /\
    row_of (sales (working s')) i = Some sale /\ sale_store_id sale = store /\
    sale_client_transaction_id sale = key /\ sale_status sale = COMPLETED /\
    grand_total sale = sum_by cl_line_total cs /\
    change_due sale = Some (paid ps - grand_total sale) /\
    0 <= paid ps - grand_total sale <= sum_where (fun p => bool_decide (p.1 = CASH)) snd ps /\
    sale_items (working s') = sale_items (working s) ++ map (sale_item_row i) cs /\
    payments (working s') = payments (working s) ++ map (payment_row i) ps.
Proof.
  intros Hcw Hf H.
  apply finalize_sale_fresh in H as (cs & change & number & shift & s1 & Hp & _ & Hw & Hv & -> & Hd);
    [|done|done].
  apply price_cart_ok in Hp as (_ & _ & _ & Hcs & _ & Hch & Hpos & Hnc).
  apply write_sale_details_ok in Hd
    as (s2 & s3 & pd & new & _ & Hsales & Hpay & Hitems & _).
  simpl in *. pose proof (priced_line_totals _ _ _ _ _ Hcs) as Hg.
  pose proof (paid_split ps).
  exists cs, (new_sale store cashier number key cs ps change (utc_now (env s)) (fst <$> shift)).
  rewrite Hsales, Hpay, Hitems. simpl. split_and!; try done.
  - apply row_of_new.
  - congruence.
  - simpl. lia.
  - simpl. lia.
Qed.

Definition demo_cart : list SaleLineInput :=
  [{| sl_product_id := 1; sl_quantity := 2000; sl_discount := 50 |};
   {| sl_product_id := 2; sl_quantity := 1500; sl_discount := 0 |}].

Definition demo_sell : Tx Z := finalize_sale 1 1 "sale-1" (Some 1) demo_cart [(CASH, 1000)].

Lemma demo_keys_fresh key : sale_key_fresh (working demo) key.
Proof. intros x Hx. by apply elem_of_nil in Hx. Qed.

Lemma finalize_sale_prices_witness :
  exists cs sale,
    row_of (sales (working (after demo_sell demo))) 1 = Some sale /\
    grand_total sale = 667 /\ grand_total sale = sum_by cl_line_total cs /\
    sale_items (working (after demo_sell demo)) = map (sale_item_row 1) cs.
Proof.
  assert (H : finalize_sale 1 1 "sale-1" (Some 1) demo_cart [(CASH, 1000)] demo
              = (Ok 1, after demo_sell demo)) by (by vm_compute).
  destruct (finalize_sale_prices 1 1 "sale-1" (Some 1) demo_cart [(CASH, 1000)] demo 1
              (after demo_sell demo) eq_refl (demo_keys_fresh _) H)
    as (cs & sale & _ & Hs & _ & _ & _ & Hg & _ & _ & Hi & _).
  assert (E : grand_total sale = 667) by (vm_compute in Hs; injection Hs as <-; by vm_compute).
  exact (ex_intro _ cs (ex_intro _ sale (conj Hs (conj E (conj Hg Hi))))).
Defined.

(** C24: A new sale takes from each product exactly the quantities its lines ask
    for, never more than is on hand unless the product allows it, appends one
    movement per line, and posts the cost of those goods from inventory to cost
    of goods sold. *)
Theorem finalize_sale_stock store cashier key caller lines ps s i s' :
  books_wf (working s) -> stock_wf (working s) -> committed s = working s ->
  sale_key_fresh (working s) key ->
  finalize_sale store cashier key caller lines ps s = (Ok i, s') ->
  exists cs new posted_id,
    Forall2 (priced (working s) (utc_now (env s)) store) lines cs /\
    (forall pid p, row_of (products (working s)) pid = Some p ->
       row_of (products (working s')) pid
       = Some (with_stock (current_qty_on_hand p - requested_of lines pid) None p)) /\
    (forall l p, l ∈ lines -> row_of (products (working s)) (sl_product_id l) = Some p ->
       allow_negative_stock p = true \/
       requested_of lines (sl_product_id l) <= current_qty_on_hand p) /\
    inventory_movements (working s') = inventory_movements (working s) ++ new /\
    Forall2 (movement_of_line store i cashier) cs new /\
    let value := cogs_of (map (fun c => (cl_quantity c, cl_unit_cost c)) cs) in
    posted_net (working s') posted_id ACCOUNT_INVENTORY = - value /\
    posted_net (working s') posted_id ACCOUNT_COGS = value.
Proof.
  intros [Hb _] Hst Hcw Hf H.
  apply finalize_sale_fresh in H as (cs & change & number & shift & s1 & Hp & _ & Hw & Hv & -> & Hd);
    [|done|done].
  apply price_cart_ok in Hp as (_ & _ & _ & Hcs & Hstock & Hch & Hpos & Hnc).
  apply write_sale_details_ok in Hd
    as (s2 & s3 & pd & new & _ & _ & _ & _ & Hsold & Hm & Hnew & Hl & Hpost & Hl').
  simpl in Hsold, Hm, Hl.
  pose proof (priced_cogs_nonneg _ _ _ _ _ (sw_cost _ Hst) Hcs) as Hcogs.
  assert (Hwf2 : ledger_wf (working s2)) by (by apply (ledger_wf_ext (working s))).
  assert (Hnet : forall code, not_tender code -> posted_net (working s') pd code
    = spec_net (posting_lines (P_sale (next_id (sales (working s))) (new_sale store cashier number key cs ps
        change (utc_now (env s)) (fst <$> shift))
        (map (fun c => (cl_quantity c, cl_unit_cost c)) cs) ps)) code).
  { intros code _. rewrite <- (post_net _ _ _ _ _ code Hwf2 Hpost).
    destruct pd; [|done]. unfold posted_net, entry_code_net, line_code. by rewrite Hl'. }
  exists cs, new, pd. cbv zeta. split_and!; try done.
  { intros pid p Hrow. rewrite <- (priced_sold _ _ _ _ _ pid Hcs). by apply Hsold. }
  all: rewrite Hnet by not_tender; unfold posting_lines, sale_journal_lines;
    generalize dependent (cogs_of (map (fun c => (cl_quantity c, cl_unit_cost c)) cs));
    intros value Hcogs; rewrite !spec_net_app, payment_lines_net_0 by not_tender;
    simpl; autorewrite with spec_net; account_nets.
Qed.

Lemma finalize_sale_stock_witness :
  (current_qty_on_hand <$> row_of (products (working (after demo_sell demo))) 2) = Some 11000 /\
  exists posted_id, posted_net (working (after demo_sell demo)) posted_id ACCOUNT_COGS
    + posted_net (working (after demo_sell demo)) posted_id ACCOUNT_INVENTORY = 0.
Proof.
  assert (H : finalize_sale 1 1 "sale-1" (Some 1) demo_cart [(CASH, 1000)] demo
              = (Ok 1, after demo_sell demo)) by (by vm_compute).
  destruct (finalize_sale_stock 1 1 "sale-1" (Some 1) demo_cart [(CASH, 1000)] demo 1
              (after demo_sell demo) demo_books_wf demo_stock_wf eq_refl (demo_keys_fresh _) H)
    as (cs & new & pd & _ & Hq & _ & _ & _ & H1 & H2).
  split; [by vm_compute|]. exists pd. rewrite H1, H2. lia.
Defined.

(** *** Idempotency *)

Lemma write_sale_details_fixes_sales store i cashier sale cs ps s s' :
  write_sale_details store i cashier sale cs ps s = (Ok tt, s') ->
  sales (working s') = sales (working s).
Proof. intros H. by apply write_sale_details_ok in H as (? & ? & ? & ? & _ & Hs & _). Qed.

(** A retry of a sale under the same key returns the same sale and changes
    nothing, whatever cart and payments it carries. *)
Theorem finalize_sale_idempotent store cashier key caller lines ps s i s' lines2 ps2 cashier2 :
  finalize_sale store cashier key caller lines ps s = (Ok i, s') ->
  finalize_sale store cashier2 key caller lines2 ps2 s' = (Ok i, s').
Proof.
  intros H. pose proof H as [Hd [H1|H1]]%finalize_sale_ok.
  all: assert (Hf : exists x, find_sale key s' = (Ok (Some (i, x)), s')).
  1: { destruct H1 as (x & s1 & _ & _ & Hx). exists x.
       pose proof Hx as Hx'. apply find_sale_ok in Hx' as [-> _]. done. }
  2: { destruct H1 as (cs & change & number & shift & s1 & Hn & _ & _ & Hw & _ & _ & -> & Hdet).
       apply write_sale_details_fixes_sales in Hdet. simpl in Hdet.
       apply find_sale_ok in Hn as [_ Hn]. eexists. unfold find_sale.
       erewrite bind_ok_intro by reflexivity. simpl. rewrite Hdet, select_app, Hn. simpl.
       rewrite bool_decide_eq_true_2 by done. reflexivity. }
  all: destruct Hf as [x Hf]; unfold finalize_sale, enforce_store_access; rewrite Hd;
    erewrite bind_ok_intro by reflexivity; by rewrite (bind_ok_intro _ _ _ _ _ Hf).
Qed.

Lemma finalize_sale_idempotent_witness :
  let s' := after demo_sell demo in
  finalize_sale 1 2 "sale-1" (Some 1) [] [] s' = (Ok 1, s').
Proof.
  intros s'.
  apply (finalize_sale_idempotent 1 1 "sale-1" (Some 1) demo_cart [(CASH, 1000)] demo 1 s').
  by vm_compute.
Defined.

(** *** Refusals are atomic *)

Lemma finalize_sale_fixes_committed store cashier key caller lines ps :
  fixes committed (finalize_sale store cashier key caller lines ps).
Proof.
  unfold finalize_sale, insert_sale, find_sale.
  repeat (apply fixes_bind; intros); try solve [solve_fixes].
Qed.

(** A cart line the sale cannot honour. *)
Definition unsellable (d : database) (store : Z) (lines : list SaleLineInput) (l : SaleLineInput)
    : Prop :=
  match row_of (products d) (sl_product_id l) with
  | None => True
  | Some p =>
      product_store_id p <> store \/ product_is_active p = false \/ sl_quantity l <= 0 \/
      (allow_negative_stock p = false /\
       current_qty_on_hand p < requested_of lines (sl_product_id l))
  end.

(** C32: Under a client transaction id that no sale has yet (a replayed one is
    answered with its sale), a cart is refused as a whole when one of its lines
    names a product that does not exist, belongs to another store or is inactive,
    asks for nothing or less, or, unless the product allows negative stock, for
    more than is on hand (all lines of the product together): the request fails
    and the committed database is untouched. *)
Theorem finalize_sale_refused store cashier key caller lines ps s l :
  committed s = working s -> sale_key_fresh (working s) key ->
  l ∈ lines -> unsellable (working s) store lines l ->
  let r := run_request (finalize_sale store cashier key caller lines ps) s in
  (exists e, r.1 = Raise e) /\ committed r.2 = committed s.
Proof.
  intros Hcw Hf Hl Hun r.
  destruct r as [o s'] eqn:E. simpl.
  pose proof (run_request_cases _ s o s' (finalize_sale_fixes_committed _ _ _ _ _ _) E) as H.
  destruct o as [i|e]; [exfalso|eauto].
  destruct H as (s1 & H & _).
  apply finalize_sale_fresh in H as (cs & change & number & shift & s2 & Hp & _); [|done|done].
  apply price_cart_ok in Hp as (_ & _ & _ & Hcs & Hstock & _).
  apply list_elem_of_lookup in Hl as [n Hn].
  destruct (Forall2_lookup_l _ _ _ _ _ Hcs Hn) as (c & _ & p & tax & Hrow & Hst & Hac & _ & Hq & _).
  unfold unsellable in Hun. rewrite Hrow in Hun.
  destruct Hun as [?|[?|[?|[Hneg ?]]]]; [done|congruence|lia|].
  destruct (Hstock l p); [by eapply list_elem_of_lookup_2|done|congruence|lia].
Qed.

Lemma finalize_sale_refused_witness :
  let r := run_request (finalize_sale 1 1 "sale-2" (Some 1)
             [{| sl_product_id := 2; sl_quantity := 7000; sl_discount := 0 |};
              {| sl_product_id := 2; sl_quantity := 6000; sl_discount := 0 |}] [(CASH, 5000)]) demo in
  (exists e, r.1 = Raise e) /\ committed r.2 = committed demo.
Proof.
  refine (finalize_sale_refused 1 1 "sale-2" (Some 1)
            [{| sl_product_id := 2; sl_quantity := 7000; sl_discount := 0 |};
             {| sl_product_id := 2; sl_quantity := 6000; sl_discount := 0 |}] [(CASH, 5000)] demo
            {| sl_product_id := 2; sl_quantity := 7000; sl_discount := 0 |} eq_refl
            (demo_keys_fresh _) _ _).
  - left.
  - right. right. right. split; [done|]. by vm_compute.
Defined.

(** *** The stored line total *)

(** The line-total constraint of [sale_items] agrees with the service's own
    arithmetic on every accepted line but one kind: a line discounted to nothing
    whose exact subtotal ends in half a cent is accepted by the service and
    rejected by the constraint. *)
Theorem sale_item_line_total_exact i l p tax :
  0 < sl_quantity l -> 0 <= current_price p -> 0 <= sl_discount l -> 0 <= tax.2 ->
  sl_discount l <= price_of (sl_quantity l) (current_price p) ->
  item_line_total_check (sale_item_row i (line_at l p tax)) = false <->
  sl_discount l = price_of (sl_quantity l) (current_price p) /\
  2 * 1000 * price_of (sl_quantity l) (current_price p)
  = 2 * (sl_quantity l * current_price p) + 1000.
Proof.
  intros Hq Hp Hd Ht Hle. unfold item_line_total_check. simpl.
  set (n := sl_quantity l * current_price p) in *.
  assert (0 <= n) by (unfold n; nia).
  unfold price_of in *. fold n in Hle |- *.
  destruct (div_half_up_spec_nonneg n 1000) as [Hs0 Hs]; [done|lia|].
  set (s := div_half_up n 1000) in *.
  assert (Htax : 0 <= tax_of (s - sl_discount l) tax.2)
    by (apply div_half_up_nonneg; [nia|lia]).
  rewrite Z.eqb_neq.
  set (t := tax_of (s - sl_discount l) tax.2) in *. set (disc := sl_discount l) in *.
  replace (n - 1000 * disc + 1000 * t) with (n - 1000 * s + (s - disc + t) * 1000) by ring.
  destruct (Z.eq_dec disc s) as [E|E].
  - assert (Ht0 : t = 0) by (unfold t, tax_of; rewrite E, Z.sub_diag; apply div_half_up_0).
    rewrite E, Ht0, Z.sub_diag. replace (n - 1000 * s + (0 + 0) * 1000) with (n - 1000 * s) by ring.
    change (0 + 0) with 0.
    pose proof (div_half_up_error (n - 1000 * s) 1000 ltac:(lia)) as He.
    split.
    + intros Hne. split; [done|].
      destruct (Z.le_gt_cases 0 (n - 1000 * s)).
      * pose proof (div_half_up_spec_nonneg (n - 1000 * s) 1000). lia.
      * pose proof (div_half_up_spec_nonneg (- (n - 1000 * s)) 1000) as Ho.
        rewrite div_half_up_opp in Ho. lia.
    + intros [_ Heq]. replace (n - 1000 * s) with (-500) by lia. by vm_compute.
  - split; [|by intros [? _]]. intros Hne. exfalso. apply Hne.
    replace (n - 1000 * s + (s - disc + t) * 1000)
      with ((n - 1000 * s + 500) + (s - disc + t) * 1000 - 500) by ring.
    pose proof (div_half_up_spec_nonneg (n - 1000 * s + (s - disc + t) * 1000) 1000) as Hk.
    replace (n - 1000 * s + 500 + (s - disc + t) * 1000 - 500)
      with (n - 1000 * s + (s - disc + t) * 1000) by ring.
    assert (1 <= s - disc) by lia. specialize (Hk ltac:(lia) ltac:(lia)). lia.
Qed.

(** Half a unit at 0.99 with the whole rounded subtotal of 0.50 as discount. *)
Lemma sale_item_line_total_exact_witness :
  let l := {| sl_product_id := 2; sl_quantity := 500; sl_discount := 50 |} in
  item_line_total_check (sale_item_row 1 (line_at l (demo_product "B-2" 99 333333 None 12500) (None, 0)))
  = false.
Proof.
  intros l.
  apply (sale_item_line_total_exact 1 l (demo_product "B-2" 99 333333 None 12500) (None, 0)); simpl; try lia.
  - by vm_compute.
  - by vm_compute.
Defined.
