(* ===== verification/SaleReturns.v ===== *)
(** * Returns and voids

    app/modules/sales/service.py from [SaleReturnLineInput] on: the telescoping
    shares of discount and tax, the refund of a line, the manager-approval gate,
    the idempotency match, the one transaction that records a return and puts
    restocked goods back at their sale-time cost, and the void that returns all
    that is left.  The endpoint's throttling of approval attempts comes last. *)

From S2P Require Import Prelude Fixed Session Schema Tables Platform Chart Fixture Journal.
From S2P Require Import Posting Inventory Shifts Fiscal Sales.

Definition SALES_RETURN_APPROVE : string := "sales.return.approve".

Record SaleReturnLineInput := {
  rl_sale_item_id : Z;
  rl_quantity : qty;
  rl_restock : bool;
}.

(** The keyword arguments of [create_sale_return] the caller chooses. *)
Record ReturnArgs := {
  ra_sale_id : Z;
  ra_store_id : Z;
  ra_return_date : Z;
  ra_refund_method : string;
  ra_client_transaction_id : string;
  ra_reason : option string;
  ra_created_by : option Z;
  ra_ip_address : option string;
  ra_approver_username : option string;
  ra_approver_password : option string;
}.

(** Python's truth of an optional string. *)
Definition given (o : option string) : option string :=
  match o with
  | Some x => if String.eqb x "" then None else Some x
  | None => None
  end.

(** [reason or "Full sale void"] *)
Definition void_args (a : ReturnArgs) : ReturnArgs :=
  {| ra_sale_id := ra_sale_id a; ra_store_id := ra_store_id a; ra_return_date := ra_return_date a;
     ra_refund_method := ra_refund_method a;
     ra_client_transaction_id := ra_client_transaction_id a;
     ra_reason := Some (default "Full sale void"%string (given (ra_reason a)));
     ra_created_by := ra_created_by a; ra_ip_address := ra_ip_address a;
     ra_approver_username := ra_approver_username a;
     ra_approver_password := ra_approver_password a |}.

(** [refund_method not in PAYMENT_METHODS] *)
Definition payment_method_named (name : string) : option PaymentMethod :=
  snd <$> find (fun nm => String.eqb nm.1 name) PAYMENT_METHODS.

Definition _generate_return_number (store_id : Z) : Tx DocumentNumber :=
  now ← datetime_now_utc;
  token ← draw_token;
  mret {| dn_store := store_id; dn_second := now; dn_token := token |}.

(** ** The refund of a line *)

Definition _proportional_share (total : money) (original_qty already this : qty) : money :=
  if total =? 0 then 0
  else div_half_up (total * (already + this)) original_qty
       - div_half_up (total * already) original_qty.

Record LineRefund := {
  lr_price : money;
  lr_discount : money;
  lr_tax : money;
  lr_amount : money;
}.

Definition _compute_line_refund (item : SaleItem) (requested : qty) : LineRefund :=
  let price := price_of requested (unit_price_at_sale item) in
  let disc := _proportional_share (item_discount_amount item) (item_quantity item)
                (quantity_returned item) requested in
  let tax := _proportional_share (item_tax_amount item) (item_quantity item)
               (quantity_returned item) requested in
  {| lr_price := price; lr_discount := disc; lr_tax := tax; lr_amount := price - disc + tax |}.

(** ** The idempotency match *)

(** Tuples in Python's lexicographic order, [False < True]. *)
Definition signature_le (a b : Z * qty * bool) : bool :=
  let '(ai, aq, ar) := a in
  let '(bi, bq, br) := b in
  (ai <? bi) || ((ai =? bi) && ((aq <? bq) || ((aq =? bq) && implb ar br))).

Definition signature_leq (a b : Z * qty * bool) : Prop := Is_true (signature_le a b).

#[export] Instance signature_leq_dec a b : Decision (signature_leq a b) := _.

#[export] Instance signature_leq_trans : Transitive signature_leq.
Proof.
  intros [[ai aq] ar] [[bi bq] br] [[ci cq] cr]. unfold signature_leq, signature_le.
  rewrite !Is_true_true. intros H1 H2.
  destruct ar, br, cr; simpl in *; lia.
Qed.

#[export] Instance signature_leq_total : Total signature_leq.
Proof.
  intros [[ai aq] ar] [[bi bq] br]. unfold signature_leq, signature_le.
  rewrite !Is_true_true. destruct ar, br; simpl in *; lia.
Qed.

#[export] Instance signature_leq_antisymm : AntiSymm (=) signature_leq.
Proof.
  intros [[ai aq] ar] [[bi bq] br]. unfold signature_leq, signature_le.
  rewrite !Is_true_true. intros H1 H2.
  destruct ar, br; simpl in *; repeat f_equal; lia.
Qed.

Definition sorted_signatures (l : list (Z * qty * bool)) : list (Z * qty * bool) :=
  merge_sort signature_leq l.

Definition line_signature (l : SaleReturnLineInput) : Z * qty * bool :=
  (rl_sale_item_id l, rl_quantity l, rl_restock l).

Definition item_signature (r : SaleReturnItem) : Z * qty * bool :=
  (ri_sale_item_id r, ri_quantity r, ri_restock r).

Definition find_return (key : string) : Tx (option (Z * SaleReturn)) :=
  found ← query (fun _ r => bool_decide (return_client_transaction_id r = key));
  scalar_one_or_none found.

Definition _match_or_reject_idempotent_return (key : string) (sale_id : Z)
    (method : PaymentMethod) (lines : list SaleReturnLineInput) : Tx (option Z) :=
  existing ← find_return key;
  match existing with
  | None => mret None
  | Some (i, ret) =>
      existing_items ← query (fun _ it => ri_sale_return_id it =? i);
      _ ← raise_if
            (negb (return_sale_id ret =? sale_id)
             || negb (bool_decide (refund_method ret = method))
             || negb (bool_decide (sorted_signatures (map (fun ir => item_signature ir.2) existing_items)
                                   = sorted_signatures (map line_signature lines))))
            (ConflictError "IDEMPOTENCY_KEY_CONFLICT");
      mret (Some i)
  end.

(** ** Resolving the lines *)

(** [requested_qty_by_item] and [restock_by_item]. *)
Definition resolve_line (sale_id : Z) (items : list (Z * SaleItem))
    (acc : list (Z * qty) * list (Z * bool)) (l : SaleReturnLineInput)
    : Tx (list (Z * qty) * list (Z * bool)) :=
  item ← of_option (dict_get (rl_sale_item_id l) items) NotFoundError;
  _ ← raise_if (negb (item_sale_id item =? sale_id)) NotFoundError;
  mret (dict_add (rl_sale_item_id l) (rl_quantity l) acc.1,
        dict_set (rl_sale_item_id l)
          (default false (dict_get (rl_sale_item_id l) acc.2) || rl_restock l) acc.2).

Definition check_remaining (items : list (Z * SaleItem)) (iq : Z * qty) : Tx unit :=
  item ← of_option (dict_get iq.1 items) KeyError;
  raise_if (item_quantity item - quantity_returned item <? iq.2)
    (ConflictError "EXCESSIVE_RETURN_QUANTITY").

(** The three dictionaries of the return: the items found, the quantities and
    the restock flags by item. *)
Definition resolve_lines (sale_id : Z) (lines : list SaleReturnLineInput)
    : Tx (list (Z * SaleItem) * list (Z * qty) * list (Z * bool)) :=
  items ← query (fun i _ => existsb (fun l => rl_sale_item_id l =? i) lines);
  acc ← fold_m (resolve_line sale_id items) lines ([], []);
  _ ← for_each (check_remaining items) (fst (acc : list (Z * qty) * list (Z * bool)));
  mret (items, fst acc, snd acc).

Definition refund_total (items : list (Z * SaleItem)) (requested : list (Z * qty)) : Tx money :=
  fold_m (fun total (iq : Z * qty) =>
      item ← of_option (dict_get iq.1 items) KeyError;
      mret (total + lr_amount (_compute_line_refund item iq.2))) requested 0.

(** [sorted({items[i].product_id for i, restock in ... if restock})], locked in
    that order. *)
Definition lock_restocked (items : list (Z * SaleItem)) (restock_by : list (Z * bool)) : Tx unit :=
  ids ← fold_m (fun ids (ir : Z * bool) =>
      if ir.2 then item ← of_option (dict_get ir.1 items) KeyError;
                   mret (ids ++ [item_product_id item])
      else mret ids) restock_by [];
  for_each (fun pid => _ ← lock_product_for_update pid; mret tt) (sorted_set ids).
(** ** Recording the return *)

Definition new_return (a : ReturnArgs) (number : DocumentNumber) (method : PaymentMethod)
    (approval : bool * option Z) (shift : option Z) : SaleReturn :=
  mkSaleReturn (ra_sale_id a) (ra_store_id a) number (ra_client_transaction_id a) (ra_reason a)
    method 0 (ra_created_by a) (fst approval) (snd approval) shift (ra_return_date a).

Definition insert_return (key : string) (r : SaleReturn) : Tx (Z * bool) :=
  except_integrity (i ← add r; mret (i, true))
    (fun e => _ ← rollback;
              winner ← find_return key;
              match winner with
              | None => raise e
              | Some (i, _) => mret (i, false)
              end).

Definition return_item_row (return_id item_id : Z) (item : SaleItem) (requested : qty)
    (restock_ : bool) : SaleReturnItem :=
  let refund := _compute_line_refund item requested in
  {| ri_sale_return_id := return_id; ri_sale_item_id := item_id; ri_quantity := requested;
     unit_price_refunded := unit_price_at_sale item; ri_discount_refunded := lr_discount refund;
     ri_tax_refunded := lr_tax refund; ri_unit_cost_refunded := unit_cost_at_sale item;
     ri_restock := restock_ |}.

Definition return_effect (item : SaleItem) (requested : qty) (restock_ : bool)
    : SaleReturnLineEffect :=
  let refund := _compute_line_refund item requested in
  {| refund_price := lr_price refund; discount_refunded := lr_discount refund;
     tax_refunded := lr_tax refund; restock := restock_; effect_quantity := requested;
     unit_cost_refunded := unit_cost_at_sale item |}.

Definition return_movement (a : ReturnArgs) (return_id : Z) (item : SaleItem) (requested : qty)
    (new_wac : cost) : MovementArgs :=
  {| ma_store_id := ra_store_id a; ma_type := MT_SALE_RETURN; ma_delta := requested;
     ma_unit_cost := unit_cost_at_sale item; ma_reference_type := RT_sale_return;
     ma_reference_id := Some return_id; ma_reason := None; ma_created_by := ra_created_by a;
     ma_new_cost := Some new_wac |}.

(** Goods back on the shelf enter the average at the cost they left at. *)
Definition restock_item (a : ReturnArgs) (return_id : Z) (item : SaleItem) (requested : qty) : Tx unit :=
  product ← lock_product_for_update (item_product_id item);
  let new_wac := compute_new_wac (current_qty_on_hand product) (current_cost product) requested
                   (unit_cost_at_sale item) in
  _ ← record_movement (item_product_id item) (return_movement a return_id item requested new_wac);
  mret tt.

Definition with_returned (q : qty) (i : SaleItem) : SaleItem :=
  mkSaleItem (item_sale_id i) (item_product_id i) (item_quantity i) (unit_price_at_sale i)
    (unit_cost_at_sale i) (item_discount_amount i) (item_tax_rate_id i) (item_tax_amount i)
    (line_total i) q.

(** One pass of the posting loop, accumulating [return_effects]. *)
Definition post_return_line (a : ReturnArgs) (return_id : Z) (items : list (Z * SaleItem))
    (restock_by : list (Z * bool)) (effects : list SaleReturnLineEffect) (iq : Z * qty)
    : Tx (list SaleReturnLineEffect) :=
  item ← of_option (dict_get iq.1 items) KeyError;
  restock_ ← of_option (dict_get iq.1 restock_by) KeyError;
  _ ← add (return_item_row return_id iq.1 item iq.2 restock_);
  _ ← when restock_ (restock_item a return_id item iq.2);
  _ ← update iq.1 (with_returned (quantity_returned item + iq.2));
  mret (effects ++ [return_effect item iq.2 restock_]).

Definition effect_amount (e : SaleReturnLineEffect) : money :=
  refund_price e - discount_refunded e + tax_refunded e.

Definition with_refund (amount : money) (r : SaleReturn) : SaleReturn :=
  mkSaleReturn (return_sale_id r) (return_store_id r) (return_number r)
    (return_client_transaction_id r) (return_reason r) (refund_method r) amount (processed_by r)
    (approval_required r) (approved_by r) (return_shift_id r) (return_date r).

Definition with_sale_status (st : SaleStatus) (x : Sale) : Sale :=
  mkSale (sale_store_id x) (sale_number x) (sale_client_transaction_id x) (cashier_id x) st
    (subtotal x) (discount_total x) (tax_total x) (grand_total x) (amount_tendered x)
    (change_due x) (completed_at x) (sale_shift_id x).

Definition items_of_sale (sale_id : Z) : Tx (list (Z * SaleItem)) :=
  query (fun _ it => item_sale_id it =? sale_id).

Definition advance_sale_status (sale_id : Z) : Tx unit :=
  all_items ← items_of_sale sale_id;
  if negb (bool_decide (length all_items = 0%nat))
     && forallb (fun ii : Z * SaleItem => item_quantity ii.2 <=? quantity_returned ii.2) all_items
  then update sale_id (with_sale_status REFUNDED)
  else when (existsb (fun ii : Z * SaleItem => 0 <? quantity_returned ii.2) all_items)
         (update sale_id (with_sale_status PARTIALLY_REFUNDED)).

(** Everything after the return row. *)
Definition write_return_details (a : ReturnArgs) (method : PaymentMethod) (is_void : bool)
    (return_id : Z) (items : list (Z * SaleItem)) (requested : list (Z * qty))
    (restock_by : list (Z * bool)) : Tx unit :=
  _ ← log_event (ra_created_by a) "SALE_RETURN_INITIATED" "sale_return" (Some return_id);
  effects ← fold_m (post_return_line a return_id items restock_by) requested [];
  _ ← update return_id (with_refund (sum_by effect_amount effects));
  _ ← advance_sale_status (ra_sale_id a);
  _ ← log_event (ra_created_by a) (if is_void then "VOID_COMPLETED" else "SALE_RETURN_COMPLETED")%string
        "sale_return" (Some return_id);
  _ ← post_sale_return_journal return_id (ra_store_id a) (ra_return_date a) method effects
        (ra_created_by a);
  mret tt.

(** ** Validation up to the resolved lines

    Nothing is written; [inl] is the return found under the key once the sale is
    locked. *)

Definition check_return (a : ReturnArgs) (method : PaymentMethod) (caller_store_id : option Z)
    (lines : list SaleReturnLineInput)
    : Tx (Z + (list (Z * SaleItem) * list (Z * qty) * list (Z * bool))) :=
  _ ← raise_if (bool_decide (length lines = 0%nat)) (ValidationAppError "EMPTY_RETURN");
  _ ← raise_if (existsb (fun l => rl_quantity l <=? 0) lines) (ValidationAppError "INVALID_QUANTITY");
  found ← get (ra_sale_id a);
  _ ← raise_if (match caller_store_id, found with
                | Some c, Some sale => negb (sale_store_id sale =? c)
                | _, _ => false
                end) (ForbiddenError "STORE_ACCESS_DENIED");
  sale ← of_option found NotFoundError;
  again ← _match_or_reject_idempotent_return (ra_client_transaction_id a) (ra_sale_id a) method lines;
  match again with
  | Some i => mret (inl i)
  | None =>
      _ ← raise_if (negb (sale_store_id sale =? ra_store_id a)) (ConflictError "STORE_MISMATCH");
      _ ← raise_if (negb (bool_decide (sale_status sale = COMPLETED)
                          || bool_decide (sale_status sale = PARTIALLY_REFUNDED)))
            (ConflictError "SALE_NOT_RETURNABLE");
      resolved ← resolve_lines (ra_sale_id a) lines;
      mret (inr resolved)
  end.

(** ** The approval gate *)

Definition user_store (d : database) (user_id : Z) : option Z :=
  match row_of (users d) user_id with Some u => user_store_id u | None => None end.

(** [log_event(...); db.commit(); raise ...] *)
Definition reject_approval {A} (user_id : option Z) (store_id : Z) (e : exn) : Tx A :=
  _ ← log_event user_id "SALE_RETURN_APPROVAL_FAILED" "store" (Some store_id);
  _ ← commit;
  raise e.

Section Returns.
(** argon2's verification of a password against a stored hash. *)
Variable verify_password : string -> string -> bool.

Definition _resolve_return_approval (store_id : Z) (store : Store) (refund_amount_ : money)
    (initiating : option Z) (approver_username approver_password : option string)
    (ip_address : option string) : Tx (bool * option Z) :=
  match return_approval_threshold_amount store with
  | None => mret (false, None)
  | Some threshold =>
      if refund_amount_ <? threshold then mret (false, None)
      else
        match given approver_username, given approver_password with
        | Some name, Some password =>
            verified ← verify_user_credentials verify_password name password;
            match verified with
            | None =>
                reject_approval None store_id (UnauthorizedError "INVALID_APPROVER_CREDENTIALS")
            | Some approver =>
                if bool_decide (Some approver = initiating)
                then reject_approval (Some approver) store_id
                       (ForbiddenError "SELF_APPROVAL_NOT_ALLOWED")
                else
                  approver_permissions ← get_user_permissions approver;
                  if negb (existsb (String.eqb SALES_RETURN_APPROVE) approver_permissions)
                  then reject_approval (Some approver) store_id
                         (ForbiddenError "APPROVAL_PERMISSION_DENIED")
                  else
                    approver_store ← gets (fun d => user_store d approver);
                    if store_denied approver_store store_id
                    then reject_approval (Some approver) store_id
                           (ForbiddenError "STORE_ACCESS_DENIED")
                    else
                      _ ← log_event (Some approver) "SALE_RETURN_APPROVAL_GRANTED" "store"
                            (Some store_id);
                      _ ← match given ip_address with
                          | Some ip => approval_reset ip
                          | None => mret tt
                          end;
                      mret (true, Some approver)
            end
        | _, _ => raise (ForbiddenError "APPROVAL_REQUIRED")
        end
  end.

(** ** The transaction *)

(** The gate over the refund this request would post, the product locks, the
    return row and its consequences. *)
Definition approve_and_record (a : ReturnArgs) (method : PaymentMethod) (is_void : bool)
    (items : list (Z * SaleItem)) (requested : list (Z * qty)) (restock_by : list (Z * bool))
    : Tx Z :=
  found ← get (ra_store_id a);
  store ← of_option found NotFoundError;
  total ← refund_total items requested;
  approval ← _resolve_return_approval (ra_store_id a) store total (ra_created_by a)
               (ra_approver_username a) (ra_approver_password a) (ra_ip_address a);
  _ ← lock_restocked items restock_by;
  active_shift ← match ra_created_by a with
                 | Some cashier => lock_active_shift_for_cashier cashier
                 | None => mret None
                 end;
  number ← _generate_return_number (ra_store_id a);
  inserted ← insert_return (ra_client_transaction_id a)
               (new_return a number method approval (fst <$> active_shift));
  if snd (inserted : Z * bool)
  then _ ← write_return_details a method is_void (fst inserted) items requested restock_by;
       mret (fst inserted)
  else mret (fst inserted).

Definition create_sale_return (a : ReturnArgs) (is_void : bool) (caller_store_id : option Z)
    (lines : list SaleReturnLineInput) : Tx Z :=
  method ← of_option (payment_method_named (ra_refund_method a))
             (ValidationAppError "INVALID_REFUND_METHOD");
  existing ← _match_or_reject_idempotent_return (ra_client_transaction_id a) (ra_sale_id a)
               method lines;
  match existing with
  | Some i => mret i
  | None =>
      checked ← check_return a method caller_store_id lines;
      match checked with
      | inl i => mret i
      | inr (items, requested, restock_by) =>
          approve_and_record a method is_void items requested restock_by
      end
  end.

(** ** Voids *)

Definition remaining_line (ii : Z * SaleItem) : list SaleReturnLineInput :=
  if quantity_returned ii.2 <? item_quantity ii.2
  then [{| rl_sale_item_id := ii.1;
           rl_quantity := item_quantity ii.2 - quantity_returned ii.2; rl_restock := true |}]
  else [].

Definition void_sale (a : ReturnArgs) (caller_store_id : option Z) : Tx Z :=
  found ← get (ra_sale_id a);
  sale ← of_option found NotFoundError;
  _ ← enforce_store_access caller_store_id (sale_store_id sale);
  items ← items_of_sale (ra_sale_id a);
  let remaining_lines := flat_map remaining_line items in
  _ ← raise_if (bool_decide (length remaining_lines = 0%nat)) (ConflictError "NOTHING_TO_VOID");
  create_sale_return (void_args a) true caller_store_id remaining_lines.

(** ** Endpoints *)

(** The throttle and the store check both POST handlers start with. *)
Definition throttled (a : ReturnArgs) (caller_store_id : option Z) (m : Tx Z) : Tx Z :=
  _ ← enforce_store_access caller_store_id (ra_store_id a);
  _ ← match given (ra_approver_username a) with
      | Some _ => approval_check (default "unknown"%string (ra_ip_address a))
      | None => mret tt
      end;
  m.

Definition create_sale_return_endpoint (a : ReturnArgs) (caller_store_id : option Z)
    (lines : list SaleReturnLineInput) : Tx Z :=
  throttled a caller_store_id (create_sale_return a false caller_store_id lines).

Definition void_sale_endpoint (a : ReturnArgs) (caller_store_id : option Z) : Tx Z :=
  throttled a caller_store_id (void_sale a caller_store_id).
End Returns.

(** [get_return_eligibility]: item, quantity, returned, returnable. *)
Definition get_return_eligibility (sale_id : Z) : Tx (list (Z * Z * qty * qty * qty)) :=
  found ← get (sale_id : Z);
  _ ← of_option (found : option Sale) NotFoundError;
  items ← items_of_sale sale_id;
  mret (map (fun ii : Z * SaleItem =>
    (ii.1, item_product_id ii.2, item_quantity ii.2, quantity_returned ii.2,
     item_quantity ii.2 - quantity_returned ii.2)) items).

(** ** Shares *)

(** What a cumulative return of [q] is entitled to of an aggregate. *)
Definition entitled (total : money) (original_qty q : qty) : money :=
  div_half_up (total * q) original_qty.

Lemma proportional_share_entitled total orig already this :
  _proportional_share total orig already this
  = entitled total orig (already + this) - entitled total orig already.
Proof.
  unfold _proportional_share, entitled. destruct (Z.eqb_spec total 0) as [->|]; [|done].
  rewrite !Z.mul_0_l, !div_half_up_0. done.
Qed.

Lemma entitled_0 total orig : entitled total orig 0 = 0.
Proof. unfold entitled. by rewrite Z.mul_0_r, div_half_up_0. Qed.

Lemma entitled_all total orig : 0 < orig -> entitled total orig orig = total.
Proof. intros. unfold entitled. by apply div_half_up_exact. Qed.

Lemma entitled_mono total orig q q' :
  0 <= total -> 0 < orig -> q <= q' -> entitled total orig q <= entitled total orig q'.
Proof. intros. apply div_half_up_mono; [done|nia]. Qed.

Lemma entitled_le total orig q :
  0 <= total -> 0 < orig -> q <= orig -> entitled total orig q <= total.
Proof.
  intros Ht Ho Hq. pose proof (entitled_mono total orig q orig Ht Ho Hq) as H.
  by rewrite entitled_all in H.
Qed.

(** The shares of successive returns [qs] of a line. *)
Fixpoint successive_shares (total : money) (orig already : qty) (qs : list qty) : list money :=
  match qs with
  | [] => []
  | q :: qs' => _proportional_share total orig already q
                :: successive_shares total orig (already + q) qs'
  end.

Lemma successive_shares_sum total orig already qs :
  Zsum (successive_shares total orig already qs)
  = entitled total orig (already + Zsum qs) - entitled total orig already.
Proof.
  revert already. induction qs as [|q qs IH]; intros already; simpl.
  - rewrite Z.add_0_r. lia.
  - unfold Zsum in *. simpl. rewrite IH, proportional_share_entitled, Z.add_assoc. lia.
Qed.

Lemma successive_shares_nonneg total orig already qs :
  0 <= total -> 0 < orig -> Forall (fun q => 0 <= q) qs ->
  Forall (fun m => 0 <= m) (successive_shares total orig already qs).
Proof.
  intros Ht Ho. revert already. induction qs as [|q qs IH]; intros already Hq; simpl; [done|].
  apply Forall_cons in Hq as [Hq Hqs]. constructor; [|by apply IH].
  rewrite proportional_share_entitled.
  pose proof (entitled_mono total orig already (already + q)). lia.
Qed.

(** However a line is returned in parts, no part's share of the line's
    discount (or tax) is negative, the shares never add up to more than it, and
    they add up to exactly it once the whole quantity is back. *)
Theorem proportional_share_telescopes total orig qs :
  0 <= total -> 0 < orig -> Forall (fun q => 0 < q) qs -> Zsum qs <= orig ->
  let shares := successive_shares total orig 0 qs in
  Forall (fun m => 0 <= m) shares /\ Zsum shares <= total /\
  (Zsum qs = orig -> Zsum shares = total).
Proof.
  intros Ht Ho Hq Hs shares. unfold shares.
  rewrite successive_shares_sum, entitled_0, Z.sub_0_r, Z.add_0_l. split_and!.
  - apply successive_shares_nonneg; [done..|]. eapply Forall_impl; [exact Hq|]. simpl. lia.
  - rewrite <- (entitled_all total orig Ho) at 2. by apply entitled_mono.
  - intros ->. by apply entitled_all.
Qed.

Lemma proportional_share_telescopes_witness :
  let shares := successive_shares 100 3000 0 [1000; 1000; 1000] in
  shares = [33; 34; 33] /\ Zsum shares = 100.
Proof.
  split; [by vm_compute|].
  apply (proportional_share_telescopes 100 3000 [1000; 1000; 1000]); [lia|lia| |by vm_compute..].
  repeat constructor.
Defined.

(** ** Reading *)

Lemma sorted_signatures_perm l : sorted_signatures l ≡ₚ l.
Proof. apply merge_sort_Permutation. Qed.

(** Comparing sorted lists compares the lines as multisets. *)
Lemma sorted_signatures_eq l1 l2 : l1 ≡ₚ l2 -> sorted_signatures l1 = sorted_signatures l2.
Proof.
  intros H. apply (Sorted_unique signature_leq); [apply Sorted_merge_sort, _..|].
  by rewrite !sorted_signatures_perm.
Qed.

Lemma find_return_ok key s o s' :
  find_return key s = (Ok o, s') ->
  s' = s /\ select (fun _ r => bool_decide (return_client_transaction_id r = key))
              (sale_returns (working s)) = match o with Some ix => [ix] | None => [] end.
Proof.
  unfold find_return. intros H. apply bind_ok in H as (l & s1 & H1 & H).
  apply query_ok in H1 as [-> <-]. apply scalar_one_or_none_ok in H as [<- H]. by destruct o.
Qed.

Lemma find_return_fixes {X} (f : session database -> X) key : fixes f (find_return key).
Proof. unfold find_return. solve_fixes. Qed.

#[export] Hint Resolve find_return_fixes : fixes.
#[export] Hint Extern 2 (fixes _ (_generate_return_number _)) => (intros ?; reflexivity) : fixes.

Lemma match_return_ok key sale_id method lines s o s' :
  _match_or_reject_idempotent_return key sale_id method lines s = (Ok o, s') ->
  s' = s /\
  match o with
  | None => find_return key s = (Ok None, s)
  | Some i => exists r, row_of (sale_returns (working s)) i = Some r /\
                return_client_transaction_id r = key /\ return_sale_id r = sale_id /\
                refund_method r = method /\
                map (fun ir => item_signature ir.2)
                  (select (fun _ it => ri_sale_return_id it =? i) (sale_return_items (working s)))
                ≡ₚ map line_signature lines
  end.
Proof.
  unfold _match_or_reject_idempotent_return. intros H.
  apply bind_ok in H as (f & s1 & H1 & H). pose proof H1 as H2.
  apply find_return_ok in H2 as [-> Hsel]. destruct f as [[i r]|]; [|by apply ret_ok in H as [<- <-]].
  apply bind_ok in H as (its & s1 & H2 & H). apply query_ok in H2 as [-> <-].
  apply bind_ok in H as (? & s1 & H2 & H). apply raise_if_ok in H2 as [Hg <-].
  apply ret_ok in H as [<- <-]. split; [done|]. bools.
  assert (Hin : (i, r) ∈ select (fun _ r => bool_decide (return_client_transaction_id r = key))
                  (sale_returns (working s))) by (rewrite Hsel; left).
  apply elem_select in Hin as [Hr Hk]. bools.
  exists r. split_and!; try done.
  match goal with E : sorted_signatures _ = sorted_signatures _ |- _ =>
    rewrite <- (sorted_signatures_perm (map line_signature lines)), <- E end.
  symmetry. apply sorted_signatures_perm.
Qed.

Lemma match_return_fixes {X} (f : session database -> X) key i m lines :
  fixes f (_match_or_reject_idempotent_return key i m lines).
Proof. unfold _match_or_reject_idempotent_return. solve_fixes. Qed.

#[export] Hint Resolve match_return_fixes : fixes.

(** ** Resolved lines *)

(** The quantity and the restock flag a request asks for an item. *)
Definition asked (lines : list SaleReturnLineInput) (item_id : Z) : qty :=
  sum_where (fun l => rl_sale_item_id l =? item_id) rl_quantity lines.

Definition asked_restock (lines : list SaleReturnLineInput) (item_id : Z) : bool :=
  existsb (fun l => (rl_sale_item_id l =? item_id) && rl_restock l) lines.

Record resolved (d : database) (sale_id : Z) (lines : list SaleReturnLineInput)
    (items : list (Z * SaleItem)) (requested : list (Z * qty)) (restock_by : list (Z * bool))
    : Prop := {
  rs_nodup : NoDup (dict_keys requested);
  rs_keys : forall i, i ∈ dict_keys requested <-> exists l, l ∈ lines /\ rl_sale_item_id l = i;
  rs_requested : forall i q, dict_get i requested = Some q -> q = asked lines i;
  rs_restock : forall i, i ∈ dict_keys requested -> dict_get i restock_by = Some (asked_restock lines i);
  rs_item : forall i q, dict_get i requested = Some q -> exists item,
    dict_get i items = Some item /\ row_of (sale_items d) i = Some item /\
    item_sale_id item = sale_id /\ quantity_returned item + q <= item_quantity item;
}.

Lemma resolve_fold_ok sale_id items lines s acc s' :
  fold_m (resolve_line sale_id items) lines ([], []) s = (Ok acc, s') ->
  s' = s /\ NoDup (dict_keys acc.1) /\
  (forall i, i ∈ dict_keys acc.1 <-> exists l, l ∈ lines /\ rl_sale_item_id l = i) /\
  (forall i, default 0 (dict_get i acc.1) = asked lines i) /\
  (forall i, default false (dict_get i acc.2) = asked_restock lines i) /\
  (forall i, i ∈ dict_keys acc.1 -> is_Some (dict_get i acc.2)) /\
  (forall l, l ∈ lines -> exists item,
     dict_get (rl_sale_item_id l) items = Some item /\ item_sale_id item = sale_id).
Proof.
  intros H.
  eapply (fold_m_ok_ind _ (fun dn acc s1 => s1 = s /\ NoDup (dict_keys acc.1) /\
    (forall i, i ∈ dict_keys acc.1 <-> exists l, l ∈ dn /\ rl_sale_item_id l = i) /\
    (forall i, default 0 (dict_get i acc.1) = asked dn i) /\
    (forall i, default false (dict_get i acc.2) = asked_restock dn i) /\
    (forall i, i ∈ dict_keys acc.1 -> is_Some (dict_get i acc.2)) /\
    (forall l, l ∈ dn -> exists item,
       dict_get (rl_sale_item_id l) items = Some item /\ item_sale_id item = sale_id))) in H;
    [exact H| |].
  - split_and!; try done; try apply NoDup_nil_2; try (intros ? ?%elem_of_nil; done).
    intros i. split; [by intros ?%elem_of_nil|intros (l & ?%elem_of_nil & _); done].
  - intros dn l rest acc1 s1 acc2 s2 _ (-> & Hnd & Hk & Hq & Hr & Hrk & Hit) H1.
    apply bind_ok in H1 as (item & s3 & H3 & H1). apply of_option_ok in H3 as [Hi <-].
    apply bind_ok in H1 as (? & s3 & H3 & H1). apply raise_if_ok in H3 as [Hs <-].
    apply ret_ok in H1 as [<- <-]. bools. simpl.
    split_and!.
    + done.
    + by apply NoDup_dict_set.
    + intros i. unfold dict_add. rewrite elem_dict_keys_set, Hk.
      split; [intros [->|(y & ? & ?)]; [exists l|exists y]; set_solver|].
      intros (y & [Hy|Hy%list_elem_of_singleton]%elem_of_app & <-); [right; eauto|by left; subst].
    + intros i. rewrite dict_get_add, Hq. unfold asked.
      rewrite sum_where_app, sum_where_cons, sum_where_nil, (Z.eqb_sym i). lia.
    + intros i. rewrite dict_get_set. unfold asked_restock. rewrite existsb_app. simpl.
      rewrite orb_false_r, (Z.eqb_sym i).
      destruct (Z.eqb_spec (rl_sale_item_id l) i) as [<-|]; simpl.
      * by rewrite Hr.
      * by rewrite Hr, orb_false_r.
    + intros i. unfold dict_add. rewrite elem_dict_keys_set, dict_get_set.
      destruct (Z.eqb_spec i (rl_sale_item_id l)); [eauto|]. intros [?|?]; [done|auto].
    + intros y [Hy|Hy%list_elem_of_singleton]%elem_of_app; [auto|]. subst. eauto.
Qed.

Lemma resolve_lines_ok sale_id lines s items requested restock_by s' :
  resolve_lines sale_id lines s = (Ok (items, requested, restock_by), s') ->
  s' = s /\ resolved (working s) sale_id lines items requested restock_by.
Proof.
  unfold resolve_lines. intros H.
  apply bind_ok in H as (its & s1 & H1 & H). apply query_ok in H1 as [Hits <-]. simpl in Hits.
  apply bind_ok in H as ([rq rb] & s1 & H1 & H).
  apply resolve_fold_ok in H1 as (-> & Hnd & Hk & Hq & Hr & Hrk & Hit). simpl in *.
  apply bind_ok in H as ([] & s1 & H1 & H). apply ret_ok in H as [[= -> -> ->] <-].
  assert (Hrem : s1 = s /\ forall i q, (i, q) ∈ requested -> exists item,
    dict_get i items = Some item /\ quantity_returned item + q <= item_quantity item).
  { eapply (for_each_ok_ind _ (fun dn s1 => s1 = s /\ forall i q, (i, q) ∈ dn -> exists item,
      dict_get i items = Some item /\ quantity_returned item + q <= item_quantity item)) in H1;
      [done|split; [done|]; by intros ? ? ?%elem_of_nil|].
    intros dn [i q] rest s2 s3 _ [-> Hd] H2. unfold check_remaining in H2.
    apply bind_ok in H2 as (item & s4 & H4 & H2). apply of_option_ok in H4 as [Hi <-].
    apply raise_if_ok in H2 as [Hc <-]. bools. split; [done|]. simpl in *.
    intros j p [Hj|Hj%list_elem_of_singleton]%elem_of_app; [by apply Hd|].
    simplify_eq. exists item. split; [done|lia]. }
  destruct Hrem as [-> Hrem]. split; [done|]. constructor; try done.
  - intros i q Hi. by rewrite <- Hq, Hi.
  - intros i Hi. destruct (Hrk i Hi) as [b Hb]. rewrite Hb. f_equal. by rewrite <- Hr, Hb.
  - intros i q Hi. pose proof (dict_get_elem _ _ _ Hi) as Hin.
    destruct (Hrem i q Hin) as (item & Hd & Hle). exists item. split; [done|].
    assert (Hik : i ∈ dict_keys requested) by (apply list_elem_of_fmap; by exists (i, q)).
    apply Hk in Hik as (l & Hl & <-). destruct (Hit l Hl) as (item' & Hd' & Hsale).
    assert (item' = item) as -> by congruence.
    rewrite Hits in Hd. apply select_get in Hd as [Hd _]. done.
Qed.

Lemma resolve_lines_fixes {X} (f : session database -> X) i lines : fixes f (resolve_lines i lines).
Proof. unfold resolve_lines, resolve_line, check_remaining. solve_fixes. Qed.

#[export] Hint Resolve resolve_lines_fixes : fixes.

Lemma check_return_ok a method caller lines s r s' :
  check_return a method caller lines s = (Ok r, s') ->
  s' = s /\
  match r with
  | inl i => _match_or_reject_idempotent_return (ra_client_transaction_id a) (ra_sale_id a)
               method lines s = (Ok (Some i), s)
  | inr (items, requested, restock_by) =>
      exists sale, row_of (sales (working s)) (ra_sale_id a) = Some sale /\
        sale_store_id sale = ra_store_id a /\
        (sale_status sale = COMPLETED \/ sale_status sale = PARTIALLY_REFUNDED) /\
        store_denied caller (sale_store_id sale) = false /\
        lines <> [] /\ (forall l, l ∈ lines -> 0 < rl_quantity l) /\
        resolved (working s) (ra_sale_id a) lines items requested restock_by
  end.
Proof.
  unfold check_return. intros H.
  apply bind_ok in H as (? & s1 & H1 & H). apply raise_if_ok in H1 as [Hne <-].
  apply bind_ok in H as (? & s1 & H1 & H). apply raise_if_ok in H1 as [Hpos <-].
  apply bind_ok in H as (o & s1 & H1 & H). apply get_ok in H1 as [Ho <-]. simpl in Ho.
  apply bind_ok in H as (? & s1 & H1 & H). apply raise_if_ok in H1 as [Hst <-].
  apply bind_ok in H as (sale & s1 & H1 & H). apply of_option_ok in H1 as [-> <-].
  apply bind_ok in H as (again & s1 & H1 & H). pose proof H1 as H2.
  apply match_return_ok in H2 as [-> _].
  destruct again as [i|]; [by apply ret_ok in H as [<- <-]|].
  apply bind_ok in H as (? & s1 & H2 & H). apply raise_if_ok in H2 as [Hstore <-].
  apply bind_ok in H as (? & s1 & H2 & H). apply raise_if_ok in H2 as [Hstat <-].
  apply bind_ok in H as ([[items requested] restock_by] & s1 & H2 & H).
  apply resolve_lines_ok in H2 as [-> Hres]. apply ret_ok in H as [<- <-]. split; [done|].
  exists sale. bools. split_and!; try done.
  - apply orb_true_iff in Hstat as [E|E]; apply bool_decide_eq_true_1 in E; auto.
  - unfold store_denied. destruct caller; [|done]. bools. by rewrite Hst, Z.eqb_refl.
  - by intros ->.
  - intros l Hl. destruct (Z.ltb_spec 0 (rl_quantity l)); [done|].
    assert (E : existsb (fun l => rl_quantity l <=? 0) lines = true)
      by (apply existsb_exists; exists l; split; [by apply list_elem_of_In|lia]).
    congruence.
Qed.

Lemma check_return_fixes {X} (f : session database -> X) a m c lines :
  fixes f (check_return a m c lines).
Proof. unfold check_return. solve_fixes. Qed.

#[export] Hint Resolve check_return_fixes : fixes.

(** ** The gate *)

(** Who may approve a return in a store. *)
Definition approver_ok (d : database) (store_id : Z) (initiating : option Z) (approver : Z) : Prop :=
  Some approver <> initiating /\ SALES_RETURN_APPROVE ∈ permissions_of d approver /\
  exists u, row_of (users d) approver = Some u /\ user_is_active u = true /\
    (user_store_id u = None \/ user_store_id u = Some store_id).

Definition over_threshold (store : Store) (amount : money) : Prop :=
  match return_approval_threshold_amount store with
  | Some t => t <= amount
  | None => False
  end.

(** States that differ in the audit trail and the limiter only. *)
Definition audited (s s' : session database) : Prop :=
  committed s' = committed s /\ env s' = env s /\
  exists g, working s' = over_audit_logs g (working s).

Lemma existsb_eqb_elem x (l : list string) : existsb (String.eqb x) l = true <-> x ∈ l.
Proof.
  rewrite existsb_exists, list_elem_of_In. split; [|intros; exists x; by rewrite String.eqb_refl].
  by intros (y & Hy & ->%String.eqb_eq).
Qed.

Lemma reject_approval_raises {A} u st e s r s' :
  @reject_approval A u st e s = (Ok r, s') -> False.
Proof.
  unfold reject_approval. intros H. apply bind_ok in H as (? & s1 & _ & H).
  apply bind_ok in H as (? & s2 & _ & H). done.
Qed.

Lemma reject_approval_commits {A} u st e s r s' :
  @reject_approval A u st e s = (r, s') ->
  committed s' = committed s \/ exists g, committed s' = over_audit_logs g (working s).
Proof.
  unfold reject_approval. intros H.
  destruct (log_event_run u "SALE_RETURN_APPROVAL_FAILED" "store" (Some st) s) as [s1 H1].
  rewrite (bind_ok_intro _ _ _ _ _ H1) in H. apply log_event_ok in H1 as ->.
  unfold mbind, M_bind, commit in H. destruct (deferred_ok _); injection H as _ <-; simpl; eauto.
Qed.

Section Gate.
Context (verify_password : string -> string -> bool).

Lemma resolve_approval_ok store_id store amount initiating name pw ip s r s' :
  _resolve_return_approval verify_password store_id store amount initiating name pw ip s
  = (Ok r, s') ->
  audited s s' /\
  ((r = (false, None) /\ ~ over_threshold store amount) \/
   exists approver, r = (true, Some approver) /\ over_threshold store amount /\
     approver_ok (working s) store_id initiating approver).
Proof.
  unfold _resolve_return_approval, over_threshold. intros H.
  assert (Hrefl : audited s s).
  { split_and!; [done..|]. exists (fun t => t). by destruct (working s) as [? ? ? ? ? ? ? []]. }
  destruct (return_approval_threshold_amount store) as [t|];
    [|apply ret_ok in H as [<- <-]; split; [done|left; split; [done|tauto]]].
  destruct (Z.ltb_spec amount t);
    [apply ret_ok in H as [<- <-]; split; [done|left; split; [done|lia]]|].
  destruct (given name) as [n|]; [|done]. destruct (given pw) as [p|]; [|done].
  apply bind_ok in H as (v & s1 & H1 & H).
  apply verify_user_credentials_ok in H1 as [-> Hv].
  destruct v as [approver|]; [|by apply reject_approval_raises in H].
  destruct (Hv _ eq_refl) as (u & Hu & _ & Hact & _).
  case_bool_decide as Hself; [by apply reject_approval_raises in H|].
  apply bind_ok in H as (perms & s1 & H1 & H). apply gets_ok in H1 as [-> <-].
  destruct (existsb _ _) eqn:Hp; simpl in H; [|by apply reject_approval_raises in H].
  apply bind_ok in H as (st & s1 & H1 & H). apply gets_ok in H1 as [Hst <-].
  destruct (store_denied st store_id) eqn:Hd; [by apply reject_approval_raises in H|].
  apply bind_ok in H as (? & s1 & H1 & H). apply log_event_ok in H1 as ->.
  apply bind_ok in H as (? & s2 & H2 & H). apply ret_ok in H as [<- <-].
  split.
  - destruct (given ip); [|apply ret_ok in H2 as [_ <-]].
    + injection H2 as _ <-. split_and!; [done..|]. simpl. by eexists.
    + split_and!; [done..|]. simpl. by eexists.
  - right. exists approver. split_and!; [done|lia|]. split_and!; [done|by apply existsb_eqb_elem|].
    exists u. unfold user_store in Hst. rewrite Hu in Hst. subst st.
    split_and!; [done..|]. by apply store_denied_false.
Qed.

(** A refused approval commits nothing but its audit event. *)
Lemma resolve_approval_raise store_id store amount initiating name pw ip s e s' :
  _resolve_return_approval verify_password store_id store amount initiating name pw ip s
  = (Raise e, s') ->
  committed s' = committed s \/ exists g, committed s' = over_audit_logs g (working s).
Proof.
  unfold _resolve_return_approval. intros H.
  destruct (return_approval_threshold_amount store) as [t|]; [|done].
  destruct (amount <? t); [done|].
  destruct (given name) as [n|]; [|injection H as _ <-; by left].
  destruct (given pw) as [p|]; [|injection H as _ <-; by left].
  apply bind_raise_cases in H as [H|(v & s1 & H1 & H)].
  { left. by apply (fixes_run committed) in H; [|apply verify_user_credentials_fixes]. }
  apply verify_user_credentials_ok in H1 as [-> _].
  destruct v as [approver|]; [|by eapply reject_approval_commits].
  case_bool_decide; [by eapply reject_approval_commits|].
  apply bind_raise_cases in H as [H|(perms & s1 & H1 & H)]; [done|].
  apply gets_ok in H1 as [_ <-]. destruct (negb _); [by eapply reject_approval_commits|].
  apply bind_raise_cases in H as [H|(st & s1 & H1 & H)]; [done|].
  apply gets_ok in H1 as [_ <-]. destruct (store_denied _ _); [by eapply reject_approval_commits|].
  left. revert H. apply (fixes_run committed). solve_fixes.
Qed.
End Gate.

(** ** Recording *)

Definition refund_of (items : list (Z * SaleItem)) (requested : list (Z * qty)) : money :=
  sum_by (fun iq : Z * qty =>
    match dict_get iq.1 items with
    | Some item => lr_amount (_compute_line_refund item iq.2)
    | None => 0
    end) requested.

Lemma refund_total_ok items requested s total s' :
  refund_total items requested s = (Ok total, s') -> s' = s /\ total = refund_of items requested.
Proof.
  unfold refund_total. intros H.
  eapply (fold_m_ok_ind _ (fun dn total s1 => s1 = s /\ total = refund_of items dn)) in H;
    [done|done|].
  intros dn [i q] rest b1 s1 b2 s2 _ [-> ->] H1.
  apply bind_ok in H1 as (item & s3 & H3 & H1). apply of_option_ok in H3 as [Hi <-].
  apply ret_ok in H1 as [<- <-]. split; [done|]. simpl in Hi.
  unfold refund_of. rewrite sum_by_app, sum_by_cons, sum_by_nil. simpl. rewrite Hi. lia.
Qed.

Lemma refund_total_fixes {X} (f : session database -> X) items rq : fixes f (refund_total items rq).
Proof. unfold refund_total. solve_fixes. Qed.

Lemma lock_restocked_fixes {X} (f : session database -> X) items rb :
  fixes f (lock_restocked items rb).
Proof. unfold lock_restocked, lock_product_for_update. solve_fixes. Qed.

#[export] Hint Resolve refund_total_fixes lock_restocked_fixes : fixes.

Lemma insert_return_ok key r s i b s' :
  insert_return key r s = (Ok (i, b), s') ->
  (b = true /\ i = next_id (sale_returns (working s)) /\ row_valid (working s) r /\
   s' = with_working (over_sale_returns (fun t => t ++ [r]) (working s)) s) \/
  (b = false /\ exists x s1, committed s1 = committed s /\
     find_return key (with_working (committed s1) s1) = (Ok (Some (i, x)), s')).
Proof.
  unfold insert_return. intros H.
  apply except_integrity_ok in H as [H|(c & s1 & Hr & H)].
  - apply bind_ok in H as (j & s1 & H1 & H). apply ret_ok in H as [[= <- <-] <-].
    apply add_ok in H1 as (-> & Hv & _ & ->). by left.
  - right. apply bind_ok in H as ([] & s2 & H1 & H). injection H1 as <-.
    apply bind_ok in H as (w & s3 & H1 & H). destruct w as [[j w]|]; [|done].
    apply ret_ok in H as [[= <- <-] <-]. split; [done|]. exists w, s1. split; [|done].
    assert (Hf : fixes committed (i ← add r; mret (i, true))) by solve_fixes.
    specialize (Hf s). by rewrite Hr in Hf.
Qed.

(** Quantity put back on the shelf for a product by the lines [dn]. *)
Definition restocked (d : database) (restock_by : list (Z * bool)) (dn : list (Z * qty)) (pid : Z)
    : qty :=
  sum_where (fun iq => default false (dict_get iq.1 restock_by) &&
                       match row_of (sale_items d) iq.1 with
                       | Some item => item_product_id item =? pid
                       | None => false
                       end) snd dn.

Definition with_more_returned (q : qty) (i : SaleItem) : SaleItem :=
  with_returned (quantity_returned i + q) i.

Definition line_posted (d : database) (restock_by : list (Z * bool)) (rid : Z) (iq : Z * qty)
    (e : SaleReturnLineEffect) (r : SaleReturnItem) : Prop :=
  exists item rs, row_of (sale_items d) iq.1 = Some item /\ dict_get iq.1 restock_by = Some rs /\
    e = return_effect item iq.2 rs /\ r = return_item_row rid iq.1 item iq.2 rs /\
    0 <= unit_price_at_sale item /\ 0 < iq.2 /\ 0 <= lr_discount (_compute_line_refund item iq.2) /\
    0 <= lr_tax (_compute_line_refund item iq.2).

(** What the posting loop has done after the lines [dn]. *)
Record lines_done (a : ReturnArgs) (rid : Z) (restock_by : list (Z * bool)) (s : session database)
    (dn : list (Z * qty)) (effects : list SaleReturnLineEffect) (s1 : session database) : Prop := {
  ld_committed : committed s1 = committed s;
  ld_ledger : ledger_tables (working s1) = ledger_tables (working s);
  ld_tills : tills_tables (working s1) = tills_tables (working s);
  ld_sales : sales (working s1) = sales (working s);
  ld_payments : payments (working s1) = payments (working s);
  ld_returns : sale_returns (working s1) = sale_returns (working s);
  ld_items : forall i, row_of (sale_items (working s1)) i
    = with_more_returned (default 0 (dict_get i dn)) <$> row_of (sale_items (working s)) i;
  ld_products : forall pid p, row_of (products (working s)) pid = Some p -> exists c,
    row_of (products (working s1)) pid
    = Some (with_stock (current_qty_on_hand p + restocked (working s) restock_by dn pid) c p);
  ld_posted : exists new,
    sale_return_items (working s1) = sale_return_items (working s) ++ new /\
    Forall3 (line_posted (working s) restock_by rid) dn effects new;
}.

Lemma restock_item_ok a rid item q s s' :
  restock_item a rid item q s = (Ok tt, s') ->
  exists p c, row_of (products (working s)) (item_product_id item) = Some p /\
    s' = with_working (apply_movement (item_product_id item) (current_qty_on_hand p + q)
           (return_movement a rid item q c) (working s)) s.
Proof.
  unfold restock_item. intros H.
  apply bind_ok in H as (p & s1 & H1 & H). apply lock_product_ok in H1 as [Hp ->].
  apply bind_ok in H as (? & s1 & H1 & H). apply ret_ok in H as [_ <-].
  apply record_movement_ok in H1 as (p' & Hp' & _ & _ & _ & _ & ->).
  rewrite Hp in Hp'. injection Hp' as <-. eauto.
Qed.

Lemma with_returned_same i : with_more_returned 0 i = i.
Proof. unfold with_more_returned. rewrite Z.add_0_r. by destruct i. Qed.

Lemma post_return_line_ok a rid items rb effects i q item dn s0 s effects' s' :
  dict_get i items = Some item -> row_of (sale_items (working s0)) i = Some item ->
  dict_get i dn = None -> lines_done a rid rb s0 dn effects s ->
  post_return_line a rid items rb effects (i, q) s = (Ok effects', s') ->
  lines_done a rid rb s0 (dn ++ [(i, q)]) effects' s'.
Proof.
  intros Hit Hrow Hnew [Hc Hl Ht Hs Hpay Hr Hi Hp (new & Hn & Hpost)] H.
  unfold post_return_line in H.
  apply bind_ok in H as (it & s1 & H1 & H). apply of_option_ok in H1 as [Hit' <-]. simpl in Hit'.
  rewrite Hit in Hit'. injection Hit' as <-.
  apply bind_ok in H as (rs & s1 & H1 & H). apply of_option_ok in H1 as [Hrs <-].
  apply bind_ok in H as (? & s1 & H1 & H). apply add_ok in H1 as (_ & Hv & _ & ->).
  apply bind_ok in H as ([] & s2 & H2 & H).
  apply bind_ok in H as (? & s3 & H3 & H). apply update_ok in H3 as (r & Hr' & _ & _ & ->).
  apply ret_ok in H as [<- <-]. simpl in *.
  assert (Hlast : forall k, default 0 (dict_get k (dn ++ [(i, q)]))
    = default 0 (dict_get k dn) + (if bool_decide (k = i) then q else 0)).
  { intros k. rewrite dict_get_app. simpl. case_bool_decide as E.
    - subst. rewrite Hnew, Z.eqb_refl. simpl. lia.
    - rewrite (proj2 (Z.eqb_neq _ _) E). destruct (dict_get k dn); simpl; lia. }
  assert (Hrst : forall pid, restocked (working s0) rb (dn ++ [(i, q)]) pid
    = restocked (working s0) rb dn pid
      + (if rs && (item_product_id item =? pid) then q else 0)).
  { intros pid. unfold restocked. rewrite sum_where_app, sum_where_cons, sum_where_nil. simpl.
    rewrite Hrs, Hrow. simpl. lia. }
  assert (Hpos : line_posted (working s0) rb rid (i, q) (return_effect item q rs)
                   (return_item_row rid i item q rs)).
  { exists item, rs. simpl. unfold row_valid in Hv. simpl in Hv.
    repeat (apply Forall_cons in Hv as [? Hv]). simpl in *. bools. done. }
  (* the state after the optional restock *)
  assert (Hrest : committed s2 = committed s /\ ledger_tables (working s2) = ledger_tables (working s) /\
    tills_tables (working s2) = tills_tables (working s) /\
    selling_tables (working s2) = selling_tables (over_sale_return_items
      (fun t => t ++ [return_item_row rid i item q rs]) (working s)) /\
    forall pid p, row_of (products (working s)) pid = Some p -> exists c,
      row_of (products (working s2)) pid
      = Some (with_stock (current_qty_on_hand p
          + (if rs && (item_product_id item =? pid) then q else 0)) c p)).
  { destruct rs; simpl in H2 |- *.
    - apply restock_item_ok in H2 as (p & c & Hpr & ->). simpl in *. split_and!; try done.
      intros pid y Hx. rewrite row_of_set. case_bool_decide as E.
      + subst. rewrite Hpr in Hx. injection Hx as <-. rewrite Hpr, Z.eqb_refl. simpl. eauto.
      + rewrite (proj2 (Z.eqb_neq _ _) E), Hx, Z.add_0_r. exists None. by rewrite with_stock_same.
    - apply ret_ok in H2 as [_ <-]. simpl. split_and!; try done.
      intros pid y Hx. rewrite Hx, Z.add_0_r. exists None. by rewrite with_stock_same. }
  destruct Hrest as (Rc & Rl & Rt & Rs & Rp).
  rewrite Rs in Hr'. simpl in Hr'. rewrite Hi, Hnew, Hrow in Hr'. simpl in Hr'.
  rewrite with_returned_same in Hr'. injection Hr' as <-.
  constructor; simpl; rewrite ?Rc, ?Rl, ?Rt, ?Rs; simpl; try done.
  - intros k. rewrite row_of_set, Hi, Hlast. case_bool_decide as E.
    + subst. rewrite Hnew, Hrow. simpl. unfold with_more_returned. simpl.
      by rewrite bool_decide_eq_true_2, Z.add_0_l.
    + by rewrite (bool_decide_eq_false_2 (k = i)), Z.add_0_r by congruence.
  - intros pid p Hpid. destruct (Hp pid p Hpid) as [c Hc1]. destruct (Rp _ _ Hc1) as [c' Hc2].
    rewrite Hc2, Hrst. exists (match c' with Some v => Some v | None => c end).
    destruct c', c; unfold with_stock; simpl; by rewrite Z.add_assoc.
  - exists (new ++ [return_item_row rid i item q rs]). rewrite Hn, app_assoc. split; [done|].
    apply Forall3_app; [done|]. by repeat constructor.
Qed.

Lemma post_return_lines_ok a rid items requested rb lines s effects s' :
  resolved (working s) (ra_sale_id a) lines items requested rb ->
  fold_m (post_return_line a rid items rb) requested [] s = (Ok effects, s') ->
  lines_done a rid rb s requested effects s'.
Proof.
  intros Hres H.
  eapply (fold_m_ok_ind _ (fun dn effects s1 => lines_done a rid rb s dn effects s1)) in H;
    [done| |].
  - constructor; try done.
    + intros i. simpl. destruct (row_of _ i); simpl; [by rewrite with_returned_same|done].
    + intros pid p Hp. exists None. unfold restocked. by rewrite sum_where_nil, Z.add_0_r, with_stock_same.
    + exists []. rewrite app_nil_r. split; [done|constructor].
  - intros dn [i q] rest e1 s1 e2 s2 Hsplit Hd H1.
    pose proof (rs_nodup _ _ _ _ _ _ Hres) as Hnd.
    assert (Hin : (i, q) ∈ requested) by (rewrite Hsplit; set_solver).
    pose proof (elem_dict_get _ _ _ Hnd Hin) as Hq.
    destruct (rs_item _ _ _ _ _ _ Hres i q Hq) as (item & Hit & Hrow & _ & _).
    eapply post_return_line_ok; [exact Hit|exact Hrow| |exact Hd|exact H1].
    apply dict_get_None. intros Hk. rewrite Hsplit in Hnd.
    unfold dict_keys in *. rewrite map_app in Hnd. simpl in Hnd.
    apply NoDup_app in Hnd as (_ & Hnd & _). by apply (Hnd i Hk); left.
Qed.

(** ** The status of the sale *)

Definition refund_status (items : list (Z * SaleItem)) (old : SaleStatus) : SaleStatus :=
  if negb (bool_decide (length items = 0%nat))
     && forallb (fun ii : Z * SaleItem => item_quantity ii.2 <=? quantity_returned ii.2) items
  then REFUNDED
  else if existsb (fun ii : Z * SaleItem => 0 <? quantity_returned ii.2) items
       then PARTIALLY_REFUNDED else old.

Definition sale_items_of (d : database) (sale_id : Z) : list (Z * SaleItem) :=
  select (fun _ it => item_sale_id it =? sale_id) (sale_items d).

Lemma advance_sale_status_ok sale_id sale s u s' :
  row_of (sales (working s)) sale_id = Some sale ->
  advance_sale_status sale_id s = (Ok u, s') ->
  forall i, row_of (sales (working s')) i
    = if bool_decide (i = sale_id)
      then Some (with_sale_status (refund_status (sale_items_of (working s) sale_id)
                   (sale_status sale)) sale)
      else row_of (sales (working s)) i.
Proof.
  intros Hrow H i. unfold advance_sale_status, items_of_sale in H.
  apply bind_ok in H as (items & s1 & H1 & H). apply query_ok in H1 as [-> <-]. simpl in H.
  unfold refund_status, sale_items_of. destruct (_ && _).
  - apply update_ok in H as (r & Hr & _ & _ & ->). simpl in *. rewrite row_of_set.
    repeat case_bool_decide; subst; try done. by rewrite Hrow.
  - unfold when in H. destruct (existsb _ _).
    + apply update_ok in H as (r & Hr & _ & _ & ->). simpl in *. rewrite row_of_set.
      repeat case_bool_decide; subst; try done. by rewrite Hrow.
    + apply ret_ok in H as [_ <-]. case_bool_decide; [subst|done].
      rewrite Hrow. by destruct sale.
Qed.

Lemma advance_sale_status_frame sale_id s u s' :
  advance_sale_status sale_id s = (u, s') ->
  (committed s', ledger_tables (working s'), tills_tables (working s'), catalog_tables (working s'),
   stock_tables (working s'), sale_items (working s'), sale_returns (working s'),
   sale_return_items (working s'), payments (working s'))
  = (committed s, ledger_tables (working s), tills_tables (working s), catalog_tables (working s),
     stock_tables (working s), sale_items (working s), sale_returns (working s),
     sale_return_items (working s), payments (working s)).
Proof.
  apply (fixes_run (fun s => (committed s, ledger_tables (working s), tills_tables (working s),
    catalog_tables (working s), stock_tables (working s), sale_items (working s),
    sale_returns (working s), sale_return_items (working s), payments (working s)))).
  unfold advance_sale_status, items_of_sale. solve_fixes.
Qed.

(** ** Everything after the return row *)

Record details_done (a : ReturnArgs) (method : PaymentMethod) (rid : Z) (sale : Sale)
    (requested : list (Z * qty)) (rb : list (Z * bool)) (s s' : session database)
    (effects : list SaleReturnLineEffect) (posted_id : option Z) : Prop := {
  dd_committed : committed s' = committed s;
  dd_tills : tills_tables (working s') = tills_tables (working s);
  dd_payments : payments (working s') = payments (working s);
  dd_items : forall i, row_of (sale_items (working s')) i
    = with_more_returned (default 0 (dict_get i requested)) <$> row_of (sale_items (working s)) i;
  dd_products : forall pid p, row_of (products (working s)) pid = Some p -> exists c,
    row_of (products (working s')) pid
    = Some (with_stock (current_qty_on_hand p + restocked (working s) rb requested pid) c p);
  dd_posted : exists new,
    sale_return_items (working s') = sale_return_items (working s) ++ new /\
    Forall3 (line_posted (working s) rb rid) requested effects new;
  dd_refund : sale_returns (working s')
    = set_row rid (with_refund (sum_by effect_amount effects)) (sale_returns (working s));
  dd_nonneg : 0 <= sum_by effect_amount effects;
  dd_status : forall i, row_of (sales (working s')) i
    = if bool_decide (i = ra_sale_id a)
      then Some (with_sale_status (refund_status (sale_items_of (working s') (ra_sale_id a))
                   (sale_status sale)) sale)
      else row_of (sales (working s)) i;
  dd_journal : exists s1 s2, ledger_tables (working s1) = ledger_tables (working s) /\
    post (P_sale_return rid (ra_store_id a) (ra_return_date a) method effects) (ra_created_by a) s1
    = (Ok posted_id, s2) /\ ledger_tables (working s') = ledger_tables (working s2);
}.

Lemma write_return_details_ok a method v rid sale items requested rb lines s u s' :
  row_of (sales (working s)) (ra_sale_id a) = Some sale ->
  resolved (working s) (ra_sale_id a) lines items requested rb ->
  write_return_details a method v rid items requested rb s = (Ok u, s') ->
  exists effects posted_id, details_done a method rid sale requested rb s s' effects posted_id.
Proof.
  intros Hsale Hres H. unfold write_return_details in H.
  apply bind_ok in H as ([] & s1 & H1 & H). apply log_event_ok in H1 as ->.
  apply bind_ok in H as (effects & s2 & H2 & H).
  apply (post_return_lines_ok _ _ _ _ _ lines) in H2; [|by destruct Hres].
  destruct H2 as [Hc Hl Ht Hs Hpay Hr Hi Hp (new & Hn & Hpost)]. simpl in *.
  apply bind_ok in H as (? & s3 & H3 & H).
  apply (update_ok (R := SaleReturn)) in H3 as (r & Hret & Hv & _ & ->). simpl in Hret.
  apply (row_valid_elem (R := SaleReturn) _ _ "ck_sale_returns_refund_amount_non_negative") with
    (b := 0 <=? sum_by effect_amount effects) in Hv; [|simpl; do 2 right; left]. bools.
  apply bind_ok in H as (? & s4 & H4 & H).
  pose proof (advance_sale_status_frame _ _ _ _ H4) as [= Ec El Et Ecat Est Ei Eret Eri Epay].
  pose proof (fun Hrow => advance_sale_status_ok _ sale _ _ _ Hrow H4) as Hadv.
  specialize (Hadv ltac:(by simpl; rewrite Hs)).
  simpl in *.
  apply bind_ok in H as ([] & s5 & H5 & H). apply log_event_ok in H5 as ->.
  apply bind_ok in H as (posted_id & s6 & H6 & H). apply ret_ok in H as [_ <-].
  match type of H6 with _ ?s0 = _ => set (s5 := s0) in * end.
  pose proof (post_frame (P_sale_return rid _ _ method effects) _ _ _ _ H6) as [Hpr Hst].
  assert (Hrest : committed s6 = committed s5 /\ selling_tables (working s6) = selling_tables (working s5)
    /\ tills_tables (working s6) = tills_tables (working s5)).
  { split_and!; [apply (fixes_run committed) in H6; [done|]
                |apply (fixes_run (fun s => selling_tables (working s))) in H6; [done|]
                |apply (fixes_run (fun s => tills_tables (working s))) in H6; [done|]];
      unfold post_sale_return_journal, _post_standard, posted; solve_fixes. }
  destruct Hrest as (Rc & Rs & Rt).
  exists effects, posted_id. constructor.
  - rewrite Rc. simpl. by rewrite Ec.
  - rewrite Rt. simpl. by rewrite Et.
  - rewrite Rs. simpl. by rewrite Epay, Hpay.
  - intros i. rewrite Rs. simpl. by rewrite Ei, Hi.
  - intros pid p Hpid. rewrite Hpr. simpl. rewrite Ecat. by apply Hp.
  - exists new. rewrite Rs. simpl. rewrite Eri. done.
  - rewrite Rs. simpl. by rewrite Eret, Hr.
  - done.
  - intros i. unfold sale_items_of. rewrite Rs. simpl. rewrite Hadv, Hs, Ei. done.
  - exists s5, s6. split_and!; [simpl; by rewrite El|exact H6|done].
Qed.

(** ** The two ways a return request succeeds *)

(** A new return: what was checked, and the writes on the state [s1] whose
    tables, the audit trail and the return row apart, are those of [s]. *)
Definition new_return_made (a : ReturnArgs) (caller : option Z) (lines : list SaleReturnLineInput)
    (method : PaymentMethod) (s : session database) (i : Z) (s' : session database) : Prop :=
  exists sale store items requested rb approval shift number g effects posted_id s1,
    find_return (ra_client_transaction_id a) s = (Ok None, s) /\
    row_of (sales (working s)) (ra_sale_id a) = Some sale /\ sale_store_id sale = ra_store_id a /\
    (sale_status sale = COMPLETED \/ sale_status sale = PARTIALLY_REFUNDED) /\
    store_denied caller (sale_store_id sale) = false /\
    lines <> [] /\ (forall l, l ∈ lines -> 0 < rl_quantity l) /\
    resolved (working s) (ra_sale_id a) lines items requested rb /\
    row_of (stores (working s)) (ra_store_id a) = Some store /\
    ((approval = (false, None) /\ ~ over_threshold store (refund_of items requested)) \/
     exists approver, approval = (true, Some approver) /\
       over_threshold store (refund_of items requested) /\
       approver_ok (working s) (ra_store_id a) (ra_created_by a) approver) /\
    open_shift_attached (working s) shift /\
    i = next_id (sale_returns (working s)) /\
    committed s1 = committed s /\
    working s1 = over_sale_returns (fun t => t ++ [new_return a number method approval shift])
                   (over_audit_logs g (working s)) /\
    details_done a method i sale requested rb s1 s' effects posted_id.

Section CreateReturn.
Context (verify_password : string -> string -> bool).

Lemma approve_and_record_ok a method v items requested rb lines sale s i s' :
  row_of (sales (working s)) (ra_sale_id a) = Some sale ->
  resolved (working s) (ra_sale_id a) lines items requested rb ->
  approve_and_record verify_password a method v items requested rb s = (Ok i, s') ->
  (exists x s1, committed s1 = committed s /\ working s1 = committed s1 /\
     find_return (ra_client_transaction_id a) s1 = (Ok (Some (i, x)), s')) \/
  exists store approval shift number g effects posted_id s1,
    row_of (stores (working s)) (ra_store_id a) = Some store /\
    ((approval = (false, None) /\ ~ over_threshold store (refund_of items requested)) \/
     exists approver, approval = (true, Some approver) /\
       over_threshold store (refund_of items requested) /\
       approver_ok (working s) (ra_store_id a) (ra_created_by a) approver) /\
    open_shift_attached (working s) shift /\
    i = next_id (sale_returns (working s)) /\
    committed s1 = committed s /\
    working s1 = over_sale_returns (fun t => t ++ [new_return a number method approval shift])
                   (over_audit_logs g (working s)) /\
    details_done a method i sale requested rb s1 s' effects posted_id.
Proof.
  intros Hsale Hres H. unfold approve_and_record in H.
  apply bind_ok in H as (o & s1 & H1 & H). apply get_ok in H1 as [Ho <-].
  apply bind_ok in H as (store & s1 & H1 & H). apply of_option_ok in H1 as [-> <-].
  apply bind_ok in H as (total & s1 & H1 & H). apply refund_total_ok in H1 as [-> ->].
  apply bind_ok in H as (approval & s1 & H1 & H).
  apply resolve_approval_ok in H1 as [(Hc1 & _ & g & Hg) Happ].
  apply bind_ok in H as (? & s2 & H2 & H).
  apply (fixes_run (fun s => s)) in H2 as ->; [|apply lock_restocked_fixes].
  apply bind_ok in H as (shift & s2 & H2 & H).
  assert (Hshift : s2 = s1 /\ open_shift_attached (working s) (fst <$> shift)).
  { destruct (ra_created_by a); [|by apply ret_ok in H2 as [<- <-]].
    pose proof H2 as H3. apply (fixes_run (fun s => s)) in H3; [|apply lock_active_shift_fixes].
    split; [done|]. apply active_shift_open in H2. by rewrite Hg in H2. }
  destruct Hshift as [-> Hshift].
  apply bind_ok in H as (number & s2 & H3 & H).
  assert (Hs2 : working s2 = working s1 /\ committed s2 = committed s1)
    by (by injection H3 as _ <-).
  destruct Hs2 as [Hw Hc].
  apply bind_ok in H as ([j b] & s3 & H4 & H). apply insert_return_ok in H4.
  destruct H4 as [(-> & -> & _ & ->)|(-> & w & s4 & Hs4 & Hf)]; simpl in H.
  - apply bind_ok in H as (? & s3 & H5 & H). apply ret_ok in H as [<- <-]. right.
    apply (write_return_details_ok _ _ _ _ sale _ _ _ lines) in H5 as (effects & pd & Hd);
      [|simpl; by rewrite Hw, Hg|].
    + rewrite Hw, Hg in Hd |- *. exists store, approval, (fst <$> shift), number, g, effects, pd.
      eexists. split_and!; [done|exact Happ|exact Hshift|done| | |exact Hd].
      * simpl. congruence.
      * done.
    + simpl. rewrite Hw, Hg. by destruct Hres.
  - apply ret_ok in H as [<- <-]. left. exists w, (with_working (committed s4) s4).
    simpl. split_and!; [congruence|done|done].
Qed.

Lemma create_sale_return_ok a v caller lines s i s' :
  create_sale_return verify_password a v caller lines s = (Ok i, s') ->
  exists method, payment_method_named (ra_refund_method a) = Some method /\
    ((s' = s /\ _match_or_reject_idempotent_return (ra_client_transaction_id a) (ra_sale_id a)
                  method lines s = (Ok (Some i), s)) \/
     (exists x s1, committed s1 = committed s /\ working s1 = committed s1 /\
        find_return (ra_client_transaction_id a) s1 = (Ok (Some (i, x)), s')) \/
     new_return_made a caller lines method s i s').
Proof.
  unfold create_sale_return. intros H.
  apply bind_ok in H as (method & s1 & H1 & H). apply of_option_ok in H1 as [Hm <-].
  exists method. split; [done|].
  apply bind_ok in H as (o & s1 & H1 & H). pose proof H1 as H2.
  apply match_return_ok in H2 as [-> Hnone].
  destruct o as [j|]; [apply ret_ok in H as [<- <-]; by left|].
  apply bind_ok in H as (r & s1 & H2 & H). apply check_return_ok in H2 as [-> Hchk].
  destruct r as [j|[[items requested] rb]].
  { apply ret_ok in H as [<- <-]. by left. }
  destruct Hchk as (sale & Hsale & Hstore & Hstat & Hden & Hne & Hpos & Hres).
  eapply approve_and_record_ok in H; [|exact Hsale|exact Hres].
  destruct H as [H|(store & approval & shift & number & g & effects & pd & s1 & H)].
  - right. by left.
  - right. right. exists sale, store, items, requested, rb, approval, shift, number, g, effects, pd, s1.
    split_and!; done || apply H.
Qed.
End CreateReturn.
