(* ===== verification/ReturnProperties.v ===== *)
(** * What returns guarantee

    The properties of [SaleReturns]: the effect of a new return on items,
    products, refund and sale status; the ledger of returns that agrees with the
    sale items however often a line is returned; approval, idempotency, failure
    and voids; and the invariants every return keeps. *)

From S2P Require Import Prelude Fixed Session Schema Tables Platform Chart Fixture Journal.
From S2P Require Import Posting Inventory Shifts Fiscal Sales SaleReturns.

(** ** New returns *)

Definition return_key_fresh (d : database) (key : string) : Prop :=
  forall x, x ∈ sale_returns d -> return_client_transaction_id x <> key.

Lemma find_return_fresh s i x s' key :
  return_key_fresh (working s) key -> find_return key s = (Ok (Some (i, x)), s') -> False.
Proof.
  intros Hf H. apply find_return_ok in H as [_ H].
  assert (Hin : (i, x) ∈ select (fun _ r => bool_decide (return_client_transaction_id r = key))
                  (sale_returns (working s))) by (rewrite H; left).
  apply elem_select in Hin as [Hx%row_of_elem Hk]. bools. by apply (Hf x).
Qed.

(** A request under a fresh key makes a new return. *)
Lemma create_sale_return_fresh vp a v caller lines s i s' :
  committed s = working s -> return_key_fresh (working s) (ra_client_transaction_id a) ->
  create_sale_return vp a v caller lines s = (Ok i, s') ->
  exists method, payment_method_named (ra_refund_method a) = Some method /\
    new_return_made a caller lines method s i s'.
Proof.
  intros Hcw Hf (method & Hm & [[-> H]|[(x & s1 & Hc & Hw & H)|H]])%create_sale_return_ok.
  - exfalso. apply match_return_ok in H as [_ (r & Hr & Hk & _)].
    apply row_of_elem in Hr. by apply (Hf r).
  - exfalso. eapply find_return_fresh; [|exact H]. by rewrite Hw, Hc, Hcw.
  - eauto.
Qed.

Lemma asked_pos lines i :
  (forall l, l ∈ lines -> 0 < rl_quantity l) ->
  (exists l, l ∈ lines /\ rl_sale_item_id l = i) -> 0 < asked lines i.
Proof.
  intros Hpos (l & Hl & <-). unfold asked. apply list_elem_of_split in Hl as (l1 & l2 & E). subst lines.
  rewrite sum_where_app, sum_where_cons, Z.eqb_refl.
  assert (Hnn : forall l', (forall x, x ∈ l' -> 0 < rl_quantity x) ->
    0 <= sum_where (fun x => rl_sale_item_id x =? rl_sale_item_id l) rl_quantity l').
  { intros l' Hl'. unfold sum_where. apply sum_by_nonneg. intros x Hx.
    specialize (Hl' x Hx). destruct (_ =? _); lia. }
  pose proof (Hnn l1 ltac:(intros; apply Hpos; set_solver)).
  pose proof (Hnn l2 ltac:(intros; apply Hpos; set_solver)).
  specialize (Hpos l ltac:(set_solver)). lia.
Qed.

Section Resolved.
Context (d : database) (sale_id : Z) (lines : list SaleReturnLineInput)
  (items : list (Z * SaleItem)) (requested : list (Z * qty)) (rb : list (Z * bool)).
Context (Hres : resolved d sale_id lines items requested rb).

Lemma resolved_default i : default 0 (dict_get i requested) = asked lines i.
Proof.
  destruct (dict_get i requested) as [q|] eqn:E; [by apply (rs_requested _ _ _ _ _ _ Hres)|].
  simpl. symmetry. apply dict_get_None in E. apply sum_where_none. intros l Hl.
  apply Z.eqb_neq. intros El. apply E, (rs_keys _ _ _ _ _ _ Hres). eauto.
Qed.

(** What the items asked for refund, each priced from its own row. *)
Lemma posted_amounts rid dn effects new :
  Forall3 (line_posted d rb rid) dn effects new -> (forall iq, iq ∈ dn -> iq ∈ requested) ->
  sum_by effect_amount effects = refund_of items dn.
Proof.
  induction 1 as [|iq e r dn effects new Hl _ IH]; intros Hin; [done|].
  unfold refund_of in *. rewrite !sum_by_cons, IH by set_solver. f_equal.
  destruct Hl as (item & rs & Hrow & _ & -> & _). destruct iq as [i q]. simpl in *.
  pose proof (elem_dict_get _ _ _ (rs_nodup _ _ _ _ _ _ Hres) (Hin (i, q) ltac:(set_solver))) as Hq.
  destruct (rs_item _ _ _ _ _ _ Hres i q Hq) as (item' & Hit & Hrow' & _).
  rewrite Hrow in Hrow'. injection Hrow' as <-. by rewrite Hit.
Qed.
End Resolved.

(** The refund of the whole request, each item priced from its row. *)
Definition refund_due (d : database) (lines : list SaleReturnLineInput) : money :=
  sum_by (fun i => match row_of (sale_items d) i with
                   | Some item => lr_amount (_compute_line_refund item (asked lines i))
                   | None => 0
                   end) (remove_dups (map rl_sale_item_id lines)).

Lemma refund_of_due d sale_id lines items requested rb :
  resolved d sale_id lines items requested rb -> refund_of items requested = refund_due d lines.
Proof.
  intros Hres. unfold refund_of, refund_due.
  rewrite (sum_by_perm _ (remove_dups _) (dict_keys requested)).
  - unfold dict_keys. rewrite sum_by_map. apply sum_by_ext. intros [i q] Hin. simpl.
    pose proof (elem_dict_get _ _ _ (rs_nodup _ _ _ _ _ _ Hres) Hin) as Hq.
    destruct (rs_item _ _ _ _ _ _ Hres i q Hq) as (item & -> & -> & _).
    by rewrite <- (rs_requested _ _ _ _ _ _ Hres i q Hq).
  - apply NoDup_Permutation; [apply NoDup_remove_dups|apply (rs_nodup _ _ _ _ _ _ Hres)|].
    intros i. rewrite elem_of_remove_dups, (rs_keys _ _ _ _ _ _ Hres), list_elem_of_fmap.
    split; intros (l & ? & ?); eauto.
Qed.

(** What the request puts back on the shelf: an item goes back as a whole when
    any of its lines asks for it. *)
Definition put_back (d : database) (lines : list SaleReturnLineInput) (pid : Z) : qty :=
  sum_where (fun i => asked_restock lines i && match row_of (sale_items d) i with
                                               | Some item => item_product_id item =? pid
                                               | None => false
                                               end)
    (asked lines) (remove_dups (map rl_sale_item_id lines)).

Lemma restocked_put_back d sale_id lines items requested rb pid :
  resolved d sale_id lines items requested rb -> restocked d rb requested pid = put_back d lines pid.
Proof.
  intros Hres. unfold restocked, put_back, sum_where.
  rewrite (sum_by_perm _ (remove_dups _) (dict_keys requested)).
  - unfold dict_keys. rewrite sum_by_map. apply sum_by_ext. intros [i q] Hin. simpl.
    rewrite (rs_restock _ _ _ _ _ _ Hres i) by (apply list_elem_of_fmap; by exists (i, q)). simpl.
    pose proof (elem_dict_get _ _ _ (rs_nodup _ _ _ _ _ _ Hres) Hin) as Hq.
    by rewrite <- (rs_requested _ _ _ _ _ _ Hres i q Hq).
  - apply NoDup_Permutation; [apply NoDup_remove_dups|apply (rs_nodup _ _ _ _ _ _ Hres)|].
    intros i. rewrite elem_of_remove_dups, (rs_keys _ _ _ _ _ _ Hres), list_elem_of_fmap.
    split; intros (l & ? & ?); eauto.
Qed.

Lemma refund_status_spec items old :
  items <> [] -> (exists ii, ii ∈ items /\ 0 < quantity_returned ii.2) ->
  (refund_status items old = REFUNDED /\
     forall ii, ii ∈ items -> item_quantity ii.2 <= quantity_returned ii.2) \/
  (refund_status items old = PARTIALLY_REFUNDED /\
     exists ii, ii ∈ items /\ quantity_returned ii.2 < item_quantity ii.2).
Proof.
  intros Hne (ii & Hii & Hpos). unfold refund_status.
  rewrite bool_decide_eq_false_2 by (by destruct items). simpl.
  destruct (forallb _ items) eqn:E.
  - left. split; [done|]. rewrite forallb_forall in E. intros x Hx.
    apply list_elem_of_In, E in Hx. lia.
  - right. replace (existsb _ items) with true.
    + split; [done|]. apply not_true_iff_false in E. rewrite forallb_forall in E.
      destruct (decide (Exists (fun x : Z * SaleItem => quantity_returned x.2 < item_quantity x.2) items))
        as [Hx|Hx]; [by apply Exists_exists in Hx|].
      exfalso. apply E. intros x Hx'. apply list_elem_of_In in Hx'.
      rewrite <- Forall_Exists_neg, Forall_forall in Hx. specialize (Hx x Hx'). simpl in Hx. lia.
    + symmetry. apply existsb_exists. exists ii. split; [by apply list_elem_of_In|lia].
Qed.

(** ** The returns ledger agrees with the sale items *)

Definition ri_amount (r : SaleReturnItem) : money :=
  price_of (ri_quantity r) (unit_price_refunded r) - ri_discount_refunded r + ri_tax_refunded r.

Definition returned_so_far (f : SaleReturnItem -> Z) (d : database) (item_id : Z) : Z :=
  sum_where (fun r => ri_sale_item_id r =? item_id) f (sale_return_items d).

Record returns_wf (d : database) : Prop := {
  rw_bounds : forall k item, row_of (sale_items d) k = Some item ->
    0 < item_quantity item /\ 0 <= quantity_returned item <= item_quantity item;
  rw_amounts : forall k item, row_of (sale_items d) k = Some item ->
    0 <= item_discount_amount item /\ 0 <= item_tax_amount item;
  rw_sales : forall k item, row_of (sale_items d) k = Some item -> item_sale_id item < next_id (sales d);
  rw_links : forall r, r ∈ sale_return_items d ->
    ri_sale_return_id r < next_id (sale_returns d) /\ ri_sale_item_id r < next_id (sale_items d);
  rw_quantity : forall k item, row_of (sale_items d) k = Some item ->
    returned_so_far ri_quantity d k = quantity_returned item;
  rw_discount : forall k item, row_of (sale_items d) k = Some item ->
    returned_so_far ri_discount_refunded d k
    = entitled (item_discount_amount item) (item_quantity item) (quantity_returned item);
  rw_tax : forall k item, row_of (sale_items d) k = Some item ->
    returned_so_far ri_tax_refunded d k
    = entitled (item_tax_amount item) (item_quantity item) (quantity_returned item);
  rw_refund : forall i r, row_of (sale_returns d) i = Some r ->
    refund_amount r
    = sum_where (fun it => ri_sale_return_id it =? i) ri_amount (sale_return_items d);
}.

Lemma returns_wf_ext d d' :
  next_id (sales d') = next_id (sales d) -> sale_items d' = sale_items d -> sale_returns d' = sale_returns d ->
  sale_return_items d' = sale_return_items d -> returns_wf d -> returns_wf d'.
Proof.
  intros E0 E1 E2 E3 []. constructor; unfold returned_so_far in *; rewrite ?E0, ?E1, ?E2, ?E3; done.
Qed.

Lemma effect_amount_ri d rb rid iq e r :
  line_posted d rb rid iq e r -> ri_amount r = effect_amount e.
Proof. by intros (item & rs & _ & _ & -> & -> & _). Qed.

(** What the new return items of item [k] add to a per-item total. *)
Lemma posted_per_item d rb rid dn effects new (f : SaleReturnItem -> Z) (g : SaleItem -> qty -> Z) k item :
  (forall i q rs x, row_of (sale_items d) i = Some x -> f (return_item_row rid i x q rs) = g x q) ->
  Forall3 (line_posted d rb rid) dn effects new -> NoDup (dict_keys dn) ->
  row_of (sale_items d) k = Some item ->
  sum_where (fun r => ri_sale_item_id r =? k) f new
  = match dict_get k dn with Some q => g item q | None => 0 end.
Proof.
  intros Hf Hp. induction Hp as [|[i q] e r dn effects new Hl _ IH]; intros Hnd Hk; [done|].
  unfold dict_keys in Hnd. simpl in Hnd. apply NoDup_cons in Hnd as [Hi Hnd].
  rewrite sum_where_cons, (IH Hnd Hk).
  destruct Hl as (x & rs & Hrow & _ & _ & -> & _). simpl in Hrow |- *.
  rewrite (Z.eqb_sym k). destruct (Z.eqb_spec i k) as [->|]; [|lia].
  rewrite Hrow in Hk. injection Hk as <-. apply (dict_get_None k dn) in Hi.
  rewrite Hi, (Hf _ _ _ _ Hrow). lia.
Qed.

Lemma posted_links d rb rid dn effects new :
  Forall3 (line_posted d rb rid) dn effects new ->
  (forall r, r ∈ new -> ri_sale_return_id r = rid /\ ri_sale_item_id r < next_id (sale_items d)) /\
  sum_where (fun it => ri_sale_return_id it =? rid) ri_amount new = sum_by effect_amount effects.
Proof.
  induction 1 as [|iq e r dn effects new Hl _ [IH1 IH2]]; [split; [by intros r ?%elem_of_nil|done]|].
  rewrite sum_where_cons, sum_by_cons, IH2, <- (effect_amount_ri _ _ _ _ _ _ Hl).
  destruct Hl as (x & rs & Hrow & _ & _ & Hr & _). split.
  - intros y [->|Hy]%elem_of_cons; [|by apply IH1]. subst r. simpl. split; [done|].
    apply row_of_range in Hrow. lia.
  - assert (E : ri_sale_return_id r = rid) by (by subst r). by rewrite E, Z.eqb_refl.
Qed.

Lemma new_return_wf a caller lines method s i s' :
  returns_wf (working s) -> new_return_made a caller lines method s i s' -> returns_wf (working s').
Proof.
  intros Hwf (sale & store & items & requested & rb & approval & shift & number & g & effects & pd &
    s1 & _ & Hsale & _ & _ & _ & _ & Hpos & Hres & _ & _ & _ & Hi & _ & Hw1 &
    [_ _ _ Ditems _ (new & Dnew & Dpost) Dref _ Dstat _]).
  rewrite Hw1 in *. simpl in *.
  assert (Dpost' : Forall3 (line_posted (working s) rb i) requested effects new)
    by (eapply Forall3_impl; [exact Dpost|]; intros ? ? ? Hl; exact Hl).
  destruct (posted_links _ _ _ _ _ _ Dpost') as [Hlinks Hsum].
  pose proof (rs_nodup _ _ _ _ _ _ Hres) as Hnd.
  assert (Hrow : forall k item', row_of (sale_items (working s')) k = Some item' ->
    exists item q, row_of (sale_items (working s)) k = Some item /\ item' = with_more_returned q item /\
      0 <= q /\ quantity_returned item + q <= item_quantity item /\
      forall f (g : SaleItem -> qty -> Z), g item 0 = 0 ->
        (forall j q' rs x, row_of (sale_items (working s)) j = Some x ->
           f (return_item_row i j x q' rs) = g x q') ->
        returned_so_far f (working s') k = returned_so_far f (working s) k + g item q).
  { intros k item' Hk. rewrite Ditems in Hk.
    destruct (row_of (sale_items (working s)) k) as [item|] eqn:E; [|done].
    injection Hk as <-. exists item, (default 0 (dict_get k requested)).
    destruct (rw_bounds _ Hwf k item E) as [_ Hb].
    assert (0 <= default 0 (dict_get k requested) /\
      quantity_returned item + default 0 (dict_get k requested) <= item_quantity item) as [Hq0 Hq1].
    { destruct (dict_get k requested) as [q|] eqn:Eq; simpl; [|lia].
      destruct (rs_item _ _ _ _ _ _ Hres k q Eq) as (item' & _ & Hr & _ & Hle).
      rewrite E in Hr. injection Hr as <-. split; [|done].
      rewrite (rs_requested _ _ _ _ _ _ Hres k q Eq). apply Z.lt_le_incl, asked_pos; [done|].
      apply (rs_keys _ _ _ _ _ _ Hres), list_elem_of_fmap. exists (k, q).
      split; [done|]. by apply dict_get_elem. }
    split_and!; [done|done|exact Hq0|exact Hq1|]. intros f g0 Hg0 Hf. unfold returned_so_far.
    rewrite Dnew, sum_where_app.
    rewrite (posted_per_item _ _ _ _ _ _ f g0 k item Hf Dpost' Hnd E).
    by destruct (dict_get k requested); simpl; rewrite ?Hg0. }
  constructor.
  - intros k item' (item & q & E & -> & Hq & Hle & _)%Hrow. simpl.
    destruct (rw_bounds _ Hwf k item E). lia.
  - intros k item' (item & q & E & -> & _)%Hrow. exact (rw_amounts _ Hwf k item E).
  - assert (Hlen : next_id (sales (working s')) = next_id (sales (working s))).
    { apply next_id_rows. intros k. rewrite Dstat. case_bool_decide; [subst|done].
      rewrite Hsale. split; eauto. }
    intros k item' (item & q & E & -> & _)%Hrow. rewrite Hlen. exact (rw_sales _ Hwf k item E).
  - assert (Hlen : next_id (sale_items (working s')) = next_id (sale_items (working s))).
    { apply next_id_rows. intros k. by rewrite Ditems, fmap_is_Some. }
    rewrite Dref, next_id_set, next_id_app, Dnew, Hlen.
    intros r [Hr|Hr]%elem_of_app; [destruct (rw_links _ Hwf r Hr); lia|].
    destruct (Hlinks r Hr). lia.
  - intros k item' (item & q & E & -> & _ & _ & Hsum')%Hrow.
    rewrite (Hsum' _ (fun _ q => q)), (rw_quantity _ Hwf k item E) by done. done.
  - intros k item' (item & q & E & -> & _ & _ & Hsum')%Hrow.
    rewrite (Hsum' _ (fun x q => lr_discount (_compute_line_refund x q))),
      (rw_discount _ Hwf k item E); [|by simpl; rewrite proportional_share_entitled, Z.add_0_r; lia|done].
    simpl. rewrite proportional_share_entitled. lia.
  - intros k item' (item & q & E & -> & _ & _ & Hsum')%Hrow.
    rewrite (Hsum' _ (fun x q => lr_tax (_compute_line_refund x q))),
      (rw_tax _ Hwf k item E); [|by simpl; rewrite proportional_share_entitled, Z.add_0_r; lia|done].
    simpl. rewrite proportional_share_entitled. lia.
  - intros j r. rewrite Dref, Dnew, sum_where_app, row_of_set. case_bool_decide as Ej.
    + subst j i. rewrite row_of_new. intros [= <-]. simpl. rewrite Hsum, sum_where_none; [lia|].
      intros x Hx. destruct (rw_links _ Hwf x Hx). lia.
    + intros [Hj|[-> _]]%row_of_inv_app; [|done].
      rewrite (rw_refund _ Hwf j r Hj), (sum_where_none _ _ new); [lia|].
      intros x Hx. destruct (Hlinks x Hx) as [-> _]. lia.
Qed.

(** *** What a new return changes *)

Section NewReturn.
Context (a : ReturnArgs) (caller : option Z) (lines : list SaleReturnLineInput)
  (method : PaymentMethod) (s : session database) (i : Z) (s' : session database).
Context (Hmade : new_return_made a caller lines method s i s').

Lemma new_return_refund :
  exists r, row_of (sale_returns (working s')) i = Some r /\ return_sale_id r = ra_sale_id a /\
    refund_amount r = refund_due (working s) lines /\ 0 <= refund_amount r.
Proof.
  destruct Hmade as (sale & store & items & requested & rb & approval & shift & number & g &
    effects & pd & s1 & _ & _ & _ & _ & _ & _ & _ & Hres & _ & _ & _ & Hi & _ &
    Hw1 & [_ _ _ _ _ (new & _ & Dpost) Dref Dnn _ _]).
  rewrite Hw1 in *. simpl in *. eexists. rewrite Dref, Hi. split_and!.
  - erewrite row_of_set_eq; [done|]. apply row_of_new.
  - done.
  - simpl. rewrite <- (refund_of_due _ _ _ _ _ _ Hres).
    eapply (posted_amounts _ _ _ _ _ _ Hres i requested); [|done].
    eapply Forall3_impl; [exact Dpost|]. intros ? ? ? Hl. exact Hl.
  - done.
Qed.

Lemma new_return_items k :
  row_of (sale_items (working s')) k
  = with_more_returned (asked lines k) <$> row_of (sale_items (working s)) k.
Proof.
  destruct Hmade as (sale & store & items & requested & rb & approval & shift & number & g &
    effects & pd & s1 & _ & _ & _ & _ & _ & _ & _ & Hres & _ & _ & _ & _ & _ & Hw1 & [_ _ _ Ditems]).
  rewrite Ditems, Hw1. by rewrite (resolved_default _ _ _ _ _ _ Hres).
Qed.

Lemma new_return_bounds k :
  asked lines k <> 0 -> exists item, row_of (sale_items (working s)) k = Some item /\
    item_sale_id item = ra_sale_id a /\ 0 < asked lines k /\
    quantity_returned item + asked lines k <= item_quantity item.
Proof.
  destruct Hmade as (sale & store & items & requested & rb & approval & shift & number & g &
    effects & pd & s1 & _ & _ & _ & _ & _ & _ & Hpos & Hres & _).
  intros Hk. rewrite <- (resolved_default _ _ _ _ _ _ Hres) in Hk |- *.
  destruct (dict_get k requested) as [q|] eqn:E; [|done].
  destruct (rs_item _ _ _ _ _ _ Hres k q E) as (item & _ & Hr & Hs & Hle).
  exists item. split_and!; try done. simpl. rewrite (rs_requested _ _ _ _ _ _ Hres k q E).
  apply asked_pos; [done|]. apply (rs_keys _ _ _ _ _ _ Hres).
  apply list_elem_of_fmap. exists (k, q). split; [done|]. by apply dict_get_elem.
Qed.

Lemma new_return_products pid p :
  row_of (products (working s)) pid = Some p -> exists c,
    row_of (products (working s')) pid
    = Some (with_stock (current_qty_on_hand p + put_back (working s) lines pid) c p).
Proof.
  destruct Hmade as (sale & store & items & requested & rb & approval & shift & number & g &
    effects & pd & s1 & _ & _ & _ & _ & _ & _ & _ & Hres & _ & _ & _ & _ & _ & Hw1 & [_ _ _ _ Dprod]).
  rewrite Hw1 in Dprod. intros Hp. destruct (Dprod pid p Hp) as [c Hc]. exists c. rewrite Hc.
  repeat f_equal. by apply (restocked_put_back _ _ _ _ _ _ _ Hres).
Qed.

Lemma new_return_status :
  returns_wf (working s) ->
  exists sale, row_of (sales (working s')) (ra_sale_id a) = Some sale /\
    let items := sale_items_of (working s') (ra_sale_id a) in
    (sale_status sale = REFUNDED /\
       forall ii, ii ∈ items -> item_quantity ii.2 <= quantity_returned ii.2) \/
    (sale_status sale = PARTIALLY_REFUNDED /\
       exists ii, ii ∈ items /\ quantity_returned ii.2 < item_quantity ii.2).
Proof.
  intros Hwf. pose proof new_return_bounds as Hasked. pose proof new_return_items as Hitems.
  destruct Hmade as (sale & store & items & requested & rb & approval & shift & number & g &
    effects & pd & s1 & _ & _ & _ & _ & _ & Hne & Hpos & _ & _ & _ & _ & _ & _ & _ &
    [_ _ _ _ _ _ _ _ Dstat _]).
  eexists. rewrite Dstat, bool_decide_eq_true_2 by done. split; [done|]. cbv zeta. simpl.
  destruct lines as [|l lines']; [done|].
  assert (Hk : 0 < asked (l :: lines') (rl_sale_item_id l))
    by (apply asked_pos; [done|]; exists l; split; [left|done]).
  destruct (Hasked (rl_sale_item_id l) ltac:(lia)) as (item & Hr & Hs & _).
  assert (Hin : (rl_sale_item_id l, with_more_returned (asked (l :: lines') (rl_sale_item_id l)) item)
                ∈ sale_items_of (working s') (ra_sale_id a)).
  { apply elem_select. rewrite Hitems, Hr. split; [done|]. simpl. by apply Z.eqb_eq. }
  destruct (rw_bounds _ Hwf _ item Hr) as [_ Hb].
  apply refund_status_spec; [by intros E; rewrite E in Hin; apply elem_of_nil in Hin|].
  eexists. split; [exact Hin|]. simpl in *. lia.
Qed.
End NewReturn.

(** C23: A new return raises the returned quantity of each item by exactly what
    its lines add up to, never beyond what was sold and only for items of the
    named sale; refunds the sum of the line refunds; puts the restocked quantities
    back; and leaves the sale REFUNDED when all of it is back, PARTIALLY_REFUNDED
    otherwise. *)
Theorem create_sale_return_effect vp a v caller lines s i s' :
  returns_wf (working s) -> committed s = working s ->
  return_key_fresh (working s) (ra_client_transaction_id a) ->
  create_sale_return vp a v caller lines s = (Ok i, s') ->
  (exists r, row_of (sale_returns (working s')) i = Some r /\ return_sale_id r = ra_sale_id a /\
     refund_amount r = refund_due (working s) lines /\ 0 <= refund_amount r) /\
  (forall k item, row_of (sale_items (working s)) k = Some item ->
     row_of (sale_items (working s')) k = Some (with_more_returned (asked lines k) item) /\
     (asked lines k <> 0 -> item_sale_id item = ra_sale_id a /\ 0 < asked lines k /\
        quantity_returned item + asked lines k <= item_quantity item)) /\
  (forall pid p, row_of (products (working s)) pid = Some p -> exists c,
     row_of (products (working s')) pid
     = Some (with_stock (current_qty_on_hand p + put_back (working s) lines pid) c p)) /\
  exists sale, row_of (sales (working s')) (ra_sale_id a) = Some sale /\
    let items := sale_items_of (working s') (ra_sale_id a) in
    (sale_status sale = REFUNDED /\
       forall ii, ii ∈ items -> item_quantity ii.2 <= quantity_returned ii.2) \/
    (sale_status sale = PARTIALLY_REFUNDED /\
       exists ii, ii ∈ items /\ quantity_returned ii.2 < item_quantity ii.2).
Proof.
  intros Hwf Hcw Hf (method & _ & H)%create_sale_return_fresh; [|done|done].
  split_and!; [by eapply new_return_refund| |by eapply new_return_products|by eapply new_return_status].
  intros k item Hk. rewrite (new_return_items _ _ _ _ _ _ _ H), Hk. split; [done|]. intros Hne.
  destruct (new_return_bounds _ _ _ _ _ _ _ H k Hne) as (item' & Hr & ?).
  rewrite Hk in Hr. by injection Hr as <-.
Qed.

(** The fixture's store after the sale of [Sales], and after a sale big enough
    for its approval threshold. *)
Definition demo_sold : session database := (run_request demo_sell demo).2.

Definition demo_big_sold : session database :=
  (run_request (finalize_sale 1 1 "sale-9" (Some 1)
     [{| sl_product_id := 1; sl_quantity := 30000; sl_discount := 0 |}] [(CARD, 8625)]) demo).2.

Definition demo_return (key : string) (approver password : option string) : ReturnArgs :=
  {| ra_sale_id := 1; ra_store_id := 1; ra_return_date := 20254; ra_refund_method := "CASH";
     ra_client_transaction_id := key; ra_reason := None; ra_created_by := Some 1;
     ra_ip_address := Some "10.0.0.7"%string; ra_approver_username := approver;
     ra_approver_password := password |}.

Definition demo_lines : list SaleReturnLineInput :=
  [{| rl_sale_item_id := 1; rl_quantity := 500; rl_restock := true |};
   {| rl_sale_item_id := 2; rl_quantity := 300; rl_restock := false |}].

Lemma no_returns_wf d :
  sale_return_items d = [] -> sale_returns d = [] ->
  (forall k item, row_of (sale_items d) k = Some item ->
     0 < item_quantity item /\ quantity_returned item = 0 /\
     0 <= item_discount_amount item /\ 0 <= item_tax_amount item /\
     item_sale_id item < next_id (sales d)) ->
  returns_wf d.
Proof.
  intros E1 E2 Hi. constructor; unfold returned_so_far; rewrite ?E1, ?E2.
  - intros k item Hk. destruct (Hi k item Hk). lia.
  - intros k item Hk. by destruct (Hi k item Hk) as (_ & _ & ? & ? & _).
  - intros k item Hk. by destruct (Hi k item Hk) as (_ & _ & _ & _ & ?).
  - by intros r ?%elem_of_nil.
  - intros k item Hk. by destruct (Hi k item Hk) as (_ & -> & _).
  - intros k item Hk. destruct (Hi k item Hk) as (_ & -> & _). by rewrite entitled_0.
  - intros k item Hk. destruct (Hi k item Hk) as (_ & -> & _). by rewrite entitled_0.
  - intros i r Hr. unfold row_of in Hr. by destruct (0 <? i).
Qed.

Lemma demo_sold_wf : returns_wf (working demo_sold).
Proof.
  apply no_returns_wf; [by vm_compute..|]. intros k item Hk.
  assert (Hr : 0 < k < 3) by exact (row_of_range _ _ _ Hk).
  assert (k = 1 \/ k = 2) as [->| ->] by lia; vm_compute in Hk; injection Hk as <-; by vm_compute.
Qed.

Lemma no_returns_fresh d key : sale_returns d = [] -> return_key_fresh d key.
Proof. intros E x Hx. rewrite E in Hx. by apply elem_of_nil in Hx. Qed.

Lemma demo_sold_committed : committed demo_sold = working demo_sold.
Proof. by vm_compute. Qed.

Lemma demo_sold_fresh key : return_key_fresh (working demo_sold) key.
Proof. apply no_returns_fresh. by vm_compute. Qed.

Lemma create_sale_return_effect_witness :
  let s' := after (create_sale_return String.eqb (demo_return "r1" None None) false (Some 1) demo_lines)
              demo_sold in
  (exists r, row_of (sale_returns (working s')) 1 = Some r /\
     refund_amount r = refund_due (working demo_sold) demo_lines) /\
  refund_due (working demo_sold) demo_lines = 159 /\
  (current_qty_on_hand <$> row_of (products (working s')) 1) = Some 38500.
Proof.
  intros s'.
  assert (H : create_sale_return String.eqb (demo_return "r1" None None) false (Some 1) demo_lines
                demo_sold = (Ok 1, s')) by (by vm_compute).
  destruct (create_sale_return_effect String.eqb (demo_return "r1" None None) false (Some 1) demo_lines
              demo_sold 1 s' demo_sold_wf demo_sold_committed (demo_sold_fresh _) H)
    as [(r & Hr & _ & Ha & _) _].
  split; [exists r; split; assumption|]. split; by vm_compute.
Defined.

(** ** Approval *)

(** C31: A return whose refund reaches the store's threshold is recorded only
    with an approver other than its initiator: an active user who holds
    sales.return.approve and is not scoped to another store; below the threshold
    no approver is recorded.  The amount compared with the threshold is the
    amount refunded. *)
Theorem create_sale_return_approval vp a v caller lines s i s' store :
  returns_wf (working s) -> committed s = working s ->
  return_key_fresh (working s) (ra_client_transaction_id a) ->
  row_of (stores (working s)) (ra_store_id a) = Some store ->
  create_sale_return vp a v caller lines s = (Ok i, s') ->
  exists r, row_of (sale_returns (working s')) i = Some r /\
    (over_threshold store (refund_amount r) ->
       approval_required r = true /\
       exists approver, approved_by r = Some approver /\
         approver_ok (working s) (ra_store_id a) (ra_created_by a) approver) /\
    (~ over_threshold store (refund_amount r) ->
       approval_required r = false /\ approved_by r = None).
Proof.
  intros Hwf Hcw Hf Hst (method & _ & sale & store' & items & requested & rb & approval & shift &
    number & g & effects & pd & s1 & _ & _ & _ & _ & _ & _ & _ & Hres & Hstore & Happ & _ & Hi & _ &
    Hw1 & [_ _ _ _ _ (new & _ & Dpost) Dref _ _ _])%create_sale_return_fresh; [|done|done].
  rewrite Hst in Hstore. injection Hstore as <-.
  rewrite Hw1 in *. simpl in *.
  assert (Hamt : sum_by effect_amount effects = refund_of items requested).
  { eapply (posted_amounts _ _ _ _ _ _ Hres i requested); [|done].
    eapply Forall3_impl; [exact Dpost|]. intros ? ? ? Hl. exact Hl. }
  eexists. rewrite Dref, Hi. split; [erewrite row_of_set_eq; [done|]; apply row_of_new|].
  simpl. rewrite Hamt. destruct Happ as [[-> Hno]|(approver & -> & Hyes & Hok)].
  - by split.
  - split; [|done]. intros _. split; [done|]. by exists approver.
Qed.

Lemma demo_big_sold_wf : returns_wf (working demo_big_sold).
Proof.
  apply no_returns_wf; [by vm_compute..|]. intros k item Hk.
  assert (Hr : 0 < k < 2) by exact (row_of_range _ _ _ Hk).
  assert (k = 1) as -> by lia; vm_compute in Hk; injection Hk as <-; by vm_compute.
Qed.

Lemma demo_big_sold_committed : committed demo_big_sold = working demo_big_sold.
Proof. by vm_compute. Qed.

Lemma demo_big_sold_fresh key : return_key_fresh (working demo_big_sold) key.
Proof. apply no_returns_fresh. by vm_compute. Qed.

Lemma demo_big_sold_store : row_of (stores (working demo_big_sold)) 1
  = Some {| store_is_active := true; return_approval_threshold_amount := Some 5000;
           timezone := "UTC"; attendance_day_boundary_hour := 0 |}.
Proof. by vm_compute. Qed.

Definition demo_big_lines : list SaleReturnLineInput :=
  [{| rl_sale_item_id := 1; rl_quantity := 20000; rl_restock := true |}].

Lemma create_sale_return_approval_witness :
  let s' := after (create_sale_return String.eqb
              (demo_return "r1" (Some "manager"%string) (Some "m"%string)) false (Some 1) demo_big_lines)
              demo_big_sold in
  exists r, row_of (sale_returns (working s')) 1 = Some r /\ refund_amount r = 5750 /\
    approval_required r = true /\ approved_by r = Some 2.
Proof.
  intros s'.
  assert (H : create_sale_return String.eqb (demo_return "r1" (Some "manager"%string) (Some "m"%string))
                false (Some 1) demo_big_lines demo_big_sold = (Ok 1, s')) by (by vm_compute).
  destruct (create_sale_return_approval String.eqb
              (demo_return "r1" (Some "manager"%string) (Some "m"%string)) false (Some 1)
              demo_big_lines demo_big_sold 1 s'
              {| store_is_active := true; return_approval_threshold_amount := Some 5000;
           timezone := "UTC"; attendance_day_boundary_hour := 0 |}
              demo_big_sold_wf demo_big_sold_committed (demo_big_sold_fresh _) demo_big_sold_store H) as (r & Hr & Hover & _).
  assert (Ea : refund_amount r = 5750) by (vm_compute in Hr; injection Hr as <-; by vm_compute).
  assert (Eb : approved_by r = Some 2) by (vm_compute in Hr; injection Hr as <-; by vm_compute).
  destruct Hover as [Hreq _]; [rewrite Ea; by vm_compute|].
  exists r. split; [exact Hr|]. split; [exact Ea|]. split; assumption.
Defined.

(** ** Idempotency *)

Lemma asked_single lines l :
  NoDup (map rl_sale_item_id lines) -> l ∈ lines ->
  asked lines (rl_sale_item_id l) = rl_quantity l /\
  asked_restock lines (rl_sale_item_id l) = rl_restock l.
Proof.
  intros Hnd Hl. apply list_elem_of_split in Hl as (l1 & l2 & ->).
  rewrite map_app in Hnd. simpl in Hnd. apply NoDup_app in Hnd as (_ & H1 & H2).
  apply NoDup_cons in H2 as [H2 _].
  assert (N1 : forall x, x ∈ l1 -> (rl_sale_item_id x =? rl_sale_item_id l) = false).
  { intros x Hx. apply Z.eqb_neq. intros E. apply (H1 (rl_sale_item_id x)); [|rewrite E; left].
    apply list_elem_of_fmap. eauto. }
  assert (N2 : forall x, x ∈ l2 -> (rl_sale_item_id x =? rl_sale_item_id l) = false).
  { intros x Hx. apply Z.eqb_neq. intros E. apply H2. rewrite <- E. apply list_elem_of_fmap. eauto. }
  unfold asked, asked_restock. split.
  - rewrite sum_where_app, sum_where_cons, Z.eqb_refl, !sum_where_none by done. lia.
  - rewrite existsb_app. simpl. rewrite Z.eqb_refl. simpl.
    assert (Hno : forall l', (forall x, x ∈ l' -> (rl_sale_item_id x =? rl_sale_item_id l) = false) ->
      existsb (fun x => (rl_sale_item_id x =? rl_sale_item_id l) && rl_restock x) l' = false).
    { induction l' as [|x l' IH]; intros Hx; simpl; [done|].
      rewrite Hx by left. simpl. apply IH. intros y Hy. apply Hx. by right. }
    rewrite !Hno by done. by rewrite orb_false_r.
Qed.

Lemma resolved_signatures d sale_id lines items requested rb rid effects new :
  resolved d sale_id lines items requested rb -> NoDup (map rl_sale_item_id lines) ->
  Forall3 (line_posted d rb rid) requested effects new ->
  map item_signature new ≡ₚ map line_signature lines.
Proof.
  intros Hres Hnd Hp.
  assert (E : map item_signature new
    = map (fun iq => (iq.1, iq.2, default false (dict_get iq.1 rb))) requested).
  { clear Hres. induction Hp as [|[i q] e r dn effects new Hl _ IH]; [done|].
    simpl. f_equal; [|done]. destruct Hl as (x & rs & _ & Hrs & _ & -> & _).
    simpl in *. by rewrite Hrs. }
  rewrite E. apply NoDup_Permutation.
  - eapply (NoDup_fmap_1 (fun t : Z * qty * bool => t.1.1)).
    unfold fmap. rewrite <- list_fmap_compose. exact (rs_nodup _ _ _ _ _ _ Hres).
  - eapply (NoDup_fmap_1 (fun t : Z * qty * bool => t.1.1)).
    unfold fmap. rewrite <- list_fmap_compose. exact Hnd.
  - assert (Hline : forall l, l ∈ lines ->
      dict_get (rl_sale_item_id l) requested = Some (rl_quantity l) /\
      dict_get (rl_sale_item_id l) rb = Some (rl_restock l)).
    { intros l Hl.
      assert (Hk : rl_sale_item_id l ∈ dict_keys requested)
        by (apply (rs_keys _ _ _ _ _ _ Hres); eauto).
      assert (Hone : asked lines (rl_sale_item_id l) = rl_quantity l /\
                     asked_restock lines (rl_sale_item_id l) = rl_restock l).
      { by apply asked_single. }
      destruct Hone as [Hq Hr]. rewrite (rs_restock _ _ _ _ _ _ Hres _ Hk), Hr. split; [|done].
      destruct (dict_get (rl_sale_item_id l) requested) as [q|] eqn:Eq;
        [|by apply dict_get_None in Eq].
      by rewrite (rs_requested _ _ _ _ _ _ Hres _ _ Eq), Hq. }
    intros [[i q] b]. rewrite !list_elem_of_fmap. split.
    + intros ([j p] & [= -> -> ->] & Hin). simpl.
      pose proof (elem_dict_get _ _ _ (rs_nodup _ _ _ _ _ _ Hres) Hin) as Hq.
      assert (Hk : j ∈ dict_keys requested) by (apply list_elem_of_fmap; by exists (j, p)).
      apply (rs_keys _ _ _ _ _ _ Hres) in Hk as (l & Hl & <-).
      destruct (Hline l Hl) as [H1 H2]. exists l. rewrite H1 in Hq. injection Hq as <-.
      by rewrite H2.
    + intros (l & [= -> -> ->] & Hl). destruct (Hline l Hl) as [H1 H2].
      exists (rl_sale_item_id l, rl_quantity l). simpl. rewrite H2. split; [done|].
      by apply dict_get_elem.
Qed.

(** A retry of a recorded return under the same key, sale and method, with
    the same lines in any order, returns the same return and changes nothing,
    whoever sends it and whatever approver it names (each item on one line). *)
Theorem create_sale_return_idempotent vp a v caller lines s i s' a2 v2 caller2 lines2 :
  returns_wf (working s) -> committed s = working s ->
  return_key_fresh (working s) (ra_client_transaction_id a) ->
  NoDup (map rl_sale_item_id lines) ->
  create_sale_return vp a v caller lines s = (Ok i, s') ->
  ra_client_transaction_id a2 = ra_client_transaction_id a -> ra_sale_id a2 = ra_sale_id a ->
  ra_refund_method a2 = ra_refund_method a -> lines2 ≡ₚ lines ->
  create_sale_return vp a2 v2 caller2 lines2 s' = (Ok i, s').
Proof.
  intros Hwf Hcw Hf Hnd H Ek Es Em Hperm.
  apply create_sale_return_fresh in H as (method & Hm & sale & store & items & requested & rb &
    approval & shift & number & g & effects & pd & s1 & _ & _ & _ & _ & _ & _ & _ & Hres & _ & _ & _ & Hi &
    _ & Hw1 & [_ _ _ _ _ (new & Dnew & Dpost) Dref _ _ _]); [|done|done].
  rewrite Hw1 in *. simpl in *.
  assert (Dpost' : Forall3 (line_posted (working s) rb i) requested effects new)
    by (eapply Forall3_impl; [exact Dpost|]; intros ? ? ? Hl; exact Hl).
  pose proof (resolved_signatures _ _ _ _ _ _ _ _ _ Hres Hnd Dpost') as Hsig.
  destruct (posted_links _ _ _ _ _ _ Dpost') as [Hlinks _].
  set (row := with_refund (sum_by effect_amount effects) (new_return a number method approval shift)) in *.
  assert (Hrow : row_of (sale_returns (working s')) i = Some row).
  { rewrite Dref, Hi. erewrite row_of_set_eq; [done|]. apply row_of_new. }
  assert (Hfind : find_return (ra_client_transaction_id a) s' = (Ok (Some (i, row)), s')).
  { unfold find_return. erewrite bind_ok_intro by reflexivity. simpl.
    rewrite (select_single _ _ i row Hrow); [done|by apply bool_decide_eq_true_2|].
    intros j x Hj Hk. bools. rewrite Dref, row_of_set in Hj. case_bool_decide; [done|].
    apply row_of_inv_app in Hj as [Hj|[-> _]]; [|done].
    apply row_of_elem in Hj. by apply Hf in Hj. }
  unfold create_sale_return. rewrite Em, Hm, Ek, Es.
  rewrite (bind_ok_intro _ _ s' method s') by done.
  rewrite (bind_ok_intro _ _ s' (Some i) s'); [done|].
  unfold _match_or_reject_idempotent_return. rewrite (bind_ok_intro _ _ _ _ _ Hfind).
  erewrite bind_ok_intro by reflexivity. simpl.
  rewrite select_map, Dnew, List.filter_app, filter_none, filter_all; simpl.
  - rewrite Z.eqb_refl, bool_decide_eq_true_2 by done. simpl.
    rewrite bool_decide_eq_true_2; [done|]. apply sorted_signatures_eq.
    by rewrite Hsig, Hperm.
  - intros x Hx. destruct (Hlinks x Hx) as [-> _]. apply Z.eqb_refl.
  - intros x Hx. destruct (rw_links _ Hwf x Hx). apply Z.eqb_neq. lia.
Qed.

Lemma demo_lines_distinct : NoDup (map rl_sale_item_id demo_lines).
Proof. repeat constructor; set_solver. Qed.

Lemma create_sale_return_idempotent_witness :
  let s' := after (create_sale_return String.eqb (demo_return "r1" None None) false (Some 1) demo_lines)
              demo_sold in
  create_sale_return String.eqb (demo_return "r1" (Some "manager"%string) None) true None
    (rev demo_lines) s' = (Ok 1, s').
Proof.
  intros s'.
  assert (H : create_sale_return String.eqb (demo_return "r1" None None) false (Some 1) demo_lines
                demo_sold = (Ok 1, s')) by (by vm_compute).
  exact (create_sale_return_idempotent String.eqb (demo_return "r1" None None) false (Some 1) demo_lines
           demo_sold 1 s' (demo_return "r1" (Some "manager"%string) None) true None (rev demo_lines)
           demo_sold_wf demo_sold_committed (demo_sold_fresh _) demo_lines_distinct H eq_refl eq_refl eq_refl
           (symmetry (Permutation_rev demo_lines))).
Defined.

(** ** Failures *)

Lemma insert_return_fixes_committed key r : fixes committed (insert_return key r).
Proof. unfold insert_return. solve_fixes. Qed.

Lemma write_return_details_fixes_committed a m v i items rq rb :
  fixes committed (write_return_details a m v i items rq rb).
Proof.
  unfold write_return_details, advance_sale_status, items_of_sale, post_sale_return_journal,
    _post_standard, posted.
  unfold post_return_line, restock_item, record_movement, lock_product_for_update. solve_fixes.
Qed.

#[export] Hint Resolve insert_return_fixes_committed write_return_details_fixes_committed : fixes.

Definition only_audited (d d' : database) : Prop := d' = d \/ exists g, d' = over_audit_logs g d.

Section Failures.
Context (verify_password : string -> string -> bool).

Lemma approve_and_record_raise a method v items requested rb s e s' :
  approve_and_record verify_password a method v items requested rb s = (Raise e, s') ->
  committed s' = committed s \/ exists g, committed s' = over_audit_logs g (working s).
Proof.
  unfold approve_and_record. intros H.
  apply bind_raise_cases in H as [H|(o & s1 & H1 & H)]; [by injection H as _ <-; left|].
  apply get_ok in H1 as [_ <-].
  apply bind_raise_cases in H as [H|(store & s1 & H1 & H)];
    [apply (fixes_run committed) in H; [by left|apply fixes_of_option]|].
  apply of_option_ok in H1 as [_ <-].
  apply bind_raise_cases in H as [H|(total & s1 & H1 & H)];
    [apply (fixes_run committed) in H; [by left|apply refund_total_fixes]|].
  apply refund_total_ok in H1 as [-> _].
  apply bind_raise_cases in H as [H|(approval & s1 & H1 & H)];
    [by apply resolve_approval_raise in H|].
  apply resolve_approval_ok in H1 as [(Hc1 & _) _]. rewrite <- Hc1. left.
  revert H. apply (fixes_run committed). solve_fixes.
Qed.

(** What a failed return request leaves committed. *)
Lemma create_sale_return_raise a v caller lines s e s' :
  create_sale_return verify_password a v caller lines s = (Raise e, s') ->
  committed s' = committed s \/ exists g, committed s' = over_audit_logs g (working s).
Proof.
  unfold create_sale_return. intros H.
  apply bind_raise_cases in H as [H|(method & s1 & H1 & H)];
    [apply (fixes_run committed) in H; [by left|apply fixes_of_option]|].
  apply of_option_ok in H1 as [_ <-].
  apply bind_raise_cases in H as [H|(o & s1 & H1 & H)];
    [apply (fixes_run committed) in H; [by left|apply match_return_fixes]|].
  apply match_return_ok in H1 as [-> _]. destruct o; [done|].
  apply bind_raise_cases in H as [H|(r & s1 & H1 & H)];
    [apply (fixes_run committed) in H; [by left|apply check_return_fixes]|].
  apply check_return_ok in H1 as [-> _]. destruct r as [|[[items requested] rb]]; [done|].
  by apply approve_and_record_raise in H.
Qed.

Lemma void_sale_raise a caller s e s' :
  void_sale verify_password a caller s = (Raise e, s') ->
  committed s' = committed s \/ exists g, committed s' = over_audit_logs g (working s).
Proof.
  unfold void_sale. intros H.
  apply bind_raise_cases in H as [H|(o & s1 & H1 & H)]; [by injection H as _ <-; left|].
  apply get_ok in H1 as [_ <-].
  apply bind_raise_cases in H as [H|(sale & s1 & H1 & H)];
    [apply (fixes_run committed) in H; [by left|apply fixes_of_option]|].
  apply of_option_ok in H1 as [_ <-].
  apply bind_raise_cases in H as [H|(? & s1 & H1 & H)];
    [apply (fixes_run committed) in H; [by left|apply enforce_store_access_fixes]|].
  apply enforce_store_access_ok in H1 as [_ <-].
  apply bind_raise_cases in H as [H|(items & s1 & H1 & H)]; [by injection H as _ <-; left|].
  apply query_ok in H1 as [_ <-].
  apply bind_raise_cases in H as [H|(? & s1 & H1 & H)];
    [apply (fixes_run committed) in H; [by left|apply fixes_raise_if]|].
  apply raise_if_ok in H1 as [_ <-]. by apply create_sale_return_raise in H.
Qed.
End Failures.

Lemma create_sale_return_ok_committed vp a v caller lines s i s' :
  create_sale_return vp a v caller lines s = (Ok i, s') -> committed s' = committed s.
Proof.
  intros (method & _ & [[-> _]|[(x & s1 & Hc & _ & H)|H]])%create_sale_return_ok; [done|..].
  - by apply find_return_ok in H as [-> _].
  - destruct H as (sale & store & items & requested & rb & approval & shift & number & g & effects &
      pd & s1 & _ & _ & _ & _ & _ & _ & _ & _ & _ & _ & _ & _ & Hc & _ & [-> _ _ _ _ _ _ _ _ _]). by rewrite Hc.
Qed.

Lemma void_sale_ok vp a caller s i s' :
  void_sale vp a caller s = (Ok i, s') ->
  exists sale, row_of (sales (working s)) (ra_sale_id a) = Some sale /\
    store_denied caller (sale_store_id sale) = false /\
    let lines := flat_map remaining_line (sale_items_of (working s) (ra_sale_id a)) in
    lines <> [] /\ create_sale_return vp (void_args a) true caller lines s = (Ok i, s').
Proof.
  unfold void_sale. intros H.
  apply bind_ok in H as (o & s1 & H1 & H). apply get_ok in H1 as [Ho <-].
  apply bind_ok in H as (sale & s1 & H1 & H). apply of_option_ok in H1 as [-> <-].
  apply bind_ok in H as (? & s1 & H1 & H). apply enforce_store_access_ok in H1 as [Hd <-].
  apply bind_ok in H as (items & s1 & H1 & H). apply query_ok in H1 as [-> <-]. simpl in H.
  apply bind_ok in H as (? & s1 & H1 & H). apply raise_if_ok in H1 as [Hne <-]. bools.
  exists sale. split; [done|]. split; [done|]. cbv zeta. split; [|exact H].
  intros E. apply Hne. unfold sale_items_of in E. by rewrite E.
Qed.

Lemma throttled_cases a caller m s r s' :
  throttled a caller m s = (r, s') ->
  committed s' = committed s \/
  exists ws, m (with_windows ws s) = (r, s').
Proof.
  unfold throttled, enforce_store_access, raise_if, approval_check. intros H.
  destruct (store_denied _ _); [injection H as _ <-; by left|].
  unfold mbind, M_bind in H. simpl in H.
  destruct (given _); [|right; exists (approval_windows s); by destruct s].
  destruct (limiter_check _ _ _ _ _); [|injection H as _ <-; by left]. right. eauto.
Qed.

Lemma throttled_cases_ok a caller m s i s' :
  throttled a caller m s = (Ok i, s') -> exists ws, m (with_windows ws s) = (Ok i, s').
Proof.
  unfold throttled, enforce_store_access, raise_if, approval_check. intros H.
  destruct (store_denied _ _); [done|].
  unfold mbind, M_bind in H. simpl in H.
  destruct (given _); [|exists (approval_windows s); by destruct s].
  destruct (limiter_check _ _ _ _ _); [eauto|done].
Qed.

(** A request whose service call leaves only audit rows when it fails and
    commits nothing itself when it succeeds. *)
Lemma failed_request_audited a caller (m : Tx Z) s e s' :
  (forall s e s', m s = (Raise e, s') ->
     committed s' = committed s \/ exists g, committed s' = over_audit_logs g (working s)) ->
  (forall s i s', m s = (Ok i, s') -> committed s' = committed s) ->
  committed s = working s -> run_request (throttled a caller m) s = (Raise e, s') ->
  only_audited (committed s) (committed s').
Proof.
  intros Hraise Hok Hcw H. unfold run_request in H.
  destruct ((a0 ← throttled a caller m; _ ← commit; mret a0) s) as [r s1] eqn:E.
  assert (Hc : r = Raise e -> only_audited (committed s) (committed s1)).
  { intros ->. apply bind_raise_cases in E as [E|(j & s2 & E1 & E)].
    - apply throttled_cases in E as [->|[ws E]]; [by left|].
      apply Hraise in E as [->|[g ->]]; [by left|]. right. exists g. simpl. by rewrite Hcw.
    - apply throttled_cases in E1 as [E1|[ws E1]].
      + apply bind_raise_cases in E as [E|(u & s3 & E2 & E)]; [|done].
        unfold commit in E. destruct (deferred_ok _); [done|]. injection E as _ <-. simpl.
        left. by rewrite E1.
      + apply Hok in E1. simpl in E1. apply bind_raise_cases in E as [E|(u & s3 & E2 & E)]; [|done].
        unfold commit in E. destruct (deferred_ok _); [done|]. injection E as _ <-. simpl.
        left. by rewrite E1. }
  destruct r; simplify_eq; by apply Hc.
Qed.

(** A return or void request that fails, a refused approval included,
    leaves the committed database as it was except for its audit trail: no
    return, no stock, no journal, no status survives it. *)
Theorem failed_return_request vp a caller lines s :
  committed s = working s ->
  (forall e s', run_request (create_sale_return_endpoint vp a caller lines) s = (Raise e, s') ->
     only_audited (committed s) (committed s')) /\
  (forall e s', run_request (void_sale_endpoint vp a caller) s = (Raise e, s') ->
     only_audited (committed s) (committed s')).
Proof.
  intros Hcw. split; intros e s'; apply failed_request_audited; try done.
  - intros ? ? ?. apply create_sale_return_raise.
  - intros ? ? ?. apply create_sale_return_ok_committed.
  - intros ? ? ?. apply void_sale_raise.
  - intros ? ? ? (sale & _ & _ & _ & H)%void_sale_ok. by apply create_sale_return_ok_committed in H.
Qed.

Lemma failed_return_request_witness :
  let r := run_request (create_sale_return_endpoint String.eqb
             (demo_return "r1" (Some "cashier"%string) (Some "c"%string)) (Some 1) demo_big_lines)
             demo_big_sold in
  r.1 = Raise (ForbiddenError "SELF_APPROVAL_NOT_ALLOWED") /\
  length (audit_logs (committed r.2)) = 2%nat /\
  only_audited (committed demo_big_sold) (committed r.2).
Proof.
  intros r.
  assert (H : run_request (create_sale_return_endpoint String.eqb
             (demo_return "r1" (Some "cashier"%string) (Some "c"%string)) (Some 1) demo_big_lines)
             demo_big_sold = (Raise (ForbiddenError "SELF_APPROVAL_NOT_ALLOWED"), r.2))
    by (by vm_compute).
  split; [by vm_compute|]. split; [by vm_compute|].
  exact (proj1 (failed_return_request String.eqb
           (demo_return "r1" (Some "cashier"%string) (Some "c"%string)) (Some 1) demo_big_lines
           demo_big_sold demo_big_sold_committed) _ _ H).
Defined.

(** ** Voids *)

Section RemainingLines.
Context (items : list (Z * SaleItem)) (Hnd : NoDup (dict_keys items)).

Lemma remaining_ids l :
  l ∈ flat_map remaining_line items ->
  exists item, (rl_sale_item_id l, item) ∈ items /\
    rl_quantity l = item_quantity item - quantity_returned item /\ 0 < rl_quantity l /\
    rl_restock l = true.
Proof.
  rewrite list_elem_of_In, in_flat_map. intros ([k item] & Hin & Hl).
  apply list_elem_of_In in Hin. unfold remaining_line in Hl. simpl in Hl.
  destruct (Z.ltb_spec (quantity_returned item) (item_quantity item)); [|done].
  destruct Hl as [<-|[]]. exists item. simpl. split_and!; [done..|lia|done].
Qed.

Lemma remaining_line_of k item :
  (k, item) ∈ items -> quantity_returned item < item_quantity item ->
  {| rl_sale_item_id := k; rl_quantity := item_quantity item - quantity_returned item;
     rl_restock := true |} ∈ flat_map remaining_line items.
Proof.
  intros Hin Hlt. apply list_elem_of_In, in_flat_map. exists (k, item).
  split; [by apply list_elem_of_In|]. unfold remaining_line. simpl.
  destruct (Z.ltb_spec (quantity_returned item) (item_quantity item)); [by left|lia].
Qed.

Lemma remaining_distinct : NoDup (map rl_sale_item_id (flat_map remaining_line items)).
Proof.
  revert Hnd. unfold dict_keys. induction items as [|[k item] l IH]; simpl; [intros; apply NoDup_nil_2|].
  intros [Hk Hl]%NoDup_cons. rewrite map_app. apply NoDup_app. split_and!; [| |by apply IH].
  - unfold remaining_line. simpl. destruct (_ <? _); [apply NoDup_singleton|apply NoDup_nil_2].
  - intros j Hj1 Hj2. apply Hk. unfold remaining_line in Hj1. simpl in Hj1.
    destruct (_ <? _); [|by apply elem_of_nil in Hj1].
    apply list_elem_of_singleton in Hj1 as ->.
    simpl in Hj2. apply list_elem_of_fmap in Hj2 as (x & Hkx & Hx).
    apply list_elem_of_In, in_flat_map in Hx as ([j item'] & Hin & Hx).
    unfold remaining_line in Hx. simpl in Hx. destruct (_ <? _); [|done].
    destruct Hx as [<-|[]]. simpl in Hkx. subst k. apply list_elem_of_fmap. exists (j, item').
    split; [done|]. by apply list_elem_of_In.
Qed.

Lemma asked_remaining k item :
  (k, item) ∈ items -> quantity_returned item <= item_quantity item ->
  asked (flat_map remaining_line items) k = item_quantity item - quantity_returned item.
Proof.
  intros Hin Hle.
  destruct (Z.eq_dec (quantity_returned item) (item_quantity item)) as [E|E].
  - rewrite E, Z.sub_diag. apply sum_where_none. intros l Hl. apply Z.eqb_neq. intros <-.
    apply remaining_ids in Hl as (item' & Hin' & Hq & Hp & _).
    apply (elem_dict_get _ _ _ Hnd) in Hin, Hin'. rewrite Hin in Hin'. injection Hin' as <-. lia.
  - pose proof (remaining_line_of k item Hin ltac:(lia)) as Hl.
    exact (proj1 (asked_single _ _ remaining_distinct Hl)).
Qed.
End RemainingLines.

(** A void returns every line of the sale in full: afterwards each item's
    returned quantity is its quantity, the sale is REFUNDED, and any further void
    of it (under the same idempotency key as well) is refused. *)
Theorem void_sale_returns_everything vp a caller s i s' :
  returns_wf (working s) -> committed s = working s ->
  return_key_fresh (working s) (ra_client_transaction_id a) ->
  void_sale vp a caller s = (Ok i, s') ->
  (forall k item, row_of (sale_items (working s')) k = Some item -> item_sale_id item = ra_sale_id a ->
     quantity_returned item = item_quantity item) /\
  (exists sale, row_of (sales (working s')) (ra_sale_id a) = Some sale /\ sale_status sale = REFUNDED) /\
  forall a2, ra_sale_id a2 = ra_sale_id a ->
    (void_sale vp a2 None s').1 = Raise (ConflictError "NOTHING_TO_VOID").
Proof.
  intros Hwf Hcw Hf (sale & Hsale & _ & Hne & H)%void_sale_ok.
  apply create_sale_return_fresh in H as (method & _ & H); [|done|done].
  assert (Hall : forall k item, row_of (sale_items (working s')) k = Some item ->
    item_sale_id item = ra_sale_id a -> quantity_returned item = item_quantity item).
  { intros k item'. rewrite (new_return_items _ _ _ _ _ _ _ H).
    destruct (row_of (sale_items (working s)) k) as [item|] eqn:E; [|done]. intros [= <-]. simpl.
    intros Hs. rewrite (asked_remaining (sale_items_of (working s) (ra_sale_id a)) (NoDup_select_keys _ _) k item); [lia| |].
    - apply elem_select. split; [done|]. by apply Z.eqb_eq.
    - destruct (rw_bounds _ Hwf k item E); lia. }
  destruct (new_return_status _ _ _ _ _ _ _ H Hwf) as (sale' & Hrow & Hstat). simpl in Hrow, Hstat.
  assert (Hitems : forall ii, ii ∈ sale_items_of (working s') (ra_sale_id a) ->
    quantity_returned ii.2 = item_quantity ii.2).
  { intros [k item] [Hk Hs]%elem_select. apply (Hall k); [done|]. by apply Z.eqb_eq in Hs. }
  split; [done|]. split.
  - exists sale'. split; [done|]. destruct Hstat as [[? _]|[_ (ii & Hii & Hlt)]]; [done|].
    specialize (Hitems ii Hii). lia.
  - intros a2 Ha2. unfold void_sale. rewrite Ha2.
    erewrite bind_ok_intro by reflexivity. simpl. rewrite Hrow.
    erewrite bind_ok_intro by reflexivity. erewrite bind_ok_intro by reflexivity.
    erewrite bind_ok_intro by reflexivity. simpl.
    replace (flat_map remaining_line _) with (@nil SaleReturnLineInput); [done|]. symmetry.
    apply elem_of_nil_inv. intros l (item & Hin & Hq & Hp & _)%remaining_ids.
    specialize (Hitems _ Hin). simpl in Hitems. lia.
Qed.

Lemma void_sale_returns_everything_witness :
  let s' := after (void_sale String.eqb (demo_return "v1" None None) (Some 1)) demo_sold in
  (sale_status <$> row_of (sales (working s')) 1) = Some REFUNDED /\
  (void_sale String.eqb (demo_return "v1" None None) None s').1
  = Raise (ConflictError "NOTHING_TO_VOID").
Proof.
  intros s'.
  assert (H : void_sale String.eqb (demo_return "v1" None None) (Some 1) demo_sold = (Ok 1, s'))
    by (by vm_compute).
  destruct (void_sale_returns_everything String.eqb (demo_return "v1" None None) (Some 1) demo_sold 1 s'
              demo_sold_wf demo_sold_committed (demo_sold_fresh _) H) as (_ & _ & Hno).
  split; [by vm_compute|]. exact (Hno (demo_return "v1" None None) eq_refl).
Defined.

(** ** Sales and returns keep the returns ledger consistent *)

Lemma write_sale_details_valid store i cashier sale cs ps s s' :
  write_sale_details store i cashier sale cs ps s = (Ok tt, s') ->
  Forall (fun c => 0 < cl_quantity c /\ 0 <= cl_discount c /\ 0 <= cl_tax_amount c) cs.
Proof.
  unfold write_sale_details. intros H. apply bind_ok in H as ([] & s1 & H & _).
  eapply (for_each_ok_ind _ (fun dn _ =>
    Forall (fun c => 0 < cl_quantity c /\ 0 <= cl_discount c /\ 0 <= cl_tax_amount c) dn)) in H;
    [done|done|].
  intros dn c rest s2 s3 _ Hd H1. apply Forall_app. split; [done|]. constructor; [|done].
  unfold write_line in H1. apply bind_ok in H1 as (j & s4 & H3 & _).
  apply add_ok in H3 as (_ & Hv & _). unfold row_valid in Hv. simpl in Hv.
  repeat (apply Forall_cons in Hv as [? Hv]). simpl in *. by bools.
Qed.

Lemma write_sale_details_fixes_returns store i cashier sale cs ps :
  fixes (fun s => (sale_returns (working s), sale_return_items (working s)))
    (write_sale_details store i cashier sale cs ps).
Proof.
  unfold write_sale_details, write_line, write_payment, record_movement, lock_product_for_update,
    post_sale_journal, _post_standard, posted, create_fiscal_submission_if_enabled, get_config.
  solve_fixes.
Qed.

(** The items a new sale adds. *)
Lemma finalized_items_wf d d' i cs :
  returns_wf d -> i = next_id (sales d) -> next_id (sales d') = i + 1 ->
  sale_items d' = sale_items d ++ map (sale_item_row i) cs ->
  sale_returns d' = sale_returns d -> sale_return_items d' = sale_return_items d ->
  Forall (fun c => 0 < cl_quantity c /\ 0 <= cl_discount c /\ 0 <= cl_tax_amount c) cs ->
  returns_wf d'.
Proof.
  intros Hwf Hi Hnext E Er Eri Hcs.
  assert (Hrow : forall k item, row_of (sale_items d') k = Some item ->
    row_of (sale_items d) k = Some item \/
    next_id (sale_items d) <= k /\ exists c, item = sale_item_row i c /\
      0 < cl_quantity c /\ 0 <= cl_discount c /\ 0 <= cl_tax_amount c).
  { intros k item Hk. rewrite E in Hk. pose proof (row_of_range _ _ _ Hk) as Hr.
    destruct (Z.lt_ge_cases k (next_id (sale_items d))) as [Hlt|Hge].
    - left. destruct (proj2 (row_of_is_Some (sale_items d) k)) as [x Hx]; [lia|].
      rewrite (row_of_app_old _ _ _ _ Hx) in Hk. by rewrite Hx.
    - right. split; [done|]. unfold row_of, next_id in *.
      destruct (Z.ltb_spec 0 k); [|done]. rewrite lookup_app_r in Hk by lia.
      apply list_lookup_fmap_Some in Hk as (c & -> & Hc). exists c. split; [done|].
      rewrite Forall_forall in Hcs. apply Hcs. by eapply list_elem_of_lookup_2. }
  assert (Hzero : forall f k, next_id (sale_items d) <= k -> returned_so_far f d k = 0).
  { intros f k Hk. apply sum_where_none. intros r Hr. destruct (rw_links _ Hwf r Hr).
    apply Z.eqb_neq. lia. }
  assert (Hso : forall f k, returned_so_far f d' k = returned_so_far f d k)
    by (intros; unfold returned_so_far; by rewrite Eri).
  constructor.
  - intros k item [Hk|(_ & c & -> & Hq & _)]%Hrow; [by apply (rw_bounds _ Hwf k)|simpl; lia].
  - intros k item [Hk|(_ & c & -> & _ & Hd & Ht)]%Hrow; [by apply (rw_amounts _ Hwf k)|done].
  - intros k item [Hk|(_ & c & -> & _)]%Hrow; [|simpl; lia].
    pose proof (rw_sales _ Hwf k item Hk). lia.
  - rewrite Er, Eri. intros r Hr. destruct (rw_links _ Hwf r Hr). split; [done|].
    rewrite E. unfold next_id in *. rewrite length_app. lia.
  - intros k item. rewrite Hso. intros [Hk|(Hk & c & -> & _)]%Hrow; [by apply (rw_quantity _ Hwf)|].
    by rewrite Hzero.
  - intros k item. rewrite Hso. intros [Hk|(Hk & c & -> & _)]%Hrow; [by apply (rw_discount _ Hwf)|].
    simpl. by rewrite Hzero, entitled_0.
  - intros k item. rewrite Hso. intros [Hk|(Hk & c & -> & _)]%Hrow; [by apply (rw_tax _ Hwf)|].
    simpl. by rewrite Hzero, entitled_0.
  - rewrite Er, Eri. apply (rw_refund _ Hwf).
Qed.

Lemma finalize_sale_keeps_returns store cashier key caller lines ps :
  keeps returns_wf (finalize_sale store cashier key caller lines ps).
Proof.
  apply keeps_of_ok; [apply finalize_sale_fixes_committed|].
  intros s i s' H1 H2 [_ [H|H]]%finalize_sale_ok.
  - destruct H as (x & s1 & Hc & Hs & Hf). apply find_sale_ok in Hf as [-> _].
    destruct Hs as [->| ->]; [done|by rewrite Hc].
  - destruct H as (cs & change & number & shift & s1 & _ & _ & _ & Hw & _ & _ & -> & Hd).
    pose proof (fixes_run _ _ _ _ _ (write_sale_details_fixes_returns _ _ _ _ _ _) Hd) as [= Er Eri].
    pose proof (write_sale_details_valid _ _ _ _ _ _ _ _ Hd) as Hv.
    apply write_sale_details_ok in Hd as (s2 & s3 & pd & new & _ & Hs & _ & Hi & _).
    simpl in *. eapply finalized_items_wf; [exact H2|reflexivity|by rewrite Hs, next_id_app|exact Hi|done..].
Qed.

Section KeepsReturn.
Context (verify_password : string -> string -> bool) (I : database -> Prop).
Context (audit : forall g d, I d -> I (over_audit_logs g d)).
Context (made : forall a caller lines method s i s',
  I (working s) -> new_return_made a caller lines method s i s' -> I (working s')).

(** An invariant indifferent to the audit trail that a new return keeps. *)
Lemma create_sale_return_keeps a v caller lines :
  keeps I (create_sale_return verify_password a v caller lines).
Proof.
  intros s H1 H2. destruct (create_sale_return _ _ _ _ _ s) as [[i|e] s'] eqn:E.
  - pose proof (create_sale_return_ok_committed _ _ _ _ _ _ _ _ E) as ->. split; [done|].
    apply create_sale_return_ok in E as (method & _ & [[-> _]|[(x & s1 & Hc & Hw & H)|H]]); [done| |].
    + apply find_return_ok in H as [-> _]. by rewrite Hw, Hc.
    + by eapply made.
  - apply create_sale_return_raise in E as [->|[g ->]]; auto.
Qed.

Lemma void_sale_keeps a caller : keeps I (void_sale verify_password a caller).
Proof.
  unfold void_sale. apply keeps_bind; [apply keeps_gets|intros o].
  apply keeps_bind; [apply keeps_of_option|intros sale].
  apply keeps_bind; [apply keeps_raise_if|intros _].
  apply keeps_bind; [apply keeps_gets|intros items].
  apply keeps_bind; [apply keeps_raise_if|intros _]. apply create_sale_return_keeps.
Qed.
End KeepsReturn.

Lemma keeps_throttled (I : database -> Prop) a caller m : keeps I m -> keeps I (throttled a caller m).
Proof.
  intros Hm. unfold throttled. apply keeps_bind; [apply keeps_raise_if|intros _].
  apply keeps_bind; [|intros; exact Hm]. destruct (given _); [|apply keeps_ret].
  intros st H1 H2. unfold approval_check. by destruct (limiter_check _ _ _ _ _).
Qed.

Lemma returns_wf_audit g d : returns_wf d -> returns_wf (over_audit_logs g d).
Proof. by apply returns_wf_ext. Qed.

(** *** Books *)

Lemma posted_identity d rb rid dn effects new :
  Forall3 (line_posted d rb rid) dn effects new -> 0 <= sum_by effect_amount effects ->
  return_identity effects.
Proof.
  intros Hp Hnn. split.
  - clear Hnn. induction Hp as [|[i q] e r dn effects new Hl _ IH]; [by intros ? ?%elem_of_nil|].
    intros l [->|Hin]%elem_of_cons; [|by apply IH].
    destruct Hl as (item & rs & _ & _ & -> & _ & Hu & Hq & Hd & Ht). simpl in *.
    split_and!; try done. apply div_half_up_nonneg; [nia|lia].
  - unfold effect_amount in Hnn. rewrite sum_by_add, sum_by_sub in Hnn. lia.
Qed.

Lemma new_return_books a caller lines method s i s' :
  books_wf (working s) -> new_return_made a caller lines method s i s' -> books_wf (working s').
Proof.
  intros [Hb1 Hb2] (sale & store & items & requested & rb & approval & shift & number & g & effects &
    pd & s1 & _ & _ & _ & _ & _ & _ & _ & _ & _ & _ & _ & _ & _ & Hw1 &
    [_ _ _ _ _ (new & _ & Dpost) _ Dnn _ (s2 & s3 & Hl & Hp & Hl')]).
  rewrite Hw1 in Hl. simpl in Hl.
  eapply post_wf in Hp as [Hk1 Hk2].
  - split; [by apply (ledger_wf_ext (working s3))|by apply (reversals_wf_ext (working s3))].
  - simpl. by eapply posted_identity.
  - by apply (ledger_wf_ext (working s)).
  - by apply (reversals_wf_ext (working s)).
Qed.

Lemma books_wf_audit g d : books_wf d -> books_wf (over_audit_logs g d).
Proof.
  intros [H1 H2]. split; [by apply (ledger_wf_ext d)|by apply (reversals_wf_ext d)].
Qed.

(** *** Shifts *)

Lemma shifts_wf_ext d d' : cashier_shifts d' = cashier_shifts d -> shifts_wf d -> shifts_wf d'.
Proof. intros E [? ? ?]. constructor; by rewrite E. Qed.

Lemma new_return_shifts a caller lines method s i s' :
  shifts_wf (working s) -> new_return_made a caller lines method s i s' -> shifts_wf (working s').
Proof.
  intros Hs (sale & store & items & requested & rb & approval & shift & number & g & effects &
    pd & s1 & _ & _ & _ & _ & _ & _ & _ & _ & _ & _ & _ & _ & _ & Hw1 & [_ Dt]).
  apply (shifts_wf_ext (working s)); [|done]. rewrite Dt, Hw1. done.
Qed.

Lemma shifts_wf_audit g d : shifts_wf d -> shifts_wf (over_audit_logs g d).
Proof. by apply shifts_wf_ext. Qed.

(** *** Stock *)

Lemma restock_item_keeps_stock a rid item q : keeps stock_wf (restock_item a rid item q).
Proof. unfold restock_item, lock_product_for_update. solve_keeps. Qed.

#[export] Hint Resolve restock_item_keeps_stock : keeps.

Lemma write_return_details_keeps_stock a m v i items rq rb :
  keeps stock_wf (write_return_details a m v i items rq rb).
Proof.
  unfold write_return_details, post_return_line, advance_sale_status, items_of_sale,
    post_sale_return_journal, _post_standard, posted. solve_keeps.
Qed.

#[export] Hint Resolve write_return_details_keeps_stock : keeps.

Lemma reject_approval_keeps_stock {A} u st e : keeps stock_wf (@reject_approval A u st e).
Proof. unfold reject_approval. solve_keeps. Qed.

#[export] Hint Resolve reject_approval_keeps_stock : keeps.

Lemma resolve_approval_keeps_stock vp st store amount ini n p ip :
  keeps stock_wf (_resolve_return_approval vp st store amount ini n p ip).
Proof. unfold _resolve_return_approval. solve_keeps. Qed.

Lemma insert_return_keeps_stock key r : keeps stock_wf (insert_return key r).
Proof. unfold insert_return, find_return. solve_keeps. Qed.

Lemma approve_and_record_keeps_stock vp a m v items rq rb :
  keeps stock_wf (approve_and_record vp a m v items rq rb).
Proof.
  unfold approve_and_record.
  apply keeps_bind; [apply keeps_gets|intros o].
  apply keeps_bind; [apply keeps_of_option|intros store].
  apply keeps_bind; [apply keeps_reads, refund_total_fixes|intros total].
  apply keeps_bind; [apply resolve_approval_keeps_stock|intros approval].
  apply keeps_bind; [apply keeps_reads, lock_restocked_fixes|intros _].
  apply keeps_bind; [|intros shift].
  { destruct (ra_created_by a); [apply keeps_reads, lock_active_shift_fixes|apply keeps_ret]. }
  apply keeps_bind; [apply keeps_stock_frame; solve_fixes|intros number].
  apply keeps_bind; [apply insert_return_keeps_stock|intros [j []]]; [|apply keeps_ret].
  apply keeps_bind; [apply write_return_details_keeps_stock|intros; apply keeps_ret].
Qed.

Lemma create_sale_return_keeps_stock vp a v caller lines :
  keeps stock_wf (create_sale_return vp a v caller lines).
Proof.
  unfold create_sale_return. apply keeps_bind; [apply keeps_of_option|intros method].
  apply keeps_bind; [apply keeps_reads, match_return_fixes|intros [j|]]; [apply keeps_ret|].
  apply keeps_bind; [apply keeps_reads, check_return_fixes|intros [j|[[items rq] rb]]];
    [apply keeps_ret|apply approve_and_record_keeps_stock].
Qed.

Lemma void_sale_keeps_stock vp a caller : keeps stock_wf (void_sale vp a caller).
Proof.
  unfold void_sale. apply keeps_bind; [apply keeps_gets|intros o].
  apply keeps_bind; [apply keeps_of_option|intros sale].
  apply keeps_bind; [apply keeps_raise_if|intros _].
  apply keeps_bind; [apply keeps_gets|intros items].
  apply keeps_bind; [apply keeps_raise_if|intros _]. apply create_sale_return_keeps_stock.
Qed.

(** ** Voiding an untouched sale *)

Section VoidFresh.
Context (d : database) (sid : Z).
Let items := sale_items_of d sid.
Let lines := flat_map remaining_line items.
Context (Hfresh : forall k item, (k, item) ∈ items -> quantity_returned item = 0 /\ 0 < item_quantity item).

Lemma fresh_ids : remove_dups (map rl_sale_item_id lines) ≡ₚ map fst items.
Proof.
  apply NoDup_Permutation; [apply NoDup_remove_dups|apply NoDup_select_keys|].
  intros k. rewrite elem_of_remove_dups, !list_elem_of_fmap. split.
  - intros (l & -> & (item & Hin & _)%remaining_ids). by exists (rl_sale_item_id l, item).
  - intros ([j item] & -> & Hin). simpl. eexists. split; [|apply remaining_line_of; [exact Hin|]].
    + done.
    + destruct (Hfresh j item Hin). lia.
Qed.

Lemma fresh_asked k item :
  (k, item) ∈ items -> asked lines k = item_quantity item /\ asked_restock lines k = true.
Proof.
  intros Hin. destruct (Hfresh k item Hin) as [H0 Hq].
  pose proof (remaining_line_of items k item Hin ltac:(lia)) as Hl.
  destruct (asked_single _ _ (remaining_distinct items (NoDup_select_keys _ _)) Hl) as [H1 H2].
  simpl in H1, H2. rewrite H0, Z.sub_0_r in H1. done.
Qed.

Lemma fresh_refund_due :
  refund_due d lines
  = sum_by (fun it => lr_amount (_compute_line_refund it (item_quantity it))) (map snd items).
Proof.
  unfold refund_due. rewrite (sum_by_perm _ _ _ fresh_ids). rewrite !sum_by_map.
  apply sum_by_ext. intros [k item] Hin. simpl. destruct (fresh_asked k item Hin) as [-> _].
  apply elem_select in Hin as [-> _]. done.
Qed.

Lemma fresh_put_back pid :
  put_back d lines pid
  = sum_where (fun it => item_product_id it =? pid) item_quantity (map snd items).
Proof.
  unfold put_back, sum_where. rewrite (sum_by_perm _ _ _ fresh_ids), !sum_by_map.
  apply sum_by_ext. intros [k item] Hin. simpl. destruct (fresh_asked k item Hin) as [-> ->].
  apply elem_select in Hin as [-> _]. done.
Qed.
End VoidFresh.

(** A line returned whole at once refunds its own total. *)
Lemma whole_line_refund it :
  quantity_returned it = 0 -> 0 < item_quantity it ->
  lr_amount (_compute_line_refund it (item_quantity it))
  = price_of (item_quantity it) (unit_price_at_sale it) - item_discount_amount it + item_tax_amount it.
Proof.
  intros H0 Hq. unfold _compute_line_refund. cbn [lr_amount]. rewrite !proportional_share_entitled, H0, Z.add_0_l, !entitled_0, !entitled_all by done.
  lia.
Qed.

(** The items a finalized sale leaves behind. *)
Lemma finalized_sale_items d d' i cs :
  returns_wf d -> i = next_id (sales d) ->
  sale_items d' = sale_items d ++ map (sale_item_row i) cs ->
  map snd (sale_items_of d' i) = map (sale_item_row i) cs.
Proof.
  intros Hwf Hi E. unfold sale_items_of.
  change (map snd ?l) with (map (fun ir : Z * SaleItem => (fun x => x) ir.2) l).
  rewrite select_map, map_id, E, List.filter_app, filter_none, filter_all; [done| |].
  - intros x (c & -> & _)%list_elem_of_fmap. apply Z.eqb_refl.
  - intros x (k & Hk)%elem_row_of. apply Z.eqb_neq. pose proof (rw_sales _ Hwf k x Hk). lia.
Qed.

Lemma priced_line_refund d now store lines cs i c :
  Forall2 (priced d now store) lines cs -> c ∈ cs ->
  lr_amount (_compute_line_refund (sale_item_row i c) (item_quantity (sale_item_row i c)))
  = cl_line_total c.
Proof.
  intros Hcs Hc. apply list_elem_of_lookup in Hc as [n Hn].
  destruct (Forall2_lookup_r _ _ _ _ _ Hcs Hn) as (l & _ & p & tax & _ & _ & _ & _ & Hq & _ & ->).
  rewrite whole_line_refund; [simpl; unfold price_of; lia|done|done].
Qed.

(** C27: Selling and then voiding is neutral: a void of a sale nothing of which
    was returned refunds exactly the sale's grand total and puts every product
    back to the quantity it had before the sale. *)
Theorem void_undoes_sale vp store cashier key caller lines ps a caller2 s i s1 r s2 :
  returns_wf (working s) -> committed s = working s -> sale_key_fresh (working s) key ->
  return_key_fresh (working s) (ra_client_transaction_id a) -> ra_sale_id a = i ->
  run_request (finalize_sale store cashier key caller lines ps) s = (Ok i, s1) ->
  run_request (void_sale_endpoint vp a caller2) s1 = (Ok r, s2) ->
  (exists ret sale, row_of (sale_returns (committed s2)) r = Some ret /\
     row_of (sales (committed s1)) i = Some sale /\ refund_amount ret = grand_total sale) /\
  forall pid p, row_of (products (committed s)) pid = Some p ->
    exists p', row_of (products (committed s2)) pid = Some p' /\
      current_qty_on_hand p' = current_qty_on_hand p.
Proof.
  intros Hwf Hcw Hf Hrf Ha (sA & H & Hc1 & Hw1)%run_request_ok (sB & Hv & -> & _)%run_request_ok.
  apply finalize_sale_fresh in H as (cs & change & number & shift & s0 & Hp & _ & Hw & _ & Hi & Hd);
    [|done|done].
  apply price_cart_ok in Hp as (_ & _ & _ & Hcs & _).
  pose proof (fixes_run _ _ _ _ _ (write_sale_details_fixes_returns _ _ _ _ _ _) Hd) as [= Er Eri].
  pose proof (write_sale_details_valid _ _ _ _ _ _ _ _ Hd) as Hval.
  apply write_sale_details_ok in Hd as (s3 & s4 & pd & new & _ & Hs & _ & Hitems & Hsold & _).
  simpl in Hs, Hitems, Hsold, Er, Eri.
  set (sale := new_sale store cashier number key cs ps change (utc_now (env s)) (fst <$> shift)) in *.
  assert (Hsale : row_of (sales (working sA)) i = Some sale) by (rewrite Hs, Hi; apply row_of_new).
  assert (HwfA : returns_wf (working sA)).
  { eapply finalized_items_wf; [exact Hwf|exact Hi| |exact Hitems|done..].
    by rewrite Hs, next_id_app, Hi. }
  pose proof (finalized_sale_items _ (working sA) _ _ Hwf Hi Hitems) as Hsnd.
  assert (Hfresh : forall k item, (k, item) ∈ sale_items_of (working sA) i ->
    quantity_returned item = 0 /\ 0 < item_quantity item).
  { intros k item Hin. assert (Hx : item ∈ map snd (sale_items_of (working sA) i))
      by (apply list_elem_of_fmap; by exists (k, item)).
    rewrite Hsnd in Hx. apply list_elem_of_fmap in Hx as (c & -> & Hc). simpl.
    rewrite Forall_forall in Hval. by destruct (Hval c Hc). }
  apply throttled_cases_ok in Hv as [ws Hv]. apply void_sale_ok in Hv as (sale' & _ & _ & _ & Hv).
  rewrite Ha in Hv. simpl in Hv. rewrite Hw1, Hc1 in Hv.
  apply create_sale_return_fresh in Hv as (method & _ & Hmade);
    [|simpl; congruence|intros x; simpl; rewrite Hw1, Hc1, Er; apply Hrf].
  split.
  - destruct (new_return_refund _ _ _ _ _ _ _ Hmade) as (ret & Hret & _ & Hamt & _).
    exists ret, sale. rewrite Hc1. split_and!; [done|done|]. simpl in Hamt. rewrite Hw1, Hc1 in Hamt.
    rewrite Hamt, fresh_refund_due by done. rewrite Hsnd, sum_by_map.
    unfold sale. simpl. rewrite (priced_line_totals _ _ _ _ _ Hcs). apply sum_by_ext.
    intros c Hc. exact (priced_line_refund _ _ _ _ _ i _ Hcs Hc).
  - intros pid p Hp. rewrite Hcw in Hp. apply Hsold in Hp as Hp1.
    rewrite <- Hc1, <- Hw1 in Hp1.
    destruct (new_return_products _ _ _ _ _ _ _ Hmade pid _ Hp1) as [c Hc]. eexists. split; [exact Hc|]. simpl. rewrite Hw1, Hc1, fresh_put_back by done.
    rewrite Hsnd. unfold sold, sum_where. rewrite sum_by_map. simpl. lia.
Qed.

Lemma demo_returns_wf : returns_wf (working demo).
Proof.
  apply no_returns_wf; [done..|]. intros k item Hk. unfold row_of in Hk. by destruct (0 <? k).
Qed.

Lemma demo_returns_fresh key : return_key_fresh (working demo) key.
Proof. by apply no_returns_fresh. Qed.

Lemma void_undoes_sale_witness :
  let s2 := (run_request (void_sale_endpoint String.eqb (demo_return "v1" None None) (Some 1)) demo_sold).2 in
  (exists ret sale, row_of (sale_returns (committed s2)) 1 = Some ret /\
     row_of (sales (committed demo_sold)) 1 = Some sale /\ refund_amount ret = grand_total sale) /\
  (current_qty_on_hand <$> row_of (products (committed s2)) 2) = Some 12500.
Proof.
  intros s2.
  assert (H1 : run_request (finalize_sale 1 1 "sale-1" (Some 1) demo_cart [(CASH, 1000)]) demo
               = (Ok 1, demo_sold)) by (by vm_compute).
  assert (H2 : run_request (void_sale_endpoint String.eqb (demo_return "v1" None None) (Some 1)) demo_sold
               = (Ok 1, s2)) by (by vm_compute).
  split; [|by vm_compute].
  exact (proj1 (void_undoes_sale String.eqb 1 1 "sale-1" (Some 1) demo_cart [(CASH, 1000)]
           (demo_return "v1" None None) (Some 1) demo 1 demo_sold 1 s2 demo_returns_wf eq_refl
           (demo_keys_fresh _) (demo_returns_fresh _) eq_refl H1 H2)).
Defined.
