(* ===== verification/Payroll.v ===== *)
(** * The payroll calculation engine

    app/modules/payroll/calculation.py: a pure function from compensation
    segments, attendance hours, the overtime policy and the deduction
    configuration to an employee's pay.  [Decimal] values that are not stored
    amounts (hours, rates, percentages) are rationals; [_quantize] rounds them
    to cents. *)

From Stdlib Require Import QArith Qminmax Lqa.
From S2P Require Import Prelude Fixed Session Schema Tables Platform Chart Fixture Journal.
From S2P Require Import Posting.

#[local] Open Scope Z_scope.

(** ** Inputs and results *)

Definition _quantize (value : Q) : money := div_half_up (100 * Qnum value) (Zpos (Qden value)).

(** A stored amount as a [Decimal]. *)
Definition of_cents (m : money) : Q := (m # 100)%Q.

Record CompensationInput := {
  pay_type : string;
  rate : Q;
  overtime_eligible : bool;
}.

Record CompensationSegment := {
  seg_start : Z;
  seg_end : Z;
  compensation : CompensationInput;
}.

Record OvertimePolicyInput := {
  threshold_hours_per_period : Q;
  multiplier : Q;
}.

Record DeductionConfigInput := {
  deduction_type_id : Z;
  is_employer_contribution : bool;
  calculation_method : string;
  parameters : Parameters;
}.

Record EarningLineResult := {
  earning_type : string;
  el_amount : money;
  el_hours : option Q;
  el_rate : Q;
  el_segment : Z * Z;
}.

Record DeductionLineResult := {
  dl_type_id : Z;
  dl_is_employer_contribution : bool;
  dl_amount : money;
}.

Record CalculationResult := {
  regular_hours : Q;
  overtime_hours : Q;
  r_gross_pay : money;
  r_total_deductions : money;
  r_total_employer_contributions : money;
  r_net_pay : money;
  earning_lines : list EarningLineResult;
  deduction_lines : list DeductionLineResult;
}.

Inductive pay_error :=
  | MissingCompensationCoverageError
  | UnknownValue
  | MissingParameter.

(** A result or the exception raised. *)
Definition R (A : Type) : Type := pay_error + A.
#[global] Instance R_ret : MRet R := fun A a => inr a.
#[global] Instance R_bind : MBind R := fun A B f m =>
  match m with inl e => inl e | inr a => f a end.

(** ** Deductions *)

Definition percent_of (base percent : Q) : Q := (base * percent / 100)%Q.

Fixpoint bracketed_from (base lower : Q) (brackets : list Bracket) (total : Q) : Q :=
  match brackets with
  | [] => total
  | b :: rest =>
      match upto b with
      | None => (total + percent_of (Qmax 0 (base - lower)) (bracket_percent b))%Q
      | Some u =>
          let total := (total + percent_of (Qmax 0 (Qmin base u - lower)) (bracket_percent b))%Q in
          if Qle_bool base u then total else bracketed_from base u rest total
      end
  end.

Definition _apply_bracketed (base : Q) (brackets : list Bracket) : Q :=
  bracketed_from base 0 brackets 0.

Definition required {A} (o : option A) : R A :=
  match o with Some a => inr a | None => inl MissingParameter end.

Definition _apply_deduction (config : DeductionConfigInput) (gross : Q) : R Q :=
  let method := calculation_method config in
  let params := parameters config in
  if String.eqb method "FLAT_AMOUNT" then required (param_amount params)
  else if String.eqb method "PERCENT_OF_GROSS" || String.eqb method "PERCENT_OF_TAXABLE"
  then p ← required (param_percent params); mret (percent_of gross p)
  else if String.eqb method "BRACKETED"
  then bs ← required (param_brackets params); mret (_apply_bracketed gross bs)
  else inl UnknownValue.

(** ** Coverage *)

(** [sorted(segments, key=start)], stable. *)
Fixpoint insert_segment (x : CompensationSegment) (l : list CompensationSegment)
    : list CompensationSegment :=
  match l with
  | [] => [x]
  | y :: l' => if seg_start x <=? seg_start y then x :: l else y :: insert_segment x l'
  end.

Definition sort_segments (l : list CompensationSegment) : list CompensationSegment :=
  foldr insert_segment [] l.

(** The cursor after the ordered segments; [None] where one starts past it. *)
Fixpoint advance_cursor (cursor : Z) (ordered : list CompensationSegment) : option Z :=
  match ordered with
  | [] => Some cursor
  | s :: rest =>
      if cursor <? seg_start s then None else advance_cursor (Z.max cursor (seg_end s + 1)) rest
  end.

Definition check_coverage (period_start period_end : Z) (segments : list CompensationSegment)
    : R (list CompensationSegment) :=
  if bool_decide (length segments = 0%nat) then inl MissingCompensationCoverageError
  else
    let ordered := sort_segments segments in
    match advance_cursor period_start ordered with
    | None => inl MissingCompensationCoverageError
    | Some cursor =>
        if cursor <=? period_end then inl MissingCompensationCoverageError else inr ordered
    end.

(** ** Earnings *)

(** The running totals of the earnings loop. *)
Record Earned := {
  e_regular : Q;
  e_overtime : Q;
  e_gross : money;
  e_lines : list EarningLineResult;
}.

Definition split_hours (comp : CompensationInput) (policy : option OvertimePolicyInput) (hours : Q)
    : Q * Q :=
  match policy with
  | Some p =>
      if overtime_eligible comp
      then (Qmin hours (threshold_hours_per_period p),
            Qmax 0 (hours - threshold_hours_per_period p))
      else (hours, 0%Q)
  | None => (hours, 0%Q)
  end.

Definition earn_segment (policy : option OvertimePolicyInput) (full_period_days : Z)
    (hours : Q) (s : CompensationSegment) (acc : Earned) : R Earned :=
  let comp := compensation s in
  let label := (seg_start s, seg_end s) in
  if String.eqb (pay_type comp) "HOURLY" then
    let '(regular, overtime) := split_hours comp policy hours in
    let regular_amount := _quantize (regular * rate comp) in
    let acc :=
      {| e_regular := (e_regular acc + regular)%Q; e_overtime := e_overtime acc;
         e_gross := e_gross acc + regular_amount;
         e_lines := e_lines acc ++ [{| earning_type := "REGULAR"; el_amount := regular_amount;
                                       el_hours := Some regular; el_rate := rate comp;
                                       el_segment := label |}] |} in
    match policy with
    | Some p =>
        if negb (Qle_bool overtime 0) then
          let overtime_rate := (rate comp * multiplier p)%Q in
          let overtime_amount := _quantize (overtime * overtime_rate) in
          mret {| e_regular := e_regular acc; e_overtime := (e_overtime acc + overtime)%Q;
                  e_gross := e_gross acc + overtime_amount;
                  e_lines := e_lines acc ++ [{| earning_type := "OVERTIME";
                                                el_amount := overtime_amount;
                                                el_hours := Some overtime; el_rate := overtime_rate;
                                                el_segment := label |}] |}
        else mret acc
    | None => mret acc
    end
  else if String.eqb (pay_type comp) "SALARY" then
    let segment_days := seg_end s - seg_start s + 1 in
    let segment_amount := _quantize (rate comp * inject_Z segment_days / inject_Z full_period_days) in
    mret {| e_regular := e_regular acc; e_overtime := e_overtime acc;
            e_gross := e_gross acc + segment_amount;
            e_lines := e_lines acc ++ [{| earning_type := "REGULAR"; el_amount := segment_amount;
                                          el_hours := None; el_rate := rate comp;
                                          el_segment := label |}] |}
  else inl UnknownValue.

(** The loop over [enumerate(ordered)]; missing attendance counts as no hours. *)
Fixpoint earn (policy : option OvertimePolicyInput) (full_period_days : Z)
    (attendance : list (Z * Q)) (index : Z) (ordered : list CompensationSegment) (acc : Earned)
    : R Earned :=
  match ordered with
  | [] => mret acc
  | s :: rest =>
      acc ← earn_segment policy full_period_days (default 0%Q (dict_get index attendance)) s acc;
      earn policy full_period_days attendance (index + 1) rest acc
  end.

Fixpoint deduct (gross : money) (configs : list DeductionConfigInput)
    : R (list DeductionLineResult) :=
  match configs with
  | [] => mret []
  | c :: rest =>
      amount ← _apply_deduction c (of_cents gross);
      lines ← deduct gross rest;
      mret ({| dl_type_id := deduction_type_id c;
               dl_is_employer_contribution := is_employer_contribution c;
               dl_amount := _quantize amount |} :: lines)
  end.

Definition employee_part (ls : list DeductionLineResult) : money :=
  sum_where (fun l => negb (dl_is_employer_contribution l)) dl_amount ls.

Definition employer_part (ls : list DeductionLineResult) : money :=
  sum_where dl_is_employer_contribution dl_amount ls.

Definition calculate_employee_pay (segments : list CompensationSegment) (period_start period_end : Z)
    (attendance : list (Z * Q)) (policy : option OvertimePolicyInput)
    (configs : list DeductionConfigInput) : R CalculationResult :=
  ordered ← check_coverage period_start period_end segments;
  earned ← earn policy (period_end - period_start + 1) attendance 0 ordered
             {| e_regular := 0; e_overtime := 0; e_gross := 0; e_lines := [] |};
  lines ← deduct (e_gross earned) configs;
  mret {| regular_hours := e_regular earned; overtime_hours := e_overtime earned;
          r_gross_pay := e_gross earned; r_total_deductions := employee_part lines;
          r_total_employer_contributions := employer_part lines;
          r_net_pay := e_gross earned - employee_part lines;
          earning_lines := e_lines earned; deduction_lines := lines |}.

(** ** Coverage means every day *)

Definition covers (s : CompensationSegment) (day : Z) : Prop := seg_start s <= day <= seg_end s.

Definition starts_sorted : list CompensationSegment -> Prop :=
  StronglySorted (fun a b => seg_start a <= seg_start b).

Lemma insert_segment_perm x l : insert_segment x l ≡ₚ x :: l.
Proof.
  induction l as [|y l IH]; simpl; [done|]. destruct (_ <=? _); [done|].
  rewrite IH. apply Permutation_swap.
Qed.

Lemma sort_segments_perm l : sort_segments l ≡ₚ l.
Proof. induction l as [|x l IH]; simpl; [done|]. by rewrite insert_segment_perm, IH. Qed.

Lemma insert_segment_sorted x l : starts_sorted l -> starts_sorted (insert_segment x l).
Proof.
  induction 1 as [|y l Hl IH Hy]; simpl; [repeat constructor|].
  destruct (Z.leb_spec (seg_start x) (seg_start y)).
  - constructor; [by constructor|]. constructor; [done|].
    eapply Forall_impl; [exact Hy|]. simpl. lia.
  - constructor; [done|]. rewrite insert_segment_perm. constructor; [lia|done].
Qed.

Lemma sort_segments_sorted l : starts_sorted (sort_segments l).
Proof. induction l as [|x l IH]; simpl; [constructor|by apply insert_segment_sorted]. Qed.

Lemma advance_cursor_Some c l c' :
  advance_cursor c l = Some c' ->
  c <= c' /\ (forall day, c <= day < c' -> exists s, s ∈ l /\ covers s day) /\
  (forall s, s ∈ l -> seg_end s < c').
Proof.
  revert c. induction l as [|s l IH]; intros c; simpl.
  - intros [= <-]. split_and!; [lia|intros; lia|by intros s ?%elem_of_nil].
  - destruct (Z.ltb_spec c (seg_start s)) as [|Hs]; [done|].
    intros (Hle & Hcov & Hend)%IH. split_and!; [lia| |].
    + intros day Hday. destruct (Z.le_gt_cases day (seg_end s)).
      * exists s. split; [left|]. unfold covers. lia.
      * destruct (Hcov day) as (x & Hx & ?); [lia|]. exists x. split; [by right|done].
    + intros x [->|Hx]%elem_of_cons; [lia|by apply Hend].
Qed.

Lemma advance_cursor_None c l :
  starts_sorted l -> advance_cursor c l = None ->
  exists day s, c <= day /\ s ∈ l /\ day < seg_start s /\ forall x, x ∈ l -> ~ covers x day.
Proof.
  intros Hl. revert c. induction Hl as [|s l Hl IH Hs]; intros c; simpl; [done|].
  rewrite Forall_forall in Hs. destruct (Z.ltb_spec c (seg_start s)).
  - intros _. exists c, s. split_and!; [lia|left|done|].
    intros x [->|Hx]%elem_of_cons; unfold covers; [lia|]. specialize (Hs x Hx). lia.
  - intros (day & x & Hd & Hx & Hlt & Hno)%IH. exists day, x.
    split_and!; [lia|by right|done|]. intros y [->|Hy]%elem_of_cons; [|by apply Hno].
    unfold covers. lia.
Qed.

(** For segments that start within the period, the engine reports missing
    compensation exactly when some day of the period has none; otherwise it goes
    on with the same segments in order of their start. *)
Theorem coverage_complete ps pe segments :
  ps <= pe -> (forall s, s ∈ segments -> seg_start s <= pe) ->
  (check_coverage ps pe segments = inl MissingCompensationCoverageError <->
     exists day, ps <= day <= pe /\ forall s, s ∈ segments -> ~ covers s day) /\
  (forall ordered, check_coverage ps pe segments = inr ordered ->
     ordered ≡ₚ segments /\ starts_sorted ordered).
Proof.
  intros Hp Hstart. unfold check_coverage. case_bool_decide as Hlen.
  { destruct segments; [|done]. split; [|done]. split; [intros _|done].
    exists ps. split; [lia|]. by intros s ?%elem_of_nil. }
  assert (Hin : forall s, s ∈ sort_segments segments <-> s ∈ segments)
    by (intros s; by rewrite sort_segments_perm).
  destruct (advance_cursor ps (sort_segments segments)) as [c|] eqn:E.
  - apply advance_cursor_Some in E as (Hle & Hcov & Hend).
    destruct (Z.leb_spec c pe); split; try done; split; try done.
    + intros _. exists c. split; [lia|]. intros s Hs. unfold covers.
      specialize (Hend s ltac:(by apply Hin)). lia.
    + intros (day & Hday & Hno). destruct (Hcov day) as (s & Hs & Hc); [lia|].
      exfalso. apply (Hno s); [by apply Hin|done].
    + injection H0 as <-. apply sort_segments_perm.
    + injection H0 as <-. apply sort_segments_sorted.
  - split; [|done]. split; [intros _|done].
    apply advance_cursor_None in E as (day & s & Hd & Hs & Hlt & Hno); [|apply sort_segments_sorted].
    exists day. split; [specialize (Hstart s ltac:(by apply Hin)); lia|].
    intros x Hx. by apply Hno, Hin.
Qed.

Definition demo_hourly (r : Q) : CompensationInput :=
  {| pay_type := "HOURLY"; rate := r; overtime_eligible := true |}.

(** A rate change on day 110 of a period from day 100 to day 120. *)
Definition demo_segments : list CompensationSegment :=
  [{| seg_start := 110; seg_end := 120; compensation := demo_hourly 22 |};
   {| seg_start := 100; seg_end := 109; compensation := demo_hourly 20 |}].

Lemma demo_segments_start s : s ∈ demo_segments -> seg_start s <= 120.
Proof. intros [->|[->|Hs%elem_of_nil]%elem_of_cons]%elem_of_cons; by vm_compute. Qed.

Lemma coverage_complete_witness :
  check_coverage 100 120 demo_segments = inr (rev demo_segments) /\
  rev demo_segments ≡ₚ demo_segments.
Proof.
  split; [done|].
  exact (proj1 (proj2 (coverage_complete 100 120 demo_segments ltac:(lia) demo_segments_start)
                  (rev demo_segments) eq_refl)).
Defined.

(** ** Totals *)

Lemma bind_inr {A B} (m : R A) (f : A -> R B) b :
  (a ← m; f a) = inr b -> exists a, m = inr a /\ f a = inr b.
Proof. destruct m as [e|a]; [done|eauto]. Qed.

Lemma earn_segment_gross policy days hours s acc acc' :
  earn_segment policy days hours s acc = inr acc' ->
  e_gross acc = sum_by el_amount (e_lines acc) -> e_gross acc' = sum_by el_amount (e_lines acc').
Proof.
  unfold earn_segment. intros H Hg. destruct (String.eqb _ "HOURLY").
  - destruct (split_hours _ _ _) as [r o]. destruct policy as [p|]; [|injection H as <-].
    + destruct (negb _); injection H as <-; simpl;
        rewrite ?sum_by_app, ?sum_by_cons, ?sum_by_nil; simpl; lia.
    + simpl. rewrite sum_by_app, sum_by_cons, sum_by_nil. simpl. lia.
  - destruct (String.eqb _ "SALARY"); [|done]. injection H as <-. simpl.
    rewrite sum_by_app, sum_by_cons, sum_by_nil. simpl. lia.
Qed.

Lemma earn_gross policy days att i ordered acc acc' :
  earn policy days att i ordered acc = inr acc' ->
  e_gross acc = sum_by el_amount (e_lines acc) -> e_gross acc' = sum_by el_amount (e_lines acc').
Proof.
  revert i acc. induction ordered as [|s ordered IH]; intros i acc; simpl; [by intros [= <-]|].
  intros (acc1 & H1 & H)%bind_inr Hg. apply (IH _ _ H). by eapply earn_segment_gross.
Qed.

(** The totals the accounting module reads of a stored result. *)
Definition payroll_totals (r : CalculationResult) : PayrollTotals :=
  {| gross_pay := r_gross_pay r; total_deductions := r_total_deductions r;
     total_employer_contributions := r_total_employer_contributions r; net_pay := r_net_pay r |}.

Lemma calculate_totals segments ps pe att policy configs r :
  calculate_employee_pay segments ps pe att policy configs = inr r ->
  r_gross_pay r = sum_by el_amount (earning_lines r) /\
  r_total_deductions r = employee_part (deduction_lines r) /\
  r_total_employer_contributions r = employer_part (deduction_lines r) /\
  r_net_pay r = r_gross_pay r - r_total_deductions r.
Proof.
  unfold calculate_employee_pay. intros (ordered & _ & H)%bind_inr.
  apply bind_inr in H as (earned & He & H). apply bind_inr in H as (lines & _ & H).
  injection H as <-. simpl. split_and!; try done. by eapply earn_gross.
Qed.

Definition result_checks (r : CalculationResult) : Prop :=
  0 <= r_net_pay r /\ 0 <= r_total_deductions r /\ 0 <= r_total_employer_contributions r.

(** Every deduction line is its configuration applied to the gross pay. *)
Definition deducted (gross : money) (c : DeductionConfigInput) (l : DeductionLineResult) : Prop :=
  dl_type_id l = deduction_type_id c /\
  dl_is_employer_contribution l = is_employer_contribution c /\
  exists amount, _apply_deduction c (of_cents gross) = inr amount /\ dl_amount l = _quantize amount.

Lemma deduct_lines gross configs lines :
  deduct gross configs = inr lines -> Forall2 (deducted gross) configs lines.
Proof.
  revert lines. induction configs as [|c configs IH]; intros lines; simpl; [by intros [= <-]|].
  intros (amount & Ha & H)%bind_inr. apply bind_inr in H as (rest & Hr & H). injection H as <-.
  constructor; [|by apply IH]. split_and!; [done..|by exists amount].
Qed.

Lemma calculate_deductions segments ps pe att policy configs r :
  calculate_employee_pay segments ps pe att policy configs = inr r ->
  Forall2 (deducted (r_gross_pay r)) configs (deduction_lines r).
Proof.
  unfold calculate_employee_pay. intros (ordered & _ & H)%bind_inr.
  apply bind_inr in H as (earned & _ & H). apply bind_inr in H as (lines & Hl & H).
  injection H as <-. simpl. by apply deduct_lines.
Qed.

(** C39: Gross pay is the sum of the earning lines, the deduction total the sum
    of the employee's own deduction lines, the employer's total the sum of the
    others, and net pay is gross less the deduction total, to the cent; there is
    one deduction line for each configured deduction, in order, with that
    deduction applied to the gross pay and rounded. So the results a period
    stores (none of their net pay and totals negative, as the table's CHECKs
    demand) post a balanced payroll entry and reversal. *)
Theorem calculated_payroll_balances (rs : list CalculationResult) reverse :
  Forall (fun r => result_checks r /\ exists segments ps pe att policy configs,
    calculate_employee_pay segments ps pe att policy configs = inr r) rs ->
  (forall r segments ps pe att policy configs, r ∈ rs ->
     calculate_employee_pay segments ps pe att policy configs = inr r ->
     r_gross_pay r = sum_by el_amount (earning_lines r) /\
     r_total_deductions r = employee_part (deduction_lines r) /\
     r_total_employer_contributions r = employer_part (deduction_lines r) /\
     r_net_pay r = r_gross_pay r - r_total_deductions r /\
     Forall2 (deducted (r_gross_pay r)) configs (deduction_lines r)) /\
  balanced (payroll_lines_of (map payroll_totals rs) reverse).
Proof.
  intros Hrs. rewrite Forall_forall in Hrs. split.
  - intros r segs ps pe att pol cfg _ H. pose proof (calculate_deductions _ _ _ _ _ _ _ H).
    by apply calculate_totals in H as (Hg & Hd & He & Hn).
  - apply payroll_lines_balanced. intros t (r & -> & Hr)%list_elem_of_fmap.
    destruct (Hrs r Hr) as ((? & ? & ?) & segs & ps & pe & att & pol & cfg & H).
    by apply calculate_totals in H as (_ & _ & _ & Hn).
Qed.

Definition demo_configs : list DeductionConfigInput :=
  [{| deduction_type_id := 1; is_employer_contribution := false; calculation_method := "BRACKETED";
      parameters := {| param_amount := None; param_percent := None;
                       param_brackets := Some [{| upto := Some 500%Q; bracket_percent := 10 |};
                                               {| upto := None; bracket_percent := 25 |}] |} |};
   {| deduction_type_id := 2; is_employer_contribution := true;
      calculation_method := "PERCENT_OF_GROSS";
      parameters := {| param_amount := None; param_percent := Some (15 # 2)%Q;
                       param_brackets := None |} |}].

Definition demo_policy : OvertimePolicyInput :=
  {| threshold_hours_per_period := 40; multiplier := (3 # 2)%Q |}.

Definition demo_result : CalculationResult :=
  match calculate_employee_pay demo_segments 100 120 [(0, 45%Q); (1, 20%Q)] (Some demo_policy)
          demo_configs with
  | inr r => r
  | inl _ => {| regular_hours := 0; overtime_hours := 0; r_gross_pay := 0; r_total_deductions := 0;
                r_total_employer_contributions := 0; r_net_pay := 0; earning_lines := [];
                deduction_lines := [] |}
  end.

Lemma calculated_payroll_balances_witness :
  (r_gross_pay demo_result, r_net_pay demo_result) = (139000, 111750) /\
  balanced (payroll_lines_of (map payroll_totals [demo_result]) false).
Proof.
  split; [by vm_compute|]. apply (calculated_payroll_balances [demo_result] false).
  constructor; [|constructor]. split; [by vm_compute|].
  exists demo_segments, 100, 120, [(0, 45%Q); (1, 20%Q)], (Some demo_policy), demo_configs.
  by vm_compute.
Defined.

(** ** Progressive brackets *)

#[local] Open Scope Q_scope.

(** Every bracket taxes its slice of the base; no early exit. *)
Fixpoint slices (base lower : Q) (brackets : list Bracket) : Q :=
  match brackets with
  | [] => 0
  | b :: rest =>
      match upto b with
      | None => percent_of (Qmax 0 (base - lower)) (bracket_percent b)
      | Some u => percent_of (Qmax 0 (Qmin base u - lower)) (bracket_percent b) + slices base u rest
      end
  end.

(** Thresholds ascend from [lower]; percentages are between 0 and 100. *)
Fixpoint progressive (lower : Q) (brackets : list Bracket) : Prop :=
  match brackets with
  | [] => True
  | b :: rest =>
      0 <= bracket_percent b <= 100 /\
      match upto b with
      | None => True
      | Some u => lower <= u /\ progressive u rest
      end
  end.

(** Decide every minimum and maximum of the goal. *)
Ltac q_cases :=
  repeat match goal with
  | |- context [Qmin ?a ?b] => destruct (Q.min_spec a b) as [[? ->]|[? ->]]
  end;
  repeat match goal with
  | |- context [Qmax ?a ?b] => destruct (Q.max_spec a b) as [[? ->]|[? ->]]
  end.

#[local] Instance percent_of_proper : Proper (Qeq ==> Qeq ==> Qeq) percent_of.
Proof. intros x y E p q E'. unfold percent_of. by rewrite E, E'. Qed.

Lemma percent_of_0 p : percent_of 0 p == 0.
Proof. unfold percent_of. field. Qed.

Lemma slices_below base lower brackets :
  base <= lower -> progressive lower brackets -> slices base lower brackets == 0.
Proof.
  revert lower. induction brackets as [|b rest IH]; intros lower Hle Hp; simpl; [reflexivity|].
  simpl in Hp. destruct Hp as [_ Hp]. destruct (upto b) as [u|].
  - destruct Hp as [Hu Hp]. rewrite IH by (try done; lra).
    assert (E : Qmax 0 (Qmin base u - lower) == 0) by (q_cases; lra).
    rewrite E, percent_of_0. reflexivity.
  - assert (E : Qmax 0 (base - lower) == 0) by (q_cases; lra).
    rewrite E, percent_of_0. reflexivity.
Qed.

Lemma bracketed_from_slices base lower brackets total :
  progressive lower brackets ->
  bracketed_from base lower brackets total == total + slices base lower brackets.
Proof.
  revert lower total. induction brackets as [|b rest IH]; intros lower total Hp; simpl; [ring|].
  simpl in Hp. destruct Hp as [_ Hp]. destruct (upto b) as [u|]; [|reflexivity].
  destruct Hp as [Hu Hp]. destruct (Qle_bool base u) eqn:E.
  - apply Qle_bool_iff in E. rewrite (slices_below base u rest E Hp). ring.
  - rewrite IH by done. ring.
Qed.

Lemma slices_step base base' lower brackets :
  base <= base' -> progressive lower brackets ->
  0 <= slices base' lower brackets - slices base lower brackets
  /\ slices base' lower brackets - slices base lower brackets
     <= Qmax base' lower - Qmax base lower.
Proof.
  intros Hb. revert lower. induction brackets as [|b rest IH]; intros lower Hp; simpl.
  - split; q_cases; lra.
  - simpl in Hp. destruct Hp as [[H0 H1] Hp]. unfold percent_of.
    destruct (upto b) as [u|].
    + destruct Hp as [Hu Hp]. destruct (IH u Hp) as [IH0 IH1].
      set (x := Qmax 0 (Qmin base u - lower)). set (x' := Qmax 0 (Qmin base' u - lower)).
      assert (Hx : 0 <= x' - x) by (unfold x, x'; q_cases; lra).
      assert (Hs : x' - x + (Qmax base' u - Qmax base u) <= Qmax base' lower - Qmax base lower)
        by (unfold x, x'; q_cases; lra).
      assert (Hp0 : 0 <= (x' - x) * bracket_percent b) by (apply Qmult_le_0_compat; done).
      assert (Hp1 : 0 <= (x' - x) * (100 - bracket_percent b)) by (apply Qmult_le_0_compat; lra).
      unfold Qdiv. change (/ 100) with (1 # 100). split; lra.
    + set (x := Qmax 0 (base - lower)). set (x' := Qmax 0 (base' - lower)).
      assert (Hx : 0 <= x' - x) by (unfold x, x'; q_cases; lra).
      assert (Hs : x' - x <= Qmax base' lower - Qmax base lower) by (unfold x, x'; q_cases; lra).
      assert (Hp0 : 0 <= (x' - x) * bracket_percent b) by (apply Qmult_le_0_compat; done).
      assert (Hp1 : 0 <= (x' - x) * (100 - bracket_percent b)) by (apply Qmult_le_0_compat; lra).
      unfold Qdiv. change (/ 100) with (1 # 100). split; lra.
Qed.

(** Rounding to cents does not spread two amounts: what is at most [n] cents
    more is at most [n] cents more when rounded. *)
Lemma quantize_step x y n :
  0 <= x -> 0 <= y -> (0 <= n)%Z -> x <= y + (n # 100) -> (_quantize x <= _quantize y + n)%Z.
Proof.
  destruct x as [a b], y as [c d]. unfold Qle, _quantize. cbn [Qnum Qden Qplus]. intros Ha Hc Hn H.
  rewrite Pos2Z.inj_mul in H. rewrite <- (div_half_up_scale (100 * a) (Z.pos b) (Z.pos d)) by lia.
  rewrite <- (div_half_up_scale (100 * c) (Z.pos d) (Z.pos b)) by lia.
  rewrite (Z.mul_comm (Z.pos d) (Z.pos b)).
  rewrite <- div_half_up_add_exact by nia. apply div_half_up_mono; nia.
Qed.

Lemma bracketed_nonneg brackets base :
  progressive 0 brackets -> 0 <= base -> 0 <= _apply_bracketed base brackets.
Proof.
  intros Hp H0. unfold _apply_bracketed. rewrite bracketed_from_slices by done.
  destruct (slices_step 0 base 0 brackets H0 Hp) as [Hs _].
  rewrite (slices_below 0 0 brackets) in Hs by (try done; lra). lra.
Qed.

(** C40: Over ascending thresholds and percentages between 0 and 100 (the
    configuration is JSON that nothing validates; outside these bounds the rest
    may fail) the early exit of the bracket loop changes nothing: the result is
    the sum over all brackets of the percentage of their slice of the base. It
    never falls as the base grows and never grows faster than the base; so what
    one such deduction, rounded to the cent, leaves of a gross pay never falls
    as the gross pay rises. *)
Theorem apply_bracketed_progressive brackets base base' :
  progressive 0 brackets -> 0 <= base -> base <= base' ->
  _apply_bracketed base brackets == slices base 0 brackets /\
  _apply_bracketed base brackets <= _apply_bracketed base' brackets /\
  _apply_bracketed base' brackets <= _apply_bracketed base brackets + (base' - base) /\
  forall gross gross', (0 <= gross <= gross')%Z ->
    (gross - _quantize (_apply_bracketed (of_cents gross) brackets)
     <= gross' - _quantize (_apply_bracketed (of_cents gross') brackets))%Z.
Proof.
  intros Hp H0 Hb.
  assert (Hstep : forall x y, 0 <= x -> x <= y ->
    _apply_bracketed x brackets <= _apply_bracketed y brackets /\
    _apply_bracketed y brackets <= _apply_bracketed x brackets + (y - x)).
  { intros x y Hx Hxy. unfold _apply_bracketed. rewrite !bracketed_from_slices by done.
    destruct (slices_step x y 0 brackets Hxy Hp) as [Hs0 Hs1].
    assert (E : Qmax y 0 - Qmax x 0 == y - x) by (q_cases; lra). rewrite E in Hs1. split; lra. }
  destruct (Hstep base base' H0 Hb) as [H1 H2]. split_and!; [|done|done|].
  - unfold _apply_bracketed. rewrite bracketed_from_slices by done. ring.
  - intros g g' [Hg Hle].
    assert (G : 0 <= of_cents g /\ of_cents g <= of_cents g' /\ of_cents g' - of_cents g == (g' - g) # 100).
    { unfold of_cents, Qle, Qeq. simpl. split_and!; lia. }
    destruct G as (G0 & G1 & G2). destruct (Hstep _ _ G0 G1) as [_ H3]. rewrite G2 in H3.
    assert (Hg' : 0 <= of_cents g') by lra.
    pose proof (quantize_step _ _ (g' - g) (bracketed_nonneg _ _ Hp Hg') (bracketed_nonneg _ _ Hp G0) ltac:(lia) H3).
    lia.
Qed.

Lemma apply_bracketed_progressive_witness :
  let bs := [{| upto := Some 500; bracket_percent := 10 |}; {| upto := None; bracket_percent := 25 |}] in
  _apply_bracketed 1390 bs == 545 # 2 /\
  _apply_bracketed 400 bs <= _apply_bracketed 1390 bs /\
  (50003 - 5001 <= 50004 - _quantize (_apply_bracketed (of_cents 50004) bs))%Z.
Proof.
  intros bs. split; [by vm_compute|].
  assert (Hp : progressive 0 bs) by (simpl; repeat split; by vm_compute).
  assert (H0 : 0 <= 400) by (by vm_compute). assert (H1 : 400 <= 1390) by (by vm_compute).
  destruct (apply_bracketed_progressive bs 400 1390 Hp H0 H1) as (_ & H2 & _ & H3).
  split; [exact H2|]. exact (H3 50003 50004 ltac:(lia))%Z.
Defined.

#[local] Close Scope Q_scope.

(** ** Overtime *)

Lemma earn_segment_no_overtime p days hours s acc acc' :
  (hours <= threshold_hours_per_period p)%Q ->
  earn_segment (Some p) days hours s acc = inr acc' ->
  e_overtime acc' = e_overtime acc /\
  exists l, e_lines acc' = e_lines acc ++ [l] /\ earning_type l = "REGULAR"%string.
Proof.
  intros Hh. unfold earn_segment. destruct (String.eqb _ "HOURLY").
  - destruct (split_hours _ _ _) as [r o] eqn:E.
    assert (Ho : Qle_bool o 0 = true).
    { apply Qle_bool_iff. unfold split_hours in E.
      destruct (overtime_eligible _); injection E as <- <-; [q_cases; lra|apply Qle_refl]. }
    rewrite Ho. simpl. intros [= <-]. simpl. split; [done|]. by eexists.
  - destruct (String.eqb _ "SALARY"); [|done]. intros [= <-]. simpl. split; [done|]. by eexists.
Qed.

Lemma earn_no_overtime p days att i ordered acc acc' :
  (0 <= threshold_hours_per_period p)%Q ->
  (forall k h, dict_get k att = Some h -> (h <= threshold_hours_per_period p)%Q) ->
  earn (Some p) days att i ordered acc = inr acc' ->
  e_overtime acc' = e_overtime acc /\
  exists ls, e_lines acc' = e_lines acc ++ ls /\
    Forall (fun l => earning_type l = "REGULAR"%string) ls.
Proof.
  intros Ht Hatt. revert i acc. induction ordered as [|s ordered IH]; intros i acc; simpl.
  - intros [= <-]. split; [done|]. exists []. by rewrite app_nil_r.
  - intros (acc1 & H1 & H)%bind_inr.
    apply earn_segment_no_overtime in H1 as (E1 & l & El & Hl).
    + apply IH in H as (E2 & ls & Els & Hls). rewrite E2, Els, El, <- app_assoc.
      split; [done|]. exists (l :: ls). split; [done|by constructor].
    + destruct (dict_get i att) as [h|] eqn:E; simpl; [by eapply Hatt|done].
Qed.

(** The threshold named hours-per-period is applied to each compensation
    segment on its own: if no single segment exceeds it, nothing is overtime,
    however far the hours of the whole period exceed it. *)
Theorem overtime_threshold_per_segment segments ps pe att p configs r :
  (0 <= threshold_hours_per_period p)%Q ->
  (forall k h, dict_get k att = Some h -> (h <= threshold_hours_per_period p)%Q) ->
  calculate_employee_pay segments ps pe att (Some p) configs = inr r ->
  overtime_hours r = 0%Q /\
  forall l, l ∈ earning_lines r -> earning_type l = "REGULAR"%string.
Proof.
  intros Ht Hatt. unfold calculate_employee_pay. intros (ordered & _ & H)%bind_inr.
  apply bind_inr in H as (earned & He & H). apply bind_inr in H as (lines & _ & H).
  injection H as <-. simpl.
  apply earn_no_overtime in He as (E & ls & El & Hls); [|done..]. simpl in *.
  rewrite E, El. split; [done|]. by apply Forall_forall.
Qed.

(** 30 and 35 hours around a rate change, threshold 40: 65 regular hours. *)
Lemma overtime_threshold_per_segment_witness :
  exists r, calculate_employee_pay demo_segments 100 120 [(0, 30%Q); (1, 35%Q)] (Some demo_policy) []
            = inr r /\ (regular_hours r == 65)%Q /\ overtime_hours r = 0%Q.
Proof.
  eexists. split; [reflexivity|]. split; [by vm_compute|].
  refine (proj1 (overtime_threshold_per_segment demo_segments 100 120 [(0, 30%Q); (1, 35%Q)] demo_policy
            [] _ _ _ eq_refl)).
  - by vm_compute.
  - intros k h Hk. apply dict_get_elem in Hk.
    assert (Hh : h = 30%Q \/ h = 35%Q).
    { apply elem_of_cons in Hk as [[= -> ->]|Hk]; [by left|].
      apply list_elem_of_singleton in Hk as [= -> ->]. by right. }
    destruct Hh as [->| ->]; by vm_compute.
Defined.
