(* ===== verification/PayPeriods.v ===== *)
(** * Payroll periods

    app/modules/payroll/service.py: one store's payroll for a range of dates goes
    DRAFT, OPEN, CALCULATED, APPROVED, POSTED, or is cancelled before it is
    posted.  A calculation gathers the compensation history, the closed shifts
    and the deduction rates, runs the engine of [Payroll] for every employee
    assigned to the store, and replaces the period's results; posting writes one
    journal entry, a reversal its mirror.

    A hand-off between [Decimal]s is exact here: the quotient of
    [_sum_attendance_hours] is a rational, not rounded to 28 digits. *)

From Stdlib Require Import QArith.
From S2P Require Import Prelude Fixed Session Schema Tables Platform EffectiveDated Workforce.
From S2P Require Import Chart Fixture Journal Posting Payroll.

#[local] Open Scope Z_scope.

(** ** The life cycle *)

Definition _CANCELLABLE_STATUSES : list PayrollPeriodStatus :=
  [PP_DRAFT; PP_OPEN; PP_CALCULATED; PP_APPROVED].

Definition _CALCULABLE_STATUSES : list PayrollPeriodStatus := [PP_OPEN; PP_CALCULATED].

Definition invalid_period_state : exn := ConflictError "INVALID_PERIOD_STATE".

Record PayrollPeriodInput := {
  ppi_store_id : Z;
  ppi_period_start : Z;
  ppi_period_end : Z;
  ppi_pay_date : Z;
  ppi_payroll_run_id : option string;
}.

Definition new_payroll_period (data : PayrollPeriodInput) : PayrollPeriod :=
  mkPayPeriod (ppi_store_id data) (ppi_payroll_run_id data) (ppi_period_start data)
    (ppi_period_end data) (ppi_pay_date data) PP_DRAFT None None None None None None None None None
    0 0 0 0.

Definition create_payroll_period (data : PayrollPeriodInput) (actor_id caller_store_id : option Z)
    : Tx Z := committing (
  _ ← enforce_store_access caller_store_id (ppi_store_id data);
  _ ← raise_if (ppi_period_end data <? ppi_period_start data) (ValidationAppError "INVALID_PERIOD_RANGE");
  _ ← raise_if (ppi_pay_date data <? ppi_period_end data) (ValidationAppError "INVALID_PAY_DATE");
  period_id ← or_conflict "DUPLICATE_PAYROLL_PERIOD"
    (add (new_payroll_period data));
  _ ← log_event actor_id "PAYROLL_PERIOD_CREATED" "payroll_period" (Some period_id);
  mret period_id).

Definition get_payroll_period (payroll_period_id : Z) : Tx PayrollPeriod :=
  found ← get payroll_period_id;
  of_option found NotFoundError.

Definition _lock_payroll_period (payroll_period_id : Z) : Tx PayrollPeriod :=
  get_payroll_period payroll_period_id.

Definition period_order (a b : Z * PayrollPeriod) : bool :=
  (pp_store_id a.2 <? pp_store_id b.2)
  || ((pp_store_id a.2 =? pp_store_id b.2) && (pp_start b.2 <=? pp_start a.2)).

Definition list_payroll_periods (caller_store_id : option Z) (status : option PayrollPeriodStatus)
    : Tx (list (Z * PayrollPeriod)) :=
  rows ← query (fun _ p => opt_all (Z.eqb (pp_store_id p)) caller_store_id
                           && opt_all (fun st => bool_decide (pp_status p = st)) status);
  mret (sort_by period_order rows).

(** The attributes each transition assigns. *)
Definition with_pp_status (st : PayrollPeriodStatus) (p : PayrollPeriod) : PayrollPeriod :=
  mkPayPeriod (pp_store_id p) (payroll_run_id p) (pp_start p) (pp_end p) (pay_date p) st
    (calculation_client_transaction_id p) (calculated_by p) (calculated_at p)
    (pp_approved_by p) (pp_approved_at p) (posting_client_transaction_id p) (pp_journal_entry_id p)
    (pp_posted_by p) (pp_posted_at p)
    (pp_gross p) (pp_deductions p) (pp_employer_contributions p) (pp_net_pay p).

Definition period_approved (actor now : Z) (p : PayrollPeriod) : PayrollPeriod :=
  mkPayPeriod (pp_store_id p) (payroll_run_id p) (pp_start p) (pp_end p) (pay_date p) PP_APPROVED
    (calculation_client_transaction_id p) (calculated_by p) (calculated_at p)
    (Some actor) (Some now) (posting_client_transaction_id p) (pp_journal_entry_id p)
    (pp_posted_by p) (pp_posted_at p)
    (pp_gross p) (pp_deductions p) (pp_employer_contributions p) (pp_net_pay p).

Definition period_calculated (actor now : Z) (key : option string) (totals : PayrollTotals)
    (p : PayrollPeriod) : PayrollPeriod :=
  mkPayPeriod (pp_store_id p) (payroll_run_id p) (pp_start p) (pp_end p) (pay_date p) PP_CALCULATED
    key (Some actor) (Some now) (pp_approved_by p) (pp_approved_at p)
    (posting_client_transaction_id p) (pp_journal_entry_id p) (pp_posted_by p) (pp_posted_at p)
    (gross_pay totals) (total_deductions totals) (total_employer_contributions totals) (net_pay totals).

Definition period_posted (actor now journal_entry_id : Z) (key : option string) (p : PayrollPeriod)
    : PayrollPeriod :=
  mkPayPeriod (pp_store_id p) (payroll_run_id p) (pp_start p) (pp_end p) (pay_date p) PP_POSTED
    (calculation_client_transaction_id p) (calculated_by p) (calculated_at p)
    (pp_approved_by p) (pp_approved_at p) key (Some journal_entry_id) (Some actor) (Some now)
    (pp_gross p) (pp_deductions p) (pp_employer_contributions p) (pp_net_pay p).

Definition open_payroll_period (payroll_period_id : Z) (actor_id caller_store_id : option Z) : Tx Z :=
  period ← _lock_payroll_period payroll_period_id;
  _ ← enforce_store_access caller_store_id (pp_store_id period);
  if bool_decide (pp_status period = PP_OPEN) then mret payroll_period_id
  else committing (
    _ ← raise_if (negb (bool_decide (pp_status period = PP_DRAFT))) invalid_period_state;
    _ ← update payroll_period_id (with_pp_status PP_OPEN);
    _ ← log_event actor_id "PAYROLL_PERIOD_OPENED" "payroll_period" (Some payroll_period_id);
    mret payroll_period_id).

(** A shift in the period's store and dates that was updated after the calculation. *)
Definition stale_attendance (p : PayrollPeriod) (calculated : Z) (r : AttendanceRecord) : bool :=
  (ar_store_id r =? pp_store_id p) && (pp_start p <=? work_date r) && (work_date r <=? pp_end p)
  && match ar_updated_at r with Some u => calculated <? u | None => false end.

Definition approve_payroll_period (payroll_period_id : Z) (actor_id caller_store_id : option Z) : Tx Z :=
  period ← _lock_payroll_period payroll_period_id;
  _ ← enforce_store_access caller_store_id (pp_store_id period);
  if bool_decide (pp_status period = PP_APPROVED) then mret payroll_period_id
  else committing (
    _ ← raise_if (negb (bool_decide (pp_status period = PP_CALCULATED))) invalid_period_state;
    actor ← of_option actor_id (ValidationAppError "ACTOR_REQUIRED");
    calculated ← of_option (calculated_at period) (ConflictError "MISSING_CALCULATION_TIMESTAMP");
    stale ← query (fun _ r => stale_attendance period calculated r);
    _ ← raise_if (negb (bool_decide (length stale = 0%nat))) (ConflictError "STALE_CALCULATION");
    now ← datetime_now_utc;
    _ ← update payroll_period_id (period_approved actor now);
    _ ← log_event actor_id "PAYROLL_PERIOD_APPROVED" "payroll_period" (Some payroll_period_id);
    mret payroll_period_id).

Definition cancel_payroll_period (payroll_period_id : Z) (reason : string)
    (actor_id caller_store_id : option Z) : Tx Z :=
  _ ← raise_if (blank reason) (ValidationAppError "CANCELLATION_REASON_REQUIRED");
  period ← _lock_payroll_period payroll_period_id;
  _ ← enforce_store_access caller_store_id (pp_store_id period);
  if bool_decide (pp_status period = PP_CANCELLED) then mret payroll_period_id
  else committing (
    _ ← raise_if (negb (bool_decide (pp_status period ∈ _CANCELLABLE_STATUSES))) invalid_period_state;
    _ ← update payroll_period_id (with_pp_status PP_CANCELLED);
    _ ← log_event actor_id "PAYROLL_PERIOD_CANCELLED" "payroll_period" (Some payroll_period_id);
    mret payroll_period_id).

(** ** The inputs of a calculation *)

Definition in_range (period_start period_end from : Z) (to : option Z) : bool :=
  (from <=? period_end) && upto_opt period_start to.

(** [SELECT DISTINCT employee_id], in no particular order. *)
Definition employees_assigned (d : database) (store_id period_start period_end : Z) : list Z :=
  remove_dups (map (fun a => ea_employee_id a.2)
    (select (fun _ a => (ea_store_id a =? store_id)
                        && in_range period_start period_end (ea_from a) (ea_to a)) (assignments d))).

Definition compensation_segments (d : database) (employee_id period_start period_end : Z)
    : list (Z * Z * CompensationPeriod) :=
  map (fun c => (Z.max (cp_from c) period_start,
                 match cp_to c with Some t => Z.min t period_end | None => period_end end, c))
    (sort_by (fun a b => cp_from a <=? cp_from b)
      (map snd (select (fun _ c => (cp_employee_id c =? employee_id)
                                   && in_range period_start period_end (cp_from c) (cp_to c))
        (compensations d)))).

(** [clock_out_at - clock_in_at] of a closed shift, in microseconds. *)
Definition shift_length (r : AttendanceRecord) : Z :=
  match clock_out_at r with Some o => o - clock_in_at r | None => 0 end.

Definition attended (employee_id store_id seg_start seg_end : Z) (r : AttendanceRecord) : bool :=
  (ar_employee_id r =? employee_id) && (ar_store_id r =? store_id)
  && (seg_start <=? work_date r) && (work_date r <=? seg_end)
  && bool_decide (ar_status r = ATT_CLOSED).

Definition sum_attendance_hours (d : database) (employee_id store_id seg_start seg_end : Z) : Q :=
  sum_where (attended employee_id store_id seg_start seg_end) shift_length (attendance_records d)
    # Z.to_pos microseconds_per_hour.

Definition _resolve_overtime_policy (as_of : Z) : Tx (option OvertimePolicyInput) :=
  found ← find_by (fun p => (otp_from p <=? as_of) && upto_opt as_of (otp_to p));
  mret ((fun p : Z * OvertimePolicy =>
           {| threshold_hours_per_period := otp_threshold_hours p.2 # 100;
              multiplier := otp_multiplier p.2 # 100 |}) <$> found).

(** The rates in force joined with their active types. *)
Definition deduction_configs (d : database) (as_of : Z) : list DeductionConfigInput :=
  omap (fun r =>
    if (dr_from r <=? as_of) && upto_opt as_of (dr_to r) then
      match row_of (deduction_types d) (dr_type_id r) with
      | Some t =>
          if deduction_is_active t
          then Some {| deduction_type_id := dr_type_id r;
                       is_employer_contribution :=
                         bool_decide (deduction_category t = DC_EMPLOYER_CONTRIBUTION);
                       calculation_method := dr_calculation_method r;
                       parameters := dr_parameters r |}
          else None
      | None => None
      end
    else None) (deduction_rates d).

Definition _resolve_assignment_as_of (employee_id as_of : Z) : Tx (option (Z * EmploymentAssignment)) :=
  find_by (fun a => (ea_employee_id a =? employee_id) && (ea_from a <=? as_of) && upto_opt as_of (ea_to a)).

Definition engine_segment (s : Z * Z * CompensationPeriod) : CompensationSegment :=
  {| Payroll.seg_start := s.1.1; Payroll.seg_end := s.1.2;
     compensation := {| pay_type := cp_pay_type s.2; rate := cp_rate s.2 # 10000;
                        overtime_eligible := cp_overtime_eligible s.2 |} |}.

(** [attendance_hours], keyed by the index of the segment. *)
Definition attendance_hours (d : database) (employee_id store_id : Z)
    (segments : list (Z * Z * CompensationPeriod)) : list (Z * Q) :=
  imap (fun i (s : Z * Z * CompensationPeriod) =>
          (Z.of_nat i, sum_attendance_hours d employee_id store_id s.1.1 s.1.2)) segments.

Definition pay_of (d : database) (p : PayrollPeriod) (policy : option OvertimePolicyInput)
    (employee_id : Z) : R CalculationResult :=
  let segments := compensation_segments d employee_id (pp_start p) (pp_end p) in
  calculate_employee_pay (map engine_segment segments) (pp_start p) (pp_end p)
    (attendance_hours d employee_id (pp_store_id p) segments) policy (deduction_configs d (pp_end p)).

(** How the service answers the engine's exceptions. *)
Definition pay_exception (e : pay_error) : exn :=
  match e with
  | MissingCompensationCoverageError => ConflictError "MISSING_COMPENSATION_COVERAGE"
  | UnknownValue => ValueError
  | MissingParameter => KeyError
  end.

Definition of_result {A} (r : R A) : Tx A :=
  match r with inl e => raise (pay_exception e) | inr a => mret a end.

(** ** Calculation *)

Definition live_results (payroll_period_id : Z) (r : PayrollEmployeeResult) : bool :=
  negb (per_deleted r) && (per_period_id r =? payroll_period_id).

Definition deleted_result (r : PayrollEmployeeResult) : PayrollEmployeeResult :=
  mkPayResult (per_period_id r) (per_employee_id r) (per_status r) (per_store_id r)
    (per_department_id r) (per_position_id r) (per_pay_type r) (per_pay_rate r) (per_currency r)
    (per_regular_hours r) (per_overtime_hours r) (per_gross_pay r) (per_deductions r)
    (per_employer_contributions r) (per_net_pay r) true.

(** [DELETE FROM ... WHERE id IN existing_result_ids], the lines first. *)
Definition delete_results (payroll_period_id : Z) : Tx unit :=
  existing ← query (fun _ r => live_results payroll_period_id r);
  let ids := map fst (existing : list (Z * PayrollEmployeeResult)) in
  _ ← modify (over_payroll_earnings (map (fun l =>
        if bool_decide (pel_result_id l ∈ ids)
        then mkEarningLine (pel_result_id l) (pel_type l) (pel_hours l) (pel_rate l) (pel_amount l) true
        else l)));
  _ ← modify (over_payroll_deductions (map (fun l =>
        if bool_decide (pdl_result_id l ∈ ids)
        then mkDeductionLine (pdl_result_id l) (pdl_type_id l) (pdl_is_employer_contribution l)
               (pdl_amount l) true
        else l)));
  modify (over_payroll_results (map (fun r =>
    if live_results payroll_period_id r then deleted_result r else r))).

(** [_quantize] rounds to hundredths: the scale of NUMERIC(8,2). *)
Definition earning_row (result_id : Z) (l : EarningLineResult) : PayrollEarningLine :=
  mkEarningLine result_id (earning_type l) (_quantize <$> el_hours l)
    (Some (stored_rate (el_rate l))) (el_amount l) false.

Definition deduction_row (result_id : Z) (l : DeductionLineResult) : PayrollDeductionLine :=
  mkDeductionLine result_id (dl_type_id l) (dl_is_employer_contribution l) (dl_amount l) false.

(** The lines of a result wait in the session until the next flush. *)
Definition flush_lines (pending : option (Z * CalculationResult)) : Tx unit :=
  match pending with
  | None => mret tt
  | Some (result_id, calc) =>
      _ ← for_each (fun l => _ ← add (earning_row result_id l); mret tt) (earning_lines calc);
      for_each (fun l => _ ← add (deduction_row result_id l); mret tt) (deduction_lines calc)
  end.

Record Tally := {
  tally_totals : PayrollTotals;
  tally_pending : option (Z * CalculationResult);
}.

Definition no_pay : PayrollTotals :=
  {| gross_pay := 0; total_deductions := 0; total_employer_contributions := 0; net_pay := 0 |}.

Definition add_pay (t : PayrollTotals) (c : CalculationResult) : PayrollTotals :=
  {| gross_pay := gross_pay t + r_gross_pay c;
     total_deductions := total_deductions t + r_total_deductions c;
     total_employer_contributions := total_employer_contributions t + r_total_employer_contributions c;
     net_pay := net_pay t + r_net_pay c |}.

Definition new_result (period_id : Z) (p : PayrollPeriod) (employee_id : Z) (last_comp : CompensationPeriod)
    (assignment : option (Z * EmploymentAssignment)) (c : CalculationResult) : PayrollEmployeeResult :=
  mkPayResult period_id employee_id RESULT_DRAFT (pp_store_id p)
    (assignment ≫= fun a => ea_department_id a.2) (assignment ≫= fun a => ea_position_id a.2)
    (cp_pay_type last_comp) (cp_rate last_comp) (cp_currency last_comp)
    (_quantize (regular_hours c)) (_quantize (overtime_hours c)) (r_gross_pay c)
    (r_total_deductions c) (r_total_employer_contributions c) (r_net_pay c) false.

(** One round of the loop over [employee_ids]; coverage implies a last segment. *)
Definition calculate_employee (period_id : Z) (p : PayrollPeriod) (policy : option OvertimePolicyInput)
    (acc : Tally) (employee_id : Z) : Tx Tally :=
  segments ← gets (fun d => compensation_segments d employee_id (pp_start p) (pp_end p));
  pay ← gets (fun d => pay_of d p policy employee_id);
  calc ← of_result pay;
  last_segment ← of_option (last segments) KeyError;
  assignment ← _resolve_assignment_as_of employee_id (pp_end p);
  _ ← flush_lines (tally_pending acc);
  result_id ← add (new_result period_id p employee_id (snd last_segment) assignment calc);
  mret {| tally_totals := add_pay (tally_totals acc) calc; tally_pending := Some (result_id, calc) |}.

(** The period of an already answered request with this key. *)
Definition answered (key : PayrollPeriod -> option string) (payroll_period_id : Z)
    (client_transaction_id : option string) : Tx bool :=
  match client_transaction_id with
  | None => mret false
  | Some _ =>
      found ← query (fun i p => (i =? payroll_period_id)
                                && bool_decide (key p = client_transaction_id));
      existing ← scalar_one_or_none found;
      mret (opt_some existing)
  end.

Definition calculate_payroll_period (payroll_period_id : Z) (actor_id caller_store_id : option Z)
    (client_transaction_id : option string) : Tx Z :=
  actor ← of_option actor_id (ValidationAppError "ACTOR_REQUIRED");
  done_before ← answered calculation_client_transaction_id payroll_period_id client_transaction_id;
  if done_before : bool then mret payroll_period_id
  else committing (
    period ← _lock_payroll_period payroll_period_id;
    _ ← enforce_store_access caller_store_id (pp_store_id period);
    _ ← raise_if (negb (bool_decide (pp_status period ∈ _CALCULABLE_STATUSES))) invalid_period_state;
    _ ← delete_results payroll_period_id;
    policy ← _resolve_overtime_policy (pp_end period);
    employee_ids ← gets (fun d => employees_assigned d (pp_store_id period) (pp_start period) (pp_end period));
    tally ← fold_m (calculate_employee payroll_period_id period policy) employee_ids
              {| tally_totals := no_pay; tally_pending := None |};
    now ← datetime_now_utc;
    _ ← or_conflict "DUPLICATE_CALCULATION_REQUEST"
          (_ ← flush_lines (tally_pending tally);
           update payroll_period_id
             (period_calculated actor now client_transaction_id (tally_totals tally)));
    _ ← log_event actor_id "PAYROLL_PERIOD_CALCULATED" "payroll_period" (Some payroll_period_id);
    mret payroll_period_id).

Definition list_payroll_employee_results (payroll_period_id : Z) : Tx (list (Z * PayrollEmployeeResult)) :=
  rows ← query (fun _ r => live_results payroll_period_id r);
  mret (sort_by (fun a b => per_employee_id a.2 <=? per_employee_id b.2) rows).

(** ** Posting and reversal *)

Definition totals_of (r : PayrollEmployeeResult) : PayrollTotals :=
  {| gross_pay := per_gross_pay r; total_deductions := per_deductions r;
     total_employer_contributions := per_employer_contributions r; net_pay := per_net_pay r |}.

Definition final_result (r : PayrollEmployeeResult) : PayrollEmployeeResult :=
  mkPayResult (per_period_id r) (per_employee_id r) RESULT_FINAL (per_store_id r)
    (per_department_id r) (per_position_id r) (per_pay_type r) (per_pay_rate r) (per_currency r)
    (per_regular_hours r) (per_overtime_hours r) (per_gross_pay r) (per_deductions r)
    (per_employer_contributions r) (per_net_pay r) (per_deleted r).

Definition post_payroll_period (payroll_period_id : Z) (actor_id caller_store_id : option Z)
    (client_transaction_id : option string) : Tx Z :=
  done_before ← answered posting_client_transaction_id payroll_period_id client_transaction_id;
  if done_before : bool then mret payroll_period_id
  else
    period ← _lock_payroll_period payroll_period_id;
    _ ← enforce_store_access caller_store_id (pp_store_id period);
    if bool_decide (pp_status period = PP_POSTED) then mret payroll_period_id
    else committing (
      _ ← raise_if (negb (bool_decide (pp_status period = PP_APPROVED))) invalid_period_state;
      actor ← of_option actor_id (ValidationAppError "ACTOR_REQUIRED");
      results ← list_payroll_employee_results payroll_period_id;
      _ ← raise_if (bool_decide (length results = 0%nat)) (ConflictError "NO_CALCULATED_RESULTS");
      entry ← post_payroll_journal payroll_period_id (pp_store_id period) (pay_date period)
                (map (fun r => totals_of r.2) results) (Some actor);
      journal_entry_id ← of_option entry AttributeError;
      now ← datetime_now_utc;
      _ ← or_conflict "DUPLICATE_POSTING_REQUEST"
            (_ ← update payroll_period_id (period_posted actor now journal_entry_id client_transaction_id);
             for_each (fun r => update (R := PayrollEmployeeResult) r.1 final_result) results);
      _ ← log_event actor_id "PAYROLL_PERIOD_POSTED" "payroll_period" (Some payroll_period_id);
      mret payroll_period_id).

Definition reversal_of (payroll_period_id : Z) (r : PayrollReversal) : bool :=
  prv_period_id r =? payroll_period_id.

Definition reverse_payroll_period (payroll_period_id : Z) (reason : string)
    (actor_id caller_store_id : option Z) : Tx Z :=
  _ ← raise_if (blank reason) (ValidationAppError "REVERSAL_REASON_REQUIRED");
  period ← _lock_payroll_period payroll_period_id;
  _ ← enforce_store_access caller_store_id (pp_store_id period);
  _ ← raise_if (negb (bool_decide (pp_status period = PP_POSTED))) invalid_period_state;
  actor ← of_option actor_id (ValidationAppError "ACTOR_REQUIRED");
  existing ← find_by (reversal_of payroll_period_id);
  match existing with
  | Some _ => mret payroll_period_id
  | None => committing (
      results ← list_payroll_employee_results payroll_period_id;
      entry ← post_payroll_reversal_journal payroll_period_id (pp_store_id period)
                (map (fun r => totals_of r.2) results) (Some actor);
      journal_entry_id ← of_option entry AttributeError;
      now ← datetime_now_utc;
      _ ← or_conflict "ALREADY_REVERSED"
            (add {| prv_period_id := payroll_period_id; prv_journal_entry_id := journal_entry_id;
                    prv_reason := reason; prv_reversed_by := actor; prv_reversed_at := now |});
      _ ← log_event actor_id "PAYROLL_PERIOD_REVERSED" "payroll_period" (Some payroll_period_id);
      mret payroll_period_id)
  end.

(** ** The operations *)

Inductive payroll_op :=
  | PR_create (data : PayrollPeriodInput) (actor caller : option Z)
  | PR_open (period : Z) (actor caller : option Z)
  | PR_calculate (period : Z) (actor caller : option Z) (key : option string)
  | PR_approve (period : Z) (actor caller : option Z)
  | PR_cancel (period : Z) (reason : string) (actor caller : option Z)
  | PR_post (period : Z) (actor caller : option Z) (key : option string)
  | PR_reverse (period : Z) (reason : string) (actor caller : option Z).

Definition run_payroll_op (op : payroll_op) : Tx Z :=
  match op with
  | PR_create d a c => create_payroll_period d a c
  | PR_open i a c => open_payroll_period i a c
  | PR_calculate i a c k => calculate_payroll_period i a c k
  | PR_approve i a c => approve_payroll_period i a c
  | PR_cancel i r a c => cancel_payroll_period i r a c
  | PR_post i a c k => post_payroll_period i a c k
  | PR_reverse i r a c => reverse_payroll_period i r a c
  end.
