(* ===== verification/PayPeriodOps.v ===== *)
(** * What the payroll operations write

    The effect of each operation of [PayPeriods] that succeeds, as a relation
    between the database before and after; for a calculation, that the new
    results are one per assigned employee, each what the engine says. *)

From Stdlib Require Import QArith.
From S2P Require Import Prelude Fixed Session Schema Tables Platform EffectiveDated Workforce.
From S2P Require Import WorkforceInvariant Chart Fixture Journal Posting Books Payroll PayPeriods.

#[local] Open Scope Z_scope.

(** Every table but those of the results; the audit trail apart. *)
Definition beside_results (d : database) :=
  (directory_tables d, catalog_tables d, ledger_tables d, stock_tables d, selling_tables d,
   tills_tables d, fiscal_tables d, purchasing_tables d, payables_tables d, transit_tables d,
   people_tables d, deduction_types d, deduction_rates d, payroll_periods d, payroll_reversals d).

(** ** Small steps *)

Lemma get_payroll_period_ok i s p s' :
  get_payroll_period i s = (Ok p, s') -> row_of (payroll_periods (working s)) i = Some p /\ s' = s.
Proof.
  unfold get_payroll_period. intros H. peel H with get_ok as [-> <-]. by apply of_option_ok in H as [H <-].
Qed.

Lemma get_payroll_period_fixes {X} (f : session database -> X) i : fixes f (get_payroll_period i).
Proof. unfold get_payroll_period. solve_fixes. Qed.

Lemma answered_ok key i k s b s' :
  answered key i k s = (Ok b, s') ->
  s' = s /\ (b = true -> exists c p, k = Some c /\ row_of (payroll_periods (working s)) i = Some p /\
                                     key p = Some c).
Proof.
  unfold answered. destruct k as [c|]; intros H; [|by apply ret_ok in H as [<- <-]].
  peel H with query_ok as [-> <-]. apply bind_ok in H as (o & s2 & E & H).
  apply scalar_one_or_none_ok in E as [<- Ho]. apply ret_ok in H as [<- <-]. split; [done|].
  destruct o as [[j p]|]; [|done]. intros _.
  assert ((j, p) ∈ select (fun i0 p => (i0 =? i) && bool_decide (key p = Some c)) (payroll_periods (working s)))
    as [Hj Hk]%elem_select by (simpl in *; rewrite Ho; set_solver).
  bools. subst j. eauto.
Qed.

Lemma answered_fixes {X} (f : session database -> X) key i k : fixes f (answered key i k).
Proof. unfold answered. solve_fixes. Qed.

#[export] Hint Resolve get_payroll_period_fixes answered_fixes : fixes.
#[export] Hint Extern 2 (fixes _ (of_result ?r)) => (destruct r; unfold of_result) : fixes.

Lemma of_result_ok {A} (r : R A) s a s' : of_result r s = (Ok a, s') -> r = inr a /\ s' = s.
Proof. destruct r as [e|x]; simpl; intros H; [by apply raise_ok in H|]. by apply ret_ok in H as [-> <-]. Qed.

Lemma flush_lines_fixes {X} (f : session database -> X) pending :
  (forall g s, f (with_working (over_payroll_earnings g (working s)) s) = f s) ->
  (forall g s, f (with_working (over_payroll_deductions g (working s)) s) = f s) ->
  fixes f (flush_lines pending).
Proof.
  intros H1 H2. destruct pending as [[i c]|]; simpl; [|apply fixes_ret].
  apply fixes_bind; [|intros _]; apply fixes_for_each; intros l; (apply fixes_bind; [by apply add_fixes|]);
    intros; apply fixes_ret.
Qed.

(** ** Calculation *)

(** What a calculation does to the rows it replaces. *)
Definition superseded_results (i : Z) (t : list PayrollEmployeeResult) : list PayrollEmployeeResult :=
  map (fun r => if live_results i r then deleted_result r else r) t.

Lemma delete_results_ok i s u s' :
  delete_results i s = (Ok u, s') ->
  payroll_results (working s') = superseded_results i (payroll_results (working s)) /\
  beside_results (working s') = beside_results (working s) /\ committed s' = committed s.
Proof.
  unfold delete_results. intros H. peel H with query_ok as [-> <-].
  do 2 peel H with modify_ok as ->. by apply modify_ok in H as ->.
Qed.

(** The overtime policy of a day. *)
Definition policy_in_force (d : database) (day : Z) : option OvertimePolicyInput :=
  match select (fun _ p => (otp_from p <=? day) && upto_opt day (otp_to p)) (overtime_policies d) with
  | [(_, p)] => Some {| threshold_hours_per_period := otp_threshold_hours p # 100;
                        multiplier := otp_multiplier p # 100 |}
  | _ => None
  end.

Lemma resolve_overtime_policy_ok day s o s' :
  _resolve_overtime_policy day s = (Ok o, s') -> s' = s /\ o = policy_in_force (working s) day.
Proof.
  unfold _resolve_overtime_policy. intros H. apply bind_ok in H as (x & s1 & E & H).
  apply find_by_ok in E as [-> Ho]. apply ret_ok in H as [<- <-]. split; [done|].
  unfold policy_in_force. simpl in Ho. rewrite Ho. by destruct x as [[j p]|].
Qed.

(** The row of employee [e], from the tables as they are in [d]. *)
Definition result_of (d : database) (i : Z) (p : PayrollPeriod) (policy : option OvertimePolicyInput)
    (e : Z) (r : PayrollEmployeeResult) : Prop :=
  exists c last_segment assignment,
    pay_of d p policy e = inr c /\
    last (compensation_segments d e (pp_start p) (pp_end p)) = Some last_segment /\
    select (fun _ a => (ea_employee_id a =? e) && (ea_from a <=? pp_end p) && upto_opt (pp_end p) (ea_to a))
      (assignments d) = match assignment with Some a => [a] | None => [] end /\
    r = new_result i p e last_segment.2 assignment c.

Lemma result_of_ext d d' i p policy e r :
  people_tables d' = people_tables d -> deduction_types d' = deduction_types d ->
  deduction_rates d' = deduction_rates d -> result_of d' i p policy e r -> result_of d i p policy e r.
Proof.
  unfold result_of, pay_of, attendance_hours, sum_attendance_hours, deduction_configs, compensation_segments.
  intros -> -> ->. done.
Qed.

Definition sum_pay (rows : list PayrollEmployeeResult) : PayrollTotals :=
  {| gross_pay := sum_by per_gross_pay rows; total_deductions := sum_by per_deductions rows;
     total_employer_contributions := sum_by per_employer_contributions rows;
     net_pay := sum_by per_net_pay rows |}.

(** The checks of the results table. *)
Definition amounts_ok (r : PayrollEmployeeResult) : Prop :=
  0 <= per_gross_pay r /\ 0 <= per_deductions r /\ 0 <= per_net_pay r /\
  per_net_pay r = per_gross_pay r - per_deductions r.

Lemma result_amounts_ok d r : row_valid d r -> amounts_ok r.
Proof.
  unfold row_valid. simpl. rewrite !Forall_cons. simpl. unfold amounts_ok.
  intros (_ & _ & _ & _ & _ & _ & _ & H1 & H2 & H3 & H4 & _). lia.
Qed.

Definition same_result (a b : PayrollEmployeeResult) : bool :=
  negb (per_deleted a) && negb (per_deleted b)
  && (per_period_id a =? per_period_id b) && (per_employee_id a =? per_employee_id b).

Lemma same_result_sym a b : same_result a b = same_result b a.
Proof.
  unfold same_result. rewrite (Z.eqb_sym (per_period_id a)), (Z.eqb_sym (per_employee_id a)).
  by destruct (per_deleted a), (per_deleted b).
Qed.

Lemma result_index : ("uq_payroll_employee_results_period_employee"%string, same_result)
  ∈ (uniques (R := PayrollEmployeeResult) :
       list (string * (PayrollEmployeeResult -> PayrollEmployeeResult -> bool))).
Proof. simpl. set_solver. Qed.

Lemma calculate_employee_ok i p policy acc e s acc' s' :
  calculate_employee i p policy acc e s = (Ok acc', s') ->
  exists r, result_of (working s) i p policy e r /\ amounts_ok r /\
    payroll_results (working s') = payroll_results (working s) ++ [r] /\
    (pairwise same_result (payroll_results (working s)) ->
     pairwise same_result (payroll_results (working s'))) /\
    beside_results (working s') = beside_results (working s) /\ committed s' = committed s /\
    tally_totals acc' =
      {| gross_pay := gross_pay (tally_totals acc) + per_gross_pay r;
         total_deductions := total_deductions (tally_totals acc) + per_deductions r;
         total_employer_contributions :=
           total_employer_contributions (tally_totals acc) + per_employer_contributions r;
         net_pay := net_pay (tally_totals acc) + per_net_pay r |}.
Proof.
  unfold calculate_employee, _resolve_assignment_as_of. intros H.
  peel H with gets_ok as [-> <-]. peel H with gets_ok as [-> <-].
  apply bind_ok in H as (c & s1 & E & H). apply of_result_ok in E as [Hc ->].
  apply bind_ok in H as (seg & s1 & E & H). apply of_option_ok in E as [Hseg <-].
  apply bind_ok in H as (asg & s1 & E & H). apply find_by_ok in E as [-> Hasg].
  apply bind_ok in H as ([] & s1 & E & H).
  assert (Hf : fixes (fun s => (committed s, beside_results (working s), payroll_results (working s)))
    (flush_lines (tally_pending acc))) by (apply flush_lines_fixes; done).
  apply (fixes_run _ _ _ _ _ Hf) in E as [[Ec Eb]%pair_equal_spec Er]%pair_equal_spec.
  apply bind_ok in H as (k & s2 & E & H). apply add_ok in E as (-> & Hv & Hu & ->).
  apply ret_ok in H as [<- <-]. eexists. split_and!.
  - exists c, seg, asg. split_and!; [exact Hc|exact Hseg|by destruct asg|reflexivity].
  - by eapply result_amounts_ok.
  - simpl. by rewrite Er.
  - intros Hp. refine (pairwise_app _ same_result_sym _ _ _ result_index _ Hu). simpl. by rewrite Er.
  - exact Eb.
  - exact Ec.
  - done.
Qed.

(** The loop over the employees. *)
Lemma calculate_employees_ok i p policy es s acc s' :
  fold_m (calculate_employee i p policy) es {| tally_totals := no_pay; tally_pending := None |} s = (Ok acc, s') ->
  pairwise same_result (payroll_results (working s)) ->
  exists rows, Forall2 (result_of (working s) i p policy) es rows /\ Forall amounts_ok rows /\
    payroll_results (working s') = payroll_results (working s) ++ rows /\
    pairwise same_result (payroll_results (working s')) /\
    beside_results (working s') = beside_results (working s) /\ committed s' = committed s /\
    tally_totals acc = sum_pay rows.
Proof.
  intros H Hp.
  eapply (fold_m_ok_ind _ (fun dn acc s1 => exists rows, Forall2 (result_of (working s) i p policy) dn rows /\
    Forall amounts_ok rows /\ payroll_results (working s1) = payroll_results (working s) ++ rows /\
    pairwise same_result (payroll_results (working s1)) /\
    beside_results (working s1) = beside_results (working s) /\ committed s1 = committed s /\
    tally_totals acc = sum_pay rows)) in H; [exact H| |].
  - exists []. rewrite app_nil_r. by split_and!.
  - intros dn e rest b1 s1 b2 s2 _ (rows & F & A & R & P & B & C & T) H1.
    apply calculate_employee_ok in H1 as (r & Hr & Ha & R2 & P2 & B2 & C2 & T2).
    exists (rows ++ [r]). split_and!.
    + apply Forall2_app; [done|]. constructor; [|constructor].
      pose proof B as [= _ _ _ _ _ _ _ _ _ _ E1 E2 E3 _ _]. by apply (result_of_ext _ (working s1)).
    + apply Forall_app. split; [done|by constructor].
    + by rewrite R2, R, app_assoc.
    + by apply P2.
    + by rewrite B2.
    + by rewrite C2.
    + rewrite T2, T. unfold sum_pay. simpl. by rewrite !sum_by_app, !sum_by_cons, !sum_by_nil, !Z.add_0_r.
Qed.

(** What a calculation wrote, from [d] to [d']. *)
Record calculated (i : Z) (p : PayrollPeriod) (actor now : Z) (key : option string)
    (d d' : database) (rows : list PayrollEmployeeResult) : Prop := {
  ca_period : row_of (payroll_periods d) i = Some p;
  ca_status : pp_status p ∈ _CALCULABLE_STATUSES;
  ca_rows : Forall2 (result_of d i p (policy_in_force d (pp_end p)))
    (employees_assigned d (pp_store_id p) (pp_start p) (pp_end p)) rows;
  ca_amounts : Forall amounts_ok rows;
  ca_results : payroll_results d' = superseded_results i (payroll_results d) ++ rows;
  ca_single : pairwise same_result (payroll_results d');
  ca_periods : payroll_periods d' = set_row i (period_calculated actor now key (sum_pay rows)) (payroll_periods d);
  ca_reversals : payroll_reversals d' = payroll_reversals d;
  ca_ledger : ledger_tables d' = ledger_tables d;
}.

Lemma pairwise_superseded i t : pairwise same_result t -> pairwise same_result (superseded_results i t).
Proof.
  assert (Hm : forall k x, row_of (superseded_results i t) k = Some x ->
    exists y, row_of t k = Some y /\ (per_deleted x = true \/ x = y)).
  { intros k x. unfold superseded_results, row_of. destruct (0 <? k); [|done].
    rewrite list_lookup_fmap. destruct (t !! _) as [y|]; [|done]. simpl. intros [= <-]. exists y.
    split; [done|]. destruct (live_results i y); [by left|by right]. }
  intros Ht j k a b (ya & Ha & Ea)%Hm (yb & Hb & Eb)%Hm Hjk. unfold same_result.
  destruct Ea as [->|<-]; [done|]. destruct Eb as [->|<-]; [by rewrite andb_false_r|]. by apply (Ht j k).
Qed.

Lemma calculate_payroll_period_ok i actor caller key s k s' :
  calculate_payroll_period i actor caller key s = (Ok k, s') ->
  pairwise same_result (payroll_results (working s)) ->
  k = i /\
  ((s' = s /\ exists c p, key = Some c /\ row_of (payroll_periods (working s)) i = Some p /\
                          calculation_client_transaction_id p = Some c) \/
   (exists p a rows, actor = Some a /\ store_denied caller (pp_store_id p) = false /\
      calculated i p a (utc_now (env s)) key (working s) (working s') rows /\ committed s' = working s')).
Proof.
  unfold calculate_payroll_period. intros H Hp.
  apply bind_ok in H as (a & s1 & E & H). apply of_option_ok in E as [-> <-].
  apply bind_ok in H as (b & s1 & E & H). apply answered_ok in E as [-> Hb].
  destruct b; [apply ret_ok in H as [<- <-]; split; [done|]; left; split; [done|by apply Hb]|].
  apply committing_ok in H as (s1 & H & -> & ->).
  apply bind_ok in H as (p & s2 & E & H). apply get_payroll_period_ok in E as [Hi ->].
  peel H with enforce_store_access_ok as [Hst <-].
  peel H with raise_if_ok as [Hs%negb_false_iff%bool_decide_eq_true <-].
  apply bind_ok in H as ([] & s2 & E & H).
  assert (Ev2 : env s2 = env s) by (refine (fixes_run env _ _ _ _ _ E); unfold delete_results; solve_fixes).
  apply delete_results_ok in E as (R2 & B2 & C2).
  peel H with resolve_overtime_policy_ok as [-> ->]. peel H with gets_ok as [-> <-].
  apply bind_ok in H as (acc & s3 & E & H).
  assert (Ev3 : env s3 = env s2).
  { refine (fixes_run env _ _ _ _ _ E). apply fixes_fold_m. intros b0 e0.
    unfold calculate_employee, _resolve_assignment_as_of.
    walk_fixes ltac:(first [by apply flush_lines_fixes|solve_fixes]). }
  apply calculate_employees_ok in E as (rows & F & A & R3 & P3 & B3 & C3 & T3);
    [|rewrite R2; by apply pairwise_superseded].
  peel H with asks_ok as [-> <-].
  apply bind_ok in H as ([] & s4 & E & H). apply or_conflict_ok in E.
  apply bind_ok in E as ([] & s5 & E1 & E).
  assert (Hf : fixes (fun s => (committed s, beside_results (working s), payroll_results (working s)))
    (flush_lines (tally_pending acc))) by (apply flush_lines_fixes; done).
  apply (fixes_run _ _ _ _ _ Hf) in E1 as [[Ec Eb]%pair_equal_spec Er]%pair_equal_spec.
  apply update_ok in E as (r & _ & _ & _ & ->). peel H with log_event_ok as ->.
  apply ret_ok in H as [<- <-]. split; [done|]. right.
  pose proof B2 as [= _ _ D1 _ _ _ _ _ _ _ D2 D3 D4 D5 D6].
  pose proof B3 as [= _ _ G1 _ _ _ _ _ _ _ G2 G3 G4 G5 G6].
  pose proof Eb as [= _ _ K1 _ _ _ _ _ _ _ K2 K3 K4 K5 K6].
  exists p, a, rows. split_and!; [done|done| |done]. rewrite <- Ev2, <- Ev3. constructor; simpl; try done.
  - unfold employees_assigned, policy_in_force in *. rewrite D2 in F. eapply Forall2_impl; [exact F|].
    intros e r'. by apply result_of_ext.
  - by rewrite Er, R3, R2.
  - by rewrite Er.
  - by rewrite K5, G5, D5, T3.
  - by rewrite K6, G6, D6.
  - by rewrite K1, G1, D1.
Qed.

(** ** The transitions that touch the period alone *)

Lemma create_payroll_period_ok data actor caller s k s' :
  create_payroll_period data actor caller s = (Ok k, s') ->
  exists log, store_denied caller (ppi_store_id data) = false /\
    ppi_period_start data <= ppi_period_end data <= ppi_pay_date data /\
    k = next_id (payroll_periods (working s)) /\
    working s' = logged log (over_payroll_periods (fun t => t ++ [new_payroll_period data]) (working s)) /\
    committed s' = working s'.
Proof.
  unfold create_payroll_period. intros H. apply committing_ok in H as (s1 & H & -> & ->).
  peel H with enforce_store_access_ok as [Hst <-]. peel H with raise_if_ok as [H1 <-].
  peel H with raise_if_ok as [H2 <-].
  apply bind_ok in H as (i & s2 & E & H). apply or_conflict_ok in E.
  apply add_ok in E as (-> & _ & _ & ->). peel H with log_event_ok as ->. apply ret_ok in H as [<- <-].
  eexists. split_and!; [done|lia|lia|done|reflexivity|done].
Qed.

(** One attribute of one period, and the audit trail. *)
Definition transition (i : Z) (f : PayrollPeriod -> PayrollPeriod) (d d' : database) : Prop :=
  exists log, d' = logged log (over_payroll_periods (set_row i f) d).

Lemma open_payroll_period_ok i actor caller s k s' :
  open_payroll_period i actor caller s = (Ok k, s') ->
  k = i /\ exists p, row_of (payroll_periods (working s)) i = Some p /\
    store_denied caller (pp_store_id p) = false /\
    ((pp_status p = PP_OPEN /\ s' = s) \/
     (pp_status p = PP_DRAFT /\ transition i (with_pp_status PP_OPEN) (working s) (working s') /\
      committed s' = working s')).
Proof.
  unfold open_payroll_period. intros H.
  apply bind_ok in H as (p & s2 & E & H). apply get_payroll_period_ok in E as [Hi ->].
  peel H with enforce_store_access_ok as [Hst <-]. case_bool_decide as Ho.
  { apply ret_ok in H as [<- <-]. eauto 10. }
  apply committing_ok in H as (s1 & H & -> & ->).
  peel H with raise_if_ok as [Hd%negb_false_iff%bool_decide_eq_true <-].
  peel H with update_ok as (? & _ & _ & _ & ->). peel H with log_event_ok as ->.
  apply ret_ok in H as [<- <-]. split; [done|]. exists p. split_and!; [done|done|]. right.
  split_and!; [done| |done]. by eexists.
Qed.

Lemma cancel_payroll_period_ok i reason actor caller s k s' :
  cancel_payroll_period i reason actor caller s = (Ok k, s') ->
  k = i /\ blank reason = false /\ exists p, row_of (payroll_periods (working s)) i = Some p /\
    store_denied caller (pp_store_id p) = false /\
    ((pp_status p = PP_CANCELLED /\ s' = s) \/
     (pp_status p ∈ _CANCELLABLE_STATUSES /\
      transition i (with_pp_status PP_CANCELLED) (working s) (working s') /\ committed s' = working s')).
Proof.
  unfold cancel_payroll_period. intros H. peel H with raise_if_ok as [Hr <-].
  apply bind_ok in H as (p & s2 & E & H). apply get_payroll_period_ok in E as [Hi ->].
  peel H with enforce_store_access_ok as [Hst <-]. case_bool_decide as Ho.
  { apply ret_ok in H as [<- <-]. eauto 10. }
  apply committing_ok in H as (s1 & H & -> & ->).
  peel H with raise_if_ok as [Hd%negb_false_iff%bool_decide_eq_true <-].
  peel H with update_ok as (? & _ & _ & _ & ->). peel H with log_event_ok as ->.
  apply ret_ok in H as [<- <-]. split; [done|]. split; [done|]. exists p. split_and!; [done|done|]. right.
  split_and!; [done| |done]. by eexists.
Qed.

Lemma approve_payroll_period_ok i actor caller s k s' :
  approve_payroll_period i actor caller s = (Ok k, s') ->
  k = i /\ exists p, row_of (payroll_periods (working s)) i = Some p /\
    store_denied caller (pp_store_id p) = false /\
    ((pp_status p = PP_APPROVED /\ s' = s) \/
     (pp_status p = PP_CALCULATED /\
      (exists a at_, actor = Some a /\ calculated_at p = Some at_ /\
         (forall j r, row_of (attendance_records (working s)) j = Some r -> stale_attendance p at_ r = false) /\
         transition i (period_approved a (utc_now (env s))) (working s) (working s')) /\
      committed s' = working s')).
Proof.
  unfold approve_payroll_period. intros H.
  apply bind_ok in H as (p & s2 & E & H). apply get_payroll_period_ok in E as [Hi ->].
  peel H with enforce_store_access_ok as [Hst <-]. case_bool_decide as Ho.
  { apply ret_ok in H as [<- <-]. eauto 10. }
  apply committing_ok in H as (s1 & H & -> & ->).
  peel H with raise_if_ok as [Hd%negb_false_iff%bool_decide_eq_true <-].
  apply bind_ok in H as (a & s2 & E & H). apply of_option_ok in E as [-> <-].
  apply bind_ok in H as (at_ & s2 & E & H). apply of_option_ok in E as [Hat <-].
  peel H with query_ok as [-> <-]. peel H with raise_if_ok as [Hn%negb_false_iff%bool_decide_eq_true <-].
  peel H with asks_ok as [-> <-]. peel H with update_ok as (? & _ & _ & _ & ->).
  peel H with log_event_ok as ->. apply ret_ok in H as [<- <-]. split; [done|]. exists p.
  split_and!; [done|done|]. right. split_and!; [done| |done]. exists a, at_. split_and!; [done|done| |by eexists].
  apply length_zero_iff_nil in Hn. exact (proj1 (select_nil _ _) Hn).
Qed.

(** ** Posting *)

Definition besides_books (d : database) := (directory_tables d, people_tables d, payroll_tables d).

(** The entry a payroll posting makes. *)
Definition entry_for (d : database) (src : SourceType) (i store date j : Z) : Prop :=
  exists e, row_of (journal_entries d) j = Some e /\ source_type e = src /\ source_id e = Some i /\
    entry_store_id e = store /\ posting_date e = date /\ entry_type e = STANDARD.

Definition payroll_posting (q : posting) : bool :=
  match q with P_payroll _ _ _ _ | P_payroll_reversal _ _ _ => true | _ => false end.

Lemma post_fixes_payroll q by_ :
  payroll_posting q = true ->
  fixes (fun s => (committed s, besides_books (working s), env s)) (post q by_).
Proof. unfold besides_books. destruct q; try done; intros _; simpl; unfold_postings; solve_fixes. Qed.

(** The books move, the rest stays, and the entry is there. *)
Definition booked (q : posting) (date : Z) (j : Z) (s s' : session database) : Prop :=
  committed s' = committed s /\ besides_books (working s') = besides_books (working s) /\ env s' = env s /\
  (forall code, account_balance (working s') code
     = account_balance (working s) code + spec_net (posting_lines q) code) /\
  entry_for (working s') (posting_key q).1 (posting_key q).2 (posting_store q) date j /\
  (forall p, p ∈ accounting_periods (working s) -> period_covers (posting_store q) date p = false).

Lemma booked_intro q by_ date s o s' :
  payroll_posting q = true -> post q by_ s = (Ok o, s') ->
  (exists j, o = Some j /\ _post_journal (posting_store q) date (posting_key q).1 (Some (posting_key q).2) by_
     (posting_lines q) STANDARD None s = (Ok j, s')) ->
  exists j, o = Some j /\ booked q date j s s'.
Proof.
  intros Hq H (j & -> & Hj). exists j. split; [done|].
  pose proof (fixes_run _ _ _ _ _ (post_fixes_payroll q by_ Hq) H) as [[E1 E2]%pair_equal_spec E3]%pair_equal_spec.
  split_and!; [done|done|done|intros code; by eapply post_account_balance| |].
  - apply post_journal_ok in Hj as (e & new & -> & -> & _ & _ & H1 & H2 & H3 & H4 & H5 & _).
    exists e. simpl. rewrite row_of_new. by split_and!.
  - by apply post_journal_ok in Hj as (e & new & _ & _ & _ & _ & _ & _ & _ & _ & _ & _ & _ & _ & Hp).
Qed.

Lemma post_payroll_journal_ok i st date rs by_ s o s' :
  post_payroll_journal i st date rs by_ s = (Ok o, s') ->
  exists j, o = Some j /\ booked (P_payroll i st date rs) date j s s'.
Proof.
  intros H. apply (booked_intro (P_payroll i st date rs) by_); [done|done|]. by apply posted_ok in H.
Qed.

Lemma post_payroll_reversal_journal_ok i st rs by_ s o s' :
  post_payroll_reversal_journal i st rs by_ s = (Ok o, s') ->
  exists j, o = Some j /\ booked (P_payroll_reversal i st rs) (date_of (utc_now (env s))) j s s'.
Proof.
  intros H. apply (booked_intro (P_payroll_reversal i st rs) by_); [done|done|].
  unfold post_payroll_reversal_journal in H. peel H with asks_ok as [-> <-]. by apply posted_ok in H.
Qed.

(** Finalising the results one after the other. *)
Lemma finalise_ok (ls : list (Z * PayrollEmployeeResult)) s u s' :
  for_each (fun r => update (R := PayrollEmployeeResult) r.1 final_result) ls s = (Ok u, s') ->
  NoDup (map fst ls) ->
  exists t, s' = with_working (over_payroll_results (fun _ => t) (working s)) s /\
    forall k, row_of t k = (fun r => if bool_decide (k ∈ map fst ls) then final_result r else r)
                           <$> row_of (payroll_results (working s)) k.
Proof.
  intros H Hnd.
  eapply (for_each_ok_ind _ (fun dn s1 => exists t,
    s1 = with_working (over_payroll_results (fun _ => t) (working s)) s /\
    forall k, row_of t k = (fun r => if bool_decide (k ∈ map fst dn) then final_result r else r)
                           <$> row_of (payroll_results (working s)) k)) in H; [exact H| |].
  - exists (payroll_results (working s)). split; [by destruct s as [? [? ? ? ? ? ? ? ? ? ? ? ? []] ? ? ?]|].
    intros k. rewrite bool_decide_eq_false_2 by (simpl; set_solver). by destruct (row_of _ k).
  - intros dn x rest s1 s2 -> (t & -> & Ht) H1. apply update_ok in H1 as (r & Hr & _ & _ & ->).
    exists (set_row x.1 final_result t). split; [done|]. intros k. rewrite row_of_set, Ht, map_app.
    rewrite map_app in Hnd. apply NoDup_app in Hnd as (_ & Hd & _).
    destruct (row_of (payroll_results (working s)) k) as [y|]; simpl; [|by case_bool_decide].
    destruct (decide (k ∈ map fst dn)) as [Hk|Hk].
    + rewrite (bool_decide_eq_true_2 (k ∈ map fst dn)), (bool_decide_eq_true_2 (k ∈ _ ++ _)) by set_solver.
      rewrite bool_decide_eq_false_2; [done|]. intros <-. apply (Hd _ Hk). simpl. set_solver.
    + rewrite (bool_decide_eq_false_2 (k ∈ map fst dn)) by done. case_bool_decide as E1.
      * rewrite bool_decide_eq_true_2; [done|]. simpl. set_solver.
      * rewrite bool_decide_eq_false_2; [done|]. simpl. set_solver.
Qed.

Definition posted_results (i : Z) (t : list PayrollEmployeeResult) : list PayrollEmployeeResult :=
  map (fun r => if live_results i r then final_result r else r) t.

Lemma rows_map {R} (g : R -> R) (t t' : list R) :
  (forall k, row_of t' k = g <$> row_of t k) -> t' = map g t.
Proof.
  intros H. apply list_eq. intros n. rewrite list_lookup_fmap. specialize (H (Z.of_nat n + 1)).
  unfold row_of in H. destruct (Z.ltb_spec 0 (Z.of_nat n + 1)); [|lia].
  by replace (Z.to_nat (Z.of_nat n + 1 - 1)) with n in H by lia.
Qed.

(** The results of a period, as they are posted. *)
Definition period_results (d : database) (i : Z) : list PayrollEmployeeResult :=
  List.filter (live_results i) (payroll_results d).

Lemma list_results_ok i s l s' :
  list_payroll_employee_results i s = (Ok l, s') ->
  s' = s /\ l ≡ₚ select (fun _ r => live_results i r) (payroll_results (working s)) /\
  map snd l ≡ₚ period_results (working s) i.
Proof.
  unfold list_payroll_employee_results. intros H. peel H with query_ok as [-> <-].
  apply ret_ok in H as [<- <-]. split; [done|]. split; [apply sort_by_perm|].
  rewrite sort_by_perm. unfold period_results.
  by rewrite (select_map (live_results i) (fun r => r)), List.map_id.
Qed.

Lemma payroll_lines_perm rs rs' reverse : rs ≡ₚ rs' -> payroll_lines_of rs reverse = payroll_lines_of rs' reverse.
Proof.
  intros H. unfold payroll_lines_of.
  by rewrite !(sum_by_perm _ _ _ H).
Qed.

Definition pay_posting (d : database) (i : Z) (p : PayrollPeriod) : posting :=
  P_payroll i (pp_store_id p) (pay_date p) (map totals_of (period_results d i)).

Definition pay_reversal (d : database) (i : Z) (p : PayrollPeriod) : posting :=
  P_payroll_reversal i (pp_store_id p) (map totals_of (period_results d i)).

Lemma booked_lines q q' date j s s' :
  posting_key q' = posting_key q -> posting_store q' = posting_store q ->
  posting_lines q' = posting_lines q -> booked q date j s s' -> booked q' date j s s'.
Proof. unfold booked. intros -> -> ->. done. Qed.

Record posted_pay (i : Z) (p : PayrollPeriod) (actor now : Z) (key : option string) (j : Z)
    (d d' : database) : Prop := {
  po_period : row_of (payroll_periods d) i = Some p;
  po_status : pp_status p = PP_APPROVED;
  po_some : period_results d i <> [];
  po_periods : payroll_periods d' = set_row i (period_posted actor now j key) (payroll_periods d);
  po_results : payroll_results d' = posted_results i (payroll_results d);
  po_reversals : payroll_reversals d' = payroll_reversals d;
  po_balance : forall code, account_balance d' code
    = account_balance d code + spec_net (posting_lines (pay_posting d i p)) code;
  po_entry : entry_for d' ST_PAYROLL_POSTING i (pp_store_id p) (pay_date p) j;
  po_open : forall q, q ∈ accounting_periods d -> period_covers (pp_store_id p) (pay_date p) q = false;
}.

Lemma post_payroll_period_ok i actor caller key s k s' :
  post_payroll_period i actor caller key s = (Ok k, s') ->
  k = i /\ exists p, row_of (payroll_periods (working s)) i = Some p /\
    ((s' = s /\ ((pp_status p = PP_POSTED /\ store_denied caller (pp_store_id p) = false) \/
                 exists c, key = Some c /\ posting_client_transaction_id p = Some c)) \/
     (exists a j, actor = Some a /\ store_denied caller (pp_store_id p) = false /\
        posted_pay i p a (utc_now (env s)) key j (working s) (working s') /\ committed s' = working s')).
Proof.
  unfold post_payroll_period. intros H.
  apply bind_ok in H as (b & s1 & E & H). apply answered_ok in E as [-> Hb].
  destruct b.
  { apply ret_ok in H as [<- <-]. split; [done|]. destruct (Hb eq_refl) as (c & p & -> & Hp & Hc).
    exists p. split; [done|]. left. split; [done|]. right. eauto. }
  apply bind_ok in H as (p & s2 & E & H). apply get_payroll_period_ok in E as [Hi ->].
  peel H with enforce_store_access_ok as [Hst <-]. case_bool_decide as Ho.
  { apply ret_ok in H as [<- <-]. split; [done|]. exists p. split; [done|]. left. auto. }
  apply committing_ok in H as (s1 & H & -> & ->).
  peel H with raise_if_ok as [Hs%negb_false_iff%bool_decide_eq_true <-].
  apply bind_ok in H as (a & s2 & E & H). apply of_option_ok in E as [-> <-].
  apply bind_ok in H as (rs & s2 & E & H). apply list_results_ok in E as (-> & Hsel & Hrs).
  peel H with raise_if_ok as [Hn%bool_decide_eq_false <-].
  apply bind_ok in H as (o & s2 & E & H). apply post_payroll_journal_ok in E as (j & -> & HB).
  apply (booked_lines _ (pay_posting (working s) i p)) in HB; [|done|done|].
  2:{ simpl. apply payroll_lines_perm. rewrite <- Hrs. by rewrite map_map. }
  destruct HB as (Ec & [[Ed Ep]%pair_equal_spec Epy]%pair_equal_spec & Eenv & Hbal & Hent & Hper).
  apply bind_ok in H as (j' & s3 & E & H). apply of_option_ok in E as [[= <-] <-].
  peel H with asks_ok as [-> <-].
  apply bind_ok in H as ([] & s3 & E & H). apply or_conflict_ok in E.
  apply bind_ok in E as ([] & s4 & E1 & E). apply update_ok in E1 as (? & _ & _ & _ & ->).
  apply finalise_ok in E as (t & -> & Ht).
  2:{ rewrite Hsel. apply NoDup_select_keys. }
  peel H with log_event_ok as ->. apply ret_ok in H as [<- <-]. split; [done|]. exists p. split; [done|]. right.
  exists a, j. split_and!; [done|done| |done]. constructor; simpl; try done.
  - intros E. rewrite E in Hrs. apply Permutation_nil_r in Hrs. apply map_eq_nil in Hrs. by rewrite Hrs in Hn.
  - by rewrite Eenv, Epy.
  - apply rows_map. intros k. rewrite (Ht k). simpl. rewrite Epy.
    destruct (row_of (payroll_results (working s)) k) as [r|] eqn:Er; [|done]. simpl. f_equal.
    assert (k ∈ map fst rs <-> live_results i r = true) as Hk.
    { rewrite Hsel. rewrite list_elem_of_fmap. split.
      - intros ([k' r'] & -> & [Hk' Hl]%elem_select). simpl in *. congruence.
      - intros Hl. exists (k, r). split; [done|]. by apply elem_select. }
    destruct (live_results i r); [rewrite bool_decide_eq_true_2 by tauto; done|].
    rewrite bool_decide_eq_false_2; [done|]. rewrite Hk. done.
  - by rewrite Epy.
Qed.

Record reversed_pay (i : Z) (p : PayrollPeriod) (reason : string) (actor now j : Z) (d d' : database)
    : Prop := {
  rv_period : row_of (payroll_periods d) i = Some p;
  rv_status : pp_status p = PP_POSTED;
  rv_new : forall k r, row_of (payroll_reversals d) k = Some r -> prv_period_id r <> i;
  rv_periods : payroll_periods d' = payroll_periods d;
  rv_results : payroll_results d' = payroll_results d;
  rv_reversals : payroll_reversals d' = payroll_reversals d ++
    [{| prv_period_id := i; prv_journal_entry_id := j; prv_reason := reason; prv_reversed_by := actor;
        prv_reversed_at := now |}];
  rv_balance : forall code, account_balance d' code
    = account_balance d code + spec_net (posting_lines (pay_reversal d i p)) code;
  rv_entry : entry_for d' ST_PAYROLL_REVERSAL i (pp_store_id p) (date_of now) j;
}.

Lemma reverse_payroll_period_ok i reason actor caller s k s' :
  reverse_payroll_period i reason actor caller s = (Ok k, s') ->
  k = i /\ blank reason = false /\
  exists p a, row_of (payroll_periods (working s)) i = Some p /\ pp_status p = PP_POSTED /\
    actor = Some a /\ store_denied caller (pp_store_id p) = false /\
    ((s' = s /\ exists n r, row_of (payroll_reversals (working s)) n = Some r /\ prv_period_id r = i) \/
     (exists j, reversed_pay i p reason a (utc_now (env s)) j (working s) (working s') /\
        committed s' = working s')).
Proof.
  unfold reverse_payroll_period. intros H. peel H with raise_if_ok as [Hr <-].
  apply bind_ok in H as (p & s2 & E & H). apply get_payroll_period_ok in E as [Hi ->].
  peel H with enforce_store_access_ok as [Hst <-].
  peel H with raise_if_ok as [Hs%negb_false_iff%bool_decide_eq_true <-].
  apply bind_ok in H as (a & s2 & E & H). apply of_option_ok in E as [-> <-].
  apply bind_ok in H as (o & s2 & E & H). apply find_by_ok in E as [-> Ho]. destruct o as [[n r]|].
  { apply ret_ok in H as [<- <-]. split; [done|]. split; [done|]. exists p, a. split_and!; try done. left.
    split; [done|]. exists n, r.
    assert ((n, r) ∈ select (fun _ r => reversal_of i r) (payroll_reversals (working s))) as [Hn Hp]%elem_select
      by (simpl in *; rewrite Ho; set_solver).
    unfold reversal_of in Hp. split; [done|lia]. }
  apply committing_ok in H as (s1 & H & -> & ->).
  apply bind_ok in H as (rs & s2 & E & H). apply list_results_ok in E as (-> & Hsel & Hrs).
  apply bind_ok in H as (o & s2 & E & H). apply post_payroll_reversal_journal_ok in E as (j & -> & HB).
  apply (booked_lines _ (pay_reversal (working s) i p)) in HB; [|done|done|].
  2:{ simpl. apply payroll_lines_perm. rewrite <- Hrs. by rewrite map_map. }
  destruct HB as (Ec & [[Ed Ep]%pair_equal_spec Epy]%pair_equal_spec & Eenv & Hbal & Hent & _).
  apply bind_ok in H as (j' & s3 & E & H). apply of_option_ok in E as [[= <-] <-].
  peel H with asks_ok as [-> <-].
  apply bind_ok in H as (m & s3 & E & H). apply or_conflict_ok in E.
  apply add_ok in E as (-> & _ & _ & ->).
  peel H with log_event_ok as ->. apply ret_ok in H as [<- <-]. split; [done|]. split; [done|].
  exists p, a. split_and!; try done. right. exists j. split; [|done]. constructor; simpl; try done.
  - intros n r Hn. pose proof (proj1 (select_nil _ _) Ho n r Hn) as Hx. unfold reversal_of in Hx. simpl in Hx. lia.
  - by rewrite Epy.
  - by rewrite Epy.
  - by rewrite Eenv, Epy.
Qed.
