(* ===== verification/PayPeriodInvariant.v ===== *)
(** * The payroll invariant

    What every reachable payroll state satisfies: a calculated period's totals
    are the sums of its results, a result's net pay is its gross pay less its
    deductions, results are final exactly when the period is posted, and the
    payroll accounts of the ledger are what the posted and not reversed periods
    say. *)

From S2P Require Import Prelude Fixed Session Schema Tables Platform EffectiveDated Workforce.
From S2P Require Import WorkforceInvariant Chart Fixture Journal Posting Books Payroll PayPeriods.
From S2P Require Import PayPeriodOps.

Definition PAYROLL_ACCOUNTS : list string :=
  [ACCOUNT_WAGE_SALARY_EXPENSE; ACCOUNT_EMPLOYER_CONTRIBUTION_EXPENSE; ACCOUNT_PAYROLL_PAYABLE;
   ACCOUNT_BENEFIT_DEDUCTION_PAYABLE; ACCOUNT_EMPLOYER_CONTRIBUTION_PAYABLE].

(** The journal lines of a period, from its own totals. *)
Definition period_lines (p : PayrollPeriod) : list LineSpec :=
  _payroll_journal_lines (pp_gross p) (pp_deductions p) (pp_employer_contributions p) (pp_net_pay p) false.

Definition was_reversed (d : database) (i : Z) : bool := existsb (reversal_of i) (payroll_reversals d).

(** Posted and not reversed. *)
Definition in_force (d : database) (i : Z) (p : PayrollPeriod) : bool :=
  bool_decide (pp_status p = PP_POSTED) && negb (was_reversed d i).

(** What the periods in force put on an account. *)
Definition payroll_ledger (d : database) (code : string) : ledger :=
  sum_by (fun ip => if in_force d ip.1 ip.2 then spec_net (period_lines ip.2) code else 0)
    (with_ids (payroll_periods d)).

Definition payroll_books (d : database) : Prop :=
  forall code, code ∈ PAYROLL_ACCOUNTS -> account_balance d code = payroll_ledger d code.

(** The totals of a period are the sums of its results. *)
Definition totals_match (d : database) (i : Z) (p : PayrollPeriod) : Prop :=
  {| gross_pay := pp_gross p; total_deductions := pp_deductions p;
     total_employer_contributions := pp_employer_contributions p; net_pay := pp_net_pay p |}
  = sum_pay (period_results d i).

Definition period_ok (d : database) (i : Z) (p : PayrollPeriod) : Prop :=
  match pp_status p with
  | PP_DRAFT | PP_OPEN => period_results d i = []
  | PP_CALCULATED | PP_APPROVED | PP_POSTED => totals_match d i p
  | PP_CANCELLED => True
  end.

Definition result_ok (d : database) (r : PayrollEmployeeResult) : Prop :=
  amounts_ok r /\
  exists p, row_of (payroll_periods d) (per_period_id r) = Some p /\
    (per_status r = RESULT_FINAL <-> pp_status p = PP_POSTED).

Record payroll_wf (d : database) : Prop := {
  pw_period : forall i p, row_of (payroll_periods d) i = Some p -> period_ok d i p;
  pw_result : forall r, r ∈ payroll_results d -> per_deleted r = false -> result_ok d r;
  pw_single : pairwise same_result (payroll_results d);
  pw_reversed : forall k r, row_of (payroll_reversals d) k = Some r ->
    exists p, row_of (payroll_periods d) (prv_period_id r) = Some p /\ pp_status p = PP_POSTED;
  pw_books : payroll_books d;
}.

Lemma Forall_opt_line (P : LineSpec -> Prop) b sp : P sp -> Forall P (opt_line b sp).
Proof. intros H. destruct b; by constructor. Qed.

(** ** What the invariant reads *)

Definition payroll_reads (d : database) :=
  (payroll_periods d, payroll_results d, payroll_reversals d, accounts d, journal_lines d).

Lemma payroll_wf_ext d d' : payroll_reads d' = payroll_reads d -> payroll_wf d -> payroll_wf d'.
Proof.
  intros [= E1 E2 E3 E4 E5] [H1 H2 H3 H4 H5].
  constructor; unfold period_ok, totals_match, period_results, result_ok, payroll_books, payroll_ledger,
    in_force, was_reversed in *; rewrite ?E1, ?E2, ?E3; try done.
  intros code Hc. rewrite (account_balance_ext d) by done. by apply H5.
Qed.

Lemma in_force_ext d d' i p : payroll_reversals d' = payroll_reversals d -> in_force d' i p = in_force d i p.
Proof. unfold in_force, was_reversed. by intros ->. Qed.

Lemma was_reversed_true d i : was_reversed d i = true <-> exists k r, row_of (payroll_reversals d) k = Some r /\ prv_period_id r = i.
Proof.
  unfold was_reversed, reversal_of. rewrite existsb_exists. split.
  - intros (r & (k & Hk)%list_elem_of_In%elem_row_of & E). exists k, r. split; [done|lia].
  - intros (k & r & Hk%row_of_elem & E). exists r. rewrite <- list_elem_of_In. split; [done|lia].
Qed.

(** ** Sums over the periods *)

(** One period changes: the sum moves by its difference. *)
Lemma sum_ids_set {R} (g g' : Z -> R -> Z) (t : list R) i f r :
  row_of t i = Some r -> (forall k x, row_of t k = Some x -> k <> i -> g' k x = g k x) ->
  sum_by (fun ip => g' ip.1 ip.2) (with_ids (set_row i f t))
  = sum_by (fun ip => g ip.1 ip.2) (with_ids t) + (g' i (f r) - g i r).
Proof.
  intros Hi Hg.
  assert (Hw : with_ids (set_row i f t)
    = map (fun ip : Z * R => (ip.1, if bool_decide (ip.1 = i) then f ip.2 else ip.2)) (with_ids t)).
  { apply list_eq. intros n. unfold with_ids. rewrite list_lookup_fmap, !list_lookup_imap.
    assert (Hn : forall u : list R, u !! n = row_of u (Z.of_nat n + 1)).
    { intros u. unfold row_of. destruct (Z.ltb_spec 0 (Z.of_nat n + 1)); [|lia]. f_equal. lia. }
    rewrite !Hn, row_of_set. rewrite (bool_decide_ext (i = Z.of_nat n + 1) (Z.of_nat n + 1 = i)) by lia.
    destruct (row_of t (Z.of_nat n + 1)); simpl; repeat case_bool_decide; done. }
  rewrite Hw, sum_by_map. clear Hw.
  assert (Hin : (i, r) ∈ with_ids t) by (by apply elem_with_ids).
  assert (Hall : forall k x, (k, x) ∈ with_ids t -> row_of t k = Some x) by (intros k x; apply elem_with_ids).
  pose proof (NoDup_ids t) as Hnd. revert Hin Hall Hnd. generalize (with_ids t) as l.
  induction l as [|[k x] l IH]; intros Hin Hall Hnd; [by apply elem_of_nil in Hin|].
  simpl in Hnd. apply NoDup_cons in Hnd as [Hk Hnd]. rewrite !sum_by_cons. simpl.
  apply elem_of_cons in Hin as [[= <- <-]|Hin].
  - rewrite bool_decide_eq_true_2 by done.
    rewrite (sum_by_ext _ (fun ip : Z * R => g ip.1 ip.2) l); [lia|].
    intros [k x] Hx. simpl. assert (k <> i) as Hne.
    { intros ->. apply Hk. apply list_elem_of_fmap. by exists (i, x). }
    rewrite bool_decide_eq_false_2 by done. apply Hg; [|done]. apply Hall. set_solver.
  - assert (k <> i) as Hne. { intros ->. apply Hk. apply list_elem_of_fmap. by exists (i, r). }
    rewrite bool_decide_eq_false_2 by done.
    assert (Hall' : forall k x, (k, x) ∈ l -> row_of t k = Some x) by (intros; apply Hall; set_solver).
    specialize (IH Hin Hall' Hnd). simpl in IH. rewrite IH, (Hg k x); [lia| |done]. apply Hall. set_solver.
Qed.

Lemma payroll_ledger_set d d' i f p code :
  row_of (payroll_periods d) i = Some p -> payroll_periods d' = set_row i f (payroll_periods d) ->
  (forall k, k <> i -> was_reversed d' k = was_reversed d k) ->
  payroll_ledger d' code = payroll_ledger d code
    + ((if in_force d' i (f p) then spec_net (period_lines (f p)) code else 0)
       - (if in_force d i p then spec_net (period_lines p) code else 0)).
Proof.
  intros Hi Hp Hr. unfold payroll_ledger. rewrite Hp.
  apply (sum_ids_set (fun i p => if in_force d i p then spec_net (period_lines p) code else 0)
           (fun i p => if in_force d' i p then spec_net (period_lines p) code else 0)); [done|].
  intros k x _ Hk. unfold in_force. by rewrite Hr.
Qed.

(** ** Each operation keeps it *)

Lemma live_in d j r : r ∈ period_results d j <-> r ∈ payroll_results d /\ per_deleted r = false /\ per_period_id r = j.
Proof.
  unfold period_results, live_results. rewrite list_elem_of_In, filter_In, <- list_elem_of_In.
  rewrite andb_true_iff, negb_true_iff, Z.eqb_eq. done.
Qed.

(** Results belong to periods, so a new period has none. *)
Lemma new_period_results d : payroll_wf d -> period_results d (next_id (payroll_periods d)) = [].
Proof.
  intros Hd. destruct (period_results d _) as [|r l] eqn:E; [done|]. exfalso.
  assert (r ∈ period_results d (next_id (payroll_periods d))) as (Hr & Hdel & Hp)%live_in by (rewrite E; set_solver).
  destruct (pw_result _ Hd r Hr Hdel) as (_ & p & Hrow & _). rewrite Hp in Hrow.
  apply row_of_range in Hrow. lia.
Qed.

Lemma not_reversed d i p :
  payroll_wf d -> row_of (payroll_periods d) i = Some p -> pp_status p <> PP_POSTED -> was_reversed d i = false.
Proof.
  intros Hd Hi Hp. apply not_true_is_false. intros (k & r & Hk & E)%was_reversed_true.
  destruct (pw_reversed _ Hd k r Hk) as (p' & Hp' & Hs). rewrite E, Hi in Hp'. congruence.
Qed.

Lemma wf_created d data :
  payroll_wf d -> payroll_wf (over_payroll_periods (fun t => t ++ [new_payroll_period data]) d).
Proof.
  intros Hd. pose proof Hd as [H1 H2 H3 H4 H5]. constructor.
  - intros i p [Hp|[-> ->]]%row_of_inv_app; [exact (H1 i p Hp)|]. exact (new_period_results d Hd).
  - intros r Hr Hdel. destruct (H2 r Hr Hdel) as (Ha & p & Hp & Hs). split; [done|]. exists p.
    split; [by apply row_of_app_old|done].
  - exact H3.
  - intros k r Hk. destruct (H4 k r Hk) as (p & Hp & Hs). exists p. split; [by apply row_of_app_old|done].
  - intros code Hc. rewrite (account_balance_ext d) by done. rewrite (H5 code Hc).
    unfold payroll_ledger. simpl. rewrite with_ids_app, sum_by_app, sum_by_cons, sum_by_nil. simpl.
    change (in_force _ (next_id _) (new_payroll_period data)) with false. rewrite !Z.add_0_r.
    by apply sum_by_ext.
Qed.

(** A transition between two states that are not posted. *)
Lemma wf_transition d i f p :
  payroll_wf d -> row_of (payroll_periods d) i = Some p -> pp_status p <> PP_POSTED ->
  pp_status (f p) <> PP_POSTED -> period_ok d i (f p) -> payroll_wf (over_payroll_periods (set_row i f) d).
Proof.
  intros Hd Hi Hp Hf Hok. pose proof Hd as [H1 H2 H3 H4 H5]. constructor.
  - intros j q. simpl. rewrite row_of_set. case_bool_decide as E; [subst j|exact (H1 j q)].
    rewrite Hi. intros [= <-]. exact Hok.
  - intros r Hr Hdel. destruct (H2 r Hr Hdel) as (Ha & q & Hq & Hs). split; [done|]. simpl.
    rewrite row_of_set. case_bool_decide as E; [|by eauto]. rewrite <- E, Hi in Hq. injection Hq as <-.
    rewrite <- E, Hi. exists (f p). split; [done|]. split; [|done]. intros H. by apply Hs in H.
  - exact H3.
  - intros k r Hk. destruct (H4 k r Hk) as (q & Hq & Hs). exists q. split; [|done]. simpl.
    rewrite row_of_set_ne; [done|]. intros E. rewrite <- E, Hi in Hq. congruence.
  - intros code Hc. rewrite (account_balance_ext d) by done. rewrite (H5 code Hc).
    rewrite (payroll_ledger_set d (over_payroll_periods (set_row i f) d) i f p code Hi eq_refl (fun _ _ => eq_refl)).
    unfold in_force. rewrite !bool_decide_eq_false_2 by done. simpl. lia.
Qed.

(** *** Calculation *)

Lemma result_of_row d i p policy e r :
  result_of d i p policy e r -> per_period_id r = i /\ per_employee_id r = e /\ per_status r = RESULT_DRAFT /\
    per_deleted r = false.
Proof. by intros (c & l & a & _ & _ & _ & ->). Qed.

Lemma calculated_rows i p actor now key d d' rows r :
  calculated i p actor now key d d' rows -> r ∈ rows ->
  per_period_id r = i /\ per_status r = RESULT_DRAFT /\ per_deleted r = false.
Proof.
  intros Hc Hr. pose proof (ca_rows _ _ _ _ _ _ _ _ Hc) as F.
  apply list_elem_of_lookup in Hr as [n Hn]. destruct (Forall2_lookup_r _ _ _ _ _ F Hn) as (e & _ & Hre).
  by apply result_of_row in Hre as (-> & _ & -> & ->).
Qed.

(** After a calculation the period's results are the new ones, the others'
    results what they were. *)
Lemma calculated_results i p actor now key d d' rows j :
  calculated i p actor now key d d' rows ->
  period_results d' j = if bool_decide (j = i) then rows else period_results d j.
Proof.
  intros Hc. unfold period_results at 1. rewrite (ca_results _ _ _ _ _ _ _ _ Hc), List.filter_app.
  assert (Hrows : forall r, r ∈ rows -> live_results j r = (i =? j)).
  { intros r Hr. destruct (calculated_rows _ _ _ _ _ _ _ _ _ Hc Hr) as (E & _ & Hd).
    unfold live_results. by rewrite E, Hd. }
  assert (Hold : List.filter (live_results j) (superseded_results i (payroll_results d))
    = if bool_decide (j = i) then [] else period_results d j).
  { unfold superseded_results, period_results. induction (payroll_results d) as [|r t IH].
    - by case_bool_decide.
    - change (List.filter (live_results j) (map (fun r => if live_results i r then deleted_result r else r) (r :: t)))
        with (let x := if live_results i r then deleted_result r else r in
              if live_results j x then x :: List.filter (live_results j)
                   (map (fun r => if live_results i r then deleted_result r else r) t)
              else List.filter (live_results j) (map (fun r => if live_results i r then deleted_result r else r) t)).
      cbv zeta. rewrite IH. case_bool_decide as E; [subst j|].
      + destruct (live_results i r) eqn:El; [done|]. by rewrite El.
      + destruct (live_results i r) eqn:El; [|done]. unfold live_results in El |- *. simpl.
        apply andb_true_iff in El as [-> El]. destruct (Z.eqb_spec (per_period_id r) j); [lia|done]. }
  rewrite Hold. case_bool_decide as E.
  - simpl. apply filter_all. intros r Hr. rewrite (Hrows r Hr). lia.
  - rewrite filter_none, app_nil_r; [done|]. intros r Hr. rewrite (Hrows r Hr). lia.
Qed.

Lemma wf_calculated i p actor now key d d' rows :
  payroll_wf d -> accounts d' = accounts d -> journal_lines d' = journal_lines d ->
  calculated i p actor now key d d' rows -> payroll_wf d'.
Proof.
  intros Hd Ea El Hc. pose proof Hd as [H1 H2 H3 H4 H5].
  pose proof (ca_period _ _ _ _ _ _ _ _ Hc) as Hi. pose proof (ca_periods _ _ _ _ _ _ _ _ Hc) as Ep.
  pose proof (ca_reversals _ _ _ _ _ _ _ _ Hc) as Er.
  assert (Hp : pp_status p <> PP_POSTED).
  { pose proof (ca_status _ _ _ _ _ _ _ _ Hc) as Hs. intros E. rewrite E in Hs.
    unfold _CALCULABLE_STATUSES in Hs. set_solver. }
  constructor.
  - intros j q. rewrite Ep, row_of_set. unfold period_ok, totals_match.
    rewrite (calculated_results _ _ _ _ _ _ _ _ j Hc), (bool_decide_ext (i = j) (j = i)) by done.
    case_bool_decide as E; [|exact (H1 j q)]. subst j. rewrite Hi. intros [= <-]. done.
  - intros r Hr Hdel. assert (r ∈ period_results d' (per_period_id r)) as Hl by (by apply live_in).
    rewrite (calculated_results _ _ _ _ _ _ _ _ _ Hc) in Hl. case_bool_decide as E.
    + pose proof (ca_amounts _ _ _ _ _ _ _ _ Hc) as Ha. rewrite Forall_forall in Ha.
      destruct (calculated_rows _ _ _ _ _ _ _ _ _ Hc Hl) as (_ & Hs & _).
      split; [by apply Ha|]. rewrite E, Ep, row_of_set, bool_decide_eq_true_2, Hi by done.
      eexists. split; [done|]. by rewrite Hs.
    + apply live_in in Hl as (Hr' & _ & _). destruct (H2 r Hr' Hdel) as (Ha & q & Hq & Hs).
      split; [done|]. exists q. split; [|done]. by rewrite Ep, row_of_set_ne.
  - exact (ca_single _ _ _ _ _ _ _ _ Hc).
  - intros k r Hk. rewrite Er in Hk. destruct (H4 k r Hk) as (q & Hq & Hs). exists q. split; [|done].
    rewrite Ep, row_of_set_ne; [done|]. intros E. rewrite <- E, Hi in Hq. congruence.
  - intros code Hcode. rewrite (account_balance_ext d), (H5 code Hcode) by done.
    rewrite (payroll_ledger_set d d' i _ p code Hi Ep) by (intros; unfold was_reversed; by rewrite Er).
    unfold in_force. rewrite !bool_decide_eq_false_2 by done. simpl. lia.
Qed.

(** *** Posting *)

(** A change of the live results of a period that keeps who they belong to. *)
Lemma live_results_map i j (g : PayrollEmployeeResult -> PayrollEmployeeResult) t :
  (forall r, live_results j (g r) = live_results j r) ->
  List.filter (live_results j) (map (fun r => if live_results i r then g r else r) t)
  = map (fun r => if live_results i r then g r else r) (List.filter (live_results j) t).
Proof.
  intros Hg. induction t as [|r t IH]; [done|]. simpl.
  destruct (live_results i r) eqn:Ei; rewrite ?Hg; destruct (live_results j r); simpl; rewrite ?Ei, IH; done.
Qed.

Lemma sum_pay_posted i l : sum_pay (posted_results i l) = sum_pay l.
Proof.
  unfold sum_pay, posted_results. rewrite !sum_by_map.
  f_equal; apply sum_by_ext; intros r _; by destruct (live_results i r).
Qed.

Lemma pairwise_posted i t : pairwise same_result t -> pairwise same_result (posted_results i t).
Proof.
  intros Ht j k a b. unfold posted_results. rewrite !row_of_map.
  destruct (row_of t j) as [x|] eqn:Ej; [|done]. destruct (row_of t k) as [y|] eqn:Ek; [|done].
  intros [= <-] [= <-] Hjk. pose proof (Ht j k x y Ej Ek Hjk) as H. unfold same_result in *.
  by destruct (live_results i x), (live_results i y).
Qed.

Lemma pay_posting_lines d i p :
  totals_match d i p -> posting_lines (pay_posting d i p) = period_lines p.
Proof.
  intros [= H1 H2 H3 H4]. simpl. unfold payroll_lines_of, period_lines. rewrite !sum_by_map.
  by rewrite H1, H2, H3, H4.
Qed.

Lemma posted_period_results i p actor now key j d d' k :
  posted_pay i p actor now key j d d' -> period_results d' k = posted_results i (period_results d k).
Proof. intros Ho. unfold period_results. rewrite (po_results _ _ _ _ _ _ _ _ Ho). by apply live_results_map. Qed.

Lemma wf_posted i p actor now key j d d' :
  payroll_wf d -> posted_pay i p actor now key j d d' -> payroll_wf d'.
Proof.
  intros Hd Ho. pose proof (fun k => posted_period_results _ _ _ _ _ _ _ _ k Ho) as Hpr.
  destruct Ho as [Hi Hst Hne Ep Er Ev Hb _ _]. pose proof Hd as [H1 H2 H3 H4 H5].
  assert (Hnp : pp_status p <> PP_POSTED) by congruence.
  assert (Hm : totals_match d i p) by (pose proof (H1 i p Hi) as H; unfold period_ok in H; by rewrite Hst in H).
  constructor.
  - intros k q. rewrite Ep, row_of_set. unfold period_ok, totals_match. rewrite Hpr, sum_pay_posted.
    case_bool_decide as E; [|intros Hk; specialize (H1 k q Hk); unfold period_ok in H1;
      destruct (pp_status q); try done; by rewrite H1].
    subst k. rewrite Hi. by intros [= <-].
  - intros r Hr Hdel. rewrite Er in Hr. apply list_elem_of_fmap in Hr as (x & -> & Hx).
    assert (Hdx : per_deleted x = false) by (by destruct (live_results i x)).
    destruct (H2 x Hx Hdx) as (Ha & q & Hq & Hs). unfold live_results in *. rewrite Hdx in *. simpl in *.
    destruct (Z.eqb_spec (per_period_id x) i) as [E|E]; (split; [done|]).
    + exists (period_posted actor now j key p). rewrite Ep. simpl. rewrite E, row_of_set, bool_decide_eq_true_2 by done.
      by rewrite Hi.
    + exists q. rewrite Ep. rewrite row_of_set_ne by done. done.
  - rewrite Er. by apply pairwise_posted.
  - intros k r Hk. rewrite Ev in Hk. destruct (H4 k r Hk) as (q & Hq & Hs). exists q. split; [|done].
    rewrite Ep, row_of_set_ne; [done|]. intros E. rewrite <- E, Hi in Hq. congruence.
  - intros code Hcode. rewrite Hb, (H5 code Hcode), (pay_posting_lines _ _ _ Hm).
    rewrite (payroll_ledger_set d d' i _ p code Hi Ep) by (intros; unfold was_reversed; by rewrite Ev).
    assert (Hw : was_reversed d' i = false)
      by (unfold was_reversed; rewrite Ev; by apply (not_reversed d i p)).
    unfold in_force. rewrite Hw, bool_decide_eq_true_2, bool_decide_eq_false_2 by done.
    simpl. unfold period_lines. simpl. lia.
Qed.

(** *** Reversal *)

Lemma wf_reversed i p reason actor now j d d' :
  payroll_wf d -> reversed_pay i p reason actor now j d d' -> payroll_wf d'.
Proof.
  intros Hd [Hi Hst Hnew Ep Er Ev Hb _]. pose proof Hd as [H1 H2 H3 H4 H5].
  assert (Hm : totals_match d i p) by (pose proof (H1 i p Hi) as H; unfold period_ok in H; by rewrite Hst in H).
  assert (Hpr : forall k, period_results d' k = period_results d k) by (intros; unfold period_results; by rewrite Er).
  assert (Hrev : forall k, was_reversed d' k = was_reversed d k || (i =? k)).
  { intros k. unfold was_reversed. rewrite Ev, existsb_app. f_equal. simpl. unfold reversal_of. simpl. lia. }
  constructor.
  - intros k q. rewrite Ep. unfold period_ok, totals_match. rewrite Hpr. exact (H1 k q).
  - intros r. unfold result_ok. rewrite Er, Ep. exact (H2 r).
  - by rewrite Er.
  - intros k r. rewrite Ev, Ep. intros [Hk|[-> ->]]%row_of_inv_app; [exact (H4 k r Hk)|]. by exists p.
  - intros code Hcode. rewrite Hb, (H5 code Hcode).
    assert (Hset : payroll_periods d' = set_row i (fun x => x) (payroll_periods d))
      by (rewrite Ep; symmetry; by apply set_row_id).
    assert (Hoth : forall k, k <> i -> was_reversed d' k = was_reversed d k).
    { intros k Hk. rewrite Hrev. destruct (Z.eqb_spec i k); [done|by rewrite orb_false_r]. }
    rewrite (payroll_ledger_set d d' i (fun x => x) p code Hi Hset Hoth).
    assert (Hw : was_reversed d i = false).
    { apply not_true_is_false. intros (k & r & Hk & E)%was_reversed_true. by apply (Hnew k r Hk). }
    unfold in_force. rewrite Hrev, Hw, Z.eqb_refl, bool_decide_eq_true_2 by done. simpl.
    pose proof (compensates_lines _ _ code (comp_payroll i (pp_store_id p) (pay_date p)
      (map totals_of (period_results d i)))) as Hc.
    fold (pay_posting d i p) in Hc. rewrite (pay_posting_lines _ _ _ Hm) in Hc. simpl in Hc. lia.
Qed.

(** ** Every operation *)

Lemma wf_logged log d : payroll_wf d -> payroll_wf (logged log d).
Proof. by apply payroll_wf_ext. Qed.

Lemma wf_transitioned i f p d d' :
  payroll_wf d -> row_of (payroll_periods d) i = Some p -> pp_status p <> PP_POSTED ->
  pp_status (f p) <> PP_POSTED -> period_ok d i (f p) -> transition i f d d' -> payroll_wf d'.
Proof. intros Hd Hi Hp Hf Hok (log & ->). by apply wf_logged, (wf_transition d i f p). Qed.

Lemma payroll_op_ok op s k s' :
  payroll_wf (working s) -> run_payroll_op op s = (Ok k, s') -> payroll_wf (working s').
Proof.
  intros Hw. destruct op; simpl; intros H.
  - apply create_payroll_period_ok in H as (log & _ & _ & _ & -> & _). by apply wf_logged, wf_created.
  - apply open_payroll_period_ok in H as (_ & p & Hp & _ & [[_ ->]|(Hs & Ht & _)]); [done|].
    refine (wf_transitioned _ _ _ _ _ Hw Hp _ _ _ Ht); [by rewrite Hs|done|].
    pose proof (pw_period _ Hw _ _ Hp) as Ho. unfold period_ok in *. by rewrite Hs in Ho.
  - apply calculate_payroll_period_ok in H as (_ & [[-> _]|(p & a & rows & _ & _ & Hc & _)]);
      [done| |exact (pw_single _ Hw)].
    pose proof (ca_ledger _ _ _ _ _ _ _ _ Hc) as El. by eapply wf_calculated; [| | |exact Hc]; rewrite ?El.
  - apply approve_payroll_period_ok in H as (_ & p & Hp & _ & [[_ ->]|(Hs & (a & at_ & _ & _ & _ & Ht) & _)]); [done|].
    refine (wf_transitioned _ _ _ _ _ Hw Hp _ _ _ Ht); [by rewrite Hs|done|].
    pose proof (pw_period _ Hw _ _ Hp) as Ho. unfold period_ok in *. by rewrite Hs in Ho.
  - apply cancel_payroll_period_ok in H as (_ & _ & p & Hp & _ & [[_ ->]|(Hs & Ht & _)]); [done|].
    refine (wf_transitioned _ _ _ _ _ Hw Hp _ _ _ Ht); [|done|done].
    intros E. rewrite E in Hs. unfold _CANCELLABLE_STATUSES in Hs. set_solver.
  - apply post_payroll_period_ok in H as (_ & p & Hp & [[-> _]|(a & j & _ & _ & Ho & _)]); [done|].
    by eapply wf_posted.
  - apply reverse_payroll_period_ok in H as (_ & _ & p & a & Hp & _ & _ & _ & [[-> _]|(j & Ho & _)]); [done|].
    by eapply wf_reversed.
Qed.

Ltac payroll_parts :=
  unfold run_payroll_op, create_payroll_period, open_payroll_period, calculate_payroll_period, approve_payroll_period,
    cancel_payroll_period, post_payroll_period, reverse_payroll_period, _lock_payroll_period,
    _resolve_overtime_policy, delete_results, calculate_employee, _resolve_assignment_as_of,
    list_payroll_employee_results, post_payroll_journal, post_payroll_reversal_journal, _post_standard, posted.

(** The operations read, and commit last. *)
Lemma payroll_commits_last op : commits_last (run_payroll_op op).
Proof.
  assert (Hflush : forall p, fixes committed (flush_lines p)) by (intros; by apply flush_lines_fixes).
  destruct op; simpl; payroll_parts;
    repeat first [apply commits_last_committing
                 |match goal with |- commits_last (if ?b then _ else _) => destruct b end
                 |match goal with |- commits_last (match ?o with Some _ => _ | None => _ end) => destruct o end
                 |apply commits_last_bind; [solve [solve_fixes]|intros ?]];
    try (apply commits_last_fixes, fixes_ret); walk_fixes ltac:(first [apply Hflush|solve_fixes]).
Qed.

Lemma payroll_keeps_wf op : keeps payroll_wf (run_payroll_op op).
Proof.
  apply keeps_commits_last; [apply payroll_commits_last|]. intros s k s' _ Hw H. by eapply payroll_op_ok.
Qed.
