(* ===== verification/PayrollFixture.v ===== *)
(** * A small payroll, for the witnesses

    One cashier hired, paid by the hour and clocked for a day at store 1; a week
    of payroll with an income tax, a health contribution and its employer's
    share, calculated, approved, posted. *)

From Stdlib Require Import QArith.
From S2P Require Import Prelude Fixed Session Schema Tables Platform EffectiveDated Workforce WorkforceInvariant.
From S2P Require Import Chart Fixture Journal Posting Payroll PayPeriods.

#[local] Open Scope Z_scope.

Definition utc_zone (zone : string) : option (Z -> Z) :=
  if (zone =? "UTC")%string then Some (fun _ => 0) else None.

Definition demo_hire : EmployeeHireInput :=
  {| hi_employee_number := "E-1"; hi_legal_name := "Ada Reyes"; hi_hire_date := 20200; hi_store_id := 1;
     hi_display_name := None; hi_user_id := Some 1; hi_department_id := None; hi_position_id := None;
     hi_manager_employee_id := None |}.

Definition demo_wage : CompensationInputs :=
  {| ci_pay_type := "HOURLY"; ci_rate := 20 # 1; ci_pay_frequency := "WEEKLY"; ci_overtime_eligible := true;
     ci_currency := "USD" |}.

(** 9:00 on day 20250, in microseconds. *)
Definition nine : Z := 20250 * microseconds_per_day + 9 * microseconds_per_hour.

Definition percent_of_gross (p : Q) : Parameters :=
  {| param_amount := None; param_percent := Some p; param_brackets := None |}.

(** The database with the deductions of the country. *)
Definition payroll_database : database :=
  over_deduction_rates (fun _ =>
    [{| dr_type_id := 1; dr_calculation_method := "PERCENT_OF_GROSS"; dr_parameters := percent_of_gross (10 # 1);
        dr_from := 20000; dr_to := None |};
     {| dr_type_id := 2; dr_calculation_method := "PERCENT_OF_GROSS"; dr_parameters := percent_of_gross (5 # 1);
        dr_from := 20000; dr_to := None |}])
  (over_deduction_types (fun _ =>
    [{| deduction_code := "TAX"; deduction_category := DC_EMPLOYEE; deduction_is_active := true |};
     {| deduction_code := "PENSION"; deduction_category := DC_EMPLOYER_CONTRIBUTION;
        deduction_is_active := true |}]) demo_database).

Definition payroll_demo : session database := session_on payroll_database.

Definition demo_hired : session database :=
  after (run_hr_op utc_zone (H_hire demo_hire (Some 2) None)) payroll_demo.

Definition demo_staffed : session database :=
  let s := after (run_hr_op utc_zone (H_compensate 1 20200 demo_wage (Some 2) None)) demo_hired in
  let s := after (run_hr_op utc_zone (H_clock_in 1 1 nine "CLOCK" (Some 1) (Some 1))) s in
  after (run_hr_op utc_zone (H_clock_out 1 (nine + 8 * microseconds_per_hour) (Some 1) (Some 1))) s.

Definition demo_week : PayrollPeriodInput :=
  {| ppi_store_id := 1; ppi_period_start := 20247; ppi_period_end := 20253; ppi_pay_date := 20255;
     ppi_payroll_run_id := None |}.

Definition demo_period_open : session database :=
  let s := after (run_payroll_op (PR_create demo_week (Some 2) (Some 1))) demo_staffed in
  after (run_payroll_op (PR_open 1 (Some 2) (Some 1))) s.

Definition calculate_demo : payroll_op := PR_calculate 1 (Some 2) (Some 1) (Some "calc-1"%string).
Definition post_demo : payroll_op := PR_post 1 (Some 2) (Some 1) (Some "post-1"%string).
Definition reverse_demo : payroll_op := PR_reverse 1 "wrong rate" (Some 2) (Some 1).

Definition demo_calculated : session database := after (run_payroll_op calculate_demo) demo_period_open.
Definition demo_approved : session database :=
  after (run_payroll_op (PR_approve 1 (Some 2) (Some 1))) demo_calculated.
Definition demo_posted_pay : session database := after (run_payroll_op post_demo) demo_approved.
Definition demo_reversed_pay : session database := after (run_payroll_op reverse_demo) demo_posted_pay.

(** Nobody on the books yet. *)
Lemma no_staff_wf d : staff_tables d = ([], [], [], [], []) -> staff_wf d.
Proof.
  intros [= E1 E2 E3 E4 E5].
  assert (Hr : forall {R} (k : Z) (r : R), row_of [] k = Some r -> False)
    by (intros R k r; unfold row_of; by destruct (0 <? k)).
  constructor; rewrite ?E1, ?E2, ?E3, ?E4, ?E5; try done.
  - intros e emp He. by apply Hr in He.
  - split; intros i r Hi; by apply Hr in Hi.
  - constructor; intros i; try (intros r Hi; by apply Hr in Hi).
    + intros j a b Ha. by apply Hr in Ha.
    + intros j a b o Ha. by apply Hr in Ha.
Qed.

Lemma hr_demo_ok uo op s k :
  staff_wf (working s) -> (run_hr_op uo op s).1 = Ok k -> staff_wf (working (after (run_hr_op uo op) s)).
Proof. intros Hs H%after_ok. by eapply hr_op_ok. Qed.

Lemma demo_hired_staff : staff_wf (working demo_hired).
Proof. apply (hr_demo_ok _ _ _ 1); [by apply no_staff_wf|vm_compute; reflexivity]. Qed.

Lemma demo_staffed_staff : staff_wf (working demo_staffed).
Proof.
  unfold demo_staffed. cbv zeta.
  do 3 (apply (hr_demo_ok _ _ _ 1); [|vm_compute; reflexivity]). exact demo_hired_staff.
Qed.
