(* ===== verification/WorkforceProperties.v ===== *)
(** * What the personnel records promise

    The abstract specification of the effective-dated histories - a value on
    every day - and that the operations implement it; the working time of an
    employee in a window of time; the work date of a shift. *)

From Stdlib Require Import QArith.
From S2P Require Import Prelude Fixed Session Schema Tables Platform EffectiveDated Workforce WorkforceInvariant.
From S2P Require Import Chart Fixture Journal Posting Payroll PayPeriods PayrollFixture.

#[local] Open Scope Z_scope.

(** ** Timelines *)

(** What the records of a history are about, without their dates. *)
Definition place_of (a : EmploymentAssignment) : Reassignment :=
  {| ra_store_id := ea_store_id a; ra_department_id := ea_department_id a;
     ra_position_id := ea_position_id a; ra_manager_employee_id := manager_employee_id a |}.

Definition terms_of (c : CompensationPeriod) : string * Z * string * bool * string :=
  (cp_pay_type c, cp_rate c, pay_frequency c, cp_overtime_eligible c, cp_currency c).

Definition terms_of_inputs (c : CompensationInputs) : string * Z * string * bool * string :=
  (ci_pay_type c, stored_rate (ci_rate c), ci_pay_frequency c, ci_overtime_eligible c, ci_currency c).

(** What the database says about an employee on a day. *)
Definition status_on (d : database) (e day : Z) : list EmploymentStatus :=
  map esp_status (on_day (status_periods d) e day).
Definition placed_on (d : database) (e day : Z) : list Reassignment :=
  map place_of (on_day (assignments d) e day).
Definition paid_on (d : database) (e day : Z) : list (string * Z * string * bool * string) :=
  map terms_of (on_day (compensations d) e day).

(** The abstract change: [v] from a day on, and the past as it was. *)
Definition from_day {V} (e from : Z) (v : V) (tl : Z -> Z -> list V) : Z -> Z -> list V :=
  fun e' day => if (e' =? e) && (from <=? day) then [v] else tl e' day.

(** What each operation does to the three timelines. *)
Definition status_spec (op : hr_op) (k : Z) : (Z -> Z -> list EmploymentStatus) -> Z -> Z -> list EmploymentStatus :=
  match op with
  | H_hire data _ _ => from_day k (hi_hire_date data) ES_ACTIVE
  | H_status e name from _ _ _ =>
      match parse_enum EMPLOYMENT_STATUSES name with Some st => from_day e from st | None => fun tl => tl end
  | _ => fun tl => tl
  end.

Definition place_spec (op : hr_op) (k : Z) : (Z -> Z -> list Reassignment) -> Z -> Z -> list Reassignment :=
  match op with
  | H_hire data _ _ => from_day k (hi_hire_date data)
      {| ra_store_id := hi_store_id data; ra_department_id := hi_department_id data;
         ra_position_id := hi_position_id data; ra_manager_employee_id := hi_manager_employee_id data |}
  | H_reassign e from a _ _ => from_day e from a
  | _ => fun tl => tl
  end.

Definition terms_spec (op : hr_op) :
    (Z -> Z -> list (string * Z * string * bool * string)) -> Z -> Z -> list (string * Z * string * bool * string) :=
  match op with
  | H_compensate e from c _ _ => from_day e from (terms_of_inputs c)
  | _ => fun tl => tl
  end.

(** The first row of a history. *)
Lemma first_timeline {R V} `{Dated R} (val : R -> V) (t : list R) (new : R) e day :
  history (holder new) t = [] -> until new = None ->
  map val (on_day (t ++ [new]) e day)
  = from_day (holder new) (since new) (val new) (fun e day => map val (on_day t e day)) e day.
Proof.
  intros Hn Hu. unfold from_day, on_day. rewrite history_app, List.filter_app, map_app.
  assert (En : in_effect day new = (since new <=? day)).
  { unfold in_effect, upto_opt. rewrite Hu. simpl. by rewrite andb_true_r. }
  unfold history at 2. simpl. destruct (Z.eqb_spec (holder new) e) as [<-|Hne].
  - rewrite Hn, Z.eqb_refl. simpl. rewrite En. by destruct (since new <=? day).
  - destruct (Z.eqb_spec e (holder new)); [by subst|]. simpl. by rewrite app_nil_r.
Qed.

Lemma place_of_new e from a actor : place_of (new_assignment e from a actor) = a.
Proof. by destruct a. Qed.

(** C12: The personnel operations implement the timelines: hiring somebody makes
    them active, and places them, from the hire date on; a status change, a
    reassignment and a change of pay decide every day from their effective date
    on - whatever was planned for those days - and no day before it, and nobody
    else's; every other operation changes none of the three. *)
Theorem hr_refines_timelines uo op s k s' e day :
  staff_wf (working s) -> run_hr_op uo op s = (Ok k, s') ->
  status_on (working s') e day = status_spec op k (status_on (working s)) e day /\
  placed_on (working s') e day = place_spec op k (placed_on (working s)) e day /\
  paid_on (working s') e day = terms_spec op (paid_on (working s)) e day.
Proof.
  intros [H1 H2 H3 H4 [H5 H6] _] H. unfold status_on, placed_on, paid_on. destruct op; simpl in H |- *.
  - unfold create_department in H. apply committing_ok in H as (s1 & H & -> & _).
    apply bind_ok in H as (i & s2 & E & H). apply or_conflict_ok in E.
    apply add_ok in E as (-> & _ & _ & ->). peel H with log_event_ok as ->. by apply ret_ok in H as [_ <-].
  - unfold create_position in H. apply committing_ok in H as (s1 & H & -> & _).
    peel H with check_reference_ok as [_ ->]. peel H with add_ok as (-> & _ & _ & ->).
    peel H with log_event_ok as ->. by apply ret_ok in H as [_ <-].
  - apply hire_employee_ok in H as (log & _ & -> & _ & -> & _).
    assert (N1 : history (next_id (employees (working s))) (status_periods (working s)) = [])
      by (apply (unknown_no_history _ (employees (working s))); [exact H5|apply row_of_next_id]).
    assert (N2 : history (next_id (employees (working s))) (assignments (working s)) = [])
      by (apply (unknown_no_history _ (employees (working s))); [exact H6|apply row_of_next_id]).
    split_and!; [|..|done].
    + exact (first_timeline esp_status _ (first_status data actor _) e day N1 eq_refl).
    + exact (first_timeline place_of _ (first_assignment data actor _) e day N2 eq_refl).
  - apply change_status_ok in H as (st & i & r & log & -> & _ & _ & Hs & _ & Hf & -> & _).
    split_and!; [|done..].
    exact (supersede_timeline esp_status _ _ i r (mkStatusPeriod employee st from None reason actor) e day
      Hs H1 eq_refl Hf eq_refl (fun _ _ => eq_refl)).
  - apply reassign_ok in H as (i & r & log & _ & Hs & _ & _ & Hf & -> & _).
    split_and!; [done| |done]. unfold from_day. rewrite <- (place_of_new employee from a actor).
    exact (supersede_timeline place_of _ _ i r (new_assignment employee from a actor) e day
      Hs H2 eq_refl Hf eq_refl (fun _ _ => eq_refl)).
  - apply change_compensation_ok in H as (log & _ & _ & _ & _ & _ & [(Hs & _ & ->)|(i & r & Hs & Hf & ->)]);
      (split_and!; [done|done|]).
    + apply no_open_row, (chained_no_open _ (H3 employee)) in Hs.
      exact (first_timeline terms_of _ (new_compensation employee from c actor) e day Hs eq_refl).
    + exact (supersede_timeline terms_of _ _ i r (new_compensation employee from c actor) e day
        Hs H3 eq_refl Hf eq_refl (fun _ _ => eq_refl)).
  - by apply clock_in_ok in H as (? & ? & ? & ? & ? & log & _ & _ & _ & _ & _ & _ & _ & _ & -> & _).
  - by apply clock_out_ok in H as (? & ? & log & _ & _ & _ & _ & _ & -> & _).
  - by apply correct_attendance_ok in H as (? & ? & ? & ? & log & _ & _ & _ & _ & _ & _ & _ & _ & _ & -> & _).
Qed.

(** ** Working time *)

(** A closed shift of [e] between two instants, in any store. *)
Definition worked_between (e from to : Z) (r : AttendanceRecord) : bool :=
  (ar_employee_id r =? e) && bool_decide (ar_status r = ATT_CLOSED)
  && (from <=? clock_in_at r) && opt_all (fun o => o <=? to) (clock_out_at r).

(** Apart in a list, position by position. *)
Lemma pairwise_ordered (u : AttendanceRecord -> AttendanceRecord -> bool) r t :
  pairwise u (r :: t) -> (forall x, x ∈ t -> u r x = false) /\ pairwise u t.
Proof.
  intros H.
  assert (Hs : forall k, 0 < k -> row_of (r :: t) (k + 1) = row_of t k).
  { intros k Hk. unfold row_of. destruct (Z.ltb_spec 0 (k + 1)); [|lia]. destruct (Z.ltb_spec 0 k); [|lia].
    replace (Z.to_nat (k + 1 - 1)) with (S (Z.to_nat (k - 1))) by lia. done. }
  split.
  - intros x (k & Hk)%elem_row_of. pose proof (row_of_range _ _ _ Hk).
    apply (H 1 (k + 1)); [done| |lia]. rewrite Hs; [done|lia].
  - intros i j a b Ha Hb Hij. pose proof (row_of_range _ _ _ Ha). pose proof (row_of_range _ _ _ Hb).
    apply (H (i + 1) (j + 1)); [rewrite Hs by lia..|lia]; done.
Qed.

(** A shift of the same employee lies before or after a given one. *)
Lemma worked_apart e from to r x o :
  ar_employee_id r = e -> ar_status r = ATT_CLOSED -> clock_out_at r = Some o ->
  shift_times_ok x -> shifts_clash r x = false ->
  worked_between e from to x = true ->
  worked_between e from (clock_in_at r) x = true \/ worked_between e o to x = true.
Proof.
  intros He Hs Ho Hx Hc Hw. unfold worked_between in *. bools. unfold shift_times_ok in Hx.
  unfold shifts_clash, times_overlap in Hc. rewrite Hs, Ho in Hc.
  match goal with E : ar_status x = ATT_CLOSED |- _ => rewrite E in * end.
  destruct Hx as (o' & Ho' & Hlt). rewrite Ho' in *. simpl in *.
  assert (E : (ar_employee_id r =? ar_employee_id x) = true) by lia. rewrite E in Hc. simpl in Hc.
  apply andb_false_iff in Hc as [Hc|Hc]; [left|right]; lia.
Qed.

Lemma worked_within (t : list AttendanceRecord) e from to :
  (forall r, r ∈ t -> shift_times_ok r) -> pairwise shifts_clash t -> from <= to ->
  0 <= sum_where (worked_between e from to) shift_length t <= to - from.
Proof.
  revert from to. induction t as [|r t IH]; intros from to Ht Hp Hle; [rewrite sum_where_nil; lia|].
  apply pairwise_ordered in Hp as [Hr Hp]. assert (Ht' : forall x, x ∈ t -> shift_times_ok x) by set_solver.
  rewrite sum_where_cons. destruct (worked_between e from to r) eqn:Hw; [|by apply IH].
  assert (Hw' := Hw). unfold worked_between in Hw. bools.
  assert (Hrt : shift_times_ok r) by set_solver. unfold shift_times_ok in Hrt.
  match goal with E : ar_status r = ATT_CLOSED |- _ => rewrite E in Hrt end.
  destruct Hrt as (o & Ho & Hlt).
  assert (Et : shift_length r = o - clock_in_at r) by (unfold shift_length; by rewrite Ho).
  rewrite Ho in *. rewrite Et. simpl in *.
  assert (B1 := IH from (clock_in_at r) Ht' Hp ltac:(lia)). assert (B2 := IH o to Ht' Hp ltac:(lia)).
  assert (sum_where (worked_between e from to) shift_length t
    <= sum_where (worked_between e from (clock_in_at r)) shift_length t
       + sum_where (worked_between e o to) shift_length t); [|pose proof (IH from to Ht' Hp ltac:(lia)); lia].
  clear B1 B2 IH Hp. induction t as [|x t IHt]; [rewrite !sum_where_nil; lia|].
  rewrite !sum_where_cons. assert (Hx : shift_times_ok x) by set_solver.
  assert (Hn : forall a b, worked_between e a b x = true -> 0 <= shift_length x).
  { intros a b Hb. unfold worked_between in Hb. bools. unfold shift_times_ok in Hx.
    match goal with E : ar_status x = ATT_CLOSED |- _ => rewrite E in Hx end.
    unfold shift_length. destruct Hx as (o' & -> & ?). lia. }
  assert (Hs : worked_between e from to x = true ->
    worked_between e from (clock_in_at r) x = true \/ worked_between e o to x = true)
    by (apply (worked_apart e from to r x o); [lia|done|done|done|apply Hr; set_solver]).
  assert (IHt' : sum_where (worked_between e from to) shift_length t
    <= sum_where (worked_between e from (clock_in_at r)) shift_length t
       + sum_where (worked_between e o to) shift_length t) by (apply IHt; set_solver).
  pose proof (Hn from to). pose proof (Hn from (clock_in_at r)). pose proof (Hn o to).
  destruct (worked_between e from to x), (worked_between e from (clock_in_at r) x), (worked_between e o to x);
    try (destruct Hs; done); lia.
Qed.

(** C19: The hours a payroll calculation reads for an employee are real ones: a
    person is in one place at a time, so when the shifts of a range of work
    dates all lie between two instants, the hours summed for the range are at
    most the time between those instants - whichever corrections were made. *)
Theorem attendance_hours_bounded d e store first_day last_day from to :
  staff_wf d -> from <= to ->
  (forall i r, row_of (attendance_records d) i = Some r -> attended e store first_day last_day r = true ->
     from <= clock_in_at r /\ forall o, clock_out_at r = Some o -> o <= to) ->
  (0 <= sum_attendance_hours d e store first_day last_day <= (to - from) # Z.to_pos microseconds_per_hour)%Q.
Proof.
  intros Hw Hle Hin. pose proof (st_attendance _ Hw) as Ha.
  assert (Ht : forall r, r ∈ attendance_records d -> shift_times_ok r)
    by (intros r (i & Hi)%elem_row_of; by eapply at_times).
  pose proof (worked_within (attendance_records d) e from to Ht (at_apart _ Ha) Hle) as Hb.
  assert (0 <= sum_where (attended e store first_day last_day) shift_length (attendance_records d)
    <= sum_where (worked_between e from to) shift_length (attendance_records d)) as Hs.
  { assert (Hsub : forall r, r ∈ attendance_records d -> attended e store first_day last_day r = true ->
      worked_between e from to r = true /\ 0 <= shift_length r).
    { intros r Hr Hat. pose proof (Ht r Hr) as Hok. apply elem_row_of in Hr as (i & Hi).
      destruct (Hin i r Hi Hat) as [Hf Ho]. unfold attended in Hat. bools. unfold shift_times_ok in Hok.
      match goal with E : ar_status r = ATT_CLOSED |- _ => rewrite E in Hok end.
      destruct Hok as (o & Hout & Hlt). specialize (Ho o Hout). unfold worked_between, shift_length. rewrite Hout.
      simpl. rewrite bool_decide_eq_true_2 by done. lia. }
    assert (Hnn : forall r, r ∈ attendance_records d -> worked_between e from to r = true -> 0 <= shift_length r).
    { intros r Hr Hwb. pose proof (Ht r Hr) as Hok. unfold worked_between in Hwb. bools.
      unfold shift_times_ok in Hok. match goal with E : ar_status r = ATT_CLOSED |- _ => rewrite E in Hok end.
      unfold shift_length. destruct Hok as (o & -> & ?). lia. }
    clear Hb Hin Ht Ha Hw. unfold sum_where. split.
    - apply sum_by_nonneg. intros r Hr. destruct (attended _ _ _ _ r) eqn:E; [|lia]. by apply Hsub.
    - apply sum_by_le. intros r Hr. destruct (attended _ _ _ _ r) eqn:E.
      + destruct (Hsub r Hr E) as [-> _]. lia.
      + destruct (worked_between e from to r) eqn:E2; [|lia]. by apply Hnn. }
  unfold sum_attendance_hours, Qle. simpl. lia.
Qed.

(** ** The work date *)

(** The work date of a shift is the calendar date, in the store's zone, of
    the clock-in moved back by the store's boundary hour: a shift that starts
    after midnight and before the boundary counts for the day before, and an
    unknown zone has no work date. *)
Theorem work_date_shifted (utc_offset : string -> option (Z -> Z)) at_ zone boundary :
  0 <= boundary < 24 ->
  resolve_work_date utc_offset at_ zone boundary
  = (fun offset => (at_ + offset at_ - boundary * microseconds_per_hour) / microseconds_per_day)
      <$> utc_offset zone.
Proof.
  intros Hb. unfold resolve_work_date. destruct (utc_offset zone) as [offset|]; [|done]. simpl. f_equal.
  set (local := at_ + offset at_). unfold microseconds_per_day, microseconds_per_hour.
  pose proof (Z.div_mod local (24 * 3600000000) ltac:(lia)) as Hd.
  pose proof (Z.mod_pos_bound local (24 * 3600000000) ltac:(lia)) as Hr.
  set (q := local / _) in *. set (r := local mod _) in *.
  destruct (Z.ltb_spec (r / 3600000000) boundary) as [Hlt|Hge].
  - assert (r < boundary * 3600000000).
    { destruct (Z.lt_ge_cases r (boundary * 3600000000)); [done|].
      assert (boundary <= r / 3600000000) by (apply Z.div_le_lower_bound; lia). lia. }
    apply Z.div_unique with (r := r - boundary * 3600000000 + 24 * 3600000000); lia.
  - assert (boundary * 3600000000 <= r) by (pose proof (Z.mul_div_le r 3600000000); lia).
    apply Z.div_unique with (r := r - boundary * 3600000000); lia.
Qed.

(** ** The example *)

Definition goes_on_leave : hr_op :=
  H_status 1 "ON_LEAVE" 20300 (Some "parental"%string) (Some 2) (Some 1).

Lemma hr_refines_timelines_witness :
  let s' := after (run_hr_op utc_zone goes_on_leave) demo_hired in
  status_on (working s') 1 20299 = [ES_ACTIVE] /\ status_on (working s') 1 20300 = [ON_LEAVE] /\
  status_on (working s') 1 20199 = [].
Proof.
  intros s'. assert (H : run_hr_op utc_zone goes_on_leave demo_hired = (Ok 2, s'))
    by (refine (after_ok (run_hr_op utc_zone goes_on_leave) demo_hired 2 _); vm_compute; reflexivity).
  destruct (hr_refines_timelines utc_zone goes_on_leave demo_hired 2 s' 1 20299 demo_hired_staff H) as [E1 _].
  destruct (hr_refines_timelines utc_zone goes_on_leave demo_hired 2 s' 1 20300 demo_hired_staff H) as [E2 _].
  destruct (hr_refines_timelines utc_zone goes_on_leave demo_hired 2 s' 1 20199 demo_hired_staff H) as [E3 _].
  split_and!; [rewrite E1|rewrite E2|rewrite E3]; vm_compute; reflexivity.
Defined.

Definition start_of_day (day : Z) : Z := day * microseconds_per_day.

Lemma attendance_hours_bounded_witness :
  (sum_attendance_hours (working demo_staffed) 1 1 20247 20253 == 8 # 1)%Q /\
  (0 <= sum_attendance_hours (working demo_staffed) 1 1 20247 20253
   <= (start_of_day 20251 - start_of_day 20250) # Z.to_pos microseconds_per_hour)%Q.
Proof.
  split; [vm_compute; reflexivity|].
  assert (Hle : start_of_day 20250 <= start_of_day 20251) by (vm_compute; discriminate).
  apply (attendance_hours_bounded (working demo_staffed) 1 1 20247 20253
    (start_of_day 20250) (start_of_day 20251) demo_staffed_staff Hle).
  assert (F : forallb (fun r => (start_of_day 20250 <=? clock_in_at r)
      && opt_all (fun o => o <=? start_of_day 20251) (clock_out_at r)) (attendance_records (working demo_staffed))
    = true) by (vm_compute; reflexivity).
  rewrite forallb_forall in F. intros i r Hr%row_of_elem%list_elem_of_In _. specialize (F r Hr).
  apply andb_true_iff in F as [F1%Z.leb_le F2]. split; [exact F1|]. intros o Ho. rewrite Ho in F2.
  exact (proj1 (Z.leb_le _ _) F2).
Defined.

(** A shift that starts at 02:30 in a store whose day begins at 04:00. *)
Lemma work_date_shifted_witness :
  0 <= 4 < 24 /\
  resolve_work_date utc_zone (20250 * microseconds_per_day + 9000000000) "UTC" 4 = Some 20249.
Proof.
  split; [lia|]. rewrite (work_date_shifted utc_zone (20250 * microseconds_per_day + 9000000000) "UTC" 4 ltac:(lia)).
  vm_compute. reflexivity.
Defined.
