(* ===== verification/PayPeriodProperties.v ===== *)
(** * What a payroll run promises

    The calculation as a function of the records it reads, the life cycle of a
    period, posting and reversal on the books, and retries. *)

From Stdlib Require Import QArith.
From S2P Require Import Prelude Fixed Session Schema Tables Platform EffectiveDated Workforce WorkforceInvariant.
From S2P Require Import Chart Fixture Journal Posting Books Payroll PayPeriods PayPeriodOps PayPeriodInvariant.
From S2P Require Import PayrollFixture.

#[local] Open Scope Z_scope.

(** ** Calculation *)





(** ** The life cycle *)

Inductive period_edge : PayrollPeriodStatus -> PayrollPeriodStatus -> Prop :=
  | edge_open : period_edge PP_DRAFT PP_OPEN
  | edge_calculate : period_edge PP_OPEN PP_CALCULATED
  | edge_recalculate : period_edge PP_CALCULATED PP_CALCULATED
  | edge_approve : period_edge PP_CALCULATED PP_APPROVED
  | edge_post : period_edge PP_APPROVED PP_POSTED
  | edge_cancel st : st ∈ _CANCELLABLE_STATUSES -> period_edge st PP_CANCELLED.

Definition same_terms (p p' : PayrollPeriod) : Prop :=
  pp_store_id p' = pp_store_id p /\ pp_start p' = pp_start p /\ pp_end p' = pp_end p /\ pay_date p' = pay_date p.

Lemma posted_elsewhere i l : (forall r, r ∈ l -> live_results i r = false) -> posted_results i l = l.
Proof.
  intros H. unfold posted_results. rewrite <- (List.map_id l) at 2. apply map_ext_in.
  intros r Hr%list_elem_of_In. by rewrite H.
Qed.

(** One period takes a step of the cycle, or none does. *)
Lemma one_period_steps i f d t j p :
  row_of d i = Some p -> t = set_row i f d -> same_terms p (f p) -> period_edge (pp_status p) (pp_status (f p)) ->
  forall q, row_of d j = Some q -> exists q', row_of t j = Some q' /\ same_terms q q' /\
    ((j <> i /\ q' = q) \/ (j = i /\ period_edge (pp_status q) (pp_status q'))).
Proof.
  intros Hi -> Hsame He q Hq. destruct (decide (j = i)) as [->|Hne].
  - rewrite Hi in Hq. injection Hq as <-. exists (f p). rewrite row_of_set, bool_decide_eq_true_2, Hi by done. auto.
  - exists q. rewrite row_of_set_ne by done. split; [done|]. split; [done|]. by left.
Qed.

(** C16: A payroll period goes DRAFT, OPEN, CALCULATED (as often as it is
    recalculated), APPROVED, POSTED, or is cancelled before it is posted, and an
    operation moves at most one period by one step: its store and its dates
    never change, no period disappears, and a posted or cancelled period keeps
    every attribute and every result for good. *)
Theorem payroll_transitions op s k s' i p :
  payroll_wf (working s) -> run_payroll_op op s = (Ok k, s') ->
  row_of (payroll_periods (working s)) i = Some p ->
  exists p', row_of (payroll_periods (working s')) i = Some p' /\ same_terms p p' /\
    (p' = p \/ (k = i /\ period_edge (pp_status p) (pp_status p'))) /\
    (pp_status p = PP_POSTED \/ pp_status p = PP_CANCELLED ->
     p' = p /\ period_results (working s') i = period_results (working s) i).
Proof.
  intros Hw H Hp.
  assert (Hnone : forall d, payroll_periods d = payroll_periods (working s) ->
    payroll_results d = payroll_results (working s) ->
    exists p', row_of (payroll_periods d) i = Some p' /\ same_terms p p' /\
    (p' = p \/ (k = i /\ period_edge (pp_status p) (pp_status p'))) /\
    (pp_status p = PP_POSTED \/ pp_status p = PP_CANCELLED ->
     p' = p /\ period_results d i = period_results (working s) i)).
  { intros d E1 E2. exists p. unfold period_results. rewrite E1, E2. split_and!; auto; done. }
  assert (Hstep : forall j q f d, j = k -> row_of (payroll_periods (working s)) j = Some q ->
    payroll_periods d = set_row j f (payroll_periods (working s)) -> same_terms q (f q) ->
    period_edge (pp_status q) (pp_status (f q)) ->
    (i <> j -> period_results d i = period_results (working s) i) ->
    exists p', row_of (payroll_periods d) i = Some p' /\ same_terms p p' /\
    (p' = p \/ (k = i /\ period_edge (pp_status p) (pp_status p'))) /\
    (pp_status p = PP_POSTED \/ pp_status p = PP_CANCELLED ->
     p' = p /\ period_results d i = period_results (working s) i)).
  { intros j q f d -> Hq Ed Hs He Hr.
    destruct (one_period_steps k f _ _ i q Hq Ed Hs He p Hp) as (p' & Hp' & Hs' & [[Hne ->]|[-> He']]).
    - exists p. split_and!; auto.
    - exists p'. split_and!; auto. intros Hterm. exfalso. clear - He' Hterm.
      destruct Hterm as [E|E]; rewrite E in He'; inversion He' as [| | | | |? Hin]; subst;
        unfold _CANCELLABLE_STATUSES in Hin; set_solver. }
  destruct op; simpl in H.
  - apply create_payroll_period_ok in H as (log & _ & _ & _ & -> & _). exists p. split_and!; auto; try done.
    by apply row_of_app_old.
  - apply open_payroll_period_ok in H as (-> & q & Hq & _ & [[_ ->]|(Hs & [log E] & _)]); [by apply Hnone|].
    apply (Hstep period q (with_pp_status PP_OPEN)); rewrite ?E; try done. rewrite Hs. constructor.
  - apply calculate_payroll_period_ok in H as (-> & [[-> _]|(q & a & rows & _ & _ & Hc & _)]);
      [by apply Hnone| |exact (pw_single _ Hw)].
    pose proof (ca_status _ _ _ _ _ _ _ _ Hc) as Hs.
    refine (Hstep period q _ _ eq_refl (ca_period _ _ _ _ _ _ _ _ Hc) (ca_periods _ _ _ _ _ _ _ _ Hc) _ _ _); [done| |].
    + unfold _CALCULABLE_STATUSES in Hs. simpl.
      apply elem_of_cons in Hs as [->|[->|[]%elem_of_nil]%elem_of_cons]; constructor.
    + intros Hne. by rewrite (calculated_results _ _ _ _ _ _ _ _ i Hc), bool_decide_eq_false_2.
  - apply approve_payroll_period_ok in H as (-> & q & Hq & _ & [[_ ->]|(Hs & (a & at_ & _ & _ & _ & [log E]) & _)]);
      [by apply Hnone|].
    apply (Hstep period q (period_approved a (utc_now (env s)))); rewrite ?E; try done. rewrite Hs. constructor.
  - apply cancel_payroll_period_ok in H as (-> & _ & q & Hq & _ & [[_ ->]|(Hs & [log E] & _)]); [by apply Hnone|].
    apply (Hstep period q (with_pp_status PP_CANCELLED)); rewrite ?E; try done. by constructor.
  - apply post_payroll_period_ok in H as (-> & q & Hq & [[-> _]|(a & j & _ & _ & Ho & _)]); [by apply Hnone|].
    refine (Hstep period q _ _ eq_refl (po_period _ _ _ _ _ _ _ _ Ho) (po_periods _ _ _ _ _ _ _ _ Ho) _ _ _); [done| |].
    + rewrite (po_status _ _ _ _ _ _ _ _ Ho). constructor.
    + intros Hne. rewrite (posted_period_results _ _ _ _ _ _ _ _ i Ho). apply posted_elsewhere.
      intros r (_ & _ & Hr)%live_in. unfold live_results. destruct (Z.eqb_spec (per_period_id r) period); [congruence|].
      by rewrite andb_false_r.
  - apply reverse_payroll_period_ok in H as (-> & _ & q & a & Hq & _ & _ & _ & [[-> _]|(j & Ho & _)]); [by apply Hnone|].
    apply Hnone; [exact (rv_periods _ _ _ _ _ _ _ _ Ho)|exact (rv_results _ _ _ _ _ _ _ _ Ho)].
Qed.

(** ** Posting and reversal *)

(** The net of a posted period on each account. *)
Lemma period_net p :
  0 <= pp_gross p -> 0 <= pp_deductions p -> 0 <= pp_net_pay p ->
  spec_net (period_lines p) ACCOUNT_WAGE_SALARY_EXPENSE = ledger_of_money (pp_gross p) /\
  spec_net (period_lines p) ACCOUNT_PAYROLL_PAYABLE = - ledger_of_money (pp_net_pay p) /\
  spec_net (period_lines p) ACCOUNT_BENEFIT_DEDUCTION_PAYABLE = - ledger_of_money (pp_deductions p) /\
  spec_net (period_lines p) ACCOUNT_EMPLOYER_CONTRIBUTION_EXPENSE
    = ledger_of_money (Z.max 0 (pp_employer_contributions p)) /\
  spec_net (period_lines p) ACCOUNT_EMPLOYER_CONTRIBUTION_PAYABLE
    = - ledger_of_money (Z.max 0 (pp_employer_contributions p)).
Proof.
  intros H1 H2 H3. unfold period_lines, _payroll_journal_lines.
  split_and!; autorewrite with spec_net; rewrite ?on_account_same; rewrite ?on_account_other by done;
    unfold ledger_of_money; destruct (Z.ltb_spec 0 (pp_employer_contributions p)),
      (Z.ltb_spec 0 (pp_gross p)), (Z.ltb_spec 0 (pp_net_pay p)), (Z.ltb_spec 0 (pp_deductions p)); lia.
Qed.

Lemma sum_pay_nonneg l : Forall amounts_ok l ->
  0 <= gross_pay (sum_pay l) /\ 0 <= total_deductions (sum_pay l) /\ 0 <= net_pay (sum_pay l) /\
  net_pay (sum_pay l) = gross_pay (sum_pay l) - total_deductions (sum_pay l).
Proof.
  intros F. rewrite Forall_forall in F. unfold sum_pay. simpl.
  split_and!; try (apply sum_by_nonneg; intros r Hr; by apply F).
  rewrite <- sum_by_sub. apply sum_by_ext. intros r Hr. by apply F.
Qed.

Lemma period_results_ok d i : payroll_wf d -> Forall amounts_ok (period_results d i).
Proof.
  intros Hw. apply Forall_forall. intros r (Hr & Hdel & _)%live_in. by apply (pw_result _ Hw r Hr Hdel).
Qed.

(** Nobody posted it under this key before. *)
Definition unposted (d : database) (i : Z) (key : option string) (p : PayrollPeriod) : Prop :=
  row_of (payroll_periods d) i = Some p /\ pp_status p = PP_APPROVED /\
  forall c, key = Some c -> posting_client_transaction_id p <> Some c.

Lemma fresh_post i actor caller key s k s' p :
  unposted (working s) i key p -> post_payroll_period i actor caller key s = (Ok k, s') ->
  exists a j, posted_pay i p a (utc_now (env s)) key j (working s) (working s') /\ committed s' = working s'.
Proof.
  intros (Hp & Hst & Hk) H. apply post_payroll_period_ok in H as (_ & q & Hq & H). rewrite Hp in Hq. injection Hq as <-.
  destruct H as [(_ & [[E _]|(c & Hc & E)])|(a & j & _ & _ & Ho & Hcom)]; [congruence|by destruct (Hk c Hc)|eauto].
Qed.

(** C14: Posting an approved period writes one journal entry, dated on the pay
    date in the store of the period: wages are debited with the gross pay of its
    results, net pay and employee deductions are credited, and the employer's
    contributions are expensed and owed; the period is POSTED with the entry,
    its results are final with the amounts they had; it succeeds only when no
    closed accounting period covers the pay date. *)
Theorem post_payroll_period_effect i actor caller key s k s' p :
  payroll_wf (working s) -> unposted (working s) i key p ->
  post_payroll_period i actor caller key s = (Ok k, s') ->
  let d := working s in let d' := working s' in let pay := sum_pay (period_results d i) in
  account_balance d' ACCOUNT_WAGE_SALARY_EXPENSE
    = account_balance d ACCOUNT_WAGE_SALARY_EXPENSE + ledger_of_money (gross_pay pay) /\
  account_balance d' ACCOUNT_PAYROLL_PAYABLE
    = account_balance d ACCOUNT_PAYROLL_PAYABLE - ledger_of_money (net_pay pay) /\
  account_balance d' ACCOUNT_BENEFIT_DEDUCTION_PAYABLE
    = account_balance d ACCOUNT_BENEFIT_DEDUCTION_PAYABLE - ledger_of_money (total_deductions pay) /\
  account_balance d' ACCOUNT_EMPLOYER_CONTRIBUTION_EXPENSE
    = account_balance d ACCOUNT_EMPLOYER_CONTRIBUTION_EXPENSE
      + ledger_of_money (Z.max 0 (total_employer_contributions pay)) /\
  account_balance d' ACCOUNT_EMPLOYER_CONTRIBUTION_PAYABLE
    = account_balance d ACCOUNT_EMPLOYER_CONTRIBUTION_PAYABLE
      - ledger_of_money (Z.max 0 (total_employer_contributions pay)) /\
  (forall code, code ∉ PAYROLL_ACCOUNTS -> account_balance d' code = account_balance d code) /\
  net_pay pay = gross_pay pay - total_deductions pay /\
  (exists a j, row_of (payroll_periods d') i = Some (period_posted a (utc_now (env s)) j key p) /\
     entry_for d' ST_PAYROLL_POSTING i (pp_store_id p) (pay_date p) j) /\
  period_results d' i = map final_result (period_results d i) /\
  (forall q, q ∈ accounting_periods d -> period_covers (pp_store_id p) (pay_date p) q = false) /\
  committed s' = d'.
Proof.
  intros Hw Hu H. destruct (fresh_post _ _ _ _ _ _ _ _ Hu H) as (a & j & Ho & Hcom).
  destruct Hu as (Hp & Hst & _). cbv zeta.
  assert (Hm : totals_match (working s) i p)
    by (pose proof (pw_period _ Hw i p Hp) as Hok; unfold period_ok in Hok; by rewrite Hst in Hok).
  pose proof (sum_pay_nonneg _ (period_results_ok _ i Hw)) as (G1 & G2 & G3 & G4). rewrite <- Hm in *. simpl in *.
  destruct (period_net p G1 G2 G3) as (N1 & N2 & N3 & N4 & N5).
  pose proof (po_balance _ _ _ _ _ _ _ _ Ho) as Hb. rewrite (pay_posting_lines _ _ _ Hm) in Hb.
  split_and!; try (rewrite Hb; lia).
  - intros code Hc. rewrite Hb, spec_net_other; [lia|].
    apply (Forall_impl (fun sp => spec_code sp ∈ PAYROLL_ACCOUNTS)); [|by intros sp Hin E; rewrite E in Hin].
    unfold period_lines, _payroll_journal_lines, PAYROLL_ACCOUNTS.
    repeat (apply Forall_app; split); apply Forall_opt_line; simpl; set_solver.
  - exact G4.
  - exists a, j. split; [|exact (po_entry _ _ _ _ _ _ _ _ Ho)].
    by rewrite (po_periods _ _ _ _ _ _ _ _ Ho), row_of_set, bool_decide_eq_true_2, Hp.
  - rewrite (posted_period_results _ _ _ _ _ _ _ _ i Ho). apply map_ext_in.
    intros r (_ & Hdel & Hr)%list_elem_of_In%live_in. unfold live_results. by rewrite Hdel, Hr, Z.eqb_refl.
  - exact (po_open _ _ _ _ _ _ _ _ Ho).
  - done.
Qed.

(** C15: Reversing a posted period, whenever it happens and whatever happened in
    between, takes back from every account exactly what its posting put there,
    in an entry of its own dated on the day of the reversal; the period and its
    results stay as they were posted, and the period counts as reversed. *)
Theorem payroll_round_trip i a1 c1 key s k1 s1 p reason a2 c2 t k2 t1 code :
  payroll_wf (working s) -> unposted (working s) i key p ->
  post_payroll_period i a1 c1 key s = (Ok k1, s1) ->
  payroll_wf (working t) -> row_of (payroll_periods (working t)) i = row_of (payroll_periods (working s1)) i ->
  was_reversed (working t) i = false ->
  reverse_payroll_period i reason a2 c2 t = (Ok k2, t1) ->
  (account_balance (working s1) code - account_balance (working s) code)
  + (account_balance (working t1) code - account_balance (working t) code) = 0 /\
  payroll_periods (working t1) = payroll_periods (working t) /\
  payroll_results (working t1) = payroll_results (working t) /\
  was_reversed (working t1) i = true /\
  (exists j, entry_for (working t1) ST_PAYROLL_REVERSAL i (pp_store_id p) (date_of (utc_now (env t))) j) /\
  committed t1 = working t1.
Proof.
  intros Hs Hu H1 Ht Hrow Hnr H2. destruct (fresh_post _ _ _ _ _ _ _ _ Hu H1) as (a & j & Ho & Hcom).
  destruct Hu as (Hp & Hst & _).
  rewrite (po_periods _ _ _ _ _ _ _ _ Ho), row_of_set, bool_decide_eq_true_2, Hp in Hrow by done. simpl in Hrow.
  apply reverse_payroll_period_ok in H2 as (_ & _ & q & a' & Hq & Hqs & _ & _ & H).
  rewrite Hrow in Hq. injection Hq as <-.
  destruct H as [(-> & n & r & Hn & Er)|(j' & Hr & Hcom')].
  { assert (was_reversed (working t) i = true) by (apply was_reversed_true; eauto). congruence. }
  assert (Hm : totals_match (working s) i p)
    by (pose proof (pw_period _ Hs i p Hp) as Hok; unfold period_ok in Hok; by rewrite Hst in Hok).
  pose proof (pw_period _ Ht i _ Hrow) as Hm'. unfold period_ok in Hm'. simpl in Hm'.
  split_and!.
  - rewrite (po_balance _ _ _ _ _ _ _ _ Ho), (rv_balance _ _ _ _ _ _ _ _ Hr), (pay_posting_lines _ _ _ Hm).
    pose proof (compensates_lines _ _ code (comp_payroll i (pp_store_id p) (pay_date p)
      (map totals_of (period_results (working t) i)))) as Hc.
    pose proof (pay_posting_lines _ _ _ Hm') as El. simpl in El, Hc. rewrite El in Hc.
    unfold period_lines in Hc |- *. simpl in Hc |- *. lia.
  - exact (rv_periods _ _ _ _ _ _ _ _ Hr).
  - exact (rv_results _ _ _ _ _ _ _ _ Hr).
  - unfold was_reversed. rewrite (rv_reversals _ _ _ _ _ _ _ _ Hr), existsb_app. simpl. unfold reversal_of at 2.
    simpl. rewrite Z.eqb_refl. by rewrite orb_true_r.
  - exists j'. exact (rv_entry _ _ _ _ _ _ _ _ Hr).
  - done.
Qed.

(** ** Retries *)

Lemma get_payroll_period_run i p s :
  row_of (payroll_periods (working s)) i = Some p -> get_payroll_period i s = (Ok p, s).
Proof.
  intros Hp. unfold get_payroll_period. erewrite bind_ok_intro by reflexivity. simpl. by rewrite Hp.
Qed.

Lemma enforce_run caller store (s : session database) :
  store_denied caller store = false -> enforce_store_access caller store s = (Ok tt, s).
Proof. intros H. unfold enforce_store_access. by rewrite H. Qed.

(** The key of a period that has it is found. *)
Lemma answered_run key i c p s :
  row_of (payroll_periods (working s)) i = Some p -> key p = Some c ->
  answered key i (Some c) s = (Ok true, s).
Proof.
  intros Hp Hk. unfold answered. erewrite bind_ok_intro by reflexivity. simpl.
  assert (Hs : select (fun j p => (j =? i) && bool_decide (key p = Some c)) (payroll_periods (working s)) = [(i, p)]).
  { apply select_single; [done|by rewrite Z.eqb_refl, bool_decide_eq_true_2|].
    intros j q _ Hb. bools. done. }
  rewrite Hs. done.
Qed.

Lemma transition_row i f p d d' :
  transition i f d d' -> row_of (payroll_periods d) i = Some p -> row_of (payroll_periods d') i = Some (f p).
Proof. intros [log ->] Hp. simpl. by rewrite row_of_set, bool_decide_eq_true_2, Hp. Qed.

(** Everything but the creation of a period, and a calculation without a key. *)
Definition repeatable (op : payroll_op) : Prop :=
  match op with PR_create _ _ _ => False | PR_calculate _ _ _ key => key <> None | _ => True end.

(** C17: Repeating a payroll request that succeeded - opening, a calculation
    under its key, approving, cancelling, posting (with or without a key),
    reversing - answers the same and changes nothing: no second calculation, no
    second journal entry, no second line in the audit trail. *)
Theorem payroll_retries op s k s' :
  payroll_wf (working s) -> repeatable op -> run_payroll_op op s = (Ok k, s') ->
  run_payroll_op op s' = (Ok k, s').
Proof.
  intros Hw Hrep H. pose proof H as H0. destruct op as [| | i actor caller key| | |i actor caller key|]; simpl in *; [done|..].
  - apply open_payroll_period_ok in H as (-> & p & Hp & Hst & [[_ ->]|(_ & Ht & _)]); [done|].
    apply (transition_row _ _ _ _ _ Ht) in Hp. unfold open_payroll_period, _lock_payroll_period.
    rewrite (bind_ok_intro _ _ _ _ _ (get_payroll_period_run _ _ _ Hp)). simpl.
    by rewrite (bind_ok_intro _ _ _ _ _ (enforce_run _ _ _ Hst)).
  - apply calculate_payroll_period_ok in H as (-> & [[-> _]|(p & a & rows & -> & _ & Hc & _)]);
      [done| |exact (pw_single _ Hw)].
    destruct key as [c|]; [|done]. unfold calculate_payroll_period. erewrite bind_ok_intro by reflexivity.
    assert (Hp : row_of (payroll_periods (working s')) i
      = Some (period_calculated a (utc_now (env s)) (Some c) (sum_pay rows) p)).
    { rewrite (ca_periods _ _ _ _ _ _ _ _ Hc), row_of_set, bool_decide_eq_true_2 by done.
      by rewrite (ca_period _ _ _ _ _ _ _ _ Hc). }
    by rewrite (bind_ok_intro _ _ _ _ _ (answered_run calculation_client_transaction_id i c _ s' Hp eq_refl)).
  - apply approve_payroll_period_ok in H as (-> & p & Hp & Hst & [[_ ->]|(_ & (a & at_ & _ & _ & _ & Ht) & _)]); [done|].
    apply (transition_row _ _ _ _ _ Ht) in Hp. unfold approve_payroll_period, _lock_payroll_period.
    rewrite (bind_ok_intro _ _ _ _ _ (get_payroll_period_run _ _ _ Hp)). simpl.
    by rewrite (bind_ok_intro _ _ _ _ _ (enforce_run _ _ _ Hst)).
  - apply cancel_payroll_period_ok in H as (-> & Hb & p & Hp & Hst & [[_ ->]|(_ & Ht & _)]); [done|].
    apply (transition_row _ _ _ _ _ Ht) in Hp. unfold cancel_payroll_period, _lock_payroll_period.
    rewrite Hb. erewrite bind_ok_intro by reflexivity.
    rewrite (bind_ok_intro _ _ _ _ _ (get_payroll_period_run _ _ _ Hp)). simpl.
    by rewrite (bind_ok_intro _ _ _ _ _ (enforce_run _ _ _ Hst)).
  - apply post_payroll_period_ok in H as (-> & p & Hp & [[-> _]|(a & j & _ & Hst & Ho & _)]); [done|].
    assert (Hp' : row_of (payroll_periods (working s')) i = Some (period_posted a (utc_now (env s)) j key p))
      by (by rewrite (po_periods _ _ _ _ _ _ _ _ Ho), row_of_set, bool_decide_eq_true_2, Hp).
    unfold post_payroll_period, _lock_payroll_period. destruct key as [c|].
    + by rewrite (bind_ok_intro _ _ _ _ _ (answered_run posting_client_transaction_id i c _ s' Hp' eq_refl)).
    + erewrite bind_ok_intro by reflexivity. cbv beta iota.
      rewrite (bind_ok_intro _ _ _ _ _ (get_payroll_period_run _ _ _ Hp')). simpl.
      by rewrite (bind_ok_intro _ _ _ _ _ (enforce_run _ _ _ Hst)).
  - apply reverse_payroll_period_ok in H as (-> & Hb & p & a & Hp & Hs & -> & Hst & [[-> _]|(j & Hr & _)]); [done|].
    unfold reverse_payroll_period, _lock_payroll_period. rewrite Hb. erewrite bind_ok_intro by reflexivity.
    rewrite <- (rv_periods _ _ _ _ _ _ _ _ Hr) in Hp.
    rewrite (bind_ok_intro _ _ _ _ _ (get_payroll_period_run _ _ _ Hp)). simpl.
    rewrite (bind_ok_intro _ _ _ _ _ (enforce_run _ _ _ Hst)), Hs. do 2 (erewrite bind_ok_intro by reflexivity).
    assert (Hsel : exists n r, select (fun _ r => reversal_of period r) (payroll_reversals (working s')) = [(n, r)]).
    { rewrite (rv_reversals _ _ _ _ _ _ _ _ Hr), select_app.
      rewrite (proj2 (select_nil _ (payroll_reversals (working s)))).
      - simpl. unfold reversal_of. simpl. rewrite Z.eqb_refl. eauto.
      - intros n r Hn. pose proof (rv_new _ _ _ _ _ _ _ _ Hr n r Hn). unfold reversal_of. lia. }
    destruct Hsel as (n & r & Hsel).
    by rewrite (bind_ok_intro _ _ _ _ _ (@find_by_run _ PayrollReversal_table (reversal_of period) s' _ _ Hsel)).
Qed.

(** ** The example *)

Lemma no_payroll_wf d :
  payroll_periods d = [] -> payroll_results d = [] -> payroll_reversals d = [] -> journal_lines d = [] ->
  payroll_wf d.
Proof.
  intros E1 E2 E3 E4.
  assert (Hr : forall {R} (k : Z) (r : R), row_of [] k = Some r -> False)
    by (intros R k r; unfold row_of; by destruct (0 <? k)).
  constructor; rewrite ?E1, ?E2, ?E3; try (by intros ? ? ?%Hr); try (by intros r ?%elem_of_nil).
  - by intros j k a b ?%Hr.
  - intros code _. unfold account_balance, payroll_ledger. by rewrite E1, E4.
Qed.

Lemma payroll_demo_ok op s k :
  payroll_wf (working s) -> (run_payroll_op op s).1 = Ok k -> payroll_wf (working (after (run_payroll_op op) s)).
Proof. intros Hs H%after_ok. by eapply payroll_op_ok. Qed.

Lemma demo_period_open_wf : payroll_wf (working demo_period_open).
Proof.
  unfold demo_period_open. cbv zeta. do 2 (apply (payroll_demo_ok _ _ 1); [|vm_compute; reflexivity]).
  apply no_payroll_wf; vm_compute; reflexivity.
Qed.

Lemma demo_calculated_wf : payroll_wf (working demo_calculated).
Proof. apply (payroll_demo_ok _ _ 1); [exact demo_period_open_wf|vm_compute; reflexivity]. Qed.

Lemma demo_approved_wf : payroll_wf (working demo_approved).
Proof. apply (payroll_demo_ok _ _ 1); [exact demo_calculated_wf|vm_compute; reflexivity]. Qed.

Lemma demo_posted_pay_wf : payroll_wf (working demo_posted_pay).
Proof. apply (payroll_demo_ok _ _ 1); [exact demo_approved_wf|vm_compute; reflexivity]. Qed.

(** The example's period, as it is in a state. *)
Definition demo_period (s : session database) : PayrollPeriod :=
  default (new_payroll_period demo_week) (row_of (payroll_periods (working s)) 1).


Lemma payroll_transitions_witness :
  exists p', row_of (payroll_periods (working demo_posted_pay)) 1 = Some p' /\
    period_edge (pp_status (demo_period demo_approved)) (pp_status p').
Proof.
  assert (H : run_payroll_op post_demo demo_approved = (Ok 1, demo_posted_pay))
    by (refine (after_ok (run_payroll_op post_demo) demo_approved 1 _); vm_compute; reflexivity).
  assert (Hp : row_of (payroll_periods (working demo_approved)) 1 = Some (demo_period demo_approved))
    by (vm_compute; reflexivity).
  destruct (payroll_transitions post_demo demo_approved 1 demo_posted_pay 1 _ demo_approved_wf H Hp)
    as (p' & Hp' & _ & [->|[_ He]] & _).
  - exfalso. assert (E1 : pp_status (demo_period demo_approved) = PP_APPROVED) by (vm_compute; reflexivity).
    assert (E2 : pp_status <$> row_of (payroll_periods (working demo_posted_pay)) 1 = Some PP_POSTED)
      by (vm_compute; reflexivity).
    rewrite Hp' in E2. change (Some (pp_status (demo_period demo_approved)) = Some PP_POSTED) in E2.
    rewrite E1 in E2. discriminate.
  - exists p'. exact (conj Hp' He).
Defined.

Lemma demo_unposted : unposted (working demo_approved) 1 (Some "post-1"%string) (demo_period demo_approved).
Proof. split_and!; [vm_compute; reflexivity..|]. intros c _. vm_compute. discriminate. Qed.

Lemma post_payroll_period_effect_witness :
  account_balance (working demo_posted_pay) ACCOUNT_WAGE_SALARY_EXPENSE = 160000000 /\
  account_balance (working demo_posted_pay) ACCOUNT_PAYROLL_PAYABLE = -144000000.
Proof.
  assert (H : post_payroll_period 1 (Some 2) (Some 1) (Some "post-1"%string) demo_approved
    = (Ok 1, demo_posted_pay))
    by (refine (after_ok (post_payroll_period 1 (Some 2) (Some 1) (Some "post-1"%string)) demo_approved 1 _); vm_compute; reflexivity).
  destruct (post_payroll_period_effect 1 (Some 2) (Some 1) (Some "post-1"%string) demo_approved 1
    demo_posted_pay _ demo_approved_wf demo_unposted H) as (E1 & E2 & _).
  split; [rewrite E1|rewrite E2]; vm_compute; reflexivity.
Defined.

Lemma payroll_round_trip_witness :
  account_balance (working demo_reversed_pay) ACCOUNT_PAYROLL_PAYABLE
  = account_balance (working demo_approved) ACCOUNT_PAYROLL_PAYABLE.
Proof.
  assert (H1 : post_payroll_period 1 (Some 2) (Some 1) (Some "post-1"%string) demo_approved
    = (Ok 1, demo_posted_pay))
    by (refine (after_ok (post_payroll_period 1 (Some 2) (Some 1) (Some "post-1"%string)) demo_approved 1 _); vm_compute; reflexivity).
  assert (H2 : reverse_payroll_period 1 "wrong rate" (Some 2) (Some 1) demo_posted_pay
    = (Ok 1, demo_reversed_pay))
    by (refine (after_ok (reverse_payroll_period 1 "wrong rate" (Some 2) (Some 1)) demo_posted_pay 1 _); vm_compute; reflexivity).
  assert (Hn : was_reversed (working demo_posted_pay) 1 = false) by (vm_compute; reflexivity).
  destruct (payroll_round_trip 1 (Some 2) (Some 1) (Some "post-1"%string) demo_approved 1 demo_posted_pay
    (demo_period demo_approved) "wrong rate" (Some 2) (Some 1) demo_posted_pay 1 demo_reversed_pay
    ACCOUNT_PAYROLL_PAYABLE demo_approved_wf demo_unposted H1 demo_posted_pay_wf eq_refl Hn H2) as (E & _).
  generalize dependent (account_balance (working demo_reversed_pay) ACCOUNT_PAYROLL_PAYABLE).
  generalize (account_balance (working demo_approved) ACCOUNT_PAYROLL_PAYABLE).
  generalize (account_balance (working demo_posted_pay) ACCOUNT_PAYROLL_PAYABLE). clear. intros. lia.
Defined.

Lemma payroll_retries_witness :
  run_payroll_op post_demo demo_posted_pay = (Ok 1, demo_posted_pay) /\
  length (journal_entries (working demo_posted_pay)) = 1%nat.
Proof.
  split; [|vm_compute; reflexivity].
  assert (H : run_payroll_op post_demo demo_approved = (Ok 1, demo_posted_pay))
    by (refine (after_ok (run_payroll_op post_demo) demo_approved 1 _); vm_compute; reflexivity).
  exact (payroll_retries post_demo demo_approved 1 demo_posted_pay demo_approved_wf I H).
Defined.
