(* ===== verification/Tills.v ===== *)
(** * The cash of closed tills never drifts

    The invariant that ties [Shifts], [Sales] and [SaleReturns] together: the
    expected cash frozen when a shift was closed stays what its own sales,
    refunds and cash movements add up to, because every later sale, return and
    movement is attributed to an open shift only. *)

From S2P Require Import Prelude Fixed Session Schema Tables Platform Chart Fixture Journal.
From S2P Require Import Posting Inventory Shifts Fiscal Sales SaleReturns ReturnProperties.

Definition tills_wf (d : database) : Prop :=
  forall i sh, row_of (cashier_shifts d) i = Some sh -> shift_status sh = SHIFT_CLOSED ->
    expected_cash_amount sh = Some (expected_cash d i sh).

(** The columns the expected cash reads. *)
Definition sale_cash (x : Sale) : option Z * option money := (sale_shift_id x, change_due x).

Definition cash_rows (d : database)
    : list CashMovement * list Payment * list SaleReturn * list (option Z * option money) :=
  (cash_movements d, payments d, sale_returns d, map sale_cash (sales d)).

Lemma sale_of_shift_view d d' i p :
  map sale_cash (sales d') = map sale_cash (sales d) -> sale_of_shift d' i p = sale_of_shift d i p.
Proof.
  intros E. unfold sale_of_shift, row_of. destruct (0 <? p); [|done].
  assert (H : sale_cash <$> sales d' !! Z.to_nat (p - 1) = sale_cash <$> sales d !! Z.to_nat (p - 1)).
  { rewrite <- !list_lookup_fmap. change (map sale_cash ?l) with (sale_cash <$> l) in E. by rewrite E. }
  destruct (sales d' !! _) as [x|], (sales d !! _) as [y|]; try done. simpl in H.
  injection H as H _. by rewrite H.
Qed.

Lemma change_given_view d d' i :
  map sale_cash (sales d') = map sale_cash (sales d) -> change_given d' i = change_given d i.
Proof.
  intros E.
  set (g := fun c : option Z * option money => if same_key c.1 (Some i) then default 0 c.2 else 0).
  change (change_given d' i) with (sum_by (fun x => g (sale_cash x)) (sales d')).
  change (change_given d i) with (sum_by (fun x => g (sale_cash x)) (sales d)).
  by rewrite <- !(sum_by_map sale_cash g), E.
Qed.

Lemma expected_cash_view d d' i sh :
  cash_rows d' = cash_rows d -> expected_cash d' i sh = expected_cash d i sh.
Proof.
  intros [= E2 E3 E4 E5]. unfold expected_cash, cash_refunded, cash_moved.
  assert (Hc : cash_tendered d' i = cash_tendered d i).
  { unfold cash_tendered, sum_where. rewrite E3. apply sum_by_ext. intros p _.
    by rewrite (sale_of_shift_view _ _ _ _ E5). }
  by rewrite Hc, E2, E4, (change_given_view _ _ _ E5).
Qed.

Lemma tills_wf_ext d d' :
  cashier_shifts d' = cashier_shifts d -> cash_rows d' = cash_rows d -> tills_wf d -> tills_wf d'.
Proof.
  intros E1 E H i sh Hi Hc. rewrite E1 in Hi. rewrite (expected_cash_view _ _ _ _ E). by apply H.
Qed.

Lemma keeps_tills_frame {A} (m : Tx A) :
  fixes committed m -> fixes (fun s => (cashier_shifts (working s), cash_rows (working s))) m ->
  keeps tills_wf m.
Proof.
  apply (keeps_frame _ (fun d => (cashier_shifts d, cash_rows d))).
  intros d d' [E1 E2]%pair_equal_spec. by apply tills_wf_ext.
Qed.

#[export] Hint Extern 3 (keeps tills_wf _) =>
  (apply keeps_tills_frame; solve [solve_fixes]) : keeps.

(** ** Shifts and cash movements *)

(** Rows attributed to a shift that is not closed change no closed till. *)
Definition elsewhere (d : database) (shift : option Z) : Prop :=
  forall i sh, row_of (cashier_shifts d) i = Some sh -> shift_status sh = SHIFT_CLOSED ->
    same_key shift (Some i) = false.

Lemma open_elsewhere d shift : open_shift_attached d shift -> elsewhere d shift.
Proof.
  intros Ho i sh Hi Hc. destruct shift as [k|]; [|done]. simpl. apply bool_decide_eq_false_2.
  intros E. destruct (Ho k eq_refl) as (sh' & Hk & Hop). congruence.
Qed.

Lemma add_open_shift_keeps (a : CashierShift) :
  shift_status a = SHIFT_OPEN -> keeps tills_wf (add a).
Proof.
  intros Ha. apply keeps_of_ok; [solve_fixes|].
  intros s i s' _ H2 (_ & _ & _ & ->)%add_ok j sh Hj Hc. simpl in *.
  apply row_of_inv_app in Hj as [Hj|[_ ->]]; [|congruence].
  by rewrite (H2 j sh Hj Hc).
Qed.

Lemma add_movement_keeps_at (m : CashMovement) s sh :
  row_of (cashier_shifts (working s)) (cm_shift_id m) = Some sh -> shift_status sh = SHIFT_OPEN ->
  keeps_at tills_wf (add m) s.
Proof.
  intros Hm Hop H1 H2. assert (Hf : fixes committed (add m)) by solve_fixes.
  destruct (add m s) as [[i|e] s'] eqn:E.
  2: { by rewrite (fixes_run committed _ _ _ _ Hf E). }
  apply add_ok in E as (_ & _ & _ & ->). split; [done|]. intros j x Hj Hc. simpl in *.
  rewrite (H2 j x Hj Hc). f_equal. unfold expected_cash, cash_moved. simpl.
  rewrite !sum_where_app, !sum_where_cons, !sum_where_nil.
  assert (Hne : (cm_shift_id m =? j) = false) by (apply Z.eqb_neq; congruence).
  rewrite Hne. simpl. unfold cash_tendered, change_given, cash_refunded, sale_of_shift. simpl. lia.
Qed.

Lemma close_row_keeps_at i sh now counted actor key s :
  row_of (cashier_shifts (working s)) i = Some sh ->
  let expected := expected_cash (working s) i sh in
  keeps_at tills_wf
    (update i (closed_shift now counted expected (counted - expected) actor key)) s.
Proof.
  intros Hi expected H1 H2.
  set (closing := closed_shift now counted expected (counted - expected) actor key).
  assert (Hf : fixes committed (update i closing)) by solve_fixes.
  destruct (update i closing s) as [[[]|e] s'] eqn:E.
  2: { by rewrite (fixes_run committed _ _ _ _ Hf E). }
  apply update_ok in E as (r & Hr & _ & _ & ->). split; [done|]. intros j x. simpl in *.
  rewrite row_of_set. case_bool_decide as Ej.
  - subst j. rewrite Hi. intros [= <-] _. done.
  - intros Hj Hc. by rewrite (H2 j x Hj Hc).
Qed.

Lemma authorize_actor_keeps actor i sh rej : keeps tills_wf (authorize_actor actor i sh rej).
Proof. unfold authorize_actor. solve_keeps. Qed.

Lemma find_keeps :
  (forall k, keeps tills_wf (find_cash_movement k)) /\ (forall k, keeps tills_wf (find_closed_shift k)) /\
  (forall k, keeps tills_wf (find_shift k)).
Proof. shift_ops. split_and!; solve_keeps. Qed.

Lemma open_shift_keeps_tills st c f k cl : keeps tills_wf (open_shift st c f k cl).
Proof.
  assert (Hadd : forall now, keeps tills_wf (add (new_shift st c f now k)))
    by (intros; by apply add_open_shift_keeps).
  shift_ops. solve_keeps.
Qed.

Lemma record_cash_movement_keeps_tills i ty a r by_ k cl :
  keeps tills_wf (record_cash_movement i ty a r by_ k cl).
Proof.
  destruct find_keeps as (Hfind & _ & _).
  intros s. apply (keeps_at_bind _ _ _ s (Hfind k)). intros o s0 _.
  destruct o as [[j x]|]; [apply keeps_at_all, keeps_ret|].
  apply keeps_at_bind; [apply keeps_raise_if|intros _ s1 [_ <-]%raise_if_ok].
  apply keeps_at_bind; [apply keeps_gets|intros found s1 [-> <-]%get_ok].
  apply keeps_at_bind; [apply keeps_of_option|intros sh s1 [Hsh <-]%of_option_ok].
  apply keeps_at_bind; [apply keeps_raise_if|intros _ s1 [_ <-]%raise_if_ok].
  apply keeps_at_bind; [apply authorize_actor_keeps|intros [] s1 [-> _]%authorize_actor_ok].
  apply keeps_at_bind; [apply keeps_raise_if|intros _ s1 [Hst <-]%raise_if_ok]. bools.
  intros H1 H2. revert H1 H2. apply keeps_at_bind_at.
  - apply keeps_at_except; [|intros; solve_keeps].
    apply keeps_at_bind_at; [|intros; apply keeps_at_all, keeps_ret].
    by apply (add_movement_keeps_at _ _ sh).
  - intros [j b] s2 _. apply keeps_at_all. solve_keeps.
Qed.

Lemma close_shift_keeps_tills i c a cl k : keeps tills_wf (close_shift i c a cl k).
Proof.
  destruct find_keeps as (_ & Hfind & _).
  intros s. apply (keeps_at_bind _ _ _ s (Hfind k)). intros o s0 _.
  destruct o as [[j x]|]; [apply keeps_at_all, keeps_ret|].
  apply keeps_at_bind; [apply keeps_raise_if|intros _ s1 [_ <-]%raise_if_ok].
  apply keeps_at_bind; [apply keeps_gets|intros found s1 [-> <-]%get_ok].
  apply keeps_at_bind; [apply keeps_of_option|intros sh s1 [Hsh <-]%of_option_ok].
  apply keeps_at_bind; [apply keeps_raise_if|intros _ s1 [_ <-]%raise_if_ok].
  apply keeps_at_bind; [apply Hfind|intros o s1 [-> _]%find_closed_shift_ok].
  destruct o as [[j x]|]; [apply keeps_at_all, keeps_ret|].
  apply keeps_at_bind; [apply authorize_actor_keeps|intros [] s1 [-> _]%authorize_actor_ok].
  apply keeps_at_bind; [apply keeps_raise_if|intros _ s1 [Hst <-]%raise_if_ok]. bools.
  apply keeps_at_bind; [solve_keeps|intros u0 s1 Hlog]. apply log_event_ok in Hlog as ->.
  apply keeps_at_bind; [apply keeps_gets|intros e s1 [-> <-]%gets_ok].
  apply keeps_at_bind; [apply keeps_asks|intros now s1 [-> <-]%asks_ok].
  apply keeps_at_bind_at.
  - apply keeps_at_except; [|intros; solve_keeps].
    apply keeps_at_bind_at; [|intros; apply keeps_at_all, keeps_ret].
    by apply (close_row_keeps_at i sh).
  - intros [j b] s2 _. apply keeps_at_all.
    unfold post_cash_shift_variance_journal, _post_standard, posted. solve_keeps.
Qed.

(** ** Sales *)

Lemma sale_of_shift_new d d' x i p :
  sales d' = sales d ++ [x] -> same_key (sale_shift_id x) (Some i) = false ->
  sale_of_shift d' i p = sale_of_shift d i p.
Proof.
  intros E Hx. unfold sale_of_shift. rewrite E.
  destruct (row_of (sales d) p) as [y|] eqn:Hp; [by rewrite (row_of_app_old _ _ _ _ Hp)|].
  destruct (row_of (sales d ++ [x]) p) as [y|] eqn:Hp'; [|done].
  apply row_of_inv_app in Hp' as [Hp'|[_ ->]]; [congruence|done].
Qed.

Lemma sale_added_keeps d d' x new :
  elsewhere d (sale_shift_id x) ->
  cashier_shifts d' = cashier_shifts d -> cash_movements d' = cash_movements d ->
  sale_returns d' = sale_returns d -> sales d' = sales d ++ [x] ->
  payments d' = payments d ++ new ->
  (forall p, p ∈ new -> payment_sale_id p = next_id (sales d)) ->
  tills_wf d -> tills_wf d'.
Proof.
  intros He E1 E2 E3 E4 E5 Hnew H i sh Hi Hc. rewrite E1 in Hi. specialize (He i sh Hi Hc).
  rewrite (H i sh Hi Hc). f_equal. unfold expected_cash, cash_refunded, cash_moved.
  rewrite E2, E3. assert (change_given d' i = change_given d i) as ->.
  { unfold change_given. rewrite E4, sum_where_app, sum_where_cons, He. by rewrite sum_where_nil, !Z.add_0_r. }
  enough (cash_tendered d' i = cash_tendered d i) as -> by done.
  unfold cash_tendered. rewrite E5, sum_where_app.
  rewrite (sum_where_none _ _ new), Z.add_0_r.
  - apply sum_by_ext. intros p _. by rewrite (sale_of_shift_new _ _ _ _ _ E4 He).
  - intros p Hp. rewrite (Hnew p Hp), (sale_of_shift_new _ _ _ _ _ E4 He).
    unfold sale_of_shift. destruct (row_of (sales d) (next_id (sales d))) eqn:En; [|done].
    apply row_of_range in En. lia.
Qed.

Lemma write_sale_details_fixes_tills store i cashier sale cs ps :
  fixes (fun s => tills_tables (working s)) (write_sale_details store i cashier sale cs ps).
Proof.
  unfold write_sale_details, write_line, write_payment, record_movement, lock_product_for_update,
    post_sale_journal, _post_standard, posted, create_fiscal_submission_if_enabled, get_config.
  solve_fixes.
Qed.

Lemma finalize_sale_keeps_tills store cashier key caller lines ps :
  keeps tills_wf (finalize_sale store cashier key caller lines ps).
Proof.
  apply keeps_of_ok; [apply finalize_sale_fixes_committed|].
  intros s i s' H1 H2 [_ [H|H]]%finalize_sale_ok.
  - destruct H as (x & s1 & Hc & Hs & Hf). apply find_sale_ok in Hf as [-> _].
    destruct Hs as [->| ->]; [done|by rewrite Hc].
  - destruct H as (cs & change & number & shift & s1 & _ & _ & Hshift & _ & _ & _ & -> & Hd).
    apply active_shift_open in Hshift.
    pose proof (fixes_run _ _ _ _ _ (write_sale_details_fixes_tills _ _ _ _ _ _) Hd) as Et.
    pose proof (fixes_run _ _ _ _ _ (write_sale_details_fixes_returns _ _ _ _ _ _) Hd)
      as [Er _]%pair_equal_spec.
    apply write_sale_details_ok in Hd as (s2 & s3 & pd & new & _ & Hs & Hp & _). simpl in *.
    eapply (sale_added_keeps (working s)); [|by rewrite Et|by rewrite Et|exact Er|exact Hs|exact Hp| |done].
    { by apply open_elsewhere. }
    intros p Hin. apply list_elem_of_fmap in Hin as (q & -> & _). done.
Qed.

(** ** Returns *)

Lemma new_return_tills a caller lines method s i s' :
  tills_wf (working s) -> new_return_made a caller lines method s i s' -> tills_wf (working s').
Proof.
  intros H (sale & store & items & requested & rb & approval & shift & number & g & effects &
    pd & s1 & _ & Hsale & _ & _ & _ & _ & _ & _ & _ & _ & Hshift & -> & _ & Hw1 &
    [_ Dt Dp _ _ _ Dr _ Ds _]).
  apply open_elsewhere in Hshift. rewrite Hw1 in Dt, Dp, Dr, Ds. simpl in Dt, Dp, Dr, Ds.
  intros k sh Hk Hc. rewrite Dt in Hk. simpl in Hk. rewrite (H k sh Hk Hc). f_equal.
  specialize (Hshift k sh Hk Hc).
  assert (Hs : map sale_cash (sales (working s')) = map sale_cash (sales (working s))).
  { apply rows_map_eq. intros j. rewrite Ds. case_bool_decide as Ej; [|done].
    subst j. by rewrite Hsale. }
  assert (Hr : cash_refunded (working s') k = cash_refunded (working s) k).
  { unfold cash_refunded, sum_where. rewrite Dr, (sum_by_set_row _ _ _ _ _ (row_of_new _ _)).
    rewrite sum_by_app, sum_by_cons, sum_by_nil. simpl. rewrite Hshift. simpl. lia. }
  unfold expected_cash, cash_moved. rewrite Hr, (change_given_view _ _ _ Hs), Dt.
  enough (cash_tendered (working s') k = cash_tendered (working s) k) as -> by done.
  unfold cash_tendered, sum_where. rewrite Dp. apply sum_by_ext. intros p _.
  by rewrite (sale_of_shift_view _ _ _ _ Hs).
Qed.

Lemma tills_wf_audit g d : tills_wf d -> tills_wf (over_audit_logs g d).
Proof. by apply tills_wf_ext. Qed.

Lemma create_sale_return_keeps_tills vp a v caller lines :
  keeps tills_wf (create_sale_return vp a v caller lines).
Proof. apply create_sale_return_keeps; [apply tills_wf_audit|apply new_return_tills]. Qed.

Lemma void_sale_keeps_tills vp a caller : keeps tills_wf (void_sale vp a caller).
Proof. apply void_sale_keeps; [apply tills_wf_audit|apply new_return_tills]. Qed.
