(* ===== verification/Purchasing.v ===== *)
(** * Suppliers, purchase orders, receiving and purchase returns

    app/modules/purchasing/service.py: the order's life cycle, goods receipts
    with their weighted-average cost update, and returns to the supplier; the
    invariant that the received quantities of the order items are the sums of
    their receipts, that no order gives back more than it delivered, and that
    an order's status says what was received. *)

From S2P Require Import Prelude Fixed Session Schema Tables Platform Chart Fixture Journal.
From S2P Require Import Posting Inventory.

Definition receivable (st : PurchaseOrderStatus) : bool :=
  match st with PO_ORDERED | PO_PARTIALLY_RECEIVED => true | _ => false end.

Definition po_cancellable (st : PurchaseOrderStatus) : bool :=
  match st with PO_DRAFT | PO_ORDERED | PO_PARTIALLY_RECEIVED => true | _ => false end.

Definition is_draft (st : PurchaseOrderStatus) : bool := bool_decide (st = PO_DRAFT).

Definition invalid_po_state : exn := ConflictError "INVALID_PO_STATE".

(** ** Suppliers *)

Record SupplierInput := {
  si_name : string;
  si_code : option string;
  si_default_payment_terms_days : option Z;
}.

(** [try: db.flush() except IntegrityError: rollback, 409] *)
Definition or_duplicate_code {A} (m : Tx A) : Tx A :=
  except_integrity m (fun _ => _ ← rollback; raise (ConflictError "DUPLICATE_SUPPLIER_CODE")).

Definition create_supplier (data : SupplierInput) (actor_id : option Z) : Tx Z :=
  supplier_id ← or_duplicate_code (add
    {| supplier_name := si_name data; supplier_code := si_code data;
       supplier_is_active := true;
       default_payment_terms_days := si_default_payment_terms_days data |});
  _ ← log_event actor_id "SUPPLIER_CREATED" "supplier" (Some supplier_id);
  _ ← commit;
  mret supplier_id.

Definition get_supplier (supplier_id : Z) : Tx Supplier :=
  found ← get supplier_id;
  of_option found NotFoundError.

(** The entries of the [changes] dict that are columns of the model; [None] is
    an absent key. *)
Record SupplierChanges := {
  ch_name : option string;
  ch_code : option (option string);
  ch_default_payment_terms_days : option (option Z);
}.

Definition with_changes (c : SupplierChanges) (s : Supplier) : Supplier :=
  {| supplier_name := default (supplier_name s) (ch_name c);
     supplier_code := default (supplier_code s) (ch_code c);
     supplier_is_active := supplier_is_active s;
     default_payment_terms_days :=
       default (default_payment_terms_days s) (ch_default_payment_terms_days c) |}.

Definition update_supplier (supplier_id : Z) (changes : SupplierChanges) (actor_id : option Z)
    : Tx Z :=
  _ ← get_supplier supplier_id;
  _ ← or_duplicate_code (update supplier_id (with_changes changes));
  _ ← log_event actor_id "SUPPLIER_UPDATED" "supplier" (Some supplier_id);
  _ ← commit;
  mret supplier_id.

Definition with_active (b : bool) (s : Supplier) : Supplier :=
  {| supplier_name := supplier_name s; supplier_code := supplier_code s;
     supplier_is_active := b; default_payment_terms_days := default_payment_terms_days s |}.

Definition set_supplier_active (supplier_id : Z) (is_active : bool) (actor_id : option Z) : Tx Z :=
  _ ← get_supplier supplier_id;
  _ ← update supplier_id (with_active is_active);
  _ ← log_event actor_id (if is_active then "SUPPLIER_ACTIVATED" else "SUPPLIER_DEACTIVATED")
        "supplier" (Some supplier_id);
  _ ← commit;
  mret supplier_id.

(** ** Purchase orders *)

Record PurchaseOrderItemInput := {
  pl_product_id : Z;
  pl_quantity_ordered : qty;
  pl_unit_cost : cost;
}.

Definition validate_po_item (store_id : Z) (line : PurchaseOrderItemInput) : Tx unit :=
  _ ← raise_if (pl_quantity_ordered line <=? 0) (ValidationAppError "INVALID_QUANTITY");
  _ ← raise_if (pl_unit_cost line <? 0) (ValidationAppError "INVALID_UNIT_COST");
  found ← get (pl_product_id line);
  product ← of_option found (ValidationAppError "INVALID_PRODUCT");
  raise_if (negb (product_store_id product =? store_id)) (ConflictError "STORE_MISMATCH").

Definition _validate_po_items (store_id : Z) (lines : list PurchaseOrderItemInput) : Tx unit :=
  _ ← raise_if (bool_decide (length lines = 0%nat)) (ValidationAppError "EMPTY_PURCHASE_ORDER");
  for_each (validate_po_item store_id) lines.

Definition _generate_purchase_number (store_id : Z) : Tx DocumentNumber :=
  now ← datetime_now_utc;
  token ← draw_token;
  mret (Build_DocumentNumber store_id now token).

Definition order_under (key : string) (o : PurchaseOrder) : bool :=
  bool_decide (po_client_transaction_id o = key).

Record OrderArgs := {
  oa_store_id : Z;
  oa_supplier_id : Z;
  oa_order_date : Z;
  oa_expected_date : option Z;
  oa_notes : option string;
  oa_key : string;
  oa_created_by : option Z;
  oa_replenishment_plan_id : option Z;
}.

Definition new_order (a : OrderArgs) (number : DocumentNumber) : PurchaseOrder :=
  mkPurchaseOrder (oa_store_id a) (oa_supplier_id a) number (oa_key a) PO_DRAFT (oa_order_date a)
    (oa_expected_date a) (oa_notes a) (oa_created_by a) (oa_replenishment_plan_id a).

Definition new_order_item (order_id : Z) (l : PurchaseOrderItemInput) : PurchaseOrderItem :=
  mkPurchaseOrderItem order_id (pl_product_id l) (pl_quantity_ordered l) 0 0 (pl_unit_cost l).

Definition _create_purchase_order_inner (a : OrderArgs) (lines : list PurchaseOrderItemInput)
    (caller_store_id : option Z) : Tx Z :=
  _ ← enforce_store_access caller_store_id (oa_store_id a);
  existing ← find_by (order_under (oa_key a));
  match existing with
  | Some (i, _) => mret i
  | None =>
      store ← get (oa_store_id a);
      _ ← raise_if (negb (match store with Some st => store_is_active st | None => false end))
            NotFoundError;
      supplier ← get (oa_supplier_id a);
      _ ← raise_if (negb (match supplier with Some su => supplier_is_active su | None => false end))
            (ValidationAppError "INVALID_SUPPLIER");
      _ ← _validate_po_items (oa_store_id a) lines;
      number ← _generate_purchase_number (oa_store_id a);
      inserted ← insert_or_winner (order_under (oa_key a)) (new_order a number);
      if snd (inserted : Z * bool)
      then
        _ ← for_each (fun l => _ ← add (new_order_item (fst inserted) l); mret tt) lines;
        _ ← log_event (oa_created_by a) "PURCHASE_ORDER_CREATED" "purchase_order"
              (Some (fst inserted));
        mret (fst inserted)
      else mret (fst inserted)
  end.

Definition create_purchase_order (a : OrderArgs) (lines : list PurchaseOrderItemInput)
    (caller_store_id : option Z) : Tx Z :=
  order_id ← _create_purchase_order_inner a lines caller_store_id;
  _ ← commit;
  mret order_id.

Definition get_purchase_order (order_id : Z) : Tx PurchaseOrder :=
  found ← get order_id;
  of_option found NotFoundError.

Definition with_po_status (st : PurchaseOrderStatus) (o : PurchaseOrder) : PurchaseOrder :=
  mkPurchaseOrder (po_store_id o) (po_supplier_id o) (purchase_number o)
    (po_client_transaction_id o) st (order_date o) (expected_date o) (po_notes o)
    (po_created_by o) (po_replenishment_plan_id o).

Definition submit_purchase_order (order_id : Z) (actor_id caller_store_id : option Z) : Tx Z :=
  po ← get_purchase_order order_id;
  _ ← enforce_store_access caller_store_id (po_store_id po);
  _ ← raise_if (negb (is_draft (po_status po))) invalid_po_state;
  _ ← update order_id (with_po_status PO_ORDERED);
  _ ← log_event actor_id "PURCHASE_ORDER_SUBMITTED" "purchase_order" (Some order_id);
  _ ← commit;
  mret order_id.

Definition cancel_purchase_order (order_id : Z) (actor_id caller_store_id : option Z) : Tx Z :=
  po ← get_purchase_order order_id;
  _ ← enforce_store_access caller_store_id (po_store_id po);
  _ ← raise_if (negb (po_cancellable (po_status po))) invalid_po_state;
  _ ← update order_id (with_po_status PO_CANCELLED);
  _ ← log_event actor_id "PURCHASE_ORDER_CANCELLED" "purchase_order" (Some order_id);
  _ ← commit;
  mret order_id.

(** ** Goods receipts *)

Record GoodsReceiptLineInput := {
  gl_order_item_id : Z;
  gl_quantity : qty;
  gl_unit_cost : cost;
  gl_condition_notes : option string;
}.

Definition receipt_under (key : string) (r : GoodsReceipt) : bool :=
  bool_decide (gr_client_transaction_id r = key).

(** The caller's store is compared with the order's, when the order exists. *)
Definition check_order_store (order_id : Z) (caller_store_id : option Z) : Tx unit :=
  found ← get order_id;
  match (found : option PurchaseOrder) with
  | Some po => enforce_store_access caller_store_id (po_store_id po)
  | None => mret tt
  end.

Definition validate_receipt_line (l : GoodsReceiptLineInput) : Tx unit :=
  _ ← raise_if (gl_quantity l <=? 0) (ValidationAppError "INVALID_QUANTITY");
  raise_if (gl_unit_cost l <? 0) (ValidationAppError "INVALID_UNIT_COST").

(** One line of [line_details]: the input with its order item. *)
Definition ReceiptDetail : Type := GoodsReceiptLineInput * PurchaseOrderItem.

Definition resolve_receipt_line (order_id : Z) (details : list ReceiptDetail)
    (l : GoodsReceiptLineInput) : Tx (list ReceiptDetail) :=
  found ← get (gl_order_item_id l);
  item ← of_option found NotFoundError;
  _ ← raise_if (negb (poi_order_id item =? order_id)) NotFoundError;
  mret (details ++ [(l, item)]).

(** [received_qty_by_item], in the order the items first appear. *)
Definition received_qty_by_item (lines : list GoodsReceiptLineInput) : list (Z * qty) :=
  fold_left (fun acc l => dict_add (gl_order_item_id l) (gl_quantity l) acc) lines [].

Definition receipt_movement (store_id order_id : Z) (by_ : option Z) (l : GoodsReceiptLineInput)
    (new_wac : cost) : MovementArgs :=
  {| ma_store_id := store_id; ma_type := MT_PURCHASE_RECEIPT; ma_delta := gl_quantity l;
     ma_unit_cost := gl_unit_cost l; ma_reference_type := RT_purchase_order;
     ma_reference_id := Some order_id; ma_reason := None; ma_created_by := by_;
     ma_new_cost := Some new_wac |}.

Definition receipt_item (receipt_id : Z) (l : GoodsReceiptLineInput) : GoodsReceiptItem :=
  {| gri_receipt_id := receipt_id; gri_order_item_id := gl_order_item_id l;
     gri_quantity := gl_quantity l; gri_unit_cost := gl_unit_cost l;
     condition_notes := gl_condition_notes l |}.

Definition receive_line (store_id order_id receipt_id : Z) (by_ : option Z) (d : ReceiptDetail)
    : Tx unit :=
  found ← get (poi_product_id d.2);
  product ← of_option found KeyError;
  let new_wac := compute_new_wac (current_qty_on_hand product) (current_cost product)
                   (gl_quantity d.1) (gl_unit_cost d.1) in
  _ ← record_movement (poi_product_id d.2) (receipt_movement store_id order_id by_ d.1 new_wac);
  _ ← add (receipt_item receipt_id d.1);
  mret tt.

Definition with_received (total : qty) (i : PurchaseOrderItem) : PurchaseOrderItem :=
  mkPurchaseOrderItem (poi_order_id i) (poi_product_id i) (quantity_ordered i) total
    (quantity_invoiced i) (poi_unit_cost i).

(** [po_item.quantity_received += total_qty]; over-receipt is allowed. *)
Definition apply_received (t : Z * qty) : Tx unit :=
  found ← get t.1;
  item ← of_option found KeyError;
  update t.1 (with_received (quantity_received item + t.2)).

Definition fully_received (i : PurchaseOrderItem) : bool := quantity_ordered i <=? quantity_received i.
Definition some_received (i : PurchaseOrderItem) : bool := 0 <? quantity_received i.

Definition items_of_order (d : database) (order_id : Z) : list PurchaseOrderItem :=
  List.filter (fun i => poi_order_id i =? order_id) (purchase_order_items d).

Definition _advance_purchase_order_status (order_id : Z) : Tx unit :=
  items ← gets (fun d => items_of_order d order_id);
  if negb (bool_decide (length items = 0%nat)) && forallb fully_received items
  then update order_id (with_po_status PO_RECEIVED)
  else if existsb some_received items
  then update order_id (with_po_status PO_PARTIALLY_RECEIVED)
  else mret tt.

Record ReceiptArgs := {
  ra_order_id : Z;
  ra_received_date : Z;
  ra_key : string;
  ra_received_by : option Z;
  ra_notes : option string;
}.

Definition new_receipt (a : ReceiptArgs) (store_id : Z) : GoodsReceipt :=
  {| gr_order_id := ra_order_id a; gr_store_id := store_id; gr_client_transaction_id := ra_key a;
     received_date := ra_received_date a; received_by := ra_received_by a; gr_notes := ra_notes a |}.

(** What the receipt journal values. *)
Definition received_values (details : list ReceiptDetail) : list (qty * cost) :=
  map (fun d => (gl_quantity d.1, gl_unit_cost d.1)) details.

(** Everything after the receipt row: movements and items, received totals,
    status, audit, journal. *)
Definition write_receipt_details (a : ReceiptArgs) (store_id receipt_id : Z)
    (details : list ReceiptDetail) : Tx unit :=
  _ ← for_each (receive_line store_id (ra_order_id a) receipt_id (ra_received_by a)) details;
  _ ← for_each apply_received (received_qty_by_item (map fst details));
  _ ← _advance_purchase_order_status (ra_order_id a);
  _ ← log_event (ra_received_by a) "GOODS_RECEIPT_COMPLETED" "goods_receipt" (Some receipt_id);
  _ ← post_goods_receipt_journal receipt_id store_id (ra_received_date a)
        (received_values details) (ra_received_by a);
  mret tt.

(** The locked order and its resolved lines; nothing is written yet. *)
Definition resolve_receipt (order_id : Z) (lines : list GoodsReceiptLineInput)
    : Tx (PurchaseOrder * list ReceiptDetail) :=
  _ ← raise_if (bool_decide (length lines = 0%nat)) (ValidationAppError "EMPTY_RECEIPT");
  _ ← for_each validate_receipt_line lines;
  found ← get order_id;
  purchase_order ← of_option found NotFoundError;
  _ ← raise_if (negb (receivable (po_status purchase_order))) invalid_po_state;
  details ← fold_m (resolve_receipt_line order_id) lines [];
  _ ← for_each (fun p => _ ← lock_product_for_update p; mret tt)
        (sorted_set (map (fun d => poi_product_id d.2) details));
  mret (purchase_order, details).

Definition receive_goods (a : ReceiptArgs) (lines : list GoodsReceiptLineInput)
    (caller_store_id : option Z) : Tx Z :=
  _ ← check_order_store (ra_order_id a) caller_store_id;
  existing ← find_by (receipt_under (ra_key a));
  match existing with
  | Some (i, _) => mret i
  | None =>
      resolved ← resolve_receipt (ra_order_id a) lines;
      let store_id := po_store_id (fst resolved) in
      inserted ← insert_or_winner (receipt_under (ra_key a)) (new_receipt a store_id);
      if snd (inserted : Z * bool)
      then _ ← write_receipt_details a store_id (fst inserted) (snd resolved); mret (fst inserted)
      else mret (fst inserted)
  end.

(** ** Returns to the supplier *)

Record PurchaseReturnLineInput := {
  prl_product_id : Z;
  prl_quantity : qty;
}.

Definition purchase_return_under (key : string) (r : PurchaseReturn) : bool :=
  bool_decide (pr_client_transaction_id r = key).

(** [requested_qty] *)
Definition requested_returns (lines : list PurchaseReturnLineInput) : list (Z * qty) :=
  fold_left (fun acc l => dict_add (prl_product_id l) (prl_quantity l) acc) lines [].

(** What the order's items received of a product, and what its earlier returns
    gave back of it. *)
Definition received_by_product (d : database) (order_id product_id : Z) : qty :=
  sum_where (fun i => (poi_order_id i =? order_id) && (poi_product_id i =? product_id))
    quantity_received (purchase_order_items d).

Definition returns_order (d : database) (order_id : Z) (i : PurchaseReturnItem) : bool :=
  match row_of (purchase_returns d) (pri_return_id i) with
  | Some r => pr_order_id r =? order_id
  | None => false
  end.

Definition already_returned_by_product (d : database) (order_id product_id : Z) : qty :=
  sum_where (fun i => returns_order d order_id i && (pri_product_id i =? product_id))
    pri_quantity (purchase_return_items d).

Definition check_returnable (order_id : Z) (r : Z * qty) : Tx unit :=
  received ← gets (fun d => received_by_product d order_id r.1);
  already_returned ← gets (fun d => already_returned_by_product d order_id r.1);
  raise_if (received <? already_returned + r.2) (ConflictError "RETURN_EXCEEDS_RECEIVED_QUANTITY").

Definition lock_returned_product (store_id product_id : Z) : Tx unit :=
  product ← lock_product_for_update product_id;
  raise_if (negb (product_store_id product =? store_id)) (ConflictError "STORE_MISMATCH").

Definition check_on_hand (r : Z * qty) : Tx unit :=
  found ← get r.1;
  product ← of_option found KeyError;
  raise_if (current_qty_on_hand product <? r.2) (ConflictError "INSUFFICIENT_STOCK").

Definition purchase_return_movement (store_id return_id : Z) (by_ : option Z)
    (l : PurchaseReturnLineInput) (unit_cost : cost) : MovementArgs :=
  {| ma_store_id := store_id; ma_type := MT_PURCHASE_RETURN; ma_delta := - prl_quantity l;
     ma_unit_cost := unit_cost; ma_reference_type := RT_purchase_return;
     ma_reference_id := Some return_id; ma_reason := None; ma_created_by := by_;
     ma_new_cost := None |}.

Definition purchase_return_item (return_id : Z) (l : PurchaseReturnLineInput) (c : cost)
    : PurchaseReturnItem :=
  {| pri_return_id := return_id; pri_product_id := prl_product_id l;
     pri_quantity := prl_quantity l; pri_unit_cost := c |}.

(** The goods leave at the product's current cost. *)
Definition give_back (store_id return_id : Z) (by_ : option Z) (values : list (qty * cost))
    (l : PurchaseReturnLineInput) : Tx (list (qty * cost)) :=
  found ← get (prl_product_id l);
  product ← of_option found KeyError;
  let c := current_cost product in
  _ ← record_movement (prl_product_id l) (purchase_return_movement store_id return_id by_ l c);
  _ ← add (purchase_return_item return_id l c);
  mret (values ++ [(prl_quantity l, c)]).

Record PurchaseReturnArgs := {
  pa_order_id : Z;
  pa_store_id : Z;
  pa_return_date : Z;
  pa_key : string;
  pa_reason : option string;
  pa_created_by : option Z;
}.

Definition new_purchase_return (a : PurchaseReturnArgs) : PurchaseReturn :=
  {| pr_order_id := pa_order_id a; pr_store_id := pa_store_id a;
     pr_client_transaction_id := pa_key a; pr_return_date := pa_return_date a;
     pr_reason := pa_reason a; pr_created_by := pa_created_by a |}.

Definition check_purchase_return (a : PurchaseReturnArgs) (lines : list PurchaseReturnLineInput)
    : Tx unit :=
  _ ← raise_if (bool_decide (length lines = 0%nat)) (ValidationAppError "EMPTY_RETURN");
  _ ← for_each (fun l => raise_if (prl_quantity l <=? 0) (ValidationAppError "INVALID_QUANTITY")) lines;
  found ← get (pa_order_id a);
  purchase_order ← of_option found NotFoundError;
  _ ← raise_if (negb (po_store_id purchase_order =? pa_store_id a)) (ConflictError "STORE_MISMATCH");
  _ ← for_each (check_returnable (pa_order_id a)) (requested_returns lines);
  _ ← for_each (lock_returned_product (pa_store_id a)) (sorted_set (map prl_product_id lines));
  for_each check_on_hand (requested_returns lines).

Definition write_purchase_return (a : PurchaseReturnArgs) (return_id : Z)
    (lines : list PurchaseReturnLineInput) : Tx unit :=
  values ← fold_m (give_back (pa_store_id a) return_id (pa_created_by a)) lines [];
  _ ← log_event (pa_created_by a) "PURCHASE_RETURN_COMPLETED" "purchase_return" (Some return_id);
  _ ← post_purchase_return_journal return_id (pa_store_id a) (pa_return_date a) values
        (pa_created_by a);
  mret tt.

Definition create_purchase_return (a : PurchaseReturnArgs) (lines : list PurchaseReturnLineInput)
    (caller_store_id : option Z) : Tx Z :=
  _ ← enforce_store_access caller_store_id (pa_store_id a);
  existing ← find_by (purchase_return_under (pa_key a));
  match existing with
  | Some (i, _) => mret i
  | None =>
      _ ← check_purchase_return a lines;
      inserted ← insert_or_winner (purchase_return_under (pa_key a)) (new_purchase_return a);
      if snd (inserted : Z * bool)
      then _ ← write_purchase_return a (fst inserted) lines; mret (fst inserted)
      else mret (fst inserted)
  end.

(** The operations of the module that write purchasing documents. *)
Inductive purchasing_op :=
  | P_create_supplier (data : SupplierInput) (actor : option Z)
  | P_update_supplier (id : Z) (changes : SupplierChanges) (actor : option Z)
  | P_set_supplier_active (id : Z) (b : bool) (actor : option Z)
  | P_create_order (a : OrderArgs) (lines : list PurchaseOrderItemInput) (caller : option Z)
  | P_submit (id : Z) (actor caller : option Z)
  | P_cancel (id : Z) (actor caller : option Z)
  | P_receive (a : ReceiptArgs) (lines : list GoodsReceiptLineInput) (caller : option Z)
  | P_return (a : PurchaseReturnArgs) (lines : list PurchaseReturnLineInput) (caller : option Z).

Definition run_purchasing_op (op : purchasing_op) : Tx Z :=
  match op with
  | P_create_supplier d a => create_supplier d a
  | P_update_supplier i c a => update_supplier i c a
  | P_set_supplier_active i b a => set_supplier_active i b a
  | P_create_order a ls c => create_purchase_order a ls c
  | P_submit i a c => submit_purchase_order i a c
  | P_cancel i a c => cancel_purchase_order i a c
  | P_receive a ls c => receive_goods a ls c
  | P_return a ls c => create_purchase_return a ls c
  end.

(** ** Invariants of the other components

    The module writes the purchasing tables and the audit trail itself; the
    stock and the ledger only through [record_movement] and the two postings. *)

Definition core_tables (d : database) :=
  (directory_tables d, catalog_tables d, ledger_tables d, stock_tables d, selling_tables d,
   tills_tables d, fiscal_tables d, payables_tables d, transit_tables d, people_tables d,
   payroll_tables d).

Ltac purchasing_ops :=
  unfold create_supplier, update_supplier, set_supplier_active, create_purchase_order,
    submit_purchase_order, cancel_purchase_order, receive_goods, create_purchase_return,
    _create_purchase_order_inner, _validate_po_items, validate_po_item, _generate_purchase_number,
    get_supplier, get_purchase_order, or_duplicate_code, check_order_store,
    resolve_receipt, write_receipt_details, validate_receipt_line, resolve_receipt_line,
    receive_line, apply_received, _advance_purchase_order_status, check_purchase_return,
    write_purchase_return, check_returnable, lock_returned_product, check_on_hand, give_back,
    lock_product_for_update, insert_or_winner, find_by.

Section KeepsPurchasing.
Context (I : database -> Prop).
Context (frame : forall d d', core_tables d' = core_tables d -> I d -> I d').
Context (movement : forall pid a, keeps I (record_movement pid a)).
Context (receipt_posted : forall i st dt vs by_, keeps I (post_goods_receipt_journal i st dt vs by_)).
Context (return_posted : forall i st dt vs by_, keeps I (post_purchase_return_journal i st dt vs by_)).

Lemma keeps_core {A} (m : Tx A) :
  fixes committed m -> fixes (fun s => core_tables (working s)) m -> keeps I m.
Proof. apply (keeps_frame _ core_tables). exact frame. Qed.

Lemma run_purchasing_op_keeps op : keeps I (run_purchasing_op op).
Proof.
  destruct op; simpl; purchasing_ops;
    walk_keeps ltac:(first [apply movement|apply receipt_posted|apply return_posted
                           |apply keeps_core; solve_fixes]).
Qed.
End KeepsPurchasing.

Lemma purchasing_keeps_stock op : keeps stock_wf (run_purchasing_op op).
Proof.
  apply run_purchasing_op_keeps.
  - intros d d' [= _ Ep _ Em _ _ _]. by apply stock_wf_ext; rewrite ?Ep, ?Em.
  - solve_keeps.
  - unfold post_goods_receipt_journal, _post_standard, posted. solve_keeps.
  - unfold post_purchase_return_journal, _post_standard, posted. solve_keeps.
Qed.

Lemma purchasing_keeps_books op : keeps books_wf (run_purchasing_op op).
Proof.
  apply run_purchasing_op_keeps.
  - intros d d' [= _ _ El _ _ _ _] [? ?].
    split; [by apply (ledger_wf_ext d)|by apply (reversals_wf_ext d)].
  - solve_keeps.
  - intros i st dt vs by_. by apply (post_keeps (P_goods_receipt i st dt vs)).
  - intros i st dt vs by_. by apply (post_keeps (P_purchase_return i st dt vs)).
Qed.

(** ** What a receipt writes *)

(** The product after one of its lines. *)
Definition receive_into (p : Product) (d : ReceiptDetail) : Product :=
  with_stock (current_qty_on_hand p + gl_quantity d.1)
    (Some (compute_new_wac (current_qty_on_hand p) (current_cost p)
             (gl_quantity d.1) (gl_unit_cost d.1))) p.

Definition details_of (product_id : Z) (details : list ReceiptDetail) : list ReceiptDetail :=
  List.filter (fun d => poi_product_id d.2 =? product_id) details.

(** The quantity of one order item in a receipt's lines. *)
Definition line_total (lines : list GoodsReceiptLineInput) (item_id : Z) : qty :=
  sum_where (fun l => gl_order_item_id l =? item_id) gl_quantity lines.

Definition movement_of_detail (store order : Z) (by_ : option Z) (d : ReceiptDetail)
    (m : InventoryMovement) : Prop :=
  exists resulting new_wac,
    m = movement_row (poi_product_id d.2) resulting (receipt_movement store order by_ d.1 new_wac).

(** What receiving the lines leaves alone. *)
Definition receiving_frame (d : database) :=
  (ledger_tables d, purchase_orders d, purchase_order_items d, goods_receipts d,
   purchase_returns d, purchase_return_items d).

Lemma details_of_app pid l1 l2 : details_of pid (l1 ++ l2) = details_of pid l1 ++ details_of pid l2.
Proof. apply List.filter_app. Qed.

Lemma receive_lines_ok store order i by_ details s s' :
  for_each (receive_line store order i by_) details s = (Ok tt, s') ->
  committed s' = committed s /\ receiving_frame (working s') = receiving_frame (working s) /\
  goods_receipt_items (working s')
  = goods_receipt_items (working s) ++ map (fun d => receipt_item i d.1) details /\
  (forall pid p, row_of (products (working s)) pid = Some p ->
     row_of (products (working s')) pid = Some (fold_left receive_into (details_of pid details) p)) /\
  exists new, inventory_movements (working s') = inventory_movements (working s) ++ new /\
    Forall2 (movement_of_detail store order by_) details new.
Proof.
  intros H.
  eapply (for_each_ok_ind _ (fun dn s1 =>
    committed s1 = committed s /\ receiving_frame (working s1) = receiving_frame (working s) /\
    goods_receipt_items (working s1)
    = goods_receipt_items (working s) ++ map (fun d => receipt_item i d.1) dn /\
    (forall pid p, row_of (products (working s)) pid = Some p ->
       row_of (products (working s1)) pid = Some (fold_left receive_into (details_of pid dn) p)) /\
    exists new, inventory_movements (working s1) = inventory_movements (working s) ++ new /\
      Forall2 (movement_of_detail store order by_) dn new)) in H; [done| |].
  - rewrite app_nil_r. split_and!; try done. exists []. by rewrite app_nil_r.
  - intros dn d rest s1 s2 _ (Hc & Hf & Hi & Hp & new & Hm & Hnew) H1. unfold receive_line in H1.
    apply bind_ok in H1 as (o & s3 & H3 & H1). apply get_ok in H3 as [-> <-].
    apply bind_ok in H1 as (p & s3 & H3 & H1). apply of_option_ok in H3 as [Hrow <-]. simpl in Hrow.
    apply bind_ok in H1 as (k & s3 & H3 & H1).
    apply record_movement_ok in H3 as (p' & Hrow' & _ & _ & _ & _ & ->). simpl in Hrow'.
    rewrite Hrow in Hrow'. injection Hrow' as <-.
    apply bind_ok in H1 as (k' & s3 & H3 & H1). apply ret_ok in H1 as [_ <-].
    apply add_ok in H3 as (_ & _ & _ & ->). simpl in *.
    rewrite map_app, Hi, Hm, <- !app_assoc. split_and!; try done.
    + intros pid q Hq. specialize (Hp pid q Hq). rewrite row_of_set, details_of_app, fold_left_app.
      unfold details_of at 1. simpl. case_bool_decide as E.
      * subst. rewrite Z.eqb_refl, Hp. simpl. rewrite Hrow in Hp. injection Hp as <-. done.
      * by rewrite (proj2 (Z.eqb_neq _ _) E).
    + eexists. split; [done|]. apply Forall2_app; [done|]. constructor; [|constructor].
      by do 2 eexists.
Qed.

(** Summing by key, one entry per key. *)
Lemma received_qty_keys lines :
  NoDup (dict_keys (received_qty_by_item lines)) /\
  (forall k, default 0 (dict_get k (received_qty_by_item lines)) = line_total lines k) /\
  (forall k, k ∈ dict_keys (received_qty_by_item lines) <-> exists l, l ∈ lines /\ gl_order_item_id l = k).
Proof. apply (dict_add_all gl_order_item_id gl_quantity). Qed.

Lemma with_received_same i : with_received (quantity_received i) i = i.
Proof. by destruct i. Qed.

(** The item after the update of its received quantity by [q]. *)
Definition add_received (q : qty) (i : PurchaseOrderItem) : PurchaseOrderItem :=
  with_received (quantity_received i + q) i.

Lemma apply_received_ok totals s s' :
  for_each apply_received totals s = (Ok tt, s') ->
  exists items, s' = with_working (over_purchase_order_items (fun _ => items) (working s)) s /\
  forall k, row_of items k
    = add_received (dict_total totals k) <$> row_of (purchase_order_items (working s)) k.
Proof.
  intros H.
  eapply (for_each_ok_ind _ (fun dn s1 => exists items,
    s1 = with_working (over_purchase_order_items (fun _ => items) (working s)) s /\
    forall k, row_of items k
      = add_received (dict_total dn k) <$> row_of (purchase_order_items (working s)) k)) in H; [done| |].
  - exists (purchase_order_items (working s)). split.
    + by destruct s as [c [? ? ? ? ? ? ? ? [] ? ?] e n w].
    + intros k. unfold dict_total, add_received. rewrite sum_where_nil.
      destruct (row_of _ k) as [i|]; simpl; [|done]. by rewrite Z.add_0_r, with_received_same.
  - intros dn [k q] rest s1 s2 _ (items & -> & Hi) H1. unfold apply_received in H1.
    apply bind_ok in H1 as (o & s3 & H3 & H1). apply get_ok in H3 as [-> <-].
    apply bind_ok in H1 as (i & s3 & H3 & H1). apply of_option_ok in H3 as [Hrow <-]. simpl in *.
    apply update_ok in H1 as (_ & _ & _ & _ & ->). simpl.
    eexists. split; [reflexivity|]. intros j. rewrite row_of_set.
    unfold dict_total. rewrite sum_where_app, sum_where_cons, sum_where_nil. simpl.
    case_bool_decide as E.
    + subst. rewrite Z.eqb_refl, Hi. rewrite Hi in Hrow.
      destruct (row_of _ j) as [i0|]; [|done]. simpl in *. injection Hrow as <-.
      unfold add_received, with_received. simpl. do 2 f_equal. unfold dict_total. lia.
    + rewrite (proj2 (Z.eqb_neq _ _) E), Hi. unfold dict_total.
      by rewrite Z.add_0_l, Z.add_0_r.
Qed.

(** The status an order is advanced to. *)
Definition advanced_status (items : list PurchaseOrderItem) : PurchaseOrderStatus :=
  if forallb fully_received items then PO_RECEIVED else PO_PARTIALLY_RECEIVED.

Lemma advance_status_ok order s s' :
  existsb some_received (items_of_order (working s) order) = true ->
  _advance_purchase_order_status order s = (Ok tt, s') ->
  s' = with_working (over_purchase_orders
         (set_row order (with_po_status (advanced_status (items_of_order (working s) order))))
         (working s)) s.
Proof.
  unfold _advance_purchase_order_status, advanced_status. intros He H.
  apply bind_ok in H as (items & s1 & H1 & H). apply gets_ok in H1 as [-> <-].
  assert (length (items_of_order (working s) order) <> 0%nat) by (by destruct (items_of_order _ _)).
  rewrite bool_decide_eq_false_2 in H by done. simpl in H. rewrite He in H.
  destruct (forallb _ _); by apply update_ok in H as (_ & _ & _ & _ & ->).
Qed.

Definition detail_valid (d : database) (order : Z) (x : ReceiptDetail) : Prop :=
  0 < gl_quantity x.1 /\ 0 <= gl_unit_cost x.1 /\
  row_of (purchase_order_items d) (gl_order_item_id x.1) = Some x.2 /\ poi_order_id x.2 = order.

Definition items_received (lines : list GoodsReceiptLineInput) (d d' : database) : Prop :=
  forall k, row_of (purchase_order_items d') k
    = add_received (line_total lines k) <$> row_of (purchase_order_items d) k.

(** The order has something received as soon as one line is applied. *)
Lemma received_some d d' order details :
  details <> [] -> (forall x, x ∈ details -> detail_valid d order x) ->
  (forall k i, row_of (purchase_order_items d) k = Some i -> 0 <= quantity_received i) ->
  items_received (map fst details) d d' ->
  existsb some_received (items_of_order d' order) = true.
Proof.
  intros Hne Hv Hpos Hi. destruct details as [|x rest]; [done|].
  destruct (Hv x ltac:(left)) as (Hq & _ & Hrow & Ho).
  pose proof (Hi (gl_order_item_id x.1)) as Hx. rewrite Hrow in Hx. simpl in Hx.
  apply existsb_exists. eexists. split.
  - apply filter_In. split; [apply list_elem_of_In; by eapply row_of_elem|]. by apply Z.eqb_eq.
  - unfold some_received. simpl. apply Z.ltb_lt. specialize (Hpos _ _ Hrow).
    unfold line_total. rewrite sum_where_cons, Z.eqb_refl.
    assert (0 <= sum_where (fun l => gl_order_item_id l =? gl_order_item_id x.1) gl_quantity
              (map fst rest)); [|lia].
    unfold sum_where. rewrite sum_by_map. apply sum_by_nonneg. intros y Hy. simpl.
    destruct (_ =? _); [|done]. destruct (Hv y ltac:(by right)). lia.
Qed.

Lemma write_receipt_details_ok a store i details s s' :
  details <> [] -> (forall x, x ∈ details -> detail_valid (working s) (ra_order_id a) x) ->
  (forall k it, row_of (purchase_order_items (working s)) k = Some it -> 0 <= quantity_received it) ->
  write_receipt_details a store i details s = (Ok tt, s') ->
  exists s1 s2 posted_id new,
    committed s' = committed s /\
    goods_receipts (working s') = goods_receipts (working s) /\
    purchase_returns (working s') = purchase_returns (working s) /\
    purchase_return_items (working s') = purchase_return_items (working s) /\
    goods_receipt_items (working s')
    = goods_receipt_items (working s) ++ map (fun d => receipt_item i d.1) details /\
    items_received (map fst details) (working s) (working s') /\
    purchase_orders (working s') = set_row (ra_order_id a)
      (with_po_status (advanced_status (items_of_order (working s') (ra_order_id a))))
      (purchase_orders (working s)) /\
    (forall pid p, row_of (products (working s)) pid = Some p ->
       row_of (products (working s')) pid
       = Some (fold_left receive_into (details_of pid details) p)) /\
    inventory_movements (working s') = inventory_movements (working s) ++ new /\
    Forall2 (movement_of_detail store (ra_order_id a) (ra_received_by a)) details new /\
    ledger_tables (working s1) = ledger_tables (working s) /\
    post (P_goods_receipt i store (ra_received_date a) (received_values details)) (ra_received_by a) s1
    = (Ok posted_id, s2) /\
    ledger_tables (working s') = ledger_tables (working s2).
Proof.
  intros Hne Hv Hpos H. unfold write_receipt_details in H.
  apply bind_ok in H as ([] & s1 & H1 & H).
  apply receive_lines_ok in H1 as (Hc & Hf & Hri & Hp & new & Hm & Hnew).
  injection Hf as Hl Ho Hit Hgr Hpr Hpri.
  apply bind_ok in H as ([] & s2 & H2 & H). apply apply_received_ok in H2 as (items & -> & Hitems).
  destruct (received_qty_keys (map fst details)) as (Hnd & Htot & _).
  assert (Hrec : items_received (map fst details) (working s)
                   (over_purchase_order_items (fun _ => items) (working s1))).
  { intros k. simpl. rewrite Hitems, Hit, dict_total_get by done. by rewrite Htot. }
  apply bind_ok in H as ([] & s2 & H2 & H). apply advance_status_ok in H2 as ->;
    [|simpl; by eapply received_some].
  apply bind_ok in H as ([] & s2 & H2 & H). apply log_event_ok in H2 as ->.
  apply bind_ok in H as (posted_id & s2 & H2 & H). apply ret_ok in H as [_ <-].
  match type of H2 with _ ?s0 = _ => exists s0 end. exists s2, posted_id, new.
  pose proof (post_frame (P_goods_receipt i store _ _) _ _ _ _ H2) as [Hpd Hst].
  assert (Hpt : (committed s2, purchasing_tables (working s2)) = 
                (committed s1, purchasing_tables (over_purchase_orders
                   (set_row (ra_order_id a) (with_po_status (advanced_status
                      (items_of_order (over_purchase_order_items (fun _ => items) (working s1))
                         (ra_order_id a)))))
                   (over_purchase_order_items (fun _ => items) (working s1))))).
  { apply (fixes_run (fun s => (committed s, purchasing_tables (working s)))) in H2; [exact H2|].
    unfold post_goods_receipt_journal, _post_standard, posted. solve_fixes. }
  apply pair_equal_spec in Hpt as [Hc2 Hpt].
  split_and!; rewrite ?Hpt, ?Hc2, ?Hpd, ?Hst; simpl; try done.
  - intros k. rewrite Hpt. simpl. apply Hrec.
  - unfold items_of_order. rewrite Hpt. simpl. by rewrite Ho.
Qed.

Lemma resolve_receipt_ok order lines s po details s' :
  resolve_receipt order lines s = (Ok (po, details), s') ->
  s' = s /\ lines <> [] /\ map fst details = lines /\
  row_of (purchase_orders (working s)) order = Some po /\ receivable (po_status po) = true /\
  (forall x, x ∈ details -> detail_valid (working s) order x).
Proof.
  unfold resolve_receipt. intros H.
  apply bind_ok in H as (? & s1 & H1 & H). apply raise_if_ok in H1 as [Hl <-].
  apply bind_ok in H as ([] & s1 & H1 & H).
  eapply (for_each_ok_ind _ (fun dn s1 => s1 = s /\
    forall l, l ∈ dn -> 0 < gl_quantity l /\ 0 <= gl_unit_cost l)) in H1 as [-> Hpos].
  2:{ split; [done|]. by intros l ?%elem_of_nil. }
  2:{ intros dn l rest s2 s3 _ [-> Hd] H2. unfold validate_receipt_line in H2.
      apply bind_ok in H2 as (? & s4 & H4 & H2). apply raise_if_ok in H4 as [Hq <-].
      apply raise_if_ok in H2 as [Hc <-]. bools. split; [done|].
      intros y [Hy| ->%list_elem_of_singleton]%elem_of_app; [by apply Hd|lia]. }
  apply bind_ok in H as (o & s1 & H1 & H). apply get_ok in H1 as [-> <-].
  apply bind_ok in H as (po' & s1 & H1 & H). apply of_option_ok in H1 as [Hpo <-].
  apply bind_ok in H as (? & s1 & H1 & H). apply raise_if_ok in H1 as [Hst <-].
  apply bind_ok in H as (ds & s1 & H1 & H).
  eapply (fold_m_ok_ind _ (fun dn ds s1 => s1 = s /\ map fst ds = dn /\
    forall x, x ∈ ds -> row_of (purchase_order_items (working s)) (gl_order_item_id x.1) = Some x.2 /\
      poi_order_id x.2 = order)) in H1 as (-> & Hds & Hrow).
  2:{ split_and!; [done|done|]. by intros y ?%elem_of_nil. }
  2:{ intros dn l rest b1 s2 b2 s3 _ (-> & Hd & Hr) H2. unfold resolve_receipt_line in H2.
      apply bind_ok in H2 as (o & s4 & H4 & H2). apply get_ok in H4 as [-> <-].
      apply bind_ok in H2 as (it & s4 & H4 & H2). apply of_option_ok in H4 as [Hit <-].
      apply bind_ok in H2 as (? & s4 & H4 & H2). apply raise_if_ok in H4 as [Ho <-].
      apply ret_ok in H2 as [<- <-]. bools. split_and!; [done|by rewrite <- Hd, map_app|].
      intros y [Hy| ->%list_elem_of_singleton]%elem_of_app; [by apply Hr|done]. }
  apply bind_ok in H as ([] & s1 & H1 & H).
  assert (s1 = s) as ->.
  { apply (fixes_run (fun s => s)) in H1; [done|]. unfold lock_product_for_update. solve_fixes. }
  apply ret_ok in H as [[= <- <-] <-]. bools.
  split_and!; try done; [by destruct lines|].
  intros y Hy. destruct (Hrow y Hy) as [Hy1 Hy2]. unfold detail_valid.
  destruct (Hpos y.1) as [? ?]; [|done]. rewrite <- Hds. apply list_elem_of_fmap. by exists y.
Qed.

(** The two ways [receive_goods] returns: the receipt found under the key, or
    a fresh one. *)
Lemma receive_goods_ok a lines caller s i s' :
  receive_goods a lines caller s = (Ok i, s') ->
  (exists s1 r, committed s' = committed s /\ (s1 = working s \/ s1 = committed s) /\
     working s' = s1 /\
     select (fun _ r => receipt_under (ra_key a) r) (goods_receipts s1) = [(i, r)]) \/
  (exists po details,
     select (fun _ r => receipt_under (ra_key a) r) (goods_receipts (working s)) = [] /\
     row_of (purchase_orders (working s)) (ra_order_id a) = Some po /\
     receivable (po_status po) = true /\ store_denied caller (po_store_id po) = false /\
     lines <> [] /\ map fst details = lines /\
     (forall x, x ∈ details -> detail_valid (working s) (ra_order_id a) x) /\
     i = next_id (goods_receipts (working s)) /\
     write_receipt_details a (po_store_id po) i details
       (with_working (over_goods_receipts (fun t => t ++ [new_receipt a (po_store_id po)])
          (working s)) s) = (Ok tt, s')).
Proof.
  unfold receive_goods. intros H.
  apply bind_ok in H as ([] & s1 & H1 & H).
  assert (s1 = s /\ forall po, row_of (purchase_orders (working s)) (ra_order_id a) = Some po ->
            store_denied caller (po_store_id po) = false) as [-> Hstore].
  { unfold check_order_store in H1. apply bind_ok in H1 as (o & s2 & H2 & H1).
    apply get_ok in H2 as [-> <-]. simpl in H1.
    destruct (row_of (purchase_orders (working s)) (ra_order_id a)) as [po|].
    - apply enforce_store_access_ok in H1 as [Hd <-]. split; [done|]. by intros ? [= <-].
    - by apply ret_ok in H1 as [_ <-]. }
  clear H1. apply bind_ok in H as (o & s1 & H1 & H).
  apply find_by_ok in H1 as [-> Hsel]. simpl in Hsel. destruct o as [[j r]|].
  { apply ret_ok in H as [<- <-]. left. exists (working s), r. split_and!; auto. }
  apply bind_ok in H as ([po details] & s1 & H1 & H).
  apply resolve_receipt_ok in H1 as (-> & Hne & Hd & Hpo & Hrec & Hv).
  apply bind_ok in H as ([j new] & s1 & Hins & H). apply insert_or_winner_ok in Hins.
  destruct Hins as [(-> & -> & _ & _ & ->)|(-> & -> & r & Hw)]; simpl in *.
  - apply bind_ok in H as ([] & s1 & Hd' & H). apply ret_ok in H as [<- <-]. right.
    exists po, details. split_and!; auto.
  - apply ret_ok in H as [<- <-]. left. exists (committed s), r. split_and!; auto.
Qed.

(** ** What a return writes *)

Definition given_back (lines : list PurchaseReturnLineInput) (product_id : Z) : qty :=
  sum_where (fun l => prl_product_id l =? product_id) prl_quantity lines.

Lemma requested_returns_get lines :
  (forall k, default 0 (dict_get k (requested_returns lines)) = given_back lines k) /\
  forall l, l ∈ lines -> is_Some (dict_get (prl_product_id l) (requested_returns lines)).
Proof.
  unfold requested_returns. induction lines as [|l lines [IH1 IH2]] using rev_ind.
  { split; [done|]. by intros l ?%elem_of_nil. }
  rewrite fold_left_app. simpl. split.
  - intros k. rewrite dict_get_add, IH1. unfold given_back.
    rewrite sum_where_app, sum_where_cons, sum_where_nil, (Z.eqb_sym k). lia.
  - intros x [Hx| ->%list_elem_of_singleton]%elem_of_app; unfold dict_add; rewrite dict_get_set.
    + destruct (_ =? _); [done|by apply IH2].
    + by rewrite Z.eqb_refl.
Qed.

Lemma check_purchase_return_ok a lines s s' :
  check_purchase_return a lines s = (Ok tt, s') ->
  s' = s /\ lines <> [] /\ (forall l, l ∈ lines -> 0 < prl_quantity l) /\
  (exists po, row_of (purchase_orders (working s)) (pa_order_id a) = Some po /\
     po_store_id po = pa_store_id a) /\
  (forall l, l ∈ lines ->
     already_returned_by_product (working s) (pa_order_id a) (prl_product_id l)
     + given_back lines (prl_product_id l)
     <= received_by_product (working s) (pa_order_id a) (prl_product_id l)) /\
  (forall l, l ∈ lines -> exists p, row_of (products (working s)) (prl_product_id l) = Some p /\
     product_store_id p = pa_store_id a /\ given_back lines (prl_product_id l) <= current_qty_on_hand p).
Proof.
  unfold check_purchase_return. intros H.
  apply bind_ok in H as (? & s1 & H1 & H). apply raise_if_ok in H1 as [Hl <-].
  apply bind_ok in H as ([] & s1 & H1 & H).
  apply (for_each_checks _ (fun l => 0 < prl_quantity l)) in H1 as [-> Hpos].
  2:{ intros y s2 s3 _ [Hq <-]%raise_if_ok. bools. split; [done|lia]. }
  apply bind_ok in H as (o & s1 & H1 & H). apply get_ok in H1 as [-> <-].
  apply bind_ok in H as (po & s1 & H1 & H). apply of_option_ok in H1 as [Hpo <-].
  apply bind_ok in H as (? & s1 & H1 & H). apply raise_if_ok in H1 as [Hst <-].
  apply bind_ok in H as ([] & s1 & H1 & H).
  apply (for_each_checks _ (fun r => already_returned_by_product (working s) (pa_order_id a) r.1 + r.2
    <= received_by_product (working s) (pa_order_id a) r.1)) in H1 as [-> Hret].
  2:{ intros y s2 s3 _ H2. unfold check_returnable in H2.
      apply bind_ok in H2 as (? & s4 & H4 & H2). apply gets_ok in H4 as [-> <-].
      apply bind_ok in H2 as (? & s4 & H4 & H2). apply gets_ok in H4 as [-> <-].
      apply raise_if_ok in H2 as [Hq <-]. bools. split; [done|intros ->; lia]. }
  apply bind_ok in H as ([] & s1 & H1 & H).
  apply (for_each_checks _ (fun k => exists p, row_of (products (working s)) k = Some p /\
    product_store_id p = pa_store_id a)) in H1 as [-> Hprod].
  2:{ intros y s2 s3 _ H2. unfold lock_returned_product in H2.
      apply bind_ok in H2 as (p & s4 & H4 & H2). apply lock_product_ok in H4 as [Hp ->].
      apply raise_if_ok in H2 as [Hq <-]. bools. split; [done|intros ->; eauto]. }
  apply (for_each_checks _ (fun r => exists p, row_of (products (working s)) r.1 = Some p /\
    r.2 <= current_qty_on_hand p)) in H as [-> Hhand].
  2:{ intros y s2 s3 _ H2. unfold check_on_hand in H2.
      apply bind_ok in H2 as (o & s4 & H4 & H2). apply get_ok in H4 as [-> <-].
      apply bind_ok in H2 as (p & s4 & H4 & H2). apply of_option_ok in H4 as [Hp <-].
      apply raise_if_ok in H2 as [Hq <-]. bools. split; [done|intros ->; eauto]. }
  bools. destruct (requested_returns_get lines) as [Hg Hin].
  assert (Hreq : forall l, l ∈ lines -> (prl_product_id l, given_back lines (prl_product_id l))
                                          ∈ requested_returns lines).
  { intros l Hl'. destruct (Hin l Hl') as [q Hq]. rewrite <- Hg, Hq. by apply dict_get_elem. }
  split_and!; [done|by destruct lines|done|by exists po|..].
  - intros l Hl'. exact (Hret _ (Hreq l Hl')).
  - intros l Hl'. destruct (Hhand _ (Hreq l Hl')) as (p & Hp & Hq). simpl in *.
    exists p. split_and!; [done| |done].
    destruct (Hprod (prl_product_id l)) as (p' & Hp' & Hs).
    + apply elem_sorted_set, list_elem_of_fmap. by exists l.
    + rewrite Hp in Hp'. by injection Hp' as <-.
Qed.

(** A line's row: its product and quantity are the request's, its cost the
    product's. *)
Definition returned_row (i : Z) (l : PurchaseReturnLineInput) (r : PurchaseReturnItem) : Prop :=
  exists c, r = purchase_return_item i l c.

Lemma give_backs_ok store i by_ lines s vs s' :
  fold_m (give_back store i by_) lines [] s = (Ok vs, s') ->
  committed s' = committed s /\ receiving_frame (working s') =
    (ledger_tables (working s), purchase_orders (working s), purchase_order_items (working s),
     goods_receipts (working s), purchase_returns (working s), purchase_return_items (working s'))
  /\ goods_receipt_items (working s') = goods_receipt_items (working s) /\
  (exists rows, purchase_return_items (working s') = purchase_return_items (working s) ++ rows /\
     Forall2 (returned_row i) lines rows) /\
  (forall pid p, row_of (products (working s)) pid = Some p ->
     row_of (products (working s')) pid
     = Some (with_stock (current_qty_on_hand p - given_back lines pid) None p)) /\
  Forall2 (fun l v => v.1 = prl_quantity l /\ exists p,
     row_of (products (working s)) (prl_product_id l) = Some p /\ v.2 = current_cost p) lines vs.
Proof.
  intros H.
  eapply (fold_m_ok_ind _ (fun dn vs s1 =>
    committed s1 = committed s /\ receiving_frame (working s1) =
      (ledger_tables (working s), purchase_orders (working s), purchase_order_items (working s),
       goods_receipts (working s), purchase_returns (working s), purchase_return_items (working s1))
    /\ goods_receipt_items (working s1) = goods_receipt_items (working s) /\
    (exists rows, purchase_return_items (working s1) = purchase_return_items (working s) ++ rows /\
       Forall2 (returned_row i) dn rows) /\
    ((forall pid, row_of (products (working s)) pid = None ->
       row_of (products (working s1)) pid = None) /\
     forall pid p, row_of (products (working s)) pid = Some p ->
       row_of (products (working s1)) pid
       = Some (with_stock (current_qty_on_hand p - given_back dn pid) None p)) /\
    Forall2 (fun l v => v.1 = prl_quantity l /\ exists p,
       row_of (products (working s)) (prl_product_id l) = Some p /\ v.2 = current_cost p) dn vs)) in H.
  - destruct H as (? & ? & ? & ? & [_ ?] & ?). split_and!; done.
  - split_and!; try done; [exists []; by rewrite app_nil_r|].
    intros pid p Hp. unfold given_back. rewrite sum_where_nil, Z.sub_0_r, Hp. by destruct p.
  - intros dn l rest b1 s1 b2 s2 _ (Hc & Hf & Hg & (rows & Hr & Hrows) & [Hnone Hp] & Hvs) H1.
    unfold give_back in H1.
    apply bind_ok in H1 as (o & s3 & H3 & H1). apply get_ok in H3 as [-> <-].
    apply bind_ok in H1 as (p & s3 & H3 & H1). apply of_option_ok in H3 as [Hrow <-]. simpl in Hrow.
    apply bind_ok in H1 as (k & s3 & H3 & H1).
    apply record_movement_ok in H3 as (p' & Hrow' & _ & _ & _ & _ & ->). simpl in Hrow'.
    rewrite Hrow in Hrow'. injection Hrow' as <-.
    apply bind_ok in H1 as (k' & s3 & H3 & H1). apply ret_ok in H1 as [<- <-].
    apply add_ok in H3 as (_ & _ & _ & ->). simpl in *.
    injection Hf as E1 E2 E3 E4 E5.
    destruct (row_of (products (working s)) (prl_product_id l)) as [p0|] eqn:E0;
      [|by rewrite (Hnone _ E0) in Hrow].
    pose proof (Hp _ _ E0) as Hp0. rewrite Hrow in Hp0. injection Hp0 as ->.
    unfold receiving_frame. simpl. rewrite E1, E2, E3, E4, E5, Hr, <- app_assoc.
    split_and!; try done.
    + eexists. split; [done|]. apply Forall2_app; [done|]. constructor; [|constructor]. by eexists.
    + intros pid Hpid. rewrite row_of_set. case_bool_decide as E; [|by apply Hnone].
      subst. by rewrite E0 in Hpid.
    + intros pid q Hq. rewrite row_of_set. unfold given_back.
      rewrite sum_where_app, sum_where_cons, sum_where_nil. case_bool_decide as E.
      * subst. rewrite E0 in Hq. injection Hq as <-. rewrite Hrow, Z.eqb_refl. simpl.
        unfold with_stock. simpl. do 2 f_equal. unfold given_back. lia.
      * rewrite (proj2 (Z.eqb_neq _ _) E), (Hp pid q Hq). unfold given_back. do 2 f_equal. lia.
    + apply Forall2_app; [done|]. constructor; [|constructor]. simpl. split; [done|].
      exists p0. split; [done|]. done.
Qed.

Lemma write_purchase_return_ok a i lines s s' :
  write_purchase_return a i lines s = (Ok tt, s') ->
  exists s1 s2 posted_id rows vs,
    committed s' = committed s /\
    goods_receipts (working s') = goods_receipts (working s) /\
    purchase_orders (working s') = purchase_orders (working s) /\
    purchase_order_items (working s') = purchase_order_items (working s) /\
    purchase_returns (working s') = purchase_returns (working s) /\
    goods_receipt_items (working s') = goods_receipt_items (working s) /\
    purchase_return_items (working s') = purchase_return_items (working s) ++ rows /\
    Forall2 (returned_row i) lines rows /\
    (forall pid p, row_of (products (working s)) pid = Some p ->
       row_of (products (working s')) pid
       = Some (with_stock (current_qty_on_hand p - given_back lines pid) None p)) /\
    Forall2 (fun l v => v.1 = prl_quantity l /\ exists p,
       row_of (products (working s)) (prl_product_id l) = Some p /\ v.2 = current_cost p) lines vs /\
    ledger_tables (working s1) = ledger_tables (working s) /\
    post (P_purchase_return i (pa_store_id a) (pa_return_date a) vs) (pa_created_by a) s1
    = (Ok posted_id, s2) /\
    ledger_tables (working s') = ledger_tables (working s2).
Proof.
  unfold write_purchase_return. intros H.
  apply bind_ok in H as (vs & s1 & H1 & H).
  apply give_backs_ok in H1 as (Hc & Hf & Hg & (rows & Hr & Hrows) & Hp & Hvs).
  injection Hf as E1 E2 E3 E4 E5.
  apply bind_ok in H as ([] & s2 & H2 & H). apply log_event_ok in H2 as ->.
  apply bind_ok in H as (posted_id & s2 & H2 & H). apply ret_ok in H as [_ <-].
  match type of H2 with _ ?s0 = _ => exists s0 end. exists s2, posted_id, rows, vs.
  pose proof (post_frame (P_purchase_return i _ _ _) _ _ _ _ H2) as [Hpd Hst].
  assert (Hpt : (committed s2, purchasing_tables (working s2)) = 
                (committed s1, purchasing_tables (working s1))).
  { apply (fixes_run (fun s => (committed s, purchasing_tables (working s)))) in H2; [exact H2|].
    unfold post_purchase_return_journal, _post_standard, posted. solve_fixes. }
  apply pair_equal_spec in Hpt as [Hc2 Hpt].
  split_and!; rewrite ?Hpt, ?Hc2, ?Hpd, ?Hst; simpl; done.
Qed.

Lemma create_purchase_return_ok a lines caller s i s' :
  create_purchase_return a lines caller s = (Ok i, s') ->
  (exists s1 r, committed s' = committed s /\ (s1 = working s \/ s1 = committed s) /\
     working s' = s1 /\
     select (fun _ r => purchase_return_under (pa_key a) r) (purchase_returns s1) = [(i, r)]) \/
  (store_denied caller (pa_store_id a) = false /\
   select (fun _ r => purchase_return_under (pa_key a) r) (purchase_returns (working s)) = [] /\
   check_purchase_return a lines s = (Ok tt, s) /\
   i = next_id (purchase_returns (working s)) /\
   write_purchase_return a i lines
     (with_working (over_purchase_returns (fun t => t ++ [new_purchase_return a]) (working s)) s)
   = (Ok tt, s')).
Proof.
  unfold create_purchase_return. intros H.
  apply bind_ok in H as (? & s1 & H1 & H). apply enforce_store_access_ok in H1 as [Hd <-].
  apply bind_ok in H as (o & s1 & H1 & H). apply find_by_ok in H1 as [-> Hsel]. simpl in Hsel.
  destruct o as [[j r]|].
  { apply ret_ok in H as [<- <-]. left. exists (working s), r. split_and!; auto. }
  apply bind_ok in H as ([] & s1 & Hck & H).
  assert (s1 = s) as -> by (by apply check_purchase_return_ok in Hck as [-> _]).
  apply bind_ok in H as ([j new] & s1 & Hins & H). apply insert_or_winner_ok in Hins.
  destruct Hins as [(-> & -> & _ & _ & ->)|(-> & -> & r & Hw)]; simpl in *.
  - apply bind_ok in H as ([] & s1 & Hd' & H). apply ret_ok in H as [<- <-]. right. auto.
  - apply ret_ok in H as [<- <-]. left. exists (committed s), r. split_and!; auto.
Qed.

(** ** The invariant *)

(** What the receipts recorded for one order item. *)
Definition receipts_total (d : database) (item_id : Z) : qty :=
  sum_where (fun r => gri_order_item_id r =? item_id) gri_quantity (goods_receipt_items d).

(** What an order's status says about its items. *)
Definition status_ok (st : PurchaseOrderStatus) (items : list PurchaseOrderItem) : Prop :=
  match st with
  | PO_DRAFT | PO_ORDERED => existsb some_received items = false
  | PO_PARTIALLY_RECEIVED => existsb some_received items = true /\ forallb fully_received items = false
  | PO_RECEIVED => existsb some_received items = true /\ forallb fully_received items = true
  | PO_CANCELLED => True
  end.

Record purchasing_wf (d : database) : Prop := {
  pw_items : forall k i, row_of (purchase_order_items d) k = Some i ->
    is_Some (row_of (purchase_orders d) (poi_order_id i));
  pw_bounds : forall k i, row_of (purchase_order_items d) k = Some i ->
    0 < quantity_ordered i /\ 0 <= quantity_received i;
  pw_received : forall k i, row_of (purchase_order_items d) k = Some i ->
    quantity_received i = receipts_total d k;
  pw_receipts : forall r, r ∈ goods_receipt_items d ->
    is_Some (row_of (purchase_order_items d) (gri_order_item_id r)) /\ 0 < gri_quantity r;
  pw_return_items : forall r, r ∈ purchase_return_items d ->
    is_Some (row_of (purchase_returns d) (pri_return_id r));
  pw_returned : forall o p,
    already_returned_by_product d o p <= received_by_product d o p;
  pw_status : forall o po, row_of (purchase_orders d) o = Some po ->
    status_ok (po_status po) (items_of_order d o);
}.

(** Only these tables matter. *)
Definition document_tables (d : database) :=
  (purchase_orders d, purchase_order_items d, goods_receipt_items d, purchase_returns d,
   purchase_return_items d).

Lemma purchasing_wf_ext d d' :
  document_tables d' = document_tables d -> purchasing_wf d -> purchasing_wf d'.
Proof.
  intros [= E1 E2 E3 E4 E5] [H1 H2 H3 H4 H5 H6 H7].
  constructor; unfold receipts_total, already_returned_by_product, received_by_product,
    returns_order, items_of_order in *; rewrite ?E1, ?E2, ?E3, ?E4, ?E5; done.
Qed.

Lemma keeps_purchasing_frame {A} (m : Tx A) :
  fixes committed m -> fixes (fun s => document_tables (working s)) m -> keeps purchasing_wf m.
Proof. apply (keeps_frame _ document_tables). intros d d'. apply purchasing_wf_ext. Qed.

#[export] Hint Extern 3 (keeps purchasing_wf _) =>
  (apply keeps_purchasing_frame; solve [solve_fixes]) : keeps.

(** *** Receiving keeps it *)

Lemma line_total_other d order details k i :
  (forall x, x ∈ details -> detail_valid d order x) ->
  row_of (purchase_order_items d) k = Some i -> poi_order_id i <> order ->
  line_total (map fst details) k = 0.
Proof.
  intros Hv Hi Ho. apply sum_where_none. intros l Hl. apply Z.eqb_neq. intros Hk.
  apply list_elem_of_fmap in Hl as (x & -> & Hx). destruct (Hv x Hx) as (_ & _ & Hrow & Hor).
  congruence.
Qed.

Lemma line_total_nonneg d order details k :
  (forall x, x ∈ details -> detail_valid d order x) -> 0 <= line_total (map fst details) k.
Proof.
  intros Hv. unfold line_total, sum_where. rewrite sum_by_map. apply sum_by_nonneg. intros x Hx. simpl.
  destruct (_ =? _); [|done]. destruct (Hv x Hx). lia.
Qed.

Lemma receipt_wf d d' order receipt details :
  purchasing_wf d -> details <> [] -> (forall x, x ∈ details -> detail_valid d order x) ->
  purchase_returns d' = purchase_returns d -> purchase_return_items d' = purchase_return_items d ->
  goods_receipt_items d'
  = goods_receipt_items d ++ map (fun x => receipt_item receipt x.1) details ->
  items_received (map fst details) d d' ->
  purchase_orders d' = set_row order
    (with_po_status (advanced_status (items_of_order d' order))) (purchase_orders d) ->
  purchasing_wf d'.
Proof.
  intros [W1 W2 W3 W4 W5 W6 W7] Hne Hv Epr Epri Egri Hi Epo.
  assert (Hrow : forall k i, row_of (purchase_order_items d') k = Some i ->
    exists i0, row_of (purchase_order_items d) k = Some i0 /\
      i = add_received (line_total (map fst details) k) i0).
  { intros k i Hk. rewrite (Hi k) in Hk. destruct (row_of (purchase_order_items d) k) as [i0|]; [|done].
    injection Hk as <-. eauto. }
  assert (Hsame : forall o, o <> order -> items_of_order d' o = items_of_order d o).
  { intros o Ho. apply Forall2_filter_eq, rows_Forall2. intros k. rewrite (Hi k).
    destruct (row_of (purchase_order_items d) k) as [i0|] eqn:E; simpl; constructor.
    split; [done|]. intros Eo%Z.eqb_eq.
    rewrite (line_total_other d order details k i0 Hv E) by congruence.
    unfold add_received. by rewrite Z.add_0_r, with_received_same. }
  constructor.
  - intros k i (i0 & Hk & ->)%Hrow. simpl. rewrite Epo, row_of_set.
    specialize (W1 k i0 Hk). destruct W1 as [po Hpo]. rewrite Hpo. case_bool_decide; eauto.
  - intros k i (i0 & Hk & ->)%Hrow. simpl. destruct (W2 k i0 Hk).
    pose proof (line_total_nonneg d order details k Hv). lia.
  - intros k i (i0 & Hk & ->)%Hrow. simpl. rewrite (W3 k i0 Hk). unfold receipts_total.
    rewrite Egri, sum_where_app. f_equal. unfold line_total, sum_where. by rewrite !sum_by_map.
  - intros r. rewrite Egri. intros [Hr|Hr]%elem_of_app.
    + destruct (W4 r Hr) as [[i Hk] Hq]. split; [|done]. rewrite (Hi _), Hk. by eexists.
    + apply list_elem_of_fmap in Hr as (x & -> & Hx). destruct (Hv x Hx) as (Hq & _ & Hk & _).
      simpl. split; [|done]. rewrite (Hi _), Hk. by eexists.
  - rewrite Epr, Epri. exact W5.
  - intros o p. assert (already_returned_by_product d' o p = already_returned_by_product d o p) as ->.
    { unfold already_returned_by_product, returns_order. by rewrite Epr, Epri. }
    etransitivity; [apply W6|]. apply Forall2_sum_where_le, rows_Forall2. intros k. rewrite (Hi k).
    destruct (row_of (purchase_order_items d) k) as [i0|] eqn:E; simpl; constructor.
    split; [done|]. intros _. unfold add_received. simpl. pose proof (line_total_nonneg d order details k Hv). lia.
  - intros o po. rewrite Epo, row_of_set. case_bool_decide as E.
    + subst o. destruct (row_of (purchase_orders d) order) as [po0|]; [|done]. intros [= <-]. simpl.
      assert (existsb some_received (items_of_order d' order) = true) as Hs.
      { eapply received_some; [done|done| |done]. intros k i Hk. by destruct (W2 k i Hk). }
      unfold advanced_status. destruct (forallb _ _) eqn:Ef; simpl; by rewrite Ef, Hs.
    + intros Hpo. rewrite Hsame by done. by apply W7.
Qed.

Lemma receive_goods_wf a lines caller : keeps purchasing_wf (receive_goods a lines caller).
Proof.
  apply keeps_of_ok.
  { purchasing_ops. unfold post_goods_receipt_journal, _post_standard, posted, record_movement,
      lock_product_for_update. walk_fixes ltac:(solve_fixes). }
  intros s i s' Hc Hw H.
  apply receive_goods_ok in H as [(s1 & r & _ & Hor & -> & _)|
    (po & details & _ & _ & _ & _ & Hne & Hd & Hv & -> & H)].
  { by destruct Hor as [->| ->]. }
  apply write_receipt_details_ok in H;
    [|by intros ->; subst|exact Hv|simpl; intros k i Hk; by destruct (pw_bounds _ Hw k i Hk)].
  destruct H as (s1 & s2 & pid & new & _ & _ & Epr & Epri & Egri & Hi & Epo & _).
  simpl in *. eapply receipt_wf; [exact Hw| |exact Hv|done|done|exact Egri|exact Hi|exact Epo].
  by intros ->; subst.
Qed.

(** *** Returning keeps it *)

Lemma returns_order_app d d' order x i :
  purchase_returns d' = purchase_returns d ++ [x] ->
  is_Some (row_of (purchase_returns d) (pri_return_id i)) ->
  returns_order d' order i = returns_order d order i.
Proof. intros E [r Hr]. unfold returns_order. by rewrite E, (row_of_app_old _ _ _ _ Hr), Hr. Qed.

Lemma returned_rows_total i lines rows p :
  Forall2 (returned_row i) lines rows ->
  sum_where (fun r => pri_product_id r =? p) pri_quantity rows = given_back lines p.
Proof.
  unfold given_back. induction 1 as [|l r lines rows [c ->] _ IH]; [done|].
  by rewrite !sum_where_cons, IH.
Qed.

Lemma purchase_return_totals d d' i ret lines rows o p :
  (forall r, r ∈ purchase_return_items d -> is_Some (row_of (purchase_returns d) (pri_return_id r))) ->
  i = next_id (purchase_returns d) -> purchase_returns d' = purchase_returns d ++ [ret] ->
  purchase_return_items d' = purchase_return_items d ++ rows -> Forall2 (returned_row i) lines rows ->
  already_returned_by_product d' o p
  = already_returned_by_product d o p + (if pr_order_id ret =? o then given_back lines p else 0).
Proof.
  intros Hold -> Epr Epri Hrows. unfold already_returned_by_product. rewrite Epri, sum_where_app. f_equal.
  - apply sum_by_ext. intros r Hr. by rewrite (returns_order_app d d' o ret) by auto.
  - rewrite <- (returned_rows_total _ _ _ p Hrows).
    assert (Hr : forall r, r ∈ rows -> returns_order d' o r = (pr_order_id ret =? o)).
    { intros r Hr. apply list_elem_of_lookup in Hr as [n Hn].
      destruct (Forall2_lookup_r _ _ _ _ _ Hrows Hn) as (l & _ & c & ->).
      unfold returns_order. simpl. by rewrite Epr, row_of_new. }
    destruct (pr_order_id ret =? o); [|apply sum_where_none; intros r E; by rewrite (Hr r E)].
    apply sum_by_ext. intros r E. by rewrite (Hr r E).
Qed.

Lemma create_purchase_return_wf a lines caller :
  keeps purchasing_wf (create_purchase_return a lines caller).
Proof.
  apply keeps_of_ok.
  { purchasing_ops. unfold post_purchase_return_journal, _post_standard, posted, record_movement,
      lock_product_for_update. walk_fixes ltac:(solve_fixes). }
  intros s i s' Hc Hw H.
  apply create_purchase_return_ok in H as [(s1 & r & _ & Hor & -> & _)|(_ & _ & Hck & -> & H)].
  { by destruct Hor as [->| ->]. }
  apply check_purchase_return_ok in Hck as (_ & _ & _ & _ & Hbound & _).
  apply write_purchase_return_ok in H
    as (s1 & s2 & pid & rows & vs & _ & Egr & Epo & Epoi & Epr & Egri & Epri & Hrows & _).
  simpl in *. destruct Hw as [W1 W2 W3 W4 W5 W6 W7]. 
  constructor; unfold receipts_total, items_of_order; rewrite ?Epoi, ?Epo, ?Egri; try done.
  - intros r. rewrite Epri, Epr. intros [Hr|Hr]%elem_of_app.
    + destruct (W5 r Hr) as [x Hx]. exists x. by apply row_of_app_old.
    + apply list_elem_of_lookup in Hr as [n Hn].
      destruct (Forall2_lookup_r _ _ _ _ _ Hrows Hn) as (l & _ & c & ->). simpl. rewrite row_of_new. eauto.
  - intros o p. rewrite (purchase_return_totals _ _ _ _ _ _ o p W5 eq_refl Epr Epri Hrows). simpl.
    assert (received_by_product (working s') o p = received_by_product (working s) o p) as ->
      by (unfold received_by_product; by rewrite Epoi).
    destruct (Z.eqb_spec (pa_order_id a) o) as [<-|]; [|specialize (W6 o p); lia].
    destruct (decide (p ∈ map prl_product_id lines)) as [Hp|Hp].
    + apply list_elem_of_fmap in Hp as (l & -> & Hl). by apply Hbound.
    + unfold given_back. rewrite sum_where_none; [specialize (W6 (pa_order_id a) p); lia|].
      intros l Hl. apply Z.eqb_neq. intros <-. apply Hp, list_elem_of_fmap. by exists l.
Qed.

(** *** Orders keep it *)

Lemma set_status_wf d o st :
  purchasing_wf d ->
  (forall po, row_of (purchase_orders d) o = Some po ->
     status_ok (po_status po) (items_of_order d o) -> status_ok st (items_of_order d o)) ->
  purchasing_wf (over_purchase_orders (set_row o (with_po_status st)) d).
Proof.
  intros [W1 W2 W3 W4 W5 W6 W7] Hst. constructor; try done; simpl.
  - intros k i Hk. rewrite row_of_set. destruct (W1 k i Hk) as [po ->]. case_bool_decide; eauto.
  - intros j po. rewrite row_of_set. case_bool_decide as E; [|by apply W7].
    subst. destruct (row_of (purchase_orders d) j) as [po0|] eqn:E0; [|done].
    intros [= <-]. simpl. apply (Hst po0); auto.
Qed.

Lemma add_order_wf d po :
  purchasing_wf d -> po_status po = PO_DRAFT ->
  purchasing_wf (over_purchase_orders (fun t => t ++ [po]) d).
Proof.
  intros [W1 W2 W3 W4 W5 W6 W7] Hst. constructor; try done; simpl.
  - intros k i Hk. destruct (W1 k i Hk) as [x Hx]. exists x. by apply row_of_app_old.
  - intros j x [Hx|[-> ->]]%row_of_inv_app; [by apply W7|]. rewrite Hst. simpl.
    unfold items_of_order. simpl. rewrite filter_none; [done|].
    intros i Hi. apply Z.eqb_neq. intros Ei. apply elem_row_of in Hi as [k Hk].
    destruct (W1 k i Hk) as [y Hy]. apply row_of_range in Hy. lia.
Qed.

Lemma add_item_wf d i po :
  purchasing_wf d -> row_of (purchase_orders d) (poi_order_id i) = Some po ->
  po_status po = PO_DRAFT -> 0 < quantity_ordered i -> quantity_received i = 0 ->
  purchasing_wf (over_purchase_order_items (fun t => t ++ [i]) d).
Proof.
  intros [W1 W2 W3 W4 W5 W6 W7] Hpo Hst Hq Hz. constructor; try done; simpl.
  - intros k x [Hx|[-> ->]]%row_of_inv_app; eauto.
  - intros k x [Hx|[-> ->]]%row_of_inv_app; [eauto|lia].
  - intros k x [Hx|[-> ->]]%row_of_inv_app; [by apply W3|]. rewrite Hz.
    unfold receipts_total. simpl. rewrite sum_where_none; [done|].
    intros r Hr. apply Z.eqb_neq. intros Er. destruct (W4 r Hr) as [[y Hy] _].
    apply row_of_range in Hy. lia.
  - intros r Hr. destruct (W4 r Hr) as [[y Hy] ?]. split; [|done]. exists y. by apply row_of_app_old.
  - intros o p. etransitivity; [apply W6|]. unfold received_by_product. simpl.
    rewrite sum_where_app, sum_where_cons, sum_where_nil, Hz.
    destruct (_ && _); lia.
  - intros o x Hx. unfold items_of_order. simpl. rewrite List.filter_app. simpl.
    destruct (Z.eqb_spec (poi_order_id i) o) as [<-|]; [|rewrite app_nil_r; by apply W7].
    rewrite Hpo in Hx. injection Hx as <-. specialize (W7 _ _ Hpo). rewrite Hst in *. simpl in *.
    rewrite existsb_app. unfold items_of_order in W7. rewrite W7. simpl.
    unfold some_received at 1. by rewrite Hz.
Qed.

Lemma create_order_inner_wf a lines caller :
  keeps purchasing_wf (_create_purchase_order_inner a lines caller).
Proof.
  apply keeps_of_ok; [purchasing_ops; walk_fixes ltac:(solve_fixes)|].
  intros s i s' Hc Hw H. unfold _create_purchase_order_inner in H.
  apply bind_ok in H as (? & s1 & H1 & H). apply enforce_store_access_ok in H1 as [_ <-].
  apply bind_ok in H as (o & s1 & H1 & H). apply find_by_ok in H1 as [-> _].
  destruct o as [[j r]|]; [by apply ret_ok in H as [_ <-]|].
  apply bind_ok in H as (st & s1 & H1 & H). apply get_ok in H1 as [_ <-].
  apply bind_ok in H as (? & s1 & H1 & H). apply raise_if_ok in H1 as [_ <-].
  apply bind_ok in H as (su & s1 & H1 & H). apply get_ok in H1 as [_ <-].
  apply bind_ok in H as (? & s1 & H1 & H). apply raise_if_ok in H1 as [_ <-].
  apply bind_ok in H as (? & s1 & H1 & H).
  assert (s1 = s) as ->.
  { apply (fixes_run (fun s => s)) in H1; [done|]. purchasing_ops. solve_fixes. }
  apply bind_ok in H as (n & s1 & H2 & H). injection H2 as _ <-.
  apply bind_ok in H as ([j new] & s1 & Hins & H). apply insert_or_winner_ok in Hins. simpl in Hins.
  destruct Hins as [(-> & -> & _ & _ & ->)|(-> & -> & r & Hsel)]; simpl in H;
    [|by apply ret_ok in H as [_ <-]].
  apply bind_ok in H as ([] & s1 & H2 & H).
  eapply (for_each_ok_ind _ (fun _ s1 => purchasing_wf (working s1) /\ exists po,
    row_of (purchase_orders (working s1)) (next_id (purchase_orders (working s))) = Some po /\
    po_status po = PO_DRAFT)) in H2 as [Hw1 _].
  - apply bind_ok in H as ([] & s2 & H3 & H). apply log_event_ok in H3 as ->.
    apply ret_ok in H as [_ <-]. simpl. by apply (purchasing_wf_ext (working s1)).
  - simpl. split; [by apply add_order_wf|]. eexists. by rewrite row_of_new.
  - intros dn l rest s2 s3 _ (Hw2 & po & Hpo & Hst) H3.
    apply bind_ok in H3 as (k & s4 & H4 & H3). apply ret_ok in H3 as [_ <-].
    apply add_ok in H4 as (_ & Hv & _ & ->). simpl in *. split; [|by exists po].
    eapply add_item_wf; [done|exact Hpo|done| |done].
    eapply (row_valid_elem _ _ "ck_purchase_order_items_qty_ordered_positive") in Hv;
      [|simpl; do 2 right; left; reflexivity]. by bools.
Qed.

Lemma set_status_keeps_wf o st caller actor (guard : PurchaseOrderStatus -> bool) name :
  (forall st0 items, guard st0 = true -> status_ok st0 items -> status_ok st items) ->
  keeps purchasing_wf
    (po ← get_purchase_order o;
     _ ← enforce_store_access caller (po_store_id po);
     _ ← raise_if (negb (guard (po_status po))) invalid_po_state;
     _ ← update o (with_po_status st);
     _ ← log_event actor name "purchase_order" (Some o);
     _ ← commit;
     mret o).
Proof.
  intros Hg s H1 H2. apply keeps_at_bind; [purchasing_ops; solve_keeps| |done|done].
  intros po s1 Hpo. unfold get_purchase_order in Hpo.
  apply bind_ok in Hpo as (x & s2 & Hx & Hpo). apply get_ok in Hx as [-> <-].
  apply of_option_ok in Hpo as [Hpo <-].
  apply keeps_at_bind; [solve_keeps|]. intros _ s1 [_ <-]%enforce_store_access_ok.
  apply keeps_at_bind; [solve_keeps|]. intros _ s1 [Hst <-]%raise_if_ok.
  apply keeps_at_bind_at; [|intros; apply keeps_at_all; solve_keeps].
  intros H3 H4. destruct (update_cases o (with_po_status st) s) as [[e ->]| ->]; [done|].
  split; [done|]. simpl. apply set_status_wf; [done|]. intros po' Hpo' Hs. simpl in Hpo.
  rewrite Hpo in Hpo'. injection Hpo' as <-. bools. by eapply Hg.
Qed.

Lemma purchasing_keeps_wf op : keeps purchasing_wf (run_purchasing_op op).
Proof.
  destruct op; simpl; try (purchasing_ops; walk_keeps ltac:(fail); fail).
  - unfold create_purchase_order. apply keeps_bind; [apply create_order_inner_wf|solve_keeps].
  - apply (set_status_keeps_wf id PO_ORDERED caller actor is_draft).
    intros st0 items Hst. apply bool_decide_eq_true in Hst as ->. done.
  - by apply (set_status_keeps_wf id PO_CANCELLED caller actor po_cancellable).
  - apply receive_goods_wf.
  - apply create_purchase_return_wf.
Qed.

(** ** What receiving does *)

(** What a receipt's lines bring of one product. *)
Definition delivered (d : database) (lines : list GoodsReceiptLineInput) (product_id : Z) : qty :=
  sum_where (fun l => match row_of (purchase_order_items d) (gl_order_item_id l) with
                      | Some i => poi_product_id i =? product_id
                      | None => false
                      end) gl_quantity lines.

Lemma receive_into_fold ds p :
  (forall x, x ∈ ds -> 0 < gl_quantity x.1) ->
  let p' := fold_left receive_into ds p in
  current_qty_on_hand p' = current_qty_on_hand p + sum_by (fun x => gl_quantity x.1) ds /\
  p' = with_stock (current_qty_on_hand p') (Some (current_cost p')) p /\
  (ds = [] -> p' = p) /\
  forall lo hi, 0 <= current_qty_on_hand p -> lo <= current_cost p <= hi ->
    (forall x, x ∈ ds -> lo <= gl_unit_cost x.1 <= hi) -> lo <= current_cost p' <= hi.
Proof.
  revert p. induction ds as [|x ds IH]; intros p Hpos p'; subst p'.
  { cbn. split_and!; [lia|by destruct p|done|done]. }
  destruct (IH (receive_into p x) ltac:(intros; apply Hpos; by right)) as (Hq & Hs & _ & Hb).
  simpl. rewrite sum_by_cons. split_and!; [| |done|].
  - rewrite Hq. simpl. lia.
  - rewrite Hs at 1. destruct p. done.
  - intros lo hi Hge Hc Hin. pose proof (Hpos x ltac:(left)). apply Hb; simpl; [lia| |set_solver].
    apply compute_new_wac_between; [done..|]. apply Hin. left.
Qed.

Lemma delivered_details d order pid details :
  (forall x, x ∈ details -> detail_valid d order x) ->
  delivered d (map fst details) pid = sum_by (fun x => gl_quantity x.1) (details_of pid details).
Proof.
  intros Hv. unfold delivered, details_of. rewrite sum_by_filter. unfold sum_where.
  rewrite sum_by_map. apply sum_by_ext. intros x Hx. simpl.
  destruct (Hv x Hx) as (_ & _ & -> & _). done.
Qed.

Definition receipt_value (lines : list GoodsReceiptLineInput) : ledger :=
  cogs_of (map (fun l => (gl_quantity l, gl_unit_cost l)) lines).

Lemma receipt_net st dt i lines c :
  (forall l, l ∈ lines -> 0 < gl_quantity l /\ 0 <= gl_unit_cost l) ->
  spec_net (posting_lines (P_goods_receipt i st dt (map (fun l => (gl_quantity l, gl_unit_cost l)) lines))) c
  = spec_net (pair_lines ACCOUNT_INVENTORY ACCOUNT_PURCHASE_CLEARING (receipt_value lines)) c.
Proof.
  intros Hl. simpl. unfold unless_zero. fold (receipt_value lines).
  assert (0 <= receipt_value lines).
  { unfold receipt_value, cogs_of. rewrite sum_by_map. apply sum_by_nonneg. intros l Hin.
    destruct (Hl l Hin). unfold ledger_quantize. apply div_half_up_nonneg; simpl; nia. }
  destruct (Z.leb_spec (receipt_value lines) 0); [|done].
  rewrite spec_net_nil, spec_net_pair. repeat case_bool_decide; lia.
Qed.

(** C20: A new goods receipt raises the received quantity of every item of the
    order, and the stock of every product, by exactly what its lines bring, and
    changes nothing else of a product but its cost; when the stock was not
    negative, the new cost stays between the old one and the costs of its lines
    (a product oversold below zero has no such bound); the order becomes fully received exactly when all
    its items are, partially received otherwise; and inventory is debited, the
    purchase clearing account credited, with the rounded value of the lines. *)
Theorem receive_goods_effect a lines caller s i s' :
  purchasing_wf (working s) -> ledger_wf (working s) -> committed s = working s ->
  (forall r, r ∈ goods_receipts (working s) -> gr_client_transaction_id r <> ra_key a) ->
  receive_goods a lines caller s = (Ok i, s') ->
  (forall k it, row_of (purchase_order_items (working s)) k = Some it ->
     row_of (purchase_order_items (working s')) k
     = Some (with_received (quantity_received it + line_total lines k) it)) /\
  (forall pid p, row_of (products (working s)) pid = Some p ->
     exists c, row_of (products (working s')) pid
       = Some (with_stock (current_qty_on_hand p + delivered (working s) lines pid) (Some c) p) /\
     forall lo hi, 0 <= current_qty_on_hand p -> lo <= current_cost p <= hi ->
       (forall l, l ∈ lines -> lo <= gl_unit_cost l <= hi) -> lo <= c <= hi) /\
  (exists po, row_of (purchase_orders (working s')) (ra_order_id a) = Some po /\
     po_status po = if forallb fully_received (items_of_order (working s') (ra_order_id a))
                    then PO_RECEIVED else PO_PARTIALLY_RECEIVED) /\
  exists posted_id,
    posted_net (working s') posted_id ACCOUNT_INVENTORY = receipt_value lines /\
    posted_net (working s') posted_id ACCOUNT_PURCHASE_CLEARING = - receipt_value lines.
Proof.
  intros Hw Hl Hcw Hk H.
  apply receive_goods_ok in H as [(s1 & r & _ & Hor & _ & Hsel)|
    (po & details & _ & Hpo & _ & _ & Hne & <- & Hv & -> & H)].
  { assert (s1 = working s) as -> by (destruct Hor; congruence).
    assert ((i, r) ∈ select (fun _ r => receipt_under (ra_key a) r) (goods_receipts (working s)))
      as [Hr Hu]%elem_select by (rewrite Hsel; left).
    apply bool_decide_eq_true in Hu. by destruct (Hk r ltac:(by eapply row_of_elem)). }
  apply write_receipt_details_ok in H;
    [|by intros ->|exact Hv|simpl; intros k it Hit; by destruct (pw_bounds _ Hw k it Hit)].
  destruct H as (s1 & s2 & pid & new & _ & _ & _ & _ & _ & Hi & Epo & Hp & _ & _ & El1 & Hpost & El2).
  simpl in *. split_and!.
  - intros k it Hit. rewrite (Hi k). simpl. by rewrite Hit.
  - intros q p Hq. specialize (Hp q p Hq).
    destruct (receive_into_fold (details_of q details) p) as (Eq & Es & _ & Hb).
    { intros x Hx. apply list_elem_of_In, filter_In in Hx as [Hx _]. 
      destruct (Hv x ltac:(by apply list_elem_of_In)). done. }
    exists (current_cost (fold_left receive_into (details_of q details) p)).
    rewrite (delivered_details _ _ _ _ Hv), <- Eq, Hp. split; [by rewrite Es at 1|].
    intros lo hi Hge Hc Hin. apply Hb; [done..|]. intros x Hx. apply Hin, list_elem_of_fmap.
    exists x. split; [done|]. apply list_elem_of_In, filter_In in Hx as [Hx _].
    by apply list_elem_of_In.
  - rewrite Epo, row_of_set, bool_decide_eq_true_2, Hpo by done. eexists. split; [done|]. simpl.
    done.
  - exists pid.
    assert (Hlw : ledger_wf (working s1)) by (by apply (ledger_wf_ext (working s))).
    assert (Hnet : forall c, posted_net (working s') pid c
      = spec_net (pair_lines ACCOUNT_INVENTORY ACCOUNT_PURCHASE_CLEARING
          (receipt_value (map fst details))) c).
    { intros c. transitivity (posted_net (working s2) pid c).
      { unfold posted_net, entry_code_net, line_code. by rewrite El2. }
      rewrite (post_net (P_goods_receipt _ _ _ _) _ _ _ _ c Hlw Hpost).
      unfold received_values. rewrite <- (map_map fst (fun l => (gl_quantity l, gl_unit_cost l))).
      apply receipt_net. intros l (x & -> & Hx)%list_elem_of_fmap.
      by destruct (Hv x Hx) as (? & ? & _). }
    rewrite !Hnet, !spec_net_pair. simpl. split; lia.
Qed.

(** Order 1: ten of product 1 at 1.30, five of product 2 at 0.40; submitted. *)
Definition demo_order : OrderArgs :=
  {| oa_store_id := 1; oa_supplier_id := 1; oa_order_date := 20000; oa_expected_date := None;
     oa_notes := None; oa_key := "po-1"; oa_created_by := Some 2; oa_replenishment_plan_id := None |}.

Definition demo_order_lines : list PurchaseOrderItemInput :=
  [{| pl_product_id := 1; pl_quantity_ordered := 10000; pl_unit_cost := 1300000 |};
   {| pl_product_id := 2; pl_quantity_ordered := 5000; pl_unit_cost := 400000 |}].

Definition demo_supplier : SupplierInput :=
  {| si_name := "Dairy Co"; si_code := Some "DC"%string; si_default_payment_terms_days := Some 30 |}.

Definition demo_ordered : session database :=
  after (submit_purchase_order 1 (Some 2) (Some 1))
    (after (create_purchase_order demo_order demo_order_lines (Some 1))
       (after (create_supplier demo_supplier (Some 2)) demo)).

Definition receipt_line (item : Z) (q : qty) (c : cost) : GoodsReceiptLineInput :=
  {| gl_order_item_id := item; gl_quantity := q; gl_unit_cost := c; gl_condition_notes := None |}.

Definition demo_receipt_args : ReceiptArgs :=
  {| ra_order_id := 1; ra_received_date := 20001; ra_key := "gr-1"; ra_received_by := Some 2;
     ra_notes := None |}.

Definition demo_receipt_lines : list GoodsReceiptLineInput :=
  [receipt_line 1 4000 1250000; receipt_line 2 5000 400000; receipt_line 1 2000 1300000].

Definition demo_received : session database :=
  after (receive_goods demo_receipt_args demo_receipt_lines (Some 1)) demo_ordered.

Lemma no_orders_wf d :
  purchase_orders d = [] -> purchase_order_items d = [] -> goods_receipt_items d = [] ->
  purchase_return_items d = [] -> purchasing_wf d.
Proof.
  intros E1 E2 E3 E4.
  assert (Hr : forall {R} (k : Z) (r : R), row_of [] k = Some r -> False)
    by (intros R k r; unfold row_of; by destruct (0 <? k)).
  constructor; unfold already_returned_by_product, received_by_product; rewrite ?E1, ?E2, ?E3, ?E4;
    try (by intros ? ? ?%Hr); try (by intros ? ?%elem_of_nil). done.
Qed.

(** Every operation that returns keeps the invariant of a committed state. *)
Lemma purchasing_after op s :
  purchasing_wf (committed s) -> purchasing_wf (working s) ->
  (exists i, (run_purchasing_op op s).1 = Ok i) ->
  purchasing_wf (committed (after (run_purchasing_op op) s)) /\
  purchasing_wf (working (after (run_purchasing_op op) s)).
Proof.
  intros H1 H2 [i Hi]. pose proof (purchasing_keeps_wf op s H1 H2) as H. unfold after.
  destruct (run_purchasing_op op s) as [o s']. simpl in *. by subst o.
Qed.

Lemma demo_ordered_wf : purchasing_wf (committed demo_ordered) /\ purchasing_wf (working demo_ordered).
Proof.
  unfold demo_ordered.
  destruct (purchasing_after (P_create_supplier demo_supplier (Some 2)) demo) as [H1 H2];
    [by apply no_orders_wf..|by eexists; vm_compute|].
  destruct (purchasing_after (P_create_order demo_order demo_order_lines (Some 1)) _ H1 H2)
    as [H3 H4]; [by eexists; vm_compute|].
  apply (purchasing_after (P_submit 1 (Some 2) (Some 1)) _ H3 H4). by eexists; vm_compute.
Qed.

Lemma demo_ordered_state :
  ledger_wf (working demo_ordered) /\ committed demo_ordered = working demo_ordered /\
  (forall r, r ∈ goods_receipts (working demo_ordered) ->
     gr_client_transaction_id r <> ra_key demo_receipt_args) /\
  receive_goods demo_receipt_args demo_receipt_lines (Some 1) demo_ordered = (Ok 1, demo_received).
Proof.
  split_and!; [by apply (empty_ledger_wf (working demo_ordered)); vm_compute|by vm_compute| |by vm_compute].
  assert (goods_receipts (working demo_ordered) = []) as -> by (by vm_compute).
  by intros r ?%elem_of_nil.
Qed.

Lemma receive_goods_effect_witness :
  (exists po, row_of (purchase_orders (working demo_received)) 1 = Some po /\
     po_status po = PO_PARTIALLY_RECEIVED) /\
  exists posted_id,
    posted_net (working demo_received) posted_id ACCOUNT_INVENTORY = 9600000 /\
    posted_net (working demo_received) posted_id ACCOUNT_PURCHASE_CLEARING = -9600000.
Proof.
  destruct demo_ordered_state as (Hl & Hc & Hk & H).
  destruct (receive_goods_effect demo_receipt_args demo_receipt_lines (Some 1) demo_ordered 1
              demo_received (proj2 demo_ordered_wf) Hl Hc Hk H) as (_ & _ & (po & Hpo & Hst) & Hj).
  split; [|exact Hj]. exists po. split; [exact Hpo|]. rewrite Hst. vm_compute. reflexivity.
Defined.

(** ** What a purchase return does *)

(** The rounded value of the lines at the products' current costs. *)
Definition returned_value (d : database) (lines : list PurchaseReturnLineInput) : ledger :=
  sum_by (fun l => match row_of (products d) (prl_product_id l) with
                   | Some p => ledger_quantize (prl_quantity l) (current_cost p)
                   | None => 0
                   end) lines.

Lemma returned_value_cogs d lines vs :
  Forall2 (fun l v => v.1 = prl_quantity l /\ exists p,
     row_of (products d) (prl_product_id l) = Some p /\ v.2 = current_cost p) lines vs ->
  cogs_of vs = returned_value d lines.
Proof.
  unfold cogs_of, returned_value. induction 1 as [|l v lines vs (Hq & p & Hp & Hc) _ IH]; [done|].
  by rewrite !sum_by_cons, IH, Hp, Hq, Hc.
Qed.

(** C33: A purchase return is refused unless the order delivered what it gives
    back, earlier returns included; a new one takes exactly its quantities out of
    stock, leaves every cost as it was, and moves their value at current cost out
    of inventory and back to the purchase clearing account. *)
Theorem create_purchase_return_effect a lines caller s i s' :
  purchasing_wf (working s) -> stock_wf (working s) -> ledger_wf (working s) ->
  committed s = working s ->
  (forall r, r ∈ purchase_returns (working s) -> pr_client_transaction_id r <> pa_key a) ->
  create_purchase_return a lines caller s = (Ok i, s') ->
  (forall o p, already_returned_by_product (working s') o p
     = already_returned_by_product (working s) o p
       + (if pa_order_id a =? o then given_back lines p else 0) /\
     already_returned_by_product (working s') o p <= received_by_product (working s) o p) /\
  (forall pid p, row_of (products (working s)) pid = Some p ->
     given_back lines pid <= current_qty_on_hand p \/ given_back lines pid = 0) /\
  (forall pid p, row_of (products (working s)) pid = Some p ->
     row_of (products (working s')) pid
     = Some (with_stock (current_qty_on_hand p - given_back lines pid) None p)) /\
  exists posted_id,
    posted_net (working s') posted_id ACCOUNT_PURCHASE_CLEARING = returned_value (working s) lines /\
    posted_net (working s') posted_id ACCOUNT_INVENTORY = - returned_value (working s) lines.
Proof.
  intros Hw Hst Hl Hcw Hk H.
  pose proof (create_purchase_return_wf a lines caller s ltac:(by rewrite Hcw) Hw) as Hw'.
  rewrite H in Hw'. destruct Hw' as [_ Hw'].
  apply create_purchase_return_ok in H as [(s1 & r & _ & Hor & _ & Hsel)|(_ & _ & Hck & -> & H)].
  { assert (s1 = working s) as -> by (destruct Hor; congruence).
    assert ((i, r) ∈ select (fun _ r => purchase_return_under (pa_key a) r) (purchase_returns (working s)))
      as [Hr Hu]%elem_select by (rewrite Hsel; left).
    apply bool_decide_eq_true in Hu. by destruct (Hk r ltac:(by eapply row_of_elem)). }
  apply check_purchase_return_ok in Hck as (_ & _ & Hpos & _ & _ & Hhand).
  apply write_purchase_return_ok in H as (s1 & s2 & pid & rows & vs & _ & _ & _ & Epoi & Epr & _ & Epri
    & Hrows & Hp & Hvs & El1 & Hpost & El2). simpl in *.
  apply returned_value_cogs in Hvs as Hval. split_and!.
  - intros o p. rewrite (purchase_return_totals _ _ _ _ _ _ o p (pw_return_items _ Hw) eq_refl Epr Epri Hrows).
    split; [done|]. pose proof (pw_returned _ Hw' o p) as Hb.
    rewrite (purchase_return_totals _ _ _ _ _ _ o p (pw_return_items _ Hw) eq_refl Epr Epri Hrows) in Hb.
    unfold received_by_product in *. by rewrite Epoi in Hb.
  - intros q p Hq. destruct (decide (q ∈ map prl_product_id lines)) as [Hin|Hin].
    + apply list_elem_of_fmap in Hin as (l & -> & Hin). destruct (Hhand l Hin) as (p' & Hp' & _ & Hle).
      rewrite Hq in Hp'. injection Hp' as <-. by left.
    + right. apply sum_where_none. intros l Hl'. apply Z.eqb_neq. intros <-.
      apply Hin, list_elem_of_fmap. by exists l.
  - exact Hp.
  - exists pid.
    assert (Hlw : ledger_wf (working s1)) by (by apply (ledger_wf_ext (working s))).
    assert (0 <= returned_value (working s) lines).
    { apply sum_by_nonneg. intros l Hin. destruct (Hhand l Hin) as (p & Hpl & _). rewrite Hpl.
      pose proof (sw_cost _ Hst _ _ Hpl). pose proof (Hpos l Hin).
      unfold ledger_quantize. apply div_half_up_nonneg; nia. }
    assert (Hnet : forall c, posted_net (working s') pid c
      = spec_net (pair_lines ACCOUNT_PURCHASE_CLEARING ACCOUNT_INVENTORY
          (returned_value (working s) lines)) c).
    { intros c. transitivity (posted_net (working s2) pid c).
      { unfold posted_net, entry_code_net, line_code. by rewrite El2. }
      rewrite (post_net (P_purchase_return _ _ _ _) _ _ _ _ c Hlw Hpost). simpl.
      unfold unless_zero. rewrite Hval. destruct (Z.leb_spec (returned_value (working s) lines) 0); [|done].
      rewrite spec_net_nil, spec_net_pair. repeat case_bool_decide; lia. }
    rewrite !Hnet, !spec_net_pair. simpl. split; lia.
Qed.

Definition demo_return_args : PurchaseReturnArgs :=
  {| pa_order_id := 1; pa_store_id := 1; pa_return_date := 20002; pa_key := "pr-1";
     pa_reason := None; pa_created_by := Some 2 |}.

Definition demo_back : list PurchaseReturnLineInput :=
  [{| prl_product_id := 2; prl_quantity := 1500 |}; {| prl_product_id := 2; prl_quantity := 500 |}].

(** The request that received the goods has been committed. *)
Definition demo_next : session database := session_on (working demo_received).

Definition demo_given_back : session database :=
  after (create_purchase_return demo_return_args demo_back (Some 1)) demo_next.

Lemma session_on_clean d : committed (session_on d) = working (session_on d).
Proof. done. Qed.

Lemma demo_received_state :
  purchasing_wf (working demo_next) /\ stock_wf (working demo_next) /\
  ledger_wf (working demo_next) /\
  (forall r, r ∈ purchase_returns (working demo_next) ->
     pr_client_transaction_id r <> pa_key demo_return_args) /\
  create_purchase_return demo_return_args demo_back (Some 1) demo_next = (Ok 1, demo_given_back).
Proof.
  change (working demo_next) with (working demo_received).
  destruct demo_ordered_state as (Hl & Hc & _ & H). destruct demo_ordered_wf as [Hp _].
  assert (Hst : stock_wf (working demo_ordered)).
  { apply (stock_wf_ext demo_database); [by vm_compute..|]. exact demo_stock_wf. }
  assert (Hr : reversals_wf (working demo_ordered))
    by (by apply (empty_ledger_wf (working demo_ordered)); vm_compute).
  pose (op := P_receive demo_receipt_args demo_receipt_lines (Some 1)).
  assert (Hb : books_wf (working demo_ordered)) by exact (conj Hl Hr).
  assert (Hcs : stock_wf (committed demo_ordered)) by (rewrite Hc; exact Hst).
  assert (Hcb : books_wf (committed demo_ordered)) by (rewrite Hc; exact Hb).
  assert (Hpw : purchasing_wf (working demo_ordered)) by (rewrite <- Hc; exact Hp).
  split_and!.
  - exact (proj2 (keeps_ok _ (run_purchasing_op op) _ _ _ (purchasing_keeps_wf op) Hp Hpw H)).
  - exact (proj2 (keeps_ok _ (run_purchasing_op op) _ _ _ (purchasing_keeps_stock op) Hcs Hst H)).
  - exact (proj1 (proj2 (keeps_ok _ (run_purchasing_op op) _ _ _ (purchasing_keeps_books op) Hcb Hb H))).
  - assert (purchase_returns (working demo_received) = []) as -> by (by vm_compute).
    intros r Hr0. exfalso. exact (proj1 (elem_of_nil r) Hr0).
  - vm_compute. reflexivity.
Qed.

Lemma create_purchase_return_effect_witness :
  let s' := demo_given_back in
  already_returned_by_product (working s') 1 2 = 2000 /\
  already_returned_by_product (working s') 1 2 <= received_by_product (working demo_next) 1 2 /\
  exists posted_id,
    posted_net (working s') posted_id ACCOUNT_INVENTORY = - returned_value (working demo_next) demo_back.
Proof.
  intros s'. destruct demo_received_state as (Hp & Hs & Hl & Hk & H).
  destruct (create_purchase_return_effect demo_return_args demo_back (Some 1)
    demo_next 1 _ Hp Hs Hl (session_on_clean _) Hk H) as (Hr & _ & _ & pid & _ & Hinv).
  split; [vm_compute; reflexivity|]. split; [exact (proj2 (Hr 1 2))|].
  exists pid. exact Hinv.
Defined.

(** ** The order's state machine *)

(** The documented transitions of order [o]. *)
Inductive po_step : purchasing_op -> Z -> PurchaseOrderStatus -> PurchaseOrderStatus -> Prop :=
  | po_submit o a c : po_step (P_submit o a c) o PO_DRAFT PO_ORDERED
  | po_cancel o a c st : po_cancellable st = true -> po_step (P_cancel o a c) o st PO_CANCELLED
  | po_receive a ls c st st' : receivable st = true -> receivable st' = true \/ st' = PO_RECEIVED ->
      st' <> PO_ORDERED -> po_step (P_receive a ls c) (ra_order_id a) st st'.

(** The order [po] after a step that leaves it alone or moves its status. *)
Definition order_moved (op : purchasing_op) (o : Z) (po po' : PurchaseOrder) : Prop :=
  po' = with_po_status (po_status po') po /\
  (po_status po' = po_status po \/ po_step op o (po_status po) (po_status po')).

Lemma order_unmoved op o po : order_moved op o po po.
Proof. split; [by destruct po|by left]. Qed.

Lemma status_set_moved op o st d d' (guard : PurchaseOrderStatus -> bool) x :
  purchase_orders d' = set_row x (with_po_status st) (purchase_orders d) ->
  (forall po, row_of (purchase_orders d) x = Some po -> guard (po_status po) = true) ->
  (forall st0, guard st0 = true -> po_step op x st0 st) ->
  forall po, row_of (purchase_orders d) o = Some po ->
  exists po', row_of (purchase_orders d') o = Some po' /\ order_moved op o po po'.
Proof.
  intros E Hg Hs po Hpo. rewrite E, row_of_set. case_bool_decide as Ex.
  - subst. rewrite Hpo. eexists. split; [done|]. split; [done|]. right. apply Hs. by apply Hg.
  - exists po. split; [done|]. apply order_unmoved.
Qed.

(** [submit_purchase_order] and [cancel_purchase_order], up to their texts. *)
Lemma status_op_ok x st (guard : PurchaseOrderStatus -> bool) caller actor name s i s' :
  (po ← get_purchase_order x;
   _ ← enforce_store_access caller (po_store_id po);
   _ ← raise_if (negb (guard (po_status po))) invalid_po_state;
   _ ← update x (with_po_status st);
   _ ← log_event actor name "purchase_order" (Some x);
   _ ← commit;
   mret x) s = (Ok i, s') ->
  purchase_orders (working s') = set_row x (with_po_status st) (purchase_orders (working s)) /\
  forall po, row_of (purchase_orders (working s)) x = Some po -> guard (po_status po) = true.
Proof.
  intros H. unfold get_purchase_order in H.
  apply bind_ok in H as (po & s1 & H1 & H). apply bind_ok in H1 as (o & s2 & H2 & H1).
  apply get_ok in H2 as [-> <-]. apply of_option_ok in H1 as [Hpo <-].
  apply bind_ok in H as (? & s1 & H1 & H). apply enforce_store_access_ok in H1 as [_ <-].
  apply bind_ok in H as (? & s1 & H1 & H). apply raise_if_ok in H1 as [Hg <-].
  apply bind_ok in H as (? & s1 & H1 & H). apply update_ok in H1 as (_ & _ & _ & _ & ->).
  apply bind_ok in H as ([] & s1 & H1 & H). apply log_event_ok in H1 as ->.
  apply bind_ok in H as (? & s1 & H1 & H). apply commit_ok in H1 as (_ & Hw & _).
  apply ret_ok in H as [_ <-]. rewrite Hw. simpl. split; [done|].
  intros po' Hpo'. simpl in Hpo. rewrite Hpo in Hpo'. injection Hpo' as <-. by bools.
Qed.

(** Creating an order only appends. *)
Lemma create_order_appends a lines caller s i s' :
  committed s = working s -> create_purchase_order a lines caller s = (Ok i, s') ->
  exists new, purchase_orders (working s') = purchase_orders (working s) ++ new.
Proof.
  intros Hcw H. unfold create_purchase_order, _create_purchase_order_inner in H.
  apply bind_ok in H as (j & s1 & H1 & H).
  apply bind_ok in H as (? & s2 & H2 & H). apply commit_ok in H2 as (_ & Hw & _).
  apply ret_ok in H as [_ <-]. rewrite Hw. clear Hw.
  apply bind_ok in H1 as (? & s3 & H2 & H). apply enforce_store_access_ok in H2 as [_ <-].
  apply bind_ok in H as (o & s3 & H1 & H). apply find_by_ok in H1 as [-> _].
  assert (Hnone : exists new, purchase_orders (working s) = purchase_orders (working s) ++ new)
    by (exists []; by rewrite app_nil_r).
  destruct o as [[k r]|]; [by apply ret_ok in H as [_ <-]|].
  apply bind_ok in H as (st & s3 & H1 & H). apply get_ok in H1 as [_ <-].
  apply bind_ok in H as (? & s3 & H1 & H). apply raise_if_ok in H1 as [_ <-].
  apply bind_ok in H as (su & s3 & H1 & H). apply get_ok in H1 as [_ <-].
  apply bind_ok in H as (? & s3 & H1 & H). apply raise_if_ok in H1 as [_ <-].
  apply bind_ok in H as (? & s3 & H1 & H).
  assert (s3 = s) as ->.
  { apply (fixes_run (fun s => s)) in H1; [done|]. purchasing_ops. solve_fixes. }
  apply bind_ok in H as (n & s3 & H3 & H). injection H3 as _ <-.
  apply bind_ok in H as ([k new] & s3 & Hins & H). apply insert_or_winner_ok in Hins. simpl in Hins.
  destruct Hins as [(-> & -> & _ & _ & ->)|(-> & -> & r & Hsel)]; simpl in H.
  - apply (fixes_run (fun s => purchase_orders (working s))) in H; [|solve_fixes].
    rewrite H. simpl. by eexists.
  - apply ret_ok in H as [_ <-]. simpl. by rewrite Hcw.
Qed.

(** Log, commit, return: the end of the operations on suppliers. *)
Lemma log_commit_ok u act ety eid i s j s' :
  (_ ← log_event u act ety eid; _ ← commit; mret i : Tx Z) s = (Ok j, s') ->
  document_tables (working s') = document_tables (working s).
Proof.
  intros H. apply bind_ok in H as ([] & s1 & H1 & H). apply log_event_ok in H1 as ->.
  apply bind_ok in H as (? & s1 & H1 & H). apply commit_ok in H1 as (_ & E & _).
  apply ret_ok in H as [_ <-]. by rewrite E.
Qed.

Lemma or_duplicate_code_ok {A} (m : Tx A) s a s' : or_duplicate_code m s = (Ok a, s') -> m s = (Ok a, s').
Proof.
  unfold or_duplicate_code. intros [H|(c & s1 & _ & H)]%except_integrity_ok; [done|].
  by apply bind_ok in H as (? & ? & _ & H).
Qed.

Lemma supplier_ops_ok op s i s' :
  match op with
  | P_create_supplier _ _ | P_update_supplier _ _ _ | P_set_supplier_active _ _ _ => True
  | _ => False
  end ->
  run_purchasing_op op s = (Ok i, s') -> document_tables (working s') = document_tables (working s).
Proof.
  destruct op; intros []; simpl; unfold create_supplier, update_supplier, set_supplier_active, get_supplier;
    intros H; apply bind_ok in H as (x & s1 & H1 & H).
  - apply or_duplicate_code_ok, add_ok in H1 as (_ & _ & _ & ->). by apply log_commit_ok in H.
  - apply (fixes_run (fun s => s)) in H1 as ->; [|solve_fixes].
    apply bind_ok in H as (y & s1 & H1 & H). apply or_duplicate_code_ok, update_ok in H1 as (_ & _ & _ & _ & ->).
    by apply log_commit_ok in H.
  - apply (fixes_run (fun s => s)) in H1 as ->; [|solve_fixes].
    apply bind_ok in H as (y & s1 & H1 & H). apply update_ok in H1 as (_ & _ & _ & _ & ->).
    by apply log_commit_ok in H.
Qed.

(** Every operation of the module moves a purchase order only along the
    documented transitions (submitted from draft; cancelled from draft, ordered
    or partially received; received, in part or fully, from ordered or partially
    received), changes nothing else of its header, and never touches another
    order: a received or cancelled order stays as it is. *)
Theorem purchase_order_transitions op s i s' o po :
  purchasing_wf (working s) -> committed s = working s ->
  run_purchasing_op op s = (Ok i, s') -> row_of (purchase_orders (working s)) o = Some po ->
  exists po', row_of (purchase_orders (working s')) o = Some po' /\ order_moved op o po po'.
Proof.
  intros Hw Hcw H Hpo.
  assert (Hsame : purchase_orders (working s') = purchase_orders (working s) ->
    exists po', row_of (purchase_orders (working s')) o = Some po' /\ order_moved op o po po').
  { intros ->. exists po. split; [done|apply order_unmoved]. }
  destruct op; try (apply supplier_ops_ok in H; [|done]; by injection H); simpl in H.
  - apply create_order_appends in H as [new E]; [|done]. rewrite E. exists po.
    split; [by apply row_of_app_old|apply order_unmoved].
  - apply status_op_ok in H as [E Hg].
    apply (status_set_moved _ _ _ (working s) _ is_draft _ E Hg); [|done].
    intros st Hst. apply bool_decide_eq_true in Hst as ->. constructor.
  - apply status_op_ok in H as [E Hg].
    apply (status_set_moved _ _ _ (working s) _ po_cancellable _ E Hg); [|done]. by constructor.
  - apply receive_goods_ok in H as [(s1 & r & _ & Hor & E & _)|
      (po1 & details & _ & Hpo1 & Hrec & _ & Hne & Hd & Hv & _ & H)].
    { apply Hsame. rewrite E. by destruct Hor as [->| ->]; rewrite ?Hcw. }
    apply write_receipt_details_ok in H;
      [|by intros ->; subst|exact Hv|simpl; intros k it Hit; by destruct (pw_bounds _ Hw k it Hit)].
    destruct H as (s1 & s2 & pid & new & _ & _ & _ & _ & _ & _ & Epo & _). simpl in Epo.
    apply (status_set_moved _ _ _ (working s) _ receivable _ Epo); [| |done].
    + intros po2 Hpo2. rewrite Hpo1 in Hpo2. by injection Hpo2 as <-.
    + intros st Hst. unfold advanced_status. destruct (forallb _ _); constructor; auto.
  - apply create_purchase_return_ok in H as [(s1 & r & _ & Hor & E & _)|(_ & _ & _ & _ & H)].
    { apply Hsame. rewrite E. by destruct Hor as [->| ->]; rewrite ?Hcw. }
    apply write_purchase_return_ok in H as (s1 & s2 & pid & rows & vs & _ & _ & E & _). by apply Hsame.
Qed.

Lemma purchase_order_transitions_witness :
  exists po', row_of (purchase_orders (working demo_received)) 1 = Some po' /\
    po_status po' = PO_PARTIALLY_RECEIVED /\
    exists po, row_of (purchase_orders (working demo_ordered)) 1 = Some po /\
      order_moved (P_receive demo_receipt_args demo_receipt_lines (Some 1)) 1 po po'.
Proof.
  destruct demo_ordered_state as (_ & Hc & _ & H).
  assert (exists po, row_of (purchase_orders (working demo_ordered)) 1 = Some po) as [po Hpo]
    by (eexists; vm_compute; reflexivity).
  destruct (purchase_order_transitions (P_receive demo_receipt_args demo_receipt_lines (Some 1))
              demo_ordered 1 demo_received 1 po (proj2 demo_ordered_wf) Hc H Hpo) as (po' & Hpo' & Hm).
  assert (option_map po_status (row_of (purchase_orders (working demo_received)) 1)
          = Some PO_PARTIALLY_RECEIVED) as Hst by (vm_compute; reflexivity).
  rewrite Hpo' in Hst. exists po'. split; [exact Hpo'|]. split; [exact (f_equal (default PO_DRAFT) Hst)|].
  exists po. exact (conj Hpo Hm).
Defined.

(** ** Retries *)

Lemma select_appended {R} (p : R -> bool) (t : list R) r :
  select (fun _ x => p x) t = [] -> p r = true -> select (fun _ x => p x) (t ++ [r]) = [(next_id t, r)].
Proof. intros Ht Hr. by rewrite select_app, Ht, Hr. Qed.

Lemma receive_goods_recorded a lines caller s i s' :
  purchasing_wf (working s) -> receive_goods a lines caller s = (Ok i, s') ->
  exists r, select (fun _ r => receipt_under (ra_key a) r) (goods_receipts (working s')) = [(i, r)].
Proof.
  intros Hw [(s1 & r & _ & _ & -> & Hsel)|(po & details & Hnone & _ & _ & _ & Hne & Hd & Hv & -> & H)]
    %receive_goods_ok; [by exists r|].
  apply write_receipt_details_ok in H;
    [|by intros ->; subst|exact Hv|simpl; intros k it Hit; by destruct (pw_bounds _ Hw k it Hit)].
  destruct H as (_ & _ & _ & _ & _ & E & _). rewrite E. simpl. eexists.
  apply select_appended; [done|]. by apply bool_decide_eq_true_2.
Qed.

Lemma create_purchase_return_recorded a lines caller s i s' :
  create_purchase_return a lines caller s = (Ok i, s') ->
  exists r, select (fun _ r => purchase_return_under (pa_key a) r) (purchase_returns (working s')) = [(i, r)].
Proof.
  intros [(s1 & r & _ & _ & -> & Hsel)|(_ & Hnone & _ & -> & H)]%create_purchase_return_ok; [by exists r|].
  apply write_purchase_return_ok in H as (_ & _ & _ & _ & _ & _ & _ & _ & _ & E & _). rewrite E. simpl.
  eexists. apply select_appended; [done|]. by apply bool_decide_eq_true_2.
Qed.

(** A receipt or a return submitted again under its key, whatever the retry
    asks for, returns the first submission's document and changes nothing: goods
    are received, and given back, once. *)
Theorem purchasing_retries op s i s' :
  purchasing_wf (working s) -> run_purchasing_op op s = (Ok i, s') ->
  match op with
  | P_receive a lines caller => forall a2 lines2 caller2, ra_key a2 = ra_key a ->
      check_order_store (ra_order_id a2) caller2 s' = (Ok tt, s') ->
      receive_goods a2 lines2 caller2 s' = (Ok i, s')
  | P_return a lines caller => forall a2 lines2 caller2, pa_key a2 = pa_key a ->
      store_denied caller2 (pa_store_id a2) = false ->
      create_purchase_return a2 lines2 caller2 s' = (Ok i, s')
  | _ => True
  end.
Proof.
  intros Hw H. destruct op; try done; simpl in H.
  - intros a2 lines2 caller2 Hk Hst. destruct (receive_goods_recorded _ _ _ _ _ _ Hw H) as [r Hr].
    unfold receive_goods. rewrite (bind_ok_intro _ _ _ _ _ Hst), Hk.
    by rewrite (bind_ok_intro _ _ _ _ _ (@find_by_run _ GoodsReceipt_table (receipt_under (ra_key a)) s' i r Hr)).
  - intros a2 lines2 caller2 Hk Hst. destruct (create_purchase_return_recorded _ _ _ _ _ _ H) as [r Hr].
    unfold create_purchase_return, enforce_store_access. rewrite Hst, Hk. simpl.
    erewrite bind_ok_intro by reflexivity.
    by rewrite (bind_ok_intro _ _ _ _ _ (@find_by_run _ PurchaseReturn_table (purchase_return_under (pa_key a)) s' i r Hr)).
Qed.

Lemma purchasing_retries_witness :
  receive_goods demo_receipt_args demo_receipt_lines (Some 1) demo_received = (Ok 1, demo_received).
Proof.
  destruct demo_ordered_state as (_ & _ & _ & H).
  pose proof (purchasing_retries (P_receive demo_receipt_args demo_receipt_lines (Some 1)) demo_ordered 1
    demo_received (proj2 demo_ordered_wf) H demo_receipt_args demo_receipt_lines (Some 1) eq_refl) as Hr.
  apply Hr. vm_compute. reflexivity.
Defined.
