(* ===== verification/Settlement.v ===== *)
(** * Documents that settle invoices

    Supplier payments and supplier credit notes settle invoices the same way: a
    document is split into allocations to invoices of its own store and
    supplier, and may be reversed once as a whole.  This file is their common
    abstraction, a ledger of documents, allocations and reversals; Payables'
    tables are two instances of it (see [PayablesInvariant]). *)

From S2P Require Import Prelude.

Lemma with_ids_map {A B} (f : A -> B) (t : list A) :
  with_ids (map f t) = map (fun ka => (ka.1, f ka.2)) (with_ids t).
Proof.
  induction t as [|x t IH] using rev_ind; [done|].
  rewrite map_app. simpl. rewrite !with_ids_app, IH, map_app. simpl. unfold next_id. by rewrite length_map.
Qed.

(** Store and supplier of an invoice or of a document. *)
Definition Parties : Type := Z * Z.

Record Doc := { doc_parties : Parties; doc_total : Z }.
Record Alloc := { al_doc : Z; al_target : Z; al_money : Z }.

Record side := mkSide {
  docs : list Doc;
  allocs : list Alloc;
  undone : list Z;
}.

(** The document has not been reversed. *)
Definition live (s : side) (i : Z) : bool := negb (existsb (Z.eqb i) (undone s)).

(** What the live documents pay on invoice [k]. *)
Definition settled_by (s : side) (k : Z) : Z :=
  sum_where (fun a => (al_target a =? k) && live s (al_doc a)) al_money (allocs s).

(** What document [i] allocates, altogether and to invoice [k]. *)
Definition allocated (s : side) (i : Z) : Z := sum_where (fun a => al_doc a =? i) al_money (allocs s).

Definition allocated_to (s : side) (i k : Z) : Z :=
  sum_where (fun a => (al_doc a =? i) && (al_target a =? k)) al_money (allocs s).

(** Every allocation joins a document to an invoice of the same parties, the
    documents are fully allocated, and a document is reversed at most once. *)
Record side_wf (invoices : list Parties) (s : side) : Prop := {
  sd_alloc : forall a, a ∈ allocs s -> 0 < al_money a /\ exists x,
    row_of (docs s) (al_doc a) = Some x /\ row_of invoices (al_target a) = Some (doc_parties x);
  sd_total : forall i x, row_of (docs s) i = Some x -> doc_total x = allocated s i;
  sd_undone : NoDup (undone s) /\ forall i, i ∈ undone s -> is_Some (row_of (docs s) i);
}.

Section Side.
Implicit Types (s : side) (inv : list Parties) (i k : Z).

Lemma live_spec s i : live s i = true <-> i ∉ undone s.
Proof.
  unfold live. rewrite negb_true_iff, <- not_true_iff_false, existsb_exists. split.
  - intros H Hi. apply H. exists i. by rewrite <- list_elem_of_In, Z.eqb_refl.
  - intros H (j & Hj%list_elem_of_In & ->%Z.eqb_eq). done.
Qed.

Lemma live_undo s i j :
  live (mkSide (docs s) (allocs s) (undone s ++ [i])) j = live s j && negb (j =? i).
Proof. unfold live. simpl. rewrite existsb_app. simpl. by rewrite orb_false_r, negb_orb. Qed.

Lemma settled_by_nonneg inv s k : side_wf inv s -> 0 <= settled_by s k.
Proof.
  intros Hs. apply sum_by_nonneg. intros a Ha. destruct (_ && _); [|done].
  destruct (sd_alloc _ _ Hs a Ha). lia.
Qed.

Lemma allocated_to_live inv s i k :
  side_wf inv s -> live s i = true -> allocated_to s i k <= settled_by s k.
Proof.
  intros Hs Hi. apply sum_by_le. intros a Ha. destruct (sd_alloc _ _ Hs a Ha) as [Hp _].
  destruct (Z.eqb_spec (al_doc a) i) as [->|]; simpl.
  - rewrite Hi, andb_true_r. by destruct (_ =? k).
  - destruct (_ && _); lia.
Qed.

Lemma allocated_to_ge inv s a :
  side_wf inv s -> a ∈ allocs s -> 0 < al_money a <= allocated_to s (al_doc a) (al_target a).
Proof.
  intros Hs Ha. destruct (sd_alloc _ _ Hs a Ha) as [Hp _]. split; [done|].
  set (f b := if (al_doc b =? al_doc a) && (al_target b =? al_target a) then al_money b else 0).
  assert (Hf : f a = al_money a) by (unfold f; by rewrite !Z.eqb_refl). rewrite <- Hf.
  apply (sum_by_elem f); [|done]. intros b Hb. unfold f.
  destruct (sd_alloc _ _ Hs b Hb). destruct (_ && _); lia.
Qed.

(** The allocations of document [i]. *)
Definition allocs_of s i : list Alloc := List.filter (fun a => al_doc a =? i) (allocs s).

Lemma elem_allocs_of s i a : a ∈ allocs_of s i <-> a ∈ allocs s /\ al_doc a = i.
Proof.
  unfold allocs_of. by rewrite list_elem_of_In, filter_In, <- list_elem_of_In, Z.eqb_eq.
Qed.

(** *** A new document with its allocations *)

Definition add_doc s (x : Doc) (new : list Alloc) : side :=
  mkSide (docs s ++ [x]) (allocs s ++ new) (undone s).

Definition to_target (new : list Alloc) k : Z := sum_where (fun a => al_target a =? k) al_money new.

Lemma undone_old inv s i : side_wf inv s -> i ∈ undone s -> i < next_id (docs s).
Proof. intros Hs Hi. destruct (proj2 (sd_undone _ _ Hs) i Hi) as [x Hx%row_of_range]. lia. Qed.

Lemma live_new inv s : side_wf inv s -> live s (next_id (docs s)) = true.
Proof.
  intros Hs. apply live_spec. intros Hi. pose proof (undone_old _ _ _ Hs Hi). lia.
Qed.

Lemma alloc_old inv s a : side_wf inv s -> a ∈ allocs s -> al_doc a <> next_id (docs s).
Proof.
  intros Hs Ha. destruct (sd_alloc _ _ Hs a Ha) as (_ & x & Hx & _). apply row_of_range in Hx. lia.
Qed.

Lemma settled_add inv s x new k :
  side_wf inv s -> (forall a, a ∈ new -> al_doc a = next_id (docs s)) ->
  settled_by (add_doc s x new) k = settled_by s k + to_target new k.
Proof.
  intros Hs Hnew. unfold settled_by, add_doc. simpl. rewrite sum_where_app. f_equal.
  apply sum_by_ext. intros a Ha. rewrite (Hnew a Ha). unfold live. simpl.
  change (negb _) with (live s (next_id (docs s))). by rewrite (live_new _ _ Hs), andb_true_r.
Qed.

Lemma add_doc_wf inv s x new :
  side_wf inv s ->
  (forall a, a ∈ new -> al_doc a = next_id (docs s) /\ 0 < al_money a /\
                        row_of inv (al_target a) = Some (doc_parties x)) ->
  doc_total x = sum_by al_money new ->
  side_wf inv (add_doc s x new).
Proof.
  intros Hs Hnew Ht. constructor; simpl.
  - intros a [Ha|Ha]%elem_of_app.
    + destruct (sd_alloc _ _ Hs a Ha) as (Hp & y & Hy & Hi). split; [done|].
      exists y. split; [by apply row_of_app_old|done].
    + destruct (Hnew a Ha) as (-> & Hp & Hi). split; [done|]. exists x. split; [apply row_of_new|done].
  - intros i y Hy. unfold allocated, add_doc. simpl. rewrite sum_where_app.
    apply row_of_inv_app in Hy as [Hy|[-> ->]].
    + rewrite (sd_total _ _ Hs i y Hy). unfold allocated.
      rewrite (sum_where_none _ _ new); [lia|]. intros a Ha. destruct (Hnew a Ha) as (-> & _).
      apply row_of_range in Hy. apply Z.eqb_neq. lia.
    + rewrite (sum_where_none _ _ (allocs s)).
      * rewrite Ht, (sum_where_all _ _ new); [lia|]. intros a Ha. apply Z.eqb_eq. by apply Hnew.
      * intros a Ha. apply Z.eqb_neq. by eapply alloc_old.
  - destruct (sd_undone _ _ Hs) as [Hnd Hu]. split; [done|]. intros i Hi.
    destruct (Hu i Hi) as [y Hy]. exists y. by apply row_of_app_old.
Qed.

Lemma allocs_of_total s i k : to_target (allocs_of s i) k = allocated_to s i k.
Proof.
  unfold to_target, allocated_to, allocs_of, sum_where at 1. rewrite sum_by_filter.
  apply sum_by_ext. intros a _. by destruct (_ =? i).
Qed.

(** *** A reversal *)

Definition undo s i : side := mkSide (docs s) (allocs s) (undone s ++ [i]).

Lemma settled_undo s i k :
  live s i = true -> settled_by (undo s i) k = settled_by s k - allocated_to s i k.
Proof.
  intros Hi. unfold settled_by, allocated_to, undo. simpl. unfold sum_where. rewrite <- sum_by_sub.
  apply sum_by_ext. intros a _. rewrite live_undo.
  destruct (Z.eqb_spec (al_doc a) i) as [->|]; simpl; [rewrite Hi|];
    destruct (_ =? k); simpl; try lia. destruct (live s (al_doc a)); simpl; lia.
Qed.

Lemma undo_wf inv s i x :
  side_wf inv s -> row_of (docs s) i = Some x -> live s i = true -> side_wf inv (undo s i).
Proof.
  intros Hs Hx Hi%live_spec. constructor; simpl; [apply Hs|apply Hs|].
  destruct (sd_undone _ _ Hs) as [Hnd Hu]. split.
  - apply NoDup_app. split_and!; [done| |apply NoDup_singleton].
    intros j Hj ->%list_elem_of_singleton. done.
  - intros j [Hj|Hj%list_elem_of_singleton]%elem_of_app; [by apply Hu|]. subst. by eexists.
Qed.

(** *** More invoices *)

Lemma side_wf_mono inv inv' s :
  side_wf inv s -> (forall k x, row_of inv k = Some x -> row_of inv' k = Some x) -> side_wf inv' s.
Proof.
  intros Hs Hk. constructor; [|apply Hs|apply Hs]. intros a Ha.
  destruct (sd_alloc _ _ Hs a Ha) as (Hp & x & Hx & Hi). split; [done|]. exists x. eauto.
Qed.

Lemma empty_side_wf inv : side_wf inv (mkSide [] [] []).
Proof.
  constructor; simpl.
  - by intros a ?%elem_of_nil.
  - intros i x. by unfold row_of; destruct (0 <? i).
  - split; [apply NoDup_nil_2|]. by intros i ?%elem_of_nil.
Qed.

(** *** Totals over the documents and over the invoices agree *)

(** What the live documents of some parties come to is what is settled on the
    invoices of those parties. *)
Lemma settled_total inv s (q : Parties -> bool) :
  side_wf inv s ->
  sum_by (fun kx => if q (doc_parties kx.2) && live s kx.1 then doc_total kx.2 else 0) (with_ids (docs s))
  = sum_by (fun kp => if q kp.2 then settled_by s kp.1 else 0) (with_ids inv).
Proof.
  intros Hs.
  transitivity (sum_by (fun kx => if q (doc_parties kx.2) then
      sum_where (fun a => (al_doc a =? kx.1) && live s (al_doc a)) al_money (allocs s) else 0) (with_ids (docs s))).
  { apply sum_by_ext. intros [i x] Hx%elem_with_ids. simpl. destruct (q _); [|done]. simpl.
    rewrite (sd_total _ _ Hs i x Hx). unfold allocated. destruct (live s i) eqn:El.
    - apply sum_by_ext. intros a _. destruct (Z.eqb_spec (al_doc a) i) as [->|]; simpl; by rewrite ?El.
    - symmetry. apply sum_by_zero. intros a _.
      destruct (Z.eqb_spec (al_doc a) i) as [->|]; simpl; by rewrite ?El. }
  rewrite (sum_joined (docs s) al_doc (fun x => q (doc_parties x)) (fun a => live s (al_doc a)));
    [|intros a Ha; destruct (sd_alloc _ _ Hs a Ha) as (_ & x & -> & _); by eexists].
  unfold settled_by.
  rewrite (sum_joined inv al_target q (fun a => live s (al_doc a)));
    [|intros a Ha; destruct (sd_alloc _ _ Hs a Ha) as (_ & x & _ & ->); by eexists].
  apply sum_by_ext. intros a Ha. by destruct (sd_alloc _ _ Hs a Ha) as (_ & x & -> & ->).
Qed.

Lemma sum_where_unique (l : list Z) k x :
  NoDup l -> sum_where (fun u => (u =? k) && true) (fun _ => x) l = if existsb (Z.eqb k) l then x else 0.
Proof.
  induction l as [|u l IH]; [done|]. intros [Hu Hl]%NoDup_cons. rewrite sum_where_cons, IH by done.
  simpl. rewrite andb_true_r, (Z.eqb_sym k). destruct (Z.eqb_spec u k) as [->|]; simpl; [|lia].
  destruct (existsb _ l) eqn:E; [|lia]. apply existsb_exists in E as (j & Hj%list_elem_of_In & ->%Z.eqb_eq). done.
Qed.

(** What the reversed documents of some parties came to, one reversal at a time. *)
Lemma undone_total inv s (q : Parties -> bool) :
  side_wf inv s ->
  sum_by (fun i => match row_of (docs s) i with
                   | Some x => if q (doc_parties x) then doc_total x else 0
                   | None => 0
                   end) (undone s)
  = sum_by (fun kx => if q (doc_parties kx.2) && negb (live s kx.1) then doc_total kx.2 else 0)
      (with_ids (docs s)).
Proof.
  intros Hs. destruct (sd_undone _ _ Hs) as [Hnd Hu].
  pose (total i := match row_of (docs s) i with Some x => doc_total x | None => 0 end).
  transitivity (sum_where (fun i => match row_of (docs s) i with Some x => q (doc_parties x) | None => false end
                                    && true) total (undone s)).
  { apply sum_by_ext. intros i _. unfold total. destruct (row_of (docs s) i); [|done]. by rewrite andb_true_r. }
  rewrite <- (sum_joined (docs s) (fun i => i) (fun x => q (doc_parties x)) (fun _ => true)) by done.
  apply sum_by_ext. intros [k x] Hk%elem_with_ids. simpl. destruct (q _); [|done]. simpl.
  unfold live. rewrite negb_involutive, <- (sum_where_unique _ k (doc_total x) Hnd).
  apply sum_by_ext. intros u _. destruct (Z.eqb_spec u k) as [->|]; [|done]. simpl. unfold total. by rewrite Hk.
Qed.

(** The documents of some parties, less the reversed ones. *)
Lemma settled_net inv s (q : Parties -> bool) :
  side_wf inv s ->
  sum_where (fun x => q (doc_parties x)) doc_total (docs s)
  - sum_by (fun i => match row_of (docs s) i with
                     | Some x => if q (doc_parties x) then doc_total x else 0
                     | None => 0
                     end) (undone s)
  = sum_by (fun kp => if q kp.2 then settled_by s kp.1 else 0) (with_ids inv).
Proof.
  intros Hs. rewrite (undone_total inv), <- settled_total by done.
  unfold sum_where. rewrite <- (sum_by_rows _ (fun _ x => if q (doc_parties x) then doc_total x else 0)) by done.
  rewrite <- sum_by_sub. apply sum_by_ext. intros [k x] _. simpl.
  destruct (q _), (live s k); simpl; lia.
Qed.
End Side.
