(* ===== verification/Payables.v ===== *)
(** * Supplier invoices, payments and credit notes

    app/modules/ap/service.py: the invoice life cycle with its three-way match,
    payments and credit notes with their allocations, and the reversals of
    both.  Row locks and the re-reads that follow them are kept where the code
    has them; requests are served one at a time. *)

From S2P Require Import Prelude Fixed Session Schema Tables Platform Chart Fixture Journal.
From S2P Require Import Posting Matching.

Definition _outstanding_balance (i : PurchaseInvoice) : money :=
  inv_grand_total i - amount_paid i - amount_credited i.

(** [_OUTSTANDING_INVOICE_STATUSES] and [_NON_ACCOUNTING_INVOICE_STATUSES] *)
Definition outstanding_status (st : PurchaseInvoiceStatus) : bool :=
  match st with INV_POSTED | INV_PARTIALLY_PAID => true | _ => false end.

Definition non_accounting_status (st : PurchaseInvoiceStatus) : bool :=
  match st with INV_DRAFT | INV_VOIDED => true | _ => false end.

Definition invalid_invoice_state : exn := ConflictError "INVALID_INVOICE_STATE".

Definition with_invoice_status (st : PurchaseInvoiceStatus) (i : PurchaseInvoice) : PurchaseInvoice :=
  mkPurchaseInvoice (inv_store_id i) (inv_supplier_id i) (inv_order_id i) (invoice_number i)
    (invoice_date i) (due_date i) st (inv_subtotal i) (inv_discount_total i) (inv_tax_total i)
    (inv_grand_total i) (amount_paid i) (amount_credited i) (inv_client_transaction_id i)
    (inv_notes i) (inv_created_by i) (inv_posted_at i) (inv_voided_at i) (inv_created_at i).

Definition with_settled (paid credited : money) (i : PurchaseInvoice) : PurchaseInvoice :=
  mkPurchaseInvoice (inv_store_id i) (inv_supplier_id i) (inv_order_id i) (invoice_number i)
    (invoice_date i) (due_date i) (inv_status i) (inv_subtotal i) (inv_discount_total i)
    (inv_tax_total i) (inv_grand_total i) paid credited (inv_client_transaction_id i)
    (inv_notes i) (inv_created_by i) (inv_posted_at i) (inv_voided_at i) (inv_created_at i).

(** The status [_recompute_invoice_status] assigns. *)
Definition settled_status (i : PurchaseInvoice) : PurchaseInvoiceStatus :=
  let settled := amount_paid i + amount_credited i in
  if inv_grand_total i <=? settled then INV_PAID
  else if 0 <? settled then INV_PARTIALLY_PAID
  else INV_POSTED.

Definition _recompute_invoice_status (i : PurchaseInvoice) : PurchaseInvoice :=
  with_invoice_status (settled_status i) i.

(** [invoice.amount_paid += delta], [invoice.amount_credited += delta], each
    followed by the recomputation. *)
Definition pay_invoice (delta : money) (i : PurchaseInvoice) : PurchaseInvoice :=
  _recompute_invoice_status (with_settled (amount_paid i + delta) (amount_credited i) i).

Definition credit_invoice (delta : money) (i : PurchaseInvoice) : PurchaseInvoice :=
  _recompute_invoice_status (with_settled (amount_paid i) (amount_credited i + delta) i).

(** ** Creating a draft *)

Record PurchaseInvoiceLineInput := {
  li_order_item_id : Z;
  li_quantity_invoiced : qty;
  li_unit_price : cost;
  li_discount_amount : money;
  li_tax_amount : money;
}.

Definition input_signature (l : PurchaseInvoiceLineInput) : Z * qty * cost * money * money :=
  (li_order_item_id l, li_quantity_invoiced l, li_unit_price l, li_discount_amount l, li_tax_amount l).

Definition line_signature (l : PurchaseInvoiceLine) : Z * qty * cost * money * money :=
  (il_order_item_id l, il_quantity l, il_unit_price l, il_discount l, il_tax l).

Definition invoice_under (key : string) (i : PurchaseInvoice) : bool :=
  bool_decide (inv_client_transaction_id i = key).

Definition lines_of_invoice (d : database) (invoice_id : Z) : list (Z * PurchaseInvoiceLine) :=
  select (fun _ l => il_invoice_id l =? invoice_id) (purchase_invoice_lines d).

Definition _match_or_reject_idempotent_invoice (key : string) (supplier_id : Z) (number : string)
    (lines : list PurchaseInvoiceLineInput) : Tx (option Z) :=
  existing ← find_by (invoice_under key);
  match existing with
  | None => mret None
  | Some (i, inv) =>
      existing_lines ← gets (fun d => lines_of_invoice d i);
      _ ← raise_if (negb ((inv_supplier_id inv =? supplier_id)
                          && bool_decide (invoice_number inv = number)
                          && same_tuples (map (fun il => line_signature il.2) existing_lines)
                               (map input_signature lines)))
            (ConflictError "IDEMPOTENCY_KEY_CONFLICT");
      mret (Some i)
  end.

Definition validate_invoice_line (l : PurchaseInvoiceLineInput) : Tx unit :=
  _ ← raise_if (li_quantity_invoiced l <=? 0) (ValidationAppError "INVALID_QUANTITY");
  _ ← raise_if (li_unit_price l <? 0) (ValidationAppError "INVALID_UNIT_PRICE");
  raise_if ((li_discount_amount l <? 0) || (li_tax_amount l <? 0)) (ValidationAppError "INVALID_AMOUNT").

(** The store and the supplier exist and are active. *)
Definition check_active_parties (store_id supplier_id : Z) : Tx Supplier :=
  store ← get store_id;
  _ ← raise_if (negb (match store with Some st => store_is_active st | None => false end)) NotFoundError;
  found ← get supplier_id;
  supplier ← of_option found (ValidationAppError "INVALID_SUPPLIER");
  _ ← raise_if (negb (supplier_is_active supplier)) (ValidationAppError "INVALID_SUPPLIER");
  mret supplier.

Definition check_primary_order (store_id supplier_id : Z) (order_id : option Z) : Tx unit :=
  match order_id with
  | None => mret tt
  | Some o =>
      found ← get o;
      primary_po ← of_option found NotFoundError;
      _ ← raise_if (negb (po_store_id primary_po =? store_id)) (ConflictError "STORE_MISMATCH");
      raise_if (negb (po_supplier_id primary_po =? supplier_id)) (ConflictError "SUPPLIER_MISMATCH")
  end.

(** [po_items_by_id] *)
Definition items_named (d : database) (ids : list Z) : list (Z * PurchaseOrderItem) :=
  select (fun i _ => bool_decide (i ∈ ids)) (purchase_order_items d).

Definition check_item_parties (store_id supplier_id : Z) (ii : Z * PurchaseOrderItem) : Tx unit :=
  found ← get (poi_order_id ii.2);
  raise_if (negb (match (found : option PurchaseOrder) with
                  | Some po => (po_store_id po =? store_id) && (po_supplier_id po =? supplier_id)
                  | None => false
                  end))
    (ConflictError "PO_ITEM_STORE_SUPPLIER_MISMATCH").

Record InvoiceArgs := {
  ia_store_id : Z;
  ia_supplier_id : Z;
  ia_invoice_number : string;
  ia_invoice_date : Z;
  ia_key : string;
  ia_order_id : option Z;
  ia_due_date : option Z;
  ia_notes : option string;
  ia_created_by : option Z;
}.

(** The single order all lines reference, when the caller named none. *)
Definition resolved_order (a : InvoiceArgs) (items : list (Z * PurchaseOrderItem)) : option Z :=
  match ia_order_id a with
  | Some o => Some o
  | None => match remove_dups (map (fun ii => poi_order_id ii.2) items) with [o] => Some o | _ => None end
  end.

Definition resolved_due_date (a : InvoiceArgs) (supplier : Supplier) : Z :=
  match ia_due_date a with
  | Some t => t
  | None => ia_invoice_date a + default 0 (default_payment_terms_days supplier)
  end.

Definition new_invoice (a : InvoiceArgs) (order_id : option Z) (due now : Z) : PurchaseInvoice :=
  mkPurchaseInvoice (ia_store_id a) (ia_supplier_id a) order_id (ia_invoice_number a)
    (ia_invoice_date a) due INV_DRAFT 0 0 0 0 0 0 (ia_key a) (ia_notes a) (ia_created_by a)
    None None now.

(** The insert and its recovery: a winner under the same key first, then the
    supplier's invoice number. *)
Definition insert_invoice (key : string) (i : PurchaseInvoice) : Tx (Z * bool) :=
  except_integrity (k ← add i; mret (k, true))
    (fun e =>
      _ ← rollback;
      winner ← find_by (invoice_under key);
      match winner with
      | Some (k, _) => mret (k, false)
      | None =>
          if bool_decide (e = IntegrityError "uq_purchase_invoices_supplier_invoice_number")
          then raise (ConflictError "DUPLICATE_SUPPLIER_INVOICE_NUMBER")
          else raise e
      end).

(** [_round_money] of a quantity (three places) by a price (six places). *)
Definition round_money_product (q : qty) (p : cost) : money := div_half_up (q * p) 10000000.

Definition line_subtotal (l : PurchaseInvoiceLineInput) : money :=
  round_money_product (li_quantity_invoiced l) (li_unit_price l).

Definition new_invoice_line (invoice_id : Z) (po_item : PurchaseOrderItem) (l : PurchaseInvoiceLineInput)
    : PurchaseInvoiceLine :=
  {| il_invoice_id := invoice_id; il_order_item_id := li_order_item_id l;
     il_product_id := poi_product_id po_item; il_quantity := li_quantity_invoiced l;
     il_unit_price := li_unit_price l; il_discount := li_discount_amount l;
     il_tax := li_tax_amount l;
     il_total := line_subtotal l - li_discount_amount l + li_tax_amount l |}.

Definition write_invoice_line (invoice_id : Z) (items : list (Z * PurchaseOrderItem))
    (l : PurchaseInvoiceLineInput) : Tx unit :=
  po_item ← of_option (dict_get (li_order_item_id l) items) KeyError;
  _ ← add (new_invoice_line invoice_id po_item l);
  mret tt.

(** The header totals of the lines. *)
Definition with_totals (lines : list PurchaseInvoiceLineInput) (i : PurchaseInvoice) : PurchaseInvoice :=
  let subtotal := sum_by line_subtotal lines in
  let discount := sum_by li_discount_amount lines in
  let tax := sum_by li_tax_amount lines in
  mkPurchaseInvoice (inv_store_id i) (inv_supplier_id i) (inv_order_id i) (invoice_number i)
    (invoice_date i) (due_date i) (inv_status i) subtotal discount tax (subtotal - discount + tax)
    (amount_paid i) (amount_credited i) (inv_client_transaction_id i) (inv_notes i)
    (inv_created_by i) (inv_posted_at i) (inv_voided_at i) (inv_created_at i).

(** Everything between the insert and the commit. *)
Definition write_draft (a : InvoiceArgs) (invoice_id : Z) (items : list (Z * PurchaseOrderItem))
    (lines : list PurchaseInvoiceLineInput) : Tx unit :=
  _ ← for_each (write_invoice_line invoice_id items) lines;
  _ ← update invoice_id (with_totals lines);
  log_event (ia_created_by a) "PURCHASE_INVOICE_CREATED" "purchase_invoice" (Some invoice_id).

(** Everything checked before the insert; returns the supplier and the items. *)
Definition check_invoice (a : InvoiceArgs) (lines : list PurchaseInvoiceLineInput)
    : Tx (Supplier * list (Z * PurchaseOrderItem)) :=
  supplier ← check_active_parties (ia_store_id a) (ia_supplier_id a);
  _ ← check_primary_order (ia_store_id a) (ia_supplier_id a) (ia_order_id a);
  _ ← raise_if (blank (ia_invoice_number a)) (ValidationAppError "INVALID_INVOICE_NUMBER");
  _ ← raise_if (bool_decide (length lines = 0%nat)) (ValidationAppError "EMPTY_INVOICE");
  _ ← for_each validate_invoice_line lines;
  items ← gets (fun d => items_named d (map li_order_item_id lines));
  _ ← raise_if (existsb (fun l => negb (opt_some (dict_get (li_order_item_id l) items))) lines) NotFoundError;
  _ ← for_each (check_item_parties (ia_store_id a) (ia_supplier_id a)) items;
  mret (supplier, items).

Definition create_purchase_invoice (a : InvoiceArgs) (lines : list PurchaseInvoiceLineInput)
    (caller_store_id : option Z) : Tx Z :=
  existing ← _match_or_reject_idempotent_invoice (ia_key a) (ia_supplier_id a) (ia_invoice_number a) lines;
  match existing with
  | Some i => mret i
  | None =>
      _ ← enforce_store_access caller_store_id (ia_store_id a);
      checked ← check_invoice a lines;
      now ← datetime_now_utc;
      let due := resolved_due_date a (fst checked) in
      inserted ← insert_invoice (ia_key a) (new_invoice a (resolved_order a (snd checked)) due now);
      if snd (inserted : Z * bool)
      then
        _ ← write_draft a (fst inserted) (snd checked) lines;
        _ ← commit;
        mret (fst inserted)
      else mret (fst inserted)
  end.

Definition get_purchase_invoice (invoice_id : Z) : Tx PurchaseInvoice :=
  found ← get invoice_id;
  of_option found NotFoundError.

(** ** The three-way match *)

Record PurchaseOrderItemMatchStatus := {
  ms_order_item_id : Z;
  ms_order_id : Z;
  ms_product_id : Z;
  ms_quantity_ordered : qty;
  ms_quantity_received : qty;
  ms_quantity_invoiced : qty;
  ms_quantity_invoiceable : qty;
}.

Definition match_status (order_id : Z) (ii : Z * PurchaseOrderItem) : PurchaseOrderItemMatchStatus :=
  {| ms_order_item_id := ii.1; ms_order_id := order_id; ms_product_id := poi_product_id ii.2;
     ms_quantity_ordered := quantity_ordered ii.2; ms_quantity_received := quantity_received ii.2;
     ms_quantity_invoiced := quantity_invoiced ii.2;
     ms_quantity_invoiceable := quantity_received ii.2 - quantity_invoiced ii.2 |}.

Definition get_invoice_matching_status (order_id : Z) (caller_store_id : option Z)
    : Tx (list PurchaseOrderItemMatchStatus) :=
  found ← get order_id;
  purchase_order ← of_option found NotFoundError;
  _ ← raise_if (store_denied caller_store_id (po_store_id purchase_order)) NotFoundError;
  gets (fun d => map (match_status order_id)
                   (select (fun _ i => poi_order_id i =? order_id) (purchase_order_items d))).

Definition get_invoice_matching_status_multi (order_ids : list Z) (caller_store_id : option Z)
    : Tx (list PurchaseOrderItemMatchStatus) :=
  fold_m (fun rows o => more ← get_invoice_matching_status o caller_store_id; mret (rows ++ more))
    order_ids [].

(** ** Posting *)

(** Whether the invoice is still a draft; a voided one is refused, any other
    state is a no-op. *)
Definition still_draft (i : PurchaseInvoice) : Tx bool :=
  match inv_status i with
  | INV_DRAFT => mret true
  | INV_VOIDED => raise invalid_invoice_state
  | _ => mret false
  end.

(** [requested_by_item] *)
Definition requested_by_item (lines : list (Z * PurchaseInvoiceLine)) : list (Z * qty) :=
  fold_left (fun acc il => dict_add (il_order_item_id il.2) (il_quantity il.2) acc) lines [].

Definition check_invoiceable (r : Z * qty) : Tx unit :=
  found ← get r.1;
  po_item ← of_option found NotFoundError;
  raise_if (quantity_received po_item <? quantity_invoiced po_item + r.2)
    (ConflictError "OVER_INVOICING").

(** [raw_variance] of a slice, in billionths. *)
Definition raw_variance (price : cost) (l : Lot) : Z := lot_qty l * (price - lot_cost l).

Definition match_row (line_id : Z) (price : cost) (l : Lot) : PurchaseInvoiceReceiptMatch :=
  {| rm_line_id := line_id; rm_receipt_item_id := lot_id l; matched_quantity := lot_qty l;
     matched_unit_cost := lot_cost l; rm_variance := div_half_up (raw_variance price l) 10000000 |}.

(** [consumed_this_posting], [total_clearing_raw], [total_variance_raw] *)
Record MatchTotals := {
  consumed_this_posting : list (Z * qty);
  total_clearing_raw : Z;
  total_variance_raw : Z;
}.

Definition match_line (t : MatchTotals) (il : Z * PurchaseInvoiceLine) : Tx MatchTotals :=
  let item := il_order_item_id il.2 in
  found ← get item;
  po_item ← of_option found KeyError;
  let already := quantity_invoiced po_item + default 0 (dict_get item (consumed_this_posting t)) in
  slices ← _fifo_match_slices item already (il_quantity il.2);
  _ ← for_each (fun l => _ ← add (match_row il.1 (il_unit_price il.2) l); mret tt) slices;
  mret {| consumed_this_posting := dict_add item (il_quantity il.2) (consumed_this_posting t);
          total_clearing_raw := total_clearing_raw t + slices_value slices;
          total_variance_raw := total_variance_raw t
                                + sum_by (raw_variance (il_unit_price il.2)) slices |}.

Definition with_invoiced (total : qty) (i : PurchaseOrderItem) : PurchaseOrderItem :=
  mkPurchaseOrderItem (poi_order_id i) (poi_product_id i) (quantity_ordered i)
    (quantity_received i) total (poi_unit_cost i).

(** [po_item.quantity_invoiced += delta] *)
Definition apply_invoiced (r : Z * qty) : Tx unit :=
  found ← get r.1;
  po_item ← of_option found KeyError;
  update r.1 (with_invoiced (quantity_invoiced po_item + r.2)).

Definition with_posted_at (now : Z) (i : PurchaseInvoice) : PurchaseInvoice :=
  mkPurchaseInvoice (inv_store_id i) (inv_supplier_id i) (inv_order_id i) (invoice_number i)
    (invoice_date i) (due_date i) INV_POSTED (inv_subtotal i) (inv_discount_total i)
    (inv_tax_total i) (inv_grand_total i) (amount_paid i) (amount_credited i)
    (inv_client_transaction_id i) (inv_notes i) (inv_created_by i) (Some now) (inv_voided_at i)
    (inv_created_at i).

Definition invoice_amounts (i : PurchaseInvoice) (clearing variance : ledger) : InvoiceAmounts :=
  {| clearing_amount := clearing; price_variance_amount := variance;
     invoice_tax_total := inv_tax_total i; invoice_discount_total := inv_discount_total i;
     invoice_grand_total := inv_grand_total i |}.

(** [_ledger_quantize] of a sum in billionths. *)
Definition _ledger_quantize (raw : Z) : ledger := div_half_up raw 1000.

Definition no_matches : MatchTotals :=
  {| consumed_this_posting := []; total_clearing_raw := 0; total_variance_raw := 0 |}.

(** The draft, once locked and re-read, becomes a posted invoice. *)
Definition post_draft (invoice_id : Z) (invoice : PurchaseInvoice)
    (lines : list (Z * PurchaseInvoiceLine)) (posted_by : option Z) : Tx unit :=
  let requested := requested_by_item lines in
  _ ← for_each check_invoiceable requested;
  totals ← fold_m match_line lines no_matches;
  _ ← for_each apply_invoiced requested;
  now ← datetime_now_utc;
  _ ← update invoice_id (with_posted_at now);
  _ ← log_event posted_by "PURCHASE_INVOICE_POSTED" "purchase_invoice" (Some invoice_id);
  _ ← post_purchase_invoice_journal invoice_id (inv_store_id invoice) (invoice_date invoice)
        (invoice_amounts invoice (_ledger_quantize (total_clearing_raw totals))
           (_ledger_quantize (total_variance_raw totals))) posted_by;
  mret tt.

Definition post_purchase_invoice (invoice_id : Z) (caller_store_id posted_by : option Z) : Tx Z :=
  invoice ← get_purchase_invoice invoice_id;
  _ ← enforce_store_access caller_store_id (inv_store_id invoice);
  draft ← still_draft invoice;
  if negb draft then mret invoice_id
  else
    lines ← gets (fun d => lines_of_invoice d invoice_id);
    _ ← raise_if (bool_decide (length lines = 0%nat)) (ConflictError "EMPTY_INVOICE");
    refreshed ← get_purchase_invoice invoice_id;
    draft' ← still_draft refreshed;
    if negb draft' then mret invoice_id
    else _ ← post_draft invoice_id refreshed lines posted_by; mret invoice_id.

(** ** Voiding *)

(** The matches of an invoice's lines, with the line's price. *)
Definition matches_of (d : database) (invoice_id : Z)
    : list (PurchaseInvoiceReceiptMatch * PurchaseInvoiceLine) :=
  omap (fun m => match row_of (purchase_invoice_lines d) (rm_line_id m) with
                 | Some l => if il_invoice_id l =? invoice_id then Some (m, l) else None
                 | None => None
                 end) (receipt_matches d).

Definition _clearing_and_variance_from_matches (d : database) (invoice_id : Z) : ledger * ledger :=
  let rows := matches_of d invoice_id in
  (_ledger_quantize (sum_by (fun r => matched_quantity r.1 * matched_unit_cost r.1) rows),
   _ledger_quantize (sum_by (fun r => matched_quantity r.1 * (il_unit_price r.2 - matched_unit_cost r.1)) rows)).

Definition line_account_code (d : database) (l : JournalLine) : string :=
  match row_of (accounts d) (line_account_id l) with Some a => account_code a | None => "" end.

Definition _extract_clearing_and_variance_from_journal (d : database) (entry_id : Z) : ledger * ledger :=
  let on code := sum_where (fun l => (line_entry_id l =? entry_id)
                                     && bool_decide (line_account_code d l = code))
                   (fun l => debit l - credit l) (journal_lines d) in
  (on ACCOUNT_PURCHASE_CLEARING, on ACCOUNT_PURCHASE_PRICE_VARIANCE).

(** The amounts to compensate: from the matches, or for an invoice posted
    before matches were recorded, from its journal. *)
Definition posted_amounts (invoice_id : Z) : Tx (ledger * ledger) :=
  has_matches ← gets (fun d => negb (bool_decide (length (matches_of d invoice_id) = 0%nat)));
  if has_matches : bool then gets (fun d => _clearing_and_variance_from_matches d invoice_id)
  else
    entries ← query (fun _ e => bool_decide (source_type e = ST_PURCHASE_INVOICE)
                                && bool_decide (source_id e = Some invoice_id));
    original_journal ← scalar_one_or_none entries;
    match original_journal with
    | Some (j, _) => gets (fun d => _extract_clearing_and_variance_from_journal d j)
    | None => mret (0, 0)
    end.

Definition unapply_invoiced (il : Z * PurchaseInvoiceLine) : Tx unit :=
  apply_invoiced (il_order_item_id il.2, - il_quantity il.2).

Definition with_voided_at (now : Z) (i : PurchaseInvoice) : PurchaseInvoice :=
  mkPurchaseInvoice (inv_store_id i) (inv_supplier_id i) (inv_order_id i) (invoice_number i)
    (invoice_date i) (due_date i) INV_VOIDED (inv_subtotal i) (inv_discount_total i)
    (inv_tax_total i) (inv_grand_total i) (amount_paid i) (amount_credited i)
    (inv_client_transaction_id i) (inv_notes i) (inv_created_by i) (inv_posted_at i) (Some now)
    (inv_created_at i).

(** What voiding a posted invoice undoes. *)
Definition unpost (invoice_id : Z) (invoice : PurchaseInvoice) (voided_by : option Z) : Tx unit :=
  amounts ← posted_amounts invoice_id;
  lines ← gets (fun d => lines_of_invoice d invoice_id);
  _ ← for_each unapply_invoiced lines;
  _ ← post_purchase_invoice_void_journal invoice_id (inv_store_id invoice)
        (invoice_amounts invoice (fst amounts) (snd amounts)) voided_by;
  mret tt.

Definition mark_voided (invoice_id : Z) (voided_by : option Z) : Tx unit :=
  now ← datetime_now_utc;
  _ ← update invoice_id (with_voided_at now);
  log_event voided_by "PURCHASE_INVOICE_VOIDED" "purchase_invoice" (Some invoice_id).

Definition void_purchase_invoice (invoice_id : Z) (caller_store_id : option Z) (voided_by : option Z)
    : Tx Z :=
  invoice ← get_purchase_invoice invoice_id;
  _ ← enforce_store_access caller_store_id (inv_store_id invoice);
  match inv_status invoice with
  | INV_VOIDED => mret invoice_id
  | INV_PARTIALLY_PAID | INV_PAID => raise (ConflictError "INVOICE_HAS_PAYMENTS")
  | INV_POSTED =>
      _ ← unpost invoice_id invoice voided_by;
      _ ← mark_voided invoice_id voided_by;
      mret invoice_id
  | INV_DRAFT =>
      _ ← mark_voided invoice_id voided_by;
      _ ← commit;
      mret invoice_id
  end.

(** ** Payments *)

Record PaymentAllocationInput := {
  al_invoice_id : Z;
  al_amount : money;
}.

Definition allocation_signature (a : PaymentAllocationInput) : Z * money := (al_invoice_id a, al_amount a).

(** The checks on the allocations of a payment or a credit note that come
    before anything is read. *)
Definition check_allocations (allocations : list PaymentAllocationInput) : Tx unit :=
  _ ← raise_if (bool_decide (length allocations = 0%nat)) (ValidationAppError "EMPTY_ALLOCATIONS");
  _ ← raise_if (negb (bool_decide (NoDup (map al_invoice_id allocations))))
        (ValidationAppError "DUPLICATE_ALLOCATION_TARGET");
  for_each (fun a => raise_if (al_amount a <=? 0) (ValidationAppError "INVALID_AMOUNT")) allocations.

(** [invoices_by_id], in id order, locked. *)
Definition invoices_named (d : database) (ids : list Z) : list (Z * PurchaseInvoice) :=
  select (fun i _ => bool_decide (i ∈ ids)) (purchase_invoices d).

Definition check_named (invoices : list (Z * PurchaseInvoice)) (ids : list Z) : Tx unit :=
  raise_if (existsb (fun i => negb (opt_some (dict_get i invoices))) ids) NotFoundError.

(** One allocation against its invoice; [over] is the code of an excess. *)
Definition check_allocation (store_id supplier_id : Z) (over : string)
    (invoices : list (Z * PurchaseInvoice)) (a : PaymentAllocationInput) : Tx unit :=
  invoice ← of_option (dict_get (al_invoice_id a) invoices) KeyError;
  _ ← raise_if (negb (inv_store_id invoice =? store_id)) (ConflictError "STORE_MISMATCH");
  _ ← raise_if (negb (inv_supplier_id invoice =? supplier_id)) (ConflictError "SUPPLIER_MISMATCH");
  _ ← raise_if (negb (outstanding_status (inv_status invoice))) invalid_invoice_state;
  raise_if (_outstanding_balance invoice <? al_amount a) (ConflictError over).

Definition payment_under (key : string) (p : SupplierPayment) : bool :=
  bool_decide (sp_client_transaction_id p = key).

Definition allocations_of_payment (d : database) (payment_id : Z) : list (Z * SupplierPaymentAllocation) :=
  select (fun _ a => pa_payment_id a =? payment_id) (payment_allocations d).

Record PaymentArgs := {
  pm_store_id : Z;
  pm_supplier_id : Z;
  pm_payment_date : Z;
  (** [None] stands for a string outside [SUPPLIER_PAYMENT_METHODS] *)
  pm_method : option SupplierPaymentMethod;
  pm_amount : money;
  pm_key : string;
  pm_reference : option string;
  pm_created_by : option Z;
}.

Definition _match_or_reject_idempotent_payment (a : PaymentArgs) (method : SupplierPaymentMethod)
    (allocations : list PaymentAllocationInput) : Tx (option Z) :=
  existing ← find_by (payment_under (pm_key a));
  match existing with
  | None => mret None
  | Some (i, p) =>
      existing_allocations ← gets (fun d => allocations_of_payment d i);
      _ ← raise_if (negb ((sp_supplier_id p =? pm_supplier_id a)
                          && (sp_amount p =? pm_amount a)
                          && bool_decide (sp_method p = method)
                          && same_tuples (map (fun x => (pa_invoice_id x.2, pa_amount x.2)) existing_allocations)
                               (map allocation_signature allocations)))
            (ConflictError "IDEMPOTENCY_KEY_CONFLICT");
      mret (Some i)
  end.

Definition new_payment (a : PaymentArgs) (method : SupplierPaymentMethod) (now : Z) : SupplierPayment :=
  {| sp_store_id := pm_store_id a; sp_supplier_id := pm_supplier_id a;
     payment_date := pm_payment_date a; sp_method := method; sp_amount := pm_amount a;
     sp_reference := pm_reference a; sp_client_transaction_id := pm_key a;
     sp_created_by := pm_created_by a; sp_created_at := now |}.

Definition apply_payment (payment_id : Z) (a : PaymentAllocationInput) : Tx unit :=
  _ ← add {| pa_payment_id := payment_id; pa_invoice_id := al_invoice_id a; pa_amount := al_amount a |};
  update (al_invoice_id a) (pay_invoice (al_amount a)).

(** Everything after the payment row: allocations, audit, journal. *)
Definition write_payment_details (a : PaymentArgs) (method : SupplierPaymentMethod) (payment_id : Z)
    (allocations : list PaymentAllocationInput) : Tx unit :=
  _ ← for_each (apply_payment payment_id) allocations;
  _ ← log_event (pm_created_by a) "SUPPLIER_PAYMENT_CREATED" "supplier_payment" (Some payment_id);
  _ ← post_supplier_payment_journal payment_id (pm_store_id a) (pm_payment_date a) method
        (pm_amount a) (pm_created_by a);
  mret tt.

(** The amounts are whole cents, as [amount_paid] and the allocations are stored;
    a finer [Decimal], which no schema excludes, would be posted to the ledger
    with six places and stored with two. *)
Definition record_supplier_payment (a : PaymentArgs) (allocations : list PaymentAllocationInput)
    (caller_store_id : option Z) : Tx Z :=
  method ← of_option (pm_method a) (ValidationAppError "INVALID_PAYMENT_METHOD");
  _ ← raise_if (pm_amount a <=? 0) (ValidationAppError "INVALID_AMOUNT");
  _ ← check_allocations allocations;
  _ ← raise_if (negb (sum_by al_amount allocations =? pm_amount a))
        (ValidationAppError "ALLOCATION_MUST_EQUAL_PAYMENT_AMOUNT");
  existing ← _match_or_reject_idempotent_payment a method allocations;
  match existing with
  | Some i => mret i
  | None =>
      _ ← enforce_store_access caller_store_id (pm_store_id a);
      invoices ← gets (fun d => invoices_named d (map al_invoice_id allocations));
      existing' ← _match_or_reject_idempotent_payment a method allocations;
      match existing' with
      | Some i => mret i
      | None =>
          _ ← check_named invoices (map al_invoice_id allocations);
          _ ← for_each (check_allocation (pm_store_id a) (pm_supplier_id a) "OVERPAYMENT" invoices)
                allocations;
          now ← datetime_now_utc;
          inserted ← insert_or_winner (payment_under (pm_key a)) (new_payment a method now);
          if snd (inserted : Z * bool)
          then _ ← write_payment_details a method (fst inserted) allocations; mret (fst inserted)
          else mret (fst inserted)
      end
  end.

Definition get_supplier_payment (payment_id : Z) : Tx SupplierPayment :=
  found ← get payment_id;
  of_option found NotFoundError.

Definition get_payment_allocations (payment_id : Z) : Tx (list (Z * SupplierPaymentAllocation)) :=
  gets (fun d => allocations_of_payment d payment_id).

Definition unapply_payment (ia : Z * SupplierPaymentAllocation) : Tx unit :=
  update (pa_invoice_id ia.2) (pay_invoice (- pa_amount ia.2)).

Definition by_invoice (a b : Z * SupplierPaymentAllocation) : bool :=
  pa_invoice_id a.2 <=? pa_invoice_id b.2.

(** [try: db.flush() except IntegrityError: rollback, 409] *)
Definition or_already_reversed {A} (m : Tx A) : Tx A :=
  except_integrity m (fun _ => _ ← rollback; raise (ConflictError "ALREADY_REVERSED")).

Definition reverse_supplier_payment (payment_id : Z) (reason : string)
    (caller_store_id reversed_by : option Z) : Tx Z :=
  _ ← raise_if (blank reason) (ValidationAppError "REVERSAL_REASON_REQUIRED");
  payment ← get_supplier_payment payment_id;
  _ ← enforce_store_access caller_store_id (sp_store_id payment);
  existing_reversal ← find_by (fun r => spr_payment_id r =? payment_id);
  match existing_reversal with
  | Some _ => mret payment_id
  | None =>
      actor ← of_option reversed_by (ValidationAppError "ACTOR_REQUIRED");
      allocations ← gets (fun d => sort_by by_invoice (allocations_of_payment d payment_id));
      _ ← for_each unapply_payment allocations;
      posted_entry ← post_supplier_payment_reversal_journal payment_id (sp_store_id payment)
                       (sp_method payment) (sp_amount payment) (Some actor);
      reversal_entry ← of_option posted_entry AttributeError;
      now ← datetime_now_utc;
      _ ← or_already_reversed (add
            {| spr_payment_id := payment_id; spr_journal_entry_id := reversal_entry;
               spr_reason := reason; spr_reversed_by := actor; spr_reversed_at := now |});
      _ ← log_event (Some actor) "SUPPLIER_PAYMENT_REVERSED" "supplier_payment" (Some payment_id);
      mret payment_id
  end.

(** ** Credit notes *)

Record SupplierCreditNoteLineInput := {
  nl_description : string;
  nl_amount : money;
  nl_product_id : option Z;
  nl_quantity : option qty;
  nl_unit_cost : option cost;
}.

Record CreditNoteArgs := {
  na_store_id : Z;
  na_supplier_id : Z;
  na_credit_number : string;
  na_credit_date : Z;
  (** [None] stands for a string outside [SUPPLIER_CREDIT_NOTE_REASONS] *)
  na_reason : option CreditNoteReason;
  na_key : string;
  na_return_id : option Z;
  na_notes : option string;
  na_created_by : option Z;
}.

Definition note_under (key : string) (n : SupplierCreditNote) : bool :=
  bool_decide (cn_client_transaction_id n = key).

Definition lines_of_note (d : database) (note_id : Z) : list (Z * SupplierCreditNoteLine) :=
  select (fun _ l => cnl_note_id l =? note_id) (credit_note_lines d).

Definition allocations_of_note (d : database) (note_id : Z) : list (Z * SupplierCreditAllocation) :=
  select (fun _ a => ca_note_id a =? note_id) (credit_allocations d).

Definition _match_or_reject_idempotent_credit_note (a : CreditNoteArgs) (reason : CreditNoteReason)
    (lines : list SupplierCreditNoteLineInput) (allocations : list PaymentAllocationInput)
    : Tx (option Z) :=
  existing ← find_by (note_under (na_key a));
  match existing with
  | None => mret None
  | Some (i, n) =>
      existing_lines ← gets (fun d => lines_of_note d i);
      existing_allocations ← gets (fun d => allocations_of_note d i);
      _ ← raise_if (negb ((cn_supplier_id n =? na_supplier_id a)
                          && bool_decide (credit_number n = na_credit_number a)
                          && bool_decide (cn_reason n = reason)
                          && same_tuples (map (fun x => (cnl_description x.2, cnl_amount x.2)) existing_lines)
                               (map (fun l => (nl_description l, nl_amount l)) lines)
                          && same_tuples (map (fun x => (ca_invoice_id x.2, ca_amount x.2)) existing_allocations)
                               (map allocation_signature allocations)))
            (ConflictError "IDEMPOTENCY_KEY_CONFLICT");
      mret (Some i)
  end.

(** The reason decides whether a purchase return must, or must not, be named. *)
Definition check_reason (reason : CreditNoteReason) (return_id : option Z) : Tx unit :=
  match reason, return_id with
  | GOODS_RETURN, None => raise (ValidationAppError "MISSING_PURCHASE_RETURN_REFERENCE")
  | COMMERCIAL_DISCOUNT, Some _ => raise (ValidationAppError "UNEXPECTED_PURCHASE_RETURN_REFERENCE")
  | _, _ => mret tt
  end.

Definition check_note_input (a : CreditNoteArgs) (reason : CreditNoteReason)
    (lines : list SupplierCreditNoteLineInput) (allocations : list PaymentAllocationInput) : Tx unit :=
  _ ← check_reason reason (na_return_id a);
  _ ← raise_if (blank (na_credit_number a)) (ValidationAppError "INVALID_CREDIT_NUMBER");
  _ ← raise_if (bool_decide (length lines = 0%nat)) (ValidationAppError "EMPTY_CREDIT_NOTE");
  _ ← for_each (fun l => raise_if (nl_amount l <=? 0) (ValidationAppError "INVALID_AMOUNT")) lines;
  check_allocations allocations.

(** [sum(item.quantity * item.unit_cost)], in billionths. *)
Definition return_value (d : database) (return_id : Z) : Z :=
  sum_where (fun i => pri_return_id i =? return_id) (fun i => pri_quantity i * pri_unit_cost i)
    (purchase_return_items d).

(** Cents against billionths. *)
Definition exceeds_value (grand_total : money) (value : Z) : bool := value <? grand_total * 10000000.

Definition check_credited_return (a : CreditNoteArgs) (grand_total : money) : Tx unit :=
  match na_return_id a with
  | None => mret tt
  | Some r =>
      found ← get r;
      purchase_return ← of_option found NotFoundError;
      _ ← raise_if (negb (pr_store_id purchase_return =? na_store_id a)) (ConflictError "STORE_MISMATCH");
      po ← get (pr_order_id purchase_return);
      _ ← raise_if (negb (match (po : option PurchaseOrder) with
                          | Some o => po_supplier_id o =? na_supplier_id a
                          | None => false
                          end)) (ConflictError "SUPPLIER_MISMATCH");
      value ← gets (fun d => return_value d r);
      raise_if (exceeds_value grand_total value) (ConflictError "CREDIT_EXCEEDS_RETURN_VALUE")
  end.

Definition new_note (a : CreditNoteArgs) (reason : CreditNoteReason) (grand_total : money) (now : Z)
    : SupplierCreditNote :=
  mkCreditNote (na_store_id a) (na_supplier_id a) (na_credit_number a) (na_credit_date a) reason
    (na_return_id a) grand_total 0 (na_key a) (na_notes a) (na_created_by a) now.

Definition with_allocated (amount : money) (n : SupplierCreditNote) : SupplierCreditNote :=
  mkCreditNote (cn_store_id n) (cn_supplier_id n) (credit_number n) (credit_date n) (cn_reason n)
    (cn_return_id n) (cn_grand_total n) amount (cn_client_transaction_id n) (cn_notes n)
    (cn_created_by n) (cn_created_at n).

(** The recovery looks at the supplier's credit number first. *)
Definition insert_note (key : string) (n : SupplierCreditNote) : Tx (Z * bool) :=
  except_integrity (k ← add n; mret (k, true))
    (fun e =>
      _ ← rollback;
      if bool_decide (e = IntegrityError "uq_supplier_credit_notes_supplier_credit_number")
      then raise (ConflictError "DUPLICATE_SUPPLIER_CREDIT_NUMBER")
      else
        winner ← find_by (note_under key);
        match winner with
        | Some (k, _) => mret (k, false)
        | None => raise e
        end).

Definition new_note_line (note_id : Z) (l : SupplierCreditNoteLineInput) : SupplierCreditNoteLine :=
  {| cnl_note_id := note_id; cnl_product_id := nl_product_id l; cnl_description := nl_description l;
     cnl_quantity := nl_quantity l; cnl_unit_cost := nl_unit_cost l; cnl_amount := nl_amount l |}.

Definition apply_credit (note_id : Z) (a : PaymentAllocationInput) : Tx unit :=
  _ ← add {| ca_note_id := note_id; ca_invoice_id := al_invoice_id a; ca_amount := al_amount a |};
  update (al_invoice_id a) (credit_invoice (al_amount a)).

(** [credit_note.reason == "GOODS_RETURN"] *)
Definition is_goods_return (r : CreditNoteReason) : bool := bool_decide (r = GOODS_RETURN).

Definition write_note_details (a : CreditNoteArgs) (reason : CreditNoteReason) (grand_total : money)
    (note_id : Z) (lines : list SupplierCreditNoteLineInput)
    (allocations : list PaymentAllocationInput) : Tx unit :=
  _ ← for_each (fun l => _ ← add (new_note_line note_id l); mret tt) lines;
  _ ← for_each (apply_credit note_id) allocations;
  _ ← update note_id (with_allocated grand_total);
  _ ← log_event (na_created_by a) "SUPPLIER_CREDIT_NOTE_CREATED" "supplier_credit_note" (Some note_id);
  _ ← post_supplier_credit_note_journal note_id (na_store_id a) (na_credit_date a)
        (is_goods_return reason) grand_total (na_created_by a);
  mret tt.

Definition create_supplier_credit_note (a : CreditNoteArgs) (lines : list SupplierCreditNoteLineInput)
    (allocations : list PaymentAllocationInput) (caller_store_id : option Z) : Tx Z :=
  reason ← of_option (na_reason a) (ValidationAppError "INVALID_CREDIT_REASON");
  _ ← check_note_input a reason lines allocations;
  existing ← _match_or_reject_idempotent_credit_note a reason lines allocations;
  match existing with
  | Some i => mret i
  | None =>
      _ ← enforce_store_access caller_store_id (na_store_id a);
      _ ← check_active_parties (na_store_id a) (na_supplier_id a);
      let grand_total := sum_by nl_amount lines in
      _ ← raise_if (negb (sum_by al_amount allocations =? grand_total))
            (ValidationAppError "ALLOCATION_MUST_EQUAL_CREDIT_AMOUNT");
      _ ← check_credited_return a grand_total;
      invoices ← gets (fun d => invoices_named d (map al_invoice_id allocations));
      existing' ← _match_or_reject_idempotent_credit_note a reason lines allocations;
      match existing' with
      | Some i => mret i
      | None =>
          _ ← check_named invoices (map al_invoice_id allocations);
          _ ← for_each (check_allocation (na_store_id a) (na_supplier_id a) "OVER_ALLOCATION" invoices)
                allocations;
          now ← datetime_now_utc;
          inserted ← insert_note (na_key a) (new_note a reason grand_total now);
          if snd (inserted : Z * bool)
          then
            _ ← write_note_details a reason grand_total (fst inserted) lines allocations;
            mret (fst inserted)
          else mret (fst inserted)
      end
  end.

Definition get_supplier_credit_note (note_id : Z) : Tx SupplierCreditNote :=
  found ← get note_id;
  of_option found NotFoundError.

Definition unapply_credit (ia : Z * SupplierCreditAllocation) : Tx unit :=
  update (ca_invoice_id ia.2) (credit_invoice (- ca_amount ia.2)).

Definition by_credited_invoice (a b : Z * SupplierCreditAllocation) : bool :=
  ca_invoice_id a.2 <=? ca_invoice_id b.2.

Definition reverse_supplier_credit_note (note_id : Z) (reason : string)
    (caller_store_id reversed_by : option Z) : Tx Z :=
  _ ← raise_if (blank reason) (ValidationAppError "REVERSAL_REASON_REQUIRED");
  credit_note ← get_supplier_credit_note note_id;
  _ ← enforce_store_access caller_store_id (cn_store_id credit_note);
  existing_reversal ← find_by (fun r => cnr_note_id r =? note_id);
  match existing_reversal with
  | Some _ => mret note_id
  | None =>
      actor ← of_option reversed_by (ValidationAppError "ACTOR_REQUIRED");
      allocations ← gets (fun d => sort_by by_credited_invoice (allocations_of_note d note_id));
      _ ← for_each unapply_credit allocations;
      let total_reversed := sum_by (fun ia => ca_amount ia.2) allocations in
      _ ← update note_id (with_allocated (amount_allocated credit_note - total_reversed));
      posted_entry ← post_supplier_credit_note_reversal_journal note_id (cn_store_id credit_note)
                       (is_goods_return (cn_reason credit_note)) (cn_grand_total credit_note) (Some actor);
      reversal_entry ← of_option posted_entry AttributeError;
      now ← datetime_now_utc;
      _ ← or_already_reversed (add
            {| cnr_note_id := note_id; cnr_journal_entry_id := reversal_entry;
               cnr_reason := reason; cnr_reversed_by := actor; cnr_reversed_at := now |});
      _ ← log_event (Some actor) "SUPPLIER_CREDIT_NOTE_REVERSED" "supplier_credit_note" (Some note_id);
      mret note_id
  end.

(** The operations of the module that write. *)
Inductive payables_op :=
  | A_create_invoice (a : InvoiceArgs) (lines : list PurchaseInvoiceLineInput) (caller : option Z)
  | A_post_invoice (id : Z) (caller by_ : option Z)
  | A_void_invoice (id : Z) (caller by_ : option Z)
  | A_pay (a : PaymentArgs) (allocations : list PaymentAllocationInput) (caller : option Z)
  | A_reverse_payment (id : Z) (reason : string) (caller by_ : option Z)
  | A_credit (a : CreditNoteArgs) (lines : list SupplierCreditNoteLineInput)
      (allocations : list PaymentAllocationInput) (caller : option Z)
  | A_reverse_credit (id : Z) (reason : string) (caller by_ : option Z).

Definition run_payables_op (op : payables_op) : Tx Z :=
  match op with
  | A_create_invoice a ls c => create_purchase_invoice a ls c
  | A_post_invoice i c b => post_purchase_invoice i c b
  | A_void_invoice i c b => void_purchase_invoice i c b
  | A_pay a als c => record_supplier_payment a als c
  | A_reverse_payment i r c b => reverse_supplier_payment i r c b
  | A_credit a ls als c => create_supplier_credit_note a ls als c
  | A_reverse_credit i r c b => reverse_supplier_credit_note i r c b
  end.
