(* ===== verification/PayablesInvariant.v ===== *)
(** * The invariants of accounts payable

    What every committed database says of its invoices, payments and credit
    notes: the settled amounts are the live allocations, the status says what
    is settled, the accounts-payable account of the ledger is the sum of what
    is still owed, and an order item has been invoiced for exactly what its
    posted invoice lines say. *)

From S2P Require Import Prelude Fixed Session Schema Tables Platform Chart Fixture Journal.
From S2P Require Import Posting Matching Purchasing Settlement Payables.

(** ** Two channels of settlement *)

Inductive channel := BY_PAYMENT | BY_CREDIT.

#[global] Instance channel_eq_dec : EqDecision channel.
Proof. solve_decision. Defined.

Definition payment_side (d : database) : side :=
  mkSide
    (map (fun p => {| doc_parties := (sp_store_id p, sp_supplier_id p); doc_total := sp_amount p |})
       (supplier_payments d))
    (map (fun a => {| al_doc := pa_payment_id a; al_target := pa_invoice_id a; al_money := pa_amount a |})
       (payment_allocations d))
    (map spr_payment_id (payment_reversals d)).

Definition credit_side (d : database) : side :=
  mkSide
    (map (fun n => {| doc_parties := (cn_store_id n, cn_supplier_id n); doc_total := cn_grand_total n |})
       (credit_notes d))
    (map (fun a => {| al_doc := ca_note_id a; al_target := ca_invoice_id a; al_money := ca_amount a |})
       (credit_allocations d))
    (map cnr_note_id (credit_note_reversals d)).

Definition side_of (c : channel) (d : database) : side :=
  match c with BY_PAYMENT => payment_side d | BY_CREDIT => credit_side d end.

Definition amount_of (c : channel) (i : PurchaseInvoice) : money :=
  match c with BY_PAYMENT => amount_paid i | BY_CREDIT => amount_credited i end.

Definition settle (c : channel) (delta : money) (i : PurchaseInvoice) : PurchaseInvoice :=
  match c with BY_PAYMENT => pay_invoice delta i | BY_CREDIT => credit_invoice delta i end.

Definition parties_of (i : PurchaseInvoice) : Parties := (inv_store_id i, inv_supplier_id i).
Definition parties (d : database) : list Parties := map parties_of (purchase_invoices d).

(** What the status says of the settled amount. *)
Definition settled_ok (i : PurchaseInvoice) : Prop :=
  let settled := amount_paid i + amount_credited i in
  match inv_status i with
  | INV_DRAFT | INV_VOIDED => settled = 0
  | INV_POSTED => settled = 0 /\ 0 <= inv_grand_total i
  | INV_PARTIALLY_PAID => 0 < settled < inv_grand_total i
  | INV_PAID => 0 < settled /\ settled = inv_grand_total i
  end.

Record settlement_wf (d : database) : Prop := {
  se_amount : forall c k i, row_of (purchase_invoices d) k = Some i ->
    amount_of c i = settled_by (side_of c d) k;
  se_status : forall k i, row_of (purchase_invoices d) k = Some i -> settled_ok i;
  se_side : forall c, side_wf (parties d) (side_of c d);
  se_note : forall k n, row_of (credit_notes d) k = Some n ->
    amount_allocated n = if live (credit_side d) k then cn_grand_total n else 0;
}.

(** ** One invoice *)

(** What is owed on an invoice the ledger knows. *)
Definition open_amount (i : PurchaseInvoice) : money :=
  if non_accounting_status (inv_status i) then 0 else _outstanding_balance i.

Lemma settle_fields c x i :
  parties_of (settle c x i) = parties_of i /\ inv_grand_total (settle c x i) = inv_grand_total i /\
  amount_of c (settle c x i) = amount_of c i + x /\
  (forall c', c' <> c -> amount_of c' (settle c x i) = amount_of c' i) /\
  amount_paid (settle c x i) + amount_credited (settle c x i) = amount_paid i + amount_credited i + x /\
  non_accounting_status (inv_status (settle c x i)) = false.
Proof.
  assert (Hn : forall j, non_accounting_status (settled_status j) = false).
  { intros j. unfold settled_status. by repeat case_match. }
  destruct c; simpl; split_and!; try done; try lia; try (intros [] Hc; done); apply Hn.
Qed.

Lemma settle_settle c x y i : settle c y (settle c x i) = settle c (x + y) i.
Proof.
  destruct c; simpl; unfold pay_invoice, credit_invoice, _recompute_invoice_status, with_settled,
    with_invoice_status, settled_status; simpl; by rewrite !Z.add_assoc.
Qed.

Lemma settle_up_ok c x i :
  settled_ok i -> outstanding_status (inv_status i) = true -> 0 < x <= _outstanding_balance i ->
  settled_ok (settle c x i).
Proof.
  unfold _outstanding_balance, settled_ok. intros Hi Ho Hx.
  assert (Hs : forall j, amount_paid j + amount_credited j = amount_paid i + amount_credited i + x ->
    inv_grand_total j = inv_grand_total i -> settled_ok (with_invoice_status (settled_status j) j)).
  { intros j Hj Hg. unfold settled_ok, settled_status. simpl. rewrite Hj, Hg.
    destruct (Z.leb_spec (inv_grand_total i) (amount_paid i + amount_credited i + x)); simpl.
    - destruct (inv_status i); try done; lia.
    - destruct (Z.ltb_spec 0 (amount_paid i + amount_credited i + x)); simpl; destruct (inv_status i); try done; lia. }
  destruct c; apply Hs; simpl; lia.
Qed.

Lemma settle_down_ok c x i :
  settled_ok i -> 0 < x <= amount_of c i -> 0 <= amount_paid i -> 0 <= amount_credited i ->
  settled_ok (settle c (- x) i) /\ non_accounting_status (inv_status i) = false.
Proof.
  unfold settled_ok. intros Hi Hx Hp Hc.
  assert (Hs : forall j, amount_paid j + amount_credited j = amount_paid i + amount_credited i - x ->
    inv_grand_total j = inv_grand_total i -> settled_ok (with_invoice_status (settled_status j) j)).
  { intros j Hj Hg. unfold settled_ok, settled_status. simpl. rewrite Hj, Hg.
    assert (x <= amount_paid i + amount_credited i) by (destruct c; simpl in *; lia).
    destruct (Z.leb_spec (inv_grand_total i) (amount_paid i + amount_credited i - x)); simpl;
      [destruct (inv_status i); try done; lia|].
    destruct (Z.ltb_spec 0 (amount_paid i + amount_credited i - x)); simpl; lia. }
  split; [destruct c; apply Hs; simpl; lia|].
  destruct (inv_status i); try done; destruct c; simpl in *; lia.
Qed.

Lemma open_amount_settle c x i :
  non_accounting_status (inv_status i) = false -> open_amount (settle c x i) = open_amount i - x.
Proof.
  intros Hi. destruct (settle_fields c x i) as (_ & Hg & _ & _ & Hs & Hn).
  unfold open_amount, _outstanding_balance. rewrite Hn, Hi, Hg. lia.
Qed.

Lemma outstanding_accounting st : outstanding_status st = true -> non_accounting_status st = false.
Proof. by destruct st. Qed.

(** Once nothing is settled or all of it is, what is open is what is outstanding. *)
Lemma open_outstanding i :
  settled_ok i ->
  open_amount i = if outstanding_status (inv_status i) then _outstanding_balance i else 0.
Proof. unfold open_amount, settled_ok, _outstanding_balance. destruct (inv_status i); simpl; lia. Qed.

(** ** Many allocations at once *)

(** Invoice [k] after the allocations [l], each scaled by [sgn]. *)
Definition settled_with (c : channel) (sgn : Z) (l : list Alloc) (k : Z) (i : PurchaseInvoice)
    : PurchaseInvoice :=
  if existsb (fun a => al_target a =? k) l then settle c (sgn * to_target l k) i else i.

Definition settled_rows (c : channel) (sgn : Z) (l : list Alloc) (t t' : list PurchaseInvoice) : Prop :=
  forall k, row_of t' k = settled_with c sgn l k <$> row_of t k.

Lemma settled_rows_nil c sgn t : settled_rows c sgn [] t t.
Proof. intros k. unfold settled_with. simpl. by destruct (row_of t k). Qed.

Lemma settled_rows_step c sgn l t t' a :
  settled_rows c sgn l t t' ->
  settled_rows c sgn (l ++ [a]) t (set_row (al_target a) (settle c (sgn * al_money a)) t').
Proof.
  intros H k. rewrite row_of_set, (H k). unfold settled_with, to_target.
  rewrite existsb_app, sum_where_app, sum_where_cons, sum_where_nil. simpl. rewrite orb_false_r.
  destruct (row_of t k) as [i|]; [|by case_bool_decide]. case_bool_decide as E; simpl.
  - rewrite E, Z.eqb_refl, orb_true_r. f_equal. destruct (existsb _ l) eqn:El.
    + rewrite settle_settle. f_equal. lia.
    + f_equal. rewrite (sum_where_none _ _ l); [lia|]. intros x Hx.
      apply not_true_iff_false. intros Ex. apply not_true_iff_false in El. apply El.
      apply existsb_exists. exists x. by rewrite <- list_elem_of_In.
  - rewrite (proj2 (Z.eqb_neq _ _) E), orb_false_r. by rewrite !Z.add_0_r.
Qed.

Lemma settled_rows_parties c sgn l t t' :
  settled_rows c sgn l t t' -> map parties_of t' = map parties_of t.
Proof.
  intros H. apply rows_map_eq. intros k. rewrite (H k).
  destruct (row_of t k) as [i|]; simpl; [|done]. f_equal. unfold settled_with.
  destruct (existsb _ _); [|done]. apply settle_fields.
Qed.

(** What the stores satisfying [p] owe. *)
Definition owed (p : Z -> bool) (t : list PurchaseInvoice) : money :=
  sum_where (fun i => p (inv_store_id i)) open_amount t.

Lemma sum_rows_map {R} (f : R -> Z) (h : Z -> R -> R) (t t' : list R) :
  (forall k, row_of t' k = h k <$> row_of t k) ->
  sum_by f t' = sum_by (fun kr => f (h kr.1 kr.2)) (with_ids t).
Proof.
  intros H. transitivity (sum_by f (map (fun kr : Z * R => h kr.1 kr.2) (with_ids t))).
  - f_equal. rewrite <- (map_id t'). transitivity (map id t'); [done|].
    apply list_eq. intros n. specialize (H (Z.of_nat n + 1)). unfold row_of in H.
    destruct (Z.ltb_spec 0 (Z.of_nat n + 1)); [|lia].
    replace (Z.to_nat (Z.of_nat n + 1 - 1)) with n in H by lia.
    rewrite !list_lookup_fmap, H. unfold with_ids. rewrite list_lookup_imap. by destruct (t !! n).
  - apply sum_by_map.
Qed.

Lemma targeted l k : existsb (fun a => al_target a =? k) l = true <-> exists a, a ∈ l /\ al_target a = k.
Proof.
  rewrite existsb_exists. split; intros (a & Ha & Hk); exists a.
  - split; [by apply list_elem_of_In|by apply Z.eqb_eq].
  - split; [by apply list_elem_of_In|by apply Z.eqb_eq].
Qed.

Lemma not_targeted l k : existsb (fun a => al_target a =? k) l = false -> to_target l k = 0.
Proof.
  intros H. apply sum_where_none. intros a Ha. apply not_true_iff_false. intros E%Z.eqb_eq.
  apply not_true_iff_false in H. apply H, targeted. eauto.
Qed.

Lemma owed_settled c sgn l t t' p st :
  settled_rows c sgn l t t' ->
  (forall a, a ∈ l -> exists i, row_of t (al_target a) = Some i /\ inv_store_id i = st /\
                                non_accounting_status (inv_status i) = false) ->
  owed p t' = owed p t - (if p st then sgn * sum_by al_money l else 0).
Proof.
  intros H Hl. unfold owed, sum_where at 1.
  rewrite (sum_rows_map _ (settled_with c sgn l) t t' H).
  rewrite (sum_by_ext _ (fun kr : Z * PurchaseInvoice =>
    (if p (inv_store_id kr.2) then open_amount kr.2 else 0)
    - sgn * (if p (inv_store_id kr.2) then
               sum_where (fun a => (al_target a =? kr.1) && true) al_money l else 0))).
  - rewrite sum_by_sub, sum_by_scale. f_equal; [by apply (sum_by_rows (fun i => if p (inv_store_id i) then open_amount i else 0)
                                         (fun _ i => if p (inv_store_id i) then open_amount i else 0))|].
    rewrite (sum_joined t al_target (fun i => p (inv_store_id i)) (fun _ => true));
      [|intros a Ha; destruct (Hl a Ha) as (i & -> & _); by eexists].
    transitivity (sgn * (if p st then sum_by al_money l else 0)); [|destruct (p st); lia]. f_equal.
    destruct (p st) eqn:Ep.
    + apply sum_where_all. intros a Ha. by destruct (Hl a Ha) as (i & -> & -> & _); rewrite Ep.
    + apply sum_where_none. intros a Ha. by destruct (Hl a Ha) as (i & -> & -> & _); rewrite Ep.
  - intros [k i] Hk%elem_with_ids. simpl. unfold settled_with.
    assert (Ht : sum_where (fun a => (al_target a =? k) && true) al_money l = to_target l k)
      by (apply sum_by_ext; intros a _; by rewrite andb_true_r).
    rewrite Ht. destruct (existsb _ l) eqn:El.
    + destruct (settle_fields c (sgn * to_target l k) i) as ([= -> _] & _).
      destruct (p _); [|lia]. apply targeted in El as (a & Ha & <-). destruct (Hl a Ha) as (j & Hj & _ & Hn).
      rewrite Hj in Hk. injection Hk as <-. by apply open_amount_settle.
    + rewrite (not_targeted l k El). destruct (p _); lia.
Qed.

(** The settlement invariant after invoices were settled on one channel. *)
Lemma settlement_step c sgn l d d' :
  settlement_wf d ->
  settled_rows c sgn l (purchase_invoices d) (purchase_invoices d') ->
  (forall c', c' <> c -> side_of c' d' = side_of c' d) ->
  side_wf (parties d) (side_of c d') ->
  (forall k, is_Some (row_of (purchase_invoices d) k) ->
     settled_by (side_of c d') k = settled_by (side_of c d) k + sgn * to_target l k) ->
  (forall k i, row_of (purchase_invoices d) k = Some i -> (exists a, a ∈ l /\ al_target a = k) ->
     settled_ok (settle c (sgn * to_target l k) i)) ->
  (forall k n, row_of (credit_notes d') k = Some n ->
     amount_allocated n = if live (credit_side d') k then cn_grand_total n else 0) ->
  settlement_wf d'.
Proof.
  intros [W1 W2 W3 W4] Hrows Hother Hside Hby Hok Hn.
  assert (Hp : parties d' = parties d) by (by apply settled_rows_parties in Hrows).
  constructor; [..|done].
  - intros c' k i Hk. rewrite (Hrows k) in Hk.
    destruct (row_of (purchase_invoices d) k) as [i0|] eqn:E; [|done]. injection Hk as <-.
    unfold settled_with. destruct (decide (c' = c)) as [->|Hne].
    + rewrite Hby by (by eexists). rewrite <- (W1 c k i0 E). destruct (existsb _ l) eqn:El.
      * apply settle_fields.
      * rewrite (not_targeted l k El). lia.
    + rewrite Hother, <- (W1 c' k i0 E) by done. destruct (existsb _ l); [|done].
      by apply settle_fields.
  - intros k i Hk. rewrite (Hrows k) in Hk.
    destruct (row_of (purchase_invoices d) k) as [i0|] eqn:E; [|done]. injection Hk as <-.
    unfold settled_with. destruct (existsb _ l) eqn:El; [|by apply (W2 k)].
    apply targeted in El. by apply Hok.
  - intros c'. rewrite Hp. destruct (decide (c' = c)) as [->|Hne]; [done|]. rewrite Hother by done. apply W3.
Qed.

(** Amounts never go below zero. *)
Lemma settlement_nonneg d k i c :
  settlement_wf d -> row_of (purchase_invoices d) k = Some i -> 0 <= amount_of c i.
Proof.
  intros Hd Hk. rewrite (se_amount _ Hd c k i Hk). eapply settled_by_nonneg, (se_side _ Hd).
Qed.

(** ** The accounts-payable account of the ledger *)

(** A line on the account, of an entry of a store satisfying [p]. *)
Definition on_payable (d : database) (p : Z -> bool) (l : JournalLine) : bool :=
  bool_decide (line_code d l = Some ACCOUNT_ACCOUNTS_PAYABLE)
  && match row_of (journal_entries d) (line_entry_id l) with
     | Some e => p (entry_store_id e)
     | None => false
     end.

(** Its net credit. *)
Definition payable_balance (d : database) (p : Z -> bool) : ledger :=
  sum_where (on_payable d p) (fun l => credit l - debit l) (journal_lines d).

(** For any choice of stores the account says what their open invoices say;
    no entry is a manual one. *)
Record payable_wf (d : database) : Prop := {
  py_refer : forall l, l ∈ journal_lines d -> is_Some (row_of (journal_entries d) (line_entry_id l));
  py_automated : forall e, e ∈ journal_entries d -> automated (source_type e) = true;
  py_balance : forall p, payable_balance d p = ledger_of_money (owed p (purchase_invoices d));
}.

Lemma posting_automated q : automated (posting_key q).1 = true.
Proof. by destruct q. Qed.

Lemma line_matches_payable d d' eid specs new p st :
  accounts d' = accounts d ->
  (exists e, row_of (journal_entries d') eid = Some e /\ entry_store_id e = st) ->
  Forall2 (line_matches d eid) specs new ->
  sum_where (on_payable d' p) (fun l => credit l - debit l) new
  = - (if p st then spec_net specs ACCOUNT_ACCOUNTS_PAYABLE else 0).
Proof.
  intros Ea (e & He & <-). induction 1 as [|sp l specs new (E & Hd & Hc & _ & a & Ha & Hcode) _ IH].
  { by destruct (p _). }
  unfold spec_net in *. rewrite !sum_where_cons, IH. unfold on_payable, line_code.
  rewrite E, He, Ea, Ha, Hd, Hc. simpl. rewrite Hcode.
  rewrite (bool_decide_ext (Some (spec_code sp) = Some ACCOUNT_ACCOUNTS_PAYABLE)
             (spec_code sp = ACCOUNT_ACCOUNTS_PAYABLE)) by (split; congruence).
  destruct (p _), (bool_decide _); simpl; lia.
Qed.

Lemma append_entry_payable d e specs new p :
  (forall l, l ∈ journal_lines d -> is_Some (row_of (journal_entries d) (line_entry_id l))) ->
  Forall2 (line_matches d (next_id (journal_entries d))) specs new ->
  payable_balance (append_entry e new d) p
  = payable_balance d p
    - (if p (entry_store_id e) then spec_net specs ACCOUNT_ACCOUNTS_PAYABLE else 0).
Proof.
  intros Hr Hm. unfold payable_balance.
  change (journal_lines (append_entry e new d)) with (journal_lines d ++ new).
  rewrite sum_where_app, <- Z.add_opp_r. f_equal.
  - apply sum_by_ext. intros l Hl. destruct (Hr l Hl) as [x Hx].
    unfold on_payable, line_code. simpl. by rewrite Hx, (row_of_app_old _ _ _ _ Hx).
  - apply (line_matches_payable d _ (next_id (journal_entries d))); [done| |done].
    exists e. split; [apply row_of_new|done].
Qed.

(** A posting moves the account by what its lines put there. *)
Lemma post_payable q by_ s r s' :
  (forall l, l ∈ journal_lines (working s) ->
     is_Some (row_of (journal_entries (working s)) (line_entry_id l))) ->
  (forall e, e ∈ journal_entries (working s) -> automated (source_type e) = true) ->
  post q by_ s = (Ok r, s') ->
  let d := working s in let d' := working s' in
  (exists es ls, d' = over_journal_lines (fun t => t ++ ls) (over_journal_entries (fun t => t ++ es) d)) /\
  (forall l, l ∈ journal_lines d' -> is_Some (row_of (journal_entries d') (line_entry_id l))) /\
  (forall e, e ∈ journal_entries d' -> automated (source_type e) = true) /\
  (forall p, payable_balance d' p
             = payable_balance d p
               - (if p (posting_store q) then spec_net (posting_lines q) ACCOUNT_ACCOUNTS_PAYABLE else 0)).
Proof.
  intros Hr Ha H d d'. apply post_shape_at in H as [(E & -> & ->)|(date & id & -> & H)].
  - split; [|split; [done|split; [done|]]].
    + exists [], []. destruct (working s) as [? ? [] ? ? ? ? ? ? ?].
      unfold over_journal_lines, over_journal_entries, over_ledger. simpl. by rewrite !app_nil_r.
    + intros p. rewrite E. unfold d'. destruct (p _); fold d; rewrite ?spec_net_nil; lia.
  - apply post_journal_ok in H as (e & new & -> & Hw & _ & _ & Hst & _ & Hsrc & _ & _ & _ & _ & Hm & _).
    subst d d'. rewrite Hw. unfold append_entry. split; [by exists [e], new|]. simpl.
    split; [|split].
    + intros l [Hl|Hl]%elem_of_app.
      * destruct (Hr l Hl) as [x Hx]. exists x. by apply row_of_app_old.
      * eapply line_matches_new in Hm as (-> & _); [|done]. rewrite row_of_new. by eexists.
    + intros x [Hx|Hx%list_elem_of_singleton]%elem_of_app; [by apply Ha|]. subst.
      rewrite Hsrc. apply posting_automated.
    + intros p. rewrite <- Hst. exact (append_entry_payable _ _ _ _ p Hr Hm).
Qed.

(** ** The three-way match *)

(** The line belongs to a posted, not voided, invoice. *)
Definition accounted_line (d : database) (l : PurchaseInvoiceLine) : bool :=
  match row_of (purchase_invoices d) (il_invoice_id l) with
  | Some i => negb (non_accounting_status (inv_status i))
  | None => false
  end.

(** What has been invoiced for order item [k]. *)
Definition invoiced_total (d : database) (k : Z) : qty :=
  sum_where (fun l => (il_order_item_id l =? k) && accounted_line d l) il_quantity
    (purchase_invoice_lines d).

Record matched_wf (d : database) : Prop := {
  mw_lines : forall l, l ∈ purchase_invoice_lines d ->
    is_Some (row_of (purchase_invoices d) (il_invoice_id l)) /\
    is_Some (row_of (purchase_order_items d) (il_order_item_id l)) /\ 0 < il_quantity l;
  mw_invoiced : forall k i, row_of (purchase_order_items d) k = Some i ->
    quantity_invoiced i = invoiced_total d k /\ quantity_invoiced i <= quantity_received i;
}.

Record payables_wf (d : database) : Prop := {
  pa_settlement : settlement_wf d;
  pa_payable : payable_wf d;
  pa_matched : matched_wf d;
}.

(** ** The tables the invariant reads *)

Definition settlement_tables (d : database) :=
  (purchase_invoices d, supplier_payments d, payment_allocations d, payment_reversals d,
   credit_notes d, credit_allocations d, credit_note_reversals d).

Definition matched_tables (d : database) :=
  (purchase_invoices d, purchase_invoice_lines d, purchase_order_items d).

Definition payables_frame (d : database) := (ledger_tables d, settlement_tables d, matched_tables d).

Lemma settlement_wf_ext d d' : settlement_tables d' = settlement_tables d -> settlement_wf d -> settlement_wf d'.
Proof.
  intros [= E1 E2 E3 E4 E5 E6 E7] [W1 W2 W3 W4].
  assert (Es : forall c, side_of c d' = side_of c d)
    by (intros []; simpl; unfold payment_side, credit_side; by rewrite ?E2, ?E3, ?E4, ?E5, ?E6, ?E7).
  assert (Ep : parties d' = parties d) by (unfold parties; by rewrite E1).
  constructor.
  - intros c k i. rewrite E1, Es. apply W1.
  - intros k i. rewrite E1. apply W2.
  - intros c. rewrite Es, Ep. apply W3.
  - intros k n. rewrite E5. change (credit_side d') with (side_of BY_CREDIT d'). rewrite Es. apply W4.
Qed.

Lemma payable_balance_ext d d' p : ledger_tables d' = ledger_tables d -> payable_balance d' p = payable_balance d p.
Proof. intros E. unfold payable_balance, on_payable, line_code. by rewrite E. Qed.

Lemma payable_wf_ext d d' :
  ledger_tables d' = ledger_tables d -> purchase_invoices d' = purchase_invoices d -> payable_wf d -> payable_wf d'.
Proof.
  intros El Ep [W1 W2 W3]. constructor; rewrite ?El; [done|done|].
  intros p. by rewrite (payable_balance_ext d d' p El), W3, Ep.
Qed.

Lemma matched_wf_ext d d' : matched_tables d' = matched_tables d -> matched_wf d -> matched_wf d'.
Proof.
  intros [= E1 E2 E3] [W1 W2].
  constructor; unfold invoiced_total, accounted_line in *; by rewrite ?E1, ?E2, ?E3.
Qed.

Lemma payables_wf_ext d d' : payables_frame d' = payables_frame d -> payables_wf d -> payables_wf d'.
Proof.
  unfold payables_frame. intros E [W1 W2 W3].
  apply pair_equal_spec in E as [E E3]. apply pair_equal_spec in E as [E1 E2].
  constructor; [by apply (settlement_wf_ext d)| |by apply (matched_wf_ext d)].
  apply (payable_wf_ext d); [done| |done]. by injection E3.
Qed.

(** What does not read the purchase orders. *)
Definition accounts_wf (d : database) : Prop := settlement_wf d /\ payable_wf d.

Lemma payables_wf_split d : payables_wf d <-> accounts_wf d /\ matched_wf d.
Proof. split; [intros [W1 W2 W3]; exact (conj (conj W1 W2) W3)|intros [[W1 W2] W3]; by constructor]. Qed.

Lemma accounts_wf_ext d d' :
  ledger_tables d' = ledger_tables d -> payables_tables d' = payables_tables d -> accounts_wf d -> accounts_wf d'.
Proof.
  intros E1 E2 [? ?]. split.
  - apply (settlement_wf_ext d); [|done]. unfold settlement_tables. by rewrite E2.
  - apply (payable_wf_ext d); [done|by rewrite E2|done].
Qed.

(** A posting of another component does not reach the account. *)
Lemma post_keeps_accounts q by_ :
  spec_net (posting_lines q) ACCOUNT_ACCOUNTS_PAYABLE = 0 -> keeps accounts_wf (post q by_).
Proof.
  intros Hz. apply keeps_of_ok; [apply post_fixes_committed|].
  intros s r s' _ [W1 [P1 P2 P3]] H.
  destruct (post_payable q by_ s r s' P1 P2 H) as ((es & ls & E) & Q1 & Q2 & Q3).
  split; [apply (settlement_wf_ext (working s)); [by rewrite E|done]|].
  constructor; [done|done|]. intros p. rewrite Q3, Hz, P3.
  assert (purchase_invoices (working s') = purchase_invoices (working s)) as -> by (by rewrite E).
  destruct (p _); lia.
Qed.
