(* ===== verification/PayablesOps.v ===== *)
(** * What the operations of accounts payable write

    The successful runs of each operation of [Payables], described table by
    table, and the proof that every operation keeps [payables_wf]. *)

From S2P Require Import Prelude Fixed Session Schema Tables Platform Chart Fixture Journal.
From S2P Require Import Posting Matching Purchasing Settlement Payables PayablesInvariant.

Ltac payables_reads :=
  unfold _match_or_reject_idempotent_invoice, _match_or_reject_idempotent_payment,
    _match_or_reject_idempotent_credit_note, check_invoice, check_active_parties,
    check_primary_order, check_item_parties, validate_invoice_line, get_purchase_invoice,
    get_supplier_payment, get_supplier_credit_note, still_draft, check_invoiceable, posted_amounts,
    check_allocations, check_named, check_allocation, check_note_input, check_reason,
    check_credited_return, invalid_invoice_state.

(** The readers change nothing. *)
Section Reads.
Context {X : Type} (f : session database -> X).

Lemma match_invoice_fixes key su n ls : fixes f (_match_or_reject_idempotent_invoice key su n ls).
Proof. payables_reads. walk_fixes ltac:(solve_fixes). Qed.

Lemma match_payment_fixes a m als : fixes f (_match_or_reject_idempotent_payment a m als).
Proof. payables_reads. walk_fixes ltac:(solve_fixes). Qed.

Lemma match_note_fixes a r ls als : fixes f (_match_or_reject_idempotent_credit_note a r ls als).
Proof. payables_reads. walk_fixes ltac:(solve_fixes). Qed.

Lemma check_active_parties_fixes st su : fixes f (check_active_parties st su).
Proof. payables_reads. walk_fixes ltac:(solve_fixes). Qed.

Lemma check_invoice_fixes a ls : fixes f (check_invoice a ls).
Proof. payables_reads. walk_fixes ltac:(solve_fixes). Qed.

Lemma get_purchase_invoice_fixes i : fixes f (get_purchase_invoice i).
Proof. payables_reads. walk_fixes ltac:(solve_fixes). Qed.

Lemma posted_amounts_fixes i : fixes f (posted_amounts i).
Proof. payables_reads. walk_fixes ltac:(solve_fixes). Qed.

Lemma check_invoiceable_fixes r : fixes f (check_invoiceable r).
Proof. payables_reads. walk_fixes ltac:(solve_fixes). Qed.

Lemma check_allocations_fixes als : fixes f (check_allocations als).
Proof. payables_reads. walk_fixes ltac:(solve_fixes). Qed.

Lemma check_allocation_fixes st su o invs al : fixes f (check_allocation st su o invs al).
Proof. payables_reads. walk_fixes ltac:(solve_fixes). Qed.

Lemma check_note_input_fixes a r lines als : fixes f (check_note_input a r lines als).
Proof. payables_reads. walk_fixes ltac:(solve_fixes). Qed.

Lemma check_credited_return_fixes a g : fixes f (check_credited_return a g).
Proof. payables_reads. walk_fixes ltac:(solve_fixes). Qed.
End Reads.

#[export] Hint Resolve match_invoice_fixes match_payment_fixes match_note_fixes
  check_active_parties_fixes check_invoice_fixes get_purchase_invoice_fixes posted_amounts_fixes
  check_invoiceable_fixes check_allocations_fixes check_allocation_fixes check_note_input_fixes
  check_credited_return_fixes : fixes.

(** Step over a reader in a successful run. *)
Ltac read_step H :=
  let x := fresh "x" in let s1 := fresh "s" in let H1 := fresh "Hread" in
  apply bind_ok in H as (x & s1 & H1 & H);
  assert (s1 = _) as -> by (apply (reads_run _ _ _ _ ltac:(solve_fixes) H1)).

Lemma get_purchase_invoice_ok i s inv s' :
  get_purchase_invoice i s = (Ok inv, s') -> s' = s /\ row_of (purchase_invoices (working s)) i = Some inv.
Proof.
  intros H. apply bind_ok in H as (o & s1 & H1 & H). apply get_ok in H1 as [-> <-].
  by apply of_option_ok in H as [? <-].
Qed.

(** ** One invoice row changes *)

Lemma set_invoice_settlement d k f :
  (forall i, row_of (purchase_invoices d) k = Some i ->
     parties_of (f i) = parties_of i /\ (forall c, amount_of c (f i) = amount_of c i) /\ settled_ok (f i)) ->
  settlement_wf d -> settlement_wf (over_purchase_invoices (set_row k f) d).
Proof.
  intros Hf [W1 W2 W3 W4].
  assert (Ep : parties (over_purchase_invoices (set_row k f) d) = parties d).
  { unfold parties. simpl. apply rows_map_eq. intros j. rewrite row_of_set.
    case_bool_decide as E; [subst|done]. destruct (row_of _ j) as [i|] eqn:Ei; [|done]. simpl.
    by destruct (Hf i eq_refl) as [-> _]. }
  constructor; [| |intros c; rewrite Ep; by apply (W3 c)|done].
  - intros c j i. simpl. rewrite row_of_set. intros Hj.
    change (side_of c (over_purchase_invoices (set_row k f) d)) with (side_of c d).
    case_bool_decide as E; [subst|by apply W1].
    destruct (row_of _ j) as [i0|] eqn:Ei; [|done]. injection Hj as <-.
    destruct (Hf i0 eq_refl) as (_ & -> & _). by apply W1.
  - intros j i. simpl. rewrite row_of_set. intros Hj.
    case_bool_decide as E; [subst|by apply (W2 j)].
    destruct (row_of _ j) as [i0|] eqn:Ei; [|done]. injection Hj as <-. by apply Hf.
Qed.

Lemma owed_set p k f i t :
  row_of t k = Some i -> parties_of (f i) = parties_of i ->
  owed p (set_row k f t) = owed p t + (if p (inv_store_id i) then open_amount (f i) - open_amount i else 0).
Proof.
  intros Hk [= E _]. unfold owed, sum_where. rewrite (sum_by_set_row _ _ _ _ _ Hk), E.
  destruct (p _); lia.
Qed.

(** ** Drafts *)

Lemma insert_invoice_ok key i s k new s' :
  insert_invoice key i s = (Ok (k, new), s') ->
  (new = true /\ k = next_id (purchase_invoices (working s)) /\
     s' = with_working (over_purchase_invoices (fun t => t ++ [i]) (working s)) s) \/
  (new = false /\ s' = with_working (committed s) s /\
     exists x, select (fun _ x => invoice_under key x) (purchase_invoices (committed s)) = [(k, x)]).
Proof.
  intros H. unfold insert_invoice in H. apply except_integrity_ok in H as [H|(c & s1 & Hr & H)].
  - apply bind_ok in H as (j & s1 & H1 & H). apply ret_ok in H as [[= <- <-] <-].
    apply add_ok in H1 as (-> & _ & _ & ->). by left.
  - assert (s1 = s) as ->.
    { apply bind_raise_cases in Hr as [Hr|(j & s2 & _ & Hr)]; [|done].
      unfold add in Hr. destruct (row_violation _ _ _); by injection Hr. }
    apply bind_ok in H as ([] & s2 & H1 & H). injection H1 as <-.
    apply bind_ok in H as (w & s3 & H2 & H). apply find_by_ok in H2 as [-> H2].
    destruct w as [[j x]|]; [|by case_bool_decide]. apply ret_ok in H as [[= <- <-] <-]. right. eauto.
Qed.

Lemma insert_invoice_fixes_committed key i : fixes committed (insert_invoice key i).
Proof. unfold insert_invoice. solve_fixes. Qed.

Lemma settled_by_empty inv s k : side_wf inv s -> row_of inv k = None -> settled_by s k = 0.
Proof.
  intros Hs Hk. apply sum_where_none. intros a Ha. destruct (sd_alloc _ _ Hs a Ha) as (_ & x & _ & Hx).
  destruct (Z.eqb_spec (al_target a) k) as [E|]; [|done]. rewrite E, Hk in Hx. done.
Qed.

Lemma row_of_next {R} (t : list R) : row_of t (next_id t) = None.
Proof.
  destruct (row_of t (next_id t)) as [r|] eqn:E; [|done]. apply row_of_range in E. lia.
Qed.

Lemma add_draft_wf d i :
  payables_wf d -> inv_status i = INV_DRAFT -> (forall c, amount_of c i = 0) ->
  payables_wf (over_purchase_invoices (fun t => t ++ [i]) d).
Proof.
  intros [[W1 W2 W3 W4] [P1 P2 P3] [M1 M2]] Hst Ha.
  set (d' := over_purchase_invoices _ d).
  assert (Hp : parties d' = parties d ++ [parties_of i]) by (unfold parties; simpl; by rewrite map_app).
  constructor; constructor.
  - intros c k x. change (side_of c d') with (side_of c d). simpl.
    intros [Hk|[-> ->]]%row_of_inv_app; [by apply W1|]. rewrite Ha.
    symmetry. apply (settled_by_empty (parties d)); [apply W3|]. unfold parties.
    by rewrite row_of_map, row_of_next.
  - intros k x. simpl. intros [Hk|[-> ->]]%row_of_inv_app; [by apply (W2 k)|].
    unfold settled_ok. rewrite Hst. specialize (Ha BY_PAYMENT) as H1. specialize (Ha BY_CREDIT) as H2.
    simpl in *. lia.
  - intros c. change (side_of c d') with (side_of c d). eapply side_wf_mono; [apply W3|].
    intros k x Hx. rewrite Hp. by apply row_of_app_old.
  - exact W4.
  - exact P1.
  - exact P2.
  - intros p. change (payable_balance d' p) with (payable_balance d p). rewrite P3. f_equal.
    assert (open_amount i = 0) as Ho by (unfold open_amount; by rewrite Hst).
    unfold owed. simpl. rewrite sum_where_app, sum_where_cons, sum_where_nil, Ho. destruct (p _); lia.
  - intros l Hl. destruct (M1 l Hl) as ([x Hx] & Hi & Hq). split; [|done]. exists x. simpl.
    by apply row_of_app_old.
  - intros k x Hx. destruct (M2 k x Hx) as [E1 E2]. split; [|done]. rewrite E1.
    apply sum_by_ext. intros l Hl. destruct (M1 l Hl) as ([y Hy] & _).
    unfold accounted_line. simpl. by rewrite Hy, (row_of_app_old _ _ _ _ Hy).
Qed.

Lemma add_draft_line_wf d l i :
  payables_wf d -> row_of (purchase_invoices d) (il_invoice_id l) = Some i -> inv_status i = INV_DRAFT ->
  is_Some (row_of (purchase_order_items d) (il_order_item_id l)) -> 0 < il_quantity l ->
  payables_wf (over_purchase_invoice_lines (fun t => t ++ [l]) d).
Proof.
  intros [W P [M1 M2]] Hi Hst Hit Hq. constructor.
  - by apply (settlement_wf_ext d).
  - by apply (payable_wf_ext d).
  - constructor; simpl.
    + intros x [Hx|Hx%list_elem_of_singleton]%elem_of_app; [by apply M1|]. subst.
      split; [by exists i|done].
    + intros k x Hx. destruct (M2 k x Hx) as [E1 E2]. split; [|done]. rewrite E1.
      unfold invoiced_total. simpl. rewrite sum_where_app, sum_where_cons, sum_where_nil.
      assert (accounted_line (over_purchase_invoice_lines (fun t => t ++ [l]) d) l = false) as ->
        by (unfold accounted_line; simpl; by rewrite Hi, Hst).
      rewrite andb_false_r, !Z.add_0_r. done.
Qed.

(** A change of a row that keeps its parties, its settled amounts and its
    place in the accounts. *)
Lemma set_invoice_wf d k f :
  (forall i, row_of (purchase_invoices d) k = Some i ->
     parties_of (f i) = parties_of i /\ (forall c, amount_of c (f i) = amount_of c i) /\
     settled_ok (f i) /\ open_amount (f i) = open_amount i /\
     non_accounting_status (inv_status (f i)) = non_accounting_status (inv_status i)) ->
  payables_wf d -> payables_wf (over_purchase_invoices (set_row k f) d).
Proof.
  intros Hf [W [P1 P2 P3] [M1 M2]]. constructor.
  - apply set_invoice_settlement; [|done]. intros i Hi. destruct (Hf i Hi) as (? & ? & ? & _). auto.
  - constructor; [exact P1|exact P2|]. intros p. simpl.
    change (payable_balance _ p) with (payable_balance d p). rewrite P3. f_equal.
    destruct (row_of (purchase_invoices d) k) as [i|] eqn:E; [|by rewrite set_row_missing].
    destruct (Hf i eq_refl) as (Hp & _ & _ & Ho & _). rewrite (owed_set p k f i _ E Hp), Ho.
    destruct (p _); lia.
  - assert (Ha : forall l, accounted_line (over_purchase_invoices (set_row k f) d) l = accounted_line d l).
    { intros l. unfold accounted_line. simpl. rewrite row_of_set. case_bool_decide as E; [subst|done].
      destruct (row_of _ _) as [i|] eqn:Ei; [|done]. simpl. by destruct (Hf i eq_refl) as (_ & _ & _ & _ & ->). }
    constructor; simpl.
    + intros l Hl. destruct (M1 l Hl) as ([x Hx] & H2). split; [|done]. rewrite row_of_set, Hx.
      case_bool_decide; by eexists.
    + intros j x Hx. destruct (M2 j x Hx) as [E1 E2]. split; [|done]. rewrite E1.
      apply sum_by_ext. intros l _. by rewrite Ha.
Qed.

Lemma write_draft_ok a k items lines s s' i :
  payables_wf (working s) -> row_of (purchase_invoices (working s)) k = Some i -> inv_status i = INV_DRAFT ->
  write_draft a k items lines s = (Ok tt, s') -> payables_wf (working s').
Proof.
  intros Hw Hi Hst H. unfold write_draft in H.
  apply bind_ok in H as ([] & s1 & H1 & H).
  eapply (for_each_ok_ind _ (fun _ s1 => payables_wf (working s1) /\
    row_of (purchase_invoices (working s1)) k = Some i)) in H1 as [Hw1 Hi1]; [|by split|].
  - apply bind_ok in H as ([] & s2 & H2 & H). apply update_ok in H2 as (r & _ & _ & _ & ->).
    apply log_event_ok in H as ->. simpl.
    apply (payables_wf_ext (over_purchase_invoices (set_row k (with_totals lines)) (working s1)));
      [done|].
    apply set_invoice_wf; [|done]. intros x Hx. rewrite Hi1 in Hx. injection Hx as <-.
    pose proof (se_status _ (pa_settlement _ Hw1) k i Hi1) as Hok.
    split_and!; [done|by intros []| |by unfold open_amount; simpl; rewrite Hst|done].
    unfold settled_ok in *. simpl. by rewrite Hst in *.
  - intros dn l rest s2 s3 _ (Hw2 & Hi2) H3. unfold write_invoice_line in H3.
    apply bind_ok in H3 as (it & s4 & H4 & H3). apply of_option_ok in H4 as [_ <-].
    apply bind_ok in H3 as (j & s4 & H4 & H3). apply ret_ok in H3 as [_ <-].
    apply add_ok in H4 as (_ & Hv & _ & ->). simpl. split; [|done].
    eapply add_draft_line_wf; [done|exact Hi2|done| |].
    + eapply (row_valid_elem _ _ "fk_purchase_invoice_lines_purchase_order_item_id") in Hv;
        [|simpl; right; left; reflexivity].
      by apply exists_row_true in Hv.
    + eapply (row_valid_elem _ _ "ck_purchase_invoice_lines_qty_positive") in Hv;
        [|simpl; do 3 right; left; reflexivity]. by bools.
Qed.

Lemma write_draft_fixes_committed a k items lines : fixes committed (write_draft a k items lines).
Proof. unfold write_draft, write_invoice_line. solve_fixes. Qed.

Lemma create_purchase_invoice_keeps a lines caller :
  keeps payables_wf (create_purchase_invoice a lines caller).
Proof.
  intros s. apply keeps_at_bind; [by apply keeps_reads, match_invoice_fixes|].
  intros [i|] s1 _; [apply keeps_at_all; solve_keeps|].
  apply keeps_at_bind; [unfold enforce_store_access; solve_keeps|]. intros _ s2 _.
  apply keeps_at_bind; [by apply keeps_reads, check_invoice_fixes|]. intros checked s3 _.
  apply keeps_at_bind; [by apply keeps_reads; solve_fixes|]. intros now s4 _. cbv zeta.
  apply keeps_at_bind_at.
  - intros Hc Hw.
    pose proof (insert_invoice_fixes_committed (ia_key a)
      (new_invoice a (resolved_order a checked.2) (resolved_due_date a checked.1) now) s4) as Hf.
    destruct (insert_invoice _ _ s4) as [[[k new]|e] s5] eqn:E; simpl in Hf; rewrite Hf; [|done].
    split; [done|]. apply insert_invoice_ok in E as [(_ & _ & ->)|(_ & -> & _)]; simpl; [|done].
    apply add_draft_wf; [done|done|by intros []].
  - intros [k new] s5 E. apply insert_invoice_ok in E as [(-> & -> & ->)|(-> & -> & _)]; simpl;
      [|apply keeps_at_all; solve_keeps].
    intros Hc Hw. refine (keeps_at_bind_at _ _ _ _ _ _ Hc Hw); [|intros; apply keeps_at_all; solve_keeps].
    apply keeps_at_of_ok; [apply write_draft_fixes_committed|]. intros [] s6 E.
    eapply write_draft_ok; [exact Hw|simpl; apply row_of_new|done|exact E].
Qed.

(** ** Posting and voiding *)

(** The item after a change of its invoiced quantity by [q]. *)
Definition add_invoiced (q : qty) (i : PurchaseOrderItem) : PurchaseOrderItem :=
  with_invoiced (quantity_invoiced i + q) i.

Lemma with_invoiced_same i : add_invoiced 0 i = i.
Proof. unfold add_invoiced, with_invoiced. destruct i; simpl. by rewrite Z.add_0_r. Qed.

Lemma add_invoiced_add x y i : add_invoiced y (add_invoiced x i) = add_invoiced (x + y) i.
Proof. unfold add_invoiced, with_invoiced. simpl. by rewrite Z.add_assoc. Qed.

(** Every item's invoiced quantity moves by its total in [l], and stays within
    the received one where it was touched. *)
Definition items_invoiced (l : list (Z * qty)) (t t' : list PurchaseOrderItem) : Prop :=
  (forall k, row_of t' k = add_invoiced (dict_total l k) <$> row_of t k) /\
  (forall k i, k ∈ dict_keys l -> row_of t' k = Some i -> quantity_invoiced i <= quantity_received i).

Lemma apply_invoiced_ok l s s' :
  for_each apply_invoiced l s = (Ok tt, s') ->
  exists items, s' = with_working (over_purchase_order_items (fun _ => items) (working s)) s /\
    items_invoiced l (purchase_order_items (working s)) items.
Proof.
  intros H. eapply (for_each_ok_ind _ (fun dn s1 => exists items,
    s1 = with_working (over_purchase_order_items (fun _ => items) (working s)) s /\
    items_invoiced dn (purchase_order_items (working s)) items)) in H; [done| |].
  - exists (purchase_order_items (working s)). split.
    + by destruct s as [c [? ? ? ? ? ? ? ? [] ? ?] e n w].
    + split; [|by intros k i ?%elem_of_nil]. intros k. unfold dict_total. rewrite sum_where_nil.
      destruct (row_of _ k) as [i|]; simpl; [|done]. by rewrite with_invoiced_same.
  - intros dn [k q] rest s1 s2 _ (items & -> & Hi & Hb) H1. unfold apply_invoiced in H1.
    apply bind_ok in H1 as (o & s3 & H3 & H1). apply get_ok in H3 as [-> <-].
    apply bind_ok in H1 as (i & s3 & H3 & H1). apply of_option_ok in H3 as [Hrow <-]. simpl in Hrow.
    apply update_ok in H1 as (r & Hr & Hv & _ & ->). simpl in *.
    rewrite Hrow in Hr. injection Hr as <-.
    eapply (row_valid_elem _ _ "ck_purchase_order_items_qty_invoiced_bounds") in Hv;
      [|simpl; do 4 right; left; reflexivity]. simpl in Hv. bools.
    eexists. split; [reflexivity|]. split.
    + intros j. rewrite row_of_set. unfold dict_total.
      rewrite sum_where_app, sum_where_cons, sum_where_nil. simpl. case_bool_decide as E.
      * subst. rewrite Z.eqb_refl, Z.add_0_r. rewrite Hi in Hrow |- *.
        destruct (row_of _ j) as [i0|]; [|done]. simpl in *. injection Hrow as <-.
        f_equal. by apply (add_invoiced_add (dict_total dn j) q i0).
      * rewrite (proj2 (Z.eqb_neq _ _) E), Hi. by rewrite !Z.add_0_r.
    + intros j x Hj. simpl. rewrite row_of_set. case_bool_decide as E.
      * subst. rewrite Hrow. intros [= <-]. simpl. lia.
      * intros Hx. apply (Hb j x); [|done]. unfold dict_keys in *. rewrite map_app in Hj. simpl in Hj.
        set_solver.
Qed.

(** What the lines of invoice [k] say of item [j]. *)
Definition lines_total (d : database) (k j : Z) : qty :=
  sum_where (fun l => (il_invoice_id l =? k) && (il_order_item_id l =? j)) il_quantity
    (purchase_invoice_lines d).

Lemma lines_of_invoice_total d k j :
  sum_where (fun il => il_order_item_id il.2 =? j) (fun il => il_quantity il.2) (lines_of_invoice d k)
  = lines_total d k j.
Proof.
  unfold lines_of_invoice, lines_total, sum_where.
  rewrite (select_sum (fun l => il_invoice_id l =? k)
             (fun l => if il_order_item_id l =? j then il_quantity l else 0)).
  apply sum_by_ext. intros l _. by destruct (_ =? k).
Qed.

Lemma requested_total d k j :
  dict_total (requested_by_item (lines_of_invoice d k)) j = lines_total d k j /\
  (lines_total d k j <> 0 -> j ∈ dict_keys (requested_by_item (lines_of_invoice d k))).
Proof.
  destruct (dict_add_all (fun il => il_order_item_id il.2) (fun il => il_quantity il.2)
              (lines_of_invoice d k)) as (H1 & H2 & H3).
  change (fold_left _ _ _) with (requested_by_item (lines_of_invoice d k)) in *.
  rewrite dict_total_get by done. rewrite H2, lines_of_invoice_total. split; [done|].
  intros Hne. apply H3. rewrite <- lines_of_invoice_total in Hne.
  destruct (existsb (fun il : Z * PurchaseInvoiceLine => il_order_item_id il.2 =? j) (lines_of_invoice d k)) eqn:E.
  - apply existsb_exists in E as (x & Hx%list_elem_of_In & Hj%Z.eqb_eq). eauto.
  - exfalso. apply Hne, sum_where_none. intros x Hx. apply not_true_iff_false. intros Hj.
    apply not_true_iff_false in E. apply E, existsb_exists. exists x. by rewrite <- list_elem_of_In.
Qed.

(** An invoice enters, or leaves, the accounts: its row changes status, the
    invoiced quantities follow its lines, and the account its total. *)
Lemma invoice_accounted_wf d d' k f i sgn l :
  payables_wf d -> row_of (purchase_invoices d) k = Some i ->
  settlement_tables d' = settlement_tables (over_purchase_invoices (set_row k f) d) ->
  purchase_invoice_lines d' = purchase_invoice_lines d ->
  parties_of (f i) = parties_of i -> (forall c, amount_of c (f i) = amount_of c i) -> settled_ok (f i) ->
  open_amount (f i) = open_amount i + sgn * inv_grand_total i ->
  (if non_accounting_status (inv_status (f i)) then 0 else 1)
  = (if non_accounting_status (inv_status i) then 0 else 1) + sgn ->
  items_invoiced l (purchase_order_items d) (purchase_order_items d') ->
  (forall j, dict_total l j = sgn * lines_total d k j) ->
  (forall j, lines_total d k j <> 0 -> j ∈ dict_keys l) ->
  (forall l, l ∈ journal_lines d' -> is_Some (row_of (journal_entries d') (line_entry_id l))) ->
  (forall e, e ∈ journal_entries d' -> automated (source_type e) = true) ->
  (forall p, payable_balance d' p
     = payable_balance d p + (if p (inv_store_id i) then sgn * ledger_of_money (inv_grand_total i) else 0)) ->
  payables_wf d'.
Proof.
  intros [W [P1 P2 P3] [M1 M2]] Hi Es El Hp Ha Hok Hopen Hacc [Hit Hb] Hl Hlk Q1 Q2 Q3.
  assert (Ei : purchase_invoices d' = set_row k f (purchase_invoices d)) by (by injection Es).
  constructor.
  - apply (settlement_wf_ext (over_purchase_invoices (set_row k f) d)); [done|].
    apply set_invoice_settlement; [|done]. intros x Hx. rewrite Hi in Hx. by injection Hx as <-.
  - constructor; [done|done|]. intros p. rewrite Q3, P3, Ei, (owed_set p k f i _ Hi Hp), Hopen.
    unfold ledger_of_money. destruct (p _); lia.
  - constructor; rewrite ?El, ?Ei.
    + intros x Hx. destruct (M1 x Hx) as ([y Hy] & [z Hz] & Hq). split_and!; [| |done].
      * rewrite row_of_set, Hy. case_bool_decide; by eexists.
      * rewrite Hit, Hz. by eexists.
    + intros j x Hx. pose proof Hx as Hx'. rewrite Hit in Hx'.
      destruct (row_of (purchase_order_items d) j) as [y|] eqn:Ey; [|done]. injection Hx' as <-.
      destruct (M2 j y Ey) as [E1 E2]. split.
      * simpl. rewrite Hl, E1. unfold invoiced_total, lines_total. rewrite El.
        unfold sum_where. rewrite <- sum_by_scale, <- sum_by_add. apply sum_by_ext. intros x Hin.
        unfold accounted_line. rewrite Ei, row_of_set, (Z.eqb_sym (il_invoice_id x)), <- (bool_decide_Zeqb k).
        case_bool_decide as E.
        -- rewrite <- E, Hi. simpl. destruct (il_order_item_id x =? j); simpl; [|lia].
           destruct (non_accounting_status (inv_status (f i))), (non_accounting_status (inv_status i)); simpl; lia.
        -- destruct (row_of _ _); simpl; [|destruct (_ =? j); simpl; lia].
           destruct (_ =? j), (non_accounting_status _); simpl; lia.
      * destruct (decide (lines_total d k j = 0)) as [Hz|Hz].
        -- simpl. rewrite Hl, Hz. simpl. lia.
        -- by apply (Hb j); [apply Hlk|].
Qed.

Lemma invoice_lines_payable a reverse :
  0 <= invoice_grand_total a ->
  spec_net (_purchase_invoice_journal_lines a reverse) ACCOUNT_ACCOUNTS_PAYABLE
  = if reverse then ledger_of_money (invoice_grand_total a) else - ledger_of_money (invoice_grand_total a).
Proof.
  intros Hg. unfold _purchase_invoice_journal_lines.
  destruct reverse, (0 <? price_variance_amount a); autorewrite with spec_net;
    rewrite ?(proj1 (spec_net_one _ _ _)), ?(proj2 (spec_net_one _ _ _)); account_nets.
Qed.

Lemma match_lines_fixes ls t : fixes (fun s => payables_frame (working s)) (fold_m match_line ls t).
Proof. apply fixes_fold_m. intros b il. unfold match_line. walk_fixes ltac:(solve_fixes). Qed.

(** What posting writes before the entry. *)
Lemma post_draft_writes k i lines by_ s s' :
  post_draft k i lines by_ s = (Ok tt, s') ->
  exists t s1 items now log s2 r,
    fold_m match_line lines no_matches s = (Ok t, s1) /\
    items_invoiced (requested_by_item lines) (purchase_order_items (working s1)) items /\
    s2 = with_working (over_audit_logs (fun l => l ++ [log])
           (over_purchase_invoices (set_row k (with_posted_at now))
              (over_purchase_order_items (fun _ => items) (working s1)))) s1 /\
    (forall x, row_of (purchase_invoices (working s1)) k = Some x -> 0 <= inv_grand_total x) /\
    post (P_invoice k (inv_store_id i) (invoice_date i)
            (invoice_amounts i (_ledger_quantize (total_clearing_raw t))
               (_ledger_quantize (total_variance_raw t)))) by_ s2 = (Ok r, s').
Proof.
  intros H. unfold post_draft in H.
  apply bind_ok in H as (? & s1 & H1 & H). apply reads_run in H1 as ->; [|solve_fixes].
  apply bind_ok in H as (t & s1 & H1 & H).
  apply bind_ok in H as ([] & s2 & H2 & H). apply apply_invoiced_ok in H2 as (items & -> & Hit).
  apply bind_ok in H as (now & s3 & H3 & H). apply asks_ok in H3 as [_ <-].
  apply bind_ok in H as ([] & s3 & H3 & H). apply update_ok in H3 as (r & Hr & Hv & _ & ->).
  apply bind_ok in H as ([] & s4 & H4 & H). apply log_event_ok in H4 as ->.
  apply bind_ok in H as (pid & s5 & H5 & H). apply ret_ok in H as [_ <-].
  exists t, s1, items, now. do 3 eexists. split_and!; [exact H1|exact Hit|reflexivity| |exact H5].
  intros inv Hx. simpl in Hr. rewrite Hx in Hr. injection Hr as <-.
  eapply (row_valid_elem _ _ "ck_purchase_invoices_grand_total_non_negative") in Hv;
    [|simpl; do 7 right; left; reflexivity]. simpl in Hv. by bools.
Qed.

Lemma post_draft_ok k i lines by_ s s' :
  payables_wf (working s) -> row_of (purchase_invoices (working s)) k = Some i ->
  inv_status i = INV_DRAFT -> lines = lines_of_invoice (working s) k ->
  post_draft k i lines by_ s = (Ok tt, s') -> payables_wf (working s').
Proof.
  intros Hw Hi Hst -> H.
  apply post_draft_writes in H as (t & s1 & items & now & log & s2 & r & H1 & Hit & -> & Hg & H5).
  apply (fixes_run _ _ _ _ _ (match_lines_fixes _ _)) in H1.
  unfold payables_frame in H1. apply pair_equal_spec in H1 as [H1 [= Einv Elin Epoi]].
  apply pair_equal_spec in H1 as [Eled Eset].
  rewrite Einv in Hg. specialize (Hg i Hi).
  pose proof Hw as [Ws [P1 P2 P3] Wm].
  destruct (fun R A => post_payable (P_invoice k (inv_store_id i) (invoice_date i) _) by_ _ _ _ R A H5)
    as ((es & ls & E) & Q1 & Q2 & Q3); [simpl; rewrite Eled; exact P1|simpl; rewrite Eled; exact P2|].
  simpl in *. rewrite Epoi in Hit.
  eapply (invoice_accounted_wf (working s) _ k (with_posted_at now) i 1); [done|exact Hi| | |done| | | | | | | |exact Q1|exact Q2|].
  - rewrite E. unfold settlement_tables in *. simpl. rewrite Einv. by injection Eset as _ -> -> -> -> -> ->.
  - by rewrite E.
  - by intros [].
  - pose proof (se_status _ Ws k i Hi) as Hok. unfold settled_ok in *. simpl. by rewrite Hst in Hok.
  - pose proof (se_status _ Ws k i Hi) as Hok. unfold settled_ok in Hok. rewrite Hst in Hok.
    unfold open_amount, _outstanding_balance. simpl. rewrite Hst. simpl. lia.
  - simpl. by rewrite Hst.
  - rewrite E. exact Hit.
  - intros j. rewrite (proj1 (requested_total (working s) k j)). lia.
  - intros j. apply requested_total.
  - intros p. rewrite Q3, invoice_lines_payable by done. simpl.
    match goal with |- payable_balance ?d1 p - _ = _ =>
      rewrite (payable_balance_ext (working s) d1 p) by (simpl; exact Eled) end.
    destruct (p _); lia.
Qed.

Lemma post_draft_fixes_committed k i ls by_ : fixes committed (post_draft k i ls by_).
Proof.
  unfold post_draft, apply_invoiced, match_line, post_purchase_invoice_journal, _post_standard, posted.
  walk_fixes ltac:(solve_fixes).
Qed.

Lemma still_draft_ok i s b s' :
  still_draft i s = (Ok b, s') -> s' = s /\ (b = true <-> inv_status i = INV_DRAFT).
Proof. unfold still_draft. destruct (inv_status i); intros [= <- <-]; done. Qed.

(** A successful call either found the invoice posted already, or posted it. *)
Lemma post_purchase_invoice_ok k caller by_ s r s' :
  post_purchase_invoice k caller by_ s = (Ok r, s') ->
  r = k /\ exists i, row_of (purchase_invoices (working s)) k = Some i /\
    store_denied caller (inv_store_id i) = false /\
    ((s' = s /\ inv_status i <> INV_DRAFT) \/
     (inv_status i = INV_DRAFT /\ lines_of_invoice (working s) k <> [] /\
      post_draft k i (lines_of_invoice (working s) k) by_ s = (Ok tt, s'))).
Proof.
  intros H. unfold post_purchase_invoice in H.
  apply bind_ok in H as (i & s1 & H1 & H). apply get_purchase_invoice_ok in H1 as [-> Hi].
  apply bind_ok in H as (? & s1 & H1 & H). apply enforce_store_access_ok in H1 as [Hd <-].
  apply bind_ok in H as (b & s1 & H1 & H). apply still_draft_ok in H1 as [-> Hb].
  destruct b; simpl in H.
  - apply bind_ok in H as (ls & s1 & H1 & H). apply gets_ok in H1 as [-> <-].
    apply bind_ok in H as (? & s1 & H1 & H). apply raise_if_ok in H1 as [Hne <-].
    apply bind_ok in H as (i' & s1 & H1 & H). apply get_purchase_invoice_ok in H1 as [-> Hi'].
    rewrite Hi in Hi'. injection Hi' as <-.
    apply bind_ok in H as (b & s1 & H1 & H). apply still_draft_ok in H1 as [-> Hb'].
    assert (b = true) as -> by (apply Hb', Hb; done). simpl in H.
    apply bind_ok in H as ([] & s1 & H1 & H). apply ret_ok in H as [<- <-].
    split; [done|]. exists i. split_and!; [done|done|]. right. split_and!; [by apply Hb| |done]. bools. by intros E; rewrite E in Hne.
  - apply ret_ok in H as [<- <-]. split; [done|]. exists i. split_and!; [done|done|].
    left. split; [done|]. intros E. apply Hb in E. done.
Qed.

Lemma post_purchase_invoice_fixes_committed k caller by_ : fixes committed (post_purchase_invoice k caller by_).
Proof.
  unfold post_purchase_invoice, still_draft, invalid_invoice_state.
  walk_fixes ltac:(first [apply post_draft_fixes_committed|solve_fixes]).
Qed.

Lemma post_purchase_invoice_keeps k caller by_ : keeps payables_wf (post_purchase_invoice k caller by_).
Proof.
  apply keeps_of_ok; [apply post_purchase_invoice_fixes_committed|]. intros s r s' _ Hw H.
  apply post_purchase_invoice_ok in H as (_ & i & Hi & _ & [[-> _]|(Hst & _ & H)]); [done|].
  by eapply post_draft_ok.
Qed.

(** [for_each unapply_invoiced] is [for_each apply_invoiced] of the opposite
    quantities. *)
Definition opposite_quantities (ls : list (Z * PurchaseInvoiceLine)) : list (Z * qty) :=
  map (fun il => (il_order_item_id il.2, - il_quantity il.2)) ls.

Lemma for_each_map {A B} (f : B -> Tx unit) (g : A -> B) l s :
  for_each (fun x => f (g x)) l s = for_each f (map g l) s.
Proof.
  revert s. induction l as [|x l IH]; intros s; simpl; [done|].
  unfold mbind, M_bind. destruct (f (g x) s) as [[[]|e] s1]; [apply IH|done].
Qed.

Lemma unapply_invoiced_ok ls s s' :
  for_each unapply_invoiced ls s = (Ok tt, s') ->
  exists items, s' = with_working (over_purchase_order_items (fun _ => items) (working s)) s /\
    items_invoiced (opposite_quantities ls) (purchase_order_items (working s)) items.
Proof.
  intros H. apply apply_invoiced_ok. unfold opposite_quantities. rewrite <- for_each_map. exact H.
Qed.

Lemma opposite_total d k j :
  dict_total (opposite_quantities (lines_of_invoice d k)) j = -1 * lines_total d k j /\
  (lines_total d k j <> 0 -> j ∈ dict_keys (opposite_quantities (lines_of_invoice d k))).
Proof.
  assert (E : dict_total (opposite_quantities (lines_of_invoice d k)) j = -1 * lines_total d k j).
  { rewrite <- lines_of_invoice_total. unfold dict_total, opposite_quantities, sum_where.
    rewrite sum_by_map, <- sum_by_scale. apply sum_by_ext. intros il _. simpl. destruct (_ =? j); lia. }
  split; [done|]. intros Hne.
  destruct (existsb (Z.eqb j) (dict_keys (opposite_quantities (lines_of_invoice d k)))) eqn:Ex.
  - apply existsb_exists in Ex as (x & Hx%list_elem_of_In & ->%Z.eqb_eq). done.
  - exfalso. apply Hne. unfold dict_total in E. rewrite sum_where_none in E; [lia|].
    intros x Hx. apply not_true_iff_false. intros Hj%Z.eqb_eq.
    apply not_true_iff_false in Ex. apply Ex, existsb_exists. exists x.1. rewrite <- Hj, Z.eqb_refl.
    split; [|done]. apply list_elem_of_In. unfold dict_keys. apply list_elem_of_fmap. eauto.
Qed.

(** What voiding a posted invoice writes. *)
Lemma unpost_writes k i by_ s r s' :
  (_ ← unpost k i by_; _ ← mark_voided k by_; mret k : Tx Z) s = (Ok r, s') ->
  r = k /\ exists amounts items e s2 now log,
    posted_amounts k s = (Ok amounts, s) /\
    items_invoiced (opposite_quantities (lines_of_invoice (working s) k)) (purchase_order_items (working s)) items /\
    post (P_invoice_void k (inv_store_id i) (invoice_amounts i amounts.1 amounts.2)) by_
      (with_working (over_purchase_order_items (fun _ => items) (working s)) s) = (Ok e, s2) /\
    (forall x, row_of (purchase_invoices (working s2)) k = Some x -> 0 <= inv_grand_total x) /\
    s' = with_working (over_audit_logs (fun l => l ++ [log])
           (over_purchase_invoices (set_row k (with_voided_at now)) (working s2))) s2.
Proof.
  intros H. unfold unpost, mark_voided in H.
  apply bind_ok in H as ([] & s1 & H1 & H).
  apply bind_ok in H1 as (amounts & s2 & H2 & H1). assert (s2 = s) as -> by (apply reads_run in H2; [done|solve_fixes]).
  apply bind_ok in H1 as (ls & s3 & H3 & H1). apply gets_ok in H3 as [-> <-].
  apply bind_ok in H1 as ([] & s3 & H3 & H1). apply unapply_invoiced_ok in H3 as (items & -> & Hit).
  apply bind_ok in H1 as (e & s3 & H5 & H1). apply ret_ok in H1 as [_ <-].
  apply bind_ok in H as ([] & s4 & H4 & H). apply ret_ok in H as [<- <-].
  apply bind_ok in H4 as (now & s5 & H6 & H4). apply asks_ok in H6 as [_ <-].
  apply bind_ok in H4 as ([] & s5 & H6 & H4). apply update_ok in H6 as (row & Hr & Hv & _ & ->).
  apply log_event_ok in H4 as ->. split; [done|].
  exists amounts, items, e, s3, now. eexists. split_and!; [exact H2|exact Hit|exact H5| |reflexivity].
  intros inv Hx. simpl in Hr. rewrite Hx in Hr. injection Hr as <-.
  eapply (row_valid_elem _ _ "ck_purchase_invoices_grand_total_non_negative") in Hv;
    [|simpl; do 7 right; left; reflexivity]. simpl in Hv. by bools.
Qed.

Lemma unpost_void_ok k i by_ s s' :
  payables_wf (working s) -> row_of (purchase_invoices (working s)) k = Some i ->
  inv_status i = INV_POSTED ->
  (_ ← unpost k i by_; _ ← mark_voided k by_; mret k : Tx Z) s = (Ok k, s') -> payables_wf (working s').
Proof.
  intros Hw Hi Hst H.
  apply unpost_writes in H as (_ & amounts & items & e & s3 & now & log & _ & Hit & H5 & Hg & ->).
  pose proof Hw as [Ws [P1 P2 P3] Wm].
  destruct (fun R A => post_payable (P_invoice_void k (inv_store_id i) _) by_ _ _ _ R A H5)
    as ((es & lns & E) & Q1 & Q2 & Q3); [exact P1|exact P2|].
  rewrite E in Hg. specialize (Hg i Hi).
  simpl in *.
  eapply (invoice_accounted_wf (working s) _ k (with_voided_at now) i (-1)); [done|exact Hi| | |done| | | | | | | |exact Q1|exact Q2|].
  - by rewrite E.
  - by rewrite E.
  - by intros [].
  - pose proof (se_status _ Ws k i Hi) as Hok. unfold settled_ok in *. simpl. rewrite Hst in Hok. by destruct Hok.
  - pose proof (se_status _ Ws k i Hi) as Hok. unfold settled_ok in Hok. rewrite Hst in Hok.
    unfold open_amount, _outstanding_balance. simpl. rewrite Hst. simpl. lia.
  - simpl. by rewrite Hst.
  - rewrite E. exact Hit.
  - intros j. apply opposite_total.
  - intros j. apply opposite_total.
  - intros p. etransitivity; [by apply (payable_balance_ext (working s3))|].
    rewrite Q3, invoice_lines_payable by done. simpl.
    match goal with |- payable_balance ?d1 p - _ = _ =>
      rewrite (payable_balance_ext (working s) d1 p) by reflexivity end.
    destruct (p _); lia.
Qed.

Lemma unpost_void_fixes_committed k i by_ :
  fixes committed (_ ← unpost k i by_; _ ← mark_voided k by_; mret k : Tx Z).
Proof.
  unfold unpost, mark_voided, unapply_invoiced, apply_invoiced, post_purchase_invoice_void_journal,
    _post_standard, posted.
  walk_fixes ltac:(solve_fixes).
Qed.

Lemma void_purchase_invoice_keeps k caller by_ : keeps payables_wf (void_purchase_invoice k caller by_).
Proof.
  intros s. apply keeps_at_bind; [by apply keeps_reads; solve_fixes|]. intros i s1 H1.
  apply get_purchase_invoice_ok in H1 as [-> Hi].
  apply keeps_at_bind; [unfold enforce_store_access; solve_keeps|].
  intros _ s1 [_ <-]%enforce_store_access_ok.
  destruct (inv_status i) eqn:Hst; try (apply keeps_at_all; solve [solve_keeps]).
  - apply keeps_at_bind_at; [|intros; apply keeps_at_all; solve_keeps].
    intros Hc Hw. refine (keeps_at_of_ok payables_wf _ _ _ _ Hc Hw); [unfold mark_voided; solve_fixes|].
    intros [] s' H. unfold mark_voided in H.
    apply bind_ok in H as (now & s5 & H6 & H4). apply asks_ok in H6 as [_ <-].
    apply bind_ok in H4 as ([] & s5 & H6 & H4). apply update_ok in H6 as (r & Hr & Hv & _ & ->).
    apply log_event_ok in H4 as ->. simpl.
    apply (payables_wf_ext (over_purchase_invoices (set_row k (with_voided_at now)) (working s))); [done|].
    apply set_invoice_wf; [|done]. intros x Hx. rewrite Hi in Hx. injection Hx as <-.
    pose proof (se_status _ (pa_settlement _ Hw) k i Hi) as Hok. unfold settled_ok in *.
    rewrite Hst in Hok. simpl.
    split_and!; [done|by intros []|done|by unfold open_amount; simpl; rewrite Hst|by rewrite Hst].
  - intros Hc Hw. refine (keeps_at_of_ok payables_wf _ _ _ _ Hc Hw); [apply unpost_void_fixes_committed|].
    intros r s' H. assert (r = k) as ->.
    { apply bind_ok in H as (? & ? & _ & H). apply bind_ok in H as (? & ? & _ & H).
      by apply ret_ok in H as [<- _]. }
    by eapply unpost_void_ok.
Qed.

(** ** Settling and unsettling *)

Definition alloc_of (k : Z) (a : PaymentAllocationInput) : Alloc :=
  {| al_doc := k; al_target := al_invoice_id a; al_money := al_amount a |}.

(** An allocation a document of parties [p] may make. *)
Definition allocatable (d : database) (p : Parties) (a : PaymentAllocationInput) : Prop :=
  exists i, row_of (purchase_invoices d) (al_invoice_id a) = Some i /\ parties_of i = p /\
    outstanding_status (inv_status i) = true /\ 0 < al_amount a <= _outstanding_balance i.

(** The three-way match reads of an invoice only whether it is accounted for. *)
Lemma matched_settled c sgn l d d' :
  matched_wf d -> settled_rows c sgn l (purchase_invoices d) (purchase_invoices d') ->
  (forall a, a ∈ l -> exists i, row_of (purchase_invoices d) (al_target a) = Some i /\
                                non_accounting_status (inv_status i) = false) ->
  purchase_invoice_lines d' = purchase_invoice_lines d ->
  purchase_order_items d' = purchase_order_items d -> matched_wf d'.
Proof.
  intros [M1 M2] H Hl E1 E2. constructor; rewrite ?E1, ?E2.
  - intros x Hx. destruct (M1 x Hx) as ([y Hy] & H2). split; [|done]. rewrite (H _), Hy. by eexists.
  - intros k i Hi. destruct (M2 k i Hi) as [E3 E4]. split; [|done]. rewrite E3.
    unfold invoiced_total. rewrite E1. apply sum_by_ext. intros x _.
    assert (accounted_line d' x = accounted_line d x) as ->; [|done].
    unfold accounted_line. rewrite (H _). destruct (row_of _ (il_invoice_id x)) as [j|] eqn:E; [|done].
    simpl. unfold settled_with. destruct (existsb _ l) eqn:El; [|done].
    apply targeted in El as (a & Ha & Et). destruct (Hl a Ha) as (y & Hy & Hn). rewrite Et, E in Hy.
    injection Hy as <-. rewrite Hn. by destruct (settle_fields c (sgn * to_target l (il_invoice_id x)) j)
      as (_ & _ & _ & _ & _ & ->).
Qed.

Lemma to_target_alloc k als a :
  NoDup (map al_invoice_id als) -> a ∈ als -> to_target (map (alloc_of k) als) (al_invoice_id a) = al_amount a.
Proof.
  unfold to_target, sum_where. rewrite sum_by_map. simpl.
  induction als as [|b als IH]; intros Hnd Ha; [by apply elem_of_nil in Ha|].
  simpl in Hnd. apply NoDup_cons in Hnd as [Hb Hnd]. rewrite sum_by_cons.
  apply elem_of_cons in Ha as [->|Ha].
  - rewrite Z.eqb_refl, sum_by_zero; [lia|]. intros x Hx. destruct (Z.eqb_spec (al_invoice_id x) (al_invoice_id b)) as [E|];
      [|done]. destruct Hb. rewrite <- E. apply list_elem_of_fmap. eauto.
  - rewrite IH by done. destruct (Z.eqb_spec (al_invoice_id b) (al_invoice_id a)) as [E|]; [|lia].
    destruct Hb. rewrite E. apply list_elem_of_fmap. eauto.
Qed.

Lemma settle_document c d d' k x als :
  payables_wf d -> k = next_id (docs (side_of c d)) ->
  side_of c d' = add_doc (side_of c d) x (map (alloc_of k) als) ->
  (forall c', c' <> c -> side_of c' d' = side_of c' d) ->
  settled_rows c 1 (map (alloc_of k) als) (purchase_invoices d) (purchase_invoices d') ->
  (forall a, a ∈ als -> allocatable d (doc_parties x) a) ->
  NoDup (map al_invoice_id als) -> doc_total x = sum_by al_amount als ->
  (forall j n, row_of (credit_notes d') j = Some n ->
     amount_allocated n = if live (credit_side d') j then cn_grand_total n else 0) ->
  purchase_invoice_lines d' = purchase_invoice_lines d ->
  purchase_order_items d' = purchase_order_items d ->
  (forall l, l ∈ journal_lines d' -> is_Some (row_of (journal_entries d') (line_entry_id l))) ->
  (forall e, e ∈ journal_entries d' -> automated (source_type e) = true) ->
  (forall p, payable_balance d' p
     = payable_balance d p - (if p (doc_parties x).1 then ledger_of_money (doc_total x) else 0)) ->
  payables_wf d'.
Proof.
  intros [W [P1 P2 P3] M] -> Es Eo Hrows Hal Hnd Htot Hn El Ei Q1 Q2 Q3.
  set (k := next_id _) in *. set (l := map (alloc_of k) als) in *.
  assert (Hin : forall a, a ∈ l -> exists b, a = alloc_of k b /\ b ∈ als)
    by (by intros a ?%list_elem_of_fmap).
  assert (Hacc : forall a, a ∈ l -> exists i, row_of (purchase_invoices d) (al_target a) = Some i /\
    non_accounting_status (inv_status i) = false).
  { intros a (b & -> & Hb)%Hin. destruct (Hal b Hb) as (i & Hi & _ & Ho & _). exists i.
    split; [done|by apply outstanding_accounting]. }
  assert (Hsum : sum_by al_money l = doc_total x) by (rewrite Htot; unfold l; by rewrite sum_by_map).
  constructor.
  - apply (settlement_step c 1 l d); [done|done|done| | | |done].
    + rewrite Es. apply add_doc_wf; [apply (se_side _ W)| |done].
      intros a (b & -> & Hb)%Hin. destruct (Hal b Hb) as (i & Hi & Hp & _ & Hx). simpl.
      split_and!; [done|lia|]. unfold parties. by rewrite row_of_map, Hi, <- Hp.
    + intros j _. rewrite Es, (settled_add (parties d) _ x l j (se_side _ W c)); [lia|].
      by intros a (b & -> & _)%Hin.
    + intros j i Hj (a & (b & -> & Hb)%Hin & <-). simpl in Hj. simpl.
      unfold l. rewrite Z.mul_1_l, to_target_alloc by done.
      destruct (Hal b Hb) as (i' & Hi & _ & Ho & Hx). rewrite Hj in Hi. injection Hi as <-.
      apply settle_up_ok; [by apply (se_status _ W _ _ Hj)|done|done].
  - constructor; [done|done|]. intros p. rewrite Q3, P3.
    rewrite (owed_settled c 1 l _ _ p (doc_parties x).1 Hrows), Hsum.
    + unfold ledger_of_money. destruct (p _); lia.
    + intros a (b & -> & Hb)%Hin. destruct (Hal b Hb) as (i & Hi & Hp & Ho & _). exists i.
      rewrite <- Hp. split_and!; [done|done|by apply outstanding_accounting].
  - by apply (matched_settled c 1 l d).
Qed.

Lemma undo_document c d d' i x l :
  payables_wf d -> row_of (docs (side_of c d)) i = Some x -> live (side_of c d) i = true ->
  side_of c d' = undo (side_of c d) i ->
  (forall c', c' <> c -> side_of c' d' = side_of c' d) ->
  l ≡ₚ allocs_of (side_of c d) i ->
  settled_rows c (-1) l (purchase_invoices d) (purchase_invoices d') ->
  (forall j n, row_of (credit_notes d') j = Some n ->
     amount_allocated n = if live (credit_side d') j then cn_grand_total n else 0) ->
  purchase_invoice_lines d' = purchase_invoice_lines d ->
  purchase_order_items d' = purchase_order_items d ->
  (forall l, l ∈ journal_lines d' -> is_Some (row_of (journal_entries d') (line_entry_id l))) ->
  (forall e, e ∈ journal_entries d' -> automated (source_type e) = true) ->
  (forall p, payable_balance d' p
     = payable_balance d p + (if p (doc_parties x).1 then ledger_of_money (doc_total x) else 0)) ->
  payables_wf d'.
Proof.
  intros [W [P1 P2 P3] M] Hx Hl Es Eo Hperm Hrows Hn El Ei Q1 Q2 Q3.
  set (s := side_of c d) in *. pose proof (se_side _ W c) as Hs. fold s in Hs.
  assert (Ht : forall j, to_target l j = allocated_to s i j).
  { intros j. rewrite <- allocs_of_total. unfold to_target, sum_where. by apply sum_by_perm. }
  assert (Hin : forall a, a ∈ l -> exists inv, row_of (purchase_invoices d) (al_target a) = Some inv /\
    parties_of inv = doc_parties x /\ 0 < to_target l (al_target a) <= amount_of c inv).
  { intros a Ha. rewrite Hperm in Ha. apply elem_allocs_of in Ha as [Ha Hd].
    destruct (sd_alloc _ _ Hs a Ha) as (Hp & y & Hy & Hi). rewrite Hd, Hx in Hy. injection Hy as <-.
    unfold parties in Hi. rewrite row_of_map in Hi.
    destruct (row_of (purchase_invoices d) (al_target a)) as [inv|] eqn:E; [|done]. injection Hi as Hi.
    exists inv. split_and!; [done|done| |].
    - rewrite Ht. pose proof (allocated_to_ge _ _ _ Hs Ha) as Hge. rewrite Hd in Hge. lia.
    - rewrite Ht, (se_amount _ W c _ _ E). by eapply allocated_to_live. }
  assert (Hdown : forall a inv, a ∈ l -> row_of (purchase_invoices d) (al_target a) = Some inv ->
    settled_ok (settle c (-1 * to_target l (al_target a)) inv) /\
    non_accounting_status (inv_status inv) = false).
  { intros a inv Ha Hi. destruct (Hin a Ha) as (j & Hj & _ & Hb). rewrite Hi in Hj. injection Hj as <-.
    replace (-1 * to_target l (al_target a)) with (- to_target l (al_target a)) by lia.
    apply settle_down_ok; [by apply (se_status _ W _ _ Hi)|done|..].
    - by apply (settlement_nonneg d (al_target a) inv BY_PAYMENT).
    - by apply (settlement_nonneg d (al_target a) inv BY_CREDIT). }
  assert (Hsum : sum_by al_money l = doc_total x).
  { rewrite (sd_total _ _ Hs i x Hx), (sum_by_perm _ _ _ Hperm). apply sum_by_filter. }
  constructor.
  - apply (settlement_step c (-1) l d); [done|done|done| | | |done].
    + rewrite Es. by eapply undo_wf.
    + intros j _. rewrite Es, settled_undo, Ht by done. fold s. lia.
    + intros j inv Hj (a & Ha & <-). by apply Hdown.
  - constructor; [done|done|]. intros p. rewrite Q3, P3.
    rewrite (owed_settled c (-1) l _ _ p (doc_parties x).1 Hrows), Hsum.
    + unfold ledger_of_money. destruct (p _); lia.
    + intros a Ha. destruct (Hin a Ha) as (inv & Hi & Hp & _). exists inv.
      rewrite <- Hp. split_and!; [done|done|by eapply Hdown].
  - apply (matched_settled c (-1) l d); try done.
    intros a Ha. destruct (Hin a Ha) as (inv & Hi & _). exists inv. split; [done|by eapply Hdown].
Qed.

(** ** Payments and credit notes *)

Lemma check_allocations_ok als s u s' :
  check_allocations als s = (Ok u, s') ->
  s' = s /\ als <> [] /\ NoDup (map al_invoice_id als) /\ forall a, a ∈ als -> 0 < al_amount a.
Proof.
  intros H. unfold check_allocations in H.
  apply bind_ok in H as (? & s1 & H1 & H). apply raise_if_ok in H1 as [Hne <-].
  apply bind_ok in H as (? & s1 & H1 & H). apply raise_if_ok in H1 as [Hnd <-].
  apply (for_each_all _ (fun a _ => 0 < al_amount a)) in H as [-> Hp].
  - apply negb_false_iff in Hnd. bools. split_and!; [done| |done|done]. by intros ->.
  - intros a s1 s2 [Ha <-]%raise_if_ok. split; [done|]. by bools; lia.
Qed.

Lemma invoices_named_get d ids k i :
  dict_get k (invoices_named d ids) = Some i -> row_of (purchase_invoices d) k = Some i.
Proof. intros H. apply dict_get_elem in H. by apply elem_select in H as [? _]. Qed.

Lemma check_allocation_ok st su over d ids a s u s' :
  check_allocation st su over (invoices_named d ids) a s = (Ok u, s') ->
  s' = s /\ exists i, row_of (purchase_invoices d) (al_invoice_id a) = Some i /\
    parties_of i = (st, su) /\ outstanding_status (inv_status i) = true /\
    al_amount a <= _outstanding_balance i.
Proof.
  intros H. unfold check_allocation in H.
  apply bind_ok in H as (i & s1 & H1 & H). apply of_option_ok in H1 as [Hi <-].
  apply bind_ok in H as (? & s1 & H1 & H). apply raise_if_ok in H1 as [Hst <-].
  apply bind_ok in H as (? & s1 & H1 & H). apply raise_if_ok in H1 as [Hsu <-].
  apply bind_ok in H as (? & s1 & H1 & H). apply raise_if_ok in H1 as [Ho <-].
  apply raise_if_ok in H as [Hb <-]. split; [done|]. exists i.
  apply invoices_named_get in Hi. bools. unfold parties_of.
  split_and!; [done|congruence|done|lia].
Qed.

(** The checks of a new payment or credit note, at state [s]. *)
Definition allocations_checked (d : database) (st su : Z) (als : list PaymentAllocationInput) : Prop :=
  als <> [] /\ NoDup (map al_invoice_id als) /\
  forall a, a ∈ als -> allocatable d (st, su) a.

Lemma check_allocation_all st su over als s u s' :
  (forall a, a ∈ als -> 0 < al_amount a) -> als <> [] -> NoDup (map al_invoice_id als) ->
  for_each (check_allocation st su over (invoices_named (working s) (map al_invoice_id als))) als s = (Ok u, s') ->
  s' = s /\ allocations_checked (working s) st su als.
Proof.
  intros Hp Hne Hnd H.
  apply (for_each_all _ (fun a _ => exists i, row_of (purchase_invoices (working s)) (al_invoice_id a) = Some i /\
    parties_of i = (st, su) /\ outstanding_status (inv_status i) = true /\
    al_amount a <= _outstanding_balance i)) in H as [-> Hq].
  - split; [done|]. split_and!; [done|done|]. intros a Ha.
    destruct (Hq a Ha) as (i & Hi & Hpp & Ho & Hb). exists i. specialize (Hp a Ha). split_and!; try done; lia.
  - intros a s1 s2 H1. by eapply check_allocation_ok.
Qed.

(** The loops that write the allocations and settle the invoices. *)
Definition payment_allocation (k : Z) (a : PaymentAllocationInput) : SupplierPaymentAllocation :=
  {| pa_payment_id := k; pa_invoice_id := al_invoice_id a; pa_amount := al_amount a |}.

Definition credit_allocation (k : Z) (a : PaymentAllocationInput) : SupplierCreditAllocation :=
  {| ca_note_id := k; ca_invoice_id := al_invoice_id a; ca_amount := al_amount a |}.

Lemma settled_rows_snoc c sgn k dn a t t' f :
  settled_rows c sgn (map (alloc_of k) dn) t t' -> f = settle c (sgn * al_amount a) ->
  settled_rows c sgn (map (alloc_of k) (dn ++ [a])) t (set_row (al_invoice_id a) f t').
Proof.
  intros H ->. rewrite map_app. simpl. exact (settled_rows_step c sgn _ _ _ (alloc_of k a) H).
Qed.

Lemma apply_payments_ok k als s s' :
  for_each (apply_payment k) als s = (Ok tt, s') ->
  exists invs, s' = with_working (over_payment_allocations (fun t => t ++ map (payment_allocation k) als)
      (over_purchase_invoices (fun _ => invs) (working s))) s /\
    settled_rows BY_PAYMENT 1 (map (alloc_of k) als) (purchase_invoices (working s)) invs.
Proof.
  intros H. eapply (for_each_ok_ind _ (fun dn s1 => exists invs,
    s1 = with_working (over_payment_allocations (fun t => t ++ map (payment_allocation k) dn)
      (over_purchase_invoices (fun _ => invs) (working s))) s /\
    settled_rows BY_PAYMENT 1 (map (alloc_of k) dn) (purchase_invoices (working s)) invs)) in H; [done| |].
  - exists (purchase_invoices (working s)). split; [|apply settled_rows_nil].
    destruct s as [c [? ? ? ? ? ? ? ? ? [] ?] e n w]. simpl. unfold over_payment_allocations,
      over_purchase_invoices, over_payables. simpl. by rewrite app_nil_r.
  - intros dn a rest s1 s2 _ (invs & -> & Hi) H1. unfold apply_payment in H1.
    apply bind_ok in H1 as (j & s3 & H3 & H1). apply add_ok in H3 as (_ & _ & _ & ->).
    apply update_ok in H1 as (r & _ & _ & _ & ->). simpl in *. eexists. split.
    + unfold with_working, over_payment_allocations, over_purchase_invoices, over_payables. simpl.
      rewrite map_app, app_assoc. reflexivity.
    + apply (settled_rows_snoc BY_PAYMENT 1); [done|]. simpl. by rewrite Z.mul_1_l.
Qed.

Lemma apply_credits_ok k als s s' :
  for_each (apply_credit k) als s = (Ok tt, s') ->
  exists invs, s' = with_working (over_credit_allocations (fun t => t ++ map (credit_allocation k) als)
      (over_purchase_invoices (fun _ => invs) (working s))) s /\
    settled_rows BY_CREDIT 1 (map (alloc_of k) als) (purchase_invoices (working s)) invs.
Proof.
  intros H. eapply (for_each_ok_ind _ (fun dn s1 => exists invs,
    s1 = with_working (over_credit_allocations (fun t => t ++ map (credit_allocation k) dn)
      (over_purchase_invoices (fun _ => invs) (working s))) s /\
    settled_rows BY_CREDIT 1 (map (alloc_of k) dn) (purchase_invoices (working s)) invs)) in H; [done| |].
  - exists (purchase_invoices (working s)). split; [|apply settled_rows_nil].
    destruct s as [c [? ? ? ? ? ? ? ? ? [] ?] e n w]. simpl. unfold over_credit_allocations,
      over_purchase_invoices, over_payables. simpl. by rewrite app_nil_r.
  - intros dn a rest s1 s2 _ (invs & -> & Hi) H1. unfold apply_credit in H1.
    apply bind_ok in H1 as (j & s3 & H3 & H1). apply add_ok in H3 as (_ & _ & _ & ->).
    apply update_ok in H1 as (r & _ & _ & _ & ->). simpl in *. eexists. split.
    + unfold with_working, over_credit_allocations, over_purchase_invoices, over_payables. simpl.
      rewrite map_app, app_assoc. reflexivity.
    + apply (settled_rows_snoc BY_CREDIT 1); [done|]. simpl. by rewrite Z.mul_1_l.
Qed.

(** Reversals update one invoice after the other. *)
Lemma unsettle_ok {A} (c : channel) (step : A -> Tx unit) (view : A -> Alloc) l s s' :
  (forall a, step a = update (al_target (view a)) (settle c (-1 * al_money (view a)))) ->
  for_each step l s = (Ok tt, s') ->
  exists invs, s' = with_working (over_purchase_invoices (fun _ => invs) (working s)) s /\
    settled_rows c (-1) (map view l) (purchase_invoices (working s)) invs.
Proof.
  intros Hs H. eapply (for_each_ok_ind _ (fun dn s1 => exists invs,
    s1 = with_working (over_purchase_invoices (fun _ => invs) (working s)) s /\
    settled_rows c (-1) (map view dn) (purchase_invoices (working s)) invs)) in H; [done| |].
  - exists (purchase_invoices (working s)). split; [|apply settled_rows_nil].
    by destruct s as [c0 [? ? ? ? ? ? ? ? ? [] ?] e n w].
  - intros dn a rest s1 s2 _ (invs & -> & Hi) H1. rewrite Hs in H1.
    apply update_ok in H1 as (r & _ & _ & _ & ->). simpl in *. eexists. split; [reflexivity|].
    rewrite map_app. simpl. by apply settled_rows_step.
Qed.

(** An amount debited to, or credited to, the account against another one. *)
Lemma pair_debit_payable c x :
  c <> ACCOUNT_ACCOUNTS_PAYABLE ->
  spec_net (pair_lines ACCOUNT_ACCOUNTS_PAYABLE c x) ACCOUNT_ACCOUNTS_PAYABLE = x.
Proof.
  intros Hc. rewrite spec_net_pair, bool_decide_eq_true_2, bool_decide_eq_false_2 by done. lia.
Qed.

Lemma pair_credit_payable c x :
  c <> ACCOUNT_ACCOUNTS_PAYABLE ->
  spec_net (pair_lines c ACCOUNT_ACCOUNTS_PAYABLE x) ACCOUNT_ACCOUNTS_PAYABLE = - x.
Proof.
  intros Hc. rewrite spec_net_pair, (bool_decide_eq_false_2 (c = _)), bool_decide_eq_true_2 by done. lia.
Qed.

(** A replay of an earlier request: nothing is written. *)
Definition replayed (s s' : session database) : Prop := s' = s \/ s' = with_working (committed s) s.

Lemma replayed_keeps (I : database -> Prop) s s' :
  replayed s s' -> I (committed s) -> I (working s) -> I (working s').
Proof. by intros [->| ->]. Qed.

Lemma match_payment_ok a m als s o s' :
  _match_or_reject_idempotent_payment a m als s = (Ok o, s') ->
  s' = s /\
  match o with
  | None => select (fun _ p => payment_under (pm_key a) p) (supplier_payments (working s)) = []
  | Some i => exists p, select (fun _ p => payment_under (pm_key a) p) (supplier_payments (working s)) = [(i, p)]
  end.
Proof.
  intros H. unfold _match_or_reject_idempotent_payment in H.
  apply bind_ok in H as (e & s1 & H1 & H). apply find_by_ok in H1 as [-> Hs].
  destruct e as [[i p]|]; [|by apply ret_ok in H as [<- <-]].
  apply bind_ok in H as (x & s1 & H1 & H). apply gets_ok in H1 as [_ <-].
  apply bind_ok in H as (? & s1 & H1 & H). apply raise_if_ok in H1 as [_ <-].
  apply ret_ok in H as [<- <-]. split; [done|]. by exists p.
Qed.

Lemma record_supplier_payment_ok a als caller s i s' :
  record_supplier_payment a als caller s = (Ok i, s') ->
  (replayed s s' /\
   exists p, select (fun _ p => payment_under (pm_key a) p) (supplier_payments (working s')) = [(i, p)]) \/
  (exists m, pm_method a = Some m /\ 0 < pm_amount a /\ sum_by al_amount als = pm_amount a /\
     store_denied caller (pm_store_id a) = false /\
     select (fun _ p => payment_under (pm_key a) p) (supplier_payments (working s)) = [] /\
     allocations_checked (working s) (pm_store_id a) (pm_supplier_id a) als /\
     i = next_id (supplier_payments (working s)) /\
     write_payment_details a m i als
       (with_working (over_supplier_payments (fun t => t ++ [new_payment a m (utc_now (env s))])
          (working s)) s) = (Ok tt, s')).
Proof.
  intros H. unfold record_supplier_payment in H.
  apply bind_ok in H as (m & s1 & H1 & H). apply of_option_ok in H1 as [Hm <-].
  apply bind_ok in H as (? & s1 & H1 & H). apply raise_if_ok in H1 as [Ham <-].
  apply bind_ok in H as (? & s1 & H1 & H). apply check_allocations_ok in H1 as (-> & Hne & Hnd & Hp).
  apply bind_ok in H as (? & s1 & H1 & H). apply raise_if_ok in H1 as [Hsum <-].
  apply bind_ok in H as (o & s1 & H1 & H). apply match_payment_ok in H1 as [-> Ho].
  destruct o as [j|]; [apply ret_ok in H as [<- <-]; left; split; [by left|done]|].
  apply bind_ok in H as (? & s1 & H1 & H). apply enforce_store_access_ok in H1 as [Hd <-].
  apply bind_ok in H as (invs & s1 & H1 & H). apply gets_ok in H1 as [-> <-].
  apply bind_ok in H as (o & s1 & H1 & H). apply match_payment_ok in H1 as [-> Ho'].
  destruct o as [j|]; [apply ret_ok in H as [<- <-]; left; split; [by left|done]|].
  apply bind_ok in H as (? & s1 & H1 & H). apply raise_if_ok in H1 as [_ <-].
  apply bind_ok in H as (? & s1 & H1 & H). apply check_allocation_all in H1 as [-> Hck]; [|done..].
  apply bind_ok in H as (now & s1 & H1 & H). apply asks_ok in H1 as [-> <-].
  apply bind_ok in H as ([j new] & s1 & H1 & H). apply insert_or_winner_ok in H1. simpl in H1.
  destruct H1 as [(-> & -> & _ & _ & ->)|(-> & -> & winner & Hx)]; simpl in H.
  - right. exists m. apply bind_ok in H as ([] & s1 & H1 & H). apply ret_ok in H as [<- <-].
    apply negb_false_iff, Z.eqb_eq in Hsum. bools. split_and!; done.
  - apply ret_ok in H as [<- <-]. left. split; [by right|]. by exists winner.
Qed.

(** The rows a payment writes. *)
Definition payment_written (a : PaymentArgs) (m : SupplierPaymentMethod) (i now : Z)
    (als : list PaymentAllocationInput) (d d' : database) : Prop :=
  supplier_payments d' = supplier_payments d ++ [new_payment a m now] /\
  payment_allocations d' = payment_allocations d ++ map (payment_allocation i) als /\
  payment_reversals d' = payment_reversals d /\
  (credit_notes d', credit_note_lines d', credit_allocations d', credit_note_reversals d', receipt_matches d')
  = (credit_notes d, credit_note_lines d, credit_allocations d, credit_note_reversals d, receipt_matches d) /\
  purchase_invoice_lines d' = purchase_invoice_lines d /\
  purchase_order_items d' = purchase_order_items d /\
  settled_rows BY_PAYMENT 1 (map (alloc_of i) als) (purchase_invoices d) (purchase_invoices d').

Lemma write_payment_details_ok a m now i als d s s' :
  working s = over_supplier_payments (fun t => t ++ [new_payment a m now]) d ->
  write_payment_details a m i als s = (Ok tt, s') ->
  exists s1 r, ledger_tables (working s1) = ledger_tables d /\
    post (P_supplier_payment i (pm_store_id a) (pm_payment_date a) m (pm_amount a)) (pm_created_by a) s1
    = (Ok r, s') /\ payment_written a m i now als d (working s1).
Proof.
  intros Hd H. unfold write_payment_details in H.
  apply bind_ok in H as ([] & s1 & H1 & H). apply apply_payments_ok in H1 as (invs & -> & Hr).
  apply bind_ok in H as ([] & s2 & H2 & H). apply log_event_ok in H2 as ->.
  apply bind_ok in H as (r & s3 & H3 & H). apply ret_ok in H as [_ <-].
  eexists _, r. split; [|split; [exact H3|]].
  - simpl. by rewrite Hd.
  - unfold payment_written. simpl. rewrite Hd in *. simpl in *. split_and!; done.
Qed.

Lemma payment_side_written a m i now als d d' :
  payment_written a m i now als d d' ->
  side_of BY_PAYMENT d' = add_doc (side_of BY_PAYMENT d)
    {| doc_parties := (pm_store_id a, pm_supplier_id a); doc_total := pm_amount a |} (map (alloc_of i) als) /\
  side_of BY_CREDIT d' = side_of BY_CREDIT d.
Proof.
  intros (E1 & E2 & E3 & E4 & _). injection E4 as E4 _ E5 E6 _.
  split; simpl; unfold payment_side, credit_side, add_doc; simpl.
  - by rewrite E1, E2, E3, !map_app, map_map.
  - by rewrite E4, E5, E6.
Qed.

Lemma record_supplier_payment_fixes_committed a als caller :
  fixes committed (record_supplier_payment a als caller).
Proof.
  unfold record_supplier_payment, write_payment_details, apply_payment, insert_or_winner, find_by,
    post_supplier_payment_journal, _post_standard, posted, check_named.
  walk_fixes ltac:(solve_fixes).
Qed.

Lemma record_supplier_payment_keeps a als caller :
  keeps payables_wf (record_supplier_payment a als caller).
Proof.
  apply keeps_of_ok; [apply record_supplier_payment_fixes_committed|]. intros s i s' Hc Hw H.
  apply record_supplier_payment_ok in H as [[Hr _]|(m & _ & Hp & Hsum & _ & _ & (_ & Hnd & Hal) & -> & H)];
    [by eapply replayed_keeps|].
  eapply write_payment_details_ok in H; [|reflexivity].
  destruct H as (s1 & r & El & H & Hwr). pose proof Hw as [W [P1 P2 P3] M].
  destruct (fun R A => post_payable _ _ _ _ _ R A H) as ((es & ls & E) & Q1 & Q2 & Q3);
    [by rewrite El|by rewrite El|].
  assert (Hwr' : payment_written a m (next_id (supplier_payments (working s))) (utc_now (env s)) als
                   (working s) (working s')) by (rewrite E; exact Hwr).
  destruct (payment_side_written _ _ _ _ _ _ _ Hwr') as [Es Eo].
  destruct Hwr' as (_ & _ & _ & [= E4 _ _ _ _] & E7 & E8 & Hrows).
  eapply (settle_document BY_PAYMENT (working s)); [done| |exact Es| |exact Hrows|exact Hal|exact Hnd
    |done| |done|done|done|done|].
  - simpl. unfold next_id. by rewrite length_map.
  - by intros [].
  - change (credit_side (working s')) with (side_of BY_CREDIT (working s')). rewrite Eo, E4. apply W.
  - intros p. rewrite Q3, (payable_balance_ext (working s)) by done. f_equal. simpl.
    unfold unless_zero. destruct (Z.leb_spec (pm_amount a) 0); [lia|].
    destruct (p _); [|done]. apply pair_debit_payable. by destruct m.
Qed.

(** *** Reversing a payment *)

Lemma or_already_reversed_ok {A} (m : Tx A) s a s' : or_already_reversed m s = (Ok a, s') -> m s = (Ok a, s').
Proof.
  unfold or_already_reversed. intros [H|(c & s1 & _ & H)]%except_integrity_ok; [done|].
  by apply bind_ok in H as (? & ? & _ & H).
Qed.

Lemma get_supplier_payment_ok i s p s' :
  get_supplier_payment i s = (Ok p, s') -> s' = s /\ row_of (supplier_payments (working s)) i = Some p.
Proof.
  intros H. apply bind_ok in H as (o & s1 & H1 & H). apply get_ok in H1 as [-> <-].
  by apply of_option_ok in H as [? <-].
Qed.

(** Reversal rows found for a document, and the document's liveness. *)
Lemma reversal_live {R} (key : R -> Z) (t : list R) i x :
  select (fun _ r => key r =? i) t = match x with Some ir => [ir] | None => [] end ->
  negb (existsb (Z.eqb i) (map key t)) = match x with Some _ => false | None => true end.
Proof.
  intros H. destruct x as [[j r]|].
  - assert ((j, r) ∈ select (fun _ r => key r =? i) t) as [Hj Hk]%elem_select by (rewrite H; by left).
    apply negb_false_iff, existsb_exists. exists i. rewrite Z.eqb_refl. split; [|done].
    apply list_elem_of_In, list_elem_of_fmap. exists r. apply Z.eqb_eq in Hk. split; [done|].
    by eapply row_of_elem.
  - apply negb_true_iff, not_true_iff_false. rewrite existsb_exists. intros (k & Hk & ->%Z.eqb_eq).
    apply list_elem_of_In, list_elem_of_fmap in Hk as (r & -> & [j Hj]%elem_row_of).
    apply (proj1 (select_nil _ _) H j r) in Hj. by rewrite Z.eqb_refl in Hj.
Qed.

Lemma payment_allocs_perm d i :
  map (fun ia => alloc_of i {| al_invoice_id := pa_invoice_id ia.2; al_amount := pa_amount ia.2 |})
    (sort_by by_invoice (allocations_of_payment d i)) ≡ₚ allocs_of (side_of BY_PAYMENT d) i.
Proof.
  rewrite sort_by_perm. unfold allocations_of_payment, allocs_of. simpl.
  rewrite (select_map (fun a => pa_payment_id a =? i)
    (fun a => alloc_of i {| al_invoice_id := pa_invoice_id a; al_amount := pa_amount a |})).
  induction (payment_allocations d) as [|a t IH]; simpl; [done|].
  destruct (Z.eqb_spec (pa_payment_id a) i) as [<-|]; simpl; [|done]. by rewrite IH.
Qed.

Lemma reverse_supplier_payment_ok i reason caller by_ s r s' :
  reverse_supplier_payment i reason caller by_ s = (Ok r, s') ->
  r = i /\ exists p, row_of (supplier_payments (working s)) i = Some p /\
    store_denied caller (sp_store_id p) = false /\
    ((s' = s /\ live (payment_side (working s)) i = false) \/
     (live (payment_side (working s)) i = true /\ exists actor s1 je s2 rv invs log,
        by_ = Some actor /\
        s1 = with_working (over_purchase_invoices (fun _ => invs) (working s)) s /\
        settled_rows BY_PAYMENT (-1)
          (map (fun ia => alloc_of i {| al_invoice_id := pa_invoice_id ia.2; al_amount := pa_amount ia.2 |})
             (sort_by by_invoice (allocations_of_payment (working s) i)))
          (purchase_invoices (working s)) invs /\
        post (P_supplier_payment_reversal i (sp_store_id p) (sp_method p) (sp_amount p)) (Some actor) s1
        = (Ok (Some je), s2) /\
        s' = with_working (over_audit_logs (fun t => t ++ [log])
               (over_payment_reversals (fun t => t ++ [rv]) (working s2))) s2 /\
        spr_payment_id rv = i /\ spr_journal_entry_id rv = je)).
Proof.
  intros H. unfold reverse_supplier_payment in H.
  apply bind_ok in H as (? & s1 & H1 & H). apply raise_if_ok in H1 as [_ <-].
  apply bind_ok in H as (p & s1 & H1 & H). apply get_supplier_payment_ok in H1 as [-> Hp].
  apply bind_ok in H as (? & s1 & H1 & H). apply enforce_store_access_ok in H1 as [Hd <-].
  apply bind_ok in H as (ex & s1 & H1 & H). apply find_by_ok in H1 as [-> Hs].
  apply (reversal_live spr_payment_id) in Hs. change (negb _) with (live (payment_side (working s)) i) in Hs.
  destruct ex as [er|].
  { apply ret_ok in H as [<- <-]. split; [done|]. exists p. split_and!; [done|done|]. by left. }
  apply bind_ok in H as (actor & s1 & H1 & H). apply of_option_ok in H1 as [Hact <-].
  apply bind_ok in H as (als & s1 & H1 & H). apply gets_ok in H1 as [-> <-].
  apply bind_ok in H as ([] & s1 & H1 & H).
  apply (unsettle_ok BY_PAYMENT _ (fun ia =>
    alloc_of i {| al_invoice_id := pa_invoice_id ia.2; al_amount := pa_amount ia.2 |})) in H1
    as (invs & -> & Hrows); [|intros ia; unfold unapply_payment; simpl;
                              by replace (-1 * pa_amount ia.2) with (- pa_amount ia.2) by lia].
  apply bind_ok in H as (pe & s2 & H2 & H).
  apply bind_ok in H as (je & s3 & H3 & H). apply of_option_ok in H3 as [-> <-].
  apply bind_ok in H as (now & s3 & H3 & H). apply asks_ok in H3 as [_ <-].
  apply bind_ok in H as (k & s3 & H3 & H). apply or_already_reversed_ok, add_ok in H3 as (_ & _ & _ & ->).
  apply bind_ok in H as ([] & s4 & H4 & H). apply log_event_ok in H4 as ->.
  apply ret_ok in H as [<- <-]. split; [done|]. exists p. split_and!; [done|done|]. right. split; [done|].
  exists actor. do 6 eexists. split_and!; [done|reflexivity|exact Hrows|exact H2|..]; reflexivity.
Qed.

Lemma reverse_supplier_payment_fixes_committed i reason caller by_ :
  fixes committed (reverse_supplier_payment i reason caller by_).
Proof.
  unfold reverse_supplier_payment, get_supplier_payment, unapply_payment, or_already_reversed, find_by,
    post_supplier_payment_reversal_journal, _post_standard, posted.
  walk_fixes ltac:(solve_fixes).
Qed.

Lemma reverse_supplier_payment_keeps i reason caller by_ :
  keeps payables_wf (reverse_supplier_payment i reason caller by_).
Proof.
  apply keeps_of_ok; [apply reverse_supplier_payment_fixes_committed|]. intros s r s' _ Hw H.
  apply reverse_supplier_payment_ok in H as (_ & p & Hp & _ & [[-> _]|(Hl & actor & s1 & je & s2 & rv & invs & log
    & _ & -> & Hrows & H & -> & Hrv & _)]); [done|].
  pose proof Hw as [W [P1 P2 P3] M].
  destruct (fun R A => post_payable _ _ _ _ _ R A H) as ((es & ls & E) & Q1 & Q2 & Q3); [done|done|].
  eapply (undo_document BY_PAYMENT (working s) _ i
    {| doc_parties := (sp_store_id p, sp_supplier_id p); doc_total := sp_amount p |});
    [done| |exact Hl| | |apply payment_allocs_perm| | | | |exact Q1|exact Q2|].
  - simpl. by rewrite row_of_map, Hp.
  - simpl. rewrite E. unfold payment_side, undo. simpl. by rewrite map_app, <- Hrv.
  - intros [] Hc; [done|]. simpl. by rewrite E.
  - simpl. rewrite E. exact Hrows.
  - rewrite E. simpl. apply W.
  - simpl. by rewrite E.
  - simpl. by rewrite E.
  - intros q. etransitivity; [by apply (payable_balance_ext (working s2))|].
    rewrite Q3, (payable_balance_ext (working s)) by done. simpl.
    destruct (q _); [|lia]. rewrite pair_credit_payable; [lia|]. by destruct (sp_method p).
Qed.

(** *** Credit notes *)

Lemma match_note_ok a re ls als s o s' :
  _match_or_reject_idempotent_credit_note a re ls als s = (Ok o, s') ->
  s' = s /\
  match o with
  | None => select (fun _ n => note_under (na_key a) n) (credit_notes (working s)) = []
  | Some i => exists n, select (fun _ n => note_under (na_key a) n) (credit_notes (working s)) = [(i, n)]
  end.
Proof.
  intros H. unfold _match_or_reject_idempotent_credit_note in H.
  apply bind_ok in H as (e & s1 & H1 & H). apply find_by_ok in H1 as [-> Hs].
  destruct e as [[i n]|]; [|by apply ret_ok in H as [<- <-]].
  apply bind_ok in H as (x & s1 & H1 & H). apply gets_ok in H1 as [_ <-].
  apply bind_ok in H as (y & s1 & H1 & H). apply gets_ok in H1 as [_ <-].
  apply bind_ok in H as (? & s1 & H1 & H). apply raise_if_ok in H1 as [_ <-].
  apply ret_ok in H as [<- <-]. split; [done|]. by exists n.
Qed.

Lemma insert_note_ok key n s i new s' :
  insert_note key n s = (Ok (i, new), s') ->
  (new = true /\ i = next_id (credit_notes (working s)) /\ row_valid (working s) n /\
     s' = with_working (over_credit_notes (fun t => t ++ [n]) (working s)) s) \/
  (new = false /\ s' = with_working (committed s) s /\
     exists x, select (fun _ x => note_under key x) (credit_notes (committed s)) = [(i, x)]).
Proof.
  intros H. unfold insert_note in H. apply except_integrity_ok in H as [H|(c & s1 & Hr & H)].
  - apply bind_ok in H as (j & s1 & H1 & H). apply ret_ok in H as [[= <- <-] <-].
    apply add_ok in H1 as (-> & Hv & _ & ->). by left.
  - assert (s1 = s) as ->.
    { apply bind_raise_cases in Hr as [Hr|(j & s2 & _ & Hr)]; [|done].
      unfold add in Hr. destruct (row_violation _ _ _); by injection Hr. }
    apply bind_ok in H as ([] & s2 & H1 & H). injection H1 as <-. case_bool_decide; [done|].
    apply bind_ok in H as (w & s3 & H2 & H). apply find_by_ok in H2 as [-> H2].
    destruct w as [[j x]|]; [|done]. apply ret_ok in H as [[= <- <-] <-]. right. eauto.
Qed.

Lemma check_note_input_ok a re ls als s u s' :
  check_note_input a re ls als s = (Ok u, s') ->
  s' = s /\ als <> [] /\ NoDup (map al_invoice_id als) /\ (forall x, x ∈ als -> 0 < al_amount x) /\
  (forall l, l ∈ ls -> 0 < nl_amount l) /\ ls <> [] /\
  (re = GOODS_RETURN <-> is_Some (na_return_id a)).
Proof.
  intros H. unfold check_note_input in H.
  apply bind_ok in H as (? & s1 & H1 & H).
  assert (s1 = s /\ (re = GOODS_RETURN <-> is_Some (na_return_id a))) as [-> Hre].
  { unfold check_reason in H1. destruct re, (na_return_id a) as [r|]; try done;
      apply ret_ok in H1 as [_ <-]; (split; [done|]); split; intros E; try done; by inversion E. }
  clear H1. apply bind_ok in H as (? & s1 & H1 & H). apply raise_if_ok in H1 as [_ <-].
  apply bind_ok in H as (? & s1 & H1 & H). apply raise_if_ok in H1 as [Hne <-].
  apply bind_ok in H as (? & s1 & H1 & H).
  apply (for_each_all _ (fun l _ => 0 < nl_amount l)) in H1 as [-> Hp];
    [|intros l s1' s2 [Hl <-]%raise_if_ok; split; [done|]; by bools; lia].
  apply check_allocations_ok in H as (-> & Ha & Hnd & Hal). bools.
  split_and!; try done; try apply Hre. by intros ->.
Qed.

Lemma create_supplier_credit_note_ok a ls als caller s i s' :
  create_supplier_credit_note a ls als caller s = (Ok i, s') ->
  (replayed s s' /\
   exists n, select (fun _ n => note_under (na_key a) n) (credit_notes (working s')) = [(i, n)]) \/
  (exists re, na_reason a = Some re /\ (re = GOODS_RETURN <-> is_Some (na_return_id a)) /\
     0 < sum_by nl_amount ls /\ sum_by al_amount als = sum_by nl_amount ls /\
     store_denied caller (na_store_id a) = false /\
     check_credited_return a (sum_by nl_amount ls) s = (Ok tt, s) /\
     select (fun _ n => note_under (na_key a) n) (credit_notes (working s)) = [] /\
     allocations_checked (working s) (na_store_id a) (na_supplier_id a) als /\
     i = next_id (credit_notes (working s)) /\
     write_note_details a re (sum_by nl_amount ls) i ls als
       (with_working (over_credit_notes
          (fun t => t ++ [new_note a re (sum_by nl_amount ls) (utc_now (env s))]) (working s)) s)
     = (Ok tt, s')).
Proof.
  intros H. unfold create_supplier_credit_note in H.
  apply bind_ok in H as (re & s1 & H1 & H). apply of_option_ok in H1 as [Hre <-].
  apply bind_ok in H as (? & s1 & H1 & H). apply check_note_input_ok in H1 as (-> & Hne & Hnd & Hp & Hl & Hln & Hr).
  apply bind_ok in H as (o & s1 & H1 & H). apply match_note_ok in H1 as [-> Ho].
  destruct o as [j|]; [apply ret_ok in H as [<- <-]; left; split; [by left|done]|].
  apply bind_ok in H as (? & s1 & H1 & H). apply enforce_store_access_ok in H1 as [Hd <-].
  apply bind_ok in H as (? & s1 & H1 & H). apply reads_run in H1 as ->; [|solve_fixes].
  cbv zeta in H.
  apply bind_ok in H as (? & s1 & H1 & H). apply raise_if_ok in H1 as [Hsum <-].
  apply bind_ok in H as ([] & s1 & H1 & H). pose proof (reads_run _ _ _ _ ltac:(solve_fixes) H1) as ->.
  apply bind_ok in H as (invs & s1 & H2 & H). apply gets_ok in H2 as [-> <-].
  apply bind_ok in H as (o & s1 & H2 & H). apply match_note_ok in H2 as [-> Ho'].
  destruct o as [j|]; [apply ret_ok in H as [<- <-]; left; split; [by left|done]|].
  apply bind_ok in H as (? & s1 & H2 & H). apply raise_if_ok in H2 as [_ <-].
  apply bind_ok in H as (? & s1 & H2 & H). apply check_allocation_all in H2 as [-> Hck]; [|done..].
  apply bind_ok in H as (now & s1 & H2 & H). apply asks_ok in H2 as [-> <-].
  apply bind_ok in H as ([j new] & s1 & H2 & H). apply insert_note_ok in H2. simpl in H2.
  destruct H2 as [(-> & -> & _ & ->)|(-> & -> & winner & Hx)]; simpl in H.
  - right. exists re. apply bind_ok in H as ([] & s1 & H2 & H). apply ret_ok in H as [<- <-].
    apply negb_false_iff, Z.eqb_eq in Hsum. split_and!; try done; try apply Hr.
    destruct ls as [|l ls]; [done|]. rewrite sum_by_cons. specialize (Hl l ltac:(left)) as Hl0.
    assert (0 <= sum_by nl_amount ls); [|lia]. apply sum_by_nonneg. intros y Hy. specialize (Hl y ltac:(by right)). lia.
  - apply ret_ok in H as [<- <-]. left. split; [by right|]. by exists winner.
Qed.

Definition note_written (a : CreditNoteArgs) (re : CreditNoteReason) (g i now : Z)
    (als : list PaymentAllocationInput) (d d' : database) : Prop :=
  credit_notes d' = set_row i (with_allocated g) (credit_notes d ++ [new_note a re g now]) /\
  credit_allocations d' = credit_allocations d ++ map (credit_allocation i) als /\
  credit_note_reversals d' = credit_note_reversals d /\
  (supplier_payments d', payment_allocations d', payment_reversals d', receipt_matches d')
  = (supplier_payments d, payment_allocations d, payment_reversals d, receipt_matches d) /\
  purchase_invoice_lines d' = purchase_invoice_lines d /\
  purchase_order_items d' = purchase_order_items d /\
  settled_rows BY_CREDIT 1 (map (alloc_of i) als) (purchase_invoices d) (purchase_invoices d').

Lemma write_note_details_ok a re g now i ls als d s s' :
  working s = over_credit_notes (fun t => t ++ [new_note a re g now]) d ->
  write_note_details a re g i ls als s = (Ok tt, s') ->
  exists s1 r, ledger_tables (working s1) = ledger_tables d /\
    post (P_credit_note i (na_store_id a) (na_credit_date a) (is_goods_return re) g) (na_created_by a) s1
    = (Ok r, s') /\ note_written a re g i now als d (working s1).
Proof.
  intros Hd H. unfold write_note_details in H.
  apply bind_ok in H as ([] & s1 & H1 & H).
  apply (fixes_run (fun s => over_credit_note_lines (fun _ => []) (working s))) in H1; [|solve_fixes].
  apply bind_ok in H as ([] & s2 & H2 & H). apply apply_credits_ok in H2 as (invs & -> & Hr).
  apply bind_ok in H as ([] & s3 & H3 & H). apply update_ok in H3 as (n & _ & _ & _ & ->).
  apply bind_ok in H as ([] & s4 & H4 & H). apply log_event_ok in H4 as ->.
  apply bind_ok in H as (r & s5 & H5 & H). apply ret_ok in H as [_ <-].
  destruct (working s1) as [? ? ? ? ? ? ? ? ? [] ?] eqn:Ew.
  rewrite Hd in H1. unfold over_credit_note_lines, over_credit_notes, over_payables in H1. simpl in H1.
  injection H1 as -> -> -> -> -> -> -> -> -> -> -> -> -> -> -> -> -> ->.
  eexists _, r. split; [|split; [exact H5|]].
  - reflexivity.
  - unfold note_written. simpl in *. split_and!; done.
Qed.

Lemma credit_side_written a re g i now als d d' :
  i = next_id (credit_notes d) -> note_written a re g i now als d d' ->
  side_of BY_CREDIT d' = add_doc (side_of BY_CREDIT d)
    {| doc_parties := (na_store_id a, na_supplier_id a); doc_total := g |} (map (alloc_of i) als) /\
  side_of BY_PAYMENT d' = side_of BY_PAYMENT d.
Proof.
  intros -> (E1 & E2 & E3 & E4 & _). injection E4 as E4 E5 E6 _.
  split; simpl; unfold payment_side, credit_side, add_doc; simpl; [|by rewrite E4, E5, E6].
  rewrite E2, E3, map_app, map_map. f_equal. rewrite E1.
  transitivity (map (fun n => {| doc_parties := (cn_store_id n, cn_supplier_id n); doc_total := cn_grand_total n |})
    (credit_notes d ++ [new_note a re g now])); [|by rewrite map_app].
  apply rows_map_eq. intros k. rewrite row_of_set. case_bool_decide as E; [|done].
  by destruct (row_of _ k).
Qed.

Lemma create_supplier_credit_note_fixes_committed a ls als caller :
  fixes committed (create_supplier_credit_note a ls als caller).
Proof.
  unfold create_supplier_credit_note, write_note_details, apply_credit, insert_note, find_by,
    post_supplier_credit_note_journal, _post_standard, posted, check_named.
  walk_fixes ltac:(solve_fixes).
Qed.

Lemma create_supplier_credit_note_keeps a ls als caller :
  keeps payables_wf (create_supplier_credit_note a ls als caller).
Proof.
  apply keeps_of_ok; [apply create_supplier_credit_note_fixes_committed|]. intros s i s' Hc Hw H.
  apply create_supplier_credit_note_ok in H
    as [[Hr _]|(re & _ & _ & Hp & Hsum & _ & _ & _ & (_ & Hnd & Hal) & -> & H)];
    [by eapply replayed_keeps|].
  eapply write_note_details_ok in H; [|reflexivity].
  destruct H as (s1 & r & El & H & Hwr). pose proof Hw as [W [P1 P2 P3] M].
  destruct (fun R A => post_payable _ _ _ _ _ R A H) as ((es & lns & E) & Q1 & Q2 & Q3);
    [by rewrite El|by rewrite El|].
  assert (Hwr' : note_written a re (sum_by nl_amount ls) (next_id (credit_notes (working s))) (utc_now (env s)) als
                   (working s) (working s')) by (rewrite E; exact Hwr).
  destruct (credit_side_written _ _ _ _ _ _ _ _ eq_refl Hwr') as [Es Eo].
  destruct Hwr' as (E4 & _ & _ & _ & E7 & E8 & Hrows).
  eapply (settle_document BY_CREDIT (working s)); [done| |exact Es| |exact Hrows|exact Hal|exact Hnd
    |done| |done|done|done|done|].
  - simpl. unfold next_id. by rewrite length_map.
  - by intros [].
  - intros j n Hj. change (credit_side (working s')) with (side_of BY_CREDIT (working s')). rewrite Es.
    assert (Hlive : forall k, live (add_doc (side_of BY_CREDIT (working s))
      {| doc_parties := (na_store_id a, na_supplier_id a); doc_total := sum_by nl_amount ls |}
      (map (alloc_of (next_id (credit_notes (working s)))) als)) k = live (credit_side (working s)) k) by done.
    rewrite Hlive. rewrite E4, row_of_set in Hj. case_bool_decide as Ej.
    + subst j. rewrite row_of_new in Hj. injection Hj as <-. simpl.
      assert (live (credit_side (working s)) (next_id (credit_notes (working s))) = true) as ->; [|done].
      replace (next_id (credit_notes (working s))) with (next_id (docs (side_of BY_CREDIT (working s))))
        by (simpl; unfold next_id; by rewrite length_map).
      eapply live_new, (se_side _ W BY_CREDIT).
    + apply row_of_inv_app in Hj as [Hj|[-> _]]; [|done]. by apply (se_note _ W).
  - intros p. rewrite Q3, (payable_balance_ext (working s)) by done. f_equal. simpl.
    unfold unless_zero. destruct (Z.leb_spec (sum_by nl_amount ls) 0); [lia|].
    destruct (p _); [|done]. apply pair_debit_payable. by destruct re.
Qed.

(** *** Reversing a credit note *)

Lemma get_supplier_credit_note_ok i s n s' :
  get_supplier_credit_note i s = (Ok n, s') -> s' = s /\ row_of (credit_notes (working s)) i = Some n.
Proof.
  intros H. apply bind_ok in H as (o & s1 & H1 & H). apply get_ok in H1 as [-> <-].
  by apply of_option_ok in H as [? <-].
Qed.

Definition credited (i : Z) (ia : Z * SupplierCreditAllocation) : Alloc :=
  alloc_of i {| al_invoice_id := ca_invoice_id ia.2; al_amount := ca_amount ia.2 |}.

Lemma credit_allocs_perm d i :
  map (credited i) (sort_by by_credited_invoice (allocations_of_note d i))
  ≡ₚ allocs_of (side_of BY_CREDIT d) i.
Proof.
  rewrite sort_by_perm. unfold allocations_of_note, allocs_of, credited. simpl.
  rewrite (select_map (fun a => ca_note_id a =? i)
    (fun a => alloc_of i {| al_invoice_id := ca_invoice_id a; al_amount := ca_amount a |})).
  induction (credit_allocations d) as [|a t IH]; simpl; [done|].
  destruct (Z.eqb_spec (ca_note_id a) i) as [<-|]; simpl; [|done]. by rewrite IH.
Qed.

Lemma reverse_supplier_credit_note_ok i reason caller by_ s r s' :
  reverse_supplier_credit_note i reason caller by_ s = (Ok r, s') ->
  r = i /\ exists n, row_of (credit_notes (working s)) i = Some n /\
    store_denied caller (cn_store_id n) = false /\
    ((s' = s /\ live (credit_side (working s)) i = false) \/
     (live (credit_side (working s)) i = true /\
      let als := sort_by by_credited_invoice (allocations_of_note (working s) i) in
      exists actor s1 je s2 rv invs log,
        by_ = Some actor /\
        s1 = with_working (over_credit_notes
               (set_row i (with_allocated (amount_allocated n - sum_by (fun ia => ca_amount ia.2) als)))
               (over_purchase_invoices (fun _ => invs) (working s))) s /\
        settled_rows BY_CREDIT (-1) (map (credited i) als) (purchase_invoices (working s)) invs /\
        post (P_credit_note_reversal i (cn_store_id n) (is_goods_return (cn_reason n)) (cn_grand_total n))
          (Some actor) s1 = (Ok (Some je), s2) /\
        s' = with_working (over_audit_logs (fun t => t ++ [log])
               (over_credit_note_reversals (fun t => t ++ [rv]) (working s2))) s2 /\
        cnr_note_id rv = i /\ cnr_journal_entry_id rv = je)).
Proof.
  intros H. unfold reverse_supplier_credit_note in H.
  apply bind_ok in H as (? & s1 & H1 & H). apply raise_if_ok in H1 as [_ <-].
  apply bind_ok in H as (n & s1 & H1 & H). apply get_supplier_credit_note_ok in H1 as [-> Hn].
  apply bind_ok in H as (? & s1 & H1 & H). apply enforce_store_access_ok in H1 as [Hd <-].
  apply bind_ok in H as (ex & s1 & H1 & H). apply find_by_ok in H1 as [-> Hs].
  apply (reversal_live cnr_note_id) in Hs. change (negb _) with (live (credit_side (working s)) i) in Hs.
  destruct ex as [er|].
  { apply ret_ok in H as [<- <-]. split; [done|]. exists n. split_and!; [done|done|]. by left. }
  apply bind_ok in H as (actor & s1 & H1 & H). apply of_option_ok in H1 as [Hact <-].
  apply bind_ok in H as (als & s1 & H1 & H). apply gets_ok in H1 as [-> <-].
  apply bind_ok in H as ([] & s1 & H1 & H).
  apply (unsettle_ok BY_CREDIT _ (credited i)) in H1
    as (invs & -> & Hrows); [|intros ia; unfold unapply_credit, credited; simpl;
                              by replace (-1 * ca_amount ia.2) with (- ca_amount ia.2) by lia].
  cbv zeta in H.
  apply bind_ok in H as ([] & s2 & H2 & H). apply update_ok in H2 as (? & _ & _ & _ & ->).
  apply bind_ok in H as (pe & s2 & H2 & H).
  apply bind_ok in H as (je & s3 & H3 & H). apply of_option_ok in H3 as [-> <-].
  apply bind_ok in H as (now & s3 & H3 & H). apply asks_ok in H3 as [_ <-].
  apply bind_ok in H as (k & s3 & H3 & H). apply or_already_reversed_ok, add_ok in H3 as (_ & _ & _ & ->).
  apply bind_ok in H as ([] & s4 & H4 & H). apply log_event_ok in H4 as ->.
  apply ret_ok in H as [<- <-]. split; [done|]. exists n. split_and!; [done|done|]. right. split; [done|].
  cbv zeta. exists actor. do 6 eexists.
  split_and!; [done|reflexivity|exact Hrows|exact H2|reflexivity|..]; reflexivity.
Qed.

Lemma reverse_supplier_credit_note_fixes_committed i reason caller by_ :
  fixes committed (reverse_supplier_credit_note i reason caller by_).
Proof.
  unfold reverse_supplier_credit_note, get_supplier_credit_note, unapply_credit, or_already_reversed,
    find_by, post_supplier_credit_note_reversal_journal, _post_standard, posted.
  walk_fixes ltac:(solve_fixes).
Qed.

Lemma note_allocations_total d i n :
  settlement_wf d -> row_of (credit_notes d) i = Some n ->
  sum_by (fun ia => ca_amount ia.2) (sort_by by_credited_invoice (allocations_of_note d i)) = cn_grand_total n.
Proof.
  intros W Hn. pose proof (sd_total _ _ (se_side _ W BY_CREDIT) i) as Ht. simpl in Ht.
  rewrite row_of_map, Hn in Ht. specialize (Ht _ eq_refl). simpl in Ht. rewrite Ht.
  transitivity (sum_by al_money (map (credited i) (sort_by by_credited_invoice (allocations_of_note d i))));
    [by rewrite sum_by_map|].
  rewrite (sum_by_perm _ _ _ (credit_allocs_perm d i)). apply sum_by_filter.
Qed.

Lemma reverse_supplier_credit_note_keeps i reason caller by_ :
  keeps payables_wf (reverse_supplier_credit_note i reason caller by_).
Proof.
  apply keeps_of_ok; [apply reverse_supplier_credit_note_fixes_committed|]. intros s r s' _ Hw H.
  apply reverse_supplier_credit_note_ok in H as (_ & n & Hn & _ & [[-> _]|(Hl & actor & s1 & je & s2 & rv & invs & log
    & _ & -> & Hrows & H & -> & Hrv & _)]); [done|].
  pose proof Hw as [W [P1 P2 P3] M].
  destruct (fun R A => post_payable _ _ _ _ _ R A H) as ((es & ls & E) & Q1 & Q2 & Q3); [done|done|].
  assert (Eside : forall f, map (fun n => {| doc_parties := (cn_store_id n, cn_supplier_id n); doc_total := cn_grand_total n |})
      (set_row i (with_allocated f) (credit_notes (working s)))
    = map (fun n => {| doc_parties := (cn_store_id n, cn_supplier_id n); doc_total := cn_grand_total n |})
      (credit_notes (working s))).
  { intros f. apply rows_map_eq. intros k. rewrite row_of_set. case_bool_decide; [|done]. by destruct (row_of _ k). }
  eapply (undo_document BY_CREDIT (working s) _ i
    {| doc_parties := (cn_store_id n, cn_supplier_id n); doc_total := cn_grand_total n |});
    [done| |exact Hl| | |apply credit_allocs_perm| | | | |exact Q1|exact Q2|].
  - simpl. by rewrite row_of_map, Hn.
  - simpl. rewrite E. unfold credit_side, undo. simpl. by rewrite Eside, map_app, <- Hrv.
  - intros [] Hc; [|done]. simpl. by rewrite E.
  - simpl. rewrite E. exact Hrows.
  - intros j x. simpl. rewrite E. unfold credit_side, live. simpl. rewrite map_app, existsb_app. simpl.
    rewrite Hrv, orb_false_r, negb_orb. change (negb (existsb _ _)) with (live (credit_side (working s)) j).
    rewrite row_of_set. case_bool_decide as Ej.
    + subst j. rewrite Hn, Z.eqb_refl, andb_false_r. intros [= <-]. simpl.
      rewrite (note_allocations_total _ _ _ W Hn), (se_note _ W i n Hn), Hl. lia.
    + intros Hx. rewrite (se_note _ W j x Hx). rewrite (proj2 (Z.eqb_neq j i)) by congruence.
      by rewrite andb_true_r.
  - simpl. by rewrite E.
  - simpl. by rewrite E.
  - intros q. etransitivity; [by apply (payable_balance_ext (working s2))|].
    rewrite Q3, (payable_balance_ext (working s)) by done. simpl.
    destruct (q _); [|lia]. rewrite pair_credit_payable; [lia|]. by destruct (cn_reason n).
Qed.

Lemma payables_keeps_wf op : keeps payables_wf (run_payables_op op).
Proof.
  destruct op; simpl.
  - apply create_purchase_invoice_keeps.
  - apply post_purchase_invoice_keeps.
  - apply void_purchase_invoice_keeps.
  - apply record_supplier_payment_keeps.
  - apply reverse_supplier_payment_keeps.
  - apply create_supplier_credit_note_keeps.
  - apply reverse_supplier_credit_note_keeps.
Qed.
