(* ===== verification/Interplay.v ===== *)
(** * Accounts payable and the other components

    The invariants of accounts payable read tables that the shop floor and
    purchasing write, and its operations write the ledger and the items of
    purchase orders.  This file shows that neither side breaks the other's
    invariants. *)

From S2P Require Import Prelude Fixed Session Schema Tables Platform Chart Fixture Journal.
From S2P Require Import Posting Books Inventory Purchasing Settlement Payables.
From S2P Require Import PayablesInvariant PayablesOps.

(** ** Postings that leave the account alone *)

Lemma opt_line_other b sp code :
  spec_code sp <> code -> Forall (fun sp => spec_code sp <> code) (opt_line b sp).
Proof. intros H. destruct b; repeat constructor; done. Qed.

(** The postings of the shop floor, and those of purchasing. *)
Definition shop_posting (q : posting) : bool :=
  match q with
  | P_sale _ _ _ _ | P_sale_return _ _ _ _ _ | P_stock_adjustment _ _ _ | P_cash_variance _ _
  | P_goods_receipt _ _ _ _ | P_purchase_return _ _ _ _ => true
  | _ => false
  end.

Lemma shop_posting_other q code :
  shop_posting q = true -> code = ACCOUNT_ACCOUNTS_PAYABLE \/ code = ACCOUNT_INVENTORY_IN_TRANSIT ->
  spec_net (posting_lines q) code = 0.
Proof.
  intros Hq Hcode. apply spec_net_other. destruct Hcode as [-> | ->], q; try done; simpl; unfold unless_zero.
  all: try (unfold sale_journal_lines; repeat (apply Forall_app; split); try (by apply opt_line_other);
    [apply Forall_fmap, Forall_true; intros [[] ?]; done
    |destruct (change_due _); [by apply opt_line_other|constructor]
    |destruct (_ <? _); repeat constructor; done]).
  all: try (unfold sale_return_journal_lines; repeat (apply Forall_app; split); try (by apply opt_line_other);
    [by apply opt_line_other; match goal with m : PaymentMethod |- _ => destruct m end
    |destruct (_ <? _); repeat constructor; done]).
  all: try (destruct (_ <=? _); [constructor|unfold stock_adjustment_lines]; try (destruct (_ <? _));
    repeat constructor; done).
  all: destruct (variance_amount _) as [v|]; [|constructor]; destruct (v =? 0); [constructor|];
    unfold cash_variance_lines; destruct (_ <? _); repeat constructor; done.
Qed.

Lemma shop_posting_payable q :
  shop_posting q = true -> spec_net (posting_lines q) ACCOUNT_ACCOUNTS_PAYABLE = 0.
Proof. intros Hq. apply shop_posting_other; [done|by left]. Qed.

(** The postings of accounts payable. *)
Definition payables_posting (q : posting) : bool :=
  match q with
  | P_invoice _ _ _ _ | P_invoice_void _ _ _ | P_supplier_payment _ _ _ _ _
  | P_supplier_payment_reversal _ _ _ _ | P_credit_note _ _ _ _ _ | P_credit_note_reversal _ _ _ _ => true
  | _ => false
  end.

Lemma shop_posting_keeps q by_ : shop_posting q = true -> keeps payables_wf (post q by_).
Proof.
  intros Hq s [C1 C2]%payables_wf_split [W1 W2]%payables_wf_split.
  pose proof (post_keeps_accounts q by_ (shop_posting_payable q Hq) s C1 W1) as K1.
  assert (K2 : keeps matched_wf (post q by_)).
  { apply (keeps_frame _ matched_tables); [apply matched_wf_ext|apply post_fixes_committed|].
    unfold matched_tables. destruct q; try done; simpl; unfold_postings; solve_fixes. }
  specialize (K2 s C2 W2).
  destruct (post q by_ s) as [[a|e] s']; [|by apply payables_wf_split].
  destruct K1, K2. split; by apply payables_wf_split.
Qed.

(** ** Purchasing keeps accounts payable *)

Lemma purchasing_keeps_accounts op : keeps accounts_wf (run_purchasing_op op).
Proof.
  apply run_purchasing_op_keeps.
  - intros d d' [= _ _ El _ _ _ _ Ep]. by apply accounts_wf_ext.
  - intros pid a. apply (keeps_frame _ (fun d => (ledger_tables d, payables_tables d))).
    + intros d d' [= E1 E2]. by apply accounts_wf_ext.
    + unfold record_movement, lock_product_for_update. solve_fixes.
    + unfold record_movement, lock_product_for_update. solve_fixes.
  - intros i st dt vs by_. by apply (post_keeps_accounts (P_goods_receipt i st dt vs)), shop_posting_payable.
  - intros i st dt vs by_. by apply (post_keeps_accounts (P_purchase_return i st dt vs)), shop_posting_payable.
Qed.

(** The order items after an operation of purchasing: old ones keep what was
    invoiced and never lose what was received, new ones have nothing invoiced. *)
Definition items_grown (t t' : list PurchaseOrderItem) : Prop :=
  (forall k i, row_of t k = Some i -> exists i', row_of t' k = Some i' /\
     quantity_invoiced i' = quantity_invoiced i /\ quantity_received i <= quantity_received i') /\
  (forall k i', row_of t' k = Some i' -> row_of t k = None ->
     quantity_invoiced i' = 0 /\ 0 <= quantity_received i').

Lemma grown_matched_wf d d' :
  payables_tables d' = payables_tables d -> items_grown (purchase_order_items d) (purchase_order_items d') ->
  matched_wf d -> matched_wf d'.
Proof.
  intros E [Hold Hnew] [W1 W2].
  assert (Ei : forall k, invoiced_total d' k = invoiced_total d k)
    by (intros k; unfold invoiced_total, accounted_line; by rewrite E).
  constructor.
  - intros l. rewrite E. intros Hl. destruct (W1 l Hl) as (H1 & [i Hi] & H3).
    split_and!; [done| |done]. destruct (Hold _ _ Hi) as (i' & -> & _). by eexists.
  - intros k i' Hk. rewrite Ei. destruct (row_of (purchase_order_items d) k) as [i|] eqn:Hi.
    + destruct (Hold k i Hi) as (x & Hx & Hinv & Hrec). rewrite Hk in Hx. injection Hx as <-.
      destruct (W2 k i Hi). lia.
    + destruct (Hnew k i' Hk Hi) as [-> ?]. split; [|done]. symmetry. apply sum_where_none.
      intros l Hl. destruct (W1 l Hl) as (_ & [i Hi'] & _). apply andb_false_iff; left.
      apply Z.eqb_neq. intros <-. congruence.
Qed.

Lemma items_grown_app t i : quantity_invoiced i = 0 -> quantity_received i = 0 -> items_grown t (t ++ [i]).
Proof.
  intros H1 H2. split.
  - intros k x Hx. exists x. split; [by apply row_of_app_old|lia].
  - intros k x [Hx|[-> ->]]%row_of_inv_app Hn; [congruence|lia].
Qed.

Lemma keeps_matched {A} (m : Tx A) :
  fixes committed m -> fixes (fun s => matched_tables (working s)) m -> keeps matched_wf m.
Proof. apply (keeps_frame _ matched_tables). intros d d'. apply matched_wf_ext. Qed.

Lemma add_order_item_matched i l : keeps matched_wf (add (new_order_item i l)).
Proof.
  apply keeps_of_ok; [solve_fixes|]. intros s k s' _ Hw (-> & _ & _ & ->)%add_ok. simpl.
  eapply grown_matched_wf; [| |exact Hw]; [done|]. by apply items_grown_app.
Qed.

Lemma receive_goods_matched a lines caller :
  keeps (fun d => purchasing_wf d /\ matched_wf d) (receive_goods a lines caller).
Proof.
  assert (Hc : fixes committed (receive_goods a lines caller)).
  { purchasing_ops. unfold post_goods_receipt_journal, _post_standard, posted, record_movement,
      lock_product_for_update. walk_fixes ltac:(solve_fixes). }
  apply keeps_of_ok; [done|]. intros s i s' [C1 C2] [W1 W2] H.
  destruct (keeps_ok _ _ _ _ _ (receive_goods_wf a lines caller) C1 W1 H) as [_ Hp]. split; [done|].
  apply receive_goods_ok in H as [(s1 & r & _ & Hor & -> & _)|
    (po & details & _ & _ & _ & _ & Hne & Hd & Hv & -> & H)].
  { by destruct Hor as [->| ->]. }
  apply (fixes_run (fun s => payables_tables (working s))) in H as Ep.
  2:{ purchasing_ops. unfold post_goods_receipt_journal, _post_standard, posted, record_movement,
        lock_product_for_update. walk_fixes ltac:(solve_fixes). }
  apply write_receipt_details_ok in H;
    [|by intros ->; subst|exact Hv|simpl; intros k i Hk; by destruct (pw_bounds _ W1 k i Hk)].
  destruct H as (s1 & s2 & pid & new & _ & _ & _ & _ & _ & Hi & _). simpl in *.
  eapply grown_matched_wf; [exact Ep| |exact W2]. unfold items_received in Hi. simpl in Hi. split.
  - intros k it Hk. exists (add_received (line_total (map fst details) k) it). rewrite Hi, Hk.
    split_and!; [done..|]. simpl. pose proof (line_total_nonneg _ _ details k Hv). lia.
  - intros k it Hk Hn. rewrite Hi, Hn in Hk. done.
Qed.

(** Purchasing's operations keep the whole of accounts payable. *)
Lemma purchasing_keeps_payables op :
  keeps (fun d => purchasing_wf d /\ payables_wf d) (run_purchasing_op op).
Proof.
  assert (K : keeps (fun d => purchasing_wf d /\ matched_wf d) (run_purchasing_op op)).
  { destruct op; try apply receive_goods_matched;
      (apply keeps_and; [apply (purchasing_keeps_wf (P_return _ _ _)) || apply purchasing_keeps_wf|]);
      simpl; purchasing_ops;
      walk_keeps ltac:(first [apply add_order_item_matched
        |apply keeps_matched; unfold matched_tables, post_purchase_return_journal, _post_standard, posted,
           record_movement, lock_product_for_update; solve_fixes]). }
  intros s [C1 C2] [W1 W2]. apply payables_wf_split in C2 as [C2 C3]. apply payables_wf_split in W2 as [W2 W3].
  specialize (K s (conj C1 C3) (conj W1 W3)). pose proof (purchasing_keeps_accounts op s C2 W2) as K2.
  destruct (run_purchasing_op op s) as [[i|e] s']; rewrite !payables_wf_split; tauto.
Qed.

(** ** Accounts payable keeps the rest *)

(** The tables its operations only read, or write through a posting or
    [apply_invoiced]. *)
Definition rest_tables (d : database) := (core_tables d, purchasing_tables d).

Definition outer_tables (d : database) :=
  (directory_tables d, catalog_tables d, ledger_tables d, stock_tables d, selling_tables d,
   tills_tables d, fiscal_tables d, purchasing_tables d, transit_tables d, people_tables d,
   payroll_tables d).

Ltac payables_ops :=
  unfold create_purchase_invoice, write_draft, write_invoice_line, post_purchase_invoice, post_draft,
    match_line, void_purchase_invoice, unpost, unapply_invoiced, apply_invoiced, mark_voided,
    record_supplier_payment, write_payment_details, apply_payment, reverse_supplier_payment,
    unapply_payment, create_supplier_credit_note, insert_note, insert_invoice, write_note_details,
    apply_credit, reverse_supplier_credit_note, unapply_credit, or_already_reversed, insert_or_winner;
  payables_reads.

Section KeepsPayables.
Context (I : database -> Prop).
Context (frame : forall d d', outer_tables d' = outer_tables d -> I d -> I d').
Context (posting : forall q by_, payables_posting q = true -> keeps I (post q by_)).
Context (invoiced : forall k total, keeps I (update k (with_invoiced total))).

Lemma keeps_outer {A} (m : Tx A) :
  fixes committed m -> fixes (fun s => outer_tables (working s)) m -> keeps I m.
Proof. apply (keeps_frame _ outer_tables). exact frame. Qed.

(** The postings under their own names. *)
Lemma payables_postings_keep :
  (forall i st dt a b, keeps I (post_purchase_invoice_journal i st dt a b)) /\
  (forall i st a b, keeps I (post_purchase_invoice_void_journal i st a b)) /\
  (forall i st dt m a b, keeps I (post_supplier_payment_journal i st dt m a b)) /\
  (forall i st m a b, keeps I (post_supplier_payment_reversal_journal i st m a b)) /\
  (forall i st dt g a b, keeps I (post_supplier_credit_note_journal i st dt g a b)) /\
  (forall i st g a b, keeps I (post_supplier_credit_note_reversal_journal i st g a b)).
Proof.
  split_and!; intros.
  - by apply (posting (P_invoice _ _ _ _) _).
  - by apply (posting (P_invoice_void _ _ _) _).
  - by apply (posting (P_supplier_payment _ _ _ _ _) _).
  - by apply (posting (P_supplier_payment_reversal _ _ _ _) _).
  - by apply (posting (P_credit_note _ _ _ _ _) _).
  - by apply (posting (P_credit_note_reversal _ _ _ _) _).
Qed.

Lemma run_payables_op_keeps op : keeps I (run_payables_op op).
Proof.
  destruct payables_postings_keep as (P1 & P2 & P3 & P4 & P5 & P6).
  destruct op; simpl; payables_ops;
    walk_keeps ltac:(first [apply invoiced|apply P1|apply P2|apply P3|apply P4|apply P5|apply P6
                           |apply keeps_outer; solve [solve_fixes]]).
Qed.
End KeepsPayables.

(** An invariant that reads neither the ledger nor the purchase orders. *)
Definition untouched_tables (d : database) :=
  (directory_tables d, catalog_tables d, stock_tables d, selling_tables d, tills_tables d, fiscal_tables d,
   transit_tables d, people_tables d, payroll_tables d).

Lemma post_fixes_untouched q by_ :
  fixes (fun s => (untouched_tables (working s), purchasing_tables (working s))) (post q by_).
Proof. unfold untouched_tables. destruct q; simpl; unfold_postings; solve_fixes. Qed.

Lemma payables_keep_untouched (I : database -> Prop) op :
  (forall d d', untouched_tables d' = untouched_tables d -> I d -> I d') -> keeps I (run_payables_op op).
Proof.
  intros frame. apply run_payables_op_keeps.
  - intros d d' [= E1 E2 _ E4 E5 E6 E7 _]. apply frame. unfold untouched_tables. congruence.
  - intros q by_ _. apply (keeps_frame _ (fun d => (untouched_tables d, purchasing_tables d))).
    + intros d d' [E _]%pair_equal_spec. by apply frame.
    + apply post_fixes_committed.
    + apply post_fixes_untouched.
  - intros k total. apply (keeps_frame _ untouched_tables); [done|solve_fixes..].
Qed.

Lemma payables_keep_draft_books op : keeps draft_books (run_payables_op op).
Proof.
  apply run_payables_op_keeps.
  - intros d d' [= _ _ E _ _ _ _ _]. by apply draft_books_ext.
  - intros q by_ _. apply post_keeps_draft.
  - intros k total. apply keeps_draft_books; solve_fixes.
Qed.

(** [purchasing_wf] does not read what was invoiced. *)
Definition without_invoiced (d : database) : database :=
  over_purchase_order_items (map (with_invoiced 0)) d.

Lemma items_of_without d o :
  items_of_order (without_invoiced d) o = map (with_invoiced 0) (items_of_order d o).
Proof.
  unfold items_of_order. simpl. induction (purchase_order_items d) as [|i t IH]; [done|]. simpl.
  destruct (poi_order_id i =? o); simpl; by rewrite IH.
Qed.

Lemma status_ok_without st l : status_ok st (map (with_invoiced 0) l) <-> status_ok st l.
Proof.
  assert (E1 : existsb some_received (map (with_invoiced 0) l) = existsb some_received l)
    by (induction l as [|i l IH]; [done|]; simpl; by rewrite IH).
  assert (E2 : forallb fully_received (map (with_invoiced 0) l) = forallb fully_received l)
    by (clear E1; induction l as [|i l IH]; [done|]; simpl; by rewrite IH).
  unfold status_ok. by rewrite E1, E2.
Qed.

Lemma purchasing_wf_without d : purchasing_wf (without_invoiced d) <-> purchasing_wf d.
Proof.
  assert (Er : forall k, row_of (purchase_order_items (without_invoiced d)) k
                         = with_invoiced 0 <$> row_of (purchase_order_items d) k)
    by (intros k; apply row_of_map).
  assert (Eb : forall o p, received_by_product (without_invoiced d) o p = received_by_product d o p).
  { intros o p. unfold received_by_product. simpl. unfold sum_where. by rewrite sum_by_map. }
  split; intros [H1 H2 H3 H4 H5 H6 H7]; constructor; try done.
  - intros k i Hk. apply (H1 k (with_invoiced 0 i)). by rewrite Er, Hk.
  - intros k i Hk. apply (H2 k (with_invoiced 0 i)). by rewrite Er, Hk.
  - intros k i Hk. apply (H3 k (with_invoiced 0 i)). by rewrite Er, Hk.
  - intros r Hr. destruct (H4 r Hr) as [Hi ?]. split; [|done]. rewrite Er in Hi. by apply fmap_is_Some in Hi.
  - intros o p. rewrite <- Eb. apply H6.
  - intros o po Hpo. specialize (H7 o po Hpo). by rewrite items_of_without, status_ok_without in H7.
  - intros k i Hk. rewrite Er in Hk. apply fmap_Some in Hk as (x & Hx & ->). exact (H1 k x Hx).
  - intros k i Hk. rewrite Er in Hk. apply fmap_Some in Hk as (x & Hx & ->). exact (H2 k x Hx).
  - intros k i Hk. rewrite Er in Hk. apply fmap_Some in Hk as (x & Hx & ->). exact (H3 k x Hx).
  - intros r Hr. destruct (H4 r Hr) as [Hi ?]. split; [|done]. rewrite Er. by apply fmap_is_Some.
  - intros o p. rewrite Eb. apply H6.
  - intros o po Hpo. rewrite items_of_without. by apply status_ok_without, H7.
Qed.

Lemma set_invoiced_purchasing d k total :
  purchasing_wf d -> purchasing_wf (over_purchase_order_items (set_row k (with_invoiced total)) d).
Proof.
  intros W. apply purchasing_wf_without. apply purchasing_wf_without in W.
  assert (E : map (with_invoiced 0) (set_row k (with_invoiced total) (purchase_order_items d))
              = map (with_invoiced 0) (purchase_order_items d)).
  { apply rows_map_eq. intros j. rewrite row_of_set. case_bool_decide; [|done]. by destruct (row_of _ _). }
  eapply purchasing_wf_ext; [|exact W]. unfold document_tables. simpl. by rewrite E.
Qed.

Lemma payables_keep_purchasing op : keeps purchasing_wf (run_payables_op op).
Proof.
  apply run_payables_op_keeps.
  - intros d d' [= _ _ _ _ _ _ _ E]. apply purchasing_wf_ext. unfold document_tables. by rewrite E.
  - intros q by_ _. apply (keeps_frame _ (fun d => (untouched_tables d, purchasing_tables d))).
    + intros d d' [_ E]%pair_equal_spec. apply purchasing_wf_ext. unfold document_tables. by rewrite E.
    + apply post_fixes_committed.
    + apply post_fixes_untouched.
  - intros k total. apply keeps_of_ok; [solve_fixes|].
    intros s u s' _ Hw (i & _ & _ & _ & ->)%update_ok. simpl. by apply set_invoiced_purchasing.
Qed.

(** Nothing invoiced yet. *)
Lemma no_payables_wf d :
  journal_entries d = [] -> journal_lines d = [] ->
  (forall i, i ∈ purchase_order_items d -> quantity_invoiced i = 0 /\ 0 <= quantity_received i) ->
  payables_tables d = mkPayables [] [] [] [] [] [] [] [] [] [] -> payables_wf d.
Proof.
  intros Ee El Eo Ep.
  assert (Hr : forall {R} (k : Z) (r : R), row_of [] k = Some r -> False)
    by (intros R k r; unfold row_of; by destruct (0 <? k)).
  assert (Es : forall c, side_of c d = mkSide [] [] [])
    by (intros []; simpl; unfold payment_side, credit_side; by rewrite Ep).
  constructor; constructor.
  - intros c k i Hk. rewrite Ep in Hk. by apply Hr in Hk.
  - intros k i Hk. rewrite Ep in Hk. by apply Hr in Hk.
  - intros c. rewrite Es. apply empty_side_wf.
  - intros k n Hk. rewrite Ep in Hk. by apply Hr in Hk.
  - rewrite El. by intros l ?%elem_of_nil.
  - rewrite Ee. by intros e ?%elem_of_nil.
  - intros p. unfold payable_balance, owed. by rewrite El, Ep.
  - rewrite Ep. by intros l ?%elem_of_nil.
  - intros k i Hk%row_of_elem. destruct (Eo i Hk) as [-> ?]. split; [|done].
    unfold invoiced_total. by rewrite Ep.
Qed.

(** Whatever they commit has passed the deferred checks. *)
Lemma payables_checked op : commits_checked (run_payables_op op).
Proof.
  destruct op; simpl.
  - unfold create_purchase_invoice. apply checked_bind; [apply checked_fixes; solve_fixes|].
    intros [i|]; [apply checked_fixes; solve_fixes|]. do 3 (apply checked_bind; [apply checked_fixes; solve_fixes|intros ?]).
    cbv zeta. apply checked_bind; [apply checked_fixes, insert_invoice_fixes_committed|]. intros x.
    destruct (snd x); [|apply checked_fixes; solve_fixes].
    apply checked_bind; [apply checked_fixes, write_draft_fixes_committed|intros ?].
    apply checked_bind; [apply checked_commit|intros ?; apply checked_fixes; solve_fixes].
  - apply checked_fixes, post_purchase_invoice_fixes_committed.
  - unfold void_purchase_invoice. do 2 (apply checked_bind; [apply checked_fixes; solve_fixes|intros ?]).
    destruct (inv_status _); try (apply checked_fixes; solve [solve_fixes]).
    + apply checked_bind; [apply checked_fixes; unfold mark_voided; solve_fixes|intros ?].
      apply checked_bind; [apply checked_commit|intros ?; apply checked_fixes; solve_fixes].
    + apply checked_fixes, unpost_void_fixes_committed.
  - apply checked_fixes, record_supplier_payment_fixes_committed.
  - apply checked_fixes, reverse_supplier_payment_fixes_committed.
  - apply checked_fixes, create_supplier_credit_note_fixes_committed.
  - apply checked_fixes, reverse_supplier_credit_note_fixes_committed.
Qed.
