(* ===== verification/PayablesFixture.v ===== *)
(** * A worked example of accounts payable

    The states the examples of [PayablesReports] and [PayablesProperties] start
    from: the order received in Purchasing's example, invoiced, posted and paid
    in part. *)

From S2P Require Import Prelude Fixed Session Schema Tables Platform Chart Fixture Journal.
From S2P Require Import Posting Books Inventory Purchasing Settlement Payables PayablesInvariant.
From S2P Require Import PayablesOps Interplay.
(** Invoice 1 of the order received in Purchasing's example: five of item 1 at
    1.40, two of item 2 at 0.50, with a discount and tax; half of it paid. *)
Definition demo_invoice_line (item : Z) (q : qty) (price : cost) (discount tax : money)
    : PurchaseInvoiceLineInput :=
  {| li_order_item_id := item; li_quantity_invoiced := q; li_unit_price := price;
     li_discount_amount := discount; li_tax_amount := tax |}.

Definition demo_invoice_lines : list PurchaseInvoiceLineInput :=
  [demo_invoice_line 1 5000 1400000 50 100; demo_invoice_line 2 2000 500000 0 50].

Definition demo_invoice : InvoiceArgs :=
  {| ia_store_id := 1; ia_supplier_id := 1; ia_invoice_number := "INV-7"; ia_invoice_date := 20002;
     ia_key := "inv-1"; ia_order_id := None; ia_due_date := None; ia_notes := None;
     ia_created_by := Some 2 |}.

Definition demo_payment : PaymentArgs :=
  {| pm_store_id := 1; pm_supplier_id := 1; pm_payment_date := 20010;
     pm_method := Some SP_CASH; pm_amount := 100; pm_key := "pay-1";
     pm_reference := None; pm_created_by := Some 2 |}.

Definition demo_allocations : list PaymentAllocationInput := [{| al_invoice_id := 1; al_amount := 100 |}].

Definition demo_op (op : payables_op) (s : session database) : session database :=
  checkpoint (after (run_payables_op op) s).

Definition demo_invoiced : session database :=
  demo_op (A_create_invoice demo_invoice demo_invoice_lines (Some 1)) (checkpoint demo_received).

Definition demo_posted : session database := demo_op (A_post_invoice 1 (Some 1) (Some 2)) demo_invoiced.

Definition demo_paid : session database := demo_op (A_pay demo_payment demo_allocations (Some 1)) demo_posted.

Lemma demo_op_clean op s : committed (demo_op op s) = working (demo_op op s).
Proof. apply checkpoint_clean. Qed.

(** What the components say of a state, short of the balance of its entries. *)
Definition demo_wf (d : database) : Prop := draft_books d /\ purchasing_wf d /\ payables_wf d.

Lemma demo_op_wf op s :
  committed s = working s -> demo_wf (working s) -> (exists a, (run_payables_op op s).1 = Ok a) ->
  demo_wf (working (demo_op op s)).
Proof.
  intros E W. apply (keeps_after demo_wf (run_payables_op op) s); [|by rewrite E|done].
  apply keeps_and; [apply payables_keep_draft_books|apply keeps_and].
  - apply payables_keep_purchasing.
  - apply payables_keeps_wf.
Qed.

Lemma demo_next_working : working demo_next = working demo_received.
Proof. unfold demo_next. apply (working_session_on (working demo_received)). Qed.

Lemma demo_received_wf : demo_wf (working demo_received).
Proof.
  destruct demo_received_state as (Hp & _ & Hl & _).
  rewrite demo_next_working in Hp, Hl.
  assert (Hd : draft_books (working demo_received)).
  { apply books_wf_draft. split; [done|].
    destruct demo_ordered_state as (Hl0 & Hc & _ & H). destruct demo_ordered_wf as [_ Hp0].
    assert (Hb : books_wf (working demo_ordered))
      by (split; [done|by apply (empty_ledger_wf (working demo_ordered)); vm_compute]).
    pose (op := P_receive demo_receipt_args demo_receipt_lines (Some 1)).
    refine (proj2 (proj2 (keeps_ok _ (run_purchasing_op op) _ _ _ (purchasing_keeps_books op) _ Hb H))).
    rewrite Hc. exact Hb. }
  split; [exact Hd|split; [exact Hp|]].
  destruct demo_ordered_state as (_ & Hc & _ & H). destruct demo_ordered_wf as [_ Hp0].
  assert (Ho : payables_wf (working demo_ordered)).
  { apply no_payables_wf; [by vm_compute..| |by vm_compute].
    apply Forall_forall, (bool_decide_unpack _). by vm_compute. }
  pose (op := P_receive demo_receipt_args demo_receipt_lines (Some 1)).
  refine (proj2 (proj2 (keeps_ok _ (run_purchasing_op op) _ _ _ (purchasing_keeps_payables op) _ _ H)));
    [rewrite Hc|]; exact (conj Hp0 Ho).
Qed.

Lemma demo_invoiced_wf : demo_wf (working demo_invoiced).
Proof. apply demo_op_wf; [apply checkpoint_clean|rewrite working_checkpoint; exact demo_received_wf|
  by eexists; vm_compute]. Qed.

Lemma demo_posted_wf : demo_wf (working demo_posted).
Proof. apply demo_op_wf; [unfold demo_invoiced; apply demo_op_clean|exact demo_invoiced_wf|by eexists; vm_compute]. Qed.

Lemma demo_paid_wf : demo_wf (working demo_paid).
Proof. apply demo_op_wf; [unfold demo_posted; apply demo_op_clean|exact demo_posted_wf|by eexists; vm_compute]. Qed.

Lemma demo_paid_books : books_wf (working demo_paid).
Proof. apply books_wf_draft. split; [apply demo_paid_wf|by vm_compute]. Qed.
