(* ===== verification/InvoicePosting.v ===== *)
(** * The three-way match of a posted invoice

    Which receipts the lines of an invoice are matched with, what the match
    adds up to, and what posting, and voiding, an invoice leave behind. *)

From S2P Require Import Prelude Fixed Session Schema Tables Platform Chart Fixture Journal.
From S2P Require Import Posting Books Matching Purchasing Settlement Payables PayablesInvariant.
From S2P Require Import PayablesOps Interplay PayablesFixture.

(** ** The rows the match writes *)

(** What the lines [ls] say of item [j]. *)
Definition lines_qty (ls : list (Z * PurchaseInvoiceLine)) (j : Z) : qty :=
  sum_where (fun il => il_order_item_id il.2 =? j) (fun il => il_quantity il.2) ls.

Definition line_price (d : database) (k : Z) : cost :=
  match row_of (purchase_invoice_lines d) k with Some l => il_unit_price l | None => 0 end.

Definition match_value (m : PurchaseInvoiceReceiptMatch) : Z := matched_quantity m * matched_unit_cost m.

Definition match_variance (d : database) (m : PurchaseInvoiceReceiptMatch) : Z :=
  matched_quantity m * (line_price d (rm_line_id m) - matched_unit_cost m).

(** [rows] match the lines [ls] with the receipts of [d]: every line in full, each
    row with a receipt of the line's item at that receipt's cost, and of every
    receipt exactly its units in the range the invoice consumes. *)
Record matches_lines (d : database) (ls : list (Z * PurchaseInvoiceLine))
    (rows : list PurchaseInvoiceReceiptMatch) : Prop := {
  ml_line : forall k, sum_where (fun m => rm_line_id m =? k) matched_quantity rows
                      = sum_where (fun il => il.1 =? k) (fun il => il_quantity il.2) ls;
  ml_row : forall m, m ∈ rows -> exists il x, il ∈ ls /\ rm_line_id m = il.1 /\
    row_of (goods_receipt_items d) (rm_receipt_item_id m) = Some x /\
    gri_order_item_id x = il_order_item_id il.2 /\ gri_unit_cost x = matched_unit_cost m /\
    0 < matched_quantity m /\
    rm_variance m = div_half_up (matched_quantity m * (il_unit_price il.2 - matched_unit_cost m)) 10000000;
  ml_receipt : forall r x item, row_of (goods_receipt_items d) r = Some x ->
    row_of (purchase_order_items d) (gri_order_item_id x) = Some item ->
    sum_where (fun m => rm_receipt_item_id m =? r) matched_quantity rows
    = first_units (of_lot r) (lots_of d (gri_order_item_id x))
        (quantity_invoiced item + lines_qty ls (gri_order_item_id x))
      - first_units (of_lot r) (lots_of d (gri_order_item_id x)) (quantity_invoiced item);
}.

Lemma fifo_walk_lots lots skip add l :
  l ∈ (fifo_walk lots skip add).1 -> exists q, (lot_id l, q, lot_cost l) ∈ lots.
Proof.
  revert skip add. induction lots as [|[[i q] c] lots IH]; intros skip add; simpl; [by intros ?%elem_of_nil|].
  destruct (lot_qty _ <=? skip); [intros Hx; destruct (IH _ _ Hx) as [q' ?]; exists q'; by right|].
  assert (Hh : forall x : Lot, x ∈ (if 0 <? Z.min (lot_qty (i, q, c) - skip) add
      then [(lot_id (i, q, c), Z.min (lot_qty (i, q, c) - skip) add, lot_cost (i, q, c))] else []) ->
      exists q', (lot_id x, q', lot_cost x) ∈ ((i, q, c) :: lots)).
  { intros x. destruct (0 <? _); [|by intros ?%elem_of_nil]. intros ->%list_elem_of_singleton. exists q. by left. }
  destruct (add - _ <=? 0); simpl; [by apply Hh|].
  intros [Hx|Hx]%elem_of_app; [by apply Hh|]. destruct (IH _ _ Hx) as [q' ?]. exists q'. by right.
Qed.

Lemma lots_of_elem d item i q c :
  (i, q, c) ∈ lots_of d item ->
  exists x, row_of (goods_receipt_items d) i = Some x /\ gri_order_item_id x = item /\ gri_unit_cost x = c.
Proof.
  intros ([k x] & [= -> -> ->] & [Hk He%Z.eqb_eq]%elem_select)%list_elem_of_fmap. by exists x.
Qed.

(** A receipt counts among its own item's lots only. *)
Lemma first_units_absent r lots n :
  (forall l, l ∈ lots -> lot_id l <> r) -> first_units (of_lot r) lots n = 0.
Proof.
  revert n. induction lots as [|l lots IH]; intros n H; simpl; [done|].
  rewrite IH by (intros x Hx; apply H; by right). unfold of_lot.
  rewrite (proj2 (Z.eqb_neq (lot_id l) r)) by (apply H; by left). lia.
Qed.

Lemma lots_of_other d item r x :
  row_of (goods_receipt_items d) r = Some x -> gri_order_item_id x <> item ->
  forall l, l ∈ lots_of d item -> lot_id l <> r.
Proof.
  intros Hr Hne [[i q] c] Hl. apply lots_of_elem in Hl as (y & Hy & <- & _). unfold lot_id. simpl.
  intros ->. congruence.
Qed.

Lemma lines_qty_snoc ls il j :
  lines_qty (ls ++ [il]) j = lines_qty ls j + (if il_order_item_id il.2 =? j then il_quantity il.2 else 0).
Proof. unfold lines_qty. by rewrite sum_where_app, sum_where_cons, sum_where_nil, Z.add_0_r. Qed.

(** The slices of one line, as rows. *)
Lemma slice_rows_sums (il : Z * PurchaseInvoiceLine) slices :
  let rows := map (match_row il.1 (il_unit_price il.2)) slices in
  (forall k, sum_where (fun m => rm_line_id m =? k) matched_quantity rows
             = if il.1 =? k then sum_by lot_qty slices else 0) /\
  (forall r, sum_where (fun m => rm_receipt_item_id m =? r) matched_quantity rows
             = slices_weight (of_lot r) slices).
Proof.
  split; intros.
  - unfold sum_where. rewrite sum_by_map. simpl. destruct (_ =? _); [done|]. by apply sum_by_zero.
  - rewrite <- taken_from_weight. unfold taken_from, sum_where. by rewrite sum_by_map.
Qed.

(** Every line so far, and the totals, are accounted for. *)
Definition matched_so_far (d : database) (s : session database) (dn : list (Z * PurchaseInvoiceLine))
    (t : MatchTotals) (s' : session database) : Prop :=
  exists rows, s' = with_working (over_receipt_matches (fun l => l ++ rows) (working s)) s /\
    matches_lines d dn rows /\
    (forall j, default 0 (dict_get j (consumed_this_posting t)) = lines_qty dn j) /\
    total_clearing_raw t = sum_by match_value rows /\
    total_variance_raw t = sum_by (match_variance d) rows.

Lemma add_match_rows (f : Lot -> PurchaseInvoiceReceiptMatch) slices s s' :
  for_each (fun l => _ ← add (f l); mret tt) slices s = (Ok tt, s') ->
  s' = with_working (over_receipt_matches (fun t => t ++ map f slices) (working s)) s.
Proof.
  intros H. apply (for_each_ok_ind _ (fun dn s1 =>
    s1 = with_working (over_receipt_matches (fun t => t ++ map f dn) (working s)) s)) in H; [done| |].
  - destruct s as [c [? ? ? ? ? ? ? ? ? [] ?] e n w]. unfold over_receipt_matches, over_payables. simpl.
    by rewrite app_nil_r.
  - intros dn l rest s1 s2 _ -> H1. apply bind_ok in H1 as (k & s3 & H3 & H1).
    apply ret_ok in H1 as [_ <-]. apply add_ok in H3 as (_ & _ & _ & ->). unfold with_working,
      over_receipt_matches, over_payables. simpl. by rewrite map_app, app_assoc.
Qed.

Lemma match_line_step d s dn t s1 il t' s2 :
  d = working s -> purchasing_wf d -> matched_wf d ->
  row_of (purchase_invoice_lines d) il.1 = Some il.2 ->
  (forall x, x ∈ dn -> 0 < il_quantity x.2) ->
  matched_so_far d s dn t s1 -> match_line t il s1 = (Ok t', s2) ->
  matched_so_far d s (dn ++ [il]) t' s2.
Proof.
  intros -> Hw [M1 M2] Hil Hpos (rows & -> & [R1 R2 R3] & Hc & Hcl & Hva) H. unfold match_line in H.
  apply bind_ok in H as (o & s3 & H1 & H). apply get_ok in H1 as [-> <-].
  apply bind_ok in H as (it & s3 & H1 & H). apply of_option_ok in H1 as [Hit <-]. simpl in Hit.
  apply bind_ok in H as (sl & s3 & H1 & H). apply match_slices_ok in H1 as (-> & Hsl & Hrest).
  apply bind_ok in H as ([] & s3 & H1 & H). apply add_match_rows in H1 as ->.
  apply ret_ok in H as [<- <-]. simpl in Hsl, Hrest. rewrite Hc in Hsl, Hrest.
  destruct (M1 il.2 ltac:(by eapply row_of_elem)) as (_ & _ & Hq).
  assert (Hsk : 0 <= quantity_invoiced it + lines_qty dn (il_order_item_id il.2)).
  { apply Z.add_nonneg_nonneg.
    - rewrite (proj1 (M2 _ _ Hit)). apply sum_by_nonneg. intros l Hl. destruct (M1 l Hl) as (_ & _ & ?).
      destruct (_ && _); lia.
    - apply sum_by_nonneg. intros x Hx. specialize (Hpos x Hx). destruct (_ =? _); lia. }
  set (lots := lots_of (working s) (il_order_item_id il.2)) in *.
  change (lots_of _ (il_order_item_id il.2)) with lots in Hsl, Hrest.
  assert (Hlots : positive_lots lots).
  { apply lots_positive. intros r Hr. by destruct (pw_receipts _ Hw r Hr). }
  assert (Hsp := fun w Hww => fifo_walk_spec w Hww lots _ (il_quantity il.2) Hlots Hsk ltac:(lia)).
  simpl in Hsp. rewrite <- Hsl in Hsp.
  destruct (slice_rows_sums il sl) as [Hs1 Hs2]. simpl in Hs1, Hs2.
  destruct (Hsp _ lot_weight_cost) as (_ & E2 & E3 & E4).
  exists (rows ++ map (match_row il.1 (il_unit_price il.2)) sl). split_and!.
  - unfold with_working, over_receipt_matches, over_payables. simpl. by rewrite app_assoc.
  - constructor.
    + intros k. rewrite !sum_where_app, R1, Hs1, sum_where_cons, sum_where_nil, E3. destruct (_ =? k); lia.
    + intros m [Hm|(l & -> & Hl)%list_elem_of_fmap]%elem_of_app.
      * destruct (R2 m Hm) as (il' & x & Hin & Hx). exists il', x. split; [set_solver|done].
      * rewrite Hsl in Hl. destruct (fifo_walk_lots _ _ _ _ Hl) as [q' (x & Hx & Hi & Hcost)%lots_of_elem].
        exists il, x. split; [set_solver|]. simpl. split_and!; try done. apply E4. by rewrite Hsl.
    + intros r x item Hr Hitem. rewrite sum_where_app, (R3 r x item Hr Hitem), Hs2, lines_qty_snoc.
      destruct (Hsp _ (lot_weight_of_lot r)) as (-> & _).
      destruct (Z.eqb_spec (il_order_item_id il.2) (gri_order_item_id x)) as [E|E].
      * unfold lots. rewrite E in Hit |- *. rewrite Hit in Hitem. injection Hitem as ->.
        rewrite Z.add_assoc. lia.
      * unfold lots. rewrite !(first_units_absent r (lots_of _ (il_order_item_id il.2)))
          by (eapply lots_of_other; [exact Hr|done]). rewrite !Z.add_0_r. lia.
  - intros j. simpl. rewrite dict_get_add, Hc, lines_qty_snoc, (Z.eqb_sym j). done.
  - simpl. rewrite Hcl, sum_by_app. f_equal. unfold slices_value. by rewrite sum_by_map.
  - simpl. rewrite Hva, sum_by_app. f_equal. rewrite sum_by_map. apply sum_by_ext. intros l _.
    unfold raw_variance, match_variance. simpl. unfold line_price. by rewrite Hil.
Qed.

Lemma match_lines_ok ls s t s' :
  purchasing_wf (working s) -> matched_wf (working s) ->
  (forall il, il ∈ ls -> row_of (purchase_invoice_lines (working s)) il.1 = Some il.2) ->
  fold_m match_line ls no_matches s = (Ok t, s') -> matched_so_far (working s) s ls t s'.
Proof.
  intros Hw Hm Hls H. eapply (fold_m_ok_ind _ (matched_so_far (working s) s)) in H; [done| |].
  - exists []. split_and!; [|constructor|..]; try done.
    + destruct s as [c [? ? ? ? ? ? ? ? ? [] ?] e n w]. unfold over_receipt_matches, over_payables. simpl.
      by rewrite app_nil_r.
    + by intros m ?%elem_of_nil.
    + intros r x item _ _. unfold lines_qty. rewrite !sum_where_nil, Z.add_0_r. lia.
  - intros dn il rest t1 s1 t2 s2 E Hd H1. eapply match_line_step; [done..| | |exact Hd|exact H1].
    + apply Hls. rewrite E. set_solver.
    + intros x Hx. destruct Hm as [M1 _]. apply (M1 x.2). eapply row_of_elem, Hls. rewrite E. set_solver.
Qed.

(** ** Posting *)

Lemma invoice_lines_net a code :
  spec_net (_purchase_invoice_journal_lines a false) code
  = on_account (0 <? clearing_amount a) ACCOUNT_PURCHASE_CLEARING code (clearing_amount a)
    + on_account true ACCOUNT_PURCHASE_PRICE_VARIANCE code (price_variance_amount a)
    + on_account (0 <? invoice_tax_total a) ACCOUNT_PURCHASE_TAX_EXPENSE code (ledger_of_money (invoice_tax_total a))
    - on_account (0 <? invoice_discount_total a) ACCOUNT_PURCHASE_DISCOUNTS code
        (ledger_of_money (invoice_discount_total a))
    - on_account (0 <? invoice_grand_total a) ACCOUNT_ACCOUNTS_PAYABLE code
        (ledger_of_money (invoice_grand_total a)).
Proof.
  unfold _purchase_invoice_journal_lines.
  assert (Hv : spec_net (if 0 <? price_variance_amount a
      then [_debit ACCOUNT_PURCHASE_PRICE_VARIANCE (price_variance_amount a)]
      else opt_line (price_variance_amount a <? 0)
             (_credit ACCOUNT_PURCHASE_PRICE_VARIANCE (- price_variance_amount a))) code
    = on_account true ACCOUNT_PURCHASE_PRICE_VARIANCE code (price_variance_amount a)).
  { destruct (Z.ltb_spec 0 (price_variance_amount a)).
    - by rewrite (proj1 (spec_net_one _ _ _)).
    - rewrite spec_net_opt_credit. unfold on_account.
      destruct (Z.ltb_spec (price_variance_amount a) 0); simpl; case_bool_decide; lia. }
  cbv zeta. rewrite !spec_net_app, Hv. autorewrite with spec_net. lia.
Qed.

(** The lines of an invoice are the rows [line_price] reads. *)
Lemma lines_of_invoice_rows d k il :
  il ∈ lines_of_invoice d k -> row_of (purchase_invoice_lines d) il.1 = Some il.2 /\ il_invoice_id il.2 = k.
Proof. destruct il as [j l]. by intros [? ?%Z.eqb_eq]%elem_select. Qed.

Lemma lines_qty_total d k j : lines_qty (lines_of_invoice d k) j = lines_total d k j.
Proof. apply lines_of_invoice_total. Qed.

(** A posted draft, table by table. *)
Lemma posted_draft k i by_ s s' :
  purchasing_wf (working s) -> payables_wf (working s) ->
  row_of (purchase_invoices (working s)) k = Some i ->
  post_draft k i (lines_of_invoice (working s) k) by_ s = (Ok tt, s') ->
  let d := working s in let d' := working s' in
  exists rows now e,
    matches_lines d (lines_of_invoice d k) rows /\
    receipt_matches d' = receipt_matches d ++ rows /\
    items_invoiced (requested_by_item (lines_of_invoice d k)) (purchase_order_items d) (purchase_order_items d') /\
    purchase_invoices d' = set_row k (with_posted_at now) (purchase_invoices d) /\
    purchase_invoice_lines d' = purchase_invoice_lines d /\
    (forall code, posted_net d' e code
       = spec_net (_purchase_invoice_journal_lines
           (invoice_amounts i (_ledger_quantize (sum_by match_value rows))
              (_ledger_quantize (sum_by (match_variance d) rows))) false) code).
Proof.
  intros Hw [Ws [P1 P2 P3] Wm] Hi H d d'.
  apply post_draft_writes in H as (t & s1 & items & now & log & s2 & r & H1 & Hit & -> & Hg & H5).
  apply match_lines_ok in H1 as (rows & -> & Hrows & _ & Hc & Hv);
    [|done|done|intros il Hil; by apply (lines_of_invoice_rows d k)].
  rewrite Hc, Hv in H5. exists rows, now, r.
  destruct (fun R A => post_payable (P_invoice k (inv_store_id i) (invoice_date i) _) by_ _ _ _ R A H5)
    as ((es & ls & E) & _); [exact P1|exact P2|].
  subst d'. rewrite E. split_and!; try done. intros code. rewrite <- E.
  refine (post_refer_net _ _ _ _ _ code _ H5). exact P1.
Qed.

(** C21: Posting a draft invoice is the three-way match of its lines with what was
    received: every line is matched in full, and each receipt gives exactly its
    units in the range, in receipt order, that this invoice consumes; each item's
    invoiced quantity rises by its lines and never passes what was received; and
    the journal entry credits accounts payable with the invoice's total against
    the matched receipts at their own cost, the difference to the invoiced price
    being the purchase price variance. *)
Theorem post_purchase_invoice_effect k caller by_ s r s' i :
  purchasing_wf (working s) -> payables_wf (working s) ->
  row_of (purchase_invoices (working s)) k = Some i -> inv_status i = INV_DRAFT ->
  post_purchase_invoice k caller by_ s = (Ok r, s') ->
  let d := working s in let d' := working s' in let ls := lines_of_invoice d k in
  exists rows now e,
    matches_lines d ls rows /\ receipt_matches d' = receipt_matches d ++ rows /\
    (forall j item, row_of (purchase_order_items d) j = Some item ->
       row_of (purchase_order_items d') j = Some (add_invoiced (lines_total d k j) item) /\
       quantity_invoiced item + lines_total d k j <= quantity_received item) /\
    row_of (purchase_invoices d') k = Some (with_posted_at now i) /\
    posted_net d' e ACCOUNT_ACCOUNTS_PAYABLE
    = - (if 0 <? inv_grand_total i then ledger_of_money (inv_grand_total i) else 0) /\
    posted_net d' e ACCOUNT_PURCHASE_CLEARING = Z.max 0 (_ledger_quantize (sum_by match_value rows)) /\
    posted_net d' e ACCOUNT_PURCHASE_PRICE_VARIANCE = _ledger_quantize (sum_by (match_variance d) rows).
Proof.
  intros Hw Hp Hi Hst H d d' ls.
  pose proof (post_purchase_invoice_keeps k caller by_) as K.
  apply post_purchase_invoice_ok in H as (_ & i' & Hi' & _ & [[_ E]|(_ & _ & H)]);
    rewrite Hi in Hi'; injection Hi' as <-; [done|].
  pose proof (post_draft_ok _ _ _ _ _ _ Hp Hi Hst eq_refl H) as Hp'.
  destruct (posted_draft k i by_ s s' Hw Hp Hi H) as (rows & now & e & Hr & Em & [Hit Hb] & Ei & El & Hnet).
  exists rows, now, e. split; [exact Hr|]. split; [exact Em|]. split; [|split].
  - intros j item Hj. destruct (requested_total d k j) as [Ht _].
    assert (Hj' : row_of (purchase_order_items d') j = Some (add_invoiced (lines_total d k j) item))
      by (unfold d'; rewrite Hit; fold d; by rewrite Ht, Hj).
    split; [done|]. exact (proj2 (mw_invoiced _ (pa_matched _ Hp') j _ Hj')).
  - unfold d'. rewrite Ei, row_of_set, Hi. by rewrite bool_decide_eq_true_2.
  - unfold d'. rewrite !Hnet, !invoice_lines_net. simpl.
    split; [|split]; rewrite ?on_account_same; rewrite ?on_account_other by done; simpl; try lia.
    + destruct (Z.ltb_spec 0 (_ledger_quantize (sum_by match_value rows))); lia.
    + fold d. lia.
Qed.

Lemma post_purchase_invoice_effect_witness :
  let s' := after (post_purchase_invoice 1 (Some 1) (Some 2)) demo_invoiced in
  exists rows e, matches_lines (working demo_invoiced) (lines_of_invoice (working demo_invoiced) 1) rows /\
    posted_net (working s') e ACCOUNT_ACCOUNTS_PAYABLE = -9000000.
Proof.
  intros s'. destruct demo_invoiced_wf as (_ & Hw & Hp).
  assert (exists i, row_of (purchase_invoices (working demo_invoiced)) 1 = Some i /\
            inv_status i = INV_DRAFT /\ inv_grand_total i = 900) as (i & Hi & Hst & Hg)
    by (vm_compute; eexists; split_and!; reflexivity).
  assert (H : post_purchase_invoice 1 (Some 1) (Some 2) demo_invoiced = (Ok 1, s'))
    by (refine (after_ok (post_purchase_invoice 1 (Some 1) (Some 2)) demo_invoiced 1 _); vm_compute; reflexivity).
  destruct (post_purchase_invoice_effect 1 (Some 1) (Some 2) demo_invoiced 1 s' i Hw Hp Hi Hst H)
    as (rows & now & e & Hr & _ & _ & _ & Hap & _).
  exists rows, e. split; [exact Hr|]. rewrite Hap, Hg. reflexivity.
Defined.

(** ** Voiding *)






