(* ===== verification/PayablesProperties.v ===== *)
(** * The life of an invoice, and of what settles it

    How each operation of accounts payable may move an invoice, what a reversed
    payment leaves behind, and what a request submitted twice does. *)

From S2P Require Import Prelude Fixed Session Schema Tables Platform Chart Fixture Journal.
From S2P Require Import Posting Books Matching Purchasing Settlement Payables PayablesInvariant.
From S2P Require Import PayablesOps Interplay PayablesFixture InvoicePosting.

(** ** How an invoice moves *)

(** What a successful operation may do to invoice [k]. *)
Definition invoice_moved (op : payables_op) (k : Z) (i i' : PurchaseInvoice) : Prop :=
  i' = i \/
  match op with
  | A_create_invoice _ _ _ => False
  | A_post_invoice j _ _ => j = k /\ inv_status i = INV_DRAFT /\ exists now, i' = with_posted_at now i
  | A_void_invoice j _ _ =>
      j = k /\ (inv_status i = INV_DRAFT \/ inv_status i = INV_POSTED) /\ exists now, i' = with_voided_at now i
  | A_pay _ _ _ => outstanding_status (inv_status i) = true /\
      exists x, 0 < x <= _outstanding_balance i /\ i' = pay_invoice x i
  | A_credit _ _ _ _ => outstanding_status (inv_status i) = true /\
      exists x, 0 < x <= _outstanding_balance i /\ i' = credit_invoice x i
  | A_reverse_payment _ _ _ _ => non_accounting_status (inv_status i) = false /\
      exists x, 0 < x <= amount_paid i /\ i' = pay_invoice (- x) i
  | A_reverse_credit _ _ _ _ => non_accounting_status (inv_status i) = false /\
      exists x, 0 < x <= amount_credited i /\ i' = credit_invoice (- x) i
  end.

Definition invoices_moved (op : payables_op) (d d' : database) : Prop :=
  forall k i, row_of (purchase_invoices d) k = Some i ->
    exists i', row_of (purchase_invoices d') k = Some i' /\ invoice_moved op k i i'.

Lemma invoices_same op d d' : purchase_invoices d' = purchase_invoices d -> invoices_moved op d d'.
Proof. intros E k i Hk. exists i. rewrite E. split; [done|by left]. Qed.

Lemma invoice_set op d d' k f :
  purchase_invoices d' = set_row k f (purchase_invoices d) ->
  (forall i, row_of (purchase_invoices d) k = Some i -> invoice_moved op k i (f i)) ->
  invoices_moved op d d'.
Proof.
  intros E Hf j i Hj. rewrite E, row_of_set, Hj. case_bool_decide as Ek; [subst|].
  - exists (f i). split; [done|by apply Hf].
  - exists i. split; [done|by left].
Qed.

Lemma post_fixes_payables q by_ :
  fixes (fun s => (payables_tables (working s), purchasing_tables (working s))) (post q by_).
Proof. destruct q; simpl; unfold_postings; solve_fixes. Qed.

Lemma post_payables q by_ s r s' :
  post q by_ s = (Ok r, s') ->
  payables_tables (working s') = payables_tables (working s) /\
  purchasing_tables (working s') = purchasing_tables (working s).
Proof. intros H. apply pair_equal_spec. exact (fixes_run _ _ _ _ _ (post_fixes_payables q by_) H). Qed.

(** Settling by allocations to distinct, allocatable invoices. *)
Lemma settled_moved c i0 als p d t' k i :
  settled_rows c 1 (map (alloc_of i0) als) (purchase_invoices d) t' ->
  NoDup (map al_invoice_id als) -> (forall a, a ∈ als -> allocatable d p a) ->
  row_of (purchase_invoices d) k = Some i ->
  exists i', row_of t' k = Some i' /\
    (i' = i \/ outstanding_status (inv_status i) = true /\
               exists x, 0 < x <= _outstanding_balance i /\ i' = settle c x i).
Proof.
  intros Hr Hnd Hal Hi. rewrite (Hr k), Hi. eexists. split; [reflexivity|]. unfold settled_with.
  destruct (existsb _ _) eqn:E; [right|by left].
  apply targeted in E as (x & (a & -> & Ha)%list_elem_of_fmap & <-). simpl in *.
  destruct (Hal a Ha) as (j & Hj & _ & Ho & Hb). rewrite Hi in Hj. injection Hj as <-.
  split; [done|]. exists (al_amount a). split; [done|]. by rewrite Z.mul_1_l, to_target_alloc.
Qed.

(** Undoing a live document. *)
Lemma unsettled_moved c d i0 x l t' k i :
  settlement_wf d -> row_of (docs (side_of c d)) i0 = Some x -> live (side_of c d) i0 = true ->
  l ≡ₚ allocs_of (side_of c d) i0 -> settled_rows c (-1) l (purchase_invoices d) t' ->
  row_of (purchase_invoices d) k = Some i ->
  exists i', row_of t' k = Some i' /\
    (i' = i \/ non_accounting_status (inv_status i) = false /\
               exists y, 0 < y <= amount_of c i /\ i' = settle c (- y) i).
Proof.
  intros W Hx Hl Hp Hr Hi. rewrite (Hr k), Hi. eexists. split; [reflexivity|]. unfold settled_with.
  destruct (existsb _ _) eqn:E; [right|by left].
  apply targeted in E as (a & Ha & <-). pose proof (se_side _ W c) as Hs.
  assert (Ht : to_target l (al_target a) = allocated_to (side_of c d) i0 (al_target a)).
  { rewrite <- allocs_of_total. unfold to_target, sum_where. by apply sum_by_perm. }
  rewrite Hp in Ha. apply elem_allocs_of in Ha as [Ha Hd].
  assert (Hy : 0 < allocated_to (side_of c d) i0 (al_target a) <= amount_of c i).
  { rewrite (se_amount _ W c _ _ Hi). split; [|by eapply allocated_to_live].
    pose proof (allocated_to_ge _ _ _ Hs Ha) as Hge. rewrite Hd in Hge. lia. }
  split.
  - apply (settle_down_ok c (allocated_to (side_of c d) i0 (al_target a))); [by apply (se_status _ W _ _ Hi)|done|..].
    + by apply (settlement_nonneg d _ i BY_PAYMENT W Hi).
    + by apply (settlement_nonneg d _ i BY_CREDIT W Hi).
  - exists (allocated_to (side_of c d) i0 (al_target a)). split; [done|]. rewrite Ht. f_equal; lia.
Qed.

Lemma void_moves k caller by_ s r s' :
  void_purchase_invoice k caller by_ s = (Ok r, s') ->
  invoices_moved (A_void_invoice k caller by_) (working s) (working s').
Proof.
  intros H. unfold void_purchase_invoice in H.
  apply bind_ok in H as (i & s1 & H1 & H). apply get_purchase_invoice_ok in H1 as [-> Hi].
  apply bind_ok in H as (? & s1 & H1 & H). apply enforce_store_access_ok in H1 as [_ <-].
  destruct (inv_status i) eqn:Hst; try done.
  - unfold mark_voided in H. apply bind_ok in H as ([] & s1 & H1 & H).
    apply bind_ok in H1 as (now & s2 & H2 & H1). apply asks_ok in H2 as [_ <-].
    apply bind_ok in H1 as ([] & s2 & H2 & H1). apply update_ok in H2 as (row & _ & _ & _ & ->).
    apply log_event_ok in H1 as ->.
    apply bind_ok in H as ([] & s3 & H3 & H). apply ret_ok in H as [_ <-]. apply commit_ok in H3 as (_ & Ec & _).
    apply (invoice_set _ _ _ k (with_voided_at now)); [by rewrite Ec|]. intros j Hj. rewrite Hi in Hj. injection Hj as <-.
    right. split_and!; [done|by left|by exists now].
  - apply unpost_writes in H as (_ & amounts & items & e & s2 & now & log & _ & _ & H5 & _ & ->).
    apply post_payables in H5 as [E _].
    apply (invoice_set _ _ _ k (with_voided_at now)); [simpl; by rewrite E|].
    intros j Hj. rewrite Hi in Hj. injection Hj as <-. right. split_and!; [done|by right|by exists now].
  - apply ret_ok in H as [_ <-]. by apply invoices_same.
Qed.

Lemma post_invoice_moves k caller by_ s r s' :
  post_purchase_invoice k caller by_ s = (Ok r, s') ->
  invoices_moved (A_post_invoice k caller by_) (working s) (working s').
Proof.
  intros H. apply post_purchase_invoice_ok in H as (_ & i & Hi & _ & [[-> _]|(Hst & _ & H)]);
    [by apply invoices_same|].
  apply post_draft_writes in H as (t & s1 & items & now & log & s2 & e & H1 & _ & -> & _ & H5).
  apply post_payables in H5 as [E _].
  apply (fixes_run _ _ _ _ _ (match_lines_fixes _ _)) in H1. unfold payables_frame in H1.
  apply pair_equal_spec in H1 as [_ [= Ei _ _]].
  apply (invoice_set _ _ _ k (with_posted_at now)); [rewrite E; simpl; by rewrite Ei|].
  intros j Hj. rewrite Hi in Hj. injection Hj as <-. right. split_and!; [done|done|by exists now].
Qed.

Lemma create_invoice_moves a ls caller s r s' :
  committed s = working s -> create_purchase_invoice a ls caller s = (Ok r, s') ->
  invoices_moved (A_create_invoice a ls caller) (working s) (working s').
Proof.
  intros Hc H. unfold create_purchase_invoice in H.
  apply bind_ok in H as (o & s1 & H1 & H). apply reads_run in H1 as ->; [|solve_fixes].
  destruct o; [apply ret_ok in H as [_ <-]; by apply invoices_same|].
  apply bind_ok in H as (? & s1 & H1 & H). apply enforce_store_access_ok in H1 as [_ <-].
  apply bind_ok in H as (ck & s1 & H1 & H). apply reads_run in H1 as ->; [|solve_fixes].
  apply bind_ok in H as (now & s1 & H1 & H). apply asks_ok in H1 as [_ <-]. cbv zeta in H.
  apply bind_ok in H as ([k new] & s1 & H1 & H).
  apply insert_invoice_ok in H1 as [(-> & -> & ->)|(-> & -> & _)]; simpl in H.
  - apply bind_ok in H as ([] & s2 & H2 & H). apply bind_ok in H as ([] & s3 & H3 & H).
    apply ret_ok in H as [_ <-]. apply commit_ok in H3 as (_ & Ec & _). unfold write_draft in H2.
    apply bind_ok in H2 as ([] & s4 & H3 & H2).
    apply (fixes_run (fun s => purchase_invoices (working s))) in H3; [|unfold write_invoice_line; solve_fixes].
    apply bind_ok in H2 as ([] & s5 & H4 & H2). apply update_ok in H4 as (row & _ & _ & _ & ->).
    apply log_event_ok in H2 as ->. simpl in *.
    intros k i Hk. exists i. split; [|by left]. rewrite Ec. simpl. rewrite H3. simpl. rewrite row_of_set.
    rewrite bool_decide_eq_false_2; [by apply row_of_app_old|].
    intros <-. by rewrite row_of_next in Hk.
  - apply ret_ok in H as [_ <-]. simpl. rewrite Hc. by apply invoices_same.
Qed.

Lemma replayed_same s s' : committed s = working s -> replayed s s' -> working s' = working s.
Proof. by intros Hc [->| ->]. Qed.

Lemma pay_moves a als caller s r s' :
  committed s = working s -> record_supplier_payment a als caller s = (Ok r, s') ->
  invoices_moved (A_pay a als caller) (working s) (working s').
Proof.
  intros Hc H.
  apply record_supplier_payment_ok in H as [[Hr _]|(m & _ & _ & _ & _ & _ & (_ & Hnd & Hal) & -> & H)].
  { apply invoices_same. by rewrite (replayed_same _ _ Hc Hr). }
  eapply write_payment_details_ok in H; [|reflexivity]. destruct H as (s1 & e & _ & H & Hw).
  apply post_payables in H as [E _]. destruct Hw as (_ & _ & _ & _ & _ & _ & Hrows).
  intros k i Hi. rewrite E. exact (settled_moved BY_PAYMENT _ _ _ _ _ k i Hrows Hnd Hal Hi).
Qed.

Lemma credit_moves a ls als caller s r s' :
  committed s = working s -> create_supplier_credit_note a ls als caller s = (Ok r, s') ->
  invoices_moved (A_credit a ls als caller) (working s) (working s').
Proof.
  intros Hc H.
  apply create_supplier_credit_note_ok in H
    as [[Hr _]|(re & _ & _ & _ & _ & _ & _ & _ & (_ & Hnd & Hal) & -> & H)].
  { apply invoices_same. by rewrite (replayed_same _ _ Hc Hr). }
  eapply write_note_details_ok in H; [|reflexivity]. destruct H as (s1 & e & _ & H & Hw).
  apply post_payables in H as [E _]. destruct Hw as (_ & _ & _ & _ & _ & _ & Hrows).
  intros k i Hi. rewrite E. exact (settled_moved BY_CREDIT _ _ _ _ _ k i Hrows Hnd Hal Hi).
Qed.

Lemma reverse_payment_moves j reason caller by_ s r s' :
  payables_wf (working s) -> reverse_supplier_payment j reason caller by_ s = (Ok r, s') ->
  invoices_moved (A_reverse_payment j reason caller by_) (working s) (working s').
Proof.
  intros [W _ _] H.
  apply reverse_supplier_payment_ok in H as (_ & p & Hp & _ & [[-> _]|(Hl & actor & s1 & je & s2 & rv & invs & log
    & _ & -> & Hrows & H & -> & _)]); [by apply invoices_same|].
  apply post_payables in H as [E _]. intros k i Hi. simpl. rewrite E.
  eapply (unsettled_moved BY_PAYMENT); [exact W| |exact Hl|apply payment_allocs_perm|exact Hrows|exact Hi].
  simpl. rewrite row_of_map, Hp. reflexivity.
Qed.

Lemma reverse_note_moves j reason caller by_ s r s' :
  payables_wf (working s) -> reverse_supplier_credit_note j reason caller by_ s = (Ok r, s') ->
  invoices_moved (A_reverse_credit j reason caller by_) (working s) (working s').
Proof.
  intros [W _ _] H.
  apply reverse_supplier_credit_note_ok in H as (_ & n & Hn & _ & [[-> _]|(Hl & actor & s1 & je & s2 & rv & invs & log
    & _ & -> & Hrows & H & -> & _)]); [by apply invoices_same|].
  apply post_payables in H as [E _]. intros k i Hi. simpl. rewrite E.
  eapply (unsettled_moved BY_CREDIT); [exact W| |exact Hl|apply credit_allocs_perm|exact Hrows|exact Hi].
  simpl. rewrite row_of_map, Hn. reflexivity.
Qed.

(** The invoice state machine: no operation ever removes an invoice or changes
    its parties, amounts or number; only a draft can be posted, only a draft or a
    posted invoice nothing is settled on can be voided, and a voided invoice stays
    as it is; payments and credit notes go to outstanding invoices only, within the
    outstanding balance, and reversals take back no more than was settled; the
    status afterwards is the one the settled amount dictates. *)
Theorem payables_transitions op s r s' k i :
  payables_wf (working s) -> committed s = working s -> run_payables_op op s = (Ok r, s') ->
  row_of (purchase_invoices (working s)) k = Some i ->
  exists i', row_of (purchase_invoices (working s')) k = Some i' /\ invoice_moved op k i i' /\
    parties_of i' = parties_of i /\ inv_grand_total i' = inv_grand_total i /\
    invoice_number i' = invoice_number i /\
    (inv_status i = INV_VOIDED -> i' = i) /\ settled_ok i'.
Proof.
  intros Hw Hc H Hi.
  assert (Hm : invoices_moved op (working s) (working s')).
  { destruct op; simpl in H.
    - by apply (create_invoice_moves _ _ _ _ r).
    - by apply (post_invoice_moves _ _ _ _ r).
    - by apply (void_moves _ _ _ _ r).
    - by apply (pay_moves _ _ _ _ r).
    - by apply (reverse_payment_moves _ _ _ _ _ r).
    - by apply (credit_moves _ _ _ _ _ r).
    - by apply (reverse_note_moves _ _ _ _ _ r). }
  assert (Hw' : payables_wf (working s')).
  { refine (proj2 (keeps_ok _ _ _ _ _ (payables_keeps_wf op) _ Hw H)). by rewrite Hc. }
  destruct (Hm k i Hi) as (i' & Hi' & Hmv). exists i'.
  split; [done|]. split; [done|].
  pose proof (se_status _ (pa_settlement _ Hw') k i' Hi') as Hok.
  destruct Hmv as [->|Hmv]; [by split_and!|].
  destruct op; simpl in Hmv; [done|..];
    repeat match goal with
           | Hx : _ /\ _ |- _ => destruct Hx
           | Hx : exists _, _ |- _ => destruct Hx
           end; subst; (split_and!; [done..| |exact Hok]); intros E; rewrite E in *; simpl in *;
    try done; match goal with Hx : _ \/ _ |- _ => by destruct Hx end.
Qed.

Lemma payables_transitions_witness :
  exists i', row_of (purchase_invoices (working (after (reverse_supplier_payment 1 "typo" (Some 1) (Some 2)) demo_paid))) 1
             = Some i' /\ inv_status i' = INV_POSTED /\ settled_ok i'.
Proof.
  destruct demo_paid_wf as (_ & _ & Hp).
  assert (exists i, row_of (purchase_invoices (working demo_paid)) 1 = Some i) as (i & Hi)
    by (vm_compute; eexists; reflexivity).
  assert (H : run_payables_op (A_reverse_payment 1 "typo" (Some 1) (Some 2)) demo_paid
              = (Ok 1, after (reverse_supplier_payment 1 "typo" (Some 1) (Some 2)) demo_paid))
    by (refine (after_ok (reverse_supplier_payment 1 "typo" (Some 1) (Some 2)) demo_paid 1 _); vm_compute; reflexivity).
  destruct (payables_transitions (A_reverse_payment 1 "typo" (Some 1) (Some 2)) demo_paid 1 _ 1 i Hp
              (demo_op_clean _ _) H Hi) as (i' & Hi' & _ & _ & _ & _ & _ & Hok).
  exists i'. split; [exact Hi'|]. split; [|exact Hok].
  assert (Hs : inv_status <$> row_of (purchase_invoices (working (after
    (reverse_supplier_payment 1 "typo" (Some 1) (Some 2)) demo_paid))) 1 = Some INV_POSTED) by (vm_compute; reflexivity).
  rewrite Hi' in Hs. by injection Hs.
Defined.

(** ** Settling and undoing *)

Lemma settle_zero c i :
  settled_ok i -> outstanding_status (inv_status i) = true -> 0 < _outstanding_balance i -> settle c 0 i = i.
Proof.
  intros Hok Ho Hb. assert (Es : settled_status i = inv_status i).
  { unfold settled_status, settled_ok, _outstanding_balance in *.
    destruct (inv_status i); try done; [destruct Hok as [Hs _]|];
      destruct (Z.leb_spec (inv_grand_total i) (amount_paid i + amount_credited i)); try lia;
      destruct (Z.ltb_spec 0 (amount_paid i + amount_credited i)); try lia; done. }
  destruct c; simpl; unfold pay_invoice, credit_invoice, _recompute_invoice_status; rewrite Z.add_0_r;
    assert (with_settled (amount_paid i) (amount_credited i) i = i) as -> by (by destruct i);
    rewrite Es; by destruct i.
Qed.

(** Allocations made, then undone, leave every invoice as it was. *)
Lemma settle_round_trip c i0 als p l d t1 t2 :
  settlement_wf d -> NoDup (map al_invoice_id als) -> (forall a, a ∈ als -> allocatable d p a) ->
  l ≡ₚ map (alloc_of i0) als ->
  settled_rows c 1 (map (alloc_of i0) als) (purchase_invoices d) t1 -> settled_rows c (-1) l t1 t2 ->
  t2 = purchase_invoices d.
Proof.
  intros W Hnd Hal Hp H1 H2. rewrite <- (map_id t2), <- (map_id (purchase_invoices d)).
  apply rows_map_eq. intros k. rewrite (H2 k), (H1 k).
  destruct (row_of (purchase_invoices d) k) as [i|] eqn:Hi; simpl; [|done]. f_equal.
  assert (Et : to_target l k = to_target (map (alloc_of i0) als) k) by (by apply sum_by_perm).
  assert (Ee : existsb (fun a => al_target a =? k) l = existsb (fun a => al_target a =? k) (map (alloc_of i0) als)).
  { apply eq_true_iff_eq. rewrite !targeted. split; intros (x & Hx & Hk); exists x; (split; [|done]).
    - by rewrite Hp in Hx.
    - by rewrite Hp. }
  unfold settled_with. rewrite Ee, Et. clear Ee.
  destruct (existsb _ (map _ _)) eqn:E; [|done].
  apply targeted in E as (x & (a & -> & Ha)%list_elem_of_fmap & <-). simpl in *.
  destruct (Hal a Ha) as (j & Hj & _ & Ho & Hb). rewrite Hi in Hj. injection Hj as <-.
  rewrite settle_settle. replace (_ + _) with 0 by lia.
  apply settle_zero; [by apply (se_status _ W _ _ Hi)|done|lia].
Qed.

(** The allocations of a document just added. *)
Lemma allocs_of_new inv s x new :
  side_wf inv s -> (forall a, a ∈ new -> al_doc a = next_id (docs s)) ->
  allocs_of (add_doc s x new) (next_id (docs s)) = new /\ live (add_doc s x new) (next_id (docs s)) = true.
Proof.
  intros Hs Hnew. split; [|exact (live_new _ _ Hs)]. unfold allocs_of. simpl.
  rewrite List.filter_app, filter_none, filter_all; [done|..]; intros a Ha.
  - apply Z.eqb_eq. by apply Hnew.
  - apply Z.eqb_neq. by eapply alloc_old.
Qed.

(** A request that settles invoices under a fresh key, and the reversal of the
    document it created. *)
Definition settled_then_undone (d : database) (op op' : payables_op) (i : Z) : Prop :=
  match op, op' with
  | A_pay a _ _, A_reverse_payment j _ _ _ =>
      j = i /\ select (fun _ p => payment_under (pm_key a) p) (supplier_payments d) = []
  | A_credit a _ _ _, A_reverse_credit j _ _ _ =>
      j = i /\ select (fun _ n => note_under (na_key a) n) (credit_notes d) = []
  | _, _ => False
  end.

Lemma pay_round_trip a als c1 reason c2 b2 s i r s1 s2 :
  payables_wf (working s) -> committed s = working s ->
  select (fun _ p => payment_under (pm_key a) p) (supplier_payments (working s)) = [] ->
  record_supplier_payment a als c1 s = (Ok i, s1) ->
  reverse_supplier_payment i reason c2 b2 s1 = (Ok r, s2) ->
  purchase_invoices (working s2) = purchase_invoices (working s) /\ live (payment_side (working s2)) i = false.
Proof.
  intros Hw Hc Hk H1 H2.
  apply record_supplier_payment_ok in H1 as [[Hr (p & Hp)]|(m & _ & _ & _ & _ & _ & (_ & Hnd & Hal) & -> & H1)].
  { rewrite (replayed_same _ _ Hc Hr), Hk in Hp. done. }
  eapply write_payment_details_ok in H1; [|reflexivity]. destruct H1 as (s0 & e & _ & H1 & Hwr).
  apply post_payables in H1 as [E0 E0'].
  assert (Hwr' : payment_written a m (next_id (supplier_payments (working s))) (utc_now (env s)) als
                   (working s) (working s1)) by (unfold payment_written in *; rewrite E0, E0'; exact Hwr).
  destruct (payment_side_written _ _ _ _ _ _ _ Hwr') as [Es _].
  destruct Hwr' as (_ & _ & _ & _ & _ & _ & Hrows).
  assert (Hi : next_id (supplier_payments (working s)) = next_id (docs (side_of BY_PAYMENT (working s))))
    by (simpl; unfold next_id; by rewrite length_map).
  destruct (allocs_of_new _ _ {| doc_parties := (pm_store_id a, pm_supplier_id a); doc_total := pm_amount a |}
    (map (alloc_of (next_id (supplier_payments (working s)))) als) (se_side _ (pa_settlement _ Hw) BY_PAYMENT))
    as [Ha Hl]; [intros x (y & -> & _)%list_elem_of_fmap; exact Hi|].
  rewrite <- Hi, <- Es in Ha, Hl.
  apply reverse_supplier_payment_ok in H2 as (_ & p & Hp & _ & [[-> Hnl]|(_ & actor & s3 & je & s4 & rv & invs & log
    & _ & -> & Hrows2 & H & -> & Hrv & _)]); [simpl in Hl; congruence|].
  apply post_payables in H as [E _]. split.
  - simpl. rewrite E. simpl.
    eapply (settle_round_trip BY_PAYMENT); [exact (pa_settlement _ Hw)|exact Hnd|exact Hal| |exact Hrows|exact Hrows2].
    by rewrite payment_allocs_perm, Ha.
  - unfold payment_side, live. simpl. rewrite E. simpl. rewrite map_app, existsb_app. simpl.
    by rewrite Hrv, Z.eqb_refl, orb_true_r.
Qed.

Lemma credit_round_trip a ls als c1 reason c2 b2 s i r s1 s2 :
  payables_wf (working s) -> committed s = working s ->
  select (fun _ n => note_under (na_key a) n) (credit_notes (working s)) = [] ->
  create_supplier_credit_note a ls als c1 s = (Ok i, s1) ->
  reverse_supplier_credit_note i reason c2 b2 s1 = (Ok r, s2) ->
  purchase_invoices (working s2) = purchase_invoices (working s) /\ live (credit_side (working s2)) i = false.
Proof.
  intros Hw Hc Hk H1 H2.
  apply create_supplier_credit_note_ok in H1
    as [[Hr (n & Hn)]|(re & _ & _ & _ & _ & _ & _ & _ & (_ & Hnd & Hal) & -> & H1)].
  { rewrite (replayed_same _ _ Hc Hr), Hk in Hn. done. }
  eapply write_note_details_ok in H1; [|reflexivity]. destruct H1 as (s0 & e & _ & H1 & Hwr).
  apply post_payables in H1 as [E0 E0'].
  assert (Hwr' : note_written a re (sum_by nl_amount ls) (next_id (credit_notes (working s))) (utc_now (env s)) als
                   (working s) (working s1)) by (unfold note_written in *; rewrite E0, E0'; exact Hwr).
  destruct (credit_side_written _ _ _ _ _ _ _ _ eq_refl Hwr') as [Es _].
  destruct Hwr' as (_ & _ & _ & _ & _ & _ & Hrows).
  assert (Hi : next_id (credit_notes (working s)) = next_id (docs (side_of BY_CREDIT (working s))))
    by (simpl; unfold next_id; by rewrite length_map).
  destruct (allocs_of_new _ _ {| doc_parties := (na_store_id a, na_supplier_id a); doc_total := sum_by nl_amount ls |}
    (map (alloc_of (next_id (credit_notes (working s)))) als) (se_side _ (pa_settlement _ Hw) BY_CREDIT))
    as [Ha Hl]; [intros x (y & -> & _)%list_elem_of_fmap; exact Hi|].
  rewrite <- Hi, <- Es in Ha, Hl.
  apply reverse_supplier_credit_note_ok in H2 as (_ & n & Hn & _ & [[-> Hnl]|(_ & actor & s3 & je & s4 & rv & invs & log
    & _ & -> & Hrows2 & H & -> & Hrv & _)]); [simpl in Hl; congruence|].
  apply post_payables in H as [E _]. split.
  - simpl. rewrite E. simpl.
    eapply (settle_round_trip BY_CREDIT); [exact (pa_settlement _ Hw)|exact Hnd|exact Hal| |exact Hrows|exact Hrows2].
    by rewrite credit_allocs_perm, Ha.
  - unfold credit_side, live. simpl. rewrite E. simpl. rewrite map_app, existsb_app. simpl.
    by rewrite Hrv, Z.eqb_refl, orb_true_r.
Qed.

(** C22: A payment or a credit note recorded and then reversed leaves every invoice
    exactly as it was, status and settled amounts included, and the accounts
    payable account of every choice of stores at its old balance; the document
    stays on record, marked as reversed. *)
Theorem settlement_round_trip op op' i r s s1 s2 :
  payables_wf (working s) -> committed s = working s ->
  settled_then_undone (working s) op op' i ->
  run_payables_op op s = (Ok i, s1) -> run_payables_op op' s1 = (Ok r, s2) ->
  purchase_invoices (working s2) = purchase_invoices (working s) /\
  (forall p, payable_balance (working s2) p = payable_balance (working s) p) /\
  match op with
  | A_pay _ _ _ => live (payment_side (working s2)) i = false
  | _ => live (credit_side (working s2)) i = false
  end.
Proof.
  intros Hw Hc Hu H1 H2.
  assert (Hw1 : payables_wf (committed s1) /\ payables_wf (working s1)).
  { refine (keeps_ok _ _ _ _ _ (payables_keeps_wf op) _ Hw H1). by rewrite Hc. }
  assert (Hw2 : payables_wf (working s2)).
  { exact (proj2 (keeps_ok _ _ _ _ _ (payables_keeps_wf op') (proj1 Hw1) (proj2 Hw1) H2)). }
  assert (Hr : purchase_invoices (working s2) = purchase_invoices (working s) /\
    match op with
    | A_pay _ _ _ => live (payment_side (working s2)) i = false
    | _ => live (credit_side (working s2)) i = false
    end).
  { destruct op, op'; try done; destruct Hu as [-> Hk]; simpl in H1, H2.
    - by eapply pay_round_trip.
    - by eapply credit_round_trip. }
  destruct Hr as [Ei Hl]. split; [done|]. split; [|done]. intros p.
  by rewrite (py_balance _ (pa_payable _ Hw2)), (py_balance _ (pa_payable _ Hw)), Ei.
Qed.

Lemma settlement_round_trip_witness :
  let s1 := after (record_supplier_payment demo_payment demo_allocations (Some 1)) demo_posted in
  let s2 := after (reverse_supplier_payment 1 "typo" (Some 1) (Some 2)) s1 in
  map inv_status (purchase_invoices (working s1)) = [INV_PARTIALLY_PAID] /\
  purchase_invoices (working s2) = purchase_invoices (working demo_posted).
Proof.
  intros s1 s2. split; [vm_compute; reflexivity|]. destruct demo_posted_wf as (_ & _ & Hp).
  assert (H1 : record_supplier_payment demo_payment demo_allocations (Some 1) demo_posted = (Ok 1, s1))
    by (refine (after_ok (record_supplier_payment demo_payment demo_allocations (Some 1)) demo_posted 1 _);
        vm_compute; reflexivity).
  assert (H2 : reverse_supplier_payment 1 "typo" (Some 1) (Some 2) s1 = (Ok 1, s2))
    by (refine (after_ok (reverse_supplier_payment 1 "typo" (Some 1) (Some 2)) s1 1 _); vm_compute; reflexivity).
  assert (Hk : settled_then_undone (working demo_posted) (A_pay demo_payment demo_allocations (Some 1))
    (A_reverse_payment 1 "typo" (Some 1) (Some 2)) 1) by (split; [reflexivity|vm_compute; reflexivity]).
  exact (proj1 (settlement_round_trip (A_pay demo_payment demo_allocations (Some 1))
    (A_reverse_payment 1 "typo" (Some 1) (Some 2)) 1 1 demo_posted s1 s2 Hp (demo_op_clean _ _) Hk H1 H2)).
Defined.
