(* ===== verification/PayablesRetries.v ===== *)
(** * Requests of accounts payable submitted twice

    Every operation of the module recognises its own repetition: the creating
    ones by their client transaction id, the others by the state they left. *)

From S2P Require Import Prelude Fixed Session Schema Tables Platform Chart Fixture Journal.
From S2P Require Import Posting Books Matching Purchasing Settlement Payables PayablesInvariant.
From S2P Require Import PayablesOps Interplay PayablesFixture PayablesProperties.

(** ** Programs that neither read nor write *)

Definition stateless {A} (m : Tx A) : Prop := exists o, forall s, m s = (o, s).

Lemma stateless_ret {A} (a : A) : stateless (mret a).
Proof. by exists (Ok a). Qed.

Lemma stateless_raise {A} e : stateless (raise e : Tx A).
Proof. by exists (Raise e). Qed.

Lemma stateless_raise_if b e : stateless (raise_if b e).
Proof. destruct b; [apply stateless_raise|apply stateless_ret]. Qed.

Lemma stateless_bind {A B} (m : Tx A) (f : A -> Tx B) :
  stateless m -> (forall a, stateless (f a)) -> stateless (m ≫= f).
Proof.
  intros [[a|e] Hm] Hf.
  - destruct (Hf a) as [o Ho]. exists o. intros s. by rewrite (bind_ok_intro _ _ _ _ _ (Hm s)).
  - exists (Raise e). intros s. by rewrite (bind_raise _ _ _ _ _ (Hm s)).
Qed.

Lemma stateless_for_each {A} (f : A -> Tx unit) l : (forall x, stateless (f x)) -> stateless (for_each f l).
Proof.
  intros Hf. induction l as [|x l IH]; simpl; [apply stateless_ret|].
  apply stateless_bind; [done|by intros []].
Qed.

Lemma stateless_of_option {A} (o : option A) e : stateless (of_option o e).
Proof. destruct o; [apply stateless_ret|apply stateless_raise]. Qed.

#[local] Hint Resolve stateless_ret stateless_raise stateless_raise_if stateless_bind stateless_for_each
  stateless_of_option : core.

Lemma stateless_again {A} (m : Tx A) s a s1 s' : stateless m -> m s = (Ok a, s1) -> m s' = (Ok a, s').
Proof. intros [o Ho]. rewrite (Ho s), (Ho s'). by intros [= -> _]. Qed.

Lemma check_allocations_stateless als : stateless (check_allocations als).
Proof. unfold check_allocations. eauto 10. Qed.

Lemma check_note_input_stateless a re ls als : stateless (check_note_input a re ls als).
Proof.
  pose proof (check_allocations_stateless als). unfold check_note_input, check_reason.
  apply stateless_bind; [destruct re, (na_return_id a)|]; eauto 10.
Qed.

Lemma with_working_same (s : session database) : with_working (working s) s = s.
Proof. by destruct s. Qed.

Lemma replayed_clean s s' : committed s = working s -> replayed s s' -> s' = s.
Proof. intros Hc [->| ->]; [done|]. by rewrite Hc, with_working_same. Qed.

(** ** Rows just written *)

Lemma set_row_new {R} (t : list R) r f : set_row (next_id t) f (t ++ [r]) = t ++ [f r].
Proof.
  rewrite <- (map_id (set_row _ _ _)), <- (map_id (t ++ [f r])). apply rows_map_eq. intros k.
  rewrite row_of_set. case_bool_decide as E.
  - subst. by rewrite !row_of_new.
  - f_equal. unfold row_of, next_id in *. destruct (Z.ltb_spec 0 k); [|done].
    destruct (decide (Z.to_nat (k - 1) < length t)%nat).
    + by rewrite !lookup_app_l.
    + rewrite !lookup_ge_None_2; [done|rewrite length_app; simpl; lia..].
Qed.

(** The children, in a table whose parents exist, of a parent just added. *)
Lemma children_of_new {R X} (key : R -> Z) (view : R -> X) (t new : list R) i :
  (forall r, r ∈ t -> key r <> i) -> (forall r, r ∈ new -> key r = i) ->
  map (fun x => view x.2) (select (fun _ r => key r =? i) (t ++ new)) = map view new.
Proof.
  intros Hold Hnew. rewrite (select_map (fun r => key r =? i) view).
  rewrite List.filter_app, (filter_none _ t), filter_all; [done|..]; intros r Hr.
  - by apply Z.eqb_eq, Hnew.
  - by apply Z.eqb_neq, Hold.
Qed.

(** ** Payments *)

Lemma pay_again a als caller s i s' :
  payables_wf (working s) -> committed s = working s ->
  record_supplier_payment a als caller s = (Ok i, s') -> record_supplier_payment a als caller s' = (Ok i, s').
Proof.
  intros Hw Hc H. pose proof H as H0.
  apply record_supplier_payment_ok in H
    as [[Hr _]|(m & Hm & Ham & Hsum & _ & Hk & _ & -> & H)]; [by rewrite (replayed_clean _ _ Hc Hr) in *|].
  assert (Hck : check_allocations als s' = (Ok tt, s')).
  { unfold record_supplier_payment in H0.
    apply bind_ok in H0 as (? & s1 & H1 & H0). apply of_option_ok in H1 as [_ <-].
    apply bind_ok in H0 as (? & s1 & H1 & H0). apply raise_if_ok in H1 as [_ <-].
    apply bind_ok in H0 as ([] & s1 & H1 & _). by eapply stateless_again; [apply check_allocations_stateless|]. }
  eapply write_payment_details_ok in H; [|reflexivity]. destruct H as (s0 & e & _ & H & Hwr).
  apply post_payables in H as [E E']. destruct Hwr as (E1 & E2 & _). rewrite <- E in E1, E2.
  unfold record_supplier_payment. rewrite Hm. simpl.
  erewrite bind_ok_intro by reflexivity.
  rewrite (proj2 (Z.leb_gt (pm_amount a) 0)) by lia. erewrite bind_ok_intro by reflexivity.
  rewrite (bind_ok_intro _ _ _ _ _ Hck). rewrite Hsum, Z.eqb_refl. simpl. erewrite bind_ok_intro by reflexivity.
  assert (Hmatch : _match_or_reject_idempotent_payment a m als s'
                   = (Ok (Some (next_id (supplier_payments (working s)))), s')); [|by rewrite (bind_ok_intro _ _ _ _ _ Hmatch)].
  assert (Hs : select (fun _ p => payment_under (pm_key a) p) (supplier_payments (working s'))
    = [(next_id (supplier_payments (working s)), new_payment a m (utc_now (env s)))])
    by (rewrite E1; apply select_appended; [exact Hk|by apply bool_decide_eq_true_2]).
  unfold _match_or_reject_idempotent_payment.
  rewrite (bind_ok_intro _ _ _ _ _ (@find_by_run _ SupplierPayment_table (payment_under (pm_key a)) s' _ _ Hs)).
  erewrite bind_ok_intro by reflexivity. simpl. rewrite !Z.eqb_refl, bool_decide_eq_true_2 by done.
  unfold allocations_of_payment. rewrite E2.
  rewrite (children_of_new pa_payment_id (fun x => (pa_invoice_id x, pa_amount x))), !map_map.
  - unfold same_tuples. by rewrite bool_decide_eq_true_2.
  - intros x Hx. pose proof (alloc_old _ _ (alloc_of (pa_payment_id x) {| al_invoice_id := pa_invoice_id x; al_amount := pa_amount x |})
      (se_side _ (pa_settlement _ Hw) BY_PAYMENT)) as Ho. simpl in Ho. unfold next_id in *. rewrite length_map in Ho.
    apply Ho. apply list_elem_of_fmap. by exists x.
  - by intros x (y & -> & _)%list_elem_of_fmap.
Qed.

(** ** Credit notes *)

Lemma write_note_lines_ok a re g i ls als s s' :
  write_note_details a re g i ls als s = (Ok tt, s') ->
  credit_note_lines (working s') = credit_note_lines (working s) ++ map (new_note_line i) ls.
Proof.
  intros H. unfold write_note_details in H. apply bind_ok in H as ([] & s1 & H1 & H).
  assert (E : credit_note_lines (working s1) = credit_note_lines (working s) ++ map (new_note_line i) ls).
  { apply (for_each_ok_ind _ (fun dn s1 => credit_note_lines (working s1)
      = credit_note_lines (working s) ++ map (new_note_line i) dn)) in H1; [done|by rewrite app_nil_r|].
    intros dn l rest s2 s3 _ E H2. apply bind_ok in H2 as (j & s4 & H3 & H2). apply ret_ok in H2 as [_ <-].
    apply add_ok in H3 as (_ & _ & _ & ->). simpl. by rewrite E, map_app, app_assoc. }
  rewrite <- E. refine (fixes_run (fun s => credit_note_lines (working s)) _ _ _ _ _ H).
  unfold apply_credit, post_supplier_credit_note_journal, _post_standard, posted. solve_fixes.
Qed.

(** Every line of a credit note belongs to one. *)
Definition note_lines_refer (d : database) : Prop :=
  forall l, l ∈ credit_note_lines d -> is_Some (row_of (credit_notes d) (cnl_note_id l)).

Lemma credit_again a ls als caller s i s' :
  payables_wf (working s) -> note_lines_refer (working s) -> committed s = working s ->
  create_supplier_credit_note a ls als caller s = (Ok i, s') ->
  create_supplier_credit_note a ls als caller s' = (Ok i, s').
Proof.
  intros Hw Hn Hc H. pose proof H as H0.
  apply create_supplier_credit_note_ok in H
    as [[Hr _]|(re & Hre & _ & _ & _ & _ & _ & Hk & _ & -> & H)]; [by rewrite (replayed_clean _ _ Hc Hr) in *|].
  assert (Hck : check_note_input a re ls als s' = (Ok tt, s')).
  { unfold create_supplier_credit_note in H0.
    apply bind_ok in H0 as (re' & s1 & H1 & H0). apply of_option_ok in H1 as [Hre' <-].
    rewrite Hre in Hre'. injection Hre' as <-.
    apply bind_ok in H0 as ([] & s1 & H1 & _). by eapply stateless_again; [apply check_note_input_stateless|]. }
  pose proof (write_note_lines_ok _ _ _ _ _ _ _ _ H) as El. simpl in El.
  eapply write_note_details_ok in H; [|reflexivity]. destruct H as (s0 & e & _ & H & Hwr).
  apply post_payables in H as [E E']. destruct Hwr as (E1 & E2 & _). rewrite <- E in E1, E2.
  rewrite set_row_new in E1.
  unfold create_supplier_credit_note. rewrite Hre. simpl. erewrite bind_ok_intro by reflexivity.
  rewrite (bind_ok_intro _ _ _ _ _ Hck).
  assert (Hmatch : _match_or_reject_idempotent_credit_note a re ls als s'
                   = (Ok (Some (next_id (credit_notes (working s)))), s')); [|by rewrite (bind_ok_intro _ _ _ _ _ Hmatch)].
  assert (Hs : select (fun _ n => note_under (na_key a) n) (credit_notes (working s'))
    = [(next_id (credit_notes (working s)), with_allocated (sum_by nl_amount ls)
         (new_note a re (sum_by nl_amount ls) (utc_now (env s))))])
    by (rewrite E1; apply select_appended; [exact Hk|by apply bool_decide_eq_true_2]).
  unfold _match_or_reject_idempotent_credit_note.
  rewrite (bind_ok_intro _ _ _ _ _ (@find_by_run _ SupplierCreditNote_table (note_under (na_key a)) s' _ _ Hs)).
  do 2 (erewrite bind_ok_intro by reflexivity). simpl. rewrite Z.eqb_refl, !bool_decide_eq_true_2 by done.
  unfold lines_of_note, allocations_of_note. rewrite El, E2.
  rewrite (children_of_new cnl_note_id (fun x => (cnl_description x, cnl_amount x))),
    (children_of_new ca_note_id (fun x => (ca_invoice_id x, ca_amount x))), !map_map.
  - unfold same_tuples. by rewrite !bool_decide_eq_true_2.
  - intros x Hx. pose proof (alloc_old _ _ (alloc_of (ca_note_id x) {| al_invoice_id := ca_invoice_id x; al_amount := ca_amount x |})
      (se_side _ (pa_settlement _ Hw) BY_CREDIT)) as Ho. simpl in Ho. unfold next_id in *. rewrite length_map in Ho.
    apply Ho. apply list_elem_of_fmap. by exists x.
  - by intros x (y & -> & _)%list_elem_of_fmap.
  - intros x Hx Ex. destruct (Hn x Hx) as [n Hnn]. by rewrite Ex, row_of_next in Hnn.
  - by intros x (y & -> & _)%list_elem_of_fmap.
Qed.

(** ** Invoices *)

Lemma write_draft_writes a k items ls s s' :
  write_draft a k items ls s = (Ok tt, s') ->
  purchase_invoices (working s') = set_row k (with_totals ls) (purchase_invoices (working s)) /\
  exists new, purchase_invoice_lines (working s') = purchase_invoice_lines (working s) ++ new /\
    map line_signature new = map input_signature ls /\ (forall l, l ∈ new -> il_invoice_id l = k).
Proof.
  intros H. unfold write_draft in H.
  apply bind_ok in H as ([] & s1 & H1 & H).
  apply (for_each_ok_ind _ (fun dn s1 => purchase_invoices (working s1) = purchase_invoices (working s) /\
    exists new, purchase_invoice_lines (working s1) = purchase_invoice_lines (working s) ++ new /\
      map line_signature new = map input_signature dn /\ (forall l, l ∈ new -> il_invoice_id l = k))) in H1
    as (Ei & new & El & Hs & Hn).
  - apply bind_ok in H as ([] & s2 & H2 & H). apply update_ok in H2 as (row & _ & _ & _ & ->).
    apply log_event_ok in H as ->. simpl. rewrite Ei. split; [done|]. by exists new.
  - split; [done|]. exists []. rewrite app_nil_r. split_and!; [done..|]. by intros l ?%elem_of_nil.
  - intros dn l rest s2 s3 _ (Ei & new & El & Hs & Hn) H2. unfold write_invoice_line in H2.
    apply bind_ok in H2 as (it & s4 & H3 & H2). apply of_option_ok in H3 as [_ <-].
    apply bind_ok in H2 as (j & s4 & H3 & H2). apply ret_ok in H2 as [_ <-].
    apply add_ok in H3 as (_ & _ & _ & ->). simpl. split; [done|].
    exists (new ++ [new_invoice_line k it l]). rewrite El, app_assoc, !map_app, Hs. split_and!; [done..|].
    intros x [Hx|Hx%list_elem_of_singleton]%elem_of_app; [by apply Hn|by subst].
Qed.

Lemma create_invoice_again a ls caller s i s' :
  payables_wf (working s) -> committed s = working s ->
  create_purchase_invoice a ls caller s = (Ok i, s') -> create_purchase_invoice a ls caller s' = (Ok i, s').
Proof.
  intros Hw Hc H0. pose proof H0 as H. unfold create_purchase_invoice in H.
  apply bind_ok in H as (o & s1 & H1 & H). assert (s1 = s) as -> by (refine (reads_run _ _ _ _ _ H1); solve_fixes).
  destruct o as [j|]; [by apply ret_ok in H as [<- <-]|].
  assert (Hk : select (fun _ x => invoice_under (ia_key a) x) (purchase_invoices (working s)) = []).
  { unfold _match_or_reject_idempotent_invoice in H1. apply bind_ok in H1 as (e & s2 & H2 & H1).
    apply find_by_ok in H2 as [-> H2]. destruct e as [[? ?]|]; [|done].
    apply bind_ok in H1 as (? & ? & _ & H1). by apply bind_ok in H1 as (? & ? & _ & H1). }
  clear H1. apply bind_ok in H as (? & s1 & H1 & H). apply enforce_store_access_ok in H1 as [_ <-].
  apply bind_ok in H as (ck & s1 & H1 & H). apply reads_run in H1 as ->; [|solve_fixes].
  apply bind_ok in H as (now & s1 & H1 & H). apply asks_ok in H1 as [_ <-]. cbv zeta in H.
  apply bind_ok in H as ([k new] & s1 & H1 & H).
  apply insert_invoice_ok in H1 as [(-> & -> & ->)|(-> & -> & _)]; simpl in H;
    [|apply ret_ok in H as [<- <-]; rewrite Hc, with_working_same in *; exact H0].
  apply bind_ok in H as ([] & s2 & H2 & H). apply bind_ok in H as ([] & s3 & H3 & H).
  apply ret_ok in H as [<- <-]. apply commit_ok in H3 as (_ & Ec & _).
  apply write_draft_writes in H2 as (Ei & newl & El & Hsig & Hn). rewrite <- Ec in Ei, El. simpl in Ei, El.
  rewrite set_row_new in Ei.
  unfold create_purchase_invoice, _match_or_reject_idempotent_invoice.
  rewrite (bind_ok_intro _ _ s3 (Some (next_id (purchase_invoices (working s)))) s3); [done|].
  erewrite bind_ok_intro.
  2:{ refine (@find_by_run _ PurchaseInvoice_table (invoice_under (ia_key a)) s3 _ _ _). simpl. rewrite Ei.
      apply select_appended; [exact Hk|by apply bool_decide_eq_true_2]. }
  cbv beta iota. erewrite bind_ok_intro by reflexivity. simpl. rewrite Z.eqb_refl, bool_decide_eq_true_2 by done.
  unfold lines_of_invoice. rewrite El, (children_of_new il_invoice_id line_signature).
  - unfold same_tuples. by rewrite Hsig, bool_decide_eq_true_2.
  - intros l Hl Ex. destruct (mw_lines _ (pa_matched _ Hw) l Hl) as ([inv Hx] & _). by rewrite Ex, row_of_next in Hx.
  - exact Hn.
Qed.

(** ** State changes *)

Lemma get_invoice_run k s i :
  row_of (purchase_invoices (working s)) k = Some i -> get_purchase_invoice k s = (Ok i, s).
Proof. intros Hi. unfold get_purchase_invoice. erewrite bind_ok_intro by reflexivity. simpl. by rewrite Hi. Qed.

Lemma access_run caller st (s : session database) :
  store_denied caller st = false -> enforce_store_access caller st s = (Ok tt, s).
Proof. unfold enforce_store_access. by intros ->. Qed.

Lemma post_again k caller by_ s i s' :
  post_purchase_invoice k caller by_ s = (Ok i, s') -> post_purchase_invoice k caller by_ s' = (Ok i, s').
Proof.
  intros H. apply post_purchase_invoice_ok in H as H'. destruct H' as (-> & inv & Hi & Hd & [[-> _]|(Hst & _ & Hp)]); [done|].
  apply post_draft_writes in Hp as (t & s1 & items & now & log & s2 & e & H1 & _ & -> & _ & H5).
  apply post_payables in H5 as [E _].
  apply (fixes_run _ _ _ _ _ (match_lines_fixes _ _)) in H1. unfold payables_frame in H1.
  apply pair_equal_spec in H1 as [_ [= Ei _ _]].
  assert (Hi' : row_of (purchase_invoices (working s')) k = Some (with_posted_at now inv))
    by (rewrite E; simpl; rewrite Ei, row_of_set, Hi; by rewrite bool_decide_eq_true_2).
  unfold post_purchase_invoice. rewrite (bind_ok_intro _ _ _ _ _ (get_invoice_run _ _ _ Hi')).
  rewrite (bind_ok_intro _ _ _ _ _ (access_run _ _ _ Hd)). by erewrite bind_ok_intro by reflexivity.
Qed.

Lemma voided_again k caller by_ s inv :
  row_of (purchase_invoices (working s)) k = Some inv -> inv_status inv = INV_VOIDED ->
  store_denied caller (inv_store_id inv) = false ->
  void_purchase_invoice k caller by_ s = (Ok k, s).
Proof.
  intros Hi Hst Hd. unfold void_purchase_invoice. rewrite (bind_ok_intro _ _ _ _ _ (get_invoice_run _ _ _ Hi)).
  rewrite (bind_ok_intro _ _ _ _ _ (access_run _ _ _ Hd)). by rewrite Hst.
Qed.

Lemma void_again k caller by_ s i s' :
  void_purchase_invoice k caller by_ s = (Ok i, s') -> void_purchase_invoice k caller by_ s' = (Ok i, s').
Proof.
  intros H0. pose proof H0 as H. unfold void_purchase_invoice in H.
  apply bind_ok in H as (inv & s1 & H1 & H). apply get_purchase_invoice_ok in H1 as [-> Hi].
  apply bind_ok in H as (? & s1 & H1 & H). apply enforce_store_access_ok in H1 as [Hd <-].
  destruct (inv_status inv) eqn:Hst; try done.
  - unfold mark_voided in H. apply bind_ok in H as ([] & s1 & H1 & H).
    apply bind_ok in H1 as (now & s2 & H2 & H1). apply asks_ok in H2 as [_ <-].
    apply bind_ok in H1 as ([] & s2 & H2 & H1). apply update_ok in H2 as (row & _ & _ & _ & ->).
    apply log_event_ok in H1 as ->.
    apply bind_ok in H as ([] & s3 & H3 & H). apply ret_ok in H as [<- <-]. apply commit_ok in H3 as (_ & Ec & _).
    apply (voided_again _ _ _ _ (with_voided_at now inv)); [|done..].
    rewrite Ec. simpl. rewrite row_of_set, Hi. by rewrite bool_decide_eq_true_2.
  - apply unpost_writes in H as (-> & amounts & items & e & s2 & now & log & _ & _ & H5 & _ & ->).
    apply post_payables in H5 as [E _].
    apply (voided_again _ _ _ _ (with_voided_at now inv)); [|done..].
    simpl. rewrite row_of_set, E. simpl. rewrite Hi. by rewrite bool_decide_eq_true_2.
  - by apply ret_ok in H as [<- <-].
Qed.

(** Nothing reverses a live document yet. *)
Lemma live_no_reversal {R} (key : R -> Z) (t : list R) i :
  negb (existsb (Z.eqb i) (map key t)) = true -> select (fun _ r => key r =? i) t = [].
Proof.
  intros H. apply select_nil. intros k r Hr. apply not_true_iff_false. intros E%Z.eqb_eq.
  apply negb_true_iff, not_true_iff_false in H. apply H, existsb_exists. exists i. rewrite Z.eqb_refl.
  split; [|done]. apply list_elem_of_In, list_elem_of_fmap. exists r. split; [done|by eapply row_of_elem].
Qed.

Lemma reverse_payment_again j reason caller by_ s i s' :
  reverse_supplier_payment j reason caller by_ s = (Ok i, s') ->
  reverse_supplier_payment j reason caller by_ s' = (Ok i, s').
Proof.
  intros H. assert (Hb : blank reason = false).
  { apply bind_ok in H as (? & ? & H1 & _). by apply raise_if_ok in H1 as [? _]. }
  apply reverse_supplier_payment_ok in H as H'.
  destruct H' as (-> & p & Hp & Hd & [[-> _]|(Hl & actor & s1 & je & s2 & rv & invs & log
    & _ & -> & _ & H2 & -> & Hrv & _)]); [done|].
  apply post_payables in H2 as [E _]. apply (live_no_reversal spr_payment_id) in Hl.
  assert (Hs : select (fun _ r => spr_payment_id r =? j) (payment_reversals (working s2) ++ [rv])
    = [(next_id (payment_reversals (working s2)), rv)])
    by (apply select_appended; [rewrite E; exact Hl|by apply Z.eqb_eq]).
  unfold reverse_supplier_payment. rewrite Hb. erewrite bind_ok_intro by reflexivity.
  erewrite bind_ok_intro.
  2:{ unfold get_supplier_payment. erewrite bind_ok_intro by reflexivity. simpl. rewrite E. simpl. by rewrite Hp. }
  rewrite (bind_ok_intro _ _ _ _ _ (access_run _ _ _ Hd)).
  erewrite bind_ok_intro; [|refine (@find_by_run _ SupplierPaymentReversal_table (fun r => spr_payment_id r =? j) _ _ rv _); exact Hs].
  done.
Qed.

Lemma reverse_note_again j reason caller by_ s i s' :
  reverse_supplier_credit_note j reason caller by_ s = (Ok i, s') ->
  reverse_supplier_credit_note j reason caller by_ s' = (Ok i, s').
Proof.
  intros H. assert (Hb : blank reason = false).
  { apply bind_ok in H as (? & ? & H1 & _). by apply raise_if_ok in H1 as [? _]. }
  apply reverse_supplier_credit_note_ok in H as H'.
  destruct H' as (-> & n & Hn & Hd & [[-> _]|(Hl & actor & s1 & je & s2 & rv & invs & log
    & _ & -> & _ & H2 & -> & Hrv & _)]); [done|].
  apply post_payables in H2 as [E _]. apply (live_no_reversal cnr_note_id) in Hl.
  assert (Hs : select (fun _ r => cnr_note_id r =? j) (credit_note_reversals (working s2) ++ [rv])
    = [(next_id (credit_note_reversals (working s2)), rv)])
    by (apply select_appended; [rewrite E; exact Hl|by apply Z.eqb_eq]).
  unfold reverse_supplier_credit_note. rewrite Hb. erewrite bind_ok_intro by reflexivity.
  erewrite bind_ok_intro.
  2:{ unfold get_supplier_credit_note. erewrite bind_ok_intro by reflexivity. simpl. rewrite E. simpl.
      rewrite row_of_set, Hn. by rewrite bool_decide_eq_true_2. }
  rewrite (bind_ok_intro _ _ _ _ _ (access_run _ _ _ ltac:(simpl; exact Hd))).
  erewrite bind_ok_intro; [|refine (@find_by_run _ SupplierCreditNoteReversal_table (fun r => cnr_note_id r =? j) _ _ rv _); exact Hs].
  done.
Qed.

Lemma no_note_lines d : credit_note_lines d = [] -> note_lines_refer d.
Proof. intros E l. rewrite E. by intros ?%elem_of_nil. Qed.

(** C35: Every operation of accounts payable is idempotent, for amounts at the
    scale of their columns: submitted again, the creation of an invoice, a payment or a credit note (under its client
    transaction id), the posting, the voiding and both reversals succeed with the
    same document and change nothing, so a retried request never posts, pays or
    credits twice. *)
Theorem payables_retries op s i s' :
  payables_wf (working s) -> note_lines_refer (working s) -> committed s = working s ->
  run_payables_op op s = (Ok i, s') -> run_payables_op op s' = (Ok i, s').
Proof.
  intros Hw Hn Hc H. destruct op; simpl in *.
  - by eapply create_invoice_again.
  - by eapply post_again.
  - by eapply void_again.
  - by eapply pay_again.
  - by eapply reverse_payment_again.
  - by eapply credit_again.
  - by eapply reverse_note_again.
Qed.

Lemma payables_retries_witness :
  let s' := after (record_supplier_payment demo_payment demo_allocations (Some 1)) demo_posted in
  length (supplier_payments (working s')) = 1%nat /\
  record_supplier_payment demo_payment demo_allocations (Some 1) s' = (Ok 1, s').
Proof.
  intros s'. split; [vm_compute; reflexivity|]. destruct demo_posted_wf as (_ & _ & Hp).
  assert (Hn : note_lines_refer (working demo_posted)) by (apply no_note_lines; vm_compute; reflexivity).
  assert (H : run_payables_op (A_pay demo_payment demo_allocations (Some 1)) demo_posted = (Ok 1, s'))
    by (refine (after_ok (record_supplier_payment demo_payment demo_allocations (Some 1)) demo_posted 1 _);
        vm_compute; reflexivity).
  exact (payables_retries (A_pay demo_payment demo_allocations (Some 1)) demo_posted 1 s' Hp Hn
           (demo_op_clean _ _) H).
Defined.
