(* ===== verification/PayablesReports.v ===== *)
(** * The reports of accounts payable

    app/modules/ap/service.py: the supplier's summary, transaction history and
    statement, the aging buckets and the two reconciliations with the ledger.
    A query without an order is modelled in id order. *)

From stdpp Require Import pretty.
From S2P Require Import Prelude Fixed Session Schema Tables Platform Chart Fixture Journal.
From S2P Require Import Posting Books Reports Matching Purchasing Settlement Payables.
From S2P Require Import PayablesInvariant PayablesOps Interplay PayablesFixture.

(** [supplier_id], and [store_id] unless it is [None] *)
Definition in_scope (supplier_id : Z) (store_id : option Z) (p : Parties) : bool :=
  (p.2 =? supplier_id) && opt_all (fun s => p.1 =? s) store_id.

(** [store_ids] before [store_id] *)
Definition store_kept (store_id : option Z) (store_ids : option (list Z)) (store : Z) : bool :=
  match store_ids with
  | Some ids => existsb (Z.eqb store) ids
  | None => opt_all (fun s => store =? s) store_id
  end.

Definition order_parties (po : PurchaseOrder) : Parties := (po_store_id po, po_supplier_id po).

(** ** What is received but not invoiced *)

Definition item_clearing (total : ledger) (ii : Z * PurchaseOrderItem) : Tx ledger :=
  let remaining := quantity_received ii.2 - quantity_invoiced ii.2 in
  if 0 <? remaining
  then amount ← _fifo_clearing_amount ii.1 (quantity_invoiced ii.2) remaining;
       mret (total + amount)
  else mret total.

(** [for po in purchase_orders: for item in po.items: ...] *)
Definition outstanding_clearing (kept : PurchaseOrder -> bool) : Tx ledger :=
  orders ← query (fun _ po => kept po);
  fold_m (fun total (op : Z * PurchaseOrder) =>
      items ← gets (fun d => select (fun _ i => poi_order_id i =? op.1) (purchase_order_items d));
      fold_m item_clearing items total)
    orders 0.

(** ** A supplier's summary *)

Record SupplierApSummary := {
  total_owed : money;
  total_overdue : money;
  total_current : money;
  total_paid : money;
  total_credited : money;
  outstanding_purchase_clearing : ledger;
}.

Definition invoices_in_scope (supplier_id : Z) (store_id : option Z) (d : database)
    : list (Z * PurchaseInvoice) :=
  select (fun _ i => in_scope supplier_id store_id (parties_of i)) (purchase_invoices d).

Definition owed_on (i : PurchaseInvoice) : money :=
  if outstanding_status (inv_status i) then _outstanding_balance i else 0.

Definition get_supplier_ap_summary (supplier_id : Z) (as_of store_id : option Z)
    : Tx SupplierApSummary :=
  today ← date_today;
  let as_of := default today as_of in
  invoices ← gets (invoices_in_scope supplier_id store_id);
  let owed := sum_by (fun ii => owed_on ii.2) invoices in
  let overdue := sum_where (fun ii => due_date ii.2 <? as_of) (fun ii => owed_on ii.2) invoices in
  clearing ← outstanding_clearing (fun po => in_scope supplier_id store_id (order_parties po));
  mret {| total_owed := owed; total_overdue := overdue; total_current := owed - overdue;
          total_paid := sum_by (fun ii => amount_paid ii.2) invoices;
          total_credited := sum_by (fun ii => amount_credited ii.2) invoices;
          outstanding_purchase_clearing := clearing |}.

(** ** Transaction history *)

Inductive transaction_type := TX_INVOICE | TX_PAYMENT | TX_CREDIT_NOTE
  | TX_PAYMENT_REVERSAL | TX_CREDIT_NOTE_REVERSAL.

Inductive transaction_status := TX_OF_INVOICE (st : PurchaseInvoiceStatus) | TX_RECORDED | TX_APPLIED.

Record SupplierTransaction := {
  st_type : transaction_type;
  st_id : Z;
  st_date : Z;
  st_reference : string;
  st_amount : money;
  st_status : transaction_status;
}.

Definition payments_in_scope (supplier_id : Z) (store_id : option Z) (d : database)
    : list (Z * SupplierPayment) :=
  select (fun _ p => in_scope supplier_id store_id (sp_store_id p, sp_supplier_id p))
    (supplier_payments d).

Definition notes_in_scope (supplier_id : Z) (store_id : option Z) (d : database)
    : list (Z * SupplierCreditNote) :=
  select (fun _ n => in_scope supplier_id store_id (cn_store_id n, cn_supplier_id n)) (credit_notes d).

Definition payment_name (id : Z) : string := "Payment " +:+ pretty id.

(** [pay.reference or f"Payment {pay.id}"] *)
Definition payment_reference (id : Z) (p : SupplierPayment) : string :=
  match sp_reference p with
  | None | Some EmptyString => payment_name id
  | Some r => r
  end.

Definition by_date_and_id (a b : SupplierTransaction) : bool :=
  (st_date a <? st_date b) || ((st_date a =? st_date b) && (st_id a <=? st_id b)).

Definition get_supplier_transaction_history (supplier_id : Z) (store_id : option Z)
    : Tx (list SupplierTransaction) :=
  gets (fun d => sort_by by_date_and_id
    (map (fun x => {| st_type := TX_INVOICE; st_id := x.1; st_date := invoice_date x.2;
                      st_reference := invoice_number x.2; st_amount := inv_grand_total x.2;
                      st_status := TX_OF_INVOICE (inv_status x.2) |})
       (invoices_in_scope supplier_id store_id d) ++
     map (fun x => {| st_type := TX_PAYMENT; st_id := x.1; st_date := payment_date x.2;
                      st_reference := payment_reference x.1 x.2; st_amount := sp_amount x.2;
                      st_status := TX_RECORDED |})
       (payments_in_scope supplier_id store_id d) ++
     map (fun x => {| st_type := TX_CREDIT_NOTE; st_id := x.1; st_date := credit_date x.2;
                      st_reference := credit_number x.2; st_amount := cn_grand_total x.2;
                      st_status := TX_APPLIED |})
       (notes_in_scope supplier_id store_id d))).

(** ** The statement *)

Record SupplierEvent := {
  ev_date : Z;
  ev_type : transaction_type;
  ev_reference : string;
  ev_amount : money;
  ev_created_at : Z;
}.

Record SupplierStatementLine := {
  sl_date : Z;
  sl_type : transaction_type;
  sl_reference : string;
  sl_amount : money;
  running_balance : money;
}.

Record SupplierStatement := {
  opening_balance : money;
  statement_lines : list SupplierStatementLine;
  closing_balance : money;
}.

(** The reversals of the supplier's payments, joined with them. *)
Definition reversals_of_payments (supplier_id : Z) (store_id : option Z) (d : database)
    : list (SupplierPaymentReversal * (Z * SupplierPayment)) :=
  omap (fun r => match dict_get (spr_payment_id r) (payments_in_scope supplier_id store_id d) with
                 | Some p => Some (r, (spr_payment_id r, p))
                 | None => None
                 end) (payment_reversals d).

Definition reversals_of_notes (supplier_id : Z) (store_id : option Z) (d : database)
    : list (SupplierCreditNoteReversal * SupplierCreditNote) :=
  omap (fun r => match dict_get (cnr_note_id r) (notes_in_scope supplier_id store_id d) with
                 | Some n => Some (r, n)
                 | None => None
                 end) (credit_note_reversals d).

Definition invoice_event (i : PurchaseInvoice) : SupplierEvent :=
  {| ev_date := invoice_date i; ev_type := TX_INVOICE; ev_reference := invoice_number i;
     ev_amount := inv_grand_total i; ev_created_at := inv_created_at i |}.

Definition payment_event (ip : Z * SupplierPayment) : SupplierEvent :=
  {| ev_date := payment_date ip.2; ev_type := TX_PAYMENT; ev_reference := payment_name ip.1;
     ev_amount := - sp_amount ip.2; ev_created_at := sp_created_at ip.2 |}.

Definition note_event (n : SupplierCreditNote) : SupplierEvent :=
  {| ev_date := credit_date n; ev_type := TX_CREDIT_NOTE; ev_reference := credit_number n;
     ev_amount := - cn_grand_total n; ev_created_at := cn_created_at n |}.

Definition payment_reversal_event (x : SupplierPaymentReversal * (Z * SupplierPayment)) : SupplierEvent :=
  {| ev_date := date_of (spr_reversed_at x.1); ev_type := TX_PAYMENT_REVERSAL;
     ev_reference := "Reversal of payment " +:+ pretty x.2.1; ev_amount := sp_amount x.2.2;
     ev_created_at := spr_reversed_at x.1 |}.

Definition note_reversal_event (x : SupplierCreditNoteReversal * SupplierCreditNote) : SupplierEvent :=
  {| ev_date := date_of (cnr_reversed_at x.1); ev_type := TX_CREDIT_NOTE_REVERSAL;
     ev_reference := "Reversal of credit note " +:+ credit_number x.2; ev_amount := cn_grand_total x.2;
     ev_created_at := cnr_reversed_at x.1 |}.

Definition by_date_and_creation (a b : SupplierEvent) : bool :=
  (ev_date a <? ev_date b) || ((ev_date a =? ev_date b) && (ev_created_at a <=? ev_created_at b)).

Definition supplier_events (supplier_id : Z) (store_id : option Z) (d : database) : list SupplierEvent :=
  map (fun x => invoice_event x.2)
    (List.filter (fun x => negb (non_accounting_status (inv_status x.2)))
       (invoices_in_scope supplier_id store_id d)) ++
  map payment_event (payments_in_scope supplier_id store_id d) ++
  map (fun x => note_event x.2) (notes_in_scope supplier_id store_id d) ++
  map payment_reversal_event (reversals_of_payments supplier_id store_id d) ++
  map note_reversal_event (reversals_of_notes supplier_id store_id d).

(** The first loop: what falls before the period opens it, what falls after is
    dropped. *)
Definition split_event (from to : option Z) (acc : money * list SupplierEvent) (e : SupplierEvent)
    : money * list SupplierEvent :=
  if match from with Some t => ev_date e <? t | None => false end
  then (acc.1 + ev_amount e, acc.2)
  else if match to with Some t => t <? ev_date e | None => false end
  then acc
  else (acc.1, acc.2 ++ [e]).

(** The second loop: the running balance. *)
Definition add_statement_line (acc : money * list SupplierStatementLine) (e : SupplierEvent)
    : money * list SupplierStatementLine :=
  let running := acc.1 + ev_amount e in
  (running, acc.2 ++ [{| sl_date := ev_date e; sl_type := ev_type e; sl_reference := ev_reference e;
                         sl_amount := ev_amount e; running_balance := running |}]).

Definition statement_of (from to : option Z) (events : list SupplierEvent) : SupplierStatement :=
  let in_range := fold_left (split_event from to) events (0, []) in
  let lines := fold_left add_statement_line in_range.2 (in_range.1, []) in
  {| opening_balance := in_range.1; statement_lines := lines.2; closing_balance := lines.1 |}.

Definition get_supplier_statement (supplier_id : Z) (from to store_id : option Z) : Tx SupplierStatement :=
  gets (fun d => statement_of from to
                   (sort_by by_date_and_creation (supplier_events supplier_id store_id d))).

(** ** Aging *)

Record AgingBuckets := {
  current_ : money;
  days_1_30 : money;
  days_31_60 : money;
  days_61_90 : money;
  days_over_90 : money;
}.

Definition no_aging : AgingBuckets :=
  {| current_ := 0; days_1_30 := 0; days_31_60 := 0; days_61_90 := 0; days_over_90 := 0 |}.

Definition add_to_bucket (days_overdue : Z) (balance : money) (b : AgingBuckets) : AgingBuckets :=
  if days_overdue <=? 0 then
    {| current_ := current_ b + balance; days_1_30 := days_1_30 b; days_31_60 := days_31_60 b;
       days_61_90 := days_61_90 b; days_over_90 := days_over_90 b |}
  else if days_overdue <=? 30 then
    {| current_ := current_ b; days_1_30 := days_1_30 b + balance; days_31_60 := days_31_60 b;
       days_61_90 := days_61_90 b; days_over_90 := days_over_90 b |}
  else if days_overdue <=? 60 then
    {| current_ := current_ b; days_1_30 := days_1_30 b; days_31_60 := days_31_60 b + balance;
       days_61_90 := days_61_90 b; days_over_90 := days_over_90 b |}
  else if days_overdue <=? 90 then
    {| current_ := current_ b; days_1_30 := days_1_30 b; days_31_60 := days_31_60 b;
       days_61_90 := days_61_90 b + balance; days_over_90 := days_over_90 b |}
  else
    {| current_ := current_ b; days_1_30 := days_1_30 b; days_31_60 := days_31_60 b;
       days_61_90 := days_61_90 b; days_over_90 := days_over_90 b + balance |}.

Definition buckets_total (b : AgingBuckets) : money :=
  current_ b + days_1_30 b + days_31_60 b + days_61_90 b + days_over_90 b.

Record ApAgingRow := {
  ag_supplier_id : Z;
  ag_buckets : AgingBuckets;
  ag_total : money;
}.

(** One turn of the loop over the invoices. *)
Definition age_invoice (as_of : Z) (buckets : list (Z * AgingBuckets)) (i : PurchaseInvoice)
    : list (Z * AgingBuckets) :=
  let balance := _outstanding_balance i in
  if balance <=? 0 then buckets
  else dict_set (inv_supplier_id i)
         (add_to_bucket (as_of - due_date i) balance
            (default no_aging (dict_get (inv_supplier_id i) buckets))) buckets.

(** The outstanding invoices of the stores asked for. *)
Definition outstanding_invoices (store_id : option Z) (store_ids : option (list Z)) (d : database)
    : list (Z * PurchaseInvoice) :=
  select (fun _ i => outstanding_status (inv_status i) && store_kept store_id store_ids (inv_store_id i))
    (purchase_invoices d).

Definition aging_row (x : Z * AgingBuckets) : ApAgingRow :=
  {| ag_supplier_id := x.1; ag_buckets := x.2; ag_total := buckets_total x.2 |}.

Definition ap_aging (store_id : option Z) (store_ids : option (list Z)) (as_of : option Z)
    : Tx (list ApAgingRow) :=
  today ← date_today;
  invoices ← gets (outstanding_invoices store_id store_ids);
  mret (map aging_row (fold_left (age_invoice (default today as_of)) (map snd invoices) [])).

(** ** Reconciliation with the ledger *)

Record ApReconciliationRow := {
  gl_accounts_payable_balance : ledger;
  ap_subledger_total : money;
  ap_discrepancy : ledger;
}.

Definition of_stores (store_id : option Z) (store_ids : option (list Z)) : EntryFilter :=
  {| flt_store_id := store_id; flt_store_ids := store_ids; date_from := None; date_to := None |}.

Definition ap_reconciliation (store_id : option Z) (store_ids : option (list Z)) : Tx ApReconciliationRow :=
  rows ← trial_balance (of_stores store_id store_ids);
  let gl := net_credit rows ACCOUNT_ACCOUNTS_PAYABLE in
  total ← gets (fun d => sum_by (fun ii => _outstanding_balance ii.2)
                           (outstanding_invoices store_id store_ids d));
  mret {| gl_accounts_payable_balance := gl; ap_subledger_total := total;
          ap_discrepancy := gl - ledger_of_money total |}.

Record PurchaseClearingReconciliationRow := {
  gl_purchase_clearing_balance : ledger;
  outstanding_clearing_total : ledger;
  clearing_discrepancy : ledger;
}.

Definition purchase_clearing_reconciliation (store_id : option Z) (store_ids : option (list Z))
    : Tx PurchaseClearingReconciliationRow :=
  rows ← trial_balance (of_stores store_id store_ids);
  let gl := net_credit rows ACCOUNT_PURCHASE_CLEARING in
  total ← outstanding_clearing (fun po => store_kept store_id store_ids (po_store_id po));
  mret {| gl_purchase_clearing_balance := gl; outstanding_clearing_total := total;
          clearing_discrepancy := gl - total |}.

(** ** The ledger and the invoices agree *)

Lemma outstanding_total st sts d :
  settlement_wf d ->
  sum_by (fun ii => _outstanding_balance ii.2) (outstanding_invoices st sts d)
  = owed (store_kept st sts) (purchase_invoices d).
Proof.
  intros Hs. unfold outstanding_invoices.
  rewrite (select_sum (fun i => outstanding_status (inv_status i) && store_kept st sts (inv_store_id i))
             _outstanding_balance).
  apply sum_by_ext. intros i [k Hk]%elem_row_of.
  pose proof (open_outstanding i (se_status _ Hs k i Hk)) as Ho.
  destruct (store_kept _ _ _); rewrite ?andb_false_r, ?andb_true_r; [|done]. by rewrite Ho.
Qed.

(** C36: The accounts-payable reconciliation is exact when the documents were
    entered with amounts at the scale of their columns: whatever store or set of
    stores is asked for, the balance of the control account in the ledger equals
    the outstanding balances of their invoices, net of payments and credit
    notes, to the last ledger digit, and the report finds no discrepancy; with
    both a store and a set it is refused. *)
Theorem ap_reconciliation_exact st sts s r s' :
  books_wf (working s) -> payables_wf (working s) ->
  NoDup (map account_code (accounts (working s))) ->
  ap_reconciliation st sts s = (r, s') ->
  s' = s /\
  (opt_some st && opt_some sts = true -> r = Raise (ValidationAppError "INVALID_STORE_FILTER")) /\
  (opt_some st && opt_some sts = false -> exists row, r = Ok row /\
     gl_accounts_payable_balance row = ledger_of_money (owed (store_kept st sts) (purchase_invoices (working s))) /\
     ap_subledger_total row = owed (store_kept st sts) (purchase_invoices (working s)) /\
     ap_discrepancy row = 0).
Proof.
  intros [Hl _] Hp Hnd H. unfold ap_reconciliation in H.
  assert (Hs : s' = s).
  { apply (fixes_run (fun s => s)) in H; [done|]. unfold trial_balance. solve_fixes. }
  subst. split; [done|]. unfold trial_balance in H. simpl in H. split; intros Hb; rewrite Hb in H.
  { by injection H as <-. }
  injection H as <-. eexists. split; [reflexivity|]. simpl.
  rewrite outstanding_total by apply Hp.
  enough (E : net_credit (merge_sort code_le (omap (trial_balance_row (of_stores st sts) (working s))
                (with_ids (accounts (working s))))) ACCOUNT_ACCOUNTS_PAYABLE
            = ledger_of_money (owed (store_kept st sts) (purchase_invoices (working s)))) by (split_and!; lia).
  rewrite <- (py_balance _ (pa_payable _ Hp)).
  erewrite net_credit_lines; [|done|apply (lw_account _ Hl)|apply merge_sort_Permutation].
  apply sum_by_ext. intros l Hl'. destruct (lw_refer _ Hl l Hl') as [e He].
  unfold on_payable, line_kept. rewrite He. unfold _apply_entry_filters, store_kept. simpl.
  by rewrite !andb_true_r.
Qed.

Lemma ap_reconciliation_exact_witness :
  let r := ap_reconciliation (Some 1) None demo_paid in
  (exists row, r.1 = Ok row /\ gl_accounts_payable_balance row = 8000000 /\ ap_discrepancy row = 0).
Proof.
  intros r. destruct demo_paid_wf as (_ & _ & Hp).
  assert (Hnd : NoDup (map account_code (accounts (working demo_paid)))).
  { assert (accounts (working demo_paid) = SYSTEM_ACCOUNTS) as -> by (vm_compute; reflexivity).
    exact SYSTEM_ACCOUNTS_codes_distinct. }
  destruct (ap_reconciliation_exact (Some 1) None demo_paid r.1 r.2 demo_paid_books Hp Hnd
              (surjective_pairing r)) as (_ & _ & H).
  destruct (H eq_refl) as (row & Hr & Hg & _ & Hd). exists row. split; [exact Hr|]. split; [|exact Hd].
  rewrite Hg. vm_compute. reflexivity.
Defined.

(** ** The statement closes on what is owed *)

(** Both loops only add: whatever the period, the closing balance is the sum of
    the events up to its end. *)
Definition before_end (to : option Z) (e : SupplierEvent) : bool :=
  match to with Some t => negb (t <? ev_date e) | None => true end.

Definition before_start (from : option Z) (e : SupplierEvent) : bool :=
  match from with Some t => ev_date e <? t | None => false end.

Lemma split_events_spec from to events acc :
  let r := fold_left (split_event from to) events acc in
  r.1 = acc.1 + sum_where (before_start from) ev_amount events /\
  r.2 = acc.2 ++ List.filter (fun e => negb (before_start from e) && before_end to e) events.
Proof.
  revert acc. induction events as [|e events IH]; intros acc; simpl.
  - rewrite sum_where_nil, app_nil_r. split; [lia|done].
  - destruct (IH (split_event from to acc e)) as [-> ->]. rewrite sum_where_cons.
    unfold split_event. change (match from with Some t => _ | None => _ end) with (before_start from e).
    replace (match to with Some t => t <? ev_date e | None => false end) with (negb (before_end to e))
      by (destruct to; simpl; by rewrite ?negb_involutive).
    destruct (before_start from e), (before_end to e); simpl; rewrite <- ?app_assoc; (split; [lia|done]).
Qed.

Lemma statement_lines_spec events acc :
  let r := fold_left add_statement_line events acc in
  r.1 = acc.1 + sum_by ev_amount events /\
  map sl_amount r.2 = map sl_amount acc.2 ++ map ev_amount events.
Proof.
  revert acc. induction events as [|e events IH]; intros acc; simpl.
  - rewrite app_nil_r. split; [unfold sum_by; simpl; lia|done].
  - destruct (IH (add_statement_line acc e)) as [-> ->]. simpl. rewrite sum_by_cons, map_app.
    split; [lia|]. by rewrite <- app_assoc.
Qed.

Lemma statement_closing from to events :
  (forall f t, from = Some f -> to = Some t -> f <= t + 1) ->
  let st := statement_of from to events in
  opening_balance st = sum_where (before_start from) ev_amount events /\
  closing_balance st = opening_balance st + sum_by sl_amount (statement_lines st) /\
  closing_balance st = sum_where (before_end to) ev_amount events.
Proof.
  intros Hr st. destruct (split_events_spec from to events (0, [])) as [E1 E2].
  destruct (statement_lines_spec (fold_left (split_event from to) events (0, [])).2
              ((fold_left (split_event from to) events (0, [])).1, [])) as [E3 E4].
  subst st. simpl in *.
  assert (El : sum_by sl_amount (fold_left add_statement_line
      (fold_left (split_event from to) events (0, [])).2
      ((fold_left (split_event from to) events (0, [])).1, [])).2
    = sum_by ev_amount (fold_left (split_event from to) events (0, [])).2).
  { rewrite <- (sum_by_map sl_amount (fun x => x)), E4. apply (sum_by_map ev_amount (fun x => x)). }
  split; [lia|]. split; [lia|]. rewrite E3, E1, E2, sum_by_filter. unfold sum_where.
  rewrite ?Z.add_0_l, <- sum_by_add. apply sum_by_ext. intros e _. unfold before_start, before_end.
  destruct from as [f|], to as [t|]; simpl; try specialize (Hr f t eq_refl eq_refl); try lia;
    repeat match goal with |- context [?x <? ?y] => destruct (Z.ltb_spec x y) end; simpl; lia.
Qed.

Section Statement.
Context (supplier_id : Z) (store_id : option Z) (d : database).
Let q := in_scope supplier_id store_id.

(** The figures of one channel: its documents less their reversals. *)
Lemma channel_events c :
  settlement_wf d ->
  sum_where (fun x => q (doc_parties x)) doc_total (docs (side_of c d))
  - sum_by (fun i => match row_of (docs (side_of c d)) i with
                     | Some x => if q (doc_parties x) then doc_total x else 0
                     | None => 0
                     end) (undone (side_of c d))
  = sum_where (fun i => q (parties_of i)) (amount_of c) (purchase_invoices d).
Proof.
  intros Hs. rewrite (settled_net (parties d)) by apply (se_side _ Hs).
  transitivity (sum_by (fun kp : Z * PurchaseInvoice => if q (parties_of kp.2) then amount_of c kp.2 else 0)
                  (with_ids (purchase_invoices d))).
  - unfold parties. rewrite with_ids_map, sum_by_map. apply sum_by_ext. intros [k i] Hk%elem_with_ids. simpl.
    by rewrite (se_amount _ Hs c k i Hk).
  - by apply (sum_by_rows (fun i => if q (parties_of i) then amount_of c i else 0)
                (fun _ i => if q (parties_of i) then amount_of c i else 0)).
Qed.

Lemma payment_events_total :
  sum_by ev_amount (map payment_event (payments_in_scope supplier_id store_id d))
  = - sum_where (fun x => q (doc_parties x)) doc_total (docs (payment_side d)).
Proof.
  rewrite sum_by_map. unfold payments_in_scope.
  transitivity (sum_where (fun p => q (sp_store_id p, sp_supplier_id p)) (fun p => - sp_amount p) (supplier_payments d));
    [apply (select_sum (fun p => q (sp_store_id p, sp_supplier_id p)) (fun p => - sp_amount p))|].
  simpl. unfold sum_where. rewrite sum_by_map. simpl.
  transitivity (sum_by (fun p => -1 * (if q (sp_store_id p, sp_supplier_id p) then sp_amount p else 0)) (supplier_payments d)).
  - apply sum_by_ext. intros p _. destruct (q _); lia.
  - rewrite sum_by_scale. lia.
Qed.

Lemma note_events_total :
  sum_by ev_amount (map (fun x => note_event x.2) (notes_in_scope supplier_id store_id d))
  = - sum_where (fun x => q (doc_parties x)) doc_total (docs (credit_side d)).
Proof.
  rewrite sum_by_map. unfold notes_in_scope.
  transitivity (sum_where (fun n => q (cn_store_id n, cn_supplier_id n)) (fun n => - cn_grand_total n) (credit_notes d));
    [apply (select_sum (fun n => q (cn_store_id n, cn_supplier_id n)) (fun n => - cn_grand_total n))|].
  simpl. unfold sum_where. rewrite sum_by_map. simpl.
  transitivity (sum_by (fun n => -1 * (if q (cn_store_id n, cn_supplier_id n) then cn_grand_total n else 0)) (credit_notes d)).
  - apply sum_by_ext. intros n _. destruct (q _); lia.
  - rewrite sum_by_scale. lia.
Qed.

Lemma dict_get_select {R} (p : R -> bool) (t : list R) k :
  dict_get k (select (fun _ r => p r) t)
  = match row_of t k with Some r => if p r then Some r else None | None => None end.
Proof.
  destruct (dict_get k (select (fun _ r => p r) t)) as [r|] eqn:E.
  - apply select_get in E as [-> ->]. done.
  - destruct (row_of t k) as [r|] eqn:Hr; [|done]. destruct (p r) eqn:Hp; [|done].
    by rewrite (proj2 (select_get (fun _ r => p r) t k r) (conj Hr Hp)) in E.
Qed.

Lemma payment_reversal_events_total :
  sum_by ev_amount (map payment_reversal_event (reversals_of_payments supplier_id store_id d))
  = sum_by (fun i => match row_of (docs (payment_side d)) i with
                     | Some x => if q (doc_parties x) then doc_total x else 0
                     | None => 0
                     end) (undone (payment_side d)).
Proof.
  rewrite sum_by_map. unfold reversals_of_payments. rewrite sum_by_omap. simpl. rewrite sum_by_map.
  apply sum_by_ext. intros r _. unfold payments_in_scope. rewrite dict_get_select, row_of_map.
  destruct (row_of (supplier_payments d) (spr_payment_id r)) as [p|]; [|done]. simpl. fold q. by destruct (q _).
Qed.

Lemma note_reversal_events_total :
  sum_by ev_amount (map note_reversal_event (reversals_of_notes supplier_id store_id d))
  = sum_by (fun i => match row_of (docs (credit_side d)) i with
                     | Some x => if q (doc_parties x) then doc_total x else 0
                     | None => 0
                     end) (undone (credit_side d)).
Proof.
  rewrite sum_by_map. unfold reversals_of_notes. rewrite sum_by_omap. simpl. rewrite sum_by_map.
  apply sum_by_ext. intros r _. unfold notes_in_scope. rewrite dict_get_select, row_of_map.
  destruct (row_of (credit_notes d) (cnr_note_id r)) as [n|]; [|done]. simpl. fold q. by destruct (q _).
Qed.

Lemma invoice_events_total :
  sum_by ev_amount (map (fun x => invoice_event x.2)
    (List.filter (fun x : Z * PurchaseInvoice => negb (non_accounting_status (inv_status x.2)))
       (invoices_in_scope supplier_id store_id d)))
  = sum_where (fun i => q (parties_of i))
      (fun i => if non_accounting_status (inv_status i) then 0 else inv_grand_total i) (purchase_invoices d).
Proof.
  rewrite sum_by_map, sum_by_filter. unfold invoices_in_scope, sum_where at 1.
  etransitivity; [exact (select_sum (fun i => q (parties_of i))
    (fun i => if negb (non_accounting_status (inv_status i)) then inv_grand_total i else 0) (purchase_invoices d))|].
  apply sum_by_ext. intros i _. by destruct (q _), (non_accounting_status (inv_status i)).
Qed.

(** What the supplier is owed, as the summary counts it. *)
Definition supplier_owed : money := sum_where (fun i => q (parties_of i)) owed_on (purchase_invoices d).

Lemma supplier_events_total :
  settlement_wf d -> sum_by ev_amount (supplier_events supplier_id store_id d) = supplier_owed.
Proof.
  intros Hs. unfold supplier_events. rewrite !sum_by_app, invoice_events_total, payment_events_total,
    note_events_total, payment_reversal_events_total, note_reversal_events_total.
  pose proof (channel_events BY_PAYMENT Hs) as E1. pose proof (channel_events BY_CREDIT Hs) as E2.
  cbn [side_of] in E1, E2. change (amount_of BY_PAYMENT) with amount_paid in E1.
  change (amount_of BY_CREDIT) with amount_credited in E2. fold q.
  enough (supplier_owed = sum_where (fun i => q (parties_of i))
      (fun i => if non_accounting_status (inv_status i) then 0 else inv_grand_total i) (purchase_invoices d)
    - sum_where (fun i => q (parties_of i)) amount_paid (purchase_invoices d)
    - sum_where (fun i => q (parties_of i)) amount_credited (purchase_invoices d)) by lia.
  unfold supplier_owed, sum_where. rewrite <- !sum_by_sub. apply sum_by_ext. intros i [k Hk]%elem_row_of.
  destruct (q _); [|lia]. pose proof (se_status _ Hs k i Hk) as Hi. unfold owed_on.
  rewrite <- (open_outstanding i Hi). unfold open_amount, _outstanding_balance, settled_ok in *.
  destruct (inv_status i); simpl; lia.
Qed.
End Statement.

Lemma outstanding_clearing_fixes {X} (f : session database -> X) kept : fixes f (outstanding_clearing kept).
Proof. unfold outstanding_clearing, item_clearing, _fifo_clearing_amount. solve_fixes. Qed.

Lemma summary_ok supplier as_of store s sm s' :
  get_supplier_ap_summary supplier as_of store s = (Ok sm, s') ->
  s' = s /\ total_owed sm = supplier_owed supplier store (working s) /\
  total_owed sm = total_overdue sm + total_current sm.
Proof.
  unfold get_supplier_ap_summary. intros H. apply bind_ok in H as (today & s1 & H1 & H).
  apply asks_ok in H1 as [_ <-]. apply bind_ok in H as (invs & s1 & H1 & H). apply gets_ok in H1 as [-> <-].
  apply bind_ok in H as (c & s1 & H1 & H). apply ret_ok in H as [<- <-]. simpl.
  apply (reads_run _ _ _ _ (outstanding_clearing_fixes _ _)) in H1 as ->. split; [done|]. split; [|lia].
  unfold invoices_in_scope, supplier_owed.
  apply (select_sum (fun i => in_scope supplier store (parties_of i)) owed_on).
Qed.

(** C37: A supplier's statement is consistent with the invoices and with
    itself.  Over all time its closing balance is exactly what the supplier's
    summary says is owed, for one store or for all, payments, credit notes and
    the reversals of both included.  For a period, the opening balance is the sum
    of everything dated before it, the lines lead from the opening to the closing
    balance, and the closing balance is the sum of everything dated up to the
    period's end; so consecutive periods meet. *)
Theorem supplier_statement_closes supplier store from to as_of s :
  payables_wf (working s) -> (forall f t, from = Some f -> to = Some t -> f <= t + 1) ->
  (exists st, get_supplier_statement supplier None None store s = (Ok st, s) /\
     forall sm s', get_supplier_ap_summary supplier as_of store s = (Ok sm, s') ->
       closing_balance st = total_owed sm /\ opening_balance st = 0) /\
  (exists st, get_supplier_statement supplier from to store s = (Ok st, s) /\
     closing_balance st = opening_balance st + sum_by sl_amount (statement_lines st) /\
     opening_balance st
     = sum_where (before_start from) ev_amount (supplier_events supplier store (working s)) /\
     closing_balance st
     = sum_where (before_end to) ev_amount (supplier_events supplier store (working s))).
Proof.
  intros Hp Hr.
  pose proof (sort_by_perm by_date_and_creation (supplier_events supplier store (working s))) as Hperm.
  split; eexists; (split; [reflexivity|]).
  - destruct (statement_closing None None
      (sort_by by_date_and_creation (supplier_events supplier store (working s)))) as (H1 & _ & H3); [done|].
    intros sm s' (_ & -> & _)%summary_ok. rewrite H1, H3. split.
    + rewrite <- (supplier_events_total _ _ _ (pa_settlement _ Hp)).
      rewrite sum_where_all by done. by apply sum_by_perm.
    + by apply sum_where_none.
  - destruct (statement_closing from to
      (sort_by by_date_and_creation (supplier_events supplier store (working s))) Hr) as (H1 & H2 & H3).
    split; [exact H2|]. rewrite H1, H3. split; by apply sum_by_perm.
Qed.

Lemma supplier_statement_closes_witness :
  exists st sm, get_supplier_statement 1 None None (Some 1) demo_paid = (Ok st, demo_paid) /\
    get_supplier_ap_summary 1 None (Some 1) demo_paid = (Ok sm, demo_paid) /\
    closing_balance st = total_owed sm /\ total_owed sm = 800 /\
    map sl_amount (statement_lines st) = [900; -100].
Proof.
  destruct demo_paid_wf as (_ & _ & Hp).
  destruct (supplier_statement_closes 1 (Some 1) None None None demo_paid Hp ltac:(intros ? ? [=]))
    as [(st & Hst & H) _].
  destruct (get_supplier_ap_summary 1 None (Some 1) demo_paid) as [o s'] eqn:E.
  assert (exists sm, o = Ok sm /\ total_owed sm = 800) as (sm & Ho & Hsm).
  { exists (ok_value {| total_owed := 0; total_overdue := 0; total_current := 0; total_paid := 0;
              total_credited := 0; outstanding_purchase_clearing := 0 |} o).
    change o with ((o, s').1). rewrite <- E. split; vm_compute; reflexivity. }
  rewrite Ho in *. exists st, sm. split; [exact Hst|].
  destruct (summary_ok _ _ _ _ _ _ E) as [Es _]. rewrite Es. split; [reflexivity|].
  split; [exact (proj1 (H sm s' eq_refl))|]. split; [exact Hsm|].
  assert (st = ok_value st (get_supplier_statement 1 None None (Some 1) demo_paid).1) as ->
    by (rewrite Hst; reflexivity).
  vm_compute. reflexivity.
Defined.

(** ** Aging *)

(** What the invoices of one supplier still owe. *)
Definition supplier_balance (invoices : list PurchaseInvoice) (supplier : Z) : money :=
  sum_where (fun i => inv_supplier_id i =? supplier) (fun i => Z.max 0 (_outstanding_balance i)) invoices.

Lemma add_to_bucket_total days x b : buckets_total (add_to_bucket days x b) = buckets_total b + x.
Proof. unfold add_to_bucket, buckets_total. repeat case_match; simpl; lia. Qed.

Lemma sum_dict_set {V} (f : V -> Z) k v (d : list (Z * V)) :
  NoDup (dict_keys d) ->
  sum_by (fun x => f x.2) (dict_set k v d)
  = sum_by (fun x => f x.2) d - from_option f 0 (dict_get k d) + f v.
Proof.
  unfold dict_keys. induction d as [|[j w] d IH]; simpl.
  - intros _. unfold sum_by. simpl. lia.
  - intros [Hj Hd]%NoDup_cons. destruct (k =? j); rewrite !sum_by_cons; simpl; [lia|]. rewrite IH by done. lia.
Qed.

Lemma age_invoices_spec as_of invoices :
  let rows := fold_left (age_invoice as_of) invoices [] in
  NoDup (dict_keys rows) /\
  (forall k, from_option buckets_total 0 (dict_get k rows) = supplier_balance invoices k) /\
  sum_by (fun r => buckets_total r.2) rows = sum_by (fun i => Z.max 0 (_outstanding_balance i)) invoices.
Proof.
  induction invoices as [|i l IH] using rev_ind; [by split_and!; [apply NoDup_nil_2|..]|].
  rewrite fold_left_app. simpl. destruct IH as (IH1 & IH2 & IH3). unfold age_invoice at 1 3 5.
  set (rows := fold_left (age_invoice as_of) l []) in *. unfold supplier_balance.
  assert (Hk : forall k, sum_where (fun i => inv_supplier_id i =? k) (fun i => Z.max 0 (_outstanding_balance i)) (l ++ [i])
     = supplier_balance l k + (if inv_supplier_id i =? k then Z.max 0 (_outstanding_balance i) else 0))
    by (intros k; by rewrite sum_where_app, sum_where_cons, sum_where_nil, Z.add_0_r).
  assert (Hs : sum_by (fun i => Z.max 0 (_outstanding_balance i)) (l ++ [i])
     = sum_by (fun i => Z.max 0 (_outstanding_balance i)) l + Z.max 0 (_outstanding_balance i))
    by (rewrite sum_by_app, sum_by_cons, sum_by_nil; lia).
  assert (Hold : buckets_total (default no_aging (dict_get (inv_supplier_id i) rows))
                 = from_option buckets_total 0 (dict_get (inv_supplier_id i) rows))
    by (by destruct (dict_get _ rows)).
  destruct (Z.leb_spec (_outstanding_balance i) 0).
  - split_and!; [done| |lia]. intros k. rewrite Hk, IH2. destruct (_ =? _); lia.
  - split_and!; [by apply NoDup_dict_set| |].
    + intros k. rewrite Hk, dict_get_set, (Z.eqb_sym k).
      destruct (Z.eqb_spec (inv_supplier_id i) k) as [<-|]; [|rewrite IH2; lia]. simpl.
      rewrite add_to_bucket_total, Hold, IH2. lia.
    + rewrite sum_dict_set, add_to_bucket_total, Hold, IH3 by done. lia.
Qed.

(** The aging report loses nothing and counts nothing twice: each supplier
    has one row, whose buckets add up to the row's total and whose total is what
    its outstanding invoices in the stores asked for still owe; the rows together
    are the subledger the reconciliation compares with the ledger.  The day an
    invoice is aged to never changes a total, only the buckets. *)
Theorem ap_aging_complete st sts as_of s :
  payables_wf (working s) ->
  exists rows, ap_aging st sts as_of s = (Ok rows, s) /\
    NoDup (map ag_supplier_id rows) /\
    (forall r, r ∈ rows -> ag_total r = buckets_total (ag_buckets r) /\
       ag_total r = supplier_balance (map snd (outstanding_invoices st sts (working s))) (ag_supplier_id r)) /\
    sum_by ag_total rows = owed (store_kept st sts) (purchase_invoices (working s)).
Proof.
  intros Hp. eexists. split; [reflexivity|].
  set (invs := map snd (outstanding_invoices st sts (working s))).
  destruct (age_invoices_spec (default ((utc_now (env s) + local_offset (env s)) / seconds_per_day) as_of) invs)
    as (Hnd & Ht & Hsum).
  set (rows := fold_left _ invs []) in *. split_and!.
  - rewrite map_map. exact Hnd.
  - intros r ([k b] & -> & Hkb)%list_elem_of_fmap. simpl. split; [done|]. rewrite <- Ht.
    by rewrite (elem_dict_get k b rows Hnd Hkb).
  - rewrite <- (outstanding_total st sts _ (pa_settlement _ Hp)), sum_by_map. simpl. rewrite Hsum.
    unfold invs. rewrite sum_by_map. apply sum_by_ext. intros [k i] Hi. simpl.
    apply elem_select in Hi as [Hk Ho]. simpl in *. apply andb_true_iff in Ho as [Ho _].
    pose proof (se_status _ (pa_settlement _ Hp) k i Hk) as Hs.
    unfold settled_ok, _outstanding_balance in *. destruct (inv_status i); simpl in *; try done; lia.
Qed.

Lemma ap_aging_complete_witness :
  exists rows, ap_aging None (Some [1]) (Some 20050) demo_paid = (Ok rows, demo_paid) /\
    sum_by ag_total rows = 800 /\ map (fun r => days_1_30 (ag_buckets r)) rows = [800].
Proof.
  destruct demo_paid_wf as (_ & _ & Hp).
  destruct (ap_aging_complete None (Some [1]) (Some 20050) demo_paid Hp) as (rows & Hr & _ & _ & Hs).
  exists rows. split; [exact Hr|]. split; [rewrite Hs; vm_compute; reflexivity|].
  assert (rows = ok_value rows (ap_aging None (Some [1]) (Some 20050) demo_paid).1) as ->
    by (rewrite Hr; reflexivity).
  vm_compute. reflexivity.
Defined.

(** ** Received, not yet invoiced *)

(** The first-in first-out value of the units of an order item between the
    invoiced and the received quantity. *)
Definition item_outstanding (d : database) (ii : Z * PurchaseOrderItem) : ledger :=
  if quantity_invoiced ii.2 <? quantity_received ii.2
  then div_half_up (first_units lot_cost (lots_of d ii.1) (quantity_received ii.2)
                    - first_units lot_cost (lots_of d ii.1) (quantity_invoiced ii.2)) 1000
  else 0.

Definition orders_outstanding (d : database) (kept : PurchaseOrder -> bool) : ledger :=
  sum_by (fun op => sum_by (item_outstanding d)
            (select (fun _ i => poi_order_id i =? op.1) (purchase_order_items d)))
    (select (fun _ po => kept po) (purchase_orders d)).

Lemma fold_m_sum {A} (f : Z -> A -> Tx Z) (g : A -> Z) l total s :
  (forall t x, x ∈ l -> f t x s = (Ok (t + g x), s)) ->
  fold_m f l total s = (Ok (total + sum_by g l), s).
Proof.
  revert total. induction l as [|x l IH]; intros total Hf; simpl.
  - by rewrite Z.add_0_r.
  - rewrite (bind_ok_intro _ _ _ _ _ (Hf total x ltac:(left))), IH by (intros; apply Hf; by right).
    rewrite sum_by_cons. do 2 f_equal. lia.
Qed.

Lemma item_clearing_run s total ii :
  purchasing_wf (working s) -> matched_wf (working s) ->
  row_of (purchase_order_items (working s)) ii.1 = Some ii.2 ->
  item_clearing total ii s = (Ok (total + item_outstanding (working s) ii), s).
Proof.
  intros Hpw Hm Hi. unfold item_clearing, item_outstanding.
  destruct (mw_invoiced _ Hm _ _ Hi) as [Hinv Hle].
  assert (0 <= quantity_invoiced ii.2).
  { rewrite Hinv. apply sum_by_nonneg. intros l Hl. destruct (mw_lines _ Hm l Hl) as (_ & _ & ?).
    destruct (_ && _); lia. }
  destruct (Z.ltb_spec 0 (quantity_received ii.2 - quantity_invoiced ii.2)),
    (Z.ltb_spec (quantity_invoiced ii.2) (quantity_received ii.2)); try lia;
    [|by rewrite Z.add_0_r].
  assert (Hpos : positive_lots (lots_of (working s) ii.1))
    by (apply lots_positive; intros r Hr; by destruct (pw_receipts _ Hpw r Hr)).
  assert (Htot : total_qty (lots_of (working s) ii.1) = quantity_received ii.2)
    by (by rewrite lots_total, (pw_received _ Hpw _ _ Hi)).
  unfold _fifo_clearing_amount.
  erewrite bind_ok_intro; [|erewrite bind_ok_intro; [reflexivity|]].
  2:{ rewrite (match_slices_run (working s)) by done. cbv zeta.
      destruct (fifo_walk_spec lot_cost lot_weight_cost _ (quantity_invoiced ii.2)
                  (quantity_received ii.2 - quantity_invoiced ii.2) Hpos) as (_ & -> & _); [lia..|].
      rewrite Htot. destruct (Z.ltb_spec 0 (Z.max 0 (quantity_invoiced ii.2 +
        (quantity_received ii.2 - quantity_invoiced ii.2) - Z.max (quantity_invoiced ii.2) (quantity_received ii.2))));
        [lia|reflexivity]. }
  simpl. destruct (fifo_walk_spec lot_cost lot_weight_cost _ (quantity_invoiced ii.2)
                  (quantity_received ii.2 - quantity_invoiced ii.2) Hpos) as (E & _); [lia..|].
  unfold slices_weight in E. unfold slices_value. rewrite E.
  by replace (quantity_invoiced ii.2 + (quantity_received ii.2 - quantity_invoiced ii.2))
    with (quantity_received ii.2) by lia.
Qed.

Lemma outstanding_clearing_run kept s :
  purchasing_wf (working s) -> matched_wf (working s) ->
  outstanding_clearing kept s = (Ok (orders_outstanding (working s) kept), s).
Proof.
  intros Hpw Hm. unfold outstanding_clearing. erewrite bind_ok_intro; [|reflexivity].
  etransitivity; [apply fold_m_sum|]; [|by rewrite Z.add_0_l].
  intros t op _. erewrite bind_ok_intro; [|reflexivity]. apply fold_m_sum.
  intros t' [k i] [Hi _]%elem_select. by apply item_clearing_run.
Qed.

Lemma trial_balance_run f s :
  opt_some (flt_store_id f) && opt_some (flt_store_ids f) = false ->
  trial_balance f s
  = (Ok (merge_sort code_le (omap (trial_balance_row f (working s)) (with_ids (accounts (working s))))), s).
Proof. intros Hf. unfold trial_balance. by rewrite Hf. Qed.

(** C38: The value received but not yet invoiced can always be computed: in a
    consistent database neither the supplier's summary nor the clearing
    reconciliation ever runs into the defensive MATCH_DATA_INCONSISTENT error,
    and what they report for an order item is exactly the cost, in receipt order,
    of the units between its invoiced and its received quantity. *)
Theorem uninvoiced_receipts_valued supplier store st sts as_of s :
  purchasing_wf (working s) -> payables_wf (working s) -> opt_some st && opt_some sts = false ->
  (exists sm, get_supplier_ap_summary supplier as_of store s = (Ok sm, s) /\
     outstanding_purchase_clearing sm
     = orders_outstanding (working s) (fun po => in_scope supplier store (order_parties po))) /\
  (exists row, purchase_clearing_reconciliation st sts s = (Ok row, s) /\
     outstanding_clearing_total row
     = orders_outstanding (working s) (fun po => store_kept st sts (po_store_id po))).
Proof.
  intros Hpw Hp Hf. pose proof (pa_matched _ Hp) as Hm. split.
  - eexists. split.
    + unfold get_supplier_ap_summary. do 2 (erewrite bind_ok_intro; [|reflexivity]). cbv zeta.
      erewrite bind_ok_intro; [|by apply outstanding_clearing_run]. reflexivity.
    + reflexivity.
  - eexists. split.
    + unfold purchase_clearing_reconciliation. erewrite bind_ok_intro; [|by apply trial_balance_run]. cbv zeta.
      erewrite bind_ok_intro; [|by apply outstanding_clearing_run]. reflexivity.
    + reflexivity.
Qed.

Lemma uninvoiced_receipts_valued_witness :
  exists sm, get_supplier_ap_summary 1 None (Some 1) demo_paid = (Ok sm, demo_paid) /\
    outstanding_purchase_clearing sm = 2500000.
Proof.
  destruct demo_paid_wf as (_ & Hw & Hp).
  destruct (uninvoiced_receipts_valued 1 (Some 1) None None None demo_paid Hw Hp eq_refl) as [(sm & Hs & Ho) _].
  exists sm. split; [exact Hs|]. rewrite Ho. vm_compute. reflexivity.
Defined.
