(* ===== verification/Discrepancies.v ===== *)
(** * Receiving discrepancies

    app/modules/discrepancies/service.py: the ledger of damaged and short
    deliveries.  A row is recorded once per receipt item and keeps its facts;
    its status goes RECORDED, INVESTIGATING, RESOLVED, and back to
    INVESTIGATING only when a write-off against it is denied. *)

From S2P Require Import Prelude Fixed Session Schema Tables Platform.

Definition _discrepancy_type (short damaged : qty) : DiscrepancyType :=
  if (0 <? short) && (0 <? damaged) then DT_BOTH
  else if 0 <? short then DT_SHORTAGE
  else DT_DAMAGE.

(** ** Creation *)

Record DiscrepancyArgs := {
  da_receipt_item_id : Z;
  da_transfer_id : Z;
  da_product_id : Z;
  da_store_id : Z;
  da_counterparty_store_id : option Z;
  da_quantity_short : qty;
  da_quantity_damaged : qty;
  da_unit_cost : cost;
  da_raised_by : option Z;
  da_raised_at : Z;
}.

Definition new_discrepancy (a : DiscrepancyArgs) : ReceivingDiscrepancy :=
  mkDiscrepancy TRANSFER_RECEIPT (da_receipt_item_id a) (Some (da_transfer_id a))
    (da_product_id a) (da_store_id a) (da_counterparty_store_id a)
    (_discrepancy_type (da_quantity_short a) (da_quantity_damaged a))
    (da_quantity_short a) (da_quantity_damaged a) (da_unit_cost a) RECORDED
    (da_raised_by a) (da_raised_at a) None None None None None None.

Definition of_receipt_item (i : Z) (r : ReceivingDiscrepancy) : bool :=
  bool_decide (rd_source_type r = TRANSFER_RECEIPT) && (rd_source_id r =? i).

Definition create_discrepancy_for_receipt_item (a : DiscrepancyArgs) : Tx (option Z) :=
  if (da_quantity_short a <=? 0) && (da_quantity_damaged a <=? 0) then mret None
  else
    existing ← find_by (of_receipt_item (da_receipt_item_id a));
    match existing with
    | Some (i, _) => mret (Some i)
    | None =>
        inserted ← insert_or_winner (of_receipt_item (da_receipt_item_id a)) (new_discrepancy a);
        if snd (inserted : Z * bool)
        then _ ← log_event (da_raised_by a) "DISCREPANCY_RECORDED" "receiving_discrepancy"
               (Some (fst inserted));
             mret (Some (fst inserted))
        else mret (Some (fst inserted))
    end.

Definition get_discrepancy (discrepancy_id : Z) : Tx ReceivingDiscrepancy :=
  found ← get discrepancy_id;
  of_option found NotFoundError.

(** ** State transitions *)

Definition invalid_discrepancy_state : exn := ConflictError "INVALID_DISCREPANCY_STATE".

(** The attributes the transitions assign. *)
Definition with_rd_status (st : DiscrepancyStatus) (inv : option Z * option Z)
    (res : option Z * option Z) (finding : option ResolutionType * option string)
    (r : ReceivingDiscrepancy) : ReceivingDiscrepancy :=
  mkDiscrepancy (rd_source_type r) (rd_source_id r) (rd_transfer_id r) (rd_product_id r)
    (rd_store_id r) (counterparty_store_id r) (discrepancy_type r) (quantity_short r)
    (quantity_damaged r) (rd_unit_cost r) st (raised_by r) (raised_at r)
    inv.1 inv.2 res.1 res.2 finding.1 finding.2.

Definition investigation_started (actor_id : option Z) (now : Z) (r : ReceivingDiscrepancy)
    : ReceivingDiscrepancy :=
  with_rd_status INVESTIGATING (actor_id, Some now) (resolved_by r, resolved_at r)
    (resolution_type r, resolution_notes r) r.

Definition investigation_resolved (actor_id : option Z) (now : Z) (finding : ResolutionType)
    (notes : string) (r : ReceivingDiscrepancy) : ReceivingDiscrepancy :=
  with_rd_status RESOLVED (investigated_by r, investigated_at r) (actor_id, Some now)
    (Some finding, Some notes) r.

Definition investigation_reopened (r : ReceivingDiscrepancy) : ReceivingDiscrepancy :=
  with_rd_status INVESTIGATING (investigated_by r, investigated_at r) (None, None) (None, None) r.

Definition investigate_discrepancy (discrepancy_id : Z) (caller_store_id actor_id : option Z)
    : Tx Z :=
  discrepancy ← get_discrepancy discrepancy_id;
  _ ← enforce_store_access caller_store_id (rd_store_id discrepancy);
  _ ← raise_if (negb (bool_decide (rd_status discrepancy = RECORDED))) invalid_discrepancy_state;
  now ← datetime_now_utc;
  _ ← update discrepancy_id (investigation_started actor_id now);
  _ ← log_event actor_id "DISCREPANCY_INVESTIGATION_STARTED" "receiving_discrepancy"
        (Some discrepancy_id);
  mret discrepancy_id.

Definition DISCREPANCY_RESOLUTION_TYPES : list (string * ResolutionType) :=
  [("VENDOR_CAUSED", VENDOR_CAUSED); ("SOURCE_STORE_CAUSED", SOURCE_STORE_CAUSED);
   ("DESTINATION_CAUSED", DESTINATION_CAUSED); ("TRANSIT_DAMAGE", TRANSIT_DAMAGE);
   ("UNKNOWN", UNKNOWN)]%string.

Definition resolve_discrepancy (discrepancy_id : Z) (resolution notes : string)
    (caller_store_id actor_id : option Z) : Tx Z :=
  finding ← of_option (parse_enum DISCREPANCY_RESOLUTION_TYPES resolution)
              (ValidationAppError "INVALID_RESOLUTION_TYPE");
  _ ← raise_if (blank notes) (ValidationAppError "RESOLUTION_NOTES_REQUIRED");
  discrepancy ← get_discrepancy discrepancy_id;
  _ ← enforce_store_access caller_store_id (rd_store_id discrepancy);
  _ ← raise_if (negb (bool_decide (rd_status discrepancy = INVESTIGATING)))
        invalid_discrepancy_state;
  now ← datetime_now_utc;
  _ ← update discrepancy_id (investigation_resolved actor_id now finding notes);
  _ ← log_event actor_id "DISCREPANCY_RESOLVED" "receiving_discrepancy" (Some discrepancy_id);
  mret discrepancy_id.

(** [reopen_discrepancy_after_write_off_denial] locks and checks the row, then
    flushes what its caller has pending together with the new status: the two
    halves around that flush. *)
Definition check_reopenable (discrepancy_id : Z) : Tx unit :=
  discrepancy ← get_discrepancy discrepancy_id;
  raise_if (negb (bool_decide (rd_status discrepancy = RESOLVED))) invalid_discrepancy_state.

Definition reopen (discrepancy_id : Z) (actor_id : option Z) : Tx unit :=
  _ ← update discrepancy_id investigation_reopened;
  log_event actor_id "DISCREPANCY_REOPENED_AFTER_WRITE_OFF_DENIAL" "receiving_discrepancy"
    (Some discrepancy_id).

Definition reopen_discrepancy_after_write_off_denial (pending : Tx unit) (discrepancy_id : Z)
    (actor_id : option Z) : Tx unit :=
  _ ← check_reopenable discrepancy_id;
  _ ← pending;
  reopen discrepancy_id actor_id.

(** ** What a row keeps *)

(** The facts of a discrepancy, which nothing changes after its creation. *)
Definition facts (r : ReceivingDiscrepancy) :=
  (rd_source_type r, rd_source_id r, rd_transfer_id r, rd_product_id r, rd_store_id r,
   counterparty_store_id r, discrepancy_type r, quantity_short r, quantity_damaged r,
   rd_unit_cost r, raised_by r, raised_at r).

(** What can happen to a discrepancy, and the transitions of the service. *)
Inductive discrepancy_event := DE_INVESTIGATED | DE_RESOLVED | DE_REOPENED.

Inductive discrepancy_step : discrepancy_event -> ReceivingDiscrepancy -> ReceivingDiscrepancy -> Prop :=
  | ds_investigate r actor now : rd_status r = RECORDED ->
      discrepancy_step DE_INVESTIGATED r (investigation_started actor now r)
  | ds_resolve r actor now finding notes : rd_status r = INVESTIGATING -> blank notes = false ->
      discrepancy_step DE_RESOLVED r (investigation_resolved actor now finding notes r)
  | ds_reopen r : rd_status r = RESOLVED -> discrepancy_step DE_REOPENED r (investigation_reopened r).

Lemma discrepancy_step_facts ev r r' : discrepancy_step ev r r' -> facts r' = facts r.
Proof. by destruct 1. Qed.

Lemma get_discrepancy_ok i s r s' :
  get_discrepancy i s = (Ok r, s') -> row_of (discrepancies (working s)) i = Some r /\ s' = s.
Proof.
  unfold get_discrepancy. intros H. apply bind_ok in H as (o & s1 & H1 & H).
  apply get_ok in H1 as [-> <-]. by apply of_option_ok in H as [H <-].
Qed.

(** What a transition request wrote: one step of one row, and the audit trail. *)
Definition stepped (ev : discrepancy_event) (i : Z) (r r' : ReceivingDiscrepancy) (s s' : session database) : Prop :=
  row_of (discrepancies (working s)) i = Some r /\ discrepancy_step ev r r' /\
  exists f log, r' = f r /\
    s' = with_working (over_audit_logs (fun t => t ++ [log])
           (over_discrepancies (set_row i f) (working s))) s.

Lemma investigate_discrepancy_ok i caller actor s j s' :
  investigate_discrepancy i caller actor s = (Ok j, s') ->
  j = i /\ exists r r', stepped DE_INVESTIGATED i r r' s s' /\ store_denied caller (rd_store_id r) = false.
Proof.
  unfold investigate_discrepancy. intros H.
  apply bind_ok in H as (r & s1 & H1 & H). apply get_discrepancy_ok in H1 as [Hr ->].
  apply bind_ok in H as (? & s1 & H1 & H). apply enforce_store_access_ok in H1 as [Hst <-].
  apply bind_ok in H as (? & s1 & H1 & H). apply raise_if_ok in H1 as [Hg <-].
  apply negb_false_iff, bool_decide_eq_true in Hg.
  apply bind_ok in H as (now & s1 & H1 & H). apply asks_ok in H1 as [-> <-].
  apply bind_ok in H as (? & s1 & H1 & H). apply update_ok in H1 as (? & _ & _ & _ & ->).
  apply bind_ok in H as (? & s2 & H2 & H). apply log_event_ok in H2 as ->.
  apply ret_ok in H as [<- <-]. split; [done|].
  exists r, (investigation_started actor (utc_now (env s)) r). split; [|done].
  split; [done|]. split; [by constructor|]. by do 2 eexists.
Qed.

Lemma resolve_discrepancy_ok i res notes caller actor s j s' :
  resolve_discrepancy i res notes caller actor s = (Ok j, s') ->
  j = i /\ exists r r', stepped DE_RESOLVED i r r' s s' /\ store_denied caller (rd_store_id r) = false.
Proof.
  unfold resolve_discrepancy. intros H.
  apply bind_ok in H as (finding & s1 & H1 & H). apply of_option_ok in H1 as [_ <-].
  apply bind_ok in H as (? & s1 & H1 & H). apply raise_if_ok in H1 as [Hn <-].
  apply bind_ok in H as (r & s1 & H1 & H). apply get_discrepancy_ok in H1 as [Hr ->].
  apply bind_ok in H as (? & s1 & H1 & H). apply enforce_store_access_ok in H1 as [Hst <-].
  apply bind_ok in H as (? & s1 & H1 & H). apply raise_if_ok in H1 as [Hg <-].
  apply negb_false_iff, bool_decide_eq_true in Hg.
  apply bind_ok in H as (now & s1 & H1 & H). apply asks_ok in H1 as [-> <-].
  apply bind_ok in H as (? & s1 & H1 & H). apply update_ok in H1 as (? & _ & _ & _ & ->).
  apply bind_ok in H as (? & s2 & H2 & H). apply log_event_ok in H2 as ->.
  apply ret_ok in H as [<- <-]. split; [done|].
  exists r, (investigation_resolved actor (utc_now (env s)) finding notes r). split; [|done].
  split; [done|]. split; [by constructor|]. by do 2 eexists.
Qed.
