(* ===== verification/Transfers.v ===== *)
(** * Inter-store transfers

    app/modules/transfers/service.py: drafting a transfer between the catalogs
    of two stores, the one shipment at the source, the receipts at the
    destination with their custody record and discrepancies, cancellation, and
    the reconciliation of the Inventory In Transit account. *)

From S2P Require Import Prelude Fixed Session Schema Tables Platform Chart Fixture Journal.
From S2P Require Import Posting Books Reports Inventory Discrepancies.

Definition is_tr_draft (t : InterStoreTransfer) : bool := bool_decide (tr_status t = TR_DRAFT).

Definition invalid_transfer_state : exn := ConflictError "INVALID_TRANSFER_STATE".

(** A store-scoped caller of a two-store operation is on one of the sides. *)
Definition side_denied (caller_store_id : option Z) (a b : Z) : bool :=
  match caller_store_id with
  | Some c => negb ((c =? a) || (c =? b))
  | None => false
  end.

(** ** Draft creation *)

Record TransferLineInput := {
  ti_source_product_id : Z;
  ti_requested_quantity : qty;
  ti_destination_product_id : option Z;
}.

Record TransferArgs := {
  ta_from_store_id : Z;
  ta_to_store_id : Z;
  ta_requested_date : Z;
  ta_notes : option string;
  ta_requested_by : option Z;
  ta_replenishment_plan_id : option Z;
}.

Definition active_store (store_id : Z) : Tx unit :=
  store ← get store_id;
  raise_if (negb (match store with Some st => store_is_active st | None => false end)) NotFoundError.

Definition source_exists (product_id : Z) : Tx unit :=
  found ← get product_id;
  raise_if (negb (opt_some (found : option Product))) NotFoundError.

Definition source_in_store (from_store product_id : Z) : Tx unit :=
  found ← get product_id;
  product ← of_option found KeyError;
  raise_if (negb (product_store_id product =? from_store)) (ConflictError "STORE_MISMATCH").

(** The explicit remap, or the destination's product with the same SKU. *)
Definition resolve_destination (to_store : Z) (l : TransferLineInput) : Tx Z :=
  found ← get (ti_source_product_id l);
  source_product ← of_option found KeyError;
  match ti_destination_product_id l with
  | Some i =>
      destination ← get i;
      product ← of_option destination NotFoundError;
      _ ← raise_if (negb (product_store_id product =? to_store)) (ConflictError "STORE_MISMATCH");
      mret i
  | None =>
      found ← find_by (fun p => (product_store_id p =? to_store)
                                && bool_decide (sku p = sku source_product));
      match found with
      | Some (i, _) => mret i
      | None => raise NotFoundError
      end
  end.

Definition resolve_transfer_lines (to_store : Z) (lines : list TransferLineInput)
    : Tx (list (TransferLineInput * Z)) :=
  fold_m (fun acc l => i ← resolve_destination to_store l; mret (acc ++ [(l, i)])) lines [].

Definition _generate_transfer_number (from_store to_store : Z) : Tx TransferNumber :=
  now ← datetime_now_utc;
  token ← draw_token;
  mret (Build_TransferNumber from_store to_store now token).

Definition new_transfer (a : TransferArgs) (number : TransferNumber) : InterStoreTransfer :=
  mkTransfer (ta_from_store_id a) (ta_to_store_id a) number TR_DRAFT (ta_requested_date a)
    (ta_notes a) (ta_requested_by a) None None None None None (ta_replenishment_plan_id a).

Definition new_transfer_line (transfer_id : Z) (r : TransferLineInput * Z) : InterStoreTransferLine :=
  mkTransferLine transfer_id (ti_source_product_id r.1) r.2 (ti_requested_quantity r.1)
    0 0 0 0 0 None.

(** The validation of a draft: its lines with their destination products. *)
Definition check_transfer (a : TransferArgs) (lines : list TransferLineInput)
    (caller_store_id : option Z) : Tx (list (TransferLineInput * Z)) :=
  let from_store := ta_from_store_id a in
  let to_store := ta_to_store_id a in
  _ ← raise_if (side_denied caller_store_id from_store to_store)
        (ForbiddenError "STORE_ACCESS_DENIED");
  _ ← raise_if (from_store =? to_store) (ValidationAppError "SAME_STORE_TRANSFER");
  _ ← active_store from_store;
  _ ← active_store to_store;
  _ ← raise_if (bool_decide (length lines = 0%nat)) (ValidationAppError "EMPTY_TRANSFER");
  _ ← for_each (fun l => raise_if (ti_requested_quantity l <=? 0)
                           (ValidationAppError "INVALID_QUANTITY")) lines;
  let source_product_ids := sorted_set (map ti_source_product_id lines) in
  _ ← for_each source_exists source_product_ids;
  _ ← for_each (source_in_store from_store) source_product_ids;
  resolve_transfer_lines to_store lines.

Definition _create_transfer_inner (a : TransferArgs) (lines : list TransferLineInput)
    (caller_store_id : option Z) : Tx Z :=
  resolved ← check_transfer a lines caller_store_id;
  number ← _generate_transfer_number (ta_from_store_id a) (ta_to_store_id a);
  transfer_id ← add (new_transfer a number);
  _ ← for_each (fun r => _ ← add (new_transfer_line transfer_id r); mret tt) resolved;
  _ ← log_event (ta_requested_by a) "TRANSFER_CREATED" "inter_store_transfer" (Some transfer_id);
  mret transfer_id.

Definition create_transfer (a : TransferArgs) (lines : list TransferLineInput)
    (caller_store_id : option Z) : Tx Z :=
  transfer_id ← _create_transfer_inner a lines caller_store_id;
  _ ← commit;
  mret transfer_id.

Definition get_transfer (transfer_id : Z) : Tx InterStoreTransfer :=
  found ← get transfer_id;
  of_option found NotFoundError.

(** ** Shipment *)

Record ShipLineInput := {
  sh_line_id : Z;
  quantity_to_ship : qty;
}.

Definition shipped_under (key : string) (t : InterStoreTransfer) : bool :=
  same_key (ship_client_transaction_id t) (Some key).

Definition with_ship_key (key : string) (t : InterStoreTransfer) : InterStoreTransfer :=
  mkTransfer (from_store_id t) (to_store_id t) (transfer_number t) (tr_status t)
    (requested_date t) (tr_notes t) (tr_requested_by t) (Some key) (shipped_by t) (shipped_at t)
    (tr_cancelled_by t) (tr_cancelled_at t) (tr_replenishment_plan_id t).

Definition with_shipped (by_ : option Z) (now : Z) (t : InterStoreTransfer) : InterStoreTransfer :=
  mkTransfer (from_store_id t) (to_store_id t) (transfer_number t) TR_SHIPPED
    (requested_date t) (tr_notes t) (tr_requested_by t) (ship_client_transaction_id t) by_ (Some now)
    (tr_cancelled_by t) (tr_cancelled_at t) (tr_replenishment_plan_id t).

(** The flush of the idempotency key: [None] when this call owns it, the
    transfer a concurrent request shipped under it otherwise. *)
Definition claim_ship_key (transfer_id : Z) (key : string) : Tx (option Z) :=
  except_integrity (_ ← update transfer_id (with_ship_key key); mret None)
    (fun e => _ ← rollback;
              winner ← find_by (shipped_under key);
              match winner with
              | None => raise e
              | Some (i, _) => mret (Some i)
              end).

Definition transfer_line_of (transfer_id line_id : Z) : Tx InterStoreTransferLine :=
  found ← get line_id;
  line ← of_option found NotFoundError;
  _ ← raise_if (negb (tl_transfer_id line =? transfer_id)) NotFoundError;
  mret line.

Definition check_ship_line (transfer_id : Z) (l : ShipLineInput) : Tx unit :=
  line ← transfer_line_of transfer_id (sh_line_id l);
  raise_if (requested_quantity line <? quantity_to_ship l) (ConflictError "OVER_SHIPMENT").

Definition source_of_line (line_id : Z) : Tx Z :=
  found ← get line_id;
  line ← of_option found KeyError;
  mret (source_product_id line).

Definition destination_of_line (line_id : Z) : Tx Z :=
  found ← get line_id;
  line ← of_option found KeyError;
  mret (destination_product_id line).

(** Lock the distinct products of some lines, ascending. *)
Definition lock_line_products (product_of : Z -> Tx Z) (line_ids : list Z) : Tx unit :=
  ids ← fold_m (fun acc i => p ← product_of i; mret (acc ++ [p])) line_ids [];
  for_each (fun p => _ ← lock_product_for_update p; mret tt) (sorted_set ids).

Definition with_line_shipped (q : qty) (c : cost) (l : InterStoreTransferLine)
    : InterStoreTransferLine :=
  mkTransferLine (tl_transfer_id l) (source_product_id l) (destination_product_id l)
    (requested_quantity l) q (received_quantity l) (damaged_quantity l)
    (declared_short_quantity l) (written_off_quantity l) (Some c).

Definition transfer_movement (ty : MovementType) (store transfer_id : Z) (by_ : option Z)
    (delta : qty) (unit_cost : cost) (new_cost : option cost) : MovementArgs :=
  {| ma_store_id := store; ma_type := ty; ma_delta := delta; ma_unit_cost := unit_cost;
     ma_reference_type := RT_inter_store_transfer; ma_reference_id := Some transfer_id;
     ma_reason := None; ma_created_by := by_; ma_new_cost := new_cost |}.

(** One line of the shipment leaves at the product's current cost; the running
    [total_shipped_value]. *)
Definition ship_line (store transfer_id : Z) (by_ : option Z) (total : ledger) (l : ShipLineInput)
    : Tx ledger :=
  found ← get (sh_line_id l);
  line ← of_option found KeyError;
  found ← get (source_product_id line);
  product ← of_option found KeyError;
  let unit_cost := current_cost product in
  _ ← update (sh_line_id l) (with_line_shipped (quantity_to_ship l) unit_cost);
  _ ← record_movement (source_product_id line)
        (transfer_movement MT_TRANSFER_OUT store transfer_id by_ (- quantity_to_ship l) unit_cost None);
  mret (total + ledger_quantize (quantity_to_ship l) unit_cost).

Definition write_shipment (transfer_id store : Z) (lines : list ShipLineInput) (by_ : option Z)
    : Tx unit :=
  total_shipped_value ← fold_m (ship_line store transfer_id by_) lines 0;
  now ← datetime_now_utc;
  _ ← update transfer_id (with_shipped by_ now);
  _ ← log_event by_ "TRANSFER_SHIPPED" "inter_store_transfer" (Some transfer_id);
  _ ← post_transfer_shipment_journal transfer_id store (Some now) total_shipped_value by_;
  mret tt.

(** Under the locks: every line is one of the transfer's, within its request. *)
Definition check_shipment (transfer_id : Z) (transfer : InterStoreTransfer)
    (lines : list ShipLineInput) : Tx unit :=
  _ ← raise_if (negb (is_tr_draft transfer)) invalid_transfer_state;
  _ ← for_each (check_ship_line transfer_id) lines;
  lock_line_products source_of_line (map sh_line_id lines).

Definition ship_transfer (transfer_id : Z) (lines : list ShipLineInput) (key : string)
    (caller_store_id by_ : option Z) : Tx Z :=
  existing ← find_by (shipped_under key);
  match existing with
  | Some (i, _) => mret i
  | None =>
      _ ← raise_if (bool_decide (length lines = 0%nat)) (ValidationAppError "EMPTY_SHIPMENT");
      _ ← for_each (fun l => raise_if (quantity_to_ship l <=? 0)
                               (ValidationAppError "INVALID_QUANTITY")) lines;
      transfer ← get_transfer transfer_id;
      _ ← enforce_store_access caller_store_id (from_store_id transfer);
      if shipped_under key transfer then mret transfer_id
      else
        _ ← check_shipment transfer_id transfer lines;
        winner ← claim_ship_key transfer_id key;
        match winner with
        | Some i => mret i
        | None => _ ← write_shipment transfer_id (from_store_id transfer) lines by_; mret transfer_id
        end
  end.

(** ** Receipt *)

Record ReceiveLineInput := {
  rl_line_id : Z;
  rl_received : qty;
  rl_damaged : qty;
  rl_declared_short : qty;
}.

(** The (good, damaged, declared short) triple of [by_line]. *)
Record Counts := mkCounts { good : qty; damaged : qty; short : qty }.

Definition no_counts : Counts := mkCounts 0 0 0.

Definition add_counts (a b : Counts) : Counts :=
  mkCounts (good a + good b) (damaged a + damaged b) (short a + short b).

Definition total_counts (c : Counts) : qty := good c + damaged c + short c.

Definition line_counts (l : ReceiveLineInput) : Counts :=
  mkCounts (rl_received l) (rl_damaged l) (rl_declared_short l).

(** [by_line], in the order the lines first appear. *)
Definition by_line (lines : list ReceiveLineInput) : list (Z * Counts) :=
  fold_left (fun acc l => dict_set (rl_line_id l)
    (add_counts (default no_counts (dict_get (rl_line_id l) acc)) (line_counts l)) acc) lines [].

Definition receipt_under_key (key : string) (r : InterStoreTransferReceipt) : bool :=
  bool_decide (trr_client_transaction_id r = key).

Definition validate_receive_line (l : ReceiveLineInput) : Tx unit :=
  _ ← raise_if ((rl_received l <? 0) || (rl_damaged l <? 0) || (rl_declared_short l <? 0))
        (ValidationAppError "INVALID_QUANTITY");
  raise_if (total_counts (line_counts l) <=? 0) (ValidationAppError "INVALID_QUANTITY").

Definition accounted (l : InterStoreTransferLine) : qty :=
  received_quantity l + damaged_quantity l + declared_short_quantity l.

Definition check_receive_line (transfer_id : Z) (c : Z * Counts) : Tx unit :=
  line ← transfer_line_of transfer_id c.1;
  let remaining := shipped_quantity line - accounted line in
  raise_if (remaining <? total_counts c.2) (ConflictError "OVER_RECEIPT").

Record TransferReceiptArgs := {
  tra_transfer_id : Z;
  tra_received_date : Z;
  tra_key : string;
  tra_received_by : option Z;
  tra_notes : option string;
}.

Definition new_transfer_receipt (a : TransferReceiptArgs) (store : Z) : InterStoreTransferReceipt :=
  {| trr_transfer_id := tra_transfer_id a; trr_store_id := store;
     trr_client_transaction_id := tra_key a; trr_received_date := tra_received_date a;
     trr_received_by := tra_received_by a; trr_notes := tra_notes a |}.

Definition receipt_line_item (receipt_id : Z) (l : ReceiveLineInput) : InterStoreTransferReceiptItem :=
  {| tri_receipt_id := receipt_id; tri_line_id := rl_line_id l; tri_received := rl_received l;
     tri_damaged := rl_damaged l; tri_declared_short := rl_declared_short l |}.

(** The good quantity of one input line enters at the cost it was shipped at:
    the destination's new weighted average and a movement. *)
Definition take_in (store transfer_id : Z) (by_ : option Z) (product_id : Z) (q : qty)
    (unit_cost : cost) : Tx ledger :=
  if 0 <? q
  then
    found ← get product_id;
    product ← of_option found KeyError;
    let new_wac := compute_new_wac (current_qty_on_hand product) (current_cost product) q unit_cost in
    _ ← record_movement product_id
          (transfer_movement MT_TRANSFER_IN store transfer_id by_ q unit_cost (Some new_wac));
    mret (ledger_quantize q unit_cost)
  else mret 0.

(** A line and what was posted for it so far: [total_received_value] and
    [created_items], the ids of the items with their lines. *)
Definition receive_transfer_line (store transfer_id receipt_id : Z) (by_ : option Z)
    (acc : ledger * list (Z * ReceiveLineInput)) (l : ReceiveLineInput)
    : Tx (ledger * list (Z * ReceiveLineInput)) :=
  found ← get (rl_line_id l);
  line ← of_option found KeyError;
  unit_cost ← of_option (unit_cost_at_shipment line) AssertionError;
  value ← take_in store transfer_id by_ (destination_product_id line) (rl_received l) unit_cost;
  item_id ← add (receipt_line_item receipt_id l);
  mret (acc.1 + value, acc.2 ++ [(item_id, l)]).

Definition discrepancy_of_item (transfer_id : Z) (transfer : InterStoreTransfer) (by_ : option Z)
    (now : Z) (line : InterStoreTransferLine) (unit_cost : cost) (item : Z * ReceiveLineInput)
    : DiscrepancyArgs :=
  {| da_receipt_item_id := item.1; da_transfer_id := transfer_id;
     da_product_id := destination_product_id line; da_store_id := to_store_id transfer;
     da_counterparty_store_id := Some (from_store_id transfer);
     da_quantity_short := rl_declared_short item.2; da_quantity_damaged := rl_damaged item.2;
     da_unit_cost := unit_cost; da_raised_by := by_; da_raised_at := now |}.

Definition raise_discrepancy (transfer_id : Z) (transfer : InterStoreTransfer) (by_ : option Z)
    (item : Z * ReceiveLineInput) : Tx unit :=
  found ← get (rl_line_id item.2);
  line ← of_option found KeyError;
  unit_cost ← of_option (unit_cost_at_shipment line) AssertionError;
  now ← datetime_now_utc;
  _ ← create_discrepancy_for_receipt_item
        (discrepancy_of_item transfer_id transfer by_ now line unit_cost item);
  mret tt.

Definition with_counted (c : Counts) (l : InterStoreTransferLine) : InterStoreTransferLine :=
  mkTransferLine (tl_transfer_id l) (source_product_id l) (destination_product_id l)
    (requested_quantity l) (shipped_quantity l) (received_quantity l + good c)
    (damaged_quantity l + damaged c) (declared_short_quantity l + short c)
    (written_off_quantity l) (unit_cost_at_shipment l).

Definition custody_of (a : TransferReceiptArgs) (store receipt_id now : Z) : TransferCustodyAcceptance :=
  {| tca_transfer_id := tra_transfer_id a; tca_receipt_id := receipt_id; tca_store_id := store;
     accepted_by := tra_received_by a; accepted_at := now; is_digital_acknowledgment := true |}.

(** Everything after the receipt row. *)
Definition write_transfer_receipt (a : TransferReceiptArgs) (transfer : InterStoreTransfer)
    (receipt_id : Z) (lines : list ReceiveLineInput) : Tx unit :=
  let transfer_id := tra_transfer_id a in
  let store := to_store_id transfer in
  posted ← fold_m (receive_transfer_line store transfer_id receipt_id (tra_received_by a)) lines (0, []);
  _ ← for_each (raise_discrepancy transfer_id transfer (tra_received_by a)) posted.2;
  _ ← for_each (fun c => update c.1 (with_counted c.2)) (by_line lines);
  _ ← log_event (tra_received_by a) "TRANSFER_RECEIPT_COMPLETED" "inter_store_transfer_receipt"
        (Some receipt_id);
  now ← datetime_now_utc;
  custody ← add (custody_of a store receipt_id now);
  _ ← log_event (tra_received_by a) "TRANSFER_CUSTODY_ACCEPTED"
        "inter_store_transfer_custody_acceptance" (Some custody);
  _ ← post_transfer_receipt_journal receipt_id store (tra_received_date a) posted.1 (tra_received_by a);
  mret tt.

Definition check_transfer_receipt (transfer_id : Z) (transfer : InterStoreTransfer)
    (lines : list ReceiveLineInput) : Tx unit :=
  _ ← raise_if (negb (bool_decide (tr_status transfer = TR_SHIPPED))) invalid_transfer_state;
  _ ← for_each (check_receive_line transfer_id) (by_line lines);
  lock_line_products destination_of_line (dict_keys (by_line lines)).

Definition receive_transfer (a : TransferReceiptArgs) (lines : list ReceiveLineInput)
    (caller_store_id : option Z) : Tx Z :=
  existing ← find_by (receipt_under_key (tra_key a));
  match existing with
  | Some (i, _) => mret i
  | None =>
      _ ← raise_if (bool_decide (length lines = 0%nat)) (ValidationAppError "EMPTY_RECEIPT");
      _ ← for_each validate_receive_line lines;
      transfer ← get_transfer (tra_transfer_id a);
      _ ← enforce_store_access caller_store_id (to_store_id transfer);
      _ ← check_transfer_receipt (tra_transfer_id a) transfer lines;
      inserted ← insert_or_winner (receipt_under_key (tra_key a))
                   (new_transfer_receipt a (to_store_id transfer));
      if snd (inserted : Z * bool)
      then _ ← write_transfer_receipt a transfer (fst inserted) lines; mret (fst inserted)
      else mret (fst inserted)
  end.

(** ** Cancellation *)

Definition with_cancelled (by_ : option Z) (now : Z) (t : InterStoreTransfer) : InterStoreTransfer :=
  mkTransfer (from_store_id t) (to_store_id t) (transfer_number t) TR_CANCELLED
    (requested_date t) (tr_notes t) (tr_requested_by t) (ship_client_transaction_id t)
    (shipped_by t) (shipped_at t) by_ (Some now) (tr_replenishment_plan_id t).

Definition cancel_transfer (transfer_id : Z) (actor_id caller_store_id : option Z) : Tx Z :=
  transfer ← get_transfer transfer_id;
  _ ← raise_if (side_denied caller_store_id (from_store_id transfer) (to_store_id transfer))
        (ForbiddenError "STORE_ACCESS_DENIED");
  match tr_status transfer with
  | TR_CANCELLED => mret transfer_id
  | TR_SHIPPED => raise invalid_transfer_state
  | TR_DRAFT =>
      now ← datetime_now_utc;
      _ ← update transfer_id (with_cancelled actor_id now);
      _ ← log_event actor_id "TRANSFER_CANCELLED" "inter_store_transfer" (Some transfer_id);
      _ ← commit;
      mret transfer_id
  end.

(** ** Reconciliation *)

Definition outstanding (l : InterStoreTransferLine) : qty :=
  shipped_quantity l - received_quantity l - written_off_quantity l.

(** [SELECT ... WHERE shipped_quantity > received_quantity + written_off_quantity],
    valued at the frozen costs. *)
Definition outstanding_value (l : InterStoreTransferLine) : Tx ledger :=
  unit_cost ← of_option (unit_cost_at_shipment l) AssertionError;
  mret (ledger_quantize (outstanding l) unit_cost).

Record InventoryInTransitReconciliationRow := {
  gl_in_transit_balance : ledger;
  outstanding_in_transit_total : ledger;
  in_transit_discrepancy : ledger;
}.

Definition inventory_in_transit_reconciliation : Tx InventoryInTransitReconciliationRow :=
  rows ← trial_balance everything;
  let gl_balance := net_debit rows ACCOUNT_INVENTORY_IN_TRANSIT in
  outstanding_lines ← query (fun _ l => received_quantity l + written_off_quantity l
                                        <? shipped_quantity l);
  total ← fold_m (fun total l => v ← outstanding_value (snd (l : Z * InterStoreTransferLine));
                                 mret (total + v)) outstanding_lines 0;
  mret {| gl_in_transit_balance := gl_balance; outstanding_in_transit_total := total;
          in_transit_discrepancy := gl_balance - total |}.

(** The operations of the module that write. *)
Inductive transfer_op :=
  | T_create (a : TransferArgs) (lines : list TransferLineInput) (caller : option Z)
  | T_ship (id : Z) (lines : list ShipLineInput) (key : string) (caller by_ : option Z)
  | T_receive (a : TransferReceiptArgs) (lines : list ReceiveLineInput) (caller : option Z)
  | T_cancel (id : Z) (actor caller : option Z)
  | T_investigate (id : Z) (caller actor : option Z)
  | T_resolve (id : Z) (resolution notes : string) (caller actor : option Z).

Definition run_transfer_op (op : transfer_op) : Tx Z :=
  match op with
  | T_create a ls c => create_transfer a ls c
  | T_ship i ls k c b => ship_transfer i ls k c b
  | T_receive a ls c => receive_transfer a ls c
  | T_cancel i a c => cancel_transfer i a c
  | T_investigate i c a => investigate_discrepancy i c a
  | T_resolve i r n c a => resolve_discrepancy i r n c a
  end.
