(* ===== verification/WriteOffs.v ===== *)
(** * Approval-gated transfer write-offs

    app/modules/writeoffs/service.py: the approval policy, the request against
    a resolved discrepancy, and the decisions: approval, which posts the loss,
    denial, which reopens the discrepancy, and reversal by an administrator. *)

From S2P Require Import Prelude Fixed Session Schema Tables Platform Chart Fixture Journal.
From S2P Require Import Posting Inventory Discrepancies Transfers.

Definition ADMIN : string := "Admin".

(** app/modules/auth/service.py [get_user_role_name]: the names a user's rows
    of [user_roles] join to. *)
Definition role_names_of (d : database) (user_id : Z) : list string :=
  omap (fun ur => if ur_user_id ur =? user_id then role_name <$> row_of (roles d) (ur_role_id ur)
                  else None) (user_roles d).

Definition get_user_role_name (user_id : Z) : Tx (option string) :=
  names ← gets (fun d => role_names_of d user_id);
  scalar_one_or_none names.

Definition dual_store_denied (caller_store_id : option Z) (a : Z) (b : option Z) : bool :=
  match caller_store_id with
  | Some c => negb ((c =? a) || match b with Some i => c =? i | None => false end)
  | None => false
  end.

(** ** Approval policy *)

Record RuleArgs := {
  rua_action_type : string;
  rua_scope_store_id : option Z;
  rua_min_amount : ledger;
  rua_max_amount : option ledger;
  rua_required_role_id : Z;
  rua_escalation_role_id : option Z;
  rua_is_active : bool;
  rua_created_by : option Z;
}.

Definition APPROVAL_ACTION_TYPES : list string := ["TRANSFER_WRITE_OFF"%string].

Definition role_exists (role_id : Z) : Tx unit :=
  found ← get role_id;
  raise_if (negb (opt_some (found : option Role))) NotFoundError.

Definition new_rule (a : RuleArgs) : ApprovalPolicyRule :=
  {| scope_store_id := rua_scope_store_id a; min_amount := rua_min_amount a;
     max_amount := rua_max_amount a; rule_required_role_id := rua_required_role_id a;
     escalation_role_id := rua_escalation_role_id a; rule_is_active := rua_is_active a;
     rule_created_by := rua_created_by a |}.

Definition create_approval_policy_rule (a : RuleArgs) : Tx Z :=
  _ ← raise_if (negb (bool_decide (rua_action_type a ∈ APPROVAL_ACTION_TYPES)))
        (ValidationAppError "INVALID_ACTION_TYPE");
  _ ← role_exists (rua_required_role_id a);
  _ ← match rua_escalation_role_id a with Some r => role_exists r | None => mret tt end;
  rule_id ← add (new_rule a);
  _ ← log_event (rua_created_by a) "APPROVAL_POLICY_RULE_CREATED" "approval_policy_rule" (Some rule_id);
  mret rule_id.

(** The rules whose range covers the amount for the store. *)
Definition rule_applies (store : Z) (amount : ledger) (r : ApprovalPolicyRule) : bool :=
  rule_is_active r && (min_amount r <=? amount) && opt_all (Z.ltb amount) (max_amount r)
  && opt_all (fun s => s =? store) (scope_store_id r).

(** [key=lambda r: (r.scope_store_id is None, -r.min_amount)] *)
Definition rule_key_le (a b : Z * ApprovalPolicyRule) : bool :=
  match scope_store_id a.2, scope_store_id b.2 with
  | Some _, None => true
  | None, Some _ => false
  | _, _ => min_amount b.2 <=? min_amount a.2
  end.

(** The required role, and the rule it comes from; the Admin role when no rule
    applies. *)
Definition _resolve_required_role (store : Z) (amount : ledger) : Tx (Z * option Z) :=
  rules ← query (fun _ r => rule_applies store amount r);
  match sort_by rule_key_le rules with
  | [] =>
      admins ← query (fun _ r => bool_decide (role_name r = ADMIN));
      admin ← scalar_one admins;
      mret (fst admin, None)
  | chosen :: _ => mret (rule_required_role_id chosen.2, Some chosen.1)
  end.

(** ** The request *)

Record WriteOffArgs := {
  wa_discrepancy_id : Z;
  wa_quantity : qty;
  wa_reason : string;
  wa_key : string;
  wa_initiated_by : option Z;
}.

Definition write_off_under (key : string) (w : TransferWriteOff) : bool :=
  bool_decide (wo_client_transaction_id w = key).

Definition against (discrepancy_id : Z) (st : WriteOffStatus) (w : TransferWriteOff) : bool :=
  (wo_discrepancy_id w =? discrepancy_id) && bool_decide (wo_status w = st).

(** [already_written_off] *)
Definition written_off_against (d : database) (discrepancy_id : Z) : qty :=
  sum_where (against discrepancy_id WO_POSTED) wo_quantity (write_offs d).

(** What of the discrepancy is not written off. *)
Definition remaining_discrepancy (discrepancy_id : Z) (r : ReceivingDiscrepancy) : Tx qty :=
  already ← gets (fun d => written_off_against d discrepancy_id);
  mret (quantity_short r + quantity_damaged r - already).

Definition write_off_row (a : WriteOffArgs) (r : ReceivingDiscrepancy) (store initiator line_id : Z)
    (required : Z * option Z) (now : Z) : TransferWriteOff :=
  mkWriteOff (rd_transfer_id r) line_id (wa_discrepancy_id a) (wa_quantity a) (rd_unit_cost r)
    (ledger_quantize (wa_quantity a) (rd_unit_cost r)) store (wa_reason a) initiator now
    required.1 required.2 WO_PENDING_APPROVAL None None (wa_key a).

(** The discrepancy may be written off: resolved, with a finding and a store
    the loss can be put on, and no request outstanding. *)
Definition check_eligible (discrepancy_id : Z) (r : ReceivingDiscrepancy) : Tx Z :=
  _ ← raise_if (negb (bool_decide (rd_source_type r = TRANSFER_RECEIPT)))
        (ValidationAppError "UNSUPPORTED_SOURCE_TYPE");
  _ ← raise_if (negb (bool_decide (rd_status r = RESOLVED))) (ConflictError "DISCREPANCY_NOT_RESOLVED");
  _ ← raise_if (bool_decide (resolution_type r = Some VENDOR_CAUSED))
        (ConflictError "VENDOR_CAUSED_NOT_ELIGIBLE");
  store ← of_option (counterparty_store_id r) (ConflictError "NO_ATTRIBUTION_STORE");
  pending ← find_by (against discrepancy_id WO_PENDING_APPROVAL);
  _ ← raise_if (opt_some pending) (ConflictError "DUPLICATE_PENDING_WRITE_OFF");
  mret store.

Definition record_write_off (a : WriteOffArgs) (r : ReceivingDiscrepancy) (initiator : Z) : Tx Z :=
  store ← check_eligible (wa_discrepancy_id a) r;
  remaining ← remaining_discrepancy (wa_discrepancy_id a) r;
  _ ← raise_if (remaining <? wa_quantity a)
        (ValidationAppError "QUANTITY_EXCEEDS_REMAINING_DISCREPANCY");
  found ← get (rd_source_id r);
  receipt_item ← of_option found (ConflictError "SOURCE_RECEIPT_ITEM_MISSING");
  required ← _resolve_required_role store (ledger_quantize (wa_quantity a) (rd_unit_cost r));
  now ← datetime_now_utc;
  inserted ← insert_or_winner (write_off_under (wa_key a))
               (write_off_row a r store initiator (tri_line_id receipt_item) required now);
  if snd (inserted : Z * bool)
  then _ ← log_event (Some initiator) "WRITE_OFF_REQUESTED" "transfer_write_off" (Some (fst inserted));
       mret (fst inserted)
  else mret (fst inserted).

Definition create_write_off (a : WriteOffArgs) (caller_store_id : option Z) : Tx Z :=
  existing ← find_by (write_off_under (wa_key a));
  match existing with
  | Some (i, _) => mret i
  | None =>
      _ ← raise_if (wa_quantity a <=? 0) (ValidationAppError "INVALID_QUANTITY");
      _ ← raise_if (blank (wa_reason a)) (ValidationAppError "REASON_REQUIRED");
      initiator ← of_option (wa_initiated_by a) (ValidationAppError "ACTOR_REQUIRED");
      r ← get_discrepancy (wa_discrepancy_id a);
      _ ← raise_if (dual_store_denied caller_store_id (rd_store_id r) (counterparty_store_id r))
            (ForbiddenError "STORE_ACCESS_DENIED");
      record_write_off a r initiator
  end.

Definition get_write_off (write_off_id : Z) : Tx TransferWriteOff :=
  found ← get write_off_id;
  of_option found NotFoundError.

(** ** Decisions *)

Definition invalid_write_off_state : exn := ConflictError "INVALID_WRITE_OFF_STATE".

Definition check_approval_authority (w : TransferWriteOff) (approved_by : Z) : Tx unit :=
  _ ← raise_if (approved_by =? wo_initiated_by w) (ForbiddenError "SELF_APPROVAL_PROHIBITED");
  held ← get_user_role_name approved_by;
  if bool_decide (held = Some ADMIN) then mret tt
  else
    required ← get (wo_required_role_id w);
    raise_if (match held, (required : option Role) with
              | Some h, Some r => negb (bool_decide (h = role_name r))
              | _, _ => true
              end) (ForbiddenError "INSUFFICIENT_APPROVAL_AUTHORITY").

Definition with_wo_status (st : WriteOffStatus) (entry reversal : option Z) (w : TransferWriteOff)
    : TransferWriteOff :=
  mkWriteOff (wo_transfer_id w) (transfer_line_id w) (wo_discrepancy_id w) (wo_quantity w)
    (wo_unit_cost w) (wo_amount w) (wo_store_id w) (wo_reason w) (wo_initiated_by w)
    (wo_initiated_at w) (wo_required_role_id w) (matched_rule_id w) st entry reversal
    (wo_client_transaction_id w).

Definition mark_posted (entry : Z) (w : TransferWriteOff) : TransferWriteOff :=
  with_wo_status WO_POSTED (Some entry) (wo_reversal_journal_entry_id w) w.

Definition mark_denied (w : TransferWriteOff) : TransferWriteOff :=
  with_wo_status WO_DENIED (wo_journal_entry_id w) (wo_reversal_journal_entry_id w) w.

Definition mark_reversed (entry : Z) (w : TransferWriteOff) : TransferWriteOff :=
  with_wo_status WO_REVERSED (wo_journal_entry_id w) (Some entry) w.

Definition with_written_off (q : qty) (l : InterStoreTransferLine) : InterStoreTransferLine :=
  mkTransferLine (tl_transfer_id l) (source_product_id l) (destination_product_id l)
    (requested_quantity l) (shipped_quantity l) (received_quantity l) (damaged_quantity l)
    (declared_short_quantity l) (written_off_quantity l + q) (unit_cost_at_shipment l).

Definition approval_row (write_off_id : Z) (w : TransferWriteOff) (by_ : Z) (dec : ApprovalDecision)
    (now : Z) (notes : string) : WriteOffApproval :=
  {| woa_write_off_id := write_off_id; woa_initiated_by := wo_initiated_by w; woa_approved_by := by_;
     decision := dec; decided_at := now; decision_notes := notes |}.

Definition decides (write_off_id : Z) (v : WriteOffApproval) : bool :=
  woa_write_off_id v =? write_off_id.

(** What approval and denial share: the validated actor, and the pending
    write-off, unless a decision exists, which answers the request. *)
Definition open_decision (write_off_id : Z) (notes : string) (approved_by : option Z)
    : Tx (Z * option TransferWriteOff) :=
  _ ← raise_if (blank notes) (ValidationAppError "DECISION_NOTES_REQUIRED");
  actor ← of_option approved_by (ValidationAppError "ACTOR_REQUIRED");
  decided ← find_by (decides write_off_id);
  w ← get_write_off write_off_id;
  if opt_some decided then mret (actor, None)
  else
    _ ← raise_if (negb (bool_decide (wo_status w = WO_PENDING_APPROVAL))) invalid_write_off_state;
    _ ← check_approval_authority w actor;
    mret (actor, Some w).

(** The loss is posted and taken out of the transfer line. *)
Definition post_write_off (write_off_id : Z) (w : TransferWriteOff) (actor : Z) (notes : string)
    (posting_date : option Z) : Tx unit :=
  r ← get_discrepancy (wo_discrepancy_id w);
  remaining ← remaining_discrepancy (wo_discrepancy_id w) r;
  _ ← raise_if (remaining <? wo_quantity w) (ConflictError "QUANTITY_EXCEEDS_REMAINING_DISCREPANCY");
  found ← get (transfer_line_id w);
  _ ← raise_if (negb (opt_some (found : option InterStoreTransferLine))) NotFoundError;
  now ← datetime_now_utc;
  entry ← post_transfer_write_off_journal write_off_id (wo_store_id w)
            (default (date_of now) posting_date) (wo_amount w) (Some actor);
  entry_id ← of_option entry AttributeError;
  _ ← or_conflict "ALREADY_DECIDED"
        (_ ← update write_off_id (mark_posted entry_id);
         _ ← update (transfer_line_id w) (with_written_off (wo_quantity w));
         _ ← add (approval_row write_off_id w actor DECISION_APPROVED now notes);
         mret tt);
  log_event (Some actor) "WRITE_OFF_APPROVED_AND_POSTED" "transfer_write_off" (Some write_off_id).

Definition approve_write_off (write_off_id : Z) (notes : string) (approved_by posting_date : option Z)
    : Tx Z :=
  opened ← open_decision write_off_id notes approved_by;
  match snd opened with
  | None => mret write_off_id
  | Some w => _ ← post_write_off write_off_id w (fst opened) notes posting_date; mret write_off_id
  end.

Definition deny_write_off (write_off_id : Z) (notes : string) (approved_by : option Z) : Tx Z :=
  opened ← open_decision write_off_id notes approved_by;
  match snd opened with
  | None => mret write_off_id
  | Some w =>
      now ← datetime_now_utc;
      _ ← reopen_discrepancy_after_write_off_denial
            (_ ← update write_off_id mark_denied;
             _ ← add (approval_row write_off_id w (fst opened) DECISION_DENIED now notes);
             mret tt)
            (wo_discrepancy_id w) (Some (fst opened));
      _ ← log_event (Some (fst opened)) "WRITE_OFF_DENIED" "transfer_write_off" (Some write_off_id);
      mret write_off_id
  end.

(** ** Reversal *)

Definition unpost_write_off (write_off_id : Z) (w : TransferWriteOff) (actor : Z) : Tx unit :=
  found ← get (transfer_line_id w);
  _ ← raise_if (negb (opt_some (found : option InterStoreTransferLine))) NotFoundError;
  entry ← post_transfer_write_off_reversal_journal write_off_id (wo_store_id w) (wo_amount w) (Some actor);
  entry_id ← of_option entry AttributeError;
  _ ← or_conflict "ALREADY_REVERSED"
        (_ ← update write_off_id (mark_reversed entry_id);
         update (transfer_line_id w) (with_written_off (- wo_quantity w)));
  log_event (Some actor) "WRITE_OFF_REVERSED" "transfer_write_off" (Some write_off_id).

Definition reverse_write_off (write_off_id : Z) (reason : string) (reversed_by : option Z) : Tx Z :=
  _ ← raise_if (blank reason) (ValidationAppError "REVERSAL_REASON_REQUIRED");
  actor ← of_option reversed_by (ValidationAppError "ACTOR_REQUIRED");
  held ← get_user_role_name actor;
  _ ← raise_if (negb (bool_decide (held = Some ADMIN))) (ForbiddenError "REVERSAL_REQUIRES_ADMIN");
  w ← get_write_off write_off_id;
  if opt_some (wo_reversal_journal_entry_id w) then mret write_off_id
  else
    _ ← raise_if (negb (bool_decide (wo_status w = WO_POSTED))) invalid_write_off_state;
    _ ← unpost_write_off write_off_id w actor;
    mret write_off_id.

Inductive write_off_op :=
  | W_rule (a : RuleArgs)
  | W_create (a : WriteOffArgs) (caller : option Z)
  | W_approve (id : Z) (notes : string) (by_ date : option Z)
  | W_deny (id : Z) (notes : string) (by_ : option Z)
  | W_reverse (id : Z) (reason : string) (by_ : option Z).

Definition run_write_off_op (op : write_off_op) : Tx Z :=
  match op with
  | W_rule a => create_approval_policy_rule a
  | W_create a c => create_write_off a c
  | W_approve i n b dt => approve_write_off i n b dt
  | W_deny i n b => deny_write_off i n b
  | W_reverse i r b => reverse_write_off i r b
  end.
