(* ===== verification/TransitInvariant.v ===== *)
(** * The invariant of goods in transit

    What holds of transfers, receipts, discrepancies and write-offs together:
    the counts of every transfer line are the sums of its receipt items and
    stay within what was shipped; every damaged or short item has exactly one
    discrepancy with the item's quantities and the line's frozen cost; what is
    written off is what was approved, never more than the discrepancy; and the
    decisions on record agree with the status of every write-off. *)

From S2P Require Import Prelude Fixed Session Schema Tables Platform Chart Fixture Journal.
From S2P Require Import Posting Books Inventory Discrepancies Transfers WriteOffs.

(** ** Shipments and receipts *)

Definition line_counted (l : InterStoreTransferLine) : Counts :=
  mkCounts (received_quantity l) (damaged_quantity l) (declared_short_quantity l).

Definition item_counts (i : InterStoreTransferReceiptItem) : Counts :=
  mkCounts (tri_received i) (tri_damaged i) (tri_declared_short i).

(** The sums of the receipt items of line [k]. *)
Definition items_total (f : InterStoreTransferReceiptItem -> qty) (d : database) (k : Z) : qty :=
  sum_where (fun i => tri_line_id i =? k) f (transfer_receipt_items d).

Definition counted (d : database) (k : Z) : Counts :=
  mkCounts (items_total tri_received d k) (items_total tri_damaged d k)
    (items_total tri_declared_short d k).

Definition counts_nonneg (c : Counts) : Prop := 0 <= good c /\ 0 <= damaged c /\ 0 <= short c.

(** A line counts what its items say, within what was shipped, which is
    within what was requested; only a shipped transfer has anything shipped, at
    a cost frozen on the line. *)
Record line_flow (d : database) (k : Z) (l : InterStoreTransferLine) : Prop := {
  lf_transfer : exists t, row_of (transfers d) (tl_transfer_id l) = Some t /\
    (tr_status t <> TR_SHIPPED -> shipped_quantity l = 0);
  lf_shipped : 0 <= shipped_quantity l <= requested_quantity l;
  lf_requested : 0 < requested_quantity l;
  lf_nonneg : counts_nonneg (line_counted l);
  lf_accounted : accounted l <= shipped_quantity l;
  lf_cost : forall c, unit_cost_at_shipment l = Some c -> 0 <= c;
  lf_has_cost : 0 < shipped_quantity l -> is_Some (unit_cost_at_shipment l);
  lf_counted : line_counted l = counted d k;
}.

Record item_flow (d : database) (i : InterStoreTransferReceiptItem) : Prop := {
  if_line : exists l r, row_of (transfer_lines d) (tri_line_id i) = Some l /\
    is_Some (unit_cost_at_shipment l) /\
    row_of (transfer_receipts d) (tri_receipt_id i) = Some r /\
    trr_transfer_id r = tl_transfer_id l;
  if_nonneg : counts_nonneg (item_counts i);
  if_positive : 0 < total_counts (item_counts i);
}.

Definition stores_exist (d : database) (t : InterStoreTransfer) : Prop :=
  is_Some (row_of (stores d) (from_store_id t)) /\ is_Some (row_of (stores d) (to_store_id t)) /\
  from_store_id t <> to_store_id t.

Record flow_wf (d : database) : Prop := {
  fw_stores : forall k t, row_of (transfers d) k = Some t -> stores_exist d t;
  fw_lines : forall k l, row_of (transfer_lines d) k = Some l -> line_flow d k l;
  fw_items : forall i, i ∈ transfer_receipt_items d -> item_flow d i;
}.

(** ** Discrepancies *)

(** The row says of its receipt item what the item and its line say. *)
Definition discrepancy_of (d : database) (r : ReceivingDiscrepancy) : Prop :=
  rd_source_type r = TRANSFER_RECEIPT /\
  exists i l t c,
    row_of (transfer_receipt_items d) (rd_source_id r) = Some i /\
    row_of (transfer_lines d) (tri_line_id i) = Some l /\
    row_of (transfers d) (tl_transfer_id l) = Some t /\
    unit_cost_at_shipment l = Some c /\
    rd_transfer_id r = Some (tl_transfer_id l) /\
    rd_product_id r = destination_product_id l /\ rd_store_id r = to_store_id t /\
    counterparty_store_id r = Some (from_store_id t) /\
    quantity_short r = tri_declared_short i /\ quantity_damaged r = tri_damaged i /\
    rd_unit_cost r = c.

Definition discrepant (i : InterStoreTransferReceiptItem) : Prop :=
  0 < tri_damaged i + tri_declared_short i.

Record found_wf (d : database) : Prop := {
  fo_facts : forall r, r ∈ discrepancies d -> discrepancy_of d r;
  fo_unique : NoDup (map rd_source_id (discrepancies d));
  fo_raised : forall k i, row_of (transfer_receipt_items d) k = Some i -> discrepant i ->
    exists r, r ∈ discrepancies d /\ rd_source_id r = k;
}.

(** ** Write-offs *)

(** Of the write-offs on transfer line [k] that are posted. *)
Definition posted_on (k : Z) (w : TransferWriteOff) : bool :=
  (transfer_line_id w =? k) && bool_decide (wo_status w = WO_POSTED).

Definition posted_quantity (d : database) (k : Z) : qty := sum_where (posted_on k) wo_quantity (write_offs d).
Definition posted_amount (d : database) (k : Z) : ledger := sum_where (posted_on k) wo_amount (write_offs d).

(** The decision a status records. *)
Definition decision_of (st : WriteOffStatus) : option ApprovalDecision :=
  match st with
  | WO_POSTED | WO_REVERSED => Some DECISION_APPROVED
  | WO_DENIED => Some DECISION_DENIED
  | WO_PENDING_APPROVAL | WO_APPROVED => None
  end.

Record write_off_of (d : database) (w : TransferWriteOff) : Prop := {
  wf_source : exists r i, row_of (discrepancies d) (wo_discrepancy_id w) = Some r /\
    row_of (transfer_receipt_items d) (rd_source_id r) = Some i /\
    transfer_line_id w = tri_line_id i /\ wo_unit_cost w = rd_unit_cost r /\
    counterparty_store_id r = Some (wo_store_id w);
  wf_quantity : 0 < wo_quantity w;
  wf_amount : wo_amount w = ledger_quantize (wo_quantity w) (wo_unit_cost w);
  wf_status : wo_status w <> WO_APPROVED;
  wf_reversal : is_Some (wo_reversal_journal_entry_id w) <-> wo_status w = WO_REVERSED;
}.

Record loss_wf (d : database) : Prop := {
  lo_rows : forall w, w ∈ write_offs d -> write_off_of d w;
  (** never more than the discrepancy *)
  lo_bound : forall j r, row_of (discrepancies d) j = Some r ->
    written_off_against d j <= quantity_short r + quantity_damaged r;
  (** one request at a time *)
  lo_pending : forall k k' w w', row_of (write_offs d) k = Some w -> row_of (write_offs d) k' = Some w' ->
    against (wo_discrepancy_id w) WO_PENDING_APPROVAL w = true ->
    against (wo_discrepancy_id w) WO_PENDING_APPROVAL w' = true -> k = k';
  (** a decision, by another user than the initiator, for every status but pending *)
  lo_decided : forall k w, row_of (write_offs d) k = Some w ->
    match decision_of (wo_status w) with
    | Some dec => exists v, List.filter (decides k) (write_off_approvals d) = [v] /\
        decision v = dec /\ woa_initiated_by v = wo_initiated_by w /\
        woa_approved_by v <> wo_initiated_by w
    | None => List.filter (decides k) (write_off_approvals d) = []
    end;
  lo_approvals : forall v, v ∈ write_off_approvals d -> is_Some (row_of (write_offs d) (woa_write_off_id v));
  (** the transfer line carries the posted quantity *)
  lo_lines : forall k l, row_of (transfer_lines d) k = Some l ->
    written_off_quantity l = posted_quantity d k;
}.

Record transit_wf (d : database) : Prop := {
  tw_flow : flow_wf d;
  tw_found : found_wf d;
  tw_loss : loss_wf d;
}.

(** ** The Inventory In Transit account *)

(** What one line left in transit: its shipped value less the values received
    and written off, each rounded when it was posted. *)
Definition value_in_transit (d : database) (k : Z) (l : InterStoreTransferLine) : ledger :=
  match unit_cost_at_shipment l with
  | Some c =>
      ledger_quantize (shipped_quantity l) c
      - items_total (fun i => ledger_quantize (tri_received i) c) d k
      - posted_amount d k
  | None => 0
  end.

Definition in_transit_value (d : database) : ledger :=
  sum_by (fun kl => value_in_transit d kl.1 kl.2) (with_ids (transfer_lines d)).

Definition transit_books (d : database) : Prop :=
  account_balance d ACCOUNT_INVENTORY_IN_TRANSIT = in_transit_value d.

(** ** The tables each part reads *)

Definition flow_reads (d : database) :=
  (stores d, transfers d, transfer_lines d, transfer_receipts d, transfer_receipt_items d).

Definition found_reads (d : database) :=
  (transfers d, transfer_lines d, transfer_receipt_items d, discrepancies d).

(** Of the lines, only what is written off. *)
Definition loss_reads (d : database) :=
  (map written_off_quantity (transfer_lines d), transfer_receipt_items d, discrepancies d, write_offs d,
   write_off_approvals d).

Definition transit_reads (d : database) :=
  (stores d, transfers d, transfer_lines d, transfer_receipts d, transfer_receipt_items d,
   discrepancies d, write_offs d, write_off_approvals d).

Lemma flow_wf_ext d d' : flow_reads d' = flow_reads d -> flow_wf d -> flow_wf d'.
Proof.
  intros [= E1 E2 E3 E4 E5] [F1 F2 F3].
  assert (Ec : forall f k, items_total f d' k = items_total f d k)
    by (intros; unfold items_total; by rewrite E5).
  constructor.
  - intros k t. unfold stores_exist. rewrite E1, E2. apply F1.
  - intros k l. rewrite E3. intros Hk. destruct (F2 k l Hk). constructor; rewrite ?E2; try done.
    unfold counted. by rewrite !Ec.
  - intros i. rewrite E5. intros Hi. destruct (F3 i Hi). constructor; by rewrite ?E3, ?E4.
Qed.

Lemma found_wf_ext d d' : found_reads d' = found_reads d -> found_wf d -> found_wf d'.
Proof.
  intros [= E1 E2 E3 E4] [G1 G2 G3]. constructor.
  - intros r. unfold discrepancy_of. rewrite E1, E2, E3, E4. apply G1.
  - by rewrite E4.
  - intros k i. rewrite E3, E4. apply G3.
Qed.

(** The field of a row, read from the column. *)
Lemma map_eq_row {R B} (f : R -> B) (t t' : list R) k r :
  map f t' = map f t -> row_of t' k = Some r -> exists r0, row_of t k = Some r0 /\ f r = f r0.
Proof.
  intros E. unfold row_of. destruct (0 <? k); [|done]. intros H.
  assert (Hm : map f t' !! Z.to_nat (k - 1) = Some (f r)) by (rewrite list_lookup_fmap, H; done).
  rewrite E in Hm. rewrite list_lookup_fmap in Hm. apply fmap_Some in Hm as (r0 & Hr & Hf). eauto.
Qed.

Lemma loss_wf_ext d d' : loss_reads d' = loss_reads d -> loss_wf d -> loss_wf d'.
Proof.
  intros E [L1 L2 L3 L4 L5 L6]. unfold loss_reads in E.
  do 4 (apply pair_equal_spec in E as [E ?]).
  match goal with H1 : transfer_receipt_items d' = _, H2 : discrepancies d' = _,
    H3 : write_offs d' = _, H4 : write_off_approvals d' = _ |- _ =>
    rename H1 into E1, H2 into E2, H3 into E3, H4 into E4 end.
  constructor.
  - intros w. rewrite E3. intros Hw. destruct (L1 w Hw). constructor; rewrite ?E1, ?E2; done.
  - intros j r. unfold written_off_against. rewrite E2, E3. apply L2.
  - intros k k' w w'. rewrite E3. apply L3.
  - intros k w. rewrite E3, E4. apply L4.
  - intros v. rewrite E3, E4. apply L5.
  - intros k l Hk. destruct (map_eq_row _ _ _ _ _ E Hk) as (l0 & Hl & ->).
    unfold posted_quantity. rewrite E3. by apply L6.
Qed.

Lemma transit_wf_ext d d' : transit_reads d' = transit_reads d -> transit_wf d -> transit_wf d'.
Proof.
  intros [= E1 E2 E3 E4 E5 E6 E7 E8] [F G L]. constructor.
  - apply (flow_wf_ext d); [unfold flow_reads; congruence|done].
  - apply (found_wf_ext d); [unfold found_reads; congruence|done].
  - apply (loss_wf_ext d); [unfold loss_reads; congruence|done].
Qed.

Lemma keeps_transit_frame {A} (m : Tx A) :
  fixes committed m -> fixes (fun s => transit_reads (working s)) m -> keeps transit_wf m.
Proof. apply (keeps_frame _ transit_reads). apply transit_wf_ext. Qed.

#[export] Hint Extern 3 (keeps transit_wf _) =>
  (apply keeps_transit_frame; solve [unfold transit_reads; solve_fixes]) : keeps.

(** No posting reaches these tables. *)
Lemma post_keeps_transit q by_ : keeps transit_wf (post q by_).
Proof.
  apply keeps_transit_frame; [apply post_fixes_committed|].
  unfold transit_reads. destruct q; simpl; unfold_postings; solve_fixes.
Qed.

(** ** Changes of one table *)

(** Transfers may be added, keep their stores, and leave the shipped status
    never. *)
Lemma transfers_change d ts :
  (forall k t, row_of (transfers d) k = Some t -> exists t', row_of ts k = Some t' /\
     from_store_id t' = from_store_id t /\ to_store_id t' = to_store_id t /\
     (tr_status t' <> TR_SHIPPED -> tr_status t <> TR_SHIPPED)) ->
  (forall k t, row_of ts k = Some t -> stores_exist d t) ->
  transit_wf d -> transit_wf (over_transfers (fun _ => ts) d).
Proof.
  intros Hold Hst [[F1 F2 F3] [G1 G2 G3] L]. constructor; [constructor|constructor|]; try done.
  - intros k l Hk. destruct (F2 k l Hk) as [(t & Ht & Hs) ? ? ? ? ? ? ?]. constructor; try done.
    destruct (Hold _ _ Ht) as (t' & Ht' & _ & _ & Hs'). exists t'. auto.
  - intros i Hi. by destruct (F3 i Hi); constructor.
  - intros r Hr. destruct (G1 r Hr) as (Hsrc & i & l & t & c & Hi & Hl & Ht & Hc & E1 & E2 & E3 & E4 & E5).
    destruct (Hold _ _ Ht) as (t' & Ht' & Ef & Eto & _). split; [done|].
    exists i, l, t', c. by rewrite Ef, Eto.
  - by apply (loss_wf_ext d).
Qed.

Lemma add_transfer_wf d t :
  row_valid d t -> transit_wf d -> transit_wf (over_transfers (fun ts => ts ++ [t]) d).
Proof.
  intros Hv Hd. apply (transfers_change d (transfers d ++ [t])); [| |done].
  - intros k x Hk. exists x. split; [by apply row_of_app_old|done].
  - intros k x [Hk|[-> ->]]%row_of_inv_app; [by apply (fw_stores _ (tw_flow _ Hd) k)|].
    unfold row_valid in Hv. simpl in Hv. rewrite !Forall_cons in Hv. destruct Hv as (H1 & H2 & H3 & _).
    simpl in *. apply exists_row_true in H1, H2. bools. done.
Qed.

(** One row of the table changes, and keeps its stores. *)
Lemma set_transfer_wf d k f :
  (forall t, row_of (transfers d) k = Some t ->
     from_store_id (f t) = from_store_id t /\ to_store_id (f t) = to_store_id t /\
     (tr_status (f t) <> TR_SHIPPED -> tr_status t <> TR_SHIPPED)) ->
  transit_wf d -> transit_wf (over_transfers (set_row k f) d).
Proof.
  intros Hf Hd. apply (transfers_change d (set_row k f (transfers d))); [| |done].
  - intros j t Hj. rewrite row_of_set, Hj. case_bool_decide as E; [subst; exists (f t)|by exists t].
    split; [done|by apply Hf].
  - intros j t. rewrite row_of_set. case_bool_decide as E; [|apply (fw_stores _ (tw_flow _ Hd))].
    subst. destruct (row_of (transfers d) j) as [t0|] eqn:E; [|done]. intros [= <-].
    destruct (Hf t0 eq_refl) as (E1 & E2 & _). unfold stores_exist. rewrite E1, E2.
    by apply (fw_stores _ (tw_flow _ Hd) j).
Qed.

(** A line that nothing was shipped on has no receipt items. *)
Lemma unshipped_no_items d k l :
  flow_wf d -> row_of (transfer_lines d) k = Some l -> shipped_quantity l = 0 ->
  line_counted l = no_counts /\ forall i, i ∈ transfer_receipt_items d -> tri_line_id i <> k.
Proof.
  intros Hd Hk Hs. destruct (fw_lines _ Hd k l Hk) as [_ _ _ (H1 & H2 & H3) Ha _ _ Hc].
  unfold accounted, line_counted in *. simpl in *.
  assert (received_quantity l = 0 /\ damaged_quantity l = 0 /\ declared_short_quantity l = 0)
    as (E1 & E2 & E3) by lia.
  split; [by rewrite E1, E2, E3|]. intros i Hi Hk'. injection Hc as C1 C2 C3.
  assert (Hpos : forall f, (forall j, j ∈ transfer_receipt_items d -> 0 <= f j) -> f i <= items_total f d k).
  { intros f Hf. unfold items_total, sum_where.
    pose proof (sum_by_elem (fun j => if tri_line_id j =? k then f j else 0) (transfer_receipt_items d) i) as He.
    simpl in He. rewrite Hk', Z.eqb_refl in He. apply He; [|done]. intros j Hj. destruct (_ =? _); [by apply Hf|done]. }
  destruct (fw_items _ Hd i Hi) as [_ _ Hp]. unfold total_counts, item_counts in Hp. simpl in Hp.
  pose proof (Hpos tri_received (fun j Hj => proj1 (if_nonneg _ _ (fw_items _ Hd j Hj)))).
  pose proof (Hpos tri_damaged (fun j Hj => proj1 (proj2 (if_nonneg _ _ (fw_items _ Hd j Hj))))).
  pose proof (Hpos tri_declared_short (fun j Hj => proj2 (proj2 (if_nonneg _ _ (fw_items _ Hd j Hj))))). lia.
Qed.

(** A line of a shipped transfer is given its shipped quantity and cost. *)
Definition line_ships (d : database) (l l' : InterStoreTransferLine) : Prop :=
  l' = l \/
  shipped_quantity l = 0 /\ exists q c, l' = with_line_shipped q c l /\
    0 < q <= requested_quantity l /\ 0 <= c /\
    exists t, row_of (transfers d) (tl_transfer_id l) = Some t /\ tr_status t = TR_SHIPPED.

Lemma ship_lines_wf d ls :
  (forall k, option_Forall2 (line_ships d) (row_of (transfer_lines d) k) (row_of ls k)) ->
  transit_wf d -> transit_wf (over_transfer_lines (fun _ => ls) d).
Proof.
  intros Hls [Hflow [G1 G2 G3] L].
  assert (Hback : forall k l', row_of ls k = Some l' ->
    exists l, row_of (transfer_lines d) k = Some l /\ line_ships d l l').
  { intros k l' Hk. specialize (Hls k). rewrite Hk in Hls. inv Hls. eauto. }
  (* a line with items is as it was *)
  assert (Hsame : forall i l, i ∈ transfer_receipt_items d ->
    row_of (transfer_lines d) (tri_line_id i) = Some l -> row_of ls (tri_line_id i) = Some l).
  { intros i l Hi Hl. specialize (Hls (tri_line_id i)). rewrite Hl in Hls. inv Hls.
    match goal with H : line_ships _ _ _ |- _ => destruct H as [->|(Hs & _)] end; [done|].
    exfalso. by apply (proj2 (unshipped_no_items d _ l Hflow Hl Hs) i). }
  assert (Em : map written_off_quantity ls = map written_off_quantity (transfer_lines d)).
  { apply rows_map_eq. intros k. specialize (Hls k). inv Hls; [|done]. simpl.
    match goal with H : line_ships _ _ _ |- _ => destruct H as [->|(_ & q & c & -> & _)] end; done. }
  constructor; [constructor|constructor|]; try done.
  - apply Hflow.
  - intros k l' (l & Hl & Hx)%Hback. pose proof (fw_lines _ Hflow k l Hl) as [Ht Hs Hr Hn Ha Hc Hhc Hct].
    destruct Hx as [->|(Hz & q & c & -> & Hq & Hc0 & t & Ht' & Hst)]; [by constructor|].
    destruct (unshipped_no_items d k l Hflow Hl Hz) as [[= E1 E2 E3] _].
    constructor; simpl; try done.
    + exists t. split; [done|]. by intros [].
    + lia.
    + unfold accounted. simpl. rewrite E1, E2, E3. lia.
    + by intros ? [= <-].
  - intros i Hi. destruct (fw_items _ Hflow i Hi) as [(l & r & Hl & Hx) ? ?]. constructor; [|done..].
    exists l, r. split; [by apply Hsame|done].
  - intros r Hr. destruct (G1 r Hr) as (Hsrc & i & l & t & c & Hi & Hl & Hx). split; [done|].
    exists i, l, t, c. split; [done|]. split; [apply Hsame; [by eapply row_of_elem|done]|done].
  - apply (loss_wf_ext d); [|done]. unfold loss_reads. simpl. by rewrite Em.
Qed.
