(* ===== verification/TransitOps.v ===== *)
(** * The transfer operations keep the invariant

    The effect of each handler of [Transfers], [Discrepancies] and [WriteOffs]
    on the tables, and that it preserves [transit_wf]. *)

From S2P Require Import Prelude Fixed Session Schema Tables Platform Chart Fixture Journal.
From S2P Require Import Posting Books Inventory Discrepancies Transfers WriteOffs TransitInvariant.

(** ** A receipt *)

(** What the input lines say of transfer line [k]. *)
Definition counts_of (lines : list ReceiveLineInput) (k : Z) : Counts :=
  mkCounts (sum_where (fun l => rl_line_id l =? k) rl_received lines)
    (sum_where (fun l => rl_line_id l =? k) rl_damaged lines)
    (sum_where (fun l => rl_line_id l =? k) rl_declared_short lines).

(** The items' ids, from the first free one. *)
Definition numbered (first : Z) (lines : list ReceiveLineInput) : list (Z * ReceiveLineInput) :=
  imap (fun n l => (first + Z.of_nat n, l)) lines.

Definition clean_line (l : ReceiveLineInput) : bool := (rl_declared_short l <=? 0) && (rl_damaged l <=? 0).

(** The discrepancy an item raises. *)
Definition raised (d : database) (a : TransferReceiptArgs) (t : InterStoreTransfer) (now : Z)
    (item : Z * ReceiveLineInput) : option ReceivingDiscrepancy :=
  if clean_line item.2 then None
  else match row_of (transfer_lines d) (rl_line_id item.2) with
       | Some l =>
           match unit_cost_at_shipment l with
           | Some c => Some (new_discrepancy (discrepancy_of_item (tra_transfer_id a) t
                               (tra_received_by a) now l c item))
           | None => None
           end
       | None => None
       end.

Record received (a : TransferReceiptArgs) (t : InterStoreTransfer) (lines : list ReceiveLineInput)
    (now : Z) (d d' : database) : Prop := {
  rc_frame : (stores d', transfers d', write_offs d', write_off_approvals d')
             = (stores d, transfers d, write_offs d, write_off_approvals d);
  rc_receipts : transfer_receipts d' = transfer_receipts d ++ [new_transfer_receipt a (to_store_id t)];
  rc_items : transfer_receipt_items d'
             = transfer_receipt_items d
               ++ map (receipt_line_item (next_id (transfer_receipts d))) lines;
  rc_discrepancies : discrepancies d'
             = discrepancies d
               ++ omap (raised d a t now) (numbered (next_id (transfer_receipt_items d)) lines);
  rc_lines : forall k, row_of (transfer_lines d') k
             = with_counted (counts_of lines k) <$> row_of (transfer_lines d) k;
}.

(** The input lines are well formed and on shipped lines of the transfer. *)
Definition receivable_lines (d : database) (transfer_id : Z) (lines : list ReceiveLineInput) : Prop :=
  (forall l, l ∈ lines -> counts_nonneg (line_counts l) /\ 0 < total_counts (line_counts l) /\
     exists tl c, row_of (transfer_lines d) (rl_line_id l) = Some tl /\
       tl_transfer_id tl = transfer_id /\ unit_cost_at_shipment tl = Some c) /\
  (forall k tl, row_of (transfer_lines d) k = Some tl ->
     accounted tl + total_counts (counts_of lines k) <= shipped_quantity tl).

Lemma counts_of_nonneg lines k :
  (forall l, l ∈ lines -> counts_nonneg (line_counts l)) -> counts_nonneg (counts_of lines k).
Proof.
  intros H. unfold counts_nonneg, counts_of. simpl. split_and!; apply sum_by_nonneg; intros l Hl;
    destruct (H l Hl) as (? & ? & ?); destruct (_ =? _); done.
Qed.

Lemma items_total_new f d d' r lines k :
  transfer_receipt_items d' = transfer_receipt_items d ++ map (receipt_line_item r) lines ->
  items_total f d' k
  = items_total f d k + sum_where (fun l => rl_line_id l =? k) (fun l => f (receipt_line_item r l)) lines.
Proof.
  intros E. unfold items_total. rewrite E, sum_where_app. f_equal. unfold sum_where. by rewrite sum_by_map.
Qed.

Lemma elem_numbered first lines i l :
  (i, l) ∈ numbered first lines -> l ∈ lines /\ first <= i /\
    exists n, lines !! n = Some l /\ i = first + Z.of_nat n.
Proof.
  unfold numbered. intros (n & x & [= -> ->] & Hn)%elem_of_lookup_imap.
  split; [by apply list_elem_of_lookup_2 in Hn|]. split; [lia|]. eauto.
Qed.

Lemma raised_some d a t now i l r :
  raised d a t now (i, l) = Some r ->
  clean_line l = false /\ exists tl c, row_of (transfer_lines d) (rl_line_id l) = Some tl /\
    unit_cost_at_shipment tl = Some c /\
    r = new_discrepancy (discrepancy_of_item (tra_transfer_id a) t (tra_received_by a) now tl c (i, l)).
Proof.
  unfold raised. simpl. destruct (clean_line l); [done|].
  destruct (row_of _ _) as [tl|]; [|done]. destruct (unit_cost_at_shipment tl) as [c|] eqn:Ec; [|done].
  intros [= <-]. split; [done|]. by exists tl, c.
Qed.

(** The new item is found under its number. *)
Lemma row_of_new_items (t : list InterStoreTransferReceiptItem) new n x :
  new !! n = Some x -> row_of (t ++ new) (next_id t + Z.of_nat n) = Some x.
Proof.
  intros Hn. unfold row_of, next_id. destruct (Z.ltb_spec 0 (Z.of_nat (length t) + 1 + Z.of_nat n)); [|lia].
  rewrite lookup_app_r by lia.
  by replace (Z.to_nat (Z.of_nat (length t) + 1 + Z.of_nat n - 1) - length t)%nat with n by lia.
Qed.

Lemma row_of_app_cases {R} (t new : list R) k x :
  row_of (t ++ new) k = Some x ->
  row_of t k = Some x \/ exists n, new !! n = Some x /\ k = next_id t + Z.of_nat n.
Proof.
  unfold row_of, next_id. destruct (Z.ltb_spec 0 k); [|done].
  intros [H1|[H1 H2]]%lookup_app_Some; [by left|right].
  exists (Z.to_nat (k - 1) - length t)%nat. split; [done|lia].
Qed.

Lemma numbered_fst first lines : map fst (numbered first lines) = (fun n => first + Z.of_nat n) <$> seq 0 (length lines).
Proof.
  unfold numbered. apply list_eq. intros n. rewrite !list_lookup_fmap, list_lookup_imap.
  destruct (lines !! n) as [l|] eqn:E; simpl.
  - apply lookup_lt_Some in E. by rewrite lookup_seq_lt by done.
  - apply lookup_ge_None in E. by rewrite lookup_seq_ge by done.
Qed.

Lemma NoDup_numbered first lines : NoDup (map fst (numbered first lines)).
Proof. rewrite numbered_fst. apply NoDup_fmap_2; [intros m n E; lia|apply NoDup_seq]. Qed.

(** A partial image that remembers its preimage. *)
Lemma NoDup_omap {A B C} (f : A -> option B) (g : B -> C) (key : A -> C) (l : list A) :
  (forall x y, f x = Some y -> g y = key x) -> NoDup (map key l) -> NoDup (map g (omap f l)).
Proof.
  intros Hf. induction l as [|x l IH]; [by intros _; apply NoDup_nil_2|].
  simpl. intros [Hx Hl]%NoDup_cons. destruct (f x) as [y|] eqn:E; simpl; [|by apply IH].
  apply NoDup_cons. split; [|by apply IH]. rewrite (Hf x y E).
  intros (y' & Hy & (x' & Hx' & Hy')%list_elem_of_omap)%list_elem_of_fmap. apply Hx.
  rewrite (Hf x' y' Hy') in Hy. rewrite Hy. by apply list_elem_of_fmap_2.
Qed.

Section Receive.
Context (a : TransferReceiptArgs) (t : InterStoreTransfer) (lines : list ReceiveLineInput) (now : Z).
Context (d d' : database) (Hd : transit_wf d).
Context (Hok : receivable_lines d (tra_transfer_id a) lines).
Context (Ht : row_of (transfers d) (tra_transfer_id a) = Some t).
Context (Hr : received a t lines now d d').

Let Etransfers : transfers d' = transfers d.
Proof. pose proof (rc_frame _ _ _ _ _ _ Hr) as E. by injection E. Qed.

(** A line with its receipts counted keeps everything else. *)
Lemma received_line k tl' :
  row_of (transfer_lines d') k = Some tl' ->
  exists tl, row_of (transfer_lines d) k = Some tl /\ tl' = with_counted (counts_of lines k) tl.
Proof. rewrite (rc_lines _ _ _ _ _ _ Hr). intros (tl & ? & ?)%fmap_Some. eauto. Qed.

Lemma received_line_old k tl :
  row_of (transfer_lines d) k = Some tl ->
  row_of (transfer_lines d') k = Some (with_counted (counts_of lines k) tl).
Proof. intros H. by rewrite (rc_lines _ _ _ _ _ _ Hr), H. Qed.

Lemma received_flow : flow_wf d'.
Proof.
  pose proof (rc_frame _ _ _ _ _ _ Hr) as Ef. injection Ef as Es _ _ _.
  destruct Hd as [Hf _ _]. destruct Hok as [Hl Hb]. constructor.
  - intros k x. unfold stores_exist. rewrite Etransfers, Es. apply (fw_stores _ Hf).
  - intros k tl' (tl & Hk & ->)%received_line.
    destruct (fw_lines _ Hf k tl Hk) as [Htr Hs Hrq Hn Ha Hc Hhc Hct].
    pose proof (counts_of_nonneg lines k (fun l Hin => proj1 (Hl l Hin))) as (N1 & N2 & N3).
    destruct Hn as (M1 & M2 & M3). specialize (Hb k tl Hk). unfold accounted, total_counts in *. simpl in *.
    constructor; simpl; try done.
    + by rewrite Etransfers.
    + unfold counts_nonneg. simpl. lia.
    + unfold accounted. simpl. lia.
    + unfold counted, line_counted in *. simpl. injection Hct as -> -> ->.
      rewrite !(items_total_new _ d d' _ lines k (rc_items _ _ _ _ _ _ Hr)). done.
  - intros i. rewrite (rc_items _ _ _ _ _ _ Hr).
    intros [Hi|(l & -> & Hin)%list_elem_of_fmap]%elem_of_app.
    + destruct (fw_items _ Hf i Hi) as [(tl & r & Htl & Hc & Hrr & E) ? ?]. constructor; [|done..].
      exists (with_counted (counts_of lines (tri_line_id i)) tl), r. split; [by apply received_line_old|].
      split; [done|]. split; [|done]. rewrite (rc_receipts _ _ _ _ _ _ Hr). by apply row_of_app_old.
    + destruct (Hl l Hin) as (Hnn & Hp & tl & c & Htl & Etr & Hc). constructor; [|done..].
      exists (with_counted (counts_of lines (rl_line_id l)) tl), (new_transfer_receipt a (to_store_id t)).
      split; [by apply received_line_old|]. split; [by exists c|]. simpl. split; [|done].
      rewrite (rc_receipts _ _ _ _ _ _ Hr). apply row_of_new.
Qed.

(** What an old discrepancy says is still so; a new one says what its item says. *)
Lemma received_facts r : r ∈ discrepancies d' -> discrepancy_of d' r.
Proof.
  rewrite (rc_discrepancies _ _ _ _ _ _ Hr). intros [Hin|Hin]%elem_of_app.
  - destruct (fo_facts _ (tw_found _ Hd) r Hin) as (Hs & i & tl & t0 & c & Hi & Htl & Ht0 & Hx).
    split; [done|]. exists i, (with_counted (counts_of lines (tri_line_id i)) tl), t0, c.
    rewrite (rc_items _ _ _ _ _ _ Hr), Etransfers.
    split; [by apply row_of_app_old|]. split; [by apply received_line_old|done].
  - apply list_elem_of_omap in Hin as ([i l] & Hin & Hrs).
    apply raised_some in Hrs as (_ & tl & c & Htl & Hc & ->).
    apply elem_numbered in Hin as (Hl & _ & n & Hn & ->). split; [done|].
    destruct (proj1 Hok l Hl) as (_ & _ & tl' & c' & Htl' & Etr & _). rewrite Htl in Htl'.
    injection Htl' as <-.
    exists (receipt_line_item (next_id (transfer_receipts d)) l),
      (with_counted (counts_of lines (rl_line_id l)) tl), t, c. simpl.
    rewrite (rc_items _ _ _ _ _ _ Hr), Etransfers, Etr.
    split; [apply row_of_new_items; by rewrite list_lookup_fmap, Hn|].
    split; [by apply received_line_old|done].
Qed.
Lemma raised_source item r : raised d a t now item = Some r -> rd_source_id r = item.1.
Proof. destruct item as [i l]. by intros (_ & tl & c & _ & _ & ->)%raised_some. Qed.

Lemma received_unique : NoDup (map rd_source_id (discrepancies d')).
Proof.
  rewrite (rc_discrepancies _ _ _ _ _ _ Hr), map_app. apply NoDup_app. split_and!.
  - apply (fo_unique _ (tw_found _ Hd)).
  - intros i (r & -> & Hin)%list_elem_of_fmap (r' & E & Hin')%list_elem_of_fmap.
    apply list_elem_of_omap in Hin' as ([j l] & Hj & Hr'). apply raised_source in Hr'. simpl in Hr'.
    apply elem_numbered in Hj as (_ & Hge & _).
    destruct (fo_facts _ (tw_found _ Hd) r Hin) as (_ & x & _ & _ & _ & Hx%row_of_range & _). lia.
  - apply (NoDup_omap _ _ fst); [apply raised_source|apply NoDup_numbered].
Qed.

Lemma received_raised k i :
  row_of (transfer_receipt_items d') k = Some i -> discrepant i ->
  exists r, r ∈ discrepancies d' /\ rd_source_id r = k.
Proof.
  rewrite (rc_items _ _ _ _ _ _ Hr), (rc_discrepancies _ _ _ _ _ _ Hr).
  intros [Hk|(n & Hn & ->)]%row_of_app_cases Hdis.
  - destruct (fo_raised _ (tw_found _ Hd) k i Hk Hdis) as (r & Hin & E). exists r. set_solver.
  - rewrite list_lookup_fmap in Hn. apply fmap_Some in Hn as (l & Hn & ->).
    assert (Hl : l ∈ lines) by (by apply list_elem_of_lookup_2 in Hn).
    destruct (proj1 Hok l Hl) as (_ & _ & tl & c & Htl & _ & Hc).
    set (item := (next_id (transfer_receipt_items d) + Z.of_nat n, l)).
    assert (Hin : item ∈ numbered (next_id (transfer_receipt_items d)) lines)
      by (apply elem_of_lookup_imap; by exists n, l).
    assert (Hcl : clean_line l = false).
    { unfold discrepant in Hdis. simpl in Hdis. unfold clean_line. apply andb_false_iff.
      destruct (Z.leb_spec (rl_declared_short l) 0); [right|by left]. apply Z.leb_gt. lia. }
    assert (Hrs : exists r, raised d a t now item = Some r)
      by (unfold raised, item; simpl; rewrite Hcl, Htl, Hc; by eexists).
    destruct Hrs as (r & Hrs). exists r. split; [|by apply raised_source in Hrs].
    apply elem_of_app. right. apply list_elem_of_omap. by exists item.
Qed.

(** A discrepancy that was not there has nothing written off. *)
Lemma no_write_off_yet j : row_of (discrepancies d) j = None -> written_off_against d j = 0.
Proof.
  intros Hj. apply sum_where_none. intros w Hw.
  destruct (lo_rows _ (tw_loss _ Hd) w Hw) as [(r & i & Hrow & _) _ _ _ _].
  unfold against. destruct (Z.eqb_spec (wo_discrepancy_id w) j) as [<-|]; [|done]. congruence.
Qed.

Lemma received_loss : loss_wf d'.
Proof.
  pose proof (rc_frame _ _ _ _ _ _ Hr) as Ef. injection Ef as _ _ Ew Ev.
  pose proof (tw_loss _ Hd) as [L1 L2 L3 L4 L5 L6]. constructor.
  - intros w. rewrite Ew. intros Hw. destruct (L1 w Hw) as [(r & i & Hrow & Hi & Hx) ? ? ? ?].
    constructor; try done. exists r, i.
    rewrite (rc_discrepancies _ _ _ _ _ _ Hr), (rc_items _ _ _ _ _ _ Hr).
    split; [by apply row_of_app_old|]. split; [by apply row_of_app_old|done].
  - intros j r. rewrite (rc_discrepancies _ _ _ _ _ _ Hr).
    assert (Ea : written_off_against d' j = written_off_against d j)
      by (unfold written_off_against; by rewrite Ew). rewrite Ea.
    destruct (row_of (discrepancies d) j) as [r0|] eqn:E.
    + rewrite (row_of_app_old _ _ _ _ E). intros [= <-]. by apply L2.
    + rewrite (no_write_off_yet j E).
      intros [Hj|(n & Hn & _)]%row_of_app_cases; [congruence|].
      apply list_elem_of_lookup_2 in Hn. apply list_elem_of_omap in Hn as ([i l] & Hin & Hrs).
      apply raised_some in Hrs as (_ & tl & c & _ & _ & ->). simpl.
      apply elem_numbered in Hin as (Hl & _).
      destruct (proj1 Hok l Hl) as ((_ & ? & ?) & _). simpl in *. lia.
  - intros k k' w w'. rewrite Ew. apply L3.
  - intros k w. rewrite Ew, Ev. apply L4.
  - intros v. rewrite Ew, Ev. apply L5.
  - intros k tl' (tl & Hk & ->)%received_line. simpl. rewrite (L6 k tl Hk).
    unfold posted_quantity. by rewrite Ew.
Qed.

Lemma received_wf : transit_wf d'.
Proof.
  constructor; [apply received_flow| |apply received_loss].
  constructor; [apply received_facts|apply received_unique|apply received_raised].
Qed.
End Receive.

(** *** [by_line] sums the input lines *)

Lemma dict_get_sum {V} (f : V -> Z) (d : list (Z * V)) k :
  NoDup (dict_keys d) ->
  sum_where (fun c => c.1 =? k) (fun c => f c.2) d
  = match dict_get k d with Some v => f v | None => 0 end.
Proof.
  unfold dict_keys. induction d as [|[j v] d IH]; [done|]. simpl. intros [Hj Hd]%NoDup_cons.
  rewrite sum_where_cons, (Z.eqb_sym k j). simpl. destruct (Z.eqb_spec j k) as [->|Hne]; [|by rewrite IH].
  rewrite sum_where_none; [lia|]. intros [i w] Hin. simpl. apply Z.eqb_neq. intros ->.
  apply Hj. apply list_elem_of_fmap. by exists (k, w).
Qed.

(** An entry per line, holding the sums of the lines of its key. *)
Lemma by_line_spec lines :
  NoDup (dict_keys (by_line lines)) /\
  (forall k, dict_get k (by_line lines)
     = if existsb (fun l => rl_line_id l =? k) lines then Some (counts_of lines k) else None).
Proof.
  unfold by_line. induction lines as [|l lines [IH1 IH2]] using rev_ind; [split; [apply NoDup_nil_2|done]|].
  rewrite fold_left_app. simpl. split; [by apply NoDup_dict_set|]. intros k.
  rewrite dict_get_set, existsb_app. simpl. rewrite orb_false_r, (Z.eqb_sym (rl_line_id l) k).
  unfold counts_of. rewrite !sum_where_app, !sum_where_cons, !sum_where_nil.
  destruct (Z.eqb_spec k (rl_line_id l)) as [->|Hne].
  - rewrite orb_true_r, IH2, Z.eqb_refl. unfold add_counts, counts_of.
    destruct (existsb _ lines) eqn:E; simpl; [by rewrite !Z.add_0_r|].
    assert (Hz : forall f, sum_where (fun x => rl_line_id x =? rl_line_id l) f lines = 0).
    { intros f. apply sum_where_none. intros x Hx. apply not_true_is_false. intros Ht.
      apply not_true_iff_false in E. apply E, existsb_exists. exists x. by rewrite <- list_elem_of_In. }
    by rewrite !Hz, !Z.add_0_r.
  - rewrite orb_false_r, IH2. rewrite (Z.eqb_sym (rl_line_id l) k), (proj2 (Z.eqb_neq _ _) Hne).
    unfold counts_of. by rewrite !Z.add_0_r.
Qed.

Definition counts_total (d : list (Z * Counts)) (k : Z) : Counts :=
  mkCounts (sum_where (fun c => c.1 =? k) (fun c => good c.2) d)
    (sum_where (fun c => c.1 =? k) (fun c => damaged c.2) d)
    (sum_where (fun c => c.1 =? k) (fun c => short c.2) d).

Lemma counts_of_none lines k :
  existsb (fun l => rl_line_id l =? k) lines = false -> counts_of lines k = no_counts.
Proof.
  intros E. assert (Hz : forall f, sum_where (fun x => rl_line_id x =? k) f lines = 0).
  { intros f. apply sum_where_none. intros x Hx. apply not_true_is_false. intros Ht.
    apply not_true_iff_false in E. apply E, existsb_exists. exists x. by rewrite <- list_elem_of_In. }
  unfold counts_of. by rewrite !Hz.
Qed.

Lemma by_line_total lines k : counts_total (by_line lines) k = counts_of lines k.
Proof.
  destruct (by_line_spec lines) as [Hnd Hget]. unfold counts_total.
  rewrite !(dict_get_sum _ _ _ Hnd), Hget. destruct (existsb _ lines) eqn:E; [done|].
  by rewrite counts_of_none.
Qed.

Lemma with_counted_none l : with_counted no_counts l = l.
Proof. destruct l. unfold with_counted. simpl. by rewrite !Z.add_0_r. Qed.

Lemma apply_counts_ok (cs : list (Z * Counts)) s s' :
  for_each (fun c => update c.1 (with_counted c.2)) cs s = (Ok tt, s') ->
  committed s' = committed s /\ env s' = env s /\
  exists ls, working s' = over_transfer_lines (fun _ => ls) (working s) /\
    forall k, row_of ls k = with_counted (counts_total cs k) <$> row_of (transfer_lines (working s)) k.
Proof.
  intros H.
  apply (for_each_ok_ind _ (fun dn s1 => committed s1 = committed s /\ env s1 = env s /\
    exists ls, working s1 = over_transfer_lines (fun _ => ls) (working s) /\
    forall k, row_of ls k = with_counted (counts_total dn k) <$> row_of (transfer_lines (working s)) k)) in H;
    [done| |].
  - split_and!; [done..|]. exists (transfer_lines (working s)). split.
    + by destruct (working s) as [? ? ? ? ? ? ? ? ? ? []].
    + intros k. unfold counts_total. rewrite !sum_where_nil. destruct (row_of _ k) as [l|]; [|done].
      simpl. by rewrite with_counted_none.
  - intros dn [k c] rest s1 s2 _ (Hc & He & ls & Hw & Hls) H1.
    apply update_ok in H1 as (r & Hr & _ & _ & ->). simpl in *. rewrite Hw in *. simpl in *.
    split_and!; [done..|]. eexists. split; [reflexivity|]. intros j.
    rewrite row_of_set. unfold counts_total. rewrite !sum_where_app, !sum_where_cons, !sum_where_nil. simpl.
    case_bool_decide as E.
    + subst. rewrite Z.eqb_refl, !Hls. destruct (row_of (transfer_lines (working s)) j) as [l|]; [|done].
      simpl. apply (f_equal Some). unfold with_counted, counts_total. simpl. f_equal; lia.
    + rewrite (proj2 (Z.eqb_neq _ _) E), Hls. unfold counts_total. by rewrite !Z.add_0_r.
Qed.

(** *** The lines of a receipt *)

Definition line_cost (d : database) (line_id : Z) : cost :=
  match row_of (transfer_lines d) line_id with
  | Some l => default 0 (unit_cost_at_shipment l)
  | None => 0
  end.

Definition line_destination (d : database) (line_id : Z) : Z :=
  match row_of (transfer_lines d) line_id with Some l => destination_product_id l | None => 0 end.

(** The product after one line of the receipt. *)
Definition take_into (d : database) (p : Product) (l : ReceiveLineInput) : Product :=
  if 0 <? rl_received l
  then with_stock (current_qty_on_hand p + rl_received l)
         (Some (compute_new_wac (current_qty_on_hand p) (current_cost p) (rl_received l)
                  (line_cost d (rl_line_id l)))) p
  else p.

Definition received_value (d : database) (l : ReceiveLineInput) : ledger :=
  if 0 <? rl_received l then ledger_quantize (rl_received l) (line_cost d (rl_line_id l)) else 0.

Definition lines_into (d : database) (pid : Z) (lines : list ReceiveLineInput) : list ReceiveLineInput :=
  List.filter (fun l => line_destination d (rl_line_id l) =? pid) lines.

Definition receive_frame (d : database) :=
  (directory_tables d, ledger_tables d, transfers d, transfer_lines d, transfer_receipts d,
   custody_acceptances d, discrepancies d, approval_rules d, write_offs d, write_off_approvals d).

Lemma take_in_fixes_frame store tid by_ pid q c :
  fixes (fun s => receive_frame (working s)) (take_in store tid by_ pid q c) /\
  fixes committed (take_in store tid by_ pid q c) /\ fixes env (take_in store tid by_ pid q c) /\
  fixes (fun s => transfer_receipt_items (working s)) (take_in store tid by_ pid q c).
Proof.
  unfold take_in, record_movement, lock_product_for_update, receive_frame. split_and!; solve_fixes.
Qed.

Lemma take_in_ok store tid by_ pid q c s v s' :
  take_in store tid by_ pid q c s = (Ok v, s') ->
  v = (if 0 <? q then ledger_quantize q c else 0) /\
  forall j p, row_of (products (working s)) j = Some p ->
    row_of (products (working s')) j
    = Some (if (0 <? q) && (j =? pid)
            then with_stock (current_qty_on_hand p + q)
                   (Some (compute_new_wac (current_qty_on_hand p) (current_cost p) q c)) p
            else p).
Proof.
  unfold take_in. destruct (0 <? q); [|by intros [<- <-]%ret_ok]. intros H.
  apply bind_ok in H as (o & s1 & H1 & H). apply get_ok in H1 as [-> <-].
  apply bind_ok in H as (p & s1 & H1 & H). apply of_option_ok in H1 as [Hp <-].
  apply bind_ok in H as (k & s1 & H1 & H). apply ret_ok in H as [<- <-].
  apply record_movement_ok in H1 as (p' & Hp' & _ & _ & _ & _ & ->). simpl in Hp. rewrite Hp in Hp'.
  injection Hp' as <-. split; [done|]. intros j x Hj. simpl. rewrite row_of_set.
  case_bool_decide as E; [subst; rewrite Z.eqb_refl|by rewrite (proj2 (Z.eqb_neq _ _)) by done].
  rewrite Hp in Hj. injection Hj as <-. by rewrite Hp.
Qed.

Lemma numbered_app first l1 l :
  numbered first (l1 ++ [l]) = numbered first l1 ++ [(first + Z.of_nat (length l1), l)].
Proof. unfold numbered. rewrite imap_app. simpl. by rewrite Nat.add_0_r. Qed.

Lemma receive_transfer_lines_ok store tid rid by_ lines s total posted s' :
  fold_m (receive_transfer_line store tid rid by_) lines (0, []) s = (Ok (total, posted), s') ->
  let d := working s in
  committed s' = committed s /\ env s' = env s /\ receive_frame (working s') = receive_frame d /\
  transfer_receipt_items (working s') = transfer_receipt_items d ++ map (receipt_line_item rid) lines /\
  posted = numbered (next_id (transfer_receipt_items d)) lines /\
  total = sum_by (received_value d) lines /\
  (forall pid p, row_of (products d) pid = Some p ->
     row_of (products (working s')) pid = Some (fold_left (take_into d) (lines_into d pid lines) p)).
Proof.
  intros H d. remember (total, posted) as acc eqn:Eacc.
  apply (fold_m_ok_ind _ (fun dn b s1 =>
    committed s1 = committed s /\ env s1 = env s /\ receive_frame (working s1) = receive_frame d /\
    transfer_receipt_items (working s1) = transfer_receipt_items d ++ map (receipt_line_item rid) dn /\
    b = (sum_by (received_value d) dn, numbered (next_id (transfer_receipt_items d)) dn) /\
    (forall pid p, row_of (products d) pid = Some p ->
       row_of (products (working s1)) pid = Some (fold_left (take_into d) (lines_into d pid dn) p)))) in H.
  - subst acc. destruct H as (? & ? & ? & ? & [= -> ->] & ?). split_and!; done.
  - split_and!; try done. by rewrite app_nil_r.
  - intros dn l rest b1 s1 b2 s2 _ (Hc & He & Hf & Hi & -> & Hp) H1. unfold receive_transfer_line in H1.
    apply bind_ok in H1 as (o & s3 & H3 & H1). apply get_ok in H3 as [-> <-].
    apply bind_ok in H1 as (tl & s3 & H3 & H1). apply of_option_ok in H3 as [Hrow <-]. simpl in Hrow.
    apply bind_ok in H1 as (c & s3 & H3 & H1). apply of_option_ok in H3 as [Hcost <-].
    assert (Hrow' : row_of (transfer_lines d) (rl_line_id l) = Some tl)
      by (assert (transfer_lines (working s1) = transfer_lines d) as <- by (by injection Hf); done).
    assert (Ec : line_cost d (rl_line_id l) = c) by (unfold line_cost; by rewrite Hrow', Hcost).
    assert (Ed : line_destination d (rl_line_id l) = destination_product_id tl)
      by (unfold line_destination; by rewrite Hrow').
    apply bind_ok in H1 as (v & s3 & H3 & H1).
    destruct (take_in_fixes_frame store tid by_ (destination_product_id tl) (rl_received l) c) as (X1 & X2 & X3 & X4).
    pose proof (fixes_run _ _ _ _ _ X1 H3) as Y1. pose proof (fixes_run _ _ _ _ _ X2 H3) as Y2.
    pose proof (fixes_run _ _ _ _ _ X3 H3) as Y3. pose proof (fixes_run _ _ _ _ _ X4 H3) as Y4.
    apply take_in_ok in H3 as [-> Hq].
    apply bind_ok in H1 as (k & s4 & H4 & H1). apply add_ok in H4 as (-> & _ & _ & ->).
    apply ret_ok in H1 as [<- <-]. simpl in *. split_and!.
    + congruence.
    + congruence.
    + by rewrite <- Hf, <- Y1.
    + by rewrite map_app, Y4, Hi, <- app_assoc.
    + rewrite sum_by_app, sum_by_cons, sum_by_nil, numbered_app, Y4, Hi. f_equal.
      * unfold received_value. rewrite Ec. lia.
      * do 3 f_equal. unfold next_id. rewrite length_app, length_map. lia.
    + intros pid p Hrp. specialize (Hp pid p Hrp). specialize (Hq pid _ Hp). rewrite Hq.
      unfold lines_into. rewrite List.filter_app, fold_left_app. simpl. rewrite Ed, (Z.eqb_sym pid).
      fold (lines_into d pid dn). set (q := fold_left _ _ p).
      destruct (_ =? pid); simpl; [|by rewrite andb_false_r].
      unfold take_into. by rewrite Ec, andb_true_r.
Qed.

(** *** The discrepancies of a receipt *)

Lemma exists_row_some {R} (t : list R) i r : row_of t i = Some r -> exists_row t i = true.
Proof. unfold exists_row. by intros ->. Qed.

Lemma new_discrepancy_valid a d t p st :
  (da_quantity_short a <=? 0) && (da_quantity_damaged a <=? 0) = false ->
  0 <= da_quantity_short a -> 0 <= da_quantity_damaged a ->
  (forall r, r ∈ discrepancies d -> of_receipt_item (da_receipt_item_id a) r = false) ->
  row_of (transfers d) (da_transfer_id a) = Some t -> row_of (products d) (da_product_id a) = Some p ->
  row_of (stores d) (da_store_id a) = Some st ->
  opt_all (exists_row (stores d)) (da_counterparty_store_id a) = true ->
  row_violation d (new_discrepancy a) (discrepancies d) = None.
Proof.
  intros Hb Hs Hd Hnone Ht Hp Hst Hcp. unfold row_violation, first_violation. simpl.
  rewrite (exists_row_some _ _ _ Ht), (exists_row_some _ _ _ Hp), (exists_row_some _ _ _ Hst), Hcp.
  rewrite (proj2 (Z.leb_le _ _) Hs), (proj2 (Z.leb_le _ _) Hd).
  assert (0 <? da_quantity_short a + da_quantity_damaged a = true) as ->
    by (apply andb_false_iff in Hb as [?|?]; bools; lia).
  simpl. unfold unique_violation. simpl.
  destruct (existsb _ _) eqn:E; [|done]. apply existsb_exists in E as (r & Hr%list_elem_of_In & Hu).
  specialize (Hnone r Hr). unfold of_receipt_item in Hnone.
  rewrite (bool_decide_ext (TRANSFER_RECEIPT = rd_source_type r) (rd_source_type r = TRANSFER_RECEIPT)) in Hu by done.
  rewrite (Z.eqb_sym (rd_source_id r)) in Hnone. congruence.
Qed.

(** A discrepancy none exists for yet, on rows that do, is inserted. *)
Lemma create_discrepancy_ok a s o s' :
  create_discrepancy_for_receipt_item a s = (Ok o, s') ->
  0 <= da_quantity_short a -> 0 <= da_quantity_damaged a ->
  (forall r, r ∈ discrepancies (working s) -> rd_source_id r <> da_receipt_item_id a) ->
  is_Some (row_of (transfers (working s)) (da_transfer_id a)) ->
  is_Some (row_of (products (working s)) (da_product_id a)) ->
  is_Some (row_of (stores (working s)) (da_store_id a)) ->
  opt_all (exists_row (stores (working s))) (da_counterparty_store_id a) = true ->
  committed s' = committed s /\ env s' = env s /\
  exists logs, working s' = over_audit_logs (fun t => t ++ logs)
    (over_discrepancies (fun t => t ++
       if (da_quantity_short a <=? 0) && (da_quantity_damaged a <=? 0) then [] else [new_discrepancy a])
       (working s)).
Proof.
  unfold create_discrepancy_for_receipt_item. intros H Hs Hd Hnew [t Ht] [p Hp] [st Hst] Hcp.
  destruct (_ && _)%bool eqn:Eb.
  { apply ret_ok in H as [_ <-]. split_and!; [done..|]. exists [].
    destruct (working s) as [? ? ? ? ? ? ? [] ? ? []]. unfold over_audit_logs, over_discrepancies, over_trail, over_transit.
    simpl. by rewrite !app_nil_r. }
  apply bind_ok in H as (ex & s1 & H1 & H). apply find_by_ok in H1 as [-> Hex].
  assert (Hnone : forall r, r ∈ discrepancies (working s) -> of_receipt_item (da_receipt_item_id a) r = false).
  { intros r Hr. unfold of_receipt_item. apply andb_false_iff. right. apply Z.eqb_neq. by apply Hnew. }
  destruct ex as [[i r]|].
  { assert ((i, r) ∈ select (fun _ r => of_receipt_item (da_receipt_item_id a) r) (discrepancies (working s)))
      as [Hr%row_of_elem Hof]%elem_select by (simpl in Hex; rewrite Hex; by left).
    rewrite (Hnone r Hr) in Hof. done. }
  assert (Hv : row_violation (working s) (new_discrepancy a) (table (working s)) = None)
    by (by apply (new_discrepancy_valid a (working s) t p st)).
  erewrite bind_ok_intro in H; [|exact (insert_new _ _ _ Hv)].
  simpl in H. apply bind_ok in H as (? & s2 & H2 & H). apply log_event_ok in H2 as ->.
  apply ret_ok in H as [_ <-]. split_and!; [done..|]. by eexists [_].
Qed.

(** What raising the discrepancies needs of the database, and keeps. *)
Definition raise_ready (a : TransferReceiptArgs) (t : InterStoreTransfer) (d : database)
    (items : list (Z * ReceiveLineInput)) : Prop :=
  is_Some (row_of (transfers d) (tra_transfer_id a)) /\ stores_exist d t /\
  (forall i l, (i, l) ∈ items -> counts_nonneg (line_counts l) /\
     exists tl c p, row_of (transfer_lines d) (rl_line_id l) = Some tl /\
       unit_cost_at_shipment tl = Some c /\ row_of (products d) (destination_product_id tl) = Some p) /\
  (forall r, r ∈ discrepancies d -> rd_source_id r ∉ map fst items).

Definition raise_frame (d : database) :=
  (directory_tables d, catalog_tables d, ledger_tables d, stock_tables d, transfers d, transfer_lines d,
   transfer_receipts d, transfer_receipt_items d, custody_acceptances d, approval_rules d, write_offs d,
   write_off_approvals d).

Lemma raise_discrepancies_ok a t items s s' :
  NoDup (map fst items) -> raise_ready a t (working s) items ->
  for_each (raise_discrepancy (tra_transfer_id a) t (tra_received_by a)) items s = (Ok tt, s') ->
  committed s' = committed s /\ env s' = env s /\ raise_frame (working s') = raise_frame (working s) /\
  discrepancies (working s')
  = discrepancies (working s) ++ omap (raised (working s) a t (utc_now (env s))) items.
Proof.
  intros Hnd (Htr & (Hs1 & Hs2 & _) & Hitems & Hfresh) H.
  apply (for_each_ok_ind _ (fun dn s1 =>
    committed s1 = committed s /\ env s1 = env s /\ raise_frame (working s1) = raise_frame (working s) /\
    discrepancies (working s1)
    = discrepancies (working s) ++ omap (raised (working s) a t (utc_now (env s))) dn)) in H; [done| |].
  - split_and!; try done. simpl. by rewrite app_nil_r.
  - intros dn [i l] rest s1 s2 -> (Hc & He & Hf & Hdis) H1.
    destruct (Hitems i l) as ((_ & N2 & N3) & tl & c & p & Htl & Hcost & Hp); [set_solver|].
    injection Hf as F1 F2 F3 F4 F5 F6 F7 F8 F9 F10 F11 F12.
    unfold raise_discrepancy in H1. simpl in H1.
    apply bind_ok in H1 as (o & s3 & H3 & H1). apply get_ok in H3 as [-> <-].
    apply bind_ok in H1 as (tl' & s3 & H3 & H1). apply of_option_ok in H3 as [Hrow <-].
    simpl in Hrow. rewrite F6, Htl in Hrow. injection Hrow as <-.
    apply bind_ok in H1 as (c' & s3 & H3 & H1). apply of_option_ok in H3 as [Hc' <-].
    rewrite Hcost in Hc'. injection Hc' as <-.
    apply bind_ok in H1 as (now & s3 & H3 & H1). apply asks_ok in H3 as [-> <-].
    apply bind_ok in H1 as (o' & s3 & H3 & H1). apply ret_ok in H1 as [_ <-].
    apply create_discrepancy_ok in H3 as (X1 & X2 & logs & X3); simpl; try done.
    + rewrite X3. split_and!; [congruence|congruence| |].
      * unfold raise_frame. simpl. congruence.
      * simpl. rewrite Hdis, omap_app, <- app_assoc, He. f_equal. f_equal. simpl.
        unfold raised at 1. simpl. unfold clean_line. rewrite Htl, Hcost.
        destruct (_ && _)%bool; done.
    + rewrite Hdis. intros r [Hr|Hr]%elem_of_app.
      * specialize (Hfresh r Hr). intros E. apply Hfresh. rewrite E, map_app. set_solver.
      * apply list_elem_of_omap in Hr as ([j x] & Hin & Hrs).
        apply raised_some in Hrs as (_ & ? & ? & _ & _ & ->). simpl. intros ->.
        rewrite map_app in Hnd. apply NoDup_app in Hnd as (_ & Hno & _).
        apply (Hno i); [by apply list_elem_of_fmap_2' with (i, x)|by left].
    + by rewrite F5.
    + rewrite F2. by exists p.
    + by rewrite F1.
    + destruct Hs1 as [st Hst]. rewrite F1. by eapply exists_row_some.
Qed.

(** *** The checks *)

Lemma transfer_line_of_ok tid k s l s' :
  transfer_line_of tid k s = (Ok l, s') ->
  s' = s /\ row_of (transfer_lines (working s)) k = Some l /\ tl_transfer_id l = tid.
Proof.
  unfold transfer_line_of. intros H. apply bind_ok in H as (o & s1 & H1 & H). apply get_ok in H1 as [-> <-].
  apply bind_ok in H as (x & s1 & H1 & H). apply of_option_ok in H1 as [Hr <-].
  apply bind_ok in H as (? & s1 & H1 & H). apply raise_if_ok in H1 as [Hg <-].
  apply ret_ok in H as [<- <-]. bools. done.
Qed.

(** The products the lock loop passed exist. *)
Lemma lock_line_products_ok (column : InterStoreTransferLine -> Z) (product_of : Z -> Tx Z) ids s u s' :
  (forall i s1 p s2, product_of i s1 = (Ok p, s2) ->
     s2 = s1 /\ exists l, row_of (transfer_lines (working s1)) i = Some l /\ p = column l) ->
  lock_line_products product_of ids s = (Ok u, s') ->
  s' = s /\ forall i, i ∈ ids -> exists l p, row_of (transfer_lines (working s)) i = Some l /\
    row_of (products (working s)) (column l) = Some p.
Proof.
  intros Hof. unfold lock_line_products. intros H. apply bind_ok in H as (ps & s1 & H1 & H).
  apply (fold_m_ok_ind _ (fun dn acc s2 => s2 = s /\
    Forall2 (fun i p => exists l, row_of (transfer_lines (working s)) i = Some l /\ p = column l) dn acc))
    in H1 as [-> HF]; [|split; [done|constructor]|].
  - apply (for_each_all _ (fun p s => is_Some (row_of (products (working s)) p))) in H as [-> Hp].
    + split; [done|]. intros i [n Hn]%list_elem_of_lookup.
      destruct (Forall2_lookup_l _ _ _ _ _ HF Hn) as (p & Hpn & l & Hl & ->).
      destruct (Hp (column l)) as [r Hr]; [|by exists l, r].
      apply elem_sorted_set. by apply list_elem_of_lookup_2 in Hpn.
    + intros p s1 s2 H2. apply bind_ok in H2 as (r & s3 & H3 & H2). apply lock_product_ok in H3 as [Hr ->].
      apply ret_ok in H2 as [_ <-]. by split; [|exists r].
  - intros dn i rest acc s2 acc' s3 _ [-> HF] H2.
    apply bind_ok in H2 as (p & s4 & H4 & H2). apply ret_ok in H2 as [<- <-].
    destruct (Hof _ _ _ _ H4) as [-> Hl]. split; [done|]. apply Forall2_app; [done|]. by repeat constructor.
Qed.

Lemma destination_of_line_ok i s p s' :
  destination_of_line i s = (Ok p, s') ->
  s' = s /\ exists l, row_of (transfer_lines (working s)) i = Some l /\ p = destination_product_id l.
Proof.
  unfold destination_of_line. intros H. apply bind_ok in H as (o & s1 & H1 & H). apply get_ok in H1 as [-> <-].
  apply bind_ok in H as (l & s1 & H1 & H). apply of_option_ok in H1 as [Hl <-].
  apply ret_ok in H as [<- <-]. split; [done|]. by exists l.
Qed.

Lemma source_of_line_ok i s p s' :
  source_of_line i s = (Ok p, s') ->
  s' = s /\ exists l, row_of (transfer_lines (working s)) i = Some l /\ p = source_product_id l.
Proof.
  unfold source_of_line. intros H. apply bind_ok in H as (o & s1 & H1 & H). apply get_ok in H1 as [-> <-].
  apply bind_ok in H as (l & s1 & H1 & H). apply of_option_ok in H1 as [Hl <-].
  apply ret_ok in H as [<- <-]. split; [done|]. by exists l.
Qed.

(** What the checks of a receipt establish. *)
Definition checked_receipt (d : database) (transfer_id : Z) (t : InterStoreTransfer)
    (lines : list ReceiveLineInput) : Prop :=
  tr_status t = TR_SHIPPED /\
  forall l, l ∈ lines -> exists tl p, row_of (transfer_lines d) (rl_line_id l) = Some tl /\
    tl_transfer_id tl = transfer_id /\
    accounted tl + total_counts (counts_of lines (rl_line_id l)) <= shipped_quantity tl /\
    row_of (products d) (destination_product_id tl) = Some p.

Lemma by_line_entry lines k c :
  (k, c) ∈ by_line lines <-> (exists l, l ∈ lines /\ rl_line_id l = k) /\ c = counts_of lines k.
Proof.
  destruct (by_line_spec lines) as [Hnd Hget]. split.
  - intros H. apply (elem_dict_get _ _ _ Hnd) in H. rewrite Hget in H.
    destruct (existsb _ lines) eqn:E; [|done]. injection H as <-. split; [|done].
    apply existsb_exists in E as (l & Hl%list_elem_of_In & Hk). exists l. bools. done.
  - intros [(l & Hl & Hk) ->]. apply dict_get_elem. rewrite Hget.
    assert (existsb (fun l => rl_line_id l =? k) lines = true) as ->; [|done].
    apply existsb_exists. exists l. rewrite <- list_elem_of_In. split; [done|]. by apply Z.eqb_eq.
Qed.

Lemma check_transfer_receipt_ok tid t lines s u s' :
  check_transfer_receipt tid t lines s = (Ok u, s') ->
  s' = s /\ checked_receipt (working s) tid t lines.
Proof.
  unfold check_transfer_receipt. intros H.
  apply bind_ok in H as (? & s1 & H1 & H). apply raise_if_ok in H1 as [Hst <-].
  apply negb_false_iff, bool_decide_eq_true in Hst.
  apply bind_ok in H as (? & s1 & H1 & H).
  apply (for_each_all _ (fun c s => exists tl, row_of (transfer_lines (working s)) c.1 = Some tl /\
    tl_transfer_id tl = tid /\ accounted tl + total_counts c.2 <= shipped_quantity tl)) in H1 as [-> Hl].
  - apply (lock_line_products_ok destination_product_id) in H as [-> Hp]; [|apply destination_of_line_ok].
    split; [done|]. split; [done|]. intros l Hin.
    destruct (Hl (rl_line_id l, counts_of lines (rl_line_id l))) as (tl & Htl & Ht & Ha).
    { apply by_line_entry. split; [by exists l|done]. }
    destruct (Hp (rl_line_id l)) as (tl' & p & Htl' & Hp').
    { unfold dict_keys. apply list_elem_of_fmap. exists (rl_line_id l, counts_of lines (rl_line_id l)).
      split; [done|]. apply by_line_entry. split; [by exists l|done]. }
    simpl in *. rewrite Htl in Htl'. injection Htl' as <-. by exists tl, p.
  - intros [k c] sa sb H2. unfold check_receive_line in H2.
    apply bind_ok in H2 as (tl & sc & H3 & H2). apply transfer_line_of_ok in H3 as (-> & Htl & Ht).
    apply raise_if_ok in H2 as [Hg <-]. split; [done|]. exists tl. simpl in *. bools. split_and!; [done..|lia].
Qed.

Lemma validate_receive_line_ok l s u s' :
  validate_receive_line l s = (Ok u, s') ->
  s' = s /\ counts_nonneg (line_counts l) /\ 0 < total_counts (line_counts l).
Proof.
  unfold validate_receive_line. intros H. apply bind_ok in H as (? & s1 & H1 & H).
  apply raise_if_ok in H1 as [Hg <-]. apply raise_if_ok in H as [Hp <-].
  repeat (apply orb_false_iff in Hg as [Hg ?]). bools. unfold counts_nonneg. simpl. split_and!; try done; lia.
Qed.

Lemma checked_receivable d tid t lines :
  transit_wf d -> checked_receipt d tid t lines ->
  (forall l, l ∈ lines -> counts_nonneg (line_counts l) /\ 0 < total_counts (line_counts l)) ->
  receivable_lines d tid lines.
Proof.
  intros Hd [_ Hc] Hv. split.
  - intros l Hl. destruct (Hv l Hl) as [Hn Hp]. split_and!; [done..|].
    destruct (Hc l Hl) as (tl & p & Htl & Ht & Ha & _).
    pose proof (fw_lines _ (tw_flow _ Hd) _ _ Htl) as Hf.
    assert (Hpos : total_counts (line_counts l) <= total_counts (counts_of lines (rl_line_id l))).
    { assert (Hle : forall f, (forall x, x ∈ lines -> 0 <= f x) ->
        f l <= sum_where (fun x => rl_line_id x =? rl_line_id l) f lines).
      { intros f Hf'. pose proof (sum_by_elem (fun x => if rl_line_id x =? rl_line_id l then f x else 0) lines l) as He.
        simpl in He. rewrite Z.eqb_refl in He. apply He; [|done]. intros x Hx. destruct (_ =? _); [by apply Hf'|done]. }
      unfold total_counts. simpl.
      pose proof (Hle rl_received (fun x Hx => proj1 (proj1 (Hv x Hx)))).
      pose proof (Hle rl_damaged (fun x Hx => proj1 (proj2 (proj1 (Hv x Hx))))).
      pose proof (Hle rl_declared_short (fun x Hx => proj2 (proj2 (proj1 (Hv x Hx))))). lia. }
    destruct (lf_nonneg _ _ _ Hf) as (N1 & N2 & N3). unfold accounted in Ha. simpl in N1, N2, N3.
    destruct (lf_has_cost _ _ _ Hf) as [c Hcost]; [lia|]. by exists tl, c.
  - intros k tl Htl. destruct (existsb (fun l => rl_line_id l =? k) lines) eqn:E.
    + apply existsb_exists in E as (l & Hl%list_elem_of_In & Hk). bools. subst k.
      destruct (Hc l Hl) as (tl' & p & Htl' & _ & Ha & _). rewrite Htl in Htl'. by injection Htl' as <-.
    + rewrite (counts_of_none _ _ E). unfold total_counts. simpl.
      pose proof (lf_accounted _ _ _ (fw_lines _ (tw_flow _ Hd) _ _ Htl)). lia.
Qed.

(** *** The receipt as a whole *)

Definition outside_ledger (d : database) :=
  (directory_tables d, catalog_tables d, stock_tables d, transit_tables d).

Lemma post_fixes_outside q by_ : fixes (fun s => outside_ledger (working s)) (post q by_).
Proof. unfold outside_ledger. destruct q; simpl; unfold_postings; solve_fixes. Qed.

(** A posting in a handler: the ledger moves, the rest and the committed
    state do not. *)
Lemma posting_ok q by_ s r s' :
  post q by_ s = (Ok r, s') ->
  committed s' = committed s /\ outside_ledger (working s') = outside_ledger (working s) /\
  (forall code, account_balance (working s') code
     = account_balance (working s) code + spec_net (posting_lines q) code).
Proof.
  intros H. split_and!.
  - exact (fixes_run _ _ _ _ _ (post_fixes_committed q by_) H).
  - exact (fixes_run _ _ _ _ _ (post_fixes_outside q by_) H).
  - intros code. by eapply post_account_balance.
Qed.

(** A two-line event on its two accounts. *)
Lemma spec_net_debited c1 c2 v : c2 <> c1 -> spec_net (pair_lines c1 c2 v) c1 = v.
Proof.
  intros H. rewrite spec_net_pair, (bool_decide_eq_true_2 (c1 = c1)), bool_decide_eq_false_2 by done. lia.
Qed.

Lemma spec_net_credited c1 c2 v : c1 <> c2 -> spec_net (pair_lines c1 c2 v) c2 = - v.
Proof.
  intros H. rewrite spec_net_pair, (bool_decide_eq_true_2 (c2 = c2)), bool_decide_eq_false_2 by done. lia.
Qed.

Lemma spec_net_unless_zero v ls code :
  0 <= v -> (v = 0 -> spec_net ls code = 0) -> spec_net (unless_zero v ls) code = spec_net ls code.
Proof.
  intros Hv Hz. unfold unless_zero. destruct (Z.leb_spec v 0); [|done].
  rewrite spec_net_nil. symmetry. apply Hz. lia.
Qed.

(** What a receipt did, from the state before its row was added. *)
Definition receipt_effect (a : TransferReceiptArgs) (t : InterStoreTransfer)
    (lines : list ReceiveLineInput) (now : Z) (d d' : database) : Prop :=
  received a t lines now d d' /\
  (forall pid p, row_of (products d) pid = Some p ->
     row_of (products d') pid = Some (fold_left (take_into d) (lines_into d pid lines) p)) /\
  account_balance d' ACCOUNT_INVENTORY_IN_TRANSIT
  = account_balance d ACCOUNT_INVENTORY_IN_TRANSIT
    - (if sum_by (received_value d) lines <=? 0 then 0 else sum_by (received_value d) lines) /\
  custody_acceptances d'
  = custody_acceptances d ++ [custody_of a (to_store_id t) (next_id (transfer_receipts d)) now].

Lemma omap_same {A B} (f g : A -> option B) (l : list A) : (forall x, f x = g x) -> omap f l = omap g l.
Proof. intros H. induction l as [|x l IH]; [done|]. simpl. rewrite H. destruct (g x); [f_equal|]; exact IH. Qed.

Lemma raised_ext d d' a t now item :
  transfer_lines d' = transfer_lines d -> raised d' a t now item = raised d a t now item.
Proof. intros E. unfold raised. by rewrite E. Qed.

Lemma write_transfer_receipt_ok a t lines s0 s u s' :
  transit_wf (working s0) -> row_of (transfers (working s0)) (tra_transfer_id a) = Some t ->
  checked_receipt (working s0) (tra_transfer_id a) t lines ->
  receivable_lines (working s0) (tra_transfer_id a) lines ->
  s = with_working (over_transfer_receipts
        (fun r => r ++ [new_transfer_receipt a (to_store_id t)]) (working s0)) s0 ->
  write_transfer_receipt a t (next_id (transfer_receipts (working s0))) lines s = (Ok u, s') ->
  committed s' = committed s0 /\ receipt_effect a t lines (utc_now (env s0)) (working s0) (working s').
Proof.
  intros Hd Ht Hck Hrl -> H. unfold write_transfer_receipt in H.
  set (d := working s0) in *. set (rid := next_id (transfer_receipts d)) in *.
  apply bind_ok in H as ([total posted] & s1 & H1 & H).
  apply receive_transfer_lines_ok in H1 as (C1 & E1 & F1 & I1 & -> & -> & P1). simpl in C1, E1, F1, I1, P1.
  injection F1 as F1a F1b F1c F1d F1e F1f F1g F1h F1i F1j.
  apply bind_ok in H as ([] & s2 & H2 & H). simpl in H2.
  apply raise_discrepancies_ok in H2 as (C2 & E2 & F2 & D2); [|apply NoDup_numbered|].
  2:{ split; [rewrite F1c; by exists t|]. split.
      { unfold stores_exist. rewrite F1a. by apply (fw_stores _ (tw_flow _ Hd) _ _ Ht). }
      split.
      - intros i l (Hl & _)%elem_numbered. destruct (proj1 Hrl l Hl) as (Hn & _ & tl & c & Htl & _ & Hc).
        split; [done|]. destruct (proj2 Hck l Hl) as (tl' & p & Htl' & _ & _ & Hp).
        rewrite Htl in Htl'. injection Htl' as <-. destruct (P1 _ _ Hp) as [].
        rewrite F1d. eexists tl, c, _. split_and!; [done|done|by apply P1].
      - intros r. rewrite F1g. intros Hr ([i l] & E & (_ & Hge & _)%elem_numbered)%list_elem_of_fmap.
        destruct (fo_facts _ (tw_found _ Hd) r Hr) as (_ & x & _ & _ & _ & Hx%row_of_range & _).
        simpl in E. change (transfer_receipt_items (over_transfer_receipts _ d)) with (transfer_receipt_items d) in Hge.
        fold d in Hx. lia. }
  injection F2 as F2a F2b F2c F2d F2e F2f F2g F2h F2i F2j F2k F2l.
  apply bind_ok in H as ([] & s3 & H3 & H). apply apply_counts_ok in H3 as (C3 & E3 & ls & W3 & L3).
  apply bind_ok in H as (? & s4 & H4 & H). apply log_event_ok in H4 as ->.
  apply bind_ok in H as (now & s5 & H5 & H). apply asks_ok in H5 as [-> <-].
  apply bind_ok in H as (cid & s5 & H5 & H). apply add_ok in H5 as (_ & _ & _ & ->).
  apply bind_ok in H as (? & s6 & H6 & H). apply log_event_ok in H6 as ->.
  apply bind_ok in H as (e & s7 & H7 & H). apply ret_ok in H as [_ <-].
  change (post_transfer_receipt_journal ?i ?st ?dt ?v ?b) with (post (P_transfer_receipt i st dt v) b) in H7.
  apply posting_ok in H7 as (C7 & O7 & B7). injection O7 as O7a O7b O7c O7d.
  simpl in *. rewrite W3 in *. simpl in *.
  split; [congruence|]. split_and!.
  - constructor.
    + rewrite O7a, O7d. simpl. rewrite F2a, F1a, F2e, F1c, F2k, F1i, F2l, F1j. done.
    + rewrite O7d. simpl. rewrite F2g, F1e. done.
    + rewrite O7d. simpl. rewrite F2h, I1. done.
    + rewrite O7d. simpl. rewrite D2, F1g. f_equal. rewrite E1. simpl.
      apply omap_same. intros item. apply raised_ext. by rewrite F1d.
    + intros k. rewrite O7d. simpl. rewrite L3, F2f, F1d, by_line_total. done.
  - intros pid p Hp. rewrite O7b. simpl. rewrite F2b. by apply P1.
  - rewrite B7, (account_balance_ext d) by (simpl; rewrite F2c, F1b; done).
    simpl. change (received_value (over_transfer_receipts _ d)) with (received_value d).
    unfold unless_zero. destruct (_ <=? 0); [rewrite spec_net_nil; lia|].
    rewrite spec_net_credited by done. lia.
  - rewrite O7d. simpl. rewrite F2i, F1f. do 3 f_equal. congruence.
Qed.

(** A request: the receipt of an earlier one, the row a concurrent one left,
    or a new receipt. *)
Lemma receive_transfer_ok a lines caller s i s' :
  transit_wf (working s) -> receive_transfer a lines caller s = (Ok i, s') ->
  (s' = s /\ exists r, row_of (transfer_receipts (working s)) i = Some r /\ receipt_under_key (tra_key a) r = true) \/
  (s' = with_working (committed s) s /\
   exists r, row_of (transfer_receipts (committed s)) i = Some r /\ receipt_under_key (tra_key a) r = true) \/
  (committed s' = committed s /\ i = next_id (transfer_receipts (working s)) /\
   (forall r, r ∈ transfer_receipts (working s) -> receipt_under_key (tra_key a) r = false) /\
   lines <> [] /\
   exists t, row_of (transfers (working s)) (tra_transfer_id a) = Some t /\
     store_denied caller (to_store_id t) = false /\
     checked_receipt (working s) (tra_transfer_id a) t lines /\
     receivable_lines (working s) (tra_transfer_id a) lines /\
     receipt_effect a t lines (utc_now (env s)) (working s) (working s')).
Proof.
  intros Hd. unfold receive_transfer. intros H.
  apply bind_ok in H as (ex & s1 & H1 & H). apply find_by_ok in H1 as [-> Hex].
  destruct ex as [[j r]|].
  { apply ret_ok in H as [<- <-]. left. split; [done|]. exists r.
    apply (elem_select (fun _ r => receipt_under_key (tra_key a) r)). simpl in Hex. rewrite Hex. by left. }
  apply bind_ok in H as (? & s1 & H1 & H). apply raise_if_ok in H1 as [Hne <-].
  apply bind_ok in H as (? & s1 & H1 & H).
  apply (for_each_all _ (fun l _ => counts_nonneg (line_counts l) /\ 0 < total_counts (line_counts l)))
    in H1 as [-> Hv].
  2:{ intros l sa sb H2. apply validate_receive_line_ok in H2 as (-> & ? & ?). done. }
  apply bind_ok in H as (t & s1 & H1 & H). unfold get_transfer in H1.
  apply bind_ok in H1 as (o & s2 & H2 & H1). apply get_ok in H2 as [-> <-].
  apply of_option_ok in H1 as [Ht <-]. simpl in Ht.
  apply bind_ok in H as (? & s1 & H1 & H). apply enforce_store_access_ok in H1 as [Hst <-].
  apply bind_ok in H as (? & s1 & H1 & H). apply check_transfer_receipt_ok in H1 as [-> Hck].
  pose proof (checked_receivable _ _ _ _ Hd Hck Hv) as Hrl.
  apply bind_ok in H as ([k new] & s1 & H1 & H).
  apply insert_or_winner_ok in H1 as [(-> & -> & _ & _ & ->)|(-> & -> & row & Hx)].
  - simpl in H. apply bind_ok in H as ([] & s2 & H2 & H). apply ret_ok in H as [<- <-].
    eapply write_transfer_receipt_ok in H2 as [Hc He]; [|done..].
    right. right. split; [done|]. split; [done|]. split.
    { intros r Hr. apply elem_row_of in Hr as [j Hj]. simpl in Hex.
      apply (proj1 (select_nil _ _) Hex j r Hj). }
    split; [by intros ->|]. by exists t.
  - apply ret_ok in H as [<- <-]. right. left. split; [done|]. exists row.
    apply (elem_select (fun _ r => receipt_under_key (tra_key a) r)). simpl in Hx. rewrite Hx. by left.
Qed.

Lemma keeps_of_cases (I : database -> Prop) {A} (m : Tx A) :
  fixes committed m ->
  (forall s a s', I (committed s) -> I (working s) -> m s = (Ok a, s') ->
     s' = s \/ s' = with_working (committed s) s \/ I (working s')) ->
  keeps I m.
Proof.
  intros Hc Hm. apply keeps_of_ok; [done|]. intros s a s' H1 H2 H.
  destruct (Hm s a s' H1 H2 H) as [->|[->| ]]; done.
Qed.

Ltac transit_parts :=
  unfold ship_transfer, receive_transfer, write_transfer_receipt, check_transfer_receipt, check_receive_line,
    check_ship_line, check_shipment, transfer_line_of, lock_line_products, source_of_line, destination_of_line,
    receive_transfer_line, take_in, raise_discrepancy, create_discrepancy_for_receipt_item, write_shipment,
    ship_line, claim_ship_key, validate_receive_line, get_transfer, insert_or_winner,
    post_transfer_receipt_journal, post_transfer_shipment_journal, _post_standard, posted,
    record_movement, lock_product_for_update.

Lemma receive_transfer_fixes_committed a lines caller : fixes committed (receive_transfer a lines caller).
Proof. transit_parts. walk_fixes ltac:(solve [solve_fixes]). Qed.

Lemma receive_transfer_keeps a lines caller : keeps transit_wf (receive_transfer a lines caller).
Proof.
  apply keeps_of_cases; [apply receive_transfer_fixes_committed|].
  intros s i s' _ Hd H.
  apply receive_transfer_ok in H as [[-> _]|[[-> _]|(_ & _ & _ & _ & t & Ht & _ & _ & Hrl & He & _)]]; [by left|by right; left| |done].
  right. right. by eapply received_wf.
Qed.

(** ** A shipment *)

Definition cost_at (d : database) (pid : Z) : cost :=
  match row_of (products d) pid with Some p => current_cost p | None => 0 end.

Definition line_source (d : database) (line_id : Z) : Z :=
  match row_of (transfer_lines d) line_id with Some l => source_product_id l | None => 0 end.

Definition ship_value (d : database) (i : ShipLineInput) : ledger :=
  ledger_quantize (quantity_to_ship i) (cost_at d (line_source d (sh_line_id i))).

(** The transfer line after the input lines on it, the last one winning. *)
Definition ship_onto (d : database) (inputs : list ShipLineInput) (k : Z) (l : InterStoreTransferLine)
    : InterStoreTransferLine :=
  fold_left (fun l i => if sh_line_id i =? k
                        then with_line_shipped (quantity_to_ship i) (cost_at d (source_product_id l)) l
                        else l) inputs l.

(** What leaves the stock of a product. *)
Definition shipped_from (d : database) (inputs : list ShipLineInput) (pid : Z) : qty :=
  sum_where (fun i => line_source d (sh_line_id i) =? pid) quantity_to_ship inputs.

Definition ship_frame (d : database) :=
  (directory_tables d, ledger_tables d, transfers d, transfer_receipts d, transfer_receipt_items d,
   custody_acceptances d, discrepancies d, approval_rules d, write_offs d, write_off_approvals d).

Lemma ship_onto_static d inputs k l :
  source_product_id (ship_onto d inputs k l) = source_product_id l /\
  tl_transfer_id (ship_onto d inputs k l) = tl_transfer_id l /\
  requested_quantity (ship_onto d inputs k l) = requested_quantity l.
Proof.
  unfold ship_onto. revert l. induction inputs as [|i inputs IH]; intros l; [done|]. simpl.
  destruct (IH (if sh_line_id i =? k then with_line_shipped (quantity_to_ship i) (cost_at d (source_product_id l)) l
                else l)) as (-> & -> & ->). by destruct (_ =? _).
Qed.

Lemma ship_onto_snoc d inputs i k l :
  ship_onto d (inputs ++ [i]) k l
  = if sh_line_id i =? k
    then with_line_shipped (quantity_to_ship i)
           (cost_at d (source_product_id (ship_onto d inputs k l))) (ship_onto d inputs k l)
    else ship_onto d inputs k l.
Proof. unfold ship_onto. by rewrite fold_left_app. Qed.

Lemma ship_lines_ok store tid by_ inputs s total s' :
  fold_m (ship_line store tid by_) inputs 0 s = (Ok total, s') ->
  let d := working s in
  committed s' = committed s /\ env s' = env s /\ ship_frame (working s') = ship_frame d /\
  total = sum_by (ship_value d) inputs /\
  (forall k, row_of (transfer_lines (working s')) k = ship_onto d inputs k <$> row_of (transfer_lines d) k) /\
  (forall pid, row_of (products (working s')) pid
     = (fun p => with_stock (current_qty_on_hand p - shipped_from d inputs pid) None p)
       <$> row_of (products d) pid) /\
  (forall i, i ∈ inputs -> exists l p, row_of (transfer_lines d) (sh_line_id i) = Some l /\
     row_of (products d) (source_product_id l) = Some p /\ 0 <= current_cost p).
Proof.
  intros H d.
  apply (fold_m_ok_ind _ (fun dn b s1 =>
    committed s1 = committed s /\ env s1 = env s /\ ship_frame (working s1) = ship_frame d /\
    b = sum_by (ship_value d) dn /\
    (forall k, row_of (transfer_lines (working s1)) k = ship_onto d dn k <$> row_of (transfer_lines d) k) /\
    (forall pid, row_of (products (working s1)) pid
       = (fun p => with_stock (current_qty_on_hand p - shipped_from d dn pid) None p)
         <$> row_of (products d) pid) /\
    (forall i, i ∈ dn -> exists l p, row_of (transfer_lines d) (sh_line_id i) = Some l /\
       row_of (products d) (source_product_id l) = Some p /\ 0 <= current_cost p))) in H; [done| |].
  - split_and!; try done.
    + intros k. unfold ship_onto. simpl. by destruct (row_of _ k).
    + intros pid. unfold shipped_from. rewrite sum_where_nil. destruct (row_of _ pid) as [p|]; [|done].
      simpl. by rewrite Z.sub_0_r, with_stock_same.
    + by intros i ?%elem_of_nil.
  - intros dn i rest b1 s1 b2 s2 _ (Hc & He & Hf & -> & Hl & Hp & Hrows) H1. unfold ship_line in H1.
    apply bind_ok in H1 as (o & s3 & H3 & H1). apply get_ok in H3 as [-> <-].
    apply bind_ok in H1 as (l' & s3 & H3 & H1). apply of_option_ok in H3 as [Hrow <-]. simpl in Hrow.
    rewrite Hl in Hrow. apply fmap_Some in Hrow as (l & Hrow & ->).
    destruct (ship_onto_static d dn (sh_line_id i) l) as (Es & _ & _). rewrite Es in H1.
    apply bind_ok in H1 as (o & s3 & H3 & H1). apply get_ok in H3 as [-> <-].
    apply bind_ok in H1 as (p1 & s3 & H3 & H1). apply of_option_ok in H3 as [Hp1 <-]. simpl in Hp1.
    rewrite Hp in Hp1. apply fmap_Some in Hp1 as (p & Ep & ->).
    assert (Esrc : line_source d (sh_line_id i) = source_product_id l) by (unfold line_source; by rewrite Hrow).
    assert (Ecost : cost_at d (source_product_id l) = current_cost p) by (unfold cost_at; by rewrite Ep).
    apply bind_ok in H1 as ([] & s3 & H3 & H1). apply update_ok in H3 as (_ & _ & _ & _ & ->).
    apply bind_ok in H1 as (m & s3 & H3 & H1). apply ret_ok in H1 as [<- <-].
    apply record_movement_ok in H3 as (p2 & Hp2 & _ & Hcost & _ & _ & ->). simpl in *.
    rewrite Hp, Ep in Hp2. injection Hp2 as <-. simpl in *. split_and!; try done.
    + rewrite sum_by_app, sum_by_cons, sum_by_nil. unfold ship_value at 3. rewrite Esrc, Ecost. lia.
    + intros k. rewrite row_of_set, Hl. case_bool_decide as E.
      * subst k. rewrite Hrow. simpl. by rewrite ship_onto_snoc, Z.eqb_refl, Es, Ecost.
      * destruct (row_of (transfer_lines d) k) as [x|]; [|done]. simpl.
        by rewrite ship_onto_snoc, (proj2 (Z.eqb_neq _ _) E).
    + intros pid. rewrite row_of_set, Hp. unfold shipped_from.
      rewrite sum_where_app, sum_where_cons, sum_where_nil, Esrc. case_bool_decide as E.
      * subst pid. rewrite Z.eqb_refl, Ep. simpl. apply (f_equal Some).
        unfold with_stock, shipped_from. simpl. f_equal. lia.
      * by rewrite (proj2 (Z.eqb_neq _ _) E), !Z.add_0_r.
    + intros j [Hj| ->%list_elem_of_singleton]%elem_of_app; [by apply Hrows|]. exists l, p. done.
Qed.

(** The last input line on [k] decides. *)
Lemma ship_onto_cases d inputs k l :
  (ship_onto d inputs k l = l /\ forall i, i ∈ inputs -> sh_line_id i <> k) \/
  exists i, i ∈ inputs /\ sh_line_id i = k /\
    ship_onto d inputs k l = with_line_shipped (quantity_to_ship i) (cost_at d (source_product_id l)) l.
Proof.
  induction inputs as [|i inputs IH] using rev_ind; [left; split; [done|by intros ? ?%elem_of_nil]|].
  rewrite ship_onto_snoc. destruct (ship_onto_static d inputs k l) as (Es & _ & _).
  destruct (Z.eqb_spec (sh_line_id i) k) as [Hk|Hk].
  - right. exists i. split; [set_solver|]. split; [done|]. rewrite Es.
    by destruct IH as [[-> _]|(j & _ & _ & ->)].
  - destruct IH as [[-> Hn]|(j & Hj & E & ->)]; [left|right].
    + split; [done|]. intros x [Hx| ->%list_elem_of_singleton]%elem_of_app; [by apply Hn|done].
    + exists j. split; [set_solver|done].
Qed.

(** What the checks of a shipment establish. *)
Definition checked_shipment (d : database) (transfer_id : Z) (t : InterStoreTransfer)
    (inputs : list ShipLineInput) : Prop :=
  tr_status t = TR_DRAFT /\
  forall i, i ∈ inputs -> 0 < quantity_to_ship i /\
    exists l p, row_of (transfer_lines d) (sh_line_id i) = Some l /\ tl_transfer_id l = transfer_id /\
      quantity_to_ship i <= requested_quantity l /\ row_of (products d) (source_product_id l) = Some p.

(** What a shipment did. *)
Record shipped (transfer_id : Z) (t : InterStoreTransfer) (key : string) (inputs : list ShipLineInput)
    (by_ : option Z) (now : Z) (d d' : database) : Prop := {
  sp_frame : (stores d', transfer_receipts d', transfer_receipt_items d', discrepancies d', write_offs d',
              write_off_approvals d')
             = (stores d, transfer_receipts d, transfer_receipt_items d, discrepancies d, write_offs d,
                write_off_approvals d);
  sp_transfer : transfers d'
             = set_row transfer_id (with_shipped by_ now) (set_row transfer_id (with_ship_key key) (transfers d));
  sp_lines : forall k, row_of (transfer_lines d') k = ship_onto d inputs k <$> row_of (transfer_lines d) k;
  sp_products : forall pid, row_of (products d') pid
             = (fun p => with_stock (current_qty_on_hand p - shipped_from d inputs pid) None p)
               <$> row_of (products d) pid;
  sp_value : 0 <= sum_by (ship_value d) inputs;
  sp_balance : account_balance d' ACCOUNT_INVENTORY_IN_TRANSIT
             = account_balance d ACCOUNT_INVENTORY_IN_TRANSIT + sum_by (ship_value d) inputs;
}.

Lemma ledger_quantize_nonneg q c : 0 <= q -> 0 <= c -> 0 <= ledger_quantize q c.
Proof. intros Hq Hc. unfold ledger_quantize. apply div_half_up_nonneg; nia. Qed.

Lemma shipped_wf tid t key inputs by_ now d d' :
  transit_wf d -> row_of (transfers d) tid = Some t -> checked_shipment d tid t inputs ->
  (forall i, i ∈ inputs -> 0 <= cost_at d (line_source d (sh_line_id i))) ->
  shipped tid t key inputs by_ now d d' -> transit_wf d'.
Proof.
  intros Hd Ht [Hst Hck] Hcost Hs.
  pose (d1 := over_transfers (set_row tid (with_shipped by_ now))
                (over_transfers (set_row tid (with_ship_key key)) d)).
  assert (Hd1 : transit_wf d1).
  { apply set_transfer_wf; [by intros x _|]. apply set_transfer_wf; [by intros x _|done]. }
  assert (Ht1 : row_of (transfers d1) tid = Some (with_shipped by_ now (with_ship_key key t)))
    by (simpl; by rewrite !row_of_set, !bool_decide_eq_true_2, Ht by done).
  apply (transit_wf_ext (over_transfer_lines (fun _ => transfer_lines d') d1)).
  { pose proof (sp_frame _ _ _ _ _ _ _ _ Hs) as Ef. pose proof (sp_transfer _ _ _ _ _ _ _ _ Hs) as Et.
    injection Ef as E1 E2 E3 E4 E5 E6. unfold transit_reads. simpl. congruence. }
  apply ship_lines_wf; [|done]. intros k. rewrite (sp_lines _ _ _ _ _ _ _ _ Hs).
  change (transfer_lines d1) with (transfer_lines d).
  destruct (row_of (transfer_lines d) k) as [l|] eqn:Hl; [|constructor]. constructor.
  destruct (ship_onto_cases d inputs k l) as [[-> _]|(i & Hi & Hk & ->)]; [by left|right].
  destruct (Hck i Hi) as (Hq & l' & p & Hl' & Htl & Hqr & _). rewrite Hk, Hl in Hl'. injection Hl' as <-.
  split.
  - destruct (lf_transfer _ _ _ (fw_lines _ (tw_flow _ Hd) k l Hl)) as (t0 & Ht0 & Hz).
    rewrite Htl, Ht in Ht0. injection Ht0 as <-. apply Hz. by rewrite Hst.
  - exists (quantity_to_ship i), (cost_at d (source_product_id l)). split_and!; [done|done|done| |].
    + specialize (Hcost i Hi). unfold line_source in Hcost. by rewrite Hk, Hl in Hcost.
    + rewrite Htl. eexists. split; [exact Ht1|done].
Qed.

Lemma check_ship_line_ok tid i s u s' :
  check_ship_line tid i s = (Ok u, s') ->
  s' = s /\ exists l, row_of (transfer_lines (working s)) (sh_line_id i) = Some l /\
    tl_transfer_id l = tid /\ quantity_to_ship i <= requested_quantity l.
Proof.
  unfold check_ship_line. intros H. apply bind_ok in H as (l & s1 & H1 & H).
  apply transfer_line_of_ok in H1 as (-> & Hl & Ht). apply raise_if_ok in H as [Hg <-].
  split; [done|]. exists l. bools. done.
Qed.

Lemma check_shipment_ok tid t inputs s u s' :
  (forall i, i ∈ inputs -> 0 < quantity_to_ship i) ->
  check_shipment tid t inputs s = (Ok u, s') -> s' = s /\ checked_shipment (working s) tid t inputs.
Proof.
  intros Hpos. unfold check_shipment. intros H. apply bind_ok in H as (? & s1 & H1 & H).
  apply raise_if_ok in H1 as [Hst <-]. apply negb_false_iff in Hst. apply bool_decide_eq_true in Hst.
  apply bind_ok in H as (? & s1 & H1 & H).
  apply (for_each_all _ (fun i s => exists l, row_of (transfer_lines (working s)) (sh_line_id i) = Some l /\
    tl_transfer_id l = tid /\ quantity_to_ship i <= requested_quantity l)) in H1 as [-> Hl];
    [|intros i sa sb; apply check_ship_line_ok].
  apply (lock_line_products_ok source_product_id) in H as [-> Hp]; [|apply source_of_line_ok].
  split; [done|]. split; [done|]. intros i Hi. split; [by apply Hpos|].
  destruct (Hl i Hi) as (l & Hrow & Ht & Hq).
  destruct (Hp (sh_line_id i)) as (l' & p & Hl' & Hpr); [by apply list_elem_of_fmap_2|].
  rewrite Hrow in Hl'. injection Hl' as <-. by exists l, p.
Qed.

Lemma write_shipment_ok tid t key inputs by_ s0 s u s' :
  s = with_working (over_transfers (set_row tid (with_ship_key key)) (working s0)) s0 ->
  write_shipment tid (from_store_id t) inputs by_ s = (Ok u, s') ->
  (forall i, i ∈ inputs -> 0 < quantity_to_ship i) ->
  committed s' = committed s0 /\ shipped tid t key inputs by_ (utc_now (env s0)) (working s0) (working s') /\
  (forall i, i ∈ inputs -> 0 <= cost_at (working s0) (line_source (working s0) (sh_line_id i))).
Proof.
  intros -> H Hpos. set (d := working s0) in *. unfold write_shipment in H.
  apply bind_ok in H as (total & s1 & H1 & H).
  apply ship_lines_ok in H1 as (C1 & E1 & F1 & -> & L1 & P1 & R1). simpl in C1, E1, F1, L1, P1, R1.
  injection F1 as F1a F1b F1c F1d F1e F1f F1g F1h F1i F1j.
  change (ship_onto (over_transfers _ d)) with (ship_onto d) in L1.
  change (ship_value (over_transfers _ d)) with (ship_value d) in H.
  assert (Hcost : forall i, i ∈ inputs -> 0 <= cost_at d (line_source d (sh_line_id i))).
  { intros i Hi. destruct (R1 i Hi) as (l & p & Hl & Hp & Hc). unfold line_source, cost_at.
    rewrite Hl. fold d in Hp. by rewrite Hp. }
  assert (Hval : 0 <= sum_by (ship_value d) inputs).
  { apply sum_by_nonneg. intros i Hi. apply ledger_quantize_nonneg; [specialize (Hpos i Hi); lia|by apply Hcost]. }
  apply bind_ok in H as (now & s2 & H2 & H). apply asks_ok in H2 as [-> <-].
  apply bind_ok in H as ([] & s2 & H2 & H). apply update_ok in H2 as (_ & _ & _ & _ & ->).
  apply bind_ok in H as (? & s3 & H3 & H). apply log_event_ok in H3 as ->.
  apply bind_ok in H as (e & s4 & H4 & H). apply ret_ok in H as [_ <-].
  change (post_transfer_shipment_journal ?i ?st ?dt ?v ?b) with (post (P_transfer_shipment i st dt v) b) in H4.
  apply posting_ok in H4 as (C4 & O4 & B4). injection O4 as O4a O4b O4c O4d. simpl in *.
  split; [congruence|]. split; [|done]. constructor.
  - rewrite O4a, O4d. simpl. by rewrite F1a, F1d, F1e, F1g, F1i, F1j.
  - rewrite O4d. simpl. rewrite F1c, E1. done.
  - intros k. rewrite O4d. simpl. apply L1.
  - intros pid. rewrite O4b. simpl. apply P1.
  - done.
  - rewrite B4, (account_balance_ext d) by (simpl; rewrite F1b; done). simpl.
    rewrite spec_net_unless_zero; rewrite ?spec_net_debited; done.
Qed.

Lemma claim_ship_key_ok tid key s w s' :
  claim_ship_key tid key s = (Ok w, s') ->
  (w = None /\ s' = with_working (over_transfers (set_row tid (with_ship_key key)) (working s)) s) \/
  (exists i t, w = Some i /\ s' = with_working (committed s) s /\
     row_of (transfers (committed s)) i = Some t /\ shipped_under key t = true).
Proof.
  unfold claim_ship_key. intros H. apply except_integrity_ok in H as [H|(c & s1 & Hr & H)].
  - apply bind_ok in H as ([] & s1 & H1 & H). apply ret_ok in H as [<- <-].
    apply update_ok in H1 as (_ & _ & _ & _ & ->). by left.
  - assert (s1 = s) as ->.
    { apply bind_raise_cases in Hr as [Hr|(u & s2 & _ & Hr)]; [|done].
      destruct (update_cases tid (with_ship_key key) s) as [[e E]|E]; rewrite E in Hr; by injection Hr. }
    apply bind_ok in H as ([] & s2 & H1 & H). injection H1 as <-.
    apply bind_ok in H as (o & s3 & H2 & H). apply find_by_ok in H2 as [-> H2].
    destruct o as [[i t]|]; [|done]. apply ret_ok in H as [<- <-]. right. exists i, t.
    split; [done|]. split; [done|]. apply (elem_select (fun _ r => shipped_under key r)).
    simpl in H2. rewrite H2. by left.
Qed.

Lemma get_transfer_ok i s t s' :
  get_transfer i s = (Ok t, s') -> s' = s /\ row_of (transfers (working s)) i = Some t.
Proof.
  unfold get_transfer. intros H. apply bind_ok in H as (o & s1 & H1 & H).
  apply get_ok in H1 as [-> <-]. by apply of_option_ok in H as [H <-].
Qed.

(** A shipment request: the transfer already shipped under the key, or the
    shipment of a draft. *)
Lemma ship_transfer_ok tid inputs key caller by_ s i s' :
  ship_transfer tid inputs key caller by_ s = (Ok i, s') ->
  (s' = s /\ exists t, row_of (transfers (working s)) i = Some t /\ shipped_under key t = true) \/
  (s' = with_working (committed s) s /\
   exists t, row_of (transfers (committed s)) i = Some t /\ shipped_under key t = true) \/
  (committed s' = committed s /\ i = tid /\ inputs <> [] /\
   (forall r, r ∈ transfers (working s) -> shipped_under key r = false) /\
   exists t, row_of (transfers (working s)) tid = Some t /\ store_denied caller (from_store_id t) = false /\
     checked_shipment (working s) tid t inputs /\
     (forall i, i ∈ inputs -> 0 <= cost_at (working s) (line_source (working s) (sh_line_id i))) /\
     shipped tid t key inputs by_ (utc_now (env s)) (working s) (working s')).
Proof.
  unfold ship_transfer. intros H.
  apply bind_ok in H as (ex & s1 & H1 & H). apply find_by_ok in H1 as [-> Hex]. simpl in Hex.
  destruct ex as [[j t]|].
  { apply ret_ok in H as [<- <-]. left. split; [done|]. exists t.
    apply (elem_select (fun _ r => shipped_under key r)). rewrite Hex. by left. }
  assert (Hnone : forall r, r ∈ transfers (working s) -> shipped_under key r = false).
  { intros r [j Hj]%elem_row_of. exact (proj1 (select_nil _ _) Hex j r Hj). }
  apply bind_ok in H as (? & s1 & H1 & H). apply raise_if_ok in H1 as [Hne <-].
  apply bind_ok in H as (? & s1 & H1 & H).
  apply (for_each_all _ (fun l _ => 0 < quantity_to_ship l)) in H1 as [-> Hpos].
  2:{ intros l sa sb H2. apply raise_if_ok in H2 as [Hg <-]. split; [done|]. by bools. }
  apply bind_ok in H as (t & s1 & H1 & H). apply get_transfer_ok in H1 as [-> Ht].
  apply bind_ok in H as (? & s1 & H1 & H). apply enforce_store_access_ok in H1 as [Hst <-].
  destruct (shipped_under key t) eqn:Ek.
  { apply row_of_elem in Ht. rewrite (Hnone t Ht) in Ek. done. }
  apply bind_ok in H as (? & s1 & H1 & H). apply (check_shipment_ok _ _ _ _ _ _ Hpos) in H1 as [-> Hck].
  apply bind_ok in H as (w & s1 & H1 & H).
  apply claim_ship_key_ok in H1 as [[-> E1]|(j & row & -> & -> & Hx & Hkx)].
  - apply bind_ok in H as ([] & s2 & H2 & H). apply ret_ok in H as [<- <-].
    eapply write_shipment_ok in H2 as (Hc & He & Hcost); [|done..].
    right. right. split; [done|]. split; [done|]. split; [by intros ->|]. split; [done|]. by exists t.
  - apply ret_ok in H as [<- <-]. right. left. split; [done|]. by exists row.
Qed.

Lemma ship_transfer_fixes_committed tid inputs key caller by_ :
  fixes committed (ship_transfer tid inputs key caller by_).
Proof. transit_parts. walk_fixes ltac:(solve [solve_fixes]). Qed.

Lemma ship_transfer_keeps tid inputs key caller by_ : keeps transit_wf (ship_transfer tid inputs key caller by_).
Proof.
  apply keeps_of_cases; [apply ship_transfer_fixes_committed|].
  intros s i s' _ Hd H.
  apply ship_transfer_ok in H as [[-> _]|[[-> _]|(_ & _ & _ & _ & t & Ht & _ & Hck & Hcost & He)]];
    [by left|by right; left|].
  right. right. by eapply shipped_wf.
Qed.

(** ** Drafts and cancellation *)

Lemma add_transfer_keeps t : keeps transit_wf (add (t : InterStoreTransfer)).
Proof.
  apply keeps_of_ok; [solve_fixes|]. intros s i s' _ Hd (_ & Hv & _ & ->)%add_ok.
  by apply add_transfer_wf.
Qed.

Lemma add_line_wf d tid r :
  row_valid d (new_transfer_line tid r) -> transit_wf d ->
  transit_wf (over_transfer_lines (fun t => t ++ [new_transfer_line tid r]) d).
Proof.
  intros Hv [Hf [G1 G2 G3] [L1 L2 L3 L4 L5 L6]].
  assert (Hfresh : forall i, i ∈ transfer_receipt_items d -> tri_line_id i <> next_id (transfer_lines d)).
  { intros i Hi. destruct (fw_items _ Hf i Hi) as [(l & x & Hl%row_of_range & _) _ _]. lia. }
  assert (Hz : forall f, items_total f d (next_id (transfer_lines d)) = 0).
  { intros f. apply sum_where_none. intros i Hi. apply Z.eqb_neq. by apply Hfresh. }
  unfold row_valid in Hv. simpl in Hv. rewrite !Forall_cons in Hv.
  destruct Hv as (Ht & _ & _ & Hreq & _). simpl in Ht, Hreq. apply exists_row_true in Ht as [t Ht]. bools.
  constructor; constructor; try done.
  - apply (fw_stores _ Hf).
  - intros k l [Hk|[-> ->]]%row_of_inv_app.
    + destruct (fw_lines _ Hf k l Hk). by constructor.
    + constructor; simpl; try done; try lia.
      * exists t. by split.
      * unfold counted, line_counted. simpl. apply (f_equal3 mkCounts); symmetry; apply Hz.
  - intros i Hi. destruct (fw_items _ Hf i Hi) as [(l & x & Hl & Hx) ? ?]. constructor; [|done..].
    exists l, x. split; [by apply row_of_app_old|done].
  - intros x Hx. destruct (G1 x Hx) as (Hs & i & l & t0 & c & Hi & Hl & Hrest). split; [done|].
    exists i, l, t0, c. split; [done|]. split; [by apply row_of_app_old|done].
  - intros w Hw. by destruct (L1 w Hw); constructor.
  - intros k l [Hk|[-> ->]]%row_of_inv_app; [by apply L6|]. simpl. symmetry. apply sum_where_none.
    intros w Hw. destruct (L1 w Hw) as [(x & i & _ & Hi%row_of_elem & E & _) _ _ _ _].
    unfold posted_on. specialize (Hfresh i Hi). by rewrite (proj2 (Z.eqb_neq _ _)) by congruence.
Qed.

Lemma add_line_keeps tid r : keeps transit_wf (add (new_transfer_line tid r)).
Proof.
  apply keeps_of_ok; [solve_fixes|]. intros s i s' _ Hd (_ & Hv & _ & ->)%add_ok.
  by apply add_line_wf.
Qed.

Ltac draft_parts :=
  unfold create_transfer, _create_transfer_inner, check_transfer, active_store, source_exists,
    source_in_store, resolve_transfer_lines, resolve_destination, _generate_transfer_number.

Lemma create_transfer_keeps a lines caller : keeps transit_wf (create_transfer a lines caller).
Proof.
  draft_parts. walk_keeps ltac:(first [apply add_transfer_keeps|apply add_line_keeps
    |apply keeps_transit_frame; solve [unfold transit_reads; solve_fixes]]).
Qed.

Lemma cancel_transfer_keeps tid actor caller : keeps transit_wf (cancel_transfer tid actor caller).
Proof.
  unfold cancel_transfer. intros s. apply keeps_at_bind; [unfold get_transfer; solve_keeps|].
  intros t s1 [-> Ht]%get_transfer_ok. apply keeps_at_bind; [solve_keeps|].
  intros ? s2 [_ <-]%raise_if_ok. destruct (tr_status t) eqn:Est; try (apply keeps_at_all; solve [solve_keeps]).
  apply keeps_at_bind; [solve_keeps|]. intros now s2 [_ <-]%asks_ok.
  apply keeps_at_bind_at; [|intros; apply keeps_at_all; solve_keeps].
  intros H1 H2. refine (keeps_at_of_ok transit_wf _ _ _ _ H1 H2); [solve_fixes|].
  intros u s' (_ & _ & _ & _ & ->)%update_ok. simpl. apply set_transfer_wf; [|done].
  intros x Hx. rewrite Ht in Hx. injection Hx as <-. split; [done|]. split; [done|]. by rewrite Est.
Qed.

(** ** Investigations *)

(** Discrepancies may change their status, never their facts. *)
Lemma discrepancies_change d j f :
  (forall r, row_of (discrepancies d) j = Some r -> facts (f r) = facts r) ->
  transit_wf d -> transit_wf (over_discrepancies (set_row j f) d).
Proof.
  intros Hf [Hflow [G1 G2 G3] [L1 L2 L3 L4 L5 L6]].
  assert (Hrow : forall k r, row_of (discrepancies d) k = Some r -> exists r',
    row_of (set_row j f (discrepancies d)) k = Some r' /\ facts r' = facts r).
  { intros k r Hk. rewrite row_of_set, Hk. case_bool_decide; [subst|by exists r].
    exists (f r). split; [done|by apply Hf]. }
  assert (Hback : forall k r', row_of (set_row j f (discrepancies d)) k = Some r' -> exists r,
    row_of (discrepancies d) k = Some r /\ facts r' = facts r).
  { intros k r'. rewrite row_of_set. case_bool_decide; [subst|intros Hsome; by exists r'].
    intros (r & Hr & ->)%fmap_Some. exists r. split; [done|by apply Hf]. }
  constructor; [|constructor|constructor]; try done.
  - by apply (flow_wf_ext d).
  - intros r' (k & Hk)%elem_row_of. destruct (Hback k r' Hk) as (r & Hr & Ef).
    unfold facts in Ef. injection Ef as E1 E2 E3 E4 E5 E6 E7 E8 E9 E10 _ _.
    destruct (G1 r (row_of_elem _ _ _ Hr)) as (Hs & Hx). split; [by rewrite E1|].
    by rewrite E2, E3, E4, E5, E6, E8, E9, E10.
  - simpl. rewrite (rows_map_eq rd_source_id (discrepancies d)); [done|]. intros k.
    rewrite row_of_set. case_bool_decide; [subst|done]. destruct (row_of (discrepancies d) k) as [r|] eqn:E; [|done].
    simpl. apply (f_equal Some). specialize (Hf r eq_refl). by injection Hf.
  - intros k i Hk Hdis. destruct (G3 k i Hk Hdis) as (r & (m & Hm)%elem_row_of & E).
    destruct (Hrow m r Hm) as (r' & Hr' & Ef). exists r'. split; [by eapply row_of_elem|].
    injection Ef. congruence.
  - intros w Hw. destruct (L1 w Hw) as [(r & i & Hr & Hi & E1 & E2 & E3) ? ? ? ?]. constructor; try done.
    destruct (Hrow _ _ Hr) as (r' & Hr' & Ef). exists r', i. split; [done|].
    unfold facts in Ef. injection Ef as _ F2 _ _ _ F6 _ _ _ F10 _ _. by rewrite F2, F6, F10.
  - intros k r' Hk. destruct (Hback k r' Hk) as (r & Hr & Ef). specialize (L2 k r Hr).
    unfold facts in Ef. injection Ef as _ _ _ _ _ _ _ F8 F9 _ _ _. by rewrite F8, F9.
Qed.

Lemma investigate_keeps i caller actor : keeps transit_wf (investigate_discrepancy i caller actor).
Proof.
  apply keeps_of_ok; [unfold investigate_discrepancy, get_discrepancy; solve_fixes|].
  intros s j s' _ Hd (-> & r & r' & (Hr & Hs & f & log & -> & ->) & _)%investigate_discrepancy_ok.
  apply discrepancy_step_facts in Hs. simpl. apply (transit_wf_ext (over_discrepancies (set_row i f) (working s))); [done|].
  apply discrepancies_change; [|done]. intros x Hx. rewrite Hr in Hx. by injection Hx as <-.
Qed.

Lemma resolve_keeps i res notes caller actor : keeps transit_wf (resolve_discrepancy i res notes caller actor).
Proof.
  apply keeps_of_ok; [unfold resolve_discrepancy, get_discrepancy; solve_fixes|].
  intros s j s' _ Hd (-> & r & r' & (Hr & Hs & f & log & -> & ->) & _)%resolve_discrepancy_ok.
  apply discrepancy_step_facts in Hs. simpl. apply (transit_wf_ext (over_discrepancies (set_row i f) (working s))); [done|].
  apply discrepancies_change; [|done]. intros x Hx. rewrite Hr in Hx. by injection Hx as <-.
Qed.

Theorem run_transfer_op_keeps op : keeps transit_wf (run_transfer_op op).
Proof.
  destruct op; simpl; [apply create_transfer_keeps|apply ship_transfer_keeps|apply receive_transfer_keeps
    |apply cancel_transfer_keeps|apply investigate_keeps|apply resolve_keeps].
Qed.
