(* ===== verification/WriteOffOps.v ===== *)
(** * The write-off operations keep the invariant

    The effect of a request, a decision and a reversal, and that they preserve
    [transit_wf]: what a transfer line carries as written off stays the sum of
    the posted write-offs on it, within its discrepancies. *)

From S2P Require Import Prelude Fixed Session Schema Tables Platform Chart Fixture Journal.
From S2P Require Import Posting Books Inventory Discrepancies Transfers WriteOffs TransitInvariant.
From S2P Require Import TransitOps.

(** ** What a transfer line has written off *)

Lemma written_off_lines d j q :
  transit_wf d ->
  flow_wf (over_transfer_lines (set_row j (with_written_off q)) d) /\
  found_wf (over_transfer_lines (set_row j (with_written_off q)) d).
Proof.
  intros [[F1 F2 F3] [G1 G2 G3] _].
  assert (Hrow : forall k l, row_of (transfer_lines d) k = Some l -> exists l',
    row_of (set_row j (with_written_off q) (transfer_lines d)) k = Some l' /\
    (l' = l \/ l' = with_written_off q l)).
  { intros k l Hk. rewrite row_of_set, Hk. case_bool_decide; eexists; eauto. }
  split; constructor; try done.
  - intros k l'. simpl. rewrite row_of_set. case_bool_decide as E.
    + subst k. intros (l & Hl & ->)%fmap_Some. destruct (F2 j l Hl). by constructor.
    + intros Hl. destruct (F2 k l' Hl). by constructor.
  - intros i Hi. destruct (F3 i Hi) as [(l & r & Hl & Hc & Hx) ? ?]. constructor; [|done..].
    destruct (Hrow _ _ Hl) as (l' & Hl' & Hor). exists l', r. split; [done|].
    by destruct Hor as [->| ->].
  - intros r Hr. destruct (G1 r Hr) as (Hs & i & l & t & c & Hi & Hl & Hx). split; [done|].
    destruct (Hrow _ _ Hl) as (l' & Hl' & Hor). exists i, l', t, c. split; [done|]. split; [done|].
    by destruct Hor as [->| ->].
Qed.

(** ** A change of status *)

Definition posted_part (st : WriteOffStatus) (q : Z) : Z := if bool_decide (st = WO_POSTED) then q else 0.

Lemma sum_where_set_row {R} (p : R -> bool) (f : R -> Z) (t : list R) k g r :
  row_of t k = Some r ->
  sum_where p f (set_row k g t)
  = sum_where p f t + ((if p (g r) then f (g r) else 0) - (if p r then f r else 0)).
Proof. unfold sum_where. apply (sum_by_set_row (fun x => if p x then f x else 0)). Qed.

Lemma not_pending j x : decision_of (wo_status x) <> None -> against j WO_PENDING_APPROVAL x = false.
Proof. intros H. unfold against. destruct (wo_status x); try done; by rewrite andb_false_r. Qed.

Section Change.
Context (d : database) (k : Z) (w : TransferWriteOff) (st : WriteOffStatus) (e r : option Z).
Context (vs : list WriteOffApproval).
Context (Hd : transit_wf d) (Hw : row_of (write_offs d) k = Some w).

Let q : qty := posted_part st (wo_quantity w) - posted_part (wo_status w) (wo_quantity w).

(** The write-off with its new status, the decision appended, the line's
    written-off quantity moved by what that posts or takes back. *)
Definition changed : database :=
  over_write_off_approvals (fun t => t ++ vs)
    (over_transfer_lines (set_row (transfer_line_id w) (with_written_off q))
      (over_write_offs (set_row k (with_wo_status st e r)) d)).

Lemma changed_sums :
  (forall j, posted_quantity changed j
     = posted_quantity d j + (if transfer_line_id w =? j then q else 0)) /\
  (forall j, written_off_against changed j
     = written_off_against d j + (if wo_discrepancy_id w =? j then q else 0)).
Proof.
  unfold posted_quantity, written_off_against. simpl.
  split; intros j; rewrite (sum_where_set_row _ _ _ _ _ _ Hw); unfold posted_on, against; simpl;
    destruct (_ =? j); simpl; unfold q, posted_part; lia.
Qed.

Context (Hst : decision_of st <> None) (Hrev : is_Some r <-> st = WO_REVERSED).
Context (Hbound : st = WO_POSTED -> forall x, row_of (discrepancies d) (wo_discrepancy_id w) = Some x ->
  written_off_against d (wo_discrepancy_id w) + q <= quantity_short x + quantity_damaged x).
Context (Hdec : (decision_of (wo_status w) = None /\ exists v, vs = [v] /\ decides k v = true /\
                  Some (decision v) = decision_of st /\ woa_initiated_by v = wo_initiated_by w /\
                  woa_approved_by v <> wo_initiated_by w) \/
                (vs = [] /\ decision_of (wo_status w) = decision_of st)).

Lemma changed_rows k' x' :
  row_of (write_offs changed) k' = Some x' ->
  (k' = k /\ x' = with_wo_status st e r w) \/ (k' <> k /\ row_of (write_offs d) k' = Some x').
Proof.
  simpl. rewrite row_of_set. case_bool_decide as E; [|by right].
  subst. rewrite Hw. intros [= <-]. by left.
Qed.

(** The decisions of another write-off are not touched. *)
Lemma changed_decisions k' :
  k' <> k -> List.filter (decides k') (write_off_approvals changed)
             = List.filter (decides k') (write_off_approvals d).
Proof.
  intros Hne. simpl. rewrite List.filter_app.
  destruct Hdec as [(_ & v & -> & Hv & _)|[-> _]]; [|by rewrite app_nil_r].
  unfold decides in *. simpl. bools. rewrite (proj2 (Z.eqb_neq _ _)) by congruence. by rewrite app_nil_r.
Qed.

Lemma changed_decided :
  match decision_of st with
  | Some dec => exists v, List.filter (decides k) (write_off_approvals changed) = [v] /\
      decision v = dec /\ woa_initiated_by v = wo_initiated_by w /\ woa_approved_by v <> wo_initiated_by w
  | None => List.filter (decides k) (write_off_approvals changed) = []
  end.
Proof.
  pose proof (lo_decided _ (tw_loss _ Hd) k w Hw) as Hold. simpl. rewrite List.filter_app.
  destruct Hdec as [(Hn & v & -> & Hv & Ed & E1 & E2)|[-> E]].
  - rewrite Hn in Hold. rewrite Hold. simpl. rewrite Hv, <- Ed. by exists v.
  - rewrite E in Hold. simpl. by rewrite app_nil_r.
Qed.

Lemma changed_loss : loss_wf changed.
Proof.
  pose proof (tw_loss _ Hd) as [L1 L2 L3 L4 L5 L6]. destruct changed_sums as [Sq Sa]. constructor.
  - intros x' (k' & Hx)%elem_row_of.
    apply changed_rows in Hx as [[-> ->]|[_ Hx%row_of_elem]]; [|by destruct (L1 x' Hx); constructor].
    destruct (L1 w (row_of_elem _ _ _ Hw)) as [H1 H2 H3 H4 H5]. constructor; try done.
    intros E. simpl in E. by rewrite E in Hst.
  - intros j x Hx. rewrite Sa. specialize (L2 j x Hx). destruct (Z.eqb_spec (wo_discrepancy_id w) j) as [<-|]; [|lia].
    destruct (decide (st = WO_POSTED)) as [E|E]; [by apply Hbound|].
    assert (q <= 0); [|lia]. unfold q, posted_part. rewrite bool_decide_eq_false_2 by done.
    pose proof (wf_quantity _ _ (L1 w (row_of_elem _ _ _ Hw))). destruct (bool_decide _); lia.
  - intros k1 k2 x1 x2 H1 H2 P1 P2.
    apply changed_rows in H1 as [[-> ->]|[_ H1]]; [by rewrite not_pending in P1|].
    apply changed_rows in H2 as [[-> ->]|[_ H2]]; [by rewrite not_pending in P2|by eapply L3].
  - intros k' x' Hx. apply changed_rows in Hx as [[-> ->]|[Hne Hx]]; [exact changed_decided|].
    rewrite (changed_decisions _ Hne). by apply L4.
  - intros v [Hv|Hv]%elem_of_app.
    + destruct (L5 v Hv) as [x Hx]. simpl. rewrite row_of_set, Hx. by case_bool_decide; eexists.
    + destruct Hdec as [(_ & v' & -> & Hv' & _)|[-> _]]; [|by apply elem_of_nil in Hv].
      apply list_elem_of_singleton in Hv as ->. unfold decides in Hv'. bools.
      simpl. rewrite row_of_set, bool_decide_eq_true_2, Hv', Hw by done. by eexists.
  - intros j l'. rewrite Sq. simpl. rewrite row_of_set. case_bool_decide as E.
    + subst j. rewrite Z.eqb_refl. intros (l & Hl & ->)%fmap_Some. simpl. by rewrite (L6 _ l Hl).
    + rewrite (proj2 (Z.eqb_neq _ _) E), Z.add_0_r. apply L6.
Qed.

Lemma changed_wf : transit_wf changed.
Proof.
  destruct (written_off_lines d (transfer_line_id w) q Hd) as [Hf Hg].
  constructor; [by eapply flow_wf_ext; [|exact Hf]|by eapply found_wf_ext; [|exact Hg]|exact changed_loss].
Qed.
End Change.

(** ** Decisions *)

(** The actor is not the initiator, and holds the administrator's role or the
    one the request was frozen with. *)
Definition may_decide (d : database) (w : TransferWriteOff) (actor : Z) : Prop :=
  actor <> wo_initiated_by w /\
  (role_names_of d actor = [ADMIN] \/
   exists r, row_of (roles d) (wo_required_role_id w) = Some r /\ role_names_of d actor = [role_name r]).

Lemma get_user_role_name_ok u s o s' :
  get_user_role_name u s = (Ok o, s') ->
  s' = s /\ role_names_of (working s) u = match o with Some n => [n] | None => [] end.
Proof.
  unfold get_user_role_name. intros H. apply bind_ok in H as (l & s1 & H1 & H). apply gets_ok in H1 as [-> <-].
  apply scalar_one_or_none_ok in H as [<- H]. by destruct o.
Qed.

Lemma check_approval_authority_ok w actor s u s' :
  check_approval_authority w actor s = (Ok u, s') -> s' = s /\ may_decide (working s) w actor.
Proof.
  unfold check_approval_authority. intros H.
  apply bind_ok in H as (? & s1 & H1 & H). apply raise_if_ok in H1 as [Hne <-].
  apply bind_ok in H as (held & s1 & H1 & H). apply get_user_role_name_ok in H1 as [-> Hh].
  apply Z.eqb_neq in Hne. unfold may_decide. case_bool_decide as E.
  - subst held. apply ret_ok in H as [_ <-]. auto.
  - apply bind_ok in H as (o & s1 & H1 & H). apply get_ok in H1 as [-> <-].
    apply raise_if_ok in H as [Hg <-]. split; [done|]. split; [done|right].
    destruct held as [h|]; [|done]. destruct (row_of _ _) as [r|] eqn:Er; [|done].
    apply negb_false_iff, bool_decide_eq_true in Hg. exists r. split; [done|]. by rewrite Hh, Hg.
Qed.

Lemma get_write_off_ok i s w s' :
  get_write_off i s = (Ok w, s') -> s' = s /\ row_of (write_offs (working s)) i = Some w.
Proof.
  unfold get_write_off. intros H. apply bind_ok in H as (o & s1 & H1 & H).
  apply get_ok in H1 as [-> <-]. by apply of_option_ok in H as [H <-].
Qed.

Lemma open_decision_ok k notes by_ s actor o s' :
  open_decision k notes by_ s = (Ok (actor, o), s') ->
  s' = s /\ by_ = Some actor /\ blank notes = false /\
  exists w, row_of (write_offs (working s)) k = Some w /\
    match o with
    | None => exists v, v ∈ write_off_approvals (working s) /\ decides k v = true
    | Some w' => w' = w /\ wo_status w = WO_PENDING_APPROVAL /\ may_decide (working s) w actor /\
        forall v, v ∈ write_off_approvals (working s) -> decides k v = false
    end.
Proof.
  unfold open_decision. intros H.
  apply bind_ok in H as (? & s1 & H1 & H). apply raise_if_ok in H1 as [Hn <-].
  apply bind_ok in H as (act & s1 & H1 & H). apply of_option_ok in H1 as [-> <-].
  apply bind_ok in H as (dec & s1 & H1 & H). apply find_by_ok in H1 as [-> Hdec]. simpl in Hdec.
  apply bind_ok in H as (w & s1 & H1 & H). apply get_write_off_ok in H1 as [-> Hw].
  destruct dec as [[j v]|]; simpl in H.
  - apply ret_ok in H as [[= <- <-] <-]. split_and!; try done. exists w. split; [done|]. exists v.
    assert ((j, v) ∈ select (fun _ r => decides k r) (write_off_approvals (working s)))
      as [Hv%row_of_elem Hd]%elem_select by (rewrite Hdec; by left). done.
  - apply bind_ok in H as (? & s1 & H1 & H). apply raise_if_ok in H1 as [Hst <-].
    apply negb_false_iff, bool_decide_eq_true in Hst.
    apply bind_ok in H as (? & s1 & H1 & H). apply check_approval_authority_ok in H1 as [-> Ha].
    apply ret_ok in H as [[= <- <-] <-]. split_and!; try done. exists w. split; [done|].
    split_and!; try done. intros v [j Hj]%elem_row_of. exact (proj1 (select_nil _ _) Hdec j v Hj).
Qed.

Lemma remaining_discrepancy_ok j r s v s' :
  remaining_discrepancy j r s = (Ok v, s') ->
  s' = s /\ v = quantity_short r + quantity_damaged r - written_off_against (working s) j.
Proof.
  unfold remaining_discrepancy. intros H. apply bind_ok in H as (a & s1 & H1 & H).
  apply gets_ok in H1 as [-> <-]. by apply ret_ok in H as [<- <-].
Qed.

(** The loss: from the goods in transit to the shrinkage expense. *)
Definition loss_lines (amount : ledger) : list LineSpec :=
  pair_lines ACCOUNT_INVENTORY_SHRINKAGE_EXPENSE ACCOUNT_INVENTORY_IN_TRANSIT amount.

Definition found_again_lines (amount : ledger) : list LineSpec :=
  pair_lines ACCOUNT_INVENTORY_IN_TRANSIT ACCOUNT_INVENTORY_SHRINKAGE_EXPENSE amount.

(** A decision on the transit tables: [changed] with its arguments. *)
Record decided (k : Z) (w : TransferWriteOff) (st : WriteOffStatus) (e r : option Z)
    (vs : list WriteOffApproval) (d d' : database) : Prop := {
  dc_reads : transit_reads d' = transit_reads (changed d k w st e r vs);
  dc_stock : (directory_tables d', catalog_tables d', stock_tables d')
             = (directory_tables d, catalog_tables d, stock_tables d);
}.

Lemma post_write_off_ok k w actor notes dt s u s' :
  row_of (write_offs (working s)) k = Some w -> wo_status w = WO_PENDING_APPROVAL ->
  post_write_off k w actor notes dt s = (Ok u, s') ->
  committed s' = committed s /\
  (exists r, row_of (discrepancies (working s)) (wo_discrepancy_id w) = Some r /\
     written_off_against (working s) (wo_discrepancy_id w) + wo_quantity w
     <= quantity_short r + quantity_damaged r) /\
  exists e now, decided k w WO_POSTED (Some e) (wo_reversal_journal_entry_id w)
    [approval_row k w actor DECISION_APPROVED now notes] (working s) (working s') /\
  forall code, account_balance (working s') code
  = account_balance (working s) code + spec_net (loss_lines (wo_amount w)) code.
Proof.
  intros Hw Hst. unfold post_write_off. intros H.
  apply bind_ok in H as (r & s1 & H1 & H). apply get_discrepancy_ok in H1 as [Hr ->].
  apply bind_ok in H as (v & s1 & H1 & H). apply remaining_discrepancy_ok in H1 as [-> ->].
  apply bind_ok in H as (? & s1 & H1 & H). apply raise_if_ok in H1 as [Hg <-].
  apply bind_ok in H as (l & s1 & H1 & H). apply get_ok in H1 as [-> <-].
  apply bind_ok in H as (? & s1 & H1 & H). apply raise_if_ok in H1 as [_ <-].
  apply bind_ok in H as (now & s1 & H1 & H). apply asks_ok in H1 as [-> <-].
  apply bind_ok in H as (entry & s1 & H1 & H).
  change (post_transfer_write_off_journal ?i ?st ?dt ?v ?b) with (post (P_write_off i st dt v) b) in H1.
  apply posting_ok in H1 as (C1 & O1 & B1). injection O1 as O1a O1b O1c O1d.
  apply bind_ok in H as (e & s2 & H2 & H). apply of_option_ok in H2 as [-> <-].
  apply bind_ok in H as ([] & s2 & H2 & H). apply or_conflict_ok in H2.
  apply bind_ok in H2 as ([] & s3 & H3 & H2). apply update_ok in H3 as (_ & _ & _ & _ & ->).
  apply bind_ok in H2 as ([] & s3 & H3 & H2). apply update_ok in H3 as (_ & _ & _ & _ & ->).
  apply bind_ok in H2 as (i & s3 & H3 & H2). apply add_ok in H3 as (_ & _ & _ & ->).
  apply ret_ok in H2 as [_ <-]. apply log_event_ok in H as ->. simpl in *.
  split; [done|]. split; [exists r; split; [done|bools; lia]|].
  exists e, (utc_now (env s)). split.
  - constructor; simpl; [|by rewrite O1a, O1b, O1c].
    unfold transit_reads, changed. simpl. rewrite O1a, O1d.
    assert (posted_part WO_POSTED (wo_quantity w) - posted_part (wo_status w) (wo_quantity w) = wo_quantity w)
      as -> by (unfold posted_part; rewrite Hst; simpl; lia).
    rewrite (set_row_ext _ k (mark_posted e) (with_wo_status WO_POSTED (Some e) (wo_reversal_journal_entry_id w)));
      [done|]. intros x'. rewrite Hw. by intros [= <-].
  - intros code. rewrite (account_balance_ext (working s1)) by done. by rewrite B1.
Qed.

Lemma decided_wf k w st e r vs d d' :
  transit_wf d -> row_of (write_offs d) k = Some w -> decision_of st <> None ->
  (is_Some r <-> st = WO_REVERSED) ->
  (st = WO_POSTED -> wo_status w = WO_PENDING_APPROVAL /\
     exists x, row_of (discrepancies d) (wo_discrepancy_id w) = Some x /\
       written_off_against d (wo_discrepancy_id w) + wo_quantity w <= quantity_short x + quantity_damaged x) ->
  (decision_of (wo_status w) = None /\ (exists v, vs = [v] /\ decides k v = true /\
     Some (decision v) = decision_of st /\ woa_initiated_by v = wo_initiated_by w /\
     woa_approved_by v <> wo_initiated_by w) \/ vs = [] /\ decision_of (wo_status w) = decision_of st) ->
  decided k w st e r vs d d' -> transit_wf d'.
Proof.
  intros Hd Hw Hst Hrev Hb Hdec Hx. apply (transit_wf_ext _ _ (dc_reads _ _ _ _ _ _ _ _ Hx)).
  apply changed_wf; try done. intros E x Hrow. destruct (Hb E) as (Ep & x0 & Hx0 & Hle).
  rewrite Hrow in Hx0. injection Hx0 as <-. unfold posted_part. rewrite E, Ep. simpl. lia.
Qed.

(** A decision request: the write-off it was already decided on, or the
    posting of the loss. *)
Lemma approve_write_off_ok k notes by_ dt s i s' :
  approve_write_off k notes by_ dt s = (Ok i, s') ->
  i = k /\ exists w, row_of (write_offs (working s)) k = Some w /\
    ((s' = s /\ exists v, v ∈ write_off_approvals (working s) /\ decides k v = true) \/
     exists actor e now, by_ = Some actor /\ blank notes = false /\ committed s' = committed s /\
       wo_status w = WO_PENDING_APPROVAL /\ may_decide (working s) w actor /\
       (forall v, v ∈ write_off_approvals (working s) -> decides k v = false) /\
       (exists r, row_of (discrepancies (working s)) (wo_discrepancy_id w) = Some r /\
          written_off_against (working s) (wo_discrepancy_id w) + wo_quantity w
          <= quantity_short r + quantity_damaged r) /\
       decided k w WO_POSTED (Some e) (wo_reversal_journal_entry_id w)
         [approval_row k w actor DECISION_APPROVED now notes] (working s) (working s') /\
       forall code, account_balance (working s') code
       = account_balance (working s) code + spec_net (loss_lines (wo_amount w)) code).
Proof.
  unfold approve_write_off. intros H.
  apply bind_ok in H as ([actor o] & s1 & H1 & H). apply open_decision_ok in H1 as (-> & -> & Hn & w & Hw & Ho).
  simpl in H. destruct o as [w'|].
  - destruct Ho as (-> & Hst & Ha & Hnone). apply bind_ok in H as ([] & s2 & H2 & H).
    apply ret_ok in H as [<- <-]. split; [done|]. exists w. split; [done|]. right.
    apply post_write_off_ok in H2 as (Hc & Hb & e & now & Hdec & Hbal); [|done..].
    exists actor, e, now. split_and!; done.
  - apply ret_ok in H as [<- <-]. split; [done|]. exists w. split; [done|]. by left.
Qed.

Ltac decision_parts :=
  unfold approve_write_off, deny_write_off, reverse_write_off, open_decision, post_write_off, unpost_write_off,
    check_approval_authority, get_user_role_name, get_write_off, remaining_discrepancy, or_conflict,
    reopen_discrepancy_after_write_off_denial, check_reopenable, reopen, get_discrepancy,
    post_transfer_write_off_journal, post_transfer_write_off_reversal_journal, _post_standard, posted.

Lemma approve_write_off_fixes_committed k notes by_ dt : fixes committed (approve_write_off k notes by_ dt).
Proof. decision_parts. walk_fixes ltac:(solve [solve_fixes]). Qed.

Lemma approve_write_off_keeps k notes by_ dt : keeps transit_wf (approve_write_off k notes by_ dt).
Proof.
  apply keeps_of_ok; [apply approve_write_off_fixes_committed|]. intros s i s' _ Hd H.
  apply approve_write_off_ok in H as (_ & w & Hw & [[-> _]|(actor & e & now & _ & _ & _ & Hst & Ha & _ & Hb & Hx & _)]);
    [done|].
  eapply (decided_wf k w WO_POSTED); [done|exact Hw|done| |by intros _; split| |exact Hx].
  - pose proof (wf_reversal _ _ (lo_rows _ (tw_loss _ Hd) w (row_of_elem _ _ _ Hw))) as Hr.
    rewrite Hst in Hr. split; [by intros E%Hr|done].
  - left. rewrite Hst. split; [done|]. eexists. split; [done|]. unfold decides. simpl.
    rewrite Z.eqb_refl. by destruct Ha.
Qed.

(** *** Denial *)

Lemma deny_write_off_ok k notes by_ s i s' :
  deny_write_off k notes by_ s = (Ok i, s') ->
  i = k /\ exists w, row_of (write_offs (working s)) k = Some w /\
    ((s' = s /\ exists v, v ∈ write_off_approvals (working s) /\ decides k v = true) \/
     exists actor now r f, by_ = Some actor /\ blank notes = false /\ committed s' = committed s /\
       wo_status w = WO_PENDING_APPROVAL /\ may_decide (working s) w actor /\
       row_of (discrepancies (working s)) (wo_discrepancy_id w) = Some r /\
       discrepancy_step DE_REOPENED r (f r) /\ rd_status (f r) = INVESTIGATING /\
       ledger_tables (working s') = ledger_tables (working s) /\
       (directory_tables (working s'), catalog_tables (working s'), stock_tables (working s'))
       = (directory_tables (working s), catalog_tables (working s), stock_tables (working s)) /\
       transit_reads (working s')
       = transit_reads (over_discrepancies (set_row (wo_discrepancy_id w) f)
           (changed (working s) k w WO_DENIED (wo_journal_entry_id w) (wo_reversal_journal_entry_id w)
              [approval_row k w actor DECISION_DENIED now notes]))).
Proof.
  unfold deny_write_off. intros H.
  apply bind_ok in H as ([actor o] & s1 & H1 & H). apply open_decision_ok in H1 as (-> & -> & Hn & w & Hw & Ho).
  simpl in H. destruct o as [w'|].
  2:{ apply ret_ok in H as [<- <-]. split; [done|]. exists w. split; [done|]. by left. }
  destruct Ho as (-> & Hst & Ha & Hnone).
  apply bind_ok in H as (now & s1 & H1 & H). apply asks_ok in H1 as [-> <-].
  apply bind_ok in H as ([] & s1 & H1 & H). unfold reopen_discrepancy_after_write_off_denial in H1.
  apply bind_ok in H1 as (? & s2 & H2 & H1). unfold check_reopenable in H2.
  apply bind_ok in H2 as (r & s3 & H3 & H2). apply get_discrepancy_ok in H3 as [Hr ->].
  apply raise_if_ok in H2 as [Hg <-]. apply negb_false_iff, bool_decide_eq_true in Hg.
  apply bind_ok in H1 as (? & s2 & H2 & H1).
  apply bind_ok in H2 as ([] & s3 & H3 & H2). apply update_ok in H3 as (_ & _ & _ & _ & ->).
  apply bind_ok in H2 as (j & s3 & H3 & H2). apply add_ok in H3 as (_ & _ & _ & ->).
  apply ret_ok in H2 as [_ <-]. unfold reopen in H1.
  apply bind_ok in H1 as ([] & s3 & H3 & H1). apply update_ok in H3 as (_ & _ & _ & _ & ->).
  apply log_event_ok in H1 as ->. apply bind_ok in H as (? & s4 & H4 & H). apply log_event_ok in H4 as ->.
  apply ret_ok in H as [<- <-]. simpl in *. split; [done|]. exists w. split; [done|]. right.
  exists actor, (utc_now (env s)), r, investigation_reopened. split_and!; try done; [by constructor|].
  unfold transit_reads, changed. simpl.
  rewrite (set_row_id _ _ (with_written_off _)).
  - rewrite (set_row_ext _ k mark_denied (with_wo_status WO_DENIED (wo_journal_entry_id w) (wo_reversal_journal_entry_id w)));
      [done|]. intros x'. rewrite Hw. by intros [= <-].
  - intros l _. unfold posted_part. rewrite Hst. simpl. destruct l. unfold with_written_off. simpl. by rewrite Z.add_0_r.
Qed.

Lemma deny_write_off_fixes_committed k notes by_ : fixes committed (deny_write_off k notes by_).
Proof. decision_parts. walk_fixes ltac:(solve [solve_fixes]). Qed.

Lemma deny_write_off_keeps k notes by_ : keeps transit_wf (deny_write_off k notes by_).
Proof.
  apply keeps_of_ok; [apply deny_write_off_fixes_committed|]. intros s i s' _ Hd H.
  apply deny_write_off_ok in H as (_ & w & Hw & [[-> _]|
    (actor & now & r & f & _ & _ & _ & Hst & Ha & Hr & Hs & _ & _ & _ & Hx)]); [done|].
  apply (transit_wf_ext _ _ Hx). apply discrepancies_change.
  - intros x Hrow. simpl in Hrow. rewrite Hr in Hrow. injection Hrow as <-. by eapply discrepancy_step_facts.
  - eapply (decided_wf k w WO_DENIED); [exact Hd|exact Hw|done| |done| |by constructor].
    + pose proof (wf_reversal _ _ (lo_rows _ (tw_loss _ Hd) w (row_of_elem _ _ _ Hw))) as Hv.
      rewrite Hst in Hv. split; [by intros E%Hv|done].
    + left. rewrite Hst. split; [done|]. eexists. split; [done|]. unfold decides. simpl.
      rewrite Z.eqb_refl. by destruct Ha.
Qed.

(** *** Reversal *)

Lemma reverse_write_off_ok k reason by_ s i s' :
  reverse_write_off k reason by_ s = (Ok i, s') ->
  i = k /\ exists actor w, by_ = Some actor /\ role_names_of (working s) actor = [ADMIN] /\
    row_of (write_offs (working s)) k = Some w /\
    ((s' = s /\ is_Some (wo_reversal_journal_entry_id w)) \/
     exists e, committed s' = committed s /\ wo_status w = WO_POSTED /\
       decided k w WO_REVERSED (wo_journal_entry_id w) (Some e) [] (working s) (working s') /\
       forall code, account_balance (working s') code
       = account_balance (working s) code + spec_net (found_again_lines (wo_amount w)) code).
Proof.
  unfold reverse_write_off. intros H.
  apply bind_ok in H as (? & s1 & H1 & H). apply raise_if_ok in H1 as [_ <-].
  apply bind_ok in H as (actor & s1 & H1 & H). apply of_option_ok in H1 as [-> <-].
  apply bind_ok in H as (held & s1 & H1 & H). apply get_user_role_name_ok in H1 as [-> Hh].
  apply bind_ok in H as (? & s1 & H1 & H). apply raise_if_ok in H1 as [Hg <-].
  apply negb_false_iff, bool_decide_eq_true in Hg. subst held.
  apply bind_ok in H as (w & s1 & H1 & H). apply get_write_off_ok in H1 as [-> Hw].
  destruct (wo_reversal_journal_entry_id w) as [e0|] eqn:Erev; simpl in H.
  { apply ret_ok in H as [<- <-]. split; [done|]. exists actor, w. split_and!; try done.
    left. rewrite Erev. split; [done|by eexists]. }
  apply bind_ok in H as (? & s1 & H1 & H). apply raise_if_ok in H1 as [Hst <-].
  apply negb_false_iff, bool_decide_eq_true in Hst.
  apply bind_ok in H as ([] & s1 & H1 & H). apply ret_ok in H as [<- <-].
  split; [done|]. exists actor, w. split_and!; try done. right. unfold unpost_write_off in H1.
  apply bind_ok in H1 as (l & s2 & H2 & H1). apply get_ok in H2 as [-> <-].
  apply bind_ok in H1 as (? & s2 & H2 & H1). apply raise_if_ok in H2 as [_ <-].
  apply bind_ok in H1 as (entry & s2 & H2 & H1).
  change (post_transfer_write_off_reversal_journal ?i ?st ?v ?b) with (post (P_write_off_reversal i st v) b) in H2.
  apply posting_ok in H2 as (C1 & O1 & B1). injection O1 as O1a O1b O1c O1d.
  apply bind_ok in H1 as (e & s3 & H3 & H1). apply of_option_ok in H3 as [-> <-].
  apply bind_ok in H1 as ([] & s3 & H3 & H1). apply or_conflict_ok in H3.
  apply bind_ok in H3 as ([] & s4 & H4 & H3). apply update_ok in H4 as (_ & _ & _ & _ & ->).
  apply update_ok in H3 as (_ & _ & _ & _ & ->). apply log_event_ok in H1 as ->. simpl in *.
  exists e. split; [done|]. split; [done|]. split.
  - constructor; simpl; [|by rewrite O1a, O1b, O1c].
    unfold transit_reads, changed. simpl. rewrite O1a, O1d, app_nil_r.
    assert (posted_part WO_REVERSED (wo_quantity w) - posted_part (wo_status w) (wo_quantity w) = - wo_quantity w)
      as -> by (unfold posted_part; rewrite Hst; simpl; lia).
    rewrite (set_row_ext _ k (mark_reversed e) (with_wo_status WO_REVERSED (wo_journal_entry_id w) (Some e)));
      [done|]. intros x'. rewrite Hw. by intros [= <-].
  - intros code. rewrite (account_balance_ext (working s2)) by done. by rewrite B1.
Qed.

Lemma reverse_write_off_fixes_committed k reason by_ : fixes committed (reverse_write_off k reason by_).
Proof. decision_parts. walk_fixes ltac:(solve [solve_fixes]). Qed.

Lemma reverse_write_off_keeps k reason by_ : keeps transit_wf (reverse_write_off k reason by_).
Proof.
  apply keeps_of_ok; [apply reverse_write_off_fixes_committed|]. intros s i s' _ Hd H.
  apply reverse_write_off_ok in H as (_ & actor & w & _ & _ & Hw & [[-> _]|(e & _ & Hst & Hx & _)]); [done|].
  eapply (decided_wf k w WO_REVERSED); [exact Hd|exact Hw|done| |done| |exact Hx].
  - by split; [|eexists].
  - right. by rewrite Hst.
Qed.

(** ** Requests *)

Definition write_off_requested (a : WriteOffArgs) (r : ReceivingDiscrepancy) (d d' : database)
    (w : TransferWriteOff) : Prop :=
  d' = over_audit_logs (fun t => t ++ [{| audit_user_id := Some (wo_initiated_by w);
         action := "WRITE_OFF_REQUESTED"; entity_type := "transfer_write_off";
         entity_id := Some (next_id (write_offs d)) |}]) (over_write_offs (fun t => t ++ [w]) d) /\
  row_of (discrepancies d) (wa_discrepancy_id a) = Some r /\
  rd_status r = RESOLVED /\ resolution_type r <> Some VENDOR_CAUSED /\
  counterparty_store_id r = Some (wo_store_id w) /\
  (forall x, x ∈ write_offs d -> against (wa_discrepancy_id a) WO_PENDING_APPROVAL x = false) /\
  written_off_against d (wa_discrepancy_id a) + wo_quantity w <= quantity_short r + quantity_damaged r /\
  (exists item, row_of (transfer_receipt_items d) (rd_source_id r) = Some item /\
     transfer_line_id w = tri_line_id item) /\
  wo_discrepancy_id w = wa_discrepancy_id a /\ wo_quantity w = wa_quantity a /\ 0 < wa_quantity a /\
  wo_unit_cost w = rd_unit_cost r /\ wo_amount w = ledger_quantize (wo_quantity w) (wo_unit_cost w) /\
  wo_status w = WO_PENDING_APPROVAL /\ wo_reversal_journal_entry_id w = None /\
  wa_initiated_by a = Some (wo_initiated_by w) /\ wo_client_transaction_id w = wa_key a.

Lemma resolve_required_role_fixes {X} (f : session database -> X) st amount :
  fixes f (_resolve_required_role st amount).
Proof. unfold _resolve_required_role. solve_fixes. Qed.

Lemma check_eligible_ok j r s st s' :
  check_eligible j r s = (Ok st, s') ->
  s' = s /\ rd_status r = RESOLVED /\ resolution_type r <> Some VENDOR_CAUSED /\
  counterparty_store_id r = Some st /\
  forall x, x ∈ write_offs (working s) -> against j WO_PENDING_APPROVAL x = false.
Proof.
  unfold check_eligible. intros H.
  apply bind_ok in H as (? & s1 & H1 & H). apply raise_if_ok in H1 as [_ <-].
  apply bind_ok in H as (? & s1 & H1 & H). apply raise_if_ok in H1 as [Hst <-].
  apply negb_false_iff, bool_decide_eq_true in Hst.
  apply bind_ok in H as (? & s1 & H1 & H). apply raise_if_ok in H1 as [Hv <-].
  apply bool_decide_eq_false in Hv.
  apply bind_ok in H as (c & s1 & H1 & H). apply of_option_ok in H1 as [Hc <-].
  apply bind_ok in H as (o & s1 & H1 & H). apply find_by_ok in H1 as [-> Hp].
  apply bind_ok in H as (? & s1 & H1 & H). apply raise_if_ok in H1 as [Ho <-].
  apply ret_ok in H as [<- <-]. destruct o as [?|]; [done|]. split_and!; try done.
  intros y [i Hi]%elem_row_of. exact (proj1 (select_nil _ _) Hp i y Hi).
Qed.

Lemma create_write_off_ok a caller s i s' :
  create_write_off a caller s = (Ok i, s') ->
  (s' = s /\ exists w, row_of (write_offs (working s)) i = Some w /\ write_off_under (wa_key a) w = true) \/
  (s' = with_working (committed s) s /\
   exists w, row_of (write_offs (committed s)) i = Some w /\ write_off_under (wa_key a) w = true) \/
  (committed s' = committed s /\ i = next_id (write_offs (working s)) /\
   exists r w, write_off_requested a r (working s) (working s') w).
Proof.
  unfold create_write_off. intros H.
  apply bind_ok in H as (ex & s1 & H1 & H). apply find_by_ok in H1 as [-> Hex]. simpl in Hex.
  destruct ex as [[j w]|].
  { apply ret_ok in H as [<- <-]. left. split; [done|]. exists w.
    apply (elem_select (fun _ r => write_off_under (wa_key a) r)). rewrite Hex. by left. }
  apply bind_ok in H as (? & s1 & H1 & H). apply raise_if_ok in H1 as [Hq <-].
  apply bind_ok in H as (? & s1 & H1 & H). apply raise_if_ok in H1 as [_ <-].
  apply bind_ok in H as (who & s1 & H1 & H). apply of_option_ok in H1 as [Hwho <-].
  apply bind_ok in H as (r & s1 & H1 & H). apply get_discrepancy_ok in H1 as [Hr ->].
  apply bind_ok in H as (? & s1 & H1 & H). apply raise_if_ok in H1 as [_ <-].
  unfold record_write_off in H.
  apply bind_ok in H as (st & s1 & H1 & H). apply check_eligible_ok in H1 as (-> & Hst & Hv & Hcp & Hpend).
  apply bind_ok in H as (rem & s1 & H1 & H). apply remaining_discrepancy_ok in H1 as [-> ->].
  apply bind_ok in H as (? & s1 & H1 & H). apply raise_if_ok in H1 as [Hb <-].
  apply bind_ok in H as (o & s1 & H1 & H). apply get_ok in H1 as [-> <-].
  apply bind_ok in H as (item & s1 & H1 & H). apply of_option_ok in H1 as [Hitem <-].
  apply bind_ok in H as (req & s1 & H1 & H).
  assert (s1 = s) as -> by exact (fixes_run (fun s => s) _ _ _ _ (resolve_required_role_fixes _ _ _) H1).
  apply bind_ok in H as (now & s1 & H2 & H). apply asks_ok in H2 as [-> <-].
  apply bind_ok in H as ([k new] & s1 & H2 & H).
  apply insert_or_winner_ok in H2 as [(-> & -> & _ & _ & ->)|(-> & -> & row & Hrow)].
  - simpl in H. apply bind_ok in H as (? & s2 & H2 & H). apply log_event_ok in H2 as ->.
    apply ret_ok in H as [<- <-]. right. right. split; [done|]. split; [done|].
    exists r, (write_off_row a r st who (tri_line_id item) req (utc_now (env s))).
    unfold write_off_requested. simpl in *. bools. split_and!; try done; try lia. by exists item.
  - apply ret_ok in H as [<- <-]. right. left. split; [done|]. exists row.
    apply (elem_select (fun _ r => write_off_under (wa_key a) r)). simpl in Hrow. rewrite Hrow. by left.
Qed.

Lemma write_off_requested_wf a r d d' w :
  transit_wf d -> write_off_requested a r d d' w -> transit_wf d'.
Proof.
  intros [Hf Hg [L1 L2 L3 L4 L5 L6]] (-> & Hr & _ & _ & Hcp & Hpend & Hb & (item & Hi & El) & Ej & Eq & Hq
    & Ec & Ea & Est & Erev & _ & _).
  apply (transit_wf_ext (over_write_offs (fun t => t ++ [w]) d)); [done|].
  assert (Hz : forall j, posted_quantity (over_write_offs (fun t => t ++ [w]) d) j = posted_quantity d j).
  { intros j. unfold posted_quantity. simpl. rewrite sum_where_app, sum_where_cons, sum_where_nil.
    unfold posted_on at 2. rewrite Est. simpl. rewrite andb_false_r. lia. }
  assert (Hz' : forall j, written_off_against (over_write_offs (fun t => t ++ [w]) d) j = written_off_against d j).
  { intros j. unfold written_off_against. simpl. rewrite sum_where_app, sum_where_cons, sum_where_nil.
    unfold against at 2. rewrite Est. simpl. rewrite andb_false_r. lia. }
  assert (Hnopend : forall x j, row_of (write_offs d) j = Some x ->
    against (wo_discrepancy_id w) WO_PENDING_APPROVAL x = false)
    by (intros x j Hx; rewrite Ej; by apply Hpend, (row_of_elem _ j)).
  constructor; [by apply (flow_wf_ext d)|by apply (found_wf_ext d)|]. constructor.
  - intros x [Hx| ->%list_elem_of_singleton]%elem_of_app; [by destruct (L1 x Hx); constructor|].
    constructor.
    + exists r, item. rewrite Ej. done.
    + by rewrite Eq.
    + done.
    + by rewrite Est.
    + rewrite Erev, Est. split; [by intros []|done].
  - intros j x. rewrite Hz'. apply L2.
  - intros k k' x x' [H1|[-> ->]]%row_of_inv_app [H2|[-> ->]]%row_of_inv_app P1 P2; [by eapply L3| | |done].
    + assert (wo_discrepancy_id x = wo_discrepancy_id w) as Ed
        by (unfold against in P2; apply andb_true_iff in P2 as [P2 _]; bools; done).
      rewrite Ed in P1. by rewrite (Hnopend x k H1) in P1.
    + by rewrite (Hnopend x' k' H2) in P2.
  - intros k x [Hk|[-> ->]]%row_of_inv_app; [by apply L4|]. rewrite Est. simpl.
    apply filter_none. intros v Hv. destruct (L5 v Hv) as [x Hx%row_of_range].
    unfold decides. apply Z.eqb_neq. lia.
  - intros v Hv. destruct (L5 v Hv) as [x Hx]. exists x. by apply row_of_app_old.
  - intros k l Hk. rewrite Hz. by apply L6.
Qed.

Lemma create_write_off_keeps a caller : keeps transit_wf (create_write_off a caller).
Proof.
  apply keeps_of_cases.
  - unfold create_write_off, record_write_off, check_eligible, insert_or_winner, get_discrepancy,
      remaining_discrepancy, _resolve_required_role. solve_fixes.
  - intros s i s' _ Hd H. apply create_write_off_ok in H as [[-> _]|[[-> _]|(_ & _ & r & w & Hw)]];
      [by left|by right; left|]. right. right. by eapply write_off_requested_wf.
Qed.

Theorem run_write_off_op_keeps op : keeps transit_wf (run_write_off_op op).
Proof.
  destruct op; simpl.
  - unfold create_approval_policy_rule, role_exists. solve_keeps.
  - apply create_write_off_keeps.
  - apply approve_write_off_keeps.
  - apply deny_write_off_keeps.
  - apply reverse_write_off_keeps.
Qed.
