(* ===== verification/InTransit.v ===== *)
(** * The Inventory In Transit account

    What the account says: the shipped value of every transfer line, less what
    was received and what was written off from it.  Every operation keeps it,
    provided a shipment lists each line once; the reconciliation report then
    shows no discrepancy for goods counted in whole units, and one of rounding
    only otherwise. *)

From S2P Require Import Prelude Fixed Session Schema Tables Platform Chart Fixture Journal.
From S2P Require Import Posting Books Reports Inventory Discrepancies Transfers WriteOffs.
From S2P Require Import TransitInvariant TransitOps WriteOffOps.

(** ** Sums over the transfer lines *)

Lemma with_ids_fmap {R} (g : Z -> R -> R) (t t' : list R) :
  (forall k, row_of t' k = g k <$> row_of t k) ->
  with_ids t' = map (fun kl => (kl.1, g kl.1 kl.2)) (with_ids t).
Proof.
  intros H. apply list_eq. intros n. unfold with_ids. rewrite list_lookup_fmap, !list_lookup_imap.
  specialize (H (Z.of_nat n + 1)). unfold row_of in H.
  destruct (Z.ltb_spec 0 (Z.of_nat n + 1)); [|lia].
  replace (Z.to_nat (Z.of_nat n + 1 - 1)) with n in H by lia. rewrite H. by destruct (t !! n).
Qed.

Lemma in_transit_value_change d d' g delta :
  (forall k, row_of (transfer_lines d') k = g k <$> row_of (transfer_lines d) k) ->
  (forall k l, row_of (transfer_lines d) k = Some l ->
     value_in_transit d' k (g k l) = value_in_transit d k l + delta k) ->
  in_transit_value d' = in_transit_value d + sum_by (fun kl => delta kl.1) (with_ids (transfer_lines d)).
Proof.
  intros Hg Hv. unfold in_transit_value. rewrite (with_ids_fmap g _ _ Hg), sum_by_map, <- sum_by_add.
  apply sum_by_ext. intros [k l] Hk%elem_with_ids. simpl. by apply Hv.
Qed.

(** Grouping by line loses nothing when every key is a line. *)
Lemma sum_by_line {A} (key : A -> Z) (f : A -> Z) (xs : list A) d :
  (forall x, x ∈ xs -> is_Some (row_of (transfer_lines d) (key x))) ->
  sum_by (fun kl : Z * InterStoreTransferLine => sum_where (fun x => key x =? kl.1) f xs) (with_ids (transfer_lines d))
  = sum_by f xs.
Proof.
  intros Hx. rewrite <- (sum_group key f (map fst (with_ids (transfer_lines d))) xs (NoDup_ids _)).
  - rewrite sum_by_map. apply sum_by_ext. intros kl _. apply sum_by_ext. intros x _.
    destruct (Z.eqb_spec (key x) kl.1); [by rewrite bool_decide_eq_true_2|by rewrite bool_decide_eq_false_2].
  - intros x Hin. destruct (Hx x Hin) as [l Hl]. apply list_elem_of_fmap. exists (key x, l).
    split; [done|]. by apply elem_with_ids.
Qed.

Lemma ledger_quantize_0 c : ledger_quantize 0 c = 0.
Proof. done. Qed.

(** A line nothing was shipped on has nothing in transit. *)
Lemma unshipped_value d k l :
  transit_wf d -> row_of (transfer_lines d) k = Some l -> shipped_quantity l = 0 ->
  value_in_transit d k l = 0 /\ (forall f, items_total f d k = 0) /\ posted_amount d k = 0.
Proof.
  intros Hd Hk Hs. destruct (unshipped_no_items d k l (tw_flow _ Hd) Hk Hs) as [_ Hno].
  assert (Hi : forall f, items_total f d k = 0)
    by (intros f; apply sum_where_none; intros i Hin; apply Z.eqb_neq; by apply Hno).
  assert (Hp : posted_amount d k = 0).
  { apply sum_where_none. intros w Hw.
    destruct (lo_rows _ (tw_loss _ Hd) w Hw) as [(r & i & _ & Hin%row_of_elem & E & _) _ _ _ _].
    unfold posted_on. rewrite E. by rewrite (proj2 (Z.eqb_neq _ _) (Hno i Hin)). }
  split; [|done]. unfold value_in_transit. destruct (unit_cost_at_shipment l) as [c|]; [|done].
  by rewrite Hs, Hi, Hp.
Qed.

Lemma transit_books_of d d' (v : ledger) :
  transit_books d ->
  account_balance d' ACCOUNT_INVENTORY_IN_TRANSIT = account_balance d ACCOUNT_INVENTORY_IN_TRANSIT + v ->
  in_transit_value d' = in_transit_value d + v -> transit_books d'.
Proof. unfold transit_books. intros -> -> ->. done. Qed.

(** ** Shipments and receipts *)

Lemma sum_where_single {A} (key : A -> Z) (f : A -> Z) (xs : list A) x k :
  NoDup (map key xs) -> x ∈ xs -> key x = k -> sum_where (fun y => key y =? k) f xs = f x.
Proof.
  intros Hnd Hx Hk. induction xs as [|y xs IH]; [by apply elem_of_nil in Hx|].
  simpl in Hnd. apply NoDup_cons in Hnd as [Hy Hnd]. rewrite sum_where_cons.
  apply elem_of_cons in Hx as [<-|Hx].
  - rewrite Hk, Z.eqb_refl, sum_where_none; [lia|]. intros z Hz. apply Z.eqb_neq. intros E.
    apply Hy. rewrite Hk, <- E. by apply list_elem_of_fmap_2.
  - rewrite (IH Hnd Hx). destruct (Z.eqb_spec (key y) k) as [E|]; [|done].
    exfalso. apply Hy. rewrite E, <- Hk. by apply list_elem_of_fmap_2.
Qed.

Lemma shipped_books tid t key inputs by_ now d d' :
  transit_wf d -> transit_books d -> row_of (transfers d) tid = Some t -> checked_shipment d tid t inputs ->
  NoDup (map sh_line_id inputs) -> shipped tid t key inputs by_ now d d' -> transit_books d'.
Proof.
  intros Hd Hb Ht [Hst Hck] Hnd Hs.
  apply (transit_books_of d d' _ Hb (sp_balance _ _ _ _ _ _ _ _ Hs)).
  rewrite (in_transit_value_change d d' (ship_onto d inputs)
             (fun k => sum_where (fun i => sh_line_id i =? k) (ship_value d) inputs)
             (sp_lines _ _ _ _ _ _ _ _ Hs)).
  - f_equal. apply sum_by_line. intros i Hi. destruct (Hck i Hi) as (_ & l & p & Hl & _). by exists l.
  - intros k l Hl. pose proof (sp_frame _ _ _ _ _ _ _ _ Hs) as Ef. injection Ef as _ _ E3 _ E5 _.
    assert (Eit : forall f, items_total f d' k = items_total f d k) by (intros; unfold items_total; by rewrite E3).
    assert (Ep : posted_amount d' k = posted_amount d k) by (unfold posted_amount; by rewrite E5).
    destruct (ship_onto_cases d inputs k l) as [[-> Hno]|(i & Hi & Hk & ->)].
    + rewrite sum_where_none by (intros i Hi; apply Z.eqb_neq; by apply Hno).
      unfold value_in_transit. rewrite Ep. destruct (unit_cost_at_shipment l); [rewrite Eit|]; lia.
    + rewrite (sum_where_single _ _ _ i k Hnd Hi Hk).
      destruct (Hck i Hi) as (_ & l' & p & Hl' & Htl & _). rewrite Hk, Hl in Hl'. injection Hl' as <-.
      destruct (unshipped_value d k l Hd Hl) as (-> & Hit & Hpa).
      { destruct (lf_transfer _ _ _ (fw_lines _ (tw_flow _ Hd) k l Hl)) as (t0 & Ht0 & Hz).
        rewrite Htl, Ht in Ht0. injection Ht0 as <-. apply Hz. by rewrite Hst. }
      unfold value_in_transit. simpl. rewrite Ep, Hpa, Eit, Hit.
      unfold ship_value, line_source. rewrite Hk, Hl. lia.
Qed.

Lemma received_value_sum d lines k l c :
  (forall x, x ∈ lines -> 0 <= rl_received x) ->
  row_of (transfer_lines d) k = Some l -> unit_cost_at_shipment l = Some c ->
  sum_where (fun x => rl_line_id x =? k) (received_value d) lines
  = sum_where (fun x => rl_line_id x =? k) (fun x => ledger_quantize (rl_received x) c) lines.
Proof.
  intros Hn Hl Hc. apply sum_by_ext. intros x Hx. destruct (Z.eqb_spec (rl_line_id x) k) as [E|]; [|done].
  unfold received_value, line_cost. rewrite E, Hl, Hc. simpl.
  destruct (Z.ltb_spec 0 (rl_received x)); [done|]. specialize (Hn x Hx).
  by replace (rl_received x) with 0 by lia.
Qed.

Lemma received_value_nonneg d lines :
  transit_wf d -> (forall l, l ∈ lines -> 0 <= rl_received l) -> 0 <= sum_by (received_value d) lines.
Proof.
  intros Hd Hn. apply sum_by_nonneg. intros l Hl. unfold received_value. destruct (0 <? _); [|done].
  apply ledger_quantize_nonneg; [by apply Hn|]. unfold line_cost.
  destruct (row_of _ _) as [tl|] eqn:E; [|done]. destruct (unit_cost_at_shipment tl) as [c|] eqn:Ec; [|done].
  exact (lf_cost _ _ _ (fw_lines _ (tw_flow _ Hd) _ _ E) c Ec).
Qed.

Lemma receipt_books a t lines now d d' :
  transit_wf d -> transit_books d -> receivable_lines d (tra_transfer_id a) lines ->
  receipt_effect a t lines now d d' -> transit_books d'.
Proof.
  intros Hd Hb [Hl _] (Hr & _ & Hbal & _).
  assert (Hn : forall l, l ∈ lines -> 0 <= rl_received l) by (intros l Hin; by destruct (Hl l Hin) as [[? _] _]).
  apply (transit_books_of d d' (- sum_by (received_value d) lines) Hb).
  { rewrite Hbal. pose proof (received_value_nonneg d lines Hd Hn). destruct (Z.leb_spec (sum_by (received_value d) lines) 0); lia. }
  pose proof (rc_frame _ _ _ _ _ _ Hr) as Ef. injection Ef as _ _ Ew _.
  rewrite (in_transit_value_change d d' (fun k => with_counted (counts_of lines k))
             (fun k => - sum_where (fun l => rl_line_id l =? k) (received_value d) lines) (rc_lines _ _ _ _ _ _ Hr)).
  - f_equal. rewrite sum_by_opp. f_equal. apply sum_by_line. intros l Hin.
    destruct (Hl l Hin) as (_ & _ & tl & c & Htl & _). by exists tl.
  - intros k l Hk. unfold value_in_transit. simpl.
    assert (posted_amount d' k = posted_amount d k) as -> by (unfold posted_amount; by rewrite Ew).
    destruct (unit_cost_at_shipment l) as [c|] eqn:Ec.
    + rewrite (items_total_new _ d d' _ lines k (rc_items _ _ _ _ _ _ Hr)). simpl.
      rewrite (received_value_sum d lines k l c Hn Hk Ec). lia.
    + rewrite sum_where_none; [done|]. intros x Hx. apply Z.eqb_neq. intros E.
      destruct (Hl x Hx) as (_ & _ & tl & c & Htl & _ & Hc). rewrite E, Hk in Htl. injection Htl as <-. congruence.
Qed.

(** ** Write-offs *)

Lemma decided_books k w st e r vs d d' :
  transit_wf d -> transit_books d -> row_of (write_offs d) k = Some w ->
  decided k w st e r vs d d' ->
  account_balance d' ACCOUNT_INVENTORY_IN_TRANSIT
  = account_balance d ACCOUNT_INVENTORY_IN_TRANSIT
    - (posted_part st (wo_amount w) - posted_part (wo_status w) (wo_amount w)) ->
  transit_books d'.
Proof.
  intros Hd Hb Hw Hx Hbal. set (v := posted_part st (wo_amount w) - posted_part (wo_status w) (wo_amount w)) in *.
  apply (transit_books_of d d' (- v) Hb); [lia|].
  pose proof (dc_reads _ _ _ _ _ _ _ _ Hx) as Ef. unfold transit_reads, changed in Ef. simpl in Ef.
  injection Ef as _ _ El _ Ei _ Ew _.
  destruct (lo_rows _ (tw_loss _ Hd) w (row_of_elem _ _ _ Hw)) as [(x & i & _ & Hi%row_of_elem & Eline & _) _ _ _ _].
  destruct (fw_items _ (tw_flow _ Hd) i Hi) as [(l0 & y & Hl0 & Hc0 & _) _ _]. rewrite <- Eline in Hl0.
  rewrite (in_transit_value_change d d'
    (fun j l => if bool_decide (transfer_line_id w = j)
                then with_written_off (posted_part st (wo_quantity w) - posted_part (wo_status w) (wo_quantity w)) l else l)
    (fun j => sum_where (fun z => transfer_line_id z =? j) (fun _ => - v) [w])).
  - f_equal. rewrite sum_by_line; [rewrite sum_by_cons, sum_by_nil; lia|].
    intros z ->%list_elem_of_singleton. by exists l0.
  - intros j. rewrite El, row_of_set. case_bool_decide; [done|]. by destruct (row_of _ j).
  - intros j l Hl. rewrite sum_where_cons, sum_where_nil.
    assert (Ep : posted_amount d' j = posted_amount d j + (if transfer_line_id w =? j then v else 0)).
    { unfold posted_amount. rewrite Ew, (sum_where_set_row _ _ _ _ _ _ Hw). unfold posted_on. simpl.
      destruct (_ =? j); simpl; unfold v, posted_part; lia. }
    assert (Et : forall f, items_total f d' j = items_total f d j) by (intros; unfold items_total; by rewrite Ei).
    unfold value_in_transit. rewrite Ep. destruct (Z.eqb_spec (transfer_line_id w) j) as [E|E].
    + rewrite bool_decide_eq_true_2 by done. simpl. subst j. rewrite Hl in Hl0. injection Hl0 as <-.
      destruct Hc0 as [c ->]. rewrite Et. lia.
    + rewrite bool_decide_eq_false_2 by done. destruct (unit_cost_at_shipment l); [rewrite Et|]; lia.
Qed.

(** ** Every operation *)

Definition in_transit_wf (d : database) : Prop := transit_wf d /\ transit_books d.

Definition books_reads (d : database) :=
  (accounts d, journal_lines d, transfer_lines d, transfer_receipt_items d, write_offs d).

Lemma in_transit_value_ext d d' :
  transfer_lines d' = transfer_lines d -> transfer_receipt_items d' = transfer_receipt_items d ->
  write_offs d' = write_offs d -> in_transit_value d' = in_transit_value d.
Proof.
  intros El Ei Ew. unfold in_transit_value, value_in_transit, items_total, posted_amount.
  by rewrite El, Ei, Ew.
Qed.

Lemma transit_books_ext d d' : books_reads d' = books_reads d -> transit_books d -> transit_books d'.
Proof.
  intros [= E1 E2 E3 E4 E5] Hb. unfold transit_books.
  by rewrite (account_balance_ext d d'), (in_transit_value_ext d d').
Qed.

Lemma keeps_in_transit_frame {A} (m : Tx A) :
  fixes committed m -> fixes (fun s => (transit_reads (working s), books_reads (working s))) m ->
  keeps in_transit_wf m.
Proof.
  apply (keeps_frame _ (fun d => (transit_reads d, books_reads d))).
  intros d d' [E1 E2]%pair_equal_spec [H1 H2].
  split; [by apply (transit_wf_ext d)|by apply (transit_books_ext d)].
Qed.

#[export] Hint Extern 3 (keeps in_transit_wf _) =>
  (apply keeps_in_transit_frame; solve [unfold transit_reads, books_reads; solve_fixes]) : keeps.

(** The rest of an invariant that a kept one leaves to show. *)
Lemma keeps_with {A} (I J : database -> Prop) (m : Tx A) :
  fixes committed m -> keeps I m ->
  (forall s a s', I (working s) -> J (committed s) -> J (working s) -> m s = (Ok a, s') -> J (working s')) ->
  keeps (fun d => I d /\ J d) m.
Proof.
  intros Hc HI HJ. apply keeps_of_ok; [done|]. intros s a s' [C1 C2] [W1 W2] H.
  split; [by eapply (keeps_ok I m s a s')|by eapply HJ].
Qed.

(** A request lists every line of a shipment once. *)
Definition ships_once (op : transfer_op) : Prop :=
  match op with T_ship _ lines _ _ _ => NoDup (map sh_line_id lines) | _ => True end.

Lemma add_line_books tid r : keeps in_transit_wf (add (new_transfer_line tid r)).
Proof.
  apply keeps_with; [solve_fixes|apply add_line_keeps|].
  intros s i s' Hd _ Hb (_ & _ & _ & ->)%add_ok. apply (transit_books_of (working s) _ 0 Hb).
  - rewrite (account_balance_ext (working s)) by done. lia.
  - unfold in_transit_value at 1. simpl. rewrite with_ids_app, sum_by_app, sum_by_cons, sum_by_nil. done.
Qed.

Theorem transfer_op_in_transit op : ships_once op -> keeps in_transit_wf (run_transfer_op op).
Proof.
  destruct op; intros Hop; simpl.
  - draft_parts. walk_keeps ltac:(first [apply add_line_books|
      apply keeps_with; [solve_fixes|apply add_transfer_keeps
        |intros s i s' _ _ Hb (_ & _ & _ & ->)%add_ok; by apply (transit_books_ext (working s))]
      |apply keeps_in_transit_frame; solve [unfold transit_reads, books_reads; solve_fixes]]).
  - apply keeps_with; [apply ship_transfer_fixes_committed|apply ship_transfer_keeps|].
    intros s i s' Hd Hc Hb H.
    apply ship_transfer_ok in H as [[-> _]|[[-> _]|(_ & _ & _ & _ & t & Ht & _ & Hck & _ & He)]]; [done|done|].
    by eapply shipped_books.
  - apply keeps_with; [apply receive_transfer_fixes_committed|apply receive_transfer_keeps|].
    intros s i s' Hd Hc Hb H.
    apply (receive_transfer_ok _ _ _ _ _ _ Hd) in H
      as [[-> _]|[[-> _]|(_ & _ & _ & _ & t & _ & _ & _ & Hrl & He)]]; [done|done|].
    by eapply receipt_books.
  - apply keeps_and; [apply cancel_transfer_keeps|].
    unfold cancel_transfer, get_transfer.
    walk_keeps ltac:(apply (keeps_frame _ books_reads); [apply transit_books_ext| |]; unfold books_reads; solve [solve_fixes]).
  - apply keeps_and; [apply investigate_keeps|].
    apply (keeps_frame _ books_reads); [apply transit_books_ext| |];
      unfold investigate_discrepancy, get_discrepancy, books_reads; solve_fixes.
  - apply keeps_and; [apply resolve_keeps|].
    apply (keeps_frame _ books_reads); [apply transit_books_ext| |];
      unfold resolve_discrepancy, get_discrepancy, books_reads; solve_fixes.
Qed.

Theorem write_off_op_in_transit op : keeps in_transit_wf (run_write_off_op op).
Proof.
  destruct op; simpl.
  - unfold create_approval_policy_rule, role_exists. solve_keeps.
  - apply keeps_with; [|apply create_write_off_keeps|].
    + unfold create_write_off, record_write_off, check_eligible, insert_or_winner, get_discrepancy,
        remaining_discrepancy, _resolve_required_role. solve_fixes.
    + intros s i s' _ Hc Hb H.
      apply create_write_off_ok in H as [[-> _]|[[-> _]|(_ & _ & r & w & -> & H)]]; [done|done|].
      destruct H as (_ & _ & _ & _ & _ & _ & _ & _ & _ & _ & _ & _ & Est & _).
      apply (transit_books_of (working s) _ 0 Hb).
      { rewrite (account_balance_ext (working s)) by done. lia. }
      rewrite Z.add_0_r. apply sum_by_ext. intros [k l] _. unfold value_in_transit, posted_amount. simpl.
      rewrite sum_where_app, sum_where_cons, sum_where_nil. unfold posted_on at 2. rewrite Est. simpl.
      by rewrite andb_false_r, !Z.add_0_r.
  - apply keeps_with; [apply approve_write_off_fixes_committed|apply approve_write_off_keeps|].
    intros s i s' Hd Hc Hb H.
    apply approve_write_off_ok in H as (_ & w & Hw & [[-> _]|(actor & e & now & _ & _ & _ & Hst & _ & _ & _ & Hx & Hbal)]);
      [done|]. eapply decided_books; [done|done|exact Hw|exact Hx|].
    rewrite Hbal, Hst. unfold loss_lines. rewrite spec_net_credited by done. unfold posted_part. simpl. lia.
  - apply keeps_with; [apply deny_write_off_fixes_committed|apply deny_write_off_keeps|].
    intros s i s' Hd Hc Hb H.
    apply deny_write_off_ok in H as (_ & w & Hw & [[-> _]|(actor & now & r & f & _ & _ & _ & Hst & _ & _ & _ & _ & El & Eo & Hx)]);
      [done|].
    set (dc := changed (working s) id w WO_DENIED (wo_journal_entry_id w) (wo_reversal_journal_entry_id w)
                 [approval_row id w actor DECISION_DENIED now notes]) in *.
    assert (Hdc : transit_books dc).
    { eapply (decided_books id w WO_DENIED); [done|done|exact Hw|by constructor|].
      rewrite (account_balance_ext (working s) dc) by done. unfold posted_part. rewrite Hst. simpl. lia. }
    apply (transit_books_ext dc); [|done]. injection Hx as _ _ X1 _ X2 _ X3 _.
    unfold books_reads. rewrite X1, X2, X3. unfold accounts, journal_lines. by rewrite El.
  - apply keeps_with; [apply reverse_write_off_fixes_committed|apply reverse_write_off_keeps|].
    intros s i s' Hd Hc Hb H.
    apply reverse_write_off_ok in H as (_ & actor & w & _ & _ & Hw & [[-> _]|(e & _ & Hst & Hx & Hbal)]); [done|].
    eapply decided_books; [done|done|exact Hw|exact Hx|].
    rewrite Hbal, Hst. unfold found_again_lines. rewrite spec_net_debited by done. unfold posted_part. simpl. lia.
Qed.

(** ** What a line can still have in transit *)

(** No more than what came damaged or short is written off a line. *)
Lemma discrepancies_of_line d k :
  transit_wf d ->
  sum_by (fun r => match row_of (transfer_receipt_items d) (rd_source_id r) with
                   | Some i => if tri_line_id i =? k then quantity_short r + quantity_damaged r else 0
                   | None => 0
                   end) (discrepancies d)
  <= items_total tri_damaged d k + items_total tri_declared_short d k.
Proof.
  intros Hd. destruct (tw_found _ Hd) as [Hf Hu _].
  rewrite <- (sum_group rd_source_id _ (map fst (with_ids (transfer_receipt_items d))) _ (NoDup_ids _)).
  2:{ intros r Hr. destruct (Hf r Hr) as (_ & i & _ & _ & _ & Hi & _).
      apply list_elem_of_fmap. exists (rd_source_id r, i). split; [done|]. by apply elem_with_ids. }
  unfold items_total, sum_where. rewrite <- sum_by_add, sum_by_map.
  rewrite (sum_by_ids (fun i => (if tri_line_id i =? k then tri_damaged i else 0)
                                + (if tri_line_id i =? k then tri_declared_short i else 0))).
  apply sum_by_le. intros [n i] Hi%elem_with_ids. simpl.
  destruct (if_nonneg _ _ (fw_items _ (tw_flow _ Hd) i (row_of_elem _ _ _ Hi))) as (_ & Hdm & Hsh). simpl in *.
  destruct (decide (n ∈ map rd_source_id (discrepancies d))) as [(r & Hn & Hr)%list_elem_of_fmap|Hno].
  - rewrite (sum_by_ext _ (fun x => if rd_source_id x =? n then match row_of (transfer_receipt_items d) (rd_source_id x) with
        | Some j => if tri_line_id j =? k then quantity_short x + quantity_damaged x else 0 | None => 0 end else 0))
      by (intros x _; by rewrite bool_decide_Zeqb).
    pose proof (sum_where_single rd_source_id (fun x => match row_of (transfer_receipt_items d) (rd_source_id x) with
        | Some j => if tri_line_id j =? k then quantity_short x + quantity_damaged x else 0 | None => 0 end)
      _ r n Hu Hr (eq_sym Hn)) as E. unfold sum_where in E. rewrite E. clear E. rewrite <- Hn, Hi.
    destruct (Hf r Hr) as (_ & j & _ & _ & _ & Hj & _ & _ & _ & _ & _ & _ & _ & Es & Ed & _).
    rewrite <- Hn, Hi in Hj. injection Hj as <-. rewrite Es, Ed. destruct (_ =? k); lia.
  - rewrite sum_by_zero; [destruct (_ =? k); lia|]. intros x Hx. case_bool_decide as E; [|done].
    exfalso. apply Hno. rewrite <- E. by apply list_elem_of_fmap_2.
Qed.

Lemma written_off_within d k l :
  transit_wf d -> row_of (transfer_lines d) k = Some l ->
  0 <= written_off_quantity l <= damaged_quantity l + declared_short_quantity l.
Proof.
  intros Hd Hl. destruct (tw_loss _ Hd) as [Hrows Hbound _ _ _ Hlines].
  pose proof (lf_counted _ _ _ (fw_lines _ (tw_flow _ Hd) k l Hl)) as [= _ -> ->].
  rewrite (Hlines k l Hl). split.
  { apply sum_by_nonneg. intros w Hw. destruct (Hrows w Hw). destruct (posted_on k w); lia. }
  etransitivity; [|by apply discrepancies_of_line]. unfold posted_quantity, sum_where.
  rewrite <- (sum_group wo_discrepancy_id _ (map fst (with_ids (discrepancies d))) _ (NoDup_ids _)).
  2:{ intros w Hw. destruct (Hrows w Hw) as [(r & i & Hr & _) _ _ _ _].
      apply list_elem_of_fmap. exists (wo_discrepancy_id w, r). split; [done|]. by apply elem_with_ids. }
  rewrite sum_by_map, (sum_by_ids _ (discrepancies d)). apply sum_by_le. intros [j r] Hj%elem_with_ids. simpl.
  pose proof (Hbound j r Hj) as Hb. unfold written_off_against, sum_where in Hb.
  destruct (tw_found _ Hd) as [Hf _ _]. destruct (Hf r (row_of_elem _ _ _ Hj)) as (_ & i & _ & _ & _ & Hi & _).
  rewrite Hi. destruct (Z.eqb_spec (tri_line_id i) k) as [E|E].
  - etransitivity; [|exact Hb]. apply Z.eq_le_incl, sum_by_ext. intros w Hw.
    destruct (Hrows w Hw) as [(r' & i' & Hr' & Hi' & El & _) _ _ _ _].
    unfold posted_on, against. rewrite bool_decide_Zeqb. destruct (Z.eqb_spec (wo_discrepancy_id w) j) as [Ew|]; [|done].
    rewrite Ew, Hj in Hr'. injection Hr' as <-. rewrite Hi in Hi'. injection Hi' as <-.
    by rewrite El, E, Z.eqb_refl.
  - unfold sum_where. rewrite sum_by_zero; [done|]. intros w Hw. case_bool_decide as Ew; [|done].
    destruct (Hrows w Hw) as [(r' & i' & Hr' & Hi' & El & _) _ _ _ _].
    rewrite Ew, Hj in Hr'. injection Hr' as <-. rewrite Hi in Hi'. injection Hi' as <-.
    unfold posted_on. rewrite El. by apply Z.eqb_neq in E as ->.
Qed.

Lemma outstanding_nonneg d k l :
  transit_wf d -> row_of (transfer_lines d) k = Some l -> 0 <= outstanding l.
Proof.
  intros Hd Hl. pose proof (written_off_within d k l Hd Hl).
  pose proof (lf_accounted _ _ _ (fw_lines _ (tw_flow _ Hd) k l Hl)). unfold outstanding, accounted in *. lia.
Qed.

(** ** Before the first transfer *)

Lemma no_transit_wf d : transit_tables d = mkTransit [] [] [] [] [] [] [] [] [] -> transit_wf d.
Proof.
  intros E. constructor; constructor; rewrite ?E; simpl;
    try (intros i; by intros ?%elem_of_nil); try apply NoDup_nil_2;
    intros i; unfold row_of; by destruct (0 <? i).
Qed.

Lemma no_transit_books d :
  transit_tables d = mkTransit [] [] [] [] [] [] [] [] [] -> journal_lines d = [] -> transit_books d.
Proof. intros E1 E2. unfold transit_books, account_balance, in_transit_value. by rewrite E1, E2. Qed.
