(* ===== verification/TransitInterplay.v ===== *)
(** * Goods in transit and the other components

    Transfers and write-offs write stock through the inventory ledger and the
    books through their own postings, and nothing else outside their tables:
    whatever those two preserve, their operations preserve.  No posting of
    another component touches the Inventory In Transit account. *)

From S2P Require Import Prelude Fixed Session Schema Tables Platform Chart Fixture Journal.
From S2P Require Import Posting Books Inventory Shifts Sales SaleReturns ReturnProperties Tills.
From S2P Require Import Purchasing Settlement Payables.
From S2P Require Import PayablesInvariant PayablesOps Interplay Discrepancies Transfers WriteOffs.
From S2P Require Import TransitInvariant TransitOps WriteOffOps InTransit.

(** The operations of both modules. *)
Inductive transit_op :=
  | X_transfer (op : transfer_op)
  | X_write_off (op : write_off_op).

Definition run_transit_op (op : transit_op) : Tx Z :=
  match op with
  | X_transfer op => run_transfer_op op
  | X_write_off op => run_write_off_op op
  end.

(** The tables they do not own. *)
Definition other_tables (d : database) :=
  (directory_tables d, catalog_tables d, ledger_tables d, stock_tables d, selling_tables d,
   tills_tables d, fiscal_tables d, purchasing_tables d, payables_tables d, people_tables d,
   payroll_tables d).

Definition transit_posting (q : posting) : bool :=
  match q with
  | P_transfer_shipment _ _ _ _ | P_transfer_receipt _ _ _ _ | P_write_off _ _ _ _
  | P_write_off_reversal _ _ _ => true
  | _ => false
  end.

Ltac transit_ops :=
  draft_parts;
  unfold ship_transfer, check_shipment, check_ship_line, lock_line_products, claim_ship_key, write_shipment,
    ship_line, receive_transfer, validate_receive_line, check_transfer_receipt, check_receive_line,
    insert_or_winner, write_transfer_receipt, receive_transfer_line, take_in, raise_discrepancy,
    create_discrepancy_for_receipt_item, cancel_transfer, investigate_discrepancy, resolve_discrepancy,
    create_approval_policy_rule, role_exists, create_write_off, record_write_off, check_eligible,
    remaining_discrepancy, _resolve_required_role, approve_write_off, deny_write_off, open_decision,
    check_approval_authority, get_user_role_name, post_write_off, reopen_discrepancy_after_write_off_denial,
    check_reopenable, reopen, reverse_write_off, unpost_write_off, or_conflict, source_of_line,
    destination_of_line, transfer_line_of, get_write_off, get_discrepancy, get_transfer, insert_or_winner.

Section KeepsTransit.
Context (I : database -> Prop).
Context (frame : forall d d', other_tables d' = other_tables d -> I d -> I d').
Context (movement : forall pid a, keeps I (record_movement pid a)).
Context (posting : forall q by_, transit_posting q = true -> keeps I (post q by_)).

Lemma keeps_others {A} (m : Tx A) :
  fixes committed m -> fixes (fun s => other_tables (working s)) m -> keeps I m.
Proof. apply (keeps_frame _ other_tables). exact frame. Qed.

Lemma transit_postings_keep :
  (forall i st now v b, keeps I (post_transfer_shipment_journal i st now v b)) /\
  (forall i st dt v b, keeps I (post_transfer_receipt_journal i st dt v b)) /\
  (forall i st dt a b, keeps I (post_transfer_write_off_journal i st dt a b)) /\
  (forall i st a b, keeps I (post_transfer_write_off_reversal_journal i st a b)).
Proof.
  split_and!; intros.
  - by apply (posting (P_transfer_shipment _ _ _ _)).
  - by apply (posting (P_transfer_receipt _ _ _ _)).
  - by apply (posting (P_write_off _ _ _ _)).
  - by apply (posting (P_write_off_reversal _ _ _)).
Qed.

Lemma run_transit_op_keeps op : keeps I (run_transit_op op).
Proof.
  destruct transit_postings_keep as (P1 & P2 & P3 & P4).
  destruct op as [[]|[]]; simpl; transit_ops;
    walk_keeps ltac:(first [apply movement|apply P1|apply P2|apply P3|apply P4
                           |apply keeps_others; solve [unfold lock_product_for_update; solve_fixes]]).
Qed.
End KeepsTransit.

(** ** What the other components say is kept *)

Lemma transit_posting_keeps_books q by_ : transit_posting q = true -> keeps books_wf (post q by_).
Proof. destruct q; try done; intros _; by apply post_keeps. Qed.

(** Their postings stay clear of the payables. *)
Lemma transit_posting_payable q :
  transit_posting q = true -> spec_net (posting_lines q) ACCOUNT_ACCOUNTS_PAYABLE = 0.
Proof.
  intros Hq. apply spec_net_other. destruct q; try done; simpl; unfold unless_zero;
    try (destruct (_ <=? _)); repeat constructor; done.
Qed.

Lemma post_keeps_payables q by_ :
  spec_net (posting_lines q) ACCOUNT_ACCOUNTS_PAYABLE = 0 -> keeps payables_wf (post q by_).
Proof.
  intros Hq s [C1 C2]%payables_wf_split [W1 W2]%payables_wf_split.
  pose proof (post_keeps_accounts q by_ Hq s C1 W1) as K1.
  assert (K2 : keeps matched_wf (post q by_)).
  { apply keeps_matched; [apply post_fixes_committed|].
    unfold matched_tables. destruct q; simpl; unfold_postings; solve_fixes. }
  specialize (K2 s C2 W2).
  destruct (post q by_ s) as [[a|e] s']; [|by apply payables_wf_split].
  destruct K1, K2. split; by apply payables_wf_split.
Qed.

(** An invariant that does not read the ledger. *)
Lemma posting_keeps_untouched (I : database -> Prop) q by_ :
  (forall d d', untouched_tables d' = untouched_tables d -> I d -> I d') -> keeps I (post q by_).
Proof.
  intros frame. apply (keeps_frame _ (fun d => (untouched_tables d, purchasing_tables d)));
    [|apply post_fixes_committed|apply post_fixes_untouched].
  intros d d' [E _]%pair_equal_spec. by apply frame.
Qed.

Lemma transit_keeps_stock op : keeps stock_wf (run_transit_op op).
Proof.
  apply run_transit_op_keeps.
  - intros d d' [= _ E2 _ E4 _ _ _ _ _]. by apply stock_wf_ext; rewrite ?E2, ?E4.
  - solve_keeps.
  - intros q by_ _. apply posting_keeps_untouched. intros d d' [= _ E2 E3 _ _ _ _].
    by apply stock_wf_ext; rewrite ?E2, ?E3.
Qed.

Lemma transit_keeps_books op : keeps books_wf (run_transit_op op).
Proof.
  apply run_transit_op_keeps; [|solve_keeps|apply transit_posting_keeps_books].
  intros d d' [= _ _ E _ _ _ _ _ _] [? ?]. split; [by apply (ledger_wf_ext d)|by apply (reversals_wf_ext d)].
Qed.

(** The tables of the tills: nothing of theirs moves. *)
Lemma transit_keeps_tills_frame (I : database -> Prop) op :
  (forall d d', selling_tables d' = selling_tables d -> tills_tables d' = tills_tables d -> I d -> I d') ->
  keeps I (run_transit_op op).
Proof.
  intros frame. apply run_transit_op_keeps.
  - intros d d' [= _ _ _ _ E5 E6 _ _ _]. by apply frame.
  - intros pid a. apply (keeps_frame _ (fun d => (selling_tables d, tills_tables d))).
    + intros d d' [E1 E2]%pair_equal_spec. by apply frame.
    + unfold record_movement, lock_product_for_update. solve_fixes.
    + unfold record_movement, lock_product_for_update. solve_fixes.
  - intros q by_ _. apply posting_keeps_untouched. intros d d' [= _ _ _ E4 E5 _ _]. by apply frame.
Qed.

Lemma transit_keeps_shifts op : keeps shifts_wf (run_transit_op op).
Proof. apply transit_keeps_tills_frame. intros d d' _ E Hd. apply (shifts_wf_ext d); [by rewrite E|done]. Qed.

Lemma transit_keeps_returns op : keeps returns_wf (run_transit_op op).
Proof. apply transit_keeps_tills_frame. intros d d' E _ Hd. by apply (returns_wf_ext d); rewrite ?E. Qed.

Lemma transit_keeps_tills op : keeps tills_wf (run_transit_op op).
Proof.
  apply transit_keeps_tills_frame. intros d d' E1 E2 Hd.
  apply (tills_wf_ext d); [by rewrite E2| |done]. unfold cash_rows. by rewrite E1, E2.
Qed.

Lemma transit_keeps_purchasing op : keeps purchasing_wf (run_transit_op op).
Proof.
  apply run_transit_op_keeps.
  - intros d d' [= _ _ _ _ _ _ _ E _]. apply purchasing_wf_ext. unfold document_tables. by rewrite E.
  - intros pid a. apply keeps_purchasing_frame; unfold record_movement, lock_product_for_update; solve_fixes.
  - intros q by_ _. apply keeps_purchasing_frame; [apply post_fixes_committed|].
    unfold document_tables. destruct q; simpl; unfold_postings; solve_fixes.
Qed.

Lemma transit_keeps_payables op : keeps payables_wf (run_transit_op op).
Proof.
  apply run_transit_op_keeps.
  - intros d d' [= _ _ E1 _ _ _ _ E2 E3]. apply payables_wf_ext.
    unfold payables_frame, settlement_tables, matched_tables. by rewrite E1, E2, E3.
  - intros pid a. apply (keeps_frame _ payables_frame).
    + intros d d'. apply payables_wf_ext.
    + unfold record_movement, lock_product_for_update. solve_fixes.
    + unfold payables_frame, settlement_tables, matched_tables, record_movement, lock_product_for_update. solve_fixes.
  - intros q by_ Hq. by apply post_keeps_payables, transit_posting_payable.
Qed.

(** ** What the other components do to goods in transit *)

Lemma payables_posting_other q :
  payables_posting q = true -> spec_net (posting_lines q) ACCOUNT_INVENTORY_IN_TRANSIT = 0.
Proof.
  intros Hq. apply spec_net_other. destruct q; try done; simpl; unfold unless_zero, _purchase_invoice_journal_lines;
    repeat (apply Forall_app; split); try (by apply opt_line_other); repeat (destruct (_ <=? _) || destruct (_ <? _));
    repeat constructor; try done; by match goal with m : SupplierPaymentMethod |- _ => destruct m
      | g : bool |- _ => destruct g end.
Qed.

Lemma post_keeps_transit_books q by_ :
  spec_net (posting_lines q) ACCOUNT_INVENTORY_IN_TRANSIT = 0 -> keeps transit_books (post q by_).
Proof.
  intros Hq. apply keeps_of_ok; [apply post_fixes_committed|]. intros s r s' _ Hb H.
  apply posting_ok in H as (_ & O & B). injection O as _ _ _ E. unfold transit_books.
  rewrite B, Hq, Z.add_0_r, (in_transit_value_ext (working s)); by rewrite ?E.
Qed.

Lemma keeps_transit_books_frame {A} (m : Tx A) :
  fixes committed m -> fixes (fun s => (ledger_tables (working s), transit_tables (working s))) m ->
  keeps transit_books m.
Proof.
  apply (keeps_frame _ (fun d => (ledger_tables d, transit_tables d))).
  intros d d' [E1 E2]%pair_equal_spec. apply transit_books_ext. unfold books_reads. by rewrite E1, E2.
Qed.

Lemma purchasing_keeps_transit op : keeps in_transit_wf (run_purchasing_op op).
Proof.
  apply keeps_and; apply run_purchasing_op_keeps.
  - intros d d' [= E _ _ _ _ _ _ _ E']. apply transit_wf_ext. unfold transit_reads. by rewrite E, E'.
  - intros pid a. apply keeps_transit_frame; unfold transit_reads, record_movement, lock_product_for_update; solve_fixes.
  - intros i st dt vs by_. apply (post_keeps_transit (P_goods_receipt i st dt vs)).
  - intros i st dt vs by_. apply (post_keeps_transit (P_purchase_return i st dt vs)).
  - intros d d' [= _ _ E _ _ _ _ _ E']. apply transit_books_ext. unfold books_reads. by rewrite E, E'.
  - intros pid a. apply keeps_transit_books_frame; unfold record_movement, lock_product_for_update; solve_fixes.
  - intros i st dt vs by_. apply (post_keeps_transit_books (P_goods_receipt i st dt vs)).
    by apply shop_posting_other; [|right].
  - intros i st dt vs by_. apply (post_keeps_transit_books (P_purchase_return i st dt vs)).
    by apply shop_posting_other; [|right].
Qed.

Lemma payables_keep_transit op : keeps in_transit_wf (run_payables_op op).
Proof.
  apply keeps_and.
  - apply payables_keep_untouched. intros d d' [= E1 _ _ _ _ _ E7]. apply transit_wf_ext.
    unfold transit_reads. by rewrite E1, E7.
  - apply run_payables_op_keeps.
    + intros d d' [= _ _ E _ _ _ _ _ E']. apply transit_books_ext. unfold books_reads. by rewrite E, E'.
    + intros q by_ Hq. by apply post_keeps_transit_books, payables_posting_other.
    + intros k total. apply keeps_transit_books_frame; solve_fixes.
Qed.

Definition lines_once (op : transit_op) : Prop :=
  match op with X_transfer op => ships_once op | X_write_off _ => True end.

Lemma transit_op_in_transit op : lines_once op -> keeps in_transit_wf (run_transit_op op).
Proof. destruct op; simpl; [apply transfer_op_in_transit|intros _; apply write_off_op_in_transit]. Qed.

Lemma transit_keeps_wf op : keeps transit_wf (run_transit_op op).
Proof. destruct op; [apply run_transfer_op_keeps|apply run_write_off_op_keeps]. Qed.
