(* ===== verification/PayrollInterplay.v ===== *)
(** * Personnel, payroll and the other components

    The personnel operations write the tables of the people and nothing else;
    the payroll operations write their own tables and the ledger, through
    postings of their own.  No posting of another component touches the payroll
    accounts, and no payroll posting touches accounts payable or the goods in
    transit: each side keeps the other's invariants. *)

From S2P Require Import Prelude Fixed Session Schema Tables Platform EffectiveDated Workforce WorkforceInvariant.
From S2P Require Import Chart Fixture Journal Posting Books Payroll PayPeriods PayPeriodOps PayPeriodInvariant.
From S2P Require Import Inventory Shifts Sales SaleReturns ReturnProperties Tills Purchasing Settlement Payables.
From S2P Require Import PayablesInvariant PayablesOps Interplay Discrepancies Transfers WriteOffs.
From S2P Require Import TransitInvariant TransitOps WriteOffOps InTransit TransitInterplay.

(** ** Which accounts the postings touch *)

(** Only payroll touches the payroll accounts. *)
Lemma posting_off_payroll q code :
  payroll_posting q = false -> code ∈ PAYROLL_ACCOUNTS -> spec_net (posting_lines q) code = 0.
Proof.
  intros Hq Hcode. apply spec_net_other.
  apply (Forall_impl (fun sp => spec_code sp ∉ PAYROLL_ACCOUNTS)); [|by intros sp H E; rewrite E in H].
  clear code Hcode. assert (Hoff : forall c, bool_decide (c ∈ PAYROLL_ACCOUNTS) = false -> c ∉ PAYROLL_ACCOUNTS)
    by (intros c; by apply bool_decide_eq_false_1).
  destruct q; try done; clear Hq; simpl;
    unfold unless_zero, sale_journal_lines, sale_return_journal_lines, _purchase_invoice_journal_lines,
      stock_adjustment_lines, cash_variance_lines, pair_lines;
    repeat first
      [apply Forall_nil_2|apply Forall_cons; split|apply Forall_app; split|apply Forall_opt_line
      |match goal with |- Forall _ (map _ _) => apply Forall_fmap, Forall_true; intros [[] ?] end
      |match goal with |- Forall _ (if ?b then _ else _) => destruct b end
      |match goal with |- Forall _ (match ?o with Some _ => _ | None => _ end) => destruct o end
      |match goal with m : PaymentMethod |- _ => destruct m end
      |match goal with m : SupplierPaymentMethod |- _ => destruct m end
      |match goal with g : bool |- _ => destruct g end];
    apply Hoff; vm_compute; reflexivity.
Qed.

(** And payroll touches no other account. *)
Lemma payroll_posting_elsewhere q code :
  payroll_posting q = true -> code ∉ PAYROLL_ACCOUNTS -> spec_net (posting_lines q) code = 0.
Proof.
  intros Hq Hcode. apply spec_net_other.
  apply (Forall_impl (fun sp => spec_code sp ∈ PAYROLL_ACCOUNTS)); [|by intros sp H E; rewrite E in H].
  clear code Hcode. unfold PAYROLL_ACCOUNTS.
  destruct q; try done; simpl; unfold payroll_lines_of, _payroll_journal_lines;
    repeat (apply Forall_app; split); apply Forall_opt_line; simpl; set_solver.
Qed.

(** ** What the payroll operations keep *)

(** The tables they do not write. *)
Definition away_tables (d : database) :=
  (directory_tables d, catalog_tables d, ledger_tables d, stock_tables d, selling_tables d,
   tills_tables d, fiscal_tables d, purchasing_tables d, payables_tables d, transit_tables d, people_tables d).

Section KeepsPayroll.
Context (I : database -> Prop).
Context (frame : forall d d', away_tables d' = away_tables d -> I d -> I d').
Context (posting : forall q by_, payroll_posting q = true -> keeps I (post q by_)).

Lemma keeps_away {A} (m : Tx A) :
  fixes committed m -> fixes (fun s => away_tables (working s)) m -> keeps I m.
Proof. apply (keeps_frame _ away_tables). exact frame. Qed.

Lemma run_payroll_op_keeps op : keeps I (run_payroll_op op).
Proof.
  assert (P1 : forall i st dt rs b, keeps I (post_payroll_journal i st dt rs b))
    by (intros; by apply (posting (P_payroll _ _ _ _))).
  assert (P2 : forall i st rs b, keeps I (post_payroll_reversal_journal i st rs b))
    by (intros; by apply (posting (P_payroll_reversal _ _ _))).
  assert (P3 : forall p, keeps I (flush_lines p)) by (intros; apply keeps_away; apply flush_lines_fixes; done).
  destruct op; simpl; unfold create_payroll_period, open_payroll_period, calculate_payroll_period,
    approve_payroll_period, cancel_payroll_period, post_payroll_period, reverse_payroll_period,
    _lock_payroll_period, _resolve_overtime_policy, delete_results, calculate_employee,
    _resolve_assignment_as_of, list_payroll_employee_results, or_conflict, committing;
    walk_keeps ltac:(first [apply P1|apply P2|apply P3|apply keeps_away; solve [solve_fixes]]).
Qed.
End KeepsPayroll.

(** An invariant that reads neither the ledger nor payroll. *)
Lemma payroll_keeps_untouched (I : database -> Prop) op :
  (forall d d', (directory_tables d', catalog_tables d', stock_tables d', selling_tables d', tills_tables d',
     purchasing_tables d', transit_tables d', people_tables d')
   = (directory_tables d, catalog_tables d, stock_tables d, selling_tables d, tills_tables d,
     purchasing_tables d, transit_tables d, people_tables d) -> I d -> I d') ->
  keeps I (run_payroll_op op).
Proof.
  intros frame. apply run_payroll_op_keeps.
  - intros d d' [= E1 E2 _ E4 E5 E6 _ E8 _ E9 E10]. apply frame. congruence.
  - intros q by_ _. apply (keeps_frame _ (fun d => (untouched_tables d, purchasing_tables d)));
      [|apply post_fixes_committed|apply post_fixes_untouched].
    intros d d' [= E1 E2 E3 E4 E5 _ E7 E8 _ E9]. apply frame. congruence.
Qed.

Lemma payroll_keeps_draft_books op : keeps draft_books (run_payroll_op op).
Proof.
  apply run_payroll_op_keeps; [|intros; apply post_keeps_draft].
  intros d d' [= _ _ E _ _ _ _ _ _ _ _]. by apply draft_books_ext.
Qed.

(** Whatever they commit has passed the deferred checks. *)
Lemma payroll_checked op : commits_checked (run_payroll_op op).
Proof.
  assert (Hflush : forall p, fixes committed (flush_lines p)) by (intros; by apply flush_lines_fixes).
  assert (Hend : forall {A} (m : Tx A), fixes committed m -> commits_checked (committing m)).
  { intros A m Hm. apply checked_bind; [by apply checked_fixes|intros a].
    apply checked_bind; [apply checked_commit|intros ?; apply checked_fixes, fixes_ret]. }
  destruct op; simpl; payroll_parts;
    repeat first [apply Hend
                 |match goal with |- commits_checked (if ?b then _ else _) => destruct b end
                 |match goal with |- commits_checked (match ?o with Some _ => _ | None => _ end) => destruct o end
                 |apply checked_bind; [apply checked_fixes; solve [solve_fixes]|intros ?]];
    try (apply checked_fixes, fixes_ret); walk_fixes ltac:(first [apply Hflush|solve_fixes]).
Qed.

Lemma payroll_keeps_payables op : keeps payables_wf (run_payroll_op op).
Proof.
  apply run_payroll_op_keeps.
  - intros d d' [= _ _ E1 _ _ _ _ E2 E3 _ _]. apply payables_wf_ext.
    unfold payables_frame, settlement_tables, matched_tables. by rewrite E1, E2, E3.
  - intros q by_ Hq. apply post_keeps_payables, payroll_posting_elsewhere; [done|].
    apply (bool_decide_eq_false_1 _). by vm_compute.
Qed.

Lemma payroll_keeps_purchasing op : keeps purchasing_wf (run_payroll_op op).
Proof.
  apply payroll_keeps_untouched. intros d d' [= _ _ _ _ _ E _ _]. apply purchasing_wf_ext.
  unfold document_tables. by rewrite E.
Qed.

Lemma payroll_keeps_transit op : keeps transit_wf (run_payroll_op op).
Proof.
  apply payroll_keeps_untouched. intros d d' [= E1 _ _ _ _ _ E7 _]. apply transit_wf_ext.
  unfold transit_reads. by rewrite E1, E7.
Qed.

Lemma payroll_keeps_transit_books op : keeps transit_books (run_payroll_op op).
Proof.
  apply run_payroll_op_keeps.
  - intros d d' [= _ _ E1 _ _ _ _ _ _ E2 _]. apply transit_books_ext. unfold books_reads. by rewrite E1, E2.
  - intros q by_ Hq. apply post_keeps_transit_books, payroll_posting_elsewhere; [done|].
    apply (bool_decide_eq_false_1 _). by vm_compute.
Qed.

(** ** What keeps the payroll invariant *)

Lemma payroll_wf_books d d' :
  payroll_tables d' = payroll_tables d ->
  (forall code, code ∈ PAYROLL_ACCOUNTS -> account_balance d' code = account_balance d code) ->
  payroll_wf d -> payroll_wf d'.
Proof.
  intros E Hb [H1 H2 H3 H4 H5].
  constructor; unfold period_ok, totals_match, period_results, result_ok, payroll_books, payroll_ledger,
    in_force, was_reversed in *; rewrite ?E; try done.
  intros code Hc. by rewrite Hb, H5.
Qed.

Lemma posting_keeps_payroll q by_ : payroll_posting q = false -> keeps payroll_wf (post q by_).
Proof.
  intros Hq. apply keeps_of_ok; [apply post_fixes_committed|]. intros s r s' _ Hw H.
  pose proof (fixes_run _ _ _ _ _ (post_fixes_untouched q by_) H) as E. injection E as _ _ _ _ _ _ _ _ E _.
  apply (payroll_wf_books (working s)); [done| |done]. intros code Hc.
  rewrite (post_account_balance q by_ s r s' code H), posting_off_payroll by done. lia.
Qed.

(** The ledger and payroll decide it. *)
Definition pay_books_tables (d : database) := (ledger_tables d, payroll_tables d).

Lemma keeps_payroll_frame {A} (m : Tx A) :
  fixes committed m -> fixes (fun s => pay_books_tables (working s)) m -> keeps payroll_wf m.
Proof.
  apply (keeps_frame _ pay_books_tables). intros d d' [E1 E2]%pair_equal_spec.
  apply payroll_wf_ext. unfold payroll_reads. by rewrite E1, E2.
Qed.

Lemma purchasing_keeps_payroll op : keeps payroll_wf (run_purchasing_op op).
Proof.
  apply run_purchasing_op_keeps.
  - intros d d' [= _ _ E1 _ _ _ _ _ _ _ E2]. apply payroll_wf_ext. unfold payroll_reads. by rewrite E1, E2.
  - intros pid a. apply keeps_payroll_frame; unfold pay_books_tables, record_movement, lock_product_for_update; solve_fixes.
  - intros i st dt vs by_. by apply (posting_keeps_payroll (P_goods_receipt i st dt vs)).
  - intros i st dt vs by_. by apply (posting_keeps_payroll (P_purchase_return i st dt vs)).
Qed.

Lemma payables_keep_payroll op : keeps payroll_wf (run_payables_op op).
Proof.
  apply run_payables_op_keeps.
  - intros d d' [= _ _ E1 _ _ _ _ _ _ _ E2]. apply payroll_wf_ext. unfold payroll_reads. by rewrite E1, E2.
  - intros q by_ Hq. apply posting_keeps_payroll. by destruct q.
  - intros k total. apply keeps_payroll_frame; unfold pay_books_tables; solve_fixes.
Qed.

Lemma transit_keeps_payroll op : keeps payroll_wf (run_transit_op op).
Proof.
  apply run_transit_op_keeps.
  - intros d d' [= _ _ E1 _ _ _ _ _ _ _ E2]. apply payroll_wf_ext. unfold payroll_reads. by rewrite E1, E2.
  - intros pid a. apply keeps_payroll_frame; unfold pay_books_tables, record_movement, lock_product_for_update; solve_fixes.
  - intros q by_ Hq. apply posting_keeps_payroll. by destruct q.
Qed.

(** ** The staff *)

(** What the personnel invariant reads, the others do not write. *)
Lemma purchasing_keeps_staff op : keeps staff_wf (run_purchasing_op op).
Proof.
  apply run_purchasing_op_keeps; [intros d d' [= _ _ _ _ _ _ _ _ _ E _]; apply staff_wf_ext; unfold staff_tables; by rewrite E|..];
    intros; apply (keeps_frame _ people_tables);
    try (intros d d' E; apply staff_wf_ext; unfold staff_tables; by rewrite E);
    unfold post_goods_receipt_journal, post_purchase_return_journal, _post_standard, posted,
      record_movement, lock_product_for_update; solve_fixes.
Qed.

Lemma untouched_keeps_staff : forall d d', untouched_tables d' = untouched_tables d -> staff_wf d -> staff_wf d'.
Proof. intros d d' [= _ _ _ _ _ _ _ E _]. apply staff_wf_ext. unfold staff_tables. by rewrite E. Qed.

Lemma payables_keep_staff op : keeps staff_wf (run_payables_op op).
Proof. apply payables_keep_untouched, untouched_keeps_staff. Qed.

Lemma transit_keeps_staff op : keeps staff_wf (run_transit_op op).
Proof.
  apply run_transit_op_keeps.
  - intros d d' [= _ _ _ _ _ _ _ _ _ E _]. apply staff_wf_ext. unfold staff_tables. by rewrite E.
  - intros pid a. apply (keeps_frame _ people_tables);
      [intros d d' E; apply staff_wf_ext; unfold staff_tables; by rewrite E|..];
      unfold record_movement, lock_product_for_update; solve_fixes.
  - intros q by_ _. apply posting_keeps_untouched, untouched_keeps_staff.
Qed.

Lemma payroll_keeps_staff op : keeps staff_wf (run_payroll_op op).
Proof.
  apply payroll_keeps_untouched. intros d d' [= _ _ _ _ _ _ _ E]. apply staff_wf_ext.
  unfold staff_tables. by rewrite E.
Qed.

(** The personnel operations write the tables of the people and the trail. *)
Definition beside_people (d : database) :=
  (directory_tables d, catalog_tables d, ledger_tables d, stock_tables d, selling_tables d,
   tills_tables d, fiscal_tables d, purchasing_tables d, payables_tables d, transit_tables d, payroll_tables d).

Lemma hr_keeps_frame (I : database -> Prop) uo op :
  (forall d d', beside_people d' = beside_people d -> I d -> I d') -> keeps I (run_hr_op uo op).
Proof.
  intros frame.
  assert (K : forall {A} (m : Tx A), fixes committed m -> fixes (fun s => beside_people (working s)) m -> keeps I m).
  { intros A m. by apply (keeps_frame _ beside_people). }
  destruct op; simpl; hr_parts; hr_parts; unfold or_conflict, committing;
    walk_keeps ltac:(apply K; solve [solve_fixes]).
Qed.
