(* ===== verification/TransitFixture.v ===== *)
(** * A worked example of goods in transit

    A transfer from store 1 to store 2: drafted for two products, shipped,
    received short and damaged, its discrepancy investigated and resolved, the
    loss requested, approved and reversed.  The examples of
    [TransitProperties] start from these states. *)

From S2P Require Import Prelude Fixed Session Schema Tables Platform Chart Fixture Journal.
From S2P Require Import Posting Books Inventory Discrepancies Transfers WriteOffs.
From S2P Require Import TransitInvariant TransitOps WriteOffOps InTransit TransitInterplay.

Definition transit_user (name : string) (store : option Z) : User :=
  {| user_store_id := store; username := name; password_hash := name; user_is_active := true |}.

(** The demo database with the catalog entry of store 2 (product 3, the SKU of
    product 1), a manager of store 2 (user 3) and an administrator (user 4). *)
Definition transit_database : database :=
  over_roles (fun t => t ++ [{| role_name := ADMIN |}])
  (over_users (fun t => t ++ [transit_user "manager-2" (Some 2); transit_user "admin" None])
  (over_user_roles (fun t => t ++ [{| ur_user_id := 3; ur_role_id := 1 |};
                                   {| ur_user_id := 4; ur_role_id := 2 |}])
  (over_products (fun t => t ++
     [{| product_store_id := 2; product_category_id := None; current_price := 260; current_cost := 0;
         product_tax_rate_id := None; current_qty_on_hand := 0; allow_negative_stock := false;
         product_is_active := true; sku := "A-1" |}])
  demo_database))).

Definition transit_demo : session database := session_on transit_database.

Definition transfer_step (op : transfer_op) (s : session database) : session database :=
  checkpoint (after (run_transfer_op op) s).

Definition write_off_step (op : write_off_op) (s : session database) : session database :=
  checkpoint (after (run_write_off_op op) s).

(** *** Drafted: 10 of product 1 for its namesake, 5 of product 2 remapped *)

Definition demo_transfer : TransferArgs :=
  {| ta_from_store_id := 1; ta_to_store_id := 2; ta_requested_date := 20250; ta_notes := None;
     ta_requested_by := Some 2; ta_replenishment_plan_id := None |}.

Definition demo_transfer_lines : list TransferLineInput :=
  [{| ti_source_product_id := 1; ti_requested_quantity := 10000; ti_destination_product_id := None |};
   {| ti_source_product_id := 2; ti_requested_quantity := 5000; ti_destination_product_id := Some 3 |}].

Definition demo_drafted : session database :=
  transfer_step (T_create demo_transfer demo_transfer_lines (Some 1)) transit_demo.

(** *** Shipped: 8 of the 10, all of the 5 *)

Definition demo_ship_lines : list ShipLineInput :=
  [{| sh_line_id := 1; quantity_to_ship := 8000 |}; {| sh_line_id := 2; quantity_to_ship := 5000 |}].

Definition demo_shipped : session database :=
  transfer_step (T_ship 1 demo_ship_lines "ship-1" (Some 1) (Some 2)) demo_drafted.

(** *** Received: 5 good, 2 damaged, 1 short of the first, 4 of the second *)

Definition receive_line (k g dm sh : qty) : ReceiveLineInput :=
  {| rl_line_id := k; rl_received := g; rl_damaged := dm; rl_declared_short := sh |}.

Definition demo_transfer_receipt : TransferReceiptArgs :=
  {| tra_transfer_id := 1; tra_received_date := 20255; tra_key := "recv-1"; tra_received_by := Some 3;
     tra_notes := None |}.

Definition demo_receive_lines : list ReceiveLineInput :=
  [receive_line 1 3000 0 0; receive_line 1 2000 2000 1000; receive_line 2 4000 0 0].

Definition demo_arrived : session database :=
  transfer_step (T_receive demo_transfer_receipt demo_receive_lines (Some 2)) demo_shipped.

(** *** Investigated and resolved *)

Definition demo_resolved : session database :=
  transfer_step (T_resolve 1 "TRANSIT_DAMAGE" "crushed crates" (Some 2) (Some 3))
    (transfer_step (T_investigate 1 (Some 2) (Some 3)) demo_arrived).

(** *** The loss of 2.5 requested under a rule of store 1, approved, reversed *)

Definition demo_rule : RuleArgs :=
  {| rua_action_type := "TRANSFER_WRITE_OFF"; rua_scope_store_id := Some 1; rua_min_amount := 0;
     rua_max_amount := Some 500000000; rua_required_role_id := 1; rua_escalation_role_id := None;
     rua_is_active := true; rua_created_by := Some 4 |}.

Definition demo_write_off : WriteOffArgs :=
  {| wa_discrepancy_id := 1; wa_quantity := 2500; wa_reason := "crushed crates"; wa_key := "wo-1";
     wa_initiated_by := Some 3 |}.

Definition demo_requested : session database :=
  write_off_step (W_create demo_write_off (Some 2)) (write_off_step (W_rule demo_rule) demo_resolved).

Definition demo_written_off : session database :=
  write_off_step (W_approve 1 "agreed" (Some 2) None) demo_requested.

Definition demo_reversed : session database :=
  write_off_step (W_reverse 1 "found in the yard" (Some 4)) demo_written_off.

(** *** Every one of these states is consistent *)

Definition transit_state (d : database) : Prop := in_transit_wf d /\ books_wf d.

Lemma transit_demo_wf : transit_state (working transit_demo).
Proof.
  split; [split; [by apply no_transit_wf|by apply no_transit_books]|].
  by apply (empty_ledger_wf (working transit_demo)).
Qed.

Lemma transfer_step_wf op s :
  committed s = working s -> ships_once op -> transit_state (working s) ->
  (exists a, (run_transfer_op op s).1 = Ok a) -> transit_state (working (transfer_step op s)).
Proof.
  intros E Ho W. apply (keeps_after transit_state (run_transfer_op op) s); [|by rewrite E|done].
  apply keeps_and; [by apply transfer_op_in_transit|exact (transit_keeps_books (X_transfer op))].
Qed.

Lemma write_off_step_wf op s :
  committed s = working s -> transit_state (working s) ->
  (exists a, (run_write_off_op op s).1 = Ok a) -> transit_state (working (write_off_step op s)).
Proof.
  intros E W. apply (keeps_after transit_state (run_write_off_op op) s); [|by rewrite E|done].
  apply keeps_and; [apply write_off_op_in_transit|exact (transit_keeps_books (X_write_off op))].
Qed.

Lemma demo_drafted_wf : transit_state (working demo_drafted).
Proof. apply transfer_step_wf; [reflexivity|done|exact transit_demo_wf|by eexists; vm_compute]. Qed.

Lemma demo_shipped_wf : transit_state (working demo_shipped).
Proof.
  apply transfer_step_wf; [apply checkpoint_clean| |exact demo_drafted_wf|by eexists; vm_compute].
  apply (bool_decide_unpack _). by vm_compute.
Qed.

Lemma demo_arrived_wf : transit_state (working demo_arrived).
Proof. apply transfer_step_wf; [apply checkpoint_clean|done|exact demo_shipped_wf|by eexists; vm_compute]. Qed.

Lemma demo_resolved_wf : transit_state (working demo_resolved).
Proof.
  apply transfer_step_wf; [apply checkpoint_clean|done| |by eexists; vm_compute].
  apply transfer_step_wf; [apply checkpoint_clean|done|exact demo_arrived_wf|by eexists; vm_compute].
Qed.

Lemma demo_requested_wf : transit_state (working demo_requested).
Proof.
  apply write_off_step_wf; [apply checkpoint_clean| |by eexists; vm_compute].
  apply write_off_step_wf; [apply checkpoint_clean|exact demo_resolved_wf|by eexists; vm_compute].
Qed.

Lemma demo_written_off_wf : transit_state (working demo_written_off).
Proof. apply write_off_step_wf; [apply checkpoint_clean|exact demo_requested_wf|by eexists; vm_compute]. Qed.
