(* ===== verification/TransitProperties.v ===== *)
(** * Properties of transfers and write-offs

    What a shipment and a receipt do to stock, to the lines and to the books;
    that an approved and then reversed write-off leaves nothing behind; who may
    decide and under which rule; how far the reconciliation report can drift. *)

From S2P Require Import Prelude Fixed Session Schema Tables Platform Chart Fixture Journal.
From S2P Require Import Posting Books Reports Inventory Discrepancies Transfers WriteOffs.
From S2P Require Import TransitInvariant TransitOps WriteOffOps InTransit TransitFixture.

(** A key that tells the elements of a list apart. *)
Lemma NoDup_map_inj {A B} (f : A -> B) (l : list A) x y :
  NoDup (map f l) -> x ∈ l -> y ∈ l -> f x = f y -> x = y.
Proof.
  induction l as [|z l IH]; intros Hnd Hx Hy E; [by apply elem_of_nil in Hx|].
  apply NoDup_cons in Hnd as [Hz Hnd].
  apply elem_of_cons in Hx as [->|Hx], Hy as [->|Hy]; [done| | |by apply IH].
  - destruct Hz. rewrite E. by apply list_elem_of_fmap_2.
  - destruct Hz. rewrite <- E. by apply list_elem_of_fmap_2.
Qed.

(** ** Shipment *)

(** C4: A shipment whose key is new and which lists each line once: the transfer
    is a draft and becomes SHIPPED under the key; every listed line of it
    records the quantity it shipped, within its request, and the cost its
    product has at that moment, every other line is untouched; each product of
    the source store loses exactly what its lines ship and keeps its cost; the
    Inventory In Transit account grows by the value of the shipment, each line
    rounded on its own. *)
Theorem ship_transfer_effect tid inputs key caller by_ s i s' :
  committed s = working s -> NoDup (map sh_line_id inputs) ->
  (forall t, t ∈ transfers (working s) -> shipped_under key t = false) ->
  ship_transfer tid inputs key caller by_ s = (Ok i, s') ->
  let d := working s in let d' := working s' in
  i = tid /\
  (exists t, row_of (transfers d) tid = Some t /\ tr_status t = TR_DRAFT /\
     store_denied caller (from_store_id t) = false /\
     row_of (transfers d') tid = Some (with_shipped by_ (utc_now (env s)) (with_ship_key key t))) /\
  (forall x, x ∈ inputs -> exists l p, row_of (transfer_lines d) (sh_line_id x) = Some l /\
     tl_transfer_id l = tid /\ 0 < quantity_to_ship x <= requested_quantity l /\
     row_of (products d) (source_product_id l) = Some p /\
     row_of (transfer_lines d') (sh_line_id x)
     = Some (with_line_shipped (quantity_to_ship x) (current_cost p) l)) /\
  (forall k, k ∉ map sh_line_id inputs -> row_of (transfer_lines d') k = row_of (transfer_lines d) k) /\
  (forall pid p, row_of (products d) pid = Some p ->
     row_of (products d') pid = Some (with_stock (current_qty_on_hand p - shipped_from d inputs pid) None p)) /\
  account_balance d' ACCOUNT_INVENTORY_IN_TRANSIT
  = account_balance d ACCOUNT_INVENTORY_IN_TRANSIT + sum_by (ship_value d) inputs.
Proof.
  intros Hc Hnd Hnew H. simpl.
  apply ship_transfer_ok in H as [[-> (t & Ht%row_of_elem & Hk)]|[[-> (t & Ht & Hk)]|H]].
  { by rewrite Hnew in Hk. }
  { rewrite Hc in Ht. apply row_of_elem in Ht. by rewrite Hnew in Hk. }
  destruct H as (_ & -> & _ & _ & t & Ht & Hst & [Hdr Hck] & _ & [_ Htr Hl Hp _ Hb]).
  assert (Hone : forall x, x ∈ inputs -> forall l, ship_onto (working s) inputs (sh_line_id x) l
    = with_line_shipped (quantity_to_ship x) (cost_at (working s) (source_product_id l)) l).
  { intros x Hx l. destruct (ship_onto_cases (working s) inputs (sh_line_id x) l) as [[_ Hno]|(y & Hy & Hxy & ->)].
    - by destruct (Hno x Hx).
    - by rewrite (NoDup_map_inj _ _ _ _ Hnd Hy Hx Hxy). }
  split_and!; [done| | | |intros pid p Hpp; by rewrite Hp, Hpp|done].
  - exists t. split_and!; [done..|]. rewrite Htr. by rewrite !row_of_set, Ht, !bool_decide_eq_true_2.
  - intros x Hx. destruct (Hck x Hx) as (Hpos & l & p & Hlx & Htl & Hle & Hpr). exists l, p.
    split_and!; [done..|]. rewrite Hl, Hlx. simpl. rewrite Hone by done.
    unfold cost_at. by rewrite Hpr.
  - intros k Hk. rewrite Hl. destruct (row_of (transfer_lines (working s)) k) as [l|]; [simpl|done].
    destruct (ship_onto_cases (working s) inputs k l) as [[-> _]|(y & Hy & <- & _)]; [done|].
    destruct Hk. by apply list_elem_of_fmap_2.
Qed.

Lemma ship_transfer_effect_witness :
  let s' := after (ship_transfer 1 demo_ship_lines "ship-1" (Some 1) (Some 2)) demo_drafted in
  account_balance (working s') ACCOUNT_INVENTORY_IN_TRANSIT = 11266665 /\
  (exists p, row_of (products (working s')) 1 = Some p /\ current_qty_on_hand p = 32000).
Proof.
  intros s'.
  assert (H : ship_transfer 1 demo_ship_lines "ship-1" (Some 1) (Some 2) demo_drafted = (Ok 1, s'))
    by (refine (after_ok (ship_transfer 1 demo_ship_lines "ship-1" (Some 1) (Some 2)) demo_drafted 1 _);
        vm_compute; reflexivity).
  destruct (ship_transfer_effect 1 demo_ship_lines "ship-1" (Some 1) (Some 2) demo_drafted 1 s'
    (checkpoint_clean _)) as (_ & _ & _ & _ & Hp & Hb); [|intros t|exact H|].
  - apply (bool_decide_unpack _). vm_compute. reflexivity.
  - revert t. apply Forall_forall. vm_compute. by repeat constructor.
  - split; [rewrite Hb; vm_compute; reflexivity|].
    eexists. split; [apply Hp; vm_compute; reflexivity|reflexivity].
Defined.

(** ** Receipt *)

(** What the lines bring of product [pid]. *)
Definition brought (d : database) (pid : Z) (lines : list ReceiveLineInput) : qty :=
  sum_by rl_received (lines_into d pid lines).

(** The goods of some lines, taken in one after the other. *)
Lemma taken_in d p ls :
  (forall l, l ∈ ls -> 0 <= rl_received l) ->
  exists c, fold_left (take_into d) ls p
            = with_stock (current_qty_on_hand p + sum_by rl_received ls) (Some c) p /\
    forall lo hi, 0 <= current_qty_on_hand p -> lo <= current_cost p <= hi ->
      (forall l, l ∈ ls -> lo <= line_cost d (rl_line_id l) <= hi) -> lo <= c <= hi.
Proof.
  revert p. induction ls as [|l ls IH]; intros p Hn.
  { exists (current_cost p). rewrite sum_by_nil, Z.add_0_r. split; [by destruct p|done]. }
  destruct (IH (take_into d p l)) as (c & E & Hc); [intros x Hx; apply Hn; set_solver|].
  exists c. simpl. rewrite E, sum_by_cons. specialize (Hn l ltac:(set_solver)).
  unfold take_into in *. destruct (Z.ltb_spec 0 (rl_received l)) as [Hpos|Hz].
  - split; [destruct p; unfold with_stock; simpl; f_equal; lia|]. intros lo hi Hq Hp Hl.
    apply Hc; [simpl; lia| |intros x Hx; apply Hl; set_solver]. simpl.
    apply compute_new_wac_between; [done..|]. apply Hl. set_solver.
  - replace (rl_received l) with 0 by lia. split; [by rewrite Z.add_0_l|].
    intros lo hi Hq Hp Hl. apply Hc; [done|done|]. intros x Hx. apply Hl. set_solver.
Qed.

(** What a discrepancy row says of its receipt item. *)
Definition discrepancy_fact (r : ReceivingDiscrepancy) :=
  (rd_source_id r, quantity_short r, quantity_damaged r, rd_status r).

Definition item_fact (il : Z * ReceiveLineInput) :=
  (il.1, rl_declared_short il.2, rl_damaged il.2, RECORDED).

Lemma raised_facts d a t now tid items :
  (forall il, il ∈ items -> exists tl c, row_of (transfer_lines d) (rl_line_id il.2) = Some tl /\
     tl_transfer_id tl = tid /\ unit_cost_at_shipment tl = Some c) ->
  map discrepancy_fact (omap (raised d a t now) items)
  = map item_fact (List.filter (fun il => negb (clean_line il.2)) items).
Proof.
  induction items as [|il items IH]; intros H; [done|].
  simpl. unfold raised at 1. destruct (clean_line il.2) eqn:E; simpl.
  - apply IH. intros x Hx. apply H. set_solver.
  - destruct (H il ltac:(set_solver)) as (tl & c & -> & _ & ->). simpl. f_equal.
    apply IH. intros x Hx. apply H. set_solver.
Qed.

(** C5: A receipt under a new key: its transfer is shipped; every line of the
    transfer counts the good, damaged and short units of the request on top of
    what it had, and stays within what was shipped; each product of the
    destination gains exactly the good units of its lines and nothing else of
    it changes but its cost, which, when its stock was not negative, lies
    between its old one and the frozen shipment costs (a product oversold below
    zero has no such bound); every input line that is not clean, and no other,
    raises a discrepancy with its quantities; and the Inventory In Transit
    account falls by the value of the good units alone. *)
Theorem receive_transfer_effect a lines caller s i s' :
  transit_wf (working s) -> committed s = working s ->
  (forall r, r ∈ transfer_receipts (working s) -> receipt_under_key (tra_key a) r = false) ->
  receive_transfer a lines caller s = (Ok i, s') ->
  let d := working s in let d' := working s' in
  i = next_id (transfer_receipts d) /\
  (exists t, row_of (transfers d) (tra_transfer_id a) = Some t /\ tr_status t = TR_SHIPPED /\
     store_denied caller (to_store_id t) = false) /\
  (forall k l, row_of (transfer_lines d) k = Some l ->
     row_of (transfer_lines d') k = Some (with_counted (counts_of lines k) l) /\
     accounted l + total_counts (counts_of lines k) <= shipped_quantity l) /\
  (forall pid p, row_of (products d) pid = Some p ->
     exists c, row_of (products d') pid
       = Some (with_stock (current_qty_on_hand p + brought d pid lines) (Some c) p) /\
     forall lo hi, 0 <= current_qty_on_hand p -> lo <= current_cost p <= hi ->
       (forall l, l ∈ lines -> lo <= line_cost d (rl_line_id l) <= hi) -> lo <= c <= hi) /\
  (exists new, discrepancies d' = discrepancies d ++ new /\
     map discrepancy_fact new
     = map item_fact (List.filter (fun il => negb (clean_line il.2))
                        (numbered (next_id (transfer_receipt_items d)) lines))) /\
  account_balance d' ACCOUNT_INVENTORY_IN_TRANSIT
  = account_balance d ACCOUNT_INVENTORY_IN_TRANSIT - sum_by (received_value d) lines.
Proof.
  intros Hd Hc Hnew H. simpl.
  apply (receive_transfer_ok _ _ _ _ _ _ Hd) in H as [[-> (r & Hr%row_of_elem & Hk)]|[[-> (r & Hr & Hk)]|H]].
  { by rewrite Hnew in Hk. }
  { rewrite Hc in Hr. apply row_of_elem in Hr. by rewrite Hnew in Hk. }
  destruct H as (_ & -> & _ & _ & t & Ht & Hst & [Hsh _] & [Hin Hwithin] & (Hrc & Hp & Hb & _)).
  assert (Hnn : forall l, l ∈ lines -> 0 <= rl_received l) by (intros l Hl; by destruct (Hin l Hl) as ((? & _) & _)).
  split_and!; [done|by exists t| | | |].
  - intros k l Hl. split; [by rewrite (rc_lines _ _ _ _ _ _ Hrc), Hl|by apply Hwithin].
  - intros pid p Hpid. rewrite (Hp pid p Hpid).
    assert (Hsub : forall l, l ∈ lines_into (working s) pid lines -> l ∈ lines)
      by (intros l [Hl _]%list_elem_of_In%filter_In; by apply list_elem_of_In).
    destruct (taken_in (working s) p (lines_into (working s) pid lines)) as (c & -> & Hcost);
      [intros l Hl; apply Hnn, Hsub, Hl|].
    exists c. split; [done|]. intros lo hi Hq Hpc Hl. apply Hcost; [done..|]. intros l Hx. by apply Hl, Hsub.
  - eexists. split; [apply (rc_discrepancies _ _ _ _ _ _ Hrc)|]. eapply raised_facts.
    intros il (j & l & -> & Hj)%elem_of_lookup_imap_1. simpl.
    apply list_elem_of_lookup_2 in Hj. by destruct (Hin l Hj) as (_ & _ & Hx).
  - rewrite Hb. pose proof (received_value_nonneg (working s) lines Hd Hnn).
    destruct (Z.leb_spec (sum_by (received_value (working s)) lines) 0); lia.
Qed.

Lemma receive_transfer_effect_witness :
  let s' := after (receive_transfer demo_transfer_receipt demo_receive_lines (Some 2)) demo_shipped in
  account_balance (working s') ACCOUNT_INVENTORY_IN_TRANSIT = 3933333 /\
  (exists p, row_of (products (working s')) 3 = Some p /\ current_qty_on_hand p = 9000) /\
  map quantity_damaged (discrepancies (working s')) = [2000].
Proof.
  intros s'.
  assert (H : receive_transfer demo_transfer_receipt demo_receive_lines (Some 2) demo_shipped = (Ok 1, s'))
    by (refine (after_ok (receive_transfer demo_transfer_receipt demo_receive_lines (Some 2)) demo_shipped 1 _);
        vm_compute; reflexivity).
  destruct (receive_transfer_effect demo_transfer_receipt demo_receive_lines (Some 2) demo_shipped 1 s'
    (proj1 (proj1 demo_shipped_wf)) (checkpoint_clean _)) as (_ & _ & _ & Hp & _ & Hb); [|exact H|].
  - intros r. revert r. apply Forall_forall. vm_compute. by repeat constructor.
  - split; [rewrite Hb; vm_compute; reflexivity|]. split; [|vm_compute; reflexivity].
    edestruct (Hp 3) as (c & E & _); [vm_compute; reflexivity|]. eexists. split; [exact E|reflexivity].
Defined.

(** ** Write-offs *)

Lemma written_off_restored (t : list InterStoreTransferLine) j q :
  set_row j (with_written_off (- q)) (set_row j (with_written_off q) t) = t.
Proof.
  unfold set_row. destruct (0 <? j); [|done]. rewrite list_alter_alter_eq. apply list_alter_id.
  intros l. destruct l. unfold with_written_off. simpl. f_equal. lia.
Qed.

(** C6: Approving a pending write-off and reversing it leaves nothing behind but
    the record: the decision is taken by somebody other than the initiator who
    holds the required role or is the administrator, the reversal by somebody
    whose role is the administrator's; in between, the transfer line carries the written-off
    quantity and its value has moved from Inventory In Transit to shrinkage
    expense; afterwards every account has the balance it had, the transfer
    lines, the discrepancies and the stock are what they were, and the
    write-off reads REVERSED with both journal entries. *)
Theorem write_off_round_trip k notes by_ dt s i s1 reason by2 j s2 :
  (forall v, v ∈ write_off_approvals (working s) -> decides k v = false) ->
  approve_write_off k notes by_ dt s = (Ok i, s1) ->
  (forall w, row_of (write_offs (working s)) k = Some w -> wo_reversal_journal_entry_id w = None) ->
  reverse_write_off k reason by2 s1 = (Ok j, s2) ->
  exists w actor actor2 e1 e2,
    row_of (write_offs (working s)) k = Some w /\ wo_status w = WO_PENDING_APPROVAL /\
    by_ = Some actor /\ may_decide (working s) w actor /\
    by2 = Some actor2 /\ role_names_of (working s) actor2 = [ADMIN] /\
    row_of (write_offs (working s1)) k = Some (with_wo_status WO_POSTED (Some e1) None w) /\
    transfer_lines (working s1)
    = set_row (transfer_line_id w) (with_written_off (wo_quantity w)) (transfer_lines (working s)) /\
    (forall code, account_balance (working s1) code
       = account_balance (working s) code + spec_net (loss_lines (wo_amount w)) code) /\
    row_of (write_offs (working s2)) k = Some (with_wo_status WO_REVERSED (Some e1) (Some e2) w) /\
    transfer_lines (working s2) = transfer_lines (working s) /\
    discrepancies (working s2) = discrepancies (working s) /\
    stock_tables (working s2) = stock_tables (working s) /\
    catalog_tables (working s2) = catalog_tables (working s) /\
    forall code, account_balance (working s2) code = account_balance (working s) code.
Proof.
  intros Hnone H1 Hrev H2.
  apply approve_write_off_ok in H1 as (-> & w & Hw & [[_ (v & Hv & Hk)]|H1]); [by rewrite Hnone in Hk|].
  destruct H1 as (actor & e1 & now & -> & _ & _ & Hst & Hmay & _ & _ & [D1 S1] & B1).
  rewrite (Hrev w Hw) in D1. injection D1 as _ _ L1 _ _ X1 W1 _. injection S1 as D0 C1 T1.
  assert (Hw1 : row_of (write_offs (working s1)) k = Some (with_wo_status WO_POSTED (Some e1) None w))
    by (rewrite W1, row_of_set, bool_decide_eq_true_2 by done; simpl; by rewrite Hw).
  apply reverse_write_off_ok in H2 as (-> & act2 & w1 & -> & Hadm & Hw1' & H2).
  rewrite Hw1 in Hw1'. injection Hw1' as <-.
  destruct H2 as [[_ [? E]]|(e2 & _ & _ & [D2 S2] & B2)]; [done|].
  injection D2 as _ _ L2 _ _ X2 W2 _. injection S2 as _ C2 T2. simpl in L2, B2, W2.
  rewrite Hst in L1. change (posted_part WO_PENDING_APPROVAL (wo_quantity w)) with 0 in L1.
  change (posted_part WO_POSTED (wo_quantity w)) with (wo_quantity w) in L1, L2.
  change (posted_part WO_REVERSED (wo_quantity w)) with 0 in L2. rewrite Z.sub_0_r in L1.
  exists w, actor, act2, e1, e2. split_and!; try done.
  - unfold role_names_of in *. by rewrite <- D0.
  - rewrite W2, row_of_set, bool_decide_eq_true_2 by done. by rewrite Hw1.
  - rewrite L2, L1. apply written_off_restored.
  - by rewrite X2.
  - by rewrite T2.
  - by rewrite C2.
  - intros code. rewrite B2, B1. unfold loss_lines, found_again_lines. rewrite !spec_net_pair.
    destruct (bool_decide _), (bool_decide _); lia.
Qed.

Lemma write_off_round_trip_witness :
  let s1 := after (approve_write_off 1 "agreed" (Some 2) None) demo_requested in
  let s2 := after (reverse_write_off 1 "found in the yard" (Some 4)) s1 in
  account_balance (working s1) ACCOUNT_INVENTORY_SHRINKAGE_EXPENSE = 3000000 /\
  account_balance (working s2) ACCOUNT_INVENTORY_IN_TRANSIT = 3933333 /\
  transfer_lines (working s2) = transfer_lines (working demo_requested).
Proof.
  intros s1 s2. split; [vm_compute; reflexivity|].
  assert (H1 : approve_write_off 1 "agreed" (Some 2) None demo_requested = (Ok 1, s1))
    by (refine (after_ok (approve_write_off 1 "agreed" (Some 2) None) demo_requested 1 _); vm_compute; reflexivity).
  assert (H2 : reverse_write_off 1 "found in the yard" (Some 4) s1 = (Ok 1, s2))
    by (refine (after_ok (reverse_write_off 1 "found in the yard" (Some 4)) s1 1 _); vm_compute; reflexivity).
  destruct (write_off_round_trip 1 "agreed" (Some 2) None demo_requested 1 s1 "found in the yard" (Some 4) 1 s2)
    as (w & actor & act2 & e1 & e2 & _ & _ & _ & _ & _ & Hadm & _ & _ & _ & _ & Hl & _ & _ & _ & Hb); [|exact H1| |exact H2|].
  - intros v. revert v. apply Forall_forall. vm_compute. by repeat constructor.
  - intros w. vm_compute. by intros [= <-].
  - split; [rewrite Hb; vm_compute; reflexivity|exact Hl].
Defined.

(** ** The reconciliation report *)

(** Whether posting [q] units at [c] rounds. *)
Definition rounded (q : qty) (c : cost) : Z := if (q * c) mod 1000 =? 0 then 0 else 1.

Lemma quantize_error q c : 2 * Z.abs (1000 * ledger_quantize q c - q * c) <= 1000 * rounded q c.
Proof.
  unfold ledger_quantize, rounded. destruct (Z.eqb_spec ((q * c) mod 1000) 0) as [E|_].
  - assert (q * c = q * c / 1000 * 1000) as -> by (pose proof (Z.div_mod (q * c) 1000); lia).
    rewrite div_half_up_exact by lia. lia.
  - pose proof (div_half_up_error (q * c) 1000). lia.
Qed.

(** The postings of a line that round, and its figure in the report. *)
Definition line_roundings (d : database) (k : Z) (l : InterStoreTransferLine) : Z :=
  match unit_cost_at_shipment l with
  | Some c => rounded (shipped_quantity l) c + items_total (fun i => rounded (tri_received i) c) d k
              + sum_where (posted_on k) (fun w => rounded (wo_quantity w) c) (write_offs d)
              + rounded (outstanding l) c
  | None => 0
  end.

Definition roundings (d : database) : Z :=
  sum_by (fun kl => line_roundings d kl.1 kl.2) (with_ids (transfer_lines d)).

Definition reported_value (l : InterStoreTransferLine) : ledger :=
  match unit_cost_at_shipment l with Some c => ledger_quantize (outstanding l) c | None => 0 end.

(** The errors of a sum add up at most. *)
Lemma sum_quantize_error {A} (p : A -> bool) (q : A -> qty) c (l : list A) :
  2 * Z.abs (1000 * sum_where p (fun x => ledger_quantize (q x) c) l - sum_where p q l * c)
  <= 1000 * sum_where p (fun x => rounded (q x) c) l.
Proof.
  induction l as [|x l IH]; [done|]. rewrite !sum_where_cons. pose proof (quantize_error (q x) c).
  destruct (p x); lia.
Qed.

Lemma posted_at_line_cost d k l c w :
  transit_wf d -> row_of (transfer_lines d) k = Some l -> unit_cost_at_shipment l = Some c ->
  w ∈ write_offs d -> posted_on k w = true -> wo_amount w = ledger_quantize (wo_quantity w) c.
Proof.
  intros Hd Hl Hc Hw Hk. unfold posted_on in Hk. bools.
  destruct (lo_rows _ (tw_loss _ Hd) w Hw) as [(r & i & Hr%row_of_elem & Hi & El & Eu & _) _ -> _ _].
  destruct (fo_facts _ (tw_found _ Hd) r Hr) as (_ & i' & l' & t & c' & Hi' & Hl' & _ & Hc' & _ & _ & _ & _ & _ & _ & Ec).
  rewrite Hi in Hi'. injection Hi' as <-.
  assert (E : tri_line_id i = k) by lia. rewrite E, Hl in Hl'. injection Hl' as <-.
  rewrite Hc in Hc'. injection Hc' as <-. by rewrite Eu, Ec.
Qed.

Lemma line_drift d k l :
  transit_wf d -> row_of (transfer_lines d) k = Some l ->
  2 * Z.abs (value_in_transit d k l - reported_value l) <= line_roundings d k l.
Proof.
  intros Hd Hl. unfold value_in_transit, reported_value, line_roundings.
  destruct (unit_cost_at_shipment l) as [c|] eqn:Hc; [|done].
  pose proof (lf_counted _ _ _ (fw_lines _ (tw_flow _ Hd) k l Hl)) as Ecount. injection Ecount as Er _ _.
  pose proof (lo_lines _ (tw_loss _ Hd) k l Hl) as Ew.
  assert (Ea : posted_amount d k = sum_where (posted_on k) (fun w => ledger_quantize (wo_quantity w) c) (write_offs d)).
  { apply sum_by_ext. intros w Hw. destruct (posted_on k w) eqn:E; [|done]. by eapply posted_at_line_cost. }
  rewrite Ea. unfold items_total, posted_quantity in *.
  pose proof (quantize_error (shipped_quantity l) c). pose proof (quantize_error (outstanding l) c).
  pose proof (sum_quantize_error (fun i => tri_line_id i =? k) tri_received c (transfer_receipt_items d)).
  pose proof (sum_quantize_error (posted_on k) wo_quantity c (write_offs d)).
  unfold outstanding in *. rewrite Er, Ew in *. lia.
Qed.

Lemma sum_abs_le {A} (f g : A -> Z) (l : list A) :
  (forall x, x ∈ l -> 2 * Z.abs (f x) <= g x) -> 2 * Z.abs (sum_by f l) <= sum_by g l.
Proof.
  induction l as [|x l IH]; intros H; [done|]. rewrite !sum_by_cons.
  pose proof (H x ltac:(set_solver)). specialize (IH ltac:(intros; apply H; set_solver)). lia.
Qed.

Lemma outstanding_values ls s total :
  (forall kl : Z * InterStoreTransferLine, kl ∈ ls -> is_Some (unit_cost_at_shipment kl.2)) ->
  fold_m (fun total (kl : Z * InterStoreTransferLine) => v ← outstanding_value kl.2; mret (total + v)) ls total s
  = (Ok (total + sum_by (fun kl => reported_value kl.2) ls), s).
Proof.
  revert total. induction ls as [|kl ls IH]; intros total H; [by rewrite sum_by_nil, Z.add_0_r|].
  destruct (H kl ltac:(set_solver)) as [c Hc]. simpl.
  erewrite bind_ok_intro; [|unfold outstanding_value; rewrite Hc; reflexivity].
  rewrite IH by (intros; apply H; set_solver). rewrite sum_by_cons. unfold reported_value at 2. rewrite Hc.
  do 2 f_equal. lia.
Qed.

(** Lines with nothing outstanding are not selected, and would add nothing. *)
Lemma reported_total d :
  transit_wf d ->
  sum_by (fun kl => reported_value kl.2)
    (select (fun _ l => received_quantity l + written_off_quantity l <? shipped_quantity l) (transfer_lines d))
  = sum_by (fun kl => reported_value kl.2) (with_ids (transfer_lines d)).
Proof.
  intros Hd.
  rewrite (select_sum (fun l => received_quantity l + written_off_quantity l <? shipped_quantity l) reported_value).
  unfold sum_where. rewrite sum_by_ids. apply sum_by_ext. intros [k l] Hl%elem_with_ids. simpl.
  destruct (Z.ltb_spec (received_quantity l + written_off_quantity l) (shipped_quantity l)); [done|].
  pose proof (outstanding_nonneg d k l Hd Hl). unfold reported_value, outstanding in *.
  destruct (unit_cost_at_shipment l); [|done].
  by replace (shipped_quantity l - received_quantity l - written_off_quantity l) with 0 by lia.
Qed.

(** Everything shipped, received and written off in whole units. *)
Definition whole (q : qty) : Prop := q mod 1000 = 0.

Definition whole_units (d : database) : Prop :=
  Forall (fun l => whole (shipped_quantity l)) (transfer_lines d) /\
  Forall (fun i => whole (tri_received i)) (transfer_receipt_items d) /\
  Forall (fun w => whole (wo_quantity w)) (write_offs d).

Lemma whole_divides q : whole q <-> (1000 | q).
Proof. unfold whole. by rewrite Z.mod_divide. Qed.

Lemma rounded_whole q c : (1000 | q) -> rounded q c = 0.
Proof.
  intros [m ->]. unfold rounded. replace (m * 1000 * c) with (m * c * 1000) by lia.
  by rewrite Z.mod_mul by done.
Qed.

Lemma sum_where_divides {A} (p : A -> bool) (f : A -> Z) l :
  (forall x, x ∈ l -> (1000 | f x)) -> (1000 | sum_where p f l).
Proof.
  induction l as [|x l IH]; intros H; [by exists 0|]. rewrite sum_where_cons.
  apply Z.divide_add_r; [|apply IH; intros; apply H; set_solver].
  destruct (p x); [apply H; set_solver|by exists 0].
Qed.

Lemma roundings_whole d : transit_wf d -> whole_units d -> roundings d = 0.
Proof.
  intros Hd (Hs & Hi & Hw).
  assert (Hall : forall {A} (f : A -> qty) l, Forall (fun x => whole (f x)) l -> forall x, x ∈ l -> (1000 | f x))
    by (intros A f xs HF x Hx; apply whole_divides; by apply (proj1 (Forall_forall _ _) HF)).
  pose proof (Hall _ _ _ Hs) as Hs'. pose proof (Hall _ _ _ Hi) as Hi'. pose proof (Hall _ _ _ Hw) as Hw'.
  clear Hs Hi Hw. apply sum_by_zero. intros [k l] Hl%elem_with_ids. unfold line_roundings. simpl.
  destruct (unit_cost_at_shipment l) as [c|]; [|done].
  assert (Hsl : (1000 | shipped_quantity l)) by (by eapply Hs', row_of_elem).
  rewrite (rounded_whole (shipped_quantity l)) by done.
  unfold items_total, sum_where at 1. rewrite sum_by_zero.
  2:{ intros i Hin. rewrite rounded_whole by (by apply Hi'). by destruct (_ =? _). }
  unfold sum_where. rewrite sum_by_zero.
  2:{ intros w Hin. rewrite rounded_whole by (by apply Hw'). by destruct (posted_on _ _). }
  rewrite rounded_whole; [done|]. unfold outstanding.
  pose proof (lf_counted _ _ _ (fw_lines _ (tw_flow _ Hd) k l Hl)) as Ecount. injection Ecount as Er _ _.
  rewrite Er, (lo_lines _ (tw_loss _ Hd) k l Hl).
  apply Z.divide_sub_r; [apply Z.divide_sub_r; [done|]|]; by apply sum_where_divides.
Qed.

(** C7: The Inventory In Transit reconciliation never fails on a consistent
    database, its ledger figure is the value in transit, posting by posting,
    and its discrepancy is rounding alone: twice its size is at most the number
    of postings and outstanding lines whose value is not a whole number of
    ledger units (six decimals); when everything is counted in whole units it
    is zero. *)
Theorem reconciliation_drift s :
  in_transit_wf (working s) -> ledger_wf (working s) ->
  NoDup (map account_code (accounts (working s))) ->
  exists row, inventory_in_transit_reconciliation s = (Ok row, s) /\
    gl_in_transit_balance row = in_transit_value (working s) /\
    2 * Z.abs (in_transit_discrepancy row) <= roundings (working s) /\
    (whole_units (working s) -> in_transit_discrepancy row = 0).
Proof.
  intros [Hd Hb] Hl Hnd. unfold inventory_in_transit_reconciliation.
  erewrite bind_ok_intro by reflexivity. erewrite bind_ok_intro by reflexivity.
  erewrite bind_ok_intro; [|apply outstanding_values].
  2:{ intros [k l] [Hk Hlt]%elem_select. bools.
      destruct (fw_lines _ (tw_flow _ Hd) k l Hk) as [_ _ _ (H1 & _) _ _ Hcost _]. apply Hcost. simpl in *.
      pose proof (written_off_within _ k l Hd Hk). lia. }
  eexists. split; [reflexivity|]. simpl. rewrite (reported_total (working s) Hd).
  assert (E : net_debit (merge_sort code_le (omap (trial_balance_row everything (working s))
      (with_ids (accounts (working s))))) ACCOUNT_INVENTORY_IN_TRANSIT = in_transit_value (working s)).
  { rewrite <- Hb. unfold net_debit. erewrite net_credit_lines; [|done|apply (lw_account _ Hl)|apply merge_sort_Permutation].
    unfold sum_where, account_balance, sum_where. rewrite <- sum_by_opp. apply sum_by_ext. intros l _. unfold line_kept.
    destruct (row_of _ _); simpl; rewrite andb_true_r; destruct (bool_decide _); lia. }
  rewrite E. split; [done|].
  assert (Hdr : 2 * Z.abs (in_transit_value (working s)
      - sum_by (fun kl => reported_value kl.2) (with_ids (transfer_lines (working s)))) <= roundings (working s)).
  { unfold in_transit_value. rewrite <- sum_by_sub. apply sum_abs_le. intros [k l] Hk%elem_with_ids.
    by apply line_drift. }
  split; [lia|]. intros Hw. rewrite (roundings_whole _ Hd Hw) in Hdr. lia.
Qed.

Lemma reconciliation_drift_witness :
  exists row, inventory_in_transit_reconciliation demo_arrived = (Ok row, demo_arrived) /\
    gl_in_transit_balance row = 3933333 /\ in_transit_discrepancy row = 0.
Proof.
  destruct (reconciliation_drift demo_arrived (proj1 demo_arrived_wf) (proj1 (proj2 demo_arrived_wf)))
    as (row & Hr & Hg & _ & Hz).
  - apply (bool_decide_unpack _). vm_compute. reflexivity.
  - exists row. split; [exact Hr|]. split; [rewrite Hg; vm_compute; reflexivity|]. apply Hz.
    apply (bool_decide_unpack _). vm_compute. reflexivity.
Defined.
