(* ===== verification/TransitLife.v ===== *)
(** * The life of a transfer, a discrepancy and a write-off

    Which role a write-off needs; how the rows of the three components may
    change, request after request; that a request repeated under its key, or a
    decision repeated, changes nothing. *)

From S2P Require Import Prelude Fixed Session Schema Tables Platform Chart Fixture Journal.
From S2P Require Import Posting Books Reports Inventory Purchasing Discrepancies Transfers WriteOffs.
From S2P Require Import TransitInvariant TransitOps WriteOffOps InTransit TransitInterplay TransitFixture.

(** ** The required role *)

Lemma insert_by_head {A} (leb : A -> A -> bool) (x : A) l :
  (forall a b, leb a b = true \/ leb b a = true) ->
  exists y rest, insert_by leb x l = y :: rest /\ leb y x = true /\
    match l with [] => y = x | z :: _ => y = x \/ y = z end /\
    match l with [] => True | z :: _ => leb y z = true end.
Proof.
  intros Ht. destruct l as [|z l]; simpl.
  - exists x, []. split_and!; try done. by destruct (Ht x x).
  - destruct (leb x z) eqn:E.
    + exists x, (z :: l). split_and!; try done; [by destruct (Ht x x)|by left].
    + exists z, (insert_by leb x l). split_and!; try done; [by destruct (Ht x z); congruence|by right|by destruct (Ht z z)].
Qed.

(** The first of a sorted list is a least element. *)
Lemma sort_by_head {A} (leb : A -> A -> bool) (l : list A) y rest :
  (forall a b, leb a b = true \/ leb b a = true) ->
  (forall a b c, leb a b = true -> leb b c = true -> leb a c = true) ->
  sort_by leb l = y :: rest -> y ∈ l /\ forall x, x ∈ l -> leb y x = true.
Proof.
  intros Ht Htr Hs. split; [rewrite <- (sort_by_perm leb l), Hs; left|].
  revert y rest Hs. induction l as [|z l IH]; intros y rest Hs x Hx; [by apply elem_of_nil in Hx|].
  simpl in Hs. destruct (insert_by_head leb z (sort_by leb l) Ht) as (y' & rest' & E & Hz & _ & Hh).
  fold (sort_by leb l) in Hs. rewrite Hs in E. injection E as <- <-.
  apply elem_of_cons in Hx as [->|Hx]; [done|].
  destruct (sort_by leb l) as [|w ws] eqn:El.
  - rewrite <- (sort_by_perm leb l), El in Hx. by apply elem_of_nil in Hx.
  - apply (Htr _ w); [done|]. by eapply IH.
Qed.

Lemma rule_key_total a b : rule_key_le a b = true \/ rule_key_le b a = true.
Proof.
  unfold rule_key_le. destruct (scope_store_id a.2), (scope_store_id b.2); auto;
    destruct (Z.leb_spec (min_amount b.2) (min_amount a.2)); auto; right; apply Z.leb_le; lia.
Qed.

Lemma rule_key_trans a b c : rule_key_le a b = true -> rule_key_le b c = true -> rule_key_le a c = true.
Proof.
  unfold rule_key_le. destruct (scope_store_id a.2), (scope_store_id b.2), (scope_store_id c.2); try done; lia.
Qed.

(** The role a write-off requires: that of an active rule whose range covers
    the amount and whose scope covers the store, and no other such rule is a
    better match, a rule of the store itself being better than a general one
    and, between two of a kind, the one with the higher floor; when no rule
    applies the Admin role, never a laxer one. *)
Theorem required_role_is_best store amount s role rule s' :
  _resolve_required_role store amount s = (Ok (role, rule), s') ->
  s' = s /\
  match rule with
  | Some k => exists r, row_of (approval_rules (working s)) k = Some r /\ role = rule_required_role_id r /\
      rule_applies store amount r = true /\
      forall r', r' ∈ approval_rules (working s) -> rule_applies store amount r' = true ->
        (scope_store_id r' = Some store -> scope_store_id r = Some store) /\
        (scope_store_id r' = scope_store_id r -> min_amount r' <= min_amount r)
  | None => (forall r, r ∈ approval_rules (working s) -> rule_applies store amount r = false) /\
      exists a, row_of (roles (working s)) role = Some a /\ role_name a = ADMIN /\
        forall j b, row_of (roles (working s)) j = Some b -> role_name b = ADMIN -> j = role
  end.
Proof.
  unfold _resolve_required_role. intros H.
  apply bind_ok in H as (rules & s1 & H1 & H). apply query_ok in H1 as [-> <-]. simpl in H.
  destruct (sort_by _ _) as [|c rest] eqn:Es.
  - apply bind_ok in H as (admins & s1 & H1 & H). apply query_ok in H1 as [-> <-]. simpl in H.
    apply bind_ok in H as ([j a] & s1 & H1 & H). apply scalar_one_ok in H1 as [Ha <-].
    apply ret_ok in H as [[= <- <-] <-]. split; [done|]. split.
    + intros r [k Hk]%elem_row_of. apply not_true_is_false. intros Hr.
      assert (Hin : (k, r) ∈ select (fun _ r => rule_applies store amount r) (approval_rules (working s)))
        by (by apply elem_select).
      rewrite <- (sort_by_perm rule_key_le), Es in Hin. by apply elem_of_nil in Hin.
    + assert ((j, a) ∈ select (fun _ r => bool_decide (role_name r = ADMIN)) (roles (working s)))
        as [Hj Hn%bool_decide_eq_true]%elem_select by (rewrite Ha; left).
      exists a. split_and!; [done..|]. intros j' b Hb Hnb.
      assert (Hin : (j', b) ∈ select (fun _ r => bool_decide (role_name r = ADMIN)) (roles (working s)))
        by (apply elem_select; split; [done|by apply bool_decide_eq_true]).
      rewrite Ha in Hin. apply list_elem_of_singleton in Hin. by injection Hin.
  - apply ret_ok in H as [[= <- <-] <-]. split; [done|].
    destruct (sort_by_head _ _ _ _ rule_key_total rule_key_trans Es) as [Hc Hbest].
    destruct c as [k r]. apply elem_select in Hc as [Hk Hr]. exists r. split_and!; [done..|].
    intros r' [k' Hk']%elem_row_of Hr'.
    assert (Hle : rule_key_le (k, r) (k', r') = true) by (apply Hbest; by apply elem_select).
    unfold rule_key_le in Hle. simpl in *. unfold rule_applies in Hr, Hr'.
    destruct (scope_store_id r) as [x|], (scope_store_id r') as [x'|]; simpl in *; bools;
      split; try done; intros; try (f_equal; lia); try lia.
Qed.

Lemma required_role_is_best_witness :
  let s := write_off_step (W_rule demo_rule) demo_resolved in
  _resolve_required_role 1 3000000 s = (Ok (1, Some 1), s) /\
  forall r', r' ∈ approval_rules (working s) -> rule_applies 1 3000000 r' = true ->
    scope_store_id r' = Some 1 -> min_amount r' <= 0.
Proof.
  intros s.
  assert (H : _resolve_required_role 1 3000000 s = (Ok (1, Some 1), s)) by (vm_compute; reflexivity).
  split; [exact H|]. intros r' Hin Hr' Hsc.
  destruct (required_role_is_best 1 3000000 s 1 (Some 1) s H) as [_ (r & Hr & _ & _ & Hbest)].
  assert (Er : r = new_rule demo_rule) by (vm_compute in Hr; by injection Hr).
  subst r. by apply (Hbest r' Hin Hr').
Defined.

(** ** Transitions *)

(** Rows stay; each is as it was or has taken the step its id allows. *)
Definition evolves {R} (step : Z -> R -> R -> Prop) (t t' : list R) : Prop :=
  forall k x, row_of t k = Some x -> exists x', row_of t' k = Some x' /\ (x' = x \/ step k x x').

Section Evolves.
Context {R : Type} (step : Z -> R -> R -> Prop).

Lemma evolves_same t t' : t' = t -> evolves step t t'.
Proof. intros -> k x Hx. exists x. auto. Qed.

Lemma evolves_app t new : evolves step t (t ++ new).
Proof. intros k x Hx. exists x. split; [by apply row_of_app_old|auto]. Qed.

Lemma evolves_set t id f x :
  row_of t id = Some x -> step id x (f x) -> evolves step t (set_row id f t).
Proof.
  intros Hid Hf k y Hy. rewrite row_of_set, Hy. case_bool_decide as E; [|exists y; auto].
  subst. exists (f y). split; [done|]. right. rewrite Hid in Hy. by injection Hy as <-.
Qed.
End Evolves.

(** What each operation may do to a transfer, a discrepancy and a write-off:
    it moves the row it names, from the status its guard demands. *)
Definition transfer_moves (op : transit_op) (k : Z) (t t' : InterStoreTransfer) : Prop :=
  match op with
  | X_transfer (T_ship id _ key _ by_) =>
      k = id /\ tr_status t = TR_DRAFT /\ exists now, t' = with_shipped by_ now (with_ship_key key t)
  | X_transfer (T_cancel id actor _) =>
      k = id /\ tr_status t = TR_DRAFT /\ exists now, t' = with_cancelled actor now t
  | _ => False
  end.

(** A discrepancy is reopened by the denial of a pending write-off of its own,
    and by nothing else. *)
Definition discrepancy_moves (d : database) (op : transit_op) (k : Z)
    (r r' : ReceivingDiscrepancy) : Prop :=
  match op with
  | X_transfer (T_investigate id _ _) => k = id /\ discrepancy_step DE_INVESTIGATED r r'
  | X_transfer (T_resolve id _ _ _ _) => k = id /\ discrepancy_step DE_RESOLVED r r'
  | X_write_off (W_deny id _ _) =>
      discrepancy_step DE_REOPENED r r' /\
      exists w, row_of (write_offs d) id = Some w /\ wo_discrepancy_id w = k /\
        wo_status w = WO_PENDING_APPROVAL
  | _ => False
  end.

Definition write_off_moves (op : transit_op) (k : Z) (w w' : TransferWriteOff) : Prop :=
  match op with
  | X_write_off (W_approve id _ _ _) => k = id /\ wo_status w = WO_PENDING_APPROVAL /\
      exists e, w' = with_wo_status WO_POSTED (Some e) (wo_reversal_journal_entry_id w) w
  | X_write_off (W_deny id _ _) => k = id /\ wo_status w = WO_PENDING_APPROVAL /\
      w' = with_wo_status WO_DENIED (wo_journal_entry_id w) (wo_reversal_journal_entry_id w) w
  | X_write_off (W_reverse id _ _) => k = id /\ wo_status w = WO_POSTED /\
      exists e, w' = with_wo_status WO_REVERSED (wo_journal_entry_id w) (Some e) w
  | _ => False
  end.

Definition life (op : transit_op) (d d' : database) : Prop :=
  evolves (transfer_moves op) (transfers d) (transfers d') /\
  evolves (discrepancy_moves d op) (discrepancies d) (discrepancies d') /\
  evolves (write_off_moves op) (write_offs d) (write_offs d').

Definition living (d : database) := (transfers d, discrepancies d, write_offs d).

Lemma life_same op d d' : living d' = living d -> life op d d'.
Proof. intros [= E1 E2 E3]. split_and!; by apply evolves_same. Qed.

(** A draft only adds rows. *)
Lemma create_transfer_life op d0 a lines caller : keeps (life op d0) (create_transfer a lines caller).
Proof.
  draft_parts. walk_keeps ltac:(first
    [apply keeps_of_ok; [solve_fixes|]; intros s i s' _ (H1 & H2 & H3) (_ & _ & _ & ->)%add_ok; split_and!;
       [|exact H2|exact H3]; intros k x Hx; destruct (H1 k x Hx) as (x' & Hx' & Hs); exists x';
       split; [by apply row_of_app_old|exact Hs]
    |apply (keeps_frame _ living); [|solve [unfold living; solve_fixes]..];
       intros d d' [= E1 E2 E3]; unfold life; by rewrite E1, E2, E3]).
Qed.

Lemma cancel_transfer_ok tid actor caller s i s' :
  cancel_transfer tid actor caller s = (Ok i, s') ->
  i = tid /\ exists t, row_of (transfers (working s)) tid = Some t /\
    side_denied caller (from_store_id t) (to_store_id t) = false /\
    (s' = s /\ tr_status t = TR_CANCELLED \/
     tr_status t = TR_DRAFT /\ exists now log, working s'
       = over_audit_logs (fun x => x ++ [log])
           (over_transfers (set_row tid (with_cancelled actor now)) (working s))).
Proof.
  unfold cancel_transfer. intros H.
  apply bind_ok in H as (t & s1 & H1 & H). apply get_transfer_ok in H1 as [-> Ht].
  apply bind_ok in H as (? & s1 & H1 & H). apply raise_if_ok in H1 as [Hd <-].
  destruct (tr_status t) eqn:Est; [|done|].
  - apply bind_ok in H as (now & s1 & H1 & H). apply asks_ok in H1 as [-> <-].
    apply bind_ok in H as (? & s1 & H1 & H). apply update_ok in H1 as (? & _ & _ & _ & ->).
    apply bind_ok in H as (? & s1 & H1 & H). apply log_event_ok in H1 as ->.
    apply bind_ok in H as (? & s1 & H1 & H). apply commit_ok in H1 as (_ & Ew & _).
    apply ret_ok in H as [<- <-]. split; [done|]. exists t. split_and!; try done. right. split; [done|].
    rewrite Ew. by do 2 eexists.
  - apply ret_ok in H as [<- <-]. split; [done|]. exists t. split_and!; auto.
Qed.

Lemma decided_life op k w st e r vs d d' :
  decided k w st e r vs d d' -> row_of (write_offs d) k = Some w ->
  write_off_moves op k w (with_wo_status st e r w) -> life op d d'.
Proof.
  intros [D _] Hw Hst. injection D as _ T _ _ _ X W _. simpl in *.
  split_and!; [by apply evolves_same|by apply evolves_same|]. rewrite W. by eapply evolves_set.
Qed.

Lemma stepped_life op ev i r r' s s' :
  stepped ev i r r' s s' -> discrepancy_moves (working s) op i r r' ->
  life op (working s) (working s').
Proof.
  intros (Hr & _ & f & log & -> & ->) Hm. simpl.
  split_and!; [by apply evolves_same|by eapply evolves_set|by apply evolves_same].
Qed.

Lemma transfer_op_life op s i s' :
  transit_wf (working s) -> committed s = working s -> run_transfer_op op s = (Ok i, s') ->
  life (X_transfer op) (working s) (working s').
Proof.
  intros Hd Hc H. destruct op as [| | | |k c a|k res n c a]; simpl in H.
  - refine (proj2 (keeps_ok (life _ (working s)) _ _ _ _ (create_transfer_life _ _ _ _ _) _ _ H));
      rewrite ?Hc; by apply life_same.
  - apply ship_transfer_ok in H as [[-> _]|[[-> _]|H]]; [by apply life_same|simpl; rewrite Hc; by apply life_same|].
    destruct H as (_ & _ & _ & _ & t & Ht & _ & [Hdr _] & _ & [F Htr _ _ _ _]). injection F as _ _ _ X W _.
    split_and!; [|by apply evolves_same|by apply evolves_same]. rewrite Htr. intros k x Hx.
    rewrite !row_of_set, Hx. case_bool_decide as E; [|exists x; auto]. subst. eexists. split; [done|].
    right. rewrite Ht in Hx. injection Hx as <-. split_and!; [done..|by eexists].
  - apply (receive_transfer_ok _ _ _ _ _ _ Hd) in H as [[-> _]|[[-> _]|H]];
      [by apply life_same|simpl; rewrite Hc; by apply life_same|].
    destruct H as (_ & _ & _ & _ & t & _ & _ & _ & _ & [[F _ _ X _] _]). injection F as _ T W _.
    split_and!; [by apply evolves_same| |by apply evolves_same]. rewrite X. apply evolves_app.
  - apply cancel_transfer_ok in H as (_ & t & Ht & _ & [[-> _]|(Hst & now & log & ->)]); [by apply life_same|].
    split_and!; [|by apply evolves_same|by apply evolves_same]. eapply evolves_set; [exact Ht|].
    split_and!; [done..|by eexists].
  - apply investigate_discrepancy_ok in H as (_ & r & r' & H & _). eapply stepped_life; [exact H|]. exact (conj eq_refl (proj1 (proj2 H))).
  - apply resolve_discrepancy_ok in H as (_ & r & r' & H & _). eapply stepped_life; [exact H|]. exact (conj eq_refl (proj1 (proj2 H))).
Qed.

Lemma write_off_op_life op s i s' :
  committed s = working s -> run_write_off_op op s = (Ok i, s') ->
  life (X_write_off op) (working s) (working s').
Proof.
  intros Hc H. destruct op; simpl in H.
  - apply (fixes_run (fun s => living (working s))) in H; [by apply life_same|].
    unfold create_approval_policy_rule, role_exists, living. solve_fixes.
  - apply create_write_off_ok in H as [[-> _]|[[-> _]|(_ & _ & r & w & -> & _)]];
      [by apply life_same|simpl; rewrite Hc; by apply life_same|].
    split_and!; [by apply evolves_same|by apply evolves_same|apply evolves_app].
  - apply approve_write_off_ok in H as (_ & w & Hw & [[-> _]|(actor & e & now & _ & _ & _ & Hst & _ & _ & _ & Hx & _)]);
      [by apply life_same|]. eapply decided_life; [exact Hx|exact Hw|]. split_and!; [done..|by eexists].
  - apply deny_write_off_ok in H as (_ & w & Hw & [[-> _]|(actor & now & r & f & _ & _ & _ & Hst & _ & Hr & Hs & _ & _ & _ & Hx)]);
      [by apply life_same|].
    injection Hx as _ T _ _ _ X W _. simpl in *. split_and!; [by apply evolves_same| |].
    + rewrite X. eapply evolves_set; [exact Hr|]. split; [done|]. by exists w.
    + rewrite W. eapply evolves_set; [exact Hw|]. done.
  - apply reverse_write_off_ok in H as (_ & actor & w & _ & _ & Hw & [[-> _]|(e & _ & Hst & Hx & _)]);
      [by apply life_same|]. eapply decided_life; [exact Hx|exact Hw|]. split_and!; [done..|by eexists].
Qed.

(** C8: No operation on goods in transit deletes or rewrites a record, and each
    moves only the records it names: a transfer is shipped or cancelled, once,
    from draft, by the shipment or the cancellation of it; a discrepancy keeps
    its facts and goes RECORDED, INVESTIGATING, RESOLVED by the operations of
    those names, and back to INVESTIGATING only by the denial of a pending
    write-off of it; a write-off is posted or denied, once, from pending, by its
    approval or denial, and reversed, once, from posted, everything else about
    it unchanged; a denied write-off stays as it is for good. *)
Theorem transit_transitions op s i s' :
  transit_wf (working s) -> committed s = working s -> run_transit_op op s = (Ok i, s') ->
  life op (working s) (working s') /\
  (forall k r, row_of (discrepancies (working s)) k = Some r ->
     exists r', row_of (discrepancies (working s')) k = Some r' /\ facts r' = facts r /\
       (rd_status r = RESOLVED -> rd_status r' <> RESOLVED ->
        exists w notes by_ wo, op = X_write_off (W_deny w notes by_) /\
          row_of (write_offs (working s)) w = Some wo /\ wo_discrepancy_id wo = k)) /\
  (forall k w, row_of (write_offs (working s)) k = Some w -> decision_of (wo_status w) = Some DECISION_DENIED ->
     row_of (write_offs (working s')) k = Some w).
Proof.
  intros Hd Hc H.
  assert (L : life op (working s) (working s'))
    by (destruct op as [op|op]; [by eapply transfer_op_life|by eapply write_off_op_life]).
  split; [done|]. destruct L as (_ & L2 & L3). split.
  - intros k r Hr. destruct (L2 k r Hr) as (r' & Hr' & [->|Hst]); [by exists r|].
    exists r'. split; [done|]. unfold discrepancy_moves in Hst. destruct op as [[]|[]]; try done.
    + destruct Hst as [_ Hst]. split; [by eapply discrepancy_step_facts|]. inversion Hst; congruence.
    + destruct Hst as [_ Hst]. split; [by eapply discrepancy_step_facts|]. by inversion Hst.
    + destruct Hst as (Hst & wo & Hw & E & _). split; [by eapply discrepancy_step_facts|]. eauto 10.
  - intros k w Hw Hdec. destruct (L3 k w Hw) as (w' & Hw' & [->|Hst]); [done|].
    exfalso. unfold write_off_moves in Hst. destruct op as [[]|[]]; try done;
      destruct Hst as (_ & E & _); by rewrite E in Hdec.
Qed.

Lemma transit_transitions_witness :
  let op := X_write_off (W_deny 1 "not yet" (Some 2)) in
  let s' := after (run_transit_op op) demo_requested in
  life op (working demo_requested) (working s') /\ map wo_status (write_offs (working s')) = [WO_DENIED] /\
  map rd_status (discrepancies (working s')) = [INVESTIGATING].
Proof.
  intros op s'. split; [|split; vm_compute; reflexivity].
  assert (H : run_transit_op op demo_requested = (Ok 1, s'))
    by (refine (after_ok (run_transit_op op) demo_requested 1 _); vm_compute; reflexivity).
  exact (proj1 (transit_transitions op demo_requested 1 s'
    (proj1 (proj1 demo_requested_wf)) (checkpoint_clean _) H)).
Defined.

(** ** Retries *)

Lemma with_working_self (s : session database) : committed s = working s -> with_working (committed s) s = s.
Proof. intros E. destruct s. unfold with_working. simpl in *. by rewrite E. Qed.

(** The row written under a new key is the one found under it. *)
Lemma found_added {R} `{Table R} (p : R -> bool) t s r :
  table (working s) = t ++ [r] -> p r = true -> (forall x, x ∈ t -> p x = false) ->
  find_by p s = (Ok (Some (next_id t, r)), s).
Proof.
  intros E Hp Hn. apply find_by_run. rewrite E. apply select_appended; [|done].
  apply select_nil. intros i x Hx. apply Hn. by eapply row_of_elem.
Qed.

Lemma ship_again tid inputs key caller by_ s i s' :
  committed s = working s -> ship_transfer tid inputs key caller by_ s = (Ok i, s') ->
  forall tid2 inputs2 caller2 by2, ship_transfer tid2 inputs2 key caller2 by2 s' = (Ok i, s').
Proof.
  intros Hc H tid2 inputs2 caller2 by2.
  assert (Hf : exists t, find_by (shipped_under key) s' = (Ok (Some (i, t)), s')).
  { pose proof H as H0. unfold ship_transfer in H0. apply bind_ok in H0 as (ex & s1 & H1 & H0).
    pose proof H1 as [-> _]%find_by_ok. destruct ex as [[j t]|].
    { apply ret_ok in H0 as [<- <-]. by exists t. }
    apply find_by_ok in H1 as [_ Hsel]. simpl in Hsel.
    assert (Hno : forall r, r ∈ transfers (working s) -> shipped_under key r = false)
      by (intros r [k Hk]%elem_row_of; exact (proj1 (select_nil _ _) Hsel k r Hk)).
    apply ship_transfer_ok in H as [[-> (t & Ht%row_of_elem & Hk)]|[[-> (t & Ht & Hk)]|H]].
    - by rewrite Hno in Hk.
    - rewrite Hc in Ht. apply row_of_elem in Ht. by rewrite Hno in Hk.
    - destruct H as (_ & -> & _ & _ & t & Ht & _ & _ & _ & [_ Htr _ _ _ _]).
      exists (with_shipped by_ (utc_now (env s)) (with_ship_key key t)).
      apply find_by_run. simpl. rewrite Htr. apply (select_single (fun _ x => shipped_under key x)).
      + by rewrite !row_of_set, !bool_decide_eq_true_2, Ht.
      + unfold shipped_under, same_key. simpl. by apply bool_decide_eq_true_2.
      + intros j x Hx Hpx. destruct (decide (tid = j)) as [->|Hne]; [done|].
        rewrite !row_of_set, !bool_decide_eq_false_2 in Hx by done.
        apply row_of_elem in Hx. by rewrite (Hno x Hx) in Hpx. }
  destruct Hf as [t Hf]. unfold ship_transfer. by rewrite (bind_ok_intro _ _ _ _ _ Hf).
Qed.

Lemma receive_again a lines caller s i s' :
  transit_wf (working s) -> committed s = working s -> receive_transfer a lines caller s = (Ok i, s') ->
  forall a2 lines2 caller2, tra_key a2 = tra_key a -> receive_transfer a2 lines2 caller2 s' = (Ok i, s').
Proof.
  intros Hd Hc H a2 lines2 caller2 Hk2.
  assert (Hf : exists r, find_by (receipt_under_key (tra_key a)) s' = (Ok (Some (i, r)), s')).
  { pose proof H as H0. unfold receive_transfer in H0. apply bind_ok in H0 as (ex & s1 & H1 & H0).
    pose proof H1 as [-> _]%find_by_ok. destruct ex as [[j r]|].
    { apply ret_ok in H0 as [<- <-]. by exists r. }
    apply find_by_ok in H1 as [_ Hsel]. simpl in Hsel.
    assert (Hno : forall r, r ∈ transfer_receipts (working s) -> receipt_under_key (tra_key a) r = false)
      by (intros r [k Hk]%elem_row_of; exact (proj1 (select_nil _ _) Hsel k r Hk)).
    apply (receive_transfer_ok _ _ _ _ _ _ Hd) in H as [[-> (r & Hr%row_of_elem & Hk)]|[[-> (r & Hr & Hk)]|H]].
    - by rewrite Hno in Hk.
    - rewrite Hc in Hr. apply row_of_elem in Hr. by rewrite Hno in Hk.
    - destruct H as (_ & -> & _ & _ & t & _ & _ & _ & _ & [[_ Hr _ _ _] _]). eexists.
      apply found_added; [exact Hr|by apply bool_decide_eq_true_2|exact Hno]. }
  destruct Hf as [r Hf]. unfold receive_transfer. rewrite Hk2. by rewrite (bind_ok_intro _ _ _ _ _ Hf).
Qed.

Lemma create_write_off_again a caller s i s' :
  committed s = working s -> create_write_off a caller s = (Ok i, s') ->
  forall a2 caller2, wa_key a2 = wa_key a -> create_write_off a2 caller2 s' = (Ok i, s').
Proof.
  intros Hc H a2 caller2 Hk2.
  assert (Hf : exists w, find_by (write_off_under (wa_key a)) s' = (Ok (Some (i, w)), s')).
  { pose proof H as H0. unfold create_write_off in H0. apply bind_ok in H0 as (ex & s1 & H1 & H0).
    pose proof H1 as [-> _]%find_by_ok. destruct ex as [[j w]|].
    { apply ret_ok in H0 as [<- <-]. by exists w. }
    apply find_by_ok in H1 as [_ Hsel]. simpl in Hsel.
    assert (Hno : forall w, w ∈ write_offs (working s) -> write_off_under (wa_key a) w = false)
      by (intros w [k Hk]%elem_row_of; exact (proj1 (select_nil _ _) Hsel k w Hk)).
    apply create_write_off_ok in H as [[-> (w & Hw%row_of_elem & Hk)]|[[-> (w & Hw & Hk)]|H]].
    - by rewrite Hno in Hk.
    - rewrite Hc in Hw. apply row_of_elem in Hw. by rewrite Hno in Hk.
    - destruct H as (_ & -> & r & w & E & _ & _ & _ & _ & _ & _ & _ & _ & _ & _ & _ & _ & _ & _ & _ & Ek).
      exists w. apply found_added; [by rewrite E|by apply bool_decide_eq_true_2|exact Hno]. }
  destruct Hf as [w Hf]. unfold create_write_off. rewrite Hk2. by rewrite (bind_ok_intro _ _ _ _ _ Hf).
Qed.

(** A decided write-off answers every further decision. *)
Lemma decided_answers k s v w :
  find_by (decides k) s = (Ok (Some v), s) -> row_of (write_offs (working s)) k = Some w ->
  forall notes actor dt, blank notes = false ->
  approve_write_off k notes (Some actor) dt s = (Ok k, s) /\ deny_write_off k notes (Some actor) s = (Ok k, s).
Proof.
  intros Hf Hw notes actor dt Hn.
  assert (Ho : open_decision k notes (Some actor) s = (Ok (actor, None), s)).
  { unfold open_decision. rewrite Hn. erewrite bind_ok_intro by reflexivity. erewrite bind_ok_intro by reflexivity.
    rewrite (bind_ok_intro _ _ _ _ _ Hf). erewrite bind_ok_intro; [reflexivity|].
    unfold get_write_off. erewrite bind_ok_intro by reflexivity. simpl. by rewrite Hw. }
  split; [unfold approve_write_off|unfold deny_write_off]; by rewrite (bind_ok_intro _ _ _ _ _ Ho).
Qed.

Lemma decision_recorded {A} k notes by_ s s' (m : Z * option TransferWriteOff -> Tx A) r :
  (opened ← open_decision k notes by_; m opened) s = (Ok r, s') ->
  (forall actor, m (actor, None) s = (Ok r, s') -> s' = s) ->
  (exists w v, write_offs (working s') = write_offs (working s) /\ find_by (decides k) s = (Ok (Some v), s) /\ s' = s /\
     row_of (write_offs (working s)) k = Some w) \/
  (forall v, v ∈ write_off_approvals (working s) -> decides k v = false).
Proof.
  intros H Hm. apply bind_ok in H as ([actor o] & s1 & H1 & H). unfold open_decision in H1.
  apply bind_ok in H1 as (? & s2 & H2 & H1). apply raise_if_ok in H2 as [_ <-].
  apply bind_ok in H1 as (act & s2 & H2 & H1). apply of_option_ok in H2 as [_ <-].
  apply bind_ok in H1 as (dec & s2 & H2 & H1). pose proof H2 as [-> Hsel]%find_by_ok.
  apply bind_ok in H1 as (w & s2 & H3 & H1). apply get_write_off_ok in H3 as [-> Hw].
  destruct dec as [v|].
  - left. simpl in H1. apply ret_ok in H1 as [[= <- <-] <-].
    assert (s' = s) as -> by (by eapply Hm). by exists w, v.
  - right. intros v [j Hj]%elem_row_of. exact (proj1 (select_nil _ _) Hsel j v Hj).
Qed.

Lemma approve_answers k notes by_ dt s i s' :
  approve_write_off k notes by_ dt s = (Ok i, s') ->
  i = k /\ exists v w, find_by (decides k) s' = (Ok (Some v), s') /\ row_of (write_offs (working s')) k = Some w.
Proof.
  intros H. pose proof H as H0. unfold approve_write_off in H0. apply decision_recorded in H0;
    [|intros ? [_ <-]%ret_ok; done].
  apply approve_write_off_ok in H as (-> & w & Hw & H). split; [done|].
  destruct H0 as [(w0 & v & _ & Hf & -> & Hw0)|Hno]; [by exists v, w0|].
  destruct H as [[-> (v & Hv & Hk)]|H]; [by rewrite Hno in Hk|].
  destruct H as (actor & e & now & _ & _ & _ & _ & _ & _ & _ & [D _] & _). injection D as _ _ _ _ _ _ W V.
  simpl in W, V. do 2 eexists. split; [apply found_added; [exact V|by apply Z.eqb_eq|exact Hno]|].
  rewrite W, row_of_set, bool_decide_eq_true_2 by done. by rewrite Hw.
Qed.

Lemma deny_answers k notes by_ s i s' :
  deny_write_off k notes by_ s = (Ok i, s') ->
  i = k /\ exists v w, find_by (decides k) s' = (Ok (Some v), s') /\ row_of (write_offs (working s')) k = Some w.
Proof.
  intros H. pose proof H as H0. unfold deny_write_off in H0. apply decision_recorded in H0;
    [|intros ? [_ <-]%ret_ok; done].
  apply deny_write_off_ok in H as (-> & w & Hw & H). split; [done|].
  destruct H0 as [(w0 & v & _ & Hf & -> & Hw0)|Hno]; [by exists v, w0|].
  destruct H as [[-> (v & Hv & Hk)]|H]; [by rewrite Hno in Hk|].
  destruct H as (actor & now & r & f & _ & _ & _ & _ & _ & _ & _ & _ & _ & _ & D). injection D as _ _ _ _ _ _ W V.
  simpl in W, V. do 2 eexists. split; [apply found_added; [exact V|by apply Z.eqb_eq|exact Hno]|].
  rewrite W, row_of_set, bool_decide_eq_true_2 by done. by rewrite Hw.
Qed.

Lemma cancel_again k actor caller s i s' :
  cancel_transfer k actor caller s = (Ok i, s') -> cancel_transfer k actor caller s' = (Ok i, s').
Proof.
  intros H. pose proof H as H0. apply cancel_transfer_ok in H0 as (-> & t & Ht & Hd & [[-> _]|(_ & now & log & E)]);
    [done|].
  assert (Hg : get_transfer k s' = (Ok (with_cancelled actor now t), s')).
  { unfold get_transfer. erewrite bind_ok_intro by reflexivity. simpl.
    rewrite E. simpl. by rewrite row_of_set, bool_decide_eq_true_2, Ht. }
  unfold cancel_transfer. rewrite (bind_ok_intro _ _ _ _ _ Hg). simpl. rewrite Hd. by erewrite bind_ok_intro by reflexivity.
Qed.

Lemma reverse_again k reason by_ s i s' :
  reverse_write_off k reason by_ s = (Ok i, s') -> reverse_write_off k reason by_ s' = (Ok i, s').
Proof.
  intros H. pose proof H as H0.
  apply reverse_write_off_ok in H0 as (-> & actor & w & -> & Hr & Hw & [[-> _]|(e & _ & _ & [D S] & _)]); [done|].
  injection D as _ _ _ _ _ _ W _. injection S as S1 _ _. simpl in W.
  unfold reverse_write_off in *.
  apply bind_ok in H as (? & s1 & H1 & _). apply raise_if_ok in H1 as [Hb _].
  rewrite Hb. erewrite bind_ok_intro by reflexivity. erewrite bind_ok_intro by reflexivity.
  erewrite bind_ok_intro.
  2:{ unfold get_user_role_name. erewrite bind_ok_intro by reflexivity. simpl.
      unfold role_names_of in *. rewrite S1, Hr. reflexivity. }
  rewrite bool_decide_eq_true_2 by done. erewrite bind_ok_intro by reflexivity.
  erewrite bind_ok_intro.
  2:{ unfold get_write_off. erewrite bind_ok_intro by reflexivity. simpl.
      rewrite W, row_of_set, bool_decide_eq_true_2, Hw by done. reflexivity. }
  done.
Qed.

(** C9: Repeating a request on goods in transit changes nothing: a shipment, a
    receipt or a write-off request sent again under its key answers with the
    row the first one made, whatever else the retry says; a cancellation or a
    reversal sent again answers with the row; and a decided write-off answers
    any further approval or denial, of either kind, with the first decision. *)
Theorem transit_retries op s i s' :
  transit_wf (working s) -> committed s = working s -> run_transit_op op s = (Ok i, s') ->
  match op with
  | X_transfer (T_ship _ _ key _ _) => forall tid2 lines2 caller2 by2,
      ship_transfer tid2 lines2 key caller2 by2 s' = (Ok i, s')
  | X_transfer (T_receive a _ _) => forall a2 lines2 caller2, tra_key a2 = tra_key a ->
      receive_transfer a2 lines2 caller2 s' = (Ok i, s')
  | X_write_off (W_create a _) => forall a2 caller2, wa_key a2 = wa_key a ->
      create_write_off a2 caller2 s' = (Ok i, s')
  | X_write_off (W_approve k _ _ _) | X_write_off (W_deny k _ _) =>
      forall notes actor dt, blank notes = false ->
      approve_write_off k notes (Some actor) dt s' = (Ok i, s') /\
      deny_write_off k notes (Some actor) s' = (Ok i, s')
  | X_transfer (T_cancel _ _ _) | X_write_off (W_reverse _ _ _) => run_transit_op op s' = (Ok i, s')
  | _ => True
  end.
Proof.
  intros Hd Hc H. destruct op as [[]|[]]; try done; simpl in H |- *.
  - by eapply ship_again.
  - by eapply receive_again.
  - by eapply cancel_again.
  - by eapply create_write_off_again.
  - apply approve_answers in H as (-> & v & w & Hf & Hw). by apply (decided_answers _ _ v w).
  - apply deny_answers in H as (-> & v & w & Hf & Hw). by apply (decided_answers _ _ v w).
  - by eapply reverse_again.
Qed.

Lemma transit_retries_witness :
  let s' := after (run_transit_op (X_write_off (W_deny 1 "not yet" (Some 2)))) demo_requested in
  map wo_status (write_offs (working s')) = [WO_DENIED] /\
  approve_write_off 1 "after all" (Some 4) None s' = (Ok 1, s').
Proof.
  intros s'. split; [vm_compute; reflexivity|].
  assert (H : run_transit_op (X_write_off (W_deny 1 "not yet" (Some 2))) demo_requested = (Ok 1, s'))
    by (refine (after_ok (run_transit_op (X_write_off (W_deny 1 "not yet" (Some 2)))) demo_requested 1 _);
        vm_compute; reflexivity).
  apply (transit_retries (X_write_off (W_deny 1 "not yet" (Some 2))) demo_requested 1 s'
    (proj1 (proj1 demo_requested_wf)) (checkpoint_clean _) H "after all" 4 None). vm_compute. reflexivity.
Defined.
