(* ===== verification/System.v ===== *)
(** * The whole program as a step relation

    The requests of the modelled endpoints, each run in its own transaction by
    [run_request], interleaved with the passing of time.  Every reachable
    database satisfies the invariants of all components at once. *)

From S2P Require Import Prelude Fixed Session Schema Tables Platform Chart Fixture Journal.
From S2P Require Import Posting Books Reports Inventory StockCount Shifts Fiscal Sales SaleReturns.
From S2P Require Import ReturnProperties Tills Purchasing Settlement Payables PayablesInvariant.
From S2P Require Import PayablesOps Interplay PayablesFixture Discrepancies Transfers WriteOffs.
From S2P Require Import TransitInvariant TransitOps WriteOffOps InTransit TransitInterplay TransitFixture.
From S2P Require Import EffectiveDated Workforce WorkforceInvariant Payroll PayPeriods PayPeriodOps PayPeriodInvariant.
From S2P Require Import PayrollFixture PayPeriodProperties PayrollInterplay.

(** ** Requests *)

Inductive request :=
  | RQ_adjustment (product_id : Z) (q : qty) (reason : ReasonCode) (notes : option string)
      (user : Z) (key : option string) (caller : option Z)
  | RQ_create_count (store : Z) (category : option Z) (product_ids : list Z)
      (notes : option string) (by_ caller : option Z)
  | RQ_count (count_id : Z) (op : count_op)
  | RQ_open_shift (store cashier : Z) (float_ : money) (key : string) (caller : option Z)
  | RQ_cash_movement (shift : Z) (ty : CashMovementType) (amount : money) (reason : string)
      (user : Z) (key : string) (caller : option Z)
  | RQ_close_shift (shift : Z) (counted : money) (user : Z) (caller : option Z) (key : string)
  | RQ_sale (store cashier : Z) (key : string) (caller : option Z) (lines : list SaleLineInput)
      (ps : list PaymentInput)
  | RQ_return (a : ReturnArgs) (caller : option Z) (lines : list SaleReturnLineInput)
  | RQ_void (a : ReturnArgs) (caller : option Z)
  | RQ_reverse_journal (entry : Z) (by_ caller : option Z)
  | RQ_close_period (store ps pe : Z) (reason : string) (by_ : Z) (caller : option Z)
  | RQ_fiscal_config (store : Z) (enabled : bool) (provider : string) (max_tries by_ : Z)
  | RQ_fiscal_submit (submission : Z)
  | RQ_purchasing (op : purchasing_op)
  | RQ_payables (op : payables_op)
  | RQ_transit (op : transit_op)
  | RQ_hr (op : hr_op)
  | RQ_payroll (op : payroll_op).

Section Server.
Context (verify_password : string -> string -> bool).
Context (providers : string -> option (FiscalPayload -> Z -> provider_answer)).
Context (utc_offset : string -> option (Z -> Z)).

Definition serve (r : request) : Tx Z :=
  match r with
  | RQ_adjustment p q re n u k c => create_adjustment_endpoint p q re n u k c
  | RQ_create_count st cat ps n b c => create_stock_count st cat ps n b c
  | RQ_count i op => run_count_op i op
  | RQ_open_shift st ca f k c => open_shift st ca f k c
  | RQ_cash_movement i ty a re u k c => record_cash_movement i ty a re u k c
  | RQ_close_shift i n u c k => close_shift i n u c k
  | RQ_sale st ca k c ls ps => finalize_sale st ca k c ls ps
  | RQ_return a c ls => create_sale_return_endpoint verify_password a c ls
  | RQ_void a c => void_sale_endpoint verify_password a c
  | RQ_reverse_journal i b c => reverse_journal_entry i b c
  | RQ_close_period st ps pe re b c => close_accounting_period st ps pe re b c
  | RQ_fiscal_config st en p m b => upsert_config st en p m b
  | RQ_fiscal_submit i => submit_fiscal_transaction providers i
  | RQ_purchasing op => run_purchasing_op op
  | RQ_payables op => run_payables_op op
  | RQ_transit op => run_transit_op op
  | RQ_hr op => run_hr_op utc_offset op
  | RQ_payroll op => run_payroll_op op
  end.

(** A request the clients may send, whatever it answers, or a change of the
    clocks and of the token source between requests. *)
Context (allowed : request -> Prop).

Inductive step : session database -> session database -> Prop :=
  | step_request r s : allowed r -> step s (run_request (serve r) s).2
  | step_time e s : step s (mkSession (committed s) (working s) e (draws s) (approval_windows s)).

Inductive reachable (d : database) : session database -> Prop :=
  | reach_init e : reachable d (mkSession d d e 0 ∅)
  | reach_step s s' : reachable d s -> step s s' -> reachable d s'.

End Server.

(** ** The invariant *)

Record system_wf (d : database) : Prop := {
  sys_stock : stock_wf d;
  sys_books : books_wf d;
  sys_shifts : shifts_wf d;
  sys_returns : returns_wf d;
  sys_tills : tills_wf d;
  sys_purchasing : purchasing_wf d;
  sys_payables : payables_wf d;
  sys_transit : transit_wf d;
  sys_staff : staff_wf d;
  sys_payroll : payroll_wf d;
}.

(** The invariants of the shop floor: everything a till, a count or a manual
    journal touches. *)
Definition shop_wf (d : database) : Prop :=
  stock_wf d /\ books_wf d /\ shifts_wf d /\ returns_wf d /\ tills_wf d.

Lemma keeps_shop {A} (m : Tx A) :
  keeps stock_wf m -> keeps books_wf m -> keeps shifts_wf m -> keeps returns_wf m ->
  keeps tills_wf m -> keeps shop_wf m.
Proof.
  intros K1 K2 K3 K4 K5.
  exact (keeps_and _ _ _ K1 (keeps_and _ _ _ K2 (keeps_and _ _ _ K3 (keeps_and _ _ _ K4 K5)))).
Qed.

(** The documents exchanged with suppliers and between stores, the staff and its
    pay. *)
Definition office_wf (d : database) : Prop :=
  (purchasing_wf d /\ payables_wf d) /\ transit_wf d /\ staff_wf d /\ payroll_wf d.

Lemma system_wf_split d : system_wf d <-> shop_wf d /\ office_wf d.
Proof.
  split; [intros [W1 W2 W3 W4 W5 W6 W7 W8 W9 W10]|intros [(?&?&?&?&?) [[? ?] (?&?&?)]]; by constructor].
  split; [exact (conj W1 (conj W2 (conj W3 (conj W4 W5))))|by split_and!].
Qed.

Lemma keeps_system {A} (m : Tx A) : keeps shop_wf m -> keeps office_wf m -> keeps system_wf m.
Proof.
  intros K1 K2 s [C1 C2]%system_wf_split [W1 W2]%system_wf_split.
  pose proof (keeps_and _ _ _ K1 K2 s (conj C1 C2) (conj W1 W2)) as K.
  destruct (m s) as [[a|e] s']; by rewrite !system_wf_split.
Qed.

(** ** Operations outside a component leave its tables alone *)

Lemma keeps_returns_frame {A} (m : Tx A) :
  fixes committed m -> fixes (fun s => selling_tables (working s)) m -> keeps returns_wf m.
Proof.
  apply (keeps_frame _ selling_tables). intros d d' E. by apply returns_wf_ext; rewrite E.
Qed.

#[export] Hint Extern 3 (keeps returns_wf _) =>
  (apply keeps_returns_frame; solve [solve_fixes]) : keeps.

Ltac adjustment_ops :=
  unfold create_adjustment_endpoint, create_stock_adjustment, insert_adjustment, find_adjustment,
    apply_adjustment, record_movement, lock_product_for_update, post_stock_adjustment_journal,
    _post_standard, posted.

Lemma create_adjustment_keeps st p q re n u sc k c :
  keeps shifts_wf (create_stock_adjustment st p q re n u sc k c) /\
  keeps returns_wf (create_stock_adjustment st p q re n u sc k c) /\
  keeps tills_wf (create_stock_adjustment st p q re n u sc k c).
Proof. adjustment_ops. split_and!; solve_keeps. Qed.

#[export] Hint Extern 2 (keeps shifts_wf (create_stock_adjustment _ _ _ _ _ _ _ _ _)) =>
  apply create_adjustment_keeps : keeps.
#[export] Hint Extern 2 (keeps returns_wf (create_stock_adjustment _ _ _ _ _ _ _ _ _)) =>
  apply create_adjustment_keeps : keeps.
#[export] Hint Extern 2 (keeps tills_wf (create_stock_adjustment _ _ _ _ _ _ _ _ _)) =>
  apply create_adjustment_keeps : keeps.

Lemma adjustment_keeps_shop p q re n u k c :
  keeps shop_wf (create_adjustment_endpoint p q re n u k c).
Proof. apply keeps_shop; unfold create_adjustment_endpoint; solve_keeps. Qed.

Lemma create_count_keeps_shop st cat ps n b c :
  keeps shop_wf (create_stock_count st cat ps n b c).
Proof. apply keeps_shop; try apply create_stock_count_keeps; count_ops; solve_keeps. Qed.

Lemma count_op_keeps_shop i op : keeps shop_wf (run_count_op i op).
Proof.
  apply keeps_shop; try apply run_count_op_keeps; destruct op; simpl; count_ops; solve_keeps.
Qed.

Lemma open_shift_keeps_shop st ca f k c : keeps shop_wf (open_shift st ca f k c).
Proof.
  apply keeps_shop; [| |apply shift_ops_keep| |apply open_shift_keeps_tills];
    shift_ops; solve_keeps.
Qed.

Lemma cash_movement_keeps_shop i ty a re u k c :
  keeps shop_wf (record_cash_movement i ty a re u k c).
Proof.
  apply keeps_shop; [| |apply shift_ops_keep| |apply record_cash_movement_keeps_tills];
    shift_ops; solve_keeps.
Qed.

Lemma post_cash_variance_keeps i sh by_ :
  keeps books_wf (post_cash_shift_variance_journal i sh by_).
Proof. by apply (post_keeps (P_cash_variance i sh)). Qed.

#[export] Hint Resolve post_cash_variance_keeps : keeps.

Lemma close_shift_keeps_books i n u c k : keeps books_wf (close_shift i n u c k).
Proof.
  unfold close_shift, authorize_actor, find_closed_shift, _compute_expected_cash. solve_keeps.
Qed.

Lemma close_shift_keeps_shop i n u c k : keeps shop_wf (close_shift i n u c k).
Proof.
  apply keeps_shop; [|apply close_shift_keeps_books|apply shift_ops_keep|
    |apply close_shift_keeps_tills]; shift_ops; solve_keeps.
Qed.

Lemma finalize_sale_keeps_shop st ca k c ls ps : keeps shop_wf (finalize_sale st ca k c ls ps).
Proof.
  apply keeps_shop; [apply finalize_sale_keeps_stock|apply finalize_sale_keeps_books|
    |apply finalize_sale_keeps_returns|apply finalize_sale_keeps_tills].
  apply finalize_sale_keeps; intros; [by apply keeps_reads|solve_keeps..].
Qed.

Lemma returns_keep_shop vp a v caller lines :
  keeps shop_wf (create_sale_return vp a v caller lines) /\
  keeps shop_wf (void_sale vp a caller).
Proof.
  split; apply keeps_shop;
    first [apply create_sale_return_keeps_stock|apply void_sale_keeps_stock
          |apply create_sale_return_keeps|apply void_sale_keeps];
    first [apply books_wf_audit|apply shifts_wf_audit|apply returns_wf_audit|apply tills_wf_audit
          |apply new_return_books|apply new_return_shifts|apply new_return_wf|apply new_return_tills].
Qed.

Lemma reverse_keeps_shop i b c : keeps shop_wf (reverse_journal_entry i b c).
Proof.
  apply keeps_shop; [| |unfold reverse_journal_entry, _enforce_period_open, _generate_journal_number;
    solve_keeps..].
  - unfold reverse_journal_entry, _enforce_period_open, _generate_journal_number. solve_keeps.
  - apply keeps_of_ok.
    + unfold reverse_journal_entry, _enforce_period_open, _generate_journal_number. solve_fixes.
    + intros s r s' _ [Hl Hr] H. by eapply reverse_wf.
Qed.

Lemma close_period_keeps_shop st ps pe re b c :
  keeps shop_wf (close_accounting_period st ps pe re b c).
Proof.
  apply keeps_shop; [| |unfold close_accounting_period; solve_keeps..].
  - unfold close_accounting_period. solve_keeps.
  - apply keeps_of_ok; [unfold close_accounting_period; solve_fixes|].
    intros s r s' _ [Hl Hr] H.
    apply close_accounting_period_ok in H as (p & _ & _ & _ & _ & _ & _ & log & ->).
    split; apply wf_over_audit_logs; [by destruct Hl|by destruct Hr].
Qed.

Lemma fiscal_keeps_shop prov :
  (forall st en p m b, keeps shop_wf (upsert_config st en p m b)) /\
  (forall i, keeps shop_wf (submit_fiscal_transaction prov i)).
Proof.
  split; intros; apply keeps_shop; unfold upsert_config, submit_fiscal_transaction, get_config;
    solve_keeps.
Qed.

(** The requests of the shop floor. *)
Definition shop_request (r : request) : Prop :=
  match r with
  | RQ_purchasing _ | RQ_payables _ | RQ_transit _ | RQ_hr _ | RQ_payroll _ => False
  | _ => True
  end.

Lemma shop_keeps vp prov uo r : shop_request r -> keeps shop_wf (serve vp prov uo r).
Proof.
  destruct r; intros []; simpl.
  - apply adjustment_keeps_shop.
  - apply create_count_keeps_shop.
  - apply count_op_keeps_shop.
  - apply open_shift_keeps_shop.
  - apply cash_movement_keeps_shop.
  - apply close_shift_keeps_shop.
  - apply finalize_sale_keeps_shop.
  - unfold create_sale_return_endpoint. apply keeps_throttled.
    by destruct (returns_keep_shop vp a false caller lines).
  - unfold void_sale_endpoint. apply keeps_throttled.
    by destruct (returns_keep_shop vp a false caller []).
  - apply reverse_keeps_shop.
  - apply close_period_keeps_shop.
  - apply (fiscal_keeps_shop prov).
  - apply (fiscal_keeps_shop prov).
Qed.

(** They write none of the back office's tables, and the ledger only by a
    posting of their own, a manual reversal or the closing of a period. *)
Definition back_office (d : database) :=
  (directory_tables d, purchasing_tables d, payables_tables d, transit_tables d, people_tables d,
   payroll_tables d).

Ltac adjustment_parts :=
  unfold create_adjustment_endpoint, create_stock_adjustment, insert_adjustment, find_adjustment,
    apply_adjustment, record_movement, lock_product_for_update.

Ltac shop_parts :=
  adjustment_parts; count_ops; shift_parts; adjustment_parts;
  unfold finalize_sale, price_cart, lock_products, lock_product, requested_quantities, verify_stock,
    compute_lines, compute_line, validate_payment, find_sale, insert_sale, write_sale_details,
    write_line, write_payment, lock_active_shift_for_cashier, get_active_shift_for_cashier,
    _generate_sale_number, _resolve_tax, create_fiscal_submission_if_enabled,
    create_sale_return_endpoint, void_sale_endpoint, void_sale, create_sale_return,
    _match_or_reject_idempotent_return, find_return, check_return, resolve_lines, resolve_line,
    check_remaining, approve_and_record, refund_total, _resolve_return_approval, reject_approval,
    lock_restocked, insert_return, write_return_details, post_return_line, restock_item,
    advance_sale_status, items_of_sale, _generate_return_number,
    upsert_config, submit_fiscal_transaction, get_config;
  unfold record_movement, lock_product_for_update.

Section BackOffice.
Context (I : database -> Prop).
Context (frame : forall d d', back_office d' = back_office d -> ledger_tables d' = ledger_tables d ->
                              I d -> I d').
Context (posting : forall q by_, shop_posting q = true -> keeps I (post q by_)).
Context (reversal : forall i b c, keeps I (reverse_journal_entry i b c)).
Context (closing : forall st ps pe re b c, keeps I (close_accounting_period st ps pe re b c)).

Lemma keeps_back_office {A} (m : Tx A) :
  fixes committed m -> fixes (fun s => (back_office (working s), ledger_tables (working s))) m -> keeps I m.
Proof.
  intros Hc Hf. apply (keeps_frame _ (fun d => (back_office d, ledger_tables d))); [|done..].
  intros d d' [E1 E2]%pair_equal_spec. by apply frame.
Qed.

Lemma shop_postings_keep :
  (forall i sale ls ps b, keeps I (post_sale_journal i sale ls ps b)) /\
  (forall i st dt m ls b, keeps I (post_sale_return_journal i st dt m ls b)) /\
  (forall i a c b, keeps I (post_stock_adjustment_journal i a c b)) /\
  (forall i sh b, keeps I (post_cash_shift_variance_journal i sh b)).
Proof.
  split_and!; intros.
  - by apply (posting (P_sale _ _ _ _)).
  - by apply (posting (P_sale_return _ _ _ _ _)).
  - by apply (posting (P_stock_adjustment _ _ _)).
  - by apply (posting (P_cash_variance _ _)).
Qed.

Lemma shop_keeps_back_office vp prov uo r : shop_request r -> keeps I (serve vp prov uo r).
Proof.
  destruct shop_postings_keep as (P1 & P2 & P3 & P4).
  destruct r; intros []; simpl; try apply reversal; try apply closing;
    unfold create_sale_return_endpoint, void_sale_endpoint;
    try (apply keeps_throttled); try destruct op; simpl;
    shop_parts; walk_keeps ltac:(first [apply P1|apply P2|apply P3|apply P4
                                       |apply keeps_back_office; solve [solve_fixes]]).
Qed.
End BackOffice.

(** No entry is a manual one, so the manual reversal never succeeds. *)
Lemma reverse_keeps_payables i b c : keeps payables_wf (reverse_journal_entry i b c).
Proof.
  apply keeps_of_ok.
  { unfold reverse_journal_entry, _enforce_period_open, _generate_journal_number. solve_fixes. }
  intros s r s' _ Hp H. apply reverse_ok in H as (e & He%row_of_elem & Hm & _).
  pose proof (py_automated _ (pa_payable _ Hp) e He) as Ha. by rewrite Hm in Ha.
Qed.

Lemma close_period_keeps_payables st ps pe re b c :
  keeps payables_wf (close_accounting_period st ps pe re b c).
Proof.
  apply keeps_of_ok; [unfold close_accounting_period; solve_fixes|].
  intros s r s' _ [W1 [P1 P2 P3] W3] H.
  apply close_accounting_period_ok in H as (p & _ & _ & _ & _ & _ & _ & log & ->).
  constructor; [by apply (settlement_wf_ext (working s))| |by apply (matched_wf_ext (working s))].
  by constructor.
Qed.

(** Nor do they post to the payroll accounts. *)
Lemma reverse_keeps_payroll i b c : keeps (fun d => payables_wf d /\ payroll_wf d) (reverse_journal_entry i b c).
Proof.
  apply keeps_with; [|apply reverse_keeps_payables|].
  { unfold reverse_journal_entry, _enforce_period_open, _generate_journal_number. solve_fixes. }
  intros s k s' Hp _ _ H. apply reverse_ok in H as (e & He%row_of_elem & Hm & _).
  pose proof (py_automated _ (pa_payable _ Hp) e He) as Ha. by rewrite Hm in Ha.
Qed.

Lemma close_period_keeps_payroll st ps pe re b c : keeps payroll_wf (close_accounting_period st ps pe re b c).
Proof.
  unfold close_accounting_period. walk_keeps ltac:(apply (keeps_frame _ payroll_reads);
    [apply payroll_wf_ext|solve [unfold payroll_reads; solve_fixes]..]).
Qed.

Lemma shop_keeps_payroll vp prov uo r :
  shop_request r -> keeps (fun d => payables_wf d /\ payroll_wf d) (serve vp prov uo r).
Proof.
  intros Hr. apply shop_keeps_back_office; [..|done].
  - intros d d' [= _ E1 E2 _ _ E5] E3 [H1 H2]. split.
    + apply (payables_wf_ext d); [|done]. unfold payables_frame, settlement_tables, matched_tables. by rewrite E1, E2, E3.
    + apply (payroll_wf_ext d); [|done]. unfold payroll_reads. by rewrite E3, E5.
  - intros q by_ Hq. apply keeps_and; [by apply shop_posting_keeps|]. apply posting_keeps_payroll. by destruct q.
  - apply reverse_keeps_payroll.
  - intros. apply keeps_and; [apply close_period_keeps_payables|apply close_period_keeps_payroll].
Qed.

Lemma shop_keeps_documents vp prov uo r :
  shop_request r -> keeps (fun d => purchasing_wf d /\ transit_wf d) (serve vp prov uo r).
Proof.
  intros Hr. apply keeps_and; (apply shop_keeps_back_office; [..|done]).
  - intros d d' [= _ E _ _] _. apply purchasing_wf_ext. unfold document_tables. by rewrite E.
  - intros q by_ Hq. apply keeps_purchasing_frame; [apply post_fixes_committed|].
    unfold document_tables. destruct q; try done; simpl; unfold_postings; solve_fixes.
  - intros i b c. unfold reverse_journal_entry, _enforce_period_open, _generate_journal_number. solve_keeps.
  - intros. unfold close_accounting_period. solve_keeps.
  - intros d d' [= E1 _ _ E2] _. apply transit_wf_ext. unfold transit_reads. by rewrite E1, E2.
  - intros q by_ _. apply post_keeps_transit.
  - intros i b c. unfold reverse_journal_entry, _enforce_period_open, _generate_journal_number. solve_keeps.
  - intros. unfold close_accounting_period. solve_keeps.
Qed.

Lemma shop_keeps_staff vp prov uo r : shop_request r -> keeps staff_wf (serve vp prov uo r).
Proof.
  intros Hr. assert (Hext : forall d d', people_tables d' = people_tables d -> staff_wf d -> staff_wf d')
    by (intros d d' E; apply staff_wf_ext; unfold staff_tables; by rewrite E).
  apply shop_keeps_back_office; [..|done].
  - intros d d' [= _ _ _ _ E _] _. by apply Hext.
  - intros q by_ _. apply posting_keeps_untouched, untouched_keeps_staff.
  - intros i b c. apply (keeps_frame _ people_tables _ Hext);
      unfold reverse_journal_entry, _enforce_period_open, _generate_journal_number; solve_fixes.
  - intros. unfold close_accounting_period.
    walk_keeps ltac:(apply (keeps_frame _ people_tables _ Hext); solve [solve_fixes]).
Qed.

Lemma shop_keeps_office vp prov uo r : shop_request r -> keeps office_wf (serve vp prov uo r).
Proof.
  intros Hr s [[C1 C2] (C3 & C4 & C5)] [[W1 W2] (W3 & W4 & W5)].
  pose proof (keeps_and _ _ _ (shop_keeps_documents vp prov uo r Hr)
    (keeps_and _ _ _ (shop_keeps_staff vp prov uo r Hr) (shop_keeps_payroll vp prov uo r Hr)) s
    (conj (conj C1 C3) (conj C4 (conj C2 C5))) (conj (conj W1 W3) (conj W4 (conj W2 W5)))) as K.
  destruct (serve vp prov uo r s) as [[a|e] s']; unfold office_wf; tauto.
Qed.

(** The operations of purchasing keep the shop floor consistent. *)
Lemma purchasing_keeps_shop op : keeps shop_wf (run_purchasing_op op).
Proof.
  apply keeps_shop; [apply purchasing_keeps_stock|apply purchasing_keeps_books|..];
    apply run_purchasing_op_keeps;
    try (intros; unfold post_goods_receipt_journal, post_purchase_return_journal, _post_standard, posted,
           record_movement, lock_product_for_update; solve [solve_keeps]);
    intros d d' [= _ _ _ _ Es Et _ _] Hd.
  - apply (shifts_wf_ext d); [by rewrite Et|done].
  - apply (returns_wf_ext d); by rewrite ?Es.
  - apply (tills_wf_ext d); [by rewrite Et| |done]. unfold cash_rows. by rewrite Es, Et.
Qed.

(** *** Accounts payable: what holds up to the commit *)

Definition draft_system (d : database) : Prop :=
  draft_books d /\ (stock_wf d /\ shifts_wf d /\ returns_wf d /\ tills_wf d) /\ office_wf d.

Lemma system_wf_draft d : system_wf d <-> draft_system d /\ deferred_ok d = true.
Proof.
  unfold draft_system. rewrite system_wf_split. unfold shop_wf. rewrite books_wf_draft. tauto.
Qed.

Lemma payables_keep_draft op : keeps draft_system (run_payables_op op).
Proof.
  apply keeps_and; [apply payables_keep_draft_books|apply keeps_and].
  - apply payables_keep_untouched. intros d d' [= _ E2 E3 E4 E5 _ _ _] (H1 & H2 & H3 & H4). split_and!.
    + by apply (stock_wf_ext d); rewrite ?E2, ?E3.
    + by apply (shifts_wf_ext d); rewrite ?E5.
    + by apply (returns_wf_ext d); rewrite ?E4.
    + apply (tills_wf_ext d); [by rewrite E5| |done]. unfold cash_rows. by rewrite E4, E5.
  - apply keeps_and; [apply keeps_and; [apply payables_keep_purchasing|apply payables_keeps_wf]|].
    apply keeps_and; [|apply keeps_and; [apply payables_keep_staff|apply payables_keep_payroll]].
    apply payables_keep_untouched. intros d d' [= E1 _ _ _ _ _ E7]. apply transit_wf_ext.
    unfold transit_reads. by rewrite E1, E7.
Qed.

(** Goods in transit keep everything. *)
Lemma transit_keeps_system op : keeps system_wf (run_transit_op op).
Proof.
  apply keeps_system.
  - apply keeps_shop; [apply transit_keeps_stock|apply transit_keeps_books|apply transit_keeps_shifts
      |apply transit_keeps_returns|apply transit_keeps_tills].
  - apply keeps_and; [apply keeps_and; [apply transit_keeps_purchasing|apply transit_keeps_payables]|].
    apply keeps_and; [apply transit_keeps_wf|].
    apply keeps_and; [apply transit_keeps_staff|apply transit_keeps_payroll].
Qed.

Lemma purchasing_keeps_office op : keeps office_wf (run_purchasing_op op).
Proof.
  apply keeps_and; [apply purchasing_keeps_payables|].
  apply keeps_and; [|apply keeps_and; [apply purchasing_keeps_staff|apply purchasing_keeps_payroll]].
  apply run_purchasing_op_keeps.
  - intros d d' [= E _ _ _ _ _ _ _ E']. apply transit_wf_ext. unfold transit_reads. by rewrite E, E'.
  - intros pid a. apply keeps_transit_frame; unfold transit_reads, record_movement, lock_product_for_update; solve_fixes.
  - intros i st dt vs by_. apply (post_keeps_transit (P_goods_receipt i st dt vs)).
  - intros i st dt vs by_. apply (post_keeps_transit (P_purchase_return i st dt vs)).
Qed.

(** The personnel operations touch nothing of the others. *)
Lemma hr_keeps_system uo op : keeps system_wf (run_hr_op uo op).
Proof.
  apply keeps_system.
  - apply hr_keeps_frame. intros d d' [= _ E2 E3 E4 E5 E6 _ _ _ _ _] (H1 & [H2 H2'] & H3 & H4 & H5). split_and!.
    + by apply (stock_wf_ext d); rewrite ?E2, ?E4.
    + split; [by apply (ledger_wf_ext d)|by apply (reversals_wf_ext d)].
    + by apply (shifts_wf_ext d); rewrite ?E6.
    + by apply (returns_wf_ext d); rewrite ?E5.
    + apply (tills_wf_ext d); [by rewrite E6| |done]. unfold cash_rows. by rewrite E5, E6.
  - apply keeps_and; [apply keeps_and|apply keeps_and; [|apply keeps_and; [apply hr_keeps_staff|]]]; apply hr_keeps_frame.
    + intros d d' [= _ _ _ _ _ _ _ E _ _ _]. apply purchasing_wf_ext. unfold document_tables. by rewrite E.
    + intros d d' [= _ _ E1 _ _ _ _ E2 E3 _ _]. apply payables_wf_ext.
      unfold payables_frame, settlement_tables, matched_tables. by rewrite E1, E2, E3.
    + intros d d' [= E1 _ _ _ _ _ _ _ _ E2 _]. apply transit_wf_ext. unfold transit_reads. by rewrite E1, E2.
    + intros d d' [= _ _ E1 _ _ _ _ _ _ _ E2]. apply payroll_wf_ext. unfold payroll_reads. by rewrite E1, E2.
Qed.

(** Payroll keeps everything up to the commit. *)
Lemma payroll_keep_draft op : keeps draft_system (run_payroll_op op).
Proof.
  apply keeps_and; [apply payroll_keeps_draft_books|apply keeps_and].
  - apply payroll_keeps_untouched. intros d d' [= _ E2 E3 E4 E5 _ _ _] (H1 & H2 & H3 & H4). split_and!.
    + by apply (stock_wf_ext d); rewrite ?E2, ?E3.
    + by apply (shifts_wf_ext d); rewrite ?E5.
    + by apply (returns_wf_ext d); rewrite ?E4.
    + apply (tills_wf_ext d); [by rewrite E5| |done]. unfold cash_rows. by rewrite E4, E5.
  - apply keeps_and; [apply keeps_and; [apply payroll_keeps_purchasing|apply payroll_keeps_payables]|].
    apply keeps_and; [apply payroll_keeps_transit|].
    apply keeps_and; [apply payroll_keeps_staff|apply payroll_keeps_wf].
Qed.

(** A request goes to the shop floor or to one of the other components. *)
Lemma request_component r :
  shop_request r \/ (exists op, r = RQ_purchasing op) \/ (exists op, r = RQ_payables op) \/
  (exists op, r = RQ_transit op) \/ (exists op, r = RQ_hr op) \/ (exists op, r = RQ_payroll op).
Proof. destruct r; simpl; eauto 10. Qed.

(** A request started on a consistent state leaves one. *)
Lemma serve_request_wf vp prov uo r s :
  system_wf (committed s) -> system_wf (working s) ->
  let s' := (run_request (serve vp prov uo r) s).2 in system_wf (committed s') /\ system_wf (working s').
Proof.
  intros H1 H2. destruct (request_component r) as [Hr|[[op ->]|[[op ->]|[[op ->]|[[op ->]|[op ->]]]]]].
  - apply keeps_request; [|done..]. apply keeps_system; [by apply shop_keeps|by apply shop_keeps_office].
  - apply keeps_request; [|done..].
    apply keeps_system; [apply purchasing_keeps_shop|apply purchasing_keeps_office].
  - apply (keeps_request_checked _ draft_system); [apply system_wf_draft|apply payables_keep_draft
      |apply payables_checked|done..].
  - apply keeps_request; [|done..]. apply transit_keeps_system.
  - apply keeps_request; [|done..]. apply hr_keeps_system.
  - apply (keeps_request_checked _ draft_system); [apply system_wf_draft|apply payroll_keep_draft
      |apply payroll_checked|done..].
Qed.

(** ** Reachable states *)

(** A database on opening day: stock received and staff on record, nothing else. *)
Record opened (d : database) : Prop := {
  op_stock : stock_wf d;
  op_entries : journal_entries d = [];
  op_lines : journal_lines d = [];
  op_shifts : cashier_shifts d = [];
  op_items : sale_items d = [];
  op_returns : sale_returns d = [];
  op_return_items : sale_return_items d = [];
  op_orders : purchase_orders d = [];
  op_order_items : purchase_order_items d = [];
  op_receipt_items : goods_receipt_items d = [];
  op_given_back : purchase_return_items d = [];
  op_payables : payables_tables d = mkPayables [] [] [] [] [] [] [] [] [] [];
  op_transit : transit_tables d = mkTransit [] [] [] [] [] [] [] [] [];
  op_staff : staff_wf d;
  op_periods : payroll_periods d = [];
  op_results : payroll_results d = [];
  op_reversals : payroll_reversals d = [];
}.

Lemma opened_wf d : opened d -> system_wf d.
Proof.
  intros [Hs He Hl Hsh Hi Hr Hri Ho Hoi Hg Hb Hp Ht Hst Hpp Hpr Hpv].
  constructor; [done|by apply empty_ledger_wf| | | |by apply no_orders_wf|
    apply no_payables_wf; [done..| |done]; rewrite Hoi; by intros i' ?%elem_of_nil|by apply no_transit_wf|done
    |by apply no_payroll_wf].
  - constructor; rewrite Hsh; intros i; unfold row_of; by destruct (0 <? i).
  - apply no_returns_wf; [done..|]. rewrite Hi. intros k item. unfold row_of. by destruct (0 <? k).
  - intros i sh. rewrite Hsh. unfold row_of. by destruct (0 <? i).
Qed.

Lemma step_wf vp prov uo al s s' :
  step vp prov uo al s s' -> system_wf (committed s) -> system_wf (working s) ->
  system_wf (committed s') /\ system_wf (working s').
Proof.
  destruct 1 as [r s Hr|e s]; intros H1 H2; [|done].
  by apply serve_request_wf.
Qed.

Lemma reachable_wf vp prov uo al d s :
  opened d -> reachable vp prov uo al d s -> system_wf (committed s) /\ system_wf (working s).
Proof.
  intros Hd. induction 1 as [e|s s' _ [H1 H2] Hs].
  - by split; apply opened_wf.
  - by eapply step_wf.
Qed.

(** Between two requests nothing is pending. *)
Lemma reachable_clean vp prov uo al d s : reachable vp prov uo al d s -> working s = committed s.
Proof. induction 1 as [e|s s' _ IH Hs]; [done|]. by destruct Hs. Qed.

(** C1: From opening day on, after any sequence of requests to the modelled
    endpoints (amounts at the scale of their columns), served or refused, every committed database is consistent across
    its components at once: each product's cached quantity is the sum of its
    ledger and is negative only where allowed; every journal entry balances; a
    cashier has at most one open shift; no item is returned beyond what was sold
    and no more of its discount or tax is given back than was charged; the
    expected cash frozen in a closed shift is still what its sales, refunds and
    cash movements add up to; every purchase-order item's received quantity is
    the sum of its receipts; no order has given back more of a product than it
    delivered; an order item is invoiced for exactly what its posted invoices'
    lines say, never beyond what was received; an invoice's paid and credited
    amounts are what its live payments and credit notes allocate to it, and its
    status says whether that is nothing, a part or all of it; and the
    accounts-payable account of the ledger is, for any choice
    of stores, what their open invoices still owe; every transfer line counts
    what its receipts say, good, damaged and short together never beyond what
    was shipped, and has written off what its posted write-offs say, never
    beyond what arrived damaged or short; and every write-off that is not
    pending was decided exactly once, by somebody else than its initiator. *)
Theorem reachable_system vp prov uo allowed d0 s :
  opened d0 -> reachable vp prov uo allowed d0 s ->
  let d := committed s in
  (forall i p, row_of (products d) i = Some p ->
     current_qty_on_hand p = ledger_quantity (inventory_movements d) i /\
     (allow_negative_stock p = false -> 0 <= current_qty_on_hand p)) /\
  (forall id e, row_of (journal_entries d) id = Some e ->
     entry_debits (journal_lines d) id = entry_credits (journal_lines d) id) /\
  (forall i j a b, row_of (cashier_shifts d) i = Some a -> row_of (cashier_shifts d) j = Some b ->
     shift_status a = SHIFT_OPEN -> shift_status b = SHIFT_OPEN ->
     shift_cashier_id a = shift_cashier_id b -> i = j) /\
  (forall k item, row_of (sale_items d) k = Some item ->
     returned_so_far ri_quantity d k = quantity_returned item /\
     quantity_returned item <= item_quantity item /\
     returned_so_far ri_discount_refunded d k <= item_discount_amount item /\
     returned_so_far ri_tax_refunded d k <= item_tax_amount item) /\
  (forall i sh, row_of (cashier_shifts d) i = Some sh -> shift_status sh = SHIFT_CLOSED ->
     expected_cash_amount sh = Some (expected_cash d i sh)) /\
  (forall k item, row_of (purchase_order_items d) k = Some item ->
     quantity_received item = receipts_total d k) /\
  (forall o p, already_returned_by_product d o p <= received_by_product d o p) /\
  (forall k item, row_of (purchase_order_items d) k = Some item ->
     quantity_invoiced item = invoiced_total d k /\ quantity_invoiced item <= quantity_received item) /\
  (forall k i, row_of (purchase_invoices d) k = Some i ->
     amount_paid i = settled_by (payment_side d) k /\ amount_credited i = settled_by (credit_side d) k /\
     settled_ok i) /\
  (forall p, payable_balance d p = ledger_of_money (owed p (purchase_invoices d))) /\
  (forall k l, row_of (transfer_lines d) k = Some l ->
     line_counted l = counted d k /\ accounted l <= shipped_quantity l /\
     written_off_quantity l = posted_quantity d k /\
     0 <= written_off_quantity l <= damaged_quantity l + declared_short_quantity l) /\
  (forall k w, row_of (write_offs d) k = Some w -> wo_status w <> WO_PENDING_APPROVAL ->
     exists v, List.filter (decides k) (write_off_approvals d) = [v] /\
       woa_approved_by v <> wo_initiated_by w).
Proof.
  intros Ho Hr d. subst d. destruct (reachable_wf _ _ _ _ _ _ Ho Hr) as [[Hst [Hl _] Hsh Hrt Hti Hpu Hpa Htr _ _] _].
  split_and!.
  - intros i p Hp. split; [by apply (sw_cache _ Hst)|].
    intros Hn. destruct (sw_floor _ Hst i p Hp); [congruence|done].
  - intros id e He. by destruct (lw_balanced _ Hl id e He).
  - apply (sh_one_open _ Hsh).
  - intros k item Hk. destruct (rw_bounds _ Hrt k item Hk) as [Hq Hb].
    destruct (rw_amounts _ Hrt k item Hk). rewrite (rw_quantity _ Hrt k item Hk).
    rewrite (rw_discount _ Hrt k item Hk), (rw_tax _ Hrt k item Hk).
    split_and!; [done|lia| |]; apply entitled_le; lia.
  - exact Hti.
  - exact (pw_received _ Hpu).
  - exact (pw_returned _ Hpu).
  - exact (mw_invoiced _ (pa_matched _ Hpa)).
  - intros k i Hk. pose proof (pa_settlement _ Hpa) as Hs. split_and!.
    + exact (se_amount _ Hs BY_PAYMENT k i Hk).
    + exact (se_amount _ Hs BY_CREDIT k i Hk).
    + exact (se_status _ Hs k i Hk).
  - exact (py_balance _ (pa_payable _ Hpa)).
  - intros k l Hk. destruct (fw_lines _ (tw_flow _ Htr) k l Hk).
    pose proof (written_off_within _ k l Htr Hk). pose proof (lo_lines _ (tw_loss _ Htr) k l Hk). split_and!; done || lia.
  - intros k w Hk Hst'. pose proof (lo_decided _ (tw_loss _ Htr) k w Hk) as Hdec.
    destruct (lo_rows _ (tw_loss _ Htr) w (row_of_elem _ _ _ Hk)) as [_ _ _ Hna _].
    destruct (wo_status w); try done; destruct Hdec as (v & Hv & _ & _ & Hne); by exists v.
Qed.

(** A day at store 1: a till opens, sells, takes a return, is closed; an order
    is placed, received, invoiced and paid in part. *)
Definition demo_day : list request :=
  [RQ_open_shift 1 1 10000 "open-1" (Some 1);
   RQ_sale 1 1 "sale-1" (Some 1) demo_cart [(CASH, 1000)];
   RQ_return (demo_return "ret-1" None None) (Some 1) demo_lines;
   RQ_cash_movement 1 PAID_OUT 500 "float" 1 "cm-1" (Some 1);
   RQ_close_shift 1 10200 1 (Some 1) "close-1";
   RQ_purchasing (P_create_supplier demo_supplier (Some 2));
   RQ_purchasing (P_create_order demo_order demo_order_lines (Some 1));
   RQ_purchasing (P_submit 1 (Some 2) (Some 1));
   RQ_purchasing (P_receive demo_receipt_args demo_receipt_lines (Some 1));
   RQ_payables (A_create_invoice demo_invoice demo_invoice_lines (Some 1));
   RQ_payables (A_post_invoice 1 (Some 1) (Some 2));
   RQ_payables (A_pay demo_payment demo_allocations (Some 1))].

Definition run_requests vp prov uo (rs : list request) (s : session database) : session database :=
  fold_left (fun s r => (run_request (serve vp prov uo r) s).2) rs s.

Lemma run_requests_reachable vp prov uo al d rs s :
  Forall al rs -> reachable vp prov uo al d s -> reachable vp prov uo al d (run_requests vp prov uo rs s).
Proof.
  revert s. induction rs as [|r rs IH]; intros s Hrs Hs; [done|].
  apply Forall_cons in Hrs as [Hr Hrs]. simpl. apply IH; [done|].
  eapply reach_step; [exact Hs|]. by constructor.
Qed.

Definition any_request (r : request) : Prop := True.

Lemma demo_opened : opened demo_database.
Proof. constructor; try reflexivity; [exact demo_stock_wf|by apply no_staff_wf]. Qed.

Definition demo_evening : session database :=
  run_requests String.eqb (fun _ => None) utc_zone demo_day demo.

Lemma reachable_system_witness :
  exists sh, row_of (cashier_shifts (committed demo_evening)) 1 = Some sh /\
    expected_cash_amount sh = Some 10008 /\ expected_cash (committed demo_evening) 1 sh = 10008 /\
    payable_balance (committed demo_evening) (fun _ => true) = 8000000.
Proof.
  assert (reachable String.eqb (fun _ => None) utc_zone any_request demo_database demo_evening) as Hr
    by (apply run_requests_reachable; [by apply Forall_true|exact (reach_init _ _ _ _ demo_database demo_env)]).
  destruct (reachable_system String.eqb (fun _ => None) utc_zone any_request demo_database demo_evening demo_opened Hr)
    as (_ & _ & _ & _ & Ht & _ & _ & _ & _ & Hpay & _).
  assert (exists sh, row_of (cashier_shifts (committed demo_evening)) 1 = Some sh /\
    shift_status sh = SHIFT_CLOSED /\ expected_cash_amount sh = Some 10008) as (sh & Hsh & Hc & He).
  { vm_compute. eexists. split_and!; reflexivity. }
  exists sh. split_and!; [exact Hsh|exact He| |].
  - specialize (Ht 1 sh Hsh Hc). exact (f_equal (default 0) (eq_trans (eq_sym Ht) He)).
  - rewrite (Hpay (fun _ => true)). vm_compute. reflexivity.
Defined.

(** ** The Inventory In Transit account of the whole program *)

(** Every shipment lists each line once. *)
Definition ships_lines_once (r : request) : Prop :=
  match r with RQ_transit op => lines_once op | _ => True end.

Definition books_in_transit (d : database) : Prop := (purchasing_wf d /\ payables_wf d) /\ in_transit_wf d.

Lemma shop_keeps_transit_books vp prov uo r :
  shop_request r -> keeps (fun d => payables_wf d /\ transit_books d) (serve vp prov uo r).
Proof.
  intros Hr. apply shop_keeps_back_office; [..|done].
  - intros d d' [= _ E1 E2 E4 _ _] E3 [H1 H2]. split.
    + apply (payables_wf_ext d); [|done]. unfold payables_frame, settlement_tables, matched_tables. by rewrite E1, E2, E3.
    + apply (transit_books_ext d); [|done]. unfold books_reads. by rewrite E3, E4.
  - intros q by_ Hq. apply keeps_and; [by apply shop_posting_keeps|].
    apply post_keeps_transit_books, shop_posting_other; [done|by right].
  - intros i b c. apply keeps_with; [|apply reverse_keeps_payables|].
    { unfold reverse_journal_entry, _enforce_period_open, _generate_journal_number. solve_fixes. }
    intros s k s' Hp _ _ H. apply reverse_ok in H as (e & He%row_of_elem & Hm & _).
    pose proof (py_automated _ (pa_payable _ Hp) e He) as Ha. by rewrite Hm in Ha.
  - intros st ps pe re b c. apply keeps_and; [apply close_period_keeps_payables|].
    unfold close_accounting_period. walk_keeps ltac:(apply (keeps_frame _ books_reads);
      [apply transit_books_ext|solve [unfold books_reads; solve_fixes]..]).
Qed.

Lemma serve_keeps_transit_books vp prov uo r :
  ships_lines_once r -> keeps books_in_transit (serve vp prov uo r).
Proof.
  intros Ho.
  assert (shop_request r \/ (exists op, r = RQ_purchasing op) \/ (exists op, r = RQ_payables op) \/
    (exists op, r = RQ_transit op) \/ (exists op, r = RQ_hr op) \/ (exists op, r = RQ_payroll op))
    as [Hr|[[op ->]|[[op ->]|[[op ->]|[[op ->]|[op ->]]]]]] by (destruct r; simpl; eauto 10).
  - intros s [[C1 C2] [C3 C4]] [[W1 W2] [W3 W4]].
    pose proof (keeps_and _ _ _ (shop_keeps_documents vp prov uo r Hr) (shop_keeps_transit_books vp prov uo r Hr) s
      (conj (conj C1 C3) (conj C2 C4)) (conj (conj W1 W3) (conj W2 W4))) as K.
    destruct (serve vp prov uo r s) as [[a|e] s']; unfold books_in_transit, in_transit_wf in *; tauto.
  - apply keeps_and; [apply purchasing_keeps_payables|apply purchasing_keeps_transit].
  - apply keeps_and; [|apply payables_keep_transit].
    apply keeps_and; [apply payables_keep_purchasing|apply payables_keeps_wf].
  - apply keeps_and; [|by apply transit_op_in_transit].
    apply keeps_and; [apply transit_keeps_purchasing|apply transit_keeps_payables].
  - apply hr_keeps_frame. intros d d' [= E1 _ E3 _ _ _ _ E8 E9 E10 _] [[H1 H2] [H3 H4]].
    split; split.
    + apply (purchasing_wf_ext d); [|done]. unfold document_tables. by rewrite E8.
    + apply (payables_wf_ext d); [|done]. unfold payables_frame, settlement_tables, matched_tables. by rewrite E3, E8, E9.
    + apply (transit_wf_ext d); [|done]. unfold transit_reads. by rewrite E1, E10.
    + apply (transit_books_ext d); [|done]. unfold books_reads. by rewrite E3, E10.
  - apply keeps_and; [apply keeps_and; [apply payroll_keeps_purchasing|apply payroll_keeps_payables]|].
    apply keeps_and; [apply payroll_keeps_transit|apply payroll_keeps_transit_books].
Qed.

Lemma reachable_books_in_transit vp prov uo d s :
  opened d -> reachable vp prov uo ships_lines_once d s ->
  books_in_transit (committed s) /\ books_in_transit (working s).
Proof.
  intros Hd. induction 1 as [e|s s' _ [H1 H2] Hs].
  - destruct (opened_wf d Hd) as [_ _ _ _ _ H6 H7 H8 _ _].
    assert (books_in_transit d); [|done]. split; [done|]. split; [done|].
    apply no_transit_books; apply Hd.
  - destruct Hs as [r s Hr|e s]; [|done].
    apply keeps_request; [by apply serve_keeps_transit_books|done..].
Qed.

(** C3: From opening day on, as long as no shipment lists the same line twice,
    and whatever sales, counts, receipts, invoices, payments and reversals come
    in between, the Inventory In Transit account of the ledger is, after every
    request, the value of what left on transfer lines at its frozen cost, less
    what was received good of it and less what its posted write-offs took. *)
Theorem reachable_in_transit vp prov uo d0 s :
  opened d0 -> reachable vp prov uo ships_lines_once d0 s ->
  account_balance (committed s) ACCOUNT_INVENTORY_IN_TRANSIT = in_transit_value (committed s).
Proof. intros Ho Hr. by destruct (reachable_books_in_transit _ _ _ _ _ Ho Hr) as [(_ & _ & Hb) _]. Qed.

(** A day at two stores: goods leave, the till sells on, the goods arrive short. *)
Definition transit_day : list request :=
  [RQ_open_shift 1 1 10000 "open-1" (Some 1);
   RQ_transit (X_transfer (T_create demo_transfer demo_transfer_lines (Some 1)));
   RQ_transit (X_transfer (T_ship 1 demo_ship_lines "ship-1" (Some 1) (Some 2)));
   RQ_sale 1 1 "sale-1" (Some 1) demo_cart [(CASH, 1000)];
   RQ_transit (X_transfer (T_receive demo_transfer_receipt demo_receive_lines (Some 2)));
   RQ_transit (X_transfer (T_investigate 1 (Some 2) (Some 3)));
   RQ_transit (X_transfer (T_resolve 1 "TRANSIT_DAMAGE" "crushed crates" (Some 2) (Some 3)));
   RQ_transit (X_write_off (W_rule demo_rule));
   RQ_transit (X_write_off (W_create demo_write_off (Some 2)));
   RQ_transit (X_write_off (W_approve 1 "agreed" (Some 2) None))].

Definition transit_evening : session database :=
  run_requests String.eqb (fun _ => None) utc_zone transit_day transit_demo.

Lemma transit_products i p :
  row_of (products transit_database) i = Some p ->
  row_of (products demo_database) i = Some p \/
  i = 3 /\ row_of (products transit_database) 3 = Some p.
Proof. intros [H|[-> ->]]%row_of_inv_app; [by left|by right]. Qed.

Lemma transit_stock_wf : stock_wf transit_database.
Proof.
  destruct demo_stock_wf as [H1 H2 H3 H4].
  constructor; try done; intros i p [Hp|[-> [= <-]]]%transit_products; try (by eapply H1); try (by eapply H2);
    try (by eapply H3); try (by eapply H4); try right; by vm_compute.
Qed.

Lemma transit_opened : opened transit_database.
Proof. constructor; try reflexivity; [exact transit_stock_wf|by apply no_staff_wf]. Qed.

Lemma reachable_in_transit_witness :
  account_balance (committed transit_evening) ACCOUNT_INVENTORY_IN_TRANSIT = 933333 /\
  map wo_status (write_offs (committed transit_evening)) = [WO_POSTED].
Proof.
  split; [|vm_compute; reflexivity].
  assert (reachable String.eqb (fun _ => None) utc_zone ships_lines_once transit_database transit_evening) as Hr.
  { apply run_requests_reachable; [|exact (reach_init _ _ _ _ transit_database demo_env)].
    repeat constructor; try apply (bool_decide_unpack _); vm_compute; try done. }
  rewrite (reachable_in_transit String.eqb (fun _ => None) utc_zone transit_database transit_evening transit_opened Hr).
  vm_compute. reflexivity.
Defined.
