(* ===== verification/SystemPeople.v ===== *)
(** * Staff and pay in the whole program

    What the invariants of [System] say about personnel and payroll after any
    sequence of requests to any of the modelled endpoints. *)

From S2P Require Import Prelude Fixed Session Schema Tables Platform EffectiveDated Workforce WorkforceInvariant.
From S2P Require Import Chart Fixture Journal Posting Books Inventory Payroll PayPeriods PayPeriodOps PayPeriodInvariant.
From S2P Require Import PayrollFixture WorkforceProperties PayPeriodProperties PayrollInterplay.
From S2P Require Import Shifts Sales SaleReturns ReturnProperties Tills System.

(** ** The staff *)

Lemma began_on_day {R} `{Dated R} (t : list R) e from P day :
  chained (history e t) -> began t e from P ->
  (day < from -> on_day t e day = []) /\ (from <= day -> exists r, on_day t e day = [r]).
Proof.
  intros Hc (r & h & Hh & <- & _). pose proof (chained_on_day r h day) as Hd. rewrite <- Hh in Hd.
  specialize (Hd Hc). unfold on_day. split; intros Hlt.
  - destruct (Z.leb_spec (since r) day); [lia|done].
  - destruct (Z.leb_spec (since r) day); [done|lia].
Qed.

Lemma at_most_one_on_day {R} `{Dated R} (t : list R) e day :
  chained (history e t) -> (length (on_day t e day) <= 1)%nat.
Proof.
  intros Hc. unfold on_day. destruct (history e t) as [|r h]; [simpl; lia|].
  pose proof (chained_on_day r h day Hc) as Hd. destruct (since r <=? day); [|rewrite Hd; simpl; lia].
  destruct Hd as [x ->]. simpl. lia.
Qed.

(** C11: From opening day on, after any sequence of requests, everybody on the
    staff has exactly one status and exactly one assignment on every day from
    the hire date on, none before it, and at most one rate of pay; no two shifts
    that count overlap for the same person, in whichever stores; and a voided
    shift is voided for exactly one correction, of the same person in the same
    store, with a reason. *)
Theorem reachable_staff vp prov uo allowed d0 s :
  opened d0 -> reachable vp prov uo allowed d0 s ->
  let d := committed s in
  (forall e emp day, row_of (employees d) e = Some emp ->
     (day < hire_date emp -> status_on d e day = [] /\ placed_on d e day = []) /\
     (hire_date emp <= day -> (exists st, status_on d e day = [st]) /\ exists pl, placed_on d e day = [pl])) /\
  (forall e day, (length (paid_on d e day) <= 1)%nat) /\
  (forall i j a b, row_of (attendance_records d) i = Some a -> row_of (attendance_records d) j = Some b ->
     i <> j -> shifts_clash a b = false) /\
  (forall i r, row_of (attendance_records d) i = Some r -> ar_status r = ATT_VOIDED ->
     exists k c, row_of (attendance_records d) k = Some c /\ correction_of_id c = Some i /\
       ar_employee_id c = ar_employee_id r /\ ar_store_id c = ar_store_id r /\
       (exists reason, correction_reason c = Some reason /\ blank reason = false) /\
       forall k' c', row_of (attendance_records d) k' = Some c' -> correction_of_id c' = Some i -> k' = k).
Proof.
  intros Ho Hr d. destruct (reachable_wf _ _ _ _ _ _ Ho Hr) as [Hw _]. apply sys_staff in Hw.
  fold d in Hw. destruct Hw as [H1 H2 H3 H4 _ [_ A2 A3 A4 A5]]. split_and!.
  - intros e emp day He. destruct (H4 e emp He) as [B1 B2].
    destruct (began_on_day _ e _ _ day (H1 e) B1) as [S1 S2], (began_on_day _ e _ _ day (H2 e) B2) as [P1 P2].
    unfold status_on, placed_on. split; intros Hd.
    + rewrite (S1 Hd), (P1 Hd). done.
    + destruct (S2 Hd) as [r ->], (P2 Hd) as [a ->]. simpl. eauto.
  - intros e day. unfold paid_on. rewrite length_map. by apply at_most_one_on_day.
  - exact A2.
  - intros i r Hi Hv. destruct (A4 i r Hi Hv) as (k & c & Hk & Hc). exists k, c.
    destruct (A3 k c Hk i Hc) as (Hreason & o & Ho' & _ & E1 & E2 & _).
    assert (o = r) as -> by (rewrite Hi in Ho'; congruence).
    split_and!; try done. intros k' c' Hk' Hc'. by apply (A5 k' k c' c i).
Qed.

(** ** The pay *)

(** The total of the periods posted and not reversed. *)
Definition in_force_total (d : database) (f : PayrollPeriod -> money) : ledger :=
  sum_by (fun ip => if in_force d ip.1 ip.2 then ledger_of_money (f ip.2) else 0) (with_ids (payroll_periods d)).

Lemma payroll_ledger_total d (f : PayrollPeriod -> money) code c :
  (forall i p, row_of (payroll_periods d) i = Some p -> pp_status p = PP_POSTED ->
     spec_net (period_lines p) code = c * ledger_of_money (f p)) ->
  payroll_ledger d code = c * in_force_total d f.
Proof.
  intros H. unfold payroll_ledger, in_force_total. rewrite <- sum_by_scale. apply sum_by_ext.
  intros [i p] Hp%elem_with_ids. simpl. destruct (in_force d i p) eqn:E; [|lia].
  apply (H i p Hp). unfold in_force in E. by apply andb_true_iff in E as [E%bool_decide_eq_true _].
Qed.

Lemma posted_pay_amounts d i p :
  payroll_wf d -> row_of (payroll_periods d) i = Some p -> pp_status p = PP_POSTED ->
  0 <= pp_gross p /\ 0 <= pp_deductions p /\ 0 <= pp_net_pay p.
Proof.
  intros Hw Hp Hst. pose proof (pw_period _ Hw i p Hp) as Hm. unfold period_ok in Hm. rewrite Hst in Hm.
  pose proof (sum_pay_nonneg _ (period_results_ok d i Hw)) as (G1 & G2 & G3 & _). rewrite <- Hm in *. done.
Qed.

(** C10: From opening day on, after any sequence of requests - sales, receipts,
    supplier payments, manual reversals and period closings in between - the
    payroll accounts of the ledger are what the payroll periods posted and not
    reversed say: wages are their gross pay, payroll payable their net pay,
    benefits payable their deductions; the totals of every calculated, approved
    or posted period are the sums of its results, which hold each employee once,
    with net pay equal to gross less deductions, and are final exactly when the
    period is posted. *)
Theorem reachable_payroll vp prov uo allowed d0 s :
  opened d0 -> reachable vp prov uo allowed d0 s ->
  let d := committed s in
  account_balance d ACCOUNT_WAGE_SALARY_EXPENSE = in_force_total d pp_gross /\
  account_balance d ACCOUNT_PAYROLL_PAYABLE = - in_force_total d pp_net_pay /\
  account_balance d ACCOUNT_BENEFIT_DEDUCTION_PAYABLE = - in_force_total d pp_deductions /\
  account_balance d ACCOUNT_EMPLOYER_CONTRIBUTION_PAYABLE
    = - account_balance d ACCOUNT_EMPLOYER_CONTRIBUTION_EXPENSE /\
  (forall i p, row_of (payroll_periods d) i = Some p ->
     pp_status p ∈ [PP_CALCULATED; PP_APPROVED; PP_POSTED] -> totals_match d i p) /\
  (forall i r, r ∈ period_results d i -> amounts_ok r /\
     exists p, row_of (payroll_periods d) i = Some p /\ (per_status r = RESULT_FINAL <-> pp_status p = PP_POSTED)) /\
  pairwise same_result (payroll_results d).
Proof.
  intros Ho Hr d. destruct (reachable_wf _ _ _ _ _ _ Ho Hr) as [Hs _]. apply sys_payroll in Hs.
  fold d in Hs. pose proof Hs as [H1 H2 H3 H4 H5].
  assert (N : forall i p, row_of (payroll_periods d) i = Some p -> pp_status p = PP_POSTED -> _)
    by (intros i p Hp Hst; destruct (posted_pay_amounts d i p Hs Hp Hst) as (G1 & G2 & G3);
        exact (period_net p G1 G2 G3)).
  assert (A : forall code c f, code ∈ PAYROLL_ACCOUNTS -> (forall i p, row_of (payroll_periods d) i = Some p ->
      pp_status p = PP_POSTED -> spec_net (period_lines p) code = c * ledger_of_money (f p)) ->
      account_balance d code = c * in_force_total d f).
  { intros code c f Hc Hf. rewrite (H5 code Hc). by apply payroll_ledger_total. }
  assert (Hin : forall code, bool_decide (code ∈ PAYROLL_ACCOUNTS) = true -> code ∈ PAYROLL_ACCOUNTS)
    by (intros code; apply bool_decide_eq_true_1).
  split_and!.
  - rewrite (A _ 1 pp_gross); [lia|by apply Hin|]. intros i p Hp Hst. destruct (N i p Hp Hst) as (-> & _). lia.
  - rewrite (A _ (-1) pp_net_pay); [lia|by apply Hin|]. intros i p Hp Hst. destruct (N i p Hp Hst) as (_ & -> & _). lia.
  - rewrite (A _ (-1) pp_deductions); [lia|by apply Hin|]. intros i p Hp Hst.
    destruct (N i p Hp Hst) as (_ & _ & -> & _). lia.
  - rewrite (A _ (-1) (fun p => Z.max 0 (pp_employer_contributions p))) by
      (try (by apply Hin); intros i p Hp Hst; destruct (N i p Hp Hst) as (_ & _ & _ & _ & ->); lia).
    rewrite (A ACCOUNT_EMPLOYER_CONTRIBUTION_EXPENSE 1 (fun p => Z.max 0 (pp_employer_contributions p))) by
      (try (by apply Hin); intros i p Hp Hst; destruct (N i p Hp Hst) as (_ & _ & _ & -> & _); lia). lia.
  - intros i p Hp Hst. pose proof (H1 i p Hp) as Hm. unfold period_ok in Hm.
    repeat (apply elem_of_cons in Hst as [Hst|Hst]; [by rewrite Hst in Hm|]). by apply elem_of_nil in Hst.
  - intros i r (Hr' & Hdel & <-)%live_in. exact (H2 r Hr' Hdel).
  - exact H3.
Qed.

(** ** The example *)

(** A week at store 1: somebody is hired, works, a till sells, payday comes. *)
Definition pay_week : list request :=
  [RQ_hr (H_hire demo_hire (Some 2) None);
   RQ_hr (H_compensate 1 20200 demo_wage (Some 2) None);
   RQ_hr (H_clock_in 1 1 nine "CLOCK" (Some 1) (Some 1));
   RQ_open_shift 1 1 10000 "open-1" (Some 1);
   RQ_sale 1 1 "sale-1" (Some 1) demo_cart [(CASH, 1000)];
   RQ_hr (H_clock_out 1 (nine + 8 * microseconds_per_hour) (Some 1) (Some 1));
   RQ_payroll (PR_create demo_week (Some 2) (Some 1));
   RQ_payroll (PR_open 1 (Some 2) (Some 1));
   RQ_payroll calculate_demo;
   RQ_payroll (PR_approve 1 (Some 2) (Some 1));
   RQ_payroll post_demo].

Definition pay_day : session database :=
  run_requests String.eqb (fun _ => None) utc_zone pay_week payroll_demo.

Lemma payroll_opened : opened payroll_database.
Proof.
  constructor; try reflexivity; [|by apply no_staff_wf].
  apply (stock_wf_ext demo_database); [reflexivity..|exact demo_stock_wf].
Qed.

Lemma pay_day_reachable : reachable String.eqb (fun _ => None) utc_zone any_request payroll_database pay_day.
Proof. apply run_requests_reachable; [by apply Forall_true|exact (reach_init _ _ _ _ payroll_database demo_env)]. Qed.

Lemma reachable_payroll_witness :
  account_balance (committed pay_day) ACCOUNT_PAYROLL_PAYABLE = -144000000 /\
  account_balance (committed pay_day) ACCOUNT_WAGE_SALARY_EXPENSE = 160000000.
Proof.
  destruct (reachable_payroll String.eqb (fun _ => None) utc_zone any_request payroll_database pay_day
    payroll_opened pay_day_reachable) as (E1 & E2 & _).
  split; [rewrite E2|rewrite E1]; vm_compute; reflexivity.
Defined.

Lemma reachable_staff_witness :
  status_on (committed pay_day) 1 20300 = [ES_ACTIVE] /\ exists pl, placed_on (committed pay_day) 1 20300 = [pl].
Proof.
  split; [vm_compute; reflexivity|].
  destruct (reachable_staff String.eqb (fun _ => None) utc_zone any_request payroll_database pay_day
    payroll_opened pay_day_reachable) as (E & _).
  assert (He : row_of (employees (committed pay_day)) 1 = Some (new_employee demo_hire)) by (vm_compute; reflexivity).
  destruct (E 1 (new_employee demo_hire) 20300 He) as [_ [_ Hp]]; [vm_compute; discriminate|exact Hp].
Defined.
