(* ===== verification/StalePay.v ===== *)
(** * Attendance that moves after a calculation

    approve_payroll_period of payroll/service.py refuses a calculation when a
    shift of its store and dates was written after it.  A shift clocked out
    after the calculation keeps the period from being approved whatever requests
    come next, until the period is calculated again. *)

From S2P Require Import Prelude Fixed Session Schema Tables Platform EffectiveDated Workforce WorkforceInvariant.
From S2P Require Import Chart Fixture Journal Posting Books Payroll PayPeriods PayPeriodOps PayPeriodInvariant.
From S2P Require Import PayrollFixture PayPeriodProperties PayrollInterplay Inventory Shifts Purchasing.
From S2P Require Import Fiscal Payables PayablesOps Interplay Transfers TransitOps TransitInterplay System SystemPeople.

(** ** A calculation that is out of date *)

(** Some shift of the period was written after [at_]. *)
Definition moved_shift (p : PayrollPeriod) (at_ : Z) (d : database) : Prop :=
  exists k r, row_of (attendance_records d) k = Some r /\ stale_attendance p at_ r = true.

(** The period stands as it was calculated, or was cancelled since. *)
Definition as_calculated (i : Z) (p : PayrollPeriod) (d : database) : Prop :=
  row_of (payroll_periods d) i = Some p \/
  row_of (payroll_periods d) i = Some (with_pp_status PP_CANCELLED p).

Definition stale_pay (i : Z) (p : PayrollPeriod) (at_ : Z) (d : database) : Prop :=
  as_calculated i p d /\ moved_shift p at_ d.

Lemma stale_pay_ext i p at_ d d' :
  payroll_periods d' = payroll_periods d -> attendance_records d' = attendance_records d ->
  stale_pay i p at_ d -> stale_pay i p at_ d'.
Proof. intros E1 E2. unfold stale_pay, as_calculated, moved_shift. by rewrite E1, E2. Qed.

(** ** The requests that write neither shifts nor periods *)

Section Elsewhere.
Context (i : Z) (p : PayrollPeriod) (at_ : Z).

Lemma keeps_stale_frame {A} (m : Tx A) :
  fixes committed m -> fixes (fun s => (people_tables (working s), payroll_tables (working s))) m ->
  keeps (stale_pay i p at_) m.
Proof.
  apply (keeps_frame _ (fun d => (people_tables d, payroll_tables d))).
  intros d d' [E1 E2]%pair_equal_spec. apply stale_pay_ext; [by rewrite E2|by rewrite E1].
Qed.

Lemma untouched_keeps_stale d d' :
  untouched_tables d' = untouched_tables d -> stale_pay i p at_ d -> stale_pay i p at_ d'.
Proof. intros [= _ _ _ _ _ _ _ E1 E2]. apply stale_pay_ext; [by rewrite E2|by rewrite E1]. Qed.

Lemma shop_keeps_stale vp prov uo r : shop_request r -> keeps (stale_pay i p at_) (serve vp prov uo r).
Proof.
  intros Hr. apply shop_keeps_back_office; [..|done].
  - intros d d' [= _ _ _ _ E1 E2] _. apply stale_pay_ext; [by rewrite E2|by rewrite E1].
  - intros q by_ _. apply posting_keeps_untouched, untouched_keeps_stale.
  - intros j b c. apply keeps_stale_frame;
      unfold reverse_journal_entry, _enforce_period_open, _generate_journal_number; solve_fixes.
  - intros. unfold close_accounting_period. walk_keeps ltac:(apply keeps_stale_frame; solve [solve_fixes]).
Qed.

Lemma purchasing_keeps_stale op : keeps (stale_pay i p at_) (run_purchasing_op op).
Proof.
  apply run_purchasing_op_keeps.
  - intros d d' [= _ _ _ _ _ _ _ _ _ E1 E2]. apply stale_pay_ext; [by rewrite E2|by rewrite E1].
  - intros pid a. apply keeps_stale_frame; unfold record_movement, lock_product_for_update; solve_fixes.
  - intros j st dt vs by_. apply (posting_keeps_untouched _ (P_goods_receipt j st dt vs)), untouched_keeps_stale.
  - intros j st dt vs by_. apply (posting_keeps_untouched _ (P_purchase_return j st dt vs)), untouched_keeps_stale.
Qed.

Lemma transit_keeps_stale op : keeps (stale_pay i p at_) (run_transit_op op).
Proof.
  apply run_transit_op_keeps.
  - intros d d' [= _ _ _ _ _ _ _ _ _ E1 E2]. apply stale_pay_ext; [by rewrite E2|by rewrite E1].
  - intros pid a. apply keeps_stale_frame; unfold record_movement, lock_product_for_update; solve_fixes.
  - intros q by_ _. apply posting_keeps_untouched, untouched_keeps_stale.
Qed.

(** ** Personnel: a shift written later is no less out of date *)

(** The operations that write a shift anew. *)
Definition rewrites_shift (op : hr_op) : bool :=
  match op with H_clock_in _ _ _ _ _ _ | H_clock_out _ _ _ _ | H_correct _ _ _ _ _ _ => true | _ => false end.

Lemma moved_shift_ext d d' :
  attendance_records d' = attendance_records d -> moved_shift p at_ d -> moved_shift p at_ d'.
Proof. intros E. unfold moved_shift. by rewrite E. Qed.

Lemma moved_shift_added new d :
  moved_shift p at_ d -> moved_shift p at_ (over_attendance_records (fun t => t ++ [new]) d).
Proof. intros (k & r & Hk & Hr). exists k, r. split; [by apply row_of_app_old|done]. Qed.

(** An UPDATE at [now] that leaves store and date. *)
Lemma moved_shift_rewritten j f now d :
  (forall r, ar_store_id (f r) = ar_store_id r /\ work_date (f r) = work_date r /\ ar_updated_at (f r) = Some now) ->
  at_ < now -> moved_shift p at_ d -> moved_shift p at_ (over_attendance_records (set_row j f) d).
Proof.
  intros Hf Hnow (k & r & Hk & Hr). exists k. simpl. rewrite row_of_set, Hk.
  case_bool_decide as E; [|by exists r]. exists (f r). split; [done|].
  destruct (Hf r) as (E1 & E2 & E3). unfold stale_attendance in *. rewrite E1, E2, E3.
  apply andb_true_iff in Hr as [-> _]. simpl. lia.
Qed.

Lemma hr_commits_last uo op : commits_last (run_hr_op uo op).
Proof. destruct op; simpl; hr_parts; hr_parts; apply commits_last_committing; solve_fixes. Qed.

Lemma hr_keeps_moved uo op : rewrites_shift op = false -> keeps (moved_shift p at_) (run_hr_op uo op).
Proof.
  intros Hop.
  assert (K : forall {A} (m : Tx A), fixes committed m -> fixes (fun s => attendance_records (working s)) m ->
    keeps (moved_shift p at_) m) by (intros A m; apply (keeps_frame _ (fun d => attendance_records d)); exact moved_shift_ext).
  destruct op; try done; simpl; hr_parts; hr_parts; unfold or_conflict, committing;
    walk_keeps ltac:(apply K; solve [solve_fixes]).
Qed.

Lemma hr_op_moved uo op s k s' :
  at_ < utc_now (env s) -> moved_shift p at_ (committed s) -> moved_shift p at_ (working s) ->
  run_hr_op uo op s = (Ok k, s') -> moved_shift p at_ (working s').
Proof.
  intros Hnow Hc Hm H. destruct (rewrites_shift op) eqn:Hop;
    [|by destruct (keeps_ok _ _ _ _ _ (hr_keeps_moved uo op Hop) Hc Hm H)].
  destruct op; try done; simpl in H.
  - apply clock_in_ok in H as (src & st & j & q & w & log & _ & _ & _ & _ & _ & _ & _ & _ & -> & _).
    by apply moved_shift_added.
  - apply clock_out_ok in H as (r & now & log & _ & _ & _ & _ & _ & -> & _ & _ & ->).
    by eapply moved_shift_rewritten.
  - apply correct_attendance_ok in H as
      (r & st & w & now & log & _ & _ & _ & _ & _ & _ & _ & _ & _ & -> & _ & _ & ->).
    apply moved_shift_added. by eapply moved_shift_rewritten.
Qed.

Lemma hr_keeps_stale_at uo op s : at_ < utc_now (env s) -> keeps_at (stale_pay i p at_) (run_hr_op uo op) s.
Proof.
  intros Hnow [C1 C2] [W1 W2].
  assert (K : keeps (as_calculated i p) (run_hr_op uo op)).
  { apply hr_keeps_frame. intros d d' [= _ _ _ _ _ _ _ _ _ _ E]. unfold as_calculated. by rewrite E. }
  specialize (K s C1 W1). pose proof (hr_commits_last uo op s) as Hc.
  destruct (run_hr_op uo op s) as [[k|e] s'] eqn:E; [|by rewrite Hc].
  assert (M : moved_shift p at_ (working s')) by (by eapply hr_op_moved).
  destruct K as [K1 K2], Hc as [Hc|Hc]; rewrite Hc in *; by split_and!.
Qed.
End Elsewhere.

(** ** Payroll: only a calculation of the period clears it *)

Lemma as_calculated_elsewhere i j p f d d' :
  i <> j -> payroll_periods d' = set_row j f (payroll_periods d) -> as_calculated i p d -> as_calculated i p d'.
Proof. intros Hne E. unfold as_calculated. rewrite E. rewrite row_of_set_ne by done. done. Qed.

Definition recalculates (i : Z) (op : payroll_op) : Prop :=
  match op with PR_calculate j _ _ _ => j = i | _ => False end.

Lemma payroll_op_as_calculated i p at_ op s k s' :
  ~ recalculates i op -> pp_status p = PP_CALCULATED -> calculated_at p = Some at_ ->
  payroll_wf (working s) -> stale_pay i p at_ (working s) -> run_payroll_op op s = (Ok k, s') ->
  as_calculated i p (working s').
Proof.
  intros Hno Hst Hat Hw [Hi (n & r & Hn & Hr)] H.
  assert (Hrow : forall j q, row_of (payroll_periods (working s)) j = Some q ->
    pp_status q <> PP_CALCULATED -> pp_status q <> PP_CANCELLED -> i <> j).
  { intros j q Hq N1 N2 ->. destruct Hi as [E|E]; rewrite E in Hq; injection Hq as <-; [done|by apply N2]. }
  destruct op; simpl in H.
  - apply create_payroll_period_ok in H as (log & _ & _ & _ & -> & _).
    destruct Hi as [Hi|Hi]; [left|right]; by apply row_of_app_old.
  - apply open_payroll_period_ok in H as (_ & q & Hq & _ & [[_ ->]|(Hs & [log ->] & _)]); [done|].
    eapply as_calculated_elsewhere; [|reflexivity|exact Hi]. apply (Hrow _ q); [done|by rewrite Hs..].
  - apply calculate_payroll_period_ok in H as (_ & [[-> _]|(q & a & rows & _ & _ & Hc & _)]);
      [done| |exact (pw_single _ Hw)].
    eapply as_calculated_elsewhere; [|exact (ca_periods _ _ _ _ _ _ _ _ Hc)|exact Hi].
    intros E. by apply Hno.
  - apply approve_payroll_period_ok in H as (_ & q & Hq & _ & [[_ ->]|(Hs & (a & t & _ & Ht & Hnone & [log ->]) & _)]);
      [done|].
    eapply as_calculated_elsewhere; [|reflexivity|exact Hi]. intros ->.
    destruct Hi as [E|E]; rewrite E in Hq; injection Hq as <-; [|done].
    rewrite Hat in Ht. injection Ht as <-. by rewrite (Hnone n r Hn) in Hr.
  - apply cancel_payroll_period_ok in H as (_ & _ & q & Hq & _ & [[_ ->]|(Hs & [log ->] & _)]); [done|].
    destruct (decide (i = period)) as [->|Hne]; [|by eapply as_calculated_elsewhere].
    right. simpl. rewrite row_of_set, bool_decide_eq_true_2, Hq by done. simpl.
    destruct Hi as [E|E]; rewrite E in Hq; injection Hq as <-; done.
  - apply post_payroll_period_ok in H as (_ & q & Hq & [[-> _]|(a & j & _ & _ & Ho & _)]); [done|].
    eapply as_calculated_elsewhere; [|exact (po_periods _ _ _ _ _ _ _ _ Ho)|exact Hi].
    apply (Hrow _ q); [done|by rewrite (po_status _ _ _ _ _ _ _ _ Ho)..].
  - apply reverse_payroll_period_ok in H as (_ & _ & q & a & _ & _ & _ & _ & [[-> _]|(j & Ho & _)]); [done|].
    unfold as_calculated. by rewrite (rv_periods _ _ _ _ _ _ _ _ Ho).
Qed.

Lemma payroll_keeps_stale i p at_ op :
  ~ recalculates i op -> pp_status p = PP_CALCULATED -> calculated_at p = Some at_ ->
  keeps (fun d => payroll_wf d /\ stale_pay i p at_ d) (run_payroll_op op).
Proof.
  intros Hno Hst Hat. apply keeps_commits_last; [apply payroll_commits_last|].
  intros s k s' [C1 [C2 C3]] [W1 [W2 W3]] H.
  split; [by eapply payroll_op_ok|]. split; [by eapply payroll_op_as_calculated|].
  assert (K : keeps (moved_shift p at_) (run_payroll_op op)).
  { apply payroll_keeps_untouched. intros d d' [= _ _ _ _ _ _ _ E]. apply moved_shift_ext. by rewrite E. }
  by destruct (keeps_ok _ _ _ _ _ K C3 W3 H).
Qed.

(** ** What may happen before the period is calculated again *)

Section Meanwhile.
Context (verify_password : string -> string -> bool).
Context (providers : string -> option (FiscalPayload -> Z -> provider_answer)).
Context (utc_offset : string -> option (Z -> Z)).
Context (i at_ : Z).

Definition recalculation (r : request) : Prop :=
  match r with RQ_payroll op => recalculates i op | _ => False end.

(** Any request but a calculation of the period [i], served after the instant
    [at_]; and time passes. *)
Inductive meanwhile : session database -> session database -> Prop :=
  | mw_request r s : ~ recalculation r -> at_ < utc_now (env s) ->
      meanwhile s (run_request (serve verify_password providers utc_offset r) s).2
  | mw_time e s : meanwhile s (mkSession (committed s) (working s) e (draws s) (approval_windows s)).

Definition consistent_stale (p : PayrollPeriod) (s : session database) : Prop :=
  system_wf (committed s) /\ stale_pay i p at_ (committed s) /\ working s = committed s.

Lemma run_request_clean {A} (m : Tx A) s :
  let r := run_request m s in working r.2 = committed r.2.
Proof. done. Qed.

Lemma request_keeps_stale p r s :
  pp_status p = PP_CALCULATED -> calculated_at p = Some at_ -> ~ recalculation r -> at_ < utc_now (env s) ->
  consistent_stale p s -> consistent_stale p (run_request (serve verify_password providers utc_offset r) s).2.
Proof.
  intros Hst Hat Hno Hnow (Hw & Hs & Ew). assert (Hw' : system_wf (working s)) by (by rewrite Ew).
  assert (Hs' : stale_pay i p at_ (working s)) by (by rewrite Ew).
  split; [by apply serve_request_wf|]. split; [|done].
  destruct (request_component r) as [Hr|[[op ->]|[[op ->]|[[op ->]|[[op ->]|[op ->]]]]]].
  - by apply keeps_request; [apply shop_keeps_stale|..].
  - by apply keeps_request; [apply purchasing_keeps_stale|..].
  - by apply keeps_request; [apply payables_keep_untouched, untouched_keeps_stale|..].
  - by apply keeps_request; [apply transit_keeps_stale|..].
  - by apply keeps_at_request; [apply hr_keeps_stale_at|..].
  - pose proof (sys_payroll _ Hw). pose proof (sys_payroll _ Hw').
    by apply (keeps_request _ _ s (payroll_keeps_stale i p at_ op Hno Hst Hat)).
Qed.

Lemma meanwhile_stale p s s' :
  pp_status p = PP_CALCULATED -> calculated_at p = Some at_ ->
  rtc meanwhile s s' -> consistent_stale p s -> consistent_stale p s'.
Proof.
  intros Hst Hat. induction 1 as [s|s s1 s2 Hstep _ IH]; [done|]. intros Hc. apply IH.
  destruct Hstep as [r s Hno Hnow|e s]; [by apply request_keeps_stale|exact Hc].
Qed.
End Meanwhile.

(** The answers to an approval. *)
Lemma approve_stale i p at_ a c s :
  pp_status p = PP_CALCULATED -> calculated_at p = Some at_ -> store_denied c (pp_store_id p) = false ->
  row_of (payroll_periods (working s)) i = Some p -> moved_shift p at_ (working s) ->
  approve_payroll_period i (Some a) c s = (Raise (ConflictError "STALE_CALCULATION"), s).
Proof.
  intros Hst Hat Hacc Hp (k & r & Hk & Hr). unfold approve_payroll_period, _lock_payroll_period.
  rewrite (bind_ok_intro _ _ _ _ _ (get_payroll_period_run _ _ _ Hp)).
  rewrite (bind_ok_intro _ _ _ _ _ (enforce_run _ _ _ Hacc)), Hst, Hat.
  unfold committing. apply bind_raise. do 3 (erewrite bind_ok_intro by reflexivity).
  erewrite bind_ok_intro by reflexivity. apply bind_raise.
  match goal with |- raise_if (negb (bool_decide ?P)) _ _ = _ => assert (Hn : bool_decide P = false) end;
    [|by rewrite Hn].
  apply bool_decide_eq_false. intros Hlen%length_zero_iff_nil. rewrite select_nil in Hlen.
  by rewrite (Hlen k r Hk) in Hr.
Qed.

Lemma approve_cancelled i p a c s :
  store_denied c (pp_store_id p) = false ->
  row_of (payroll_periods (working s)) i = Some (with_pp_status PP_CANCELLED p) ->
  approve_payroll_period i (Some a) c s = (Raise invalid_period_state, s).
Proof.
  intros Hacc Hp. unfold approve_payroll_period, _lock_payroll_period.
  rewrite (bind_ok_intro _ _ _ _ _ (get_payroll_period_run _ _ _ Hp)).
  by rewrite (bind_ok_intro _ _ _ _ _ (enforce_run _ (pp_store_id (with_pp_status PP_CANCELLED p)) _ Hacc)).
Qed.

(** C18: A shift that is clocked out after its period was calculated - in the
    store and on a work date of the period - makes the calculation stale for as
    long as it stands: whatever requests to whatever endpoints follow, at times
    after the calculation, and short of a new calculation of the period, an
    approval of it by anybody with access to the store fails, with
    STALE_CALCULATION (or, when the period was cancelled in the meantime, as in
    the wrong state), and changes nothing. *)
Theorem clock_out_blocks_approval vp prov uo allowed d0 s record at_ actor caller k r i p calculated s2 a c :
  opened d0 -> reachable vp prov uo allowed d0 s ->
  let out := run_request (serve vp prov uo (RQ_hr (H_clock_out record at_ actor caller))) s in
  out.1 = Ok k ->
  row_of (attendance_records (committed s)) record = Some r ->
  row_of (payroll_periods (committed s)) i = Some p -> pp_status p = PP_CALCULATED ->
  calculated_at p = Some calculated -> calculated < utc_now (env s) ->
  ar_store_id r = pp_store_id p -> pp_start p <= work_date r <= pp_end p ->
  rtc (meanwhile vp prov uo i calculated) out.2 s2 ->
  store_denied c (pp_store_id p) = false ->
  let answer := run_request (serve vp prov uo (RQ_payroll (PR_approve i (Some a) c))) s2 in
  committed answer.2 = committed s2 /\
  ((row_of (payroll_periods (committed s2)) i = Some p /\
    answer.1 = Raise (ConflictError "STALE_CALCULATION")) \/
   (row_of (payroll_periods (committed s2)) i = Some (with_pp_status PP_CANCELLED p) /\
    answer.1 = Raise invalid_period_state)).
Proof.
  intros Ho Hr out Hok Hrec Hp Hst Hat Hnow Hstore Hdates Hmw Hacc.
  destruct (reachable_wf _ _ _ _ _ _ Ho Hr) as [Hw Hw']. pose proof (reachable_clean _ _ _ _ _ _ Hr) as Ew.
  assert (Hs1 : consistent_stale i calculated p out.2).
  { split; [by apply serve_request_wf|]. split; [|done]. subst out.
    destruct (run_request _ s) as [o s1] eqn:E. simpl in Hok. subst o.
    apply run_request_ok in E as (s3 & E & Ec & _). simpl. rewrite Ec. simpl in E.
    apply clock_out_ok in E as (r' & now & log & _ & _ & _ & _ & _ & -> & _ & _ & ->).
    rewrite Ew. split; [by left|]. exists record, (clocked_out at_ (utc_now (env s)) r). simpl.
    rewrite row_of_set, bool_decide_eq_true_2, Hrec by done. split; [done|].
    unfold stale_attendance. simpl. lia. }
  destruct (meanwhile_stale _ _ _ _ _ p _ _ Hst Hat Hmw Hs1) as (_ & [[Hi|Hi] Hm] & E2).
  - assert (H : approve_payroll_period i (Some a) c s2 = (Raise (ConflictError "STALE_CALCULATION"), s2))
      by (apply (approve_stale i p calculated); rewrite ?E2; done).
    unfold run_request, serve, run_payroll_op. rewrite (bind_raise _ _ _ _ _ H). simpl. auto.
  - assert (H : approve_payroll_period i (Some a) c s2 = (Raise invalid_period_state, s2))
      by (apply (approve_cancelled i p); rewrite ?E2; done).
    unfold run_request, serve, run_payroll_op. rewrite (bind_raise _ _ _ _ _ H). simpl. auto.
Qed.

(** ** The example *)

(** A second shift of the week is still open when the period is calculated, and
    ends an hour later; a till is opened before anybody asks for the approval. *)
Definition first_days : list request :=
  [RQ_hr (H_hire demo_hire (Some 2) None);
   RQ_hr (H_compensate 1 20200 demo_wage (Some 2) None);
   RQ_hr (H_clock_in 1 1 nine "CLOCK" (Some 1) (Some 1));
   RQ_hr (H_clock_out 1 (nine + 8 * microseconds_per_hour) (Some 1) (Some 1));
   RQ_payroll (PR_create demo_week (Some 2) (Some 1));
   RQ_payroll (PR_open 1 (Some 2) (Some 1));
   RQ_hr (H_clock_in 1 1 (nine + microseconds_per_day) "CLOCK" (Some 1) (Some 1));
   RQ_payroll calculate_demo].

Definition an_hour_later (s : session database) : session database :=
  mkSession (committed s) (working s)
    {| utc_now := utc_now (env s) + 3600; local_offset := local_offset (env s);
       monotonic := monotonic (env s); token_hex := token_hex (env s) |} (draws s) (approval_windows s).

Definition second_shift_open : session database :=
  an_hour_later (run_requests String.eqb (fun _ => None) utc_zone first_days payroll_demo).

Definition end_of_second_shift : request :=
  RQ_hr (H_clock_out 2 (nine + microseconds_per_day + 2 * microseconds_per_hour) (Some 1) (Some 1)).

Definition till_opened : request := RQ_open_shift 1 1 10000 "open-1" (Some 1).

Lemma clock_out_blocks_approval_witness :
  let served r s := run_request (serve String.eqb (fun _ => None) utc_zone r) s in
  let out := served end_of_second_shift second_shift_open in
  let s2 := (served till_opened out.2).2 in
  let answer := served (RQ_payroll (PR_approve 1 (Some 2) (Some 1))) s2 in
  committed answer.2 = committed s2 /\ length (cashier_shifts (committed s2)) = 1%nat.
Proof.
  intros served out s2 answer. split; [|vm_compute; reflexivity].
  assert (Hr : reachable String.eqb (fun _ => None) utc_zone any_request payroll_database second_shift_open).
  { eapply reach_step; [|apply step_time]. apply run_requests_reachable; [by apply Forall_true|].
    exact (reach_init _ _ _ _ payroll_database demo_env). }
  assert (Hok : out.1 = Ok 2) by (vm_compute; reflexivity).
  set (r := mkAttendance 1 1 20251 (nine + microseconds_per_day) None CLOCK ATT_OPEN None None None None).
  assert (Hrec : row_of (attendance_records (committed second_shift_open)) 2 = Some r) by (vm_compute; reflexivity).
  assert (Hp : row_of (payroll_periods (committed second_shift_open)) 1 = Some (demo_period second_shift_open))
    by (vm_compute; reflexivity).
  assert (Hps : pp_status (demo_period second_shift_open) = PP_CALCULATED) by (vm_compute; reflexivity).
  assert (Hpc : calculated_at (demo_period second_shift_open) = Some 1750000000) by (vm_compute; reflexivity).
  assert (Hlt : 1750000000 < utc_now (env second_shift_open)) by (vm_compute; reflexivity).
  assert (Hlt' : 1750000000 < utc_now (env out.2)) by (vm_compute; reflexivity).
  assert (Hpst : pp_store_id (demo_period second_shift_open) = 1) by (vm_compute; reflexivity).
  assert (Hpb : pp_start (demo_period second_shift_open) <= 20251 <= pp_end (demo_period second_shift_open))
    by (vm_compute; split; discriminate).
  refine (proj1 (clock_out_blocks_approval String.eqb (fun _ => None) utc_zone any_request payroll_database
    second_shift_open 2 (nine + microseconds_per_day + 2 * microseconds_per_hour) (Some 1) (Some 1) 2 r 1
    (demo_period second_shift_open) 1750000000 s2 2 (Some 1) payroll_opened Hr Hok Hrec Hp Hps Hpc Hlt _ Hpb _ _)).
  - by rewrite Hpst.
  - apply rtc_once. exact (mw_request _ _ _ 1 1750000000 till_opened out.2 (fun H => H) Hlt').
  - by rewrite Hpst.
Defined.
